(* ===== verification/_CoqProject ===== *)
-Q . S2P
Prelude.v
PyFloat.v
PyString.v
Utils.v
Config.v
Datatypes.v
DPScheduler.v
Placement.v
Allocation.v
MemPool.v
BlockManager.v
MemOps.v
SlidingWindow.v
Sampler.v
Tokenizer.v
KVLoader.v
Engine.v
Controller.v
Gate.v
SimCore.v
SimSync.v
SimTBO.v
SimAsync.v
SimInputs.v
GdrRing.v
Launch.v
AttnExecutor.v
ExpertExecutor.v
Weights.v
Capacity.v
Pool.v
LayerSched.v
Dispatch.v
PoolRank.v
Progress.v
ClosedLoop.v
