(* ===== verification/Prelude.v ===== *)
(** * StreamInfer: a verification library of the decoding system

    [src/StreamInfer] decodes mixture-of-experts models on disaggregated workers.
    A controller numbers requests and hands them to a data-parallel scheduler, which
    picks for each a rank of attention workers with enough free KV blocks; the
    tokenizer puts it on the queue of that rank.  An attention worker keeps the KV
    pages and a residual-stash row of every running request, runs the attention
    layers (eagerly or by CUDA graphs), routes each token to its experts and
    dispatches it; an expert worker groups rows by expert, multiplies and sends them
    back; at the pseudo-layer after the last one the sampler decides which requests
    continue, and the detokenizer and the controller account for those that end.
    Beside the engine the repository has three simulators of it.

    ** Conventions

    Definitions are translated from the Python sources under [src/StreamInfer] (and
    from the C++ and CUDA functions they call where these carry the logic), and keep
    the names of the code. A statement that may raise lives in the result monad [res]
    of this file, whose errors are the Python exceptions; a failed C++ [ASSERT] is the
    [RuntimeError] Python sees. Python dictionaries that are iterated are association
    lists ([dget], [dset], [ddel]), others [gmap]s. Python integers are [Z]; 32- and
    64-bit quantities are wrapped where the code relies on it. Floats are IEEE
    binary64, binary32 in the C++ scheduler ([PyFloat]). Tensors are lists, or
    elements of a type when their contents do not matter. Threads, coroutines, SimPy
    processes and GPU streams are step relations; a theorem over them holds for every
    interleaving.

    ** Files

    - [Prelude]: [res], loops ([py_for], [py_map]) with their invariant and totality
      rules, Python indexing and slicing, dictionaries, tabulated lists, tactics and
      the hint databases.  [PyFloat]: floats.  [PyString]: strings.
    - [Utils] ([utils/utils.py]), [Config] ([config.py]), [Datatypes]
      ([frontend/datatypes.py]): helpers and data of all components.
    - [DPScheduler] ([scheduler/dpscheduler.py]): [DPScheduler] and its four policies
      behind the class [Policy] with laws [PolicyLaws]; [CapacityPolicy] singles out the
      three that look at the free blocks (plain round robin does not).  [waiting_loop] is
      the machine [loop_step].  Accounting and first-come-first-served for all four; no
      rank overdrawn, no lost wake-up and what an oversized request does for the three.
    - [Placement] ([utils/placement.py]): the strategies as instances of
      [PlacementBase]; partition of the experts, edges, totality of [solve].
    - [Allocation] ([benchmark/benchmark_serving.py], the worker identities of
      [Engine] and [Controller]): the JSON file that gives the workers of a
      heterogeneous cluster their experts, from its entries to the placement that
      honours them, and the settings it has for each device.
    - [MemPool] ([block_manager/mem_pool.py]) and [BlockManager]
      ([block_manager/block_manager.py], [csrc/engine/block_manager.cpp]): slots,
      pages and block tables; conservation, exact coverage, slot mappings, and the
      equality of the optimised and the naive metadata packing.
    - [MemOps] ([ops/memory.py]), [SlidingWindow] ([models/sliding_window.py]):
      permutation kernels and windowed attention against their specifications.
    - [Sampler] ([sampler.py], [DummySampler]), [Tokenizer]
      ([frontend/tokenizer.py]), [KVLoader] ([kv_loader.py]): the class
      [SamplerOps] with its laws and both samplers, the actors' states, and the
      loader threads over shared staging buffers.
    - [Engine] ([frontend/engine.py], [csrc/include/metadata.hpp]): the worker, generic
      in the sampler and the block manager; the overlapped loop refines the plain one.
    - [Controller] ([frontend/controller.py]): the request life cycle over the models
      of the actors it calls, through [reset] and [stop_scheduler]: what a reset forgets
      keeps its blocks, and a late report of it dies of [KeyError].
    - [Gate] ([models/gate.py]): the router that replays a profile, and which profiles
      route only to experts that exist.
    - [SimCore], [SimSync], [SimTBO], [SimAsync] ([simulation/sim_*.py]): the three
      simulators; termination, exact accounting of tokens, soundness of the
      two-batch-overlap schedule; of the asynchronous one, for any function that routes
      a token, that only a routing step raises, a bound on the steps and what has
      completed when nothing can run.
    - [SimInputs] ([simulation/util.py]): the profiles the simulators load; the table of
      compute times covers every batch they form, and the recorded router rejects the
      lists of request ids that all three pass to it, so that every run of the
      asynchronous simulator ends in a [TypeError] with no token completed.
    - [GdrRing] ([utils/gdr_context.py], [utils/tensor_utils.py]): buffers the CPU
      writes while kernels read.
    - [Launch], [AttnExecutor], [ExpertExecutor] ([executor/*.py], the copy and set-up
      kernels of [csrc/cuda_ops]): graph buckets, capture and replay against eager
      execution, kernels thread by thread; for the DeepGEMM classes, what is handed to
      the library.
    - [Weights] ([weights.py]): loading shards of a checkpoint.
    - [Capacity]: the scheduler, with a capacity policy, and the engines of all ranks in
      one step relation; for requests of at least a hundred tokens and with a spare block
      per rank, admission is enough for every batch the pool may hand out ([pool_batch]).
    - [Pool] ([csrc/muhelper/pool.cpp], [layer.cpp], [csrc/include/batch.hpp],
      [metadata.hpp]): the C++ token pool, its top-k pools, splitting and merging.
    - [PoolRank]: [Capacity] with a [Pool] per rank in the place of the contract: the
      pool keeps it, no step raises and no row is lost, whatever the experts of other
      ranks do that answer with the copies they were sent.
    - [Dispatch] ([csrc/muhelper/dispatcher.cpp]): the dispatcher's tables and the runs
      it cuts a batch into; every row reaches the channel of its expert or rank.
    - [LayerSched] ([csrc/muhelper/layer.cpp]): both layer schedulers behind the class
      [LayerScheduler], the defragging one with its single-precision scores; a decision
      never raises, picks a layer with tokens, and picks none only when there are none.
    - [Progress]: the work a rank has left with its requests, as the sampler counts it;
      every admission and every batch takes from it.
    - [ClosedLoop]: the workers, pools, dispatchers and wires of all ranks as one step
      relation, on the tables the controller makes from a colocated placement and with any
      layer scheduler that keeps the laws, under the conditions of [Capacity] and
      [PoolRank.configured].  No thread raises, every copy is accounted for exactly once,
      and every request delivered to a rank completes: the work that is left ([net_work])
      bounds every run of the ranks, and none stops before all these requests have ended.

    ** Fuel and bounds

    Recursion is structural except where a definition says otherwise.  The doubling
    of graph buckets ([double_sizes]) takes as fuel the number of doublings that pass
    the maximum ([S (log2_up max)]) and is proved to reach it; the capped
    round robin ([caprr_loop]) runs once per rank; the simulators' loops are step
    functions with a termination measure proved (turns in [SimCore], the cost measure
    in [SimAsync], [net_work] in [ClosedLoop]), never a fuel that could hide a missing
    result.

    ** Hypotheses

    Libraries are parameters with their documented behaviour: torch's sort,
    flash attention, the arithmetic of a row, SHA-256 and the object store, safetensors,
    SimPy's choice of the next process.  Every property with hypotheses has a witness
    that instantiates them.

    ** Not modelled

    Process launch, Ray, ZeroMQ and NCCL/NIXL transport, CUDA streams beyond the GDR
    ring and the graphs, timers, profiling, tracing and metrics: I/O. The arithmetic
    of attention, experts and quantisation ([models/linear.py] is vLLM's, the Triton
    and CUTLASS products are vendored or generated), the tensor-parallel attention the
    sources assert out as deprecated, the older pools and schedulers of
    [csrc/muhelper] that the unified engine does not use, the Triton versions of its
    copy kernels. Workload generators, plots, experiment drivers and tests; the fork
    of SGLang under [src/sglang_dummy_prefill] and everything under [third_party],
    which are other projects. Each is listed with its reason in the manifest. *)

From Stdlib Require Export ZArith Lia.
From stdpp Require Export base sorting numbers gmap list.

#[global] Set Default Goal Selector "!".
#[global] Open Scope Z_scope.

(** ** Python exceptions and the result monad

    A statement that may raise is modelled in [res]; [Raise e] is the exception
    that leaves the function, the object it was mutating is then not used. *)

Inductive py_exc : Type :=
  | AssertionError
  | KeyError
  | IndexError
  | ValueError
  | TypeError
  | RuntimeError
  | AttributeError
  | NotImplementedError
  | ZeroDivisionError
  | OverflowError
  | FileNotFoundError
  | StructError.

#[export] Instance py_exc_eq_dec : EqDecision py_exc.
Proof. solve_decision. Defined.

Inductive res (A : Type) : Type :=
  | Ok (a : A)
  | Raise (e : py_exc).
Arguments Ok {A} a.
Arguments Raise {A} e.

#[export] Instance res_ret : MRet res := fun A a => Ok a.
#[export] Instance res_bind : MBind res := fun A B f m =>
  match m with Ok a => f a | Raise e => Raise e end.
#[export] Instance res_fmap : FMap res := fun A B f m =>
  match m with Ok a => Ok (f a) | Raise e => Raise e end.

#[export] Instance res_eq_dec {A} `{EqDecision A} : EqDecision (res A).
Proof. solve_decision. Defined.

Definition is_ok {A} (r : res A) : bool := match r with Ok _ => true | Raise _ => false end.

(** [assert b] *)
Definition py_assert (b : bool) : res unit := if b then Ok tt else Raise AssertionError.

(** [raise e] unless [b] *)
Definition py_check (b : bool) (e : py_exc) : res unit := if b then Ok tt else Raise e.

Definition of_option {A} (e : py_exc) (o : option A) : res A :=
  match o with Some a => Ok a | None => Raise e end.

Lemma bind_Ok {A B} (m : res A) (f : A -> res B) b :
  (m ≫= f) = Ok b <-> exists a, m = Ok a /\ f a = Ok b.
Proof. destruct m; naive_solver. Qed.

Lemma Ok_inj {A} (a b : A) : Ok a = Ok b -> a = b.
Proof. congruence. Qed.

Lemma py_assert_Ok b u : py_assert b = Ok u <-> b = true.
Proof. destruct b, u; naive_solver. Qed.

Lemma py_check_Ok b e u : py_check b e = Ok u <-> b = true.
Proof. destruct b, u; naive_solver. Qed.

Lemma of_option_Ok {A} e (o : option A) a : of_option e o = Ok a <-> o = Some a.
Proof. destruct o; naive_solver. Qed.

(** Decomposes hypotheses [(x ← m; k) = Ok y] into the successful steps. *)
Ltac inv_ok :=
  repeat match goal with
  | H : (_ ≫= _) = Ok _ |- _ => apply bind_Ok in H as (? & ? & H)
  | H : Ok _ = Ok _ |- _ => injection H as H; try subst
  | H : Raise _ = Ok _ |- _ => discriminate H
  | H : mret _ = Ok _ |- _ => unfold mret, res_ret in H
  | H : py_assert _ = Ok _ |- _ => apply py_assert_Ok in H
  | H : py_check _ _ = Ok _ |- _ => apply py_check_Ok in H
  | H : of_option _ _ = Ok _ |- _ => apply of_option_Ok in H
  end.

(** Case analysis on the boolean integer tests a guard is made of. *)
Ltac zcases :=
  repeat match goal with
  | |- context [?a <? ?b] => destruct (Z.ltb_spec a b)
  | |- context [?a <=? ?b] => destruct (Z.leb_spec a b)
  | |- context [?a >? ?b] => rewrite (Z.gtb_ltb a b)
  | |- context [?a >=? ?b] => rewrite (Z.geb_leb a b)
  | |- context [?a =? ?b] => destruct (Z.eqb_spec a b)
  end.

(** ** [for x in l: s = f s x] with a body that may raise *)

Fixpoint py_for {A S} (f : S -> A -> res S) (l : list A) (s : S) : res S :=
  match l with
  | [] => Ok s
  | a :: l => s' ← f s a; py_for f l s'
  end.

Lemma py_for_app {A S} (f : S -> A -> res S) l1 l2 s :
  py_for f (l1 ++ l2) s = (s' ← py_for f l1 s; py_for f l2 s').
Proof.
  revert s; induction l1 as [|a l1 IH]; intros s; [done|]; simpl.
  destruct (f s a); simpl; [apply IH|done].
Qed.

(** Nested loops are one loop over the flattened list. *)
Lemma py_for_nest {A B S} (f : S -> B -> res S) (g : A -> list B) l s :
  py_for (fun s a => py_for f (g a) s) l s = py_for f (l ≫= g) s.
Proof.
  revert s; induction l as [|a l IH]; intros s; [done|]; simpl.
  rewrite py_for_app. destruct (py_for f (g a) s); simpl; [apply IH|done].
Qed.

Lemma py_for_fmap {A B S} (f : S -> B -> res S) (h : A -> B) l s :
  py_for f (h <$> l) s = py_for (fun s a => f s (h a)) l s.
Proof.
  revert s; induction l as [|a l IH]; intros s; [done|]; simpl.
  destruct (f s (h a)); simpl; [apply IH|done].
Qed.

Lemma py_for_ext {A S} (f g : S -> A -> res S) l s :
  (forall s a, a ∈ l -> f s a = g s a) -> py_for f l s = py_for g l s.
Proof.
  revert s; induction l as [|a l IH]; intros s Hfg; [done|]; simpl.
  rewrite Hfg by set_solver. destruct (g s a); simpl; [|done].
  apply IH. intros. apply Hfg. set_solver.
Qed.

(** The invariant rule: [P] is indexed by the prefix already consumed. *)
Lemma py_for_inv {A S} (P : list A -> S -> Prop) (f : S -> A -> res S) l s s' :
  P [] s ->
  (forall pre a post t t', l = pre ++ a :: post -> P pre t -> f t a = Ok t' -> P (pre ++ [a]) t') ->
  py_for f l s = Ok s' -> P l s'.
Proof.
  intros H0 Hstep Hrun.
  cut (forall post pre t, l = pre ++ post -> P pre t -> py_for f post t = Ok s' -> P l s').
  { intros Hgen. by apply (Hgen l [] s). }
  induction post as [|a post IH]; intros pre t Hl Hp Hr; simpl in Hr.
  { rewrite app_nil_r in Hl. subst. by inv_ok. }
  inv_ok. rename x into t'.
  apply (IH (pre ++ [a]) t'); [by rewrite Hl, <-app_assoc| |done].
  by eapply Hstep.
Qed.

(** The total rule: the loop does not raise and establishes [P]. *)
Lemma py_for_total {A S} (P : list A -> S -> Prop) (f : S -> A -> res S) l s :
  P [] s ->
  (forall pre a post t, l = pre ++ a :: post -> P pre t ->
     exists t', f t a = Ok t' /\ P (pre ++ [a]) t') ->
  exists s', py_for f l s = Ok s' /\ P l s'.
Proof.
  intros H0 Hstep.
  cut (forall post pre t, l = pre ++ post -> P pre t ->
         exists s', py_for f post t = Ok s' /\ P l s').
  { intros Hgen. by apply (Hgen l []). }
  induction post as [|a post IH]; intros pre t Hl Hp; simpl.
  { rewrite app_nil_r in Hl. subst. eauto. }
  destruct (Hstep pre a post t Hl Hp) as (t' & -> & Hp'). simpl.
  apply (IH (pre ++ [a])); [by rewrite Hl, <-app_assoc|done].
Qed.

(** A loop one of whose elements never goes through raises the only exception
    its body has. *)
Lemma py_for_raises {A S} (f : S -> A -> res S) l s x e :
  (forall s a e', f s a = Raise e' -> e' = e) -> x ∈ l -> (forall s s', f s x <> Ok s') ->
  py_for f l s = Raise e.
Proof.
  intros He Hin Hx. revert s. induction l as [|a l IH]; intros s; [set_solver|].
  simpl. destruct (f s a) as [s'|e'] eqn:Ef; simpl.
  - apply elem_of_cons in Hin as [->|Hin]; [by destruct (Hx s s')|]. by apply IH.
  - f_equal. by eapply He.
Qed.

(** [[f x for x in l]] with a body that may raise *)
Fixpoint py_map {A B} (f : A -> res B) (l : list A) : res (list B) :=
  match l with
  | [] => Ok []
  | a :: l => b ← f a; bs ← py_map f l; Ok (b :: bs)
  end.

Lemma py_map_Forall2 {A B} (f : A -> res B) l bs :
  py_map f l = Ok bs <-> Forall2 (fun a b => f a = Ok b) l bs.
Proof.
  split.
  - revert bs; induction l as [|a l IH]; intros bs H; simpl in H; inv_ok; eauto.
  - induction 1 as [|a b l bs Hab _ IH]; simpl; [done|]. by rewrite Hab; simpl; rewrite IH.
Qed.

Lemma py_map_total {A B} (f : A -> res B) (Q : A -> B -> Prop) l :
  (forall a, a ∈ l -> exists b, f a = Ok b /\ Q a b) ->
  exists bs, py_map f l = Ok bs /\ Forall2 Q l bs.
Proof.
  induction l as [|a l IH]; intros Hf; simpl; [eauto|].
  destruct (Hf a) as (b & -> & Hb); [set_solver|].
  destruct IH as (bs & -> & Hbs); [set_solver|]. simpl. eauto.
Qed.

Lemma py_map_length {A B} (f : A -> res B) l bs : py_map f l = Ok bs -> length bs = length l.
Proof. intros H%py_map_Forall2. symmetry. by eapply Forall2_length. Qed.

Lemma py_map_app {A B} (f : A -> res B) l k :
  py_map f (l ++ k) = (bs ← py_map f l; cs ← py_map f k; Ok (bs ++ cs)).
Proof.
  induction l as [|a l IH]; cbn [py_map app mbind res_bind].
  - by destruct (py_map f k).
  - destruct (f a); [|done]. cbn [mbind res_bind]. rewrite IH. destruct (py_map f l); [|done]. cbn [mbind res_bind].
    by destruct (py_map f k).
Qed.

(** Two loops in lock step. *)
Lemma py_map_rel {A A' B B'} (f : A -> res B) (g : A' -> res B') (P : A -> A' -> Prop) (Q : B -> B' -> Prop) l l' :
  Forall2 P l l' -> (forall a a', P a a' -> exists b b', f a = Ok b /\ g a' = Ok b' /\ Q b b') ->
  exists bs bs', py_map f l = Ok bs /\ py_map g l' = Ok bs' /\ Forall2 Q bs bs'.
Proof.
  intros Hl Hstep. induction Hl as [|a a' l l' Ha _ (bs & bs' & Hb & Hb' & Hq)]; [by exists [], []|].
  destruct (Hstep _ _ Ha) as (b & b' & Ea & Ea' & Hab). exists (b :: bs), (b' :: bs'). cbn [py_map]. rewrite Ea, Ea'.
  cbn [mbind res_bind]. rewrite Hb, Hb'. split; [done|]. split; [done|]. by constructor.
Qed.

Lemma py_for_rel {A A' S S'} (f : S -> A -> res S) (g : S' -> A' -> res S') (P : A -> A' -> Prop) (Q : S -> S' -> Prop) l l' s s' :
  Forall2 P l l' -> Q s s' ->
  (forall a a' t t', P a a' -> Q t t' -> exists u u', f t a = Ok u /\ g t' a' = Ok u' /\ Q u u') ->
  exists t t', py_for f l s = Ok t /\ py_for g l' s' = Ok t' /\ Q t t'.
Proof.
  intros Hl Hs Hstep. revert s s' Hs. induction Hl as [|a a' l l' Ha _ IH]; intros s s' Hs; [by exists s, s'|].
  destruct (Hstep _ _ _ _ Ha Hs) as (u & u' & Eu & Eu' & Hu). cbn [py_for]. rewrite Eu, Eu'. cbn [mbind res_bind]. by apply IH.
Qed.

(** ** Python integers, lists and slices *)

(** [a // b] and [a % b]: floor semantics, as [Z.div] and [Z.modulo]. *)
Definition py_floordiv (a b : Z) : res Z :=
  if b =? 0 then Raise ZeroDivisionError else Ok (a / b).
Definition py_mod (a b : Z) : res Z :=
  if b =? 0 then Raise ZeroDivisionError else Ok (a mod b).

Definition zlen {A} (l : list A) : Z := Z.of_nat (length l).

(** [range(n)] and [range(a, b)] *)
Definition py_range (n : Z) : list Z := seqZ 0 n.
Definition py_range2 (a b : Z) : list Z := seqZ a (b - a).

(** The position an index denotes: negative indices count from the end. *)
Definition py_index {A} (l : list A) (i : Z) : option nat :=
  if (0 <=? i) && (i <? zlen l) then Some (Z.to_nat i)
  else if (- zlen l <=? i) && (i <? 0) then Some (Z.to_nat (i + zlen l))
  else None.

(** [l[i]] and [l[i] = x] *)
Definition py_get {A} (l : list A) (i : Z) : res A :=
  match py_index l i with
  | Some n => of_option IndexError (l !! n)
  | None => Raise IndexError
  end.
Definition py_set {A} (l : list A) (i : Z) (x : A) : res (list A) :=
  match py_index l i with
  | Some n => Ok (<[n:=x]> l)
  | None => Raise IndexError
  end.

(** A slice bound: negative counts from the end, then clamped to [0, len]. *)
Definition py_clamp {A} (l : list A) (i : Z) : nat :=
  Z.to_nat (Z.min (zlen l) (Z.max 0 (if i <? 0 then i + zlen l else i))).

(** [l[:n]] and [l[n:]] *)
Definition py_take {A} (n : Z) (l : list A) : list A := take (py_clamp l n) l.
Definition py_drop {A} (n : Z) (l : list A) : list A := drop (py_clamp l n) l.

Lemma zlen_nonneg {A} (l : list A) : 0 <= zlen l.
Proof. unfold zlen; lia. Qed.

Lemma zlen_app {A} (l k : list A) : zlen (l ++ k) = zlen l + zlen k.
Proof. unfold zlen. rewrite length_app. lia. Qed.

Lemma zlen_cons {A} (a : A) l : zlen (a :: l) = zlen l + 1.
Proof. unfold zlen. simpl length. lia. Qed.

Lemma py_index_nonneg {A} (l : list A) i :
  0 <= i < zlen l -> py_index l i = Some (Z.to_nat i).
Proof. intros. unfold py_index. zcases; simpl; try lia; done. Qed.

Lemma py_get_nonneg {A} (l : list A) i :
  0 <= i < zlen l -> py_get l i = of_option IndexError (l !! Z.to_nat i).
Proof. intros. unfold py_get. by rewrite py_index_nonneg. Qed.

Lemma py_set_nonneg {A} (l : list A) i x :
  0 <= i < zlen l -> py_set l i x = Ok (<[Z.to_nat i:=x]> l).
Proof. intros. unfold py_set. by rewrite py_index_nonneg. Qed.

Lemma py_get_Ok {A} (l : list A) i a :
  0 <= i -> py_get l i = Ok a <-> l !! Z.to_nat i = Some a.
Proof.
  intros Hi. destruct (decide (i < zlen l)).
  - rewrite py_get_nonneg by lia. apply of_option_Ok.
  - assert (Hn : l !! Z.to_nat i = None) by (apply lookup_ge_None; unfold zlen in *; lia).
    rewrite Hn. unfold py_get, py_index. zcases; simpl; try lia; done.
Qed.

Lemma py_get_lookup {A} (l : list A) i a : 0 <= i -> l !! Z.to_nat i = Some a -> py_get l i = Ok a.
Proof. intros. by apply py_get_Ok. Qed.

Lemma py_get_last {A} (l : list A) a : py_get (l ++ [a]) (-1) = Ok a.
Proof.
  unfold py_get, py_index. rewrite zlen_app, (zlen_cons a []). pose proof (zlen_nonneg l).
  change (zlen []) with 0. zcases; simpl; try lia.
  replace (Z.to_nat (-1 + (zlen l + (0 + 1)))) with (length l) by (unfold zlen; lia).
  by rewrite lookup_app_r, Nat.sub_diag by lia.
Qed.

Lemma py_set_length {A} (l l' : list A) i x : py_set l i x = Ok l' -> length l' = length l.
Proof. unfold py_set. destruct (py_index l i); intros; inv_ok. apply length_insert. Qed.

Lemma py_take_all {A} (l : list A) n : zlen l <= n -> py_take n l = l.
Proof. intros. apply take_ge. unfold py_clamp, zlen in *. zcases; lia. Qed.

Lemma py_take_nonneg {A} (l : list A) n : 0 <= n -> py_take n l = take (Z.to_nat n) l.
Proof.
  intros. unfold py_take, py_clamp, zlen. zcases; [lia|].
  destruct (decide (n <= Z.of_nat (length l))); [f_equal; lia|].
  rewrite !take_ge; [done|lia|lia].
Qed.

Lemma py_drop_nonneg {A} (l : list A) n : 0 <= n -> py_drop n l = drop (Z.to_nat n) l.
Proof.
  intros. unfold py_drop, py_clamp, zlen. zcases; [lia|].
  destruct (decide (n <= Z.of_nat (length l))); [f_equal; lia|].
  rewrite !drop_ge; [done|lia|lia].
Qed.

Lemma py_take_drop {A} (l : list A) n : py_take n l ++ py_drop n l = l.
Proof. apply take_drop. Qed.

Lemma elem_of_py_range n i : i ∈ py_range n <-> 0 <= i < n.
Proof. unfold py_range. rewrite elem_of_seqZ. lia. Qed.

Lemma py_range_length n : length (py_range n) = Z.to_nat n.
Proof. apply length_seqZ. Qed.

Lemma py_range_NoDup n : NoDup (py_range n).
Proof. apply NoDup_seqZ. Qed.

Lemma filter_all {A} (P : A -> Prop) `{!forall x, Decision (P x)} l : Forall P l -> filter P l = l.
Proof. induction 1 as [|x l Hx _ IH]; [done|]. by rewrite filter_cons_True, IH. Qed.

(** ** Arrays tabulated by a function

    [[f(0), ..., f(n-1)]]: reads and writes of such a list are the reads and
    updates of the function. *)

Definition upd {A} (f : Z -> A) (i : Z) (x : A) : Z -> A := fun j => if j =? i then x else f j.

Definition tab {A} (n : Z) (f : Z -> A) : list A := f <$> py_range n.

Lemma tab_length {A} n (f : Z -> A) : length (tab n f) = Z.to_nat n.
Proof. unfold tab. by rewrite length_fmap, py_range_length. Qed.

Lemma tab_zlen {A} n (f : Z -> A) : 0 <= n -> zlen (tab n f) = n.
Proof. intros. unfold zlen. rewrite tab_length. lia. Qed.

Lemma tab_lookup {A} n (f : Z -> A) i :
  0 <= i < n -> tab n f !! Z.to_nat i = Some (f i).
Proof.
  intros. unfold tab, py_range. rewrite list_lookup_fmap, lookup_seqZ_lt by lia. simpl. do 2 f_equal. lia.
Qed.

Lemma tab_ext {A} n (f g : Z -> A) : (forall i, 0 <= i < n -> f i = g i) -> tab n f = tab n g.
Proof. intros Hfg. apply list_fmap_ext. intros i x Hx%list_elem_of_lookup_2%elem_of_py_range. auto. Qed.

Lemma py_get_tab {A} n (f : Z -> A) i : 0 <= i < n -> py_get (tab n f) i = Ok (f i).
Proof. intros. apply py_get_Ok; [lia|]. by apply tab_lookup. Qed.

Lemma py_set_tab {A} n (f : Z -> A) i x :
  0 <= i < n -> py_set (tab n f) i x = Ok (tab n (upd f i x)).
Proof.
  intros Hi. rewrite py_set_nonneg by (rewrite tab_zlen; lia). f_equal.
  apply list_eq. intros k. destruct (decide (k < Z.to_nat n)%nat).
  - destruct (decide (Z.of_nat k = i)) as [<-|Hne].
    + rewrite Nat2Z.id, list_lookup_insert_eq by (rewrite tab_length; lia).
      rewrite <-(Nat2Z.id k) at 1. rewrite tab_lookup by lia. unfold upd. by rewrite Z.eqb_refl.
    + rewrite list_lookup_insert_ne by lia. rewrite <-(Nat2Z.id k), !tab_lookup by lia.
      unfold upd. by destruct (Z.eqb_spec (Z.of_nat k) i).
  - rewrite !(proj2 (lookup_ge_None _ _)); [done|rewrite tab_length; lia|].
    rewrite length_insert, tab_length. lia.
Qed.

Lemma replicate_tab {A} n (x : A) : replicate (Z.to_nat n) x = tab n (fun _ => x).
Proof.
  unfold tab. rewrite <-(py_range_length n). induction (py_range n) as [|i l IH]; [done|].
  rewrite fmap_cons. simpl. by f_equal.
Qed.

Lemma tab_of_list (l : list Z) : l = tab (zlen l) (fun i => default 0 (l !! Z.to_nat i)).
Proof.
  apply list_eq. intros k. destruct (decide (k < length l)%nat).
  - rewrite <-(Nat2Z.id k) at 2. rewrite tab_lookup by (unfold zlen; lia). rewrite Nat2Z.id.
    destruct (lookup_lt_is_Some_2 l k) as [x ->]; [done|]. done.
  - rewrite !(proj2 (lookup_ge_None _ _)); [done|rewrite tab_length; unfold zlen; lia|lia].
Qed.

(** [enumerate(l)] *)
Definition enumerate {A} (l : list A) : list (Z * A) := zip (py_range (zlen l)) l.

Lemma enum_prefix {A} (l : list A) pre i a post :
  enumerate l = pre ++ (i, a) :: post ->
  i = zlen pre /\ l !! length pre = Some a /\ take (length pre) l = pre.*2.
Proof.
  unfold enumerate. intros H.
  assert (Hlk : zip (py_range (zlen l)) l !! length pre = Some (i, a)).
  { rewrite H, lookup_app_r by lia. by rewrite Nat.sub_diag. }
  rewrite lookup_zip_with in Hlk.
  destruct (py_range (zlen l) !! length pre) as [i'|] eqn:Ei; [|done].
  destruct (l !! length pre) as [a'|] eqn:El; simplify_eq/=.
  unfold py_range in Ei. apply lookup_seqZ in Ei as [-> ?]. split_and!; [unfold zlen; lia|done|].
  transitivity (take (length pre) (zip (py_range (zlen l)) l).*2).
  - rewrite snd_zip; [done|]. rewrite py_range_length. unfold zlen. lia.
  - rewrite H, fmap_app, take_app_length'; [done|]. by rewrite length_fmap.
Qed.

Lemma enum_snd {A} (l : list A) : (enumerate l).*2 = l.
Proof. unfold enumerate. apply snd_zip. rewrite py_range_length. unfold zlen. lia. Qed.

Lemma enum_length {A} (l : list A) : length (enumerate l) = length l.
Proof. by rewrite <-(length_fmap snd), enum_snd. Qed.

Lemma elem_of_enumerate {A} (l : list A) i a :
  (i, a) ∈ enumerate l <-> 0 <= i /\ l !! Z.to_nat i = Some a.
Proof.
  unfold enumerate. rewrite list_elem_of_lookup. setoid_rewrite lookup_zip_with. split.
  - intros [k Hk]. destruct (py_range (zlen l) !! k) as [j|] eqn:Ej; [|done].
    destruct (l !! k) as [b|] eqn:Eb; simplify_eq/=.
    apply lookup_seqZ in Ej as [-> ?]. split; [lia|]. by rewrite Z.add_0_l, Nat2Z.id.
  - intros [Hi Hl]. exists (Z.to_nat i). rewrite Hl. pose proof (lookup_lt_Some _ _ _ Hl).
    unfold py_range. rewrite lookup_seqZ_lt by (unfold zlen; lia). simpl. do 2 f_equal. lia.
Qed.

Lemma enum_lookup {A} (l : list A) k a : l !! k = Some a -> enumerate l !! k = Some (Z.of_nat k, a).
Proof.
  intros Hl. unfold enumerate. rewrite lookup_zip_with, Hl. pose proof (lookup_lt_Some _ _ _ Hl).
  unfold py_range. rewrite lookup_seqZ_lt by (unfold zlen; lia). done.
Qed.

Lemma filter_length_mono {A} (P Q : A -> Prop) `{!forall x, Decision (P x)} `{!forall x, Decision (Q x)} l :
  (forall x, P x -> Q x) -> (length (filter P l) <= length (filter Q l))%nat.
Proof.
  intros HPQ. induction l as [|x l IH]; [done|]. rewrite !filter_cons.
  repeat case_decide; simpl; try lia. naive_solver.
Qed.

(** ** Integer sums *)

Definition sumZ (l : list Z) : Z := foldr Z.add 0 l.

Lemma sumZ_app l k : sumZ (l ++ k) = sumZ l + sumZ k.
Proof. induction l as [|a l IH]; simpl; [done|]. rewrite IH. lia. Qed.

Lemma sumZ_insert (l : list Z) (i : nat) x y :
  l !! i = Some x -> sumZ (<[i:=y]> l) = sumZ l - x + y.
Proof.
  revert i; induction l as [|a l IH]; intros [|i] H; simplify_eq/=; [lia|].
  rewrite (IH i) by done. lia.
Qed.

Lemma sumZ_nonneg l : Forall (fun x => 0 <= x) l -> 0 <= sumZ l.
Proof. induction 1; simpl; lia. Qed.

Lemma sumZ_member {A} (f : A -> Z) (l : list A) x : Forall (fun x => 0 <= f x) l -> x ∈ l -> 0 <= sumZ (f <$> l) /\ f x <= sumZ (f <$> l).
Proof.
  induction 1 as [|y l Hy Hl IH]; [by intros ?%elem_of_nil|]. cbn [fmap list_fmap sumZ foldr]. fold (sumZ (f <$> l)).
  assert (0 <= sumZ (f <$> l)) by (apply sumZ_nonneg, Forall_fmap, Hl). intros [->|Hx]%elem_of_cons; [lia|]. specialize (IH Hx). lia.
Qed.

#[export] Instance sumZ_perm : Proper ((≡ₚ) ==> (=)) sumZ.
Proof. induction 1; simpl; lia. Qed.

(** ** Insertion-ordered dictionaries

    A Python [dict] whose iteration order the code observes: assigning to a key
    already present keeps its position, a new key goes to the end. *)

Section Dict.
Context {K V : Type} `{EqDecision K}.
Implicit Types (d : list (K * V)) (k : K) (v : V).

Fixpoint dget (d : list (K * V)) (k : K) : option V :=
  match d with
  | [] => None
  | (k', v) :: d => if decide (k = k') then Some v else dget d k
  end.

Fixpoint dset (d : list (K * V)) (k : K) (v : V) : list (K * V) :=
  match d with
  | [] => [(k, v)]
  | (k', v') :: d => if decide (k = k') then (k', v) :: d else (k', v') :: dset d k v
  end.

(** [del d[k]] *)
Definition ddel (d : list (K * V)) (k : K) : list (K * V) := filter (fun kv => kv.1 <> k) d.

Definition dmem d k : bool := bool_decide (is_Some (dget d k)).
Definition dkeys d : list K := d.*1.
Definition dget_or d k v : V := default v (dget d k).

Lemma dget_dset_eq d k v : dget (dset d k v) k = Some v.
Proof. induction d as [|[k' v'] d IH]; simpl; repeat (case_decide; simpl); congruence. Qed.

Lemma dget_dset_ne d k k' v : k <> k' -> dget (dset d k v) k' = dget d k'.
Proof.
  intros. induction d as [|[k1 v1] d IH]; simpl; repeat (case_decide; simpl); congruence.
Qed.

Lemma dget_dset d k k' v :
  dget (dset d k v) k' = if decide (k = k') then Some v else dget d k'.
Proof. case_decide; [subst; apply dget_dset_eq|by apply dget_dset_ne]. Qed.

Lemma dkeys_dset_in d k v : is_Some (dget d k) -> dkeys (dset d k v) = dkeys d.
Proof.
  intros [x Hx]. induction d as [|[k1 v1] d IH]; simpl in *; [done|].
  case_decide; simpl; [done|]. f_equal. by apply IH.
Qed.

Lemma dkeys_dset_new d k v : dget d k = None -> dkeys (dset d k v) = dkeys d ++ [k].
Proof.
  intros Hn. induction d as [|[k1 v1] d IH]; simpl in *; [done|].
  case_decide; [done|]. simpl. f_equal. by apply IH.
Qed.

Lemma dget_elem d k v : dget d k = Some v -> (k, v) ∈ d.
Proof.
  induction d as [|[k1 v1] d IH]; simpl; [done|].
  case_decide; intros; simplify_eq; [left|right; auto].
Qed.

Lemma elem_dget d k v : NoDup (dkeys d) -> (k, v) ∈ d -> dget d k = Some v.
Proof.
  induction d as [|[k1 v1] d IH]; simpl; [inversion 2|].
  intros [Hn Hnd]%NoDup_cons [Heq|Hin]%elem_of_cons; case_decide; simplify_eq; auto.
  destruct Hn. apply list_elem_of_fmap. by exists (k1, v).
Qed.

Lemma dget_None d k : dget d k = None <-> k ∉ dkeys d.
Proof.
  induction d as [|[k1 v1] d IH]; simpl; [set_solver|].
  rewrite not_elem_of_cons. case_decide; naive_solver.
Qed.

Lemma dget_Some_keys d k : is_Some (dget d k) <-> k ∈ dkeys d.
Proof.
  destruct (dget d k) eqn:E.
  - split; [intros _|eauto]. apply dget_elem in E. apply list_elem_of_fmap. by exists (k, v).
  - apply dget_None in E. split; [intros [? ?]; done|done].
Qed.

Lemma dmem_true d k : dmem d k = true <-> k ∈ dkeys d.
Proof. unfold dmem. rewrite bool_decide_eq_true. apply dget_Some_keys. Qed.

Lemma dkeys_dset_NoDup d k v : NoDup (dkeys d) -> NoDup (dkeys (dset d k v)).
Proof.
  intros Hnd. destruct (dget d k) eqn:E.
  - by rewrite dkeys_dset_in by eauto.
  - rewrite dkeys_dset_new by done. apply NoDup_app. split; [done|].
    split; [|apply NoDup_singleton]. intros x Hx ->%list_elem_of_singleton.
    by apply dget_None in E.
Qed.

Lemma dget_ddel d k k' : dget (ddel d k) k' = if decide (k = k') then None else dget d k'.
Proof.
  induction d as [|[k1 v1] d IH]; simpl; [by case_decide|].
  unfold ddel in *. rewrite filter_cons. simpl.
  repeat (case_decide; simpl); simplify_eq; try done.
Qed.

(** A loop of assignments leaves the only value ever given to a key. *)
Lemma dget_foldl_dset d kvs k v :
  (k, v) ∈ kvs -> (forall v', (k, v') ∈ kvs -> v' = v) ->
  dget (foldl (fun d '(k, v) => dset d k v) d kvs) k = Some v.
Proof.
  intros Hin Huniq.
  cut (forall kvs d, (forall v', (k, v') ∈ kvs -> v' = v) -> (k, v) ∈ kvs \/ dget d k = Some v ->
    dget (foldl (fun d '(k, v) => dset d k v) d kvs) k = Some v); [eauto|].
  clear. induction kvs as [|[k1 v1] kvs IH]; intros d Huniq Hin; simpl; [set_solver|].
  apply IH; [set_solver|]. rewrite dget_dset. case_decide as Hk.
  - subst. right. f_equal. apply Huniq. set_solver.
  - destruct Hin as [[Heq|Hin]%elem_of_cons|Hin]; [simplify_eq|by left|by right].
Qed.
End Dict.

(** [{k: f k for k in ks}] *)
Definition dict_of {K V} `{EqDecision K} (f : K -> V) (ks : list K) : list (K * V) :=
  foldl (fun d k => dset d k (f k)) [] ks.

Lemma dict_of_NoDup {K V} `{EqDecision K} (f : K -> V) ks :
  NoDup ks -> dict_of f ks = (fun k => (k, f k)) <$> ks.
Proof.
  intros Hnd. unfold dict_of.
  cut (forall acc : list (K * V), (forall k, k ∈ ks -> k ∉ dkeys acc) ->
    foldl (fun d k => dset d k (f k)) acc ks = acc ++ ((fun k => (k, f k)) <$> ks)).
  { intros Hg. rewrite (Hg []); [done|]. set_solver. }
  induction Hnd as [|k ks Hk Hnd IH]; intros acc Hacc; simpl; [by rewrite app_nil_r|].
  assert (Hset : dset acc k (f k) = acc ++ [(k, f k)]).
  { assert (Hn : k ∉ dkeys acc) by set_solver. clear -Hn.
    induction acc as [|[k1 v1] acc IH]; simpl in *; [done|].
    apply not_elem_of_cons in Hn as [? ?]. case_decide; [done|]. f_equal. by apply IH. }
  rewrite Hset, IH; [by rewrite <-app_assoc|].
  intros k' Hk'. unfold dkeys. rewrite fmap_app. set_solver.
Qed.

Lemma dget_dict_of {K V} `{EqDecision K} (f : K -> V) ks k :
  NoDup ks -> dget (dict_of f ks) k = if decide (k ∈ ks) then Some (f k) else None.
Proof.
  intros Hnd. rewrite dict_of_NoDup by done.
  clear Hnd. induction ks as [|k' ks IH]; [by rewrite decide_False by set_solver|].
  rewrite fmap_cons. cbn [dget]. destruct (decide (k = k')) as [->|Hne].
  - by rewrite decide_True by set_solver.
  - rewrite IH. apply decide_ext. set_solver.
Qed.

(** ** Automation shared by the components *)

Create HintDb streamep.
#[export] Hint Resolve zlen_nonneg : streamep.
#[export] Hint Rewrite @zlen_app @zlen_cons @sumZ_app @length_insert @length_app : streamep.
