(* ===== verification/PyFloat.v ===== *)
(** * Python floats

    A Python [float] is an IEEE-754 binary64 number.  The operations are the
    executable ones of the standard library's [SpecFloat] at precision 53 and
    maximal exponent 1024 (round to nearest, ties to even), so the scores and
    times of the model are the bits the program computes; a C++ [float] is the same
    at precision 24 and maximal exponent 128.  The file proves that the comparison
    is a strict weak order away from NaN, and which operations keep a number finite,
    nonnegative or positive. *)

From Corelib Require Import SpecFloat.
From S2P Require Import Prelude.

Definition float : Type := spec_float.

Definition prec : Z := 53.
Definition emax : Z := 1024.

Definition fadd (x y : float) : float := SFadd prec emax x y.
Definition fsub (x y : float) : float := SFsub prec emax x y.
Definition fmul (x y : float) : float := SFmul prec emax x y.
Definition fdiv (x y : float) : float := SFdiv prec emax x y.

(** [float(n)]: an [int] operand of a mixed operation is converted first. *)
Definition float_of_Z (n : Z) : float := binary_normalize prec emax n 0 false.

(** [m * 2 ^ e], for the literals of the source. *)
Definition float_lit (m e : Z) : float := binary_normalize prec emax m e false.

Definition fltb (x y : float) : bool := SFltb x y.
Definition fleb (x y : float) : bool := SFleb x y.

#[global] Arguments fadd : simpl never.
#[global] Arguments fsub : simpl never.
#[global] Arguments fmul : simpl never.
#[global] Arguments fdiv : simpl never.
#[global] Arguments float_of_Z : simpl never.
#[global] Arguments float_lit : simpl never.
#[global] Arguments fltb : simpl never.
#[global] Arguments fleb : simpl never.

Definition is_nan (x : float) : bool := match x with S754_nan => true | _ => false end.

(** [max(x, y)] keeps the first argument unless the second is greater. *)
Definition fmax (x y : float) : float := if fltb x y then y else x.

(** [sum(l)] over floats: Python 3.12 keeps a running compensation and adds it
    at the end when it is finite and not zero. *)
Definition fabs (x : float) : float := SFabs x.

Definition is_finite (x : float) : bool :=
  match x with S754_zero _ | S754_finite _ _ _ => true | _ => false end.
Definition is_zero (x : float) : bool := match x with S754_zero _ => true | _ => false end.

Fixpoint sum_loop (l : list float) (acc c : float) : float :=
  match l with
  | [] => if negb (is_zero c) && is_finite c then fadd acc c else acc
  | x :: l =>
      let t := fadd acc x in
      let c' := if fleb (fabs x) (fabs acc) then fadd c (fadd (fsub acc t) x)
                else fadd c (fadd (fsub x t) acc) in
      sum_loop l t c'
  end.

Definition fsum (l : list float) : float :=
  match l with
  | [] => float_of_Z 0
  | x :: l => sum_loop l (fadd (float_of_Z 0) x) (float_of_Z 0)
  end.

(** ** The comparison as a lexicographic key

    [SFcompare] orders non-NaN numbers as the pair of an exponent and a
    mantissa, both carrying the sign. *)

Definition fkey (x : float) : Z * Z :=
  match x with
  | S754_zero _ => (0, 0)
  | S754_infinity s => if s then (-2, 0) else (2, 0)
  | S754_nan => (0, 0)
  | S754_finite s _ _ => if s then (-1, 0) else (1, 0)
  end.

Definition fexp (x : float) : Z := match x with S754_finite _ _ e => e | _ => 0 end.
Definition fman (x : float) : Z := match x with S754_finite _ m _ => Zpos m | _ => 0 end.

(** [x < y] spelled out: compare the sign class, then the exponent, then the
    mantissa, the last two reversed for negative numbers. *)
Definition flt (x y : float) : Prop :=
  is_nan x = false /\ is_nan y = false /\
  let c := fst (fkey x) in let d := fst (fkey y) in
  c < d \/
  (c = d /\ c = 1 /\ (fexp x < fexp y \/ (fexp x = fexp y /\ fman x < fman y))) \/
  (c = d /\ c = -1 /\ (fexp y < fexp x \/ (fexp x = fexp y /\ fman y < fman x))).

Lemma fltb_flt x y : fltb x y = true <-> flt x y.
Proof.
  unfold fltb, SFltb, flt.
  destruct x as [[]|[]| |[] m e], y as [[]|[]| |[] n f]; simpl;
    try (split; [done|]; intros (?&?&?); exfalso; first [done|lia]);
    try (split; [intros _; repeat split; lia|done]);
    try (split; intros; [|done]; repeat split; lia).
  all: destruct (Z.compare_spec e f) as [->|?|?]; simpl.
  all: try (change (Pos.compare_cont Eq m n) with (Pos.compare m n);
            destruct (Pos.compare_spec m n)); simpl.
  all: split; [try done; intros _; repeat split; lia|intros (?&?&?); first [done|exfalso; lia]].
Qed.

Lemma flt_irrefl x : ~ flt x x.
Proof. unfold flt. intros (_ & _ & H). lia. Qed.

Lemma flt_trans x y z : flt x y -> flt y z -> flt x z.
Proof. unfold flt. intros (Hx & Hy & Hxy) (_ & Hz & Hyz). repeat split; [done..|]. lia. Qed.

(** Incomparability of non-NaN numbers is transitive: a strict weak order. *)
Lemma nflt_trans x y z :
  is_nan y = false -> ~ flt x y -> ~ flt y z -> ~ flt x z.
Proof.
  unfold flt. intros Hy Hxy Hyz (Hx & Hz & Hxz). apply Hxy.
  repeat split; [done..|]. destruct (fkey x) as [cx ?] eqn:Ex, (fkey y) as [cy ?] eqn:Ey,
    (fkey z) as [cz ?] eqn:Ez. simpl in *.
  assert (~ (cy < cz \/ (cy = cz /\ cy = 1 /\ (fexp y < fexp z \/ (fexp y = fexp z /\ fman y < fman z))) \/
    (cy = cz /\ cy = -1 /\ (fexp z < fexp y \/ (fexp y = fexp z /\ fman z < fman y))))) by naive_solver.
  lia.
Qed.

(** ** The running-maximum loop shared by the schedulers

    [for i, x in enumerate(l): if x > best: best, arg = x, i] *)

Fixpoint argmax_loop (i : Z) (l : list float) (best : float) (arg : option Z)
  : option Z * float :=
  match l with
  | [] => (arg, best)
  | x :: l => if fltb best x then argmax_loop (i + 1) l x (Some i)
              else argmax_loop (i + 1) l best arg
  end.

Lemma argmax_loop_spec l i best arg :
  let r := argmax_loop i l best arg in
  (r = (arg, best) /\ Forall (fun x => fltb best x = false) l) \/
  (exists k x, r = (Some (i + Z.of_nat k), x) /\ l !! k = Some x /\ fltb best x = true).
Proof.
  revert i best arg; induction l as [|x l IH]; intros i best arg; simpl; [by left|].
  destruct (fltb best x) eqn:E.
  - right. destruct (IH (i + 1) x (Some i)) as [[-> ?]|(k & y & -> & Hk & Hxy)].
    + exists 0%nat, x. rewrite Z.add_0_r. done.
    + exists (S k), y. split; [do 2 f_equal; lia|]. split; [done|].
      apply fltb_flt. apply fltb_flt in E, Hxy. by eapply flt_trans.
  - destruct (IH (i + 1) best arg) as [[-> ?]|(k & y & -> & Hk & Hby)].
    + left. split; [done|]. by constructor.
    + right. exists (S k), y. split; [do 2 f_equal; lia|done].
Qed.

(** No element beats the value returned. *)
Lemma argmax_loop_max l i best arg x :
  is_nan best = false -> Forall (fun y => is_nan y = false) l -> x ∈ l ->
  fltb (argmax_loop i l best arg).2 x = false.
Proof.
  revert i best arg; induction l as [|y l IH]; intros i best arg Hb Hl Hx; [by inversion Hx|].
  apply Forall_cons in Hl as [Hy Hl]. simpl.
  assert (Hge : forall l j b a z, is_nan z = false -> is_nan b = false -> ~ flt b z ->
      Forall (fun y => is_nan y = false) l -> ~ flt (argmax_loop j l b a).2 z).
  { clear. induction l as [|y l IH]; intros j b a z Hz Hb Hbz Hl; simpl; [done|].
    apply Forall_cons in Hl as [Hy Hl]. destruct (fltb b y) eqn:E; [|by apply IH].
    apply IH; [done..| |done]. apply fltb_flt in E. intros Hyz. apply Hbz.
    by eapply flt_trans. }
  apply not_true_iff_false. rewrite fltb_flt.
  apply elem_of_cons in Hx as [->|Hx].
  - destruct (fltb best y) eqn:E; apply Hge; try done; [apply flt_irrefl|].
    intros Hc%fltb_flt. congruence.
  - destruct (fltb best y); rewrite <-fltb_flt; apply not_true_iff_false; by apply IH.
Qed.

(** The position returned carries the value returned. *)
Lemma argmax_loop_arg l best r b :
  argmax_loop 0 l best None = (Some r, b) ->
  0 <= r < zlen l /\ l !! Z.to_nat r = Some b /\ fltb best b = true.
Proof.
  intros H. destruct (argmax_loop_spec l 0 best None) as [[E _]|(k & x & E & Hk & Hx)];
    rewrite H in E; simplify_eq.
  rewrite Z.add_0_l, Nat2Z.id. split; [|done].
  apply lookup_lt_Some in Hk. unfold zlen. lia.
Qed.

Example float_one : fadd (float_of_Z 1) (float_lit 1 (-1)) = float_lit 3 (-1).
Proof. reflexivity. Qed.

(** ** Signs

    Rounding keeps the sign, so sums, products and quotients of positive numbers
    are never below zero and never NaN. *)

Definition fpos (x : float) : bool := match x with S754_finite false _ _ => true | _ => false end.

Definition fnonneg (x : float) : bool :=
  match x with
  | S754_zero _ | S754_infinity false | S754_finite false _ _ => true
  | _ => false
  end.

Definition fplus (x : float) : bool :=
  match x with S754_zero false | S754_infinity false | S754_finite false _ _ => true | _ => false end.

Lemma fplus_nonneg x : fplus x = true -> fnonneg x = true.
Proof. by destruct x as [[]|[]| |[] ? ?]. Qed.

(** *** For every format *)

Lemma shr_1_nonneg r : 0 <= shr_m r -> 0 <= shr_m (shr_1 r).
Proof. destruct r as [[|[]|[]] ? ?]; simpl; lia. Qed.

Lemma shr_1_half r : 0 <= shr_m r -> shr_m (shr_1 r) = shr_m r / 2.
Proof. destruct r as [[|[p|p|]|p] ? ?]; simpl; intros H; try done; Z.div_mod_to_equations; lia. Qed.

Lemma shr_iter_half p r : 0 <= shr_m r -> shr_m (SpecFloat.iter_pos shr_1 p r) = shr_m r / 2 ^ Zpos p.
Proof.
  revert r. induction p as [p IH|p IH|]; intros r Hr; cbn [SpecFloat.iter_pos].
  - pose proof (shr_1_nonneg r Hr) as H1. rewrite IH, IH, shr_1_half by (try done; rewrite IH by done; apply Z.div_pos; lia).
    rewrite !Z.div_div by lia. f_equal.
    change 2 with (2 ^ 1) at 1. rewrite <-!Z.pow_add_r by lia. f_equal. lia.
  - rewrite IH, IH by (try done; rewrite IH by done; apply Z.div_pos; lia).
    rewrite !Z.div_div by lia. f_equal. rewrite <-Z.pow_add_r by lia. f_equal. lia.
  - by apply shr_1_half.
Qed.

Lemma digits2_bound p : 2 ^ (Zpos (digits2_pos p) - 1) <= Zpos p.
Proof.
  induction p as [p IH|p IH|]; [..|done]; cbn [digits2_pos];
    replace (Zpos (Pos.succ (digits2_pos p)) - 1) with (1 + (Zpos (digits2_pos p) - 1)) by lia;
    rewrite Z.pow_add_r by lia; lia.
Qed.

Lemma digits2_upper p : Zpos p < 2 ^ Zpos (digits2_pos p).
Proof.
  induction p as [p IH|p IH|]; [..|done]; cbn [digits2_pos]; rewrite Pos2Z.inj_succ, Z.pow_succ_r by lia; lia.
Qed.

Lemma digits2_iter p d : digits2_pos (Pos.iter xO p d) = (digits2_pos p + d)%positive.
Proof. induction d as [|d IH] using Pos.peano_ind; [cbn; lia|]. rewrite Pos.iter_succ. cbn [digits2_pos]. rewrite IH. lia. Qed.

Section Format.
Context (prec emax : Z).

Lemma shr_fexp_nonneg m e l : 0 <= m -> 0 <= shr_m (shr_fexp prec emax m e l).1.
Proof.
  intros Hm. unfold shr_fexp, shr.
  assert (H0 : 0 <= shr_m (shr_record_of_loc m l)) by (destruct l as [|[]]; done).
  generalize (SpecFloat.fexp prec emax (Zdigits2 m + e) - e). intros [|p|p]; simpl; [done| |done].
  revert H0. generalize (shr_record_of_loc m l). induction p as [p IH|p IH|]; simpl; intros r Hr.
  - by apply IH, IH, shr_1_nonneg.
  - by apply IH, IH.
  - by apply shr_1_nonneg.
Qed.

Lemma round_aux_nonneg m e l : 0 <= m -> fnonneg (binary_round_aux prec emax false m e l) = true.
Proof.
  intros Hm. unfold binary_round_aux.
  pose proof (shr_fexp_nonneg m e l Hm) as H1.
  destruct (shr_fexp prec emax m e l) as [r1 e1]. simpl in H1.
  set (m2 := round_nearest_even (shr_m r1) (loc_of_shr_record r1)).
  assert (H2 : 0 <= m2).
  { unfold m2, round_nearest_even. destruct (loc_of_shr_record r1) as [|[]]; try lia.
    destruct (Z.even _); lia. }
  pose proof (shr_fexp_nonneg m2 e1 loc_Exact H2) as H3.
  destruct (shr_fexp prec emax m2 e1 loc_Exact) as [r2 e2]. simpl in H3.
  destruct (shr_m r2); [done| |lia]. by destruct (_ <=? _).
Qed.

Lemma binary_normalize_nonneg m e : 0 <= m -> fnonneg (binary_normalize prec emax m e false) = true.
Proof.
  intros Hm. unfold binary_normalize. destruct m as [|p|p]; [done| |lia].
  unfold binary_round. destruct (shl_align _ _ _). by apply round_aux_nonneg.
Qed.

Lemma round_aux_plus m e l : 0 <= m -> fplus (binary_round_aux prec emax false m e l) = true.
Proof.
  intros Hm. pose proof (round_aux_nonneg m e l Hm) as Hn. revert Hn. unfold binary_round_aux.
  destruct (shr_fexp prec emax m e l) as [r1 e1].
  destruct (shr_fexp prec emax _ e1 loc_Exact) as [r2 e2].
  by destruct (shr_m r2); [done|destruct (_ <=? _)|done].
Qed.

Lemma SFadd_nonneg x y : fnonneg x = true -> fnonneg y = true -> fnonneg (SFadd prec emax x y) = true.
Proof.
  intros Hx Hy. destruct x as [[]|[]| |[] mx ex], y as [[]|[]| |[] my ey]; try done.
  unfold SFadd. apply binary_normalize_nonneg. simpl. lia.
Qed.

Lemma SFmul_nonneg_pos x w : fnonneg x = true -> fpos w = true -> fnonneg (SFmul prec emax x w) = true.
Proof.
  intros Hx Hw. destruct w as [| | |[] mw ew]; try done.
  destruct x as [[]|[]| |[] mx ex]; try done. by apply round_aux_nonneg.
Qed.

(** A number that is no smaller than the smallest exponent keeps its leading bit when it
    is rounded: sums of positive numbers are positive. *)
Definition format_emin : Z := SpecFloat.emin prec emax.

Definition valid (x : spec_float) : Prop := match x with S754_finite _ _ e => format_emin <= e | _ => True end.

Hypothesis Hprec : 0 < prec.

Lemma shr_fexp_pos m e l :
  0 < m -> format_emin <= e -> 0 < shr_m (shr_fexp prec emax m e l).1 /\ format_emin <= (shr_fexp prec emax m e l).2.
Proof.
  intros Hm He. unfold shr_fexp, shr.
  assert (H0 : shr_m (shr_record_of_loc m l) = m) by (destruct l as [|[]]; done).
  destruct m as [|p|p]; [lia| |lia]. cbn [Zdigits2].
  destruct (SpecFloat.fexp prec emax (Zpos (digits2_pos p) + e) - e) as [|q|q] eqn:Eq; cbn [fst snd]; [lia| |lia].
  unfold SpecFloat.fexp in Eq. change (SpecFloat.emin prec emax) with format_emin in Eq.
  split; [|lia]. rewrite shr_iter_half by lia. rewrite H0.
  assert (Hq : Zpos q = Zpos (digits2_pos p) - prec) by (lia).
  pose proof (digits2_bound p) as Hd. apply Z.div_str_pos. split; [lia|].
  etransitivity; [|exact Hd]. apply Z.pow_le_mono_r; lia.
Qed.

Lemma round_aux_pos m e l :
  0 < m -> format_emin <= e -> fltb (S754_zero false) (binary_round_aux prec emax false m e l) = true.
Proof.
  intros Hm He. unfold binary_round_aux.
  destruct (shr_fexp_pos m e l Hm He) as [H1 He1]. destruct (shr_fexp prec emax m e l) as [r1 e1]. cbn [fst snd] in *.
  set (m2 := round_nearest_even (shr_m r1) (loc_of_shr_record r1)).
  assert (H2 : 0 < m2).
  { unfold m2, round_nearest_even. destruct (loc_of_shr_record r1) as [|[]]; try lia. destruct (Z.even _); lia. }
  destruct (shr_fexp_pos m2 e1 loc_Exact H2 He1) as [H3 _]. destruct (shr_fexp prec emax m2 e1 loc_Exact) as [r2 e2].
  cbn [fst snd] in *. destruct (shr_m r2); [lia| |lia]. by destruct (_ <=? _).
Qed.

Lemma shl_align_spec p e e' : format_emin <= e -> format_emin <= e' -> format_emin <= (shl_align p e e').2.
Proof. intros. unfold shl_align. destruct (e' - e); cbn; lia. Qed.

Lemma normalize_pos m e : 0 < m -> format_emin <= e -> fltb (S754_zero false) (binary_normalize prec emax m e false) = true.
Proof.
  intros Hm He. unfold binary_normalize. destruct m as [|p|p]; [lia| |lia]. unfold binary_round.
  assert (Hf : format_emin <= SpecFloat.fexp prec emax (Zpos (digits2_pos p) + e)).
  { unfold SpecFloat.fexp. change (SpecFloat.emin prec emax) with format_emin. lia. }
  pose proof (shl_align_spec p e _ He Hf) as Ha. destruct (shl_align p e _) as [q f]. cbn in Ha. by apply round_aux_pos.
Qed.

Lemma shr_fexp_valid m e l : format_emin <= (shr_fexp prec emax m e l).2.
Proof.
  unfold shr_fexp, shr. assert (Hf : format_emin <= SpecFloat.fexp prec emax (Zdigits2 m + e)).
  { unfold SpecFloat.fexp. change (SpecFloat.emin prec emax) with format_emin. lia. }
  destruct (SpecFloat.fexp prec emax (Zdigits2 m + e) - e) as [|q|q] eqn:Eq; cbn [snd]; lia.
Qed.

Lemma round_aux_valid s m e l : valid (binary_round_aux prec emax s m e l).
Proof.
  unfold binary_round_aux. destruct (shr_fexp prec emax m e l) as [r1 e1].
  pose proof (shr_fexp_valid (round_nearest_even (shr_m r1) (loc_of_shr_record r1)) e1 loc_Exact) as Hv.
  destruct (shr_fexp prec emax _ e1 loc_Exact) as [r2 e2]. cbn in Hv. destruct (shr_m r2); [done| |done].
  by destruct (_ <=? _).
Qed.

Lemma normalize_valid m e s : valid (binary_normalize prec emax m e s).
Proof.
  unfold binary_normalize. destruct m as [|p|p]; [done|..]; unfold binary_round;
    destruct (shl_align _ _ _) as [q f]; apply round_aux_valid.
Qed.

Lemma SFadd_valid x y : valid x -> valid y -> valid (SFadd prec emax x y).
Proof.
  intros Hx Hy. destruct x as [[]|[]| |sx mx ex], y as [[]|[]| |sy my ey]; try done. apply normalize_valid.
Qed.

Lemma SFmul_valid x y : valid (SFmul prec emax x y).
Proof. destruct x as [[]|[]| |sx mx ex], y as [[]|[]| |sy my ey]; try done; apply round_aux_valid. Qed.

Lemma SFadd_pos x y :
  fltb (S754_zero false) x = true -> valid x -> fnonneg y = true -> valid y -> fltb (S754_zero false) (SFadd prec emax x y) = true.
Proof.
  intros Hx Vx Hy Vy. destruct x as [[]|[]| |[] mx ex], y as [[]|[]| |[] my ey]; try done.
  unfold SFadd. apply normalize_pos; [simpl; lia|]. cbn in Vx, Vy. lia.
Qed.
Lemma SFdiv_finite x m e : fplus x = true -> fplus (SFdiv prec emax x (S754_finite false m e)) = true.
Proof.
  intros Hx. destruct x as [[]|[]| |[] mx ex]; try done.
  unfold SFdiv. destruct (SFdiv_core_binary prec emax (Zpos mx) ex (Zpos m) e) as [[mz ez] lz] eqn:E.
  apply round_aux_plus. unfold SFdiv_core_binary in E.
  set (m' := match _ - _ - _ with Z0 => _ | _ => _ end) in E.
  assert (Hm' : 0 <= m').
  { unfold m'. destruct (_ - _ - _); [lia| |lia]. apply Z.shiftl_nonneg. lia. }
  destruct (Z.div_eucl m' (Zpos m)) as [q r] eqn:Ed. injection E as <- _ _.
  pose proof (Z_div_mod m' (Zpos m) ltac:(lia)) as Hd. rewrite Ed in Hd. nia.
Qed.

Lemma SFdiv_plus x y :
  fplus x = true -> fplus y = true -> fplus (SFdiv prec emax x y) = true \/ SFdiv prec emax x y = S754_nan.
Proof.
  intros Hx Hy. destruct y as [[]|[]| |[] my ey]; try done; [..|left; by apply SFdiv_finite];
    destruct x as [[]|[]| |[] mx ex]; try done; by auto.
Qed.

Lemma SFdiv_valid x y : valid (SFdiv prec emax x y).
Proof.
  destruct x as [[]|[]| |sx mx ex], y as [[]|[]| |sy my ey]; try done; cbn [SFdiv]; destruct (SFdiv_core_binary _ _ _ _ _ _) as [[q e] l]; apply round_aux_valid.
Qed.

Lemma SFadd_pos_r x y :
  fnonneg x = true -> valid x -> fltb (S754_zero false) y = true -> valid y -> fltb (S754_zero false) (SFadd prec emax x y) = true.
Proof.
  intros Hx Vx Hy Vy. destruct x as [[]|[]| |[] mx ex], y as [[]|[]| |[] my ey]; try done.
  unfold SFadd. apply normalize_pos; [simpl; lia|]. cbn in Vx, Vy. lia.
Qed.

(** *** Integers that fit the mantissa *)

Hypothesis Hemax : 2 * prec + 2 <= emax.

(** A positive integer below [2 ^ prec], with all the bits of its mantissa in use. *)
Definition int_shaped (x : spec_float) : Prop :=
  exists m e, x = S754_finite false m e /\ Zpos (digits2_pos m) = prec /\ 1 <= e + prec <= prec.

Lemma round_exact m e :
  Zpos (digits2_pos m) = prec -> 1 <= e + prec <= prec -> binary_round_aux prec emax false (Zpos m) e loc_Exact = S754_finite false m e.
Proof.
  intros Hd He. assert (Hs : shr_fexp prec emax (Zpos m) e loc_Exact = (shr_record_of_loc (Zpos m) loc_Exact, e)).
  { unfold shr_fexp. cbn [Zdigits2]. rewrite Hd. unfold SpecFloat.fexp, SpecFloat.emin. replace (Z.max _ _ - e) with 0 by lia. done. }
  unfold binary_round_aux. rewrite Hs. cbn [shr_record_of_loc loc_of_shr_record shr_m round_nearest_even]. rewrite Hs. cbn [shr_record_of_loc shr_m].
  by rewrite (proj2 (Z.leb_le e _)) by lia.
Qed.

Lemma int_exact n : 0 < n < 2 ^ prec -> int_shaped (binary_normalize prec emax n 0 false).
Proof.
  intros [Hn Hlt]. destruct n as [|p|p]; [lia| |lia]. unfold binary_normalize, binary_round. rewrite Z.add_0_r.
  pose proof (digits2_bound p) as Hd. assert (Hdp : Zpos (digits2_pos p) <= prec).
  { destruct (Z.le_gt_cases (Zpos (digits2_pos p)) prec) as [|Hgt]; [done|]. pose proof (Z.pow_le_mono_r 2 prec (Zpos (digits2_pos p) - 1) ltac:(lia) ltac:(lia)). lia. }
  assert (Hf : SpecFloat.fexp prec emax (Zpos (digits2_pos p)) = Zpos (digits2_pos p) - prec) by (unfold SpecFloat.fexp, SpecFloat.emin; lia).
  unfold shl_align. rewrite Hf, Z.sub_0_r. destruct (Zpos (digits2_pos p) - prec) as [|d|d] eqn:E; [|lia|].
  - exists p, 0. rewrite round_exact by lia. split; [done|lia].
  - exists (Pos.iter xO p d), (Zneg d). assert (Hdd : Zpos (digits2_pos (Pos.iter xO p d)) = prec) by (rewrite digits2_iter; lia).
    rewrite round_exact by lia. split; [done|lia].
Qed.

Lemma int_shaped_valid x : int_shaped x -> valid x /\ fltb (S754_zero false) x = true.
Proof. intros (m & e & -> & _ & He). split; [|done]. cbn. unfold format_emin, SpecFloat.emin. lia. Qed.

(** Their quotients do not vanish. *)
Lemma SFdiv_pos x y : int_shaped x -> int_shaped y -> fltb (S754_zero false) (SFdiv prec emax x y) = true.
Proof.
  intros (m1 & e1 & -> & Hd1 & He1) (m2 & e2 & -> & Hd2 & He2). unfold SFdiv, SFdiv_core_binary. cbn [Zdigits2 xorb].
  set (k := SpecFloat.fexp _ _ _). assert (Hk : k = e1 - e2 - prec) by (unfold k, SpecFloat.fexp, SpecFloat.emin; lia).
  rewrite Z.min_l by lia. replace (e1 - e2 - k) with prec by lia. pose proof (digits2_upper m2) as Hu. rewrite Hd2 in Hu.
  set (m' := match prec with Z0 => _ | _ => _ end). assert (m' = Zpos m1 * 2 ^ prec) as ->.
  { unfold m'. destruct (Z_of_nat_complete prec ltac:(lia)) as [[|n] ->]; [lia|]. cbn [Z.of_nat]. apply Z.shiftl_mul_pow2. lia. }
  destruct (Z.div_eucl (Zpos m1 * 2 ^ prec) (Zpos m2)) as [q' r] eqn:Eq.
  pose proof (Z_div_mod (Zpos m1 * 2 ^ prec) (Zpos m2) ltac:(lia)) as Hq. rewrite Eq in Hq. destruct Hq as [Hq Hr].
  apply round_aux_pos; [|unfold format_emin, SpecFloat.emin; lia]. destruct (Z.le_gt_cases q' 0) as [Hle|]; [|done]. exfalso. nia.
Qed.
End Format.

(** *** Doubles *)

Lemma float_of_Z_nonneg n : 0 <= n -> fnonneg (float_of_Z n) = true.
Proof.
  intros Hn. unfold float_of_Z, binary_normalize. destruct n as [|p|p]; [done| |lia].
  unfold binary_round. destruct (shl_align _ _ _). by apply round_aux_nonneg.
Qed.

Lemma fmul_nonneg_pos x w : fnonneg x = true -> fpos w = true -> fnonneg (fmul x w) = true.
Proof. apply SFmul_nonneg_pos. Qed.

Lemma fnonneg_gt_neg1 x : fnonneg x = true -> fltb (float_of_Z (-1)) x = true.
Proof. by destruct x as [[]|[]| |[] ? ?]. Qed.

Lemma fnonneg_not_nan x : fnonneg x = true -> is_nan x = false.
Proof. by destruct x as [[]|[]| |[] ? ?]. Qed.

Lemma fleb_refl x : is_nan x = false -> fleb x x = true.
Proof.
  unfold fleb, SFleb. destruct x as [[]|[]| |[] m e]; try done; intros _; simpl;
    rewrite Z.compare_refl; change (Pos.compare_cont Eq m m) with (Pos.compare m m);
    by rewrite Pos.compare_refl.
Qed.

(** The order is total away from NaN. *)
Lemma fleb_not_flt x y : is_nan x = false -> is_nan y = false -> fltb x y = false -> fleb y x = true.
Proof.
  unfold fltb, fleb, SFltb, SFleb.
  destruct x as [[]|[]| |[] m e], y as [[]|[]| |[] n f]; try done; simpl; intros _ _;
    rewrite (Z.compare_antisym e f); destruct (Z.compare e f); simpl; try done;
    change (Pos.compare_cont Eq m n) with (Pos.compare m n);
    change (Pos.compare_cont Eq n m) with (Pos.compare n m);
    rewrite (Pos.compare_antisym m n); by destruct (Pos.compare m n).
Qed.

Lemma fltb_antisym x y : fleb x y = true -> fltb y x = false.
Proof.
  unfold fltb, fleb, SFltb, SFleb.
  destruct x as [[]|[]| |[] m e], y as [[]|[]| |[] n f]; try done; simpl;
    rewrite (Z.compare_antisym e f); destruct (Z.compare e f); simpl; try done;
    change (Pos.compare_cont Eq m n) with (Pos.compare m n);
    change (Pos.compare_cont Eq n m) with (Pos.compare n m);
    rewrite (Pos.compare_antisym m n); by destruct (Pos.compare m n).
Qed.

Lemma fleb_not_nan x y : fleb x y = true -> is_nan x = false /\ is_nan y = false.
Proof. by destruct x as [[]|[]| |[] m e], y as [[]|[]| |[] n f]. Qed.

Lemma fleb_trans x y z : fleb x y = true -> fleb y z = true -> fleb x z = true.
Proof.
  intros Hxy Hyz. destruct (fleb_not_nan _ _ Hxy) as [Hx Hy], (fleb_not_nan _ _ Hyz) as [_ Hz].
  apply fltb_antisym in Hxy, Hyz. apply fleb_not_flt; [done..|].
  apply not_true_iff_false. rewrite fltb_flt.
  apply (nflt_trans z y x Hy); rewrite <-fltb_flt; congruence.
Qed.

Lemma fltb_fleb x y : fltb x y = true -> fleb x y = true.
Proof.
  intros H. pose proof (proj1 (fltb_flt x y) H) as Hf. destruct Hf as (Hx & Hy & _).
  apply fleb_not_flt; [done..|]. apply not_true_iff_false. rewrite fltb_flt. apply fltb_flt in H.
  intros H'. exact (flt_irrefl x (flt_trans _ _ _ H H')).
Qed.

Lemma fmax_not_nan x y : is_nan x = false -> is_nan y = false -> is_nan (fmax x y) = false.
Proof. unfold fmax. by destruct (fltb x y). Qed.

Lemma fmax_ge_l x y : is_nan x = false -> is_nan y = false -> fleb x (fmax x y) = true.
Proof.
  intros Hx Hy. unfold fmax. destruct (fltb x y) eqn:E; [|by apply fleb_refl].
  apply fleb_not_flt; [done..|]. apply not_true_iff_false. rewrite fltb_flt. apply fltb_flt in E.
  intros H. exact (flt_irrefl x (flt_trans _ _ _ E H)).
Qed.

Lemma fmax_ge_r x y : is_nan x = false -> is_nan y = false -> fleb y (fmax x y) = true.
Proof.
  intros Hx Hy. unfold fmax. destruct (fltb x y) eqn:E; [by apply fleb_refl|by apply fleb_not_flt].
Qed.

Lemma fadd_nonneg x y : fnonneg x = true -> fnonneg y = true -> fnonneg (fadd x y) = true.
Proof. apply SFadd_nonneg. Qed.

Lemma fmax_nonneg x y : fnonneg x = true -> fnonneg y = true -> fnonneg (fmax x y) = true.
Proof. unfold fmax. by destruct (fltb x y). Qed.

Lemma foldl_fmax_nonneg l x :
  fnonneg x = true -> Forall (fun y => fnonneg y = true) l -> fnonneg (foldl fmax x l) = true.
Proof.
  revert x. induction l as [|y l IH]; intros x Hx Hl; [done|]. apply Forall_cons in Hl as [Hy Hl].
  apply IH; [|done]. by apply fmax_nonneg.
Qed.

Lemma float_of_Z_plus n : 0 <= n -> fplus (float_of_Z n) = true.
Proof.
  intros Hn. unfold float_of_Z, binary_normalize. destruct n as [|p|p]; [done| |lia].
  unfold binary_round. destruct (shl_align _ _ _). by apply round_aux_plus.
Qed.

Lemma fdiv_plus x y :
  fplus x = true -> fplus y = true -> fplus (fdiv x y) = true \/ fdiv x y = S754_nan.
Proof. apply SFdiv_plus. Qed.

Definition emin : Z := format_emin prec emax.

Definition fvalid (x : float) : Prop := valid prec emax x.

Lemma float_of_Z_pos n : 0 < n -> fltb (float_of_Z 0) (float_of_Z n) = true.
Proof. intros Hn. apply normalize_pos; done. Qed.

Lemma fadd_valid x y : fvalid x -> fvalid y -> fvalid (fadd x y).
Proof. apply SFadd_valid. Qed.

Lemma fmul_valid x y : fvalid (fmul x y).
Proof. apply SFmul_valid. Qed.

Lemma fadd_pos x y :
  fltb (float_of_Z 0) x = true -> fvalid x -> fnonneg y = true -> fvalid y -> fltb (float_of_Z 0) (fadd x y) = true.
Proof. by apply SFadd_pos. Qed.

(** ** Single precision *)

(** The [float] of C++: binary32. *)
Definition f32add (x y : float) : float := SFadd 24 128 x y.
Definition f32mul (x y : float) : float := SFmul 24 128 x y.
Definition f32div (x y : float) : float := SFdiv 24 128 x y.

(** [static_cast<float>(n)]. *)
Definition f32_of_Z (n : Z) : float := binary_normalize 24 128 n 0 false.

(** [static_cast<int>(x)] rounds toward zero. *)
Definition float_trunc (x : float) : Z :=
  match x with
  | S754_finite s m e => let n := if 0 <=? e then Zpos m * 2 ^ e else Zpos m / 2 ^ (- e) in if s then - n else n
  | _ => 0
  end.

#[global] Arguments f32add : simpl never.
#[global] Arguments f32mul : simpl never.
#[global] Arguments f32div : simpl never.
#[global] Arguments f32_of_Z : simpl never.

Lemma f32_of_Z_plus n : 0 <= n -> fplus (f32_of_Z n) = true.
Proof.
  intros Hn. unfold f32_of_Z, binary_normalize. destruct n as [|p|p]; [done| |lia].
  unfold binary_round. destruct (shl_align _ _ _). by apply round_aux_plus.
Qed.

Lemma f32_of_Z_valid n : valid 24 128 (f32_of_Z n).
Proof. apply normalize_valid. Qed.

Lemma f32_of_Z_pos n : 0 < n -> fltb (S754_zero false) (f32_of_Z n) = true.
Proof. intros Hn. by apply normalize_pos. Qed.

(** A quotient of two integers of 24 bits. *)
Lemma f32_quotient_pos a b : 0 < a < 2 ^ 24 -> 0 < b < 2 ^ 24 -> fltb (S754_zero false) (f32div (f32_of_Z a) (f32_of_Z b)) = true.
Proof. intros Ha Hb. apply SFdiv_pos; try done; by apply int_exact. Qed.

Lemma f32_quotient_nonneg a b : 0 <= a -> 0 < b < 2 ^ 24 -> fnonneg (f32div (f32_of_Z a) (f32_of_Z b)) = true.
Proof.
  intros Ha Hb. destruct (int_exact 24 128 ltac:(done) ltac:(done) b Hb) as (m & e & Eb & _).
  unfold f32div, f32_of_Z at 2. rewrite Eb. by apply fplus_nonneg, SFdiv_finite, f32_of_Z_plus.
Qed.
