(* ===== verification/PyString.v ===== *)
(** * Python strings

    What the components use of [str] and of the conversions from it.  Strings are ASCII. *)

From Stdlib Require Import Ascii.
From stdpp Require Import strings.
From S2P Require Import Prelude.

Module PyString.

(** [str.strip] *)
Definition py_space (c : ascii) : bool :=
  let n := Z.of_N (N_of_ascii c) in ((9 <=? n) && (n <=? 13)) || ((28 <=? n) && (n <=? 32)).

Fixpoint lstrip (l : list ascii) : list ascii :=
  match l with c :: l' => if py_space c then lstrip l' else l | [] => [] end.

Definition strip (l : list ascii) : list ascii := rev (lstrip (rev (lstrip l))).

(** [s.split(",")[0]] *)
Fixpoint first_field (l : list ascii) : list ascii :=
  match l with
  | c :: l => if decide (c = ","%char) then [] else c :: first_field l
  | [] => []
  end.

(** [int(s)]: a sign, then digits that single underscores may separate. *)
Definition digit (c : ascii) : option Z :=
  let n := Z.of_N (N_of_ascii c) in if (48 <=? n) && (n <=? 57) then Some (n - 48) else None.

Fixpoint int_digits (acc : Z) (l : list ascii) : option Z :=
  match l with
  | [] => Some acc
  | "_"%char :: c :: l => d ← digit c; int_digits (acc * 10 + d) l
  | c :: l => d ← digit c; int_digits (acc * 10 + d) l
  end.

Definition int_body (l : list ascii) : option Z :=
  match l with c :: l => d ← digit c; int_digits d l | [] => None end.

Definition py_int_of_str (s : string) : res Z :=
  of_option ValueError
    match strip (String.list_ascii_of_string s) with
    | "+"%char :: l => int_body l
    | "-"%char :: l => Z.opp <$> int_body l
    | l => int_body l
    end.

(** [h.strip()] *)
Definition py_strip (s : string) : string :=
  String.string_of_list_ascii (strip (String.list_ascii_of_string s)).

End PyString.
