(* ===== verification/Utils.v ===== *)
(** * Shared helpers ([disagmoe/utils/utils.py])

    The wrapping id counter, the bucket look-up of the CUDA-graph batch sizes,
    the prefix sums of sequence lengths and the power-of-two rounding. *)

From S2P Require Import Prelude.

Module Utils.

(** ** [Counter] *)

Record Counter : Type := {
  cnt_start : Z;
  cnt_counter : Z;
  cnt_end : Z;
  cnt_step : Z;
}.

Definition counter_init (start end_ step : Z) : Counter :=
  {| cnt_start := start; cnt_counter := start; cnt_end := end_; cnt_step := step |}.

(** [Counter()] *)
Definition counter_default : Counter := counter_init 0 2000000000 1.

(** [__next__]: a counter that reaches the end goes back to 0, whatever its
    start. *)
Definition counter_next (c : Counter) : Z * Counter :=
  let i := cnt_counter c in
  let k := cnt_counter c + cnt_step c in
  let k := if k >=? cnt_end c then 0 else k in
  (i, {| cnt_start := cnt_start c; cnt_counter := k; cnt_end := cnt_end c; cnt_step := cnt_step c |}).

Definition counter_reset (c : Counter) : Counter :=
  {| cnt_start := cnt_start c; cnt_counter := cnt_start c; cnt_end := cnt_end c;
     cnt_step := cnt_step c |}.

(** [[next(c) for _ in range(n)]] *)
Fixpoint counter_take (n : nat) (c : Counter) : list Z * Counter :=
  match n with
  | O => ([], c)
  | S n =>
      let '(i, c1) := counter_next c in
      let '(l, c2) := counter_take n c1 in (i :: l, c2)
  end.

(** ** Batch-size buckets and prefix sums *)

Fixpoint graph_size_loop (i batch_size : Z) (l : list Z) : res (Z * Z) :=
  match l with
  | [] => Raise AssertionError
  | size :: l => if size >=? batch_size then Ok (i, size) else graph_size_loop (i + 1) batch_size l
  end.

Definition get_graph_batch_size (batch_size : Z) (graph_batch_sizes : list Z) : res (Z * Z) :=
  graph_size_loop 0 batch_size graph_batch_sizes.

(** [seqlen = [0]; for l in lens: seqlen.append(seqlen[-1] + l)] *)
Definition make_seqlens_cuda_tensor (lens : list Z) : res (option (list Z)) :=
  if zlen lens =? 0 then Ok None
  else
    s ← py_for (fun seqlen l => x ← py_get seqlen (-1); Ok (seqlen ++ [x + l])) lens [0];
    Ok (Some s).

(** The in-place version: [dst] is the buffer the caller passed, or a new one. *)
Definition make_seqlens_list (lens : list Z) (dst : option (list Z)) : res (option (list Z)) :=
  let n := zlen lens in
  if n =? 0 then Ok None
  else
    d ← match dst with
        | None => Ok (replicate (Z.to_nat (n + 1)) 0)
        | Some d => _ ← py_assert (zlen d =? n + 1); Ok d
        end;
    d ← py_set d 0 0;
    d ← py_for (fun d i => x ← py_get d i; l ← py_get lens i; py_set d (i + 1) (x + l))
               (py_range n) d;
    Ok (Some d).

(** [int.bit_length] of a non-negative integer. *)
Definition bit_length (n : Z) : Z := if n =? 0 then 0 else Z.log2 n + 1.

(** [1 << (n - 1).bit_length() if n > 0 else 1] *)
Definition next_power_of_2 (n : Z) : Z := if n >? 0 then Z.shiftl 1 (bit_length (n - 1)) else 1.

(** [get_nccl_url_from_uid]: the port offset, a base-256 hash of the id. *)
Definition uid_hash (uid : list Z) : Z := foldl (fun h i => (h * 256 + i) mod 10007) 0 uid.

(** ** Lemmas *)

(** Until the counter wraps, [n] calls return [n] consecutive numbers. *)
Lemma counter_take_seq n c :
  cnt_step c = 1 -> cnt_counter c + Z.of_nat n <= cnt_end c ->
  (counter_take n c).1 = seqZ (cnt_counter c) (Z.of_nat n).
Proof.
  revert c; induction n as [|n IH]; intros c Hs He; [done|].
  cbn [counter_take counter_next]. rewrite Hs.
  assert (Hc : cnt_counter c < cnt_end c) by lia.
  rewrite Z.geb_leb. destruct (Z.leb_spec (cnt_end c) (cnt_counter c + 1)) as [Hw|Hw].
  - assert (n = O) as -> by lia. simpl. by rewrite seqZ_cons.
  - match goal with |- context [counter_take n ?c1] => pose proof (IH c1) as IH1; destruct (counter_take n c1) as [l c2] end.
    simpl in *. rewrite IH1 by (try done; lia).
    rewrite (seqZ_cons _ (Z.of_nat (S n))) by lia. f_equal; f_equal; lia.
Qed.

Lemma next_power_of_2_spec n :
  0 < n -> n <= next_power_of_2 n /\ next_power_of_2 n < 2 * n /\
  exists k, 0 <= k /\ next_power_of_2 n = 2 ^ k.
Proof.
  intros Hn. unfold next_power_of_2, bit_length. rewrite Z.gtb_ltb.
  destruct (Z.ltb_spec 0 n); [|lia].
  destruct (Z.eqb_spec (n - 1) 0) as [H1|H1].
  - assert (n = 1) as -> by lia. rewrite Z.shiftl_1_l. split; [done|]. split; [done|]. by exists 0.
  - rewrite Z.shiftl_1_l. pose proof (Z.log2_spec (n - 1) ltac:(lia)) as Hl. pose proof (Z.log2_nonneg (n - 1)).
    rewrite Z.pow_succ_r in * by lia.
    assert (Hp : 2 ^ (Z.log2 (n - 1) + 1) = 2 * 2 ^ Z.log2 (n - 1))
      by (rewrite Z.add_1_r, Z.pow_succ_r by lia; done).
    split; [lia|]. split; [lia|]. exists (Z.log2 (n - 1) + 1). split; [lia|done].
Qed.

(** The bucket returned is the first that is large enough. *)
Lemma graph_size_loop_spec i bs l :
  (exists k size, graph_size_loop i bs l = Ok (i + Z.of_nat k, size) /\ l !! k = Some size /\
     bs <= size /\ forall j s, (j < k)%nat -> l !! j = Some s -> s < bs) \/
  (graph_size_loop i bs l = Raise AssertionError /\ Forall (fun s => s < bs) l).
Proof.
  revert i; induction l as [|x l IH]; intros i; simpl; [by right|].
  rewrite Z.geb_leb. destruct (Z.leb_spec bs x).
  - left. exists 0%nat, x. rewrite Z.add_0_r. split; [done|]. split; [done|]. split; [done|]. lia.
  - destruct (IH (i + 1)) as [(k & s & -> & Hk & Hs & Hb)|[-> Hall]].
    + left. exists (S k), s. split; [do 2 f_equal; lia|]. split; [done|]. split; [done|].
      intros [|j] s' Hj Hl; simplify_eq/=; [done|]. apply (Hb j); [lia|done].
    + right. split; [done|]. by constructor.
Qed.

(** Prefix sums: entry [k] is the sum of the first [k] lengths. *)
Definition prefix_sums (lens : list Z) : list Z :=
  (fun k => sumZ (take k lens)) <$> seq 0 (S (length lens)).

Lemma prefix_sums_last pre :
  prefix_sums pre = ((fun k => sumZ (take k pre)) <$> seq 0 (length pre)) ++ [sumZ pre].
Proof. unfold prefix_sums. rewrite seq_S, fmap_app. cbn. by rewrite firstn_all. Qed.

Lemma prefix_sums_snoc pre x : prefix_sums (pre ++ [x]) = prefix_sums pre ++ [sumZ pre + x].
Proof.
  rewrite (prefix_sums_last (pre ++ [x])), sumZ_app, length_app, Nat.add_1_r. f_equal.
  - apply list_fmap_ext. intros i k Hk. apply lookup_seq in Hk as [-> ?].
    by rewrite take_app_le by lia.
  - cbn. f_equal. lia.
Qed.

Lemma seqlens_append_spec pre :
  py_for (fun seqlen l => x ← py_get seqlen (-1); Ok (seqlen ++ [x + l])) pre [0]
  = Ok (prefix_sums pre).
Proof.
  induction pre as [|x pre IH] using rev_ind; [done|].
  rewrite py_for_app, IH, prefix_sums_snoc. rewrite (prefix_sums_last pre). simpl.
  by rewrite py_get_last.
Qed.

Lemma prefix_sums_lookup lens k :
  (k <= length lens)%nat -> prefix_sums lens !! k = Some (sumZ (take k lens)).
Proof.
  intros. unfold prefix_sums. rewrite list_lookup_fmap, lookup_seq_lt by lia. done.
Qed.

Lemma prefix_sums_length lens : length (prefix_sums lens) = S (length lens).
Proof. unfold prefix_sums. by rewrite length_fmap, length_seq. Qed.

(** One step of the in-place loop: position [i + 1] receives the next sum. *)
Lemma seqlens_list_loop lens d :
  length d = S (length lens) -> d !! 0%nat = Some 0 ->
  exists d', py_for (fun d i => x ← py_get d i; l ← py_get lens i; py_set d (i + 1) (x + l))
    (py_range (zlen lens)) d = Ok d' /\ d' = prefix_sums lens.
Proof.
  intros Hlen H0.
  destruct (py_for_total (fun (pre : list Z) (t : list Z) => length t = S (length lens) /\
    (forall k, (k <= length pre)%nat -> t !! k = Some (sumZ (take k lens))))
    (fun d i => x ← py_get d i; l ← py_get lens i; py_set d (i + 1) (x + l))
    (py_range (zlen lens)) d) as (d' & Hrun & Hl & Hk).
  - split; [done|]. intros k Hk. simpl in Hk. by assert (k = 0)%nat as -> by lia.
  - intros pre i post t Hpre [Hlt Ht].
    assert (Hi : i = zlen pre).
    { assert (Hi0 : py_range (zlen lens) !! length pre = Some i)
        by (rewrite Hpre; apply list_lookup_middle; done).
      apply lookup_seqZ in Hi0 as [-> _]. unfold zlen. lia. }
    assert (Hb : zlen pre < zlen lens).
    { pose proof (f_equal (@length Z) Hpre) as E. rewrite py_range_length, length_app in E.
      simpl in E. unfold zlen in *. lia. }
    subst i. unfold zlen in Hb.
    destruct (lookup_lt_is_Some_2 lens (length pre)) as [x Hx]; [lia|].
    unfold zlen.
    rewrite (py_get_nonneg t), (py_get_nonneg lens) by (unfold zlen; lia).
    rewrite Nat2Z.id, Hx, (Ht (length pre)) by lia. simpl.
    rewrite py_set_nonneg by (unfold zlen; lia). eexists. split; [done|].
    replace (Z.to_nat (Z.of_nat (length pre) + 1)) with (S (length pre)) by lia.
    rewrite length_insert. split; [done|]. intros k Hk. rewrite length_app in Hk. simpl in Hk.
    destruct (decide (k = S (length pre))) as [->|Hne].
    + rewrite list_lookup_insert_eq by lia. rewrite (take_S_r _ _ x), sumZ_app by done.
      simpl. f_equal. lia.
    + rewrite list_lookup_insert_ne by lia. apply Ht. lia.
  - exists d'. split; [done|]. apply list_eq. intros k.
    rewrite py_range_length in Hk. unfold zlen in Hk. rewrite Nat2Z.id in Hk.
    destruct (decide (k <= length lens)%nat).
    + by rewrite Hk, prefix_sums_lookup by lia.
    + rewrite !lookup_ge_None_2; [done|rewrite prefix_sums_length; lia|lia].
Qed.

(** ** Properties *)

(** The two prefix-sum routines agree: for a non-empty list of lengths both
    return the list whose entry [k] is the sum of the first [k] lengths, also
    when [make_seqlens_list] overwrites a caller's buffer of the right size,
    and both return [None] for an empty list. *)
Theorem make_seqlens_agree (lens : list Z) (dst : option (list Z)) :
  (forall d, dst = Some d -> length d = S (length lens)) ->
  make_seqlens_list lens dst = make_seqlens_cuda_tensor lens /\
  make_seqlens_cuda_tensor lens = Ok (if zlen lens =? 0 then None else Some (prefix_sums lens)).
Proof.
  intros Hd. unfold make_seqlens_list, make_seqlens_cuda_tensor.
  rewrite seqlens_append_spec. simpl. destruct (Z.eqb_spec (zlen lens) 0) as [|Hne]; [done|].
  split; [|done]. pose proof (zlen_nonneg lens).
  assert (Hrun : forall d, length d = S (length lens) ->
    (d ← py_set d 0 0;
     d ← py_for (fun d i => x ← py_get d i; l ← py_get lens i; py_set d (i + 1) (x + l))
           (py_range (zlen lens)) d; Ok (Some d)) = Ok (Some (prefix_sums lens))).
  { intros d Hl. rewrite py_set_nonneg by (unfold zlen in *; lia). simpl.
    change (Z.to_nat 0) with 0%nat.
    destruct (seqlens_list_loop lens (<[0%nat:=0]> d)) as (d' & -> & ->).
    - by rewrite length_insert.
    - apply list_lookup_insert_eq. lia.
    - done. }
  destruct dst as [d|].
  - specialize (Hd d eq_refl). unfold py_assert.
    destruct (Z.eqb_spec (zlen d) (zlen lens + 1)); [|unfold zlen in *; lia]. by apply Hrun.
  - apply Hrun. rewrite length_replicate. unfold zlen. lia.
Qed.

Lemma make_seqlens_agree_witness :
  make_seqlens_list [3; 1; 4] (Some [7; 7; 7; 7]) = make_seqlens_cuda_tensor [3; 1; 4] /\
  make_seqlens_cuda_tensor [3; 1; 4] = Ok (Some [0; 3; 4; 8]).
Proof. apply (make_seqlens_agree [3; 1; 4] (Some [7; 7; 7; 7])). intros d Hd. by simplify_eq. Defined.

End Utils.
