(* ===== verification/Config.v ===== *)
(** * Model configuration ([disagmoe/config.py])

    The [ModelConfig] dataclass with its defaults, its derived properties and the
    model presets of the module. *)

From stdpp Require Import strings.
From S2P Require Import Prelude PyFloat.

Module Config.

Inductive dtype : Type := bfloat16 | float16 | float32.

(** The [rope_scaling] dictionary of vLLM's YaRN embedding. *)
Record RopeScaling : Type := {
  rope_type : string;
  rope_factor : float;
  original_max_position_embeddings : Z;
  beta_fast : float;
  beta_slow : float;
}.

Record ModelConfig : Type := {
  hidden_size : Z;
  num_layers : Z;
  head_dim : Z;
  num_heads : Z;
  num_kv_heads : Z;
  num_experts : Z;
  intermediate_size : Z;
  cfg_dtype : dtype;
  ep_size : Z;
  tp_size : Z;
  dp_size : Z;
  rank : Z;
  layer_ids : option (list Z);
  top_k : Z;
  max_seq_len : Z;
  attn_qkv_quant : option string;
  moe_linear_quant : option string;
  num_shared_experts : Z;
  shared_expert_intermediate_size : option Z;
  max_position : Z;
  rope_theta : float;
  rope_scaling : option RopeScaling;
  rms_norm_eps : float;
  layer_types : option (list string);
  sliding_window : option Z;
  attention_bias : bool;
  attention_sinks : bool;
  router_norm : string;
  router_bias : bool;
  router_mode : string;
  swiglu_limit : option float;
  swiglu_alpha : float;
  expert_bias : bool;
  vocab_size : option Z;
  eos_token_ids : option (list Z);
  weights_dir : option string;
  sampler : string;
  kv_source : string;
  mooncake_master : option string;
  kv_model_tag : string;
}.

(** A decimal literal [m / 10 ^ k]: both operands are exact, so the quotient is
    the correctly rounded literal. *)
Definition dec (m k : Z) : float := fdiv (float_of_Z m) (float_of_Z (10 ^ k)).

(** [ModelConfig(hidden_size, ..., dtype, ep_size=ep, top_k=k)], the other
    fields at their defaults. *)
Definition make_config (hidden layers hdim heads kv_heads experts inter : Z) (dt : dtype)
    (ep k : Z) : ModelConfig := {|
  hidden_size := hidden;
  num_layers := layers;
  head_dim := hdim;
  num_heads := heads;
  num_kv_heads := kv_heads;
  num_experts := experts;
  intermediate_size := inter;
  cfg_dtype := dt;
  ep_size := ep;
  tp_size := 1;
  dp_size := 1;
  rank := 0;
  layer_ids := None;
  top_k := k;
  max_seq_len := 4096;
  attn_qkv_quant := None;
  moe_linear_quant := None;
  num_shared_experts := 0;
  shared_expert_intermediate_size := None;
  max_position := 4096 * 32;
  rope_theta := float_of_Z 10000;
  rope_scaling := None;
  rms_norm_eps := dec 1 6;
  layer_types := None;
  sliding_window := None;
  attention_bias := false;
  attention_sinks := false;
  router_norm := "softmax_topk_renorm";
  router_bias := false;
  router_mode := "model";
  swiglu_limit := None;
  swiglu_alpha := dec 1702 3;
  expert_bias := false;
  vocab_size := None;
  eos_token_ids := None;
  weights_dir := None;
  sampler := "dummy";
  kv_source := "none";
  mooncake_master := None;
  kv_model_tag := "gptoss120b";
|}.

(** ** Derived properties *)

Definition num_experts_per_rank (c : ModelConfig) : res Z :=
  py_floordiv (num_experts c) (ep_size c).

Definition sliding_window_of (c : ModelConfig) (layer_id : Z) : res (option Z) :=
  match layer_types c, sliding_window c with
  | Some types, Some w =>
      t ← py_get types layer_id;
      Ok (if bool_decide (t = "sliding_attention"%string) then Some w else None)
  | _, _ => Ok None
  end.

(** ** Presets *)

Definition mixtral_config : ModelConfig :=
  make_config 4096 32 128 32 8 8 14336 bfloat16 8 2.
Definition duo_expert_mixtral : ModelConfig :=
  make_config 4096 32 128 32 8 2 14336 bfloat16 2 1.
Definition qwen3_235b_config : ModelConfig :=
  make_config 4096 94 128 64 4 128 1536 bfloat16 1 8.
Definition qwen3_30b_config : ModelConfig :=
  make_config 2048 48 128 32 4 128 768 bfloat16 1 8.
Definition glm45air_106b_config : ModelConfig :=
  make_config 4096 45 128 96 8 128 1408 bfloat16 1 8.
Definition glm45air_half_config : ModelConfig :=
  make_config 4096 23 128 96 8 128 1408 bfloat16 1 8.

Definition gptoss_120b_config : ModelConfig := {|
  hidden_size := 2880;
  num_layers := 36;
  head_dim := 64;
  num_heads := 64;
  num_kv_heads := 8;
  num_experts := 128;
  intermediate_size := 2880;
  cfg_dtype := bfloat16;
  ep_size := 1;
  tp_size := 1;
  dp_size := 1;
  rank := 0;
  layer_ids := None;
  top_k := 4;
  max_seq_len := 4096;
  attn_qkv_quant := None;
  moe_linear_quant := None;
  num_shared_experts := 0;
  shared_expert_intermediate_size := None;
  max_position := 131072;
  rope_theta := float_of_Z 150000;
  rope_scaling := Some {| rope_type := "yarn"; rope_factor := float_of_Z 32;
                          original_max_position_embeddings := 4096;
                          beta_fast := float_of_Z 32; beta_slow := float_of_Z 1 |};
  rms_norm_eps := dec 1 5;
  layer_types := Some ((fun i => if i mod 2 =? 0 then "sliding_attention"%string
                                 else "full_attention"%string) <$> py_range 36);
  sliding_window := Some 128;
  attention_bias := true;
  attention_sinks := true;
  router_norm := "topk_softmax";
  router_bias := true;
  router_mode := "model";
  swiglu_limit := Some (float_of_Z 7);
  swiglu_alpha := dec 1702 3;
  expert_bias := true;
  vocab_size := Some 201088;
  eos_token_ids := Some [200002; 199999; 200012];
  weights_dir := None;
  sampler := "dummy";
  kv_source := "none";
  mooncake_master := None;
  kv_model_tag := "gptoss120b";
|}.

(** [EngineConfig] with its defaults. *)
Record EngineConfig : Type := {
  unified_scheduler_type : string;
  defrag_weight_decay : float;
  defrag_lookahead_steps : Z;
  defrag_lookback_steps : Z;
  enable_cuda_graph_attn : bool;
  enable_cuda_graph_expert : bool;
  enable_grouped_gemm : bool;
  less_than_sm90 : bool;
  max_batch_size_attn : Z;
  max_batch_size_expert : Z;
  max_attn_graph_bsz : Z;
  max_pending_sends : Z;
  enable_trace : bool;
  enable_advanced_logging : bool;
  advanced_logging_dir : string;
  advanced_logging_sample_rate : float;
}.

Definition make_engine_config (sched : string) (decay : float) (ahead back : Z) : EngineConfig := {|
  unified_scheduler_type := sched;
  defrag_weight_decay := decay;
  defrag_lookahead_steps := ahead;
  defrag_lookback_steps := back;
  enable_cuda_graph_attn := false;
  enable_cuda_graph_expert := false;
  enable_grouped_gemm := false;
  less_than_sm90 := false;
  max_batch_size_attn := 160;
  max_batch_size_expert := 512;
  max_attn_graph_bsz := 160;
  max_pending_sends := 16;
  enable_trace := false;
  enable_advanced_logging := false;
  advanced_logging_dir := "./advanced_logs";
  advanced_logging_sample_rate := dec 1 1;
|}.

(** The gpt-oss layers alternate, starting with a sliding one: the comment above
    the preset, read off the table it builds. *)
Lemma gptoss_layers_alternate i :
  0 <= i < 36 ->
  sliding_window_of gptoss_120b_config i = Ok (if i mod 2 =? 0 then Some 128 else None).
Proof.
  intros Hi. unfold sliding_window_of. cbn [layer_types sliding_window gptoss_120b_config].
  assert (Hget : py_get ((fun i => if i mod 2 =? 0 then "sliding_attention"%string
      else "full_attention"%string) <$> py_range 36) i
    = Ok (if i mod 2 =? 0 then "sliding_attention"%string else "full_attention"%string)).
  { apply py_get_Ok; [lia|]. rewrite list_lookup_fmap. unfold py_range.
    rewrite lookup_seqZ_lt by lia. simpl. by rewrite Z2Nat.id by lia. }
  rewrite Hget. simpl. by destruct (i mod 2 =? 0).
Qed.

End Config.
