(* ===== verification/Datatypes.v ===== *)
(** * Batches exchanged by the components ([disagmoe/frontend/datatypes.py])

    [BatchMetadata] travels with every batch of tokens;
    [AttentionScheduleBatch] is what the attention engine and the block managers
    work on.  A tensor is an element of a type [T].  [SloStat] is the per-request
    latency record the detokenizer fills. *)

From stdpp Require Import strings.
From S2P Require Import Prelude PyFloat Config.
Import Config.

Module Datatypes.

Record BatchMetadata : Type := {
  shape : list Z;
  md_dtype : string;
  layer_id : Z;
  req_ids : list Z;
  exp_ids : list Z;
  topk_weights : list float;
  attn_dp_ranks : list Z;
  init_prefill_lens : list Z;
  num_prefill_seqs : option Z;
  num_prefill_tokens : option Z;
  num_decode_tokens : option Z;
}.

Record AttentionScheduleBatch (T : Type) : Type := {
  sb_shape : list Z;
  sb_dtype : string;
  sb_layer_id : Z;
  sb_req_ids : list Z;
  sb_init_prefill_lens : list Z;
  sb_num_prefill_seqs : Z;
  sb_num_prefill_tokens : Z;
  sb_num_decode_tokens : Z;
  sb_data : T;
  sb_req_indices : option (list Z);
  sb_seq_lens : option (list Z);
}.
Arguments sb_shape {T} _.
Arguments sb_dtype {T} _.
Arguments sb_layer_id {T} _.
Arguments sb_req_ids {T} _.
Arguments sb_init_prefill_lens {T} _.
Arguments sb_num_prefill_seqs {T} _.
Arguments sb_num_prefill_tokens {T} _.
Arguments sb_num_decode_tokens {T} _.
Arguments sb_data {T} _.
Arguments sb_req_indices {T} _.
Arguments sb_seq_lens {T} _.

Definition sb_num_tokens {T} (b : AttentionScheduleBatch T) : Z :=
  sb_num_decode_tokens b + sb_num_prefill_tokens b.

(** [build]: the optional counters of an attention batch are always set; the
    code copies [None] through, which the engine never does. *)
Definition build {T} (m : BatchMetadata) (data : T) : option (AttentionScheduleBatch T) :=
  s ← num_prefill_seqs m;
  p ← num_prefill_tokens m;
  d ← num_decode_tokens m;
  Some {| sb_shape := shape m; sb_dtype := md_dtype m; sb_layer_id := layer_id m;
          sb_req_ids := req_ids m; sb_init_prefill_lens := init_prefill_lens m;
          sb_num_prefill_seqs := s; sb_num_prefill_tokens := p; sb_num_decode_tokens := d;
          sb_data := data; sb_req_indices := None; sb_seq_lens := None |}.

Definition to_metadata {T} (b : AttentionScheduleBatch T) : BatchMetadata :=
  {| shape := sb_shape b; md_dtype := sb_dtype b; layer_id := sb_layer_id b;
     req_ids := sb_req_ids b; exp_ids := []; topk_weights := []; attn_dp_ranks := [];
     init_prefill_lens := sb_init_prefill_lens b;
     num_prefill_seqs := Some (sb_num_prefill_seqs b);
     num_prefill_tokens := Some (sb_num_prefill_tokens b);
     num_decode_tokens := Some (sb_num_decode_tokens b) |}.

(** ** Requests and results *)

Record TokenizedRequest : Type := {
  tr_req_id : Z;
  tr_init_prefill_len : Z;
  tr_max_output_len : Z;
  tr_token_ids : list Z;
}.

Record BatchDecodeResult : Type := {
  bd_req_ids : list Z;
  bd_token_ids : list Z;
  bd_is_eos : list bool;
}.

Record SamplerStepInfo : Type := { ssi_num_tokens : Z; ssi_time_stamp : Z }.

(** ** [SloStat] *)

Record SloStat : Type := {
  slo_req_id : Z;
  t_prefill : float;
  t_prefill_std : float;
  t_decode : float;
  t_tokens : list float;
  t_token_timestamps : option (list float);
}.

Definition ms_to_s : float := dec 1 3.

(** [post_process]: milliseconds to seconds, token times to token intervals. *)
Definition post_process (s : SloStat) : SloStat :=
  {| slo_req_id := slo_req_id s;
     t_prefill := fmul (t_prefill s) ms_to_s;
     t_prefill_std := fmul (t_prefill_std s) ms_to_s;
     t_decode := fmul (fsub (t_decode s) (t_prefill s)) ms_to_s;
     t_tokens := zip_with (fun x y => fmul (fsub x y) ms_to_s)
                   (py_drop 1 (t_tokens s)) (py_take (-1) (t_tokens s));
     t_token_timestamps := Some ((fun t => fmul t ms_to_s) <$> t_tokens s) |}.

Lemma py_take_neg1 {A} (l : list A) : py_take (-1) l = take (length l - 1) l.
Proof. unfold py_take, py_clamp, zlen. f_equal. simpl. lia. Qed.

(** Interval [k] is the difference of token times [k + 1] and [k]. *)
Lemma post_process_intervals s k x y :
  t_tokens s !! k = Some x -> t_tokens s !! S k = Some y ->
  t_tokens (post_process s) !! k = Some (fmul (fsub y x) ms_to_s).
Proof.
  intros Hx Hy. simpl. rewrite lookup_zip_with, py_drop_nonneg, py_take_neg1 by lia.
  rewrite lookup_drop. change (Z.to_nat 1 + k)%nat with (S k). rewrite Hy. simpl.
  rewrite lookup_take_lt, Hx; [done|]. apply lookup_lt_Some in Hy. lia.
Qed.

Lemma post_process_length s :
  length (t_tokens (post_process s)) = (length (t_tokens s) - 1)%nat.
Proof.
  simpl. rewrite length_zip_with, py_drop_nonneg, py_take_neg1, length_drop, length_take by lia.
  simpl. lia.
Qed.

End Datatypes.
