(* ===== verification/DPScheduler.v ===== *)
(** * The data-parallel request scheduler
    ([disagmoe/scheduler/dpscheduler.py])

    [DPScheduler] assigns each waiting request to an attention replica (a rank)
    that has enough free KV-cache blocks.  The base class is the record
    [DPScheduler P], generic in the state [P] of the policy that overrides
    [_schedule]; the class [Policy] is that method.  The asyncio coroutine
    [waiting_loop] is the step function [loop_step] of a machine whose program
    counter is the [await] it is suspended at. *)

From S2P Require Import Prelude PyFloat.

Module DP.

Record RequestItem : Type := {
  req_id : Z;
  seq_len : Z;
  prefill_len : Z;
  output_len : Z;
}.

#[export] Instance RequestItem_eq_dec : EqDecision RequestItem.
Proof. solve_decision. Defined.

Record DPScheduler (P : Type) : Type := {
  dp_size : Z;
  kv_cache_stats : list Z;
  block_size : Z;
  seq_ranks : gmap Z Z;
  seq_max_len : gmap Z (Z * Z);
  end_flag : bool;
  end_event : bool;
  sch_event : bool;
  waiting_queue : list RequestItem;
  policy : P;
}.
Arguments dp_size {P} _.
Arguments kv_cache_stats {P} _.
Arguments block_size {P} _.
Arguments seq_ranks {P} _.
Arguments seq_max_len {P} _.
Arguments end_flag {P} _.
Arguments end_event {P} _.
Arguments sch_event {P} _.
Arguments waiting_queue {P} _.
Arguments policy {P} _.

(** Field updates. *)
Definition with_stats {P} (l : list Z) (s : DPScheduler P) : DPScheduler P :=
  {| dp_size := dp_size s; kv_cache_stats := l; block_size := block_size s;
     seq_ranks := seq_ranks s; seq_max_len := seq_max_len s; end_flag := end_flag s;
     end_event := end_event s; sch_event := sch_event s;
     waiting_queue := waiting_queue s; policy := policy s |}.
Definition with_seqs {P} (r : gmap Z Z) (m : gmap Z (Z * Z)) (s : DPScheduler P) : DPScheduler P :=
  {| dp_size := dp_size s; kv_cache_stats := kv_cache_stats s; block_size := block_size s;
     seq_ranks := r; seq_max_len := m; end_flag := end_flag s;
     end_event := end_event s; sch_event := sch_event s;
     waiting_queue := waiting_queue s; policy := policy s |}.
Definition with_events {P} (ef ee se : bool) (s : DPScheduler P) : DPScheduler P :=
  {| dp_size := dp_size s; kv_cache_stats := kv_cache_stats s; block_size := block_size s;
     seq_ranks := seq_ranks s; seq_max_len := seq_max_len s; end_flag := ef;
     end_event := ee; sch_event := se;
     waiting_queue := waiting_queue s; policy := policy s |}.
Definition with_queue {P} (q : list RequestItem) (s : DPScheduler P) : DPScheduler P :=
  {| dp_size := dp_size s; kv_cache_stats := kv_cache_stats s; block_size := block_size s;
     seq_ranks := seq_ranks s; seq_max_len := seq_max_len s; end_flag := end_flag s;
     end_event := end_event s; sch_event := sch_event s;
     waiting_queue := q; policy := policy s |}.
Definition with_policy {P} (p : P) (s : DPScheduler P) : DPScheduler P :=
  {| dp_size := dp_size s; kv_cache_stats := kv_cache_stats s; block_size := block_size s;
     seq_ranks := seq_ranks s; seq_max_len := seq_max_len s; end_flag := end_flag s;
     end_event := end_event s; sch_event := sch_event s;
     waiting_queue := waiting_queue s; policy := p |}.

(** ** The base class *)

(** [__init__] and [reset]: fresh events and an empty queue. *)
Definition reset {P} (s : DPScheduler P) : DPScheduler P :=
  with_queue [] (with_events false false false s).

Definition init {P} (dp bs : Z) (p : P) : DPScheduler P :=
  reset {| dp_size := dp; kv_cache_stats := (fun _ => 0) <$> py_range dp; block_size := bs;
           seq_ranks := ∅; seq_max_len := ∅; end_flag := false; end_event := false;
           sch_event := false; waiting_queue := []; policy := p |}.

Definition put_request {P} (it : RequestItem) (s : DPScheduler P) : DPScheduler P :=
  with_queue (waiting_queue s ++ [it]) s.

Definition required_blocks {P} (s : DPScheduler P) (prefill output : Z) : res Z :=
  let bs := block_size s in
  a ← py_floordiv (prefill + bs - 1) bs;
  b ← py_floordiv (output + bs - 1) bs;
  Ok (a + b).

(** [for rank, num_blocks in stats.items(): self.kv_cache_stats[rank] = num_blocks] *)
Definition init_kv_cache_stats {P} (stats : list (Z * Z)) (s : DPScheduler P)
  : res (DPScheduler P) :=
  l ← py_for (fun l '(rank, num_blocks) => py_set l rank num_blocks) stats (kv_cache_stats s);
  Ok (with_stats l s).

Definition start {P} (stats : list (Z * Z)) (s : DPScheduler P) : res (DPScheduler P) :=
  s' ← init_kv_cache_stats stats s; Ok (reset s').

Definition add_seq {P} (seq_id prefill output rank : Z) (s : DPScheduler P)
  : res (DPScheduler P) :=
  let m := <[seq_id := (prefill, output)]> (seq_max_len s) in
  required ← required_blocks s prefill output;
  old ← py_get (kv_cache_stats s) rank;
  l ← py_set (kv_cache_stats s) rank (old - required);
  Ok (with_stats l (with_seqs (<[seq_id := rank]> (seq_ranks s)) m s)).

Definition del_seq {P} (seq_id : Z) (s : DPScheduler P) : res (DPScheduler P) :=
  rank ← of_option KeyError (seq_ranks s !! seq_id);
  '(prefill, output) ← of_option KeyError (seq_max_len s !! seq_id);
  required ← required_blocks s prefill output;
  old ← py_get (kv_cache_stats s) rank;
  l ← py_set (kv_cache_stats s) rank (old + required);
  Ok (with_events (end_flag s) (end_event s) true
       (with_stats l
         (with_seqs (delete seq_id (seq_ranks s)) (delete seq_id (seq_max_len s)) s))).

(** [_schedule], the method every concrete scheduler overrides; it may update
    the policy's own state. *)
Class Policy (P : Type) : Type :=
  _schedule : DPScheduler P -> Z -> Z -> res (Z * P).

(** One turn of the [for] loop of [schedule]. *)
Definition schedule_one {P} `{Policy P} (acc : DPScheduler P * list Z) (r : Z * Z * Z)
  : res (DPScheduler P * list Z) :=
  let '(s, ranks) := acc in
  let '(req, plen, olen) := r in
  '(rank, p) ← _schedule s plen olen;
  let s := with_policy p s in
  if 0 <=? rank
  then s' ← add_seq req plen olen rank s; Ok (s', ranks ++ [rank])
  else Ok (s, ranks ++ [rank]).

Definition schedule {P} `{Policy P} (req_ids prefill_lens output_lens : list Z)
    (s : DPScheduler P) : res (DPScheduler P * list Z) :=
  py_for schedule_one (zip (zip req_ids prefill_lens) output_lens) (s, []).

(** ** The policies *)

(** [DPSchedulerMax]: the rank with most free blocks. *)
Inductive DPSchedulerMax : Type := MaxPolicy.

Fixpoint max_loop (i : Z) (l : list Z) (stat rank : Z) : Z * Z :=
  match l with
  | [] => (stat, rank)
  | num_blocks :: l =>
      if num_blocks >? stat then max_loop (i + 1) l num_blocks i
      else max_loop (i + 1) l stat rank
  end.

#[export] Instance max_schedule : Policy DPSchedulerMax := fun s prefill output =>
  let '(stat, rank) := max_loop 0 (kv_cache_stats s) 0 (-1) in
  required ← required_blocks s prefill output;
  if stat <? required then Ok (-1, policy s) else Ok (rank, policy s).

(** [DPSChedulerRR]: round robin, without looking at the capacity. *)
Record DPSChedulerRR : Type := { rr_cur_rank : Z }.

#[export] Instance rr_schedule : Policy DPSChedulerRR := fun s _ _ =>
  let rank := rr_cur_rank (policy s) in
  next ← py_mod (rr_cur_rank (policy s) + 1) (dp_size s);
  Ok (rank, {| rr_cur_rank := next |}).

(** [DPSchedulerCapRR]: round robin over the ranks with enough blocks. *)
Record DPSchedulerCapRR : Type := { cap_cur_rank : Z }.

Fixpoint caprr_loop (n : nat) (dp : Z) (stats : list Z) (required cur : Z) : res (Z * Z) :=
  match n with
  | O => Ok (-1, cur)
  | S n =>
      let rank := cur in
      next ← py_mod (cur + 1) dp;
      free ← py_get stats rank;
      if free >=? required then Ok (rank, next) else caprr_loop n dp stats required next
  end.

#[export] Instance caprr_schedule : Policy DPSchedulerCapRR := fun s prefill output =>
  required ← required_blocks s prefill output;
  '(rank, cur) ← caprr_loop (Z.to_nat (dp_size s)) (dp_size s) (kv_cache_stats s) required
                   (cap_cur_rank (policy s));
  Ok (rank, {| cap_cur_rank := cur |}).

(** [DPSchedulerWeighted]: the rank whose free blocks times weight is largest. *)
Record DPSchedulerWeighted : Type := { weights : list float }.

Definition weighted_init (dp bs : Z) (ws : list float) : res (DPScheduler DPSchedulerWeighted) :=
  let s := init dp bs {| weights := [] |} in
  _ ← py_assert (zlen ws =? dp);
  let total := fsum ws in
  ns ← py_map (fun w => if is_zero total then Raise ZeroDivisionError
                        else Ok (fdiv w total)) ws;
  Ok (with_policy {| weights := ns |} s).

Fixpoint weighted_loop (i : Z) (stats : list Z) (ws : list float) (required : Z)
    (best_rank : Z) (best_score : float) : res Z :=
  match stats with
  | [] => Ok best_rank
  | num_blocks :: stats =>
      if num_blocks <? required
      then weighted_loop (i + 1) stats ws required best_rank best_score
      else
        w ← py_get ws i;
        let score := fmul (float_of_Z num_blocks) w in
        if fltb best_score score
        then weighted_loop (i + 1) stats ws required i score
        else weighted_loop (i + 1) stats ws required best_rank best_score
  end.

#[export] Instance weighted_schedule : Policy DPSchedulerWeighted := fun s prefill output =>
  required ← required_blocks s prefill output;
  rank ← weighted_loop 0 (kv_cache_stats s) (weights (policy s)) required (-1) (float_of_Z (-1));
  Ok (rank, policy s).

(** [get_dp_scheduler]: the class by its name; only [weighted] takes weights. *)
Inductive AnyScheduler : Type :=
  | SchedRR (s : DPScheduler DPSChedulerRR)
  | SchedMax (s : DPScheduler DPSchedulerMax)
  | SchedCapRR (s : DPScheduler DPSchedulerCapRR)
  | SchedWeighted (s : DPScheduler DPSchedulerWeighted).

Inductive PolicyName : Type := PN_RR | PN_max | PN_cap_rr | PN_weighted | PN_other.

Definition get_dp_scheduler (dp bs : Z) (name : PolicyName) (ws : option (list float))
  : res AnyScheduler :=
  match name with
  | PN_RR => Ok (SchedRR (init dp bs {| rr_cur_rank := 0 |}))
  | PN_max => Ok (SchedMax (init dp bs MaxPolicy))
  | PN_cap_rr => Ok (SchedCapRR (init dp bs {| cap_cur_rank := 0 |}))
  | PN_weighted =>
      match ws with
      | None => Raise AssertionError
      | Some ws => s ← weighted_init dp bs ws; Ok (SchedWeighted s)
      end
  | PN_other => Raise KeyError
  end.

(** ** The waiting loop

    [waiting_loop] is suspended either at [asyncio.wait] of the queue and the
    end event, or at [sch_event.wait] with the request it could not place. *)

Inductive LoopPC : Type :=
  | Waiting
  | Blocked (it : RequestItem)
  | Finished.

(** [submitted] records the calls [request_item.func(req_id, .., rank)]. *)
Record Sys (P : Type) : Type := {
  sched : DPScheduler P;
  pc : LoopPC;
  submitted : list (RequestItem * Z);
}.
Arguments sched {P} _.
Arguments pc {P} _.
Arguments submitted {P} _.

(** After [schedule]: submit and go back to the loop head (which leaves when the
    end flag is up), or wait for capacity. *)
Definition after_schedule {P} (it : RequestItem) (log : list (RequestItem * Z))
    (r : DPScheduler P * list Z) : res (Sys P) :=
  rank ← py_get r.2 0;
  if rank <? 0 then Ok {| sched := r.1; pc := Blocked it; submitted := log |}
  else Ok {| sched := r.1; pc := if end_flag r.1 then Finished else Waiting;
             submitted := log ++ [(it, rank)] |}.

(** One resumption of the coroutine; [None] while the awaited event is missing.
    A request the [get] task popped together with the end event is dropped. *)
Definition loop_step {P} `{Policy P} (y : Sys P) : option (res (Sys P)) :=
  let s := sched y in
  match pc y with
  | Finished => None
  | Waiting =>
      if end_event s
      then Some (Ok {| sched := with_queue (tail (waiting_queue s)) s; pc := Finished;
                       submitted := submitted y |})
      else
        match waiting_queue s with
        | [] => None
        | it :: q =>
            Some (r ← schedule [req_id it] [prefill_len it] [output_len it] (with_queue q s);
                  after_schedule it (submitted y) r)
        end
  | Blocked it =>
      if sch_event s
      then Some (r ← schedule [req_id it] [prefill_len it] [output_len it]
                       (with_events (end_flag s) (end_event s) false s);
                 after_schedule it (submitted y) r)
      else None
  end.

(** [terminate] up to its [await self._loop_task]. *)
Definition terminate_begin {P} (s : DPScheduler P) : DPScheduler P :=
  with_events true true (sch_event s) s.

(** ** Specification of the policies *)

(** The blocks a request may come to occupy. *)
Definition req (bs prefill output : Z) : Z :=
  (prefill + bs - 1) / bs + (output + bs - 1) / bs.

Lemma required_blocks_eq {P} (s : DPScheduler P) p o :
  block_size s <> 0 -> required_blocks s p o = Ok (req (block_size s) p o).
Proof.
  intros. unfold required_blocks, py_floordiv. destruct (Z.eqb_spec (block_size s) 0); done.
Qed.

(** The base class is well formed and so is its policy's own state. *)
Definition wf_with {P} (ok : Z -> P -> Prop) (s : DPScheduler P) : Prop :=
  0 < block_size s /\ 0 < dp_size s /\ zlen (kv_cache_stats s) = dp_size s /\
  ok (dp_size s) (policy s).

(** What the base class may rely on, for a policy whose state satisfies
    [pol_ok]: a decision is always taken, and is a rank of the cluster or
    negative.  A policy that looks at the free counts ([checks_capacity]) also
    grants a rank only if it has the blocks, and refuses only when no rank has
    them.  Every policy of [get_dp_scheduler] is an instance. *)
Class PolicyLaws (P : Type) `{Policy P} : Type := {
  pol_ok : Z -> P -> Prop;
  checks_capacity : bool;
  law_total : forall (s : DPScheduler P) p o, wf_with pol_ok s ->
    exists rank p', _schedule s p o = Ok (rank, p') /\ rank < dp_size s /\
                    pol_ok (dp_size s) p';
  law_capacity : forall (s : DPScheduler P) p o rank p', checks_capacity = true ->
    wf_with pol_ok s -> _schedule s p o = Ok (rank, p') -> 0 <= rank ->
    0 < req (block_size s) p o ->
    exists free, kv_cache_stats s !! Z.to_nat rank = Some free /\
                 req (block_size s) p o <= free;
  law_complete : forall (s : DPScheduler P) p o rank p', checks_capacity = true ->
    wf_with pol_ok s -> _schedule s p o = Ok (rank, p') -> rank < 0 ->
    0 < req (block_size s) p o ->
    Forall (fun free => free < req (block_size s) p o) (kv_cache_stats s);
}.
Arguments checks_capacity P {_ _}.

(** The policies that look at the free counts: [DPSchedulerMax],
    [DPSchedulerCapRR] and [DPSchedulerWeighted], not [DPSChedulerRR]. *)
Class CapacityPolicy (P : Type) `{PolicyLaws P} : Prop :=
  policy_checks : checks_capacity P = true.

Definition wf {P} `{PolicyLaws P} (s : DPScheduler P) : Prop := wf_with pol_ok s.

(** *** [DPSchedulerMax] *)

Lemma max_loop_spec l i stat rank :
  let '(stat', rank') := max_loop i l stat rank in
  stat <= stat' /\ Forall (fun x => x <= stat') l /\
  ((stat' = stat /\ rank' = rank) \/
   (stat < stat' /\ i <= rank' < i + zlen l /\ l !! Z.to_nat (rank' - i) = Some stat')).
Proof.
  revert i stat rank; induction l as [|x l IH]; intros i stat rank; simpl.
  { split; [lia|]. split; [done|]. by left. }
  rewrite zlen_cons. rewrite Z.gtb_ltb. destruct (Z.ltb_spec stat x) as [Hlt|Hge].
  - specialize (IH (i + 1) x i). destruct (max_loop (i + 1) l x i) as [st rk].
    destruct IH as (Hle & Hall & Hc). split; [lia|]. split; [by constructor|]. right.
    pose proof (zlen_nonneg l).
    destruct Hc as [[-> ->]|(? & ? & Hl)].
    + split; [done|]. split; [lia|]. by rewrite Z.sub_diag.
    + split; [lia|]. split; [lia|]. by replace (Z.to_nat (rk - i)) with (S (Z.to_nat (rk - (i + 1)))) by lia.
  - specialize (IH (i + 1) stat rank). destruct (max_loop (i + 1) l stat rank) as [st rk].
    destruct IH as (Hle & Hall & Hc). split; [lia|]. split; [constructor; [lia|done]|].
    destruct Hc as [[-> ->]|(? & ? & Hl)]; [by left|right].
    split; [lia|]. split; [lia|]. by replace (Z.to_nat (rk - i)) with (S (Z.to_nat (rk - (i + 1)))) by lia.
Qed.

Lemma max_schedule_eq (s : DPScheduler DPSchedulerMax) p o :
  block_size s <> 0 ->
  _schedule s p o =
    let '(stat, rank) := max_loop 0 (kv_cache_stats s) 0 (-1) in
    Ok (if stat <? req (block_size s) p o then -1 else rank, policy s).
Proof.
  intros. unfold _schedule, max_schedule. destruct (max_loop _ _ _ _) as [st rk].
  rewrite required_blocks_eq by done. simpl. by destruct (_ <? _).
Qed.

#[export, refine] Instance max_laws : PolicyLaws DPSchedulerMax :=
  {| pol_ok := fun _ _ => True; checks_capacity := true |}.
Proof.
  all: intros s p o.
  - intros (? & ? & ? & _). rewrite max_schedule_eq by lia.
    pose proof (max_loop_spec (kv_cache_stats s) 0 0 (-1)).
    destruct (max_loop _ _ _ _) as [st rk]. eexists _, _. split; [done|].
    split; [|done]. destruct (_ <? _); [lia|]. destruct H2 as (_ & _ & [[_ ->]|?]); lia.
  - intros rank p' _ (? & ? & ? & _). rewrite max_schedule_eq by lia.
    pose proof (max_loop_spec (kv_cache_stats s) 0 0 (-1)).
    destruct (max_loop _ _ _ _) as [st rk]. intros; simplify_eq.
    destruct (Z.ltb_spec st (req (block_size s) p o)); [lia|].
    destruct H2 as (_ & _ & [[_ ->]|(_ & _ & Hl)]); [lia|].
    exists st. by rewrite Z.sub_0_r in Hl.
  - intros rank p' _ (? & ? & ? & _). rewrite max_schedule_eq by lia.
    pose proof (max_loop_spec (kv_cache_stats s) 0 0 (-1)).
    destruct (max_loop _ _ _ _) as [st rk]. intros; simplify_eq.
    destruct H2 as (_ & Hall & Hc).
    assert (st < req (block_size s) p o).
    { destruct (Z.ltb_spec st (req (block_size s) p o)); [done|].
      destruct Hc as [[-> ->]|?]; lia. }
    eapply Forall_impl; [exact Hall|]. simpl. lia.
Defined.

#[export] Instance max_capacity : CapacityPolicy DPSchedulerMax.
Proof. reflexivity. Qed.

(** *** [DPSChedulerRR] *)

#[export, refine] Instance rr_laws : PolicyLaws DPSChedulerRR :=
  {| pol_ok := fun dp pl => 0 <= rr_cur_rank pl < dp; checks_capacity := false |}.
Proof.
  all: intros s p o; try done.
  intros (_ & Hdp & _ & Hcur). unfold _schedule, rr_schedule, py_mod.
  destruct (Z.eqb_spec (dp_size s) 0); [lia|]. eexists _, _. split; [done|].
  split; [apply Hcur|]. by apply Z.mod_pos_bound.
Defined.

(** *** [DPSchedulerCapRR] *)

(** The rank [k] places after [cur], cyclically. *)
Definition rot (dp cur k : Z) : Z := (cur + k) mod dp.

(** The loop from [cur] tries [rot dp cur 0], [rot dp cur 1], ... and returns the
    first with enough blocks; the next search starts just after it. *)
Lemma caprr_loop_spec n dp stats required cur :
  0 < dp -> zlen stats = dp -> 0 <= cur < dp ->
  (exists k, 0 <= k < Z.of_nat n /\
     caprr_loop n dp stats required cur = Ok (rot dp cur k, rot dp cur (k + 1)) /\
     (exists free, stats !! Z.to_nat (rot dp cur k) = Some free /\ required <= free) /\
     forall j free, 0 <= j < k -> stats !! Z.to_nat (rot dp cur j) = Some free -> free < required) \/
  (caprr_loop n dp stats required cur = Ok (-1, rot dp cur (Z.of_nat n)) /\
   forall j free, 0 <= j < Z.of_nat n ->
     stats !! Z.to_nat (rot dp cur j) = Some free -> free < required).
Proof.
  intros Hdp Hlen. revert cur; induction n as [|n IH]; intros cur Hcur; simpl caprr_loop.
  { right. unfold rot. rewrite Z.add_0_r, Z.mod_small by lia. split; [done|]. lia. }
  unfold py_mod. destruct (Z.eqb_spec dp 0); [lia|]. simpl.
  assert (Hr0 : rot dp cur 0 = cur) by (unfold rot; rewrite Z.add_0_r; apply Z.mod_small; lia).
  assert (Hshift : forall k, rot dp ((cur + 1) mod dp) k = rot dp cur (k + 1)).
  { intros k. unfold rot. rewrite Zplus_mod_idemp_l. f_equal. lia. }
  destruct (stats !! Z.to_nat cur) as [free|] eqn:Hfree.
  2:{ apply lookup_ge_None in Hfree. unfold zlen in Hlen. lia. }
  rewrite py_get_nonneg by lia. rewrite Hfree. simpl. rewrite Z.geb_leb.
  destruct (Z.leb_spec required free).
  - left. exists 0. split; [lia|]. rewrite Hr0. split; [done|]. split; [by exists free|]. lia.
  - assert (Hnext : 0 <= (cur + 1) mod dp < dp) by (apply Z.mod_pos_bound; lia).
    assert (Hext : forall m, (forall j f, 0 <= j < m -> stats !! Z.to_nat (rot dp ((cur + 1) mod dp) j) = Some f -> f < required) ->
      forall j f, 0 <= j < m + 1 -> stats !! Z.to_nat (rot dp cur j) = Some f -> f < required).
    { intros m Hm j f Hj Hf. destruct (decide (j = 0)) as [->|].
      - rewrite Hr0 in Hf. simplify_eq. lia.
      - apply (Hm (j - 1)); [lia|]. rewrite Hshift. by replace (j - 1 + 1) with j by lia. }
    destruct (IH _ Hnext) as [(k & Hk & Heq & Hfound & Hbefore)|[Heq Hnone]]; rewrite Heq.
    + left. exists (k + 1). rewrite !Hshift in *. split; [lia|]. split; [done|].
      split; [done|]. by apply Hext.
    + right. rewrite Hshift. split; [do 2 f_equal; f_equal; lia|].
      replace (Z.of_nat (S n)) with (Z.of_nat n + 1) by lia. by apply Hext.
Qed.

Lemma rot_surj dp cur i : 0 < dp -> 0 <= i < dp -> exists k, 0 <= k < dp /\ rot dp cur k = i.
Proof.
  intros. exists ((i - cur) mod dp). split; [apply Z.mod_pos_bound; lia|].
  unfold rot. rewrite Zplus_mod_idemp_r. replace (cur + (i - cur)) with i by lia.
  apply Z.mod_small. lia.
Qed.

Lemma caprr_schedule_eq (s : DPScheduler DPSchedulerCapRR) p o :
  block_size s <> 0 ->
  _schedule s p o =
    ('(rank, cur) ← caprr_loop (Z.to_nat (dp_size s)) (dp_size s) (kv_cache_stats s)
                     (req (block_size s) p o) (cap_cur_rank (policy s));
     Ok (rank, {| cap_cur_rank := cur |})).
Proof. intros. unfold _schedule, caprr_schedule. by rewrite required_blocks_eq. Qed.

Lemma rot_bound dp cur k : 0 < dp -> 0 <= rot dp cur k < dp.
Proof. intros. by apply Z.mod_pos_bound. Qed.

#[export, refine] Instance caprr_laws : PolicyLaws DPSchedulerCapRR :=
  {| pol_ok := fun dp pl => 0 <= cap_cur_rank pl < dp; checks_capacity := true |}.
Proof.
  all: intros s p o.
  - intros (? & ? & ? & ?). rewrite caprr_schedule_eq by lia.
    destruct (caprr_loop_spec (Z.to_nat (dp_size s)) (dp_size s) (kv_cache_stats s)
      (req (block_size s) p o) (cap_cur_rank (policy s))) as [(k & _ & -> & _)|[-> _]]; try done;
      simpl; eexists _, _; (split; [done|]); split; simpl; try lia;
      try (by apply rot_bound); pose proof (rot_bound (dp_size s) (cap_cur_rank (policy s)) k); lia.
  - intros rank p' _ (? & ? & ? & ?). rewrite caprr_schedule_eq by lia.
    destruct (caprr_loop_spec (Z.to_nat (dp_size s)) (dp_size s) (kv_cache_stats s)
      (req (block_size s) p o) (cap_cur_rank (policy s))) as [(k & _ & -> & Hf & _)|[-> _]]; try done;
      simpl; intros; simplify_eq; [done|lia].
  - intros rank p' _ (? & ? & Hlen & ?). rewrite caprr_schedule_eq by lia.
    destruct (caprr_loop_spec (Z.to_nat (dp_size s)) (dp_size s) (kv_cache_stats s)
      (req (block_size s) p o) (cap_cur_rank (policy s))) as [(k & _ & -> & _)|[-> Hn]]; try done;
      simpl; intros; simplify_eq.
    + pose proof (rot_bound (dp_size s) (cap_cur_rank (policy s)) k). lia.
    + apply Forall_lookup. intros i free Hi.
      destruct (rot_surj (dp_size s) (cap_cur_rank (policy s)) (Z.of_nat i)) as (k & Hk & Hr); [lia| |].
      { apply lookup_lt_Some in Hi. unfold zlen in Hlen. lia. }
      apply (Hn k); [lia|]. by rewrite Hr, Nat2Z.id.
Defined.

#[export] Instance caprr_capacity : CapacityPolicy DPSchedulerCapRR.
Proof. reflexivity. Qed.

(** *** [DPSchedulerWeighted] *)

(** [r] is the answer among the ranks of [l] numbered from [i]: eligible, and no
    eligible rank scores more; [-1] when [b] was never beaten. *)
Definition weighted_post (i : Z) (l : list Z) (ws : list float) (required r0 : Z) (b0 : float)
    (r : Z) : Prop :=
  (r = r0 /\ forall k nb w, l !! k = Some nb -> required <= nb ->
     ws !! (Z.to_nat i + k)%nat = Some w -> ~ flt b0 (fmul (float_of_Z nb) w)) \/
  (exists k nb w, r = i + Z.of_nat k /\ l !! k = Some nb /\ required <= nb /\
     ws !! (Z.to_nat i + k)%nat = Some w /\ flt b0 (fmul (float_of_Z nb) w) /\
     forall k' nb' w', l !! k' = Some nb' -> required <= nb' ->
       ws !! (Z.to_nat i + k')%nat = Some w' ->
       ~ flt (fmul (float_of_Z nb) w) (fmul (float_of_Z nb') w')).

Lemma weighted_loop_spec i l ws required r0 b0 :
  0 <= i -> i + zlen l <= zlen ws -> 0 <= required ->
  Forall (fun w => fpos w = true) ws ->
  exists r, weighted_loop i l ws required r0 b0 = Ok r /\
            weighted_post i l ws required r0 b0 r.
Proof.
  intros Hi Hlen Hreq Hpos. revert i r0 b0 Hi Hlen.
  induction l as [|nb l IH]; intros i r0 b0 Hi Hlen; simpl.
  { exists r0. split; [done|]. by left. }
  rewrite zlen_cons in Hlen. pose proof (zlen_nonneg l).
  assert (Hsh : forall k, (Z.to_nat (i + 1) + k)%nat = (Z.to_nat i + S k)%nat) by lia.
  destruct (Z.ltb_spec nb required) as [Hlt|Hge].
  - destruct (IH (i + 1) r0 b0) as (r & Hr & Hpost); [lia|lia|]. exists r. split; [done|].
    destruct Hpost as [[-> Hall]|(k & nb1 & w1 & -> & Hk & Hnb & Hw & Hb & Hmax)].
    + left. split; [done|]. intros [|k] nb2 w2 Hl; simplify_eq/=; [lia|].
      rewrite <-Hsh. by apply Hall.
    + right. exists (S k), nb1, w1. rewrite <-Hsh. split; [lia|]. do 4 (split; [done|]).
      intros [|k'] nb2 w2 Hl; simplify_eq/=; [lia|]. rewrite <-Hsh. by apply Hmax.
  - destruct (ws !! Z.to_nat i) as [w|] eqn:Hw.
    2:{ apply lookup_ge_None in Hw. unfold zlen in *. lia. }
    rewrite py_get_nonneg by lia. rewrite Hw. simpl.
    assert (Hnn : is_nan (fmul (float_of_Z nb) w) = false).
    { apply fnonneg_not_nan, fmul_nonneg_pos; [apply float_of_Z_nonneg; lia|].
      rewrite Forall_lookup in Hpos. eauto. }
    destruct (fltb b0 (fmul (float_of_Z nb) w)) eqn:E.
    + apply fltb_flt in E.
      destruct (IH (i + 1) i (fmul (float_of_Z nb) w)) as (r & Hr & Hpost); [lia|lia|].
      exists r. split; [done|]. right.
      destruct Hpost as [[-> Hall]|(k & nb1 & w1 & -> & Hk & Hnb & Hw1 & Hb & Hmax)].
      * exists 0%nat, nb, w. rewrite Nat.add_0_r. split; [lia|]. do 4 (split; [done|]).
        intros [|k'] nb2 w2 Hl; simplify_eq/=.
        -- intros _. rewrite Nat.add_0_r. intros. simplify_eq. apply flt_irrefl.
        -- rewrite <-Hsh. by apply Hall.
      * exists (S k), nb1, w1. rewrite <-Hsh. split; [lia|]. do 3 (split; [done|]).
        split; [by eapply flt_trans|].
        intros [|k'] nb2 w2 Hl; simplify_eq/=.
        -- intros _. rewrite Nat.add_0_r. intros. simplify_eq. intros Hc.
           exact (flt_irrefl _ (flt_trans _ _ _ Hb Hc)).
        -- rewrite <-Hsh. by apply Hmax.
    + assert (En : ~ flt b0 (fmul (float_of_Z nb) w)) by (rewrite <-fltb_flt; congruence).
      destruct (IH (i + 1) r0 b0) as (r & Hr & Hpost); [lia|lia|]. exists r. split; [done|].
      destruct Hpost as [[-> Hall]|(k & nb1 & w1 & -> & Hk & Hnb & Hw1 & Hb & Hmax)].
      * left. split; [done|]. intros [|k] nb2 w2 Hl; simplify_eq/=.
        -- intros _. rewrite Nat.add_0_r. by intros; simplify_eq.
        -- rewrite <-Hsh. by apply Hall.
      * right. exists (S k), nb1, w1. rewrite <-Hsh. split; [lia|]. do 4 (split; [done|]).
        intros [|k'] nb2 w2 Hl; simplify_eq/=.
        -- intros _. rewrite Nat.add_0_r. intros; simplify_eq. intros Hc.
           apply En. by eapply flt_trans.
        -- rewrite <-Hsh. by apply Hmax.
Qed.

Lemma weighted_schedule_spec (s : DPScheduler DPSchedulerWeighted) p o :
  0 < block_size s -> zlen (kv_cache_stats s) = zlen (weights (policy s)) ->
  Forall (fun w => fpos w = true) (weights (policy s)) -> 0 < req (block_size s) p o ->
  exists r, _schedule s p o = Ok (r, policy s) /\
    weighted_post 0 (kv_cache_stats s) (weights (policy s)) (req (block_size s) p o) (-1)
      (float_of_Z (-1)) r.
Proof.
  intros Hbs Hlen Hpos Hreq. unfold _schedule, weighted_schedule.
  rewrite required_blocks_eq by lia. simpl.
  destruct (weighted_loop_spec 0 (kv_cache_stats s) (weights (policy s))
    (req (block_size s) p o) (-1) (float_of_Z (-1))) as (r & -> & Hr); [lia..|done|].
  exists r. done.
Qed.

Lemma weighted_none_full (s : DPScheduler DPSchedulerWeighted) required i nb :
  0 <= required -> zlen (kv_cache_stats s) = zlen (weights (policy s)) ->
  Forall (fun w => fpos w = true) (weights (policy s)) ->
  (forall k nb w, kv_cache_stats s !! k = Some nb -> required <= nb ->
     weights (policy s) !! (Z.to_nat 0 + k)%nat = Some w ->
     ~ flt (float_of_Z (-1)) (fmul (float_of_Z nb) w)) ->
  kv_cache_stats s !! i = Some nb -> nb < required.
Proof.
  intros Hreq Hlen Hpos Hall Hi. destruct (Z.lt_ge_cases nb required); [done|exfalso].
  destruct (weights (policy s) !! i) as [w|] eqn:Ew.
  2:{ apply lookup_ge_None in Ew. apply lookup_lt_Some in Hi. unfold zlen in *. lia. }
  apply (Hall i nb w Hi); [lia|done|].
  apply fltb_flt, fnonneg_gt_neg1, fmul_nonneg_pos; [apply float_of_Z_nonneg; lia|].
  rewrite Forall_lookup in Hpos. eauto.
Qed.

(** The loop never raises, whatever the weights are. *)
Lemma weighted_loop_total i l ws required r0 b0 :
  0 <= i -> i + zlen l <= zlen ws ->
  exists r, weighted_loop i l ws required r0 b0 = Ok r /\ r < Z.max (r0 + 1) (i + zlen l).
Proof.
  revert i r0 b0; induction l as [|nb l IH]; intros i r0 b0 Hi Hlen; simpl.
  { exists r0. split; [done|]. lia. }
  rewrite zlen_cons in *. pose proof (zlen_nonneg l).
  assert (Hstep : forall r1 b1, r1 <= Z.max r0 i ->
    exists r, weighted_loop (i + 1) l ws required r1 b1 = Ok r /\ r < Z.max (r0 + 1) (i + (zlen l + 1))).
  { intros r1 b1 Hr1. destruct (IH (i + 1) r1 b1) as (r & -> & ?); [lia..|].
    exists r. split; [done|]. lia. }
  destruct (nb <? required); [apply Hstep; lia|].
  destruct (ws !! Z.to_nat i) as [w|] eqn:Hw.
  2:{ apply lookup_ge_None in Hw. unfold zlen in *. lia. }
  rewrite py_get_nonneg by lia. rewrite Hw. simpl.
  destruct (fltb _ _); apply Hstep; lia.
Qed.

#[export, refine] Instance weighted_laws : PolicyLaws DPSchedulerWeighted :=
  {| pol_ok := fun dp pl => zlen (weights pl) = dp /\ Forall (fun w => fpos w = true) (weights pl);
     checks_capacity := true |}.
Proof.
  all: intros s p o.
  - intros (? & ? & ? & ? & ?). unfold _schedule, weighted_schedule.
    rewrite required_blocks_eq by lia. simpl.
    destruct (weighted_loop_total 0 (kv_cache_stats s) (weights (policy s))
      (req (block_size s) p o) (-1) (float_of_Z (-1))) as (r & -> & ?); [lia..|].
    simpl. exists r, (policy s). split; [done|]. split; [lia|done].
  - intros rank p' _ (? & ? & ? & ? & ?) Hs Hr Hreq.
    destruct (weighted_schedule_spec s p o) as (r & Hs' & Hpost); [lia..|done|lia|].
    rewrite Hs in Hs'. simplify_eq.
    destruct Hpost as [[-> _]|(k & nb & w & -> & Hk & Hnb & _)]; [lia|].
    exists nb. by rewrite Z.add_0_l, Nat2Z.id.
  - intros rank p' _ (? & ? & Hlen & Hw & Hpos) Hs Hr Hreq.
    destruct (weighted_schedule_spec s p o) as (r & Hs' & Hpost); [lia..|done|lia|].
    rewrite Hs in Hs'. simplify_eq.
    destruct Hpost as [[-> Hall]|(k & nb & w & -> & _)]; [|lia].
    apply Forall_lookup. intros i nb Hi.
    by apply (weighted_none_full s (req (block_size s) p o) i nb); [lia|lia|..].
Defined.

#[export] Instance weighted_capacity : CapacityPolicy DPSchedulerWeighted.
Proof. reflexivity. Qed.

(** ** Block accounting *)

(** The running requests: rank and lengths, by request id. *)
Definition running {P} (s : DPScheduler P) : gmap Z (Z * (Z * Z)) :=
  map_zip (seq_ranks s) (seq_max_len s).

(** The blocks the running requests of rank [r] hold reserved. *)
Definition used (bs : Z) (m : gmap Z (Z * (Z * Z))) (r : Z) : Z :=
  map_fold (fun _ '(rk, (p, o)) acc => if decide (rk = r) then req bs p o + acc else acc) 0 m.

Lemma used_insert bs m id rk p o r :
  m !! id = None ->
  used bs (<[id := (rk, (p, o))]> m) r
  = (if decide (rk = r) then req bs p o else 0) + used bs m r.
Proof.
  intros Hm. unfold used. rewrite map_fold_insert_L; [|intros; repeat case_match; lia|done].
  case_decide; lia.
Qed.

Lemma used_delete bs m id rk p o r :
  m !! id = Some (rk, (p, o)) ->
  used bs (delete id m) r = used bs m r - (if decide (rk = r) then req bs p o else 0).
Proof.
  intros Hm. rewrite <-(insert_delete_id m id _ Hm) at 2.
  rewrite used_insert by apply lookup_delete_eq. lia.
Qed.

(** Every rank's free count plus what its requests reserve is its capacity. *)
Definition accounted {P} (cap : list Z) (s : DPScheduler P) : Prop :=
  length (kv_cache_stats s) = length cap /\
  (forall r free c, kv_cache_stats s !! r = Some free -> cap !! r = Some c ->
     free + used (block_size s) (running s) (Z.of_nat r) = c) /\
  dom (seq_ranks s) = dom (seq_max_len s) /\
  map_Forall (fun _ rk => 0 <= rk < zlen (kv_cache_stats s)) (seq_ranks s).

Lemma running_lookup {P} (s : DPScheduler P) id :
  dom (seq_ranks s) = dom (seq_max_len s) ->
  running s !! id =
    match seq_ranks s !! id, seq_max_len s !! id with
    | Some r, Some l => Some (r, l) | _, _ => None end.
Proof.
  intros _. unfold running. rewrite map_lookup_zip_with.
  by destruct (seq_ranks s !! id), (seq_max_len s !! id).
Qed.

Lemma add_seq_spec {P} id p o rank (s : DPScheduler P) :
  block_size s <> 0 -> 0 <= rank < zlen (kv_cache_stats s) ->
  exists free, kv_cache_stats s !! Z.to_nat rank = Some free /\
  add_seq id p o rank s =
    Ok (with_stats (<[Z.to_nat rank := free - req (block_size s) p o]> (kv_cache_stats s))
         (with_seqs (<[id := rank]> (seq_ranks s)) (<[id := (p, o)]> (seq_max_len s)) s)).
Proof.
  intros Hbs Hr. destruct (lookup_lt_is_Some_2 (kv_cache_stats s) (Z.to_nat rank)) as [free Hf].
  { unfold zlen in Hr. lia. }
  exists free. split; [done|]. unfold add_seq. rewrite required_blocks_eq by done. simpl.
  rewrite py_get_nonneg, Hf by done. simpl. by rewrite py_set_nonneg.
Qed.

Lemma accounted_add {P} cap id p o rank (s s' : DPScheduler P) :
  block_size s <> 0 -> 0 <= rank < zlen (kv_cache_stats s) ->
  accounted cap s -> seq_ranks s !! id = None ->
  add_seq id p o rank s = Ok s' -> accounted cap s'.
Proof.
  intros Hbs Hr (Hlen & Hacc & Hdom & Hrk) Hid Hadd.
  destruct (add_seq_spec id p o rank s Hbs Hr) as (free & Hf & Hs'). rewrite Hadd in Hs'.
  simplify_eq. unfold accounted; simpl. rewrite length_insert. split; [done|].
  split; [|split].
  - intros r f c Hr' Hc.
    assert (Hrun : running s !! id = None) by (rewrite running_lookup, Hid; done).
    assert (Hrun' : running (with_stats (<[Z.to_nat rank := free - req (block_size s) p o]> (kv_cache_stats s))
         (with_seqs (<[id := rank]> (seq_ranks s)) (<[id := (p, o)]> (seq_max_len s)) s))
        = <[id := (rank, (p, o))]> (running s)).
    { unfold running; simpl. symmetry. apply (map_insert_zip_with pair). }
    rewrite Hrun', used_insert by done.
    destruct (decide (r = Z.to_nat rank)) as [->|Hne].
    + rewrite list_lookup_insert_eq in Hr' by (by eapply lookup_lt_Some). simplify_eq.
      specialize (Hacc _ _ _ Hf Hc). rewrite Z2Nat.id in * by lia.
      rewrite decide_True by done. lia.
    + rewrite list_lookup_insert_ne in Hr' by done. specialize (Hacc _ _ _ Hr' Hc).
      rewrite decide_False by lia. lia.
  - rewrite !dom_insert_L. by rewrite Hdom.
  - unfold zlen in *. rewrite length_insert. apply map_Forall_insert_2; done.
Qed.

Lemma accounted_del {P} cap id (s s' : DPScheduler P) :
  block_size s <> 0 -> accounted cap s -> del_seq id s = Ok s' -> accounted cap s'.
Proof.
  intros Hbs (Hlen & Hacc & Hdom & Hrk) Hdel. unfold del_seq in Hdel.
  apply bind_Ok in Hdel as (rank & Hrank & Hdel). apply of_option_Ok in Hrank.
  apply bind_Ok in Hdel as ([p o] & Hmax & Hdel). apply of_option_Ok in Hmax.
  assert (Hr : 0 <= rank < zlen (kv_cache_stats s)) by exact (Hrk _ _ Hrank).
  destruct (lookup_lt_is_Some_2 (kv_cache_stats s) (Z.to_nat rank)) as [free Hf].
  { unfold zlen in Hr. lia. }
  rewrite required_blocks_eq in Hdel by done. simpl in Hdel.
  rewrite py_get_nonneg, Hf in Hdel by done. simpl in Hdel.
  rewrite py_set_nonneg in Hdel by done. simpl in Hdel. simplify_eq.
  unfold accounted; simpl. rewrite length_insert. split; [done|]. split; [|split].
  - intros r f c Hr' Hc.
    assert (Hrun : running s !! id = Some (rank, (p, o))) by (rewrite running_lookup, Hrank, Hmax; done).
    change (running _) with (map_zip (delete id (seq_ranks s)) (delete id (seq_max_len s))).
    rewrite <-(map_delete_zip_with pair). change (map_zip_with pair _ _) with (running s).
    rewrite (used_delete _ _ _ _ _ _ _ Hrun).
    destruct (decide (r = Z.to_nat rank)) as [->|Hne].
    + rewrite list_lookup_insert_eq in Hr' by (by eapply lookup_lt_Some). simplify_eq.
      specialize (Hacc _ _ _ Hf Hc). rewrite Z2Nat.id in * by lia.
      rewrite decide_True by done. lia.
    + rewrite list_lookup_insert_ne in Hr' by done. specialize (Hacc _ _ _ Hr' Hc).
      rewrite decide_False by lia. lia.
  - rewrite !dom_delete_L. by rewrite Hdom.
  - unfold zlen in *. rewrite length_insert. by apply map_Forall_delete.
Qed.

(** ** The scheduler in its environment

    The loop, the clients that put requests, the controller that deletes
    finished ones, and [terminate] interleave at the [await]s. *)

Section System.
Context {P : Type} `{PolicyLaws P}.
Implicit Types (y : Sys P) (s : DPScheduler P) (it : RequestItem) (cap : list Z).

(** The requests accepted and not yet placed, in order. *)
Definition pending_items y : list RequestItem :=
  match pc y with
  | Blocked it => it :: waiting_queue (sched y)
  | _ => waiting_queue (sched y)
  end.

Definition item_req s it : Z := req (block_size s) (prefill_len it) (output_len it).

(** A label [[it]] is an accepted request.  Request ids come from the
    controller's counter: a new one is neither running nor waiting. *)
Inductive sys_step : Sys P -> list RequestItem -> Sys P -> Prop :=
  | step_put y it :
      seq_ranks (sched y) !! req_id it = None ->
      req_id it ∉ req_id <$> pending_items y ->
      0 < item_req (sched y) it ->
      sys_step y [it] {| sched := put_request it (sched y); pc := pc y;
                         submitted := submitted y |}
  | step_loop y y' :
      loop_step y = Some (Ok y') ->
      sys_step y [] y'
  | step_del y id s' :
      del_seq id (sched y) = Ok s' ->
      sys_step y [] {| sched := s'; pc := pc y; submitted := submitted y |}
  | step_terminate y :
      sys_step y [] {| sched := terminate_begin (sched y); pc := pc y;
                       submitted := submitted y |}.

Inductive sys_run : Sys P -> list RequestItem -> Sys P -> Prop :=
  | run_nil y : sys_run y [] y
  | run_snoc y1 y2 y3 l1 l2 :
      sys_run y1 l1 y2 -> sys_step y2 l2 y3 -> sys_run y1 (l1 ++ l2) y3.

(** The state [start] leaves, for the capacities [cap]. *)
Definition started cap y : Prop :=
  wf (sched y) /\ kv_cache_stats (sched y) = cap /\ Forall (fun c => 0 <= c) cap /\
  seq_ranks (sched y) = ∅ /\ seq_max_len (sched y) = ∅ /\ waiting_queue (sched y) = [] /\
  pc y = Waiting /\ submitted y = [].

Record sys_inv cap y : Prop := {
  inv_wf : wf (sched y);
  inv_acc : accounted cap (sched y);
  inv_free : checks_capacity P = true ->
    Forall (fun free => 0 <= free) (kv_cache_stats (sched y));
  inv_pos : map_Forall (fun _ '(_, (p, o)) => 0 < req (block_size (sched y)) p o) (running (sched y));
  inv_fresh : forall id, id ∈ req_id <$> pending_items y -> seq_ranks (sched y) !! id = None;
  inv_nodup : NoDup (req_id <$> pending_items y);
  inv_items : Forall (fun it => 0 < item_req (sched y) it) (pending_items y);
  inv_wakeup : forall it, checks_capacity P = true -> pc y = Blocked it ->
    sch_event (sched y) = false ->
    Forall (fun free => free < item_req (sched y) it) (kv_cache_stats (sched y));
}.

Lemma used_nonneg bs m r :
  map_Forall (fun _ '(_, (p, o)) => 0 < req bs p o) m -> 0 <= used bs m r.
Proof.
  unfold used. apply (map_fold_weak_ind (fun acc m =>
    map_Forall (fun _ '(_, (p, o)) => 0 < req bs p o) m -> 0 <= acc)); [lia|].
  intros i [rk [p o]] m' acc Hi IH Hm. rewrite map_Forall_insert in Hm by done.
  destruct Hm as [? Hm]. specialize (IH Hm). case_decide; lia.
Qed.

(** What one placement attempt does: grant a rank, one with the blocks if the
    policy looks at them, or refuse, which such a policy does because no rank
    has them. *)
Lemma place_cases it log s :
  wf s -> 0 < item_req s it ->
  let run := (r ← schedule [req_id it] [prefill_len it] [output_len it] s;
              after_schedule it log r) in
  (exists rank pl s', 0 <= rank < zlen (kv_cache_stats s) /\ pol_ok (dp_size s) pl /\
     (checks_capacity P = true ->
      exists free, kv_cache_stats s !! Z.to_nat rank = Some free /\ item_req s it <= free) /\
     add_seq (req_id it) (prefill_len it) (output_len it) rank (with_policy pl s) = Ok s' /\
     run = Ok {| sched := s'; pc := if end_flag s then Finished else Waiting;
                 submitted := log ++ [(it, rank)] |}) \/
  (exists pl, pol_ok (dp_size s) pl /\
     (checks_capacity P = true -> Forall (fun free => free < item_req s it) (kv_cache_stats s)) /\
     run = Ok {| sched := with_policy pl s; pc := Blocked it; submitted := log |}).
Proof.
  intros Hwf Hpos. unfold schedule. simpl.
  destruct (law_total s (prefill_len it) (output_len it) Hwf) as (rank & pl & Hs & Hlt & Hok).
  rewrite Hs. simpl. destruct Hwf as (Hbs & Hdp & Hlen & Hpl).
  assert (Hwf : wf_with pol_ok s) by done.
  destruct (Z.leb_spec 0 rank) as [Hge|Hneg].
  - left. pose proof (fun Hc => law_capacity s _ _ _ _ Hc Hwf Hs Hge Hpos) as Hcap.
    destruct (add_seq_spec (req_id it) (prefill_len it) (output_len it) rank (with_policy pl s))
      as (free & Hf & Hadd); [simpl; lia|simpl; lia|].
    exists rank, pl. eexists. split; [lia|]. split; [done|]. split; [done|]. split; [exact Hadd|].
    rewrite Hadd. simpl. unfold after_schedule. simpl. destruct (Z.ltb_spec rank 0); [lia|done].
  - right. exists pl. split; [done|]. split; [intros Hck; by eapply law_complete|].
    unfold after_schedule. simpl. destruct (Z.ltb_spec rank 0); [done|lia].
Qed.

Lemma sys_inv_granted cap it log s rank pl s' :
  sys_inv cap {| sched := s; pc := Blocked it; submitted := log |} ->
  0 <= rank < zlen (kv_cache_stats s) -> pol_ok (dp_size s) pl ->
  (checks_capacity P = true ->
   exists free, kv_cache_stats s !! Z.to_nat rank = Some free /\ item_req s it <= free) ->
  add_seq (req_id it) (prefill_len it) (output_len it) rank (with_policy pl s) = Ok s' ->
  sys_inv cap {| sched := s'; pc := if end_flag s then Finished else Waiting;
                 submitted := log ++ [(it, rank)] |}.
Proof.
  intros Hinv Hrank Hok Hcap Hadd.
  destruct Hinv as [Hwf Hacc Hfree Hpos Hfresh Hnd Hitems _]. simpl in *.
  destruct Hwf as (Hbs & Hdp & Hlen & Hpl).
  assert (Hid : seq_ranks s !! req_id it = None) by (apply Hfresh; left).
  apply Forall_cons in Hitems as [Hit Hitems]. simpl in Hnd.
  apply NoDup_cons in Hnd as [Hnot Hnd].
  assert (Hacc' : accounted cap s').
  { by eapply (accounted_add cap _ _ _ rank (with_policy pl s)); [simpl; lia| | | |]. }
  destruct (add_seq_spec (req_id it) (prefill_len it) (output_len it) rank (with_policy pl s))
    as (free & Hf & Hadd'); [simpl; lia|done|].
  simpl in Hf. rewrite Hadd in Hadd'. injection Hadd' as ->.
  simpl in *.
  assert (Hpend : pending_items {| sched := with_stats
      (<[Z.to_nat rank:=free - req (block_size s) (prefill_len it) (output_len it)]> (kv_cache_stats s))
      (with_seqs (<[req_id it:=rank]> (seq_ranks s))
         (<[req_id it:=(prefill_len it, output_len it)]> (seq_max_len s)) (with_policy pl s));
      pc := if end_flag s then Finished else Waiting; submitted := log ++ [(it, rank)] |}
      = waiting_queue s) by (unfold pending_items; simpl; by destruct (end_flag s)).
  split; simpl; try rewrite Hpend; simpl.
  - split; [done|]. split; [done|]. simpl. unfold zlen in *. by rewrite length_insert.
  - done.
  - intros Hc. destruct (Hcap Hc) as (free' & Hf' & Hreq). rewrite Hf in Hf'. simplify_eq.
    apply Forall_insert; [by apply Hfree|]. unfold item_req in Hreq. lia.
  - assert (Hrun : running s !! req_id it = None).
    { destruct Hacc as (_ & _ & Hdom & _). by rewrite running_lookup, Hid. }
    change (map_Forall (fun _ '(_, (p, o)) => 0 < req (block_size s) p o)
      (map_zip (<[req_id it:=rank]> (seq_ranks s))
        (<[req_id it:=(prefill_len it, output_len it)]> (seq_max_len s)))).
    rewrite <-(map_insert_zip_with pair). by apply map_Forall_insert_2.
  - intros id Hin. rewrite lookup_insert_ne; [by apply Hfresh; right|]. intros <-. done.
  - done.
  - done.
  - intros it' _ Hpc. by destruct (end_flag s).
Qed.

(** The item about to be placed may be read as the blocked one: same pending
    list, and the wake-up clause is about the events only. *)
Lemma sys_inv_pop cap s it q log :
  sys_inv cap {| sched := s; pc := Waiting; submitted := log |} ->
  waiting_queue s = it :: q ->
  sys_inv cap {| sched := with_events (end_flag s) (end_event s) true (with_queue q s);
                 pc := Blocked it; submitted := log |}.
Proof.
  intros [Hwf Hacc Hfree Hpos Hfresh Hnd Hitems _] Hq.
  unfold pending_items in *; simpl in *. rewrite Hq in *.
  split; unfold pending_items; simpl; done.
Qed.

(** A placement attempt from a state whose item is at the head keeps the
    invariant; the attempt does not read the events. *)
Lemma sys_inv_place cap it log s y' :
  sys_inv cap {| sched := with_events (end_flag s) (end_event s) true s;
                 pc := Blocked it; submitted := log |} ->
  (r ← schedule [req_id it] [prefill_len it] [output_len it] s; after_schedule it log r) = Ok y' ->
  sys_inv cap y'.
Proof.
  intros Hinv Hrun.
  assert (Hinv0 : forall pl,
    (checks_capacity P = true -> Forall (fun free => free < item_req s it) (kv_cache_stats s)) ->
    pol_ok (dp_size s) pl ->
    sys_inv cap {| sched := with_policy pl s; pc := Blocked it; submitted := log |}).
  { intros pl Hfull Hok. destruct Hinv as [(?&?&?&?) Hacc Hfree Hpos Hfresh Hnd Hitems _].
    split; simpl in *; try done. intros ? ?; intros; simplify_eq. by apply Hfull. }
  destruct (place_cases it log s) as
    [(rank & pl & s' & Hr & Hok & Hcap & Hadd & Heq)|(pl & Hok & Hfull & Heq)].
  { apply Hinv. }
  { destruct Hinv as [_ _ _ _ _ _ Hitems _]. by apply Forall_cons in Hitems as [? _]. }
  - simpl in Heq. rewrite Hrun in Heq. injection Heq as ->.
    set (s1 := with_events (end_flag s) (end_event s) true s) in *.
    destruct (add_seq_spec (req_id it) (prefill_len it) (output_len it) rank (with_policy pl s1))
      as (f1 & Hf1 & Hadd1).
    { destruct Hinv as [(?&_) _ _ _ _ _ _ _]. simpl in *. lia. }
    { done. }
    pose proof (sys_inv_granted cap it log s1 rank pl _ Hinv Hr Hok Hcap Hadd1) as [].
    destruct (add_seq_spec (req_id it) (prefill_len it) (output_len it) rank (with_policy pl s))
      as (f2 & Hf2 & Hadd2).
    { destruct Hinv as [(?&_) _ _ _ _ _ _ _]. simpl in *. lia. }
    { done. }
    rewrite Hadd in Hadd2. injection Hadd2 as ->. simpl in *.
    rewrite Hf1 in Hf2. injection Hf2 as <-.
    split; simpl in *; try done. intros it' _ Hpc. by destruct (end_flag s).
  - simpl in Heq. rewrite Hrun in Heq. injection Heq as ->. by apply Hinv0.
Qed.

Lemma del_seq_frame id s s' :
  del_seq id s = Ok s' ->
  block_size s' = block_size s /\ dp_size s' = dp_size s /\ policy s' = policy s /\
  waiting_queue s' = waiting_queue s /\ sch_event s' = true /\
  seq_ranks s' = delete id (seq_ranks s) /\ seq_max_len s' = delete id (seq_max_len s) /\
  length (kv_cache_stats s') = length (kv_cache_stats s).
Proof.
  unfold del_seq. intros Hd.
  apply bind_Ok in Hd as (rank & _ & Hd). apply bind_Ok in Hd as ([p o] & _ & Hd).
  apply bind_Ok in Hd as (n & _ & Hd). apply bind_Ok in Hd as (old & _ & Hd).
  apply bind_Ok in Hd as (l & Hl & Hd). injection Hd as <-. simpl.
  by rewrite (py_set_length _ _ _ _ Hl).
Qed.

Lemma accounted_free cap s r free :
  accounted cap s ->
  map_Forall (fun _ '(_, (p, o)) => 0 < req (block_size s) p o) (running s) ->
  kv_cache_stats s !! r = Some free -> exists c, cap !! r = Some c /\ free <= c.
Proof.
  intros (Hlen & Hacc & _) Hpos Hr.
  destruct (lookup_lt_is_Some_2 cap r) as [c Hc].
  { apply lookup_lt_Some in Hr. lia. }
  exists c. split; [done|]. specialize (Hacc r free c Hr Hc).
  pose proof (used_nonneg _ _ (Z.of_nat r) Hpos). lia.
Qed.

Lemma sys_inv_del cap y id s' :
  sys_inv cap y -> del_seq id (sched y) = Ok s' ->
  sys_inv cap {| sched := s'; pc := pc y; submitted := submitted y |}.
Proof.
  intros Hinv Hdel. destruct (del_seq_frame _ _ _ Hdel) as (Hbs & Hdp & Hpl & Hq & Hev & Hr & Hm & Hl).
  destruct Hinv as [(?&?&Hlen&?) Hacc Hfree Hpos Hfresh Hnd Hitems Hw].
  assert (Hacc' : accounted cap s') by (eapply accounted_del; [|done..]; lia).
  assert (Hpend : pending_items {| sched := s'; pc := pc y; submitted := submitted y |} = pending_items y).
  { unfold pending_items. simpl. by rewrite Hq. }
  assert (Hpos' : map_Forall (fun _ '(_, (p, o)) => 0 < req (block_size s') p o) (running s')).
  { rewrite Hbs. unfold running. rewrite Hr, Hm, <-(map_delete_zip_with pair).
    by apply map_Forall_delete. }
  split; simpl; rewrite ?Hpend.
  - unfold wf, wf_with, zlen. rewrite Hbs, Hdp, Hpl, Hl. done.
  - done.
  - intros Hc. apply Forall_lookup. intros r free Hfr. specialize (Hfree Hc).
    unfold del_seq in Hdel.
    apply bind_Ok in Hdel as (rank & Hrank & Hdel). apply of_option_Ok in Hrank.
    apply bind_Ok in Hdel as ([p o] & Hmax & Hdel). apply of_option_Ok in Hmax.
    rewrite required_blocks_eq in Hdel by lia. simpl in Hdel.
    destruct Hacc as (_ & _ & Hdom & Hrk). pose proof (Hrk _ _ Hrank) as Hin. simpl in Hin.
    rewrite py_get_nonneg in Hdel by done.
    apply bind_Ok in Hdel as (old & Hold & Hdel). apply of_option_Ok in Hold.
    rewrite py_set_nonneg in Hdel by done. simpl in Hdel. injection Hdel as Hs'. subst s'. simpl in *.
    assert (0 < req (block_size (sched y)) p o).
    { apply (Hpos id (rank, (p, o))). by rewrite running_lookup, Hrank, Hmax. }
    rewrite Forall_lookup in Hfree. pose proof (Hfree _ _ Hold). simpl in *.
    apply list_lookup_insert_Some in Hfr as [(<- & <- & _)|(_ & Hfr)]; [lia|by eapply Hfree].
  - done.
  - intros i Hi. rewrite Hr. apply lookup_delete_None. right. by apply Hfresh.
  - done.
  - eapply Forall_impl; [exact Hitems|]. intros x. unfold item_req. by rewrite Hbs.
  - intros it _ Hpc Hse. congruence.
Qed.

Lemma sys_inv_step cap y l y' : sys_inv cap y -> sys_step y l y' -> sys_inv cap y'.
Proof.
  intros Hinv Hstep. destruct Hstep as [y it Hid Hnew Hpos|y y' Hloop|y id s' Hdel|y].
  - assert (Hpend : pending_items {| sched := put_request it (sched y); pc := pc y;
        submitted := submitted y |} = pending_items y ++ [it])
      by (unfold pending_items; simpl; by destruct (pc y)).
    destruct Hinv as [Hwf Hacc Hfree Hp Hfresh Hnd Hitems Hw].
    split; simpl; rewrite ?Hpend; try done.
    + intros id. rewrite fmap_app, elem_of_app. intros [Hi|Hi]; [by apply Hfresh|].
      apply list_elem_of_singleton in Hi. by subst.
    + rewrite fmap_app. apply NoDup_app. split; [done|]. split; [|apply NoDup_singleton].
      intros x Hx ->%list_elem_of_singleton. done.
    + apply Forall_app. split; [exact Hitems|]. by constructor.
  - unfold loop_step in Hloop. destruct y as [s p log]. simpl in *. destruct p as [|it|].
    + destruct (end_event s).
      { injection Hloop as <-. destruct Hinv as [Hwf Hacc Hfree Hp Hfresh Hnd Hitems Hw].
        unfold pending_items in *; simpl in *. destruct (waiting_queue s) as [|it q] eqn:Hq.
        - split; unfold pending_items; simpl; rewrite ?Hq; done.
        - simpl in *. apply NoDup_cons in Hnd as [_ Hnd].
          apply Forall_cons in Hitems as [_ Hitems].
          split; unfold pending_items; simpl; rewrite ?Hq; try done.
          intros id Hi. apply Hfresh. by right. }
      destruct (waiting_queue s) as [|it q] eqn:Hq; [done|]. injection Hloop as Hloop.
      eapply sys_inv_place; [|exact Hloop]. by apply (sys_inv_pop _ _ _ _ _ Hinv).
    + destruct (sch_event s) eqn:Hev; [|done]. injection Hloop as Hloop.
      eapply sys_inv_place; [|exact Hloop].
      destruct Hinv as [Hwf Hacc Hfree Hp Hfresh Hnd Hitems Hw]. split; simpl in *; done.
    + done.
  - by eapply sys_inv_del.
  - destruct Hinv as [Hwf Hacc Hfree Hp Hfresh Hnd Hitems Hw]. split; simpl in *; try done.
Qed.

Lemma started_inv cap y : started cap y -> sys_inv cap y.
Proof.
  intros (Hwf & Hst & Hcap & Hr & Hm & Hq & Hpc & _).
  assert (Hrun : running (sched y) = ∅) by (unfold running; rewrite Hr, Hm; done).
  assert (Hp : pending_items y = []) by (unfold pending_items; by rewrite Hpc, Hq).
  split; rewrite ?Hrun, ?Hp, ?Hst; try done; try (by constructor).
  - split; [by rewrite Hst|]. split.
    + intros r f c Hf Hc. rewrite Hst in Hf. rewrite Hrun. unfold used.
      rewrite map_fold_empty. simplify_eq. lia.
    + rewrite Hr, Hm. split; [set_solver|]. apply map_Forall_empty.
  - intros id Hid. by apply elem_of_nil in Hid.
  - intros it _ Hpc'. congruence.
Qed.

Lemma sys_run_inv cap y0 l y : started cap y0 -> sys_run y0 l y -> sys_inv cap y.
Proof.
  intros Hs Hrun. induction Hrun as [|y1 y2 y3 l1 l2 Hrun IH Hstep]; [by apply started_inv|].
  eapply sys_inv_step; [by apply IH|done].
Qed.

(** Placing changes neither the queue nor the log of the earlier submissions. *)
Lemma place_fifo it log s y' :
  wf s -> 0 < item_req s it ->
  (r ← schedule [req_id it] [prefill_len it] [output_len it] s; after_schedule it log r) = Ok y' ->
  (submitted y').*1 ++ pending_items y' = log.*1 ++ it :: waiting_queue s.
Proof.
  intros Hwf Hpos Hrun.
  destruct (place_cases it log s Hwf Hpos) as
    [(rank & pl & s' & Hr & Hok & Hcap & Hadd & Heq)|(pl & Hok & Hfull & Heq)];
    simpl in Heq; rewrite Hrun in Heq; injection Heq as ->.
  - destruct (add_seq_spec (req_id it) (prefill_len it) (output_len it) rank (with_policy pl s))
      as (f & _ & Hadd'); [destruct Hwf as (?&_); simpl; lia|done|].
    rewrite Hadd in Hadd'. injection Hadd' as ->.
    unfold pending_items; simpl. rewrite fmap_app. destruct (end_flag s); simpl; by rewrite <-app_assoc.
  - done.
Qed.

(** The submissions are the arrivals, in order; until the loop ends the rest of
    the arrivals is still pending. *)
Definition fifo (arr : list RequestItem) y : Prop :=
  match pc y with
  | Finished => exists rest, arr = (submitted y).*1 ++ rest
  | _ => arr = (submitted y).*1 ++ pending_items y
  end.

Lemma fifo_step cap arr y l y' :
  sys_inv cap y -> fifo arr y -> sys_step y l y' -> fifo (arr ++ l) y'.
Proof.
  intros Hinv Hf Hstep. destruct Hstep as [y it Hid Hnew Hpos|y y' Hloop|y id s' Hdel|y];
    rewrite ?app_nil_r.
  - unfold fifo, pending_items in *; simpl. destruct (pc y) as [|it'|].
    + rewrite Hf. by rewrite <-app_assoc.
    + rewrite Hf. by rewrite <-app_assoc.
    + destruct Hf as [rest ->]. exists (rest ++ [it]). by rewrite <-app_assoc.
  - unfold loop_step in Hloop. destruct y as [s p log]. simpl in *.
    assert (Hplace : forall it s1, wf s1 -> 0 < item_req s1 it ->
      (r ← schedule [req_id it] [prefill_len it] [output_len it] s1; after_schedule it log r) = Ok y' ->
      arr = log.*1 ++ it :: waiting_queue s1 -> fifo arr y').
    { intros it s1 Hwf Hp Hr ->. pose proof (place_fifo _ _ _ _ Hwf Hp Hr) as Hpf.
      unfold fifo. destruct (pc y'); [done..|eauto]. }
    destruct p as [|it|].
    + destruct (end_event s).
      { injection Hloop as <-. unfold fifo in *; simpl in *. eauto. }
      unfold fifo, pending_items in Hf; simpl in Hf.
      destruct (waiting_queue s) as [|it q] eqn:Hq; [done|]. injection Hloop as Hloop.
      eapply Hplace; [|  |exact Hloop|done].
      * apply Hinv.
      * destruct Hinv as [_ _ _ _ _ _ Hi _]. unfold pending_items in Hi; simpl in Hi.
        rewrite Hq in Hi. by apply Forall_cons in Hi as [? _].
    + destruct (sch_event s); [|done]. injection Hloop as Hloop.
      eapply Hplace; [| |exact Hloop|done].
      * apply Hinv.
      * destruct Hinv as [_ _ _ _ _ _ Hi _]. by apply Forall_cons in Hi as [? _].
    + done.
  - destruct (del_seq_frame _ _ _ Hdel) as (_ & _ & _ & Hq & _).
    unfold fifo, pending_items in *; simpl. rewrite Hq. done.
  - done.
Qed.

Lemma sys_run_fifo cap y0 l y : started cap y0 -> sys_run y0 l y -> fifo l y.
Proof.
  intros Hs Hrun. induction Hrun as [y|y1 y2 y3 l1 l2 Hrun IH Hstep].
  - destruct Hs as (_ & _ & _ & _ & _ & Hq & Hpc & Hsub).
    unfold fifo, pending_items. by rewrite Hpc, Hq, Hsub.
  - eapply fifo_step; [by eapply sys_run_inv|by apply IH|done].
Qed.

Lemma sys_inv_reserved cap y r c :
  sys_inv cap y -> cap !! r = Some c ->
  exists free, kv_cache_stats (sched y) !! r = Some free /\
    (checks_capacity P = true -> 0 <= free) /\
    free + used (block_size (sched y)) (running (sched y)) (Z.of_nat r) = c.
Proof.
  intros [_ (Hlen & Hacc & _) Hfree _ _ _ _ _] Hc.
  destruct (lookup_lt_is_Some_2 (kv_cache_stats (sched y)) r) as [free Hf].
  { apply lookup_lt_Some in Hc. lia. }
  exists free. split; [done|]. rewrite Forall_lookup in Hfree.
  split; [intros Hck; by eapply Hfree|].
  by eapply Hacc.
Qed.

Lemma blocked_step cap y l y' it :
  checks_capacity P = true -> sys_inv cap y -> sys_step y l y' -> pc y = Blocked it ->
  Forall (fun c => c < item_req (sched y) it) cap ->
  pc y' = Blocked it /\ item_req (sched y') it = item_req (sched y) it /\
  submitted y' = submitted y.
Proof.
  intros Hck Hinv Hstep Hpc Hbig. destruct Hstep as [y it' Hid Hnew Hpos|y y' Hloop|y id s' Hdel|y].
  - done.
  - unfold loop_step in Hloop. rewrite Hpc in Hloop.
    destruct (sch_event (sched y)); [|done]. injection Hloop as Hloop.
    set (s1 := with_events _ _ _ _) in Hloop.
    destruct (place_cases it (submitted y) s1) as
      [(rank & pl & s' & Hr & Hok & Hcap & Hadd & Heq)|(pl & Hok & Hfull & Heq)].
    { apply Hinv. }
    { destruct Hinv as [_ _ _ _ _ _ Hi _]. unfold pending_items in Hi. rewrite Hpc in Hi.
      by apply Forall_cons in Hi as [? _]. }
    + exfalso. destruct (Hcap Hck) as (free & Hf & Hle). destruct (accounted_free cap (sched y) (Z.to_nat rank) free) as (c & Hc & Hfc).
      { apply Hinv. } { apply Hinv. } { done. }
      rewrite Forall_lookup in Hbig. pose proof (Hbig _ _ Hc) as Hlt. cbn beta in Hlt.
      change (item_req s1 it) with (item_req (sched y) it) in Hle. lia.
    + simpl in Heq. rewrite Hloop in Heq. injection Heq as ->. done.
  - destruct (del_seq_frame _ _ _ Hdel) as (Hbs & _). simpl. unfold item_req. by rewrite Hbs.
  - done.
Qed.

Lemma blocked_forever cap y1 l y2 it :
  checks_capacity P = true -> sys_inv cap y1 -> pc y1 = Blocked it ->
  Forall (fun c => c < item_req (sched y1) it) cap ->
  sys_run y1 l y2 ->
  sys_inv cap y2 /\ pc y2 = Blocked it /\ item_req (sched y2) it = item_req (sched y1) it /\
  submitted y2 = submitted y1.
Proof.
  intros Hck Hinv Hpc Hbig Hrun. induction Hrun as [y|y1 y2 y3 l1 l2 Hrun IH Hstep]; [done|].
  destruct IH as (Hinv2 & Hpc2 & Hreq2 & Hsub2); [done..|].
  destruct (blocked_step cap y2 l2 y3 it) as (? & Hr & ?); [done..| |].
  { by rewrite Hreq2. }
  split; [by eapply sys_inv_step|]. split; [done|]. split; congruence.
Qed.

(** The loop meets a request larger than every capacity: it blocks on it. *)
Lemma oversized_blocks cap y it q :
  checks_capacity P = true -> sys_inv cap y -> pc y = Waiting -> end_event (sched y) = false ->
  waiting_queue (sched y) = it :: q -> Forall (fun c => c < item_req (sched y) it) cap ->
  exists y', loop_step y = Some (Ok y') /\ pc y' = Blocked it /\ submitted y' = submitted y /\
    item_req (sched y') it = item_req (sched y) it.
Proof.
  intros Hck Hinv Hpc Hev Hq Hbig. unfold loop_step. rewrite Hpc, Hev, Hq.
  destruct (place_cases it (submitted y) (with_queue q (sched y))) as
    [(rank & pl & s' & Hr & Hok & Hcap & Hadd & Heq)|(pl & Hok & Hfull & Heq)].
  { apply Hinv. }
  { pose proof (inv_items _ _ Hinv) as Hi. unfold pending_items in Hi. rewrite Hpc, Hq in Hi.
    by apply Forall_cons in Hi as [? _]. }
  - exfalso. destruct (Hcap Hck) as (free & Hf & Hle).
    destruct (accounted_free cap (sched y) (Z.to_nat rank) free) as (c & Hc & Hfc); [apply Hinv..|done|].
    rewrite Forall_lookup in Hbig. pose proof (Hbig _ _ Hc) as Hlt. cbn beta in Hlt.
    change (item_req (with_queue q (sched y)) it) with (item_req (sched y) it) in Hle. lia.
  - rewrite Heq. eexists. by split.
Qed.

End System.

(** ** Properties *)

Section Properties.
Context {P : Type} `{PolicyLaws P}.

(** C1. Block accounting is exact under each of the four policies: in every
    state the scheduler can reach, for every rank, the free count plus the
    blocks reserved by the running requests of that rank is the capacity [start]
    was given.  Under the policies that look at the free counts (max, cap_rr and
    weighted with positive weights) it is never negative, so no rank is
    overdrawn; round robin gives no such guarantee ([rr_overdraws]). *)
Theorem dp_capacity_safe (cap : list Z) (y0 y : Sys P) (l : list RequestItem) :
  started cap y0 -> sys_run y0 l y ->
  forall r c, cap !! r = Some c ->
  exists free, kv_cache_stats (sched y) !! r = Some free /\
    (CapacityPolicy P -> 0 <= free) /\
    free + used (block_size (sched y)) (running (sched y)) (Z.of_nat r) = c.
Proof. intros Hs Hr r c Hc. eapply sys_inv_reserved; [by eapply sys_run_inv|done]. Qed.

(** C11. First come, first served: until the loop ends, the requests submitted so
    far, the request being retried and the waiting queue are together the
    arrivals in their order, none lost and none twice; afterwards the submitted
    ones are still a prefix of the arrivals. *)
Theorem dp_fifo (cap : list Z) (y0 y : Sys P) (l : list RequestItem) :
  started cap y0 -> sys_run y0 l y ->
  (pc y <> Finished -> l = (submitted y).*1 ++ pending_items y) /\
  (exists rest, l = (submitted y).*1 ++ rest).
Proof.
  intros Hs Hr. pose proof (sys_run_fifo _ _ _ _ Hs Hr) as Hf. unfold fifo in Hf.
  destruct (pc y); split; eauto; done.
Qed.

(** C12. No lost wake-up, under a policy that looks at the free counts: whenever the loop sleeps on [sch_event] with a request
    it could not place, no rank has the blocks that request needs. *)
Theorem dp_no_lost_wakeup `{!CapacityPolicy P} (cap : list Z) (y0 y : Sys P) (l : list RequestItem) (it : RequestItem) :
  started cap y0 -> sys_run y0 l y ->
  pc y = Blocked it -> loop_step y = None ->
  Forall (fun free => free < item_req (sched y) it) (kv_cache_stats (sched y)).
Proof.
  intros Hs Hr Hpc Hsleep. apply (sys_run_inv cap _ _ _ Hs Hr); [done..|].
  unfold loop_step in Hsleep. rewrite Hpc in Hsleep. by destruct (sch_event (sched y)).
Qed.

(** C36. Under a policy that looks at the free counts, a request larger than
    every rank's capacity blocks the loop for ever: when the loop meets it at the
    head of the queue it is refused, and from then on, whatever the clients, the
    controller and [terminate] do, the loop stays at that request and submits
    nothing more; the end event is awaited only at the loop head.  (Round robin
    places such a request at once, [rr_overdraws].) *)
Theorem dp_oversized_blocks_forever `{!CapacityPolicy P}
    (cap : list Z) (y0 y1 : Sys P) (l1 : list RequestItem) (it : RequestItem) (q : list RequestItem) :
  started cap y0 -> sys_run y0 l1 y1 ->
  pc y1 = Waiting -> end_event (sched y1) = false -> waiting_queue (sched y1) = it :: q ->
  Forall (fun c => c < item_req (sched y1) it) cap ->
  exists y2, loop_step y1 = Some (Ok y2) /\ pc y2 = Blocked it /\
    forall l2 y3, sys_run y2 l2 y3 -> pc y3 = Blocked it /\ submitted y3 = submitted y1.
Proof.
  intros Hs Hr1 Hpc Hev Hq Hbig. pose proof (sys_run_inv _ _ _ _ Hs Hr1) as Hinv.
  destruct (oversized_blocks cap y1 it q) as (y2 & Hl & Hpc2 & Hsub & Hreq); [done..|].
  exists y2. split; [done|]. split; [done|]. intros l2 y3 Hr2. rewrite <-Hsub.
  pose proof (sys_inv_step _ _ _ _ Hinv (step_loop _ _ Hl)) as Hinv2. rewrite <-Hreq in Hbig.
  by destruct (blocked_forever cap y2 l2 y3 it) as (_ & ? & _ & ?).
Qed.

End Properties.

(** [DPSchedulerCapRR] is capacity-aware round robin: the rank returned is
    the first one with enough free blocks met when cycling from the cursor, and
    the cursor moves just past it; when none has enough it returns -1. *)
Theorem caprr_schedule_first (s : DPScheduler DPSchedulerCapRR) (p o : Z) :
  0 < block_size s -> 0 < dp_size s -> zlen (kv_cache_stats s) = dp_size s ->
  0 <= cap_cur_rank (policy s) < dp_size s ->
  let cur := cap_cur_rank (policy s) in
  (exists k free, 0 <= k < dp_size s /\
     _schedule s p o = Ok (rot (dp_size s) cur k, {| cap_cur_rank := rot (dp_size s) cur (k + 1) |}) /\
     kv_cache_stats s !! Z.to_nat (rot (dp_size s) cur k) = Some free /\
     req (block_size s) p o <= free /\
     forall j f, 0 <= j < k -> kv_cache_stats s !! Z.to_nat (rot (dp_size s) cur j) = Some f ->
       f < req (block_size s) p o) \/
  (exists pl, _schedule s p o = Ok (-1, pl) /\
     Forall (fun free => free < req (block_size s) p o) (kv_cache_stats s)).
Proof.
  intros Hbs Hdp Hlen Hcur cur. rewrite caprr_schedule_eq by lia.
  destruct (caprr_loop_spec (Z.to_nat (dp_size s)) (dp_size s) (kv_cache_stats s)
    (req (block_size s) p o) cur) as [(k & Hk & Heq & (free & Hf & Hle) & Hb)|[Heq Hn]]; [done..| |];
    fold cur; rewrite Heq; simpl.
  - left. exists k, free. split; [lia|]. done.
  - right. eexists. split; [done|]. apply Forall_lookup. intros i f Hi.
    destruct (rot_surj (dp_size s) cur (Z.of_nat i)) as (k & Hk & Hr); [lia| |].
    { apply lookup_lt_Some in Hi. unfold zlen in Hlen. lia. }
    apply (Hn k); [lia|]. by rewrite Hr, Nat2Z.id.
Qed.

(** [DPSchedulerWeighted] with positive weights returns a rank that has the
    blocks and whose score (free blocks times weight, in floating point) no
    other rank with enough blocks exceeds; it returns -1 only when no rank has
    the blocks. *)
Theorem weighted_schedule_best (s : DPScheduler DPSchedulerWeighted) (p o : Z) :
  0 < block_size s -> zlen (kv_cache_stats s) = zlen (weights (policy s)) ->
  Forall (fun w => fpos w = true) (weights (policy s)) -> 0 < req (block_size s) p o ->
  exists r, _schedule s p o = Ok (r, policy s) /\
  ((r = -1 /\ Forall (fun nb => nb < req (block_size s) p o) (kv_cache_stats s)) \/
   (exists nb w, kv_cache_stats s !! Z.to_nat r = Some nb /\ weights (policy s) !! Z.to_nat r = Some w /\
      0 <= r /\ req (block_size s) p o <= nb /\
      forall i nb' w', kv_cache_stats s !! i = Some nb' -> weights (policy s) !! i = Some w' ->
        req (block_size s) p o <= nb' ->
        fltb (fmul (float_of_Z nb) w) (fmul (float_of_Z nb') w') = false)).
Proof.
  intros Hbs Hlen Hpos Hreq.
  destruct (weighted_schedule_spec s p o Hbs Hlen Hpos Hreq) as (r & Hs & Hpost).
  exists r. split; [done|].
  destruct Hpost as [[-> Hall]|(k & nb & w & -> & Hk & Hnb & Hw & _ & Hmax)].
  - left. split; [done|]. apply Forall_lookup. intros i nb Hi.
    by apply (weighted_none_full s (req (block_size s) p o) i nb); [lia|..].
  - right. exists nb, w. rewrite Z.add_0_l, Nat2Z.id. split; [done|]. split; [done|].
    split; [lia|]. split; [done|]. intros i nb' w' Hi Hw' Hle.
    apply not_true_iff_false. rewrite fltb_flt. by apply (Hmax i).
Qed.

(** [DPSchedulerMax] returns the rank with most free blocks when that many
    cover the request, and refuses only when no rank covers it. *)
Theorem max_schedule_best (s : DPScheduler DPSchedulerMax) (p o : Z) :
  0 < block_size s -> 0 < req (block_size s) p o ->
  (exists r free, _schedule s p o = Ok (r, policy s) /\ 0 <= r /\
     kv_cache_stats s !! Z.to_nat r = Some free /\ req (block_size s) p o <= free /\
     Forall (fun x => x <= free) (kv_cache_stats s)) \/
  (_schedule s p o = Ok (-1, policy s) /\
     Forall (fun x => x < req (block_size s) p o) (kv_cache_stats s)).
Proof.
  intros Hbs Hreq. rewrite max_schedule_eq by lia.
  pose proof (max_loop_spec (kv_cache_stats s) 0 0 (-1)) as Hm.
  destruct (max_loop _ _ _ _) as [st rk]. destruct Hm as (_ & Hall & Hc).
  destruct (Z.ltb_spec st (req (block_size s) p o)).
  - right. split; [done|]. eapply Forall_impl; [exact Hall|]. cbn beta. lia.
  - left. exists rk, st. destruct Hc as [[-> ->]|(_ & Hb & Hl)]; [lia|].
    rewrite Z.sub_0_r in Hl. split; [done|]. split; [lia|done].
Qed.

(** Releasing a request gives back exactly what admitting it reserved: the
    free counts and the running tables are those from before, only the
    capacity event is now set. *)
Theorem dp_add_del_roundtrip {P} (s : DPScheduler P) (id p o rank : Z) :
  0 < block_size s -> 0 <= rank < zlen (kv_cache_stats s) ->
  seq_ranks s !! id = None -> seq_max_len s !! id = None ->
  (s' ← add_seq id p o rank s; del_seq id s') = Ok (with_events (end_flag s) (end_event s) true s).
Proof.
  intros Hbs Hr Hid Hm. destruct (add_seq_spec id p o rank s) as (free & Hf & ->); [lia|done|].
  simpl. unfold del_seq. simpl. rewrite !lookup_insert_eq. simpl.
  rewrite required_blocks_eq by (simpl; lia). simpl.
  rewrite py_get_nonneg by (unfold zlen in *; rewrite length_insert; done).
  rewrite list_lookup_insert_eq by (unfold zlen in *; lia). simpl.
  rewrite py_set_nonneg by (unfold zlen in *; rewrite length_insert; done). simpl.
  rewrite list_insert_insert_eq, !delete_insert_id by done.
  unfold with_events, with_stats, with_seqs. simpl.
  replace (free - req (block_size s) p o + req (block_size s) p o) with free by lia.
  by rewrite list_insert_id.
Qed.

(** ** A concrete run

    Two replicas of four 16-token blocks under [DPSchedulerCapRR]: a request of
    32 + 16 tokens is placed on rank 0; one of 160 + 16 tokens fits nowhere. *)

Definition ok_or {A} (d : A) (r : res A) : A := match r with Ok a => a | Raise _ => d end.

Definition ex_sched : DPScheduler DPSchedulerCapRR :=
  let s := init 2 16 {| cap_cur_rank := 0 |} in ok_or s (start [(0, 4); (1, 4)] s).
Definition ex_sys : Sys DPSchedulerCapRR := {| sched := ex_sched; pc := Waiting; submitted := [] |}.
Definition ex_small : RequestItem := {| req_id := 1; seq_len := 48; prefill_len := 32; output_len := 16 |}.
Definition ex_big : RequestItem := {| req_id := 2; seq_len := 176; prefill_len := 160; output_len := 16 |}.
Definition ex_put (it : RequestItem) (y : Sys DPSchedulerCapRR) : Sys DPSchedulerCapRR :=
  {| sched := put_request it (sched y); pc := pc y; submitted := submitted y |}.
Definition ex_loop (y : Sys DPSchedulerCapRR) : Sys DPSchedulerCapRR :=
  match loop_step y with Some (Ok y') => y' | _ => y end.

Lemma ex_started : started [4; 4] ex_sys.
Proof. repeat split; try done. by repeat constructor. Qed.

Lemma ex_run it :
  0 < item_req ex_sched it ->
  loop_step (ex_put it ex_sys) = Some (Ok (ex_loop (ex_put it ex_sys))) ->
  sys_run ex_sys [it] (ex_loop (ex_put it ex_sys)).
Proof.
  intros Hpos Hl. apply (run_snoc _ (ex_put it ex_sys) _ [it] []); [|by constructor].
  apply (run_snoc _ ex_sys _ [] [it]); constructor; [done| |done].
  unfold pending_items. simpl. by apply not_elem_of_nil.
Qed.

(** The same cluster under round robin: the request of 160 + 16 tokens is
    placed on rank 0 at once and overdraws it by seven blocks. *)
Definition ex_rr : Sys DPSChedulerRR :=
  let s := init 2 16 {| rr_cur_rank := 0 |} in
  {| sched := ok_or s (start [(0, 4); (1, 4)] s); pc := Waiting; submitted := [] |}.
Definition ex_rr_put : Sys DPSChedulerRR :=
  {| sched := put_request ex_big (sched ex_rr); pc := Waiting; submitted := [] |}.

Lemma ex_rr_started : started [4; 4] ex_rr.
Proof. repeat split; try done. by repeat constructor. Qed.

Lemma rr_overdraws :
  exists y, sys_run ex_rr [ex_big] y /\ submitted y = [(ex_big, 0)] /\
    kv_cache_stats (sched y) = [-7; 4].
Proof.
  eexists. split; [|split].
  - apply (run_snoc _ ex_rr_put _ [ex_big] []).
    + apply (run_snoc _ ex_rr _ [] [ex_big]); [constructor|].
      apply (step_put ex_rr ex_big); [done| |done]. by apply not_elem_of_nil.
    + apply step_loop. vm_compute. reflexivity.
  - reflexivity.
  - reflexivity.
Qed.

Lemma dp_capacity_safe_witness :
  (let y := ex_loop (ex_put ex_small ex_sys) in
   exists free, kv_cache_stats (sched y) !! 0%nat = Some free /\
     (CapacityPolicy DPSchedulerCapRR -> 0 <= free) /\
     free + used (block_size (sched y)) (running (sched y)) 0 = 4) /\
  (exists free, kv_cache_stats (sched ex_rr_put) !! 1%nat = Some free /\
     (CapacityPolicy DPSChedulerRR -> 0 <= free) /\
     free + used (block_size (sched ex_rr_put)) (running (sched ex_rr_put)) 1 = 4).
Proof.
  split.
  - apply (dp_capacity_safe [4; 4] ex_sys _ [ex_small] ex_started); [|done].
    apply ex_run; vm_compute; reflexivity.
  - apply (dp_capacity_safe [4; 4] ex_rr _ [ex_big] ex_rr_started); [|done].
    apply (run_snoc _ ex_rr _ [] [ex_big]); [constructor|].
    apply (step_put ex_rr ex_big); [done| |done]. by apply not_elem_of_nil.
Defined.

Lemma dp_fifo_witness :
  let y := ex_loop (ex_put ex_small ex_sys) in
  (pc y <> Finished -> [ex_small] = (submitted y).*1 ++ pending_items y) /\
  (exists rest, [ex_small] = (submitted y).*1 ++ rest).
Proof. apply (dp_fifo [4; 4] ex_sys _ [ex_small] ex_started). apply ex_run; vm_compute; reflexivity. Defined.

Lemma dp_no_lost_wakeup_witness :
  let y := ex_loop (ex_put ex_big ex_sys) in
  Forall (fun free => free < item_req (sched y) ex_big) (kv_cache_stats (sched y)).
Proof.
  apply (dp_no_lost_wakeup [4; 4] ex_sys _ [ex_big] ex_big ex_started); [apply ex_run|..]; vm_compute; reflexivity.
Defined.

Lemma dp_oversized_blocks_forever_witness :
  exists y2, loop_step (ex_put ex_big ex_sys) = Some (Ok y2) /\ pc y2 = Blocked ex_big /\
    forall l2 y3, sys_run y2 l2 y3 -> pc y3 = Blocked ex_big /\ submitted y3 = [].
Proof.
  apply (dp_oversized_blocks_forever [4; 4] ex_sys (ex_put ex_big ex_sys) [ex_big] ex_big [] ex_started);
    [|done|done|done|repeat constructor].
  apply (run_snoc _ ex_sys _ [] [ex_big]); [constructor|].
  apply (step_put ex_sys ex_big); [done| |done]. by apply not_elem_of_nil.
Defined.

Lemma caprr_schedule_first_witness :
  _schedule ex_sched 32 16 = Ok (0, {| cap_cur_rank := 1 |}) /\
  let cur := cap_cur_rank (policy ex_sched) in
  (exists k free, 0 <= k < dp_size ex_sched /\
     _schedule ex_sched 32 16 = Ok (rot (dp_size ex_sched) cur k, {| cap_cur_rank := rot (dp_size ex_sched) cur (k + 1) |}) /\
     kv_cache_stats ex_sched !! Z.to_nat (rot (dp_size ex_sched) cur k) = Some free /\
     req (block_size ex_sched) 32 16 <= free /\
     forall j f, 0 <= j < k -> kv_cache_stats ex_sched !! Z.to_nat (rot (dp_size ex_sched) cur j) = Some f ->
       f < req (block_size ex_sched) 32 16) \/
  (exists pl, _schedule ex_sched 32 16 = Ok (-1, pl) /\
     Forall (fun free => free < req (block_size ex_sched) 32 16) (kv_cache_stats ex_sched)).
Proof. split; [reflexivity|]. by apply caprr_schedule_first. Defined.

(** Weights 1/4 and 3/4. *)
Definition ex_weighted : DPScheduler DPSchedulerWeighted :=
  let s := init 2 16 {| weights := [] |} in
  ok_or s (start [(0, 4); (1, 4)] (ok_or s (weighted_init 2 16 [float_of_Z 1; float_of_Z 3]))).

Lemma weighted_schedule_best_witness :
  exists r, _schedule ex_weighted 32 16 = Ok (r, policy ex_weighted).
Proof.
  destruct (weighted_schedule_best ex_weighted 32 16) as (r & Hr & _);
    [reflexivity|reflexivity|by repeat constructor|reflexivity|].
  exists r. exact Hr.
Defined.

Definition ex_max : DPScheduler DPSchedulerMax :=
  let s := init 3 16 MaxPolicy in ok_or s (start [(0, 4); (1, 9); (2, 6)] s).

Lemma max_schedule_best_witness :
  (exists r free, _schedule ex_max 32 16 = Ok (r, policy ex_max) /\ 0 <= r /\
     kv_cache_stats ex_max !! Z.to_nat r = Some free /\ req (block_size ex_max) 32 16 <= free /\
     Forall (fun x => x <= free) (kv_cache_stats ex_max)) \/
  (_schedule ex_max 32 16 = Ok (-1, policy ex_max) /\
     Forall (fun x => x < req (block_size ex_max) 32 16) (kv_cache_stats ex_max)).
Proof. by apply max_schedule_best. Defined.

Lemma dp_add_del_roundtrip_witness :
  (s' ← add_seq 7 32 16 1 ex_sched; del_seq 7 s') = Ok (with_events false false true ex_sched).
Proof. by apply (dp_add_del_roundtrip ex_sched 7 32 16 1). Defined.

End DP.
