(* ===== verification/Placement.v ===== *)
(** * Placement of layers and experts on devices ([disagmoe/utils/placement.py])

    A strategy computes which attention layers and which (layer, expert) pairs
    each device holds; the base class then derives the communication edges, the
    rank of every expert and the data-parallel rank of every attention device.
    The Python dictionaries are insertion ordered and are iterated, hence the
    association lists of the prelude.  The class [PlacementBase] is the set of
    methods a strategy overrides; [solve] is the template method over it. *)

From S2P Require Import Prelude Utils Config.
Import Utils Config.

Module Placement.

(** A (layer, expert) pair. *)
Notation expert_id := (Z * Z)%type.

(** [d[k].append(x)] and [d[k].extend(xs)]: [KeyError] when [k] is not a key. *)
Definition dextend {A} (d : list (Z * list A)) (k : Z) (xs : list A) : res (list (Z * list A)) :=
  l ← of_option KeyError (dget d k); Ok (dset d k (l ++ xs)).
Definition dappend {A} (d : list (Z * list A)) (k : Z) (x : A) : res (list (Z * list A)) :=
  dextend d k [x].

(** [sorted(set(l))] *)
Definition sorted_set (l : list Z) : list Z := merge_sort Z.le (remove_dups l).

Record ModelPlacement : Type := {
  attn : list (Z * list Z);
  expert : list (Z * list expert_id);
  in_device_ids : list (Z * list Z);
  out_device_ids : list (Z * list Z);
  device_groups : option (list (Z * list Z));
  expert_ranks : option (list (expert_id * Z));
  attn_dp_ranks : option (list (Z * Z));
  local_expert_counts : option (list (Z * Z));
  is_hybrid : bool;
}.

(** [ModelPlacement(attn, expert, {}, {}, ...)] *)
Definition make_placement (a : list (Z * list Z)) (e : list (Z * list expert_id))
    (groups : option (list (Z * list Z))) (counts : option (list (Z * Z))) (hybrid : bool)
  : ModelPlacement :=
  {| attn := a; expert := e; in_device_ids := []; out_device_ids := [];
     device_groups := groups; expert_ranks := None; attn_dp_ranks := None;
     local_expert_counts := counts; is_hybrid := hybrid |}.

Definition with_edges (i o : list (Z * list Z)) (pl : ModelPlacement) : ModelPlacement :=
  {| attn := attn pl; expert := expert pl; in_device_ids := i; out_device_ids := o;
     device_groups := device_groups pl; expert_ranks := expert_ranks pl;
     attn_dp_ranks := attn_dp_ranks pl; local_expert_counts := local_expert_counts pl;
     is_hybrid := is_hybrid pl |}.
Definition with_expert_ranks (r : list (expert_id * Z)) (pl : ModelPlacement) : ModelPlacement :=
  {| attn := attn pl; expert := expert pl; in_device_ids := in_device_ids pl;
     out_device_ids := out_device_ids pl; device_groups := device_groups pl;
     expert_ranks := Some r; attn_dp_ranks := attn_dp_ranks pl;
     local_expert_counts := local_expert_counts pl; is_hybrid := is_hybrid pl |}.
Definition with_attn_dp_ranks (r : list (Z * Z)) (pl : ModelPlacement) : ModelPlacement :=
  {| attn := attn pl; expert := expert pl; in_device_ids := in_device_ids pl;
     out_device_ids := out_device_ids pl; device_groups := device_groups pl;
     expert_ranks := expert_ranks pl; attn_dp_ranks := Some r;
     local_expert_counts := local_expert_counts pl; is_hybrid := is_hybrid pl |}.

(** ** Queries *)

Definition expert_rank_at (pl : ModelPlacement) (device_id : Z) : res Z :=
  _ ← py_assert (dmem (expert pl) device_id);
  er ← of_option AssertionError (expert_ranks pl);
  ids ← of_option KeyError (dget (expert pl) device_id);
  ranks ← py_map (fun id => of_option KeyError (dget er id)) ids;
  _ ← py_assert (zlen (remove_dups ranks) =? 1);
  py_get ranks 0.

(** [for i, d in enumerate(group): if d == device_id: return i], else 0 *)
Fixpoint group_index (i device_id : Z) (group : list Z) : Z :=
  match group with
  | [] => 0
  | d :: group => if d =? device_id then i else group_index (i + 1) device_id group
  end.

Definition attn_rank_at (pl : ModelPlacement) (device_id : Z) : res Z :=
  _ ← py_assert (dmem (attn pl) device_id);
  groups ← of_option TypeError (device_groups pl);
  group ← of_option KeyError (dget groups device_id);
  Ok (group_index 0 device_id group).

Definition rank_at (pl : ModelPlacement) (device_id : Z) : res Z :=
  if dmem (expert pl) device_id then expert_rank_at pl device_id else attn_rank_at pl device_id.

Definition out_expert_ranks_at (pl : ModelPlacement) (device_id : Z) : res (list (Z * Z * Z)) :=
  match dget (out_device_ids pl) device_id with
  | None => Ok []
  | Some outs =>
      py_for (fun result dev_out =>
        match dget (expert pl) dev_out with
        | None => Ok result
        | Some ids =>
            py_for (fun result id =>
              er ← of_option TypeError (expert_ranks pl);
              r ← of_option KeyError (dget er id);
              Ok (result ++ [(id.1, id.2, r)])) ids result
        end) outs []
  end.

Definition attn_layer_ids_at (pl : ModelPlacement) (device_id : Z) : list Z :=
  dget_or (attn pl) device_id [].
Definition expert_ids_at (pl : ModelPlacement) (device_id : Z) : list expert_id :=
  dget_or (expert pl) device_id [].
Definition unique_expert_ids_at (pl : ModelPlacement) (device_id : Z) : list Z :=
  sorted_set (expert_ids_at pl device_id).*2.

Definition local_num_experts_at (pl : ModelPlacement) (device_id : Z) : Z :=
  match local_expert_counts pl with
  | Some c =>
      match dget c device_id with
      | Some n => n
      | None => zlen (unique_expert_ids_at pl device_id)
      end
  | None => zlen (unique_expert_ids_at pl device_id)
  end.

Definition attn_dp_rank_at (pl : ModelPlacement) (device_id : Z) : res Z :=
  r ← of_option TypeError (attn_dp_ranks pl); Ok (dget_or r device_id 0).

Definition layer_ids_at (pl : ModelPlacement) (device_id : Z) : list Z :=
  sorted_set (attn_layer_ids_at pl device_id ++ (expert_ids_at pl device_id).*1).

Definition is_worker_device (pl : ModelPlacement) (device_id : Z) : res bool :=
  groups ← of_option TypeError (device_groups pl);
  match dget groups device_id with
  | None => Ok false
  | Some g => d ← py_get g 0; Ok (negb (d =? device_id))
  end.

Definition has_attn (pl : ModelPlacement) (device_id : Z) : bool := dmem (attn pl) device_id.
Definition in_device_ids_at (pl : ModelPlacement) (device_id : Z) : list Z :=
  dget_or (in_device_ids pl) device_id [].

(** [if k not in d: d[k] = []] *)
Definition ensure (d : list (Z * list Z)) (k : Z) : list (Z * list Z) :=
  if dmem d k then d else dset d k [].

Definition add_edge (pl : ModelPlacement) (e : Z * Z) : ModelPlacement :=
  let '(src, dst) := e in
  let ins := ensure (in_device_ids pl) dst in
  let outs := ensure (out_device_ids pl) src in
  if bool_decide (src ∈ dget_or ins dst [])
  then with_edges ins outs pl
  else with_edges (dset ins dst (dget_or ins dst [] ++ [src]))
                  (dset outs src (dget_or outs src [] ++ [dst])) pl.

(** ** The base class *)

Record ClusterConfig : Type := { n_node : Z; n_gpu : Z }.

Record Base : Type := {
  model_config : ModelConfig;
  cluster_config : ClusterConfig;
  expert_allocation : option (list Z);
}.

(** [__init__]: an allocation must account for every expert. *)
Definition base_init (mc : ModelConfig) (cc : ClusterConfig) (alloc : option (list Z)) : res Base :=
  _ ← match alloc with
      | Some a => py_assert (sumZ a =? num_experts mc)
      | None => Ok tt
      end;
  Ok {| model_config := mc; cluster_config := cc; expert_allocation := alloc |}.

(** [for a in xs: for b in ys: place.add_edge(f a b)] *)
Definition add_edges_between (f : Z -> Z -> Z * Z) (xs ys : list Z) (pl : ModelPlacement)
  : ModelPlacement :=
  foldl (fun pl a => foldl (fun pl b => add_edge pl (f a b)) pl ys) pl xs.

Definition _add_edges (b : Base) (place : ModelPlacement) : res ModelPlacement :=
  let L := num_layers (model_config b) in
  let empty := dict_of (fun _ => []) (py_range L) in
  attn_devs ← py_for (fun d '(dev, layer_ids) =>
                 py_for (fun d layer_id => dappend d layer_id dev) layer_ids d)
               (attn place) empty;
  exp_devs ← py_for (fun d '(dev, ids) =>
                 py_for (fun d '(layer_id, _) => dappend d layer_id dev) ids d)
               (expert place) empty;
  place ← py_for (fun place layer_id =>
      adevs ← of_option KeyError (dget attn_devs layer_id);
      place ← (if layer_id >? 0
               then prev ← of_option KeyError (dget exp_devs (layer_id - 1));
                    Ok (add_edges_between (fun dev prev_dev => (prev_dev, dev)) adevs prev place)
               else Ok place);
      edevs ← of_option KeyError (dget exp_devs layer_id);
      Ok (add_edges_between (fun dev exp_dev => (dev, exp_dev)) adevs edevs place))
    (py_range L) place;
  first ← of_option KeyError (dget attn_devs 0);
  match first with
  | [] => Ok place
  | _ =>
      last ← of_option KeyError (dget exp_devs (L - 1));
      Ok (add_edges_between (fun dev prev_dev => (prev_dev, dev)) first last place)
  end.

(** [_update_expert_rank], the same text in the base class and in the two
    strategies that override it. *)
Definition update_expert_rank (b : Base) (place : ModelPlacement) : res ModelPlacement :=
  match expert_allocation b with
  | Some _ =>
      Ok (with_expert_ranks
           (foldl (fun r '(dev_id, ids) => foldl (fun r id => dset r id dev_id) r ids)
              [] (expert place)) place)
  | None =>
      r ← py_for (fun r '(layer_id, eid) =>
             n ← num_experts_per_rank (model_config b);
             rk ← py_floordiv eid n;
             Ok (dset r (layer_id, eid) rk))
           (l ← py_range (num_layers (model_config b));
            e ← py_range (num_experts (model_config b)); [(l, e)]) [];
      Ok (with_expert_ranks r place)
  end.

Definition base_update_attn_dp_rank (place : ModelPlacement) : ModelPlacement :=
  with_attn_dp_ranks (dict_of (fun _ => 0) (dkeys (attn place))) place.

(** The methods a strategy provides. *)
Class PlacementBase (S : Type) : Type := {
  base : S -> Base;
  _solve : S -> Z -> Z -> Z -> Z -> res ModelPlacement;
  _update_expert_rank : S -> ModelPlacement -> res ModelPlacement;
  _update_attn_dp_rank : S -> ModelPlacement -> res ModelPlacement;
}.

Definition solve {S} `{PlacementBase S} (s : S) : res ModelPlacement :=
  let mc := model_config (base s) in
  let cc := cluster_config (base s) in
  place ← _solve s (num_layers mc) (num_experts mc) (n_node cc) (n_gpu cc);
  place ← _add_edges (base s) place;
  place ← _update_expert_rank s place;
  _update_attn_dp_rank s place.

(** ** [SinglePlacement] *)

Record SinglePlacement : Type := { single_base : Base; rep_attn : Z }.

(** [for j in range(n): i = next(node_id); d[i] = [x j]] *)
Definition counter_fill {A} (x : Z -> A) (n : Z) (st : Counter * list (Z * list A))
  : Counter * list (Z * list A) :=
  foldl (fun '(c, d) j => let '(i, c) := counter_next c in (c, dset d i [x j])) st (py_range n).

Definition single_solve (s : SinglePlacement) (n_layer n_expert n_node n_gpu_per_node : Z)
  : res ModelPlacement :=
  _ ← py_assert (n_layer * (rep_attn s + n_expert) <=? n_node * n_gpu_per_node);
  let '(_, a, e) :=
    foldl (fun '(c, a, e) i =>
             let '(c, a) := counter_fill (fun _ => i) (rep_attn s) (c, a) in
             let '(c, e) := counter_fill (fun j => (i, j)) n_expert (c, e) in (c, a, e))
          (counter_default, [], []) (py_range n_layer) in
  let pg := make_placement a e None None false in
  _ ← py_assert (zlen a =? n_layer * rep_attn s);
  _ ← py_assert (zlen (in_device_ids pg) =? n_layer * (rep_attn s + n_expert) + 1);
  _ ← py_assert (zlen (out_device_ids pg) =? n_layer * (rep_attn s + n_expert) + 1);
  Ok pg.

#[export] Instance single_placement : PlacementBase SinglePlacement := {|
  base := single_base;
  _solve := single_solve;
  _update_expert_rank s := update_expert_rank (single_base s);
  _update_attn_dp_rank s pl := Ok (base_update_attn_dp_rank pl);
|}.

(** ** [InterleavePlacement] *)

Record InterleavePlacement : Type := { inter_base : Base }.

(** One group: [tp] attention devices, then [ep] expert devices each repeated
    once per local expert; [attn_devs[-tp:]] is the group of the new devices. *)
Definition interleave_group (mc : ModelConfig)
    (st : Counter * list Z * list (list Z) * list (Z * list Z)) (_ : Z)
  : res (Counter * list Z * list (list Z) * list (Z * list Z)) :=
  let '(c, attn_devs, exp_devs, groups) := st in
  let '(new, c) := counter_take (Z.to_nat (tp_size mc)) c in
  let attn_devs := attn_devs ++ new in
  let devs := py_drop (- tp_size mc) attn_devs in
  let groups := foldl (fun g dev => dset g dev devs) groups devs in
  let '(es, c) := counter_take (Z.to_nat (ep_size mc)) c in
  layer_exp_devs ← py_for (fun l d => n ← num_experts_per_rank mc;
                                      Ok (l ++ replicate (Z.to_nat n) d)) es [];
  Ok (c, attn_devs, exp_devs ++ [layer_exp_devs], groups).

Definition interleave_solve (s : InterleavePlacement) (n_layer n_expert n_node n_gpu_per_node : Z)
  : res ModelPlacement :=
  let mc := model_config (inter_base s) in
  let tp := tp_size mc in
  r ← py_mod (n_node * n_gpu_per_node) (ep_size mc + tp);
  _ ← py_assert (r =? 0);
  n_group ← py_floordiv (n_node * n_gpu_per_node) (ep_size mc + tp);
  '(_, attn_devs, exp_devs, groups) ←
    py_for (interleave_group mc) (py_range n_group) (counter_default, [], [], []);
  let a := dict_of (fun _ => []) attn_devs in
  let e := foldl (fun e tp => foldl (fun e d => dset e d []) e tp) [] exp_devs in
  '(a, e) ← py_for (fun '(a, e) i =>
      g ← py_mod i n_group;
      driver ← py_get attn_devs (g * tp);
      a ← py_for (fun a j => dappend a (driver + j) i) (py_range tp) a;
      e ← py_for (fun e j => row ← py_get exp_devs g; d ← py_get row j; dappend e d (i, j))
            (py_range n_expert) e;
      Ok (a, e)) (py_range n_layer) (a, e);
  Ok (make_placement a e (Some groups) None false).

#[export] Instance interleave_placement : PlacementBase InterleavePlacement := {|
  base := inter_base;
  _solve := interleave_solve;
  _update_expert_rank s := update_expert_rank (inter_base s);
  _update_attn_dp_rank s pl := Ok (base_update_attn_dp_rank pl);
|}.

(** ** [PipelinePlacement] *)

Record PipelinePlacement : Type := {
  pipe_base : Base;
  step_attn : Z;
  step_expert : Z;
  zigzag_attn : bool;
}.

(** The virtual mapping: attention stage and expert stage of every layer. *)
Definition _solve_virtual (s : PipelinePlacement) : res (list (Z * list Z) * list (Z * list Z)) :=
  let p := step_attn s in
  let q := step_expert s in
  let L := num_layers (model_config (pipe_base s)) in
  py_for (fun '(attns, experts) i =>
      attn_dev ← (if zigzag_attn s then py_mod i p else k ← py_floordiv L p; py_floordiv i k);
      exp_dev ← py_mod i q;
      attns ← dappend attns attn_dev i;
      experts ← dappend experts exp_dev i;
      Ok (attns, experts))
    (py_range L) (dict_of (fun _ => []) (py_range p), dict_of (fun _ => []) (py_range q)).

Definition _solve_physical (s : PipelinePlacement) (mp : list (Z * list Z) * list (Z * list Z))
  : res ModelPlacement :=
  let mc := model_config (pipe_base s) in
  let p := step_attn s in
  let q := step_expert s in
  let num_attn_workers := p * tp_size mc * dp_size mc in
  let attns := dict_of (fun _ => []) (py_range num_attn_workers) in
  let experts := dict_of (fun _ => [])
                   (py_range2 num_attn_workers (num_attn_workers + q * ep_size mc)) in
  let groups := dict_of (fun i => py_range2 (i * tp_size mc) ((i + 1) * tp_size mc))
                  (py_range (p * dp_size mc)) in
  attns ← py_for (fun attns '(i, layers) =>
      py_for (fun attns j => dextend attns ((i * dp_size mc + j) * tp_size mc) layers)
        (py_range (dp_size mc)) attns) mp.1 attns;
  experts ← py_for (fun experts '(i, layers) =>
      py_for (fun experts e =>
          n ← num_experts_per_rank mc;
          r ← py_floordiv e n;
          py_for (fun experts l => dappend experts (num_attn_workers + i * ep_size mc + r) (l, e))
            layers experts)
        (py_range (num_experts mc)) experts) mp.2 experts;
  Ok (make_placement attns experts (Some groups) None false).

Definition pipeline_update_attn_dp_rank (s : PipelinePlacement) (place : ModelPlacement)
  : res ModelPlacement :=
  let mc := model_config (pipe_base s) in
  r ← py_for (fun r dev_id => d ← py_floordiv dev_id (tp_size mc); k ← py_mod d (dp_size mc);
                              Ok (dset r dev_id k)) (dkeys (attn place)) [];
  Ok (with_attn_dp_ranks r place).

Definition pipeline_solve (s : PipelinePlacement) (n_layer n_expert n_node n_gpu_per_node : Z)
  : res ModelPlacement :=
  let mc := model_config (pipe_base s) in
  _ ← py_assert (n_node * n_gpu_per_node >=?
                 step_attn s * tp_size mc * dp_size mc + step_expert s * ep_size mc);
  mp ← _solve_virtual s;
  _solve_physical s mp.

#[export] Instance pipeline_placement : PlacementBase PipelinePlacement := {|
  base := pipe_base;
  _solve := pipeline_solve;
  _update_expert_rank s := update_expert_rank (pipe_base s);
  _update_attn_dp_rank := pipeline_update_attn_dp_rank;
|}.

(** ** [ColocatePlacement] *)

Record ColocatePlacement : Type := { colo_base : Base }.

(** The allocation branch: [expert_id] runs over the devices. *)
Definition colocate_alloc (all_layers : list Z) (alloc : list Z)
    (experts : list (Z * list expert_id)) : res (list (Z * list expert_id) * Z) :=
  py_for (fun st '(dev_id, count) =>
      py_for (fun '(experts, eid) _ =>
          experts ← py_for (fun experts layer_id => dappend experts dev_id (layer_id, eid))
                      all_layers experts;
          Ok (experts, eid + 1))
        (py_range count) st)
    (zip (py_range (zlen alloc)) alloc) (experts, 0).

Definition colocate_solve (s : ColocatePlacement) (n_layer n_expert n_node n_gpu_per_node : Z)
  : res ModelPlacement :=
  let num_devices := n_node * n_gpu_per_node in
  let all_layers := py_range n_layer in
  let empty := dict_of (fun _ => []) (py_range num_devices) in
  attns ← py_for (fun a i => dextend a i all_layers) (py_range num_devices) empty;
  let experts := dict_of (fun _ => []) (py_range num_devices) in
  experts ←
    match expert_allocation (colo_base s) with
    | Some alloc =>
        _ ← py_assert (zlen alloc <=? num_devices);
        '(experts, eid) ← colocate_alloc all_layers alloc experts;
        _ ← py_assert (eid =? n_expert);
        Ok experts
    | None =>
        py_for (fun experts i =>
          py_for (fun experts j =>
              n ← num_experts_per_rank (model_config (colo_base s));
              d ← py_floordiv i n;
              dappend experts d (j, i)) all_layers experts)
          (py_range n_expert) experts
    end;
  let groups := dict_of (fun i => [i]) (py_range num_devices) in
  let counts := dict_of (fun dev => zlen (remove_dups (dget_or experts dev []).*2))
                  (py_range num_devices) in
  Ok (make_placement attns experts (Some groups) (Some counts) true).

#[export] Instance colocate_placement : PlacementBase ColocatePlacement := {|
  base := colo_base;
  _solve := colocate_solve;
  _update_expert_rank s := update_expert_rank (colo_base s);
  _update_attn_dp_rank s pl :=
    Ok (with_attn_dp_ranks (dict_of (fun dev => dev) (dkeys (attn pl))) pl);
|}.

(** ** [get_model_placement]: the strategy by its name and its own arguments;
    the allocation reaches the colocated strategy only. *)

Inductive Strategy : Type :=
  | StColocate
  | StSingle (rep : Z)
  | StInterleave
  | StPipeline (p q : Z) (zigzag : bool)
  | StOther.

Definition get_model_placement (mc : ModelConfig) (cc : ClusterConfig) (st : Strategy)
    (alloc : option (list Z)) : res ModelPlacement :=
  match st with
  | StColocate => b ← base_init mc cc alloc; solve {| colo_base := b |}
  | StSingle rep => b ← base_init mc cc None; solve {| single_base := b; rep_attn := rep |}
  | StInterleave => b ← base_init mc cc None; solve {| inter_base := b |}
  | StPipeline p q z =>
      b ← base_init mc cc None;
      solve {| pipe_base := b; step_attn := p; step_expert := q; zigzag_attn := z |}
  | StOther => Raise NotImplementedError
  end.

(** ** Loops of appends

    Every strategy fills its dictionaries with loops of [d[k].append(x)]; the
    flattened loop is [appends]. *)

Definition appends {A} (ops : list (Z * A)) (d : list (Z * list A)) : res (list (Z * list A)) :=
  py_for (fun d '(k, x) => dappend d k x) ops d.

Lemma dextend_Ok {A} (d d' : list (Z * list A)) k xs :
  dextend d k xs = Ok d' <-> exists l, dget d k = Some l /\ d' = dset d k (l ++ xs).
Proof. unfold dextend. destruct (dget d k); naive_solver. Qed.

Lemma appends_Ok {A} (ops : list (Z * A)) d :
  Forall (fun op => op.1 ∈ dkeys d) ops ->
  exists d', appends ops d = Ok d' /\ dkeys d' = dkeys d /\
    forall k, dget d' k = (fun l => l ++ (filter (fun op => op.1 = k) ops).*2) <$> dget d k.
Proof.
  revert d; induction ops as [|[k x] ops IH]; intros d Hall; simpl.
  { exists d. split; [done|]. split; [done|]. intros k. destruct (dget d k); simpl; [by rewrite app_nil_r|done]. }
  apply Forall_cons in Hall as [Hk Hall]. apply dget_Some_keys in Hk as [l Hl]. simpl in Hl.
  assert (Hkeys : dkeys (dset d k (l ++ [x])) = dkeys d) by (by apply dkeys_dset_in; eauto).
  destruct (IH (dset d k (l ++ [x]))) as (d' & Hrun & Hd' & Hget); [by rewrite Hkeys|].
  exists d'. split.
  { assert (Happ : dappend d k x = Ok (dset d k (l ++ [x]))) by (apply dextend_Ok; eauto).
    unfold appends. simpl. by rewrite Happ. } split; [congruence|]. intros k'. rewrite Hget, dget_dset.
  rewrite filter_cons. simpl. repeat case_decide; simplify_eq; [|done|done..].
  rewrite Hl. simpl. by rewrite <-app_assoc.
Qed.

Lemma appends_keys {A} (ops : list (Z * A)) d d' :
  appends ops d = Ok d' -> Forall (fun op => op.1 ∈ dkeys d) ops.
Proof.
  revert d; induction ops as [|[k x] ops IH]; intros d Hrun; [constructor|].
  unfold appends in Hrun. simpl in Hrun. apply bind_Ok in Hrun as (d1 & H1 & Hrun).
  apply dextend_Ok in H1 as (l & Hl & ->).
  constructor; [by apply dget_Some_keys; eauto|].
  rewrite <-(dkeys_dset_in d k (l ++ [x])) by eauto. by apply IH.
Qed.

Lemma elem_of_ops {A} (ops : list (Z * A)) k x :
  x ∈ (filter (fun op => op.1 = k) ops).*2 <-> (k, x) ∈ ops.
Proof.
  rewrite list_elem_of_fmap. split.
  - intros ([k' x'] & -> & [<- Hin]%list_elem_of_filter). done.
  - intros Hin. exists (k, x). split; [done|]. by apply list_elem_of_filter.
Qed.

Lemma dget_or_dict_of {A} (f : Z -> A) ks k dflt :
  NoDup ks -> dget_or (dict_of f ks) k dflt = if decide (k ∈ ks) then f k else dflt.
Proof. intros. unfold dget_or. rewrite dget_dict_of by done. by case_decide. Qed.

Lemma dkeys_dict_of {A} (f : Z -> A) ks : NoDup ks -> dkeys (dict_of f ks) = ks.
Proof.
  intros. rewrite dict_of_NoDup by done. unfold dkeys. rewrite <-list_fmap_compose.
  apply list_fmap_id.
Qed.

(** Starting from empty lists, the result holds exactly what was appended. *)
Lemma appends_from_empty {A} (ops : list (Z * A)) ks d' :
  NoDup ks -> appends ops (dict_of (fun _ => []) ks) = Ok d' ->
  dkeys d' = ks /\ (forall k, dget_or d' k [] = (filter (fun op => op.1 = k) ops).*2) /\
  Forall (fun op => op.1 ∈ ks) ops.
Proof.
  intros Hnd Hrun. pose proof (appends_keys _ _ _ Hrun) as Hall.
  destruct (appends_Ok _ _ Hall) as (d1 & Hrun1 & Hk & Hget). rewrite Hrun in Hrun1.
  injection Hrun1 as <-. rewrite dkeys_dict_of in * by done.
  split; [done|]. split; [|done]. intros k. unfold dget_or.
  rewrite Hget, dget_dict_of by done. case_decide as Hin; [done|]. simpl.
  destruct ((filter _ ops).*2) as [|x l] eqn:E; [done|].
  assert (Hx : x ∈ (filter (fun op => op.1 = k) ops).*2) by (rewrite E; left).
  apply elem_of_ops in Hx. rewrite Forall_forall in Hall. by apply Hall in Hx.
Qed.

(** ** Edges *)

(** The recorded edges are exactly those of [E], without repetition, and the
    two directions agree. *)
Record edges_ok (E : list (Z * Z)) (pl : ModelPlacement) : Prop := {
  eo_in : forall u v, u ∈ dget_or (in_device_ids pl) v [] <-> (u, v) ∈ E;
  eo_out : forall u v, v ∈ dget_or (out_device_ids pl) u [] <-> (u, v) ∈ E;
  eo_nodup_in : forall v, NoDup (dget_or (in_device_ids pl) v []);
  eo_nodup_out : forall u, NoDup (dget_or (out_device_ids pl) u []);
}.

Lemma ensure_get d k k' : dget_or (ensure d k) k' [] = dget_or d k' [].
Proof.
  unfold ensure, dget_or. destruct (dmem d k) eqn:Em; [done|].
  rewrite dget_dset. case_decide as Hk; [subst|done].
  destruct (dget d k') eqn:E; [|done].
  assert (Ht : dmem d k' = true) by (apply dmem_true, dget_Some_keys; eauto). congruence.
Qed.

Lemma dget_or_dset (d : list (Z * list Z)) k k' l :
  dget_or (dset d k l) k' [] = if decide (k = k') then l else dget_or d k' [].
Proof. unfold dget_or. rewrite dget_dset. by case_decide. Qed.

Lemma add_edge_ok E pl u v : edges_ok E pl -> edges_ok (E ++ [(u, v)]) (add_edge pl (u, v)).
Proof.
  intros [Hin Hout Hni Hno]. unfold add_edge. rewrite !ensure_get.
  case_bool_decide as Hc.
  - assert (HE : forall a b, (a, b) ∈ E <-> (a, b) ∈ E ++ [(u, v)]).
    { intros a b. rewrite elem_of_app, list_elem_of_singleton. split; [by left|].
      intros [?|Heq]; [done|]. simplify_eq. by apply Hin. }
    split; intros; simpl; rewrite ?ensure_get, <-?HE; auto.
  - assert (HnE : v ∉ dget_or (out_device_ids pl) u []) by (rewrite Hout, <-Hin; done).
    split; intros; simpl; rewrite dget_or_dset, ?ensure_get; case_decide; subst;
      rewrite ?elem_of_app, ?list_elem_of_singleton; auto.
    + rewrite Hin. naive_solver.
    + rewrite Hin. naive_solver.
    + rewrite Hout. naive_solver.
    + rewrite Hout. naive_solver.
    + apply NoDup_app. split; [auto|]. split; [|apply NoDup_singleton].
      by intros x Hx ->%list_elem_of_singleton.
    + apply NoDup_app. split; [auto|]. split; [|apply NoDup_singleton].
      by intros x Hx ->%list_elem_of_singleton.
Qed.

Lemma add_edges_ok E0 E pl :
  edges_ok E0 pl -> edges_ok (E0 ++ E) (foldl add_edge pl E).
Proof.
  revert E0 pl; induction E as [|[u v] E IH]; intros E0 pl Hok; simpl; [by rewrite app_nil_r|].
  replace (E0 ++ (u, v) :: E) with ((E0 ++ [(u, v)]) ++ E) by (by rewrite <-app_assoc).
  by apply IH, add_edge_ok.
Qed.

(** Adding edges touches the edge tables only. *)
Lemma foldl_add_edge_frame E pl :
  exists i o, foldl add_edge pl E = with_edges i o pl.
Proof.
  revert pl; induction E as [|[u v] E IH]; intros pl; cbn [foldl].
  - exists (in_device_ids pl), (out_device_ids pl). by destruct pl.
  - destruct (IH (add_edge pl (u, v))) as (i & o & ->). exists i, o.
    unfold add_edge. by case_bool_decide.
Qed.

Lemma add_edges_between_flat f xs ys pl :
  add_edges_between f xs ys pl = foldl add_edge pl (x ← xs; y ← ys; [f x y]).
Proof.
  unfold add_edges_between. revert pl; induction xs as [|x xs IH]; intros pl; [done|].
  simpl. rewrite foldl_app, <-IH. f_equal. clear IH. revert pl.
  induction ys as [|y ys IH]; intros pl; [done|]. simpl. apply IH.
Qed.

(** The devices that hold a layer, as the loops of [_add_edges] collect them. *)
Lemma layer_devs_spec {A} (f : A -> Z) (items : list (Z * list A)) L d' :
  py_for (fun d '(dev, xs) => py_for (fun d x => dappend d (f x) dev) xs d)
    items (dict_of (fun _ => []) (py_range L)) = Ok d' ->
  forall layer dev, dev ∈ dget_or d' layer [] <-> exists xs, (dev, xs) ∈ items /\ layer ∈ f <$> xs.
Proof.
  intros Hrun.
  set (ops := '(dev, xs) ← items; (fun x => (f x, dev)) <$> xs).
  assert (Hops : appends ops (dict_of (fun _ => []) (py_range L)) = Ok d').
  { unfold appends, ops. rewrite <-py_for_nest. rewrite <-Hrun. apply py_for_ext.
    intros d [dev xs] _. apply py_for_fmap. }
  apply appends_from_empty in Hops as (_ & Hget & _); [|apply py_range_NoDup].
  intros layer dev. rewrite Hget, elem_of_ops. unfold ops. rewrite list_elem_of_bind. split.
  - intros ([dev' xs] & (x & Heq & Hx)%list_elem_of_fmap & Hin). simplify_eq.
    exists xs. split; [done|]. by apply list_elem_of_fmap_2.
  - intros (xs & Hin & (x & -> & Hx)%list_elem_of_fmap). exists (dev, xs). split; [|done].
    apply list_elem_of_fmap. by exists x.
Qed.

(** Layer [l] is on device [dev], for attention and for experts. *)
Definition attn_on (pl : ModelPlacement) (dev l : Z) : Prop := l ∈ attn_layer_ids_at pl dev.
Definition experts_on (pl : ModelPlacement) (dev l : Z) : Prop := l ∈ (expert_ids_at pl dev).*1.

(** The dataflow of a token: attention of a layer feeds the experts of the layer,
    which feed the attention of the next one, the last layer feeding the first. *)
Definition flows (L : Z) (pl : ModelPlacement) (u v : Z) : Prop :=
  exists l, 0 <= l < L /\
    ((attn_on pl u l /\ experts_on pl v l) \/ (experts_on pl u l /\ attn_on pl v ((l + 1) mod L))).

Lemma elem_of_between (f : Z -> Z -> Z * Z) xs ys e :
  e ∈ (x ← xs; y ← ys; [f x y]) <-> exists x y, e = f x y /\ x ∈ xs /\ y ∈ ys.
Proof.
  rewrite list_elem_of_bind. split.
  - intros (x & (y & He & Hy)%list_elem_of_bind & Hx). apply list_elem_of_singleton in He. eauto.
  - intros (x & y & He & Hx & Hy). exists x. split; [|done]. apply list_elem_of_bind.
    exists y. by rewrite list_elem_of_singleton.
Qed.

Lemma dget_or_of_option {A} (d : list (Z * list A)) k l :
  of_option KeyError (dget d k) = Ok l -> l = dget_or d k [].
Proof. intros H%of_option_Ok. unfold dget_or. by rewrite H. Qed.

(** The edges added for one layer. *)
Definition layer_edges (A X : Z -> list Z) (l : Z) : list (Z * Z) :=
  (if l >? 0 then (dev ← A l; prev ← X (l - 1); [(prev, dev)]) else []) ++
  (dev ← A l; exp ← X l; [(dev, exp)]).

Lemma add_edges_loop ad xd L place0 place1 :
  py_for (fun place layer_id =>
      adevs ← of_option KeyError (dget ad layer_id);
      place ← (if layer_id >? 0
               then prev ← of_option KeyError (dget xd (layer_id - 1));
                    Ok (add_edges_between (fun dev prev_dev => (prev_dev, dev)) adevs prev place)
               else Ok place);
      edevs ← of_option KeyError (dget xd layer_id);
      Ok (add_edges_between (fun dev exp_dev => (dev, exp_dev)) adevs edevs place))
    (py_range L) place0 = Ok place1 ->
  place1 = foldl add_edge place0
    (l ← py_range L; layer_edges (fun l => dget_or ad l []) (fun l => dget_or xd l []) l).
Proof.
  apply (py_for_inv (fun pre place => place = foldl add_edge place0
    (l ← pre; layer_edges (fun l => dget_or ad l []) (fun l => dget_or xd l []) l))); [done|].
  intros pre l post t t' _ -> Hbody.
  rewrite bind_app, foldl_app. simpl. rewrite app_nil_r.
  set (t0 := foldl _ _ _) in *. unfold layer_edges. rewrite foldl_app.
  apply bind_Ok in Hbody as (adevs & ->%dget_or_of_option & Hbody).
  apply bind_Ok in Hbody as (t1 & Ht1 & Hbody).
  apply bind_Ok in Hbody as (edevs & ->%dget_or_of_option & Hbody). injection Hbody as <-.
  rewrite add_edges_between_flat. f_equal. destruct (l >? 0).
  - apply bind_Ok in Ht1 as (prev & ->%dget_or_of_option & Ht1). injection Ht1 as <-.
    by rewrite add_edges_between_flat.
  - by injection Ht1 as <-.
Qed.

(** The whole of [_add_edges] as one list of edges. *)
Lemma add_edges_list b pl pl' :
  _add_edges b pl = Ok pl' ->
  let L := num_layers (model_config b) in
  exists ad xd E, pl' = foldl add_edge pl E /\ 0 < L /\
    (forall l dev, dev ∈ dget_or ad l [] <-> exists xs, (dev, xs) ∈ attn pl /\ l ∈ xs) /\
    (forall l dev, dev ∈ dget_or xd l [] <-> exists xs, (dev, xs) ∈ expert pl /\ l ∈ xs.*1) /\
    E = (l ← py_range L; layer_edges (fun l => dget_or ad l []) (fun l => dget_or xd l []) l)
        ++ (dev ← dget_or ad 0 []; prev ← dget_or xd (L - 1) []; [(prev, dev)]).
Proof.
  intros Hrun L. unfold _add_edges in Hrun. fold L in Hrun.
  apply bind_Ok in Hrun as (ad & Had & Hrun). apply bind_Ok in Hrun as (xd & Hxd & Hrun).
  apply bind_Ok in Hrun as (place1 & Hloop & Hrun). apply add_edges_loop in Hloop.
  apply bind_Ok in Hrun as (first & Hfirst & Hrun).
  assert (Hkeys : forall (d' : list (Z * list Z)) (ops : list (Z * Z)),
    appends ops (dict_of (fun _ => []) (py_range L)) = Ok d' -> is_Some (dget d' 0) -> 0 < L).
  { intros d' ops Ha Hs. apply appends_from_empty in Ha as (Hk & _ & _); [|apply py_range_NoDup].
    apply dget_Some_keys in Hs. rewrite Hk in Hs. apply elem_of_py_range in Hs. lia. }
  exists ad, xd. eexists. split; [|split; [|split; [|split; [|done]]]].
  - rewrite foldl_app, <-Hloop. pose proof (dget_or_of_option _ _ _ Hfirst) as Hf. rewrite <-Hf.
    destruct first as [|d0 first]; [by injection Hrun as <-|].
    apply bind_Ok in Hrun as (last & ->%dget_or_of_option & Hrun). apply Ok_inj in Hrun as <-.
    by rewrite add_edges_between_flat.
  - eapply (Hkeys ad ('(dev, xs) ← attn pl; (fun x => (x, dev)) <$> xs));
      [|apply of_option_Ok in Hfirst; eauto].
    unfold appends. rewrite <-py_for_nest, <-Had. apply py_for_ext.
    intros d [dev xs] _. apply py_for_fmap.
  - intros l dev. rewrite (layer_devs_spec (fun x => x) _ _ _ Had).
    by setoid_rewrite list_fmap_id.
  - intros l dev. rewrite (layer_devs_spec fst (expert pl) L xd); [done|].
    rewrite <-Hxd. apply py_for_ext. intros d [dev' xs] _. apply py_for_ext. by intros d' [? ?] _.
Qed.

Lemma dict_items_get {A B} (f : A -> B) (d : list (Z * list A)) dev x :
  NoDup (dkeys d) ->
  (exists xs, (dev, xs) ∈ d /\ x ∈ f <$> xs) <-> x ∈ f <$> dget_or d dev [].
Proof.
  intros Hnd. unfold dget_or. split.
  - intros (xs & Hin & Hx). by rewrite (elem_dget _ _ _ Hnd Hin).
  - destruct (dget d dev) as [xs|] eqn:E; [|by intros ?%elem_of_nil].
    intros Hx. exists xs. split; [by apply dget_elem|done].
Qed.

(** The list of edges is the dataflow relation. *)
Lemma layer_edges_flows L (A X : Z -> list Z) u v :
  0 < L ->
  (u, v) ∈ (l ← py_range L; layer_edges A X l)
           ++ (dev ← A 0; prev ← X (L - 1); [(prev, dev)]) <->
  exists l, 0 <= l < L /\ ((u ∈ A l /\ v ∈ X l) \/ (u ∈ X l /\ v ∈ A ((l + 1) mod L))).
Proof.
  intros HL. rewrite elem_of_app, elem_of_between, list_elem_of_bind. split.
  - intros [(l & Hl & Hr%elem_of_py_range)|(x & y & Heq & Hx & Hy)]; simplify_eq.
    + unfold layer_edges in Hl. rewrite Z.gtb_ltb in Hl.
      apply elem_of_app in Hl as [Hl|(x & y & Heq & Hx & Hy)%elem_of_between]; simplify_eq.
      * destruct (Z.ltb_spec 0 l); [|by apply elem_of_nil in Hl].
        apply elem_of_between in Hl as (x & y & Heq & Hx & Hy). simplify_eq.
        exists (l - 1). split; [lia|]. right. split; [done|].
        replace (l - 1 + 1) with l by lia. by rewrite Z.mod_small by lia.
      * exists l. split; [done|]. by left.
    + exists (L - 1). split; [lia|]. right. replace (L - 1 + 1) with L by lia.
      by rewrite Z.mod_same by lia.
  - intros (l & Hr & [[Hu Hv]|[Hu Hv]]).
    + left. exists l. split; [|by apply elem_of_py_range]. unfold layer_edges.
      apply elem_of_app. right. apply elem_of_between. eauto.
    + destruct (decide (l = L - 1)) as [->|Hne].
      * right. replace (L - 1 + 1) with L in Hv by lia. rewrite Z.mod_same in Hv by lia. eauto.
      * left. rewrite Z.mod_small in Hv by lia. exists (l + 1). split; [|apply elem_of_py_range; lia].
        unfold layer_edges. apply elem_of_app. left. rewrite Z.gtb_ltb.
        destruct (Z.ltb_spec 0 (l + 1)); [|lia]. apply elem_of_between.
        exists v, u. by replace (l + 1 - 1) with l by lia.
Qed.

(** The communication graph is the dataflow of the model: [_add_edges]
    records an edge from one device to another exactly when some layer's
    attention on the first feeds its experts on the second, or some layer's
    experts on the first feed the next layer's attention on the second (the last
    layer feeding the first); the two directions agree and no edge is doubled. *)
Theorem add_edges_exact (b : Base) (pl pl' : ModelPlacement) :
  _add_edges b pl = Ok pl' ->
  in_device_ids pl = [] -> out_device_ids pl = [] ->
  NoDup (dkeys (attn pl)) -> NoDup (dkeys (expert pl)) ->
  forall u v,
    (v ∈ dget_or (out_device_ids pl') u [] <-> flows (num_layers (model_config b)) pl u v) /\
    (u ∈ in_device_ids_at pl' v <-> flows (num_layers (model_config b)) pl u v) /\
    NoDup (dget_or (out_device_ids pl') u []) /\ NoDup (in_device_ids_at pl' v).
Proof.
  intros Hrun Hi Ho Hna Hne u v.
  destruct (add_edges_list b pl pl' Hrun) as (ad & xd & E & -> & HL & Had & Hxd & HE).
  assert (H0 : edges_ok [] pl).
  { split; intros; rewrite ?Hi, ?Ho; unfold dget_or; simpl; rewrite ?elem_of_nil; by try constructor. }
  destruct (add_edges_ok [] E pl H0) as [Hin Hout Hni Hno]. simpl in *.
  assert (Hflow : (u, v) ∈ E <-> flows (num_layers (model_config b)) pl u v).
  { rewrite HE, layer_edges_flows by done. unfold flows, attn_on, experts_on.
    setoid_rewrite Had. setoid_rewrite Hxd. unfold attn_layer_ids_at, expert_ids_at.
    setoid_rewrite <-(dict_items_get fst _ _ _ Hne).
    assert (Ha : forall dev l, (exists xs, (dev, xs) ∈ attn pl /\ l ∈ xs) <-> l ∈ dget_or (attn pl) dev []).
    { intros dev l. pose proof (dict_items_get (fun x => x) (attn pl) dev l Hna) as Hg.
      rewrite list_fmap_id in Hg. rewrite <-Hg. by setoid_rewrite list_fmap_id. }
    by setoid_rewrite Ha. }
  unfold in_device_ids_at. rewrite Hin, Hout. auto.
Qed.

(** ** The colocated strategy *)

(** Every (layer, expert) pair, expert by expert. *)
Definition pairs (E L : Z) : list expert_id := e ← py_range E; l ← py_range L; [(l, e)].

Lemma elem_of_pairs E L l e : (l, e) ∈ pairs E L <-> 0 <= l < L /\ 0 <= e < E.
Proof.
  unfold pairs. rewrite list_elem_of_bind. split.
  - intros (x & (y & He & Hy)%list_elem_of_bind & Hx). apply list_elem_of_singleton in He.
    apply elem_of_py_range in Hx, Hy. simplify_eq. lia.
  - intros [Hl He]. exists e. split; [|by apply elem_of_py_range]. apply list_elem_of_bind.
    exists l. split; [by apply list_elem_of_singleton|by apply elem_of_py_range].
Qed.

Lemma NoDup_pairs E L : NoDup (pairs E L).
Proof.
  unfold pairs. apply NoDup_bind; [|intros e _; apply NoDup_bind|apply py_range_NoDup].
  - intros e1 e2 [l e] _ _ (y1 & H1 & _)%list_elem_of_bind (y2 & H2 & _)%list_elem_of_bind.
    apply list_elem_of_singleton in H1, H2. congruence.
  - intros l1 l2 x _ _ H1%list_elem_of_singleton H2%list_elem_of_singleton. congruence.
  - intros. apply NoDup_singleton.
  - apply py_range_NoDup.
Qed.

(** The appends of the allocation branch. *)
Definition alloc_row (layers : list Z) (dev : Z) (es : list Z) : list (Z * expert_id) :=
  e ← es; l ← layers; [(dev, (l, e))].

Fixpoint alloc_ops (layers : list Z) (dev eid : Z) (alloc : list Z) : list (Z * expert_id) :=
  match alloc with
  | [] => []
  | count :: alloc =>
      alloc_row layers dev (seqZ eid count) ++
      alloc_ops layers (dev + 1) (eid + Z.max 0 count) alloc
  end.

Definition alloc_total (alloc : list Z) : Z := sumZ (Z.max 0 <$> alloc).

Lemma alloc_total_cons c alloc : alloc_total (c :: alloc) = Z.max 0 c + alloc_total alloc.
Proof. done. Qed.

Lemma alloc_inner_loop layers dev (us : list Z) d eid :
  py_for (fun '(experts, eid) _ =>
      experts ← py_for (fun experts layer_id => dappend experts dev (layer_id, eid)) layers experts;
      Ok (experts, eid + 1)) us (d, eid)
  = (d' ← appends (alloc_row layers dev (seqZ eid (zlen us))) d; Ok (d', eid + zlen us)).
Proof.
  revert d eid; induction us as [|u us IH]; intros d eid.
  { simpl. change (zlen []) with 0. simpl. by rewrite Z.add_0_r. }
  pose proof (zlen_nonneg us). rewrite zlen_cons, (seqZ_cons eid) by lia. simpl.
  unfold appends, alloc_row in *. simpl. rewrite py_for_app.
  assert (Hrow : py_for (fun d '(k, x) => dappend d k x) (layers ≫= (fun l => [(dev, (l, eid))])) d
    = py_for (fun experts layer_id => dappend experts dev (layer_id, eid)) layers d).
  { rewrite <-py_for_nest. apply py_for_ext. intros s l _. simpl. by destruct (dappend s dev (l, eid)). }
  rewrite Hrow. destruct (py_for _ layers d) as [d1|]; simpl; [|done].
  rewrite IH. replace (Z.succ eid) with (eid + 1) by lia.
  replace (Z.pred (zlen us + 1)) with (zlen us) by lia.
  destruct (py_for _ _ d1); simpl; [|done]. do 2 f_equal. lia.
Qed.

Lemma alloc_loop layers alloc dev d eid :
  py_for (fun st '(dev_id, count) =>
      py_for (fun '(experts, eid) _ =>
          experts ← py_for (fun experts layer_id => dappend experts dev_id (layer_id, eid))
                      layers experts;
          Ok (experts, eid + 1))
        (py_range count) st)
    (zip (seqZ dev (zlen alloc)) alloc) (d, eid)
  = (d' ← appends (alloc_ops layers dev eid alloc) d; Ok (d', eid + alloc_total alloc)).
Proof.
  revert dev d eid; induction alloc as [|c alloc IH]; intros dev d eid.
  { simpl. by rewrite Z.add_0_r. }
  pose proof (zlen_nonneg alloc). rewrite zlen_cons, seqZ_cons by lia.
  cbn [zip zip_with py_for alloc_ops]. rewrite alloc_inner_loop. unfold appends in *. rewrite py_for_app.
  assert (Hz : zlen (py_range c) = Z.max 0 c) by (unfold zlen; rewrite py_range_length; lia).
  assert (Hs : seqZ eid (zlen (py_range c)) = seqZ eid c).
  { rewrite Hz. unfold seqZ. do 2 f_equal. lia. }
  rewrite Hs. destruct (py_for _ _ d) as [d1|]; simpl; [|done].
  replace (Z.succ dev) with (dev + 1) by lia. replace (Z.pred (zlen alloc + 1)) with (zlen alloc) by lia.
  rewrite IH, Hz. destruct (py_for _ _ d1); simpl; [|done].
  rewrite alloc_total_cons. do 2 f_equal. lia.
Qed.

Lemma colocate_alloc_eq layers alloc d :
  colocate_alloc layers alloc d
  = (d' ← appends (alloc_ops layers 0 0 alloc) d; Ok (d', alloc_total alloc)).
Proof. apply alloc_loop. Qed.

Lemma alloc_total_nonneg alloc : 0 <= alloc_total alloc.
Proof. induction alloc; [done|]. rewrite alloc_total_cons. lia. Qed.

(** The expert ids are handed out consecutively. *)
Lemma alloc_ops_pairs L alloc dev eid :
  (alloc_ops (py_range L) dev eid alloc).*2
  = (e ← seqZ eid (alloc_total alloc); l ← py_range L; [(l, e)]).
Proof.
  revert dev eid; induction alloc as [|c alloc IH]; intros dev eid; [done|].
  pose proof (alloc_total_nonneg alloc).
  cbn [alloc_ops]. rewrite fmap_app, IH, alloc_total_cons. unfold alloc_row.
  rewrite seqZ_app, bind_app by lia. f_equal.
  replace (seqZ eid (Z.max 0 c)) with (seqZ eid c) by (unfold seqZ; do 2 f_equal; lia).
  generalize (seqZ eid c). intros es. induction es as [|e es IHe]; [done|].
  rewrite !bind_cons, fmap_app, IHe. f_equal. generalize (py_range L). intros ls.
  induction ls as [|l ls IHl]; [done|]. by rewrite !bind_cons, fmap_app, IHl.
Qed.

Lemma alloc_ops_devs layers alloc dev eid op :
  op ∈ alloc_ops layers dev eid alloc -> dev <= op.1 < dev + zlen alloc.
Proof.
  revert dev eid; induction alloc as [|c alloc IH]; intros dev eid Hop; [by apply elem_of_nil in Hop|].
  pose proof (zlen_nonneg alloc). rewrite zlen_cons. cbn [alloc_ops] in Hop.
  apply elem_of_app in Hop as [(e & (l & Hl & _)%list_elem_of_bind & _)%list_elem_of_bind|Hop].
  - apply list_elem_of_singleton in Hl. subst. simpl. lia.
  - apply IH in Hop. lia.
Qed.

(** The device of an expert does not depend on the layer. *)
Fixpoint alloc_dev (dev eid : Z) (alloc : list Z) (e : Z) : Z :=
  match alloc with
  | [] => dev
  | count :: alloc => if e <? eid + count then dev else alloc_dev (dev + 1) (eid + Z.max 0 count) alloc e
  end.

Lemma alloc_ops_from layers dev eid alloc op : op ∈ alloc_ops layers dev eid alloc -> eid <= op.2.2.
Proof.
  revert dev eid; induction alloc as [|c alloc IH]; intros dev eid Hop; [by apply elem_of_nil in Hop|]. cbn [alloc_ops] in Hop.
  apply elem_of_app in Hop as [(e & (l & Hl & _)%list_elem_of_bind & He%elem_of_seqZ)%list_elem_of_bind|Hop%IH]; [|lia].
  apply list_elem_of_singleton in Hl. subst. simpl. lia.
Qed.

Lemma alloc_ops_dev layers dev eid alloc op : op ∈ alloc_ops layers dev eid alloc -> op.1 = alloc_dev dev eid alloc op.2.2.
Proof.
  revert dev eid; induction alloc as [|c alloc IH]; intros dev eid Hop; [by apply elem_of_nil in Hop|]. cbn [alloc_ops alloc_dev] in *.
  apply elem_of_app in Hop as [(e & (l & Hl & _)%list_elem_of_bind & He%elem_of_seqZ)%list_elem_of_bind|Hop].
  - apply list_elem_of_singleton in Hl. subst. simpl. rewrite (proj2 (Z.ltb_lt _ _)) by lia. done.
  - pose proof (alloc_ops_from _ _ _ _ _ Hop). rewrite (proj2 (Z.ltb_ge _ _)) by lia. by apply IH.
Qed.

(** With counts that are not negative, the [i]-th device holds for every layer the
    experts from the sum of the counts before it. *)
Lemma elem_of_alloc_row layers dev es d l e :
  (d, (l, e)) ∈ alloc_row layers dev es <-> d = dev /\ l ∈ layers /\ e ∈ es.
Proof.
  unfold alloc_row. rewrite list_elem_of_bind. setoid_rewrite list_elem_of_bind.
  setoid_rewrite list_elem_of_singleton. split.
  - intros (e' & (l' & Heq & Hl) & He). by simplify_eq.
  - intros (-> & Hl & He). eauto.
Qed.

Lemma elem_of_alloc_ops layers dev eid alloc d l e :
  Forall (fun c => 0 <= c) alloc ->
  (d, (l, e)) ∈ alloc_ops layers dev eid alloc <->
  l ∈ layers /\ exists (i : nat) c, alloc !! i = Some c /\ d = dev + Z.of_nat i /\
    eid + sumZ (take i alloc) <= e < eid + sumZ (take i alloc) + c.
Proof.
  intros Hall. revert dev eid. induction Hall as [|c alloc Hc _ IH]; intros dev eid.
  { split; [intros H; by apply elem_of_nil in H|intros (_ & i & c & Hi & _); done]. }
  cbn [alloc_ops]. rewrite elem_of_app, elem_of_alloc_row, elem_of_seqZ, IH. rewrite Z.max_r by done. split.
  - intros [(-> & Hl & He)|(Hl & i & c' & Hi & -> & He)]; (split; [done|]).
    + exists O, c. cbn. split; [done|]. lia.
    + exists (S i), c'. unfold sumZ in *. cbn. split; [done|]. lia.
  - unfold sumZ in *. intros (Hl & [|i] & c' & Hi & -> & He); cbn in Hi, He; [left; simplify_eq; split; [lia|]; split; [done|lia]|].
    right. split; [done|]. exists i, c'. split; [done|]. lia.
Qed.

(** The appends of the default branch. *)
Definition default_ops (n E L : Z) : list (Z * expert_id) :=
  (fun id : expert_id => (id.2 / n, id)) <$> pairs E L.

Lemma py_for_raise {A S} (f : S -> A -> res S) e l s s' :
  (forall s a, f s a = Raise e) -> py_for f l s = Ok s' -> l = [].
Proof. intros Hf. destruct l; [done|]. simpl. by rewrite Hf. Qed.

Lemma default_loop_eq mc E L d :
  py_for (fun experts i => py_for (fun experts j =>
      n ← num_experts_per_rank mc; k ← py_floordiv i n; dappend experts k (j, i))
    (py_range L) experts) (py_range E) d
  = py_for (fun experts id => n ← num_experts_per_rank mc; k ← py_floordiv id.2 n; dappend experts k id)
      (pairs E L) d.
Proof.
  unfold pairs. rewrite <-py_for_nest. apply py_for_ext. intros s e _.
  rewrite <-py_for_nest. apply py_for_ext. intros s' l _. simpl.
  destruct (_ ≫= _); done.
Qed.

(** Where it ends, the default branch is [default_ops], or there is no pair. *)
Lemma default_loop_inv mc E L d d' :
  py_for (fun experts i => py_for (fun experts j =>
      n ← num_experts_per_rank mc; k ← py_floordiv i n; dappend experts k (j, i))
    (py_range L) experts) (py_range E) d = Ok d' ->
  exists ops, appends ops d = Ok d' /\ ops.*2 = pairs E L /\
    forall op, op ∈ ops -> exists n, num_experts_per_rank mc = Ok n /\ n <> 0 /\ op.1 = op.2.2 / n.
Proof.
  rewrite default_loop_eq. intros Hrun.
  assert (Hnil : pairs E L = [] -> exists ops, appends ops d = Ok d' /\ ops.*2 = pairs E L /\
    forall op, op ∈ ops -> exists n, num_experts_per_rank mc = Ok n /\ n <> 0 /\ op.1 = op.2.2 / n).
  { intros Hp. rewrite Hp in Hrun. exists []. split; [done|]. rewrite Hp. split; [done|].
    by intros op ?%elem_of_nil. }
  destruct (num_experts_per_rank mc) as [n|e]; [|apply Hnil; by eapply (py_for_raise _ e)].
  unfold py_floordiv in Hrun. destruct (Z.eqb_spec n 0) as [->|Hn].
  { apply Hnil. eapply (py_for_raise _ ZeroDivisionError); [|exact Hrun]. done. }
  exists (default_ops n E L). split; [|split].
  - unfold appends, default_ops. rewrite py_for_fmap. rewrite <-Hrun. apply py_for_ext.
    intros s [l e] _. simpl. by rewrite (proj2 (Z.eqb_neq n 0) Hn).
  - unfold default_ops. rewrite <-list_fmap_compose. apply list_fmap_id.
  - intros op (id & -> & _)%list_elem_of_fmap. by exists n.
Qed.

Lemma colocate_attns n (layers : list Z) attns :
  py_for (fun a i => dextend a i layers) (py_range n) (dict_of (fun _ => []) (py_range n)) = Ok attns ->
  dkeys attns = py_range n /\ forall d, dget_or attns d [] = if decide (d ∈ py_range n) then layers else [].
Proof.
  intros Hrun.
  cut (forall l a a', py_for (fun a i => dextend a i layers) l a = Ok a' -> NoDup l ->
    dkeys a' = dkeys a /\ forall d, dget_or a' d [] = if decide (d ∈ l) then dget_or a d [] ++ layers else dget_or a d []).
  { intros Hg. destruct (Hg _ _ _ Hrun (py_range_NoDup n)) as [-> Hd]. split; [apply dkeys_dict_of, py_range_NoDup|].
    intros d. rewrite Hd, dget_or_dict_of by apply py_range_NoDup. by case_decide. }
  clear. induction l as [|i l IH]; intros a a' Hr Hnd; simpl in Hr.
  { injection Hr as <-. split; [done|]. intros d. rewrite decide_False; [done|apply not_elem_of_nil]. }
  apply NoDup_cons in Hnd as [Hi Hnd]. apply bind_Ok in Hr as (a1 & (x & Hx & ->)%dextend_Ok & Hr). destruct (IH _ _ Hr Hnd) as [-> Hd]. split.
  - apply dkeys_dset_in. eauto.
  - intros d. rewrite Hd. unfold dget_or. rewrite dget_dset. destruct (decide (i = d)) as [<-|Hne].
    + rewrite (decide_False (P := i ∈ l)), (decide_True (P := i ∈ i :: l)) by (done || by left). by rewrite Hx.
    + apply decide_ext. set_solver.
Qed.

(** What the colocated [_solve] returns, as one list of (device, pair) appends. *)
Lemma colocate_solve_inv s L E nn ng pl :
  colocate_solve s L E nn ng = Ok pl ->
  exists ops,
    ops.*2 = pairs E L /\ (forall op, op ∈ ops -> 0 <= op.1 < nn * ng) /\
    (forall d, expert_ids_at pl d = (filter (fun op => op.1 = d) ops).*2) /\
    dkeys (expert pl) = py_range (nn * ng) /\ dkeys (attn pl) = py_range (nn * ng) /\
    (expert_allocation (colo_base s) = None -> forall op, op ∈ ops ->
       exists n, num_experts_per_rank (model_config (colo_base s)) = Ok n /\ n <> 0 /\
                 op.1 = op.2.2 / n) /\
    (exists dev : Z -> Z, forall op, op ∈ ops -> op.1 = dev op.2.2) /\
    (forall d, attn_layer_ids_at pl d = if decide (d ∈ py_range (nn * ng)) then py_range L else []).
Proof.
  intros Hrun. unfold colocate_solve in Hrun.
  apply bind_Ok in Hrun as (attns & [Ha Hlays]%colocate_attns & Hrun).
  apply bind_Ok in Hrun as (experts & Hx & Hrun). apply Ok_inj in Hrun as <-. simpl.
  assert (Hops : exists ops, appends ops (dict_of (fun _ => []) (py_range (nn * ng))) = Ok experts /\
    ops.*2 = pairs E L /\ (expert_allocation (colo_base s) = None -> forall op, op ∈ ops ->
       exists n, num_experts_per_rank (model_config (colo_base s)) = Ok n /\ n <> 0 /\ op.1 = op.2.2 / n) /\
    (exists dev : Z -> Z, forall op, op ∈ ops -> op.1 = dev op.2.2)).
  { destruct (expert_allocation (colo_base s)) as [alloc|].
    - apply bind_Ok in Hx as ([] & _ & Hx). rewrite colocate_alloc_eq in Hx.
      apply bind_Ok in Hx as ([ex eid] & Hal & Hx). apply bind_Ok in Hx as ([] & Heid & Hx).
      apply bind_Ok in Hal as (ex' & Happ & Hal). apply py_assert_Ok, Z.eqb_eq in Heid.
      simplify_eq/=. eexists. split; [exact Happ|]. split; [by rewrite alloc_ops_pairs|]. split; [done|].
      exists (alloc_dev 0 0 alloc). intros op. apply alloc_ops_dev.
    - apply default_loop_inv in Hx as (ops & Happ & Hp & Hdev). exists ops. do 3 (split; [by auto|]).
      destruct (num_experts_per_rank (model_config (colo_base s))) as [k|]; [exists (fun e => e / k)|exists (fun e => e)];
        intros op Hop; by destruct (Hdev op Hop) as (k' & [= <-] & _ & ->). }
  destruct Hops as (ops & Happ & Hp & Hdev & Hd). exists ops.
  apply appends_from_empty in Happ as (Hk & Hget & Hall); [|apply py_range_NoDup].
  split; [done|]. split; [|split; [exact Hget|]]; [|auto 10].
  intros op Hop. rewrite Forall_forall in Hall. by apply Hall, elem_of_py_range in Hop.
Qed.

Lemma ops_unique E L (ops : list (Z * expert_id)) d d' id :
  ops.*2 = pairs E L -> (d, id) ∈ ops -> (d', id) ∈ ops -> d = d'.
Proof.
  intros Hp H1 H2. assert (Hnd : NoDup ops.*2) by (rewrite Hp; apply NoDup_pairs).
  apply list_elem_of_lookup in H1 as [i Hi], H2 as [j Hj].
  assert (i = j) as <-; [|congruence].
  eapply NoDup_lookup; [exact Hnd| |]; rewrite list_lookup_fmap; [by rewrite Hi|by rewrite Hj].
Qed.

Lemma add_edges_frame b pl pl' :
  _add_edges b pl = Ok pl' -> exists i o, pl' = with_edges i o pl.
Proof. intros (ad & xd & E & -> & _)%add_edges_list. apply foldl_add_edge_frame. Qed.

(** The ranks of the allocation branch: the device that holds the pair. *)
Lemma alloc_ranks_get (ex : list (Z * list expert_id)) d id :
  NoDup (dkeys ex) -> id ∈ dget_or ex d [] -> (forall d', id ∈ dget_or ex d' [] -> d' = d) ->
  dget (foldl (fun r '(dev_id, ids) => foldl (fun r id => dset r id dev_id) r ids) [] ex) id = Some d.
Proof.
  intros Hnd Hin Huniq.
  set (kvs := '(dev, ids) ← ex; (fun id : expert_id => (id, dev)) <$> ids).
  assert (Hflat : forall r, foldl (fun r '(dev_id, ids) => foldl (fun r id => dset r id dev_id) r ids) r ex
    = foldl (fun r '(k, v) => dset r k v) r kvs).
  { unfold kvs. clear. induction ex as [|[dev ids] ex IH]; intros r; [done|].
    rewrite bind_cons, foldl_app. cbn [foldl]. rewrite IH. f_equal. clear IH. revert r.
    induction ids as [|i ids IH]; intros r; [done|]. cbn. apply IH. }
  assert (Hkv : forall v, (id, v) ∈ kvs <-> id ∈ dget_or ex v []).
  { intros v. pose proof (dict_items_get (fun x => x) ex v id Hnd) as Hg.
    rewrite list_fmap_id in Hg. rewrite <-Hg. unfold kvs. rewrite list_elem_of_bind. split.
    - intros ([dev ids] & (i & Heq & Hi)%list_elem_of_fmap & He). simplify_eq.
      exists ids. by rewrite list_fmap_id.
    - intros (ids & He & Hi). rewrite list_fmap_id in Hi. exists (v, ids). split; [|done].
      apply list_elem_of_fmap. by exists id. }
  rewrite Hflat. apply dget_foldl_dset; [by apply Hkv|]. intros v' Hv'. by apply Huniq, Hkv.
Qed.

(** The ranks of the default branch: the expert over the experts per rank. *)
Lemma default_ranks_get mc r l e :
  py_for (fun r '(layer_id, eid) =>
      n ← num_experts_per_rank mc; rk ← py_floordiv eid n; Ok (dset r (layer_id, eid) rk))
    (l ← py_range (num_layers mc); e ← py_range (num_experts mc); [(l, e)]) [] = Ok r ->
  0 <= l < num_layers mc -> 0 <= e < num_experts mc ->
  exists n, num_experts_per_rank mc = Ok n /\ n <> 0 /\ dget r (l, e) = Some (e / n).
Proof.
  intros Hrun Hl He. set (ids := l ← py_range (num_layers mc); e ← py_range (num_experts mc); [(l, e)]) in Hrun.
  assert (Hid : (l, e) ∈ ids).
  { apply elem_of_between. exists l, e. by rewrite !elem_of_py_range. }
  unfold py_floordiv in Hrun. destruct (num_experts_per_rank mc) as [n|ex].
  2:{ apply (py_for_raise _ ex) in Hrun; [|by intros ? [? ?]]. rewrite Hrun in Hid. by apply elem_of_nil in Hid. }
  destruct (Z.eqb_spec n 0) as [->|Hn].
  { apply (py_for_raise _ ZeroDivisionError) in Hrun; [|by intros ? [? ?]].
    rewrite Hrun in Hid. by apply elem_of_nil in Hid. }
  exists n. split; [done|]. split; [done|].
  assert (Hfold : forall ids r0, py_for (fun r '(a, b) => Ok (dset r (a, b) (b / n))) ids r0
    = Ok (foldl (fun d '(k, v) => dset d k v) r0 ((fun id : expert_id => (id, id.2 / n)) <$> ids))).
  { clear. induction ids as [|[a b] ids IH]; intros r0; [done|]. cbn [py_for]. simpl. apply IH. }
  assert (Hrun' : py_for (fun r '(a, b) => Ok (dset r (a, b) (b / n))) ids [] = Ok r).
  { rewrite <-Hrun. apply py_for_ext. intros r0 [a b] _. simpl. by rewrite (proj2 (Z.eqb_neq n 0) Hn). }
  rewrite Hfold in Hrun'. apply Ok_inj in Hrun' as <-.
  apply dget_foldl_dset.
  - apply list_elem_of_fmap. by exists (l, e).
  - intros v' ([a b] & Heq & _)%list_elem_of_fmap. by simplify_eq.
Qed.

(** The experts of a device under an allocation. *)
Lemma colocate_alloc_ids s alloc pl d :
  solve s = Ok pl -> expert_allocation (colo_base s) = Some alloc ->
  expert_ids_at pl d
  = (filter (fun op => op.1 = d) (alloc_ops (py_range (num_layers (model_config (colo_base s)))) 0 0 alloc)).*2.
Proof.
  intros Hrun Ha. unfold solve in Hrun. cbn in Hrun. unfold colocate_solve in Hrun. rewrite Ha in Hrun.
  apply bind_Ok in Hrun as (p0 & Hsolve & Hrun). apply bind_Ok in Hsolve as (attns & _ & Hsolve).
  apply bind_Ok in Hrun as (p1 & (i & o & ->)%add_edges_frame & Hrun).
  apply bind_Ok in Hrun as (p2 & Hrank & Hrun). apply Ok_inj in Hrun as <-.
  unfold update_expert_rank in Hrank. rewrite Ha in Hrank. apply Ok_inj in Hrank as <-.
  apply bind_Ok in Hsolve as (ex & Hx & Hsolve). apply Ok_inj in Hsolve as <-.
  rewrite colocate_alloc_eq in Hx. inv_ok. unfold expert_ids_at. cbn [with_attn_dp_ranks with_expert_ranks with_edges expert make_placement].
  destruct (appends_from_empty (A := expert_id) (alloc_ops (py_range (num_layers (model_config (colo_base s)))) 0 0 alloc)
    (py_range (n_node (cluster_config (colo_base s)) * n_gpu (cluster_config (colo_base s)))) ex) as (_ & Hg & _); [apply py_range_NoDup| |apply Hg].
  done.
Qed.

Section Colocate.
Context (s : ColocatePlacement).
Let mc := model_config (colo_base s).
Let n := n_node (cluster_config (colo_base s)) * n_gpu (cluster_config (colo_base s)).

(** The whole of [solve] for the colocated strategy. *)
Lemma colocate_solved pl :
  solve s = Ok pl ->
  exists ops er,
    ops.*2 = pairs (num_experts mc) (num_layers mc) /\
    (forall op, op ∈ ops -> 0 <= op.1 < n) /\
    (forall d, expert_ids_at pl d = (filter (fun op => op.1 = d) ops).*2) /\
    dkeys (expert pl) = py_range n /\ expert_ranks pl = Some er /\
    (forall d id, (d, id) ∈ ops -> dget er id = Some d).
Proof.
  intros Hrun. unfold solve in Hrun. simpl in Hrun.
  apply bind_Ok in Hrun as (p0 & Hsolve & Hrun).
  apply bind_Ok in Hrun as (p1 & (i & o & ->)%add_edges_frame & Hrun).
  apply bind_Ok in Hrun as (p2 & Hrank & Hrun). apply Ok_inj in Hrun as <-.
  apply colocate_solve_inv in Hsolve as (ops & Hp & Hdev & Hget & Hk & _ & Hdef & _).
  unfold update_expert_rank in Hrank.
  destruct (expert_allocation (colo_base s)) as [alloc|].
  - apply Ok_inj in Hrank as <-. exists ops. eexists. do 5 (split; [done|]).
    intros d id Hin. apply alloc_ranks_get; simpl.
    + rewrite Hk. apply py_range_NoDup.
    + change (id ∈ expert_ids_at p0 d). rewrite (Hget d). by apply elem_of_ops.
    + intros d' Hd'. change (id ∈ expert_ids_at p0 d') in Hd'.
      rewrite (Hget d') in Hd'. apply elem_of_ops in Hd'. by eapply ops_unique.
  - apply bind_Ok in Hrank as (r & Hr & Hrank). apply Ok_inj in Hrank as <-.
    exists ops, r. do 5 (split; [done|]). intros d [l e] Hin.
    assert (Hle : (l, e) ∈ ops.*2) by (apply list_elem_of_fmap; by exists (d, (l, e))).
    rewrite Hp in Hle. apply elem_of_pairs in Hle as [Hl He].
    destruct (default_ranks_get _ _ l e Hr Hl He) as (k & Hk1 & _ & ->).
    destruct (Hdef eq_refl _ Hin) as (k' & Hk2 & _ & Hd). simpl in Hd. congruence.
Qed.

(** C34. Colocated placement is a partition with a matching routing table: when
    [solve] returns, every expert of every layer is on exactly one device of the
    cluster, [expert_ranks] maps it to that device, and each device lists its
    pairs once, all of them experts of the model. *)
Theorem colocate_partition (pl : ModelPlacement) :
  solve s = Ok pl ->
  (forall l e, 0 <= l < num_layers mc -> 0 <= e < num_experts mc ->
    exists d er, 0 <= d < n /\ expert_ranks pl = Some er /\ dget er (l, e) = Some d /\
      forall d', (l, e) ∈ expert_ids_at pl d' <-> d' = d) /\
  (forall d, NoDup (expert_ids_at pl d) /\
     Forall (fun id => 0 <= id.1 < num_layers mc /\ 0 <= id.2 < num_experts mc) (expert_ids_at pl d)).
Proof.
  intros (ops & er & Hp & Hdev & Hget & _ & Her & Hrk)%colocate_solved. split.
  - intros l e Hl He.
    assert (Hin : (l, e) ∈ ops.*2) by (rewrite Hp; by apply elem_of_pairs).
    apply list_elem_of_fmap in Hin as ([d id] & Heq & Hin). simpl in Heq. subst id.
    exists d, er. split; [by apply (Hdev _ Hin)|]. split; [done|]. split; [by apply Hrk|].
    intros d'. rewrite Hget, elem_of_ops. split; [|by intros ->].
    intros Hin'. by eapply ops_unique.
  - intros d. rewrite Hget. split.
    + assert (Hnd : NoDup ops.*2) by (rewrite Hp; apply NoDup_pairs).
      eapply sublist_NoDup; [exact Hnd|]. apply fmap_sublist, sublist_filter.
    + apply Forall_forall. intros [l e] Hin. apply (elem_of_ops ops d) in Hin.
      apply elem_of_pairs. rewrite <-Hp. apply list_elem_of_fmap. by exists (d, (l, e)).
Qed.

(** The layout of a colocated cluster: one device per expert, attention and its rank on
    every device, an edge wherever one of the ends holds experts. *)
Record colocated (pl : ModelPlacement) (dev : Z -> Z) : Prop := {
  cl_device : forall e, 0 < num_layers mc -> 0 <= e < num_experts mc -> 0 <= dev e < n;
  cl_ranks : exists er, expert_ranks pl = Some er /\
    forall l e, 0 <= l < num_layers mc -> 0 <= e < num_experts mc -> dget er (l, e) = Some (dev e);
  cl_experts : forall d l e, (l, e) ∈ expert_ids_at pl d <-> 0 <= l < num_layers mc /\ 0 <= e < num_experts mc /\ d = dev e;
  cl_dp : forall d, 0 <= d < n -> attn_dp_rank_at pl d = Ok d;
  cl_edges : forall u v, v ∈ dget_or (out_device_ids pl) u [] <->
    0 < num_layers mc /\ 0 <= u < n /\ 0 <= v < n /\ exists e, 0 <= e < num_experts mc /\ (u = dev e \/ v = dev e);
  cl_once : forall u, NoDup (dget_or (out_device_ids pl) u []);
}.

Lemma colocate_no_edges st L E nn ng pl :
  colocate_solve st L E nn ng = Ok pl -> in_device_ids pl = [] /\ out_device_ids pl = [].
Proof. unfold colocate_solve. intros Hrun. apply bind_Ok in Hrun as (? & _ & Hrun). apply bind_Ok in Hrun as (? & _ & Hrun). by apply Ok_inj in Hrun as <-. Qed.

Lemma colocate_layout pl : solve s = Ok pl -> exists dev, colocated pl dev.
Proof.
  intros Hrun. pose proof (colocate_solved pl Hrun) as (ops0 & er & _ & Hdev0 & Hget0 & _ & Her & Hrk).
  unfold solve in Hrun. simpl in Hrun. apply bind_Ok in Hrun as (p0 & Hsolve & Hrun).
  apply bind_Ok in Hrun as (p1 & Hadd & Hrun). apply bind_Ok in Hrun as (p2 & Hrank & Hrun). apply Ok_inj in Hrun.
  pose proof (colocate_no_edges _ _ _ _ _ _ Hsolve) as [Hi0 Ho0].
  apply colocate_solve_inv in Hsolve as (ops & Hp & _ & Hget & Hkx & Hka & _ & (dev & Hd) & Hal).
  assert (exists r, p2 = with_expert_ranks r p1) as (r & E2).
  { unfold update_expert_rank in Hrank. destruct (expert_allocation _); [apply Ok_inj in Hrank; eauto|].
    apply bind_Ok in Hrank as (r & _ & Hrank). apply Ok_inj in Hrank. eauto. }
  pose proof (add_edges_frame _ _ _ Hadd) as (i & o & E1).
  assert (Hexp : forall d l e, (l, e) ∈ expert_ids_at p0 d <-> 0 <= l < num_layers mc /\ 0 <= e < num_experts mc /\ d = dev e).
  { intros d l e. rewrite Hget, elem_of_ops. split.
    - intros Hin. assert (Hle : (l, e) ∈ ops.*2) by (apply list_elem_of_fmap; by exists (d, (l, e))). rewrite Hp in Hle.
      apply elem_of_pairs in Hle as [Hl He]. split; [done|]. split; [done|apply (Hd _ Hin)].
    - intros (Hl & He & ->). assert (Hle : (l, e) ∈ ops.*2) by (rewrite Hp; by apply elem_of_pairs).
      apply list_elem_of_fmap in Hle as ([d' id] & Heq & Hin). simpl in Heq. subst id. pose proof (Hd _ Hin) as E. simpl in E. by rewrite <-E. }
  assert (Hin0 : forall l e, 0 <= l < num_layers mc -> 0 <= e < num_experts mc -> (dev e, (l, e)) ∈ ops0).
  { intros l e Hl He. apply elem_of_ops. rewrite <-Hget0. subst pl p2 p1. by apply Hexp. }
  assert (Hdevn : forall e, 0 < num_layers mc -> 0 <= e < num_experts mc -> 0 <= dev e < n)
    by (intros e HL He; apply (Hdev0 (dev e, (0, e))), Hin0; [lia|done]).
  assert (Hflow : forall u v, flows (num_layers mc) p0 u v <->
    0 < num_layers mc /\ 0 <= u < n /\ 0 <= v < n /\ exists e, 0 <= e < num_experts mc /\ (u = dev e \/ v = dev e)).
  { assert (Hx : forall u l, 0 <= l < num_layers mc -> experts_on p0 u l <-> exists e, 0 <= e < num_experts mc /\ u = dev e).
    { intros u l Hl. unfold experts_on. split.
      - intros ([l' e] & -> & (_ & He & ->)%Hexp)%list_elem_of_fmap. by exists e.
      - intros (e & He & ->). apply list_elem_of_fmap. exists (l, e). split; [done|]. by apply Hexp. }
    assert (Ha : forall u l, 0 <= l < num_layers mc -> attn_on p0 u l <-> 0 <= u < n).
    { intros u l Hl. unfold attn_on. rewrite Hal. case_decide as Hu; rewrite elem_of_py_range in Hu; fold n in Hu;
        [rewrite elem_of_py_range; tauto|rewrite elem_of_nil; tauto]. }
    intros u v. unfold flows. split.
    - intros (l & Hl & H). assert (0 <= (l + 1) mod num_layers mc < num_layers mc) by (apply Z.mod_pos_bound; lia).
      rewrite !Ha, !Hx in H by done. split; [lia|].
      destruct H as [[Hu (e & He & ->)]|[(e & He & ->) Hv]]; pose proof (Hdevn e ltac:(lia) He); eauto 10.
    - intros (HL & Hu & Hv & e & He & Hc). exists 0. split; [lia|]. assert (0 <= (0 + 1) mod num_layers mc < num_layers mc) by (apply Z.mod_pos_bound; lia).
      rewrite !Ha, !Hx by lia. destruct Hc as [->| ->]; [right|left]; eauto. }
  pose proof (add_edges_exact _ _ _ Hadd Hi0 Ho0) as Hedges. rewrite Hka, Hkx in Hedges. specialize (Hedges (py_range_NoDup _) (py_range_NoDup _)).
  exists dev. split; [exact Hdevn| | | | |].
  - exists er. split; [done|]. intros l e Hl He. apply Hrk. by apply Hin0.
  - intros d l e. subst pl p2 p1. apply Hexp.
  - intros d Hdn. subst pl p2 p1. change (Ok (dget_or (dict_of (fun dev => dev) (dkeys (attn p0))) d 0) = Ok d). f_equal. rewrite Hka, dget_or_dict_of by apply py_range_NoDup.
    by rewrite decide_True by (by apply elem_of_py_range).
  - intros u v. destruct (Hedges u v) as (H & _). rewrite <-Hflow. subst pl p2. exact H.
  - intros u. destruct (Hedges u 0) as (_ & _ & H & _). subst pl p2. done.
Qed.

(** The rank a colocated engine is started with is its device number, but
    only where it holds an expert: on a device of the cluster that was given
    none, [rank_at] raises instead of answering. *)
Theorem colocate_rank_at (pl : ModelPlacement) (d : Z) :
  solve s = Ok pl -> 0 <= d < n ->
  rank_at pl d = if decide (expert_ids_at pl d = []) then Raise AssertionError else Ok d.
Proof.
  intros (ops & er & Hp & Hdev & Hget & Hk & Her & Hrk)%colocate_solved Hd.
  assert (Hmem : dmem (expert pl) d = true) by (apply dmem_true; rewrite Hk; by apply elem_of_py_range).
  unfold rank_at, expert_rank_at. rewrite Hmem, Her. simpl.
  destruct (proj2 (dget_Some_keys (expert pl) d)) as [ids Hids].
  { by apply dmem_true. }
  assert (Hie : ids = expert_ids_at pl d) by (unfold expert_ids_at, dget_or; by rewrite Hids).
  rewrite Hids. simpl. rewrite Hie in *. clear Hie ids Hids.
  assert (Hmap : py_map (fun id => of_option KeyError (dget er id)) (expert_ids_at pl d)
    = Ok (replicate (length (expert_ids_at pl d)) d)).
  { apply py_map_Forall2. apply Forall2_replicate_r; [done|]. apply Forall_forall.
    intros id Hid. rewrite Hget in Hid. apply elem_of_ops in Hid. unfold flip. by rewrite (Hrk _ _ Hid). }
  rewrite Hmap. cbn [mbind res_bind]. destruct (expert_ids_at pl d) as [|id ids]; [done|].
  rewrite decide_False by done. cbn [length replicate].
  assert (Hdup : forall k, remove_dups (d :: replicate k d) = [d]).
  { induction k as [|k IH]; [done|]. cbn [replicate].
    change (remove_dups (d :: d :: replicate k d)) with
      (if decide_rel elem_of d (d :: replicate k d) then remove_dups (d :: replicate k d)
       else d :: remove_dups (d :: replicate k d)).
    destruct (decide_rel elem_of d (d :: replicate k d)) as [|Hn]; [done|].
    destruct Hn. left. }
  by rewrite Hdup.
Qed.

End Colocate.

(** ** The other strategies *)

(** [SinglePlacement] never places anything: it compares the number of
    recorded edges, which nobody has added yet, with the number of devices plus
    one, so [solve] raises for every model and cluster. *)
Theorem single_solve_raises (s : SinglePlacement) :
  0 <= rep_attn s -> 0 <= num_experts (model_config (single_base s)) ->
  0 <= num_layers (model_config (single_base s)) ->
  solve s = Raise AssertionError.
Proof.
  intros Hr He Hl. unfold solve. simpl. unfold single_solve.
  set (L := num_layers _) in *. set (E := num_experts _) in *.
  destruct (L * (rep_attn s + E) <=? _); simpl; [|done].
  destruct (foldl _ _ _) as [[c a] e].
  destruct (zlen a =? L * rep_attn s); simpl; [|done].
  assert (Hpos : 0 < L * (rep_attn s + E) + 1) by nia.
  destruct (L * (rep_attn s + E) + 1); [lia|done|lia].
Qed.

Lemma dextend_loop_keys {A B} (f : B -> Z) (g : B -> list A) l d d' :
  py_for (fun d b => dextend d (f b) (g b)) l d = Ok d' -> dkeys d' = dkeys d.
Proof.
  revert d; induction l as [|b l IH]; intros d Hr; simpl in Hr; [by injection Hr as <-|].
  apply bind_Ok in Hr as (d1 & (x & Hx & ->)%dextend_Ok & Hr).
  rewrite (IH _ Hr). apply dkeys_dset_in. eauto.
Qed.

(** A loop keeps the keys when its body does. *)
Lemma py_for_keys {A B} (f : list (Z * list A) -> B -> res (list (Z * list A))) l d d' :
  (forall d b d', f d b = Ok d' -> dkeys d' = dkeys d) ->
  py_for f l d = Ok d' -> dkeys d' = dkeys d.
Proof.
  intros Hf. revert d; induction l as [|b l IH]; intros d Hr; simpl in Hr; [by injection Hr as <-|].
  apply bind_Ok in Hr as (d1 & H1 & Hr). rewrite (IH _ Hr). by eapply Hf.
Qed.

(** Appending to the second of two dictionaries in one loop. *)
Lemma pair_loop_snd {A B} (f : Z -> res Z) (g : Z -> res Z) (h : Z -> A) (k : Z -> B) l a x a' x' :
  py_for (fun '(a, x) i => u ← f i; v ← g i; a ← dappend a u (h i); x ← dappend x v (k i); Ok (a, x))
    l (a, x) = Ok (a', x') ->
  exists vs, Forall2 (fun i v => g i = Ok v) l vs /\ appends (zip vs (k <$> l)) x = Ok x'.
Proof.
  revert a x; induction l as [|i l IH]; intros a x Hr; simpl in Hr.
  { injection Hr as <- <-. exists []. split; [constructor|done]. }
  apply bind_Ok in Hr as ([a1 x1] & Hb & Hr).
  apply bind_Ok in Hb as (u & _ & Hb). apply bind_Ok in Hb as (v & Hv & Hb).
  apply bind_Ok in Hb as (a2 & _ & Hb). apply bind_Ok in Hb as (x2 & Hx & Hb).
  apply Ok_inj in Hb. injection Hb as <- <-.
  destruct (IH _ _ Hr) as (vs & Hvs & Happ). exists (v :: vs). split; [by constructor|].
  unfold appends. simpl. rewrite Hx. done.
Qed.

(** The expert stage of a layer is the layer modulo the number of stages. *)
Lemma solve_virtual_experts s mp :
  _solve_virtual s = Ok mp ->
  let L := num_layers (model_config (pipe_base s)) in
  dkeys mp.2 = py_range (step_expert s) /\ (0 < L -> step_expert s <> 0) /\
  forall i l, l ∈ dget_or mp.2 i [] <-> 0 <= l < L /\ i = l mod step_expert s.
Proof.
  intros Hrun L. destruct mp as [a x]. unfold _solve_virtual in Hrun. fold L in Hrun.
  apply pair_loop_snd in Hrun as (vs & Hvs & Happ).
  assert (Hq : 0 < L -> step_expert s <> 0).
  { intros HL Hz. rewrite Hz in Hvs. unfold py_range in Hvs. rewrite seqZ_cons in Hvs by lia.
    apply Forall2_cons_inv_l in Hvs as (v & vs' & Hv & _). done. }
  apply appends_from_empty in Happ as (Hk & Hget & _); [|apply py_range_NoDup].
  split; [done|]. split; [done|]. intros i l. simpl. rewrite Hget, elem_of_ops, list_fmap_id.
  assert (Hmod : forall l v, py_mod l (step_expert s) = Ok v <-> step_expert s <> 0 /\ v = l mod step_expert s).
  { intros l' v. unfold py_mod. destruct (Z.eqb_spec (step_expert s) 0); naive_solver. }
  split.
  - intros (n & Hn)%list_elem_of_lookup. rewrite lookup_zip_with in Hn.
    destruct (vs !! n) as [v|] eqn:Ev; [|done]. simpl in Hn.
    destruct (py_range L !! n) as [l'|] eqn:El; [|done]. simpl in Hn. simplify_eq.
    pose proof (Forall2_lookup_lr _ _ _ _ _ _ Hvs El Ev) as Hm. apply Hmod in Hm as [_ ->].
    split; [apply elem_of_py_range; by eapply list_elem_of_lookup_2|done].
  - intros [Hl ->]. assert (Hin : l ∈ py_range L) by (by apply elem_of_py_range).
    apply list_elem_of_lookup in Hin as [n Hn].
    destruct (Forall2_lookup_l _ _ _ _ _ Hvs Hn) as (v & Hv & Hm).
    apply list_elem_of_lookup. exists n. rewrite lookup_zip_with, Hv, Hn. simpl.
    apply Hmod in Hm as [_ ->]. done.
Qed.

Lemma solve_physical_inv s mp pl :
  _solve_physical s mp = Ok pl ->
  let mc := model_config (pipe_base s) in
  let w := step_attn s * tp_size mc * dp_size mc in
  dkeys (attn pl) = py_range w /\
  device_groups pl = Some (dict_of (fun i => py_range2 (i * tp_size mc) ((i + 1) * tp_size mc))
                             (py_range (step_attn s * dp_size mc))) /\
  dkeys (expert pl) = py_range2 w (w + step_expert s * ep_size mc) /\
  exists r, py_for (fun experts '(i, layers) =>
      py_for (fun experts e =>
          n ← num_experts_per_rank mc; r ← py_floordiv e n;
          py_for (fun experts l => dappend experts (w + i * ep_size mc + r) (l, e)) layers experts)
        (py_range (num_experts mc)) experts) mp.2
      (dict_of (fun _ => []) (py_range2 w (w + step_expert s * ep_size mc))) = Ok r /\ expert pl = r.
Proof.
  intros Hrun mc w. unfold _solve_physical in Hrun. fold mc w in Hrun.
  apply bind_Ok in Hrun as (a & Ha & Hrun). apply bind_Ok in Hrun as (x & Hx & Hrun).
  apply Ok_inj in Hrun as <-. simpl. split; [|split; [done|split; [|eauto]]].
  - apply py_for_keys in Ha; [by rewrite Ha, dkeys_dict_of by apply py_range_NoDup|].
    intros d [i ls] d' Hd. by apply dextend_loop_keys in Hd.
  - apply py_for_keys in Hx; [rewrite Hx; apply dkeys_dict_of, NoDup_seqZ|].
    intros d [i ls] d' Hd. apply py_for_keys in Hd; [done|]. intros d1 e d2 He.
    apply bind_Ok in He as (k & _ & He). apply bind_Ok in He as (r & _ & He).
    by apply dextend_loop_keys in He.
Qed.

(** The expert loop of [_solve_physical] as one list of appends; it has run over
    every expert of every stage. *)
Lemma pipeline_physical_ops mc w E (items : list (Z * list Z)) d d' :
  py_for (fun experts '(i, layers) =>
      py_for (fun experts e =>
          n ← num_experts_per_rank mc; r ← py_floordiv e n;
          py_for (fun experts l => dappend experts (w + i * ep_size mc + r) (l, e)) layers experts)
        (py_range E) experts) items d = Ok d' ->
  exists ops, appends ops d = Ok d' /\
    forall i layers e, (i, layers) ∈ items -> 0 <= e < E ->
      exists n, num_experts_per_rank mc = Ok n /\
      forall dev l, (dev, (l, e)) ∈ ops <->
        exists i ls, (i, ls) ∈ items /\ l ∈ ls /\ dev = w + i * ep_size mc + e / n.
Proof.
  set (work := '(i, layers) ← items; (fun e => (i, layers, e)) <$> py_range E).
  intros Hrun.
  assert (Hflat : py_for (fun experts '(i, layers, e) =>
      n ← num_experts_per_rank mc; r ← py_floordiv e n;
      py_for (fun experts l => dappend experts (w + i * ep_size mc + r) (l, e)) layers experts)
    work d = Ok d').
  { unfold work. rewrite <-py_for_nest, <-Hrun. apply py_for_ext. intros s [i ls] _. apply py_for_fmap. }
  assert (Hwork : forall i ls e, (i, ls, e) ∈ work <-> (i, ls) ∈ items /\ 0 <= e < E).
  { intros i ls e. unfold work. rewrite list_elem_of_bind. split.
    - intros ([i' ls'] & (e' & Heq & He)%list_elem_of_fmap & Hin). simplify_eq.
      by apply elem_of_py_range in He.
    - intros [Hin He]. exists (i, ls). split; [|done]. apply list_elem_of_fmap. exists e.
      by rewrite elem_of_py_range. }
  clearbody work. clear Hrun.
  assert (Hempty : work = [] -> exists ops, appends ops d = Ok d' /\
    forall i layers e, (i, layers) ∈ items -> 0 <= e < E ->
      exists n, num_experts_per_rank mc = Ok n /\ forall dev l, (dev, (l, e)) ∈ ops <->
        exists i ls, (i, ls) ∈ items /\ l ∈ ls /\ dev = w + i * ep_size mc + e / n).
  { intros ->. exists []. split; [done|]. intros i ls e Hin He. exfalso.
    apply (elem_of_nil (A := Z * list Z * Z) (i, ls, e)). by apply Hwork. }
  unfold py_floordiv in Hflat. destruct (num_experts_per_rank mc) as [n|ex].
  2:{ apply Hempty. eapply (py_for_raise _ ex); [|exact Hflat]. by intros ? [[? ?] ?]. }
  destruct (Z.eqb_spec n 0) as [->|Hn].
  { apply Hempty. eapply (py_for_raise _ ZeroDivisionError); [|exact Hflat]. by intros ? [[? ?] ?]. }
  exists ('(i, ls, e) ← work; (fun l => (w + i * ep_size mc + e / n, (l, e))) <$> ls). split.
  - unfold appends. rewrite <-py_for_nest, <-Hflat. apply py_for_ext. intros s [[i ls] e] _. simpl.
    rewrite (proj2 (Z.eqb_neq n 0) Hn). apply py_for_fmap.
  - intros i0 ls0 e Hin0 He. exists n. split; [done|]. intros dev l. rewrite list_elem_of_bind. split.
    + intros ([[i ls] e'] & (l' & Heq & Hl')%list_elem_of_fmap & Hw%Hwork). simplify_eq.
      exists i, ls. naive_solver.
    + intros (i & ls & Hin & Hl' & ->). exists (i, ls, e). split; [|by apply Hwork].
      apply list_elem_of_fmap. by exists l.
Qed.

Section Pipeline.
Context (s : PipelinePlacement).
Let mc := model_config (pipe_base s).
Let w := step_attn s * tp_size mc * dp_size mc.

Lemma pipeline_solved pl :
  solve s = Ok pl ->
  exists mp p0, _solve_virtual s = Ok mp /\ _solve_physical s mp = Ok p0 /\
    attn pl = attn p0 /\ expert pl = expert p0 /\ device_groups pl = device_groups p0.
Proof.
  intros Hrun. unfold solve in Hrun. simpl in Hrun.
  apply bind_Ok in Hrun as (p0 & Hs & Hrun).
  apply bind_Ok in Hrun as (p1 & (i & o & ->)%add_edges_frame & Hrun).
  apply bind_Ok in Hrun as (p2 & Hrank & Hrun). apply bind_Ok in Hrun as (r & _ & Hrun).
  apply Ok_inj in Hrun as <-. unfold pipeline_solve in Hs.
  apply bind_Ok in Hs as ([] & _ & Hs). apply bind_Ok in Hs as (mp & Hv & Hs).
  exists mp, p0. split; [done|]. split; [done|].
  unfold update_expert_rank in Hrank. destruct (expert_allocation (pipe_base s)).
  - by apply Ok_inj in Hrank as <-.
  - apply bind_Ok in Hrank as (r' & _ & Hrank). by apply Ok_inj in Hrank as <-.
Qed.

(** Tensor-parallel pipeline placements have drivers without a rank: with
    more than one device per group and more than one group, the last group's
    driver holds attention layers but [rank_at] raises [KeyError] for it, the
    groups being keyed by group number instead of by device. *)
Theorem pipeline_tp_rank_missing (pl : ModelPlacement) :
  solve s = Ok pl -> 1 < tp_size mc -> 1 < step_attn s * dp_size mc ->
  let driver := (step_attn s * dp_size mc - 1) * tp_size mc in
  has_attn pl driver = true /\ rank_at pl driver = Raise KeyError.
Proof.
  intros (mp & p0 & _ & Hp & Ha & Hx & Hg)%pipeline_solved Htp Hdp driver.
  apply solve_physical_inv in Hp as (Hka & Hgr & Hkx & _).
  assert (Hdr : step_attn s * dp_size mc <= driver < w) by (unfold driver, w; nia).
  assert (Hin : dmem (attn pl) driver = true).
  { apply dmem_true. rewrite Ha, Hka. apply elem_of_py_range. fold mc w. lia. }
  assert (Hout : dmem (expert pl) driver = false).
  { apply not_true_iff_false. rewrite dmem_true, Hx, Hkx. unfold py_range2. rewrite elem_of_seqZ.
    fold mc w. lia. }
  split; [done|]. unfold rank_at, attn_rank_at. rewrite Hin, Hout, Hg, Hgr. simpl.
  rewrite dget_dict_of by apply py_range_NoDup.
  rewrite decide_False by (rewrite elem_of_py_range; fold mc; lia). done.
Qed.

(** The physical layout of the pipeline: when [solve] returns, the expert
    [e] of layer [l] is on one device, the one the comment in the class
    describes: past the attention workers, in the stage [l mod q], at the rank
    [e // num_experts_per_rank] of that stage. *)
Theorem pipeline_expert_device (pl : ModelPlacement) (l e : Z) :
  solve s = Ok pl -> 0 <= l < num_layers mc -> 0 <= e < num_experts mc ->
  exists n, num_experts_per_rank mc = Ok n /\
  forall d, (l, e) ∈ expert_ids_at pl d <->
            d = w + l mod step_expert s * ep_size mc + e / n.
Proof.
  intros (mp & p0 & Hv & Hp & Ha & Hx & Hg)%pipeline_solved Hl He.
  apply solve_virtual_experts in Hv as (Hkv & Hq & Hvirt).
  apply solve_physical_inv in Hp as (_ & _ & _ & x & Hrun & Hxe). fold mc w in Hrun, Hq, Hvirt.
  assert (Hids : forall d, expert_ids_at pl d = dget_or x d []) by (intros d; unfold expert_ids_at; congruence).
  destruct (pipeline_physical_ops _ _ _ _ _ _ Hrun) as (ops & Happ & Hops).
  assert (HL : 0 < num_layers mc) by lia.
  assert (Hi : l ∈ dget_or mp.2 (l mod step_expert s) []) by (by apply Hvirt).
  assert (Hit : exists layers, (l mod step_expert s, layers) ∈ mp.2 /\ l ∈ layers).
  { pose proof (dict_items_get (fun y => y) mp.2 (l mod step_expert s) l) as Hd.
    rewrite list_fmap_id in Hd. apply Hd in Hi as (ls & Hin & Hls).
    - exists ls. by rewrite list_fmap_id in Hls.
    - rewrite Hkv. apply py_range_NoDup. }
  destruct Hit as (layers & Hin & Hlin).
  destruct (Hops _ _ _ Hin He) as (n & Hn & Hmem). exists n. split; [done|].
  apply appends_from_empty in Happ as (_ & Hget & _); [|apply NoDup_seqZ].
  intros d. rewrite Hids, Hget, elem_of_ops, Hmem. split.
  - intros (i & ls & Hils & Hl' & ->). f_equal. f_equal. f_equal.
    apply (Hvirt i l). unfold dget_or. rewrite (elem_dget _ _ _ ltac:(rewrite Hkv; apply py_range_NoDup) Hils). done.
  - intros ->. eauto.
Qed.

End Pipeline.

(** ** When the colocated strategy succeeds *)

Lemma layer_devs_total {A} (f : A -> Z) (items : list (Z * list A)) L :
  (forall dev xs, (dev, xs) ∈ items -> Forall (fun x => 0 <= f x < L) xs) ->
  exists d', py_for (fun d '(dev, xs) => py_for (fun d x => dappend d (f x) dev) xs d)
    items (dict_of (fun _ => []) (py_range L)) = Ok d' /\ dkeys d' = py_range L.
Proof.
  intros Hall. set (ops := '(dev, xs) ← items; (fun x => (f x, dev)) <$> xs).
  destruct (appends_Ok ops (dict_of (fun _ => []) (py_range L))) as (d' & Hrun & Hk & _).
  { rewrite dkeys_dict_of by apply py_range_NoDup. apply Forall_forall. unfold ops.
    intros op ([dev xs] & (x & -> & Hx)%list_elem_of_fmap & Hin)%list_elem_of_bind.
    apply elem_of_py_range. simpl. apply Hall in Hin. rewrite Forall_forall in Hin. by apply Hin. }
  exists d'. rewrite dkeys_dict_of in Hk by apply py_range_NoDup. split; [|done].
  rewrite <-Hrun. unfold appends, ops. rewrite <-py_for_nest. apply py_for_ext.
  intros d [dev xs] _. symmetry. apply py_for_fmap.
Qed.

Lemma dget_in_range (d : list (Z * list Z)) L l :
  dkeys d = py_range L -> 0 <= l < L -> exists xs, dget d l = Some xs.
Proof.
  intros Hk Hl. destruct (proj2 (dget_Some_keys d l)) as [xs Hx]; [|eauto].
  rewrite Hk. by apply elem_of_py_range.
Qed.

Lemma add_edges_total b pl :
  let L := num_layers (model_config b) in
  0 < L ->
  (forall dev xs, (dev, xs) ∈ attn pl -> Forall (fun l => 0 <= l < L) xs) ->
  (forall dev xs, (dev, xs) ∈ expert pl -> Forall (fun id => 0 <= id.1 < L) xs) ->
  exists pl', _add_edges b pl = Ok pl'.
Proof.
  intros L HL Ha Hx. unfold _add_edges. fold L.
  destruct (layer_devs_total (fun l => l) (attn pl) L Ha) as (ad & -> & Hka). simpl.
  destruct (layer_devs_total fst (expert pl) L Hx) as (xd & Hxd & Hkx).
  erewrite py_for_ext; [rewrite Hxd; simpl|].
  2:{ intros s [dev ids] _. apply py_for_ext. by intros s' [? ?] _. }
  destruct (py_for_total (fun _ (_ : ModelPlacement) => True)
    (fun place layer_id =>
      adevs ← of_option KeyError (dget ad layer_id);
      place ← (if layer_id >? 0
               then prev ← of_option KeyError (dget xd (layer_id - 1));
                    Ok (add_edges_between (fun dev prev_dev => (prev_dev, dev)) adevs prev place)
               else Ok place);
      edevs ← of_option KeyError (dget xd layer_id);
      Ok (add_edges_between (fun dev exp_dev => (dev, exp_dev)) adevs edevs place))
    (py_range L) pl) as (pl1 & -> & _); [done| |].
  - intros pre l post t Hpre _.
    assert (Hl : 0 <= l < L) by (apply elem_of_py_range; rewrite Hpre; set_solver).
    destruct (dget_in_range ad L l Hka Hl) as (xs & ->).
    destruct (dget_in_range xd L l Hkx Hl) as (ys & ->). simpl.
    rewrite Z.gtb_ltb. destruct (Z.ltb_spec 0 l).
    + destruct (dget_in_range xd L (l - 1) Hkx) as (zs & ->); [lia|]. simpl. eauto.
    + simpl. eauto.
  - simpl. destruct (dget_in_range ad L 0 Hka) as (xs & ->); [lia|]. simpl.
    destruct (dget_in_range xd L (L - 1) Hkx) as (zs & ->); [lia|]. simpl.
    destruct xs; eauto.
Qed.

(** The attention table: every device holds every layer. *)
Lemma colocate_attns_total n (layers : list Z) :
  exists a, py_for (fun a i => dextend a i layers) (py_range n) (dict_of (fun _ => []) (py_range n)) = Ok a /\
    forall d l, l ∈ dget_or a d [] -> l ∈ layers.
Proof.
  destruct (py_for_total (fun _ a => dkeys a = py_range n /\ forall d l, l ∈ dget_or a d [] -> l ∈ layers)
    (fun a i => dextend a i layers) (py_range n) (dict_of (fun _ => []) (py_range n)))
    as (a & Hrun & _ & Ha); [| |by eauto].
  - rewrite dkeys_dict_of by apply py_range_NoDup. split; [done|]. intros d l.
    rewrite dget_or_dict_of by apply py_range_NoDup. by case_decide; intros ?%elem_of_nil.
  - intros pre i post t Hpre [Hk Ht].
    assert (Hi : i ∈ py_range n) by (rewrite Hpre; set_solver).
    destruct (proj2 (dget_Some_keys t i)) as [xs Hxs]; [by rewrite Hk|].
    exists (dset t i (xs ++ layers)). split; [apply dextend_Ok; eauto|].
    rewrite dkeys_dset_in by eauto. split; [done|]. intros d l.
    unfold dget_or. rewrite dget_dset. case_decide as Hd; [subst|apply Ht]. simpl.
    rewrite elem_of_app. intros [Hin|]; [|done]. apply (Ht d). unfold dget_or. by rewrite Hxs.
Qed.

Section ColocateTotal.
Context (s : ColocatePlacement).
Let mc := model_config (colo_base s).
Let n := n_node (cluster_config (colo_base s)) * n_gpu (cluster_config (colo_base s)).

(** The experts fit: an allocation that gives every expert to a device of the
    cluster, or enough devices for [num_experts_per_rank] experts each. *)
Definition experts_fit : Prop :=
  match expert_allocation (colo_base s) with
  | Some alloc => zlen alloc <= n /\ Forall (fun c => 0 <= c) alloc /\ sumZ alloc = num_experts mc
  | None => exists k, num_experts_per_rank mc = Ok k /\ 0 < k /\ (num_experts mc - 1) / k < n
  end.

Lemma colocate_solve_total :
  0 < num_experts mc -> experts_fit ->
  exists pl, colocate_solve s (num_layers mc) (num_experts mc)
    (n_node (cluster_config (colo_base s))) (n_gpu (cluster_config (colo_base s))) = Ok pl /\
    (forall d l, l ∈ dget_or (attn pl) d [] -> 0 <= l < num_layers mc).
Proof.
  intros HE Hfit. unfold colocate_solve. fold mc n.
  destruct (colocate_attns_total n (py_range (num_layers mc))) as (a & -> & Ha). simpl.
  assert (Hattn : forall d l, l ∈ dget_or a d [] -> 0 <= l < num_layers mc)
    by (intros d l Hin; by apply elem_of_py_range, (Ha d)).
  assert (Hgo : forall ops : list (Z * expert_id), (forall op, op ∈ ops -> 0 <= op.1 < n) ->
    exists x, appends ops (dict_of (fun _ => []) (py_range n)) = Ok x).
  { intros ops Hops. destruct (appends_Ok (A := expert_id) ops (dict_of (fun _ => []) (py_range n))) as (x & ? & _).
    - rewrite dkeys_dict_of by apply py_range_NoDup. apply Forall_forall. intros op Hop.
      apply elem_of_py_range. by apply Hops.
    - eauto. }
  unfold experts_fit in Hfit. destruct (expert_allocation (colo_base s)) as [alloc|].
  - destruct Hfit as (Hlen & Hnn & Hsum). rewrite (proj2 (Z.leb_le _ _) Hlen). simpl.
    rewrite colocate_alloc_eq.
    destruct (Hgo (alloc_ops (py_range (num_layers mc)) 0 0 alloc)) as (x & ->).
    { intros op Hop%alloc_ops_devs. lia. }
    assert (Ht : alloc_total alloc = num_experts mc).
    { rewrite <-Hsum. clear -Hnn. induction Hnn; [done|]. rewrite alloc_total_cons. simpl. lia. }
    simpl. rewrite Ht, Z.eqb_refl. simpl. eauto.
  - destruct Hfit as (k & Hk & Hkpos & Hdev). rewrite default_loop_eq. fold mc. rewrite Hk. simpl.
    destruct (Hgo (default_ops k (num_experts mc) (num_layers mc))) as (x & Hx).
    { intros op ([l e] & -> & [_ He]%elem_of_pairs)%list_elem_of_fmap. simpl. split.
      - apply Z.div_pos; lia.
      - eapply Z.le_lt_trans; [|exact Hdev]. apply Z.div_le_mono; lia. }
    unfold appends, default_ops in Hx. rewrite py_for_fmap in Hx.
    erewrite py_for_ext; [rewrite Hx; simpl; eauto|].
    intros d [l e] _. simpl. unfold py_floordiv. destruct (Z.eqb_spec k 0); [lia|done].
Qed.

(** The colocated strategy succeeds whenever the experts fit the cluster. *)
Theorem colocate_solve_succeeds :
  0 < num_layers mc -> 0 < num_experts mc -> experts_fit -> exists pl, solve s = Ok pl.
Proof.
  intros HL HE Hfit. destruct (colocate_solve_total HE Hfit) as (pl & Hpl & Ha).
  unfold solve. simpl. fold mc. rewrite Hpl. simpl.
  pose proof (colocate_solve_inv _ _ _ _ _ _ Hpl) as (ops & Hp & _ & Hget & Hkx & Hka & _).
  destruct (add_edges_total (colo_base s) pl HL) as (pl1 & Hadd).
  { intros dev xs Hin. apply Forall_forall. intros l Hl. apply (Ha dev). unfold dget_or.
    by rewrite (elem_dget _ _ _ ltac:(rewrite Hka; apply py_range_NoDup) Hin). }
  { intros dev xs Hin. apply Forall_forall. intros [l e] Hl. simpl.
    assert (Hi : (l, e) ∈ expert_ids_at pl dev).
    { unfold expert_ids_at, dget_or. by rewrite (elem_dget _ _ _ ltac:(rewrite Hkx; apply py_range_NoDup) Hin). }
    rewrite Hget in Hi. apply (elem_of_ops ops dev) in Hi.
    assert (Hle : (l, e) ∈ ops.*2) by (apply list_elem_of_fmap; by exists (dev, (l, e))).
    rewrite Hp in Hle. by apply elem_of_pairs in Hle as [? _]. }
  rewrite Hadd. simpl. unfold update_expert_rank, experts_fit in *.
  destruct (expert_allocation (colo_base s)); [simpl; eauto|].
  destruct Hfit as (k & Hk & Hkpos & _). fold mc. rewrite Hk.
  destruct (py_for_total (fun _ (_ : list (expert_id * Z)) => True)
    (fun r '(layer_id, eid) => n ← Ok k; rk ← py_floordiv eid n; Ok (dset r (layer_id, eid) rk))
    (l ← py_range (num_layers mc); e ← py_range (num_experts mc); [(l, e)]) []) as (r & -> & _).
  - done.
  - intros pre [l e] post t _ _. simpl. unfold py_floordiv. destruct (Z.eqb_spec k 0); [lia|]. simpl. eauto.
  - simpl. eauto.
Qed.

End ColocateTotal.

(** ** Concrete placements *)

Definition ex_cluster (g : Z) : ClusterConfig := {| n_node := 1; n_gpu := g |}.

(** Two layers, four experts, two experts per rank. *)
Definition ex_model : ModelConfig := make_config 64 2 16 4 2 4 64 bfloat16 2 1.
Definition ex_colo (alloc : option (list Z)) (g : Z) : ColocatePlacement :=
  {| colo_base := {| model_config := ex_model; cluster_config := ex_cluster g;
                     expert_allocation := alloc |} |}.
Definition ex_place (r : res ModelPlacement) : ModelPlacement :=
  match r with Ok pl => pl | Raise _ => make_placement [] [] None None false end.

Lemma add_edges_exact_witness :
  let pl := make_placement [(0, [0; 1])] [(1, [(0, 0); (1, 0)])] None None false in
  let b := colo_base (ex_colo None 2) in
  1 ∈ in_device_ids_at (ex_place (_add_edges b pl)) 0 <-> flows 2 pl 1 0.
Proof.
  intros pl b. apply (add_edges_exact b pl (ex_place (_add_edges b pl))); try reflexivity.
  - apply NoDup_singleton.
  - apply NoDup_singleton.
Defined.

Lemma colocate_partition_witness :
  let s := ex_colo (Some [3; 1]) 2 in
  exists d er, 0 <= d < 2 /\ expert_ranks (ex_place (solve s)) = Some er /\ dget er (1, 2) = Some d /\
    forall d', (1, 2) ∈ expert_ids_at (ex_place (solve s)) d' <-> d' = d.
Proof.
  intros s. destruct (colocate_partition s (ex_place (solve s))) as [Hp _]; [reflexivity|].
  apply Hp; cbn; lia.
Defined.

(** Three devices, experts on two of them: the third has no rank. *)
Lemma colocate_rank_at_witness :
  let pl := ex_place (solve (ex_colo (Some [3; 1]) 3)) in
  rank_at pl 1 = Ok 1 /\ rank_at pl 2 = Raise AssertionError.
Proof.
  intros pl. split.
  - rewrite (colocate_rank_at (ex_colo (Some [3; 1]) 3) pl 1); [reflexivity|reflexivity|cbn; lia].
  - rewrite (colocate_rank_at (ex_colo (Some [3; 1]) 3) pl 2); [reflexivity|reflexivity|cbn; lia].
Defined.

Lemma single_solve_raises_witness :
  solve {| single_base := colo_base (ex_colo None 16); rep_attn := 1 |} = Raise AssertionError.
Proof. apply single_solve_raises; cbn; lia. Defined.

(** One stage, two data-parallel groups of two tensor-parallel devices. *)
Definition ex_pipe : PipelinePlacement :=
  {| pipe_base := {| model_config :=
       {| hidden_size := 64; num_layers := 2; head_dim := 16; num_heads := 4; num_kv_heads := 2;
          num_experts := 4; intermediate_size := 64; cfg_dtype := bfloat16; ep_size := 2;
          tp_size := 2; dp_size := 2; rank := 0; layer_ids := None; top_k := 1;
          max_seq_len := 4096; attn_qkv_quant := None; moe_linear_quant := None;
          num_shared_experts := 0; shared_expert_intermediate_size := None;
          max_position := max_position ex_model; rope_theta := rope_theta ex_model;
          rope_scaling := None; rms_norm_eps := rms_norm_eps ex_model; layer_types := None;
          sliding_window := None; attention_bias := false; attention_sinks := false;
          router_norm := router_norm ex_model; router_bias := false;
          router_mode := router_mode ex_model; swiglu_limit := None;
          swiglu_alpha := swiglu_alpha ex_model; expert_bias := false; vocab_size := None;
          eos_token_ids := None; weights_dir := None; sampler := sampler ex_model;
          kv_source := kv_source ex_model; mooncake_master := None;
          kv_model_tag := kv_model_tag ex_model |};
       cluster_config := ex_cluster 8; expert_allocation := None |};
     step_attn := 1; step_expert := 2; zigzag_attn := true |}.

Lemma ex_pipe_solved : solve ex_pipe = Ok (ex_place (solve ex_pipe)).
Proof. vm_compute. reflexivity. Qed.

Lemma pipeline_tp_rank_missing_witness :
  let mc := model_config (pipe_base ex_pipe) in
  let driver := (step_attn ex_pipe * dp_size mc - 1) * tp_size mc in
  has_attn (ex_place (solve ex_pipe)) driver = true /\
  rank_at (ex_place (solve ex_pipe)) driver = Raise KeyError.
Proof.
  exact (pipeline_tp_rank_missing ex_pipe (ex_place (solve ex_pipe)) ex_pipe_solved eq_refl eq_refl).
Defined.

Lemma pipeline_expert_device_witness :
  let mc := model_config (pipe_base ex_pipe) in
  exists n, num_experts_per_rank mc = Ok n /\
  forall d, (1, 3) ∈ expert_ids_at (ex_place (solve ex_pipe)) d <->
    d = step_attn ex_pipe * tp_size mc * dp_size mc + 1 mod step_expert ex_pipe * ep_size mc + 3 / n.
Proof.
  apply (pipeline_expert_device ex_pipe (ex_place (solve ex_pipe)) 1 3 ex_pipe_solved); done.
Defined.

Lemma colocate_solve_succeeds_witness : exists pl, solve (ex_colo None 2) = Ok pl.
Proof.
  apply colocate_solve_succeeds; [cbn; lia|cbn; lia|]. exists 2. done.
Defined.

End Placement.
