(* ===== verification/Allocation.v ===== *)
(** * Expert allocation of a heterogeneous cluster
    ([benchmark/benchmark_serving.py], [Engine.get_worker_identity],
    [Controller.get_worker_identities])

    The launcher reads a JSON file that gives each worker a number of experts and
    names the worker by its host, node, actor or GPU.  [resolve_expert_allocation]
    turns the entries into a count per device, which the colocated strategy places.

    [json.load] is the parser of the standard library: the model starts from the value
    it returns.  [repr] is the text of a float, a list or an object, [float_of_str] the
    float a numeral denotes. *)

From stdpp Require Import strings pretty.
From S2P Require Import Prelude PyFloat PyString Config Placement.
Import PyString Config Placement.

Module Allocation.

#[local] Open Scope string_scope.
#[local] Open Scope Z_scope.

(** ** What [json.load] returns *)

Inductive json : Type :=
  | JNull
  | JBool (b : bool)
  | JInt (n : Z)
  | JFloat (x : float)
  | JStr (s : string)
  | JList (l : list json)
  | JObj (d : list (string * json)).

(** ** Workers *)

(** [Engine.get_worker_identity]: [cuda_visible] is [CUDA_VISIBLE_DEVICES] or empty,
    [accelerator_ids] what the runtime says of the GPUs of the actor. *)
Record Identity : Type := {
  host_ip : string;
  ray_node_id : string;
  ray_actor_id : string;
  cuda_device : string;
}.

Definition get_worker_identity (ip node_id actor_id cuda_visible : string)
    (accelerator_ids : list string) : Identity :=
  {| host_ip := ip; ray_node_id := node_id; ray_actor_id := actor_id;
     cuda_device :=
       if (0 <? String.length cuda_visible)%nat
       then String.string_of_list_ascii (strip (first_field (String.list_ascii_of_string cuda_visible)))
       else default "" (head accelerator_ids) |}.

(** [Controller.get_worker_identities] *)
Record Worker : Type := { identity : Identity; device_id : Z }.

Definition get_worker_identities (identities : list Identity) (device_ids : list Z) : list Worker :=
  (fun '(i, d) => {| identity := i; device_id := d |}) <$> zip identities device_ids.

(** [str(worker.get(k, ""))] *)
Definition identity_keys : list string := ["host_ip"; "ray_node_id"; "ray_actor_id"; "cuda_device"].

Definition worker_field (w : Worker) (k : string) : string :=
  if decide (k = "host_ip") then host_ip (identity w)
  else if decide (k = "ray_node_id") then ray_node_id (identity w)
  else if decide (k = "ray_actor_id") then ray_actor_id (identity w)
  else if decide (k = "cuda_device") then cuda_device (identity w)
  else if decide (k = "device_id") then pretty (device_id w)
  else "".

Section Resolve.
Context (repr : json -> string) (float_of_str : string -> option float).

(** [str(v)] *)
Definition py_str (v : json) : string :=
  match v with
  | JNull => "None"
  | JBool b => if b then "True" else "False"
  | JInt n => pretty n
  | JStr s => s
  | v => repr v
  end.

(** [float(v)] *)
Definition py_float_of (v : json) : res float :=
  match v with
  | JInt n => let x := float_of_Z n in if is_finite x then Ok x else Raise OverflowError
  | JBool b => Ok (float_of_Z (if b then 1 else 0))
  | JFloat x => Ok x
  | JStr s => of_option ValueError (float_of_str s)
  | JNull | JList _ | JObj _ => Raise TypeError
  end.

(** ** [resolve_expert_allocation] *)

Definition selectors (entry : list (string * json)) : list (string * string) :=
  k ← identity_keys; match dget entry k with Some v => [(k, py_str v)] | None => [] end.

(** The loop over the selectors, which breaks at the first that differs. *)
Definition matches (sel : list (string * string)) (w : Worker) : bool :=
  forallb (fun '(k, v) => bool_decide (worker_field w k = v)) sel.

Definition as_dict (e : py_exc) (v : json) : res (list (string * json)) :=
  match v with JObj d => Ok d | _ => Raise e end.

Definition as_list (v : option json) : res (list json) :=
  match v with Some (JList l) => Ok l | _ => Raise AssertionError end.

(** [type(n) is int and n >= 0] *)
Definition as_count (v : json) : res Z :=
  match v with JInt n => if 0 <=? n then Ok n else Raise AssertionError | _ => Raise AssertionError end.

(** One round of the loop over the entries. *)
Definition resolve_entry (ws : list Worker) (expert_allocation : list Z) (v : json) : res (list Z) :=
  entry ← as_dict AssertionError v;
  v ← of_option AssertionError (dget entry "num_experts");
  _ ← py_assert (dmem entry "cuda_device");
  _ ← py_assert (dmem entry "host_ip" || dmem entry "ray_node_id" || dmem entry "ray_actor_id");
  num_experts ← as_count v;
  let sel := selectors entry in
  _ ← py_assert (0 <? zlen sel);
  let matched := filter (fun w => matches sel w = true) ws in
  _ ← py_assert (zlen matched =? 1);
  w ← py_get matched 0;
  let d := device_id w in
  _ ← py_assert ((0 <=? d) && (d <? zlen ws));
  x ← py_get expert_allocation d;
  py_set expert_allocation d (x + num_experts).

(** [{int(k): f(v) for k, v in d.items()}] *)
Definition int_keyed {V} (f : json -> res V) (d : list (string * json)) : res (list (Z * V)) :=
  py_for (fun r '(k, v) => k ← py_int_of_str k; v ← f v; Ok (dset r k v)) d [].

Definition optional {V} (f : json -> res V) (v : option json) : res (option (list (Z * V))) :=
  match v with
  | None | Some JNull => Ok None
  | Some v => d ← as_dict AttributeError v; r ← int_keyed f d; Ok (Some r)
  end.

Definition resolve_expert_allocation (config : option json) (ws : list Worker) (total_num_experts : Z)
    : res (option (list Z) * option (list (Z * float)) * option (list (Z * json))) :=
  match config with
  | None => Ok (None, None, None)
  | Some v =>
      config ← as_dict AssertionError v;
      allocations ← as_list (dget config "allocations");
      expert_allocation ← py_for (resolve_entry ws) allocations ((fun _ => 0) <$> py_range (zlen ws));
      _ ← py_assert (sumZ expert_allocation =? total_num_experts);
      attn_dp_weights ← optional py_float_of (dget config "attn_dp_weights");
      per_device_config ← optional (fun v => Ok v) (dget config "per_device_config");
      Ok (Some expert_allocation, attn_dp_weights, per_device_config)
  end.

(** [launch], from the identities of the workers to the placement. *)
Definition launch_placement (mc : ModelConfig) (cc : ClusterConfig) (st : Strategy) (config : option json)
    (identities : list Identity) (device_ids : list Z)
    : res (ModelPlacement * option (list (Z * float)) * option (list (Z * json))) :=
  let ws := get_worker_identities identities device_ids in
  '(alloc, attn_dp_weights, per_device_config) ← resolve_expert_allocation config ws (num_experts mc);
  pl ← get_model_placement mc cc st alloc;
  Ok (pl, attn_dp_weights, per_device_config).

(** ** What an entry means

    An entry gives [x.2] experts to worker [x.1]: the fields it has are those of this
    worker and of no other. *)

Definition named_by (entry : list (string * json)) (w : Worker) : Prop :=
  forall k v, k ∈ identity_keys -> dget entry k = Some v -> worker_field w k = py_str v.

Record entry_gives (ws : list Worker) (entry : list (string * json)) (x : Worker * Z) : Prop := {
  g_count : dget entry "num_experts" = Some (JInt x.2);
  g_nonneg : 0 <= x.2;
  g_gpu : "cuda_device" ∈ dkeys entry;
  g_where : exists k, k ∈ ["host_ip"; "ray_node_id"; "ray_actor_id"] /\ k ∈ dkeys entry;
  g_worker : exists i, ws !! i = Some x.1 /\ named_by entry x.1 /\
    forall j w, ws !! j = Some w -> named_by entry w -> j = i;
  g_device : 0 <= device_id x.1 < zlen ws;
}.

Definition gives (ws : list Worker) (v : json) (x : Worker * Z) : Prop :=
  exists entry, v = JObj entry /\ entry_gives ws entry x.

(** The experts the entries give to a device, and to the devices before it. *)
Definition held (shares : list (Worker * Z)) (d : Z) : Z :=
  sumZ ((fun x => if device_id x.1 =? d then x.2 else 0) <$> shares).
Definition before (shares : list (Worker * Z)) (d : Z) : Z :=
  sumZ ((fun x => if device_id x.1 <? d then x.2 else 0) <$> shares).

(** ** Matching *)

Lemma matches_named entry w : matches (selectors entry) w = true <-> named_by entry w.
Proof.
  unfold matches. rewrite forallb_forall. unfold named_by. split.
  - intros H k v Hk Hv. apply (bool_decide_eq_true_1 (worker_field w k = py_str v)). apply (H (k, py_str v)).
    apply list_elem_of_In. unfold selectors. apply list_elem_of_bind. exists k. split; [|done]. rewrite Hv. by left.
  - intros H [k s] Hin%list_elem_of_In. apply list_elem_of_bind in Hin as (k' & Hs & Hk).
    destruct (dget entry k') as [v|] eqn:Hv; [|by apply elem_of_nil in Hs].
    apply list_elem_of_singleton in Hs. simplify_eq. apply bool_decide_eq_true_2. by apply H.
Qed.

Lemma filter_single {A} (P : A -> Prop) `{!forall x, Decision (P x)} (l : list A) a :
  filter P l = [a] <-> exists i, l !! i = Some a /\ P a /\ forall j b, l !! j = Some b -> P b -> j = i.
Proof.
  induction l as [|x l IH]; [split; [done|by intros (i & Hi & _)]|]. rewrite filter_cons. case_decide as Hx.
  - split.
    + intros [= -> Hnil]. exists O. split; [done|]. split; [done|]. intros [|j] b Hb HP; [done|].
      assert (b ∈ filter P l) as Hin; [|rewrite Hnil in Hin; by apply elem_of_nil in Hin].
      apply list_elem_of_filter. split; [done|]. by eapply list_elem_of_lookup_2.
    + intros (i & Hi & HP & Hu). pose proof (Hu O x eq_refl Hx) as <-. injection Hi as ->. f_equal.
      destruct (filter P l) as [|b k] eqn:Hf; [done|].
      assert (b ∈ filter P l) as [Hb Hin]%list_elem_of_filter by (rewrite Hf; left).
      apply list_elem_of_lookup in Hin as [j Hj]. by specialize (Hu (S j) b Hj Hb).
  - rewrite IH. split.
    + intros (i & Hi & HP & Hu). exists (S i). split; [done|]. split; [done|].
      intros [|j] b Hb HPb; [by simplify_eq/=|]. f_equal. by eapply Hu.
    + intros ([|i] & Hi & HP & Hu); [by simplify_eq/=|]. exists i. split; [done|]. split; [done|].
      intros j b Hb HPb. by specialize (Hu (S j) b Hb HPb) as [= ->].
Qed.

(** ** The loop over the entries *)

Lemma where_field (entry : list (string * json)) :
  (dmem entry "host_ip" || dmem entry "ray_node_id" || dmem entry "ray_actor_id") = true <->
  exists k, k ∈ ["host_ip"; "ray_node_id"; "ray_actor_id"] /\ k ∈ dkeys entry.
Proof.
  rewrite !orb_true_iff, !dmem_true. split; [intros [[?|?]|?]; eexists; (split; [|done]); set_solver|].
  intros (k & Hk & ?). set_solver.
Qed.

Lemma selectors_some (entry : list (string * json)) : "cuda_device" ∈ dkeys entry -> (0 <? zlen (selectors entry)) = true.
Proof.
  intros [v Hv]%dget_Some_keys. apply Z.ltb_lt.
  assert (Hin : ("cuda_device", py_str v) ∈ selectors entry).
  { unfold selectors. apply list_elem_of_bind. exists "cuda_device". rewrite Hv. split; [by left|].
    unfold identity_keys. set_solver. }
  destruct (selectors entry) as [|s l]; [by apply elem_of_nil in Hin|]. rewrite zlen_cons.
  pose proof (zlen_nonneg l). lia.
Qed.

Lemma matched_single (entry : list (string * json)) ws w :
  filter (fun w => matches (selectors entry) w = true) ws = [w] <->
  exists i, ws !! i = Some w /\ named_by entry w /\
    forall j w', ws !! j = Some w' -> named_by entry w' -> j = i.
Proof. rewrite filter_single. by setoid_rewrite matches_named. Qed.

(** An entry is accepted when it gives experts to a worker; otherwise an assertion fails. *)
Ltac refuse := right; split; [intros ? (? & [= <-] & [Hcount Hnn Hgpu Hwhere Hworker Hdev])|done].

Lemma resolve_entry_cases ws v f :
  (exists x, gives ws v x /\
     resolve_entry ws (tab (zlen ws) f) v
     = Ok (tab (zlen ws) (upd f (device_id x.1) (f (device_id x.1) + x.2)))) \/
  ((forall x, ~ gives ws v x) /\ resolve_entry ws (tab (zlen ws) f) v = Raise AssertionError).
Proof.
  unfold resolve_entry. destruct v as [|b|m|fl|str|l|entry];
    try by (right; split; [intros x (e & [=] & _)|]). cbn [as_dict mbind res_bind].
  destruct (dget entry "num_experts") as [c|] eqn:Hc; cbn [of_option mbind res_bind]; [|refuse; congruence].
  destruct (dmem entry "cuda_device") eqn:Hg; cbn [py_assert mbind res_bind].
  2:{ refuse. apply dmem_true in Hgpu. congruence. }
  apply dmem_true in Hg. destruct (dmem entry "host_ip" || _ || _) eqn:Hw; cbn [py_assert mbind res_bind].
  2:{ refuse. apply where_field in Hwhere. congruence. }
  apply where_field in Hw. rewrite (selectors_some entry Hg).
  destruct (as_count c) as [m|ex] eqn:Hm; cbn [py_assert mbind res_bind].
  2:{ destruct c as [| |m| | | |]; cbn in Hm; try (injection Hm as <-; refuse; congruence).
      destruct (Z.leb_spec 0 m); [done|]. injection Hm as <-. refuse. rewrite Hc in Hcount. injection Hcount as ->. lia. }
  assert (c = JInt m /\ 0 <= m) as [-> Hm0].
  { destruct c as [| |k| | | |]; cbn in Hm; try done. destruct (Z.leb_spec 0 k); [|done]. by injection Hm as ->. }
  destruct (filter _ ws) as [|w [|w' l]] eqn:Hf.
  1,3: cbn [py_assert mbind res_bind]; right; split;
    [intros ? (? & [= <-] & [_ _ _ _ Hworker _]); apply matched_single in Hworker; congruence|].
  1: done.
  1:{ rewrite !zlen_cons. pose proof (zlen_nonneg l). by rewrite (proj2 (Z.eqb_neq _ 1)) by lia. }
  change (py_get [w] 0) with (Ok w). cbn [mbind res_bind py_assert zlen length Z.of_nat Z.eqb Pos.eqb].
  apply matched_single in Hf.
  destruct ((0 <=? device_id w) && (device_id w <? zlen ws)) eqn:Hd; cbn [py_assert mbind res_bind].
  - left. apply andb_true_iff in Hd as [Hd1%Z.leb_le Hd2%Z.ltb_lt]. exists (w, m). split; [by exists entry|].
    cbn [fst snd]. rewrite py_get_tab by lia. cbn [mbind res_bind]. by rewrite py_set_tab by lia.
  - refuse. apply matched_single in Hworker. apply matched_single in Hf. rewrite Hworker in Hf. injection Hf as <-.
    apply andb_false_iff in Hd as [Hd%Z.leb_gt|Hd%Z.ltb_ge]; lia.
Qed.

Lemma resolve_loop ws l f :
  (exists shares, Forall2 (gives ws) l shares /\
     py_for (resolve_entry ws) l (tab (zlen ws) f) = Ok (tab (zlen ws) (fun d => f d + held shares d))) \/
  ((forall shares, ~ Forall2 (gives ws) l shares) /\
     py_for (resolve_entry ws) l (tab (zlen ws) f) = Raise AssertionError).
Proof.
  revert f. induction l as [|v l IH]; intros f; cbn [py_for].
  { left. exists []. split; [constructor|]. f_equal. apply tab_ext. intros d _. cbn. lia. }
  destruct (resolve_entry_cases ws v f) as [(x & Hx & ->)|(Hno & ->)]; cbn [mbind res_bind].
  2:{ right. split; [|done]. intros shares Hs. inversion Hs; subst. by eapply Hno. }
  destruct (IH (upd f (device_id x.1) (f (device_id x.1) + x.2))) as [(shares & Hs & ->)|(Hno & ->)].
  - left. exists (x :: shares). split; [by constructor|]. f_equal. apply tab_ext. intros d _.
    unfold upd, held. rewrite fmap_cons. cbn [sumZ foldr]. rewrite (Z.eqb_sym d). destruct (Z.eqb_spec (device_id x.1) d); subst; unfold sumZ; lia.
  - right. split; [|done]. intros shares Hs. inversion Hs; subst. by eapply Hno.
Qed.

Lemma before_next shares d : before shares (d + 1) = before shares d + held shares d.
Proof.
  unfold before, held. induction shares as [|x shares IH]; [done|]. rewrite !fmap_cons. cbn [sumZ foldr].
  unfold sumZ in *. rewrite IH. zcases; lia.
Qed.

Lemma before_sum (shares : list (Worker * Z)) (k : nat) :
  Forall (fun x => 0 <= device_id x.1) shares ->
  sumZ (tab (Z.of_nat k) (held shares)) = before shares (Z.of_nat k).
Proof.
  intros Hall. induction k as [|k IH].
  - cbn. unfold before. symmetry. induction Hall as [|x l Hx _ IH]; [done|]. rewrite fmap_cons. cbn [sumZ foldr].
    by rewrite (proj2 (Z.ltb_ge _ _)) by done.
  - replace (Z.of_nat (S k)) with (Z.of_nat k + 1) by lia. rewrite before_next, <-IH. unfold tab, py_range.
    rewrite seqZ_app, fmap_app, sumZ_app, Z.add_0_l, (seqZ_cons _ 1) by lia.
    change (Z.pred 1) with 0. change (seqZ _ 0) with (@nil Z). change (sumZ (held shares <$> [Z.of_nat k])) with (held shares (Z.of_nat k) + 0). lia.
Qed.

Lemma before_all (shares : list (Worker * Z)) n :
  Forall (fun x => device_id x.1 < n) shares -> before shares n = sumZ shares.*2.
Proof.
  intros Hall. unfold before. induction Hall as [|x l Hx _ IH]; [done|]. rewrite !fmap_cons. cbn [sumZ foldr].
  unfold sumZ in *. rewrite IH. by rewrite (proj2 (Z.ltb_lt _ _)).
Qed.

Lemma take_tab {A} (k : nat) n (f : Z -> A) : Z.of_nat k <= n -> take k (tab n f) = tab (Z.of_nat k) f.
Proof.
  intros Hk. unfold tab, py_range. replace n with (Z.of_nat k + (n - Z.of_nat k)) by lia.
  rewrite seqZ_app, fmap_app by lia. apply take_app_length'. rewrite length_fmap, length_seqZ. lia.
Qed.

(** ** The placement *)

(** The counts of [shares] place the experts in the order of the devices. *)
Lemma shares_placed mc cc (n : nat) (shares : list (Worker * Z)) :
  0 < num_layers mc -> 0 < num_experts mc -> Z.of_nat n <= n_node cc * n_gpu cc ->
  Forall (fun x => 0 <= x.2 /\ 0 <= device_id x.1 < Z.of_nat n) shares -> sumZ shares.*2 = num_experts mc ->
  exists pl, get_model_placement mc cc StColocate (Some (tab (Z.of_nat n) (held shares))) = Ok pl /\
    forall d l e, (l, e) ∈ expert_ids_at pl d <->
      0 <= l < num_layers mc /\ 0 <= d < Z.of_nat n /\ before shares d <= e < before shares d + held shares d.
Proof.
  intros HL HE Hn Hall Hsum. set (alloc := tab (Z.of_nat n) (held shares)).
  assert (Hdev : Forall (fun x : Worker * Z => 0 <= device_id x.1) shares) by (eapply Forall_impl; [exact Hall|naive_solver]).
  assert (Htot : sumZ alloc = num_experts mc).
  { unfold alloc. rewrite before_sum by done. rewrite before_all; [done|]. eapply Forall_impl; [exact Hall|naive_solver]. }
  assert (Hnn : Forall (fun c => 0 <= c) alloc).
  { apply Forall_fmap, Forall_forall. intros d _. cbn. unfold held. apply sumZ_nonneg, Forall_fmap.
    eapply Forall_impl; [exact Hall|]. intros x [Hx _]. cbn. zcases; lia. }
  cbn [get_model_placement]. unfold base_init. rewrite Htot, Z.eqb_refl. cbn [py_assert mbind res_bind].
  set (s := {| colo_base := _ |}). destruct (colocate_solve_succeeds s) as (pl & Hpl); [done..| |].
  { unfold experts_fit. cbn. split; [|done]. unfold alloc. rewrite tab_zlen by lia. done. }
  exists pl. split; [done|]. intros d l e. rewrite (colocate_alloc_ids s alloc) by done. rewrite elem_of_ops.
  rewrite (elem_of_alloc_ops _ _ _ _ _ _ _ Hnn), elem_of_py_range. cbn [colo_base model_config s]. split.
  - intros (Hl & i & c & Hi & -> & He). split; [done|].
    assert (Z.of_nat i < Z.of_nat n) as Hin.
    { apply lookup_lt_Some in Hi. unfold alloc in Hi. rewrite tab_length in Hi. lia. }
    unfold alloc in Hi, He. rewrite <-(Nat2Z.id i), tab_lookup in Hi by lia. simplify_eq.
    rewrite take_tab, before_sum in He by (done || lia). split; [lia|]. by rewrite !Z.add_0_l in *.
  - intros (Hl & Hd & He). split; [done|]. exists (Z.to_nat d), (held shares d). rewrite Z2Nat.id by lia.
    unfold alloc. rewrite take_tab, before_sum, Z2Nat.id by (done || lia). split; [|split; lia].
    rewrite tab_lookup by lia. done.
Qed.

Lemma gives_bounds ws l shares :
  Forall2 (gives ws) l shares -> Forall (fun x => 0 <= x.2 /\ 0 <= device_id x.1 < zlen ws) shares.
Proof. induction 1 as [|v x l shares (e & _ & Hx) _ IH]; constructor; [|done]. by destruct Hx. Qed.

Lemma gives_unique ws v x y : gives ws v x -> gives ws v y -> x = y.
Proof.
  intros (e & -> & [Hc _ _ _ (i & Hi & Hn & _) _]) (e' & [= <-] & [Hc' _ _ _ (j & Hj & _ & Hu) _]).
  destruct x as [w m], y as [w' m']. cbn [fst snd] in *. assert (i = j) as -> by (by eapply Hu). congruence.
Qed.

Lemma shares_unique ws l shares shares' :
  Forall2 (gives ws) l shares -> Forall2 (gives ws) l shares' -> shares = shares'.
Proof.
  intros H. revert shares'. induction H as [|v x l shares Hx _ IH]; intros shares' H'; inversion H'; subst; [done|].
  f_equal; [by eapply gives_unique|by apply IH].
Qed.

(** C9. The launcher honours an allocation file: when every entry names exactly one
    worker of the cluster and the counts add up to the experts of the model, the
    placement succeeds and every device holds, for every layer, exactly the number of
    experts the entries give it, consecutive and in the order of the devices, with the
    weights and settings of the file; for any other list of entries an assertion fails
    before anything is placed. *)
Theorem allocation_honoured mc cc config ids devs weights pdc :
  let ws := get_worker_identities ids devs in
  0 < num_layers mc -> 0 < num_experts mc -> zlen ws <= n_node cc * n_gpu cc ->
  optional py_float_of (dget config "attn_dp_weights") = Ok weights ->
  optional (fun v => Ok v) (dget config "per_device_config") = Ok pdc ->
  let launched := launch_placement mc cc StColocate (Some (JObj config)) ids devs in
  (exists entries shares pl,
     dget config "allocations" = Some (JList entries) /\ Forall2 (gives ws) entries shares /\
     sumZ shares.*2 = num_experts mc /\ launched = Ok (pl, weights, pdc) /\
     forall d l e, (l, e) ∈ expert_ids_at pl d <->
       0 <= l < num_layers mc /\ 0 <= d < zlen ws /\ before shares d <= e < before shares d + held shares d)
  \/ ((forall entries shares, dget config "allocations" = Some (JList entries) ->
          Forall2 (gives ws) entries shares -> sumZ shares.*2 <> num_experts mc) /\
      launched = Raise AssertionError).
Proof.
  intros ws HL HE Hfit Hw Hp launched. unfold launched, launch_placement, resolve_expert_allocation. fold ws.
  cbn [as_dict mbind res_bind]. rewrite Hw, Hp.
  destruct (dget config "allocations") as [v|] eqn:Ha; [|by right].
  destruct v as [|b|m|fl|str|entries|o]; try by right.
  cbn [as_list mbind res_bind]. change ((fun _ => 0) <$> py_range (zlen ws)) with (tab (zlen ws) (fun _ => 0)).
  destruct (resolve_loop ws entries (fun _ => 0)) as [(shares & Hs & ->)|(Hno & ->)]; cbn [mbind res_bind].
  2:{ right. split; [|done]. intros l shares [= <-] Hs. by destruct (Hno shares). }
  rewrite (tab_ext _ _ (held shares)) by (intros; lia). pose proof (gives_bounds ws entries shares Hs) as Hb.
  assert (Htot : sumZ (tab (zlen ws) (held shares)) = sumZ shares.*2).
  { unfold zlen at 1. rewrite before_sum, before_all; [done|..]; (eapply Forall_impl; [exact Hb|naive_solver]). }
  rewrite Htot. destruct (Z.eqb_spec (sumZ shares.*2) (num_experts mc)) as [He|He]; cbn [py_assert mbind res_bind].
  - left. destruct (shares_placed mc cc (length ws) shares HL HE Hfit Hb He) as (pl & Hpl & Hids).
    exists entries, shares, pl. fold (zlen ws) in Hpl. rewrite Hpl. done.
  - right. split; [|done]. intros l shares' [= <-] Hs'.
    by rewrite (shares_unique _ _ _ _ Hs' Hs).
Qed.

End Resolve.

(** ** Settings of a device

    [init_engine] hands every worker the engine configuration with the settings the file
    has for its device.  The configuration is the dictionary of its attributes;
    [class_attr] are the names its class defines, which [hasattr] finds as well. *)

Section Settings.
Context (class_attr : string -> bool).

Definition py_hasattr (cfg : list (string * json)) (k : string) : bool := dmem cfg k || class_attr k.

Definition override (cfg : list (string * json)) (kv : string * json) : list (string * json) :=
  if py_hasattr cfg kv.1 then dset cfg kv.1 kv.2 else cfg.

Definition get_worker_engine_config (engine_config : list (string * json))
    (per_device_config : option (list (Z * json))) (device_id : Z) : res (list (string * json)) :=
  match per_device_config ≫= fun d => dget d device_id with
  | Some v => overrides ← as_dict AttributeError v; Ok (foldl override engine_config overrides)
  | None => Ok engine_config
  end.

Lemma override_get cfg kv k :
  dget (override cfg kv) k
  = if decide (kv.1 = k /\ py_hasattr cfg k = true) then Some kv.2 else dget cfg k.
Proof.
  unfold override. destruct (decide (kv.1 = k)) as [<-|Hne].
  - destruct (py_hasattr cfg kv.1); [rewrite dget_dset, !decide_True by done; done|by rewrite decide_False by by intros []].
  - rewrite (decide_False (P := _ /\ _)) by by intros [? _]. destruct (py_hasattr cfg kv.1); [|done].
    by rewrite dget_dset, decide_False.
Qed.

(** An override does not change which names are attributes. *)
Lemma override_hasattr cfg kv k : py_hasattr (override cfg kv) k = py_hasattr cfg k.
Proof.
  unfold py_hasattr at 1. unfold dmem. rewrite override_get. case_decide as H; [|done].
  destruct H as [_ ->]. by rewrite bool_decide_eq_true_2.
Qed.

(** The worker of a device has the settings of the file that are attributes of the
    configuration and keeps all others; names that are no attributes are ignored. *)
Theorem worker_config_exact engine_config pdc device_id overrides k :
  dget pdc device_id = Some (JObj overrides) -> NoDup (dkeys overrides) ->
  exists cfg, get_worker_engine_config engine_config (Some pdc) device_id = Ok cfg /\
    dget cfg k = (if py_hasattr engine_config k then
                    match dget overrides k with Some v => Some v | None => dget engine_config k end
                  else None).
Proof.
  intros Hd Hnd. unfold get_worker_engine_config. cbn [mbind option_bind]. rewrite Hd. cbn [as_dict mbind res_bind].
  eexists. split; [done|]. clear Hd. revert engine_config. induction overrides as [|[k0 v] l IH]; intros cfg.
  - cbn. destruct (py_hasattr cfg k) eqn:E; [done|]. apply orb_false_iff in E as [E _].
    unfold dmem in E. apply bool_decide_eq_false, eq_None_not_Some in E. exact E.
  - apply NoDup_cons in Hnd as [Hk0 Hnd]. cbn [foldl]. rewrite (IH Hnd), override_hasattr, override_get. cbn [fst snd dget].
    destruct (py_hasattr cfg k) eqn:E; [|done]. destruct (decide (k0 = k)) as [->|Hne].
    + rewrite (proj2 (dget_None l k) Hk0). by rewrite !decide_True by done.
    + rewrite decide_False by naive_solver. by rewrite decide_False by congruence.
Qed.
End Settings.

(** ** A concrete cluster: two hosts with one GPU each, four experts *)

Definition ex_ids : list Identity :=
  [get_worker_identity "10.0.0.1" "a" "x" "0,1" []; get_worker_identity "10.0.0.2" "b" "y" "" ["3"]].

Definition ex_config : list (string * json) :=
  [("allocations",
    JList [JObj [("ray_node_id", JStr "b"); ("cuda_device", JStr "3"); ("num_experts", JInt 1)];
           JObj [("host_ip", JStr "10.0.0.1"); ("cuda_device", JInt 0); ("num_experts", JInt 3)]]);
   ("attn_dp_weights", JObj [("0", JInt 3); (" 1 ", JBool true)])].

Definition ex_repr (v : json) : string := "".
Definition ex_numeral (s : string) : option float := None.

Lemma allocation_honoured_witness :
  let launched := launch_placement ex_repr ex_numeral ex_model (ex_cluster 2) StColocate
                    (Some (JObj ex_config)) ex_ids [1; 0] in
  exists shares pl weights,
    launched = Ok (pl, Some weights, None) /\ dkeys weights = [0; 1] /\ sumZ shares.*2 = 4 /\
    forall d l e, (l, e) ∈ expert_ids_at pl d <->
      0 <= l < 2 /\ 0 <= d < 2 /\ before shares d <= e < before shares d + held shares d.
Proof.
  destruct (allocation_honoured ex_repr ex_numeral ex_model (ex_cluster 2) ex_config ex_ids [1; 0]
    (Some [(0, float_of_Z 3); (1, float_of_Z 1)]) None) as [(entries & shares & pl & H)|H].
  1-5: vm_compute; done.
  - destruct H as (_ & _ & Hsum & Hpl & Hids). exists shares, pl, [(0, float_of_Z 3); (1, float_of_Z 1)].
    split; [exact Hpl|]. split; [reflexivity|]. split; [exact Hsum|exact Hids].
  - destruct H as [_ H]. exfalso. revert H. vm_compute. discriminate.
Defined.

End Allocation.
