(* ===== verification/MemPool.v ===== *)
(** * Slots and pages of the KV cache ([disagmoe/block_manager/mem_pool.py])

    [ReqToTokenPool] maps a request slot to the locations of its tokens;
    [TokenToKVPoolAllocator] hands out single locations and
    [PagedTokenToKVPoolAllocator] whole pages, location 0 (page 0) being kept for
    padding.  A tensor is the list of its elements; the Triton kernel
    [alloc_decode_kernel] is modelled lane by lane, its undefined reads (masked
    lanes, pages past the end of the free list) being arguments. *)

From S2P Require Import Prelude Utils.
Import Utils.

Module MemPool.

(** ** [ReqToTokenPool] *)

Record ReqToTokenPool : Type := {
  rp_size : Z;
  max_context_len : Z;
  req_to_token : list (list Z);
  free_slots : list Z;
}.

Definition with_slots (l : list Z) (p : ReqToTokenPool) : ReqToTokenPool :=
  {| rp_size := rp_size p; max_context_len := max_context_len p;
     req_to_token := req_to_token p; free_slots := l |}.
Definition with_table (t : list (list Z)) (p : ReqToTokenPool) : ReqToTokenPool :=
  {| rp_size := rp_size p; max_context_len := max_context_len p;
     req_to_token := t; free_slots := free_slots p |}.

Definition req_pool_init (size max_len : Z) : ReqToTokenPool :=
  {| rp_size := size; max_context_len := max_len;
     req_to_token := replicate (Z.to_nat size) (replicate (Z.to_nat max_len) 0);
     free_slots := py_range size |}.

(** [req_to_token[r, c] = v] and [req_to_token[r, c]], one element. *)
Definition table_set (t : list (list Z)) (r c v : Z) : res (list (list Z)) :=
  row ← py_get t r; row ← py_set row c v; py_set t r row.
Definition table_get (t : list (list Z)) (r c : Z) : res Z := row ← py_get t r; py_get row c.

(** [write((r, slice(0, n)), values)]: the slice assignment the block manager
    uses; the shapes must agree. *)
Definition write_prefix (r n : Z) (values : list Z) (p : ReqToTokenPool) : res ReqToTokenPool :=
  row ← py_get (req_to_token p) r;
  _ ← py_check (zlen (py_take n row) =? zlen values) RuntimeError;
  t ← py_set (req_to_token p) r (values ++ py_drop n row);
  Ok (with_table t p).

(** [write_loc]: element-wise over the three index vectors. *)
Definition write_loc (req_ids seq_lens values : list Z) (p : ReqToTokenPool) : res ReqToTokenPool :=
  t ← py_for (fun t '(r, c, v) => table_set t r c v) (zip (zip req_ids seq_lens) values)
        (req_to_token p);
  Ok (with_table t p).

(** A column of [-1] or less wraps, as torch's indexing does. *)
Definition get_last_loc (p : ReqToTokenPool) (req_ids seq_lens : list Z) : res (list Z) :=
  py_map (fun '(r, s) => table_get (req_to_token p) r (s - 2)) (zip req_ids seq_lens).
Definition get_latest_loc (p : ReqToTokenPool) (req_ids seq_lens : list Z) : res (list Z) :=
  py_map (fun '(r, s) => table_get (req_to_token p) r (s - 1)) (zip req_ids seq_lens).
Definition get_block_table (p : ReqToTokenPool) (req_ids : list Z) (max_seq_len : Z)
  : res (list (list Z)) :=
  py_map (fun r => row ← py_get (req_to_token p) r; Ok (py_take max_seq_len row)) req_ids.

Definition rp_available_size (p : ReqToTokenPool) : Z := zlen (free_slots p).

Definition rp_alloc (need_size : Z) (p : ReqToTokenPool) : option (list Z) * ReqToTokenPool :=
  if need_size >? zlen (free_slots p) then (None, p)
  else (Some (py_take need_size (free_slots p)), with_slots (py_drop need_size (free_slots p)) p).

Definition rp_free (free_index : list Z) (p : ReqToTokenPool) : ReqToTokenPool :=
  with_slots (free_slots p ++ free_index) p.

Definition rp_clear (p : ReqToTokenPool) : ReqToTokenPool := with_slots (py_range (rp_size p)) p.

(** ** The allocators' base class *)

Record Allocator : Type := {
  al_size : Z;
  page_size : Z;
  need_sort : bool;
  free_pages : list Z;
  release_pages : list Z;
  is_not_in_free_group : bool;
  free_group : list (list Z);
  ret_values : Z;
}.

Definition with_pages (f r : list Z) (a : Allocator) : Allocator :=
  {| al_size := al_size a; page_size := page_size a; need_sort := need_sort a;
     free_pages := f; release_pages := r;
     is_not_in_free_group := is_not_in_free_group a; free_group := free_group a;
     ret_values := ret_values a |}.
Definition with_group (b : bool) (g : list (list Z)) (a : Allocator) : Allocator :=
  {| al_size := al_size a; page_size := page_size a; need_sort := need_sort a;
     free_pages := free_pages a; release_pages := release_pages a;
     is_not_in_free_group := b; free_group := g; ret_values := ret_values a |}.
Definition with_ret (v : Z) (a : Allocator) : Allocator :=
  {| al_size := al_size a; page_size := page_size a; need_sort := need_sort a;
     free_pages := free_pages a; release_pages := release_pages a;
     is_not_in_free_group := is_not_in_free_group a; free_group := free_group a;
     ret_values := v |}.

Definition available_size (a : Allocator) : Z :=
  (zlen (free_pages a) + zlen (release_pages a)) * page_size a.

Definition free_group_begin (a : Allocator) : Allocator := with_group false [] a.

Definition merge_and_sort_free (a : Allocator) : Allocator :=
  if zlen (release_pages a) >? 0
  then with_pages (merge_sort Z.le (free_pages a ++ release_pages a)) [] a
  else a.

(** [free_group_end], for either [free] method. *)
Definition free_group_end (free : list Z -> Allocator -> Allocator) (a : Allocator) : Allocator :=
  let a := with_group true (free_group a) a in
  match free_group a with [] => a | g => free (mjoin g) a end.

(** The guard shared by the [alloc] methods. *)
Definition sort_for (n : Z) (a : Allocator) : Allocator :=
  if need_sort a && (n >? zlen (free_pages a)) then merge_and_sort_free a else a.

(** ** [TokenToKVPoolAllocator] *)

Definition tok_clear (a : Allocator) : Allocator :=
  with_group true [] (with_pages (py_range2 1 (al_size a + 1)) [] a).

Definition tok_init (size : Z) (sort : bool) : Allocator :=
  tok_clear {| al_size := size; page_size := 1; need_sort := sort; free_pages := [];
               release_pages := []; is_not_in_free_group := true; free_group := [];
               ret_values := 0 |}.

Definition tok_alloc (need_size : Z) (a : Allocator) : option (list Z) * Allocator :=
  let a := sort_for need_size a in
  if need_size >? zlen (free_pages a) then (None, a)
  else (Some (py_take need_size (free_pages a)),
        with_pages (py_drop need_size (free_pages a)) (release_pages a) a).

Definition tok_free (free_index : list Z) (a : Allocator) : Allocator :=
  if zlen free_index =? 0 then a
  else if is_not_in_free_group a then
    if need_sort a then with_pages (free_pages a) (release_pages a ++ free_index) a
    else with_pages (free_pages a ++ free_index) (release_pages a) a
  else with_group false (free_group a ++ [free_index]) a.

(** ** [PagedTokenToKVPoolAllocator] *)

Definition num_pages (a : Allocator) : Z := al_size a / page_size a.

Definition paged_clear (a : Allocator) : Allocator :=
  with_group true [] (with_pages (py_range2 1 (num_pages a + 1)) [] a).

(** [ret_values] is an uninitialised cell until the kernel first stores to it. *)
Definition paged_init (size psize : Z) (sort : bool) (cell : Z) : res Allocator :=
  _ ← py_floordiv size psize;
  Ok (paged_clear {| al_size := size; page_size := psize; need_sort := sort; free_pages := [];
                     release_pages := []; is_not_in_free_group := true; free_group := [];
                     ret_values := cell |}).

(** The locations of a page. *)
Definition page_slots (psize pg : Z) : list Z := (fun o => pg * psize + o) <$> py_range psize.

Definition paged_alloc (need_size : Z) (a : Allocator) : res (option (list Z) * Allocator) :=
  n ← py_floordiv need_size (page_size a);
  let a := sort_for n a in
  if n >? zlen (free_pages a) then Ok (None, a)
  else Ok (Some (py_take n (free_pages a) ≫= page_slots (page_size a)),
           with_pages (py_drop n (free_pages a)) (release_pages a) a).

(** [alloc_decode_kernel], program [pid].  [lane i] is what lane [i] reads from
    [seq_lens] when the mask [i <= pid] is false, [oob i] what lies [i] places
    past the start of the free list; integer division is the machine's. *)
Section Kernel.
Context (lane : Z -> Z) (oob : Z -> Z).

Definition pages_of (psize len : Z) : Z := Z.quot (len + psize - 1) psize.

Definition lane_new_pages (psize : Z) (seq_lens : list Z) (pid i : Z) : Z :=
  let seq_len := if i <=? pid then default 0 (seq_lens !! Z.to_nat i) else lane i in
  let pre_len := if i <=? pid then seq_len - 1 else seq_len in
  pages_of psize seq_len - pages_of psize pre_len.

Definition kernel_sum (psize bs_upper : Z) (seq_lens : list Z) (pid : Z) : Z :=
  sumZ (lane_new_pages psize seq_lens pid <$> py_range bs_upper).

Definition load_page (free : list Z) (i : Z) : Z :=
  if (0 <=? i) && (i <? zlen free) then default 0 (free !! Z.to_nat i) else oob i.

Definition kernel_out (psize bs_upper : Z) (seq_lens last_loc free : list Z) (pid : Z) : Z :=
  let seq_len := default 0 (seq_lens !! Z.to_nat pid) in
  let self := pages_of psize seq_len - pages_of psize (seq_len - 1) in
  let start := kernel_sum psize bs_upper seq_lens pid - self in
  if self =? 0 then default 0 (last_loc !! Z.to_nat pid) + 1
  else load_page free start * psize.

(** The grid has one program per request, the last one stores the total: an
    empty batch launches nothing and leaves [ret_values] as it was. *)
Definition alloc_decode (seq_lens last_loc : list Z) (a : Allocator)
  : option (list Z) * Allocator :=
  let bs := zlen seq_lens in
  let a := sort_for bs a in
  let upper := next_power_of_2 bs in
  let out := kernel_out (page_size a) upper seq_lens last_loc (free_pages a) <$> py_range bs in
  let a := if bs =? 0 then a
           else with_ret (kernel_sum (page_size a) upper seq_lens (bs - 1)) a in
  let num_new_pages := ret_values a in
  if num_new_pages >? zlen (free_pages a) then (None, a)
  else (Some out, with_pages (py_drop num_new_pages (free_pages a)) (release_pages a) a).

End Kernel.

(** [torch.unique]: the distinct values, in order. *)
Definition unique (l : list Z) : list Z := merge_sort Z.le (remove_dups l).

Definition paged_free (free_index : list Z) (a : Allocator) : Allocator :=
  if zlen free_index =? 0 then a
  else if is_not_in_free_group a then
    let pages := unique ((fun i => i / page_size a) <$> free_index) in
    if need_sort a then with_pages (free_pages a) (pages ++ release_pages a) a
    else with_pages (pages ++ free_pages a) (release_pages a) a
  else with_group false (free_group a ++ [free_index]) a.

(** ** The decode kernel against a sequential allocation *)

(** Does writing token number [len] start a page? *)
Definition need (psize len : Z) : Z := if (len - 1) mod psize =? 0 then 1 else 0.

(** The reference: the requests one after the other, popping a page when their
    last one is full. *)
Fixpoint decode_ref (psize : Z) (reqs : list (Z * Z)) (free : list Z) : option (list Z * list Z) :=
  match reqs with
  | [] => Some ([], free)
  | (len, last) :: reqs =>
      if need psize len =? 0
      then '(out, rest) ← decode_ref psize reqs free; Some ((last + 1) :: out, rest)
      else match free with
           | [] => None
           | pg :: free =>
               '(out, rest) ← decode_ref psize reqs free; Some (pg * psize :: out, rest)
           end
  end.

Lemma new_pages_need psize len :
  0 < psize -> 1 <= len -> pages_of psize len - pages_of psize (len - 1) = need psize len.
Proof.
  intros Hp Hl. unfold pages_of, need. rewrite !Z.quot_div_nonneg by lia.
  replace (len - 1 + psize - 1) with (len - 1 - 1 + 1 * psize) by lia.
  replace (len + psize - 1) with (len - 1 + 1 * psize) by lia.
  rewrite !Z.div_add by lia.
  pose proof (Z.div_mod (len - 1) psize ltac:(lia)) as Hd.
  pose proof (Z.mod_pos_bound (len - 1) psize Hp) as Hb.
  set (q := (len - 1) / psize) in *. set (r := (len - 1) mod psize) in *.
  destruct (Z.eqb_spec r 0) as [Hr|Hr].
  - replace ((len - 1 - 1) / psize) with (q - 1); [lia|].
    apply Z.div_unique with (psize - 1); lia.
  - replace ((len - 1 - 1) / psize) with q; [lia|].
    apply Z.div_unique with (r - 1); lia.
Qed.

Lemma need_cases psize len : need psize len = 0 \/ need psize len = 1.
Proof. unfold need. destruct (_ =? _); auto. Qed.

Lemma sumZ_zeros {A} (f : A -> Z) l : (forall x, x ∈ l -> f x = 0) -> sumZ (f <$> l) = 0.
Proof.
  induction l as [|x l IH]; intros Hf; [done|]. rewrite fmap_cons. cbn.
  rewrite Hf by left. change (foldr Z.add 0 (f <$> l)) with (sumZ (f <$> l)).
  rewrite IH; [done|]. intros. apply Hf. by right.
Qed.

(** A lane past [pid] adds nothing whatever it read, so the sum is over the
    requests up to [pid]. *)
Lemma kernel_sum_spec lane psize upper seq_lens pid :
  0 < psize -> Forall (fun l => 1 <= l) seq_lens ->
  0 <= pid < zlen seq_lens -> zlen seq_lens <= upper ->
  kernel_sum lane psize upper seq_lens pid
  = sumZ (need psize <$> take (Z.to_nat (pid + 1)) seq_lens).
Proof.
  intros Hp Hall Hpid Hup. unfold kernel_sum, py_range.
  replace upper with ((pid + 1) + (upper - (pid + 1))) by lia.
  rewrite seqZ_app, fmap_app, sumZ_app by lia.
  rewrite (sumZ_zeros _ (seqZ (0 + (pid + 1)) _)).
  2:{ intros i Hi%elem_of_seqZ. unfold lane_new_pages.
      destruct (Z.leb_spec i pid); [lia|]. lia. }
  rewrite Z.add_0_r. f_equal. apply list_eq. intros k.
  rewrite !list_lookup_fmap. destruct (decide (k < Z.to_nat (pid + 1))%nat) as [Hk|Hk].
  - rewrite lookup_seqZ_lt, lookup_take_lt by lia. simpl.
    destruct (lookup_lt_is_Some_2 seq_lens k) as [len Hlen]; [unfold zlen in *; lia|].
    rewrite Hlen. simpl. f_equal. unfold lane_new_pages. rewrite Z.add_0_l.
    destruct (Z.leb_spec (Z.of_nat k) pid); [|lia]. rewrite Nat2Z.id, Hlen. simpl.
    apply new_pages_need; [done|]. rewrite Forall_lookup in Hall. by eapply Hall.
  - rewrite lookup_seqZ_ge, lookup_take_ge by lia. done.
Qed.

Lemma need_sum_nonneg psize l : 0 <= sumZ (need psize <$> l).
Proof.
  apply sumZ_nonneg, Forall_forall. intros x (len & -> & _)%list_elem_of_fmap.
  pose proof (need_cases psize len). lia.
Qed.

Lemma need_sum_cons psize x l : sumZ (need psize <$> x :: l) = need psize x + sumZ (need psize <$> l).
Proof. done. Qed.

(** What the reference computes, request by request. *)
Lemma decode_ref_spec psize seq_lens last_loc free :
  length last_loc = length seq_lens ->
  match decode_ref psize (zip seq_lens last_loc) free with
  | Some (out, rest) =>
      sumZ (need psize <$> seq_lens) <= zlen free /\
      rest = drop (Z.to_nat (sumZ (need psize <$> seq_lens))) free /\
      length out = length seq_lens /\
      forall k len last, seq_lens !! k = Some len -> last_loc !! k = Some last ->
        out !! k = Some (if need psize len =? 0 then last + 1
                         else default 0 (free !! Z.to_nat (sumZ (need psize <$> take k seq_lens))) * psize)
  | None => zlen free < sumZ (need psize <$> seq_lens)
  end.
Proof.
  revert last_loc free; induction seq_lens as [|len seq_lens IH]; intros [|last last_loc] free Hlen; try done.
  { simpl. split; [apply zlen_nonneg|]. done. }
  injection Hlen as Hlen. rewrite need_sum_cons. cbn [zip zip_with decode_ref].
  pose proof (need_sum_nonneg psize seq_lens) as Hnn.
  destruct (Z.eqb_spec (need psize len) 0) as [Hz|Hz].
  - rewrite Hz, Z.add_0_l. specialize (IH last_loc free Hlen).
    change (zip_with pair seq_lens last_loc) with (zip seq_lens last_loc).
    destruct (decode_ref psize (zip seq_lens last_loc) free) as [[out rest]|]; simpl; [|done].
    destruct IH as (Hle & Hrest & Hout & Hk). split; [done|]. split; [done|]. split; [simpl; lia|].
    intros [|k] len' last' H1 H2; simplify_eq/=; [by rewrite Hz|].
    rewrite (Hk k len' last') by done. by rewrite Hz.
  - assert (H1 : need psize len = 1) by (destruct (need_cases psize len); lia). rewrite H1.
    destruct free as [|pg free]; [change (zlen []) with 0; lia|]. rewrite zlen_cons.
    specialize (IH last_loc free Hlen).
    change (zip_with pair seq_lens last_loc) with (zip seq_lens last_loc).
    destruct (decode_ref psize (zip seq_lens last_loc) free) as [[out rest]|]; simpl; [|lia].
    destruct IH as (Hle & Hrest & Hout & Hk). split; [lia|]. split; [|split; [simpl; lia|]].
    + rewrite Hrest. by replace (Z.to_nat (1 + sumZ (need psize <$> seq_lens)))
        with (S (Z.to_nat (sumZ (need psize <$> seq_lens)))) by lia.
    + intros [|k] len' last' Hl1 Hl2; simplify_eq/=; [by rewrite H1|].
      rewrite (Hk k len' last') by done.
      rewrite H1.
      pose proof (need_sum_nonneg psize (take k seq_lens)).
      by replace (Z.to_nat (1 + sumZ (need psize <$> take k seq_lens)))
        with (S (Z.to_nat (sumZ (need psize <$> take k seq_lens)))) by lia.
Qed.

(** C24. The one-shot decode kernel is the sequential allocation: for a non-empty
    batch of positive lengths, whatever the masked lanes and the words past the
    free list hold, [alloc_decode] returns exactly what popping a page per full
    request, in batch order, returns, takes the same pages off the free list,
    and gives up exactly when the sequential allocation runs out of pages. *)
Theorem alloc_decode_sequential (lane oob : Z -> Z) (seq_lens last_loc : list Z) (a : Allocator) :
  0 < page_size a -> Forall (fun l => 1 <= l) seq_lens -> seq_lens <> [] ->
  length last_loc = length seq_lens ->
  let a0 := sort_for (zlen seq_lens) a in
  let r := alloc_decode lane oob seq_lens last_loc a in
  match decode_ref (page_size a) (zip seq_lens last_loc) (free_pages a0) with
  | Some (out, rest) =>
      r.1 = Some out /\ free_pages r.2 = rest /\ release_pages r.2 = release_pages a0
  | None => r.1 = None /\ free_pages r.2 = free_pages a0 /\ release_pages r.2 = release_pages a0
  end.
Proof.
  intros Hp Hall Hne Hlen a0 r.
  assert (Hpos : 0 < zlen seq_lens) by (destruct seq_lens; [done|rewrite zlen_cons; pose proof (zlen_nonneg seq_lens); lia]).
  assert (Hps : page_size a0 = page_size a)
    by (unfold a0, sort_for, merge_and_sort_free; by repeat case_match).
  pose proof (next_power_of_2_spec (zlen seq_lens) Hpos) as (Hup & _).
  assert (Hsum : forall pid, 0 <= pid < zlen seq_lens ->
    kernel_sum lane (page_size a) (next_power_of_2 (zlen seq_lens)) seq_lens pid
    = sumZ (need (page_size a) <$> take (Z.to_nat (pid + 1)) seq_lens))
    by (intros pid Hpid; by apply kernel_sum_spec).
  pose proof (decode_ref_spec (page_size a) seq_lens last_loc (free_pages a0) Hlen) as Href.
  unfold r, alloc_decode. fold a0.
  destruct (Z.eqb_spec (zlen seq_lens) 0) as [|_]; [lia|]. cbn [ret_values with_ret free_pages release_pages].
  rewrite Hps, Hsum by lia.
  replace (zlen seq_lens - 1 + 1) with (zlen seq_lens) by lia.
  rewrite (take_ge seq_lens) by (unfold zlen; lia). rewrite Z.gtb_ltb.
  destruct (decode_ref _ _ _) as [[out rest]|].
  - destruct Href as (Hle & -> & Hout & Hk).
    rewrite (proj2 (Z.ltb_ge _ _) Hle). simpl. split; [|split; [|done]].
    + f_equal. apply list_eq. intros k. rewrite list_lookup_fmap.
      destruct (decide (k < length seq_lens)%nat) as [Hlt|Hge].
      2:{ unfold py_range. rewrite lookup_seqZ_ge, lookup_ge_None_2; [done|lia|unfold zlen; lia]. }
      destruct (lookup_lt_is_Some_2 seq_lens k Hlt) as [len Hl].
      destruct (lookup_lt_is_Some_2 last_loc k) as [last Hla]; [lia|].
      unfold py_range. rewrite lookup_seqZ_lt by (unfold zlen; lia).
      cbn [fmap option_fmap option_map]. rewrite (Hk k len last Hl Hla). f_equal.
      unfold kernel_out. rewrite Z.add_0_l, Hsum by (unfold zlen; lia).
      replace (Z.to_nat (Z.of_nat k + 1)) with (S k) by lia. rewrite Nat2Z.id, Hl, Hla. simpl.
      rewrite new_pages_need by (try done; rewrite Forall_lookup in Hall; by eapply Hall).
      destruct (Z.eqb_spec (need (page_size a) len) 0) as [|Hn]; [done|]. f_equal.
      rewrite (take_S_r _ _ len), fmap_app, sumZ_app by done. cbn [fmap list_fmap sumZ foldr].
      pose proof (need_sum_nonneg (page_size a) (take k seq_lens)) as Hnn.
      replace (sumZ (need (page_size a) <$> take k seq_lens) + (need (page_size a) len + 0) - need (page_size a) len)
        with (sumZ (need (page_size a) <$> take k seq_lens)) by lia.
      unfold load_page. rewrite (proj2 (Z.leb_le _ _) Hnn).
      assert (Hlt2 : sumZ (need (page_size a) <$> take k seq_lens) < sumZ (need (page_size a) <$> seq_lens)).
      { rewrite <-(take_drop k seq_lens) at 2. rewrite (drop_S _ len) by done.
        rewrite fmap_app, sumZ_app, need_sum_cons.
        pose proof (need_sum_nonneg (page_size a) (drop (S k) seq_lens)).
        destruct (need_cases (page_size a) len); lia. }
      destruct (Z.ltb_spec (sumZ (need (page_size a) <$> take k seq_lens)) (zlen (free_pages a0))); [done|lia].
    + apply py_drop_nonneg, need_sum_nonneg.
  - rewrite (proj2 (Z.ltb_lt _ _) Href). done.
Qed.

Definition ex_paged : Allocator :=
  match paged_init 16 4 true 0 with Ok a => a | Raise _ => tok_init 0 true end.

(** Three requests, the first and the last starting a page. *)
Lemma alloc_decode_sequential_witness :
  let r := alloc_decode (fun i => 7 * i) (fun i => -i) [5; 7; 9] [7; 33; 39] ex_paged in
  r.1 = Some [4; 34; 8] /\ free_pages r.2 = [3; 4] /\ release_pages r.2 = [].
Proof.
  apply (alloc_decode_sequential (fun i => 7 * i) (fun i => -i) [5; 7; 9] [7; 33; 39] ex_paged);
    [reflexivity|repeat constructor; discriminate|discriminate|reflexivity].
Defined.

(** ** Conservation of pages

    The allocator next to the pages its clients hold. *)

Definition pages_in (psize : Z) (locs : list Z) : list Z := unique ((fun i => i / psize) <$> locs).

Lemma unique_perm l : unique l ≡ₚ remove_dups l.
Proof. apply merge_sort_Permutation. Qed.

Lemma elem_of_pages_in psize locs pg :
  pg ∈ pages_in psize locs <-> exists i, i ∈ locs /\ pg = i / psize.
Proof.
  unfold pages_in. rewrite unique_perm, elem_of_remove_dups, list_elem_of_fmap. naive_solver.
Qed.

Lemma NoDup_pages_in psize locs : NoDup (pages_in psize locs).
Proof. unfold pages_in. rewrite unique_perm. apply NoDup_remove_dups. Qed.

(** The locations of distinct pages have exactly those pages. *)
Lemma pages_in_slots psize pages :
  0 < psize -> NoDup pages -> pages_in psize (pages ≫= page_slots psize) ≡ₚ pages.
Proof.
  intros Hp Hnd. apply NoDup_Permutation; [apply NoDup_pages_in|done|]. intros pg.
  rewrite elem_of_pages_in. unfold page_slots. split.
  - intros (i & (pg' & (o & -> & Ho)%list_elem_of_fmap & Hpg)%list_elem_of_bind & ->).
    apply elem_of_py_range in Ho. rewrite Z.div_add_l, (Z.div_small o), Z.add_0_r by lia. done.
  - intros Hpg. exists (pg * psize). split; [|by rewrite Z.div_mul by lia].
    apply list_elem_of_bind. exists pg. split; [|done]. apply list_elem_of_fmap. exists 0.
    split; [lia|]. by apply elem_of_py_range.
Qed.

(** The decode batch the engine passes: the previous token of each request sits
    just before the new one (the assertion of the debug mode). *)
Definition decode_batch (psize : Z) (seq_lens last_loc : list Z) : Prop :=
  seq_lens <> [] /\ Forall2 (fun len last => 1 <= len /\ (last + 2) mod psize = len mod psize)
    seq_lens last_loc.

(** The pages a decode batch starts: those of the page-aligned locations. *)
Definition decode_pages (psize : Z) (out : list Z) : list Z :=
  (fun i => i / psize) <$> filter (fun i => i mod psize = 0) out.

Inductive pool_step (lane oob : Z -> Z) : Allocator * list Z -> Allocator * list Z -> Prop :=
  | ps_alloc n out a a' used :
      0 <= n -> paged_alloc n a = Ok (Some out, a') ->
      pool_step lane oob (a, used) (a', used ++ pages_in (page_size a) out)
  | ps_alloc_none n a a' used :
      0 <= n -> paged_alloc n a = Ok (None, a') -> pool_step lane oob (a, used) (a', used)
  | ps_decode seq_lens last_loc out a a' used :
      decode_batch (page_size a) seq_lens last_loc ->
      alloc_decode lane oob seq_lens last_loc a = (Some out, a') ->
      pool_step lane oob (a, used) (a', used ++ decode_pages (page_size a) out)
  | ps_decode_none seq_lens last_loc a a' used :
      decode_batch (page_size a) seq_lens last_loc ->
      alloc_decode lane oob seq_lens last_loc a = (None, a') -> pool_step lane oob (a, used) (a', used)
  | ps_free locs a used :
      (forall pg, pg ∈ pages_in (page_size a) locs -> pg ∈ used) ->
      is_not_in_free_group a = true ->
      pool_step lane oob (a, used)
        (paged_free locs a, filter (fun pg => pg ∉ pages_in (page_size a) locs) used)
  | ps_free_later locs a used :
      (forall pg, pg ∈ pages_in (page_size a) locs -> pg ∈ used) ->
      is_not_in_free_group a = false ->
      pool_step lane oob (a, used) (paged_free locs a, used)
  | ps_begin a used :
      is_not_in_free_group a = true -> pool_step lane oob (a, used) (free_group_begin a, used)
  | ps_end a used :
      is_not_in_free_group a = false ->
      pool_step lane oob (a, used)
        (free_group_end paged_free a,
         filter (fun pg => pg ∉ pages_in (page_size a) (mjoin (free_group a))) used).

Record pool_inv (N : Z) (a : Allocator) (used : list Z) : Prop := {
  pi_psize : 0 < page_size a;
  pi_perm : free_pages a ++ release_pages a ++ used ≡ₚ seqZ 1 N;
  pi_sort : need_sort a = false -> release_pages a = [];
  pi_group : is_not_in_free_group a = false ->
    forall pg, pg ∈ pages_in (page_size a) (mjoin (free_group a)) -> pg ∈ used;
}.

Lemma sort_for_frame n a :
  page_size (sort_for n a) = page_size a /\ need_sort (sort_for n a) = need_sort a /\
  is_not_in_free_group (sort_for n a) = is_not_in_free_group a /\
  free_group (sort_for n a) = free_group a /\
  free_pages (sort_for n a) ++ release_pages (sort_for n a) ≡ₚ free_pages a ++ release_pages a.
Proof.
  unfold sort_for, merge_and_sort_free. destruct (_ && _); [|done]. destruct (_ >? _); [|done].
  simpl. do 4 (split; [done|]). rewrite app_nil_r. apply merge_sort_Permutation.
Qed.

Lemma sort_for_inv N n a used : pool_inv N a used -> pool_inv N (sort_for n a) used.
Proof.
  intros [Hp Hperm Hs Hg]. destruct (sort_for_frame n a) as (E1 & E2 & E3 & E4 & E5). split.
  - by rewrite E1.
  - by rewrite app_assoc, E5, <-app_assoc.
  - rewrite E2. intros Hn. unfold sort_for, merge_and_sort_free.
    rewrite Hn. simpl. by apply Hs.
  - by rewrite E1, E3, E4.
Qed.

(** Moving the first [n] free pages to the clients. *)
Lemma pool_inv_take N n a used new :
  pool_inv N a used -> new ≡ₚ py_take n (free_pages a) ->
  pool_inv N (with_pages (py_drop n (free_pages a)) (release_pages a) a) (used ++ new).
Proof.
  intros [Hp Hperm Hs Hg] Hnew. split; simpl; try done.
  - rewrite Hnew, <-Hperm. rewrite <-(py_take_drop (free_pages a) n) at 3. solve_Permutation.
  - intros Hn pg Hpg. apply elem_of_app. left. by apply Hg.
Qed.

Lemma pool_inv_NoDup N a used : pool_inv N a used -> NoDup (free_pages a ++ release_pages a ++ used).
Proof. intros [_ Hperm _ _]. rewrite Hperm. apply NoDup_seqZ. Qed.

Lemma split_used (P used : list Z) :
  NoDup P -> NoDup used -> (forall pg, pg ∈ P -> pg ∈ used) ->
  used ≡ₚ P ++ filter (fun pg => pg ∉ P) used.
Proof.
  intros HP Hu Hin. apply NoDup_Permutation; [done| |].
  - apply NoDup_app. split; [done|]. split; [|by apply NoDup_filter].
    intros x Hx Hf. apply list_elem_of_filter in Hf as [Hn _]. done.
  - intros x. rewrite elem_of_app, list_elem_of_filter. destruct (decide (x ∈ P)); naive_solver.
Qed.

(** Giving pages back, to the free list or to the list of released pages. *)
Lemma pool_inv_give N a used P f r :
  pool_inv N a used -> NoDup P -> (forall pg, pg ∈ P -> pg ∈ used) ->
  f ++ r ≡ₚ P ++ free_pages a ++ release_pages a -> (need_sort a = false -> r = []) ->
  is_not_in_free_group a = true ->
  pool_inv N (with_pages f r a) (filter (fun pg => pg ∉ P) used).
Proof.
  intros Hinv HP Hin Hfr Hr Hg. pose proof (pool_inv_NoDup _ _ _ Hinv) as Hnd.
  destruct Hinv as [Hp Hperm Hs _]. split; simpl; [done| |done|congruence].
  apply NoDup_app in Hnd as (_ & _ & Hnd). apply NoDup_app in Hnd as (_ & _ & Hnd).
  rewrite app_assoc, Hfr, <-Hperm. rewrite (split_used P used) at 2 by done. solve_Permutation.
Qed.

Lemma paged_free_inv N a used locs :
  pool_inv N a used -> is_not_in_free_group a = true ->
  (forall pg, pg ∈ pages_in (page_size a) locs -> pg ∈ used) ->
  pool_inv N (paged_free locs a) (filter (fun pg => pg ∉ pages_in (page_size a) locs) used).
Proof.
  intros Hinv Hg Hin. unfold paged_free. destruct (Z.eqb_spec (zlen locs) 0) as [Hz|Hz].
  - assert (locs = []) as -> by (destruct locs; [done|rewrite zlen_cons in Hz; pose proof (zlen_nonneg locs); lia]).
    assert (Hf : filter (fun pg => pg ∉ pages_in (page_size a) []) used = used); [|by rewrite Hf].
    apply filter_all. apply Forall_forall. intros pg _ (i & Hi & _)%elem_of_pages_in.
    by apply elem_of_nil in Hi.
  - rewrite Hg. fold (pages_in (page_size a) locs).
    pose proof (pi_sort _ _ _ Hinv) as Hs.
    destruct (need_sort a) eqn:En.
    + apply pool_inv_give; [done|apply NoDup_pages_in|done|solve_Permutation|congruence|done].
    + apply pool_inv_give; [done|apply NoDup_pages_in|done|by rewrite app_assoc|auto|done].
Qed.

(** The page-aligned locations of a decode batch are the pages it popped. *)
Lemma decode_ref_pages psize seq_lens last_loc free out rest :
  0 < psize ->
  Forall2 (fun len last => 1 <= len /\ (last + 2) mod psize = len mod psize) seq_lens last_loc ->
  decode_ref psize (zip seq_lens last_loc) free = Some (out, rest) ->
  free = decode_pages psize out ++ rest.
Proof.
  intros Hp Hall. revert free out; induction Hall as [|len last seq_lens last_loc [Hl Hm] _ IH]; intros free out Hd.
  { by injection Hd as <- <-. }
  cbn [zip zip_with decode_ref] in Hd.
  change (zip_with pair seq_lens last_loc) with (zip seq_lens last_loc) in Hd.
  destruct (Z.eqb_spec (need psize len) 0) as [Hz|Hz].
  - destruct (decode_ref psize (zip seq_lens last_loc) free) as [[out' rest']|] eqn:E; [|done].
    injection Hd as <- <-. rewrite (IH _ _ E) at 1. f_equal. unfold decode_pages.
    rewrite filter_cons_False; [done|]. intros Hc. unfold need in Hz.
    destruct (Z.eqb_spec ((len - 1) mod psize) 0) as [|Hne]; [done|]. apply Hne.
    rewrite <-Zminus_mod_idemp_l, <-Hm, Zminus_mod_idemp_l.
    by replace (last + 2 - 1) with (last + 1) by lia.
  - destruct free as [|pg free]; [done|].
    destruct (decode_ref psize (zip seq_lens last_loc) free) as [[out' rest']|] eqn:E; [|done].
    injection Hd as <- <-. rewrite (IH _ _ E) at 1. unfold decode_pages.
    rewrite filter_cons_True by (by rewrite Z.mod_mul by lia). rewrite fmap_cons, Z.div_mul by lia. done.
Qed.

Lemma alloc_decode_frame lane oob seq_lens last_loc a :
  let a' := (alloc_decode lane oob seq_lens last_loc a).2 in
  page_size a' = page_size a /\ need_sort a' = need_sort a /\
  is_not_in_free_group a' = is_not_in_free_group a /\ free_group a' = free_group a.
Proof.
  destruct (sort_for_frame (zlen seq_lens) a) as (E1 & E2 & E3 & E4 & _).
  unfold alloc_decode. destruct (zlen seq_lens =? 0), (_ >? _); done.
Qed.

Lemma pool_inv_same N a a' used :
  pool_inv N a used -> page_size a' = page_size a -> need_sort a' = need_sort a ->
  is_not_in_free_group a' = is_not_in_free_group a -> free_group a' = free_group a ->
  free_pages a' = free_pages a -> release_pages a' = release_pages a -> pool_inv N a' used.
Proof. intros [Hp Hperm Hs Hg] E1 E2 E3 E4 E5 E6. split; rewrite ?E1, ?E2, ?E3, ?E4, ?E5, ?E6; done. Qed.

Lemma pool_inv_decode lane oob N seq_lens last_loc a used :
  pool_inv N a used -> decode_batch (page_size a) seq_lens last_loc ->
  let r := alloc_decode lane oob seq_lens last_loc a in
  pool_inv N r.2 (used ++ match r.1 with Some out => decode_pages (page_size a) out | None => [] end).
Proof.
  intros Hinv [Hne Hb] r.
  assert (Hlens : Forall (fun l => 1 <= l) seq_lens).
  { apply Forall_lookup. intros i len Hi.
    destruct (Forall2_lookup_l _ _ _ _ _ Hb Hi) as (? & _ & ? & _). done. }
  pose proof (alloc_decode_sequential lane oob seq_lens last_loc a (pi_psize _ _ _ Hinv) Hlens Hne
    (eq_sym (Forall2_length _ _ _ Hb))) as Hseq.
  cbn zeta in Hseq. fold r in Hseq. set (a0 := sort_for (zlen seq_lens) a) in *.
  pose proof (sort_for_inv N (zlen seq_lens) a used Hinv) as Hinv0. fold a0 in Hinv0.
  destruct (sort_for_frame (zlen seq_lens) a) as (E1 & E2 & E3 & E4 & _). fold a0 in E1, E2, E3, E4.
  destruct (alloc_decode_frame lane oob seq_lens last_loc a) as (F1 & F2 & F3 & F4).
  fold r in F1, F2, F3, F4.
  destruct (decode_ref _ _ _) as [[out rest]|] eqn:Ed.
  - destruct Hseq as (-> & Hf & Hr).
    apply decode_ref_pages in Ed; [|by apply Hinv|done].
    pose proof (pool_inv_take N (zlen (decode_pages (page_size a) out)) a0 used
      (decode_pages (page_size a) out) Hinv0) as Ht.
    pose proof (zlen_nonneg (decode_pages (page_size a) out)).
    eapply pool_inv_same; [apply Ht|..]; simpl; try congruence.
    + rewrite py_take_nonneg, Ed by lia. unfold zlen. by rewrite Nat2Z.id, take_app_length.
    + rewrite py_drop_nonneg, Ed by lia. unfold zlen. by rewrite Nat2Z.id, drop_app_length.
  - destruct Hseq as (-> & Hf & Hr). rewrite app_nil_r.
    eapply pool_inv_same; [exact Hinv0|..]; congruence.
Qed.

Lemma pool_inv_alloc N n a used r :
  pool_inv N a used -> 0 <= n -> paged_alloc n a = Ok r ->
  pool_inv N r.2 (used ++ match r.1 with Some out => pages_in (page_size a) out | None => [] end).
Proof.
  intros Hinv Hn Hrun. unfold paged_alloc in Hrun. pose proof (pi_psize _ _ _ Hinv) as Hp.
  unfold py_floordiv in Hrun. destruct (Z.eqb_spec (page_size a) 0); [lia|]. simpl in Hrun.
  pose proof (sort_for_inv N (n / page_size a) a used Hinv) as Hinv0.
  destruct (sort_for_frame (n / page_size a) a) as (E1 & _).
  set (a0 := sort_for _ a) in *. destruct (_ >? _); injection Hrun as <-; simpl.
  { by rewrite app_nil_r. }
  apply pool_inv_take; [done|]. rewrite E1. apply pages_in_slots; [done|].
  pose proof (pool_inv_NoDup _ _ _ Hinv0) as Hnd. apply NoDup_app in Hnd as (Hnd & _).
  rewrite <-(py_take_drop (free_pages a0) (n / page_size a)) in Hnd. by apply NoDup_app in Hnd as (? & _).
Qed.

Lemma pool_step_inv lane oob N x y :
  pool_inv N x.1 x.2 -> pool_step lane oob x y -> pool_inv N y.1 y.2.
Proof.
  intros Hinv Hstep.
  destruct Hstep as [n out a a' used Hn Ha|n a a' used Hn Ha|sl ll out a a' used Hb Ha|sl ll a a' used Hb Ha
    |locs a used Hin Hg|locs a used Hin Hg|a used Hg|a used Hg]; simpl in *.
  - by apply (pool_inv_alloc N n a used (Some out, a')).
  - pose proof (pool_inv_alloc N n a used (None, a') Hinv Hn Ha) as Hr. simpl in Hr.
    by rewrite app_nil_r in Hr.
  - pose proof (pool_inv_decode lane oob N sl ll a used Hinv Hb) as Hd.
    cbn zeta in Hd. by rewrite Ha in Hd.
  - pose proof (pool_inv_decode lane oob N sl ll a used Hinv Hb) as Hd.
    cbn zeta in Hd. rewrite Ha in Hd. simpl in Hd. by rewrite app_nil_r in Hd.
  - by apply paged_free_inv.
  - unfold paged_free. destruct (_ =? 0); [done|]. rewrite Hg. destruct Hinv as [Hp Hperm Hs Hgr].
    split; simpl; try done. intros _ pg (i & Hi & ->)%elem_of_pages_in.
    rewrite join_app in Hi. apply elem_of_app in Hi as [Hi|Hi].
    + apply Hgr; [done|]. apply elem_of_pages_in. eauto.
    + apply Hin. simpl in Hi. rewrite app_nil_r in Hi. apply elem_of_pages_in. eauto.
  - destruct Hinv as [Hp Hperm Hs Hgr]. split; simpl; try done.
    intros _ pg (i & Hi & _)%elem_of_pages_in. by apply elem_of_nil in Hi.
  - pose proof (pi_group _ _ _ Hinv Hg) as Hgr.
    assert (Hinv1 : pool_inv N (with_group true (free_group a) a) used).
    { destruct Hinv as [Hp Hperm Hs _]. by split. }
    unfold free_group_end. simpl.
    assert (Hnil : free_group a = [] -> filter (fun pg => pg ∉ pages_in (page_size a) (mjoin (free_group a))) used = used).
    { intros ->. apply filter_all. apply Forall_forall.
      intros pg _ (i & Hi & _)%elem_of_pages_in. by apply elem_of_nil in Hi. }
    pose proof (paged_free_inv N _ used (mjoin (free_group a)) Hinv1 eq_refl Hgr) as Hf.
    destruct (free_group a) as [|l g]; [by rewrite Hnil|done].
Qed.

(** Runs of the allocator with its clients. *)
Definition pool_steps lane oob := rtc (pool_step lane oob).

Lemma pool_steps_inv lane oob N x y :
  pool_inv N x.1 x.2 -> pool_steps lane oob x y -> pool_inv N y.1 y.2.
Proof.
  intros Hinv Hrun. induction Hrun as [|x y z Hs _ IH]; [done|]. apply IH.
  by eapply pool_step_inv.
Qed.

Lemma paged_init_inv size psize sort cell a :
  0 < psize -> paged_init size psize sort cell = Ok a -> pool_inv (size / psize) a [].
Proof.
  intros Hp Hrun. unfold paged_init in Hrun. apply bind_Ok in Hrun as (n & _ & Hrun).
  apply Ok_inj in Hrun as <-. split; simpl; try done.
  unfold num_pages, py_range2. simpl. rewrite app_nil_r.
  by replace (size / psize + 1 - 1) with (size / psize) by lia.
Qed.

(** The locations of a list of pages. *)
Lemma page_of_slot psize pages i :
  0 < psize -> i ∈ pages ≫= page_slots psize -> i / psize ∈ pages.
Proof.
  intros Hp (pg & (o & -> & Ho)%list_elem_of_fmap & Hpg)%list_elem_of_bind.
  apply elem_of_py_range in Ho. by rewrite Z.div_add_l, (Z.div_small o), Z.add_0_r by lia.
Qed.

Lemma NoDup_slots psize pages : NoDup pages -> NoDup (pages ≫= page_slots psize).
Proof.
  intros Hnd. apply NoDup_bind; [| |done].
  - intros p1 p2 i _ _ (o1 & -> & H1)%list_elem_of_fmap (o2 & He & H2)%list_elem_of_fmap.
    apply elem_of_py_range in H1, H2. nia.
  - intros pg _. apply NoDup_fmap_2_strong; [|apply py_range_NoDup]. intros. lia.
Qed.

Lemma zlen_slots psize pages : 0 < psize -> zlen (pages ≫= page_slots psize) = zlen pages * psize.
Proof.
  intros Hp. induction pages as [|pg ps IH]; [done|]. rewrite bind_cons, zlen_app, IH, zlen_cons.
  unfold page_slots, zlen at 1. rewrite length_fmap, py_range_length. lia.
Qed.

(** After the sorting step the free list holds whatever is available. *)
Lemma sort_for_available N k a used :
  pool_inv N a used ->
  k <= zlen (free_pages (sort_for k a)) <-> k <= zlen (free_pages a) + zlen (release_pages a).
Proof.
  intros Hinv. destruct (sort_for_frame k a) as (_ & _ & _ & _ & E5).
  assert (Hlen : zlen (free_pages (sort_for k a)) + zlen (release_pages (sort_for k a))
    = zlen (free_pages a) + zlen (release_pages a)).
  { rewrite <-!zlen_app. unfold zlen. by rewrite E5. }
  rewrite <-Hlen. pose proof (zlen_nonneg (release_pages (sort_for k a))). split; [lia|]. intros Hle.
  unfold sort_for, merge_and_sort_free in *. pose proof (pi_sort _ _ _ Hinv) as Hs.
  destruct (need_sort a); simpl in *.
  - rewrite Z.gtb_ltb in *. destruct (Z.ltb_spec (zlen (free_pages a)) k); [|lia].
    rewrite Z.gtb_ltb in *. destruct (Z.ltb_spec 0 (zlen (release_pages a))); simpl in *;
      [change (zlen []) with 0 in Hle; lia|lia].
  - rewrite Hs in Hle by done. change (zlen []) with 0 in Hle. lia.
Qed.

(** C33. Pages are conserved: in every state the paged allocator reaches by
    allocations, decode steps, frees and free groups of pages its clients hold,
    the free list, the released pages and the pages held are together exactly
    the pages 1 to [size // page_size], each once.  So no page is ever handed
    to two clients or lost, and the padding page 0 is never handed out. *)
Theorem paged_conservation (lane oob : Z -> Z) (size psize : Z) (sort : bool) (cell : Z)
    (a0 a : Allocator) (used : list Z) :
  0 < psize -> paged_init size psize sort cell = Ok a0 ->
  pool_steps lane oob (a0, []) (a, used) ->
  free_pages a ++ release_pages a ++ used ≡ₚ seqZ 1 (size / psize).
Proof.
  intros Hp Hinit Hrun. eapply pi_perm, (pool_steps_inv _ _ _ (a0, []) (a, used)); [|done].
  by eapply paged_init_inv.
Qed.

(** Allocation is exact: in a reachable state, [alloc] of a page-aligned size
    succeeds exactly when [available_size] covers it; the locations returned
    are distinct, as many as asked for, and none lies on a page in use or on
    the padding page. *)
Theorem paged_alloc_exact (lane oob : Z -> Z) (size psize : Z) (sort : bool) (cell : Z)
    (a0 a : Allocator) (used : list Z) (k : Z) :
  0 < psize -> paged_init size psize sort cell = Ok a0 ->
  pool_steps lane oob (a0, []) (a, used) -> 0 <= k ->
  if k * page_size a <=? available_size a
  then exists out a', paged_alloc (k * page_size a) a = Ok (Some out, a') /\
         NoDup out /\ zlen out = k * page_size a /\
         Forall (fun i => i / page_size a ∉ used /\ 1 <= i / page_size a) out
  else exists a', paged_alloc (k * page_size a) a = Ok (None, a').
Proof.
  intros Hp Hinit Hrun Hk.
  assert (Hinv : pool_inv (size / psize) a used).
  { apply (pool_steps_inv lane oob _ (a0, []) (a, used)); [|done]. by eapply paged_init_inv. }
  pose proof (pi_psize _ _ _ Hinv) as Hps.
  unfold paged_alloc, py_floordiv, available_size.
  destruct (Z.eqb_spec (page_size a) 0); [lia|]. simpl. rewrite Z.div_mul by lia.
  destruct (sort_for_frame k a) as (E1 & _).
  pose proof (sort_for_inv _ k _ _ Hinv) as Hinv0.
  pose proof (sort_for_available _ k _ _ Hinv) as Havail. set (s := sort_for k a) in *.
  destruct (Z.leb_spec (k * page_size a) ((zlen (free_pages a) + zlen (release_pages a)) * page_size a)) as [Hle|Hgt].
  2:{ rewrite Z.gtb_ltb. rewrite (proj2 (Z.ltb_lt _ _)) by nia. eauto. }
  assert (Hkf : k <= zlen (free_pages s)) by (apply Havail; nia).
  rewrite Z.gtb_ltb, (proj2 (Z.ltb_ge _ _) Hkf). eexists _, _. split; [done|].
  rewrite E1, py_take_nonneg by done.
  pose proof (pool_inv_NoDup _ _ _ Hinv0) as Hnd. apply NoDup_app in Hnd as (HndF & Hdis & _).
  rewrite <-(take_drop (Z.to_nat k) (free_pages s)) in HndF, Hdis.
  split; [apply NoDup_slots; by apply NoDup_app in HndF as (? & _)|]. split.
  - rewrite zlen_slots by done. unfold zlen. rewrite length_take. unfold zlen in Hkf. nia.
  - apply Forall_forall. intros i Hi%page_of_slot; [|done]. split.
    + intros Hu. apply (Hdis (i / page_size a)); apply elem_of_app; [by left|by right].
    + assert (Hin : i / page_size a ∈ seqZ 1 (size / psize)).
      { rewrite <-(pi_perm _ _ _ Hinv0), <-(take_drop (Z.to_nat k) (free_pages s)).
        rewrite !elem_of_app. auto. }
      apply elem_of_seqZ in Hin. lia.
Qed.

(** Pages of four: two taken, then one given back. *)
Lemma ex_pool_run : exists a used,
  pool_steps (fun _ => 0) (fun _ => 0) (ex_paged, []) (a, used) /\ used = [1] /\ page_size a = 4.
Proof.
  eexists _, _. split; [|split; [|]].
  - eapply rtc_l; [apply (ps_alloc _ _ 8); [lia|reflexivity]|].
    eapply rtc_l; [apply (ps_free _ _ [8; 9])|apply rtc_refl]; [|reflexivity].
    intros pg Hpg. vm_compute in Hpg. vm_compute. right. done.
  - vm_compute. reflexivity.
  - vm_compute. reflexivity.
Qed.

Lemma paged_conservation_witness :
  exists a used, free_pages a ++ release_pages a ++ used ≡ₚ seqZ 1 4 /\ used = [1].
Proof.
  destruct ex_pool_run as (a & used & Hrun & Hu & _). exists a, used. split; [|done].
  apply (paged_conservation (fun _ => 0) (fun _ => 0) 16 4 true 0 ex_paged a used); [done|reflexivity|done].
Defined.

Lemma paged_alloc_exact_witness :
  exists a used, used = [1] /\
  if 2 * page_size a <=? available_size a
  then exists out a', paged_alloc (2 * page_size a) a = Ok (Some out, a') /\
         NoDup out /\ zlen out = 2 * page_size a /\
         Forall (fun i => i / page_size a ∉ used /\ 1 <= i / page_size a) out
  else exists a', paged_alloc (2 * page_size a) a = Ok (None, a').
Proof.
  destruct ex_pool_run as (a & used & Hrun & Hu & _). exists a, used. split; [done|].
  apply (paged_alloc_exact (fun _ => 0) (fun _ => 0) 16 4 true 0 ex_paged a used 2);
    [done|reflexivity|done|done].
Defined.

End MemPool.
