(* ===== verification/BlockManager.v ===== *)
(** * Block managers of the KV cache
    ([disagmoe/block_manager/block_manager.py], [csrc/engine/block_manager.cpp])

    [ReqManager] tracks the length of every running request.  [BlockManager_C] is
    the C++ pool of blocks; a failed [ASSERT] is the [RuntimeError] Python sees.
    [CPUBlockManager] combines the two; [GPUBlockManager] keeps the token
    locations in the pools of [MemPool] instead. *)

From stdpp Require Import strings.
From S2P Require Import Prelude Utils MemPool Datatypes DPScheduler.
Import Utils MemPool Datatypes.

Module BlockManager.

(** ** [ReqManager]: a dictionary, or a list indexed by the request id *)

Record ReqManager : Type := {
  max_running_reqs : Z;
  use_list : bool;
  decode_seq_lens : list (Z * Z);
  decode_seq_lens_list : list Z;
}.

Definition req_manager_init (n : Z) (l : bool) : ReqManager :=
  {| max_running_reqs := n; use_list := l; decode_seq_lens := [];
     decode_seq_lens_list := replicate (Z.to_nat n) 0 |}.

Definition with_lens (d : list (Z * Z)) (l : list Z) (r : ReqManager) : ReqManager :=
  {| max_running_reqs := max_running_reqs r; use_list := use_list r;
     decode_seq_lens := d; decode_seq_lens_list := l |}.

Definition get_decode_seq_lens (r : ReqManager) (req_id : Z) : res Z :=
  if use_list r then py_get (decode_seq_lens_list r) req_id
  else of_option KeyError (dget (decode_seq_lens r) req_id).

Definition update_decode_seq_lens (req_id seq_len : Z) (r : ReqManager) : res ReqManager :=
  if use_list r
  then l ← py_set (decode_seq_lens_list r) req_id seq_len; Ok (with_lens (decode_seq_lens r) l r)
  else Ok (with_lens (dset (decode_seq_lens r) req_id seq_len) (decode_seq_lens_list r) r).

Definition get_active_req_ids (r : ReqManager) : res (list Z) :=
  if use_list r
  then py_for (fun acc i => n ← py_get (decode_seq_lens_list r) i;
                            Ok (if n >? 0 then acc ++ [i] else acc))
              (py_range (max_running_reqs r)) []
  else Ok (dkeys (decode_seq_lens r)).

Definition release_reqs (req_ids : list Z) (r : ReqManager) : res ReqManager :=
  if use_list r
  then l ← py_for (fun l id => py_set l id 0) req_ids (decode_seq_lens_list r);
       Ok (with_lens (decode_seq_lens r) l r)
  else d ← py_for (fun d id => _ ← of_option KeyError (dget d id); Ok (ddel d id))
             req_ids (decode_seq_lens r);
       Ok (with_lens d (decode_seq_lens_list r) r).

Definition req_manager_reset (r : ReqManager) : ReqManager :=
  with_lens [] (replicate (Z.to_nat (max_running_reqs r)) 0) r.

(** ** [BlockManager] of the C++ library *)

Record BlockManager_C : Type := {
  num_blocks_ : Z;
  reserved_blocks_ : Z;
  block_size_ : Z;
  free_blocks_ : list Z;
  block_tables_ : gmap Z (list Z);
}.

Definition with_blocks (f : list Z) (t : gmap Z (list Z)) (b : BlockManager_C) : BlockManager_C :=
  {| num_blocks_ := num_blocks_ b; reserved_blocks_ := reserved_blocks_ b;
     block_size_ := block_size_ b; free_blocks_ := f; block_tables_ := t |}.

Definition ASSERT (b : bool) : res unit := py_check b RuntimeError.

Definition bm_init (bs nb reserved : Z) : BlockManager_C :=
  {| num_blocks_ := nb; reserved_blocks_ := reserved; block_size_ := bs;
     free_blocks_ := py_range (nb + reserved); block_tables_ := ∅ |}.

Definition num_free_blocks (b : BlockManager_C) : Z := zlen (free_blocks_ b).

Definition get_one_free_block (b : BlockManager_C) : res (Z * BlockManager_C) :=
  match free_blocks_ b with
  | [] => Raise RuntimeError
  | x :: f => Ok (x, with_blocks f (block_tables_ b) b)
  end.

(** [n] calls of [get_one_free_block]. *)
Fixpoint get_blocks (n : nat) (b : BlockManager_C) : res (list Z * BlockManager_C) :=
  match n with
  | O => Ok ([], b)
  | S n =>
      '(x, b) ← get_one_free_block b;
      '(xs, b) ← get_blocks n b;
      Ok (x :: xs, b)
  end.

Definition has_seq_block_list (b : BlockManager_C) (id : Z) : bool :=
  bool_decide (is_Some (block_tables_ b !! id)).

Definition release (id : Z) (b : BlockManager_C) : res BlockManager_C :=
  l ← of_option RuntimeError (block_tables_ b !! id);
  Ok (with_blocks (free_blocks_ b ++ l) (delete id (block_tables_ b)) b).

Definition batch_release (ids : list Z) (b : BlockManager_C) : res BlockManager_C :=
  py_for (fun b id => release id b) ids b.

Definition can_allocate (seq_len : Z) (b : BlockManager_C) : bool :=
  num_free_blocks b >=? Z.quot (seq_len - 1) (block_size_ b) + 1 + reserved_blocks_ b.

Definition allocate (id seq_len : Z) (b : BlockManager_C) : res BlockManager_C :=
  _ ← ASSERT (negb (has_seq_block_list b id));
  let needed := if seq_len >? 0 then Z.quot (seq_len - 1) (block_size_ b) + 1 else 0 in
  _ ← ASSERT (num_free_blocks b >=? needed + reserved_blocks_ b);
  '(l, b) ← get_blocks (Z.to_nat needed) b;
  Ok (with_blocks (free_blocks_ b) (<[id := l]> (block_tables_ b)) b).

Definition append_block (id : Z) (b : BlockManager_C) : res BlockManager_C :=
  _ ← ASSERT (num_free_blocks b >? 0);
  '(x, b) ← get_one_free_block b;
  l ← of_option RuntimeError (block_tables_ b !! id);
  Ok (with_blocks (free_blocks_ b) (<[id := l ++ [x]]> (block_tables_ b)) b).

Definition append_tokens (id context_len num_tokens : Z) (b : BlockManager_C) : res BlockManager_C :=
  _ ← ASSERT (num_tokens >=? 1);
  l ← of_option RuntimeError (block_tables_ b !! id);
  _ ← ASSERT (context_len >=? 0);
  let remain := block_size_ b - Z.rem context_len (block_size_ b) in
  let remain := if remain =? block_size_ b then 0 else remain in
  if num_tokens >? remain
  then
    let to_add := Z.quot (num_tokens - remain - 1) (block_size_ b) + 1 in
    _ ← ASSERT (num_free_blocks b >? to_add);
    '(xs, b) ← get_blocks (Z.to_nat to_add) b;
    Ok (with_blocks (free_blocks_ b) (<[id := l ++ xs]> (block_tables_ b)) b)
  else Ok b.

(** [meta->num_tokens()] is [shape[0]]; an out-of-range vector access, which is
    undefined in C++, is an error here. *)
Definition meta_num_tokens (m : BatchMetadata) : res Z := of_option RuntimeError (head (shape m)).
Definition vec_at {A} (l : list A) (i : Z) : res A :=
  _ ← ASSERT (0 <=? i); of_option RuntimeError (l !! Z.to_nat i).

Definition bm_update_block_table (m : BatchMetadata) (context_lens : list Z) (b : BlockManager_C)
  : res BlockManager_C :=
  p ← of_option RuntimeError (num_prefill_tokens m);
  _ ← of_option RuntimeError (num_decode_tokens m);
  b ← py_for (fun b i =>
          id ← vec_at (req_ids m) i;
          if has_seq_block_list b id then Ok b
          else len ← vec_at (init_prefill_lens m) i; allocate id len b)
        (py_range p) b;
  n ← meta_num_tokens m;
  py_for (fun b i =>
      id ← vec_at (req_ids m) i;
      _ ← ASSERT (has_seq_block_list b id);
      c ← vec_at context_lens i;
      append_tokens id c 1 b) (py_range n) b.

(** The block lists of a batch, padded with -1 to the longest. *)
Definition pad_rows (lists : list (list Z)) : list (list Z) * Z :=
  let m := foldr Nat.max 0%nat (length <$> lists) in
  ((fun l => l ++ replicate (m - length l) (-1)) <$> lists, Z.of_nat m).

Definition batch_lists (m : BatchMetadata) (n : Z) (b : BlockManager_C) : res (list (list Z)) :=
  py_map (fun i => id ← vec_at (req_ids m) i; of_option RuntimeError (block_tables_ b !! id))
    (py_range n).

(** The slot of the last token of request [i], read through the flat table. *)
Definition slot_of (bs m : Z) (flat decode_lens : list Z) (i : Z) : res Z :=
  len ← vec_at decode_lens i;
  let last_idx := len - 1 in
  x ← vec_at flat (i * m + Z.quot last_idx bs);
  Ok (x * bs + Z.rem last_idx bs).

(** [prepare_block_table_gdr]: the flat table, the slots and the row length. *)
Definition prepare_block_table_gdr (md : BatchMetadata) (lens : list Z) (b : BlockManager_C)
  : res (list Z * list Z * Z) :=
  n ← meta_num_tokens md;
  lists ← batch_lists md n b;
  let '(rows, m) := pad_rows lists in
  let flat := mjoin rows in
  slots ← py_map (slot_of (block_size_ b) m flat lens) (py_range n);
  Ok (flat, slots, m).

(** [prepare_block_table]: one vector, the flat table followed by the slots. *)
Definition prepare_block_table (md : BatchMetadata) (lens : list Z) (b : BlockManager_C)
  : res (list Z) :=
  n ← meta_num_tokens md;
  lists ← batch_lists md n b;
  let '(rows, m) := pad_rows lists in
  let flat := mjoin rows in
  py_for (fun v i => s ← slot_of (block_size_ b) m v lens i; Ok (<[Z.to_nat (n * m + i) := s]> v))
    (py_range n) (flat ++ replicate (Z.to_nat n) (-1)).

(** [prepare_seq_info_gdr]: lengths, context lengths and start offsets. *)
Definition prepare_seq_info_gdr (md : BatchMetadata) (lens : list Z)
  : res (list Z * list Z * list Z) :=
  n ← meta_num_tokens md;
  ls ← py_map (vec_at lens) (py_range n);
  starts ← py_for (fun acc l => x ← py_get acc (-1); Ok (acc ++ [x + l])) ls [0];
  Ok (ls, (fun l => l - 1) <$> ls, starts).

(** [prepare_seq_info]: the same three in one vector; [decode_seq_lens] is copied
    whole. *)
Definition prepare_seq_info (md : BatchMetadata) (lens : list Z) : res (list Z) :=
  '(ls, ctx, starts) ← prepare_seq_info_gdr md lens;
  _ ← ASSERT (zlen lens =? zlen ls);
  Ok (lens ++ ctx ++ starts).

(** ** [CPUBlockManager] *)

(** The tensors of [BatchTensorBuffer]: fixed device buffers. *)
Record BatchTensorBuffer : Type := {
  buf_block_table : list Z;
  buf_slot_mapping : list Z;
  buf_seq_lens : list Z;
  buf_context_lens : list Z;
  buf_seq_start_loc : list Z;
  buf_query_start_loc : list Z;
}.

Definition buffer_init (max_bs max_pages : Z) (z : Z) : BatchTensorBuffer :=
  let alloc n := replicate (Z.to_nat n) z in
  {| buf_block_table := alloc (max_bs * max_pages); buf_slot_mapping := alloc max_bs;
     buf_seq_lens := alloc max_bs; buf_context_lens := alloc max_bs;
     buf_seq_start_loc := alloc (max_bs + 1); buf_query_start_loc := py_range (max_bs + 1) |}.

(** [gdr.copy_from_host]: the first words of the buffer; more than it holds is an
    error. *)
Definition copy_from_host (buf data : list Z) : res (list Z) :=
  _ ← ASSERT (zlen data <=? zlen buf); Ok (data ++ drop (length data) buf).

(** [t.view(n, -1)] *)
Definition view_rows (n : Z) (flat : list Z) : res (list (list Z)) :=
  m ← py_floordiv (zlen flat) n;
  _ ← py_check (m * n =? zlen flat) RuntimeError;
  Ok ((fun i => py_take m (py_drop (i * m) flat)) <$> py_range n).

Record FlashAttentionMetadata : Type := {
  fa_num_prefills : Z;
  fa_num_prefill_tokens : Z;
  fa_num_decode_tokens : Z;
  fa_max_query_len : Z;
  fa_max_prefill_seq_len : Z;
  fa_max_decode_seq_len : Z;
  fa_max_decode_query_len : Z;
  fa_seq_lens : list Z;
  fa_block_tables : list (list Z);
  fa_slot_mapping : list Z;
  fa_seq_lens_tensor : list Z;
  fa_context_lens : list Z;
  fa_seq_start_loc : list Z;
  fa_query_start_loc : list Z;
  fa_enable_kv_scales : bool;
}.

Record CPUBlockManager : Type := {
  cpu_layer_ids : list Z;
  _block_mgr : BlockManager_C;
  use_gdr_copy : bool;
  use_rebind : bool;
  req_manager : ReqManager;
  tensor_buffer : BatchTensorBuffer;
  tensor_buffer_alt : BatchTensorBuffer;
}.

Definition with_mgrs (b : BlockManager_C) (r : ReqManager) (c : CPUBlockManager) : CPUBlockManager :=
  {| cpu_layer_ids := cpu_layer_ids c; _block_mgr := b; use_gdr_copy := use_gdr_copy c;
     use_rebind := use_rebind c; req_manager := r; tensor_buffer := tensor_buffer c;
     tensor_buffer_alt := tensor_buffer_alt c |}.
Definition with_buffers (x y : BatchTensorBuffer) (c : CPUBlockManager) : CPUBlockManager :=
  {| cpu_layer_ids := cpu_layer_ids c; _block_mgr := _block_mgr c; use_gdr_copy := use_gdr_copy c;
     use_rebind := use_rebind c; req_manager := req_manager c; tensor_buffer := x;
     tensor_buffer_alt := y |}.

Definition cpu_release_seqs (ids : list Z) (c : CPUBlockManager) : res CPUBlockManager :=
  b ← batch_release ids (_block_mgr c);
  r ← release_reqs ids (req_manager c);
  Ok (with_mgrs b r c).

Definition cpu_reset_state (c : CPUBlockManager) : res CPUBlockManager :=
  ids ← get_active_req_ids (req_manager c);
  c ← cpu_release_seqs ids c;
  Ok (with_mgrs (_block_mgr c) (req_manager_reset (req_manager c)) c).

Definition with_seq_lens {T} (l : list Z) (idx : option (list Z)) (b : AttentionScheduleBatch T)
  : AttentionScheduleBatch T :=
  {| sb_shape := sb_shape b; sb_dtype := sb_dtype b; sb_layer_id := sb_layer_id b;
     sb_req_ids := sb_req_ids b; sb_init_prefill_lens := sb_init_prefill_lens b;
     sb_num_prefill_seqs := sb_num_prefill_seqs b;
     sb_num_prefill_tokens := sb_num_prefill_tokens b;
     sb_num_decode_tokens := sb_num_decode_tokens b; sb_data := sb_data b;
     sb_req_indices := idx; sb_seq_lens := Some l |}.

Definition cpu_update_block_table {T} (m : BatchMetadata) (batch : AttentionScheduleBatch T)
    (c : CPUBlockManager) : res (CPUBlockManager * AttentionScheduleBatch T) :=
  let init_req_ids := py_take (sb_num_prefill_seqs batch) (sb_req_ids batch) in
  let decode_req_ids := sb_req_ids batch in
  first ← py_get (cpu_layer_ids c) 0;
  if sb_layer_id batch =? first
  then
    r ← py_for (fun r '(i, id) => len ← py_get (sb_init_prefill_lens batch) i;
                                  update_decode_seq_lens id len r)
          (zip (py_range (zlen init_req_ids)) init_req_ids) (req_manager c);
    lens ← py_map (get_decode_seq_lens r) decode_req_ids;
    b ← bm_update_block_table m lens (_block_mgr c);
    '(lens, r) ← py_for (fun '(lens, r) '(i, id) =>
                     x ← py_get lens i;
                     lens ← py_set lens i (x + 1);
                     r ← update_decode_seq_lens id (x + 1) r;
                     Ok (lens, r))
                   (zip (py_range (zlen decode_req_ids)) decode_req_ids) (lens, r);
    Ok (with_mgrs b r c, with_seq_lens lens (sb_req_indices batch) batch)
  else
    lens ← py_map (get_decode_seq_lens (req_manager c)) decode_req_ids;
    Ok (c, with_seq_lens lens (sb_req_indices batch) batch).

Definition py_max_or0 (l : list Z) : Z := match l with [] => 0 | x :: l => foldl Z.max x l end.

(** [pack_flash_attn_metadata_opt]: into the buffers, then views of them. *)
Definition pack_opt {T} (m : BatchMetadata) (batch : AttentionScheduleBatch T) (lens : list Z)
    (c : CPUBlockManager) : res (FlashAttentionMetadata * CPUBlockManager) :=
  let n := sb_num_tokens batch in
  let buf := tensor_buffer c in
  '(flat, slots, pages) ← prepare_block_table_gdr m lens (_block_mgr c);
  bt ← copy_from_host (buf_block_table buf) flat;
  sm ← copy_from_host (buf_slot_mapping buf) slots;
  '(ls, ctx, starts) ← prepare_seq_info_gdr m lens;
  sl ← copy_from_host (buf_seq_lens buf) ls;
  cl ← copy_from_host (buf_context_lens buf) ctx;
  st ← copy_from_host (buf_seq_start_loc buf) starts;
  let buf := {| buf_block_table := bt; buf_slot_mapping := sm; buf_seq_lens := sl;
                buf_context_lens := cl; buf_seq_start_loc := st;
                buf_query_start_loc := buf_query_start_loc buf |} in
  Ok ({| fa_num_prefills := 0; fa_num_prefill_tokens := 0; fa_num_decode_tokens := n;
         fa_max_query_len := 0; fa_max_prefill_seq_len := 0;
         fa_max_decode_seq_len := py_max_or0 lens; fa_max_decode_query_len := 1;
         fa_seq_lens := lens;
         fa_block_tables := (fun i => py_take pages (py_drop (i * pages) bt)) <$> py_range n;
         fa_slot_mapping := py_take n sm; fa_seq_lens_tensor := py_take n sl;
         fa_context_lens := py_take n cl; fa_seq_start_loc := py_take (n + 1) st;
         fa_query_start_loc := py_take (n + 1) (buf_query_start_loc buf);
         fa_enable_kv_scales := true |}, with_buffers buf (tensor_buffer_alt c) c).

(** [pack_flash_attn_metadata_naive] without GDR copies: fresh tensors. *)
Definition pack_naive {T} (m : BatchMetadata) (batch : AttentionScheduleBatch T) (lens : list Z)
    (c : CPUBlockManager) : res (FlashAttentionMetadata * CPUBlockManager) :=
  let n := sb_num_tokens batch in
  let k := sb_num_prefill_seqs batch + sb_num_decode_tokens batch in
  v ← prepare_block_table m lens (_block_mgr c);
  let slots := py_drop (- n) v in
  rows ← view_rows n (py_take (- n) v);
  infos ← prepare_seq_info m lens;
  Ok ({| fa_num_prefills := 0; fa_num_prefill_tokens := 0; fa_num_decode_tokens := n;
         fa_max_query_len := 0; fa_max_prefill_seq_len := 0;
         fa_max_decode_seq_len := py_max_or0 lens; fa_max_decode_query_len := 1;
         fa_seq_lens := lens; fa_block_tables := rows; fa_slot_mapping := slots;
         fa_seq_lens_tensor := py_take k infos;
         fa_context_lens := py_take k (py_drop k infos);
         fa_seq_start_loc := py_drop (k + k) infos;
         fa_query_start_loc := py_take (n + 1) (buf_query_start_loc (tensor_buffer c));
         fa_enable_kv_scales := true |}, c).

(** [pack_flash_attn_metadata]: the buffers are swapped first, so that the views
    handed out for the previous batch stay intact. *)
Definition cpu_pack {T} (m : BatchMetadata) (batch : AttentionScheduleBatch T) (c : CPUBlockManager)
  : res (FlashAttentionMetadata * CPUBlockManager) :=
  let c := with_buffers (tensor_buffer_alt c) (tensor_buffer c) c in
  lens ← of_option TypeError (sb_seq_lens batch);
  if use_rebind c && use_gdr_copy c then pack_opt m batch lens c else pack_naive m batch lens c.

(** ** [GPUBlockManager] *)

Record GPUBlockManager : Type := {
  req_to_indice : gmap Z Z;
  g_decode_seq_lens : gmap Z Z;
  req_seq_lens : list Z;
  req_to_token_pool : ReqToTokenPool;
  token_allocator : Allocator;
}.

(** [req_seq_lens] starts uninitialised; only single-token blocks are supported. *)
Definition gpu_init (block_size num_gpu_blocks max_reqs max_seq_len garbage : Z) : res GPUBlockManager :=
  _ ← py_assert (block_size =? 1);
  Ok {| req_to_indice := ∅; g_decode_seq_lens := ∅;
        req_seq_lens := replicate (Z.to_nat max_reqs) garbage;
        req_to_token_pool := req_pool_init max_reqs max_seq_len;
        token_allocator := tok_init num_gpu_blocks false |}.

Definition gpu_reset_state (g : GPUBlockManager) : GPUBlockManager :=
  {| req_to_indice := ∅; g_decode_seq_lens := ∅;
     req_seq_lens := replicate (length (req_seq_lens g)) 0;
     req_to_token_pool := rp_clear (req_to_token_pool g);
     token_allocator := tok_clear (token_allocator g) |}.

Definition gpu_release_seqs (ids : list Z) (g : GPUBlockManager) : res GPUBlockManager :=
  let live := filter (fun i => is_Some (g_decode_seq_lens g !! i)) ids in
  idxs ← py_map (fun i => of_option TypeError (req_to_indice g !! i)) live;
  let pool := rp_free idxs (req_to_token_pool g) in
  let al := free_group_begin (token_allocator g) in
  '(al, lens) ← py_for (fun '(al, lens) '(id, idx) =>
                    len ← of_option KeyError (lens !! id);
                    row ← py_get (req_to_token pool) idx;
                    Ok (tok_free (py_take len row) al, delete id lens))
                  (zip ids idxs) (al, g_decode_seq_lens g);
  Ok {| req_to_indice := req_to_indice g; g_decode_seq_lens := lens;
        req_seq_lens := req_seq_lens g; req_to_token_pool := pool;
        token_allocator := free_group_end tok_free al |}.

(** [t[idx] = values], element-wise. *)
Definition scatter (t idx values : list Z) : res (list Z) :=
  py_for (fun t '(i, v) => py_set t i v) (zip idx values) t.

Definition gpu_update_block_table {T} (batch : AttentionScheduleBatch T) (g : GPUBlockManager)
  : res (GPUBlockManager * AttentionScheduleBatch T) :=
  let init_req_ids := py_take (sb_num_prefill_seqs batch) (sb_req_ids batch) in
  let running_seq_ids := py_drop (sb_num_prefill_seqs batch) (sb_req_ids batch) in
  let ids := sb_req_ids batch in
  if sb_layer_id batch =? 0
  then
    let '(slots, pool) := rp_alloc (sb_num_prefill_seqs batch) (req_to_token_pool g) in
    news ← of_option TypeError slots;
    '(r2i, pool, al, lens) ←
      py_for (fun '(r2i, pool, al, lens) '(i, id) =>
          idx ← py_get news i;
          n ← py_get (sb_init_prefill_lens batch) i;
          let '(locs, al) := tok_alloc n al in
          locs ← of_option TypeError locs;
          pool ← write_prefix idx n locs pool;
          Ok (<[id := idx]> r2i, pool, al, <[id := n]> lens))
        (zip (py_range (zlen init_req_ids)) init_req_ids)
        (req_to_indice g, pool, token_allocator g, g_decode_seq_lens g);
    running ← py_map (fun id => of_option TypeError (r2i !! id)) running_seq_ids;
    let batch_req_indices := running ++ news in
    seq_lens ← py_map (fun id => of_option TypeError (lens !! id)) ids;
    lens' ← py_for (fun lens id => x ← of_option KeyError (lens !! id); Ok (<[id := x + 1]> lens))
              ids lens;
    let '(locs, al) := tok_alloc (sb_num_tokens batch) al in
    locs ← of_option AttributeError locs;
    pool ← write_loc batch_req_indices seq_lens locs pool;
    rsl ← scatter (req_seq_lens g) batch_req_indices ((fun x => x + 1) <$> seq_lens);
    Ok ({| req_to_indice := r2i; g_decode_seq_lens := lens'; req_seq_lens := rsl;
           req_to_token_pool := pool; token_allocator := al |},
        with_seq_lens ((fun x => x + 1) <$> seq_lens) (Some batch_req_indices) batch)
  else
    seq_lens ← py_map (fun id => of_option TypeError (g_decode_seq_lens g !! id)) ids;
    idxs ← py_map (fun id => of_option TypeError (req_to_indice g !! id)) ids;
    Ok (g, with_seq_lens seq_lens (Some idxs) batch).

(** [pack_flash_attn_metadata] with a real cache: [start_loc] is the cumulative-sum
    buffer, [query_locs] the arange buffer of the base class. *)
Definition gpu_pack {T} (batch : AttentionScheduleBatch T) (query_locs : list Z) (g : GPUBlockManager)
  : res FlashAttentionMetadata :=
  let n := sb_num_tokens batch in
  lens ← of_option TypeError (sb_seq_lens batch);
  idxs ← of_option TypeError (sb_req_indices batch);
  seq_lens_cuda ← (if sb_layer_id batch =? 0 then Ok lens
                   else py_map (py_get (req_seq_lens g)) idxs);
  let ctx := (fun l => l - 1) <$> seq_lens_cuda in
  starts ← py_for (fun acc l => x ← py_get acc (-1); Ok (acc ++ [x + l])) seq_lens_cuda [0];
  tables ← get_block_table (req_to_token_pool g) idxs (py_max_or0 lens);
  slots ← py_map (fun '(r, c) => table_get (req_to_token (req_to_token_pool g)) r c) (zip idxs ctx);
  Ok {| fa_num_prefills := 0; fa_num_prefill_tokens := 0; fa_num_decode_tokens := n;
        fa_max_query_len := 1; fa_max_prefill_seq_len := 0;
        fa_max_decode_seq_len := py_max_or0 lens; fa_max_decode_query_len := 1;
        fa_seq_lens := lens; fa_block_tables := tables; fa_slot_mapping := slots;
        fa_seq_lens_tensor := seq_lens_cuda; fa_context_lens := ctx;
        fa_seq_start_loc := starts; fa_query_start_loc := py_take (n + 1) query_locs;
        fa_enable_kv_scales := false |}.

(** ** Conservation of blocks *)

(** The blocks the requests hold. *)
Definition held (b : BlockManager_C) : list Z := mjoin (map_to_list (block_tables_ b)).*2.

(** Every block is free or in the list of one request. *)
Definition conserved (b : BlockManager_C) : Prop :=
  free_blocks_ b ++ held b ≡ₚ py_range (num_blocks_ b + reserved_blocks_ b).

(** Blocks for [n] tokens. *)
Definition blocks_for (bs n : Z) : Z := (n + bs - 1) / bs.

Lemma mjoin_perm {A} (l k : list (list A)) : l ≡ₚ k -> mjoin l ≡ₚ mjoin k.
Proof.
  induction 1 as [|x l k _ IH|x y l|l k m _ IH1 _ IH2]; simpl; [done|by rewrite IH| |by etrans].
  rewrite !app_assoc. apply Permutation_app_tail, Permutation_app_comm.
Qed.

Lemma held_insert (t : gmap Z (list Z)) id l :
  t !! id = None -> mjoin (map_to_list (<[id := l]> t)).*2 ≡ₚ l ++ mjoin (map_to_list t).*2.
Proof.
  intros Hn. rewrite (mjoin_perm _ ((id, l) :: map_to_list t).*2); [done|].
  apply fmap_Permutation. by apply map_to_list_insert.
Qed.

Lemma held_delete (t : gmap Z (list Z)) id l :
  t !! id = Some l -> mjoin (map_to_list t).*2 ≡ₚ l ++ mjoin (map_to_list (delete id t)).*2.
Proof.
  intros Hl. rewrite <-(insert_delete_id t id l Hl) at 1. apply held_insert, lookup_delete_eq.
Qed.

Lemma held_update (t : gmap Z (list Z)) id l xs :
  t !! id = Some l ->
  mjoin (map_to_list (<[id := l ++ xs]> t)).*2 ≡ₚ xs ++ mjoin (map_to_list t).*2.
Proof.
  intros Hl. rewrite <-insert_delete_eq, held_insert by apply lookup_delete_eq.
  rewrite (held_delete t id l Hl). solve_Permutation.
Qed.

Lemma get_blocks_eq n b :
  get_blocks n b =
    if decide (n <= length (free_blocks_ b))%nat
    then Ok (take n (free_blocks_ b), with_blocks (drop n (free_blocks_ b)) (block_tables_ b) b)
    else Raise RuntimeError.
Proof.
  revert b; induction n as [|n IH]; intros b; cbn [get_blocks].
  { rewrite decide_True by lia. by destruct b. }
  unfold get_one_free_block. destruct (free_blocks_ b) as [|x f] eqn:Hf; cbn [length mbind res_bind].
  { by rewrite decide_False by lia. }
  rewrite IH. cbn [free_blocks_ with_blocks]. destruct (decide (n <= length f)%nat).
  - rewrite decide_True by lia. done.
  - rewrite decide_False by lia. done.
Qed.

Lemma quot_blocks bs len :
  0 < bs -> 0 <= len ->
  (if len >? 0 then Z.quot (len - 1) bs + 1 else 0) = blocks_for bs len.
Proof.
  intros Hbs Hl. unfold blocks_for. rewrite Z.gtb_ltb. destruct (Z.ltb_spec 0 len).
  - rewrite Z.quot_div_nonneg by lia. replace (len + bs - 1) with (len - 1 + 1 * bs) by lia.
    by rewrite Z.div_add by lia.
  - assert (len = 0) as -> by lia. rewrite Z.div_small by lia. done.
Qed.

Lemma blocks_for_nonneg bs n : 0 < bs -> 0 <= n -> 0 <= blocks_for bs n.
Proof. intros. apply Z.div_pos; lia. Qed.

(** [allocate] moves the first blocks of the queue to a new request. *)
Lemma allocate_Ok id len b b' :
  0 < block_size_ b -> 0 <= len -> allocate id len b = Ok b' ->
  exists l rest, block_tables_ b !! id = None /\ free_blocks_ b = l ++ rest /\
    zlen l = blocks_for (block_size_ b) len /\
    b' = with_blocks rest (<[id := l]> (block_tables_ b)) b.
Proof.
  intros Hbs Hlen Hrun. unfold allocate in Hrun. rewrite quot_blocks in Hrun by done.
  pose proof (blocks_for_nonneg _ _ Hbs Hlen) as Hnn. set (k := blocks_for _ _) in *.
  apply bind_Ok in Hrun as ([] & Hnew & Hrun). apply bind_Ok in Hrun as ([] & _ & Hrun).
  rewrite get_blocks_eq in Hrun. case_decide as Hle; [|done]. simpl in Hrun.
  apply Ok_inj in Hrun as <-. exists (take (Z.to_nat k) (free_blocks_ b)), (drop (Z.to_nat k) (free_blocks_ b)).
  split; [|split; [by rewrite take_drop|split; [|done]]].
  - apply py_check_Ok in Hnew. unfold has_seq_block_list in Hnew.
    destruct (block_tables_ b !! id) eqn:E; [|done]. by rewrite bool_decide_true in Hnew by eauto.
  - unfold zlen. rewrite length_take. lia.
Qed.

(** Does the next token of a request with [ctx] tokens need a block? *)
Definition needs_block (bs ctx : Z) : bool := ctx mod bs =? 0.

Lemma append_one_eq id ctx b :
  0 < block_size_ b -> 0 <= ctx ->
  append_tokens id ctx 1 b =
    (l ← of_option RuntimeError (block_tables_ b !! id);
     if needs_block (block_size_ b) ctx
     then _ ← ASSERT (num_free_blocks b >? 1);
          '(xs, b) ← get_blocks 1 b;
          Ok (with_blocks (free_blocks_ b) (<[id := l ++ xs]> (block_tables_ b)) b)
     else Ok b).
Proof.
  intros Hbs Hctx. unfold append_tokens, needs_block. simpl.
  destruct (block_tables_ b !! id) as [l|]; simpl; [|done].
  rewrite Z.geb_leb, (proj2 (Z.leb_le _ _) Hctx). simpl. rewrite Z.rem_mod_nonneg by lia.
  pose proof (Z.mod_pos_bound ctx (block_size_ b) Hbs) as Hb.
  set (bs := block_size_ b) in *. set (r := ctx mod bs) in *.
  destruct (Z.eqb_spec (bs - r) bs) as [Hr|Hr].
  - assert (r = 0) as -> by lia. simpl.
    replace (Z.quot 0 bs) with 0 by (symmetry; apply Z.quot_0_l; lia). done.
  - rewrite (proj2 (Z.eqb_neq r 0)) by lia. rewrite Z.gtb_ltb, (proj2 (Z.ltb_ge _ _)) by lia. done.
Qed.

(** [append_tokens] of one token moves at most one block, and keeps one back. *)
Lemma append_one_Ok id ctx b b' :
  0 < block_size_ b -> 0 <= ctx -> append_tokens id ctx 1 b = Ok b' ->
  exists l xs rest, block_tables_ b !! id = Some l /\ free_blocks_ b = xs ++ rest /\
    zlen xs = (if needs_block (block_size_ b) ctx then 1 else 0) /\
    b' = with_blocks rest (<[id := l ++ xs]> (block_tables_ b)) b.
Proof.
  intros Hbs Hctx Hrun. rewrite append_one_eq in Hrun by done.
  apply bind_Ok in Hrun as (l & Hl & Hrun). apply of_option_Ok in Hl.
  destruct (needs_block (block_size_ b) ctx).
  - apply bind_Ok in Hrun as ([] & _ & Hrun). rewrite get_blocks_eq in Hrun.
    case_decide as Hle; [|done]. cbn [mbind res_bind] in Hrun. apply Ok_inj in Hrun as <-.
    exists l, (take 1 (free_blocks_ b)), (drop 1 (free_blocks_ b)).
    split; [done|]. split; [by rewrite take_drop|]. split; [|done].
    unfold zlen. rewrite length_take. lia.
  - apply Ok_inj in Hrun as <-. exists l, [], (free_blocks_ b). split; [done|]. split; [done|].
    split; [done|]. rewrite app_nil_r, insert_id by done. by destruct b.
Qed.

(** C39. A request gives back what it took.  Whatever tokens a request appends after
    its blocks were allocated, releasing it restores the block tables, and the free
    list is the old one with the blocks it used moved, in order, to the end. *)
Theorem allocate_release_roundtrip (id len : Z) (ctxs : list Z) (b b1 b2 : BlockManager_C) :
  0 < block_size_ b -> 0 <= len -> Forall (fun ctx => 0 <= ctx) ctxs ->
  allocate id len b = Ok b1 ->
  py_for (fun b ctx => append_tokens id ctx 1 b) ctxs b1 = Ok b2 ->
  exists used rest, free_blocks_ b = used ++ rest /\
    release id b2 = Ok (with_blocks (rest ++ used) (block_tables_ b) b).
Proof.
  intros Hbs Hlen Hctxs Ha Hf.
  destruct (allocate_Ok _ _ _ _ Hbs Hlen Ha) as (l & rest & Hnew & Hfree & _ & ->).
  eapply (py_for_inv (fun _ b' => exists l rest, free_blocks_ b = l ++ rest /\
    b' = with_blocks rest (<[id := l]> (block_tables_ b)) b)) in Hf; [|by eauto|].
  - destruct Hf as (l' & rest' & Hfree' & ->). exists l', rest'. split; [done|].
    unfold release. cbn [with_blocks block_tables_ free_blocks_]. rewrite lookup_insert_eq. cbn [of_option mbind res_bind].
    by rewrite delete_insert_id.
  - intros pre ctx post x y Heq (l' & rest' & Hfree' & ->) Hy.
    apply append_one_Ok in Hy as (l2 & xs & rest2 & Hl2 & Hr2 & _ & ->); [|done|].
    + cbn [with_blocks block_tables_ free_blocks_] in *. rewrite lookup_insert_eq in Hl2. injection Hl2 as <-.
      exists (l' ++ xs), rest2. split; [by rewrite Hfree', Hr2, app_assoc|].
      unfold with_blocks. cbn. by rewrite insert_insert_eq.
    + rewrite Heq in Hctxs. apply Forall_app in Hctxs as [_ Hc]. by apply Forall_cons in Hc as [? _].
Qed.

Lemma blocks_for_succ bs n :
  0 < bs -> 0 <= n ->
  blocks_for bs (n + 1) = blocks_for bs n + (if needs_block bs n then 1 else 0).
Proof.
  intros Hbs Hn. unfold blocks_for, needs_block.
  pose proof (Z.div_mod n bs ltac:(lia)) as Hd. pose proof (Z.mod_pos_bound n bs Hbs) as Hm.
  set (q := n / bs) in *. set (r := n mod bs) in *.
  replace (n + 1 + bs - 1) with (r + (q + 1) * bs) by lia.
  rewrite Z.div_add, (Z.div_small r) by lia. destruct (Z.eqb_spec r 0) as [Hr|Hr].
  - replace (n + bs - 1) with ((bs - 1) + q * bs) by lia.
    rewrite Z.div_add, (Z.div_small (bs - 1)) by lia. lia.
  - replace (n + bs - 1) with ((r - 1) + (q + 1) * bs) by lia.
    rewrite Z.div_add, (Z.div_small (r - 1)) by lia. lia.
Qed.

Lemma conserved_allocate id len b b' :
  0 < block_size_ b -> 0 <= len -> conserved b -> allocate id len b = Ok b' -> conserved b'.
Proof.
  intros Hbs Hlen Hc (l & rest & Hn & Hf & _ & ->)%allocate_Ok; [|done..].
  unfold conserved, held in *. simpl. rewrite held_insert, <-Hc, Hf by done. solve_Permutation.
Qed.

Lemma conserved_append id ctx b b' :
  0 < block_size_ b -> 0 <= ctx -> conserved b -> append_tokens id ctx 1 b = Ok b' -> conserved b'.
Proof.
  intros Hbs Hctx Hc (l & xs & rest & Hl & Hf & _ & ->)%append_one_Ok; [|done..].
  unfold conserved, held in *. simpl. rewrite held_update, <-Hc, Hf by done. solve_Permutation.
Qed.

Lemma conserved_release id b b' : conserved b -> release id b = Ok b' -> conserved b'.
Proof.
  intros Hc Hrun. unfold release in Hrun. apply bind_Ok in Hrun as (l & Hl%of_option_Ok & Hrun).
  apply Ok_inj in Hrun as <-. unfold conserved, held in *. simpl.
  rewrite <-Hc, (held_delete _ _ _ Hl). solve_Permutation.
Qed.

(** Two requests never share a block, and a list repeats none. *)
Lemma conserved_lists b id l :
  conserved b -> block_tables_ b !! id = Some l ->
  NoDup l /\ forall id' l' x, id' <> id -> block_tables_ b !! id' = Some l' -> x ∈ l -> x ∉ l'.
Proof.
  intros Hc Hl. assert (Hnd : NoDup (held b)).
  { assert (Hall : NoDup (free_blocks_ b ++ held b)) by (unfold conserved in Hc; rewrite Hc; apply py_range_NoDup).
    by apply NoDup_app in Hall as (_ & _ & ?). }
  unfold held in Hnd. rewrite (held_delete _ _ _ Hl) in Hnd.
  apply NoDup_app in Hnd as (H1 & H2 & _). split; [done|].
  intros id' l' x Hne Hl' Hx Hx'. apply (H2 x Hx).
  assert (Hd : delete id (block_tables_ b) !! id' = Some l') by (by rewrite lookup_delete_ne).
  rewrite (held_delete _ _ _ Hd). apply elem_of_app. by left.
Qed.

(** The request has exactly the blocks its [n] tokens need. *)
Definition covers (b : BlockManager_C) (id n : Z) : Prop :=
  0 <= n /\ exists l, block_tables_ b !! id = Some l /\ zlen l = blocks_for (block_size_ b) n.

(** ** [update_block_table] of the C++ pool *)

Lemma vec_at_Ok {A} (l : list A) i a : vec_at l i = Ok a <-> 0 <= i /\ l !! Z.to_nat i = Some a.
Proof.
  unfold vec_at, ASSERT. destruct (Z.leb_spec 0 i); simpl.
  - rewrite of_option_Ok. naive_solver.
  - split; [done|]. lia.
Qed.

Lemma range_prefix n pre i post : py_range n = pre ++ i :: post -> i = zlen pre /\ 0 <= i < n.
Proof.
  intros E. assert (Hi : py_range n !! length pre = Some i) by (rewrite E; by apply list_lookup_middle).
  apply lookup_seqZ in Hi as [-> Hlt]. unfold zlen. lia.
Qed.

(** What the two loops need to know of a batch: distinct requests, the first [p]
    of them new, with a non-negative context. *)
Definition batch_ok (ids prefill ctx : list Z) (p : Z) (b : BlockManager_C) : Prop :=
  NoDup ids /\ zlen ctx = zlen ids /\ 0 <= p <= zlen ids /\
  (forall k id n, ids !! k = Some id -> ctx !! k = Some n ->
     0 <= n /\
     (Z.of_nat k < p -> prefill !! k = Some n /\
        (forall l, block_tables_ b !! id = Some l -> covers b id n)) /\
     (p <= Z.of_nat k -> covers b id n)).

Lemma with_blocks_size f t b : block_size_ (with_blocks f t b) = block_size_ b.
Proof. done. Qed.

(** First loop: the new requests get their blocks, unless they came with them. *)
Lemma update_alloc_loop m ctx p b b' :
  0 < block_size_ b -> conserved b -> batch_ok (req_ids m) (init_prefill_lens m) ctx p b ->
  py_for (fun b i => id ← vec_at (req_ids m) i;
            if has_seq_block_list b id then Ok b
            else len ← vec_at (init_prefill_lens m) i; allocate id len b) (py_range p) b = Ok b' ->
  block_size_ b' = block_size_ b /\ conserved b' /\
  (forall k id n, req_ids m !! k = Some id -> ctx !! k = Some n -> covers b' id n) /\
  (forall id, id ∉ req_ids m -> block_tables_ b' !! id = block_tables_ b !! id).
Proof.
  intros Hbs Hc (Hnd & Hlen & Hp & Hall) Hrun.
  cut (block_size_ b' = block_size_ b /\ conserved b' /\
    (forall k id n, req_ids m !! k = Some id -> ctx !! k = Some n ->
       Z.of_nat k < zlen (py_range p) -> covers b' id n) /\
    (forall k id, req_ids m !! k = Some id -> zlen (py_range p) <= Z.of_nat k ->
       block_tables_ b' !! id = block_tables_ b !! id) /\
    (forall id, id ∉ req_ids m -> block_tables_ b' !! id = block_tables_ b !! id)).
  { assert (Hz : zlen (py_range p) = p) by (unfold zlen; rewrite py_range_length; lia). rewrite Hz.
    intros (E & Hc' & Hnew & Hold & Hout). split; [done|]. split; [done|]. split; [|done].
    intros k id n Hk Hn. destruct (decide (Z.of_nat k < p)); [by eapply Hnew|].
    destruct (Hall k id n Hk Hn) as (Hn0 & _ & Hcov). destruct Hcov as (_ & l & Hl & Hz'); [lia|].
    split; [done|]. exists l. rewrite (Hold k id Hk), E by lia. done. }
  revert Hrun. apply (py_for_inv (fun pre t => block_size_ t = block_size_ b /\ conserved t /\
    (forall k id n, req_ids m !! k = Some id -> ctx !! k = Some n ->
       Z.of_nat k < zlen pre -> covers t id n) /\
    (forall k id, req_ids m !! k = Some id -> zlen pre <= Z.of_nat k ->
       block_tables_ t !! id = block_tables_ b !! id) /\
    (forall id, id ∉ req_ids m -> block_tables_ t !! id = block_tables_ b !! id))).
  { split; [done|]. split; [done|]. split; [|done]. intros k id n _ _ Hk. change (zlen []) with 0 in Hk. lia. }
  intros pre i post t t' Hpre (E & Hct & Hnew & Hold & Hout) Hbody.
  apply range_prefix in Hpre as [-> Hi]. rewrite zlen_app. change (zlen [_]) with 1.
  apply bind_Ok in Hbody as (id & (_ & Hid)%vec_at_Ok & Hbody).
  unfold zlen in Hid. rewrite Nat2Z.id in Hid. fold (zlen pre) in *.
  destruct (lookup_lt_is_Some_2 ctx (length pre)) as [n Hn].
  { apply lookup_lt_Some in Hid. unfold zlen in Hlen. lia. }
  destruct (Hall _ _ _ Hid Hn) as (Hn0 & Hpf & _). destruct (Hpf) as [Hpre Hcov]; [unfold zlen in Hi; lia|].
  assert (Hother : forall k id', req_ids m !! k = Some id' -> k <> length pre -> id' <> id).
  { intros k id' Hk Hne ->. apply Hne. by eapply NoDup_lookup. }
  unfold has_seq_block_list in Hbody. case_bool_decide as Hhas.
  - apply Ok_inj in Hbody as <-. do 2 (split; [done|]). split; [|split].
    + intros k id' n' Hk Hn' Hlt. destruct (decide (k = length pre)) as [->|Hne].
      * simplify_eq. destruct Hhas as [l Hl]. rewrite (Hold (length pre)) in Hl by (try done; unfold zlen; lia).
        destruct (Hcov l Hl) as (_ & l' & Hl' & Hz). split; [done|]. exists l'.
        rewrite (Hold (length pre)), E by (try done; unfold zlen; lia). done.
      * apply (Hnew k); [done|done|]. unfold zlen in *. lia.
    + intros k id' Hk Hle. apply (Hold k); [done|lia].
    + done.
  - apply bind_Ok in Hbody as (len & (_ & Hlen')%vec_at_Ok & Hbody).
    unfold zlen in Hlen'. rewrite Nat2Z.id, Hpre in Hlen'. injection Hlen' as <-.
    pose proof (conserved_allocate _ _ _ _ ltac:(by rewrite E) Hn0 Hct Hbody) as Hct'.
    apply allocate_Ok in Hbody as (l & rest & Hnone & Hf & Hz & ->); [|by rewrite E|done].
    split; [done|]. split; [done|]. split; [|split].
    + intros k id' n' Hk Hn' Hlt. destruct (decide (k = length pre)) as [->|Hne].
      * simplify_eq. split; [done|]. exists l. simpl. by rewrite lookup_insert_eq.
      * destruct (Hnew k id' n' Hk Hn') as (? & l' & Hl' & Hz'); [unfold zlen in *; lia|].
        split; [done|]. exists l'. simpl. rewrite lookup_insert_ne; [done|]. intros ->.
        by apply (Hother k id').
    + intros k id' Hk Hle. simpl. rewrite lookup_insert_ne; [apply (Hold k); [done|lia]|].
      intros ->. apply (Hother k id'); [done|unfold zlen in *; lia|done].
    + intros id' Hid'. simpl. rewrite lookup_insert_ne; [by apply Hout|].
      intros ->. apply Hid'. by eapply list_elem_of_lookup_2.
Qed.

(** Second loop: one more token for every request. *)
Lemma update_append_loop m ctx b b' :
  0 < block_size_ b -> conserved b -> NoDup (req_ids m) -> zlen ctx = zlen (req_ids m) ->
  (forall k id n, req_ids m !! k = Some id -> ctx !! k = Some n -> covers b id n) ->
  py_for (fun b i => id ← vec_at (req_ids m) i; _ ← ASSERT (has_seq_block_list b id);
            c ← vec_at ctx i; append_tokens id c 1 b) (py_range (zlen (req_ids m))) b = Ok b' ->
  block_size_ b' = block_size_ b /\ conserved b' /\
  (forall k id n, req_ids m !! k = Some id -> ctx !! k = Some n -> covers b' id (n + 1)) /\
  (forall id, id ∉ req_ids m -> block_tables_ b' !! id = block_tables_ b !! id).
Proof.
  intros Hbs Hc Hnd Hlen Hcov Hrun.
  cut (block_size_ b' = block_size_ b /\ conserved b' /\
    (forall k id n, req_ids m !! k = Some id -> ctx !! k = Some n ->
       covers b' id (if Z.of_nat k <? zlen (py_range (zlen (req_ids m))) then n + 1 else n)) /\
    (forall id, id ∉ req_ids m -> block_tables_ b' !! id = block_tables_ b !! id)).
  { intros (E & Hc' & Hcov' & Hout). do 2 (split; [done|]). split; [|done]. intros k id n Hk Hn.
    specialize (Hcov' k id n Hk Hn). rewrite (proj2 (Z.ltb_lt _ _)) in Hcov'; [done|].
    apply lookup_lt_Some in Hk. unfold zlen. rewrite py_range_length. unfold zlen. lia. }
  revert Hrun. apply (py_for_inv (fun pre t => block_size_ t = block_size_ b /\ conserved t /\
    (forall k id n, req_ids m !! k = Some id -> ctx !! k = Some n ->
       covers t id (if Z.of_nat k <? zlen pre then n + 1 else n)) /\
    (forall id, id ∉ req_ids m -> block_tables_ t !! id = block_tables_ b !! id))).
  { do 2 (split; [done|]). split; [|done]. intros k id n Hk Hn.
    rewrite (proj2 (Z.ltb_ge _ _)) by (change (zlen []) with 0; lia). by apply (Hcov k). }
  intros pre i post t t' Hpre (E & Hct & Hcovt & Hout) Hbody.
  apply range_prefix in Hpre as [-> Hi]. rewrite zlen_app. change (zlen [_]) with 1.
  apply bind_Ok in Hbody as (id & (_ & Hid)%vec_at_Ok & Hbody).
  apply bind_Ok in Hbody as ([] & _ & Hbody).
  apply bind_Ok in Hbody as (c & (_ & Hctx)%vec_at_Ok & Hbody).
  unfold zlen in Hid, Hctx. rewrite Nat2Z.id in Hid, Hctx.
  pose proof (Hcovt _ _ _ Hid Hctx) as Hcv. rewrite (proj2 (Z.ltb_ge _ _)) in Hcv by (unfold zlen; lia).
  destruct Hcv as (Hc0 & l0 & Hl0 & Hz0).
  pose proof (conserved_append _ _ _ _ ltac:(by rewrite E) Hc0 Hct Hbody) as Hct'.
  apply append_one_Ok in Hbody as (l & xs & rest & Hl & Hf & Hz & ->); [|by rewrite E|done].
  do 2 (split; [done|]). split.
  - intros k id' n Hk Hn. destruct (decide (k = length pre)) as [->|Hne].
    + simplify_eq. rewrite (proj2 (Z.ltb_lt _ _)) by (unfold zlen; lia). split; [lia|].
      exists (l ++ xs). simpl. rewrite lookup_insert_eq. split; [done|].
      rewrite zlen_app, Hz0, Hz, blocks_for_succ by (try done; by rewrite E). done.
    + assert (Hid' : id' <> id) by (intros ->; apply Hne; by eapply NoDup_lookup).
      specialize (Hcovt k id' n Hk Hn).
      assert (Hif : (if Z.of_nat k <? zlen pre + 1 then n + 1 else n)
        = (if Z.of_nat k <? zlen pre then n + 1 else n)).
      { unfold zlen. destruct (Z.ltb_spec (Z.of_nat k) (Z.of_nat (length pre) + 1)),
          (Z.ltb_spec (Z.of_nat k) (Z.of_nat (length pre))); lia. }
      rewrite Hif. destruct Hcovt as (? & l' & Hl' & Hz'). split; [done|]. exists l'.
      simpl. by rewrite lookup_insert_ne.
  - intros id' Hid'. simpl. rewrite lookup_insert_ne; [by apply Hout|].
    intros ->. apply Hid'. by eapply list_elem_of_lookup_2.
Qed.

Lemma bm_update_Ok m ctx p b b' :
  0 < block_size_ b -> conserved b -> num_prefill_tokens m = Some p ->
  head (shape m) = Some (zlen (req_ids m)) ->
  batch_ok (req_ids m) (init_prefill_lens m) ctx p b ->
  bm_update_block_table m ctx b = Ok b' ->
  block_size_ b' = block_size_ b /\ conserved b' /\
  (forall k id n, req_ids m !! k = Some id -> ctx !! k = Some n -> covers b' id (n + 1)) /\
  (forall id, id ∉ req_ids m -> block_tables_ b' !! id = block_tables_ b !! id).
Proof.
  intros Hbs Hc Hp Hsh Hok Hrun. unfold bm_update_block_table in Hrun. rewrite Hp in Hrun. simpl in Hrun.
  apply bind_Ok in Hrun as (d & _ & Hrun). apply bind_Ok in Hrun as (b1 & H1 & Hrun).
  unfold meta_num_tokens in Hrun. rewrite Hsh in Hrun. simpl in Hrun.
  destruct (update_alloc_loop m ctx p b b1) as (E1 & Hc1 & Hcov1 & Hout1); [done..|].
  destruct Hok as (Hnd & Hlen & _).
  destruct (update_append_loop m ctx b1 b') as (E2 & Hc2 & Hcov2 & Hout2); [by rewrite E1|done..|].
  split; [congruence|]. split; [done|]. split; [done|].
  intros id Hid. by rewrite Hout2, Hout1.
Qed.

(** ** [CPUBlockManager.update_block_table] *)

(** [enumerate(ids)]: element [k] is [(k, ids[k])]. *)
Lemma enumerate_prefix (ids : list Z) pre i id post :
  zip (py_range (zlen ids)) ids = pre ++ (i, id) :: post ->
  i = zlen pre /\ ids !! length pre = Some id.
Proof.
  intros E. assert (Hi : zip (py_range (zlen ids)) ids !! length pre = Some (i, id))
    by (rewrite E; by apply list_lookup_middle).
  rewrite lookup_zip_with in Hi. destruct (py_range (zlen ids) !! length pre) as [x|] eqn:Ex; [|done].
  apply lookup_seqZ in Ex as [-> _]. simpl in Hi. destruct (ids !! length pre); [|done].
  simpl in Hi. simplify_eq. unfold zlen. split; [lia|done].
Qed.

Lemma enumerate_length (ids : list Z) : length (zip (py_range (zlen ids)) ids) = length ids.
Proof. rewrite length_zip_with, py_range_length. unfold zlen. lia. Qed.

(** A request manager that keeps its lengths in the dictionary, as the CPU block
    manager creates it. *)
Definition lens_of (r : ReqManager) (id : Z) : option Z := dget (decode_seq_lens r) id.

Lemma update_dict id n r :
  use_list r = false ->
  exists r', update_decode_seq_lens id n r = Ok r' /\ use_list r' = false /\
    forall id', lens_of r' id' = if decide (id = id') then Some n else lens_of r id'.
Proof.
  intros Hu. unfold update_decode_seq_lens. rewrite Hu. eexists. split; [done|]. split; [done|].
  intros id'. apply dget_dset.
Qed.

(** The two loops over the batch write the entries of the batch and nothing else. *)
Lemma init_lens_loop (vals ids : list Z) r r' :
  use_list r = false -> NoDup ids ->
  py_for (fun r '(i, id) => len ← py_get vals i; update_decode_seq_lens id len r)
    (zip (py_range (zlen ids)) ids) r = Ok r' ->
  use_list r' = false /\
  (forall k id, ids !! k = Some id -> exists v, vals !! k = Some v /\ lens_of r' id = Some v) /\
  (forall id, id ∉ ids -> lens_of r' id = lens_of r id).
Proof.
  intros Hu Hnd Hrun.
  cut (use_list r' = false /\
    (forall k id, ids !! k = Some id -> (k < length (zip (py_range (zlen ids)) ids))%nat ->
       exists v, vals !! k = Some v /\ lens_of r' id = Some v) /\
    (forall id, id ∉ ids -> lens_of r' id = lens_of r id)).
  { rewrite enumerate_length. intros (Hu' & Hk & Ho). split; [done|]. split; [|done].
    intros k id Hid. apply Hk; [done|]. by eapply lookup_lt_Some. }
  revert Hrun. apply (py_for_inv (fun pre t => use_list t = false /\
    (forall k id, ids !! k = Some id -> (k < length pre)%nat ->
       exists v, vals !! k = Some v /\ lens_of t id = Some v) /\
    (forall id, id ∉ ids -> lens_of t id = lens_of r id))).
  { split; [done|]. split; [|done]. intros k id _ Hk. simpl in Hk. lia. }
  intros pre [i id] post t t' Hpre (Hut & Hk & Ho) Hbody.
  apply enumerate_prefix in Hpre as [-> Hid]. apply bind_Ok in Hbody as (n & Hn & Hbody).
  apply py_get_Ok in Hn; [|apply zlen_nonneg]. unfold zlen in Hn. rewrite Nat2Z.id in Hn.
  destruct (update_dict id n t Hut) as (t1 & Ht1 & Hu1 & Hl1). rewrite Hbody in Ht1.
  apply Ok_inj in Ht1 as <-. rewrite length_app. simpl. split; [done|]. split.
  - intros k id' Hk' Hlt. rewrite Hl1. destruct (decide (k = length pre)) as [->|Hne].
    + simplify_eq. exists n. by rewrite decide_True.
    + destruct (Hk k id' Hk') as (v & Hv & Hlv); [lia|]. exists v. split; [done|].
      rewrite decide_False; [done|]. intros ->. apply Hne. by eapply NoDup_lookup.
  - intros id' Hid'. rewrite Hl1, decide_False; [by apply Ho|].
    intros ->. apply Hid'. by eapply list_elem_of_lookup_2.
Qed.

Lemma incr_lens_loop (ids lens : list Z) r lens' r' :
  use_list r = false -> NoDup ids -> length lens = length ids ->
  py_for (fun '(lens, r) '(i, id) =>
      x ← py_get lens i; lens ← py_set lens i (x + 1);
      r ← update_decode_seq_lens id (x + 1) r; Ok (lens, r))
    (zip (py_range (zlen ids)) ids) (lens, r) = Ok (lens', r') ->
  use_list r' = false /\ lens' = (fun x => x + 1) <$> lens /\
  (forall k id x, ids !! k = Some id -> lens !! k = Some x -> lens_of r' id = Some (x + 1)) /\
  (forall id, id ∉ ids -> lens_of r' id = lens_of r id).
Proof.
  intros Hu Hnd Hlen Hrun.
  cut (use_list r' = false /\
    (forall k, lens' !! k = (fun x => if (k <? length (zip (py_range (zlen ids)) ids))%nat then x + 1 else x) <$> lens !! k) /\
    (forall k id x, ids !! k = Some id -> lens !! k = Some x ->
       (k < length (zip (py_range (zlen ids)) ids))%nat -> lens_of r' id = Some (x + 1)) /\
    (forall id, id ∉ ids -> lens_of r' id = lens_of r id)).
  { rewrite enumerate_length. intros (Hu' & Hl & Hk & Ho). split; [done|]. split; [|split; [|done]].
    - apply list_eq. intros k. rewrite Hl, list_lookup_fmap. destruct (lens !! k) as [x|] eqn:Ex; [|done].
      apply lookup_lt_Some in Ex. simpl. by rewrite (proj2 (Nat.ltb_lt _ _)) by lia.
    - intros k id x Hid Hx. eapply Hk; [done|done|]. by eapply lookup_lt_Some. }
  revert Hrun. apply (py_for_inv (fun pre (t : list Z * ReqManager) => use_list t.2 = false /\
    (forall k, t.1 !! k = (fun x => if (k <? length pre)%nat then x + 1 else x) <$> lens !! k) /\
    (forall k id x, ids !! k = Some id -> lens !! k = Some x -> (k < length pre)%nat ->
       lens_of t.2 id = Some (x + 1)) /\
    (forall id, id ∉ ids -> lens_of t.2 id = lens_of r id)) _ _ (lens, r) (lens', r')).
  { split; [done|]. split; [|split; [|done]].
    - intros k. simpl. by destruct (lens !! k).
    - intros k id x _ _ Hk. simpl in Hk. lia. }
  intros pre [i id] post [tl tr] [tl' tr'] Hpre (Hut & Hl & Hk & Ho) Hbody. simpl in *.
  apply enumerate_prefix in Hpre as [-> Hid].
  destruct (lookup_lt_is_Some_2 lens (length pre)) as [x Hx]; [apply lookup_lt_Some in Hid; lia|].
  assert (Htl : tl !! length pre = Some x).
  { rewrite Hl, Hx. simpl. by rewrite Nat.ltb_irrefl. }
  apply bind_Ok in Hbody as (y & Hy & Hbody). apply py_get_Ok in Hy; [|apply zlen_nonneg].
  unfold zlen in Hy. rewrite Nat2Z.id, Htl in Hy. injection Hy as <-.
  rewrite py_set_nonneg in Hbody.
  2:{ apply lookup_lt_Some in Htl. unfold zlen. lia. }
  unfold zlen in Hbody. rewrite Nat2Z.id in Hbody. simpl in Hbody.
  destruct (update_dict id (x + 1) tr Hut) as (t1 & Ht1 & Hu1 & Hl1). rewrite Ht1 in Hbody.
  simpl in Hbody. apply Ok_inj in Hbody. injection Hbody as <- <-. rewrite length_app. simpl.
  split; [done|]. split; [|split].
  - intros k. destruct (decide (k = length pre)) as [->|Hne].
    + rewrite list_lookup_insert_eq by (by eapply lookup_lt_Some). rewrite Hx. simpl.
      by rewrite (proj2 (Nat.ltb_lt _ _)) by lia.
    + rewrite list_lookup_insert_ne by done. rewrite Hl. destruct (lens !! k); simpl; [|done].
      f_equal. destruct (Nat.ltb_spec k (length pre)), (Nat.ltb_spec k (length pre + 1)); lia.
  - intros k id' x' Hk' Hx' Hlt. rewrite Hl1. destruct (decide (k = length pre)) as [->|Hne].
    + simplify_eq. by rewrite decide_True.
    + rewrite decide_False; [eapply Hk; [done|done|lia]|]. intros ->. apply Hne. by eapply NoDup_lookup.
  - intros id' Hid'. rewrite Hl1, decide_False; [by apply Ho|].
    intros ->. apply Hid'. by eapply list_elem_of_lookup_2.
Qed.

(** The invariant of the CPU manager: blocks are conserved and every tracked
    request holds exactly the blocks its length needs. *)
Record cpu_inv (c : CPUBlockManager) : Prop := {
  ci_dict : use_list (req_manager c) = false;
  ci_size : 0 < block_size_ (_block_mgr c);
  ci_conserved : conserved (_block_mgr c);
  ci_covers : forall id n, lens_of (req_manager c) id = Some n -> covers (_block_mgr c) id n;
}.

(** A batch of the first layer: the metadata agree with the batch, the requests
    are distinct, the first [p] are new (with or without blocks loaded ahead)
    and the others are tracked. *)
Record first_layer_batch {T} (m : BatchMetadata) (batch : AttentionScheduleBatch T)
    (c : CPUBlockManager) (p : Z) : Prop := {
  fb_layer : py_get (cpu_layer_ids c) 0 = Ok (sb_layer_id batch);
  fb_ids : sb_req_ids batch = req_ids m;
  fb_prefill : sb_init_prefill_lens batch = init_prefill_lens m;
  fb_seqs : sb_num_prefill_seqs batch = p;
  fb_tokens : num_prefill_tokens m = Some p;
  fb_shape : head (shape m) = Some (zlen (req_ids m));
  fb_bound : 0 <= p <= zlen (req_ids m);
  fb_nodup : NoDup (req_ids m);
  fb_new : forall k id n, req_ids m !! k = Some id -> Z.of_nat k < p ->
    init_prefill_lens m !! k = Some n ->
    0 <= n /\ forall l, block_tables_ (_block_mgr c) !! id = Some l -> covers (_block_mgr c) id n;
  fb_running : forall k id, req_ids m !! k = Some id -> p <= Z.of_nat k ->
    is_Some (lens_of (req_manager c) id);
}.

(** The context length of request [k] of the batch, before its new token. *)
Definition context_of (m : BatchMetadata) (c : CPUBlockManager) (p : Z) (k : nat) (id : Z) : option Z :=
  if Z.of_nat k <? p then init_prefill_lens m !! k else lens_of (req_manager c) id.

(** What a first-layer step establishes when it returns. *)
Lemma cpu_update_Ok {T} (m : BatchMetadata) (batch batch' : AttentionScheduleBatch T)
    (c c' : CPUBlockManager) (p : Z) :
  cpu_inv c -> first_layer_batch m batch c p ->
  cpu_update_block_table m batch c = Ok (c', batch') ->
  cpu_inv c' /\
  (exists lens, sb_seq_lens batch' = Some lens /\ zlen lens = zlen (req_ids m) /\
     forall k id, req_ids m !! k = Some id -> exists n,
       context_of m c p k id = Some n /\ lens !! k = Some (n + 1) /\
       lens_of (req_manager c') id = Some (n + 1)) /\
  (forall id, id ∉ req_ids m ->
     lens_of (req_manager c') id = lens_of (req_manager c) id /\
     block_tables_ (_block_mgr c') !! id = block_tables_ (_block_mgr c) !! id).
Proof.
  intros [Hu Hbs Hc Hcov] [Hlay Hids Hpre Hseqs Htok Hshape Hp Hnd Hnew Hrunning] Hrun.
  unfold cpu_update_block_table in Hrun. rewrite Hlay, Hids, Hpre, Hseqs in Hrun. simpl in Hrun.
  rewrite Z.eqb_refl in Hrun. rewrite py_take_nonneg in Hrun by lia.
  set (inits := take (Z.to_nat p) (req_ids m)) in *.
  apply bind_Ok in Hrun as (r1 & Hinit & Hrun). apply bind_Ok in Hrun as (lens & Hlens & Hrun).
  apply bind_Ok in Hrun as (b & Hb & Hrun). apply bind_Ok in Hrun as ([lens' r2] & Hincr & Hrun).
  apply Ok_inj in Hrun. injection Hrun as <- <-. simpl.
  assert (Hndi : NoDup inits).
  { unfold inits. rewrite <-(take_drop (Z.to_nat p) (req_ids m)) in Hnd. by apply NoDup_app in Hnd as (? & _). }
  apply init_lens_loop in Hinit as (Hu1 & Hl1 & Ho1); [|done..].
  apply py_map_Forall2 in Hlens as Hf2.
  assert (Hctx : forall k id n, req_ids m !! k = Some id -> lens !! k = Some n ->
    context_of m c p k id = Some n).
  { intros k id n Hid Hn. pose proof (Forall2_lookup_lr _ _ _ _ _ _ Hf2 Hid Hn) as Hg.
    unfold get_decode_seq_lens in Hg. rewrite Hu1 in Hg. apply of_option_Ok in Hg.
    unfold context_of. destruct (Z.ltb_spec (Z.of_nat k) p).
    - destruct (Hl1 k id) as (v & Hv & Hlv).
      { unfold inits. by rewrite lookup_take_lt by lia. }
      unfold lens_of in Hlv. congruence.
    - rewrite <-Ho1; [exact Hg|]. unfold inits. intros Hin. apply list_elem_of_lookup in Hin as [j Hj].
      apply lookup_take_Some in Hj as [Hj Hlt]. assert (j = k) by (eapply NoDup_lookup; [exact Hnd|exact Hj|exact Hid]). lia. }
  assert (Hll : length lens = length (req_ids m)) by (by apply Forall2_length in Hf2).
  apply incr_lens_loop in Hincr as (Hu2 & -> & Hl2 & Ho2); [|done..].
  assert (Hok : batch_ok (req_ids m) (init_prefill_lens m) lens p (_block_mgr c)).
  { split; [done|]. split; [unfold zlen; lia|]. split; [done|]. intros k id n Hid Hn.
    specialize (Hctx k id n Hid Hn). unfold context_of in Hctx.
    destruct (Z.ltb_spec (Z.of_nat k) p).
    - destruct (Hnew k id n Hid) as [Hn0 Hpl]; [done|done|]. split; [done|]. split; [done|lia].
    - pose proof (Hcov id n Hctx) as Hcv. split; [apply Hcv|]. split; [lia|done]. }
  destruct (bm_update_Ok m lens p _ _ Hbs Hc Htok Hshape Hok Hb) as (E & Hc' & Hcov' & Hout').
  split; [|split].
  - split; simpl; [done|by rewrite E|done|]. intros id n Hn.
    destruct (decide (id ∈ req_ids m)) as [Hin|Hnin].
    + apply list_elem_of_lookup in Hin as [k Hk].
      destruct (lookup_lt_is_Some_2 lens k) as [x Hx]; [apply lookup_lt_Some in Hk; lia|].
      rewrite (Hl2 k id x Hk Hx) in Hn. injection Hn as <-. by apply (Hcov' k).
    + rewrite Ho2, Ho1 in Hn; [|intros Hin; apply Hnin; unfold inits in Hin|done].
      * destruct (Hcov id n Hn) as (Hn0 & l & Hl & Hz). split; [done|]. exists l. by rewrite Hout', E.
      * rewrite <-(take_drop (Z.to_nat p) (req_ids m)). apply elem_of_app. by left.
  - eexists. split; [done|]. split; [unfold zlen; by rewrite length_fmap, Hll|].
    intros k id Hk. destruct (lookup_lt_is_Some_2 lens k) as [x Hx]; [apply lookup_lt_Some in Hk; lia|].
    exists x. split; [by apply Hctx|]. split; [by rewrite list_lookup_fmap, Hx|by apply (Hl2 k)].
  - intros id Hid. split; [|by apply Hout']. rewrite Ho2, Ho1; [done| |done].
    intros Hin. apply Hid. rewrite <-(take_drop (Z.to_nat p) (req_ids m)). apply elem_of_app. by left.
Qed.

(** C13. One step of the CPU block manager on a first-layer batch: when it returns,
    the invariant is kept (no block lost or shared, every tracked request holds
    exactly [ceil(len / block_size)] blocks), each request of the batch has one
    token more than its prompt or its previous length, [batch.seq_lens] are
    those new lengths, and the other requests keep their length and blocks. *)
Theorem cpu_update_step {T} (m : BatchMetadata) (batch batch' : AttentionScheduleBatch T)
    (c c' : CPUBlockManager) (p : Z) :
  cpu_inv c -> first_layer_batch m batch c p ->
  cpu_update_block_table m batch c = Ok (c', batch') ->
  cpu_inv c' /\
  (exists lens, sb_seq_lens batch' = Some lens /\ zlen lens = zlen (req_ids m) /\
     forall k id, req_ids m !! k = Some id -> exists n,
       context_of m c p k id = Some n /\ lens !! k = Some (n + 1) /\
       lens_of (req_manager c') id = Some (n + 1)) /\
  (forall id, id ∉ req_ids m ->
     lens_of (req_manager c') id = lens_of (req_manager c) id /\
     block_tables_ (_block_mgr c') !! id = block_tables_ (_block_mgr c) !! id).
Proof. exact (cpu_update_Ok m batch batch' c c' p). Qed.

(** ** Block tables and slots of a batch *)

Definition row_width (lists : list (list Z)) : nat := foldr Nat.max 0%nat (length <$> lists).

Lemma row_width_le lists l : l ∈ lists -> (length l <= row_width lists)%nat.
Proof.
  unfold row_width. induction lists as [|x lists IH]; [by intros ?%elem_of_nil|].
  rewrite fmap_cons. cbn [foldr]. intros [->|Hin]%elem_of_cons; [lia|]. specialize (IH Hin). lia.
Qed.

Lemma pad_rows_eq lists :
  pad_rows lists = ((fun l => l ++ replicate (row_width lists - length l) (-1)) <$> lists,
                    Z.of_nat (row_width lists)).
Proof. done. Qed.

(** Rows of the same width: entry [(i, j)] of the flat table. *)
Lemma mjoin_lookup (m : nat) (rows : list (list Z)) i j :
  Forall (fun r => length r = m) rows -> (j < m)%nat ->
  mjoin rows !! (i * m + j)%nat = rows !! i ≫= (fun r => r !! j).
Proof.
  intros Hall Hj. revert i; induction Hall as [|r rows Hr _ IH]; intros i; [done|].
  destruct i as [|i]; simpl.
  - by rewrite lookup_app_l by lia.
  - rewrite lookup_app_r by lia. replace (m + i * m + j - length r)%nat with (i * m + j)%nat by lia. apply IH.
Qed.

Lemma mjoin_length (m : nat) (rows : list (list Z)) :
  Forall (fun r => length r = m) rows -> length (mjoin rows) = (length rows * m)%nat.
Proof. induction 1 as [|r rows Hr _ IH]; [done|]. simpl. rewrite length_app, IH. lia. Qed.

Lemma padded_width lists :
  Forall (fun r : list Z => length r = row_width lists)
    ((fun l => l ++ replicate (row_width lists - length l) (-1)) <$> lists).
Proof.
  apply Forall_forall. intros r (l & -> & Hl)%list_elem_of_fmap.
  rewrite length_app, length_replicate. pose proof (row_width_le lists l Hl). lia.
Qed.

(** Where a list keeps its last token. *)
Definition last_slot (bs : Z) (l : list Z) (len : Z) : option Z :=
  (fun x => x * bs + (len - 1) mod bs) <$> l !! Z.to_nat ((len - 1) / bs).

Lemma last_block_lt bs len : 0 < bs -> 1 <= len -> 0 <= (len - 1) / bs < blocks_for bs len.
Proof.
  intros Hbs Hl. split; [apply Z.div_pos; lia|]. unfold blocks_for.
  replace (len + bs - 1) with ((len - 1) + 1 * bs) by lia. rewrite Z.div_add by lia. lia.
Qed.

(** The batch's lists, slot by slot. *)
Lemma slot_of_spec bs lists lens i l len :
  0 < bs -> lists !! i = Some l -> lens !! i = Some len -> 1 <= len -> zlen l = blocks_for bs len ->
  exists s, last_slot bs l len = Some s /\
    slot_of bs (Z.of_nat (row_width lists)) (mjoin (pad_rows lists).1) lens (Z.of_nat i) = Ok s.
Proof.
  intros Hbs Hl Hlen H1 Hz. pose proof (last_block_lt bs len Hbs H1) as Hlt.
  destruct (lookup_lt_is_Some_2 l (Z.to_nat ((len - 1) / bs))) as [x Hx].
  { unfold zlen in Hz. lia. }
  exists (x * bs + (len - 1) mod bs). unfold last_slot. rewrite Hx. split; [done|].
  unfold slot_of. rewrite (proj2 (vec_at_Ok lens (Z.of_nat i) len)) by (rewrite Nat2Z.id; split; [lia|done]).
  simpl. rewrite Z.quot_div_nonneg, Z.rem_mod_nonneg by lia.
  assert (Hrow : (length l <= row_width lists)%nat) by (eapply row_width_le, list_elem_of_lookup_2; exact Hl).
  rewrite (proj2 (vec_at_Ok _ _ x)); [done|]. split; [lia|].
  replace (Z.to_nat (Z.of_nat i * Z.of_nat (row_width lists) + (len - 1) / bs))
    with (i * row_width lists + Z.to_nat ((len - 1) / bs))%nat by lia.
  rewrite mjoin_lookup; [|apply padded_width|unfold zlen in Hz; lia].
  rewrite list_lookup_fmap, Hl. simpl. rewrite lookup_app_l by (apply lookup_lt_Some in Hx; lia). done.
Qed.

Lemma batch_lists_spec m b lists :
  batch_lists m (zlen (req_ids m)) b = Ok lists ->
  length lists = length (req_ids m) /\
  forall k id, req_ids m !! k = Some id -> lists !! k = block_tables_ b !! id.
Proof.
  intros Hrun. apply py_map_Forall2 in Hrun. split.
  - apply Forall2_length in Hrun. rewrite py_range_length in Hrun. unfold zlen in Hrun. lia.
  - intros k id Hk. assert (Hr : py_range (zlen (req_ids m)) !! k = Some (Z.of_nat k)).
    { unfold py_range. rewrite lookup_seqZ_lt; [done|]. apply lookup_lt_Some in Hk. unfold zlen. lia. }
    destruct (Forall2_lookup_l _ _ _ _ _ Hrun Hr) as (l & Hl & Hb).
    apply bind_Ok in Hb as (id' & (_ & Hid)%vec_at_Ok & Hb%of_option_Ok).
    rewrite Nat2Z.id in Hid. congruence.
Qed.

Lemma py_map_raise {A B} (f : A -> res B) l e : py_map f l = Raise e -> exists a, a ∈ l /\ f a = Raise e.
Proof.
  induction l as [|a l IH]; simpl; [done|]. destruct (f a) as [b|e'] eqn:Ef; simpl.
  - destruct (py_map f l); simpl; [done|]. intros [= ->]. destruct IH as (x & ? & ?); [done|].
    exists x. split; [by right|done].
  - intros [= ->]. exists a. split; [left|done].
Qed.

Lemma batch_lists_raise m b e :
  batch_lists m (zlen (req_ids m)) b = Raise e ->
  exists k id, req_ids m !! k = Some id /\ block_tables_ b !! id = None.
Proof.
  intros (i & Hi%elem_of_py_range & Hf)%py_map_raise.
  destruct (lookup_lt_is_Some_2 (req_ids m) (Z.to_nat i)) as [id Hid]; [unfold zlen in Hi; lia|].
  rewrite (proj2 (vec_at_Ok (req_ids m) i id)) in Hf by (split; [lia|done]). simpl in Hf.
  exists (Z.to_nat i), id. split; [done|]. by destruct (block_tables_ b !! id).
Qed.

(** A total body over a range. *)
Lemma range_map_total (f : Z -> res Z) n :
  (forall k, 0 <= Z.of_nat k < n -> exists s, f (Z.of_nat k) = Ok s) ->
  exists l, py_map f (py_range n) = Ok l /\ length l = Z.to_nat n /\
    forall k s, 0 <= Z.of_nat k < n -> f (Z.of_nat k) = Ok s -> l !! k = Some s.
Proof.
  intros Hf. destruct (py_map f (py_range n)) as [l|e] eqn:E.
  - exists l. split; [done|]. split; [rewrite (py_map_length _ _ _ E); apply py_range_length|].
    intros k s Hk Hs. apply py_map_Forall2 in E.
    assert (Hr : py_range n !! k = Some (Z.of_nat k)) by (unfold py_range; by rewrite lookup_seqZ_lt by lia).
    destruct (Forall2_lookup_l _ _ _ _ _ E Hr) as (s' & Hs' & Hf'). congruence.
  - exfalso. apply py_map_raise in E as (i & Hi%elem_of_py_range & He).
    destruct (Hf (Z.to_nat i)) as [s Hs]; [lia|]. rewrite Z2Nat.id in Hs by lia. congruence.
Qed.

(** Slots of different requests lie in different blocks. *)
Lemma slots_distinct m lens b (slots : list Z) :
  0 < block_size_ b -> conserved b -> NoDup (req_ids m) -> zlen lens = zlen (req_ids m) ->
  length slots = Z.to_nat (zlen (req_ids m)) ->
  (forall k id len, req_ids m !! k = Some id -> lens !! k = Some len ->
     exists l s, block_tables_ b !! id = Some l /\ last_slot (block_size_ b) l len = Some s /\
       slots !! k = Some s) ->
  NoDup slots.
Proof.
  intros Hbs Hc Hnd Hlen Hsl Hspec. apply NoDup_alt. intros i j s Hi Hj.
  destruct (decide (i = j)) as [|Hne]; [done|exfalso].
  assert (Hget : forall k s, slots !! k = Some s -> exists id len, req_ids m !! k = Some id /\ lens !! k = Some len).
  { intros k s' Hk. apply lookup_lt_Some in Hk. unfold zlen in *.
    destruct (lookup_lt_is_Some_2 (req_ids m) k) as [id ?]; [lia|].
    destruct (lookup_lt_is_Some_2 lens k) as [len ?]; [lia|]. eauto. }
  destruct (Hget i s Hi) as (id1 & len1 & H1 & L1). destruct (Hget j s Hj) as (id2 & len2 & H2 & L2).
  destruct (Hspec i id1 len1 H1 L1) as (l1 & s1 & T1 & S1 & E1).
  destruct (Hspec j id2 len2 H2 L2) as (l2 & s2 & T2 & S2 & E2). simplify_eq.
  assert (id1 <> id2) by (intros ->; apply Hne; by eapply NoDup_lookup).
  unfold last_slot in S1, S2.
  destruct (l1 !! _) as [x1|] eqn:X1; [|done]. destruct (l2 !! _) as [x2|] eqn:X2; [|done].
  simpl in S1, S2. injection S1 as S1. injection S2 as S2.
  pose proof (Z.mod_pos_bound (len1 - 1) (block_size_ b) Hbs).
  pose proof (Z.mod_pos_bound (len2 - 1) (block_size_ b) Hbs).
  assert (x1 = x2) as -> by nia.
  destruct (conserved_lists b id1 l1 Hc T1) as [_ Hdis].
  apply (Hdis id2 l2 x2); [done|done| |]; by eapply list_elem_of_lookup_2.
Qed.

Lemma prepare_gdr_eq m lens b n lists :
  head (shape m) = Some n -> batch_lists m n b = Ok lists ->
  prepare_block_table_gdr m lens b =
    (slots ← py_map (slot_of (block_size_ b) (Z.of_nat (row_width lists)) (mjoin (pad_rows lists).1) lens)
               (py_range n);
     Ok (mjoin (pad_rows lists).1, slots, Z.of_nat (row_width lists))).
Proof.
  intros Hsh Hl. unfold prepare_block_table_gdr, meta_num_tokens. rewrite Hsh. simpl. by rewrite Hl.
Qed.

(** The slots of a batch. *)
Lemma slot_mapping_ok (m : BatchMetadata) (lens : list Z) (b : BlockManager_C) :
  0 < block_size_ b -> conserved b -> NoDup (req_ids m) ->
  head (shape m) = Some (zlen (req_ids m)) -> zlen lens = zlen (req_ids m) ->
  (forall k id len, req_ids m !! k = Some id -> lens !! k = Some len -> 1 <= len /\ covers b id len) ->
  exists flat slots w, prepare_block_table_gdr m lens b = Ok (flat, slots, w) /\ NoDup slots /\
    zlen slots = zlen (req_ids m) /\
    forall k id len, req_ids m !! k = Some id -> lens !! k = Some len ->
      exists l s, block_tables_ b !! id = Some l /\ last_slot (block_size_ b) l len = Some s /\
        slots !! k = Some s.
Proof.
  intros Hbs Hc Hnd Hsh Hlen Hcov.
  assert (Hget : forall k id, req_ids m !! k = Some id -> exists len l,
    lens !! k = Some len /\ 1 <= len /\ block_tables_ b !! id = Some l /\ zlen l = blocks_for (block_size_ b) len).
  { intros k id Hk. destruct (lookup_lt_is_Some_2 lens k) as [len Hl].
    { apply lookup_lt_Some in Hk. unfold zlen in Hlen. lia. }
    destruct (Hcov k id len Hk Hl) as (H1 & _ & l & Ht & Hz). eauto 10. }
  destruct (batch_lists m (zlen (req_ids m)) b) as [lists|e] eqn:Hlists.
  2:{ exfalso. apply batch_lists_raise in Hlists as (k & id & Hk & Hn). destruct (Hget k id Hk) as (? & ? & ? & ? & ? & _). congruence. }
  pose proof (batch_lists_spec _ _ _ Hlists) as [Hll Hls].
  rewrite (prepare_gdr_eq _ _ _ _ _ Hsh Hlists).
  assert (Hslot : forall k id, req_ids m !! k = Some id -> exists len l s,
    lens !! k = Some len /\ block_tables_ b !! id = Some l /\ last_slot (block_size_ b) l len = Some s /\
    slot_of (block_size_ b) (Z.of_nat (row_width lists)) (mjoin (pad_rows lists).1) lens (Z.of_nat k) = Ok s).
  { intros k id Hk. destruct (Hget k id Hk) as (len & l & Hl & H1 & Ht & Hz).
    destruct (slot_of_spec (block_size_ b) lists lens k l len Hbs) as (s & Hs & Hrun); [|done|done|done|eauto 10].
    rewrite (Hls k id Hk). done. }
  destruct (range_map_total (slot_of (block_size_ b) (Z.of_nat (row_width lists)) (mjoin (pad_rows lists).1) lens)
    (zlen (req_ids m))) as (slots & Hrun & Hsl & Hsk).
  { intros k Hk. destruct (lookup_lt_is_Some_2 (req_ids m) k) as [id Hid]; [unfold zlen in Hk; lia|].
    destruct (Hslot k id Hid) as (? & ? & s & _ & _ & _ & ?). eauto. }
  rewrite Hrun. eexists _, slots, _. split; [done|].
  assert (Hspec : forall k id len, req_ids m !! k = Some id -> lens !! k = Some len ->
      exists l s, block_tables_ b !! id = Some l /\ last_slot (block_size_ b) l len = Some s /\ slots !! k = Some s).
  { intros k id len Hk Hl. destruct (Hslot k id Hk) as (len' & l & s & Hl' & Ht & Hs & Hr). simplify_eq.
    exists l, s. split; [done|]. split; [done|]. apply Hsk in Hr; [done|]. apply lookup_lt_Some in Hk. unfold zlen. lia. }
  split; [|split; [unfold zlen in *; lia|done]].
  by apply (slots_distinct m lens b).
Qed.

(** C25. The slots of a batch: for distinct tracked requests whose lists cover
    their lengths, [prepare_block_table_gdr] returns, for every request, the
    slot of its last token in its own block list, and no two requests of the
    batch get the same slot. *)
Theorem slot_mapping_exact (m : BatchMetadata) (lens : list Z) (b : BlockManager_C) :
  0 < block_size_ b -> conserved b -> NoDup (req_ids m) ->
  head (shape m) = Some (zlen (req_ids m)) -> zlen lens = zlen (req_ids m) ->
  (forall k id len, req_ids m !! k = Some id -> lens !! k = Some len -> 1 <= len /\ covers b id len) ->
  exists flat slots w, prepare_block_table_gdr m lens b = Ok (flat, slots, w) /\ NoDup slots /\
    zlen slots = zlen (req_ids m) /\
    forall k id len, req_ids m !! k = Some id -> lens !! k = Some len ->
      exists l s, block_tables_ b !! id = Some l /\ last_slot (block_size_ b) l len = Some s /\
        slots !! k = Some s.
Proof. exact (slot_mapping_ok m lens b). Qed.

(** ** The two ways to pack the metadata *)

Lemma slot_of_app bs w flat rest lens i s :
  slot_of bs w flat lens i = Ok s -> slot_of bs w (flat ++ rest) lens i = Ok s.
Proof.
  unfold slot_of. intros Hs. apply bind_Ok in Hs as (len & -> & Hs). simpl.
  apply bind_Ok in Hs as (x & (Hi & Hx)%vec_at_Ok & Hs).
  rewrite (proj2 (vec_at_Ok _ _ x)); [done|]. split; [done|].
  rewrite lookup_app_l; [done|]. by eapply lookup_lt_Some.
Qed.

(** The loop that writes the slots behind the flat table. *)
Lemma write_slots_loop bs w flat lens n slots :
  0 <= n -> zlen flat = n * w -> py_map (slot_of bs w flat lens) (py_range n) = Ok slots ->
  py_for (fun v i => s ← slot_of bs w v lens i; Ok (<[Z.to_nat (n * w + i) := s]> v))
    (py_range n) (flat ++ replicate (Z.to_nat n) (-1)) = Ok (flat ++ slots).
Proof.
  intros Hn Hz Hmap. pose proof (py_map_length _ _ _ Hmap) as Hl. rewrite py_range_length in Hl.
  apply py_map_Forall2 in Hmap.
  destruct (py_for_total (fun pre v => v = flat ++ take (length pre) slots ++ replicate (Z.to_nat n - length pre) (-1))
    (fun v i => s ← slot_of bs w v lens i; Ok (<[Z.to_nat (n * w + i) := s]> v))
    (py_range n) (flat ++ replicate (Z.to_nat n) (-1))) as (v & -> & ->).
  - simpl. by rewrite Nat.sub_0_r.
  - intros pre i post t Hpre ->. apply range_prefix in Hpre as [-> Hi]. unfold zlen in Hi.
    assert (Hr : py_range n !! length pre = Some (zlen pre)) by (unfold py_range; by rewrite lookup_seqZ_lt by lia).
    destruct (Forall2_lookup_l _ _ _ _ _ Hmap Hr) as (s & Hs & Hf).
    rewrite (slot_of_app _ _ _ _ _ _ _ Hf). simpl. eexists. split; [done|].
    rewrite length_app. simpl. rewrite Nat.add_1_r. rewrite (take_S_r _ _ s) by done.
    replace (Z.to_nat n - length pre)%nat with (S (Z.to_nat n - S (length pre))) by lia.
    unfold zlen in *. rewrite insert_app_r_alt by lia. f_equal.
    rewrite insert_app_r_alt by (rewrite length_take; lia). rewrite length_take.
    replace (Z.to_nat (n * w + Z.of_nat (length pre)) - length flat - length pre `min` length slots)%nat with 0%nat by lia.
    simpl. by rewrite <-app_assoc.
  - rewrite py_range_length, Nat.sub_diag. simpl. by rewrite app_nil_r, take_ge by lia.
Qed.

Lemma prepare_table_eq m lens b n flat slots w :
  head (shape m) = Some n -> 0 <= n -> prepare_block_table_gdr m lens b = Ok (flat, slots, w) ->
  prepare_block_table m lens b = Ok (flat ++ slots) /\ zlen flat = n * w /\ zlen slots = n /\ 0 <= w.
Proof.
  intros Hsh Hn Hrun. destruct (batch_lists m n b) as [lists|] eqn:Hl.
  2:{ unfold prepare_block_table_gdr, meta_num_tokens in Hrun. rewrite Hsh in Hrun. simpl in Hrun. by rewrite Hl in Hrun. }
  rewrite (prepare_gdr_eq _ _ _ _ _ Hsh Hl) in Hrun. apply bind_Ok in Hrun as (sl & Hmap & Hrun).
  apply Ok_inj in Hrun. injection Hrun as <- <- <-.
  assert (Hz : zlen (mjoin (pad_rows lists).1) = n * Z.of_nat (row_width lists)).
  { unfold zlen. rewrite (mjoin_length (row_width lists)) by apply padded_width. cbn. rewrite length_fmap.
    rewrite (py_map_length _ _ _ Hl), py_range_length. lia. }
  split; [|split; [done|split; [|lia]]].
  - unfold prepare_block_table, meta_num_tokens. rewrite Hsh. cbn [of_option mbind res_bind]. rewrite Hl.
    by apply write_slots_loop.
  - unfold zlen. rewrite (py_map_length _ _ _ Hmap), py_range_length. lia.
Qed.

Lemma copy_from_host_Ok buf data out :
  copy_from_host buf data = Ok out -> exists rest, out = data ++ rest.
Proof. unfold copy_from_host. intros H. apply bind_Ok in H as ([] & _ & H). apply Ok_inj in H as <-. eauto. Qed.

Lemma py_take_app_exact {A} (l k : list A) n : zlen l = n -> py_take n (l ++ k) = l.
Proof.
  intros <-. rewrite py_take_nonneg by apply zlen_nonneg. unfold zlen.
  by rewrite Nat2Z.id, take_app_length.
Qed.

Lemma py_drop_app_exact {A} (l k : list A) n : zlen l = n -> py_drop n (l ++ k) = k.
Proof.
  intros <-. rewrite py_drop_nonneg by apply zlen_nonneg. unfold zlen.
  by rewrite Nat2Z.id, drop_app_length.
Qed.

(** [v[:-n]] and [v[-n:]] when the last [n] elements are [k]. *)
Lemma py_split_end {A} (l k : list A) n :
  0 < n -> zlen k = n -> py_take (- n) (l ++ k) = l /\ py_drop (- n) (l ++ k) = k.
Proof.
  intros Hn Hk. assert (Hc : py_clamp (l ++ k) (- n) = length l).
  { unfold py_clamp. rewrite zlen_app. unfold zlen in *. destruct (Z.ltb_spec (- n) 0); lia. }
  unfold py_take, py_drop. rewrite Hc. by rewrite take_app_length, drop_app_length.
Qed.

Lemma seq_info_lengths md lens n ls ctx starts :
  head (shape md) = Some n -> 0 <= n -> zlen lens = n ->
  prepare_seq_info_gdr md lens = Ok (ls, ctx, starts) ->
  ls = lens /\ zlen ctx = n /\ zlen starts = n + 1.
Proof.
  intros Hsh Hn Hlen Hrun. unfold prepare_seq_info_gdr, meta_num_tokens in Hrun. rewrite Hsh in Hrun.
  cbn [of_option mbind res_bind] in Hrun. apply bind_Ok in Hrun as (l & Hl & Hrun).
  rewrite seqlens_append_spec in Hrun. apply Ok_inj in Hrun. injection Hrun as <- <- <-.
  assert (Hll : length l = Z.to_nat n) by (by rewrite (py_map_length _ _ _ Hl), py_range_length).
  split; [|unfold zlen; rewrite length_fmap, prefix_sums_length; lia].
  apply list_eq. intros k. apply py_map_Forall2 in Hl. unfold zlen in Hlen.
  destruct (decide (k < Z.to_nat n)%nat) as [Hk|Hk].
  - assert (Hr : py_range n !! k = Some (Z.of_nat k)) by (unfold py_range; by rewrite lookup_seqZ_lt by lia).
    destruct (Forall2_lookup_l _ _ _ _ _ Hl Hr) as (x & -> & (_ & Hx)%vec_at_Ok).
    by rewrite Nat2Z.id in Hx.
  - rewrite !lookup_ge_None_2 by lia. done.
Qed.

(** C35. The optimised packing (GDR copies into persistent buffers, then views) and
    the naive one (fresh tensors) give the same attention metadata: whenever
    the optimised one returns for a non-empty batch, so does the naive one,
    with equal tables, slots, lengths and offsets. *)
Theorem pack_opt_refines_naive {T} (m : BatchMetadata) (batch : AttentionScheduleBatch T)
    (lens : list Z) (c c' : CPUBlockManager) (fa : FlashAttentionMetadata) (n : Z) :
  head (shape m) = Some n -> 0 < n -> zlen lens = n -> sb_num_tokens batch = n ->
  sb_num_prefill_seqs batch = sb_num_prefill_tokens batch ->
  pack_opt m batch lens c = Ok (fa, c') ->
  pack_naive m batch lens c = Ok (fa, c).
Proof.
  intros Hsh Hn Hlen Htok Hseq Hrun. unfold pack_opt in Hrun. rewrite Htok in Hrun.
  apply bind_Ok in Hrun as ([[flat slots] w] & Hgdr & Hrun).
  destruct (prepare_table_eq _ _ _ n _ _ _ Hsh ltac:(lia) Hgdr) as (Htab & Hzf & Hzs & Hw).
  apply bind_Ok in Hrun as (bt & (r1 & ->)%copy_from_host_Ok & Hrun).
  apply bind_Ok in Hrun as (sm & (r2 & ->)%copy_from_host_Ok & Hrun).
  apply bind_Ok in Hrun as ([[ls ctx] starts] & Hinfo & Hrun).
  destruct (seq_info_lengths _ _ n _ _ _ Hsh ltac:(lia) Hlen Hinfo) as (-> & Hzc & Hzst).
  apply bind_Ok in Hrun as (sl & (r3 & ->)%copy_from_host_Ok & Hrun).
  apply bind_Ok in Hrun as (cl & (r4 & ->)%copy_from_host_Ok & Hrun).
  apply bind_Ok in Hrun as (st & (r5 & ->)%copy_from_host_Ok & Hrun).
  apply Ok_inj in Hrun. injection Hrun as <- _. cbn [buf_query_start_loc].
  unfold pack_naive. rewrite Htok, Htab. cbn [mbind res_bind].
  destruct (py_split_end flat slots n Hn Hzs) as [-> ->].
  assert (Hk : sb_num_prefill_seqs batch + sb_num_decode_tokens batch = n)
    by (unfold sb_num_tokens in Htok; lia). rewrite Hk.
  unfold view_rows, py_floordiv. rewrite (proj2 (Z.eqb_neq n 0)) by lia. cbn [mbind res_bind].
  rewrite Hzf, (Z.mul_comm n w), Z.div_mul, Z.eqb_refl by lia. cbn [py_check mbind res_bind].
  unfold prepare_seq_info. rewrite Hinfo. cbn [mbind res_bind]. unfold ASSERT.
  rewrite Z.eqb_refl. cbn [py_check mbind res_bind].
  rewrite (py_take_app_exact lens _ n Hlen), (py_drop_app_exact lens _ n Hlen).
  rewrite (py_take_app_exact ctx _ n Hzc), (py_take_app_exact slots _ n Hzs).
  rewrite (app_assoc lens ctx starts), (py_drop_app_exact (lens ++ ctx) starts (n + n))
    by (rewrite zlen_app; lia).
  rewrite (py_take_app_exact lens r3 n Hlen), (py_take_app_exact ctx r4 n Hzc).
  rewrite (py_take_app_exact starts r5 (n + 1) Hzst).
  assert (Hrows : ((fun i => py_take w (py_drop (i * w) (flat ++ r1))) <$> py_range n)
    = ((fun i => py_take w (py_drop (i * w) flat)) <$> py_range n)).
  { apply list_fmap_ext. intros k i Hi. assert (Hr : 0 <= i < n) by (apply elem_of_py_range; by eapply list_elem_of_lookup_2).
    rewrite !py_drop_nonneg, !py_take_nonneg by lia. unfold zlen in Hzf.
    rewrite drop_app_le by nia. apply take_app_le. rewrite length_drop. nia. }
  by rewrite Hrows.
Qed.

(** ** Releasing requests *)

Lemma batch_release_Ok ids b :
  NoDup ids -> conserved b -> Forall (fun id => is_Some (block_tables_ b !! id)) ids ->
  exists b', batch_release ids b = Ok b' /\ conserved b' /\ block_size_ b' = block_size_ b /\
    (forall id, block_tables_ b' !! id = if decide (id ∈ ids) then None else block_tables_ b !! id).
Proof.
  intros Hnd. revert b; induction Hnd as [|id ids Hid Hnd IH]; intros b Hc Hall; cbn [batch_release py_for].
  { exists b. split; [done|]. split; [done|]. split; [done|]. intros id. by rewrite decide_False by (apply not_elem_of_nil). }
  apply Forall_cons in Hall as [[l Hl] Hall].
  assert (Hrel : release id b = Ok (with_blocks (free_blocks_ b ++ l) (delete id (block_tables_ b)) b))
    by (unfold release; by rewrite Hl).
  pose proof (conserved_release _ _ _ Hc Hrel) as Hc1. unfold batch_release in *. cbn [py_for].
  rewrite Hrel. cbn [mbind res_bind].
  destruct (IH _ Hc1) as (b' & -> & Hc' & Hs & Ht).
  { eapply Forall_impl; [|intros x Hx; exact Hx]. apply Forall_forall. intros x Hx. simpl.
    rewrite lookup_delete_ne by (intros ->; done). rewrite Forall_forall in Hall. by apply Hall. }
  exists b'. split; [done|]. split; [done|]. split; [done|]. intros id'. rewrite Ht. simpl.
  destruct (decide (id' = id)) as [->|Hne].
  - rewrite decide_False by done. rewrite decide_True by left. apply lookup_delete_eq.
  - rewrite lookup_delete_ne by done. apply decide_ext. set_solver.
Qed.

Lemma release_reqs_Ok ids r :
  use_list r = false -> NoDup ids -> Forall (fun id => is_Some (lens_of r id)) ids ->
  exists r', release_reqs ids r = Ok r' /\ use_list r' = false /\
    forall id, lens_of r' id = if decide (id ∈ ids) then None else lens_of r id.
Proof.
  intros Hu Hnd Hall. unfold release_reqs. rewrite Hu.
  cut (exists d, py_for (fun d id => _ ← of_option KeyError (dget d id); Ok (ddel d id)) ids (decode_seq_lens r) = Ok d /\
    forall id, dget d id = if decide (id ∈ ids) then None else lens_of r id).
  { intros (d & -> & Hd). eexists. split; [done|]. split; [done|]. exact Hd. }
  unfold lens_of in *. revert Hall. generalize (decode_seq_lens r). clear r Hu.
  induction Hnd as [|id ids Hid Hnd IH]; intros d Hall; cbn [py_for].
  { exists d. split; [done|]. intros id. by rewrite decide_False by (apply not_elem_of_nil). }
  apply Forall_cons in Hall as [[n Hn] Hall]. rewrite Hn. cbn [of_option mbind res_bind].
  destruct (IH (ddel d id)) as (d' & -> & Hd').
  { apply Forall_forall. intros x Hx. rewrite dget_ddel, decide_False by (intros ->; done).
    rewrite Forall_forall in Hall. by apply Hall. }
  exists d'. split; [done|]. intros id'. rewrite Hd', dget_ddel.
  destruct (decide (id' = id)) as [->|Hne].
  - rewrite decide_False by done. rewrite decide_True by done. by rewrite decide_True by left.
  - rewrite (decide_False (P := id = id')) by done. apply decide_ext. set_solver.
Qed.

(** Releasing distinct tracked requests always succeeds, gives their blocks
    back (the invariant, conservation included, holds afterwards), and leaves
    every other request as it was. *)
Theorem cpu_release_step (ids : list Z) (c : CPUBlockManager) :
  cpu_inv c -> NoDup ids -> Forall (fun id => is_Some (lens_of (req_manager c) id)) ids ->
  exists c', cpu_release_seqs ids c = Ok c' /\ cpu_inv c' /\
    (forall id, id ∈ ids -> lens_of (req_manager c') id = None /\ block_tables_ (_block_mgr c') !! id = None) /\
    (forall id, id ∉ ids -> lens_of (req_manager c') id = lens_of (req_manager c) id /\
       block_tables_ (_block_mgr c') !! id = block_tables_ (_block_mgr c) !! id).
Proof.
  intros [Hu Hbs Hc Hcov] Hnd Hall. unfold cpu_release_seqs.
  destruct (batch_release_Ok ids (_block_mgr c) Hnd Hc) as (b & -> & Hc' & Hs & Ht).
  { eapply Forall_impl; [exact Hall|]. intros id [n Hn]. destruct (Hcov id n Hn) as (_ & l & Hl & _). eauto. }
  destruct (release_reqs_Ok ids (req_manager c) Hu Hnd Hall) as (r & Hr & Hu' & Hl).
  cbn [mbind res_bind]. rewrite Hr. eexists. split; [done|]. split.
  - split; simpl; [done|by rewrite Hs|done|]. intros id n Hn. rewrite Hl in Hn. case_decide; [done|].
    destruct (Hcov id n Hn) as (Hn0 & l & Hl' & Hz). split; [done|]. exists l.
    rewrite Ht, decide_False, Hs by done. done.
  - simpl. split; intros id Hid; rewrite Hl, Ht; [by rewrite !decide_True|by rewrite !decide_False].
Qed.

(** ** The last block *)

(** The metadata of a batch of one new request. *)
Definition one_request (id len : Z) : BatchMetadata :=
  {| shape := [1; 64]; md_dtype := "bf16"; layer_id := 0; req_ids := [id]; exp_ids := [];
     topk_weights := []; attn_dp_ranks := [0]; init_prefill_lens := [len];
     num_prefill_seqs := Some 1; num_prefill_tokens := Some 1; num_decode_tokens := Some 0 |}.

Lemma one_request_update id len c b :
  block_tables_ b !! id = None ->
  bm_update_block_table (one_request id len) [c] b
  = (b ← allocate id len b; append_tokens id c 1 b).
Proof.
  intros Hn. unfold bm_update_block_table. simpl. unfold has_seq_block_list.
  rewrite (bool_decide_false (is_Some (block_tables_ b !! id))) by (rewrite Hn; by intros []).
  simpl. destruct (allocate id len b) as [b1|]; simpl; [|done].
  case_bool_decide as Hs; simpl; [by destruct (append_tokens id c 1 b1)|].
  unfold append_tokens. simpl. destruct (block_tables_ b1 !! id); [|done].
  destruct Hs. eauto.
Qed.

(** The scheduler and the block manager disagree on the last block: a request
    whose prompt fills [k] blocks exactly and whose output fits one more needs
    [k + 1] blocks in the scheduler's count, so a rank with [k + 1] free blocks
    accepts it; but appending its first token to an otherwise empty pool of
    [k + 1] blocks is refused, since [append_tokens] asks for strictly more free
    blocks than it takes. *)
Theorem last_block_refused (bs k id output : Z) :
  0 < bs -> 1 <= k -> 1 <= output <= bs ->
  DP.req bs (k * bs) output = k + 1 /\
  bm_update_block_table (one_request id (k * bs)) [k * bs] (bm_init bs (k + 1) 0) = Raise RuntimeError.
Proof.
  intros Hbs Hk Ho. split.
  { unfold DP.req. replace (k * bs + bs - 1) with ((bs - 1) + k * bs) by lia.
    replace (output + bs - 1) with ((output - 1) + 1 * bs) by lia.
    rewrite !Z.div_add, !Z.div_small by lia. lia. }
  rewrite one_request_update by apply lookup_empty.
  assert (Hb : blocks_for bs (k * bs) = k).
  { unfold blocks_for. replace (k * bs + bs - 1) with ((bs - 1) + k * bs) by lia.
    rewrite Z.div_add, Z.div_small by lia. lia. }
  assert (Hfree : zlen (py_range (k + 1 + 0)) = k + 1) by (unfold zlen; rewrite py_range_length; lia).
  assert (Halloc : allocate id (k * bs) (bm_init bs (k + 1) 0)
    = Ok (with_blocks (drop (Z.to_nat k) (py_range (k + 1 + 0)))
            (<[id := take (Z.to_nat k) (py_range (k + 1 + 0))]> ∅) (bm_init bs (k + 1) 0))).
  { unfold allocate, has_seq_block_list, num_free_blocks.
    rewrite bool_decide_false by (cbn; rewrite lookup_empty; by intros []).
    cbn [negb ASSERT py_check mbind res_bind block_size_ bm_init free_blocks_ reserved_blocks_].
    rewrite quot_blocks, Hb, Hfree by nia. unfold ASSERT.
    rewrite Z.geb_leb, (proj2 (Z.leb_le _ _)) by lia. cbn [py_check mbind res_bind].
    rewrite get_blocks_eq. change (free_blocks_ (bm_init bs (k + 1) 0)) with (py_range (k + 1 + 0)).
    unfold zlen in Hfree. by rewrite decide_True by lia. }
  rewrite Halloc. cbn [mbind res_bind]. rewrite append_one_eq by (cbn; nia).
  cbn [block_tables_ with_blocks block_size_ bm_init]. rewrite lookup_insert_eq.
  cbn [of_option mbind res_bind]. unfold needs_block. rewrite Z.mod_mul by lia.
  unfold ASSERT, num_free_blocks. cbn [free_blocks_ with_blocks Z.eqb].
  assert (Hone : zlen (drop (Z.to_nat k) (py_range (k + 1 + 0))) = 1)
    by (unfold zlen in *; rewrite length_drop; lia).
  by rewrite Hone.
Qed.

(** ** The GPU block manager on mixed batches *)

Definition gpu_batch (ids prefill : list Z) (p d : Z) : AttentionScheduleBatch unit :=
  {| sb_shape := [zlen ids; 64]; sb_dtype := "bf16"; sb_layer_id := 0; sb_req_ids := ids;
     sb_init_prefill_lens := prefill; sb_num_prefill_seqs := p; sb_num_prefill_tokens := p;
     sb_num_decode_tokens := d; sb_data := tt; sb_req_indices := None; sb_seq_lens := None |}.

Definition gpu_run (batches : list (AttentionScheduleBatch unit)) (g : res GPUBlockManager)
  : res GPUBlockManager :=
  foldl (fun g b => g ← g; r ← gpu_update_block_table b g; Ok r.1) g batches.

(** A batch that mixes a new and a running request corrupts the running one in
    the GPU block manager.  Request 7 enters with three tokens; the next batch
    holds the new request 8 and then 7.  The row indices are built as running
    then new while the lengths follow the batch (new then running), so the new
    location lands in 7's row at 8's length: the location of 7's third token,
    which [7] still uses, is overwritten. *)
Theorem gpu_mixed_batch_overwrites :
  let g0 := gpu_init 1 16 4 8 0 in
  let g1 := gpu_run [gpu_batch [7] [3] 1 0] g0 in
  let g2 := gpu_run [gpu_batch [7] [3] 1 0; gpu_batch [8; 7] [2; -1] 1 1] g0 in
  (g ← g1; table_get (req_to_token (req_to_token_pool g)) 0 2) = Ok 3 /\
  (g ← g2; table_get (req_to_token (req_to_token_pool g)) 0 2) = Ok 7 /\
  (g ← g2; of_option KeyError (req_to_indice g !! 7)) = Ok 0 /\
  (g ← g2; of_option KeyError (g_decode_seq_lens g !! 7)) = Ok 5.
Proof. vm_compute. done. Qed.

(** [release_seqs] of the GPU manager means to skip requests it does not track
    (they are filtered from the indices) but pairs the unfiltered ids with the
    filtered indices: an untracked id in front of a tracked one raises
    [KeyError]. *)
Theorem gpu_release_untracked_raises (g : GPUBlockManager) (u id idx n : Z) :
  g_decode_seq_lens g !! u = None -> g_decode_seq_lens g !! id = Some n ->
  req_to_indice g !! id = Some idx ->
  gpu_release_seqs [u; id] g = Raise KeyError.
Proof.
  intros Hu Hid Hi. unfold gpu_release_seqs.
  rewrite filter_cons_False by (rewrite Hu; by intros []).
  rewrite filter_cons_True by (rewrite Hid; eauto). cbn [filter list_filter py_map].
  rewrite Hi. cbn [of_option mbind res_bind zip zip_with py_for]. by rewrite Hu.
Qed.

(** ** Concrete runs *)

(** Eight blocks of four tokens, layer 0 first. *)
Definition ex_cpu : CPUBlockManager :=
  {| cpu_layer_ids := [0; 1]; _block_mgr := bm_init 4 8 0; use_gdr_copy := true; use_rebind := true;
     req_manager := req_manager_init 4 false; tensor_buffer := buffer_init 4 4 0;
     tensor_buffer_alt := buffer_init 4 4 0 |}.
Definition ex_batch : AttentionScheduleBatch unit := gpu_batch [5] [6] 1 0.
Definition ex_step : CPUBlockManager * AttentionScheduleBatch unit :=
  match cpu_update_block_table (one_request 5 6) ex_batch ex_cpu with
  | Ok r => r
  | Raise _ => (ex_cpu, ex_batch)
  end.

Lemma ex_cpu_inv : cpu_inv ex_cpu.
Proof. split; try done. unfold conserved. vm_compute. done. Qed.

Lemma ex_first_layer : first_layer_batch (one_request 5 6) ex_batch ex_cpu 1.
Proof.
  split; try reflexivity.
  - done.
  - apply NoDup_singleton.
  - intros [|k] id n Hid Hk Hn; [|lia]. cbn in Hn. simplify_eq. split; [lia|]. intros l Hl. done.
  - intros [|k] id Hid Hk; [lia|done].
Qed.

Lemma cpu_update_step_witness :
  cpu_inv ex_step.1 /\ sb_seq_lens ex_step.2 = Some [7].
Proof.
  split; [|reflexivity].
  exact (proj1 (cpu_update_step (one_request 5 6) ex_batch ex_step.2 ex_cpu ex_step.1 1
    ex_cpu_inv ex_first_layer eq_refl)).
Defined.

Lemma ex_step_inv : cpu_inv ex_step.1.
Proof.
  split; try done.
  - unfold conserved, held. vm_compute. apply (Permutation_app_comm [2; 3; 4; 5; 6; 7] [0; 1]).
  - intros id n Hn. unfold lens_of in Hn.
    assert (Hd : decode_seq_lens (req_manager ex_step.1) = [(5, 7)]) by reflexivity.
    rewrite Hd in Hn. simpl in Hn. case_decide; [|done]. simplify_eq. split; [lia|].
    exists [0; 1]. split; reflexivity.
Qed.

Lemma slot_mapping_exact_witness :
  exists flat slots w,
    prepare_block_table_gdr (one_request 5 6) [7] (_block_mgr ex_step.1) = Ok (flat, slots, w) /\ NoDup slots.
Proof.
  destruct (slot_mapping_exact (one_request 5 6) [7] (_block_mgr ex_step.1)) as (f & s & w & Hr & Hnd & _).
  - reflexivity.
  - apply (ci_conserved _ ex_step_inv).
  - apply NoDup_singleton.
  - reflexivity.
  - reflexivity.
  - intros [|k] id len Hid Hl; simplify_eq/=. split; [lia|].
    apply (ci_covers _ ex_step_inv). reflexivity.
  - exists f, s, w. split; [exact Hr|exact Hnd].
Defined.

Lemma pack_opt_refines_naive_witness :
  exists fa, pack_naive (one_request 5 6) ex_batch [7] ex_step.1 = Ok (fa, ex_step.1).
Proof.
  eexists. eapply (pack_opt_refines_naive (one_request 5 6) ex_batch [7] ex_step.1 _ _ 1);
    [reflexivity|lia|reflexivity|reflexivity|reflexivity|vm_compute; reflexivity].
Defined.

Lemma cpu_release_step_witness : exists c', cpu_release_seqs [5] ex_step.1 = Ok c' /\ cpu_inv c'.
Proof.
  destruct (cpu_release_step [5] ex_step.1 ex_step_inv) as (c' & Hr & Hi & _).
  - apply NoDup_singleton.
  - repeat constructor. exists 7. reflexivity.
  - exists c'. split; [exact Hr|exact Hi].
Defined.

Lemma last_block_refused_witness :
  DP.req 16 (1 * 16) 16 = 1 + 1 /\
  bm_update_block_table (one_request 3 (1 * 16)) [1 * 16] (bm_init 16 (1 + 1) 0) = Raise RuntimeError.
Proof. apply (last_block_refused 16 1 3 16); lia. Defined.

Definition ex_gpu : GPUBlockManager :=
  {| req_to_indice := {[7 := 0]}; g_decode_seq_lens := {[7 := 4]}; req_seq_lens := [4];
     req_to_token_pool := req_pool_init 1 8; token_allocator := tok_init 8 false |}.

Lemma gpu_release_untracked_raises_witness : gpu_release_seqs [9; 7] ex_gpu = Raise KeyError.
Proof. apply (gpu_release_untracked_raises ex_gpu 9 7 0 4); reflexivity. Defined.

Lemma allocate_release_roundtrip_witness :
  exists used rest b1 b2, allocate 7 20 (bm_init 16 8 0) = Ok b1 /\
    py_for (fun b ctx => append_tokens 7 ctx 1 b) [20; 32] b1 = Ok b2 /\
    used ++ rest = [0; 1; 2; 3; 4; 5; 6; 7] /\ release 7 b2 = Ok (with_blocks (rest ++ used) ∅ (bm_init 16 8 0)).
Proof.
  destruct (allocate_release_roundtrip 7 20 [20; 32] (bm_init 16 8 0)
    match allocate 7 20 (bm_init 16 8 0) with Ok b => b | Raise _ => bm_init 16 8 0 end
    match (b ← allocate 7 20 (bm_init 16 8 0); py_for (fun b ctx => append_tokens 7 ctx 1 b) [20; 32] b) with
    | Ok b => b | Raise _ => bm_init 16 8 0 end) as (used & rest & Hf & Hr).
  - reflexivity.
  - discriminate.
  - repeat constructor; discriminate.
  - vm_compute. reflexivity.
  - vm_compute. reflexivity.
  - exists used, rest. eexists _, _. split; [vm_compute; reflexivity|]. split; [vm_compute; reflexivity|].
    split; [symmetry; exact Hf|exact Hr].
Defined.

End BlockManager.
