(* ===== verification/MemOps.v ===== *)
(** * Token permutation ([disagmoe/ops/memory.py])

    Before an expert layer runs, tokens are moved so that those of one expert
    are contiguous.  [get_mappings_from_exp_ids] computes each token's target
    row by counting sort, [get_mappings_from_exp_ids_cuda] by inverting the index
    permutation of a sort, and [permute_tokens_triton] moves the rows.  Torch's
    sort is a parameter. *)

From S2P Require Import Prelude.

Module MemOps.

(** ** Mappings on the host *)

Definition count_ids (exp_ids : list Z) (num_experts : Z) : res (list Z) :=
  py_for (fun cnt id => c ← py_get cnt id; py_set cnt id (c + 1))
    exp_ids (replicate (Z.to_nat num_experts) 0).

Definition cumsum_ids (exp_cnt : list Z) (num_experts : Z) : res (list Z) :=
  c0 ← py_get exp_cnt 0;
  cum ← py_set (replicate (Z.to_nat num_experts) 0) 0 c0;
  py_for (fun cum i => a ← py_get cum (i - 1); b ← py_get exp_cnt i; py_set cum i (a + b))
    (py_range2 1 num_experts) cum.

Definition place_id (s : list Z * list Z) (x : Z * Z) : res (list Z * list Z) :=
  c ← py_get s.1 x.2;
  cum ← py_set s.1 x.2 (c - 1);
  v ← py_get cum x.2;
  mappings ← py_set s.2 x.1 v;
  Ok (cum, mappings).

Definition get_mappings_from_exp_ids (exp_ids : list Z) (num_experts : Z)
    : res (list Z * list Z) :=
  exp_cnt ← count_ids exp_ids num_experts;
  exp_cumsum ← cumsum_ids exp_cnt num_experts;
  s ← py_for place_id (enumerate exp_ids) (exp_cumsum, replicate (length exp_ids) 0);
  Ok (s.2, exp_cnt).

(** ** Mappings on the device

    [sort l] is torch's [l.sort()]: the sorted values and the index each value
    came from.  [cumsum(ones) - 1] is [0, 1, ..., n-1]; the scatter
    [mappings[rankings] = idx] writes [idx[k]] at [rankings[k]]. *)

Definition get_mappings_from_exp_ids_cuda (sort : list Z -> list Z * list Z) (exp_ids : list Z)
    : res (list Z * list Z) :=
  let rankings := (sort exp_ids).2 in
  let idx := py_range (zlen rankings) in
  mappings ← py_for (fun m x => py_set m x.1 x.2) (zip rankings idx) idx;
  Ok (mappings, []).

(** ** The permutation kernel

    The tensors are flat buffers; program [(token_id, block_id)] copies
    [BLOCK_SIZE] consecutive elements, with no mask.  An access outside a buffer
    faults. *)

Section Permute.
Context {T : Type}.

Definition load_block (buf : list T) (start n : Z) : res (list T) :=
  if (0 <=? start) && (start + n <=? zlen buf)
  then Ok (take (Z.to_nat n) (drop (Z.to_nat start) buf)) else Raise IndexError.

Definition store_block (buf : list T) (start : Z) (xs : list T) : res (list T) :=
  if (0 <=? start) && (start + zlen xs <=? zlen buf)
  then Ok (take (Z.to_nat start) buf ++ xs ++ drop (Z.to_nat (start + zlen xs)) buf)
  else Raise IndexError.

Definition _permute_tokens_kernel (inp : list T) (mapping : list Z) (hidden_size BLOCK_SIZE : Z)
    (out : list T) (pid : Z * Z) : res (list T) :=
  target_pos ← py_get mapping pid.1;
  let src_start := pid.1 * hidden_size + pid.2 * BLOCK_SIZE in
  src_data ← load_block inp src_start BLOCK_SIZE;
  let target_start := target_pos * hidden_size + pid.2 * BLOCK_SIZE in
  store_block out target_start src_data.

Definition cdiv (a b : Z) : Z := (a + b - 1) / b.

Definition grid (num_tokens hidden_size BLOCK_SIZE : Z) : list (Z * Z) :=
  t ← py_range num_tokens; b ← py_range (cdiv hidden_size BLOCK_SIZE); [(t, b)].

(** [permute_tokens_triton]: the launch runs the programs of the grid in an
    order [sched] the hardware chooses; [empty] is the uninitialised output. *)
Definition permute_tokens_triton (tokens : list T) (num_tokens hidden_size : Z) (mappings : list Z)
    (sched : list (Z * Z)) (empty : list T) : res (list T) :=
  py_for (_permute_tokens_kernel tokens mappings hidden_size 1024) sched empty.
End Permute.

(** ** Counting sort: what the mapping is *)

Definition count (e : Z) (l : list Z) : Z := zlen (filter (fun x => x = e) l).
Definition count_lt (e : Z) (l : list Z) : Z := zlen (filter (fun x => x < e) l).

(** Token [i] goes after all tokens of lower experts and after the later tokens
    of its own expert. *)
Definition target (l : list Z) (i : nat) (e : Z) : Z := count_lt e l + count e (drop (S i) l).

Lemma count_app e l k : count e (l ++ k) = count e l + count e k.
Proof. unfold count. by rewrite filter_app, zlen_app. Qed.

Lemma count_cons e a l : count e (a :: l) = (if decide (a = e) then 1 else 0) + count e l.
Proof. unfold count. rewrite filter_cons. case_decide; [rewrite zlen_cons|]; lia. Qed.

Lemma count_nonneg e l : 0 <= count e l.
Proof. apply zlen_nonneg. Qed.

Lemma count_lt_cons e a l : count_lt e (a :: l) = (if decide (a < e) then 1 else 0) + count_lt e l.
Proof. unfold count_lt. rewrite filter_cons. case_decide; [rewrite zlen_cons|]; lia. Qed.

Lemma count_lt_succ e l : count_lt (e + 1) l = count_lt e l + count e l.
Proof.
  induction l as [|a l IH]; [done|]. rewrite !count_lt_cons, count_cons, IH.
  repeat case_decide; lia.
Qed.

Lemma count_lt_mono e e' l : e <= e' -> count_lt e l <= count_lt e' l.
Proof.
  intros. induction l as [|a l IH]; [done|]. rewrite !count_lt_cons. repeat case_decide; lia.
Qed.

Lemma count_lt_length e l : count_lt e l <= zlen l.
Proof. induction l as [|a l IH]; [done|]. rewrite count_lt_cons, zlen_cons. case_decide; lia. Qed.

Lemma count_lt_0 l : Forall (fun x => 0 <= x) l -> count_lt 0 l = 0.
Proof. induction 1 as [|a l Ha _ IH]; [done|]. rewrite count_lt_cons, IH. case_decide; lia. Qed.

Lemma count_split l i e :
  l !! i = Some e -> count e l = count e (take i l) + 1 + count e (drop (S i) l).
Proof.
  intros Hi. rewrite <-(take_drop_middle l i e) at 1 by done.
  rewrite count_app, count_cons, decide_True by done. lia.
Qed.

Lemma count_drop_lt l i j e :
  (i < j)%nat -> l !! j = Some e -> count e (drop (S j) l) < count e (drop (S i) l).
Proof.
  intros Hij Hj. replace (S j) with (S i + (S j - S i))%nat by lia. rewrite <-drop_drop.
  assert (Hl : drop (S i) l !! (j - S i)%nat = Some e) by (rewrite lookup_drop, <-Hj; f_equal; lia).
  rewrite (count_split _ _ _ Hl). replace (S j - S i)%nat with (S (j - S i)) by lia.
  pose proof (count_nonneg e (take (j - S i) (drop (S i) l))). lia.
Qed.

(** Lower experts come first, and tokens of one expert are in reverse order. *)
Lemma target_lt l i j e e' :
  l !! i = Some e -> l !! j = Some e' -> e < e' \/ e = e' /\ (j < i)%nat ->
  target l i e < target l j e'.
Proof.
  unfold target. intros Hi Hj [Hlt|[-> Hij]].
  - pose proof (count_lt_mono (e + 1) e' l ltac:(lia)). rewrite count_lt_succ in H.
    pose proof (count_split l i e Hi). pose proof (count_nonneg e (take i l)).
    pose proof (count_nonneg e' (drop (S j) l)). lia.
  - pose proof (count_drop_lt l j i e' Hij Hi). lia.
Qed.

Lemma target_range l i e : l !! i = Some e -> 0 <= target l i e < zlen l.
Proof.
  intros Hi. unfold target. pose proof (count_nonneg e (drop (S i) l)).
  pose proof (count_split l i e Hi). pose proof (count_nonneg e (take i l)).
  pose proof (count_lt_length (e + 1) l). rewrite count_lt_succ in *.
  pose proof (zlen_nonneg (filter (fun x => x < e) l)). unfold count_lt in *. lia.
Qed.

Lemma target_inj l i j e e' :
  l !! i = Some e -> l !! j = Some e' -> target l i e = target l j e' -> i = j.
Proof.
  intros Hi Hj Heq. destruct (decide (i = j)) as [|Hne]; [done|].
  destruct (Z.lt_trichotomy e e') as [?|[->|?]].
  - pose proof (target_lt l i j e e' Hi Hj). lia.
  - destruct (decide (i < j)%nat).
    + pose proof (target_lt l j i e' e' Hj Hi). lia.
    + pose proof (target_lt l i j e' e' Hi Hj). lia.
  - pose proof (target_lt l j i e' e Hj Hi). lia.
Qed.

(** ** The loops *)

Section Loops.
Context (ids : list Z) (E : Z).
Hypothesis HE : 0 < E.
Hypothesis Hids : Forall (fun x => 0 <= x < E) ids.

Lemma count_ids_eq : count_ids ids E = Ok (tab E (fun e => count e ids)).
Proof.
  unfold count_ids. rewrite replicate_tab.
  destruct (py_for_total (fun pre c => c = tab E (fun e => count e pre))
    (fun cnt id => c ← py_get cnt id; py_set cnt id (c + 1)) ids (tab E (fun _ => 0)))
    as (c & -> & ->); [done| |done].
  intros pre a post t Hl ->.
  assert (Ha : 0 <= a < E) by (rewrite Hl, Forall_app, Forall_cons in Hids; naive_solver).
  rewrite py_get_tab by done. simpl. rewrite py_set_tab by done. eexists; split; [done|].
  apply tab_ext. intros i Hi. unfold upd. rewrite count_app, count_cons.
  change (count i []) with 0. destruct (Z.eqb_spec i a) as [->|]; case_decide; lia.
Qed.

Lemma cumsum_ids_eq :
  cumsum_ids (tab E (fun e => count e ids)) E = Ok (tab E (fun e => count_lt (e + 1) ids)).
Proof.
  unfold cumsum_ids. rewrite replicate_tab, py_get_tab by lia. simpl.
  rewrite py_set_tab by lia. simpl.
  assert (H0 : count 0 ids = count_lt (0 + 1) ids).
  { rewrite count_lt_succ, count_lt_0; [lia|]. eapply Forall_impl; [done|]. simpl. lia. }
  destruct (py_for_total
    (fun pre c => c = tab E (fun e => if e <=? zlen pre then count_lt (e + 1) ids else 0))
    (fun cum i => a ← py_get cum (i - 1); b ← py_get (tab E (fun e => count e ids)) i;
       py_set cum i (a + b)) (py_range2 1 E) (tab E (upd (fun _ => 0) 0 (count 0 ids))))
    as (c & -> & ->).
  - apply tab_ext. intros i Hi. unfold upd. change (zlen []) with 0.
    destruct (Z.eqb_spec i 0) as [->|]; zcases; try lia.
  - intros pre i post t Hr ->.
    assert (Hi : i = 1 + zlen pre /\ i < E).
    { assert (Hlk : seqZ 1 (E - 1) !! length pre = Some i)
        by (unfold py_range2 in Hr; rewrite Hr; by apply list_lookup_middle).
      apply lookup_seqZ in Hlk. unfold zlen. lia. }
    pose proof (zlen_nonneg pre).
    rewrite !py_get_tab by lia. simpl. rewrite py_set_tab by lia. eexists; split; [done|].
    apply tab_ext. intros j Hj. unfold upd. rewrite zlen_app, (zlen_cons i []).
    change (zlen []) with 0.
    assert (Hs : count_lt (i - 1 + 1) ids + count i ids = count_lt (i + 1) ids)
      by (rewrite (count_lt_succ i); replace (i - 1 + 1) with i by lia; done).
    destruct (Z.eqb_spec j i) as [->|]; zcases; try lia.
  - f_equal. apply tab_ext. intros i Hi. unfold py_range2, zlen. rewrite length_seqZ. zcases; lia.
Qed.

Definition mapping_of (i : Z) : Z :=
  match ids !! Z.to_nat i with Some e => target ids (Z.to_nat i) e | None => 0 end.

Lemma place_loop_eq :
  exists cum, py_for place_id (enumerate ids)
    (tab E (fun e => count_lt (e + 1) ids), tab (zlen ids) (fun _ => 0))
  = Ok (cum, tab (zlen ids) mapping_of).
Proof.
  destruct (py_for_total (fun pre s =>
      s.1 = tab E (fun e => count_lt (e + 1) ids - count e pre.*2) /\
      s.2 = tab (zlen ids) (fun i => if i <? zlen pre then mapping_of i else 0))
    place_id (enumerate ids)
    (tab E (fun e => count_lt (e + 1) ids), tab (zlen ids) (fun _ => 0)))
    as ([cum m] & Heq & Hc & Hm).
  - split; apply tab_ext; intros i Hi.
    + change (count i [].*2) with 0. lia.
    + change (zlen []) with 0. zcases; lia.
  - intros pre [i e] post [cum m] Hl [Hc Hm]. simpl in Hc, Hm. subst.
    apply enum_prefix in Hl as (-> & He & Hpre).
    assert (HeE : 0 <= e < E) by (by eapply Forall_lookup_1 in Hids).
    assert (Hlt : zlen pre < zlen ids) by (apply lookup_lt_Some in He; unfold zlen; lia).
    pose proof (zlen_nonneg pre).
    assert (Hv : count_lt (e + 1) ids - count e pre.*2 - 1 = mapping_of (zlen pre)).
    { unfold mapping_of, zlen. rewrite Nat2Z.id, He. unfold target.
      rewrite count_lt_succ, (count_split _ _ _ He), Hpre. lia. }
    unfold place_id. cbn [fst snd]. rewrite py_get_tab by done. simpl.
    rewrite py_set_tab by done. simpl. rewrite py_get_tab by done. simpl.
    rewrite py_set_tab by lia. simpl. eexists; split; [done|]. simpl. split.
    + apply tab_ext. intros j Hj. unfold upd. rewrite fmap_app, count_app. simpl.
      rewrite count_cons. change (count j []) with 0.
      destruct (Z.eqb_spec j e) as [->|]; case_decide; lia.
    + apply tab_ext. intros j Hj. rewrite zlen_app, zlen_cons. change (zlen []) with 0.
      unfold upd. rewrite Z.eqb_refl, Hv. destruct (Z.eqb_spec j (zlen pre)) as [->|]; zcases; lia.
  - exists cum. rewrite Heq. simpl in Hm. rewrite Hm. do 2 f_equal. apply tab_ext.
    intros i Hi. unfold zlen at 1. rewrite enum_length. unfold zlen in Hi. zcases; lia.
Qed.
End Loops.

Lemma mapping_lookup ids i e :
  ids !! i = Some e -> tab (zlen ids) (mapping_of ids) !! i = Some (target ids i e).
Proof.
  intros Hi. pose proof (lookup_lt_Some _ _ _ Hi). rewrite <-(Nat2Z.id i) at 1.
  rewrite tab_lookup by (unfold zlen; lia). unfold mapping_of. by rewrite Nat2Z.id, Hi.
Qed.

Lemma mapping_perm ids : tab (zlen ids) (mapping_of ids) ≡ₚ py_range (zlen ids).
Proof.
  assert (Hget : forall i v, tab (zlen ids) (mapping_of ids) !! i = Some v ->
    exists e, ids !! i = Some e /\ v = target ids i e).
  { intros i v Hv. pose proof (lookup_lt_Some _ _ _ Hv) as Hlt. rewrite tab_length in Hlt.
    destruct (lookup_lt_is_Some_2 ids i) as [e He]; [unfold zlen in Hlt; lia|].
    rewrite (mapping_lookup _ _ _ He) in Hv. naive_solver. }
  apply submseteq_length_Permutation.
  - apply NoDup_submseteq.
    + apply NoDup_alt. intros i j x Hi Hj.
      apply Hget in Hi as (e & Hi & ->). apply Hget in Hj as (e' & Hj & Heq).
      by eapply target_inj.
    + intros x [i Hi]%list_elem_of_lookup_1. apply Hget in Hi as (e & Hi & ->).
      apply elem_of_py_range. by apply target_range.
  - rewrite tab_length, py_range_length. lia.
Qed.

Lemma get_mappings_eq ids E :
  0 < E -> Forall (fun x => 0 <= x < E) ids ->
  get_mappings_from_exp_ids ids E
  = Ok (tab (zlen ids) (mapping_of ids), tab E (fun e => count e ids)).
Proof.
  intros HE Hids. unfold get_mappings_from_exp_ids.
  rewrite count_ids_eq by done. simpl. rewrite cumsum_ids_eq by done. simpl.
  replace (replicate (length ids) 0) with (tab (zlen ids) (fun _ => 0)).
  2:{ rewrite <-replicate_tab. unfold zlen. by rewrite Nat2Z.id. }
  by destruct (place_loop_eq ids E Hids) as [cum ->].
Qed.

(** ** The device mapping *)

(** A scatter to distinct positions: each position holds what was sent to it. *)
Lemma scatter_loop (ps : list (Z * Z)) (m : list Z) :
  NoDup ps.*1 -> Forall (fun p => 0 <= p < zlen m) ps.*1 ->
  exists m', py_for (fun m x => py_set m x.1 x.2) ps m = Ok m' /\ length m' = length m /\
    forall p v, (p, v) ∈ ps -> m' !! Z.to_nat p = Some v.
Proof.
  intros Hnd Hr.
  destruct (py_for_total (fun pre m' => length m' = length m /\
      forall p v, (p, v) ∈ pre -> m' !! Z.to_nat p = Some v)
    (fun m x => py_set m x.1 x.2) ps m) as (m' & Hm & H1 & H2); [|..|eauto].
  { split; [done|]. intros p v []%not_elem_of_nil. }
  intros pre [p v] post t Hps [Hlen Hpre]. subst ps.
  rewrite fmap_app, fmap_cons in Hnd, Hr. simpl in *.
  apply Forall_app in Hr as [Hr1 [Hp _]%Forall_cons]. apply NoDup_app in Hnd as (_ & Hd & _).
  rewrite py_set_nonneg by (unfold zlen in *; lia). eexists; split; [done|].
  rewrite length_insert. split; [done|]. intros p' v' [Hin|Hin]%elem_of_app.
  - assert (p' ∈ pre.*1) by (apply list_elem_of_fmap; by exists (p', v')).
    assert (p' <> p) by (intros ->; apply (Hd p); [done|]; left).
    rewrite Forall_forall in Hr1. pose proof (Hr1 p' ltac:(done)).
    rewrite list_lookup_insert_ne by lia. auto.
  - apply list_elem_of_singleton in Hin. simplify_eq.
    apply list_lookup_insert_eq. unfold zlen in *. lia.
Qed.

(** In a sorted list the elements equal to [e] occupy the positions between the
    number of smaller elements and the number of elements at most [e]. *)
Lemma sorted_lookup s e (k : nat) :
  StronglySorted Z.le s -> count_lt e s <= Z.of_nat k < count_lt (e + 1) s -> s !! k = Some e.
Proof.
  intros Hs. revert k. induction Hs as [|a s Hs IH Ha]; intros k Hk; [change (count_lt (e + 1) []) with 0 in Hk; lia|].
  rewrite !count_lt_cons in Hk.
  assert (H0 : e <= a -> count_lt e s = 0).
  { intros He. clear -Ha He. induction Ha as [|x s Hx _ IH]; [done|].
    rewrite count_lt_cons, IH. case_decide; lia. }
  assert (H1 : e < a -> count_lt (e + 1) s = 0).
  { intros He. clear -Ha He. induction Ha as [|x s Hx _ IH]; [done|].
    rewrite count_lt_cons, IH. case_decide; lia. }
  destruct k as [|k]; simpl.
  - pose proof (zlen_nonneg (filter (fun x => x < e) s)). fold (count_lt e s) in *.
    f_equal. repeat case_decide; lia.
  - apply IH. repeat case_decide; lia.
Qed.

#[export] Instance count_lt_perm e : Proper ((≡ₚ) ==> (=)) (count_lt e).
Proof. intros l k Hlk. unfold count_lt, zlen. by rewrite Hlk. Qed.

Lemma sorted_target ids s i e :
  StronglySorted Z.le s -> s ≡ₚ ids -> ids !! i = Some e ->
  s !! Z.to_nat (target ids i e) = Some e.
Proof.
  intros Hs Hperm Hi. pose proof (target_range _ _ _ Hi). apply sorted_lookup; [done|].
  rewrite Hperm, Z2Nat.id by lia. rewrite count_lt_succ, (count_split _ _ _ Hi). unfold target.
  pose proof (count_nonneg e (take i ids)). pose proof (count_nonneg e (drop (S i) ids)). lia.
Qed.

(** The documented behaviour of [torch.sort]: sorted values, and for each value
    the index it had. *)
Record sort_spec (sort : list Z -> list Z * list Z) : Prop := {
  sort_sorted : forall l, StronglySorted Z.le (sort l).1;
  sort_perm : forall l, (sort l).2 ≡ₚ py_range (zlen l);
  sort_values : forall l k i, (sort l).2 !! k = Some i -> (sort l).1 !! k = l !! Z.to_nat i;
  sort_length : forall l, length (sort l).1 = length l;
}.

Lemma sort_values_perm sort l : sort_spec sort -> (sort l).1 ≡ₚ l.
Proof.
  intros H. transitivity ((fun i => default 0 (l !! Z.to_nat i)) <$> (sort l).2).
  - enough (Heq : (sort l).1 = (fun i => default 0 (l !! Z.to_nat i)) <$> (sort l).2)
      by (by rewrite Heq). apply list_eq. intros k. rewrite list_lookup_fmap.
    destruct ((sort l).2 !! k) as [i|] eqn:E; simpl.
    + rewrite (sort_values _ H _ _ _ E).
      assert (Hi : i ∈ py_range (zlen l))
        by (rewrite <-(sort_perm _ H l); by eapply list_elem_of_lookup_2).
      apply elem_of_py_range in Hi.
      destruct (lookup_lt_is_Some_2 l (Z.to_nat i)) as [x ->]; [unfold zlen in Hi; lia|done].
    + apply lookup_ge_None. apply lookup_ge_None in E. rewrite sort_length by done.
      rewrite (sort_perm _ H), py_range_length in E. unfold zlen in E. lia.
  - rewrite (sort_perm _ H). fold (tab (zlen l) (fun i => default 0 (l !! Z.to_nat i))).
    by rewrite <-tab_of_list.
Qed.

Lemma cuda_mappings sort ids :
  sort_spec sort ->
  exists m, get_mappings_from_exp_ids_cuda sort ids = Ok (m, []) /\ length m = length ids /\
    forall i e, ids !! i = Some e ->
      exists v, m !! i = Some v /\ 0 <= v /\ (sort ids).1 !! Z.to_nat v = Some e.
Proof.
  intros H. unfold get_mappings_from_exp_ids_cuda. pose proof (sort_perm _ H ids) as Hp.
  set (r := (sort ids).2) in *.
  assert (Hlen : length r = length ids) by (rewrite Hp, py_range_length; unfold zlen; lia).
  assert (Hfst : (zip r (py_range (zlen r))).*1 = r)
    by (apply fst_zip; rewrite py_range_length; unfold zlen; lia).
  destruct (scatter_loop (zip r (py_range (zlen r))) (py_range (zlen r))) as (m & -> & Hm & Hv).
  - rewrite Hfst, Hp. apply py_range_NoDup.
  - rewrite Hfst. rewrite Forall_forall. intros p Hin. rewrite Hp in Hin.
    apply elem_of_py_range in Hin. unfold zlen at 1. rewrite py_range_length.
    unfold zlen in *. lia.
  - exists m. split; [done|]. rewrite Hm, py_range_length. split; [unfold zlen; lia|].
    intros i e Hi. assert (Hin : Z.of_nat i ∈ r).
    { rewrite Hp. apply elem_of_py_range. apply lookup_lt_Some in Hi. unfold zlen. lia. }
    apply list_elem_of_lookup in Hin as [k Hk].
    assert (Hzip : (Z.of_nat i, Z.of_nat k) ∈ zip r (py_range (zlen r))).
    { apply list_elem_of_lookup. exists k. rewrite lookup_zip_with, Hk. simpl.
      unfold py_range. rewrite lookup_seqZ_lt; [done|]. apply lookup_lt_Some in Hk. unfold zlen. lia. }
    apply Hv in Hzip. rewrite Nat2Z.id in Hzip. exists (Z.of_nat k).
    split; [done|]. split; [lia|]. rewrite Nat2Z.id, (sort_values _ H _ _ _ Hk), Nat2Z.id. done.
Qed.

(** ** The kernel *)

Section Kernel.
Context {T : Type}.
Implicit Types (buf xs inp out : list T).

Lemma store_lookup buf start xs buf' (j : nat) :
  store_block buf start xs = Ok buf' ->
  length buf' = length buf /\
  buf' !! j = if decide (start <= Z.of_nat j < start + zlen xs)
              then xs !! (j - Z.to_nat start)%nat else buf !! j.
Proof.
  unfold store_block. zcases; simpl; intros Heq; inv_ok.
  pose proof (zlen_nonneg xs). unfold zlen in *.
  assert (Hl : length (take (Z.to_nat start) buf) = Z.to_nat start) by (rewrite length_take; lia).
  split; [rewrite !length_app, Hl, length_drop; lia|].
  case_decide.
  - rewrite lookup_app_r, Hl, lookup_app_l by lia. done.
  - destruct (decide (Z.of_nat j < start)).
    + rewrite lookup_app_l by lia. rewrite lookup_take_lt by lia. done.
    + rewrite lookup_app_r, Hl, lookup_app_r, lookup_drop by lia. f_equal. lia.
Qed.

Lemma load_Ok buf start n :
  0 <= start -> 0 <= n -> start + n <= zlen buf ->
  exists xs, load_block buf start n = Ok xs /\ zlen xs = n /\
    forall k, 0 <= k < n -> xs !! Z.to_nat k = buf !! Z.to_nat (start + k).
Proof.
  intros. unfold load_block. zcases; try lia; simpl. eexists; split; [done|]. split.
  - unfold zlen in *. rewrite length_take, length_drop. lia.
  - intros k Hk. rewrite lookup_take_lt by lia. rewrite lookup_drop. f_equal. lia.
Qed.

Lemma kernel_raises inp mapping H B out pid e :
  _permute_tokens_kernel inp mapping H B out pid = Raise e -> e = IndexError.
Proof.
  unfold _permute_tokens_kernel, py_get, load_block, store_block.
  destruct (py_index mapping pid.1) as [i|]; simpl; [|naive_solver].
  destruct (mapping !! i); simpl; [|naive_solver].
  repeat (case_match; simpl; try naive_solver).
Qed.

Section Exact.
Context (inp : list T) (mapping : list Z) (n H B q : Z).
Hypothesis HB : 0 < B.
Hypothesis Hq : H = q * B.
Hypothesis Hinp : zlen inp = n * H.
Hypothesis Hmap : mapping ≡ₚ py_range n.

Definition program_done (out : list T) (p : Z * Z) : Prop :=
  forall m k, mapping !! Z.to_nat p.1 = Some m -> 0 <= k < B ->
    out !! Z.to_nat (m * H + p.2 * B + k) = inp !! Z.to_nat (p.1 * H + p.2 * B + k).

Lemma mapping_range i m : mapping !! i = Some m -> 0 <= m < n.
Proof.
  intros Hi%list_elem_of_lookup_2. rewrite Hmap in Hi. by apply elem_of_py_range in Hi.
Qed.

Lemma block_bound m b : 0 <= m < n -> 0 <= b < q -> 0 <= m * H + b * B /\ m * H + b * B + B <= n * H.
Proof.
  intros. subst H. assert (0 <= m * q + b /\ m * q + b + 1 <= n * q) by nia.
  replace (m * (q * B) + b * B) with ((m * q + b) * B) by ring.
  replace (n * (q * B)) with ((n * q) * B) by ring. nia.
Qed.

(** Blocks of distinct programs do not overlap in the output. *)
Lemma blocks_disjoint t t' m m' b b' k k' :
  mapping !! t = Some m -> mapping !! t' = Some m' ->
  0 <= b < q -> 0 <= b' < q -> 0 <= k < B -> 0 <= k' < B ->
  m * H + b * B + k = m' * H + b' * B + k' -> t = t' /\ b = b' /\ k = k'.
Proof.
  intros Ht Ht' Hb Hb' Hk Hk' Heq. subst H.
  destruct (Z.div_mod_unique B (m * q + b) (m' * q + b') k k') as [E1 ->]; [lia..|nia|].
  destruct (Z.div_mod_unique q m m' b b') as [-> ->]; [lia..|nia|].
  assert (Hnd : NoDup mapping) by (rewrite Hmap; apply py_range_NoDup).
  split; [|done]. by eapply NoDup_lookup.
Qed.

Lemma kernel_step out t b :
  zlen out = n * H -> 0 <= t < n -> 0 <= b < q ->
  exists out', _permute_tokens_kernel inp mapping H B out (t, b) = Ok out' /\
    zlen out' = n * H /\ program_done out' (t, b) /\
    forall t' b', 0 <= t' -> 0 <= b' < q -> (t', b') <> (t, b) ->
      program_done out (t', b') -> program_done out' (t', b').
Proof.
  intros Hout Ht Hb. unfold _permute_tokens_kernel. cbn [fst snd].
  assert (Hlen : zlen mapping = n) by (unfold zlen; rewrite Hmap, py_range_length; lia).
  destruct (lookup_lt_is_Some_2 mapping (Z.to_nat t)) as [m Hm]; [unfold zlen in Hlen; lia|].
  pose proof (mapping_range _ _ Hm) as Hmr.
  rewrite (proj2 (py_get_Ok mapping t m ltac:(lia)) Hm). simpl.
  pose proof (block_bound t b ltac:(lia) Hb) as [Hs1 Hs2].
  pose proof (block_bound m b Hmr Hb) as [Hd1 Hd2].
  destruct (load_Ok inp (t * H + b * B) B) as (xs & -> & Hxs & Hv); [lia..|]. simpl.
  unfold store_block at 1. rewrite Hxs, Hout.
  rewrite (proj2 (Z.leb_le _ _) Hd1), (proj2 (Z.leb_le _ _) Hd2). simpl.
  set (out' := _ ++ _).
  assert (Hst : store_block out (m * H + b * B) xs = Ok out').
  { unfold store_block. rewrite Hxs, Hout.
    by rewrite (proj2 (Z.leb_le _ _) Hd1), (proj2 (Z.leb_le _ _) Hd2). }
  exists out'. split; [done|].
  pose proof (fun j => store_lookup _ _ _ _ j Hst) as Hlk. rewrite Hxs in Hlk. split_and!.
  - unfold zlen in *. destruct (Hlk 0%nat) as [-> _]. done.
  - intros m' k Hm' Hk. simpl in *. rewrite Hm in Hm'. simplify_eq.
    rewrite (proj2 (Hlk _)). rewrite decide_True by lia.
    rewrite <-Hv by done. f_equal. lia.
  - intros t' b' Ht' Hb' Hne Hdone m' k Hm' Hk. simpl in *. rewrite (proj2 (Hlk _)).
    pose proof (mapping_range _ _ Hm') as Hr'.
    pose proof (block_bound m' b' Hr' Hb') as [? ?]. rewrite Z2Nat.id by lia. case_decide as Hin.
    + destruct Hne. destruct (blocks_disjoint _ _ m' m b' b k (m' * H + b' * B + k - (m * H + b * B))
        Hm' Hm) as (Et & -> & _); try lia. f_equal. lia.
    + by apply Hdone.
Qed.

Lemma kernel_loop sched empty :
  sched ≡ₚ (t ← py_range n; b ← py_range q; [(t, b)]) -> zlen empty = n * H ->
  exists out, py_for (_permute_tokens_kernel inp mapping H B) sched empty = Ok out /\
    zlen out = n * H /\ forall t b, 0 <= t < n -> 0 <= b < q -> program_done out (t, b).
Proof.
  intros Hs He.
  assert (Hmem : forall t b, (t, b) ∈ sched <-> 0 <= t < n /\ 0 <= b < q).
  { intros t b. rewrite Hs, list_elem_of_bind. setoid_rewrite list_elem_of_bind.
    setoid_rewrite elem_of_py_range. setoid_rewrite list_elem_of_singleton. naive_solver. }
  destruct (py_for_total (fun pre out => zlen out = n * H /\ forall t b, (t, b) ∈ pre -> program_done out (t, b))
    (_permute_tokens_kernel inp mapping H B) sched empty) as (out & Hout & Hl & Hd).
  - split; [done|]. intros t b []%not_elem_of_nil.
  - intros pre [t b] post o Heq [Ho Hpre].
    assert (Htb : 0 <= t < n /\ 0 <= b < q) by (apply Hmem; rewrite Heq; set_solver).
    destruct (kernel_step o t b) as (o' & Hk & Hl' & Hd' & Hold); [done|lia..|].
    exists o'. split; [done|]. split; [done|]. intros t' b' [Hin|Hin]%elem_of_app; [|set_solver].
    destruct (decide ((t', b') = (t, b))) as [->|Hne]; [done|].
    assert (0 <= t' < n /\ 0 <= b' < q) by (apply Hmem; rewrite Heq; set_solver).
    apply Hold; [lia..|done|]. by apply Hpre.
  - exists out. split; [done|]. split; [done|]. intros t b Ht Hb. apply Hd, Hmem. lia.
Qed.
End Exact.

End Kernel.

(** [get_mappings_from_exp_ids] succeeds on expert ids below [num_experts]
    and is a counting sort: the mapping is a permutation of the rows, the target
    of token [i] is the number of tokens of lower experts plus the number of later
    tokens of its own expert, so the rows of an expert are contiguous and experts
    are in order; the counts it returns are the numbers of tokens per expert. *)
Theorem get_mappings_exact (exp_ids : list Z) (num_experts : Z) :
  0 < num_experts -> Forall (fun e => 0 <= e < num_experts) exp_ids ->
  exists mappings exp_cnt,
    get_mappings_from_exp_ids exp_ids num_experts = Ok (mappings, exp_cnt) /\
    mappings ≡ₚ py_range (zlen exp_ids) /\
    (forall i e, exp_ids !! i = Some e ->
       mappings !! i = Some (count_lt e exp_ids + count e (drop (S i) exp_ids))) /\
    (forall i j mi mj ei ej, mappings !! i = Some mi -> mappings !! j = Some mj ->
       exp_ids !! i = Some ei -> exp_ids !! j = Some ej -> ei < ej -> mi < mj) /\
    (forall e, 0 <= e < num_experts -> exp_cnt !! Z.to_nat e = Some (count e exp_ids)).
Proof.
  intros HE Hids. eexists _, _. split; [by apply get_mappings_eq|].
  split; [apply mapping_perm|]. split; [apply mapping_lookup|]. split.
  - intros i j mi mj ei ej Hi Hj Hei Hej Hlt.
    rewrite (mapping_lookup _ _ _ Hei) in Hi. rewrite (mapping_lookup _ _ _ Hej) in Hj.
    simplify_eq. apply target_lt; auto.
  - intros e He. by rewrite tab_lookup.
Qed.

Lemma get_mappings_exact_witness :
  exists mappings exp_cnt,
    get_mappings_from_exp_ids [2; 0; 2; 1] 4 = Ok (mappings, exp_cnt) /\
    mappings ≡ₚ py_range 4 /\
    mappings !! 0%nat = Some (count_lt 2 [2; 0; 2; 1] + count 2 (drop 1 [2; 0; 2; 1])).
Proof.
  destruct (get_mappings_exact [2; 0; 2; 1] 4) as (m & c & H & Hp & Hv & _);
    [lia|repeat constructor; lia|].
  exists m, c. split; [exact H|]. split; [exact Hp|]. by apply Hv.
Defined.

(** The host and the device mapping lay the experts out alike: moving every
    token to its target gives one and the same sorted list of expert ids for both,
    whatever order the device sort gives tokens of one expert. *)
Theorem mappings_same_layout (sort : list Z -> list Z * list Z) (exp_ids : list Z)
    (num_experts : Z) :
  sort_spec sort -> 0 < num_experts -> Forall (fun e => 0 <= e < num_experts) exp_ids ->
  exists host cnt device layout,
    get_mappings_from_exp_ids exp_ids num_experts = Ok (host, cnt) /\
    get_mappings_from_exp_ids_cuda sort exp_ids = Ok (device, []) /\
    layout ≡ₚ exp_ids /\ StronglySorted Z.le layout /\
    forall i e, exp_ids !! i = Some e ->
      (exists v, host !! i = Some v /\ layout !! Z.to_nat v = Some e) /\
      (exists v, device !! i = Some v /\ layout !! Z.to_nat v = Some e).
Proof.
  intros Hsort HE Hids. destruct (cuda_mappings sort exp_ids Hsort) as (m & Hm & _ & Hv).
  eexists _, _, m, (sort exp_ids).1.
  split; [by apply get_mappings_eq|]. split; [done|].
  pose proof (sort_values_perm sort exp_ids Hsort) as Hperm. pose proof (sort_sorted _ Hsort exp_ids) as Hs.
  split; [done|]. split; [done|]. intros i e Hi. split.
  - eexists. split; [by apply mapping_lookup|]. by apply sorted_target.
  - destruct (Hv i e Hi) as (v & ? & ? & ?). eauto.
Qed.

(** An index sort meeting [sort_spec]: insertion of each index by its value. *)
Fixpoint insert_by (f : Z -> Z) (i : Z) (l : list Z) : list Z :=
  match l with
  | [] => [i]
  | j :: l => if f i <=? f j then i :: j :: l else j :: insert_by f i l
  end.
Definition index_sort (l : list Z) : list Z * list Z :=
  let f i := default 0 (l !! Z.to_nat i) in
  let r := foldr (insert_by f) [] (py_range (zlen l)) in (f <$> r, r).

Lemma insert_by_perm f i l : insert_by f i l ≡ₚ i :: l.
Proof.
  induction l as [|j l IH]; simpl; [done|]. case_match; [done|]. rewrite IH. constructor.
Qed.

Lemma insert_by_sorted f i l :
  StronglySorted Z.le (f <$> l) -> StronglySorted Z.le (f <$> insert_by f i l).
Proof.
  induction l as [|j l IH]; [repeat constructor|]. rewrite fmap_cons.
  intros [Hl Hj]%StronglySorted_inv. simpl. destruct (Z.leb_spec (f i) (f j)).
  - repeat constructor; try done. eapply Forall_impl; [done|]. simpl. lia.
  - rewrite fmap_cons. constructor; [by apply IH|]. rewrite insert_by_perm.
    rewrite fmap_cons. constructor; [lia|done].
Qed.

Lemma index_sort_ok : sort_spec index_sort.
Proof.
  assert (Hp : forall f l, foldr (insert_by f) [] l ≡ₚ l).
  { intros f l. induction l as [|i l IH]; simpl; [done|]. by rewrite insert_by_perm, IH. }
  split.
  - intros l. unfold index_sort. simpl. set (f := fun i => _).
    induction (py_range (zlen l)) as [|i r IH]; simpl; [constructor|]. by apply insert_by_sorted.
  - intros l. apply Hp.
  - intros l k i Hk. simpl in *. rewrite list_lookup_fmap, Hk. simpl.
    apply list_elem_of_lookup_2 in Hk. rewrite Hp in Hk. apply elem_of_py_range in Hk.
    destruct (lookup_lt_is_Some_2 l (Z.to_nat i)) as [x ->]; [unfold zlen in Hk; lia|done].
  - intros l. simpl. rewrite length_fmap, Hp, py_range_length. unfold zlen. lia.
Qed.

Lemma mappings_same_layout_witness :
  exists host cnt device layout,
    get_mappings_from_exp_ids [2; 0; 2; 1] 4 = Ok (host, cnt) /\
    get_mappings_from_exp_ids_cuda index_sort [2; 0; 2; 1] = Ok (device, []) /\
    layout ≡ₚ [2; 0; 2; 1].
Proof.
  destruct (mappings_same_layout index_sort [2; 0; 2; 1] 4) as (h & c & dv & lay & H1 & H2 & H3 & _);
    [exact index_sort_ok|lia|repeat constructor; lia|].
  exists h, c, dv, lay. repeat split; assumption.
Defined.

(** The last program of the last token reads past the end of the input when the
    block does not divide the row. *)
Lemma last_program_faults {T} (inp : list T) mapping n H B out out' :
  0 < B -> 0 < H -> 0 < n -> zlen inp = n * H -> H mod B <> 0 ->
  _permute_tokens_kernel inp mapping H B out (n - 1, cdiv H B - 1) <> Ok out'.
Proof.
  intros HB HH Hn Hl Hmod. unfold _permute_tokens_kernel. cbn [fst snd]. intros Heq. inv_ok.
  unfold load_block in *. rewrite Hl in *.
  assert (Hc : H < cdiv H B * B).
  { unfold cdiv. set (c := (H + B - 1) / B).
    pose proof (Z.div_mod (H + B - 1) B ltac:(lia)). pose proof (Z.mod_pos_bound (H + B - 1) B HB).
    assert (H <> c * B) by (intros Hc; apply Hmod; rewrite Hc; apply Z.mod_mul; lia).
    fold c in H2. lia. }
  assert (Hgt : n * H < (n - 1) * H + (cdiv H B - 1) * B + B) by nia.
  rewrite (proj2 (Z.leb_gt _ _) Hgt), andb_false_r in H1. done.
Qed.

(** [permute_tokens_triton] moves row [t] to row [mappings[t]] whatever order
    the programs of the launch run in, provided the hidden size is a multiple of
    the block of 1024 elements; otherwise every launch on a non-empty batch
    accesses memory outside the tensors, because the kernel masks nothing. *)
Theorem permute_tokens_triton_exact {T} (tokens empty : list T) (num_tokens hidden_size : Z)
    (mappings : list Z) (sched : list (Z * Z)) :
  0 < num_tokens -> 0 < hidden_size ->
  zlen tokens = num_tokens * hidden_size -> zlen empty = num_tokens * hidden_size ->
  mappings ≡ₚ py_range num_tokens -> sched ≡ₚ grid num_tokens hidden_size 1024 ->
  if hidden_size mod 1024 =? 0
  then exists out,
    permute_tokens_triton tokens num_tokens hidden_size mappings sched empty = Ok out /\
    zlen out = num_tokens * hidden_size /\
    forall t m k, 0 <= t -> mappings !! Z.to_nat t = Some m -> 0 <= k < hidden_size ->
      out !! Z.to_nat (m * hidden_size + k) = tokens !! Z.to_nat (t * hidden_size + k)
  else permute_tokens_triton tokens num_tokens hidden_size mappings sched empty = Raise IndexError.
Proof.
  intros Hn HH Ht He Hm Hs. unfold permute_tokens_triton.
  pose proof (Z.div_mod hidden_size 1024 ltac:(lia)) as Hdm.
  pose proof (Z.mod_pos_bound hidden_size 1024 ltac:(lia)).
  destruct (Z.eqb_spec (hidden_size mod 1024) 0) as [H0|H0].
  - set (q := hidden_size / 1024) in *.
    assert (Hq : cdiv hidden_size 1024 = q).
    { unfold cdiv. symmetry. apply (Z.div_unique _ _ _ 1023); lia. }
    unfold grid in Hs. rewrite Hq in Hs.
    destruct (kernel_loop tokens mappings num_tokens hidden_size 1024 q) with sched empty
      as (out & Ho & Hl & Hd); [lia..|done|done|done|done|].
    exists out. split; [done|]. split; [done|]. intros t m k Htp Htm Hk.
    assert (Htn : t < num_tokens).
    { apply lookup_lt_Some in Htm. rewrite Hm, py_range_length in Htm. lia. }
    pose proof (Z.div_mod k 1024 ltac:(lia)). pose proof (Z.mod_pos_bound k 1024 ltac:(lia)).
    assert (Hb : 0 <= k / 1024 < q) by (split; [apply Z.div_pos|apply Z.div_lt_upper_bound]; lia).
    specialize (Hd t (k / 1024) ltac:(lia) Hb m (k mod 1024) Htm ltac:(lia)). simpl in Hd.
    replace (m * hidden_size + k) with (m * hidden_size + k / 1024 * 1024 + k mod 1024) by lia.
    rewrite Hd. f_equal. lia.
  - apply (py_for_raises _ _ _ (num_tokens - 1, cdiv hidden_size 1024 - 1)).
    + intros. by eapply kernel_raises.
    + rewrite Hs. unfold grid.
      assert (0 < cdiv hidden_size 1024) by (apply Z.div_str_pos; lia).
      apply list_elem_of_bind. exists (num_tokens - 1). split; [|apply elem_of_py_range; lia].
      apply list_elem_of_bind. eexists. split; [by left|apply elem_of_py_range; lia].
    + intros. by apply last_program_faults.
Qed.

Lemma permute_tokens_triton_exact_witness :
  (exists out,
    permute_tokens_triton (replicate 1024 7 ++ replicate 1024 8) 2 1024 [1; 0]
      (grid 2 1024 1024) (replicate 2048 0) = Ok out /\ out !! 0%nat = Some 8) /\
  permute_tokens_triton (replicate 2880 7) 1 2880 [0] (grid 1 2880 1024) (replicate 2880 0)
  = Raise IndexError.
Proof.
  split.
  - pose proof (permute_tokens_triton_exact (replicate 1024 7 ++ replicate 1024 8)
      (replicate 2048 0) 2 1024 [1; 0] (grid 2 1024 1024) eq_refl eq_refl) as H.
    destruct H as (out & Ho & _ & Hv); [vm_compute; reflexivity|vm_compute; reflexivity| |reflexivity|].
    { apply Permutation_swap. }
    exists out. split; [exact Ho|]. apply (Hv 1 0 0); [lia|reflexivity|lia].
  - apply (permute_tokens_triton_exact (replicate 2880 7) (replicate 2880 0) 1 2880 [0]
      (grid 1 2880 1024)); [lia|lia|vm_compute; reflexivity|vm_compute; reflexivity|reflexivity|reflexivity].
Defined.

End MemOps.
