(* ===== verification/SlidingWindow.v ===== *)
(** * Sliding-window decode attention ([disagmoe/models/sliding_window.py])

    The window of a decoding token is read in two parts: flash attention runs on
    whole pages through a trimmed block table (part A), the tokens before the first
    whole page (the boundary) are attended by a kernel that merges both results by
    log-sum-exp.  Block tables, positions and addresses are integers as in the
    code; the arithmetic on scores and values is that of the real numbers, so
    rounding is not modelled.  [-inf] is [None].  Flash attention and
    [triton.next_power_of_2] are parameters. *)

From Stdlib Require Import Reals Lra.
From S2P Require Import Prelude.

Module SlidingWindow.

Definition Rsum (f : Z -> R) (l : list Z) : R := foldr (fun x a => (f x + a)%R) 0%R l.

(** ** The kernels *)

(** [_sw_prep_kernel] for the row of a token with context length [c] and block
    table [bt]. *)
Definition _sw_prep_kernel (c : Z) (bt : list Z) (P WIN NB : Z) : res (list Z * Z) :=
  let start := Z.max (c + 1 - WIN) 0 in
  let b1 := Z.quot (start + P - 1) P in
  let n_pages := zlen bt in
  bt_a ← py_map (fun j => py_get bt (Z.min (b1 + j) (n_pages - 1))) (py_range NB);
  Ok (bt_a, c - b1 * P).

(** [tl.max] of a tile that has a value other than [-inf] *)
Fixpoint tile_max (l : list (option R)) : option R :=
  match l with
  | [] => None
  | x :: l => match x, tile_max l with
              | Some a, Some b => Some (Rmax a b)
              | Some a, None => Some a
              | None, r => r
              end
  end.

Section Kernels.
Context (q kf vf : Z -> R) (scale : R) (q_stride_n q_stride_h : Z) (D P G KV WIN : Z).

(** The score of the key at a cache slot. *)
Definition key_score (row h slot : Z) : R :=
  (Rsum (fun d => q (row * q_stride_n + h * q_stride_h + d)%Z
                  * kf (slot * (KV * D) + Z.quot h G * D + d)%Z) (py_range D) * scale)%R.

Definition value_at (h slot d : Z) : R := vf (slot * (KV * D) + Z.quot h G * D + d).

(** The softmax over the boundary lanes and its merge into part A: lane [p] has
    score [s p], [None] when masked; [cnt] lanes are valid. *)
Definition merge_lanes (cnt : Z) (s : Z -> option R) (vtile : Z -> Z -> R)
    (out_a : Z -> R) (lse_a : R) : (Z -> R) * R :=
  let has := 0 <? cnt in
  let mb := if has then default 0%R (tile_max (s <$> py_range P)) else 0%R in
  let pe p := match s p with Some x => exp (x - mb) | None => 0%R end in
  let tot := Rsum pe (py_range P) in
  let acc d := Rsum (fun p => (pe p * vtile p d)%R) (py_range P) in
  let safe := if Rlt_dec 0 tot then tot else 1%R in
  let lse_b := if has then Some (mb + ln safe)%R else None in
  let out_b d := (acc d / safe)%R in
  let m := match lse_b with Some b => Rmax lse_a b | None => lse_a end in
  let wa := exp (lse_a - m) in
  let wb := match lse_b with Some b => exp (b - m) | None => 0%R end in
  let den := (wa + wb)%R in
  (fun d => ((out_a d * wa + out_b d * wb) / den)%R, (m + ln den)%R).

(** [_sw_merge_kernel] for token [row] and head [h]: the output per dimension
    and the log-sum-exp. *)
Definition _sw_merge_kernel (row h c : Z) (bt : list Z) (out_a : Z -> R) (lse_a : R)
    : res ((Z -> R) * R) :=
  let kvh := Z.quot h G in
  let qv d := q (row * q_stride_n + h * q_stride_h + d) in
  let start := Z.max (c + 1 - WIN) 0 in
  let off := Z.rem start P in
  let cnt := if 0 <? off then P - off else 0 in
  let b0 := Z.quot start P in
  page ← py_get bt b0;
  let valid p := p <? cnt in
  let slot p := page * P + Z.min (off + p) (P - 1) in
  let addr p d := slot p * (KV * D) + kvh * D + d in
  let ktile p d := if valid p then kf (addr p d) else 0%R in
  let vtile p d := if valid p then vf (addr p d) else 0%R in
  let s p := if valid p
             then Some (Rsum (fun d => (qv d * ktile p d)%R) (py_range D) * scale)%R
             else None in
  Ok (merge_lanes cnt s vtile out_a lse_a).
End Kernels.

(** ** The driver

    [flash row bt_a seq_a h] is flash attention's output and log-sum-exp of head
    [h] of token [row]; it appends the token's key and value at position [seq_a]
    of the trimmed table first, [kf] and [vf] are the caches after that. *)
Definition sliding_window_decode_attention (next_power_of_2 : Z -> Z)
    (flash : Z -> list Z -> Z -> Z -> (Z -> R) * R)
    (q kf vf : Z -> R) (q_stride_n q_stride_h H D KV P window : Z) (kv_bf16 : bool)
    (softmax_scale : R) (rows : list (Z * list Z)) : res (list (list ((Z -> R) * R))) :=
  G ← py_floordiv H KV;
  w ← py_floordiv window P;
  let NB := next_power_of_2 (w + 1) in
  _ ← py_assert (D =? next_power_of_2 D);
  _ ← py_assert (P =? next_power_of_2 P);
  _ ← py_assert (P <=? window);
  _ ← py_assert kv_bf16;
  py_map (fun '(row, (c, bt)) =>
    '(bt_a, seq_a) ← _sw_prep_kernel c bt P window NB;
    py_map (fun h =>
      let '(out_a, lse_a) := flash row bt_a seq_a h in
      _sw_merge_kernel q kf vf softmax_scale q_stride_n q_stride_h D P G KV window
        row h c bt out_a lse_a) (py_range H)) (enumerate rows).

(** ** Positions *)

(** The cache slot of a position. *)
Definition slot_of_pos (bt : list Z) (P pos : Z) : Z :=
  default 0 (bt !! Z.to_nat (pos / P)) * P + pos mod P.

(** The positions the window of a token at position [c] holds. *)
Definition window_positions (c WIN : Z) : list Z := py_range2 (Z.max (c + 1 - WIN) 0) (c + 1).

Lemma Rsum_app f l k : Rsum f (l ++ k) = (Rsum f l + Rsum f k)%R.
Proof. induction l as [|x l IH]; simpl; [lra|]. rewrite IH. lra. Qed.

Lemma Rsum_ext f g l : (forall x, x ∈ l -> f x = g x) -> Rsum f l = Rsum g l.
Proof.
  induction l as [|x l IH]; intros Hfg; simpl; [done|].
  rewrite Hfg, IH; [done| |]; set_solver.
Qed.

Lemma Rsum_fmap f (h : Z -> Z) l : Rsum f (h <$> l) = Rsum (fun x => f (h x)) l.
Proof. induction l as [|x l IH]; [done|]. rewrite fmap_cons. simpl. by rewrite IH. Qed.

Lemma Rsum_scale f (k : R) l : Rsum (fun x => (f x * k)%R) l = (Rsum f l * k)%R.
Proof. induction l as [|x l IH]; simpl; [lra|]. rewrite IH. lra. Qed.

Lemma Rsum_pos f l : l <> [] -> (forall x, (0 < f x)%R) -> (0 < Rsum f l)%R.
Proof.
  intros Hl Hf. destruct l as [|x l]; [done|]. simpl. pose proof (Hf x).
  assert (0 <= Rsum f l)%R; [|lra].
  clear -Hf. induction l as [|y l IH]; simpl; [lra|]. pose proof (Hf y). lra.
Qed.

Lemma range2_split a b c : a <= b <= c -> py_range2 a c = py_range2 a b ++ py_range2 b c.
Proof.
  intros. unfold py_range2. replace (c - a) with ((b - a) + (c - b)) by lia.
  rewrite seqZ_app by lia. do 2 f_equal; lia.
Qed.

Lemma range_shift a n : (fun i => a + i) <$> py_range n = py_range2 a (a + n).
Proof.
  unfold py_range, py_range2. replace (a + n - a) with n by lia.
  change (fun i => a + i) with (Z.add a). rewrite fmap_add_seqZ. f_equal; lia.
Qed.

Section Window.
Context (c P WIN : Z) (bt : list Z).
Hypothesis HP : 0 < P.
Hypothesis HW : P <= WIN.
Hypothesis Hc : 0 <= c.
Hypothesis Hpages : c < zlen bt * P.

Definition start : Z := Z.max (c + 1 - WIN) 0.
Definition b1 : Z := Z.quot (start + P - 1) P.
Definition cnt : Z := if 0 <? Z.rem start P then P - Z.rem start P else 0.

Lemma start_range : 0 <= start <= c.
Proof. unfold start. lia. Qed.

(** The first whole page begins where the boundary ends. *)
Lemma b1_eq : b1 * P = start + cnt /\ 0 <= cnt < P /\ (cnt = 0 \/ start mod P + cnt = P).
Proof.
  pose proof start_range. unfold b1, cnt. rewrite Z.quot_div_nonneg, Z.rem_mod_nonneg by lia.
  pose proof (Z.div_mod start P ltac:(lia)). pose proof (Z.mod_pos_bound start P HP).
  set (r := start mod P) in *. set (d := start / P) in *.
  destruct (Z.ltb_spec 0 r).
  - replace ((start + P - 1) / P) with (d + 1); [lia|].
    apply (Z.div_unique _ _ _ (r - 1)); lia.
  - replace ((start + P - 1) / P) with d; [lia|]. apply (Z.div_unique _ _ _ (P - 1)); lia.
Qed.

Lemma b1_le_c : 0 <= b1 /\ b1 * P <= c.
Proof.
  pose proof b1_eq as (E & ? & ?). pose proof start_range.
  assert (start = 0 -> cnt = 0) by (intros E0; rewrite E0, Z.mod_0_l in *; lia).
  split; [|unfold start in *; lia].
  unfold b1. apply Z.quot_pos; lia.
Qed.

(** Part A reads whole pages of the window through the trimmed table: its
    position [i] is position [b1 * P + i] of the sequence, and the trimmed table
    has an entry for each of them. *)
Lemma prep_positions NB :
  WIN / P + 1 <= NB ->
  exists bt_a, _sw_prep_kernel c bt P WIN NB = Ok (bt_a, c - b1 * P) /\ zlen bt_a = NB /\
    forall i, 0 <= i <= c - b1 * P ->
      i / P < NB /\ slot_of_pos bt_a P i = slot_of_pos bt P (b1 * P + i).
Proof.
  intros HNB. pose proof b1_le_c as [Hb0 Hb1]. pose proof b1_eq as (Hbs & Hcnt & _).
  assert (Hn : 1 <= zlen bt) by nia.
  assert (HNB0 : 0 <= NB) by (pose proof (Z.div_pos WIN P ltac:(lia) HP); lia).
  assert (Hmap : py_map (fun j => py_get bt (Z.min (b1 + j) (zlen bt - 1))) (py_range NB)
    = Ok (tab NB (fun j => default 0 (bt !! Z.to_nat (Z.min (b1 + j) (zlen bt - 1)))))).
  { apply py_map_Forall2. unfold tab. apply Forall2_fmap_r, Forall_Forall2_diag, Forall_forall.
    intros j [Hj _]%elem_of_py_range. apply py_get_Ok; [lia|].
    destruct (lookup_lt_is_Some_2 bt (Z.to_nat (Z.min (b1 + j) (zlen bt - 1)))) as [x ->]; [|done].
    unfold zlen in *. lia. }
  unfold _sw_prep_kernel. fold start. fold b1. rewrite Hmap. simpl. eexists. split; [done|].
  split; [by apply tab_zlen|]. intros i Hi.
  pose proof (Z.div_mod i P ltac:(lia)). pose proof (Z.mod_pos_bound i P HP).
  assert (0 <= i / P) by (apply Z.div_pos; lia).
  assert (HiNB : i / P < NB).
  { assert (i <= WIN - 1) by (unfold start in *; lia).
    pose proof (Z.div_le_mono i WIN P HP ltac:(lia)). lia. }
  assert (Hpage : (b1 * P + i) / P = b1 + i / P) by (rewrite Z.add_comm, Z.div_add; lia).
  assert (Hin : b1 + i / P < zlen bt) by nia.
  split; [done|]. unfold slot_of_pos. rewrite tab_lookup by lia. simpl.
  rewrite Hpage, Z.min_l by lia. f_equal. rewrite Z.add_comm, Z.mod_add; lia.
Qed.

(** The boundary lanes address the positions from the window's start on. *)
Lemma boundary_slot p :
  0 <= p < cnt ->
  exists page, py_get bt (Z.quot start P) = Ok page /\
    page * P + Z.min (Z.rem start P + p) (P - 1) = slot_of_pos bt P (start + p).
Proof.
  intros Hp. pose proof start_range. pose proof b1_eq as (_ & _ & Hr).
  rewrite Z.quot_div_nonneg, Z.rem_mod_nonneg by lia.
  pose proof (Z.div_mod start P ltac:(lia)). pose proof (Z.mod_pos_bound start P HP).
  assert (0 <= start / P) by (apply Z.div_pos; lia).
  assert (start / P < zlen bt) by nia.
  destruct (lookup_lt_is_Some_2 bt (Z.to_nat (start / P))) as [page Hpage]; [unfold zlen in *; lia|].
  exists page. split; [by apply py_get_Ok|]. rewrite Z.min_l by lia. unfold slot_of_pos.
  replace ((start + p) / P) with (start / P); [|apply (Z.div_unique _ _ _ (start mod P + p)); lia].
  rewrite Hpage. simpl. f_equal. apply (Z.mod_unique _ _ (start / P)); lia.
Qed.

Lemma boundary_page : exists page, py_get bt (Z.quot start P) = Ok page.
Proof.
  pose proof start_range. rewrite Z.quot_div_nonneg by lia.
  pose proof (Z.div_mod start P ltac:(lia)). pose proof (Z.mod_pos_bound start P HP).
  assert (0 <= start / P) by (apply Z.div_pos; lia).
  assert (start / P < zlen bt) by nia.
  destruct (lookup_lt_is_Some_2 bt (Z.to_nat (start / P))) as [page Hpage]; [unfold zlen in *; lia|].
  exists page. by apply py_get_Ok.
Qed.

(** Both parts together are the window, each position once. *)
Lemma window_split :
  window_positions c WIN
  = ((fun p => start + p) <$> py_range cnt)
    ++ ((fun i => b1 * P + i) <$> py_range (c - b1 * P + 1)).
Proof.
  pose proof b1_eq as (E & ? & _). pose proof b1_le_c.
  rewrite !range_shift. unfold window_positions. fold start.
  rewrite (range2_split start (start + cnt) (c + 1)) by lia. f_equal. f_equal; lia.
Qed.
End Window.

(** ** Softmax attention *)

(** Attention over a list of positions, with their scores and values. *)
Definition attention (score : Z -> R) (value : Z -> Z -> R) (l : list Z) (d : Z) : R :=
  (Rsum (fun p => (exp (score p) * value p d)%R) l / Rsum (fun p => exp (score p)) l)%R.

Definition log_sum_exp (score : Z -> R) (l : list Z) : R := ln (Rsum (fun p => exp (score p)) l).

Lemma exp_minus x m : exp (x - m) = (exp x * exp (- m))%R.
Proof. unfold Rminus. apply exp_plus. Qed.

Lemma weight_eq (A m : R) : (0 < A)%R -> exp (ln A - m) = (A * exp (- m))%R.
Proof. intros. by rewrite exp_minus, exp_ln. Qed.

Lemma rescaled_ln (B mb : R) : (0 < B)%R -> (mb + ln (B * exp (- mb)))%R = ln B.
Proof. intros. rewrite ln_mult, ln_exp; [lra|done|apply exp_pos]. Qed.

(** Merging two partial softmaxes by their log-sum-exps. *)
Lemma merge_two (A OA B OB m : R) :
  (0 < A)%R -> (0 < B)%R ->
  let wa := exp (ln A - m) in let wb := exp (ln B - m) in
  ((OA / A * wa + OB / B * wb) / (wa + wb))%R = ((OA + OB) / (A + B))%R /\
  (m + ln (wa + wb))%R = ln (A + B).
Proof.
  intros HA HB wa wb. subst wa wb. rewrite !weight_eq by done. pose proof (exp_pos (- m)).
  assert (0 < A * exp (- m) + B * exp (- m))%R
    by (apply Rplus_lt_0_compat; by apply Rmult_lt_0_compat). split.
  - field. repeat split; lra.
  - rewrite <-Rmult_plus_distr_r. apply rescaled_ln. lra.
Qed.

(** The masked lanes add nothing. *)
Lemma masked_sum (f : Z -> R) (P n : Z) :
  0 <= n <= P -> Rsum (fun p => if p <? n then f p else 0%R) (py_range P) = Rsum f (py_range n).
Proof.
  intros Hn. change (py_range P) with (seqZ 0 P). replace (seqZ 0 P) with (py_range2 0 P).
  2:{ unfold py_range2. by rewrite Z.sub_0_r. }
  rewrite (range2_split 0 n P) by lia. rewrite Rsum_app.
  assert (H0 : forall l, (forall p, p ∈ l -> n <= p) ->
    Rsum (fun p => if p <? n then f p else 0%R) l = 0%R).
  { induction l as [|p l IH]; intros Hl; simpl; [done|]. rewrite IH by set_solver.
    pose proof (Hl p ltac:(set_solver)). zcases; [lia|lra]. }
  rewrite (H0 (py_range2 n P)). 2:{ intros p Hp%elem_of_seqZ. lia. }
  rewrite Rplus_0_r. unfold py_range2, py_range. rewrite Z.sub_0_r.
  apply Rsum_ext. intros p Hp%elem_of_seqZ. zcases; [done|lia].
Qed.

(** Given the softmax of part A (sums [A] and [OA d]), the merged output is the
    softmax over part A and the valid lanes. *)
Lemma merge_lanes_eq P n s vtile (sc : Z -> R) (v : Z -> Z -> R) out_a (A : R) (OA : Z -> R) :
  0 <= n <= P -> (0 < A)%R -> (forall d, out_a d = (OA d / A)%R) ->
  (forall p, s p = if p <? n then Some (sc p) else None) ->
  (forall p d, vtile p d = if p <? n then v p d else 0%R) ->
  let B := Rsum (fun p => exp (sc p)) (py_range n) in
  let OB d := Rsum (fun p => (exp (sc p) * v p d)%R) (py_range n) in
  let r := merge_lanes P n s vtile out_a (ln A) in
  r.2 = ln (A + B) /\ forall d, r.1 d = ((OA d + OB d) / (A + B))%R.
Proof.
  intros Hn HA Hout Hs Hv B OB. unfold merge_lanes. cbn [fst snd].
  set (mb := if 0 <? n then default 0%R (tile_max (s <$> py_range P)) else 0%R).
  assert (Htot : Rsum (fun p => match s p with Some x => exp (x - mb) | None => 0%R end) (py_range P)
    = (B * exp (- mb))%R).
  { transitivity (Rsum (fun p => if p <? n then exp (sc p - mb) else 0%R) (py_range P)).
    { apply Rsum_ext. intros p _. rewrite Hs. by destruct (p <? n). }
    rewrite masked_sum by done. unfold B. rewrite <-Rsum_scale. apply Rsum_ext.
    intros. apply exp_minus. }
  assert (Hacc : forall d, Rsum (fun p => (match s p with Some x => exp (x - mb) | None => 0 end
      * vtile p d)%R) (py_range P) = (OB d * exp (- mb))%R).
  { intros d. transitivity (Rsum (fun p => if p <? n then (exp (sc p - mb) * v p d)%R else 0%R) (py_range P)).
    { apply Rsum_ext. intros p _. rewrite Hs, Hv. destruct (p <? n); [done|lra]. }
    rewrite masked_sum by done. unfold OB. rewrite <-Rsum_scale. apply Rsum_ext.
    intros. rewrite exp_minus. lra. }
  rewrite Htot. setoid_rewrite Hacc. setoid_rewrite Hout. destruct (Z.ltb_spec 0 n) as [Hpos|Hz].
  - assert (HB : (0 < B)%R).
    { apply Rsum_pos; [|intros; apply exp_pos]. intros Hnil%(f_equal length).
      rewrite py_range_length in Hnil. simpl in Hnil. lia. }
    pose proof (exp_pos (- mb)) as He. pose proof (Rmult_lt_0_compat _ _ HB He) as Ht.
    destruct (Rlt_dec 0 (B * exp (- mb))) as [_|]; [|done]. rewrite rescaled_ln by done.
    set (m := Rmax _ _). split; [by apply (merge_two A 0 B 0 m)|]. intros d.
    replace (OB d * exp (- mb) / (B * exp (- mb)))%R with (OB d / B)%R by (field; lra).
    by apply (merge_two A (OA d) B (OB d) m).
  - assert (HB : B = 0%R) by (unfold B, py_range; rewrite seqZ_nil by lia; done).
    rewrite HB, Rminus_diag, exp_0. rewrite !Rplus_0_r, ln_1, Rplus_0_r. split; [done|].
    intros d. assert (HO : OB d = 0%R) by (unfold OB, py_range; rewrite seqZ_nil by lia; done).
    rewrite HO, Rmult_0_r, Rplus_0_r, Rplus_0_r, Rmult_1_r. unfold Rdiv. rewrite Rinv_1. lra.
Qed.

Section Merge.
Context (q kf vf : Z -> R) (scale : R) (q_stride_n q_stride_h D P G KV WIN : Z).
Context (row h c : Z) (bt : list Z).
Hypothesis HP : 0 < P.
Hypothesis HW : P <= WIN.
Hypothesis Hc : 0 <= c.
Hypothesis Hpages : c < zlen bt * P.

Definition pos_score (pos : Z) : R :=
  key_score q kf scale q_stride_n q_stride_h D G KV row h (slot_of_pos bt P pos).
Definition pos_value (pos d : Z) : R := value_at vf D G KV h (slot_of_pos bt P pos) d.

Definition part_a : list Z := (fun i => b1 c P WIN * P + i) <$> py_range (c - b1 c P WIN * P + 1).
Definition boundary : list Z := (fun p => start c WIN + p) <$> py_range (cnt c P WIN).

Lemma part_a_pos (f : Z -> R) : (forall x, (0 < f x)%R) -> (0 < Rsum f part_a)%R.
Proof.
  intros Hf. apply Rsum_pos; [|done]. unfold part_a.
  pose proof (b1_le_c c P WIN HP HW Hc). intros Hnil%fmap_nil_inv.
  apply (f_equal length) in Hnil. rewrite py_range_length in Hnil. simpl in Hnil. lia.
Qed.

(** Given the softmax of part A, the kernel returns the softmax of the window. *)
Lemma merge_kernel_softmax (out_a : Z -> R) (lse_a : R) :
  (forall d, out_a d = attention pos_score pos_value part_a d) ->
  lse_a = log_sum_exp pos_score part_a ->
  exists out, _sw_merge_kernel q kf vf scale q_stride_n q_stride_h D P G KV WIN
      row h c bt out_a lse_a = Ok (out, log_sum_exp pos_score (window_positions c WIN)) /\
    forall d, out d = attention pos_score pos_value (window_positions c WIN) d.
Proof.
  intros Hout ->.
  destruct (boundary_page c P WIN bt HP HW Hc Hpages) as [page Hpage].
  pose proof (b1_eq c P WIN HP HW Hc) as (_ & Hcnt & _).
  unfold _sw_merge_kernel. fold (start c WIN). rewrite Hpage. cbn [mbind res_bind].
  fold (cnt c P WIN). set (N := cnt c P WIN) in *. set (st := start c WIN) in *.
  assert (Hslot : forall p, p ∈ py_range N ->
    page * P + Z.min (Z.rem st P + p) (P - 1) = slot_of_pos bt P (st + p)).
  { intros p Hp%elem_of_py_range.
    destruct (boundary_slot c P WIN bt HP HW Hc Hpages p Hp) as (pg & Hpg & Hs).
    fold st in Hpg. rewrite Hpage in Hpg. by injection Hpg as ->. }
  set (s := fun p : Z => if p <? N then Some _ else None).
  set (vt := fun p d : Z => if p <? N then _ else _).
  set (slot p := page * P + Z.min (Z.rem st P + p) (P - 1)) in *.
  destruct (merge_lanes_eq P N s vt
    (fun p => key_score q kf scale q_stride_n q_stride_h D G KV row h (slot p))
    (fun p d => value_at vf D G KV h (slot p) d)
    out_a (Rsum (fun p => exp (pos_score p)) part_a)
    (fun d => Rsum (fun p => (exp (pos_score p) * pos_value p d)%R) part_a))
    as [H2 H1]; [lia|apply part_a_pos; intros; apply exp_pos|done| |done|].
  { intros p. unfold s. by case_match. }
  unfold log_sum_exp at 1.
  destruct (merge_lanes P N s vt out_a _) as [out l] eqn:Hr. simpl in H1, H2. subst l.
  assert (Hwin : forall f g : Z -> R, (forall p, p ∈ py_range N -> f p = g (st + p)) ->
    (Rsum g part_a + Rsum f (py_range N))%R = Rsum g (window_positions c WIN)).
  { intros f g Hfg. rewrite (window_split c P WIN HP HW Hc), Rsum_app. fold part_a.
    rewrite Rsum_fmap, (Rsum_ext f (fun p => g (st + p))) by done. fold st N. lra. }
  assert (Hden : (Rsum (fun p => exp (pos_score p)) part_a + Rsum (fun p => exp (key_score q kf scale
      q_stride_n q_stride_h D G KV row h (slot p))) (py_range N))%R
      = Rsum (fun p => exp (pos_score p)) (window_positions c WIN)).
  { apply Hwin. intros p Hp. unfold pos_score. by rewrite <-Hslot. }
  exists out. split; [by rewrite Hden|]. intros d. rewrite H1, Hden. unfold attention. f_equal.
  apply Hwin. intros p Hp. unfold pos_score, pos_value. by rewrite <-Hslot.
Qed.
End Merge.

(** ** The whole operator *)

(** Flash attention with a block table and a cache length: the softmax over the
    cached positions and the token just appended. *)
Definition flash_spec (flash : Z -> list Z -> Z -> Z -> (Z -> R) * R) (q kf vf : Z -> R)
    (scale : R) (q_stride_n q_stride_h D P G KV : Z) : Prop :=
  forall row bt seq h, 0 <= seq -> seq < zlen bt * P ->
    let score i := key_score q kf scale q_stride_n q_stride_h D G KV row h (slot_of_pos bt P i) in
    let value i d := value_at vf D G KV h (slot_of_pos bt P i) d in
    (forall d, (flash row bt seq h).1 d = attention score value (py_range (seq + 1)) d) /\
    (flash row bt seq h).2 = log_sum_exp score (py_range (seq + 1)).

Lemma attention_reindex score value score' value' (f : Z -> Z) l d :
  (forall i, i ∈ l -> score i = score' (f i)) -> (forall i d, i ∈ l -> value i d = value' (f i) d) ->
  attention score value l d = attention score' value' (f <$> l) d /\
  log_sum_exp score l = log_sum_exp score' (f <$> l).
Proof.
  intros Hs Hv. unfold attention, log_sum_exp. rewrite !Rsum_fmap.
  rewrite (Rsum_ext (fun p => exp (score p)) (fun p => exp (score' (f p))))
    by (intros i Hi; by rewrite Hs).
  rewrite (Rsum_ext (fun p => (exp (score p) * value p d)%R) (fun p => (exp (score' (f p)) * value' (f p) d)%R))
    by (intros i Hi; by rewrite Hs, Hv). done.
Qed.

(** One token and head: preparing, running flash attention and merging. *)
Lemma row_softmax np2 flash q kf vf scale qn qh D P G KV WIN row h c bt :
  0 < P -> P <= WIN -> 0 <= c < zlen bt * P -> (forall n, 0 < n -> n <= np2 n) ->
  flash_spec flash q kf vf scale qn qh D P G KV ->
  exists bt_a seq_a out,
    _sw_prep_kernel c bt P WIN (np2 (WIN / P + 1)) = Ok (bt_a, seq_a) /\
    _sw_merge_kernel q kf vf scale qn qh D P G KV WIN row h c bt
      (flash row bt_a seq_a h).1 (flash row bt_a seq_a h).2
    = Ok (out, log_sum_exp (pos_score q kf scale qn qh D P G KV row h bt) (window_positions c WIN)) /\
    forall d, out d = attention (pos_score q kf scale qn qh D P G KV row h bt)
                        (pos_value vf D P G KV h bt) (window_positions c WIN) d.
Proof.
  intros HP HW [Hc Hpages] Hnp Hflash.
  assert (0 <= WIN / P) by (apply Z.div_pos; lia).
  destruct (prep_positions c P WIN bt HP HW Hc Hpages (np2 (WIN / P + 1))) as (bt_a & Hprep & Hlen & Hpos);
    [apply Hnp; lia|].
  pose proof (b1_le_c c P WIN HP HW Hc) as [_ Hb]. set (seq := c - b1 c P WIN * P) in *.
  destruct (Hflash row bt_a seq h) as [Hout Hlse]; [unfold seq; lia| |].
  { destruct (Hpos seq) as [Hlt _]; [unfold seq in *; lia|]. rewrite Hlen.
    pose proof (Z.div_mod seq P ltac:(lia)). pose proof (Z.mod_pos_bound seq P HP). nia. }
  assert (Hre : forall i, i ∈ py_range (seq + 1) ->
    slot_of_pos bt_a P i = slot_of_pos bt P (b1 c P WIN * P + i)).
  { intros i Hi%elem_of_py_range. apply Hpos. lia. }
  destruct (merge_kernel_softmax q kf vf scale qn qh D P G KV WIN row h c bt HP HW Hc Hpages
    (flash row bt_a seq h).1 (flash row bt_a seq h).2) as (out & Hm & Hd).
  - intros d. rewrite Hout. apply attention_reindex; intros; unfold pos_score, pos_value;
      by rewrite <-Hre.
  - rewrite Hlse. refine (proj2 (attention_reindex _ (fun _ _ => 0%R) _ (fun _ _ => 0%R) _ _ 0 _ _)); [|done].
    intros. unfold pos_score. by rewrite <-Hre.
  - eauto 10.
Qed.

(** C32. For every batch whose tokens lie in their block tables and every page size
    the operator accepts, [sliding_window_decode_attention] returns for each token
    and head the softmax attention over exactly the positions of its window, the
    last [min window (c + 1)] ones, together with their log-sum-exp; the arithmetic
    is that of the reals, and flash attention is assumed to be softmax attention
    over the positions its table and length name. *)
Theorem sliding_window_softmax (next_power_of_2 : Z -> Z)
    (flash : Z -> list Z -> Z -> Z -> (Z -> R) * R) (q kf vf : Z -> R)
    (qn qh H D KV P window : Z) (scale : R) (rows : list (Z * list Z)) :
  (forall n, 0 < n -> n <= next_power_of_2 n) ->
  D = next_power_of_2 D -> P = next_power_of_2 P -> 0 < P <= window -> 0 < KV ->
  flash_spec flash q kf vf scale qn qh D P (H / KV) KV ->
  Forall (fun r => 0 <= r.1 < zlen r.2 * P) rows ->
  exists outs,
    sliding_window_decode_attention next_power_of_2 flash q kf vf qn qh H D KV P window true
      scale rows = Ok outs /\
    forall k c bt h, rows !! k = Some (c, bt) -> 0 <= h < H ->
      exists heads out lse, outs !! k = Some heads /\ heads !! Z.to_nat h = Some (out, lse) /\
        (forall d, out d = attention (pos_score q kf scale qn qh D P (H / KV) KV (Z.of_nat k) h bt)
                     (pos_value vf D P (H / KV) KV h bt) (window_positions c window) d) /\
        lse = log_sum_exp (pos_score q kf scale qn qh D P (H / KV) KV (Z.of_nat k) h bt)
                (window_positions c window).
Proof.
  intros Hnp HD HPp HP HKV Hflash Hrows. unfold sliding_window_decode_attention, py_floordiv.
  destruct (Z.eqb_spec KV 0); [lia|]. destruct (Z.eqb_spec P 0); [lia|]. simpl.
  rewrite <-HD, <-HPp, !Z.eqb_refl, (proj2 (Z.leb_le P window)) by lia. simpl.
  set (f := fun '(row, (c, bt)) => _).
  set (Q := fun (a : Z * (Z * list Z)) (heads : list ((Z -> R) * R)) => Forall2 (fun h (r : (Z -> R) * R) =>
      (forall d, r.1 d = attention (pos_score q kf scale qn qh D P (H / KV) KV a.1 h a.2.2)
                   (pos_value vf D P (H / KV) KV h a.2.2) (window_positions a.2.1 window) d) /\
      r.2 = log_sum_exp (pos_score q kf scale qn qh D P (H / KV) KV a.1 h a.2.2)
              (window_positions a.2.1 window)) (py_range H) heads).
  destruct (py_map_total f Q (enumerate rows)) as (outs & Hmap & HQ).
  - intros [row [c bt]] [_ Hin]%elem_of_enumerate. rewrite Forall_lookup in Hrows.
    pose proof (Hrows _ _ Hin) as Hc. simpl in Hc.
    destruct (row_softmax next_power_of_2 flash q kf vf scale qn qh D P (H / KV) KV window row 0 c bt)
      as (bt_a & seq_a & _ & Hprep & _); [lia..|done|done|].
    unfold f. rewrite Hprep. cbn [mbind res_bind].
    apply py_map_total. intros h Hh.
    destruct (row_softmax next_power_of_2 flash q kf vf scale qn qh D P (H / KV) KV window row h c bt)
      as (bt_a' & seq_a' & out & Hprep' & Hm & Ho); [lia..|done|done|].
    rewrite Hprep in Hprep'. injection Hprep' as <- <-.
    destruct (flash row bt_a seq_a h) as [oa la]. simpl in Hm. rewrite Hm. eauto.
  - exists outs. split; [done|]. intros k c bt h Hk Hh.
    destruct (Forall2_lookup_l _ _ _ _ _ HQ (enum_lookup _ _ _ Hk)) as (heads & Hheads & HF).
    destruct (Forall2_lookup_l _ _ _ (Z.to_nat h) h HF) as ([out lse] & Hl & Ho & Hlse).
    { unfold py_range. rewrite lookup_seqZ_lt by lia. f_equal. lia. }
    exists heads, out, lse. auto.
Qed.

(** Flash attention by its definition, to instantiate the hypotheses. *)
Definition exact_flash (q kf vf : Z -> R) (scale : R) (qn qh D P G KV : Z)
    (row : Z) (bt : list Z) (seq h : Z) : (Z -> R) * R :=
  let score i := key_score q kf scale qn qh D G KV row h (slot_of_pos bt P i) in
  let value i d := value_at vf D G KV h (slot_of_pos bt P i) d in
  (attention score value (py_range (seq + 1)), log_sum_exp score (py_range (seq + 1))).

Lemma sliding_window_softmax_witness :
  exists outs,
    sliding_window_decode_attention (fun n => 2 ^ Z.log2_up n)
      (exact_flash (fun _ => 1%R) IZR IZR 1 1 1 1 4 1 1)
      (fun _ => 1%R) IZR IZR 1 1 1 1 1 4 6 true 1%R [(9, [2; 0; 1])] = Ok outs /\
    exists heads out lse, outs !! 0%nat = Some heads /\ heads !! Z.to_nat 0 = Some (out, lse) /\
      lse = log_sum_exp (pos_score (fun _ => 1%R) IZR 1 1 1 1 4 (1 / 1) 1 (Z.of_nat 0) 0 [2; 0; 1])
              (window_positions 9 6).
Proof.
  destruct (sliding_window_softmax (fun n => 2 ^ Z.log2_up n)
      (exact_flash (fun _ => 1%R) IZR IZR 1 1 1 1 4 1 1)
      (fun _ => 1%R) IZR IZR 1 1 1 1 1 4 6 1%R [(9, [2; 0; 1])]) as (outs & Hr & Hv).
  - intros n Hn. destruct (decide (n = 1)) as [->|]; [done|]. apply Z.log2_up_spec. lia.
  - reflexivity.
  - reflexivity.
  - lia.
  - lia.
  - intros row bt seq h _ _. split; reflexivity.
  - repeat constructor; simpl; unfold zlen; simpl; lia.
  - exists outs. split; [exact Hr|].
    destruct (Hv 0%nat 9 [2; 0; 1] 0 eq_refl ltac:(lia)) as (heads & out & lse & H1 & H2 & _ & H4).
    exists heads, out, lse. auto.
Defined.

End SlidingWindow.
