(* ===== verification/Sampler.v ===== *)
(** * Samplers ([disagmoe/sampler.py] and [DummySampler] in
    [disagmoe/frontend/engine.py])

    Both samplers implement the interface the attention engine calls at admission
    and at the final pseudo-layer.  [SamplerOps] is that interface, [SamplerLaws]
    what the engine relies on, proved here for both.  The tensor computation of
    the real sampler (RMSNorm, lm_head, argmax) is a parameter returning one token
    id per row; a hidden row is an element of a type [T]. *)

From S2P Require Import Prelude.

Module Sampler.

Record step_out (T : Type) : Type := {
  continue_ids : list Z;
  finish_req_ids : list Z;
  out_token_ids : list Z;
  continued_data : option (list T);
}.
Arguments continue_ids {T} _.
Arguments finish_req_ids {T} _.
Arguments out_token_ids {T} _.
Arguments continued_data {T} _.

Class SamplerOps (T S : Type) := {
  create_request : Z -> Z -> list Z -> S -> res S;
  admit_data : Z -> Z -> list Z -> S -> res (option T * Z * S);
  step : list T -> list Z -> S -> res (step_out T * S);
  clean_request : Z -> S -> S;
}.

(** ** [DummySampler] *)

Record DummySampler : Type := {
  req_max_output_len : list (Z * Z);
  output_len : list (Z * Z);
}.

Definition dummy_create_request (req_id max_output_len : Z) (s : DummySampler) : DummySampler :=
  {| req_max_output_len := dset (req_max_output_len s) req_id max_output_len;
     output_len := dset (output_len s) req_id 0 |}.

Definition dummy_clean_request (req_id : Z) (s : DummySampler) : DummySampler :=
  {| req_max_output_len := ddel (req_max_output_len s) req_id;
     output_len := ddel (output_len s) req_id |}.

Definition check_end (req_id : Z) (s : DummySampler) : res bool :=
  n ← of_option KeyError (dget (output_len s) req_id);
  m ← of_option KeyError (dget (req_max_output_len s) req_id);
  Ok (m <=? n).

Definition sample_one (st : DummySampler * list Z * list Z) (x : Z * Z)
    : res (DummySampler * list Z * list Z) :=
  let '(s, continue_ids, finish_req_ids) := st in
  let '(i, req) := x in
  _ ← py_assert (dmem (output_len s) req);
  n ← of_option KeyError (dget (output_len s) req);
  let s := {| req_max_output_len := req_max_output_len s;
              output_len := dset (output_len s) req (n + 1) |} in
  e ← check_end req s;
  if (e : bool) then Ok (dummy_clean_request req s, continue_ids, finish_req_ids ++ [req])
  else Ok (s, continue_ids ++ [i], finish_req_ids).

Definition sample_once (req_ids : list Z) (s : DummySampler)
    : res (DummySampler * list Z * list Z) :=
  py_for sample_one (enumerate req_ids) (s, [], []).

Definition dummy_step {T} (req_ids : list Z) (s : DummySampler) : res (step_out T * DummySampler) :=
  '(s, c, f) ← sample_once req_ids s;
  Ok ({| continue_ids := c; finish_req_ids := f; out_token_ids := (fun _ => 0) <$> req_ids;
         continued_data := None |}, s).

Definition dummy_admit_data {T} (init_prefill_len : Z) (s : DummySampler)
    : option T * Z * DummySampler := (None, init_prefill_len, s).

(** ** [RealSampler] *)

Record RealSampler (T : Type) : Type := {
  embedding : list T;
  eos_token_ids : list Z;
  kv_mooncake : bool;
  forced : list (Z * list Z);
  out_len : list (Z * Z);
  rs_max_output_len : list (Z * Z);
  last_token : list (Z * Z);
}.
Arguments embedding {T} _.
Arguments eos_token_ids {T} _.
Arguments kv_mooncake {T} _.
Arguments forced {T} _.
Arguments out_len {T} _.
Arguments rs_max_output_len {T} _.
Arguments last_token {T} _.

Section Real.
Context {T : Type}.
Implicit Types s : RealSampler T.

Definition with_forced (f : list (Z * list Z)) s : RealSampler T :=
  {| embedding := embedding s; eos_token_ids := eos_token_ids s; kv_mooncake := kv_mooncake s;
     forced := f; out_len := out_len s; rs_max_output_len := rs_max_output_len s;
     last_token := last_token s |}.
Definition with_out_len (o : list (Z * Z)) s : RealSampler T :=
  {| embedding := embedding s; eos_token_ids := eos_token_ids s; kv_mooncake := kv_mooncake s;
     forced := forced s; out_len := o; rs_max_output_len := rs_max_output_len s;
     last_token := last_token s |}.
Definition with_max (m : list (Z * Z)) s : RealSampler T :=
  {| embedding := embedding s; eos_token_ids := eos_token_ids s; kv_mooncake := kv_mooncake s;
     forced := forced s; out_len := out_len s; rs_max_output_len := m;
     last_token := last_token s |}.
Definition with_last (l : list (Z * Z)) s : RealSampler T :=
  {| embedding := embedding s; eos_token_ids := eos_token_ids s; kv_mooncake := kv_mooncake s;
     forced := forced s; out_len := out_len s; rs_max_output_len := rs_max_output_len s;
     last_token := l |}.

Definition real_create_request (req_id max_output_len : Z) (token_ids : list Z) s
    : res (RealSampler T) :=
  _ ← py_assert (negb (zlen token_ids =? 0));
  Ok (with_forced (dset (forced s) req_id (py_drop 1 token_ids))
       (with_out_len (dset (out_len s) req_id 0)
         (with_max (dset (rs_max_output_len s) req_id max_output_len) s))).

Definition real_admit_data (req_id init_prefill_len : Z) (token_ids : list Z) s
    : res (option T * Z * RealSampler T) :=
  if kv_mooncake s then
    let L := init_prefill_len in
    _ ← py_assert (L + 1 <=? zlen token_ids);
    let f := py_drop (L + 1) token_ids in
    let s := with_forced (dset (forced s) req_id f) s in
    s ← (if zlen f =? 0 then Ok s
         else m ← of_option KeyError (dget (rs_max_output_len s) req_id);
              Ok (with_max (dset (rs_max_output_len s) req_id (Z.max 1 (m - zlen f))) s));
    first ← py_get token_ids L;
    let s := with_last (dset (last_token s) req_id first) s in
    row ← py_get (embedding s) first;
    Ok (Some row, L, s)
  else
    first ← py_get token_ids 0;
    let s := with_last (dset (last_token s) req_id first) s in
    row ← py_get (embedding s) first;
    Ok (Some row, 0, s).

Definition real_clean_request (req_id : Z) s : RealSampler T :=
  with_forced (ddel (forced s) req_id)
    (with_out_len (ddel (out_len s) req_id)
      (with_max (ddel (rs_max_output_len s) req_id)
        (with_last (ddel (last_token s) req_id) s))).

(** The token of row [i] and whether its request finishes. *)
Definition pick_token (sampled : list Z) (i rid : Z) s : res (Z * bool * RealSampler T) :=
  match dget (forced s) rid with
  | Some (tok :: q) => Ok (tok, false, with_forced (dset (forced s) rid q) s)
  | _ =>
      tok ← py_get sampled i;
      n ← of_option KeyError (dget (out_len s) rid);
      let s := with_out_len (dset (out_len s) rid (n + 1)) s in
      if bool_decide (tok ∈ eos_token_ids s) then Ok (tok, true, s)
      else m ← of_option KeyError (dget (rs_max_output_len s) rid);
           Ok (tok, m <=? n + 1, s)
  end.

Definition real_step_one (sampled : list Z) (st : RealSampler T * list Z * list Z * list Z)
    (x : Z * Z) : res (RealSampler T * list Z * list Z * list Z) :=
  let '(s, continue_ids, finish_req_ids, out_tokens) := st in
  let '(i, rid) := x in
  '(tok, is_finished, s) ← pick_token sampled i rid s;
  let out_tokens := out_tokens ++ [tok] in
  let s := with_last (dset (last_token s) rid tok) s in
  if (is_finished : bool)
  then Ok (real_clean_request rid s, continue_ids, finish_req_ids ++ [rid], out_tokens)
  else Ok (s, continue_ids ++ [i], finish_req_ids, out_tokens).

(** [embedding.index_select(0, idx)] *)
Definition index_select (rows : list T) (idx : list Z) : res (list T) :=
  py_map (fun i => _ ← py_check (0 <=? i) IndexError; py_get rows i) idx.

Definition real_step (sample : list T -> list Z) (completed : list T) (req_ids : list Z) s
    : res (step_out T * RealSampler T) :=
  '(s, c, f, out) ← py_for (real_step_one (sample completed)) (enumerate req_ids) (s, [], [], []);
  data ← (match c with
          | [] => Ok []
          | _ => next_tok ← py_map (fun i => py_get out i) c; index_select (embedding s) next_tok
          end);
  Ok ({| continue_ids := c; finish_req_ids := f; out_token_ids := out;
         continued_data := Some data |}, s).
End Real.

#[export] Instance dummy_ops T : SamplerOps T DummySampler := {|
  create_request r m _ s := Ok (dummy_create_request r m s);
  admit_data _ l _ s := Ok (dummy_admit_data l s);
  step _ ids s := dummy_step ids s;
  clean_request := dummy_clean_request;
|}.

Definition real_ops T (sample : list T -> list Z) : SamplerOps T (RealSampler T) := {|
  create_request := real_create_request;
  admit_data := real_admit_data;
  step := real_step sample;
  clean_request := real_clean_request;
|}.

(** ** What the engine relies on *)

(** The elements of [l] whose flag is [b]. *)
Definition select {A} (b : bool) (l : list A) (flags : list bool) : list A :=
  (filter (fun x => x.2 = b) (zip l flags)).*1.

Lemma select_snoc {A} b (l : list A) flags a f :
  length l = length flags ->
  select b (l ++ [a]) (flags ++ [f]) = select b l flags ++ (if decide (f = b) then [a] else []).
Proof.
  intros Hl. unfold select. rewrite zip_with_app, filter_app, fmap_app by done. f_equal.
  simpl. rewrite filter_cons. simpl. by case_decide.
Qed.

Lemma elem_of_select {A} b (l : list A) flags a :
  length l = length flags ->
  a ∈ select b l flags <-> exists k, l !! k = Some a /\ flags !! k = Some b.
Proof.
  intros Hl. unfold select. rewrite list_elem_of_fmap. setoid_rewrite list_elem_of_filter.
  setoid_rewrite list_elem_of_lookup. setoid_rewrite lookup_zip_with. split.
  - intros ([a' f] & -> & Hf & k & Hk). simpl in *. subst. exists k.
    destruct (l !! k), (flags !! k); simplify_eq/=. done.
  - intros (k & Ha & Hf). exists (a, b). split_and!; [done|done|]. exists k. by rewrite Ha, Hf.
Qed.

Lemma select_length {A} (l : list A) flags :
  length l = length flags ->
  (length (select false l flags) + length (select true l flags) = length l)%nat.
Proof.
  unfold select. intros Hl. rewrite !length_fmap. revert flags Hl.
  induction l as [|a l IH]; intros [|f flags] Hl; simplify_eq/=; [done|].
  rewrite !filter_cons. simpl. specialize (IH flags Hl). destruct f; simpl; lia.
Qed.

(** [finished] flags the rows whose request ends with this step: the others
    continue, in order; finished requests are no longer tracked. *)
Record step_law {T S} (tracked : S -> Z -> Prop) (ids : list Z) (s : S) (o : step_out T) (s' : S)
    (finished : list bool) : Prop := {
  law_length : length finished = length ids;
  law_continue : continue_ids o = select false (py_range (zlen ids)) finished;
  law_finish : finish_req_ids o = select true ids finished;
  law_tokens : length (out_token_ids o) = length ids;
  law_data : forall d, continued_data o = Some d -> length d = length (continue_ids o);
  law_was_tracked : forall r, r ∈ ids -> tracked s r;
  law_tracked : forall r, tracked s' r <-> tracked s r /\ r ∉ finish_req_ids o;
}.

Class SamplerLaws (T S : Type) `{SamplerOps T S} := {
  tracked : S -> Z -> Prop;
  create_tracked : forall r m toks s s', create_request r m toks s = Ok s' ->
    forall r', tracked s' r' <-> r' = r \/ tracked s r';
  admit_tracked : forall r l toks s d l' s', admit_data r l toks s = Ok (d, l', s') ->
    tracked s r -> forall r', tracked s' r' <-> tracked s r';
  step_lawful : forall hidden ids s o s', step hidden ids s = Ok (o, s') ->
    exists finished, step_law tracked ids s o s' finished;
}.

(** A dictionary key after an assignment or a deletion. *)
Lemma dset_tracked {V} (d : list (Z * V)) k v r :
  is_Some (dget (dset d k v) r) <-> r = k \/ is_Some (dget d r).
Proof. rewrite dget_dset. case_decide; [subst; split; eauto|]. naive_solver. Qed.

Lemma ddel_tracked {V} (d : list (Z * V)) k r :
  is_Some (dget (ddel d k) r) <-> r <> k /\ is_Some (dget d r).
Proof.
  rewrite dget_ddel. case_decide; [subst; split; [intros [? ?]; done|naive_solver]|].
  naive_solver.
Qed.

(** The rows processed so far, split by the outcome of each. *)
Record partial {S} (tracked : S -> Z -> Prop) (s0 : S) (pre : list (Z * Z)) (s : S)
    (c f : list Z) (flags : list bool) : Prop := {
  pt_length : length flags = length pre;
  pt_continue : c = select false pre.*1 flags;
  pt_finish : f = select true pre.*2 flags;
  pt_was : forall r, r ∈ pre.*2 -> tracked s0 r;
  pt_tracked : forall r, tracked s r <-> tracked s0 r /\ r ∉ f;
}.

Lemma partial_nil {S} (tr : S -> Z -> Prop) s : partial tr s [] s [] [] [].
Proof. split; try done; [set_solver|]. intros r. set_solver. Qed.

Lemma partial_snoc {S} (tr : S -> Z -> Prop) s0 pre s c f flags i rid s' (fin : bool) :
  partial tr s0 pre s c f flags -> tr s rid ->
  (forall r, tr s' r <-> tr s r /\ (fin = true -> r <> rid)) ->
  partial tr s0 (pre ++ [(i, rid)]) s' (c ++ if fin then [] else [i]) (f ++ if fin then [rid] else [])
    (flags ++ [fin]).
Proof.
  intros [Hl -> -> Hw Ht] Hr Hs'. apply Ht in Hr as [Hr0 Hrf]. split.
  - rewrite !length_app. simpl. lia.
  - rewrite fmap_app. simpl. rewrite select_snoc by by rewrite length_fmap.
    by destruct fin.
  - rewrite fmap_app. simpl. rewrite select_snoc by by rewrite length_fmap.
    by destruct fin.
  - intros r. rewrite fmap_app. set_solver.
  - intros r. rewrite Hs', Ht. destruct fin; set_solver.
Qed.

Lemma partial_enumerate {S} (tr : S -> Z -> Prop) s0 ids s c f flags :
  partial tr s0 (enumerate ids) s c f flags ->
  length flags = length ids /\ c = select false (py_range (zlen ids)) flags /\
  f = select true ids flags.
Proof.
  intros [Hl -> -> _ _]. rewrite enum_snd. split_and!; [|f_equal|done].
  - by rewrite enum_length in Hl.
  - unfold enumerate. apply fst_zip. rewrite py_range_length. unfold zlen. lia.
Qed.

(** ** The dummy sampler is lawful *)

Definition dummy_tracked (s : DummySampler) (r : Z) : Prop := is_Some (dget (output_len s) r).

Lemma sample_one_partial s0 pre s c f flags i rid s' c' f' :
  partial dummy_tracked s0 pre s c f flags -> sample_one (s, c, f) (i, rid) = Ok (s', c', f') ->
  exists flags', partial dummy_tracked s0 (pre ++ [(i, rid)]) s' c' f' flags'.
Proof.
  intros Hp Hrun. unfold sample_one in Hrun. inv_ok.
  assert (Hr : dummy_tracked s rid) by (unfold dummy_tracked; eauto).
  destruct x1; apply Ok_inj in Hrun as [= <- <- <-].
  - eexists. pose proof (partial_snoc _ _ _ _ _ _ _ i rid
      (dummy_clean_request rid {| req_max_output_len := req_max_output_len s;
         output_len := dset (output_len s) rid (x0 + 1) |}) true Hp Hr) as Hn.
    rewrite app_nil_r in Hn. apply Hn. intros r. unfold dummy_tracked. simpl.
    rewrite ddel_tracked, dset_tracked. naive_solver.
  - eexists. pose proof (partial_snoc _ _ _ _ _ _ _ i rid
      {| req_max_output_len := req_max_output_len s; output_len := dset (output_len s) rid (x0 + 1) |}
      false Hp Hr) as Hn.
    rewrite app_nil_r in Hn. apply Hn. intros r. unfold dummy_tracked. simpl.
    rewrite dset_tracked. unfold dummy_tracked in Hr. naive_solver.
Qed.

#[export] Instance dummy_lawful T : SamplerLaws T DummySampler.
Proof.
  refine {| tracked := dummy_tracked |}.
  - intros r m toks s s' [= <-] r'. unfold dummy_tracked. simpl. apply dset_tracked.
  - intros r l toks s d l' s' [= <- <- <-] _ r'. done.
  - intros hidden ids s o s' Hrun. simpl in Hrun. unfold dummy_step, sample_once in Hrun. inv_ok.
    destruct x as [[s1 c] f]. apply Ok_inj in Hrun as [= <- <-].
    destruct (py_for_inv (fun pre st => exists flags, partial dummy_tracked s pre st.1.1 st.1.2 st.2 flags)
      sample_one (enumerate ids) (s, [], []) (s1, c, f)) as [flags Hp]; [|..|done|].
    + exists []. apply partial_nil.
    + intros pre [i rid] post [[s2 c2] f2] [[s3 c3] f3] _ [flags Hp] Hone. simpl in *.
      by eapply sample_one_partial.
    + simpl in Hp. exists flags. pose proof (partial_enumerate _ _ _ _ _ _ _ Hp) as (? & ? & ?).
      destruct Hp as [? ? ? Hw ?]. rewrite enum_snd in Hw.
      split; try done. simpl. by rewrite length_fmap.
Defined.

(** ** The real sampler is lawful *)

Section RealLaws.
Context {T : Type}.
Implicit Types s : RealSampler T.

Definition real_tracked s (r : Z) : Prop :=
  is_Some (dget (forced s) r) \/ is_Some (dget (out_len s) r).

Lemma pick_token_tracked sampled i rid s tok fin s' :
  pick_token sampled i rid s = Ok (tok, fin, s') ->
  real_tracked s rid /\ forall r, real_tracked s' r <-> real_tracked s r.
Proof.
  unfold pick_token, real_tracked. intros Hrun.
  assert (Hout : forall n, dget (out_len s) rid = Some n ->
    forall r, is_Some (dget (forced s) r) \/ is_Some (dget (dset (out_len s) rid (n + 1)) r) <->
              is_Some (dget (forced s) r) \/ is_Some (dget (out_len s) r)).
  { intros n Hn r. rewrite dset_tracked. naive_solver. }
  destruct (dget (forced s) rid) as [[|t q]|] eqn:Ef.
  2:{ apply Ok_inj in Hrun as [= <- <- <-]. split; [eauto|]. intros r. simpl.
      rewrite dset_tracked. naive_solver. }
  all: inv_ok; simpl in *; case_bool_decide; inv_ok; (split; [eauto|by apply Hout]).
Qed.

Lemma real_step_one_partial sampled s0 pre s c f out flags i rid s' c' f' out' :
  partial real_tracked s0 pre s c f flags ->
  real_step_one sampled (s, c, f, out) (i, rid) = Ok (s', c', f', out') ->
  length out' = S (length out) /\
  exists flags', partial real_tracked s0 (pre ++ [(i, rid)]) s' c' f' flags'.
Proof.
  intros Hp Hrun. unfold real_step_one in Hrun.
  apply bind_Ok in Hrun as ([[tok fin] s1] & Hpick & Hrun).
  apply pick_token_tracked in Hpick as [Hr Heq].
  destruct fin; apply Ok_inj in Hrun as [= <- <- <- <-];
    (split; [rewrite length_app; simpl; lia|]).
  - eexists. pose proof (partial_snoc _ _ _ _ _ _ _ i rid
      (real_clean_request rid (with_last (dset (last_token s1) rid tok) s1)) true Hp Hr) as Hn.
    rewrite app_nil_r in Hn. apply Hn. intros r. rewrite <-Heq. unfold real_tracked. simpl.
    rewrite !ddel_tracked. naive_solver.
  - eexists. pose proof (partial_snoc _ _ _ _ _ _ _ i rid
      (with_last (dset (last_token s1) rid tok) s1) false Hp Hr) as Hn.
    rewrite app_nil_r in Hn. apply Hn. intros r. rewrite <-Heq. naive_solver.
Qed.
End RealLaws.

Definition real_lawful T (sample : list T -> list Z) :
  @SamplerLaws T (RealSampler T) (real_ops T sample).
Proof.
  refine {| tracked := real_tracked |}.
  - intros r m toks s s' Hrun r'. simpl in Hrun. unfold real_create_request in Hrun. inv_ok.
    unfold real_tracked. simpl. rewrite !dset_tracked. naive_solver.
  - intros r l toks s d l' s' Hrun Hr r'. simpl in Hrun. unfold real_admit_data in Hrun.
    destruct (kv_mooncake s); simpl in Hrun; inv_ok; unfold real_tracked in *; simpl; [|done].
    case_match; inv_ok; simpl in *; rewrite dset_tracked; naive_solver.
  - intros hidden ids s o s' Hrun. simpl in Hrun. unfold real_step in Hrun.
    apply bind_Ok in Hrun as ([[[s1 c] f] out] & Hloop & Hrun). inv_ok.
    destruct (py_for_inv (fun pre st => length st.2 = length pre /\
        exists flags, partial real_tracked s pre st.1.1.1 st.1.1.2 st.1.2 flags)
      (real_step_one (sample hidden)) (enumerate ids) (s, [], [], []) (s', c, f, out))
      as (Hlen & flags & Hp); [|..|done|].
    + split; [done|]. exists []. apply partial_nil.
    + intros pre [i rid] post [[[s2 c2] f2] o2] [[[s3 c3] f3] o3] _ (Hl & flags & Hp) Hone. simpl in *.
      destruct (real_step_one_partial _ _ _ _ _ _ _ _ _ _ _ _ _ _ Hp Hone) as [Hl' Hp'].
      split; [rewrite length_app; simpl; lia|done].
    + simpl in Hp, Hlen. exists flags. pose proof (partial_enumerate _ _ _ _ _ _ _ Hp) as (? & ? & ?).
      destruct Hp as [? ? ? Hw ?]. rewrite enum_snd in Hw. rewrite enum_length in Hlen.
      split; try done. simpl. intros d [= <-]. destruct c as [|c0 c1]; inv_ok; [done|].
      unfold index_select in *.
      repeat match goal with Hm : py_map _ _ = Ok _ |- _ => apply py_map_length in Hm end. congruence.
Defined.

(** ** What one request sees of the real sampler

    A request is a queue of forced tokens, the number of tokens generated for it
    and its budget. *)

Record areq : Type := { a_forced : list Z; a_out : Z; a_max : Z }.

(** One step of a request whose row sampled [tok]: the token it emits and what
    becomes of it, [None] when it finishes. *)
Definition areq_step (eos : list Z) (tok : Z) (a : areq) : Z * option areq :=
  match a_forced a with
  | t :: q => (t, Some {| a_forced := q; a_out := a_out a; a_max := a_max a |})
  | [] => (tok, if bool_decide (tok ∈ eos) || (a_max a <=? a_out a + 1) then None
                else Some {| a_forced := []; a_out := a_out a + 1; a_max := a_max a |})
  end.

Definition ends {A} (o : option A) : bool := match o with Some _ => false | None => true end.

Section Refine.
Context {T : Type}.
Implicit Types s : RealSampler T.

(** The request as the sampler's dictionaries hold it. *)
Definition view s (r : Z) : option areq :=
  n ← dget (out_len s) r; m ← dget (rs_max_output_len s) r;
  Some {| a_forced := default [] (dget (forced s) r); a_out := n; a_max := m |}.

Lemma pick_token_refines sampled i rid s a tok :
  view s rid = Some a -> py_get sampled i = Ok tok ->
  exists s', pick_token sampled i rid s
    = Ok ((areq_step (eos_token_ids s) tok a).1, ends (areq_step (eos_token_ids s) tok a).2, s') /\
    eos_token_ids s' = eos_token_ids s /\ embedding s' = embedding s /\
    (forall a', (areq_step (eos_token_ids s) tok a).2 = Some a' -> view s' rid = Some a') /\
    forall r, r <> rid -> view s' r = view s r.
Proof.
  intros Hv Htok. unfold view in Hv.
  destruct (dget (out_len s) rid) as [n|] eqn:En; [|done].
  destruct (dget (rs_max_output_len s) rid) as [m|] eqn:Em; [|done]. simpl in Hv.
  injection Hv as <-. unfold pick_token, areq_step. simpl.
  destruct (dget (forced s) rid) as [[|t q]|] eqn:Ef; simpl.
  2:{ eexists. split_and!; [done..| |].
      - intros a' [= <-]. unfold view. simpl. by rewrite En, Em, dget_dset_eq.
      - intros r Hr. unfold view. simpl. by rewrite dget_dset_ne by done. }
  all: rewrite Htok, ?En; simpl; case_bool_decide; simpl; rewrite ?Em; simpl.
  all: eexists; (split; [by destruct (m <=? n + 1)|]); (split_and!; [done..| |]).
  all: try (intros r Hr; unfold view; simpl; by rewrite dget_dset_ne by done).
  all: try done.
  all: intros a'; destruct (m <=? n + 1); intros [= <-]; unfold view; simpl;
    by rewrite dget_dset_eq, Em, Ef.
Qed.

Section Batch.
Context (s0 : RealSampler T) (sampled : list Z).

(** What the step does to the request of row [x.1]. *)
Definition row_spec (x : Z * Z) : Z * option areq :=
  match view s0 x.2, sampled !! Z.to_nat x.1 with
  | Some a, Some tok => areq_step (eos_token_ids s0) tok a
  | _, _ => (0, None)
  end.

Record after (pre : list (Z * Z)) (st : RealSampler T * list Z * list Z * list Z) : Prop := {
  af_eos : eos_token_ids st.1.1.1 = eos_token_ids s0;
  af_emb : embedding st.1.1.1 = embedding s0;
  af_out : st.2 = (fun x => (row_spec x).1) <$> pre;
  af_cont : st.1.1.2 = select false pre.*1 ((fun x => ends (row_spec x).2) <$> pre);
  af_fin : st.1.2 = select true pre.*2 ((fun x => ends (row_spec x).2) <$> pre);
  af_other : forall r, r ∉ pre.*2 -> view st.1.1.1 r = view s0 r;
  af_view : forall x, x ∈ pre -> view st.1.1.1 x.2 = (row_spec x).2;
}.

Lemma view_last l s r : view (with_last l s) r = view s r.
Proof. done. Qed.

Lemma view_clean rid s : view (real_clean_request rid s) rid = None.
Proof. unfold view. simpl. rewrite (dget_ddel (out_len s)). by case_decide. Qed.

Lemma view_clean_ne rid s r : r <> rid -> view (real_clean_request rid s) r = view s r.
Proof. intros Hne. unfold view. simpl. by rewrite !dget_ddel, !decide_False by congruence. Qed.

Lemma after_snoc pre i rid s c f out s' :
  after pre (s, c, f, out) -> rid ∉ pre.*2 ->
  eos_token_ids s' = eos_token_ids s -> embedding s' = embedding s ->
  (forall r, r <> rid -> view s' r = view s r) -> view s' rid = (row_spec (i, rid)).2 ->
  let e := ends (row_spec (i, rid)).2 in
  after (pre ++ [(i, rid)])
    (s', c ++ (if e then [] else [i]), f ++ (if e then [rid] else []), out ++ [(row_spec (i, rid)).1]).
Proof.
  intros [He Hemb Ho Hc Hf Hother Hview] Hnew He' Hemb' Hne Hin e. simpl in *. subst e. split; simpl.
  - congruence.
  - congruence.
  - by rewrite Ho, fmap_app.
  - rewrite Hc, !fmap_app. simpl. rewrite select_snoc by by rewrite !length_fmap.
    by destruct (ends (row_spec (i, rid)).2).
  - rewrite Hf, !fmap_app. simpl. rewrite select_snoc by by rewrite !length_fmap.
    by destruct (ends (row_spec (i, rid)).2).
  - intros r. rewrite fmap_app. intros Hr. rewrite Hne by set_solver. apply Hother. set_solver.
  - intros x [Hx|Hx]%elem_of_app.
    + rewrite Hne; [by apply Hview|]. intros <-. apply Hnew, list_elem_of_fmap. eauto.
    + by apply list_elem_of_singleton in Hx as ->.
Qed.

Lemma real_step_one_refines pre i rid st :
  after pre st -> rid ∉ pre.*2 -> 0 <= i < zlen sampled -> is_Some (view s0 rid) ->
  exists st', real_step_one sampled st (i, rid) = Ok st' /\ after (pre ++ [(i, rid)]) st'.
Proof.
  intros Haf Hnew Hi [a Ha]. destruct st as [[[s c] f] out].
  destruct (lookup_lt_is_Some_2 sampled (Z.to_nat i)) as [tok Htok]; [unfold zlen in Hi; lia|].
  assert (Hspec : row_spec (i, rid) = areq_step (eos_token_ids s) tok a)
    by (unfold row_spec; simpl; rewrite Ha, Htok; by rewrite <-(af_eos _ _ Haf)).
  destruct (pick_token_refines sampled i rid s a tok) as (s1 & Hp & He1 & Hemb1 & Hin & Hne);
    [by rewrite <-Ha; apply (af_other _ _ Haf)|by apply py_get_Ok; [lia|]|].
  unfold real_step_one. rewrite Hp. simpl. rewrite <-Hspec in Hin |- *.
  destruct (row_spec (i, rid)) as [t o] eqn:Es. simpl in *. destruct o as [a'|]; simpl.
  - pose proof (after_snoc pre i rid s c f out (with_last (dset (last_token s1) rid t) s1) Haf Hnew He1 Hemb1) as Hn.
    rewrite Es in Hn. simpl in Hn. rewrite app_nil_r in Hn. eexists. split; [done|]. apply Hn; [done|].
    by apply Hin.
  - pose proof (after_snoc pre i rid s c f out
      (real_clean_request rid (with_last (dset (last_token s1) rid t) s1)) Haf Hnew He1 Hemb1) as Hn.
    rewrite Es in Hn. simpl in Hn. rewrite app_nil_r in Hn. eexists. split; [done|]. apply Hn.
    + intros r Hr. rewrite view_clean_ne by done. by apply Hne.
    + apply view_clean.
Qed.

Lemma real_loop_refines ids :
  NoDup ids -> zlen ids <= zlen sampled -> Forall (fun r => is_Some (view s0 r)) ids ->
  exists st, py_for (real_step_one sampled) (enumerate ids) (s0, [], [], []) = Ok st /\
    after (enumerate ids) st.
Proof.
  intros Hnd Hlen Hv. apply (py_for_total after).
  - split; try done. intros x []%not_elem_of_nil.
  - intros pre [i rid] post st Heq Haf. pose proof (enum_prefix _ _ _ _ _ Heq) as (-> & Hl & Htake).
    apply real_step_one_refines; [done| | |by eapply Forall_lookup_1 in Hv].
    + assert (Hids : ids = pre.*2 ++ rid :: post.*2) by (rewrite <-(enum_snd ids), Heq, fmap_app; done).
      rewrite Hids in Hnd. apply NoDup_app in Hnd as (_ & Hd & _). intros Hin. by apply (Hd rid Hin); left.
    + pose proof (zlen_nonneg pre). apply lookup_lt_Some in Hl. unfold zlen in *. lia.
Qed.
End Batch.

(** *** One request among others

    Whatever the other rows do, the row of a tracked request takes its step. *)

Lemma pick_token_other sampled i rid s tok fin s' :
  pick_token sampled i rid s = Ok (tok, fin, s') ->
  eos_token_ids s' = eos_token_ids s /\ forall r, r <> rid -> view s' r = view s r.
Proof.
  unfold pick_token. intros Hrun.
  destruct (dget (forced s) rid) as [[|t q]|] eqn:Ef.
  2:{ apply Ok_inj in Hrun as [= <- <- <-]. split; [done|]. intros r Hr. unfold view. simpl.
      by rewrite dget_dset_ne by done. }
  all: inv_ok; simpl in *; case_bool_decide; inv_ok; (split; [done|]);
    intros r Hr; unfold view; simpl; by rewrite dget_dset_ne by done.
Qed.

Lemma step_one_other sampled s c f out i r s' c' f' out' rid :
  real_step_one sampled (s, c, f, out) (i, r) = Ok (s', c', f', out') -> r <> rid ->
  view s' rid = view s rid /\ eos_token_ids s' = eos_token_ids s /\
  (real_tracked s' rid -> real_tracked s rid) /\ (rid ∈ f' <-> rid ∈ f) /\ exists t, out' = out ++ [t].
Proof.
  intros Hrun Hr. unfold real_step_one in Hrun.
  apply bind_Ok in Hrun as ([[tok fin] s1] & Hp & Hrun).
  pose proof (pick_token_other _ _ _ _ _ _ _ Hp) as [He Ho].
  pose proof (pick_token_tracked _ _ _ _ _ _ _ Hp) as [_ Ht].
  destruct fin; apply Ok_inj in Hrun as [= <- <- <- <-].
  - rewrite view_clean_ne, view_last, Ho by done. split_and!; eauto; [|set_solver].
    rewrite <-Ht. unfold real_tracked. simpl. rewrite !ddel_tracked. naive_solver.
  - rewrite view_last, Ho by done. split_and!; eauto. by rewrite <-Ht.
Qed.

Lemma step_one_self sampled s c f out i rid a tok s' c' f' out' :
  real_step_one sampled (s, c, f, out) (i, rid) = Ok (s', c', f', out') ->
  view s rid = Some a -> py_get sampled i = Ok tok ->
  view s' rid = (areq_step (eos_token_ids s) tok a).2 /\
  ((areq_step (eos_token_ids s) tok a).2 = None -> ~ real_tracked s' rid) /\
  (rid ∈ f' <-> rid ∈ f \/ (areq_step (eos_token_ids s) tok a).2 = None) /\
  out' = out ++ [(areq_step (eos_token_ids s) tok a).1] /\ eos_token_ids s' = eos_token_ids s.
Proof.
  intros Hrun Hv Htok. unfold real_step_one in Hrun.
  destruct (pick_token_refines _ _ _ _ _ _ Hv Htok) as (s1 & Hp & He & _ & Hin & _).
  rewrite Hp in Hrun. simpl in Hrun.
  destruct (areq_step (eos_token_ids s) tok a) as [t [a'|]]; simpl in *;
    apply Ok_inj in Hrun as [= <- <- <- <-].
  - split_and!; [|done| |done..]; [|naive_solver]. rewrite view_last. by apply Hin.
  - split_and!; [apply view_clean| |set_solver|done..]. unfold real_tracked. simpl. intros _.
    rewrite !ddel_tracked. naive_solver.
Qed.

Lemma step_projects (sample : list T -> list Z) hidden ids s o s' k rid a tok :
  real_step sample hidden ids s = Ok (o, s') -> NoDup ids -> ids !! k = Some rid ->
  view s rid = Some a -> sample hidden !! k = Some tok ->
  eos_token_ids s' = eos_token_ids s /\
  view s' rid = (areq_step (eos_token_ids s) tok a).2 /\
  ((areq_step (eos_token_ids s) tok a).2 = None -> ~ real_tracked s' rid) /\
  (rid ∈ finish_req_ids o <-> (areq_step (eos_token_ids s) tok a).2 = None) /\
  out_token_ids o !! k = Some (areq_step (eos_token_ids s) tok a).1.
Proof.
  intros Hrun Hnd Hk Hv Htok. unfold real_step in Hrun.
  apply bind_Ok in Hrun as ([[[s1 c] f] out] & Hloop & Hrun). inv_ok. simpl.
  pose proof (py_for_inv (fun pre st => eos_token_ids st.1.1.1 = eos_token_ids s /\
      length st.2 = length pre /\
      if decide (k < length pre)%nat
      then view st.1.1.1 rid = (areq_step (eos_token_ids s) tok a).2 /\
           ((areq_step (eos_token_ids s) tok a).2 = None -> ~ real_tracked st.1.1.1 rid) /\
           (rid ∈ st.1.2 <-> (areq_step (eos_token_ids s) tok a).2 = None) /\
           st.2 !! k = Some (areq_step (eos_token_ids s) tok a).1
      else view st.1.1.1 rid = Some a /\ rid ∉ st.1.2)
    (real_step_one (sample hidden)) (enumerate ids) (s, [], [], []) (s', c, f, out)) as Hinv.
  destruct Hinv as (He & _ & Hfin); [| |done|].
  - split; [done|]. split; [done|]. simpl. split; [done|]. apply not_elem_of_nil.
  - intros pre [i r] post [[[s2 c2] f2] o2] [[[s3 c3] f3] o3] Hl (He & Hlen & Hin) Hone. simpl in *.
    pose proof (enum_prefix _ _ _ _ _ Hl) as (-> & Hr & _). rewrite length_app. simpl.
    destruct (decide (r = rid)) as [->|Hne].
    + assert (Hkp : length pre = k) by (by eapply NoDup_lookup).
      rewrite decide_False in Hin by lia. subst k. destruct Hin as [Hin Hnf].
      destruct (step_one_self _ _ _ _ _ _ _ a tok _ _ _ _ Hone) as (Hv' & Hnt & Hf & -> & He'); [done| |].
      { apply py_get_Ok; [apply zlen_nonneg|]. unfold zlen. by rewrite Nat2Z.id. }
      rewrite He in *. rewrite decide_True by lia. rewrite length_app. simpl.
      split_and!; [congruence|lia|done|done|naive_solver|]. rewrite <-Hlen. by apply list_lookup_middle.
    + destruct (step_one_other _ _ _ _ _ _ _ _ _ _ _ rid Hone Hne) as (Hv' & He' & Hnt & Hf & t & ->).
      assert (length pre <> k) by congruence. rewrite length_app. simpl.
      split_and!; [congruence|lia|]. rewrite Hv'. repeat case_decide; try lia; [|naive_solver].
      destruct Hin as (? & ? & ? & Ho). split_and!; [done|naive_solver|naive_solver|]. by apply lookup_app_l_Some.
  - simpl in *. rewrite decide_True in Hfin; [naive_solver|].
    rewrite enum_length. by eapply lookup_lt_Some.
Qed.

(** *** Runs *)

Fixpoint run_steps (sample : list T -> list Z) (bs : list (list T * list Z)) s
    : res (list (step_out T) * RealSampler T) :=
  match bs with
  | [] => Ok ([], s)
  | (hidden, ids) :: bs =>
      '(o, s) ← real_step sample hidden ids s;
      '(os, s) ← run_steps sample bs s;
      Ok (o :: os, s)
  end.

(** The token a batch emitted for a request, and the one sampled for its row. *)
Definition row_of (rid : Z) (ids : list Z) : option nat := fst <$> list_find (fun r => r = rid) ids.

Definition emitted (rid : Z) (b : list T * list Z) (o : step_out T) : option Z :=
  k ← row_of rid b.2; out_token_ids o !! k.
Definition sampled_for (sample : list T -> list Z) (rid : Z) (b : list T * list Z) : option Z :=
  k ← row_of rid b.2; sample b.1 !! k.

Lemma row_of_lookup rid ids : rid ∈ ids -> exists k, row_of rid ids = Some k /\ ids !! k = Some rid.
Proof.
  intros Hin. destruct (list_find_elem_of (fun r => r = rid) ids rid Hin eq_refl) as [[k r] Hf].
  exists k. unfold row_of. rewrite Hf. apply list_find_Some in Hf as (? & -> & _). done.
Qed.

Definition good_batch (sample : list T -> list Z) (rid : Z) (b : list T * list Z) : Prop :=
  NoDup b.2 /\ rid ∈ b.2 /\ length (sample b.1) = length b.2.

Lemma good_row sample rid b :
  good_batch sample rid b ->
  exists k tok, row_of rid b.2 = Some k /\ b.2 !! k = Some rid /\ sample b.1 !! k = Some tok.
Proof.
  intros (_ & Hin & Hl). destruct (row_of_lookup _ _ Hin) as (k & Hr & Hk).
  destruct (lookup_lt_is_Some_2 (sample b.1) k) as [tok Ht]; [apply lookup_lt_Some in Hk; lia|].
  eauto.
Qed.

(** A request without a view cannot be in a successful step once it finished. *)
Lemma finished_no_step sample hidden ids s o s' rid :
  real_step sample hidden ids s = Ok (o, s') -> rid ∈ ids -> real_tracked s rid.
Proof.
  intros Hrun Hin. destruct (@step_lawful _ _ _ (real_lawful T sample) _ _ _ _ _ Hrun) as [fl Hl].
  by apply (law_was_tracked _ _ _ _ _ _ Hl).
Qed.
End Refine.

(** The flag of row [k] decides where it goes. *)
Lemma after_flags {T} (s : RealSampler T) sampled ids st k r :
  NoDup ids -> after s sampled (enumerate ids) st -> ids !! k = Some r ->
  (Z.of_nat k ∈ st.1.1.2 <-> ends (row_spec s sampled (Z.of_nat k, r)).2 = false) /\
  (r ∈ st.1.2 <-> ends (row_spec s sampled (Z.of_nat k, r)).2 = true).
Proof.
  intros Hnd Haf Hk. set (fl := fun x => ends (row_spec s sampled x).2).
  assert (Hfl : (fl <$> enumerate ids) !! k = Some (fl (Z.of_nat k, r)))
    by (by rewrite list_lookup_fmap, (enum_lookup _ _ _ Hk)).
  rewrite (af_cont _ _ _ _ Haf), (af_fin _ _ _ _ Haf), enum_snd. fold fl.
  change (ends (row_spec s sampled (Z.of_nat k, r)).2) with (fl (Z.of_nat k, r)).
  assert (H1 : (enumerate ids).*1 = py_range (zlen ids))
    by (apply fst_zip; rewrite py_range_length; unfold zlen; lia).
  rewrite H1, !elem_of_select by (rewrite length_fmap, enum_length, ?py_range_length; unfold zlen; lia).
  split; split.
  - intros (k' & Hk' & Hf). unfold py_range in Hk'. apply lookup_seqZ in Hk' as [Hk' _].
    replace k' with k in Hf by lia. congruence.
  - intros Hf. exists k. split; [|congruence]. unfold py_range. apply lookup_lt_Some in Hk.
    rewrite lookup_seqZ_lt by (unfold zlen; lia). done.
  - intros (k' & Hk' & Hf). replace k' with k in Hf by (by eapply NoDup_lookup). congruence.
  - intros Hf. exists k. split; [done|congruence].
Qed.

(** The loopback data: the embedding row of each continuing token. *)
Lemma continued_rows {T} (emb : list T) (out c : list Z) :
  (forall k, k ∈ c -> 0 <= k < zlen out) -> Forall (fun t => 0 <= t < zlen emb) out ->
  exists data, (next_tok ← py_map (fun i => py_get out i) c; index_select emb next_tok) = Ok data /\
    length data = length c /\
    forall j k tok, c !! j = Some k -> out !! Z.to_nat k = Some tok -> data !! j = emb !! Z.to_nat tok.
Proof.
  intros Hc Hout.
  destruct (py_map_total (fun i => py_get out i) (fun k t => out !! Z.to_nat k = Some t) c)
    as (toks & -> & Htoks).
  { intros k Hk. specialize (Hc k Hk).
    destruct (lookup_lt_is_Some_2 out (Z.to_nat k)) as [t Ht]; [unfold zlen in *; lia|].
    exists t. split; [by apply py_get_Ok; [lia|]|done]. }
  simpl. unfold index_select.
  destruct (py_map_total (fun i => _ ← py_check (0 <=? i) IndexError; py_get emb i)
    (fun t row => emb !! Z.to_nat t = Some row) toks) as (data & -> & Hdata).
  { intros t [j Hj]%list_elem_of_lookup.
    destruct (Forall2_lookup_r _ _ _ _ _ Htoks Hj) as (k & _ & Hk).
    rewrite Forall_lookup in Hout. specialize (Hout _ _ Hk) as Ht. simpl in Ht.
    destruct (lookup_lt_is_Some_2 emb (Z.to_nat t)) as [row Hrow]; [unfold zlen in *; lia|].
    exists row. rewrite (proj2 (Z.leb_le 0 t)) by lia. simpl. split; [by apply py_get_Ok; [lia|]|done]. }
  exists data. split; [done|]. split.
  - by rewrite <-(Forall2_length _ _ _ Hdata), <-(Forall2_length _ _ _ Htoks).
  - intros j k tok Hj Hk. destruct (Forall2_lookup_l _ _ _ _ _ Htoks Hj) as (t & Ht & Hkt).
    destruct (Forall2_lookup_l _ _ _ _ _ Hdata Ht) as (row & Hrow & Hemb). congruence.
Qed.

Lemma step_token_valid eos tok a n :
  0 <= tok < n -> Forall (fun t => 0 <= t < n) (a_forced a) -> 0 <= (areq_step eos tok a).1 < n.
Proof. intros Ht Hf. unfold areq_step. destruct Hf; simpl; lia. Qed.

(** A step of the real sampler on a batch of distinct tracked requests
    succeeds and refines the per-request machine: row [k] emits the next forced
    token of its request while it has one, else the sampled token; exactly the
    requests that sampled an end token or exhausted their budget finish and are
    forgotten, the others continue with the embedding of their token, and no other
    request is touched. *)
Theorem real_step_refines {T} (sample : list T -> list Z) (hidden : list T) (ids : list Z)
    (s : RealSampler T) :
  NoDup ids -> length (sample hidden) = length ids ->
  Forall (fun r => is_Some (view s r)) ids ->
  Forall (fun t => 0 <= t < zlen (embedding s)) (sample hidden) ->
  (forall r a, view s r = Some a -> Forall (fun t => 0 <= t < zlen (embedding s)) (a_forced a)) ->
  exists o s', real_step sample hidden ids s = Ok (o, s') /\
    (forall k r a tok, ids !! k = Some r -> view s r = Some a -> sample hidden !! k = Some tok ->
       out_token_ids o !! k = Some (areq_step (eos_token_ids s) tok a).1 /\
       view s' r = (areq_step (eos_token_ids s) tok a).2 /\
       (Z.of_nat k ∈ continue_ids o <-> is_Some (areq_step (eos_token_ids s) tok a).2) /\
       (r ∈ finish_req_ids o <-> (areq_step (eos_token_ids s) tok a).2 = None)) /\
    (forall r, r ∉ ids -> view s' r = view s r) /\
    exists data, continued_data o = Some data /\ length data = length (continue_ids o) /\
      forall j k tok, continue_ids o !! j = Some k -> out_token_ids o !! Z.to_nat k = Some tok ->
        data !! j = embedding s !! Z.to_nat tok.
Proof.
  intros Hnd Hlen Hv Hs Hf.
  destruct (real_loop_refines s (sample hidden) ids) as (st & Hloop & Haf);
    [done|unfold zlen; lia|done|].
  unfold real_step. rewrite Hloop. destruct st as [[[s' c] f] out]. cbn [mbind res_bind].
  assert (Hspec : forall k r a tok, ids !! k = Some r -> view s r = Some a -> sample hidden !! k = Some tok ->
    row_spec s (sample hidden) (Z.of_nat k, r) = areq_step (eos_token_ids s) tok a).
  { intros k r a tok Hk Ha Ht. unfold row_spec. simpl. by rewrite Ha, Nat2Z.id, Ht. }
  assert (Hout : out = (fun x => (row_spec s (sample hidden) x).1) <$> enumerate ids) by apply Haf.
  assert (Hval : Forall (fun t => 0 <= t < zlen (embedding s')) out).
  { rewrite (af_emb _ _ _ _ Haf : embedding s' = _), Hout. apply Forall_fmap, Forall_forall.
    intros [i r] [Hi Hk]%elem_of_enumerate. rewrite <-(Z2Nat.id i) by lia. simpl.
    rewrite Forall_lookup in Hv. destruct (Hv _ _ Hk) as [a Ha].
    destruct (lookup_lt_is_Some_2 (sample hidden) (Z.to_nat i)) as [tok Ht]; [apply lookup_lt_Some in Hk; lia|].
    rewrite (Hspec _ _ _ _ Hk Ha Ht). apply step_token_valid; [|by eapply Hf].
    rewrite Forall_lookup in Hs. by eapply Hs. }
  destruct (continued_rows (embedding s') out c) as (data & Hdata & Hdl & Hrows); [|done|].
  { intros k Hk. rewrite (af_cont _ _ _ _ Haf : c = _) in Hk.
    apply elem_of_select in Hk as (j & Hj & _); [|by rewrite !length_fmap].
    rewrite list_lookup_fmap_Some in Hj. destruct Hj as ([i r] & -> & Hj).
    apply list_elem_of_lookup_2, elem_of_enumerate in Hj as [Hi Hj]. apply lookup_lt_Some in Hj.
    rewrite Hout. unfold zlen. rewrite length_fmap, enum_length. simpl. lia. }
  exists {| continue_ids := c; finish_req_ids := f; out_token_ids := out; continued_data := Some data |}, s'.
  split; [by destruct c; [simpl in Hdata; apply Ok_inj in Hdata as <-|rewrite Hdata]|].
  split; [|split; [|by exists data; rewrite <-(af_emb _ _ _ _ Haf : embedding s' = _)]].
  - intros k r a tok Hk Ha Ht. pose proof (Hspec _ _ _ _ Hk Ha Ht) as Hsp.
    destruct (after_flags _ _ _ _ _ _ Hnd Haf Hk) as [Hfc Hff]. rewrite Hsp in Hfc, Hff. simpl in *.
    split_and!.
    + rewrite Hout, list_lookup_fmap, (enum_lookup _ _ _ Hk). simpl. by rewrite Hsp.
    + rewrite <-Hsp. apply (af_view _ _ _ _ Haf (Z.of_nat k, r)). by eapply list_elem_of_lookup_2, enum_lookup.
    + rewrite Hfc. destruct (areq_step _ _ _).2; simpl; split; [eauto|done|done|intros [? ?]; done].
    + rewrite Hff. by destruct (areq_step _ _ _).2.
  - intros r Hr. apply (af_other _ _ _ _ Haf). by rewrite enum_snd.
Qed.

(** A sampler with two requests, the first with a forced token left. *)
Definition demo_sampler : RealSampler Z :=
  {| embedding := [10; 11; 12; 13]; eos_token_ids := [3]; kv_mooncake := false;
     forced := [(7, [2]); (8, [])]; out_len := [(7, 0); (8, 0)];
     rs_max_output_len := [(7, 2); (8, 5)]; last_token := [] |}.

Lemma real_step_refines_witness :
  exists o s', real_step (fun h => h) [1; 3] [7; 8] demo_sampler = Ok (o, s') /\
    out_token_ids o !! 0%nat = Some (areq_step [3] 1 {| a_forced := [2]; a_out := 0; a_max := 2 |}).1.
Proof.
  destruct (real_step_refines (fun h => h) [1; 3] [7; 8] demo_sampler) as (o & s' & Hr & Ho & _).
  - by apply (bool_decide_unpack (NoDup [7; 8])); vm_compute.
  - reflexivity.
  - repeat constructor; vm_compute; eauto.
  - repeat constructor; vm_compute; congruence.
  - intros r a. unfold view. simpl. repeat case_decide; simplify_eq/=; intros; simplify_eq/=;
      repeat constructor; vm_compute; congruence.
  - exists o, s'. split; [exact Hr|].
    apply (Ho 0%nat 7 {| a_forced := [2]; a_out := 0; a_max := 2 |} 1); reflexivity.
Defined.

(** When the [j]-th batch that contains the request emits [tok] for it, the
    request ends: its forced tokens are used up, and [tok] is an end token or the
    last its budget allows. *)
Definition ends_at {T} (s : RealSampler T) (a : areq) (j : nat) (tok : Z) : Prop :=
  (length (a_forced a) <= j)%nat /\
  (tok ∈ eos_token_ids s \/ a_max a <= a_out a + Z.of_nat (j - length (a_forced a)) + 1).

(** One batch, read off the request's own state. *)
Lemma lifetime_step {T} (sample : list T -> list Z) (s s1 : RealSampler T) b o rid a :
  real_step sample b.1 b.2 s = Ok (o, s1) -> good_batch sample rid b -> view s rid = Some a ->
  exists tok, emitted rid b o = Some tok /\
    (if decide (0 < length (a_forced a))%nat then a_forced a !! 0%nat else sampled_for sample rid b) = Some tok /\
    (rid ∈ finish_req_ids o <-> ends_at s a 0 tok) /\ eos_token_ids s1 = eos_token_ids s /\
    ((rid ∈ finish_req_ids o /\ ~ real_tracked s1 rid) \/
     (rid ∉ finish_req_ids o /\ exists a', view s1 rid = Some a' /\ a_max a' = a_max a /\
        a_forced a' = tail (a_forced a) /\
        a_out a' = (if decide (0 < length (a_forced a))%nat then a_out a else a_out a + 1))).
Proof.
  intros Hstep Hb Hv. destruct (good_row _ _ _ Hb) as (k & tok & Hrow & Hk & Htok). destruct Hb as (Hnd & _ & _).
  destruct (step_projects _ _ _ _ _ _ _ _ _ _ Hstep Hnd Hk Hv Htok) as (He & Hv' & Hnt & Hf & Ho).
  assert (Hem : emitted rid b o = Some (areq_step (eos_token_ids s) tok a).1)
    by (unfold emitted; by rewrite Hrow).
  assert (Hsam : sampled_for sample rid b = Some tok) by (unfold sampled_for; by rewrite Hrow).
  exists (areq_step (eos_token_ids s) tok a).1. split; [done|]. rewrite Hsam. unfold ends_at. clear Hem Hsam.
  destruct a as [fq out mx]. unfold areq_step in *. simpl in *. destruct fq as [|t q]; simpl in *.
  - case_bool_decide as Heos; simpl in *.
    + split_and!; [done| |done|left; split; [by apply Hf|by apply Hnt]]. rewrite Hf. split; [|done].
      intros _. split; [lia|by left].
    + destruct (Z.leb_spec mx (out + 1)); simpl in *.
      * split_and!; [done| |done|left; split; [by apply Hf|by apply Hnt]]. rewrite Hf. split; [|done].
        intros _. split; [lia|right; lia].
      * split_and!; [done| |done|right; split; [by intros ?%Hf|]; by eexists].
        rewrite Hf. split; [done|]. intros (_ & [?|?]); [done|lia].
  - split_and!; [done| |done|right; split; [by intros ?%Hf|]; by eexists].
    rewrite Hf. split; [done|]. intros [? _]. lia.
Qed.

(** C31. The life of a request in the real sampler, whatever else shares its
    batches: in any successful run of batches that contain it, the [j]-th batch
    emits its [j]-th forced token while there is one and then the token sampled for
    its row; it is reported finished by exactly the batch where, with no forced
    token left, the token emitted is an end token or the number of sampled tokens
    reaches the budget, and no batch can contain it afterwards; so it is in at most
    [len(forced) + max(1, max_output_len - out_len)] batches. *)
Theorem real_request_lifetime {T} (sample : list T -> list Z) (bs : list (list T * list Z))
    (s s' : RealSampler T) (outs : list (step_out T)) (rid : Z) (a : areq) :
  run_steps sample bs s = Ok (outs, s') -> Forall (good_batch sample rid) bs ->
  view s rid = Some a ->
  (forall j b o, bs !! j = Some b -> outs !! j = Some o -> exists tok, emitted rid b o = Some tok /\
     (if decide (j < length (a_forced a))%nat then a_forced a !! j else sampled_for sample rid b) = Some tok /\
     (rid ∈ finish_req_ids o <-> ends_at s a j tok) /\
     (rid ∈ finish_req_ids o -> S j = length bs)) /\
  zlen bs <= zlen (a_forced a) + Z.max 1 (a_max a - a_out a).
Proof.
  revert s outs a. induction bs as [|b bs IH]; intros s outs a Hrun Hgood Hv.
  { split; [done|]. pose proof (zlen_nonneg (a_forced a)). unfold zlen at 1. simpl. lia. }
  simpl in Hrun. destruct b as [hidden ids].
  apply bind_Ok in Hrun as ([o s1] & Hstep & Hrun). apply bind_Ok in Hrun as ([os s2] & Hrest & Hrun).
  apply Ok_inj in Hrun as [= <- <-]. apply Forall_cons in Hgood as [Hb Hgood].
  destruct (lifetime_step sample s s1 (hidden, ids) o rid a Hstep Hb Hv) as (tok & Hem & Hsrc & Hfin & Heos & Hcase).
  destruct Hcase as [[Hf Hnt]|(Hf & a' & Hv' & Hm & Hq & Hout)].
  - assert (bs = []) as ->.
    { destruct bs as [|[h2 ids2] bs]; [done|]. exfalso. apply Hnt. simpl in Hrest. inv_ok.
      destruct x as [o2 s3]. apply Forall_cons in Hgood as [(_ & Hin & _) _].
      by eapply finished_no_step. }
    split; [|pose proof (zlen_nonneg (a_forced a)); unfold zlen at 1; simpl; lia].
    intros [|j] b o' Hb' Ho'; simplify_eq/=. by exists tok.
  - destruct (IH _ _ _ Hrest Hgood Hv') as [Hall Hlen].
    assert (Hshift : forall j t, ends_at s1 a' j t <-> ends_at s a (S j) t).
    { intros j t. unfold ends_at. rewrite Heos, Hm, Hout, Hq. destruct (a_forced a) as [|f q]; simpl.
      - split; intros [? [?|?]]; (split; [lia|]); auto; right; lia.
      - split; intros [? [?|?]]; (split; [lia|]); auto; right; lia. }
    split.
    + intros [|j] b o' Hb' Ho'; simplify_eq/=; [by exists tok|].
      destruct (Hall j b o' Hb' Ho') as (t & Het & Hst & Hft & Hlast). exists t. split; [done|].
      split; [|split; [by rewrite <-Hshift|intros ?%Hlast; lia]]. rewrite <-Hst, Hq.
      destruct (a_forced a) as [|f q]; simpl; repeat case_decide; try lia; done.
    + destruct (decide (0 < length (a_forced a))%nat) as [Hp|Hp].
      * rewrite Hq, Hout, Hm in Hlen. destruct (a_forced a) as [|f q]; simpl in *; [lia|].
        rewrite !zlen_cons in *. lia.
      * assert (~ a_max a <= a_out a + 1).
        { intros Hle. apply Hf, Hfin. split; [lia|]. right.
          replace (0 - length (a_forced a))%nat with 0%nat by lia. lia. }
        rewrite Hq, Hout, Hm in Hlen. destruct (a_forced a) as [|f q]; simpl in *; [|lia].
        rewrite zlen_cons in *. unfold zlen in *. simpl in *. lia.
Qed.

Lemma real_request_lifetime_witness :
  exists outs s' o, run_steps (fun h => h) [([1; 1], [7; 8]); ([1], [7]); ([3], [7])] demo_sampler
    = Ok (outs, s') /\ outs !! 2%nat = Some o /\ 7 ∈ finish_req_ids o /\
    zlen [([1; 1], [7; 8]); ([1], [7]); ([3], [7])] <= 1 + Z.max 1 (2 - 0).
Proof.
  destruct (run_steps (fun h => h) [([1; 1], [7; 8]); ([1], [7]); ([3], [7])] demo_sampler)
    as [[outs s']|e] eqn:E; [|vm_compute in E; discriminate E].
  destruct (real_request_lifetime (fun h => h) [([1; 1], [7; 8]); ([1], [7]); ([3], [7])]
    demo_sampler s' outs 7 {| a_forced := [2]; a_out := 0; a_max := 2 |} E) as [Hall Hlen]; [|reflexivity|].
  { repeat constructor; simpl; try set_solver. }
  destruct (outs !! 2%nat) as [o|] eqn:Eo; [|vm_compute in E; injection E as <- _; discriminate Eo].
  exists outs, s', o. split; [reflexivity|]. split; [exact Eo|]. split; [|exact Hlen].
  destruct (Hall 2%nat ([3], [7]) o eq_refl Eo) as (tok & _ & Hs & Hf & _). apply Hf.
  vm_compute in Hs. injection Hs as <-. split; [simpl; lia|]. left. left.
Defined.

End Sampler.
