(* ===== verification/Tokenizer.v ===== *)
(** * Tokenizer and detokenizer actors ([disagmoe/frontend/tokenizer.py])

    The tokenizer tags requests with their prompt ids and pushes them to the
    queue of their data-parallel rank; the detokenizer collects the decode results
    of all engines, keeps per-request token streams and latency records, and hands
    finished requests to the controller.  Sockets are the lists of messages sent
    on them; the current time is an argument; log lines are not modelled. *)

From S2P Require Import Prelude PyFloat Datatypes.
Import Datatypes.

Module Tokenizer.

(** ** [Detokenizer] *)

Record Detokenizer : Type := {
  finished_seqs : list Z;
  active_num_requests : Z;
  slo_stats : list (Z * SloStat);
  step_infos : list SamplerStepInfo;
  token_streams : list (Z * list Z);
  token_processed : Z;
  itl_buffer : list float;
  last_log_ms : Z;
}.

Definition detokenizer_init (now : Z) : Detokenizer :=
  {| finished_seqs := []; active_num_requests := 0; slo_stats := []; step_infos := [];
     token_streams := []; token_processed := 0; itl_buffer := []; last_log_ms := now |}.

(** The periodic throughput report resets its counters. *)
Definition report (now num_tokens : Z) (d : Detokenizer) : Detokenizer :=
  let full := 10000 <=? now - last_log_ms d in
  {| finished_seqs := finished_seqs d; active_num_requests := active_num_requests d;
     slo_stats := slo_stats d; step_infos := step_infos d; token_streams := token_streams d;
     token_processed := if full then 0 else token_processed d + num_tokens;
     itl_buffer := if full then [] else itl_buffer d;
     last_log_ms := if full then now else last_log_ms d |}.

Definition add_token (now : Z) (s : SloStat) : SloStat :=
  {| slo_req_id := slo_req_id s; t_prefill := t_prefill s; t_prefill_std := t_prefill_std s;
     t_decode := t_decode s; t_tokens := t_tokens s ++ [float_of_Z now];
     t_token_timestamps := t_token_timestamps s |}.

Definition first_stat (rid now : Z) : SloStat :=
  {| slo_req_id := rid; t_prefill := float_of_Z now; t_prefill_std := float_of_Z now;
     t_decode := float_of_Z 0; t_tokens := []; t_token_timestamps := None |}.

Definition record_token (now : Z) (batch : BatchDecodeResult) (d : Detokenizer) (i : Z)
    : res Detokenizer :=
  rid ← py_get (bd_req_ids batch) i;
  tok ← py_get (bd_token_ids batch) i;
  let streams := dset (token_streams d) rid (dget_or (token_streams d) rid [] ++ [tok]) in
  match dget (slo_stats d) rid with
  | Some stat =>
      let itl := match last (t_tokens stat) with
                 | Some t => itl_buffer d ++ [fsub (float_of_Z now) t]
                 | None => itl_buffer d
                 end in
      Ok {| finished_seqs := finished_seqs d; active_num_requests := active_num_requests d;
            slo_stats := dset (slo_stats d) rid (add_token now stat);
            step_infos := step_infos d; token_streams := streams;
            token_processed := token_processed d; itl_buffer := itl; last_log_ms := last_log_ms d |}
  | None =>
      Ok {| finished_seqs := finished_seqs d; active_num_requests := active_num_requests d + 1;
            slo_stats := dset (slo_stats d) rid (first_stat rid now);
            step_infos := step_infos d; token_streams := streams;
            token_processed := token_processed d; itl_buffer := itl_buffer d;
            last_log_ms := last_log_ms d |}
  end.

Definition with_decode (now : Z) (s : SloStat) : SloStat :=
  {| slo_req_id := slo_req_id s; t_prefill := t_prefill s; t_prefill_std := t_prefill_std s;
     t_decode := float_of_Z now; t_tokens := t_tokens s;
     t_token_timestamps := t_token_timestamps s |}.

(** [set.add] *)
Definition set_add (x : Z) (l : list Z) : list Z := if bool_decide (x ∈ l) then l else l ++ [x].

Definition finish_token (now : Z) (batch : BatchDecodeResult) (d : Detokenizer) (i : Z)
    : res Detokenizer :=
  rid ← py_get (bd_req_ids batch) i;
  eos ← py_get (bd_is_eos batch) i;
  if (eos : bool) then
    stat ← of_option AssertionError (dget (slo_stats d) rid);
    Ok {| finished_seqs := set_add rid (finished_seqs d);
          active_num_requests := active_num_requests d - 1;
          slo_stats := dset (slo_stats d) rid (post_process (with_decode now stat));
          step_infos := step_infos d; token_streams := token_streams d;
          token_processed := token_processed d; itl_buffer := itl_buffer d;
          last_log_ms := last_log_ms d |}
  else Ok d.

Definition add_step_info (now num_tokens : Z) (d : Detokenizer) : Detokenizer :=
  {| finished_seqs := finished_seqs d; active_num_requests := active_num_requests d;
     slo_stats := slo_stats d;
     step_infos := step_infos d ++ [{| ssi_num_tokens := num_tokens; ssi_time_stamp := now |}];
     token_streams := token_streams d; token_processed := token_processed d;
     itl_buffer := itl_buffer d; last_log_ms := last_log_ms d |}.

Definition process_batch (now : Z) (batch : BatchDecodeResult) (d : Detokenizer) : res (Z * Detokenizer) :=
  let num_tokens := zlen (bd_req_ids batch) in
  let d := report now num_tokens d in
  d ← py_for (record_token now batch) (py_range num_tokens) d;
  let d := add_step_info now num_tokens d in
  d ← py_for (finish_token now batch) (py_range num_tokens) d;
  Ok (num_tokens, d).

Definition fetch_finished_results (d : Detokenizer) : res (list SloStat * Detokenizer) :=
  '(out, stats) ← py_for (fun '(out, stats) req_id =>
      s ← of_option KeyError (dget stats req_id);
      Ok (out ++ [s], ddel stats req_id)) (finished_seqs d) ([], slo_stats d);
  Ok (out, {| finished_seqs := []; active_num_requests := active_num_requests d;
              slo_stats := stats; step_infos := step_infos d; token_streams := token_streams d;
              token_processed := token_processed d; itl_buffer := itl_buffer d;
              last_log_ms := last_log_ms d |}).

Definition fetch_sampler_step_infos (d : Detokenizer) : list SamplerStepInfo * Detokenizer :=
  (step_infos d,
   {| finished_seqs := finished_seqs d; active_num_requests := active_num_requests d;
      slo_stats := slo_stats d; step_infos := []; token_streams := token_streams d;
      token_processed := token_processed d; itl_buffer := itl_buffer d;
      last_log_ms := last_log_ms d |}).

Definition fetch_token_streams (d : Detokenizer) : list (Z * list Z) := token_streams d.

(** [reset] keeps the token streams and the throughput counters. *)
Definition detokenizer_reset (d : Detokenizer) : Detokenizer :=
  {| finished_seqs := []; active_num_requests := 0; slo_stats := []; step_infos := [];
     token_streams := token_streams d; token_processed := token_processed d;
     itl_buffer := itl_buffer d; last_log_ms := last_log_ms d |}.

(** ** [Tokenizer] *)

Record Tokenizer : Type := {
  worker_queues : list (list TokenizedRequest);
  t_submitted : list (Z * float);
  pending_token_ids : list (Z * list Z);
}.

Definition tokenizer_init (attn_dp_size : Z) : Tokenizer :=
  {| worker_queues := replicate (Z.to_nat attn_dp_size) []; t_submitted := []; pending_token_ids := [] |}.

Definition register_prompt (req_id : Z) (token_ids : list Z) (t : Tokenizer) : Tokenizer :=
  {| worker_queues := worker_queues t; t_submitted := t_submitted t;
     pending_token_ids := dset (pending_token_ids t) req_id token_ids |}.

Definition put_single_request (now : float) (req_id init_prefill_len max_output_len dp_rank : Z)
    (t : Tokenizer) : res Tokenizer :=
  let token_ids := dget_or (pending_token_ids t) req_id [0] in
  let pending := ddel (pending_token_ids t) req_id in
  let r := {| tr_req_id := req_id; tr_init_prefill_len := init_prefill_len;
              tr_max_output_len := max_output_len; tr_token_ids := token_ids |} in
  q ← py_get (worker_queues t) dp_rank;
  qs ← py_set (worker_queues t) dp_rank (q ++ [r]);
  Ok {| worker_queues := qs; t_submitted := dset (t_submitted t) req_id now;
        pending_token_ids := pending |}.

Definition fetch_submitted_time (t : Tokenizer) : list (Z * float) := t_submitted t.

(** ** The detokenizer's accounting *)

Record detok_inv (d : Detokenizer) : Prop := {
  di_keys : NoDup (dkeys (slo_stats d));
  di_fin : NoDup (finished_seqs d);
  di_sub : forall r, r ∈ finished_seqs d -> r ∈ dkeys (slo_stats d);
  di_active : active_num_requests d = zlen (dkeys (slo_stats d)) - zlen (finished_seqs d);
}.

(** A decode result the engines send: aligned columns, distinct requests, none
    reported finished already. *)
Record good_result (b : BatchDecodeResult) (d : Detokenizer) : Prop := {
  gr_toks : length (bd_token_ids b) = length (bd_req_ids b);
  gr_eos : length (bd_is_eos b) = length (bd_req_ids b);
  gr_nodup : NoDup (bd_req_ids b);
  gr_live : forall r, r ∈ bd_req_ids b -> r ∉ finished_seqs d;
}.

Lemma range_prefix_lookup {A} (l : list A) pre i post :
  py_range (zlen l) = pre ++ i :: post -> i = zlen pre /\ exists a, l !! length pre = Some a.
Proof.
  intros Heq. assert (Hi : py_range (zlen l) !! length pre = Some i)
    by (rewrite Heq; by apply list_lookup_middle).
  unfold py_range in Hi. apply lookup_seqZ in Hi as [-> Hlt]. split; [unfold zlen; lia|].
  apply lookup_lt_is_Some_2. unfold zlen in Hlt. lia.
Qed.

Lemma py_get_zlen {A} (l : list A) {B} (pre : list B) a :
  l !! length pre = Some a -> py_get l (zlen pre) = Ok a.
Proof. intros. apply py_get_Ok; [apply zlen_nonneg|]. unfold zlen. by rewrite Nat2Z.id. Qed.

Lemma dset_keys_len {V} (d : list (Z * V)) k v :
  zlen (dkeys (dset d k v)) = zlen (dkeys d) + (if dget d k then 0 else 1).
Proof.
  destruct (dget d k) eqn:E; [rewrite dkeys_dset_in by eauto; lia|].
  rewrite dkeys_dset_new, zlen_app by done. done.
Qed.

Lemma dset_keys_in {V} (d : list (Z * V)) k v r : r ∈ dkeys (dset d k v) <-> r = k \/ r ∈ dkeys d.
Proof.
  rewrite <-!dget_Some_keys, dget_dset. case_decide; [subst; split; eauto|]. naive_solver.
Qed.

(** Recording the tokens: each appended to its stream, unknown requests become
    active. *)
Section Record_.
Context (now : Z) (b : BatchDecodeResult) (d0 : Detokenizer).
Hypothesis Hg : good_result b d0.
Hypothesis Hinv : detok_inv d0.

Record recorded (pre : list Z) (d : Detokenizer) : Prop := {
  rc_inv : detok_inv d;
  rc_fin : finished_seqs d = finished_seqs d0;
  rc_keys : forall r, r ∈ dkeys (slo_stats d) <->
    r ∈ dkeys (slo_stats d0) \/ r ∈ take (length pre) (bd_req_ids b);
  rc_out : forall r, r ∉ take (length pre) (bd_req_ids b) ->
    dget (token_streams d) r = dget (token_streams d0) r;
  rc_str : forall k r t, (k < length pre)%nat -> bd_req_ids b !! k = Some r ->
    bd_token_ids b !! k = Some t ->
    dget (token_streams d) r = Some (dget_or (token_streams d0) r [] ++ [t]);
  rc_info : step_infos d = step_infos d0;
}.

Lemma take_snoc {A} (l : list A) n a : l !! n = Some a -> take (S n) l = take n l ++ [a].
Proof. apply take_S_r. Qed.

Lemma recorded_snoc pre d rid tok stat act itl :
  recorded pre d -> bd_req_ids b !! length pre = Some rid -> bd_token_ids b !! length pre = Some tok ->
  act = active_num_requests d + (if dget (slo_stats d) rid then 0 else 1) ->
  recorded (pre ++ [zlen pre])
    {| finished_seqs := finished_seqs d; active_num_requests := act;
       slo_stats := dset (slo_stats d) rid stat; step_infos := step_infos d;
       token_streams := dset (token_streams d) rid (dget_or (token_streams d) rid [] ++ [tok]);
       token_processed := token_processed d; itl_buffer := itl; last_log_ms := last_log_ms d |}.
Proof.
  intros [Hi Hf Hk Ho Hs Hin] Hr Ht ->.
  assert (Hnew : rid ∉ take (length pre) (bd_req_ids b)).
  { intros Hin'. apply elem_of_take in Hin' as (k & Hk' & Hlt).
    pose proof (NoDup_lookup _ _ _ _ (gr_nodup _ _ Hg) Hk' Hr). lia. }
  assert (Hgo : dget_or (token_streams d) rid [] = dget_or (token_streams d0) rid [])
    by (unfold dget_or; by rewrite Ho).
  assert (Htake : take (length (pre ++ [zlen pre])) (bd_req_ids b)
    = take (length pre) (bd_req_ids b) ++ [rid]).
  { rewrite length_app. simpl. rewrite Nat.add_1_r. by apply take_snoc. }
  split; simpl; [split; simpl|done|..|done].
  - apply dkeys_dset_NoDup, Hi.
  - apply Hi.
  - intros r Hr'. apply dset_keys_in. right. by apply (di_sub _ Hi).
  - rewrite dset_keys_len, (di_active _ Hi). lia.
  - intros r. rewrite dset_keys_in, Hk, Htake, elem_of_app, list_elem_of_singleton. naive_solver.
  - intros r Hr'. rewrite Htake in Hr'. rewrite dget_dset_ne by set_solver. apply Ho. set_solver.
  - intros k r t Hlt Hkr Hkt. rewrite length_app in Hlt. simpl in Hlt.
    destruct (decide (k = length pre)) as [->|].
    + simplify_eq. by rewrite dget_dset_eq, Hgo.
    + rewrite dget_dset_ne; [by apply Hs with k; [lia|..]|]. intros ->.
      by pose proof (NoDup_lookup _ _ _ _ (gr_nodup _ _ Hg) Hkr Hr).
Qed.

Lemma record_token_step pre i post d :
  py_range (zlen (bd_req_ids b)) = pre ++ i :: post -> recorded pre d ->
  exists d', record_token now b d i = Ok d' /\ recorded (pre ++ [i]) d'.
Proof.
  intros Heq Hrec. pose proof (range_prefix_lookup _ _ _ _ Heq) as (-> & rid & Hr).
  destruct (lookup_lt_is_Some_2 (bd_token_ids b) (length pre)) as [tok Ht].
  { rewrite (gr_toks _ _ Hg). by eapply lookup_lt_Some. }
  unfold record_token. rewrite (py_get_zlen _ _ _ Hr), (py_get_zlen _ _ _ Ht). simpl.
  pose proof (fun stat act itl => recorded_snoc pre d rid tok stat act itl Hrec Hr Ht) as Hstep.
  destruct (dget (slo_stats d) rid) as [stat|]; (eexists; split; [done|]); apply Hstep; lia.
Qed.

Lemma record_loop d1 :
  d1 = report now (zlen (bd_req_ids b)) d0 ->
  exists d, py_for (record_token now b) (py_range (zlen (bd_req_ids b))) d1 = Ok d /\
    recorded (py_range (zlen (bd_req_ids b))) d.
Proof.
  intros ->. apply (py_for_total recorded).
  - destruct Hinv. split; [split|..]; try done; simpl; [set_solver|lia].
  - intros pre i post d Heq Hr. by eapply record_token_step.
Qed.
End Record_.

(** Marking the finished requests. *)
Section Finish.
Context (now : Z) (b : BatchDecodeResult) (d1 : Detokenizer).
Hypothesis Hlen : length (bd_is_eos b) = length (bd_req_ids b).
Hypothesis Hnd : NoDup (bd_req_ids b).
Hypothesis Hlive : forall r, r ∈ bd_req_ids b -> r ∉ finished_seqs d1.
Hypothesis Hkeys : forall r, r ∈ bd_req_ids b -> r ∈ dkeys (slo_stats d1).
Hypothesis Hinv : detok_inv d1.

Definition eos_before (n : nat) (r : Z) : Prop :=
  exists k, (k < n)%nat /\ bd_req_ids b !! k = Some r /\ bd_is_eos b !! k = Some true.

Record finished (pre : list Z) (d : Detokenizer) : Prop := {
  fn_inv : detok_inv d;
  fn_keys : dkeys (slo_stats d) = dkeys (slo_stats d1);
  fn_fin : forall r, r ∈ finished_seqs d <-> r ∈ finished_seqs d1 \/ eos_before (length pre) r;
  fn_str : token_streams d = token_streams d1;
  fn_info : step_infos d = step_infos d1;
}.

Lemma eos_before_S n r rid e :
  bd_req_ids b !! n = Some rid -> bd_is_eos b !! n = Some e ->
  eos_before (S n) r <-> eos_before n r \/ (r = rid /\ e = true).
Proof.
  intros Hr He. unfold eos_before. split.
  - intros (k & Hk & Hkr & Hke). destruct (decide (k = n)) as [->|]; [naive_solver|].
    left. exists k. split; [lia|done].
  - intros [(k & Hk & H)|[-> ->]]; [exists k; split; [lia|done]|]. exists n. split; [lia|done].
Qed.

Lemma finish_token_step pre i post d :
  py_range (zlen (bd_req_ids b)) = pre ++ i :: post -> finished pre d ->
  exists d', finish_token now b d i = Ok d' /\ finished (pre ++ [i]) d'.
Proof.
  intros Heq [Hi Hk Hf Hs Hin]. pose proof (range_prefix_lookup _ _ _ _ Heq) as (-> & rid & Hr).
  destruct (lookup_lt_is_Some_2 (bd_is_eos b) (length pre)) as [e He].
  { rewrite Hlen. by eapply lookup_lt_Some. }
  unfold finish_token. rewrite (py_get_zlen _ _ _ Hr), (py_get_zlen _ _ _ He). simpl.
  assert (Hb : forall r, eos_before (length (pre ++ [zlen pre])) r <->
    eos_before (length pre) r \/ (r = rid /\ e = true)).
  { intros r. rewrite length_app. simpl. rewrite Nat.add_1_r. by apply eos_before_S. }
  assert (Hin_ids : rid ∈ bd_req_ids b) by (by eapply list_elem_of_lookup_2).
  destruct e.
  2:{ exists d. split; [done|]. split; try done. intros r. rewrite Hb, Hf. naive_solver. }
  pose proof (Hkeys _ Hin_ids) as Hkey. rewrite <-Hk in Hkey.
  apply dget_Some_keys in Hkey as [stat Es]. rewrite Es. simpl. eexists. split; [done|].
  assert (Hnot : rid ∉ finished_seqs d).
  { rewrite Hf. intros [Hc|(k & Hk' & Hkr & _)]; [by apply (Hlive rid)|].
    pose proof (NoDup_lookup _ _ _ _ Hnd Hkr Hr). lia. }
  assert (Hadd : set_add rid (finished_seqs d) = finished_seqs d ++ [rid])
    by (unfold set_add; by rewrite bool_decide_false).
  assert (Hkk : dkeys (dset (slo_stats d) rid (post_process (with_decode now stat))) = dkeys (slo_stats d))
    by (apply dkeys_dset_in; eauto).
  split; simpl; [split; simpl|..|done|done]; rewrite ?Hadd, ?Hkk.
  - apply Hi.
  - apply NoDup_app. split_and!; [apply Hi|set_solver|apply NoDup_singleton].
  - intros r [Hr'|Hr']%elem_of_app; [by apply (di_sub _ Hi)|].
    apply list_elem_of_singleton in Hr' as ->. apply dget_Some_keys. eauto.
  - rewrite zlen_app, (di_active _ Hi). unfold zlen. simpl. lia.
  - done.
  - intros r. rewrite elem_of_app, list_elem_of_singleton, Hf, Hb. naive_solver.
Qed.

Lemma finish_loop :
  exists d, py_for (finish_token now b) (py_range (zlen (bd_req_ids b))) d1 = Ok d /\
    finished (py_range (zlen (bd_req_ids b))) d.
Proof.
  apply (py_for_total finished).
  - split; try done. intros r. split; [naive_solver|]. intros [?|(k & Hk & _)]; [done|simpl in Hk; lia].
  - intros pre i post d Heq Hf. by eapply finish_token_step.
Qed.
End Finish.

(** Processing a decode result appends exactly its tokens to the streams of
    its requests, makes its unknown requests active, moves the requests it marks
    as ended to the finished set, and keeps the count of active requests equal to
    the number of known requests that are not finished. *)
Theorem process_batch_step (now : Z) (b : BatchDecodeResult) (d : Detokenizer) :
  detok_inv d -> good_result b d ->
  exists d', process_batch now b d = Ok (zlen (bd_req_ids b), d') /\ detok_inv d' /\
    (forall k r t, bd_req_ids b !! k = Some r -> bd_token_ids b !! k = Some t ->
       dget (token_streams d') r = Some (dget_or (token_streams d) r [] ++ [t])) /\
    (forall r, r ∉ bd_req_ids b -> dget (token_streams d') r = dget (token_streams d) r) /\
    (forall r, r ∈ dkeys (slo_stats d') <-> r ∈ dkeys (slo_stats d) \/ r ∈ bd_req_ids b) /\
    (forall r, r ∈ finished_seqs d' <-> r ∈ finished_seqs d \/
       exists k, bd_req_ids b !! k = Some r /\ bd_is_eos b !! k = Some true) /\
    step_infos d' = step_infos d ++
      [{| ssi_num_tokens := zlen (bd_req_ids b); ssi_time_stamp := now |}].
Proof.
  intros Hinv Hg. unfold process_batch.
  destruct (record_loop now b d Hg Hinv _ eq_refl) as (d1 & -> & [Hi Hf Hk Ho Hs Hin]).
  rewrite py_range_length in *. assert (Hn : Z.to_nat (zlen (bd_req_ids b)) = length (bd_req_ids b))
    by (unfold zlen; lia). rewrite Hn, take_ge in * by lia. cbn [mbind res_bind].
  destruct (finish_loop now b (add_step_info now (zlen (bd_req_ids b)) d1)) as (d2 & -> & [Hi2 Hk2 Hf2 Hs2 Hin2]).
  - apply Hg.
  - apply Hg.
  - intros r Hr. simpl. rewrite Hf. by apply (gr_live _ _ Hg).
  - intros r Hr. simpl. apply Hk. by right.
  - by destruct Hi.
  - simpl in *. exists d2. split_and!; [done|done|..].
    + intros k r t Hkr Hkt. rewrite Hs2. apply Hs with k; [by eapply lookup_lt_Some|done..].
    + intros r Hr. rewrite Hs2. by apply Ho.
    + intros r. rewrite Hk2. apply Hk.
    + intros r. rewrite Hf2, Hf, py_range_length, Hn. unfold eos_before. split; [naive_solver|].
      intros [?|(k & Hkr & Hke)]; [by left|]. right. exists k. split; [by eapply lookup_lt_Some|done].
    + by rewrite Hin2, Hin.
Qed.

Lemma process_batch_step_witness :
  exists d', process_batch 5
    {| bd_req_ids := [4; 9]; bd_token_ids := [11; 12]; bd_is_eos := [false; true] |}
    (detokenizer_init 0) = Ok (2, d') /\ detok_inv d'.
Proof.
  destruct (process_batch_step 5
    {| bd_req_ids := [4; 9]; bd_token_ids := [11; 12]; bd_is_eos := [false; true] |}
    (detokenizer_init 0)) as (d' & Hr & Hi & _).
  - split; try constructor. intros r []%not_elem_of_nil.
  - split; [reflexivity|reflexivity| |].
    + apply (bool_decide_unpack (NoDup [4; 9])). vm_compute. exact I.
    + intros r _ []%not_elem_of_nil.
  - exists d'. split; [exact Hr|exact Hi].
Defined.

End Tokenizer.
