(* ===== verification/KVLoader.v ===== *)
(** * KV ingestion ([disagmoe/kv_loader.py])

    Worker threads fetch the key/value pages of a prompt from the store into a
    staging buffer of their own and hand a completion to the engine loop, which
    copies the pages into the blocks of the request and gives the buffer back.
    [page_chain_hashes] names the pages; SHA-256 and the store are parameters.
    The threads are a step relation over the two queues, the buffers and the
    workers' states. *)

From stdpp Require Import strings pretty countable.
From S2P Require Import Prelude Datatypes BlockManager.
Import Datatypes BlockManager.

Module KVLoader.

Definition PAGE_TOKENS : Z := 16.

(** ** Page names *)

(** [struct.pack("<nI", *page)] *)
Definition pack_u32 (x : Z) : res (list Z) :=
  if (0 <=? x) && (x <? 2 ^ 32)
  then Ok [x mod 256; x / 256 mod 256; x / 65536 mod 256; x / 16777216 mod 256]
  else Raise StructError.
Definition struct_pack (page : list Z) : res (list Z) := ls ← py_map pack_u32 page; Ok (concat ls).

(** [token_ids[p : p + PAGE_TOKENS]] *)
Definition page_at (token_ids : list Z) (p : Z) : list Z :=
  take (Z.to_nat PAGE_TOKENS) (drop (Z.to_nat p) token_ids).

Section Hashes.
Context (sha256 : list Z -> list Z) (hex : list Z -> string).

Definition chain_page (token_ids : list Z) (st : list string * list Z) (p : Z)
    : res (list string * list Z) :=
  packed ← struct_pack (page_at token_ids p);
  let digest := sha256 (st.2 ++ packed) in
  Ok (st.1 ++ [hex digest], digest).

(** The page starts [range(0, len // 16 * 16, 16)]. *)
Definition page_starts (n : Z) : list Z := (fun k => k * PAGE_TOKENS) <$> py_range (n / PAGE_TOKENS).

Definition page_chain_hashes (token_ids : list Z) : res (list string) :=
  st ← py_for (chain_page token_ids) (page_starts (zlen token_ids)) ([], []);
  Ok st.1.
End Hashes.

(** ** Jobs *)

Record KVLoadJob : Type := {
  job_req_id : Z;
  prompt_token_ids : list Z;
  job_ctx : TokenizedRequest;
}.

Record KVLoadDone : Type := {
  kd_job : KVLoadJob;
  kd_worker : nat;
  kd_n_pages : Z;
  kd_ok : bool;
}.

Definition job_pages (j : KVLoadJob) : Z := zlen (prompt_token_ids j) / PAGE_TOKENS.

Section Fetch.
Context (sha256 : list Z -> list Z) (hex : list Z -> string) (obj_bytes stage_bytes : Z).

(** The store keys of a job in staging order: K and V of each page. *)
Definition job_keys (j : KVLoadJob) : res (list string) :=
  hashes ← page_chain_hashes sha256 hex (prompt_token_ids j);
  Ok (hashes ≫= fun hx => [String.append hx "_0_k"; String.append hx "_0_v"]).

(** What a worker does before it asks the store: an exception here is not
    caught, it ends the thread. *)
Definition prepare_job (j : KVLoadJob) : res (list string) :=
  if 0 <? job_pages j then
    _ ← py_assert (2 * job_pages j * obj_bytes <=? stage_bytes);
    job_keys j
  else Ok [].

(** One attempt: the codes the store returned, [None] when it raised. *)
Definition attempt_ok (keys : list string) (codes : option (list Z)) : bool :=
  match codes with
  | Some cs => forallb (fun x => x.2 =? obj_bytes) (zip keys cs)
  | None => false
  end.

(** At most three attempts. *)
Definition fetch_ok (j : KVLoadJob) (keys : list string) (attempts : list (option (list Z))) : bool :=
  if 0 <? job_pages j then existsb (attempt_ok keys) (take 3 attempts) else true.
End Fetch.

(** [poll]: at most [max_items] completions, oldest first. *)
Fixpoint poll_loop (fuel : nat) (q : list KVLoadDone) : list KVLoadDone * list KVLoadDone :=
  match fuel, q with
  | O, _ => ([], q)
  | _, [] => ([], [])
  | S n, d :: q => let '(out, q) := poll_loop n q in (d :: out, q)
  end.
Definition poll (max_items : nat) (q : list KVLoadDone) : list KVLoadDone * list KVLoadDone :=
  poll_loop max_items q.

(** ** [install]

    An object holds, for a page, one row per token and layer.  The pool holds a
    row per layer, K or V, block and offset. *)

Section Install.
Context {T : Type}.

Definition object : Type := Z -> Z -> T.
Definition kv_pool : Type := Z -> bool -> Z -> Z -> T.

(** [layer_buf[kv].index_copy_(0, blocks, g[kv, l])]: page [p] of the staging
    buffer goes to block [blocks[p]]. *)
Definition index_copy (num_layers : Z) (staged : list object) (p : Z) (block : Z) (kv : bool)
    (pool : kv_pool) : kv_pool :=
  fun l kv' b t =>
    if (0 <=? l) && (l <? num_layers) && Bool.eqb kv kv' && (b =? block)
       && (0 <=? t) && (t <? PAGE_TOKENS)
    then match staged !! Z.to_nat (2 * p + (if kv then 1 else 0)) with
         | Some o => o t l
         | None => pool l kv' b t
         end
    else pool l kv' b t.

Definition copy_pages (num_layers : Z) (staged : list object) (blocks : list Z) (pool : kv_pool)
    : kv_pool :=
  foldl (fun pool '(p, b) =>
    index_copy num_layers staged p b true (index_copy num_layers staged p b false pool))
    pool (enumerate blocks).

Record installer : Type := {
  in_blocks : BlockManager_C;
  in_pool : kv_pool;
  n_loaded : Z;
  n_rejected : Z;
}.

Definition get_seq_block_ids (id : Z) (b : BlockManager_C) : res (list Z) :=
  of_option RuntimeError (block_tables_ b !! id).

(** The body of the [try]: the new blocks and pool. *)
Definition install_body (num_layers : Z) (staged : list object) (d : KVLoadDone)
    (b : BlockManager_C) (pool : kv_pool) : res kv_pool :=
  if kd_n_pages d =? 0 then Ok pool else
  block_ids ← get_seq_block_ids (job_req_id (kd_job d)) b;
  _ ← py_assert (kd_n_pages d <=? zlen block_ids);
  Ok (copy_pages num_layers staged (py_take (kd_n_pages d) block_ids) pool).

Definition install (num_layers : Z) (staged : list object) (d : KVLoadDone) (i : installer)
    : bool * installer :=
  let reject b :=
    (false, {| in_blocks := b; in_pool := in_pool i; n_loaded := n_loaded i;
               n_rejected := n_rejected i + 1 |}) in
  if negb (kd_ok d) then reject (in_blocks i) else
  match allocate (job_req_id (kd_job d)) (kd_n_pages d * PAGE_TOKENS) (in_blocks i) with
  | Raise _ => reject (in_blocks i)
  | Ok b =>
      match install_body num_layers staged d b (in_pool i) with
      | Raise _ => reject b
      | Ok pool => (true, {| in_blocks := b; in_pool := pool; n_loaded := n_loaded i + 1;
                             n_rejected := n_rejected i |})
      end
  end.
End Install.
Arguments installer : clear implicits.
Arguments object : clear implicits.
Arguments kv_pool : clear implicits.

(** ** The threads *)

Inductive wstate : Type :=
  | Idle
  | Fetching (j : KVLoadJob)
  | Waiting (j : KVLoadJob)
  | Dead (j : KVLoadJob).

Section Threads.
Context {T : Type} (sha256 : list Z -> list Z) (hex : list Z -> string).
Context (obj_bytes stage_bytes : Z) (store : string -> option (@object T)).

Record loader : Type := {
  _jobs : list KVLoadJob;
  _done : list KVLoadDone;
  polled : list KVLoadDone;
  workers : list wstate;
  _staging : list (list (@object T));
  installed : list (KVLoadDone * list (@object T));
}.

Definition loader_init (num_workers : nat) : loader :=
  {| _jobs := []; _done := []; polled := []; workers := replicate num_workers Idle;
     _staging := replicate num_workers []; installed := [] |}.

(** [buf] starts with the objects of [keys]. *)
Definition holds (buf : list (@object T)) (keys : list string) : Prop :=
  Forall2 (fun k o => store k = Some o) keys (take (length keys) buf).

Inductive lstep : loader -> loader -> Prop :=
  | l_submit s j :
      lstep s {| _jobs := _jobs s ++ [j]; _done := _done s; polled := polled s;
                 workers := workers s; _staging := _staging s; installed := installed s |}
  | l_take s w j js :
      workers s !! w = Some Idle -> _jobs s = j :: js ->
      lstep s {| _jobs := js; _done := _done s; polled := polled s;
                 workers := <[w := Fetching j]> (workers s); _staging := _staging s;
                 installed := installed s |}
  | l_die s w j e :
      workers s !! w = Some (Fetching j) ->
      prepare_job sha256 hex obj_bytes stage_bytes j = Raise e ->
      lstep s {| _jobs := _jobs s; _done := _done s; polled := polled s;
                 workers := <[w := Dead j]> (workers s); _staging := _staging s;
                 installed := installed s |}
  | l_complete s w j keys attempts buf :
      workers s !! w = Some (Fetching j) ->
      prepare_job sha256 hex obj_bytes stage_bytes j = Ok keys ->
      (fetch_ok obj_bytes j keys attempts = true -> holds buf keys) ->
      lstep s {| _jobs := _jobs s;
                 _done := _done s ++ [{| kd_job := j; kd_worker := w; kd_n_pages := job_pages j;
                                         kd_ok := fetch_ok obj_bytes j keys attempts |}];
                 polled := polled s; workers := <[w := Waiting j]> (workers s);
                 _staging := <[w := buf]> (_staging s); installed := installed s |}
  | l_poll s out q :
      polled s = [] -> poll 8 (_done s) = (out, q) ->
      lstep s {| _jobs := _jobs s; _done := q; polled := out; workers := workers s;
                 _staging := _staging s; installed := installed s |}
  | l_install s d ds buf :
      polled s = d :: ds -> _staging s !! kd_worker d = Some buf ->
      lstep s {| _jobs := _jobs s; _done := _done s; polled := ds;
                 workers := <[kd_worker d := Idle]> (workers s); _staging := _staging s;
                 installed := installed s ++ [(d, buf)] |}.

Definition reachable (num_workers : nat) : loader -> Prop := rtc lstep (loader_init num_workers).

(** *** The invariant of the threads *)

(** A completion belongs to the job of its worker, which waits for it, and its
    staging buffer still holds what was fetched. *)
Definition done_ok (s : loader) (d : KVLoadDone) : Prop :=
  workers s !! kd_worker d = Some (Waiting (kd_job d)) /\
  exists keys buf, prepare_job sha256 hex obj_bytes stage_bytes (kd_job d) = Ok keys /\
    _staging s !! kd_worker d = Some buf /\ kd_n_pages d = job_pages (kd_job d) /\
    (kd_ok d = true -> holds buf keys).

Definition installed_ok (x : KVLoadDone * list (@object T)) : Prop :=
  exists keys, prepare_job sha256 hex obj_bytes stage_bytes (kd_job x.1) = Ok keys /\
    kd_n_pages x.1 = job_pages (kd_job x.1) /\ (kd_ok x.1 = true -> holds x.2 keys).

Record loader_inv (s : loader) : Prop := {
  li_len : length (_staging s) = length (workers s);
  li_done : Forall (done_ok s) (polled s ++ _done s);
  li_nodup : NoDup (kd_worker <$> polled s ++ _done s);
  li_inst : Forall installed_ok (installed s);
}.

Lemma poll_loop_app n q out q' : poll_loop n q = (out, q') -> q = out ++ q' /\ (length out <= n)%nat.
Proof.
  revert q out q'. induction n as [|n IH]; intros [|d q] out q' H; simplify_eq/=; try (split; [done|lia]).
  destruct (poll_loop n q) as [o r] eqn:E. simplify_eq. destruct (IH _ _ _ E) as [-> ?].
  split; [done|]. simpl. lia.
Qed.

(** A step that changes worker [w] only, which no completion waits on, keeps the
    completions good. *)
Lemma done_ok_other s s' w d :
  done_ok s d -> kd_worker d <> w ->
  (forall w', w' <> w -> workers s' !! w' = workers s !! w' /\ _staging s' !! w' = _staging s !! w') ->
  done_ok s' d.
Proof.
  intros (Hw & keys & buf & Hp & Hb & Hn & Hh) Hne Hsame. destruct (Hsame _ Hne) as [E1 E2].
  split; [by rewrite E1|]. exists keys, buf. by rewrite E2.
Qed.

Lemma not_waiting s d w ws :
  done_ok s d -> workers s !! w = Some ws -> (forall j, ws <> Waiting j) -> kd_worker d <> w.
Proof. intros (Hw & _) Hws Hne <-. rewrite Hw in Hws. simplify_eq. by apply (Hne (kd_job d)). Qed.

Lemma worker_update s w ws :
  forall w', w' <> w -> <[w := ws]> (workers s) !! w' = workers s !! w' /\ _staging s !! w' = _staging s !! w'.
Proof. intros w' Hne. by rewrite list_lookup_insert_ne by done. Qed.

Lemma loader_inv_init n : loader_inv (loader_init n).
Proof. split; simpl; [by rewrite !length_replicate|constructor..]. Qed.

Lemma loader_inv_step s s' : loader_inv s -> lstep s s' -> loader_inv s'.
Proof.
  intros [Hlen Hdone Hnd Hinst] Hstep. rewrite Forall_forall in Hdone.
  destruct Hstep as [s j|s w j js Hw Hj|s w j e Hw He|s w j keys att buf Hw Hk Hh|s out q Hp Hpoll|s d ds buf Hp Hb].
  - split; simpl; try done. by rewrite Forall_forall.
  - split; simpl; [by rewrite length_insert| |done|done]. rewrite Forall_forall. intros d Hd.
    eapply done_ok_other; [by apply Hdone|by eapply not_waiting; [apply Hdone|done|]|intros w' ?; simpl; by apply worker_update].
  - split; simpl; [by rewrite length_insert| |done|done]. rewrite Forall_forall. intros d Hd.
    eapply done_ok_other; [by apply Hdone|by eapply not_waiting; [apply Hdone|done|]|intros w' ?; simpl; by apply worker_update].
  - assert (Hfree : forall d, d ∈ polled s ++ _done s -> kd_worker d <> w)
      by (intros d Hd; by eapply not_waiting; [apply Hdone|done|]).
    assert (Hlt : (w < length (workers s))%nat) by (by eapply lookup_lt_Some).
    split; simpl.
    + by rewrite !length_insert.
    + rewrite app_assoc, Forall_app, Forall_singleton, Forall_forall. split.
      * intros d Hd. eapply done_ok_other; [by apply Hdone|by apply Hfree|]. intros w' Hne. simpl.
        by rewrite !list_lookup_insert_ne by done.
      * split; simpl; [by rewrite list_lookup_insert_eq|]. exists keys, buf.
        rewrite list_lookup_insert_eq by lia. done.
    + rewrite app_assoc, fmap_app. apply NoDup_app. split_and!; [done| |apply NoDup_singleton].
      intros x (d & -> & Hd)%list_elem_of_fmap Hx. apply list_elem_of_singleton in Hx. by apply (Hfree d).
    + done.
  - destruct (poll_loop_app _ _ _ _ Hpoll) as [Heq _]. rewrite Hp, Heq in *. simpl in *.
    split; simpl; [done|by rewrite Forall_forall|done|done].
  - rewrite Hp in *. simpl in *. apply NoDup_cons in Hnd as [Hnew Hnd].
    split; simpl; [by rewrite length_insert| |done|].
    + rewrite Forall_forall. intros d' Hd'. eapply done_ok_other; [apply Hdone; by right| |intros w' ?; simpl; by apply worker_update].
      intros Heq. apply Hnew. rewrite <-Heq. by apply list_elem_of_fmap_2.
    + rewrite Forall_app, Forall_singleton. split; [done|].
      destruct (Hdone d) as (_ & keys & buf' & Hk & Hb' & Hn & Hh); [by left|].
      rewrite Hb in Hb'. simplify_eq. exists keys. done.
Qed.

Lemma loader_inv_reachable n s : reachable n s -> loader_inv s.
Proof.
  unfold reachable. generalize (loader_inv_init n). generalize (loader_init n).
  intros s0 H0 Hr. induction Hr as [|s0 s1 s2 Hs _ IH]; [done|]. apply IH. by eapply loader_inv_step.
Qed.

(** C28. The staging protocol: in every interleaving of the workers with the
    engine loop, a completion the engine installs carries the page count of its
    prompt, and when it reports success the buffer the engine reads holds exactly
    the store's objects for that prompt's pages, in page order, K before V; no
    worker overwrites it before it is given back. *)
Theorem kv_staging_intact (num_workers : nat) (s : loader) (d : KVLoadDone) (buf : list (@object T)) :
  reachable num_workers s -> (d, buf) ∈ installed s -> kd_ok d = true -> 0 < job_pages (kd_job d) ->
  kd_n_pages d = job_pages (kd_job d) /\
  exists keys, job_keys sha256 hex (kd_job d) = Ok keys /\
    2 * job_pages (kd_job d) * obj_bytes <= stage_bytes /\
    forall k key, keys !! k = Some key -> exists o, buf !! k = Some o /\ store key = Some o.
Proof.
  intros Hr Hin Hok Hpg. destruct (loader_inv_reachable _ _ Hr) as [_ _ _ Hinst].
  rewrite Forall_forall in Hinst. destruct (Hinst _ Hin) as (keys & Hk & Hn & Hh). simpl in *.
  split; [done|]. unfold prepare_job in Hk. rewrite (proj2 (Z.ltb_lt _ _) Hpg) in Hk. inv_ok.
  exists keys. split; [done|]. split; [by apply Z.leb_le|]. intros k key Hkey.
  destruct (Forall2_lookup_l _ _ _ _ _ (Hh Hok) Hkey) as (o & Ho & Hst).
  exists o. split; [|done]. rewrite lookup_take_Some in Ho. naive_solver.
Qed.

(** A worker whose job cannot be prepared, or that has ended, stays or ends. *)
Lemma stuck_worker s s' w j e :
  loader_inv s -> prepare_job sha256 hex obj_bytes stage_bytes j = Raise e -> lstep s s' ->
  workers s !! w = Some (Fetching j) \/ workers s !! w = Some (Dead j) ->
  workers s' !! w = workers s !! w \/ workers s' !! w = Some (Dead j).
Proof.
  intros Hinv Hraise Hstep Hw.
  assert (Hup : forall w' ws, (w' = w -> ws = Dead j) ->
    <[w' := ws]> (workers s) !! w = workers s !! w \/ <[w' := ws]> (workers s) !! w = Some (Dead j)).
  { intros w' ws Heq. destruct (decide (w' = w)) as [->|]; [|left; by apply list_lookup_insert_ne].
    right. rewrite list_lookup_insert_eq; [by rewrite Heq|].
    destruct Hw as [Hw|Hw]; by eapply lookup_lt_Some. }
  destruct Hstep as [|s w' j' js Hw'|s w' j' e' Hw'|s w' j' keys att buf Hw' Hk| |s d ds buf Hp]; simpl;
    try (by left); apply Hup; intros Heq; rewrite <-Heq in Hw.
  - naive_solver.
  - naive_solver.
  - destruct Hw as [Hw|Hw]; congruence.
  - pose proof (li_done _ Hinv) as Hd. rewrite Hp in Hd. apply Forall_cons in Hd as [[Hd _] _].
    destruct Hw as [Hw|Hw]; congruence.
Qed.

(** A prompt whose pages exceed the staging buffer is lost: the worker that
    takes it ends for good, with an exception nothing catches, and in no reachable
    state is there a completion for it, so it is neither admitted nor rejected. *)
Theorem kv_oversized_lost (num_workers : nat) (s s' : loader) (j : KVLoadJob) :
  0 < job_pages j -> stage_bytes < 2 * job_pages j * obj_bytes -> reachable num_workers s ->
  (forall d, d ∈ polled s ++ _done s ++ (installed s).*1 -> kd_job d <> j) /\
  (lstep s s' -> forall w, workers s !! w = Some (Fetching j) \/ workers s !! w = Some (Dead j) ->
     workers s' !! w = workers s !! w \/ workers s' !! w = Some (Dead j)).
Proof.
  intros Hpg Hbig Hr. pose proof (loader_inv_reachable _ _ Hr) as Hinv.
  assert (Hraise : prepare_job sha256 hex obj_bytes stage_bytes j = Raise AssertionError).
  { unfold prepare_job. rewrite (proj2 (Z.ltb_lt _ _) Hpg), (proj2 (Z.leb_gt _ _) Hbig). done. }
  split; [|intros; by eapply stuck_worker].
  destruct Hinv as [_ Hdone _ Hinst]. rewrite Forall_forall in Hdone. rewrite Forall_forall in Hinst.
  intros d. rewrite app_assoc. intros [Hd|Hd]%elem_of_app Heq.
  - destruct (Hdone d Hd) as (_ & keys & buf & Hk & _). congruence.
  - apply list_elem_of_fmap in Hd as (x & -> & Hx). destruct (Hinst x Hx) as (keys & Hk & _). congruence.
Qed.
End Threads.

(** A concrete store: SHA-256 replaced by a tagging function, one object. *)
Definition demo_hash (x : list Z) : list Z := 0 :: x.
Definition demo_hex (x : list Z) : string := EmptyString.
Definition demo_store (k : string) : option (object Z) := Some (fun t l => 100 * t + l).
Definition demo_job (n : nat) : KVLoadJob :=
  {| job_req_id := 5; prompt_token_ids := replicate n 3;
     job_ctx := {| tr_req_id := 5; tr_init_prefill_len := 16; tr_max_output_len := 2;
                   tr_token_ids := replicate n 3 |} |}.

Lemma kv_oversized_lost_witness :
  Forall (fun d => kd_job d <> demo_job 48)
    (polled (@loader_init Z 1) ++ _done (@loader_init Z 1) ++ (installed (@loader_init Z 1)).*1).
Proof.
  apply Forall_forall, (kv_oversized_lost demo_hash demo_hex 10 50 demo_store 1 (loader_init 1) (loader_init 1)
    (demo_job 48)); [reflexivity|reflexivity|apply rtc_refl].
Defined.

(** One job through the threads: submitted, taken, fetched, polled, installed. *)
Definition demo_done : KVLoadDone :=
  {| kd_job := demo_job 17; kd_worker := 0; kd_n_pages := 1; kd_ok := true |}.
Definition demo_object : object Z := fun t l => 100 * t + l.
Definition demo_final : @loader Z :=
  {| _jobs := []; _done := []; polled := []; workers := [Idle];
     _staging := [[demo_object; demo_object]];
     installed := [(demo_done, [demo_object; demo_object])] |}.

Lemma demo_reachable : reachable demo_hash demo_hex 10 50 demo_store 1 demo_final.
Proof.
  eapply rtc_l; [apply (l_submit _ _ _ _ _ _ (demo_job 17))|].
  eapply rtc_l; [by apply (l_take _ _ _ _ _ _ 0 (demo_job 17) [])|].
  eapply rtc_l; [eapply (l_complete _ _ _ _ _ _ 0 (demo_job 17) _ [Some [10; 10]] [demo_object; demo_object])|].
  { reflexivity. }
  { vm_compute. reflexivity. }
  { intros _. repeat constructor. }
  eapply rtc_l; [by eapply l_poll|]. eapply rtc_l; [by eapply l_install|]. apply rtc_refl.
Qed.

Lemma kv_staging_intact_witness :
  kd_n_pages demo_done = job_pages (demo_job 17) /\
  exists keys, job_keys demo_hash demo_hex (demo_job 17) = Ok keys.
Proof.
  destruct (kv_staging_intact demo_hash demo_hex 10 50 demo_store 1 demo_final demo_done
    [demo_object; demo_object] demo_reachable) as (Hn & keys & Hk & _).
  - simpl. apply list_elem_of_here.
  - reflexivity.
  - reflexivity.
  - split; [exact Hn|]. exists keys. exact Hk.
Defined.

(** ** The names determine the prefix *)

Definition u32_bytes (x : Z) : list Z :=
  [x mod 256; x / 256 mod 256; x / 65536 mod 256; x / 16777216 mod 256].

Lemma pack_u32_Ok x l : pack_u32 x = Ok l <-> 0 <= x < 2 ^ 32 /\ l = u32_bytes x.
Proof. unfold pack_u32. zcases; simpl; naive_solver lia. Qed.

Lemma u32_bytes_inj x y : 0 <= x < 2 ^ 32 -> 0 <= y < 2 ^ 32 -> u32_bytes x = u32_bytes y -> x = y.
Proof.
  intros Hx Hy [= H0 H1 H2 H3].
  assert (Hdec : forall z, 0 <= z < 2 ^ 32 ->
    z = z mod 256 + 256 * (z / 256 mod 256) + 65536 * (z / 65536 mod 256) + 16777216 * (z / 16777216 mod 256)).
  { intros z Hz. pose proof (Z.div_mod z 256 ltac:(lia)).
    pose proof (Z.div_mod (z / 256) 256 ltac:(lia)) as E1. rewrite Z.div_div in E1 by lia.
    pose proof (Z.div_mod (z / 65536) 256 ltac:(lia)) as E2. rewrite Z.div_div in E2 by lia.
    change (256 * 256) with 65536 in E1. change (65536 * 256) with 16777216 in E2.
    rewrite (Z.mod_small (z / 16777216) 256); [lia|].
    split; [apply Z.div_pos; lia|apply Z.div_lt_upper_bound; lia]. }
  rewrite (Hdec x Hx), (Hdec y Hy). congruence.
Qed.

Lemma struct_pack_Ok page l :
  struct_pack page = Ok l <-> Forall (fun t => 0 <= t < 2 ^ 32) page /\ l = concat (u32_bytes <$> page).
Proof.
  unfold struct_pack. rewrite bind_Ok. setoid_rewrite py_map_Forall2. split.
  - intros (ls & HF & [= <-]). induction HF as [|t b page ls Hb _ [IH1 IH2]]; [done|].
    apply pack_u32_Ok in Hb as [Ht ->]. simpl. split; [by constructor|]. by rewrite IH2.
  - intros [HF ->]. exists (u32_bytes <$> page). split; [|done].
    induction HF as [|t page Ht _ IH]; [constructor|]. constructor; [by apply pack_u32_Ok|done].
Qed.

Lemma packed_inj (p p' : list Z) :
  Forall (fun t => 0 <= t < 2 ^ 32) p -> Forall (fun t => 0 <= t < 2 ^ 32) p' ->
  concat (u32_bytes <$> p) = concat (u32_bytes <$> p') -> p = p'.
Proof.
  intros Hp. revert p'. induction Hp as [|t p Ht _ IH]; intros p' Hp'.
  { destruct Hp'; [done|]. intros [=]. }
  destruct Hp' as [|t' p' Ht' Hp']; [intros [=]|]. rewrite !fmap_cons. simpl.
  intros Heq. pose proof (app_inj_1 (u32_bytes t) (u32_bytes t') _ _ eq_refl Heq) as [E1 E2].
  f_equal; [by apply u32_bytes_inj|by apply IH].
Qed.

Lemma packed_length (p : list Z) : length (concat (u32_bytes <$> p)) = (4 * length p)%nat.
Proof. induction p as [|t p IH]; [done|]. rewrite fmap_cons. simpl. rewrite IH. lia. Qed.

Section Chain.
Context (sha256 : list Z -> list Z) (hex : list Z -> string).

Definition page (toks : list Z) (k : nat) : list Z := take 16 (drop (16 * k) toks).

(** The digest after [k] pages. *)
Fixpoint digest (toks : list Z) (k : nat) : list Z :=
  match k with
  | O => []
  | S k => sha256 (digest toks k ++ concat (u32_bytes <$> page toks k))
  end.

Lemma page_at_page toks k : page_at toks (Z.of_nat k * PAGE_TOKENS) = page toks k.
Proof. unfold page_at, page, PAGE_TOKENS. f_equal. f_equal. lia. Qed.

Lemma page_starts_nat n :
  0 <= n -> page_starts n = (fun k => Z.of_nat k * PAGE_TOKENS) <$> seq 0 (Z.to_nat (n / PAGE_TOKENS)).
Proof.
  intros Hn. unfold page_starts, py_range. apply list_eq. intros i. rewrite !list_lookup_fmap.
  destruct (decide (i < Z.to_nat (n / PAGE_TOKENS))%nat).
  - rewrite lookup_seqZ_lt by lia. rewrite lookup_seq_lt by lia. done.
  - rewrite lookup_seqZ_ge by lia. rewrite lookup_seq_ge by lia. done.
Qed.

Lemma seq_prefix n (pre post : list nat) k : seq 0 n = pre ++ k :: post -> k = length pre.
Proof.
  intros Heq. assert (Hk : seq 0 n !! length pre = Some k) by (rewrite Heq; by apply list_lookup_middle).
  apply lookup_seq in Hk as [-> _]. done.
Qed.

Lemma chain_hashes toks hs :
  page_chain_hashes sha256 hex toks = Ok hs ->
  length hs = Z.to_nat (zlen toks / PAGE_TOKENS) /\
  forall k, (k < length hs)%nat -> hs !! k = Some (hex (digest toks (S k))) /\
    Forall (fun t => 0 <= t < 2 ^ 32) (page toks k) /\ length (page toks k) = 16%nat.
Proof.
  unfold page_chain_hashes. intros Hrun. apply bind_Ok in Hrun as (st & Hloop & [= <-]).
  rewrite page_starts_nat, py_for_fmap in Hloop by apply zlen_nonneg.
  pose proof (py_for_inv (fun (pre : list nat) st => length st.1 = length pre /\
      st.2 = digest toks (length pre) /\
      forall k, (k < length pre)%nat -> st.1 !! k = Some (hex (digest toks (S k))) /\
        Forall (fun t => 0 <= t < 2 ^ 32) (page toks k))
    (fun s a => chain_page sha256 hex toks s (Z.of_nat a * PAGE_TOKENS))
    (seq 0 (Z.to_nat (zlen toks / PAGE_TOKENS))) ([], []) st) as Hinv.
  destruct Hinv as (Hl & _ & Hk); [|..|done|].
  - split_and!; [done|done|]. simpl. lia.
  - intros pre k post [hs d] st' Hseq (Hl & Hd & Hk) Hone. simpl in *.
    apply seq_prefix in Hseq as ->. unfold chain_page in Hone. simpl in Hone.
    rewrite page_at_page in Hone. apply bind_Ok in Hone as (packed & [Hval ->]%struct_pack_Ok & [= <-]).
    rewrite (length_app pre). simpl. rewrite Nat.add_1_r. split_and!; [rewrite length_app; simpl; lia|by rewrite Hd|].
    intros k Hlt. destruct (decide (k = length pre)) as [->|].
    + split; [|done]. rewrite Hd. by apply list_lookup_middle.
    + destruct (Hk k ltac:(lia)) as [Hs Hv]. split; [|done]. rewrite lookup_app_l by lia. done.
  - rewrite length_seq in *. split; [done|]. intros k Hlt. destruct (Hk k ltac:(lia)) as [Hs Hv].
    split_and!; [done|done|]. unfold page. rewrite length_take, length_drop. unfold PAGE_TOKENS, zlen in *.
    pose proof (Z.div_mod (Z.of_nat (length toks)) 16 ltac:(lia)).
    pose proof (Z.mod_pos_bound (Z.of_nat (length toks)) 16 ltac:(lia)). lia.
Qed.

Lemma take_pages {A} (l l' : list A) n m :
  take (n + m) l = take (n + m) l' <-> take n l = take n l' /\ take m (drop n l) = take m (drop n l').
Proof.
  rewrite <-!take_take_drop. split; [|intros [-> ->]; done]. intros Heq.
  rewrite !take_take_drop in Heq. split.
  - pose proof (f_equal (take n) Heq) as H. by rewrite !take_take, !Nat.min_l in H by lia.
  - pose proof (f_equal (drop n) Heq) as H. by rewrite <-!take_drop_commute in H.
Qed.

(** Equal digests mean equal prefixes when the hash has no collisions. *)
Lemma digest_inj toks toks' i j :
  (forall x y, sha256 x = sha256 y -> x = y) -> (forall x, sha256 x <> []) ->
  (forall k, (k < i)%nat -> Forall (fun t => 0 <= t < 2 ^ 32) (page toks k) /\ length (page toks k) = 16%nat) ->
  (forall k, (k < j)%nat -> Forall (fun t => 0 <= t < 2 ^ 32) (page toks' k) /\ length (page toks' k) = 16%nat) ->
  digest toks i = digest toks' j -> i = j /\ take (16 * i) toks = take (16 * i) toks'.
Proof.
  intros Hinj Hne. revert j. induction i as [|i IH]; intros [|j] Hi Hj Heq; cbn [digest] in Heq.
  - by rewrite !take_0.
  - by destruct (Hne (digest toks' j ++ concat (u32_bytes <$> page toks' j))).
  - by destruct (Hne (digest toks i ++ concat (u32_bytes <$> page toks i))).
  - apply Hinj in Heq. destruct (Hi i ltac:(lia)) as [Hvi Hli]. destruct (Hj j ltac:(lia)) as [Hvj Hlj].
    apply app_inj_2 in Heq as [Hd Hp]; [|by rewrite !packed_length, Hli, Hlj].
    apply packed_inj in Hp; [|done..].
    destruct (IH j) as [<- Ht]; [intros; apply Hi; lia|intros; apply Hj; lia|done|].
    split; [done|]. replace (16 * S i)%nat with (16 * i + 16)%nat by lia. by apply take_pages.
Qed.
End Chain.

(** The chain names full pages by everything before them: a prompt has one
    name per full 16-token page, and two prompts share a name exactly at the same
    page and when they agree on all tokens up to its end; stated for a hash
    without collisions whose values are not empty. *)
Theorem page_names_exact (sha256 : list Z -> list Z) (hex : list Z -> string)
    (toks toks' : list Z) (hs hs' : list string) (i j : nat) :
  (forall x y, sha256 x = sha256 y -> x = y) -> (forall x, sha256 x <> []) ->
  (forall x y, hex x = hex y -> x = y) ->
  page_chain_hashes sha256 hex toks = Ok hs -> page_chain_hashes sha256 hex toks' = Ok hs' ->
  (i < length hs)%nat -> (j < length hs')%nat ->
  zlen hs = zlen toks / PAGE_TOKENS /\
  (hs !! i = hs' !! j <-> i = j /\ take (16 * S i) toks = take (16 * S i) toks').
Proof.
  intros Hinj Hne Hhex Hh Hh' Hi Hj.
  destruct (chain_hashes _ _ _ _ Hh) as [Hl Hk]. destruct (chain_hashes _ _ _ _ Hh') as [_ Hk'].
  split; [unfold zlen at 1; rewrite Hl; apply Z2Nat.id, Z.div_pos; [apply zlen_nonneg|done]|].
  rewrite (proj1 (Hk i Hi)), (proj1 (Hk' j Hj)). split.
  - intros [= Heq%Hhex].
    destruct (digest_inj sha256 toks toks' (S i) (S j)) as [[= ->] Ht]; try done.
    + intros k Hlt. apply Hk. lia.
    + intros k Hlt. apply Hk'. lia.
  - intros [<- Ht]. do 2 f_equal.
    assert (Hall : forall n, take (16 * n) toks = take (16 * n) toks' -> digest sha256 toks n = digest sha256 toks' n);
      [|by apply Hall].
    clear. induction n as [|n IH]; intros Ht; [done|]. cbn [digest].
    replace (16 * S n)%nat with (16 * n + 16)%nat in Ht by lia. apply take_pages in Ht as [H1 H2].
    rewrite IH by done. unfold page. by rewrite H2.
Qed.

(** An injective spelling, to instantiate the hypotheses. *)
Definition spell (x : list Z) : string := pretty (N.pos (encode x)).

Lemma page_names_exact_witness :
  exists hs, page_chain_hashes demo_hash spell (replicate 33 3) = Ok hs /\
    zlen hs = 33 / PAGE_TOKENS /\ hs !! 0%nat <> hs !! 1%nat.
Proof.
  destruct (page_chain_hashes demo_hash spell (replicate 33 3)) as [hs|e] eqn:E;
    [|vm_compute in E; discriminate E].
  exists hs. split; [reflexivity|].
  assert (Hl : length hs = 2%nat) by (vm_compute in E; injection E as <-; reflexivity).
  destruct (page_names_exact demo_hash spell (replicate 33 3) (replicate 33 3) hs hs 0 1)
    as [Hn Heq]; [| | |exact E|exact E|lia|lia|].
  - intros x y [= H]. exact H.
  - intros x [=].
  - intros x y H%pretty_N_inj. by injection H as H%encode_inj.
  - split; [exact Hn|]. intros [[=] _]%Heq.
Defined.

(** ** The copy into the pool *)

Section Copy.
Context {T : Type} (num_layers : Z).
Implicit Types (pool : kv_pool T) (staged : list (object T)).

Definition object_row staged (p : Z) (kv : bool) (t l : Z) : option T :=
  (fun o : object T => o t l) <$> staged !! Z.to_nat (2 * p + (if kv then 1 else 0)).

Definition copy_page staged (pool : kv_pool T) '((p, b) : Z * Z) : kv_pool T :=
  index_copy num_layers staged p b true (index_copy num_layers staged p b false pool).
#[local] Arguments copy_page : simpl never.

Lemma copy_page_lookup staged pool p b' l kv b t :
  0 <= l < num_layers -> 0 <= t < PAGE_TOKENS ->
  copy_page staged pool (p, b') l kv b t
  = if b =? b' then default (pool l kv b t) (object_row staged p kv t l) else pool l kv b t.
Proof.
  intros Hl Ht. unfold copy_page, index_copy, object_row.
  rewrite !(proj2 (Z.leb_le _ _)), !(proj2 (Z.ltb_lt _ _)) by lia. rewrite !andb_true_r, !andb_true_l.
  destruct kv, (b =? b'); simpl; try done; by destruct (staged !! _).
Qed.

(** From page [n] on: block [bs[p]] gets page [n + p]. *)
Lemma copy_loop staged l kv b t bs n pool :
  0 <= l < num_layers -> 0 <= t < PAGE_TOKENS -> NoDup bs ->
  (forall p, (p < length bs)%nat -> is_Some (object_row staged (Z.of_nat (n + p)) kv t l)) ->
  let pool' := foldl (copy_page staged) pool (zip (seqZ (Z.of_nat n) (zlen bs)) bs) in
  (forall p, bs !! p = Some b -> Some (pool' l kv b t) = object_row staged (Z.of_nat (n + p)) kv t l) /\
  (b ∉ bs -> pool' l kv b t = pool l kv b t).
Proof.
  intros Hl Ht. revert n pool. induction bs as [|b0 bs IH]; intros n pool Hnd Hn; [done|].
  apply NoDup_cons in Hnd as [Hb0 Hnd].
  rewrite seqZ_cons by (rewrite zlen_cons; pose proof (zlen_nonneg bs); lia). cbn [zip zip_with foldl].
  replace (Z.pred (zlen (b0 :: bs))) with (zlen bs) by (rewrite zlen_cons; lia).
  replace (Z.succ (Z.of_nat n)) with (Z.of_nat (S n)) by lia.
  destruct (IH (S n) (copy_page staged pool (Z.of_nat n, b0)) Hnd) as [IH1 IH2].
  { intros p Hp. replace (S n + p)%nat with (n + S p)%nat by lia. apply Hn. simpl. lia. }
  split.
  - intros [|p] Hp; simplify_eq/=.
    + rewrite IH2, copy_page_lookup, Z.eqb_refl, Nat.add_0_r by done.
      destruct (Hn 0%nat) as [x Hx]; [simpl; lia|]. rewrite Nat.add_0_r in Hx. by rewrite Hx.
    + rewrite (IH1 p) by done. do 2 f_equal. lia.
  - intros [Hne Hnb]%not_elem_of_cons. rewrite IH2, copy_page_lookup by done.
    by rewrite (proj2 (Z.eqb_neq b b0)).
Qed.

Lemma copy_pages_lookup staged (blocks : list Z) pool l kv b t :
  NoDup blocks -> 0 <= l < num_layers -> 0 <= t < PAGE_TOKENS ->
  2 * zlen blocks <= zlen staged ->
  (forall p, blocks !! p = Some b -> Some (copy_pages num_layers staged blocks pool l kv b t)
     = object_row staged (Z.of_nat p) kv t l) /\
  (b ∉ blocks -> copy_pages num_layers staged blocks pool l kv b t = pool l kv b t).
Proof.
  intros Hnd Hl Ht Hs. apply (copy_loop staged l kv b t blocks 0 pool Hl Ht Hnd).
  intros p Hp. unfold object_row. apply fmap_is_Some, lookup_lt_is_Some_2.
  unfold zlen in Hs. destruct kv; lia.
Qed.
End Copy.

(** Allocating whole pages for a new request. *)
Lemma allocate_pages id n (b : BlockManager_C) :
  0 <= n -> conserved b -> block_size_ b = PAGE_TOKENS -> block_tables_ b !! id = None ->
  n + reserved_blocks_ b <= num_free_blocks b -> 0 <= reserved_blocks_ b ->
  exists b' blocks, allocate id (n * PAGE_TOKENS) b = Ok b' /\ conserved b' /\ NoDup blocks /\
    block_tables_ b' = <[id := blocks]> (block_tables_ b) /\ zlen blocks = n.
Proof.
  intros Hn Hcons Hbs Hnew Hfree Hres.
  assert (Hblk : blocks_for PAGE_TOKENS (n * PAGE_TOKENS) = n).
  { unfold blocks_for, PAGE_TOKENS. symmetry. apply (Z.div_unique _ _ _ 15); lia. }
  assert (0 < block_size_ b /\ 0 <= n * PAGE_TOKENS) as [Hb0 Hl0]
    by (rewrite Hbs; unfold PAGE_TOKENS; lia).
  assert (Hall : exists b', allocate id (n * PAGE_TOKENS) b = Ok b').
  { unfold allocate. rewrite quot_blocks, Hbs, Hblk by done.
    unfold has_seq_block_list. rewrite bool_decide_false by (rewrite Hnew; intros [? ?]; done).
    unfold ASSERT. simpl. rewrite Z.geb_leb, (proj2 (Z.leb_le _ _)) by done. simpl.
    rewrite get_blocks_eq, decide_True by (unfold num_free_blocks, zlen in *; lia). simpl. eauto. }
  destruct Hall as [b' Hall]. pose proof (conserved_allocate _ _ _ _ Hb0 Hl0 Hcons Hall) as Hc'.
  destruct (allocate_Ok _ _ _ _ Hb0 Hl0 Hall) as (blocks & rest & _ & Hf & Hlen & Hb').
  rewrite Hbs, Hblk in Hlen. exists b', blocks. split_and!; [done|done| |by rewrite Hb'|done].
  assert (Hr : NoDup (free_blocks_ b ++ held b)) by (unfold conserved in Hcons; rewrite Hcons; apply py_range_NoDup).
  rewrite Hf, <-app_assoc in Hr. by apply NoDup_app in Hr as (? & _).
Qed.

(** [install] on a successful fetch of a new request that fits the block pool
    succeeds, keeps the blocks conserved, gives the request one block per page, and
    fills block [p], layer by layer and token by token, with the key and the value
    rows of page [p]; every other block keeps its contents. *)
Theorem install_exact {T} (num_layers : Z) (staged : list (object T)) (d : KVLoadDone) (i : installer T) :
  kd_ok d = true -> 0 <= kd_n_pages d -> 2 * kd_n_pages d <= zlen staged ->
  conserved (in_blocks i) -> block_size_ (in_blocks i) = PAGE_TOKENS ->
  block_tables_ (in_blocks i) !! job_req_id (kd_job d) = None ->
  kd_n_pages d + reserved_blocks_ (in_blocks i) <= num_free_blocks (in_blocks i) ->
  0 <= reserved_blocks_ (in_blocks i) ->
  exists i' blocks, install num_layers staged d i = (true, i') /\ conserved (in_blocks i') /\
    n_loaded i' = n_loaded i + 1 /\
    block_tables_ (in_blocks i') = <[job_req_id (kd_job d) := blocks]> (block_tables_ (in_blocks i)) /\
    zlen blocks = kd_n_pages d /\
    forall l kv b t, 0 <= l < num_layers -> 0 <= t < PAGE_TOKENS ->
      (forall p, blocks !! p = Some b -> Some (in_pool i' l kv b t) = object_row staged (Z.of_nat p) kv t l) /\
      (b ∉ blocks -> in_pool i' l kv b t = in_pool i l kv b t).
Proof.
  intros Hok Hn Hst Hcons Hbs Hnew Hfree Hres.
  destruct (allocate_pages _ _ _ Hn Hcons Hbs Hnew Hfree Hres) as (b' & blocks & Hall & Hc & Hnd & Ht & Hlen).
  unfold install. rewrite Hok. cbn [negb]. rewrite Hall. unfold install_body.
  destruct (Z.eqb_spec (kd_n_pages d) 0) as [H0|H0].
  - destruct blocks; [|rewrite zlen_cons in Hlen; pose proof (zlen_nonneg blocks); lia].
    eexists _, []. split; [done|]. simpl. split_and!; done.
  - unfold get_seq_block_ids. rewrite Ht, lookup_insert_eq. cbn [of_option mbind res_bind].
    rewrite Hlen, Z.leb_refl. cbn [py_assert py_check mbind res_bind].
    rewrite (py_take_all blocks) by lia.
    eexists _, blocks. split; [done|]. simpl. split_and!; try done. intros l kv b t Hl Htok.
    apply copy_pages_lookup; [done..|]. rewrite Hlen. done.
Qed.

Lemma install_exact_witness :
  exists i' (blocks : list Z), install 2 [demo_object; demo_object] demo_done
    {| in_blocks := bm_init 16 4 0; in_pool := fun _ _ _ _ => 0; n_loaded := 0; n_rejected := 0 |}
    = (true, i') /\ zlen blocks = 1 /\ n_loaded i' = 0 + 1.
Proof.
  destruct (install_exact 2 [demo_object; demo_object] demo_done
    {| in_blocks := bm_init 16 4 0; in_pool := fun _ _ _ _ => 0; n_loaded := 0; n_rejected := 0 |})
    as (i' & blocks & Hr & _ & Hl & _ & Hb & _).
  - reflexivity.
  - vm_compute; congruence.
  - vm_compute; congruence.
  - vm_compute. apply Permutation_refl.
  - reflexivity.
  - reflexivity.
  - vm_compute; congruence.
  - vm_compute; congruence.
  - exists i', blocks. split; [exact Hr|]. split; [exact Hb|exact Hl].
Defined.

End KVLoader.
