(* ===== verification/Engine.v ===== *)
(** * The engine ([disagmoe/frontend/engine.py])

    The attention side of a worker: admission of requests, residual-stash slots,
    pre- and post-processing of attention batches, sampling at the final
    pseudo-layer, release, the draining of KV loads, and the two main loops; the
    expert side: the rank tables and the batch entry points.  The sampler is any
    lawful [SamplerOps], the block manager any [BlockMgrOps].  A hidden row is an
    element of [T]; model execution, the C++ scheduler and CUDA streams are
    parameters; batches handed to the C++ pool and dispatcher and results sent to
    the detokenizer are logged in the order of the calls.  The metadata operations
    of [csrc/include/metadata.hpp] the engine calls are modelled here. *)

From stdpp Require Import strings.
From S2P Require Import Prelude PyFloat Datatypes MemOps Sampler BlockManager KVLoader.
Import Datatypes Sampler BlockManager.

Module Engine.

(** ** Batch metadata ([metadata.hpp], [vector_utils.hpp]) *)

Definition arr_set {A} (l : list A) (i : Z) (x : A) : res (list A) :=
  if (0 <=? i) && (i <? zlen l) then Ok (<[Z.to_nat i := x]> l) else Raise RuntimeError.

Definition index_select_vector {A} (data : list A) (indices : list Z) : res (list A) :=
  match data with [] => Ok [] | _ => py_map (vec_at data) indices end.

Definition repeat_vector {A} (a : list A) (times : Z) : list A :=
  a ≫= fun x => replicate (Z.to_nat times) x.

(** [permute_vector]: element [i] goes to [positions[i]]; the result starts with
    copies of [d]. *)
Definition permute_vector {A} (d : A) (data : list A) (positions : list Z) : res (list A) :=
  match data with
  | [] => Ok []
  | _ => py_for (fun r '(i, p) => x ← vec_at data i; arr_set r p x) (enumerate positions)
           (replicate (length data) d)
  end.

Definition with_vectors (sh rq ex : list Z) (w : list float) (rk pl : list Z) (m : BatchMetadata)
    : BatchMetadata :=
  {| shape := sh; md_dtype := md_dtype m; layer_id := layer_id m; req_ids := rq; exp_ids := ex;
     topk_weights := w; attn_dp_ranks := rk; init_prefill_lens := pl;
     num_prefill_seqs := num_prefill_seqs m; num_prefill_tokens := num_prefill_tokens m;
     num_decode_tokens := num_decode_tokens m |}.

Definition with_layer (l : Z) (m : BatchMetadata) : BatchMetadata :=
  {| shape := shape m; md_dtype := md_dtype m; layer_id := l; req_ids := req_ids m;
     exp_ids := exp_ids m; topk_weights := topk_weights m; attn_dp_ranks := attn_dp_ranks m;
     init_prefill_lens := init_prefill_lens m; num_prefill_seqs := num_prefill_seqs m;
     num_prefill_tokens := num_prefill_tokens m; num_decode_tokens := num_decode_tokens m |}.

Definition meta_index_select (m : BatchMetadata) (indices : list Z) : res BatchMetadata :=
  h ← vec_at (shape m) 1;
  rq ← index_select_vector (req_ids m) indices;
  ex ← index_select_vector (exp_ids m) indices;
  w ← index_select_vector (topk_weights m) indices;
  rk ← index_select_vector (attn_dp_ranks m) indices;
  pl ← index_select_vector (init_prefill_lens m) indices;
  Ok {| shape := [zlen indices; h]; md_dtype := md_dtype m; layer_id := layer_id m;
        req_ids := rq; exp_ids := ex; topk_weights := w; attn_dp_ranks := rk;
        init_prefill_lens := pl; num_prefill_seqs := None; num_prefill_tokens := None;
        num_decode_tokens := None |}.

Definition permute_token_infos (m : BatchMetadata) (positions : list Z) : res BatchMetadata :=
  match positions with
  | [] => Ok m
  | _ =>
      n ← meta_num_tokens m;
      _ ← ASSERT (n =? zlen positions);
      rq ← permute_vector 0 (req_ids m) positions;
      ex ← permute_vector 0 (exp_ids m) positions;
      rk ← permute_vector 0 (attn_dp_ranks m) positions;
      pl ← permute_vector 0 (init_prefill_lens m) positions;
      w ← permute_vector (float_of_Z 0) (topk_weights m) positions;
      Ok (with_vectors (shape m) rq ex w rk pl m)
  end.

Definition duplicate_topk (m : BatchMetadata) (topk : Z) : res BatchMetadata :=
  if topk =? 1 then Ok m else
  n ← meta_num_tokens m;
  Ok (with_vectors (n * topk :: py_drop 1 (shape m)) (repeat_vector (req_ids m) topk) (exp_ids m)
       (repeat_vector (topk_weights m) topk) (repeat_vector (attn_dp_ranks m) topk)
       (repeat_vector (init_prefill_lens m) topk) m).

Definition max_num_experts : Z := 128.

(** The cumulative counts, then one position per token: the tokens of expert 0
    count up from 0, those of expert [e] from the count of the experts below. *)
Definition sort_positions (exp_ids : list Z) (num_tokens : Z) : res (list Z) :=
  cnts ← py_for (fun c e => x ← vec_at c e; arr_set c e (x + 1)) exp_ids
           (replicate (Z.to_nat max_num_experts) 0);
  cnts ← py_for (fun c i => x ← vec_at c i; y ← vec_at c (i - 1); arr_set c i (x + y))
           (py_range2 1 max_num_experts) cnts;
  st ← py_for (fun '(pos, cnts, first) i =>
          e ← vec_at exp_ids i;
          if e =? 0 then pos ← arr_set pos i first; Ok (pos, cnts, first + 1)
          else p ← vec_at cnts (e - 1);
               pos ← arr_set pos i p;
               cnts ← arr_set cnts (e - 1) (p + 1);
               Ok (pos, cnts, first))
        (py_range num_tokens) (replicate (Z.to_nat num_tokens) 0, cnts, 0);
  Ok st.1.1.

Definition sort_by_expert (m : BatchMetadata) : res (list Z * BatchMetadata) :=
  n ← meta_num_tokens m;
  positions ← sort_positions (exp_ids m) n;
  m ← permute_token_infos m positions;
  Ok (positions, m).

(** ** The state of a worker *)

Record TokenBatch (T : Type) : Type := { tb_data : list T; tb_meta : BatchMetadata }.
Arguments tb_data {T} _.
Arguments tb_meta {T} _.

(** The block manager as the engine uses it. *)
Class BlockMgrOps (B : Type) := {
  bm_release_seqs : list Z -> B -> res B;
  bm_reset : B -> res B;
  bm_prepare : forall T, BatchMetadata -> AttentionScheduleBatch T -> B ->
    res (FlashAttentionMetadata * AttentionScheduleBatch T * B);
}.

#[export] Instance cpu_mgr_ops : BlockMgrOps CPUBlockManager := {|
  bm_release_seqs := cpu_release_seqs;
  bm_reset := cpu_reset_state;
  bm_prepare T m batch c :=
    '(c, batch) ← cpu_update_block_table m batch c;
    '(fa, c) ← cpu_pack m batch c;
    Ok (fa, batch, c);
|}.

Record Engine (T S B : Type) : Type := {
  dummy_sampler : S;
  block_mgr : B;
  stash_free_slots : list Z;
  stash_slot_map : list (Z * Z);
  pool_puts : list (TokenBatch T);
  sent : list BatchDecodeResult;
  puts : list (TokenBatch T);
}.
Arguments dummy_sampler {T S B} _.
Arguments block_mgr {T S B} _.
Arguments stash_free_slots {T S B} _.
Arguments stash_slot_map {T S B} _.
Arguments pool_puts {T S B} _.
Arguments sent {T S B} _.
Arguments puts {T S B} _.

Section Attention.
Context {T S B : Type} `{SamplerOps T S} `{BlockMgrOps B}.
Implicit Types e : Engine T S B.

Definition with_sampler (s : S) e : Engine T S B :=
  {| dummy_sampler := s; block_mgr := block_mgr e; stash_free_slots := stash_free_slots e;
     stash_slot_map := stash_slot_map e; pool_puts := pool_puts e; sent := sent e; puts := puts e |}.
Definition with_mgr (b : B) e : Engine T S B :=
  {| dummy_sampler := dummy_sampler e; block_mgr := b; stash_free_slots := stash_free_slots e;
     stash_slot_map := stash_slot_map e; pool_puts := pool_puts e; sent := sent e; puts := puts e |}.
Definition with_stash (f : list Z) (m : list (Z * Z)) e : Engine T S B :=
  {| dummy_sampler := dummy_sampler e; block_mgr := block_mgr e; stash_free_slots := f;
     stash_slot_map := m; pool_puts := pool_puts e; sent := sent e; puts := puts e |}.
Definition with_pool (p : list (TokenBatch T)) e : Engine T S B :=
  {| dummy_sampler := dummy_sampler e; block_mgr := block_mgr e;
     stash_free_slots := stash_free_slots e; stash_slot_map := stash_slot_map e;
     pool_puts := p; sent := sent e; puts := puts e |}.
Definition with_sent (r : list BatchDecodeResult) e : Engine T S B :=
  {| dummy_sampler := dummy_sampler e; block_mgr := block_mgr e;
     stash_free_slots := stash_free_slots e; stash_slot_map := stash_slot_map e;
     pool_puts := pool_puts e; sent := r; puts := puts e |}.
Definition with_puts (p : list (TokenBatch T)) e : Engine T S B :=
  {| dummy_sampler := dummy_sampler e; block_mgr := block_mgr e;
     stash_free_slots := stash_free_slots e; stash_slot_map := stash_slot_map e;
     pool_puts := pool_puts e; sent := sent e; puts := p |}.

(** ** Residual-stash slots *)

Definition _stash_slot_of (req_id : Z) e : res (Z * Engine T S B) :=
  match dget (stash_slot_map e) req_id with
  | Some slot => Ok (slot, e)
  | None =>
      match stash_free_slots e with
      | slot :: free => Ok (slot, with_stash free (dset (stash_slot_map e) req_id slot) e)
      | [] => Raise IndexError
      end
  end.

(** [[self._stash_slot_of(rid) for rid in req_ids]] *)
Fixpoint stash_slots (req_ids : list Z) e : res (list Z * Engine T S B) :=
  match req_ids with
  | [] => Ok ([], e)
  | r :: rs => '(slot, e) ← _stash_slot_of r e; '(ls, e) ← stash_slots rs e; Ok (slot :: ls, e)
  end.

Definition free_slot e (rid : Z) : Engine T S B :=
  match dget (stash_slot_map e) rid with
  | Some slot => with_stash (stash_free_slots e ++ [slot]) (ddel (stash_slot_map e) rid) e
  | None => e
  end.

Definition release_seqs (seq_ids : list Z) e : res (Engine T S B) :=
  b ← bm_release_seqs seq_ids (block_mgr e);
  Ok (foldl free_slot (with_mgr b e) seq_ids).

(** ** Sampling at the final pseudo-layer

    [add] adds two rows, [residual_stash] is the stash buffer. *)
Context (add : T -> T -> T) (residual_stash : Z -> T).
Context (attn_dp_rank hidden_size model_total_num_layers top_k : Z).

Definition mark_continue (flags : list bool) (i : Z) : res (list bool) := py_set flags i false.

Definition sample_results (batch : AttentionScheduleBatch (list T)) (meta_c : BatchMetadata) e
    : res (TokenBatch T * Engine T S B) :=
  '(slots, e) ← stash_slots (sb_req_ids batch) e;
  _ ← py_check (zlen (sb_data batch) =? zlen slots) RuntimeError;
  let completed := zip_with add (sb_data batch) (residual_stash <$> slots) in
  '(o, s) ← step completed (sb_req_ids batch) (dummy_sampler e);
  let e := with_sampler s e in
  m ← meta_index_select meta_c (continue_ids o);
  let n := length (continue_ids o) in
  let m := with_layer 0 (with_vectors (shape m) (req_ids m) (exp_ids m) (topk_weights m)
             (replicate n attn_dp_rank) (replicate n (-1)) m) in
  e ← release_seqs (finish_req_ids o) e;
  is_eos ← py_for mark_continue (continue_ids o) (replicate (length (sb_req_ids batch)) true);
  let e := with_sent (sent e ++ [{| bd_req_ids := sb_req_ids batch;
                                    bd_token_ids := out_token_ids o; bd_is_eos := is_eos |}]) e in
  data ← match continued_data o with
         | Some d => Ok d
         | None => py_map (py_get completed) (continue_ids o)
         end;
  Ok ({| tb_data := data; tb_meta := m |}, e).

(** ** Attention batches *)

Record AttentionForwardBatch : Type := {
  fb_layer_id : Z;
  fb_data : list T;
  fb_num_tokens : Z;
  fb_positions : list Z;
  fb_metadata : FlashAttentionMetadata;
  fb_req_ids : list Z;
  fb_meta_c : BatchMetadata;
  fb_stash_slots : option (list Z);
}.

(** [None]: the batch was a final pseudo-layer batch and went to the pool. *)
Definition preprocess_batch_attn (batch : TokenBatch T) e
    : res (option AttentionForwardBatch * Engine T S B) :=
  sb ← of_option TypeError (build (tb_meta batch) (tb_data batch));
  if sb_layer_id sb =? model_total_num_layers then
    '(w, e) ← sample_results sb (tb_meta batch) e;
    Ok (None, with_pool (pool_puts e ++ [w]) e)
  else
    '(fa, sb, b) ← bm_prepare (list T) (tb_meta batch) sb (block_mgr e);
    let e := with_mgr b e in
    let num_tokens := sb_num_tokens sb in
    let positions := py_take num_tokens (fa_context_lens fa) in
    '(slots, e) ← stash_slots (sb_req_ids sb) e;
    Ok (Some {| fb_layer_id := sb_layer_id sb; fb_data := sb_data sb; fb_num_tokens := num_tokens;
                fb_positions := positions; fb_metadata := fa; fb_req_ids := sb_req_ids sb;
                fb_meta_c := tb_meta batch;
                fb_stash_slots := if zlen slots =? 0 then None else Some slots |}, e).

(** The permutation operator: with [k] times as many targets as rows, row [i / k]
    of the input goes to row [mapping[i]]. *)
Definition permute_tokens (hiddens : list T) (mapping : list Z) (empty : T) : res (list T) :=
  _ ← py_check (negb (zlen hiddens =? 0)) RuntimeError;
  _ ← py_check (zlen mapping mod zlen hiddens =? 0) RuntimeError;
  let topk := zlen mapping / zlen hiddens in
  rows ← py_map (fun i => vec_at hiddens (i / topk)) (py_range (zlen mapping));
  permute_vector empty rows mapping.

Record AttentionForwardResult : Type := {
  fr_hiddens : list T;
  fr_expert_ids : list (list Z);
  fr_expert_weights : list (list float);
}.

Definition postprocess_batch_attn (empty : T) (batch : AttentionForwardBatch)
    (result : AttentionForwardResult) : res (TokenBatch T) :=
  m ← duplicate_topk (fb_meta_c batch) top_k;
  let expert_ids := concat (fr_expert_ids result) in
  let m := with_vectors (shape m) (req_ids m) expert_ids (concat (fr_expert_weights result))
             (attn_dp_ranks m) (init_prefill_lens m) m in
  '(exp_mappings, m) ← sort_by_expert m;
  let m := with_vectors (shape m) (req_ids m) (exp_ids m) (topk_weights m)
             (replicate (length expert_ids) attn_dp_rank) (init_prefill_lens m) m in
  hiddens ← permute_tokens (fr_hiddens result) exp_mappings empty;
  Ok {| tb_data := hiddens; tb_meta := m |}.

(** ** Requests *)

Definition record_max_output_lens (req_id max_output_len : Z) (token_ids : list Z) e
    : res (Engine T S B) :=
  s ← create_request req_id max_output_len token_ids (dummy_sampler e);
  Ok (with_sampler s e).

Definition admission_meta (req_id prefill_len : Z) : BatchMetadata :=
  {| shape := [1; hidden_size]; md_dtype := "bfloat16"; layer_id := 0; req_ids := [req_id];
     exp_ids := [0]; topk_weights := [float_of_Z 1]; attn_dp_ranks := [attn_dp_rank];
     init_prefill_lens := [prefill_len]; num_prefill_seqs := None; num_prefill_tokens := None;
     num_decode_tokens := None |}.

(** [rand] is the random row of a request without data. *)
Definition _admit_request (rand : T) (r : TokenizedRequest) e : res (Engine T S B) :=
  e ← record_max_output_lens (tr_req_id r) (tr_max_output_len r) (tr_token_ids r) e;
  '(data, prefill_len, s) ← admit_data (tr_req_id r) (tr_init_prefill_len r) (tr_token_ids r)
                              (dummy_sampler e);
  let e := with_sampler s e in
  Ok (with_pool (pool_puts e ++ [{| tb_data := [default rand data];
                                    tb_meta := admission_meta (tr_req_id r) prefill_len |}]) e).

(** [recv_new_request] without and with a KV loader: the queue is what waits in
    the socket, the jobs are what was submitted to the loader. *)
Definition recv_new_request (rand : T) (has_loader : bool) (queue : list TokenizedRequest)
    (jobs : list KVLoader.KVLoadJob) e
    : res (list TokenizedRequest * list KVLoader.KVLoadJob * Engine T S B) :=
  match queue with
  | [] => Ok ([], jobs, e)
  | r :: queue =>
      if has_loader
      then Ok (queue, jobs ++ [{| KVLoader.job_req_id := tr_req_id r;
                                  KVLoader.prompt_token_ids := py_take (-1) (tr_token_ids r);
                                  KVLoader.job_ctx := r |}], e)
      else e ← _admit_request rand r e; Ok (queue, jobs, e)
  end.

(** [_drain_kv_loads] on the completions [poll] returned; [inst] installs one. *)
Definition drain_one {I} (inst : KVLoader.KVLoadDone -> I -> bool * I) (rand : T)
    (st : Engine T S B * I) (d : KVLoader.KVLoadDone) : res (Engine T S B * I) :=
  let '(e, i) := st in
  let req := KVLoader.job_ctx (KVLoader.kd_job d) in
  let '(ok, i) := inst d i in
  if ok && (KVLoader.kd_n_pages d * 16 =? tr_init_prefill_len req)
  then e ← _admit_request rand req e; Ok (e, i)
  else Ok (with_sent (sent e ++ [{| bd_req_ids := [tr_req_id req]; bd_token_ids := [0];
                                    bd_is_eos := [true] |}]) e, i).

Definition _drain_kv_loads {I} (inst : KVLoader.KVLoadDone -> I -> bool * I) (rand : T)
    (polled : list KVLoader.KVLoadDone) e (i : I) : res (Engine T S B * I) :=
  py_for (drain_one inst rand) polled (e, i).

(** [reset]: the statistics and the block manager; the stash and the sampler keep
    their requests. *)
Definition engine_reset (has_attn : bool) e : res (Engine T S B) :=
  if has_attn then b ← bm_reset (block_mgr e); Ok (with_mgr b e) else Ok e.
End Attention.
Arguments AttentionForwardBatch : clear implicits.
Arguments AttentionForwardResult : clear implicits.

(** ** The main loops

    [before] is what an iteration does first (draining statistics and KV loads,
    receiving a request), [prep], [exec] and [post] are [preprocess_batch] and the
    batch's [proc_func] and [post_proc_func]; the scheduler's answer is an input,
    [None] when it has nothing.  The outputs are what [post_process] puts to the
    dispatcher. *)

Section Loops.
Context {I Bt E F R O : Type}.
Context (before : I -> E -> res E) (prep : Bt -> E -> res (option F * E)).
Context (exec : F -> E -> res (R * E)) (post : F -> R -> res O).

Record overlap : Type := {
  ov_engine : E;
  result_queue : list (F * R);
  last_batch : option F;
  ov_out : list O;
}.

Definition overlap_init (e : E) : overlap :=
  {| ov_engine := e; result_queue := []; last_batch := None; ov_out := [] |}.

(** One iteration of [single_module_loop_overlap]. *)
Definition overlap_iter (st : overlap) (inp : I * option Bt) : res overlap :=
  e ← before inp.1 (ov_engine st);
  '(forward_batch, queue, e) ←
     match inp.2 with
     | None => Ok (None, result_queue st, e)
     | Some b =>
         '(fb, e) ← prep b e;
         match fb with
         | None => Ok (None, result_queue st, e)
         | Some fb => '(r, e) ← exec fb e; Ok (Some fb, result_queue st ++ [(fb, r)], e)
         end
     end;
  '(queue, out) ←
     match last_batch st with
     | None => Ok (queue, ov_out st)
     | Some _ =>
         match queue with
         | [] => Raise IndexError
         | (fb, r) :: queue => o ← post fb r; Ok (queue, ov_out st ++ [o])
         end
     end;
  Ok {| ov_engine := e; result_queue := queue; last_batch := forward_batch; ov_out := out |}.

(** One iteration of [single_module_loop]. *)
Definition plain_iter (st : E * list O) (inp : I * option Bt) : res (E * list O) :=
  e ← before inp.1 st.1;
  match inp.2 with
  | None => Ok (e, st.2)
  | Some b =>
      '(fb, e) ← prep b e;
      match fb with
      | None => Ok (e, st.2)
      | Some fb => '(r, e) ← exec fb e; o ← post fb r; Ok (e, st.2 ++ [o])
      end
  end.

(** The queue holds the batch of the last iteration, if it had one; processing it
    would complete the outputs of the plain loop. *)
Definition in_step (st : overlap) (pl : E * list O) : Prop :=
  ov_engine st = pl.1 /\
  match last_batch st, result_queue st with
  | None, [] => ov_out st = pl.2
  | Some fb, [(fb', r)] => fb = fb' /\ exists o, post fb r = Ok o /\ ov_out st ++ [o] = pl.2
  | _, _ => False
  end.

Lemma overlap_iter_in_step st pl inp pl' :
  in_step st pl -> plain_iter pl inp = Ok pl' ->
  exists st', overlap_iter st inp = Ok st' /\ in_step st' pl'.
Proof.
  destruct st as [e q lb out], pl as [e0 out0], inp as [i ob]. unfold in_step. simpl.
  intros [-> Hq] Hrun. unfold plain_iter in Hrun. simpl in Hrun. unfold overlap_iter. simpl.
  destruct (before i e0) as [e1|] eqn:Eb; simpl in *; [|done].
  destruct ob as [b|]; [destruct (prep b e1) as [[[fb|] e2]|] eqn:Ep; simpl in *; [|..|done]|].
  1: destruct (exec fb e2) as [[r e3]|] eqn:Ee; simpl in *; [|done];
     destruct (post fb r) as [o|] eqn:Eo; simpl in *; [|done].
  all: apply Ok_inj in Hrun as <-; destruct lb as [lb|], q as [|[fb0 r0] [|]]; try done; simpl.
  all: try (destruct Hq as (-> & o0 & Ho0 & Hout); rewrite Ho0; simpl).
  all: eexists; (split; [done|]); simpl; split; try done; naive_solver.
Qed.

Lemma overlap_run_in_step inps st pl pl' :
  in_step st pl -> py_for plain_iter inps pl = Ok pl' ->
  exists st', py_for overlap_iter inps st = Ok st' /\ in_step st' pl'.
Proof.
  revert st pl. induction inps as [|inp inps IH]; intros st pl Hst Hrun; simpl in *.
  { apply Ok_inj in Hrun as <-. eauto. }
  apply bind_Ok in Hrun as (pl1 & H1 & Hrun).
  destruct (overlap_iter_in_step _ _ _ _ Hst H1) as (st1 & -> & Hst1). simpl. eauto.
Qed.

(** C14. The overlapping loop does what the plain loop does, one iteration late:
    on the same inputs it reaches the same engine state without popping an empty
    queue, its queue never holds more than the batch of the last iteration, and its
    outputs followed by that batch's output are the outputs of the plain loop, in
    order; that last output is the only one lost when the loop ends. *)
Theorem overlap_refines_plain (inps : list (I * option Bt)) (e e' : E) (outs : list O) :
  py_for plain_iter inps (e, []) = Ok (e', outs) ->
  exists st pending, py_for overlap_iter inps (overlap_init e) = Ok st /\ ov_engine st = e' /\
    py_map (fun x => post x.1 x.2) (result_queue st) = Ok pending /\
    ov_out st ++ pending = outs /\ (length pending <= 1)%nat /\
    (last_batch st = None <-> pending = []).
Proof.
  intros Hrun. destruct (overlap_run_in_step inps (overlap_init e) (e, []) (e', outs)) as (st & Hst & He & Hq);
    [done|done|].
  exists st. simpl in *. destruct (last_batch st) as [fb|], (result_queue st) as [|[fb' r] [|]]; try done.
  - destruct Hq as (-> & o & Ho & Hout). exists [o]. simpl. rewrite Ho. simpl. naive_solver.
  - exists []. simpl. rewrite app_nil_r. naive_solver.
Qed.
End Loops.

Lemma overlap_refines_plain_witness :
  exists st pending,
    py_for (overlap_iter (fun i e => Ok (e + i)) (fun b e => Ok (if b =? 0 then (None, e) else (Some b, e)))
      (fun f e => Ok (f * 10, e)) (fun f r => Ok (f + r)))
      [(1, Some 2); (0, None); (0, Some 0); (1, Some 3)] (overlap_init 5) = Ok st /\
    ov_out st ++ pending = [22; 33] /\ (length pending <= 1)%nat.
Proof.
  destruct (overlap_refines_plain (fun i e => Ok (e + i))
    (fun b e => Ok (if b =? 0 then (None, e) else (Some b, e))) (fun f e => Ok (f * 10, e))
    (fun f r => Ok (f + r)) [(1, Some 2); (0, None); (0, Some 0); (1, Some 3)] 5 7 [22; 33])
    as (st & pending & H1 & _ & _ & H2 & H3 & _).
  - vm_compute. reflexivity.
  - exists st, pending. split; [exact H1|]. split; [exact H2|exact H3].
Defined.

(** ** Stash slots: lemmas *)

Section Stash.
Context {T S B : Type} `{SamplerLaws T S} `{BlockMgrOps B}.
Implicit Types e : Engine T S B.

(** Every slot is free or held by one request. *)
Record stash_inv (N : Z) e : Prop := {
  si_slots : stash_free_slots e ++ (stash_slot_map e).*2 ≡ₚ py_range N;
  si_keys : NoDup (dkeys (stash_slot_map e));
}.

Lemma dset_new {V} (d : list (Z * V)) k v : dget d k = None -> dset d k v = d ++ [(k, v)].
Proof.
  induction d as [|[k' v'] d IH]; simpl; [done|]. case_decide; [done|]. intros. f_equal. auto.
Qed.

Lemma ddel_keys {V} (d : list (Z * V)) k r : r ∈ dkeys (ddel d k) <-> r <> k /\ r ∈ dkeys d.
Proof. rewrite <-!dget_Some_keys. apply ddel_tracked. Qed.

Lemma ddel_perm {V} (d : list (Z * V)) k v :
  NoDup (dkeys d) -> dget d k = Some v ->
  d.*2 ≡ₚ v :: (ddel d k).*2 /\ NoDup (dkeys (ddel d k)).
Proof.
  unfold ddel. induction d as [|[k' v'] d IH]; [done|]. cbn [dkeys fmap list_fmap fst]. intros Hnd Hget.
  apply NoDup_cons in Hnd as [Hk Hnd]. cbn [dget] in Hget. rewrite filter_cons. simpl. case_decide as Hd.
  - simplify_eq. rewrite decide_False by naive_solver.
    rewrite filter_all; [done|]. apply Forall_forall. intros [k0 v0] Hin. simpl. intros ->.
    apply Hk, list_elem_of_fmap. by exists (k', v0).
  - rewrite decide_True by congruence. destruct (IH Hnd Hget) as [IH1 IH2]. split.
    + rewrite fmap_cons. simpl. rewrite IH1. constructor.
    + unfold dkeys. rewrite fmap_cons. apply NoDup_cons. split; [|done].
      intros Hin. apply Hk. apply list_elem_of_fmap in Hin as (x & Heq & Hx).
      simpl in Heq. rewrite Heq. apply list_elem_of_filter in Hx as [_ Hx]. by apply list_elem_of_fmap_2.
Qed.

(** Everything but the slots is unchanged. *)
Definition same_rest e e' : Prop :=
  e' = with_stash (stash_free_slots e') (stash_slot_map e') e.

Lemma same_rest_refl e : same_rest e e.
Proof. by destruct e. Qed.

Lemma same_rest_trans e1 e2 e3 : same_rest e1 e2 -> same_rest e2 e3 -> same_rest e1 e3.
Proof. unfold same_rest. intros -> ->. done. Qed.

Lemma slot_of_step N rid e :
  stash_inv N e -> rid ∈ dkeys (stash_slot_map e) \/ stash_free_slots e <> [] ->
  exists slot e', _stash_slot_of rid e = Ok (slot, e') /\ stash_inv N e' /\
    dget (stash_slot_map e') rid = Some slot /\
    (forall r, r ∈ dkeys (stash_slot_map e) -> dget (stash_slot_map e') r = dget (stash_slot_map e) r) /\
    (forall r, r ∈ dkeys (stash_slot_map e') <-> r = rid \/ r ∈ dkeys (stash_slot_map e)) /\
    (length (stash_free_slots e) <= length (stash_free_slots e')
       + (if decide (rid ∈ dkeys (stash_slot_map e)) then 0 else 1))%nat /\
    same_rest e e'.
Proof.
  intros [Hs Hk] Hex. unfold _stash_slot_of. destruct (dget (stash_slot_map e) rid) as [slot|] eqn:E.
  - assert (Hin : rid ∈ dkeys (stash_slot_map e)) by (apply dget_Some_keys; eauto).
    exists slot, e. rewrite decide_True by done.
    assert (stash_inv N e) by (by split).
    pose proof (same_rest_refl e). split_and!; try done; [naive_solver|lia].
  - pose proof E as Hni. rewrite dget_None in Hni. rewrite decide_False by done.
    destruct (stash_free_slots e) as [|slot free] eqn:Ef; [naive_solver|].
    eexists slot, _. split; [done|]. simpl. split_and!; try done; [|..].
    + split; simpl; [|by apply dkeys_dset_NoDup].
      rewrite dset_new, fmap_app by done. rewrite <-Hs. simpl. solve_Permutation.
    + apply dget_dset_eq.
    + intros r Hr. apply dget_dset_ne. congruence.
    + intros r. rewrite <-!dget_Some_keys. apply dset_tracked.
    + lia.
Qed.

(** The requests that still need a slot. *)
Definition unseen e (ids : list Z) : list Z := filter (fun r => r ∉ dkeys (stash_slot_map e)) ids.

Lemma stash_slots_step N ids e :
  stash_inv N e -> (length (unseen e ids) <= length (stash_free_slots e))%nat ->
  exists slots e', stash_slots ids e = Ok (slots, e') /\ stash_inv N e' /\ length slots = length ids /\
    (forall k r, ids !! k = Some r -> dget (stash_slot_map e') r = slots !! k) /\
    (forall r, r ∈ dkeys (stash_slot_map e) -> dget (stash_slot_map e') r = dget (stash_slot_map e) r) /\
    (forall r, r ∈ dkeys (stash_slot_map e') <-> r ∈ ids \/ r ∈ dkeys (stash_slot_map e)) /\
    same_rest e e'.
Proof.
  revert e. induction ids as [|rid ids IH]; intros e Hinv Hlen; cbn [stash_slots].
  { exists [], e. split_and!; try done; [set_solver|apply same_rest_refl]. }
  unfold unseen in Hlen. rewrite filter_cons in Hlen.
  destruct (slot_of_step N rid e Hinv) as (slot & e1 & -> & Hinv1 & Hget & Hold & Hkeys & Hfree & Hsame).
  { case_decide as Hd; [right; intros Hnil; rewrite Hnil in Hlen; simpl in Hlen; lia|].
    by left. }
  cbn [mbind res_bind].
  destruct (IH e1 Hinv1) as (slots & e' & -> & Hinv' & Hl & Hs & Ho & Hk & Hsame').
  { assert (Hm : (length (unseen e1 ids) <= length (unseen e ids))%nat).
    { apply filter_length_mono. intros r. rewrite Hkeys. tauto. }
    unfold unseen in *. repeat case_decide; simpl in *; try tauto; lia. }
  exists (slot :: slots), e'. split; [done|]. split; [done|]. split; [simpl; lia|]. split_and!.
  - intros [|k] r Hr; simplify_eq/=; [|by apply Hs]. rewrite Ho, Hget; [done|]. apply Hkeys. by left.
  - intros r Hr. rewrite Ho, Hold; [done|done|]. apply Hkeys. by right.
  - intros r. rewrite Hk, Hkeys, elem_of_cons. tauto.
  - by eapply same_rest_trans.
Qed.

Lemma free_slot_step N e rid :
  stash_inv N e ->
  stash_inv N (free_slot e rid) /\
  (forall r, r ∈ dkeys (stash_slot_map (free_slot e rid)) <-> r ∈ dkeys (stash_slot_map e) /\ r <> rid) /\
  (forall r, r <> rid -> dget (stash_slot_map (free_slot e rid)) r = dget (stash_slot_map e) r) /\
  same_rest e (free_slot e rid).
Proof.
  intros [Hs Hk]. unfold free_slot. destruct (dget (stash_slot_map e) rid) as [slot|] eqn:E.
  - destruct (ddel_perm _ _ _ Hk E) as [Hp Hnd]. split_and!.
    + split; simpl; [|done]. rewrite <-Hs, Hp. solve_Permutation.
    + intros r. simpl. rewrite ddel_keys. tauto.
    + intros r Hr. simpl. rewrite dget_ddel, decide_False; [done|]. congruence.
    + done.
  - apply dget_None in E. split_and!; [by split| |done|apply same_rest_refl].
    intros r. split; [|tauto]. intros Hr. split; [done|]. intros ->. done.
Qed.

Lemma free_slots_step N ids e :
  stash_inv N e ->
  stash_inv N (foldl free_slot e ids) /\
  (forall r, r ∈ dkeys (stash_slot_map (foldl free_slot e ids)) <->
     r ∈ dkeys (stash_slot_map e) /\ r ∉ ids) /\
  same_rest e (foldl free_slot e ids).
Proof.
  revert e. induction ids as [|rid ids IH]; intros e Hinv; simpl.
  { split_and!; [done|set_solver|apply same_rest_refl]. }
  destruct (free_slot_step N e rid Hinv) as (Hi & Hk & _ & Hr).
  destruct (IH _ Hi) as (Hi' & Hk' & Hr'). split_and!; [done| |by eapply same_rest_trans].
  intros r. rewrite Hk', Hk, not_elem_of_cons. tauto.
Qed.

(** The flags of the decode result: the positions that continue are cleared. *)
Lemma mark_loop (finished : list bool) :
  py_for mark_continue (select false (py_range (zlen finished)) finished)
    (replicate (length finished) true) = Ok finished.
Proof.
  cut (forall post pre, finished = pre ++ post ->
    py_for mark_continue (select false (py_range2 (zlen pre) (zlen finished)) post)
      (pre ++ replicate (length post) true) = Ok finished).
  { intros Hg. specialize (Hg finished [] eq_refl). unfold py_range2 in Hg.
    change (zlen []) with 0 in Hg. by rewrite Z.sub_0_r in Hg. }
  induction post as [|f post IH]; intros pre Heq.
  { unfold select. rewrite zip_with_nil_r. simpl. by rewrite app_nil_r in Heq |- *; subst. }
  assert (Hlen : zlen finished = zlen pre + 1 + zlen post) by (rewrite Heq, zlen_app, zlen_cons; lia).
  pose proof (zlen_nonneg post). pose proof (zlen_nonneg pre).
  assert (Hr : py_range2 (zlen pre) (zlen finished) = zlen pre :: py_range2 (zlen (pre ++ [f])) (zlen finished)).
  { unfold py_range2. rewrite seqZ_cons by lia. rewrite zlen_app. f_equal. f_equal; unfold zlen; simpl; lia. }
  specialize (IH (pre ++ [f])). rewrite <-app_assoc in IH. specialize (IH Heq).
  rewrite Hr. unfold select in *. cbn [zip zip_with]. rewrite filter_cons. destruct f; simpl in *.
  - by rewrite <-app_assoc in IH.
  - assert (Hm : mark_continue (pre ++ true :: replicate (length post) true) (zlen pre)
      = Ok ((pre ++ [false]) ++ replicate (length post) true)).
    { pose proof (zlen_nonneg (replicate (length post) true)). unfold mark_continue.
      rewrite py_set_nonneg by (rewrite zlen_app, zlen_cons; lia). unfold zlen at 1.
      by rewrite Nat2Z.id, insert_app_r_alt, Nat.sub_diag, <-app_assoc by lia. }
    rewrite Hm. exact IH.
Qed.
End Stash.

(** ** Sampling *)

(** Reading a list at the positions of a flag reads the flagged elements. *)
Lemma select_map {A} (f : Z -> res A) (b : bool) (l : list A) (flags : list bool) :
  length flags = length l -> (forall k a, l !! k = Some a -> f (Z.of_nat k) = Ok a) ->
  py_map f (select b (py_range (zlen l)) flags) = Ok (select b l flags).
Proof.
  intros Hlen Hf. apply py_map_Forall2. unfold py_range.
  cut (forall n, (forall k a, l !! k = Some a -> f (Z.of_nat (n + k)) = Ok a) ->
    Forall2 (fun i a => f i = Ok a) (select b (seqZ (Z.of_nat n) (zlen l)) flags) (select b l flags)).
  { intros Hg. by apply (Hg 0%nat). }
  clear Hf. revert flags Hlen. induction l as [|a l IH]; intros [|fl flags] Hlen n Hf; try done.
  rewrite seqZ_cons by (rewrite zlen_cons; pose proof (zlen_nonneg l); lia).
  replace (Z.pred (zlen (a :: l))) with (zlen l) by (rewrite zlen_cons; lia).
  replace (Z.succ (Z.of_nat n)) with (Z.of_nat (Datatypes.S n)) by lia. unfold select in *. cbn [zip zip_with].
  rewrite !filter_cons. simpl.
  assert (Hrest : Forall2 (fun i a => f i = Ok a)
    (filter (fun x => x.2 = b) (zip (seqZ (Z.of_nat (Datatypes.S n)) (zlen l)) flags)).*1
    (filter (fun x => x.2 = b) (zip l flags)).*1).
  { apply IH; [simpl in Hlen; lia|]. intros k x Hx. replace (Datatypes.S n + k)%nat with (n + Datatypes.S k)%nat by lia. by apply Hf. }
  case_decide; [|done]. rewrite !fmap_cons. constructor; [|done]. simpl.
  specialize (Hf 0%nat a eq_refl). by rewrite Nat.add_0_r in Hf.
Qed.

Lemma index_select_ok {A} (l : list A) (flags : list bool) n :
  length flags = n -> l = [] \/ length l = n ->
  index_select_vector l (select false (py_range (Z.of_nat n)) flags)
  = Ok (match l with [] => [] | _ => select false l flags end).
Proof.
  intros Hn [->|Hl]; [done|]. unfold index_select_vector. destruct l as [|a l]; [done|].
  rewrite <-Hl. apply (select_map (vec_at (a :: l))); [lia|]. intros k x Hx. apply vec_at_Ok.
  split; [lia|]. by rewrite Nat2Z.id.
Qed.

(** The vectors of a batch of [n] tokens: one entry per token, or unused. *)
Definition aligned (n : nat) (m : BatchMetadata) : Prop :=
  length (req_ids m) = n /\ (exp_ids m = [] \/ length (exp_ids m) = n) /\
  (topk_weights m = [] \/ length (topk_weights m) = n) /\
  (attn_dp_ranks m = [] \/ length (attn_dp_ranks m) = n) /\
  (init_prefill_lens m = [] \/ length (init_prefill_lens m) = n).

Lemma select_zlen {A C} b (l : list A) (k : list C) flags :
  length l = length flags -> length k = length flags ->
  length (select b l flags) = length (select b k flags).
Proof.
  unfold select. rewrite !length_fmap. revert k flags.
  induction l as [|x l IH]; intros [|y k] [|f flags] Hl Hk; simplify_eq/=; try done.
  rewrite !filter_cons. simpl. specialize (IH k flags ltac:(lia) ltac:(lia)). case_decide; simpl; lia.
Qed.

Lemma meta_select_ok m flags n h :
  aligned n m -> length flags = n -> shape m = [Z.of_nat n; h] ->
  exists m', meta_index_select m (select false (py_range (Z.of_nat n)) flags) = Ok m' /\
    req_ids m' = select false (req_ids m) flags /\ layer_id m' = layer_id m /\
    shape m' = [zlen (select false (py_range (Z.of_nat n)) flags); h] /\
    aligned (length (select false (py_range (Z.of_nat n)) flags)) m'.
Proof.
  intros (Hr & He & Hw & Ha & Hp) Hf Hs.
  assert (Hsel : forall A (l : list A), l = [] \/ length l = n ->
    match l with [] => [] | _ => select false l flags end = [] \/
    length (match l with [] => [] | _ => select false l flags end) = length (select false (py_range (Z.of_nat n)) flags)).
  { intros A l [->|Hl]; [by left|]. destruct l as [|a k]; [by left|]. right.
    apply select_zlen; [lia|]. rewrite py_range_length. lia. } unfold meta_index_select. rewrite Hs. cbn [vec_at].
  change (vec_at [Z.of_nat n; h] 1) with (Ok h). cbn [mbind res_bind].
  rewrite !index_select_ok by auto. cbn [mbind res_bind]. eexists. split; [done|]. simpl.
  assert (Hids : match req_ids m with [] => [] | _ => select false (req_ids m) flags end = select false (req_ids m) flags)
    by (destruct (req_ids m); [unfold select; by destruct flags|done]).
  split_and!; try done. unfold aligned. cbn. split; [|by split_and!; apply Hsel]. rewrite Hids.
  apply select_zlen; [lia|]. rewrite py_range_length. lia.
Qed.

Section Sample.
Context {T S B : Type} `{HS : SamplerLaws T S} `{HB : BlockMgrOps B}.
Implicit Types e : Engine T S B.

Lemma release_seqs_step N ids b' e :
  stash_inv N e -> bm_release_seqs ids (block_mgr e) = Ok b' ->
  exists e', release_seqs ids e = Ok e' /\ stash_inv N e' /\
    (forall r, r ∈ dkeys (stash_slot_map e') <-> r ∈ dkeys (stash_slot_map e) /\ r ∉ ids) /\
    block_mgr e' = b' /\ dummy_sampler e' = dummy_sampler e /\ sent e' = sent e.
Proof.
  intros Hinv Hb. unfold release_seqs. rewrite Hb. cbn [mbind res_bind].
  assert (Hinv2 : stash_inv N (with_mgr b' e)) by (destruct Hinv; by split).
  destruct (free_slots_step N ids (with_mgr b' e) Hinv2) as (Hinv3 & Hk3 & Hsame3).
  eexists. split; [done|]. split; [done|]. split; [done|]. by rewrite Hsame3.
Qed.

(** The rows looped back, one per continuing request. *)
Lemma loopback_data (o : step_out T) (completed : list T) (ids : list Z) fin :
  length completed = length ids -> length fin = length ids ->
  continue_ids o = select false (py_range (zlen ids)) fin ->
  (forall d, continued_data o = Some d -> length d = length (continue_ids o)) ->
  exists data, match continued_data o with
               | Some d => Ok d
               | None => py_map (py_get completed) (continue_ids o)
               end = Ok data /\ length data = length (select false (py_range (zlen ids)) fin).
Proof.
  intros Hc Hf Ho Hd. rewrite Ho in *. destruct (continued_data o) as [d|]; [eauto|].
  assert (Hz : zlen ids = zlen completed) by (unfold zlen; lia). rewrite Hz.
  rewrite (select_map (py_get completed) false completed); [|lia|].
  2:{ intros k a Hk. apply py_get_Ok; [lia|by rewrite Nat2Z.id]. }
  eexists. split; [done|]. apply select_zlen; [lia|]. rewrite py_range_length. unfold zlen. lia.
Qed.

(** Sampling succeeds and accounts for every row. *)
Lemma sample_results_ok (add : T -> T -> T) (residual_stash : Z -> T) (rank N h : Z)
    (batch : AttentionScheduleBatch (list T)) (meta_c : BatchMetadata) e :
  stash_inv N e -> (length (unseen e (sb_req_ids batch)) <= length (stash_free_slots e))%nat ->
  length (sb_data batch) = length (sb_req_ids batch) ->
  req_ids meta_c = sb_req_ids batch -> aligned (length (sb_req_ids batch)) meta_c ->
  shape meta_c = [zlen (sb_req_ids batch); h] ->
  (forall rows, length rows = length (sb_req_ids batch) ->
     is_ok (step rows (sb_req_ids batch) (dummy_sampler e)) = true) ->
  (forall fin, length fin = length (sb_req_ids batch) ->
     is_ok (bm_release_seqs (select true (sb_req_ids batch) fin) (block_mgr e)) = true) ->
  exists w e' finished toks,
    sample_results add residual_stash rank batch meta_c e = Ok (w, e') /\
    length finished = length (sb_req_ids batch) /\ length toks = length (sb_req_ids batch) /\
    sent e' = sent e ++ [{| bd_req_ids := sb_req_ids batch; bd_token_ids := toks; bd_is_eos := finished |}] /\
    req_ids (tb_meta w) = select false (sb_req_ids batch) finished /\
    length (tb_data w) = length (req_ids (tb_meta w)) /\ layer_id (tb_meta w) = 0 /\
    init_prefill_lens (tb_meta w) = replicate (length (req_ids (tb_meta w))) (-1) /\
    stash_inv N e' /\
    (forall r, r ∈ dkeys (stash_slot_map e') <->
       (r ∈ sb_req_ids batch \/ r ∈ dkeys (stash_slot_map e)) /\ r ∉ select true (sb_req_ids batch) finished) /\
    (forall r, tracked (dummy_sampler e') r <->
       tracked (dummy_sampler e) r /\ r ∉ select true (sb_req_ids batch) finished) /\
    bm_release_seqs (select true (sb_req_ids batch) finished) (block_mgr e) = Ok (block_mgr e') /\
    (exists rows o, step rows (sb_req_ids batch) (dummy_sampler e) = Ok (o, dummy_sampler e') /\
       finish_req_ids o = select true (sb_req_ids batch) finished) /\
    shape (tb_meta w) = [zlen (req_ids (tb_meta w)); h] /\ aligned (length (req_ids (tb_meta w))) (tb_meta w).
Proof.
  set (ids := sb_req_ids batch). intros Hinv Hfree Hdata Hreq Hal Hsh Hstep Hrel.
  destruct (stash_slots_step N ids e Hinv Hfree) as (slots & e1 & Hslots & Hinv1 & Hls & _ & _ & Hk1 & Hsame1).
  unfold sample_results. fold ids. rewrite Hslots. cbn [mbind res_bind].
  rewrite (proj2 (Z.eqb_eq (zlen (sb_data batch)) (zlen slots))) by (unfold zlen; lia).
  cbn [py_check mbind res_bind].
  set (completed := zip_with add _ _).
  assert (Hcl : length completed = length ids)
    by (unfold completed; rewrite length_zip_with, length_fmap; lia).
  assert (He1 : dummy_sampler e1 = dummy_sampler e /\ block_mgr e1 = block_mgr e /\ sent e1 = sent e)
    by (rewrite Hsame1; done).
  destruct He1 as (Hs1 & Hb1 & Hse1). specialize (Hstep completed Hcl). rewrite Hs1.
  destruct (step completed ids (dummy_sampler e)) as [[o s']|] eqn:Es; [|done]. cbn [mbind res_bind].
  destruct (step_lawful _ _ _ _ _ Es) as (fin & [Hfl Hfc Hff Hft Hfd _ Htr]).
  destruct (meta_select_ok meta_c fin (length ids) h) as (m & Hm & Hmr & Hml & Hmsh & Hmal); [done..|].
  change (Z.of_nat (length ids)) with (zlen ids) in Hmsh, Hmal.
  change (Z.of_nat (length ids)) with (zlen ids) in Hm. rewrite Hfc, Hm. cbn [mbind res_bind].
  set (n := length (select false (py_range (zlen ids)) fin)).
  specialize (Hrel _ Hfl). destruct (bm_release_seqs _ (block_mgr e)) as [b'|] eqn:Eb; [|done].
  destruct (release_seqs_step N (select true ids fin) b' (with_sampler s' e1))
    as (e3 & Hrls & Hinv3 & Hk3 & Hb3 & Hs3 & Hse3); [by destruct Hinv1|by rewrite <-Eb, <-Hb1|].
  rewrite Hff, Hrls. cbn [mbind res_bind].
  assert (Hmark := mark_loop fin). unfold zlen at 1 in Hmark. rewrite Hfl in Hmark.
  change (Z.of_nat (length ids)) with (zlen ids) in Hmark. rewrite Hmark. cbn [mbind res_bind].
  destruct (loopback_data o completed ids fin Hcl Hfl Hfc Hfd) as (data & Hd & Hdl).
  rewrite Hfc in Hd. rewrite Hd. cbn [mbind res_bind].
  assert (Hn : n = length (req_ids m)).
  { unfold n. rewrite Hmr, Hreq. apply select_zlen; [|done]. rewrite py_range_length. unfold zlen. lia. }
  eexists _, _, fin, (out_token_ids o). split; [done|]. simpl. split_and!; try done.
  - by rewrite Hse3, <-Hse1.
  - by rewrite Hmr, Hreq.
  - by rewrite Hdl, <-Hn.
  - by rewrite <-Hn.
  - by destruct Hinv3.
  - intros r. rewrite Hk3. simpl. by rewrite Hk1.
  - intros r. rewrite Hs3. simpl. by rewrite Htr, Hff.
  - by rewrite Hb3, Eb.
  - exists completed, o. by rewrite Hs3, Es.
  - rewrite Hmsh. unfold zlen. by rewrite <-Hn.
  - rewrite <-Hn. destruct Hmal as (A1 & A2 & A3 & _ & _). split_and!; try done; right; apply length_replicate.
Qed.

(** Sampling a batch at the final pseudo-layer, with any lawful sampler: when
    the sampler accepts the batch, the block manager releases finished requests and
    there is a stash slot for every request, it succeeds; the decode result it
    sends marks exactly the finished requests, the batch it loops back holds
    exactly the others in order, one row each, at layer 0; the finished requests
    lose their stash slot, sampler entry and blocks, the others keep theirs, and
    every slot stays free or held by one request. *)
Theorem sample_results_step (add : T -> T -> T) (residual_stash : Z -> T) (rank N h : Z)
    (batch : AttentionScheduleBatch (list T)) (meta_c : BatchMetadata) e :
  stash_inv N e -> (length (unseen e (sb_req_ids batch)) <= length (stash_free_slots e))%nat ->
  length (sb_data batch) = length (sb_req_ids batch) ->
  req_ids meta_c = sb_req_ids batch -> aligned (length (sb_req_ids batch)) meta_c ->
  shape meta_c = [zlen (sb_req_ids batch); h] ->
  (forall rows, length rows = length (sb_req_ids batch) ->
     is_ok (step rows (sb_req_ids batch) (dummy_sampler e)) = true) ->
  (forall fin, length fin = length (sb_req_ids batch) ->
     is_ok (bm_release_seqs (select true (sb_req_ids batch) fin) (block_mgr e)) = true) ->
  exists w e' finished toks,
    sample_results add residual_stash rank batch meta_c e = Ok (w, e') /\
    length finished = length (sb_req_ids batch) /\ length toks = length (sb_req_ids batch) /\
    sent e' = sent e ++ [{| bd_req_ids := sb_req_ids batch; bd_token_ids := toks; bd_is_eos := finished |}] /\
    req_ids (tb_meta w) = select false (sb_req_ids batch) finished /\
    length (tb_data w) = length (req_ids (tb_meta w)) /\ layer_id (tb_meta w) = 0 /\
    init_prefill_lens (tb_meta w) = replicate (length (req_ids (tb_meta w))) (-1) /\
    stash_inv N e' /\
    (forall r, r ∈ dkeys (stash_slot_map e') <->
       (r ∈ sb_req_ids batch \/ r ∈ dkeys (stash_slot_map e)) /\ r ∉ select true (sb_req_ids batch) finished) /\
    (forall r, tracked (dummy_sampler e') r <->
       tracked (dummy_sampler e) r /\ r ∉ select true (sb_req_ids batch) finished) /\
    bm_release_seqs (select true (sb_req_ids batch) finished) (block_mgr e) = Ok (block_mgr e').
Proof.
  intros H1 H2 H3 H4 H5 H6 H7 H8.
  destruct (sample_results_ok add residual_stash rank N h batch meta_c e) as (w & e' & fin & toks & Hall); [done..|].
  exists w, e', fin, toks. tauto.
Qed.
End Sample.

(** A batch of one request on its last token. *)
Definition ex_engine : Engine Z DummySampler CPUBlockManager :=
  {| dummy_sampler := dummy_create_request 5 1 {| req_max_output_len := []; output_len := [] |};
     block_mgr := ex_step.1; stash_free_slots := [0; 1]; stash_slot_map := [];
     pool_puts := []; sent := []; puts := [] |}.
Definition ex_final : AttentionScheduleBatch (list Z) :=
  {| sb_shape := [1; 4]; sb_dtype := "bfloat16"; sb_layer_id := 2; sb_req_ids := [5];
     sb_init_prefill_lens := [-1]; sb_num_prefill_seqs := 0; sb_num_prefill_tokens := 0;
     sb_num_decode_tokens := 1; sb_data := [40]; sb_req_indices := None; sb_seq_lens := None |}.

Lemma sample_results_step_witness :
  exists w e' finished toks,
    sample_results Z.add (fun s => s) 0 ex_final (to_metadata ex_final) ex_engine = Ok (w, e') /\
    sent e' = sent ex_engine ++
      [{| bd_req_ids := [5]; bd_token_ids := toks; bd_is_eos := finished |}] /\
    length (tb_data w) = length (req_ids (tb_meta w)).
Proof.
  destruct (sample_results_step Z.add (fun s => s) 0 2 4 ex_final (to_metadata ex_final) ex_engine)
    as (w & e' & fin & toks & H1 & _ & _ & H2 & _ & H3 & _).
  - split; [vm_compute; apply Permutation_refl|constructor].
  - vm_compute. lia.
  - reflexivity.
  - reflexivity.
  - repeat split; simpl; auto.
  - reflexivity.
  - intros [|r [|]] [=]. reflexivity.
  - intros [|f [|]] [=]. destruct f; vm_compute; reflexivity.
  - exists w, e', fin, toks. split; [exact H1|]. split; [exact H2|exact H3].
Defined.

(** ** KV loads *)

(** When a completed fetch installs but its page count does not match the
    request's prefix length, [_drain_kv_loads] rejects the request and leaves its
    blocks allocated: it tells the detokenizer the request ended, puts nothing into
    the pool and creates no sampler entry, so no later step releases the blocks the
    installation took from the free list. *)
Theorem drain_mismatch_leaks {T S B} `{SamplerOps T S} `{BlockMgrOps B} (rank h num_layers : Z) (rand : T)
    (staged : list (KVLoader.object T)) (d : KVLoader.KVLoadDone) (e : Engine T S B)
    (i i' : KVLoader.installer T) :
  let req := KVLoader.job_ctx (KVLoader.kd_job d) in
  0 <= KVLoader.kd_n_pages d -> 0 < block_size_ (KVLoader.in_blocks i) ->
  KVLoader.install num_layers staged d i = (true, i') ->
  KVLoader.kd_n_pages d * 16 <> tr_init_prefill_len req ->
  exists e', drain_one rank h (KVLoader.install num_layers staged) rand (e, i) d = Ok (e', i') /\
    sent e' = sent e ++ [{| bd_req_ids := [tr_req_id req]; bd_token_ids := [0]; bd_is_eos := [true] |}] /\
    pool_puts e' = pool_puts e /\ dummy_sampler e' = dummy_sampler e /\
    exists blocks, block_tables_ (KVLoader.in_blocks i') !! KVLoader.job_req_id (KVLoader.kd_job d)
      = Some blocks /\
      zlen blocks = blocks_for (block_size_ (KVLoader.in_blocks i)) (KVLoader.kd_n_pages d * 16) /\
      num_free_blocks (KVLoader.in_blocks i') = num_free_blocks (KVLoader.in_blocks i) - zlen blocks.
Proof.
  intros req Hn Hbs Hinst Hne. unfold drain_one. rewrite Hinst. simpl. fold req.
  rewrite (proj2 (Z.eqb_neq _ _) Hne). eexists. split; [done|]. simpl. split_and!; try done.
  unfold KVLoader.install in Hinst. destruct (KVLoader.kd_ok d); [|done]. simpl in Hinst.
  destruct (allocate _ _ _) as [b|] eqn:Ea; [|done].
  destruct (KVLoader.install_body _ _ _ _ _); simplify_eq. simpl.
  apply allocate_Ok in Ea as (l & rest & _ & Hf & Hl & ->); [|done|unfold KVLoader.PAGE_TOKENS; lia].
  exists l. simpl. rewrite lookup_insert_eq. split; [done|]. split; [done|].
  unfold num_free_blocks. simpl. rewrite Hf, zlen_app. lia.
Qed.

Lemma drain_mismatch_leaks_witness :
  exists e' i', drain_one 0 4
      (KVLoader.install 2 [KVLoader.demo_object; KVLoader.demo_object]) 0
      (ex_engine, {| KVLoader.in_blocks := bm_init 16 4 0; KVLoader.in_pool := fun _ _ _ _ => 0;
                     KVLoader.n_loaded := 0; KVLoader.n_rejected := 0 |})
      {| KVLoader.kd_job := {| KVLoader.job_req_id := 5; KVLoader.prompt_token_ids := replicate 17 3;
            KVLoader.job_ctx := {| tr_req_id := 5; tr_init_prefill_len := 32; tr_max_output_len := 2;
                                   tr_token_ids := replicate 18 3 |} |};
         KVLoader.kd_worker := 0; KVLoader.kd_n_pages := 1; KVLoader.kd_ok := true |} = Ok (e', i') /\
    pool_puts e' = pool_puts ex_engine.
Proof.
  destruct (drain_mismatch_leaks 0 4 2 0 [KVLoader.demo_object; KVLoader.demo_object]
    {| KVLoader.kd_job := {| KVLoader.job_req_id := 5; KVLoader.prompt_token_ids := replicate 17 3;
            KVLoader.job_ctx := {| tr_req_id := 5; tr_init_prefill_len := 32; tr_max_output_len := 2;
                                   tr_token_ids := replicate 18 3 |} |};
       KVLoader.kd_worker := 0; KVLoader.kd_n_pages := 1; KVLoader.kd_ok := true |} ex_engine
    {| KVLoader.in_blocks := bm_init 16 4 0; KVLoader.in_pool := fun _ _ _ _ => 0;
       KVLoader.n_loaded := 0; KVLoader.n_rejected := 0 |} _ ltac:(simpl; lia) ltac:(reflexivity)
    ltac:(reflexivity) ltac:(simpl; lia)) as (e' & Hr & _ & Hp & _).
  exists e'. eexists. split; [exact Hr|exact Hp].
Defined.

(** ** The expert side *)

Section Expert.
Context {T : Type}.

(** [build_expert_executor]: the local to global and the global to local ranks. *)
Definition local_experts (local_expert_ids : option (list Z)) (num_experts_per_rank rank_in_group : Z)
    : list Z :=
  match local_expert_ids with
  | Some ((_ :: _) as l) => l
  | _ => (fun i => num_experts_per_rank * rank_in_group + i) <$> py_range num_experts_per_rank
  end.

Definition build_expert_ranks (local_expert_ids : option (list Z))
    (num_experts num_experts_per_rank rank_in_group : Z) : res (list Z * list Z) :=
  let l := local_experts local_expert_ids num_experts_per_rank rank_in_group in
  g ← py_for (fun g x => py_set g x.2 x.1) (enumerate l) (replicate (Z.to_nat num_experts) (-1));
  Ok (l, g).

(** The order of [sort_by_attention]. *)
Definition attn_before (m : BatchMetadata) (i j : Z) : bool :=
  let rk k := default 0 (attn_dp_ranks m !! Z.to_nat k) in
  let pl k := default 0 (init_prefill_lens m !! Z.to_nat k) in
  let rq k := default 0 (req_ids m !! Z.to_nat k) in
  if negb (rk i =? rk j) then rk i <? rk j
  else if (pl i =? -1) || (pl j =? -1) then pl j <? pl i
  else rq i <? rq j.

(** [std_sort less l] is [std::sort]: some permutation of [l]. *)
Context (std_sort : (Z -> Z -> bool) -> list Z -> list Z).

Definition sort_by_attention (m : BatchMetadata) : res (list Z * BatchMetadata) :=
  let rank := std_sort (attn_before m) (py_range (zlen (req_ids m))) in
  positions ← py_for (fun p x => arr_set p x.2 x.1) (enumerate rank)
                (replicate (length (req_ids m)) 0);
  m ← permute_token_infos m positions;
  Ok (positions, m).

(** [apply_weights_and_permute_tokens]: row [i], scaled by [weights[i]], goes to
    row [mapping[i]]. *)
Definition apply_weights_and_permute_tokens (scale : float -> T -> T) (tokens : list T)
    (weights : list float) (mapping : list Z) (empty : T) : res (list T) :=
  rows ← py_map (fun i => x ← vec_at tokens i; w ← vec_at weights i; Ok (scale w x))
           (py_range (zlen tokens));
  permute_vector empty rows mapping.

(** [execute_batch_expert]: [run] executes the experts.  With GDR copies the
    weights are those read before the metadata is sorted, without they are read
    from the metadata after it was sorted. *)
Definition execute_batch_expert (use_gdr : bool) (run : BatchMetadata -> list T -> list T)
    (scale : float -> T -> T) (empty : T) (b : TokenBatch T) : res (TokenBatch T) :=
  let hiddens := run (tb_meta b) (tb_data b) in
  let before := topk_weights (tb_meta b) in
  '(mappings, m) ← sort_by_attention (tb_meta b);
  let weights := if use_gdr then before else topk_weights m in
  permuted ← apply_weights_and_permute_tokens scale hiddens weights mappings empty;
  let m := with_layer (layer_id m + 1)
             (with_vectors (shape m) (req_ids m) [] [] (attn_dp_ranks m) (init_prefill_lens m) m) in
  Ok {| tb_data := permuted; tb_meta := m |}.
End Expert.

(** ** Alignment of rows and metadata *)

Lemma arr_set_ok {A} (l : list A) i x : 0 <= i < zlen l -> arr_set l i x = Ok (<[Z.to_nat i := x]> l).
Proof. intros. unfold arr_set. zcases; try lia; done. Qed.

(** Writing [data[i]] at [positions[i]]. *)
Lemma permute_vector_ok {A} (d : A) (data : list A) (positions : list Z) :
  positions ≡ₚ py_range (zlen data) ->
  exists r, permute_vector d data positions = Ok r /\ length r = length data /\
    forall i p x, positions !! i = Some p -> data !! i = Some x -> r !! Z.to_nat p = Some x.
Proof.
  intros Hperm.
  assert (Hnd : NoDup positions) by (rewrite Hperm; apply py_range_NoDup).
  assert (Hlen : length positions = length data)
    by (rewrite Hperm, py_range_length; unfold zlen; lia).
  assert (Hr : forall i p, positions !! i = Some p -> 0 <= p < zlen data).
  { intros i p Hp%list_elem_of_lookup_2. rewrite Hperm in Hp. by apply elem_of_py_range. }
  unfold permute_vector. destruct data as [|x0 data0] eqn:Ed.
  { exists []. split; [done|]. split; [done|]. intros i p x _ [=]. }
  rewrite <-Ed in *. clear Ed x0 data0.
  destruct (py_for_total (fun pre r => length r = length data /\
      forall i p x, (i < length pre)%nat -> positions !! i = Some p -> data !! i = Some x ->
        r !! Z.to_nat p = Some x)
    (fun r '(i, p) => x ← vec_at data i; arr_set r p x) (enumerate positions)
    (replicate (length data) d)) as (r & Hrun & Hl & Hv).
  - split; [apply length_replicate|]. simpl. lia.
  - intros pre [i p] post r Heq [Hl Hv]. pose proof (enum_prefix _ _ _ _ _ Heq) as (-> & Hp & _).
    destruct (lookup_lt_is_Some_2 data (length pre)) as [x Hx]; [apply lookup_lt_Some in Hp; lia|].
    rewrite (proj2 (vec_at_Ok data (zlen pre) x)) by (split; [apply zlen_nonneg|unfold zlen; by rewrite Nat2Z.id]).
    simpl. pose proof (Hr _ _ Hp) as Hpr.
    rewrite arr_set_ok by (unfold zlen in *; lia). eexists. split; [done|].
    rewrite length_insert. split; [done|]. intros i' p' x' Hi Hp' Hx'. rewrite length_app in Hi. simpl in Hi.
    destruct (decide (i' = length pre)) as [->|].
    + simplify_eq. apply list_lookup_insert_eq. unfold zlen in *. lia.
    + pose proof (Hr _ _ Hp'). rewrite list_lookup_insert_ne; [by apply (Hv i'); [lia|..]|].
      intros Heq'. assert (p = p') as -> by lia. by pose proof (NoDup_lookup _ _ _ _ Hnd Hp Hp').
  - exists r. split; [done|]. split; [done|]. intros i p x Hp Hx. apply (Hv i); try done.
    rewrite enum_length. by eapply lookup_lt_Some.
Qed.

(** The metadata after a permutation of its tokens. *)
Lemma permute_infos_ok m positions (n : nat) :
  aligned n m -> head (shape m) = Some (Z.of_nat n) -> positions ≡ₚ py_range (Z.of_nat n) ->
  (0 < n)%nat ->
  exists m', permute_token_infos m positions = Ok m' /\ layer_id m' = layer_id m /\ shape m' = shape m /\
    aligned n m' /\
    forall i p, positions !! i = Some p ->
      (forall r, req_ids m !! i = Some r -> req_ids m' !! Z.to_nat p = Some r) /\
      (forall x, exp_ids m !! i = Some x -> exp_ids m' !! Z.to_nat p = Some x) /\
      (forall w, topk_weights m !! i = Some w -> topk_weights m' !! Z.to_nat p = Some w) /\
      (forall k, attn_dp_ranks m !! i = Some k -> attn_dp_ranks m' !! Z.to_nat p = Some k) /\
      (forall l, init_prefill_lens m !! i = Some l -> init_prefill_lens m' !! Z.to_nat p = Some l).
Proof.
  intros (Hr & He & Hw & Ha & Hp) Hsh Hperm Hn.
  assert (Hvec : forall A (d : A) (l : list A), l = [] \/ length l = n ->
    exists r, permute_vector d l positions = Ok r /\ (r = [] \/ length r = n) /\ length r = length l /\
      forall i p x, positions !! i = Some p -> l !! i = Some x -> r !! Z.to_nat p = Some x).
  { intros A d l [->|Hl]; [exists []; simpl; split_and!; auto; intros i p x _ [=]|].
    destruct (permute_vector_ok d l positions) as (r & H1 & H2 & H3); [by unfold zlen; rewrite Hl|].
    exists r. split_and!; auto. right. lia. }
  unfold permute_token_infos. destruct positions as [|p0 ps] eqn:Epos.
  { pose proof (Permutation_length Hperm) as Hl.
    rewrite py_range_length in Hl. simpl in Hl. lia. }
  rewrite <-Epos in *. unfold meta_num_tokens. rewrite Hsh. cbn [of_option mbind res_bind].
  assert (Hz : zlen positions = Z.of_nat n) by (unfold zlen; rewrite Hperm, py_range_length; lia).
  rewrite Hz, Z.eqb_refl. cbn [ASSERT py_check mbind res_bind].
  destruct (Hvec Z 0 (req_ids m) (or_intror Hr)) as (r1 & -> & _ & L1 & V1). cbn [mbind res_bind].
  destruct (Hvec Z 0 (exp_ids m) He) as (r2 & -> & L2 & _ & V2). cbn [mbind res_bind].
  destruct (Hvec Z 0 (attn_dp_ranks m) Ha) as (r3 & -> & L3 & _ & V3). cbn [mbind res_bind].
  destruct (Hvec Z 0 (init_prefill_lens m) Hp) as (r4 & -> & L4 & _ & V4). cbn [mbind res_bind].
  destruct (Hvec float (float_of_Z 0) (topk_weights m) Hw) as (r5 & -> & L5 & _ & V5). cbn [mbind res_bind].
  eexists. split; [done|]. split; [done|]. split; [done|].
  split; [unfold aligned; simpl; rewrite L1; tauto|]. intros i p Hi. simpl. split_and!; eauto.
Qed.

(** *** Expert batches *)

Section ExpertStep.
Context {T : Type} (std_sort : (Z -> Z -> bool) -> list Z -> list Z).
Hypothesis std_sort_perm : forall less l, std_sort less l ≡ₚ l.

Lemma sort_by_attention_ok m (n : nat) :
  aligned n m -> head (shape m) = Some (Z.of_nat n) -> (0 < n)%nat ->
  exists positions m', sort_by_attention std_sort m = Ok (positions, m') /\
    positions ≡ₚ py_range (Z.of_nat n) /\ permute_token_infos m positions = Ok m'.
Proof.
  intros Hal Hsh Hn. destruct Hal as (Hr & Hal). unfold sort_by_attention.
  set (rank := std_sort _ _).
  assert (Hz : zlen (req_ids m) = Z.of_nat n) by (unfold zlen; lia).
  assert (Hrank : rank ≡ₚ py_range (Z.of_nat n)) by (unfold rank; by rewrite std_sort_perm, Hz).
  assert (Hrl : zlen rank = Z.of_nat n) by (unfold zlen; rewrite Hrank, py_range_length; lia).
  assert (Hzr : zlen (py_range (Z.of_nat n)) = Z.of_nat n) by (unfold zlen; rewrite py_range_length; lia).
  destruct (permute_vector_ok 0 (py_range (Z.of_nat n)) rank) as (pos & Hpos & Hl & Hv); [by rewrite Hzr|].
  rewrite py_range_length, Nat2Z.id in Hl.
  assert (Heq : py_for (fun p x => arr_set p x.2 x.1) (enumerate rank) (replicate (length (req_ids m)) 0) = Ok pos).
  { rewrite <-Hpos. unfold permute_vector. destruct (py_range (Z.of_nat n)) as [|a l] eqn:Er.
    { apply (f_equal length) in Er. rewrite py_range_length in Er. simpl in Er. lia. }
    rewrite <-Er. rewrite py_range_length, Nat2Z.id, Hr. apply py_for_ext. intros st [i p] Hin.
    apply elem_of_enumerate in Hin as [Hi Hp%lookup_lt_Some].
    rewrite (proj2 (vec_at_Ok (py_range (Z.of_nat n)) i i)); [done|]. split; [done|].
    unfold py_range. rewrite lookup_seqZ_lt by (unfold zlen in *; lia). f_equal. lia. }
  rewrite Heq. cbn [mbind res_bind].
  assert (Hperm : pos ≡ₚ py_range (Z.of_nat n)).
  { symmetry. apply submseteq_length_Permutation; [|rewrite py_range_length; lia].
    apply NoDup_submseteq; [apply py_range_NoDup|]. intros i Hi%elem_of_py_range.
    destruct (lookup_lt_is_Some_2 rank (Z.to_nat i)) as [p Hp]; [unfold zlen in Hrl; lia|].
    apply (list_elem_of_lookup_2 _ (Z.to_nat p)). apply (Hv (Z.to_nat i)); [done|].
    unfold py_range. rewrite lookup_seqZ_lt by lia. f_equal. lia. }
  destruct (permute_infos_ok m pos n) as (m' & Hm' & _); [by split|done|done|done|].
  exists pos, m'. rewrite Hm'. done.
Qed.

Lemma apply_weights_ok (scale : float -> T -> T) tokens weights mapping empty :
  length weights = length tokens -> mapping ≡ₚ py_range (zlen tokens) ->
  exists out, apply_weights_and_permute_tokens scale tokens weights mapping empty = Ok out /\
    length out = length tokens /\
    forall i p x w, mapping !! i = Some p -> tokens !! i = Some x -> weights !! i = Some w ->
      out !! Z.to_nat p = Some (scale w x).
Proof.
  intros Hw Hm. unfold apply_weights_and_permute_tokens.
  destruct (py_map_total (fun i => x ← vec_at tokens i; w ← vec_at weights i; Ok (scale w x))
    (fun i y => exists x w, tokens !! Z.to_nat i = Some x /\ weights !! Z.to_nat i = Some w /\ y = scale w x)
    (py_range (zlen tokens))) as (rows & -> & Hrows).
  { intros i Hi%elem_of_py_range.
    destruct (lookup_lt_is_Some_2 tokens (Z.to_nat i)) as [x Hx]; [unfold zlen in Hi; lia|].
    destruct (lookup_lt_is_Some_2 weights (Z.to_nat i)) as [w Hw']; [unfold zlen in Hi; lia|].
    exists (scale w x). rewrite (proj2 (vec_at_Ok tokens i x)) by (split; [lia|done]). simpl.
    rewrite (proj2 (vec_at_Ok weights i w)) by (split; [lia|done]). simpl. eauto 10. }
  simpl. assert (Hl : length rows = length tokens).
  { rewrite <-(Forall2_length _ _ _ Hrows), py_range_length. unfold zlen. lia. }
  destruct (permute_vector_ok empty rows mapping) as (out & -> & Hol & Hv); [unfold zlen in *; by rewrite Hl|].
  exists out. split; [done|]. split; [lia|]. intros i p x w Hp Hx Hw'.
  assert (Hi : (i < length tokens)%nat) by (by eapply lookup_lt_Some).
  assert (Hrow : rows !! i = Some (scale w x)); [|by eapply Hv].
  destruct (Forall2_lookup_l _ _ _ i (Z.of_nat i) Hrows) as (y & Hy & x' & w' & Hx' & Hww & ->).
  { unfold py_range. rewrite lookup_seqZ_lt by (unfold zlen; lia). done. }
  rewrite Nat2Z.id in *. by simplify_eq.
Qed.

(** An expert batch, column by column. *)
Lemma execute_expert_ok (use_gdr : bool) (run : BatchMetadata -> list T -> list T)
    (scale : float -> T -> T) (empty : T) (b : TokenBatch T) (n : nat) :
  aligned n (tb_meta b) -> head (shape (tb_meta b)) = Some (Z.of_nat n) -> (0 < n)%nat ->
  length (topk_weights (tb_meta b)) = n -> length (run (tb_meta b) (tb_data b)) = n ->
  exists b' positions, execute_batch_expert std_sort use_gdr run scale empty b = Ok b' /\
    positions ≡ₚ py_range (Z.of_nat n) /\ layer_id (tb_meta b') = layer_id (tb_meta b) + 1 /\
    aligned n (tb_meta b') /\ shape (tb_meta b') = shape (tb_meta b) /\ length (tb_data b') = n /\
    (forall i p, positions !! i = Some p ->
      (forall r, req_ids (tb_meta b) !! i = Some r -> req_ids (tb_meta b') !! Z.to_nat p = Some r) /\
      (forall k, attn_dp_ranks (tb_meta b) !! i = Some k -> attn_dp_ranks (tb_meta b') !! Z.to_nat p = Some k) /\
      (forall l, init_prefill_lens (tb_meta b) !! i = Some l -> init_prefill_lens (tb_meta b') !! Z.to_nat p = Some l)) /\
    forall i j p x wi wj, positions !! i = Some p -> positions !! j = Some (Z.of_nat i) ->
      run (tb_meta b) (tb_data b) !! i = Some x ->
      topk_weights (tb_meta b) !! i = Some wi -> topk_weights (tb_meta b) !! j = Some wj ->
      tb_data b' !! Z.to_nat p = Some (scale (if use_gdr then wi else wj) x).
Proof.
  intros Hal Hsh Hn Hw Hrun. unfold execute_batch_expert.
  destruct (sort_by_attention_ok (tb_meta b) n Hal Hsh Hn) as (pos & m' & -> & Hperm & Hm').
  cbn [mbind res_bind].
  destruct (permute_infos_ok (tb_meta b) pos n Hal Hsh Hperm Hn) as (m2 & Hm2 & Hlay & Hshp & Hal' & Hpt).
  rewrite Hm' in Hm2. injection Hm2 as <-.
  assert (Hw' : length (topk_weights m') = n).
  { destruct Hal' as (_ & _ & [Hnil|] & _); [|done]. exfalso.
    destruct (lookup_lt_is_Some_2 pos 0) as [p Hp]; [rewrite Hperm, py_range_length; lia|].
    destruct (lookup_lt_is_Some_2 (topk_weights (tb_meta b)) 0) as [w Hw0]; [lia|].
    destruct (Hpt _ _ Hp) as (_ & _ & Hwt & _). specialize (Hwt _ Hw0). by rewrite Hnil in Hwt. }
  destruct (apply_weights_ok scale (run (tb_meta b) (tb_data b))
    (if use_gdr then topk_weights (tb_meta b) else topk_weights m') pos empty) as (out & -> & Hol & Hout).
  { destruct use_gdr; lia. }
  { unfold zlen. by rewrite Hrun. }
  cbn [mbind res_bind]. eexists _, pos. split; [done|]. split; [done|]. simpl. split; [by rewrite Hlay|].
  split; [destruct Hal' as (A1 & _ & _ & A4 & A5); unfold aligned; cbn; auto 10|]. split; [done|]. split; [congruence|].
  split; [intros i p Hp; destruct (Hpt _ _ Hp) as (Hq & _ & _ & Hk & Hl); auto|].
  intros i j p x wi wj Hp Hj Hx Hwi Hwj. apply (Hout i p); [done|done|]. destruct use_gdr; [done|].
  destruct (Hpt _ _ Hj) as (_ & _ & Hwt & _). specialize (Hwt _ Hwj). by rewrite Nat2Z.id in Hwt.
Qed.

(** C37. An expert batch: the rows, scaled, and their metadata move together, so
    token [i] is at position [positions[i]] of both with its request and its
    attention rank.  With GDR copies a row is scaled by its own top-k weight;
    without them it is scaled by the weight of the token that was moved to its old
    position, because the weights are read back from the metadata after that was
    sorted. *)
Theorem execute_batch_expert_rows (use_gdr : bool) (run : BatchMetadata -> list T -> list T)
    (scale : float -> T -> T) (empty : T) (b : TokenBatch T) (n : nat) :
  aligned n (tb_meta b) -> head (shape (tb_meta b)) = Some (Z.of_nat n) -> (0 < n)%nat ->
  length (topk_weights (tb_meta b)) = n -> length (run (tb_meta b) (tb_data b)) = n ->
  exists b' positions, execute_batch_expert std_sort use_gdr run scale empty b = Ok b' /\
    positions ≡ₚ py_range (Z.of_nat n) /\ layer_id (tb_meta b') = layer_id (tb_meta b) + 1 /\
    forall i j p x wi wj, positions !! i = Some p -> positions !! j = Some (Z.of_nat i) ->
      run (tb_meta b) (tb_data b) !! i = Some x ->
      topk_weights (tb_meta b) !! i = Some wi -> topk_weights (tb_meta b) !! j = Some wj ->
      tb_data b' !! Z.to_nat p = Some (scale (if use_gdr then wi else wj) x) /\
      (forall r, req_ids (tb_meta b) !! i = Some r -> req_ids (tb_meta b') !! Z.to_nat p = Some r) /\
      (forall k, attn_dp_ranks (tb_meta b) !! i = Some k -> attn_dp_ranks (tb_meta b') !! Z.to_nat p = Some k).
Proof.
  intros Hal Hsh Hn Hw Hrun.
  destruct (execute_expert_ok use_gdr run scale empty b n Hal Hsh Hn Hw Hrun) as (b' & pos & Hb & Hperm & Hlay & _ & _ & _ & Hpt & Hrow).
  exists b', pos. split; [done|]. split; [done|]. split; [done|]. intros i j p x wi wj Hp Hj Hx Hwi Hwj.
  destruct (Hpt _ _ Hp) as (Hq & Hk & _). split; [by eapply Hrow|by split].
Qed.
End ExpertStep.

Definition ex_expert_meta : BatchMetadata :=
  {| shape := [2; 4]; md_dtype := "bfloat16"; layer_id := 3; req_ids := [8; 9]; exp_ids := [1; 1];
     topk_weights := [float_of_Z 2; float_of_Z 5]; attn_dp_ranks := [1; 0];
     init_prefill_lens := [-1; -1]; num_prefill_seqs := None; num_prefill_tokens := None;
     num_decode_tokens := None |}.

Definition ex_expert_batch : TokenBatch Z := {| tb_data := [10; 20]; tb_meta := ex_expert_meta |}.

Lemma execute_batch_expert_rows_witness :
  exists b' positions,
    execute_batch_expert (fun _ l => reverse l) false (fun _ h => h) (fun w x => x + fexp w) 0
      ex_expert_batch = Ok b' /\ positions ≡ₚ py_range (Z.of_nat 2) /\ layer_id (tb_meta b') = 3 + 1.
Proof.
  destruct (execute_batch_expert_rows (fun _ l => reverse l) (fun _ l => reverse_Permutation l)
    false (fun _ h => h) (fun w x => x + fexp w) 0 ex_expert_batch 2) as (b' & pos & H1 & H2 & H3 & _).
  - repeat split; simpl; auto.
  - reflexivity.
  - lia.
  - reflexivity.
  - reflexivity.
  - exists b', pos. split; [exact H1|]. split; [exact H2|exact H3].
Defined.

(** *** Attention batches *)

Lemma py_get_vec {A} (l : list A) i : 0 <= i < zlen l -> vec_at l i = py_get l i.
Proof.
  intros Hi. destruct (lookup_lt_is_Some_2 l (Z.to_nat i)) as [x Hx]; [unfold zlen in Hi; lia|].
  rewrite (proj2 (vec_at_Ok l i x)) by (split; [lia|done]). symmetry. by apply py_get_Ok; [lia|].
Qed.

Lemma arr_set_tab {A} n (f : Z -> A) i x : 0 <= i < n -> arr_set (tab n f) i x = Ok (tab n (upd f i x)).
Proof. intros. rewrite arr_set_ok by (rewrite tab_zlen; lia). rewrite <-py_set_nonneg by (rewrite tab_zlen; lia). by apply py_set_tab. Qed.

Lemma vec_at_tab {A} n (f : Z -> A) i : 0 <= i < n -> vec_at (tab n f) i = Ok (f i).
Proof. intros. rewrite py_get_vec by (rewrite tab_zlen; lia). by apply py_get_tab. Qed.

Import MemOps.

Section SortExpert.
Context (ids : list Z).
Hypothesis Hids : Forall (fun x => 0 <= x < max_num_experts) ids.

(** The target of token [i] with expert [e]: a stable counting sort. *)
Definition stable_target (i : nat) (e : Z) : Z := count_lt e ids + count e (take i ids).

Lemma stable_target_lt i j e e' :
  ids !! i = Some e -> ids !! j = Some e' -> e < e' \/ e = e' /\ (i < j)%nat ->
  stable_target i e < stable_target j e'.
Proof.
  unfold stable_target. intros Hi Hj [Hlt|[-> Hij]].
  - pose proof (count_lt_mono (e + 1) e' ids ltac:(lia)) as Hm. rewrite count_lt_succ in Hm.
    pose proof (count_split ids i e Hi). pose proof (count_nonneg e (drop (Datatypes.S i) ids)).
    pose proof (count_nonneg e' (take j ids)). lia.
  - assert (Hl : take j ids !! i = Some e') by (by rewrite lookup_take_lt).
    pose proof (count_split (take j ids) i e' Hl) as Hs. rewrite take_take, Nat.min_l in Hs by lia.
    pose proof (count_nonneg e' (drop (Datatypes.S i) (take j ids))). lia.
Qed.

Lemma stable_target_range i e : ids !! i = Some e -> 0 <= stable_target i e < zlen ids.
Proof.
  intros Hi. unfold stable_target. pose proof (count_nonneg e (take i ids)).
  pose proof (count_split ids i e Hi). pose proof (count_nonneg e (drop (Datatypes.S i) ids)).
  pose proof (count_lt_length (e + 1) ids) as Hl. rewrite count_lt_succ in Hl.
  pose proof (zlen_nonneg (filter (fun x => x < e) ids)). unfold count_lt in *. lia.
Qed.

Definition stable_mapping (i : Z) : Z :=
  match ids !! Z.to_nat i with Some e => stable_target (Z.to_nat i) e | None => 0 end.

Lemma counts_eq :
  py_for (fun c e => x ← vec_at c e; arr_set c e (x + 1)) ids (replicate (Z.to_nat max_num_experts) 0)
  = Ok (tab max_num_experts (fun e => count e ids)).
Proof.
  rewrite <-(count_ids_eq ids max_num_experts Hids). unfold count_ids.
  rewrite replicate_tab.
  cut (forall l (f : Z -> Z), Forall (fun x => 0 <= x < max_num_experts) l ->
    py_for (fun c e => x ← vec_at c e; arr_set c e (x + 1)) l (tab max_num_experts f)
    = py_for (fun cnt id => c ← py_get cnt id; py_set cnt id (c + 1)) l (tab max_num_experts f)).
  { intros Hg. by apply Hg. }
  induction l as [|a l IH]; intros f Hl; [done|]. apply Forall_cons in Hl as [Ha Hl]. cbn [py_for].
  rewrite vec_at_tab, py_get_tab by done. cbn [mbind res_bind]. rewrite arr_set_tab, py_set_tab by done.
  cbn [mbind res_bind]. by apply IH.
Qed.

Lemma prefix_eq :
  py_for (fun c i => x ← vec_at c i; y ← vec_at c (i - 1); arr_set c i (x + y))
    (py_range2 1 max_num_experts) (tab max_num_experts (fun e => count e ids))
  = Ok (tab max_num_experts (fun e => count_lt (e + 1) ids)).
Proof.
  assert (Hle : forall e, count_lt (e + 1) ids = count_lt (e - 1 + 1) ids + count e ids).
  { intros e. rewrite (count_lt_succ e). by replace (e - 1 + 1) with e by lia. }
  assert (H0 : count_lt 0 ids = 0).
  { apply count_lt_0. eapply Forall_impl; [done|]. simpl. lia. }
  destruct (py_for_total (fun (pre : list Z) c => c = tab max_num_experts
      (fun e => if e <=? zlen pre then count_lt (e + 1) ids else count e ids))
    (fun c i => x ← vec_at c i; y ← vec_at c (i - 1); arr_set c i (x + y)) (py_range2 1 max_num_experts)
    (tab max_num_experts (fun e => count e ids))) as (c & -> & ->).
  - apply tab_ext. intros e He. change (zlen []) with 0. zcases; [|done].
    assert (e = 0) as -> by lia. rewrite count_lt_succ. lia.
  - intros pre i post t Hr ->.
    assert (Hi : i = 1 + zlen pre /\ i < max_num_experts).
    { assert (Hlk : seqZ 1 (max_num_experts - 1) !! length pre = Some i)
        by (unfold py_range2 in Hr; rewrite Hr; by apply list_lookup_middle).
      apply lookup_seqZ in Hlk. unfold zlen. lia. }
    pose proof (zlen_nonneg pre). rewrite !vec_at_tab by lia. cbn [mbind res_bind].
    rewrite arr_set_tab by lia. eexists. split; [done|]. apply tab_ext. intros j Hj. unfold upd.
    rewrite zlen_app, (zlen_cons i []). change (zlen []) with 0. specialize (Hle i).
    destruct (Z.eqb_spec j i) as [->|]; zcases; try lia.
  - apply (f_equal Ok), tab_ext. intros i Hi. unfold py_range2, zlen. rewrite length_seqZ. zcases; lia.
Qed.

(** The loop body of [sort_positions] and the state after the prefix [pre]. *)
Definition place_body : list Z * list Z * Z -> Z -> res (list Z * list Z * Z) :=
  fun '(pos, cnts, first) i =>
  e ← vec_at ids i;
  if e =? 0 then pos ← arr_set pos i first; Ok (pos, cnts, first + 1)
  else p ← vec_at cnts (e - 1); pos ← arr_set pos i p;
       cnts ← arr_set cnts (e - 1) (p + 1); Ok (pos, cnts, first).

Definition place_state (k : nat) : list Z * list Z * Z :=
  (tab (zlen ids) (fun i => if i <? Z.of_nat k then stable_mapping i else 0),
   tab max_num_experts (fun e => count_lt (e + 1) ids + count (e + 1) (take k ids)),
   count 0 (take k ids)).

Lemma place_pos_succ k :
  tab (zlen ids) (upd (fun i => if i <? Z.of_nat k then stable_mapping i else 0)
    (Z.of_nat k) (stable_mapping (Z.of_nat k)))
  = tab (zlen ids) (fun i => if i <? Z.of_nat (Datatypes.S k) then stable_mapping i else 0).
Proof.
  apply tab_ext. intros j Hj. unfold upd.
  destruct (Z.eqb_spec j (Z.of_nat k)) as [->|]; zcases; lia.
Qed.

Lemma count_take_succ k e x :
  ids !! k = Some e ->
  count x (take (Datatypes.S k) ids) = count x (take k ids) + (if decide (e = x) then 1 else 0).
Proof.
  intros He. rewrite (take_S_r _ _ _ He), count_app, count_cons. change (count x []) with 0. lia.
Qed.

Lemma place_body_step k e :
  ids !! k = Some e -> place_body (place_state k) (Z.of_nat k) = Ok (place_state (Datatypes.S k)).
Proof.
  intros He. assert (HeE : 0 <= e < max_num_experts) by (by eapply Forall_lookup_1 in Hids).
  assert (Hk : 0 <= Z.of_nat k < zlen ids) by (apply lookup_lt_Some in He; unfold zlen; lia).
  assert (Hmap : stable_mapping (Z.of_nat k) = count_lt e ids + count e (take k ids))
    by (unfold stable_mapping; by rewrite Nat2Z.id, He).
  unfold place_body, place_state.
  rewrite (proj2 (vec_at_Ok ids (Z.of_nat k) e)) by (split; [lia|by rewrite Nat2Z.id]).
  cbn [mbind res_bind]. rewrite <-place_pos_succ, (count_take_succ k e 0 He).
  assert (Hcnt : forall f : Z -> Z, (forall x, 0 <= x < max_num_experts ->
      f x = count_lt (x + 1) ids + count (x + 1) (take (Datatypes.S k) ids)) ->
    tab max_num_experts f
    = tab max_num_experts (fun x => count_lt (x + 1) ids + count (x + 1) (take (Datatypes.S k) ids)))
    by (intros f; apply tab_ext).
  destruct (Z.eqb_spec e 0) as [->|Hne].
  - rewrite arr_set_tab by lia. cbn [mbind res_bind].
    assert (Hlt0 : count_lt 0 ids = 0) by (apply count_lt_0; eapply Forall_impl; [done|]; simpl; lia).
    rewrite Hlt0, Z.add_0_l in Hmap. rewrite <-Hmap, decide_True by done.
    rewrite <-(Hcnt (fun e => count_lt (e + 1) ids + count (e + 1) (take k ids))); [done|].
    intros x Hx. rewrite (count_take_succ k 0 _ He), decide_False by lia. lia.
  - rewrite vec_at_tab by lia. cbn [mbind res_bind]. replace (e - 1 + 1) with e by lia.
    rewrite arr_set_tab by lia. cbn [mbind res_bind]. rewrite arr_set_tab by lia. cbn [mbind res_bind].
    rewrite <-Hmap, decide_False, Z.add_0_r by lia. rewrite Hcnt; [done|].
    intros x Hx. rewrite (count_take_succ k e _ He). unfold upd.
    destruct (Z.eqb_spec x (e - 1)) as [->|].
    + replace (e - 1 + 1) with e by lia. rewrite decide_True by done. lia.
    + rewrite decide_False by lia. lia.
Qed.

Lemma place_loop n :
  (n <= length ids)%nat ->
  py_for place_body (Z.of_nat <$> seq 0 n) (place_state 0) = Ok (place_state n).
Proof.
  induction n as [|n IH]; intros Hn; [done|].
  rewrite seq_S, fmap_app, py_for_app, IH by lia. cbn [mbind res_bind].
  destruct (lookup_lt_is_Some_2 ids n) as [e He]; [lia|].
  cbn [plus py_for fmap list_fmap]. by rewrite (place_body_step n e He).
Qed.

Lemma sort_positions_eq : sort_positions ids (zlen ids) = Ok (tab (zlen ids) stable_mapping).
Proof.
  unfold sort_positions. rewrite counts_eq. cbn [mbind res_bind]. rewrite prefix_eq. cbn [mbind res_bind].
  rewrite replicate_tab.
  replace (tab (zlen ids) (fun _ => 0), tab max_num_experts (fun e => count_lt (e + 1) ids), 0)
    with (place_state 0).
  2: { unfold place_state. apply (f_equal2 pair); [apply (f_equal2 pair)|done]; apply tab_ext; intros i Hi.
    - zcases; lia.
    - change (count (i + 1) (take 0 ids)) with 0. lia. }
  replace (py_range (zlen ids)) with (Z.of_nat <$> seq 0 (length ids)).
  2: { unfold py_range, seqZ, zlen. rewrite Nat2Z.id. apply list_fmap_ext. intros; lia. }
  assert (Hend : forall r, r = Ok (place_state (length ids)) ->
    (r ≫= fun st => Ok st.1.1) = Ok (tab (zlen ids) stable_mapping)).
  { intros r ->. cbn [mbind res_bind fst snd]. unfold place_state. apply (f_equal Ok).
    apply tab_ext. intros i Hi. unfold zlen in Hi. zcases; lia. }
  apply Hend, place_loop. done.
Qed.
End SortExpert.

Section Dispatch.
Context {T : Type}.

Lemma stable_positions_perm ids :
  Forall (fun x => 0 <= x < max_num_experts) ids ->
  tab (zlen ids) (stable_mapping ids) ≡ₚ py_range (zlen ids).
Proof.
  intros Hids. symmetry. apply submseteq_length_Permutation; [|rewrite tab_length, py_range_length; done].
  assert (Hval : forall k p, tab (zlen ids) (stable_mapping ids) !! k = Some p ->
    exists e, ids !! k = Some e /\ p = stable_target ids k e).
  { intros k p Hp. assert (Hk : (k < length ids)%nat)
      by (apply lookup_lt_Some in Hp; rewrite tab_length in Hp; unfold zlen in Hp; lia).
    destruct (lookup_lt_is_Some_2 ids k Hk) as [e He]. exists e. split; [done|].
    rewrite <-(Nat2Z.id k), tab_lookup in Hp by (unfold zlen; lia). injection Hp as <-.
    unfold stable_mapping. by rewrite !Nat2Z.id, He. }
  assert (Hsub : tab (zlen ids) (stable_mapping ids) ⊆+ py_range (zlen ids)).
  { apply NoDup_submseteq.
    - apply NoDup_alt. intros i j p Hi Hj.
      destruct (Hval _ _ Hi) as (e & He & ->), (Hval _ _ Hj) as (e' & He' & Heq).
      destruct (Z.lt_trichotomy e e') as [Hlt|[->|Hlt]].
      + pose proof (stable_target_lt ids i j e e' He He' ltac:(auto)). lia.
      + destruct (Nat.lt_trichotomy i j) as [Hl|[->|Hl]]; [|done|].
        * pose proof (stable_target_lt ids i j e' e' He He' ltac:(auto)). lia.
        * pose proof (stable_target_lt ids j i e' e' He' He ltac:(auto)). lia.
      + pose proof (stable_target_lt ids j i e' e He' He ltac:(auto)). lia.
    - intros p [k Hp]%list_elem_of_lookup_1. destruct (Hval _ _ Hp) as (e & He & ->).
      apply elem_of_py_range. by apply stable_target_range. }
  by rewrite (submseteq_length_Permutation _ _ Hsub) by (by rewrite tab_length, py_range_length).
Qed.

Lemma repeat_vector_length {A} (l : list A) k : length (repeat_vector l k) = (length l * Z.to_nat k)%nat.
Proof.
  unfold repeat_vector. induction l as [|a l IH]; [done|]. cbn [mbind list_bind].
  rewrite length_app, length_replicate, IH. simpl. lia.
Qed.

Lemma repeat_vector_lookup {A} (l : list A) k i :
  0 < k -> 0 <= i -> repeat_vector l k !! Z.to_nat i = l !! Z.to_nat (i / k).
Proof.
  intros Hk. unfold repeat_vector. revert i. induction l as [|a l IH]; intros i Hi; [done|].
  cbn [mbind list_bind]. destruct (decide (i < k)).
  - rewrite lookup_app_l by (rewrite length_replicate; lia). rewrite Z.div_small by lia.
    by rewrite lookup_replicate_2 by lia.
  - rewrite lookup_app_r by (rewrite length_replicate; lia). rewrite length_replicate.
    rewrite <-Z2Nat.inj_sub, IH by lia. replace (i / k) with ((i - k) / k + 1).
    + rewrite Z2Nat.inj_add by (try apply Z.div_pos; lia). change (Z.to_nat 1) with 1%nat.
      by rewrite Nat.add_1_r.
    + replace i with (i - k + 1 * k) at 2 by lia. by rewrite Z.div_add by lia.
Qed.

Lemma permute_tokens_ok (hiddens : list T) k mapping empty :
  0 < k -> hiddens <> [] -> mapping ≡ₚ py_range (zlen hiddens * k) ->
  exists out, permute_tokens hiddens mapping empty = Ok out /\ zlen out = zlen hiddens * k /\
    forall i p x, mapping !! i = Some p -> hiddens !! Z.to_nat (Z.of_nat i / k) = Some x ->
      out !! Z.to_nat p = Some x.
Proof.
  intros Hk Hne Hm. assert (Hh : 0 < zlen hiddens) by (destruct hiddens; [done|unfold zlen; simpl; lia]).
  assert (Hl : zlen mapping = zlen hiddens * k) by (unfold zlen at 1; rewrite Hm, py_range_length; lia).
  unfold permute_tokens. rewrite Hl, (proj2 (Z.eqb_neq (zlen hiddens) 0)) by lia.
  rewrite (Z.mul_comm (zlen hiddens) k), Z.mod_mul, Z.div_mul by lia. cbn [mbind res_bind py_check negb Z.eqb].
  destruct (py_map_total (fun i => vec_at hiddens (i / k))
    (fun i x => hiddens !! Z.to_nat (i / k) = Some x) (py_range (k * zlen hiddens))) as (rows & -> & Hrows).
  { intros i Hi%elem_of_py_range. assert (i / k < zlen hiddens) by (apply Z.div_lt_upper_bound; lia).
    assert (0 <= i / k) by (apply Z.div_pos; lia).
    destruct (lookup_lt_is_Some_2 hiddens (Z.to_nat (i / k))) as [x Hx]; [unfold zlen in *; lia|].
    exists x. split; [|done]. by apply vec_at_Ok. }
  cbn [mbind res_bind]. pose proof (Forall2_length _ _ _ Hrows) as Hrl. rewrite py_range_length in Hrl.
  destruct (permute_vector_ok empty rows mapping) as (out & -> & Hol & Hv).
  { replace (zlen rows) with (zlen hiddens * k) by (unfold zlen in *; lia). done. }
  exists out. split; [done|]. split; [unfold zlen in *; lia|]. intros i p x Hp Hx. apply (Hv i); [done|].
  assert (Hi : (i < length mapping)%nat) by (by eapply lookup_lt_Some).
  destruct (Forall2_lookup_l _ _ _ i (Z.of_nat i) Hrows) as (y & Hy & Hxy).
  { unfold py_range. rewrite lookup_seqZ_lt by (unfold zlen in *; lia). done. }
  by simplify_eq.
Qed.

(** A batch of [n] tokens, duplicated for [k] experts each. *)
Lemma duplicate_topk_ok m (n : nat) k h ex w :
  shape m = [Z.of_nat n; h] -> length (req_ids m) = n -> 0 < k ->
  (attn_dp_ranks m = [] \/ length (attn_dp_ranks m) = n) ->
  (init_prefill_lens m = [] \/ length (init_prefill_lens m) = n) ->
  length ex = (n * Z.to_nat k)%nat -> length w = (n * Z.to_nat k)%nat ->
  exists m', duplicate_topk m k = Ok m' /\
    let m2 := with_vectors (shape m') (req_ids m') ex w (attn_dp_ranks m') (init_prefill_lens m') m' in
    aligned (n * Z.to_nat k) m2 /\ shape m2 = [Z.of_nat n * k; h] /\ layer_id m2 = layer_id m /\
    forall i, req_ids m2 !! i = req_ids m !! Z.to_nat (Z.of_nat i / k) /\
      init_prefill_lens m2 !! i = init_prefill_lens m !! Z.to_nat (Z.of_nat i / k).
Proof.
  intros Hs Hr Hk Ha Hp Hex Hw. unfold duplicate_topk. destruct (Z.eqb_spec k 1) as [->|Hk1].
  - eexists. split; [done|]. cbn [with_vectors shape req_ids exp_ids topk_weights attn_dp_ranks init_prefill_lens layer_id].
    split; [|split; [by rewrite Z.mul_1_r|split; [done|intros i; by rewrite !Z.div_1_r, !Nat2Z.id]]].
    change (Z.to_nat 1) with 1%nat in *. rewrite Nat.mul_1_r in *. unfold aligned. simpl. auto.
  - unfold meta_num_tokens. rewrite Hs. cbn [mbind res_bind of_option head hd_error]. eexists. split; [done|].
    cbn [with_vectors shape req_ids exp_ids topk_weights attn_dp_ranks init_prefill_lens layer_id].
    split; [|split; [done|split; [done|]]].
    + unfold aligned. simpl. rewrite !repeat_vector_length, Hr. split; [done|]. split; [auto|]. split; [auto|].
      split; [destruct Ha as [->|<-]|destruct Hp as [->|<-]]; auto.
    + intros i. by rewrite <-!(repeat_vector_lookup _ k), Nat2Z.id by lia.
Qed.

(** The dispatch batch of an attention layer, column by column. *)
Lemma postprocess_ok (attn_dp_rank k : Z) (empty : T)
    (batch : AttentionForwardBatch T) (result : AttentionForwardResult T) (n : nat) (h : Z) :
  let ids := concat (fr_expert_ids result) in
  shape (fb_meta_c batch) = [Z.of_nat n; h] -> length (req_ids (fb_meta_c batch)) = n ->
  (attn_dp_ranks (fb_meta_c batch) = [] \/ length (attn_dp_ranks (fb_meta_c batch)) = n) ->
  (init_prefill_lens (fb_meta_c batch) = [] \/ length (init_prefill_lens (fb_meta_c batch)) = n) ->
  (0 < n)%nat -> 0 < k -> length (fr_hiddens result) = n -> length ids = (n * Z.to_nat k)%nat ->
  length (concat (fr_expert_weights result)) = (n * Z.to_nat k)%nat ->
  Forall (fun x => 0 <= x < max_num_experts) ids ->
  exists b positions, postprocess_batch_attn attn_dp_rank k empty batch result = Ok b /\
    positions ≡ₚ py_range (Z.of_nat n * k) /\
    aligned (n * Z.to_nat k) (tb_meta b) /\ shape (tb_meta b) = [Z.of_nat n * k; h] /\
    layer_id (tb_meta b) = layer_id (fb_meta_c batch) /\ zlen (tb_data b) = Z.of_nat n * k /\
    attn_dp_ranks (tb_meta b) = replicate (n * Z.to_nat k) attn_dp_rank /\
    (forall i p, positions !! i = Some p ->
      (forall x, fr_hiddens result !! Z.to_nat (Z.of_nat i / k) = Some x -> tb_data b !! Z.to_nat p = Some x) /\
      (forall r, req_ids (fb_meta_c batch) !! Z.to_nat (Z.of_nat i / k) = Some r ->
         req_ids (tb_meta b) !! Z.to_nat p = Some r) /\
      (forall e, ids !! i = Some e -> exp_ids (tb_meta b) !! Z.to_nat p = Some e) /\
      (forall w, concat (fr_expert_weights result) !! i = Some w ->
         topk_weights (tb_meta b) !! Z.to_nat p = Some w) /\
      (forall l, init_prefill_lens (fb_meta_c batch) !! Z.to_nat (Z.of_nat i / k) = Some l ->
         init_prefill_lens (tb_meta b) !! Z.to_nat p = Some l)) /\
    (forall p q x y, 0 <= p < q -> exp_ids (tb_meta b) !! Z.to_nat p = Some x ->
       exp_ids (tb_meta b) !! Z.to_nat q = Some y -> x <= y).
Proof.
  intros ids Hs Hr Ha Hp Hn Hk Hh Hi Hw Hids. unfold postprocess_batch_attn. fold ids.
  destruct (duplicate_topk_ok _ n k h ids (concat (fr_expert_weights result)) Hs Hr Hk Ha Hp Hi Hw)
    as (m & -> & Hm). cbv zeta in Hm. destruct Hm as (Hal & Hsh & Hlay & Hreq). cbn [mbind res_bind].
  set (m2 := with_vectors _ _ ids _ _ _ m) in *.
  assert (Hlen : zlen ids = Z.of_nat n * k) by (unfold zlen; rewrite Hi; lia).
  pose proof (stable_positions_perm ids Hids) as Hperm.
  destruct (permute_infos_ok m2 (tab (zlen ids) (stable_mapping ids)) (n * Z.to_nat k) Hal)
    as (m3 & Hm3 & Hlay3 & Hsh3 & Hal3 & Hpt).
  { rewrite Hsh. simpl. f_equal. lia. }
  { rewrite Hperm, Hlen. by replace (Z.of_nat (n * Z.to_nat k)) with (Z.of_nat n * k) by lia. }
  { lia. }
  unfold sort_by_expert, meta_num_tokens. rewrite Hsh. cbn [mbind res_bind of_option head].
  change (exp_ids m2) with ids. rewrite <-Hlen, (sort_positions_eq ids Hids).
  cbn [mbind res_bind]. rewrite Hm3. cbn [mbind res_bind].
  destruct (permute_tokens_ok (fr_hiddens result) k (tab (zlen ids) (stable_mapping ids)) empty Hk)
    as (out & -> & Hol & Hout).
  { intros Hnil. rewrite Hnil in Hh. simpl in Hh. lia. }
  { rewrite Hperm, Hlen. unfold zlen. by rewrite Hh. }
  cbn [mbind res_bind]. eexists _, (tab (zlen ids) (stable_mapping ids)). split; [done|].
  split; [by rewrite Hlen in Hperm |- *|]. cbn [tb_data tb_meta req_ids exp_ids topk_weights init_prefill_lens attn_dp_ranks layer_id shape with_vectors].
  split; [destruct Hal3 as (A1 & A2 & A3 & _ & A5); unfold aligned; cbn; rewrite length_replicate; auto 10|].
  split; [rewrite Hlen; exact (eq_trans Hsh3 Hsh)|]. split; [exact (eq_trans Hlay3 Hlay)|].
  split; [rewrite Hol, Hlen; unfold zlen; by rewrite Hh|].
  split; [by rewrite Hi|].
  split; [intros i p Hip; destruct (Hpt i p Hip) as (H1 & H2 & H3 & _ & H5); split_and!|].
  - intros x Hx. by eapply Hout.
  - intros r Hrr. apply H1. by rewrite (proj1 (Hreq i)).
  - exact H2.
  - exact H3.
  - intros l Hl. apply H5. by rewrite (proj2 (Hreq i)).
  - intros p q x y Hpq Hx Hy.
    assert (Hfind : forall p x, 0 <= p -> exp_ids m3 !! Z.to_nat p = Some x -> exists i,
      ids !! i = Some x /\ p = stable_target ids i x).
    { clear p q x y Hpq Hx Hy. intros p x Hp0 Hx.
      assert (Hin : p ∈ tab (zlen ids) (stable_mapping ids)).
      { rewrite Hperm. apply elem_of_py_range. apply lookup_lt_Some in Hx.
        destruct Hal3 as (_ & [Hnil|Hl3] & _); [rewrite Hnil in Hx; simpl in Hx; lia|].
        unfold zlen. lia. }
      apply list_elem_of_lookup_1 in Hin as [i Hip]. exists i.
      assert (Hilt : (i < length ids)%nat)
        by (apply lookup_lt_Some in Hip; rewrite tab_length in Hip; unfold zlen in Hip; lia).
      destruct (lookup_lt_is_Some_2 ids i Hilt) as [e He].
      destruct (Hpt i p Hip) as (_ & H2 & _). specialize (H2 e He). rewrite Hx in H2. injection H2 as ->.
      split; [done|]. rewrite <-(Nat2Z.id i), tab_lookup in Hip by (unfold zlen; lia). injection Hip as <-.
      unfold stable_mapping. by rewrite !Nat2Z.id, He. }
    destruct (Hfind p x) as (i & Hix & ->); [lia|done|]. destruct (Hfind q y) as (j & Hjy & ->); [lia|done|].
    destruct (Z.le_gt_cases x y) as [|Hgt]; [done|]. exfalso.
    pose proof (stable_target_lt ids j i y x Hjy Hix ltac:(auto)). lia.
Qed.

(** The dispatch batch of an attention layer: token [i / k] is sent once for
    each of its [k] experts, row, request, expert and weight land together at one
    position, the positions are a permutation, and the batch is grouped by
    ascending expert id. *)
Theorem postprocess_batch_attn_aligned (attn_dp_rank k : Z) (empty : T)
    (batch : AttentionForwardBatch T) (result : AttentionForwardResult T) (n : nat) (h : Z) :
  let ids := concat (fr_expert_ids result) in
  shape (fb_meta_c batch) = [Z.of_nat n; h] -> length (req_ids (fb_meta_c batch)) = n ->
  (attn_dp_ranks (fb_meta_c batch) = [] \/ length (attn_dp_ranks (fb_meta_c batch)) = n) ->
  (init_prefill_lens (fb_meta_c batch) = [] \/ length (init_prefill_lens (fb_meta_c batch)) = n) ->
  (0 < n)%nat -> 0 < k -> length (fr_hiddens result) = n -> length ids = (n * Z.to_nat k)%nat ->
  length (concat (fr_expert_weights result)) = (n * Z.to_nat k)%nat ->
  Forall (fun x => 0 <= x < max_num_experts) ids ->
  exists b positions, postprocess_batch_attn attn_dp_rank k empty batch result = Ok b /\
    positions ≡ₚ py_range (Z.of_nat n * k) /\
    attn_dp_ranks (tb_meta b) = replicate (n * Z.to_nat k) attn_dp_rank /\
    (forall i p, positions !! i = Some p ->
      (forall x, fr_hiddens result !! Z.to_nat (Z.of_nat i / k) = Some x -> tb_data b !! Z.to_nat p = Some x) /\
      (forall r, req_ids (fb_meta_c batch) !! Z.to_nat (Z.of_nat i / k) = Some r ->
         req_ids (tb_meta b) !! Z.to_nat p = Some r) /\
      (forall e, ids !! i = Some e -> exp_ids (tb_meta b) !! Z.to_nat p = Some e) /\
      (forall w, concat (fr_expert_weights result) !! i = Some w ->
         topk_weights (tb_meta b) !! Z.to_nat p = Some w)) /\
    (forall p q x y, 0 <= p < q -> exp_ids (tb_meta b) !! Z.to_nat p = Some x ->
       exp_ids (tb_meta b) !! Z.to_nat q = Some y -> x <= y).
Proof.
  intros ids Hs Hr Ha Hp Hn Hk Hh Hi Hw Hids.
  destruct (postprocess_ok attn_dp_rank k empty batch result n h Hs Hr Ha Hp Hn Hk Hh Hi Hw Hids)
    as (b & positions & Hb & Hperm & _ & _ & _ & _ & Hrk & Hpt & Hsorted).
  exists b, positions. split; [done|]. split; [done|]. split; [done|]. split; [|done].
  intros i p Hip. destruct (Hpt i p Hip) as (H1 & H2 & H3 & H4 & _). auto.
Qed.
End Dispatch.

Definition ex_fwd_meta : BatchMetadata :=
  {| shape := [2; 4]; md_dtype := "bfloat16"; layer_id := 3; req_ids := [8; 9]; exp_ids := [0; 0];
     topk_weights := [float_of_Z 1; float_of_Z 1]; attn_dp_ranks := [0; 0];
     init_prefill_lens := [-1; -1]; num_prefill_seqs := None; num_prefill_tokens := None;
     num_decode_tokens := None |}.

Definition ex_fwd_batch : AttentionForwardBatch Z :=
  {| fb_layer_id := 3; fb_data := [10; 20]; fb_num_tokens := 2; fb_positions := [4; 5];
     fb_metadata := {| fa_num_prefills := 0; fa_num_prefill_tokens := 0; fa_num_decode_tokens := 2;
        fa_max_query_len := 1; fa_max_prefill_seq_len := 0; fa_max_decode_seq_len := 6;
        fa_max_decode_query_len := 1; fa_seq_lens := [5; 6]; fa_block_tables := [[0]; [1]]; fa_slot_mapping := [4; 21];
        fa_seq_lens_tensor := [5; 6]; fa_context_lens := [4; 5]; fa_seq_start_loc := [0; 5; 11];
        fa_query_start_loc := [0; 1; 2]; fa_enable_kv_scales := false |};
     fb_req_ids := [8; 9]; fb_meta_c := ex_fwd_meta; fb_stash_slots := None |}.

Definition ex_fwd_result : AttentionForwardResult Z :=
  {| fr_hiddens := [11; 21]; fr_expert_ids := [[2; 0]; [1; 2]];
     fr_expert_weights := [[float_of_Z 1; float_of_Z 2]; [float_of_Z 3; float_of_Z 4]] |}.

Lemma postprocess_batch_attn_aligned_witness :
  exists b positions, postprocess_batch_attn 1 2 0 ex_fwd_batch ex_fwd_result = Ok b /\
    positions ≡ₚ py_range (2 * 2) /\
    exp_ids (tb_meta b) = [0; 1; 2; 2] /\ tb_data b = [11; 21; 11; 21].
Proof.
  destruct (postprocess_batch_attn_aligned 1 2 0 ex_fwd_batch ex_fwd_result 2 4)
    as (b & pos & Hb & Hperm & _); try reflexivity; [by right|by right|lia| |].
  - repeat constructor; vm_compute; congruence.
  - exists b, pos. split; [exact Hb|]. split; [exact Hperm|].
    vm_compute in Hb. injection Hb as <-. split; reflexivity.
Defined.

End Engine.
