(* ===== verification/Controller.v ===== *)
(** * The controller ([disagmoe/frontend/controller.py])

    The driver process: it numbers requests, hands them to the data-parallel
    scheduler, lets the tokenizer push them to the queue of the rank the scheduler
    chose, and, when the detokenizer reports them finished, releases their blocks
    and delivers their results.  Ray actors are called through their models
    ([Tokenizer], [DPScheduler]); the coroutines that run between two [await]s are
    steps, and so are [reset] and [stop_scheduler]. *)

From stdpp Require Import strings.
From S2P Require Import Prelude PyFloat Utils Datatypes DPScheduler Placement Tokenizer.
Import Utils Datatypes DP Placement Tokenizer.

Module Controller.

(** ** [AsyncResult]

    A one-shot result guarded by an [asyncio.Condition].  [ar_waiters] are the
    tasks suspended in [finish_cond.wait], in order; [ar_woken] those that were
    notified and have not resumed. *)

Record AsyncResult : Type := {
  ar_req_id : Z;
  ar_slo_stat : option SloStat;
  ar_waiters : list Z;
  ar_woken : list Z;
}.

Definition async_result (req_id : Z) : AsyncResult :=
  {| ar_req_id := req_id; ar_slo_stat := None; ar_waiters := []; ar_woken := [] |}.

(** [get] up to its suspension. *)
Definition ar_get (t : Z) (r : AsyncResult) : AsyncResult :=
  {| ar_req_id := ar_req_id r; ar_slo_stat := ar_slo_stat r; ar_waiters := ar_waiters r ++ [t];
     ar_woken := ar_woken r |}.

(** [put]: [notify] wakes one waiter. *)
Definition ar_put (s : SloStat) (r : AsyncResult) : AsyncResult :=
  {| ar_req_id := ar_req_id r; ar_slo_stat := Some s; ar_waiters := tail (ar_waiters r);
     ar_woken := ar_woken r ++ take 1 (ar_waiters r) |}.

(** [get] after its suspension; [None] while the task was not notified. *)
Definition ar_resume (t : Z) (r : AsyncResult) : option (res SloStat * AsyncResult) :=
  if bool_decide (t ∈ ar_woken r) then
    Some (of_option AssertionError (ar_slo_stat r),
          {| ar_req_id := ar_req_id r; ar_slo_stat := ar_slo_stat r; ar_waiters := ar_waiters r;
             ar_woken := filter (fun u => u <> t) (ar_woken r) |})
  else None.

(** ** Setting up the workers *)

Inductive EngineType : Type := ATTENTION | EXPERT | HYBRID.

(** [_create_engines]: the device id of each worker, from the addresses of the
    workers in bundle order. *)
Definition device_of (n_gpu_per_node : Z) (st : list (string * Z) * list (string * Z) * list Z)
    (worker_ip : string) : res (list (string * Z) * list (string * Z) * list Z) :=
  let '(device_count, node_ids, device_ids) := st in
  let cur_device_on_worker := dget_or device_count worker_ip 0 in
  let device_count := dset device_count worker_ip (cur_device_on_worker + 1) in
  let node_ids := if dmem node_ids worker_ip then node_ids
                  else dset node_ids worker_ip (zlen node_ids) in
  node_id ← of_option KeyError (dget node_ids worker_ip);
  Ok (device_count, node_ids, device_ids ++ [node_id * n_gpu_per_node + cur_device_on_worker]).

Definition _create_engines (n_gpu_per_node : Z) (worker_ips : list string) : res (list Z) :=
  '(_, _, ids) ← py_for (device_of n_gpu_per_node) worker_ips ([], [], []); Ok ids.

(** [get_pairwise_nccl_ids]: one fresh id per edge; [uid k] is the [k]-th id that
    [get_nccl_unique_id] returns. *)
Section Nccl.
Context {U : Type} (uid : nat -> U).

Definition nccl_edge (st : nat * list (Z * list (Z * U)) * list (Z * list (Z * U))) (e : Z * Z)
    : res (nat * list (Z * list (Z * U)) * list (Z * list (Z * U))) :=
  let '(k, ins, outs) := st in
  let '(i, j) := e in
  row ← of_option KeyError (dget ins j);
  let ins := dset ins j (dset row i (uid k)) in
  row ← of_option KeyError (dget outs i);
  Ok (S k, ins, dset outs i (dset row j (uid k))).

Definition get_pairwise_nccl_ids (pl : ModelPlacement)
    : res (list (Z * list (Z * U)) * list (Z * list (Z * U))) :=
  let in_nccl_ids := (fun x => (x.1, [])) <$> in_device_ids pl in
  let out_nccl_ids := (fun x => (x.1, [])) <$> out_device_ids pl in
  '(_, i, o) ← py_for (fun st x => py_for nccl_edge ((fun j => (x.1, j)) <$> x.2) st)
                 (out_device_ids pl) (O, in_nccl_ids, out_nccl_ids);
  Ok (i, o).
End Nccl.

(** [determine_worker_type] *)
Definition determine_worker_type (pl : ModelPlacement) (device_id : Z) : EngineType :=
  if is_hybrid pl then HYBRID else if has_attn pl device_id then ATTENTION else EXPERT.

(** [setup_engine.remote]: the rank and the two addresses of a worker. *)
Definition setup_args (pl : ModelPlacement) (tokenizer_addrs : list string) (detokenizer_addr : string)
    (device_id : Z) : res (EngineType * Z * option string * option string) :=
  let worker_type := determine_worker_type pl device_id in
  rank ← rank_at pl device_id;
  match worker_type with
  | EXPERT => Ok (worker_type, rank, None, None)
  | _ => addr ← py_get tokenizer_addrs rank; Ok (worker_type, rank, Some addr, Some detokenizer_addr)
  end.

Record ChannelInfo : Type := {
  ci_expert_ids : list (Z * Z);
  ci_attn_layer_ids : list Z;
  ci_attn_dp_rank : Z;
}.

Record InitCoreArgs (U : Type) : Type := {
  ic_world_size : Z;
  ic_layer_ids : list Z;
  ic_in_device_ids : list Z;
  ic_out_device_ids : list Z;
  ic_out_channel_infos : list ChannelInfo;
  ic_inbound_nccl_ids : list (Z * U);
  ic_outbound_nccl_ids : list (Z * U);
  ic_expert_ranks : list (Z * Z * Z);
  ic_expert_wise_schedule : bool;
  ic_local_num_experts : Z;
  ic_local_expert_ids : list Z;
  ic_out_device_group_ids : list (Z * list Z);
  ic_device_group_ids : list Z;
  ic_local_attn_dp_rank : Z;
}.

(** The arguments of [init_core] for one device. *)
Definition init_core_args {U} (num_workers : Z) (expert_wise_schedule : bool) (pl : ModelPlacement)
    (inb outb : list (Z * list (Z * U))) (device_id : Z) : res (InitCoreArgs U) :=
  let outs := dget_or (out_device_ids pl) device_id [] in
  infos ← py_map (fun out => r ← attn_dp_rank_at pl out;
             Ok {| ci_expert_ids := expert_ids_at pl out;
                   ci_attn_layer_ids := attn_layer_ids_at pl out; ci_attn_dp_rank := r |}) outs;
  out_groups ← py_for (fun d j => groups ← of_option AttributeError (device_groups pl);
                  Ok (dset d j (device_id :: dget_or groups j []))) outs [];
  groups ← of_option AttributeError (device_groups pl);
  ranks ← out_expert_ranks_at pl device_id;
  dp ← attn_dp_rank_at pl device_id;
  Ok {| ic_world_size := num_workers; ic_layer_ids := layer_ids_at pl device_id;
        ic_in_device_ids := in_device_ids_at pl device_id; ic_out_device_ids := outs;
        ic_out_channel_infos := infos;
        ic_inbound_nccl_ids := dget_or inb device_id []; ic_outbound_nccl_ids := dget_or outb device_id [];
        ic_expert_ranks := ranks; ic_expert_wise_schedule := expert_wise_schedule;
        ic_local_num_experts := local_num_experts_at pl device_id;
        ic_local_expert_ids := unique_expert_ids_at pl device_id;
        ic_out_device_group_ids := out_groups; ic_device_group_ids := dget_or groups device_id [];
        ic_local_attn_dp_rank := dp |}.

(** [get_dp_scheduler] as [init_engine] calls it. *)
Definition init_dp_scheduler (dp_size block_size : Z) (attn_dp_weights : option (list (Z * float)))
    (dp_policy : option PolicyName) : res AnyScheduler :=
  match attn_dp_weights with
  | Some ws => get_dp_scheduler dp_size block_size PN_weighted
                 (Some ((fun i => dget_or ws i (float_of_Z 1)) <$> py_range dp_size))
  | None => get_dp_scheduler dp_size block_size (default PN_max dp_policy) None
  end.

(** [start_scheduler]: the blocks of a rank are the least any of its workers has;
    [blocks d] is what the worker of device [d] answers. *)
Definition scheduler_stats (pl : ModelPlacement) (device_ids : list Z) (blocks : Z -> Z)
    : res (list (Z * Z)) :=
  let attn_devices := filter (fun d => has_attn pl d = true) device_ids in
  stats ← py_for (fun st d => r ← attn_dp_rank_at pl d; Ok (dset st r (Z.shiftl 1 31))) attn_devices [];
  py_for (fun st d => r ← attn_dp_rank_at pl d;
                      old ← of_option KeyError (dget st r);
                      Ok (dset st r (Z.min old (blocks d)))) attn_devices stats.

(** ** Requests *)

(** [tasks]: the [process_finished_results] coroutines created and not run. *)
Record Controller (P : Type) : Type := {
  req_id_generator : Counter;
  in_flight_reqs : gset Z;
  request_results : gmap Z AsyncResult;
  dp_scheduler : Sys P;
  tokenizer : Tokenizer;
  tasks : list (list SloStat);
}.
Arguments req_id_generator {P} _.
Arguments in_flight_reqs {P} _.
Arguments request_results {P} _.
Arguments dp_scheduler {P} _.
Arguments tokenizer {P} _.
Arguments tasks {P} _.

(** [Counter(start=1)], no request. *)
Definition controller_init {P} (sys : Sys P) (dp_size : Z) : Controller P :=
  {| req_id_generator := counter_init 1 2000000000 1; in_flight_reqs := ∅; request_results := ∅;
     dp_scheduler := sys; tokenizer := tokenizer_init dp_size; tasks := [] |}.

Definition get_new_req_id {P} (c : Controller P) : Z * Controller P :=
  let '(req_id, g) := counter_next (req_id_generator c) in
  (req_id, {| req_id_generator := g; in_flight_reqs := {[req_id]} ∪ in_flight_reqs c;
              request_results := request_results c; dp_scheduler := dp_scheduler c;
              tokenizer := tokenizer c; tasks := tasks c |}).

Definition put_single_request {P} (input_len output_len : Z) (token_ids : option (list Z))
    (c : Controller P) : Z * Controller P :=
  let '(req_id, c) := get_new_req_id c in
  let y := dp_scheduler c in
  (req_id,
   {| req_id_generator := req_id_generator c; in_flight_reqs := in_flight_reqs c;
      request_results := <[req_id := async_result req_id]> (request_results c);
      dp_scheduler := {| sched := put_request {| req_id := req_id; seq_len := input_len + output_len;
                                    prefill_len := input_len; output_len := output_len |} (sched y);
                         pc := pc y; submitted := submitted y |};
      tokenizer := match token_ids with
                   | Some t => register_prompt req_id t (tokenizer c) | None => tokenizer c end;
      tasks := tasks c |}).

(** [request_item.func(...)]: the tokenizer is called for each submission. *)
Definition submit (now : float) (t : Tokenizer) (x : RequestItem * Z) : res Tokenizer :=
  Tokenizer.put_single_request now (req_id x.1) (prefill_len x.1) (output_len x.1) x.2 t.

(** One resumption of the scheduler's loop, with the submission it makes. *)
Definition scheduler_step {P} `{Policy P} (now : float) (c : Controller P) : option (res (Controller P)) :=
  match loop_step (dp_scheduler c) with
  | None => None
  | Some r => Some (
      y ← r;
      t ← py_for (submit now) (drop (length (submitted (dp_scheduler c))) (submitted y)) (tokenizer c);
      Ok {| req_id_generator := req_id_generator c; in_flight_reqs := in_flight_reqs c;
            request_results := request_results c; dp_scheduler := y; tokenizer := t;
            tasks := tasks c |})
  end.

(** [poll_finished_results]: one turn of its loop. *)
Definition poll_finished_results {P} (results : list SloStat) (c : Controller P) : Controller P :=
  {| req_id_generator := req_id_generator c; in_flight_reqs := in_flight_reqs c;
     request_results := request_results c; dp_scheduler := dp_scheduler c; tokenizer := tokenizer c;
     tasks := match results with [] => tasks c | _ => tasks c ++ [results] end |}.

Definition finish_req {P} (st : gset Z * DPScheduler P) (rid : Z) : res (gset Z * DPScheduler P) :=
  _ ← py_check (bool_decide (rid ∈ st.1)) KeyError;
  s ← del_seq rid st.2;
  Ok (st.1 ∖ {[rid]}, s).

Definition deliver (st : gmap Z AsyncResult * list (Z * AsyncResult)) (r : SloStat)
    : res (gmap Z AsyncResult * list (Z * AsyncResult)) :=
  a ← of_option KeyError (st.1 !! slo_req_id r);
  Ok (delete (slo_req_id r) st.1, st.2 ++ [(slo_req_id r, ar_put r a)]).

(** [process_finished_results]: returns the results it notified. *)
Definition process_finished_results {P} (results : list SloStat) (c : Controller P)
    : res (list (Z * AsyncResult) * Controller P) :=
  let y := dp_scheduler c in
  '(fl, s) ← py_for finish_req (slo_req_id <$> results) (in_flight_reqs c, sched y);
  '(rr, delivered) ← py_for deliver results (request_results c, []);
  Ok (delivered,
      {| req_id_generator := req_id_generator c; in_flight_reqs := fl; request_results := rr;
         dp_scheduler := {| sched := s; pc := pc y; submitted := submitted y |};
         tokenizer := tokenizer c; tasks := tasks c |}).

Definition run_task {P} (c : Controller P) : option (res (list (Z * AsyncResult) * Controller P)) :=
  match tasks c with
  | [] => None
  | rs :: ts => Some (process_finished_results rs
      {| req_id_generator := req_id_generator c; in_flight_reqs := in_flight_reqs c;
         request_results := request_results c; dp_scheduler := dp_scheduler c;
         tokenizer := tokenizer c; tasks := ts |})
  end.

(** The loop over the finished requests up to the first one that raises. *)
Fixpoint finish_until {P} (ids : list Z) (st : gset Z * DPScheduler P) : gset Z * DPScheduler P :=
  match ids with
  | [] => st
  | rid :: ids => match finish_req st rid with Ok st' => finish_until ids st' | Raise _ => st end
  end.

(** What is left when the oldest task dies of an exception, at an id that is not
    in flight: the requests before it are released, no result is delivered. *)
Definition task_aborted {P} (c : Controller P) : Controller P :=
  match tasks c with
  | [] => c
  | rs :: ts =>
      let y := dp_scheduler c in
      let st := finish_until (slo_req_id <$> rs) (in_flight_reqs c, sched y) in
      {| req_id_generator := req_id_generator c; in_flight_reqs := st.1;
         request_results := request_results c;
         dp_scheduler := {| sched := st.2; pc := pc y; submitted := submitted y |};
         tokenizer := tokenizer c; tasks := ts |}
  end.

(** [stop_scheduler], up to the [await] of the loop's task. *)
Definition stop_scheduler {P} (c : Controller P) : Controller P :=
  let y := dp_scheduler c in
  {| req_id_generator := req_id_generator c; in_flight_reqs := in_flight_reqs c;
     request_results := request_results c;
     dp_scheduler := {| sched := terminate_begin (sched y); pc := pc y; submitted := submitted y |};
     tokenizer := tokenizer c; tasks := tasks c |}.

(** [reset]: the scheduler is not reset. *)
Definition controller_reset {P} (c : Controller P) : Controller P :=
  {| req_id_generator := req_id_generator c; in_flight_reqs := ∅; request_results := ∅;
     dp_scheduler := dp_scheduler c; tokenizer := tokenizer c; tasks := tasks c |}.

(** ** Delivery of a result *)

Inductive ar_event : Type := EvGet (t : Z) | EvPut (s : SloStat) | EvResume (t : Z).

Definition is_put (e : ar_event) : bool := match e with EvPut _ => true | _ => false end.
Definition getters (h : list ar_event) : list Z :=
  h ≫= fun e => match e with EvGet t => [t] | _ => [] end.

(** A history of calls; the second component collects what [get] returned. *)
Definition ar_step (st : AsyncResult * list (Z * res SloStat)) (e : ar_event)
    : option (AsyncResult * list (Z * res SloStat)) :=
  match e with
  | EvGet t => Some (ar_get t st.1, st.2)
  | EvPut s => Some (ar_put s st.1, st.2)
  | EvResume t => '(x, r) ← ar_resume t st.1; Some (r, st.2 ++ [(t, x)])
  end.

Fixpoint ar_run (h : list ar_event) (st : AsyncResult * list (Z * res SloStat))
    : option (AsyncResult * list (Z * res SloStat)) :=
  match h with [] => Some st | e :: h => st ← ar_step st e; ar_run h st end.

Lemma ar_run_app h1 h2 st : ar_run (h1 ++ h2) st = ar_run h1 st ≫= ar_run h2.
Proof.
  revert st. induction h1 as [|e h1 IH]; intros st; [done|]. simpl.
  destruct (ar_step st e); simpl; [apply IH|done].
Qed.

(** Before the result is put, tasks only queue up. *)
Lemma ar_run_before h st st' :
  Forall (fun e => is_put e = false) h -> ar_woken st.1 = [] -> ar_run h st = Some st' ->
  ar_woken st'.1 = [] /\ ar_waiters st'.1 = ar_waiters st.1 ++ getters h /\ st'.2 = st.2.
Proof.
  revert st. induction h as [|e h IH]; intros st Hp Hw Hr.
  { injection Hr as <-. by rewrite app_nil_r. }
  apply Forall_cons in Hp as [He Hp]. cbn [ar_run] in Hr. destruct e as [t|s|t]; [|done|].
  - apply (IH _ Hp) in Hr as (-> & -> & ->); [|done]. simpl. by rewrite <-app_assoc.
  - cbn [ar_step] in Hr. unfold ar_resume in Hr. rewrite Hw in Hr.
    rewrite bool_decide_false in Hr by set_solver. done.
Qed.

(** Afterwards the task that was notified returns the result, no other does. *)
Definition delivered_to (s : SloStat) (w : option Z) (st : AsyncResult * list (Z * res SloStat)) : Prop :=
  ar_slo_stat st.1 = Some s /\
  (forall t, t ∈ ar_woken st.1 -> w = Some t) /\
  (forall t x, (t, x) ∈ st.2 -> w = Some t /\ x = Ok s) /\
  (forall t, w = Some t -> (t, Ok s) ∈ st.2 \/ t ∈ ar_woken st.1).

Lemma ar_run_after s w h st st' :
  Forall (fun e => is_put e = false) h -> delivered_to s w st -> ar_run h st = Some st' ->
  delivered_to s w st'.
Proof.
  revert st. induction h as [|e h IH]; intros st Hp Hd Hr; [by injection Hr as <-|].
  apply Forall_cons in Hp as [He Hp]. cbn [ar_run] in Hr. destruct e as [t|?|t]; [|done|].
  - by apply (IH _ Hp) in Hr.
  - cbn [ar_step] in Hr. unfold ar_resume in Hr. case_bool_decide as Ht; [|done]. simpl in Hr.
    destruct Hd as (Hs & Hw & Ho & Hall). rewrite Hs in Hr. apply (IH _ Hp) in Hr; [done|].
    split; [done|]. split; [intros u [_ Hu]%list_elem_of_filter; auto|]. split.
    + intros u x [Hu|Hu]%elem_of_app; [auto|]. apply list_elem_of_singleton in Hu. simplify_eq. auto.
    + intros u Hu. simpl. destruct (Hall u Hu) as [Hin|Hin]; [left; set_solver|].
      destruct (decide (u = t)) as [->|Hne]; [left; set_solver|right].
      apply list_elem_of_filter. auto.
Qed.

(** A finished request's result reaches exactly one caller, the first task that
    was waiting in [get] when [put] ran: it returns that result, and no other task
    ever returns, in particular none that calls [get] after the result was put. *)
Theorem async_result_delivery (id : Z) (pre post : list ar_event) (s : SloStat) (r : AsyncResult)
    (outs : list (Z * res SloStat)) :
  Forall (fun e => is_put e = false) (pre ++ post) ->
  ar_run (pre ++ EvPut s :: post) (async_result id, []) = Some (r, outs) ->
  (forall t x, (t, x) ∈ outs -> head (getters pre) = Some t /\ x = Ok s) /\
  (forall t, head (getters pre) = Some t -> (t, Ok s) ∈ outs \/ t ∈ ar_woken r).
Proof.
  intros [Hpre Hpost]%Forall_app Hr. rewrite ar_run_app in Hr.
  destruct (ar_run pre (async_result id, [])) as [[r1 o1]|] eqn:E1; [|done].
  apply (ar_run_before _ _ _ Hpre) in E1 as (Hw & Hwait & Ho1); [|done].
  simpl in Hw, Hwait, Ho1, Hr. subst o1.
  apply (ar_run_after s (head (getters pre)) _ _ _ Hpost) in Hr.
  - destruct Hr as (_ & _ & Ho & Hall). split; [exact Ho|exact Hall].
  - split; [done|]. simpl. rewrite Hw, Hwait. destruct (getters pre) as [|t ts]; simpl; set_solver.
Qed.

Definition ex_stat (id : Z) : SloStat := first_stat id 7.

Lemma async_result_delivery_witness :
  exists r outs,
    ar_run ([EvGet 1] ++ EvPut (ex_stat 4) :: [EvGet 2; EvResume 1]) (async_result 4, []) = Some (r, outs) /\
    (1, Ok (ex_stat 4)) ∈ outs /\ ~ (2, Ok (ex_stat 4)) ∈ outs.
Proof.
  destruct (ar_run ([EvGet 1] ++ EvPut (ex_stat 4) :: [EvGet 2; EvResume 1]) (async_result 4, []))
    as [[r outs]|] eqn:E; [|vm_compute in E; congruence].
  destruct (async_result_delivery 4 [EvGet 1] [EvGet 2; EvResume 1] (ex_stat 4) r outs) as [H1 H2].
  - repeat constructor.
  - exact E.
  - exists r, outs. split; [reflexivity|]. split.
    + destruct (H2 1) as [Hin|Hin]; [reflexivity|exact Hin|]. vm_compute in E. injection E as <- <-.
      vm_compute in Hin. inversion Hin.
    + intros Hin. destruct (H1 _ _ Hin) as [Heq _]. discriminate Heq.
Defined.

(** ** The life of requests *)

(** A list with an element that satisfies [Q], split at the first one. *)
Lemma first_split {A} (Q : A -> Prop) `{!forall x, Decision (Q x)} (l : list A) :
  (exists x, x ∈ l /\ Q x) -> exists pre x post, l = pre ++ x :: post /\ Forall (fun x => ~ Q x) pre /\ Q x.
Proof.
  intros (x0 & Hx0 & HQ0). induction l as [|a l IH]; [by apply elem_of_nil in Hx0|].
  destruct (decide (Q a)) as [HQ|HQ]; [by exists [], a, l|].
  apply elem_of_cons in Hx0 as [->|Hx0]; [done|]. destruct (IH Hx0) as (pre & x & post & -> & Hpre & Hx).
  exists (a :: pre), x, post. split; [done|]. by split; [constructor|].
Qed.

Section Requests.
Context {P : Type} `{PolicyLaws P} (cap : list Z).
Implicit Types c : Controller P.

(** What one turn of the waiting loop does: grant the oldest pending request a
    rank, leave without it when the end event is up, or change nothing. *)
Definition loop_effect (y y' : Sys P) : Prop :=
  dp_size (sched y') = dp_size (sched y) /\ pc y <> Finished /\
  ((exists it rank, 0 <= rank < dp_size (sched y) /\ pending_items y = it :: pending_items y' /\
      seq_ranks (sched y') = <[req_id it := rank]> (seq_ranks (sched y)) /\
      submitted y' = submitted y ++ [(it, rank)]) \/
   (seq_ranks (sched y') = seq_ranks (sched y) /\ submitted y' = submitted y /\
    (pending_items y' = pending_items y \/ pending_items y' = tail (pending_items y) /\ pc y' = Finished))).

Lemma loop_cases (y y' : Sys P) : sys_inv cap y -> loop_step y = Some (Ok y') -> loop_effect y y'.
Proof.
  intros Hinv Hloop.
  assert (Hplace : forall it s1, wf s1 -> 0 < item_req s1 it -> pc y <> Finished ->
    (r ← schedule [req_id it] [prefill_len it] [output_len it] s1; after_schedule it (submitted y) r) = Ok y' ->
    dp_size s1 = dp_size (sched y) -> seq_ranks s1 = seq_ranks (sched y) ->
    pending_items y = it :: waiting_queue s1 -> loop_effect y y').
  { intros it s1 Hwf Hpos Hpc Hrun Hd Hr Hp.
    destruct (place_cases it (submitted y) s1 Hwf Hpos) as
      [(rank & pl & s' & Hrank & _ & _ & Hadd & Heq)|(pl & _ & _ & Heq)];
      simpl in Heq; rewrite Hrun in Heq; injection Heq as ->.
    - destruct Hwf as (Hbs & Hdp & Hlen & _).
      destruct (add_seq_spec (req_id it) (prefill_len it) (output_len it) rank (with_policy pl s1))
        as (f & _ & Hadd'); [simpl; lia|done|]. rewrite Hadd in Hadd'. injection Hadd' as ->.
      split; [done|]. split; [done|]. left. exists it, rank. split; [lia|].
      unfold pending_items at 2. simpl. rewrite <-Hr, Hp. by destruct (end_flag s1).
    - split; [done|]. split; [done|]. right. split; [done|]. split; [done|]. left.
      unfold pending_items at 1. simpl. by rewrite Hp. }
  unfold loop_step in Hloop. destruct Hinv as [Hwf _ _ _ _ _ Hi _].
  unfold pending_items in Hi. destruct y as [s p log]. simpl in *. destruct p as [|it|]; [| |done].
  - destruct (end_event s).
    { injection Hloop as <-. split; [done|]. split; [done|]. right. split; [done|]. split; [done|]. by right. }
    destruct (waiting_queue s) as [|it q] eqn:Hq; [done|]. injection Hloop as Hloop.
    apply Forall_cons in Hi as [Hi _]. eapply (Hplace it (with_queue q s)); done.
  - destruct (sch_event s); [|done]. injection Hloop as Hloop. apply Forall_cons in Hi as [Hi _].
    eapply (Hplace it (with_events (end_flag s) (end_event s) false s)); try done.
Qed.

Definition task_ids c : list Z := slo_req_id <$> concat (tasks c).

(** A step is labelled with the request it accepts, [[(id, prompt)]], and with
    the requests a reset forgets.  The detokenizer reports requests that hold
    blocks and that it has not reported before; every call of the controller may
    come at any time, [reset] and [stop_scheduler] included, and a task that
    processes a report may die of an exception. *)
Inductive ctrl_step : Controller P -> list (Z * option (list Z)) -> gset Z -> Controller P -> Prop :=
  | ctrl_put c input output toks id c' :
      0 < req (block_size (sched (dp_scheduler c))) input output ->
      cnt_counter (req_id_generator c) + 1 < cnt_end (req_id_generator c) ->
      put_single_request input output toks c = (id, c') ->
      ctrl_step c [(id, toks)] ∅ c'
  | ctrl_schedule now c c' :
      scheduler_step now c = Some (Ok c') -> ctrl_step c [] ∅ c'
  | ctrl_poll c results :
      NoDup (task_ids c ++ (slo_req_id <$> results)) ->
      Forall (fun r => is_Some (seq_ranks (sched (dp_scheduler c)) !! slo_req_id r)) results ->
      ctrl_step c [] ∅ (poll_finished_results results c)
  | ctrl_task c delivered c' :
      run_task c = Some (Ok (delivered, c')) -> ctrl_step c [] ∅ c'
  | ctrl_task_raises c e :
      run_task c = Some (Raise e) -> ctrl_step c [] ∅ (task_aborted c)
  | ctrl_reset c :
      ctrl_step c [] (in_flight_reqs c) (controller_reset c)
  | ctrl_stop c :
      ctrl_step c [] ∅ (stop_scheduler c).

Inductive ctrl_run : Controller P -> list (Z * option (list Z)) -> gset Z -> Controller P -> Prop :=
  | crun_nil c : ctrl_run c [] ∅ c
  | crun_snoc c1 c2 c3 l1 l2 F1 F2 :
      ctrl_run c1 l1 F1 c2 -> ctrl_step c2 l2 F2 c3 -> ctrl_run c1 (l1 ++ l2) (F1 ∪ F2) c3.

(** The prompt of a request, the default when none was registered. *)
Definition prompt_of (l : list (Z * option (list Z))) (id : Z) : list Z :=
  match dget l id with Some (Some t) => t | _ => [0] end.

Definition tokenized (l : list (Z * option (list Z))) (it : RequestItem) : TokenizedRequest :=
  {| tr_req_id := req_id it; tr_init_prefill_len := prefill_len it; tr_max_output_len := output_len it;
     tr_token_ids := prompt_of l (req_id it) |}.

(** What the queue of rank [r] must hold. *)
Definition queue_of (l : list (Z * option (list Z))) (y : Sys P) (r : Z) : list TokenizedRequest :=
  tokenized l <$> (filter (fun x => x.2 = r) (submitted y)).*1.

(** [l] are the accepted requests, [F] the forgotten ones. *)
Record ctrl_inv (l : list (Z * option (list Z))) (F : gset Z) c : Prop := {
  ci_sys : sys_inv cap (dp_scheduler c);
  ci_flight : forall id, id ∈ in_flight_reqs c -> pc (dp_scheduler c) <> Finished ->
    id ∈ req_id <$> pending_items (dp_scheduler c) \/ is_Some (seq_ranks (sched (dp_scheduler c)) !! id);
  ci_held : forall id,
    id ∈ req_id <$> pending_items (dp_scheduler c) \/ is_Some (seq_ranks (sched (dp_scheduler c)) !! id) ->
    id ∈ in_flight_reqs c ∪ F;
  ci_disjoint : in_flight_reqs c ## F;
  ci_results : in_flight_reqs c ⊆ dom (request_results c);
  ci_exact : F = ∅ -> dom (request_results c) = in_flight_reqs c;
  ci_fresh : forall id, id ∈ in_flight_reqs c ∪ F \/ id ∈ dkeys l \/ id ∈ dkeys (pending_token_ids (tokenizer c)) \/
      id ∈ req_id <$> (submitted (dp_scheduler c)).*1 ->
    id < cnt_counter (req_id_generator c);
  ci_step : cnt_step (req_id_generator c) = 1;
  ci_tasks : NoDup (task_ids c) /\
    Forall (fun id => is_Some (seq_ranks (sched (dp_scheduler c)) !! id)) (task_ids c);
  ci_pending : forall id, id ∈ req_id <$> pending_items (dp_scheduler c) ->
    dget_or (pending_token_ids (tokenizer c)) id [0] = prompt_of l id;
  ci_queues : worker_queues (tokenizer c) = queue_of l (dp_scheduler c) <$> py_range (dp_size (sched (dp_scheduler c)));
}.

(** A running request can be released. *)
Lemma del_seq_total (y : Sys P) id :
  sys_inv cap y -> is_Some (seq_ranks (sched y) !! id) -> exists s', del_seq id (sched y) = Ok s'.
Proof.
  intros [(Hbs & _) (_ & _ & Hdom & Hrk) _ _ _ _ _ _] [rank Hr].
  assert (Hm : is_Some (seq_max_len (sched y) !! id)) by (rewrite <-elem_of_dom, <-Hdom; by eapply elem_of_dom_2).
  destruct Hm as [[p o] Hm]. specialize (Hrk _ _ Hr). simpl in Hrk.
  destruct (lookup_lt_is_Some_2 (kv_cache_stats (sched y)) (Z.to_nat rank)) as [x Hx]; [unfold zlen in Hrk; lia|].
  unfold del_seq. rewrite Hr, Hm. cbn [of_option mbind res_bind]. rewrite required_blocks_eq by lia.
  cbn [mbind res_bind]. rewrite py_get_nonneg, Hx by done. cbn [of_option mbind res_bind].
  rewrite py_set_nonneg by done. eauto.
Qed.

Lemma dget_snoc {V} (l : list (Z * V)) k v id :
  dget (l ++ [(k, v)]) id = match dget l id with Some x => Some x | None => if decide (id = k) then Some v else None end.
Proof. induction l as [|[k1 v1] l IH]; simpl; [done|]. rewrite IH. by destruct (decide (id = k1)). Qed.

Lemma prompt_of_snoc l k v id : id <> k -> prompt_of (l ++ [(k, v)]) id = prompt_of l id.
Proof. intros. unfold prompt_of. rewrite dget_snoc. destruct (dget l id); [done|]. by rewrite decide_False. Qed.

Lemma pending_put (y : Sys P) it :
  pending_items {| sched := put_request it (sched y); pc := pc y; submitted := submitted y |}
  = pending_items y ++ [it].
Proof. unfold pending_items. simpl. by destruct (pc y). Qed.

Lemma queue_of_ext l l' y r :
  (forall id, id ∈ req_id <$> (submitted y).*1 -> prompt_of l id = prompt_of l' id) ->
  queue_of l y r = queue_of l' y r.
Proof.
  intros Hp. unfold queue_of. apply list_fmap_ext. intros i it Hi%list_elem_of_lookup_2.
  apply list_elem_of_fmap in Hi as (x & -> & Hx). apply list_elem_of_filter in Hx as [_ Hx].
  unfold tokenized. f_equal. apply Hp. apply list_elem_of_fmap. eexists. split; [done|].
  apply list_elem_of_fmap. eauto.
Qed.

Lemma ctrl_inv_put l F c input output toks id c' :
  ctrl_inv l F c -> 0 < req (block_size (sched (dp_scheduler c))) input output ->
  cnt_counter (req_id_generator c) + 1 < cnt_end (req_id_generator c) ->
  put_single_request input output toks c = (id, c') -> ctrl_inv (l ++ [(id, toks)]) F c'.
Proof.
  intros [Hsys Hflt Hheld Hdis Hres Hex Hfresh Hstep Htasks Hpend Hq] Hpos Hend Hput.
  unfold put_single_request, get_new_req_id, counter_next in Hput. injection Hput as <- <-.
  set (id := cnt_counter (req_id_generator c)) in *.
  assert (Hnew : forall x, x ∈ in_flight_reqs c ∪ F -> x < id) by (intros; apply Hfresh; auto).
  assert (Hnp : id ∉ req_id <$> pending_items (dp_scheduler c)).
  { intros Hin. assert (id ∈ in_flight_reqs c ∪ F) as Hi by (apply Hheld; auto). apply Hnew in Hi. lia. }
  assert (Hnr : seq_ranks (sched (dp_scheduler c)) !! id = None).
  { destruct (seq_ranks (sched (dp_scheduler c)) !! id) as [x|] eqn:E; [|done].
    assert (id ∈ in_flight_reqs c ∪ F) as Hi by (apply Hheld; eauto). apply Hnew in Hi. lia. }
  assert (Hlid : id ∉ dkeys l) by (intros Hin; specialize (Hfresh id ltac:(auto)); lia).
  assert (Htid : id ∉ dkeys (pending_token_ids (tokenizer c)))
    by (intros Hin; specialize (Hfresh id ltac:(auto)); lia).
  pose proof (step_put (dp_scheduler c) {| req_id := id; seq_len := input + output; prefill_len := input;
    output_len := output |} Hnr Hnp Hpos) as Hss. apply (sys_inv_step _ _ _ _ Hsys) in Hss.
  assert (Hlt : forall x, x < id -> x < id + cnt_step (req_id_generator c)) by (intros; lia).
  assert (Hcn : (if id + cnt_step (req_id_generator c) >=? cnt_end (req_id_generator c) then 0
                 else id + cnt_step (req_id_generator c)) = id + 1).
  { rewrite Hstep. zcases; [lia|done]. }
  assert (Hkeys : dkeys (pending_token_ids match toks with Some t => register_prompt id t (tokenizer c)
      | None => tokenizer c end) ⊆ id :: dkeys (pending_token_ids (tokenizer c))).
  { destruct toks; simpl; [|set_solver]. rewrite dkeys_dset_new by (by apply dget_None). set_solver. }
  split; cbn [dp_scheduler in_flight_reqs request_results req_id_generator tokenizer tasks cnt_counter cnt_step];
    rewrite ?pending_put; cbn [sched submitted put_request with_queue seq_ranks dp_size end_event end_flag];
    try done.
  - intros x. rewrite fmap_app, elem_of_app, elem_of_union, elem_of_singleton. simpl.
    intros [->|Hx] Hpc; [set_solver|]. destruct (Hflt x Hx Hpc); auto.
  - intros x. rewrite fmap_app, elem_of_app. intros Hx.
    assert (x = id \/ x ∈ in_flight_reqs c ∪ F); [|set_solver].
    destruct Hx as [[Hx|Hx%list_elem_of_singleton]|Hx]; auto.
  - assert (id ∉ F); [|set_solver]. intros Hx. specialize (Hnew id ltac:(set_solver)). lia.
  - rewrite dom_insert. set_solver.
  - intros HF. rewrite dom_insert_L, Hex by done. done.
  - rewrite Hcn. intros x Hx. assert (x = id \/ x < id); [|lia].
    destruct Hx as [Hx|[Hx|[Hx|Hx]]]; auto 10.
    + assert (x = id \/ x ∈ in_flight_reqs c ∪ F) as [|]; [set_solver|auto..].
    + unfold dkeys in Hx. rewrite fmap_app in Hx. apply elem_of_app in Hx as [Hx|Hx]; [auto 10|].
      apply list_elem_of_singleton in Hx. auto.
    + apply Hkeys, elem_of_cons in Hx as [->|Hx]; auto 10.
  - intros x. rewrite fmap_app, elem_of_app. intros [Hx|Hx].
    + assert (Hne : x <> id) by (intros ->; done). rewrite prompt_of_snoc by done. rewrite <-(Hpend x Hx).
      destruct toks; [|done]. unfold dget_or. simpl. by rewrite dget_dset_ne.
    + apply list_elem_of_singleton in Hx as ->. simpl. unfold prompt_of, dget_or. rewrite dget_snoc.
      rewrite (proj2 (dget_None l id) Hlid), decide_True by done.
      destruct toks; simpl; [by rewrite dget_dset_eq|]. by rewrite (proj2 (dget_None _ _) Htid).
  - transitivity (worker_queues (tokenizer c)); [by destruct toks|]. rewrite Hq.
    apply list_fmap_ext. intros i r _. apply (queue_of_ext _ _ (dp_scheduler c)). intros x Hx.
    rewrite prompt_of_snoc; [done|]. intros ->. specialize (Hfresh id ltac:(auto)). lia.
Qed.

Lemma dkeys_ddel {V} (d : list (Z * V)) k : dkeys (ddel d k) ⊆ dkeys d.
Proof.
  unfold dkeys, ddel. intros x Hx. apply list_elem_of_fmap in Hx as (y & -> & Hy).
  apply list_elem_of_filter in Hy as [_ Hy]. apply list_elem_of_fmap. eauto.
Qed.

(** Pushing a submission appends it to the queue of its rank. *)
Lemma submit_queue now l y it rank t dp :
  0 <= rank < dp -> worker_queues t = queue_of l y <$> py_range dp ->
  dget_or (pending_token_ids t) (req_id it) [0] = prompt_of l (req_id it) ->
  exists t', submit now t (it, rank) = Ok t' /\
    pending_token_ids t' = ddel (pending_token_ids t) (req_id it) /\
    worker_queues t' = queue_of l {| sched := sched y; pc := pc y; submitted := submitted y ++ [(it, rank)] |}
                         <$> py_range dp.
Proof.
  intros Hr Hq Hp. unfold submit, Tokenizer.put_single_request. cbn [fst snd]. rewrite Hq.
  change (queue_of l y <$> py_range dp) with (tab dp (queue_of l y)).
  rewrite py_get_tab by done. cbn [mbind res_bind]. rewrite py_set_tab by done. cbn [mbind res_bind].
  eexists. split; [done|]. split; [done|]. simpl. apply tab_ext. intros i Hi. unfold upd, queue_of. simpl.
  rewrite filter_app, !fmap_app, filter_cons. simpl. destruct (Z.eqb_spec i rank) as [->|Hne].
  - rewrite decide_True by done. simpl. unfold tokenized at 2. by rewrite Hp.
  - rewrite decide_False by done. simpl. by rewrite app_nil_r.
Qed.

Lemma ctrl_inv_schedule l F now c c' :
  ctrl_inv l F c -> scheduler_step now c = Some (Ok c') -> ctrl_inv l F c'.
Proof.
  intros [Hsys Hflt Hheld Hdis Hres Hex Hfresh Hstep [Hnd Htasks] Hpend Hq] Hs. unfold scheduler_step in Hs.
  destruct (loop_step (dp_scheduler c)) as [[y'|e]|] eqn:Hl; [|done|done].
  pose proof (sys_inv_step _ _ _ _ Hsys (step_loop _ _ Hl)) as Hsys'.
  destruct (loop_cases _ _ Hsys Hl) as (Hdp & Hnf & [Hgr|Hsame]).
  - destruct Hgr as (it & rank & Hrank & Hpi & Hsr & Hsub). cbn [mbind res_bind] in Hs.
    rewrite Hsub, drop_app_length in Hs. cbn [py_for] in Hs.
    destruct (submit_queue now l (dp_scheduler c) it rank (tokenizer c) _ Hrank Hq) as (t' & Ht & Hpt & Hwq).
    { apply Hpend. rewrite Hpi. left. }
    rewrite Ht in Hs. cbn [mbind res_bind] in Hs. injection Hs as <-.
    assert (Hids : forall id,
      id ∈ req_id <$> pending_items y' \/ is_Some (seq_ranks (sched y') !! id) <->
      id ∈ req_id <$> pending_items (dp_scheduler c) \/ is_Some (seq_ranks (sched (dp_scheduler c)) !! id)).
    { intros id. rewrite Hpi, Hsr, lookup_insert_is_Some'. simpl. rewrite elem_of_cons. naive_solver. }
    split; cbn [dp_scheduler in_flight_reqs request_results req_id_generator tokenizer tasks]; try done.
    + intros id Hid _. apply Hids. by apply Hflt.
    + intros id Hid. by apply Hheld, Hids.
    + intros id. rewrite Hpt, Hsub, !fmap_app, elem_of_app. intros Hin. apply Hfresh.
      destruct Hin as [|[|[Hin|[|Hin]]]]; [auto|auto| |auto|].
      * right. right. left. by apply dkeys_ddel in Hin.
      * left. apply Hheld. left. rewrite Hpi. apply list_elem_of_singleton in Hin as ->. left.
    + split; [done|]. eapply Forall_impl; [exact Htasks|]. intros id Hid. simpl in Hid. simpl.
      rewrite Hsr. rewrite lookup_insert_is_Some'. auto.
    + intros id Hid. rewrite Hpt. unfold dget_or. rewrite dget_ddel, decide_False.
      { apply Hpend. rewrite Hpi. by right. }
      intros <-. destruct Hsys as [_ _ _ _ _ Hn _ _]. rewrite Hpi in Hn. apply NoDup_cons in Hn as [Hn _]. done.
    + rewrite Hwq, Hdp. apply list_fmap_ext. intros i r _. unfold queue_of. simpl. by rewrite Hsub.
  - destruct Hsame as (Hsr & Hsub & Hpi). cbn [mbind res_bind] in Hs.
    rewrite Hsub, drop_all in Hs. cbn [py_for mbind res_bind] in Hs. injection Hs as <-.
    assert (Hin : forall id, id ∈ req_id <$> pending_items y' -> id ∈ req_id <$> pending_items (dp_scheduler c)).
    { intros id. destruct Hpi as [->|[-> _]]; [done|]. destruct (pending_items (dp_scheduler c)); [done|]. by right. }
    split; cbn [dp_scheduler in_flight_reqs request_results req_id_generator tokenizer tasks];
      rewrite ?Hsr, ?Hsub; try done.
    + intros id Hid Hf. destruct Hpi as [->|[_ Hpc]]; [by apply Hflt|done].
    + intros id [Hid|Hid]; apply Hheld; auto.
    + intros id Hid. by apply Hpend, Hin.
    + rewrite Hq, Hdp. apply list_fmap_ext. intros i r _. unfold queue_of. by rewrite Hsub.
Qed.

Lemma ctrl_inv_poll l F c results :
  ctrl_inv l F c -> NoDup (task_ids c ++ (slo_req_id <$> results)) ->
  Forall (fun r => is_Some (seq_ranks (sched (dp_scheduler c)) !! slo_req_id r)) results ->
  ctrl_inv l F (poll_finished_results results c).
Proof.
  intros [Hsys Hflt Hheld Hdis Hres Hex Hfresh Hstep [Hnd Ht] Hpend Hq] Hnd' Hr.
  assert (Hti : task_ids (poll_finished_results results c) = task_ids c ++ (slo_req_id <$> results)).
  { unfold task_ids, poll_finished_results. simpl. destruct results as [|r rs]; [by rewrite app_nil_r|].
    rewrite concat_app, fmap_app. simpl. by rewrite app_nil_r. }
  split; try done. rewrite Hti. split; [done|]. apply Forall_app. split; [done|]. by apply Forall_fmap.
Qed.

(** Releasing a list of running requests that are in flight; the scheduler keeps
    everything but their blocks. *)
Definition released (ids : list Z) (s s' : DPScheduler P) : Prop :=
  dp_size s' = dp_size s /\ waiting_queue s' = waiting_queue s /\
  (forall id, seq_ranks s' !! id = if decide (id ∈ ids) then None else seq_ranks s !! id).

Lemma finish_all y ids fl :
  sys_inv cap y -> NoDup ids -> Forall (fun id => is_Some (seq_ranks (sched y) !! id)) ids ->
  Forall (fun id => id ∈ fl) ids ->
  exists s', py_for finish_req ids (fl, sched y) = Ok (fl ∖ list_to_set ids, s') /\
    (forall post, finish_until (ids ++ post) (fl, sched y) = finish_until post (fl ∖ list_to_set ids, s')) /\
    sys_inv cap {| sched := s'; pc := pc y; submitted := submitted y |} /\ released ids (sched y) s'.
Proof.
  revert y fl. induction ids as [|id ids IH]; intros y fl Hinv Hnd Hr Hf.
  { exists (sched y). cbn [py_for list_to_set app]. rewrite difference_empty_L. destruct y; done. }
  apply NoDup_cons in Hnd as [Hn Hnd]. apply Forall_cons in Hr as [Hid Hr].
  apply Forall_cons in Hf as [Hfl Hf].
  destruct (del_seq_total y id Hinv Hid) as (s1 & Hd). cbn [py_for app finish_until].
  assert (Hone : finish_req (fl, sched y) id = Ok (fl ∖ {[id]}, s1)).
  { unfold finish_req. cbn [fst snd]. rewrite bool_decide_true by done. cbn [py_check mbind res_bind]. by rewrite Hd. }
  rewrite Hone. cbn [mbind res_bind]. pose proof (sys_inv_del _ _ _ _ Hinv Hd) as Hinv1.
  destruct (del_seq_frame _ _ _ Hd) as (_ & Hdp & _ & Hwq & _ & Hsr & _ & _).
  destruct (IH _ (fl ∖ {[id]}) Hinv1 Hnd) as (s' & Hrun & Hpre & Hinv' & Hdp' & Hwq' & Hsr').
  { apply Forall_forall. intros i Hi. rewrite Forall_forall in Hr. simpl. rewrite Hsr, lookup_delete_ne; [auto|].
    by intros ->. }
  { apply Forall_forall. intros i Hi. rewrite Forall_forall in Hf. specialize (Hf i Hi). set_solver. }
  assert (Hset : fl ∖ {[id]} ∖ list_to_set ids = fl ∖ list_to_set (id :: ids)) by set_solver.
  rewrite Hset in Hrun, Hpre. exists s'. simpl in *. split; [done|]. split; [done|]. split; [done|].
  split; [congruence|]. split; [congruence|]. intros i. rewrite Hsr', Hsr.
  destruct (decide (i = id)) as [->|Hne].
  - rewrite lookup_delete_eq. rewrite (decide_True (P := id ∈ id :: ids)) by left. by case_decide.
  - rewrite lookup_delete_ne by done. apply decide_ext. rewrite elem_of_cons. naive_solver.
Qed.

Lemma deliver_all results rr acc :
  NoDup (slo_req_id <$> results) -> Forall (fun r => is_Some (rr !! slo_req_id r)) results ->
  exists out, py_for deliver results (rr, acc)
    = Ok (filter (fun x => x.1 ∉ slo_req_id <$> results) rr, acc ++ out) /\
    Forall2 (fun r d => exists a, rr !! slo_req_id r = Some a /\ d = (slo_req_id r, ar_put r a)) results out.
Proof.
  revert rr acc. induction results as [|r rs IH]; intros rr acc Hnd Hr.
  { exists []. cbn [py_for]. rewrite app_nil_r. split; [|constructor]. do 2 f_equal. symmetry.
    apply map_filter_id. intros i x _. apply not_elem_of_nil. }
  rewrite fmap_cons in Hnd. apply NoDup_cons in Hnd as [Hn Hnd]. apply Forall_cons in Hr as [[a Ha] Hr].
  cbn [py_for].
  assert (Hone : deliver (rr, acc) r = Ok (delete (slo_req_id r) rr, acc ++ [(slo_req_id r, ar_put r a)]))
    by (unfold deliver; cbn [fst snd]; by rewrite Ha).
  rewrite Hone. cbn [mbind res_bind].
  destruct (IH (delete (slo_req_id r) rr) (acc ++ [(slo_req_id r, ar_put r a)]) Hnd) as (out & Hout & Hall).
  { apply Forall_forall. intros q Hq. rewrite Forall_forall in Hr. rewrite lookup_delete_ne; [auto|].
    intros Heq. apply Hn. rewrite Heq. apply list_elem_of_fmap. eauto. }
  exists ((slo_req_id r, ar_put r a) :: out). rewrite Hout, <-app_assoc. split.
  - do 2 f_equal. apply map_eq. intros i. apply option_eq. intros x.
    rewrite !map_lookup_filter_Some, fmap_cons, elem_of_cons. simpl. rewrite lookup_delete_Some. naive_solver.
  - constructor; [eauto|]. assert (Hin : forall q, q ∈ rs -> slo_req_id r <> slo_req_id q).
    { intros q Hq Heq. apply Hn. rewrite Heq. apply list_elem_of_fmap. eauto. }
    clear -Hall Hin. induction Hall as [|q d rs out (b & Hb & ->) _ IH]; [constructor|].
    rewrite lookup_delete_ne in Hb by (apply Hin; left). constructor; [eauto|].
    apply IH. intros q' Hq'. apply Hin. by right.
Qed.

(** Once the requests [ids] of a report are released the invariant holds of what
    remains, whichever results are still undelivered. *)
Lemma ctrl_inv_release l F c ids s' rr ts :
  ctrl_inv l F c -> NoDup (task_ids c) ->
  (exists rest, slo_req_id <$> concat (tasks c) = ids ++ rest ++ (slo_req_id <$> concat ts)) ->
  sys_inv cap {| sched := s'; pc := pc (dp_scheduler c); submitted := submitted (dp_scheduler c) |} ->
  released ids (sched (dp_scheduler c)) s' ->
  in_flight_reqs c ∖ list_to_set ids ⊆ dom rr -> (F = ∅ -> dom rr = in_flight_reqs c ∖ list_to_set ids) ->
  ctrl_inv l F {| req_id_generator := req_id_generator c; in_flight_reqs := in_flight_reqs c ∖ list_to_set ids;
    request_results := rr;
    dp_scheduler := {| sched := s'; pc := pc (dp_scheduler c); submitted := submitted (dp_scheduler c) |};
    tokenizer := tokenizer c; tasks := ts |}.
Proof.
  intros [Hsys Hflt Hheld Hdis Hres Hex Hfresh Hstep [_ Ht] Hpend Hq] Hnd [rest Hts] Hsys' (Hdp & Hwq & Hsr) Hrr Hrx.
  unfold task_ids in Hnd, Ht. rewrite Hts in Hnd, Ht.
  apply Forall_app in Ht as [Ht1 [_ Ht2]%Forall_app].
  apply NoDup_app in Hnd as (_ & Hsep & Hnd). apply NoDup_app in Hnd as (_ & _ & Hnd).
  assert (Hpi : pending_items {| sched := s'; pc := pc (dp_scheduler c); submitted := submitted (dp_scheduler c) |}
    = pending_items (dp_scheduler c)) by (unfold pending_items; simpl; by rewrite Hwq).
  assert (Hp : forall id, id ∈ req_id <$> pending_items (dp_scheduler c) -> id ∉ ids).
  { intros id Hi Hrs. rewrite Forall_forall in Ht1. destruct (Ht1 id Hrs) as [x Hx].
    destruct Hsys as [_ _ _ _ Hfr _ _ _]. rewrite Hfr in Hx; done. }
  split; cbn [dp_scheduler in_flight_reqs request_results req_id_generator tokenizer tasks]; rewrite ?Hpi;
    cbn [sched submitted pc]; try done.
  - intros id [Hid Hni]%elem_of_difference Hpc. rewrite elem_of_list_to_set in Hni.
    rewrite Hsr, decide_False by done. by apply Hflt.
  - intros id Hid. assert (id ∉ ids /\ id ∈ in_flight_reqs c ∪ F) as [? ?]; [|set_solver].
    destruct Hid as [Hid|Hid]; [auto|]. rewrite Hsr in Hid. case_decide; [by destruct Hid|auto].
  - set_solver.
  - intros id [Hi|Hi]; apply Hfresh; [|by right]. left. set_solver.
  - split; [done|]. apply Forall_forall. intros id Hid. rewrite Hsr, decide_False.
    + rewrite Forall_forall in Ht2. by apply Ht2.
    + intros Hin. apply (Hsep id Hin). apply elem_of_app. by right.
  - rewrite Hq, Hdp. done.
Qed.

(** The oldest report is processed without an exception when its requests are
    all in flight. *)
Lemma ctrl_inv_task l F c rs ts :
  ctrl_inv l F c -> tasks c = rs :: ts -> Forall (fun id => id ∈ in_flight_reqs c) (slo_req_id <$> rs) ->
  exists delivered c', run_task c = Some (Ok (delivered, c')) /\ ctrl_inv l F c' /\ tasks c' = ts /\
    in_flight_reqs c' = in_flight_reqs c ∖ list_to_set (slo_req_id <$> rs) /\
    Forall2 (fun r d => exists a, request_results c !! slo_req_id r = Some a /\ d = (slo_req_id r, ar_put r a))
      rs delivered.
Proof.
  intros Hinv Hts Hfl. pose proof (ci_tasks _ _ _ Hinv) as [Hnd Ht].
  pose proof Hnd as Hnd0. unfold task_ids in Hnd, Ht. rewrite Hts in Hnd, Ht. cbn [concat] in Hnd, Ht.
  rewrite fmap_app in Hnd, Ht. apply NoDup_app in Hnd as (Hnd1 & _ & _). apply Forall_app in Ht as [Ht1 _].
  pose proof (ci_results _ _ _ Hinv) as Hres.
  destruct (finish_all (dp_scheduler c) _ _ (ci_sys _ _ _ Hinv) Hnd1 Ht1 Hfl) as (s' & Hfin & _ & Hinv' & Hrel).
  destruct (deliver_all rs (request_results c) [] Hnd1) as (out & Hdel & Hall).
  { apply Forall_fmap in Hfl. eapply Forall_impl; [exact Hfl|]. intros r Hr. simpl in Hr.
    apply Hres in Hr. by apply elem_of_dom in Hr. }
  unfold run_task. rewrite Hts. unfold process_finished_results. simpl. rewrite Hfin. cbn [mbind res_bind].
  rewrite Hdel. cbn [mbind res_bind]. eexists _, _. split; [done|].
  split; [|split_and!; [done|done|exact Hall]].
  assert (Hdom : dom (filter (fun x => x.1 ∉ slo_req_id <$> rs) (request_results c))
    = dom (request_results c) ∖ list_to_set (slo_req_id <$> rs)).
  { apply set_eq. intros id. rewrite elem_of_difference, elem_of_list_to_set, !elem_of_dom.
    unfold is_Some. setoid_rewrite map_lookup_filter_Some. naive_solver. }
  apply ctrl_inv_release; [done|done| |done|done| |].
  - exists []. rewrite Hts. cbn [concat]. by rewrite fmap_app.
  - rewrite Hdom. set_solver.
  - intros HF. by rewrite Hdom, (ci_exact _ _ _ Hinv HF).
Qed.

(** It dies of [KeyError] at the first request that is not in flight. *)
Lemma ctrl_inv_abort l F c rs ts :
  ctrl_inv l F c -> tasks c = rs :: ts -> ~ Forall (fun id => id ∈ in_flight_reqs c) (slo_req_id <$> rs) ->
  run_task c = Some (Raise KeyError) /\ ctrl_inv l F (task_aborted c).
Proof.
  intros Hinv Hts Hfl. pose proof (ci_tasks _ _ _ Hinv) as [Hnd Ht].
  pose proof Hnd as Hnd0. unfold task_ids in Hnd, Ht. rewrite Hts in Hnd, Ht. cbn [concat] in Hnd, Ht.
  rewrite fmap_app in Hnd, Ht. apply NoDup_app in Hnd as (Hnd1 & _ & _). apply Forall_app in Ht as [Ht1 _].
  apply not_Forall_Exists, Exists_exists in Hfl as (bad & Hbad & Hnb); [|intros ?; apply decide; apply _].
  destruct (first_split (fun id => id ∉ in_flight_reqs c) (slo_req_id <$> rs)) as (pre & id & post & Hsplit & Hpre & Hid).
  { eauto. }
  rewrite Hsplit in Hnd1, Ht1. apply NoDup_app in Hnd1 as (Hndp & _ & _). apply Forall_app in Ht1 as [Htp Hti].
  assert (Hpre' : Forall (fun id => id ∈ in_flight_reqs c) pre).
  { eapply Forall_impl; [exact Hpre|]. intros x Hx. by apply dec_stable. }
  destruct (finish_all (dp_scheduler c) pre _ (ci_sys _ _ _ Hinv) Hndp Htp Hpre') as (s' & Hfin & Huntil & Hinv' & Hrel).
  assert (Hstop : finish_req (in_flight_reqs c ∖ list_to_set pre, s') id = Raise KeyError)
    by (unfold finish_req; cbn [fst]; rewrite bool_decide_false by set_solver; done).
  split.
  - unfold run_task. rewrite Hts. unfold process_finished_results. simpl. rewrite Hsplit, py_for_app, Hfin.
    cbn [mbind res_bind py_for]. by rewrite Hstop.
  - unfold task_aborted. rewrite Hts, Hsplit, Huntil. cbn [finish_until]. rewrite Hstop. cbn [fst snd].
    apply ctrl_inv_release; [done|done| |done|done| |].
    + exists (id :: post). rewrite Hts. cbn [concat]. by rewrite fmap_app, Hsplit, <-!app_assoc.
    + pose proof (ci_results _ _ _ Hinv). set_solver.
    + intros ->. exfalso. apply Forall_cons in Hti as [Hti _].
      pose proof (ci_held _ _ _ Hinv id (or_intror Hti)). set_solver.
Qed.

Lemma ctrl_inv_reset l F c : ctrl_inv l F c -> ctrl_inv l (F ∪ in_flight_reqs c) (controller_reset c).
Proof.
  intros [Hsys Hflt Hheld Hdis Hres Hex Hfresh Hstep Htasks Hpend Hq].
  split; cbn [controller_reset dp_scheduler in_flight_reqs request_results req_id_generator tokenizer tasks]; try done;
    set_solver.
Qed.

Lemma ctrl_inv_stop l F c : ctrl_inv l F c -> ctrl_inv l F (stop_scheduler c).
Proof.
  intros [Hsys Hflt Hheld Hdis Hres Hex Hfresh Hstep Htasks Hpend Hq].
  pose proof (sys_inv_step _ _ _ _ Hsys (step_terminate _)) as Hsys'. split; done.
Qed.

Lemma ctrl_inv_step l F c l' F' c' :
  ctrl_inv l F c -> ctrl_step c l' F' c' -> ctrl_inv (l ++ l') (F ∪ F') c'.
Proof.
  intros Hinv Hs.
  destruct Hs as [c i o t id c' Hp He Hput|now c c' Hs|c rs Hnd Hr|c d c' Hrun|c e Hrun|c|c];
    rewrite ?app_nil_r, ?union_empty_r_L.
  - by eapply ctrl_inv_put.
  - by eapply ctrl_inv_schedule.
  - by apply ctrl_inv_poll.
  - destruct (tasks c) as [|rs ts] eqn:Hts; [unfold run_task in Hrun; by rewrite Hts in Hrun|].
    destruct (decide (Forall (fun id => id ∈ in_flight_reqs c) (slo_req_id <$> rs))) as [Hf|Hf].
    + destruct (ctrl_inv_task _ _ _ _ _ Hinv Hts Hf) as (d1 & c1 & Hr & Hi & _). rewrite Hrun in Hr. by simplify_eq.
    + destruct (ctrl_inv_abort _ _ _ _ _ Hinv Hts Hf) as [Hr _]. congruence.
  - destruct (tasks c) as [|rs ts] eqn:Hts; [unfold run_task in Hrun; by rewrite Hts in Hrun|].
    destruct (decide (Forall (fun id => id ∈ in_flight_reqs c) (slo_req_id <$> rs))) as [Hf|Hf].
    + destruct (ctrl_inv_task _ _ _ _ _ Hinv Hts Hf) as (d1 & c1 & Hr & _). congruence.
    + by destruct (ctrl_inv_abort _ _ _ _ _ Hinv Hts Hf).
  - by apply ctrl_inv_reset.
  - by apply ctrl_inv_stop.
Qed.

Lemma ctrl_inv_init (y : Sys P) :
  started cap y -> ctrl_inv [] ∅ (controller_init y (dp_size (sched y))).
Proof.
  intros Hst. pose proof (started_inv _ _ Hst) as Hinv.
  destruct Hst as (_ & _ & _ & Hsr & _ & Hwq & Hpc & Hsub).
  assert (Hpi : pending_items y = []) by (unfold pending_items; by rewrite Hpc, Hwq).
  split; cbn [controller_init dp_scheduler in_flight_reqs request_results req_id_generator tokenizer tasks];
    rewrite ?Hpi, ?Hsr; try done.
  - intros id. rewrite lookup_empty. intros [Hi|[? ?]]; [set_solver|done].
  - rewrite Hsub. simpl. set_solver.
  - split; constructor.
  - simpl. rewrite replicate_tab. apply tab_ext. intros i _. unfold queue_of. by rewrite Hsub.
Qed.

Lemma ctrl_run_inv y l F c :
  started cap y -> ctrl_run (controller_init y (dp_size (sched y))) l F c -> ctrl_inv l F c.
Proof.
  intros Hst Hrun. remember (controller_init y (dp_size (sched y))) as c0 eqn:E0.
  induction Hrun as [c|c1 c2 c3 l1 l2 F1 F2 Hrun IH Hs]; [subst; by apply ctrl_inv_init|].
  eapply ctrl_inv_step; [by apply IH|done].
Qed.


(** A task never releases a request that is not in flight. *)
Lemma finish_until_keeps ids (st : gset Z * DPScheduler P) id :
  id ∉ st.1 -> is_Some (seq_ranks st.2 !! id) ->
  is_Some (seq_ranks (finish_until ids st).2 !! id).
Proof.
  revert st. induction ids as [|x ids IH]; intros [fl s] Hfl Hr; [done|]. cbn [finish_until].
  destruct (finish_req (fl, s) x) as [[fl1 s1]|] eqn:Hone; [|done]. unfold finish_req in Hone.
  cbn [fst snd] in *. apply bind_Ok in Hone as (u & Hin & Hone). apply py_check_Ok, bool_decide_eq_true in Hin.
  apply bind_Ok in Hone as (s2 & Hd & Hone). injection Hone as <- <-. apply IH; simpl; [set_solver|].
  destruct (del_seq_frame _ _ _ Hd) as (_ & _ & _ & _ & _ & -> & _). rewrite lookup_delete_ne; [done|].
  by intros ->.
Qed.

Lemma finish_until_Ok ids (st st' : gset Z * DPScheduler P) :
  py_for finish_req ids st = Ok st' -> finish_until ids st = st'.
Proof.
  revert st. induction ids as [|x ids IH]; intros st Hrun; [by injection Hrun as <-|].
  cbn [py_for] in Hrun. apply bind_Ok in Hrun as (st1 & Hone & Hrun). cbn [finish_until]. rewrite Hone. by apply IH.
Qed.

Lemma forgotten_step l F c l' F' c' id :
  ctrl_inv l F c -> id ∈ F -> is_Some (seq_ranks (sched (dp_scheduler c)) !! id) ->
  ctrl_step c l' F' c' -> is_Some (seq_ranks (sched (dp_scheduler c')) !! id).
Proof.
  intros Hinv HF Hr Hs.
  assert (Hfl : id ∉ in_flight_reqs c) by (pose proof (ci_disjoint _ _ _ Hinv); set_solver).
  destruct Hs as [c i o t rid c' Hp He Hput|now c c' Hs|c rs Hnd Hrs|c d c' Hrun|c e Hrun|c|c]; try done.
  - unfold put_single_request, get_new_req_id, counter_next in Hput. by injection Hput as _ <-.
  - unfold scheduler_step in Hs. destruct (loop_step (dp_scheduler c)) as [[y'|e]|] eqn:Hl; [|done|done].
    injection Hs as Hs. cbn [mbind res_bind] in Hs. apply bind_Ok in Hs as (tk & _ & Hs). injection Hs as <-. cbn.
    destruct (loop_cases _ _ (ci_sys _ _ _ Hinv) Hl) as (_ & _ & [(it & rk & _ & _ & -> & _)|(-> & _)]); [|done].
    apply lookup_insert_is_Some'. by right.
  - unfold run_task in Hrun. destruct (tasks c) as [|rs ts]; [done|]. injection Hrun as Hrun.
    unfold process_finished_results in Hrun. simpl in Hrun. apply bind_Ok in Hrun as ([fl s] & Hf & Hrun).
    apply bind_Ok in Hrun as ([rr dl] & _ & Hrun). injection Hrun as _ <-. simpl.
    apply finish_until_Ok in Hf. pose proof (finish_until_keeps (slo_req_id <$> rs) (in_flight_reqs c, sched (dp_scheduler c)) id).
    rewrite Hf in *. auto.
  - unfold task_aborted. destruct (tasks c) as [|rs ts]; [done|]. by apply finish_until_keeps.
Qed.

(** [reset] forgets the requests in flight but not their reservations: a request
    that held blocks when the controller was reset holds them in every later
    state. *)
Theorem controller_reset_leaks (y : Sys P) (l : list (Z * option (list Z))) F c c' (id : Z) l' F' :
  started cap y -> ctrl_run (controller_init y (dp_size (sched y))) l F c ->
  id ∈ in_flight_reqs c -> is_Some (seq_ranks (sched (dp_scheduler c)) !! id) ->
  ctrl_run (controller_reset c) l' F' c' ->
  is_Some (seq_ranks (sched (dp_scheduler c')) !! id).
Proof.
  intros Hst Hrun Hid Hr Hrun'. pose proof (ctrl_run_inv _ _ _ _ Hst Hrun) as Hinv.
  apply ctrl_inv_reset in Hinv. set (c0 := controller_reset c) in *.
  enough (ctrl_inv (l ++ l') (F ∪ in_flight_reqs c ∪ F') c' /\ is_Some (seq_ranks (sched (dp_scheduler c')) !! id))
    as [_ ?] by done.
  assert (Hr0 : is_Some (seq_ranks (sched (dp_scheduler c0)) !! id)) by done. clearbody c0. clear Hrun Hr.
  assert (HF : id ∈ F ∪ in_flight_reqs c) by set_solver. clear Hid. revert HF Hinv. generalize (F ∪ in_flight_reqs c).
  clear c F Hst. intros F HF Hinv. induction Hrun' as [c|c1 c2 c3 l1 l2 F1 F2 Hrun IH Hs].
  { by rewrite app_nil_r, union_empty_r_L. }
  destruct IH as [Hinv2 Hr2]; [done..|]. rewrite app_assoc, union_assoc_L. split; [by eapply ctrl_inv_step|].
  eapply forgotten_step; [exact Hinv2| |done|done]. set_solver.
Qed.
End Requests.

(** ** Communication ids *)

Section NcclPairs.
Context {U : Type} (uid : nat -> U).

Definition lookup2 (d : list (Z * list (Z * U))) (a b : Z) : option U := dget d a ≫= fun row => dget row b.

(** The edges in the order they are visited. *)
Definition edges_of (pl : ModelPlacement) : list (Z * Z) :=
  out_device_ids pl ≫= fun x => (fun j => (x.1, j)) <$> x.2.

(** The id of an edge is that of its position. *)
Definition edge_uid (pre : list (Z * Z)) (e : Z * Z) : option U :=
  uid ∘ fst <$> list_find (fun e' => e' = e) pre.

Lemma edge_uid_snoc pre e e' :
  e ∉ pre -> edge_uid (pre ++ [e]) e' = if decide (e' = e) then Some (uid (length pre)) else edge_uid pre e'.
Proof.
  intros Hn. unfold edge_uid. destruct (list_find (fun x => x = e') pre) as [[k x]|] eqn:E.
  - rewrite (list_find_app_l _ _ _ _ _ E). apply list_find_Some in E as (Hk & -> & _).
    rewrite decide_False; [done|]. intros ->. apply Hn. by eapply list_elem_of_lookup_2.
  - rewrite list_find_app_r by done. simpl. case_decide as H1.
    + by rewrite decide_True.
    + by rewrite decide_False by congruence.
Qed.

Lemma edge_uid_lookup pre n e : NoDup pre -> pre !! n = Some e -> edge_uid pre e = Some (uid n).
Proof.
  intros Hnd Hn. unfold edge_uid. erewrite (proj2 (list_find_Some _ _ n e)); [done|].
  split; [done|]. split; [done|]. intros j y Hj Hlt ->. by pose proof (NoDup_lookup _ _ _ _ Hnd Hn Hj); lia.
Qed.

Lemma edge_uid_None pre e : e ∉ pre -> edge_uid pre e = None.
Proof.
  intros Hn. unfold edge_uid. rewrite (proj2 (list_find_None _ _)); [done|].
  apply Forall_forall. by intros x Hx ->.
Qed.

Lemma lookup2_set d a row b (u : U) a' b' :
  dget d a = Some row ->
  lookup2 (dset d a (dset row b u)) a' b' = if decide (a' = a /\ b' = b) then Some u else lookup2 d a' b'.
Proof.
  intros Ha. unfold lookup2. rewrite dget_dset. destruct (decide (a = a')) as [<-|Hne].
  - rewrite Ha. simpl. rewrite dget_dset. repeat case_decide; naive_solver.
  - rewrite decide_False by naive_solver. done.
Qed.

(** Both ends of a connection get the same communication id, the [n]-th edge the
    [n]-th id that was drawn, and no id is handed out for a pair of devices without
    an edge. *)
Theorem nccl_ids_paired (pl : ModelPlacement) :
  NoDup (edges_of pl) ->
  (forall i j, (i, j) ∈ edges_of pl -> j ∈ dkeys (in_device_ids pl)) ->
  exists inb outb, get_pairwise_nccl_ids uid pl = Ok (inb, outb) /\
    (forall n i j, edges_of pl !! n = Some (i, j) ->
       lookup2 inb j i = Some (uid n) /\ lookup2 outb i j = Some (uid n)) /\
    (forall i j, (i, j) ∉ edges_of pl -> lookup2 inb j i = None /\ lookup2 outb i j = None).
Proof.
  intros Hnd Hin. unfold get_pairwise_nccl_ids.
  rewrite (py_for_nest (nccl_edge uid) (fun x : Z * list Z => (fun j => (x.1, j)) <$> x.2)).
  fold (edges_of pl).
  set (empty := fun x : Z * list Z => (x.1, @nil (Z * U))).
  assert (He : forall d a b, lookup2 (empty <$> d) a b = None).
  { intros d a b. unfold lookup2. induction d as [|x d IH]; [done|]. simpl. by case_decide. }
  assert (Hk : forall d a, a ∈ dkeys d -> is_Some (dget (empty <$> d) a)).
  { intros d a Ha. apply dget_Some_keys. unfold dkeys in *. by rewrite <-list_fmap_compose. }
  assert (Hout : forall i j, (i, j) ∈ edges_of pl -> i ∈ dkeys (out_device_ids pl)).
  { intros i j Hij. unfold edges_of in Hij. apply list_elem_of_bind in Hij as (x & Hx & Hij).
    apply list_elem_of_fmap in Hx as (j' & [= -> ->] & _). apply list_elem_of_fmap. eauto. }
  destruct (py_for_total (fun pre st => st.1.1 = length pre /\
      (forall i j, lookup2 st.1.2 j i = edge_uid pre (i, j) /\ lookup2 st.2 i j = edge_uid pre (i, j)) /\
      (forall i j, (i, j) ∈ edges_of pl -> is_Some (dget st.1.2 j) /\ is_Some (dget st.2 i)))
    (nccl_edge uid) (edges_of pl) (O, empty <$> in_device_ids pl, empty <$> out_device_ids pl))
    as ([[k inb] outb] & -> & Hk' & Hl & _).
  - split; [done|]. split; [intros i j; split; apply He|]. intros i j Hij. split; apply Hk; eauto.
  - intros pre [i j] post [[k inb] outb] Heq (Hk' & Hl & Hd). cbn [fst snd] in *.
    assert (Hij : (i, j) ∈ edges_of pl) by (rewrite Heq; set_solver).
    assert (Hnp : (i, j) ∉ pre).
    { rewrite Heq in Hnd. apply NoDup_app in Hnd as (_ & Hdis & _). intros Hp. apply (Hdis _ Hp). left. }
    destruct (Hd _ _ Hij) as [[ri Hri] [ro Hro]]. unfold nccl_edge. rewrite Hri. cbn [of_option mbind res_bind].
    rewrite Hro. cbn [of_option mbind res_bind]. eexists. split; [done|]. cbn [fst snd]. subst k.
    split; [rewrite length_app; simpl; lia|]. split.
    + intros a b. rewrite edge_uid_snoc by done. rewrite (lookup2_set _ _ _ _ _ _ _ Hri), (lookup2_set _ _ _ _ _ _ _ Hro).
      destruct (Hl a b) as [-> ->]. split; apply decide_ext; naive_solver.
    + intros a b Hab. destruct (Hd _ _ Hab). rewrite !dget_dset. repeat case_decide; eauto.
  - cbn [mbind res_bind]. eexists _, _. split; [done|]. cbn [fst snd] in *. split.
    + intros n i j Hn. destruct (Hl i j) as [-> ->]. by rewrite (edge_uid_lookup _ n).
    + intros i j Hn. destruct (Hl i j) as [-> ->]. by rewrite edge_uid_None.
Qed.
End NcclPairs.

(** ** Device ids *)

Section Devices.
Context (n_gpu_per_node : Z).

Definition ip_count (ip : string) (l : list string) : Z := zlen (filter (fun x => x = ip) l).

Lemma ip_count_snoc ip l x : ip_count ip (l ++ [x]) = ip_count ip l + (if decide (x = ip) then 1 else 0).
Proof.
  unfold ip_count. rewrite filter_app, zlen_app, filter_cons, filter_nil. by case_decide.
Qed.

Lemma ip_count_lt ip l i j :
  (i < j)%nat -> l !! i = Some ip -> ip_count ip (take i l) < ip_count ip (take j l).
Proof.
  intros Hij Hi. replace (take j l) with (take i l ++ ip :: drop (S i) (take j l)).
  - unfold ip_count. rewrite filter_app, zlen_app, filter_cons, decide_True, zlen_cons by done.
    pose proof (zlen_nonneg (filter (fun x => x = ip) (drop (S i) (take j l)))). lia.
  - assert (Hl : take j l !! i = Some ip) by (by rewrite lookup_take_lt).
    rewrite <-(take_drop_middle (take j l) i ip Hl) at 2. by rewrite take_take, Nat.min_l by lia.
Qed.

Lemma ip_count_take ip l i : ip_count ip (take i l) <= ip_count ip l.
Proof.
  rewrite <-(take_drop i l) at 2. unfold ip_count. rewrite filter_app, zlen_app.
  pose proof (zlen_nonneg (filter (fun x => x = ip) (drop i l))). lia.
Qed.

(** After the workers [pre]: counts per address, injective node numbers, and the
    device ids given so far. *)
Record devices_inv (pre : list string) (st : list (string * Z) * list (string * Z) * list Z) : Prop := {
  di_count : forall ip, dget_or st.1.1 ip 0 = ip_count ip pre;
  di_node : forall ip, dmem st.1.2 ip = true <-> ip ∈ pre;
  di_inj : forall a b x, dget st.1.2 a = Some x -> dget st.1.2 b = Some x -> a = b;
  di_range : forall a x, dget st.1.2 a = Some x -> 0 <= x < zlen st.1.2;
  di_len : length st.2 = length pre;
  di_ids : forall k ip, pre !! k = Some ip -> exists nd, dget st.1.2 ip = Some nd /\
    st.2 !! k = Some (nd * n_gpu_per_node + ip_count ip (take k pre));
}.

Lemma dmem_false {V} (d : list (string * V)) k : dmem d k = false -> dget d k = None.
Proof. unfold dmem. intros Hd%bool_decide_eq_false. by apply eq_None_not_Some. Qed.

Lemma zlen_dset_new {V} (d : list (string * V)) k v : dget d k = None -> zlen (dset d k v) = zlen d + 1.
Proof.
  intros Hn. pose proof (dkeys_dset_new d k v Hn) as Hk. apply (f_equal length) in Hk.
  unfold dkeys in Hk. rewrite length_app, !length_fmap in Hk. simpl in Hk. unfold zlen. lia.
Qed.

Lemma device_of_step pre ip st :
  devices_inv pre st -> exists st', device_of n_gpu_per_node st ip = Ok st' /\ devices_inv (pre ++ [ip]) st'.
Proof.
  destruct st as [[cnt nodes] ids]. intros [Hc Hn Hinj Hrg Hlen Hids]. cbn [fst snd] in *.
  unfold device_of. set (nodes' := if dmem nodes ip then nodes else dset nodes ip (zlen nodes)).
  assert (Hnew : exists nd, dget nodes' ip = Some nd).
  { unfold nodes'. destruct (dmem nodes ip) eqn:E; [|rewrite dget_dset_eq; eauto].
    unfold dmem in E. by apply bool_decide_eq_true in E. }
  assert (Hold : forall a x, dget nodes a = Some x -> dget nodes' a = Some x).
  { intros a x Ha. unfold nodes'. destruct (dmem nodes ip) eqn:E; [done|]. apply dmem_false in E.
    rewrite dget_dset, decide_False; [done|]. intros ->. congruence. }
  assert (Hcases : forall a x, dget nodes' a = Some x ->
    dget nodes a = Some x \/ a = ip /\ x = zlen nodes /\ dget nodes ip = None).
  { intros a x. unfold nodes'. destruct (dmem nodes ip) eqn:E; [auto|]. apply dmem_false in E.
    rewrite dget_dset. case_decide; [intros [= <-]; auto|auto]. }
  assert (Hz : zlen nodes <= zlen nodes' /\ (dget nodes ip = None -> zlen nodes' = zlen nodes + 1)).
  { unfold nodes'. destruct (dmem nodes ip) eqn:E.
    - split; [lia|]. unfold dmem in E. apply bool_decide_eq_true in E as [? ?]. congruence.
    - apply dmem_false in E. rewrite zlen_dset_new by done. lia. }
  destruct Hnew as [nd Hnd]. rewrite Hnd. cbn [of_option mbind res_bind]. eexists. split; [done|].
  split; cbn [fst snd].
  - intros a. rewrite ip_count_snoc, <-!Hc. unfold dget_or. rewrite dget_dset. case_decide; [by subst|]. lia.
  - intros a. rewrite elem_of_app, list_elem_of_singleton, <-Hn. unfold dmem. rewrite !bool_decide_eq_true. split.
    + intros [x Hx]. apply Hcases in Hx as [Hx|(-> & _)]; [left; eauto|by right].
    + intros [[x Hx]| ->]; eauto.
  - intros a b x Ha Hb. apply Hcases in Ha as [Ha|(-> & -> & Ha)], Hb as [Hb|(-> & Hx & Hb)]; try done.
    + by eapply Hinj.
    + apply Hrg in Ha. lia.
    + apply Hrg in Hb. lia.
  - intros a x Ha. destruct Hz as [Hz1 Hz2]. pose proof (zlen_nonneg nodes).
    apply Hcases in Ha as [Ha|(-> & -> & Ha)]; [apply Hrg in Ha; lia|]. rewrite Hz2 by done. lia.
  - rewrite !length_app. simpl. lia.
  - intros k a Hk. destruct (decide (k < length pre)%nat) as [Hlt|Hge].
    + rewrite lookup_app_l in Hk by done. destruct (Hids k a Hk) as (x & Hx & Hi). exists x. split; [auto|].
      rewrite lookup_app_l by lia. by rewrite take_app_le by lia.
    + rewrite lookup_app_r in Hk by lia. destruct (k - length pre)%nat as [|m] eqn:Em; [|done].
      injection Hk as <-. exists nd. split; [done|]. assert (k = length pre) as -> by lia.
      rewrite lookup_app_r by lia. rewrite Hlen, Nat.sub_diag. simpl. rewrite take_app_length. by rewrite Hc.
Qed.

(** When no host runs more workers than it has devices, the workers get distinct
    device ids, and two of them are on the same node, [id / n_gpu_per_node], exactly
    when they run on the same host. *)
Theorem device_ids_distinct (ips : list string) :
  0 < n_gpu_per_node -> (forall ip, ip_count ip ips <= n_gpu_per_node) ->
  exists ids, _create_engines n_gpu_per_node ips = Ok ids /\ length ids = length ips /\ NoDup ids /\
    forall i j a b x y, ips !! i = Some a -> ips !! j = Some b -> ids !! i = Some x -> ids !! j = Some y ->
      (x / n_gpu_per_node = y / n_gpu_per_node <-> a = b).
Proof.
  intros Hn Hcap. unfold _create_engines.
  destruct (py_for_total devices_inv (device_of n_gpu_per_node) ips ([], [], [])) as ([[cnt nodes] ids] & -> & Hinv).
  { split; try done. - intros ip. split; [done|]. intros Hin. inversion Hin. }
  { intros pre ip post st _ Hst. by apply device_of_step. }
  destruct Hinv as [_ _ Hinj Hrg Hlen Hids]. cbn [fst snd mbind res_bind] in *. exists ids. split; [done|].
  split; [done|].
  assert (Hat : forall k a, ips !! k = Some a -> 0 <= ip_count a (take k ips) < n_gpu_per_node).
  { intros k a Hk. split; [apply zlen_nonneg|]. specialize (Hcap a).
    assert (Hkl : (k < length ips)%nat) by (by eapply lookup_lt_Some).
    pose proof (ip_count_lt a ips k (length ips) Hkl Hk) as Hl. rewrite (take_ge ips (length ips)) in Hl by lia. lia. }
  assert (Hdiv : forall k a x, ips !! k = Some a -> ids !! k = Some x ->
    exists nd, dget nodes a = Some nd /\ x / n_gpu_per_node = nd /\ x mod n_gpu_per_node = ip_count a (take k ips)).
  { intros k a x Hk Hx. destruct (Hids k a Hk) as (nd & Hnd & Hi). simplify_eq. exists nd. specialize (Hat k a Hk).
    split; [done|]. split.
    - rewrite Z.add_comm, Z.div_add, Z.div_small by lia. lia.
    - rewrite Z.add_comm, Z.mod_add, Z.mod_small by lia. done. }
  split.
  - apply NoDup_alt. intros i j x Hi Hj.
    destruct (lookup_lt_is_Some_2 ips i) as [a Ha]; [apply lookup_lt_Some in Hi; lia|].
    destruct (lookup_lt_is_Some_2 ips j) as [b Hb]; [apply lookup_lt_Some in Hj; lia|].
    destruct (Hdiv i a x Ha Hi) as (nd & Hnd & Hd & Hm), (Hdiv j b x Hb Hj) as (nd' & Hnd' & Hd' & Hm').
    assert (a = b) as <- by (eapply Hinj; [exact Hnd|congruence]).
    destruct (Nat.lt_trichotomy i j) as [Hlt|[->|Hlt]]; [|done|].
    + pose proof (ip_count_lt a ips i j Hlt Ha). lia.
    + pose proof (ip_count_lt a ips j i Hlt Hb). lia.
  - intros i j a b x y Ha Hb Hx Hy.
    destruct (Hdiv i a x Ha Hx) as (nd & Hnd & -> & _), (Hdiv j b y Hb Hy) as (nd' & Hnd' & -> & _). split.
    + intros ->. by eapply Hinj.
    + intros ->. congruence.
Qed.
End Devices.

(** ** Concrete runs *)

Lemma nccl_ids_paired_witness :
  exists inb outb, get_pairwise_nccl_ids (fun n => Z.of_nat n)
      (with_edges [(1, [0]); (0, [1])] [(0, [1]); (1, [0])] (make_placement [] [] None None false))
    = Ok (inb, outb) /\ lookup2 inb 1 0 = Some 0 /\ lookup2 outb 0 1 = Some 0.
Proof.
  destruct (nccl_ids_paired (fun n => Z.of_nat n)
    (with_edges [(1, [0]); (0, [1])] [(0, [1]); (1, [0])] (make_placement [] [] None None false)))
    as (i & o & Hr & He & _).
  - apply (bool_decide_unpack _). vm_compute. exact I.
  - intros i j Hij. cbn in Hij. repeat setoid_rewrite elem_of_cons in Hij. cbn. set_solver.
  - exists i, o. split; [exact Hr|]. exact (He 0%nat 0 1 eq_refl).
Defined.

Lemma device_ids_distinct_witness :
  exists ids, _create_engines 2 ["a"; "b"; "a"]%string = Ok ids /\ NoDup ids.
Proof.
  destruct (device_ids_distinct 2 ["a"; "b"; "a"]%string) as (ids & Hr & _ & Hn & _).
  - reflexivity.
  - intros ip. unfold ip_count, zlen. rewrite !filter_cons, filter_nil.
    destruct (decide ("a"%string = ip)) as [<-|]; simpl; [lia|]. destruct (decide _); simpl; lia.
  - exists ids. split; [exact Hr|exact Hn].
Defined.

(** Two ranks of four blocks of 16 tokens; one request is put and placed. *)
Definition ex_ctrl0 : Controller DPSchedulerCapRR := controller_init ex_sys 2.
Definition ex_ctrl1 : Controller DPSchedulerCapRR := (put_single_request 32 16 (Some [7; 8]) ex_ctrl0).2.
Definition ex_ctrl2 : Controller DPSchedulerCapRR :=
  match scheduler_step (float_of_Z 0) ex_ctrl1 with Some (Ok c) => c | _ => ex_ctrl1 end.

Lemma ex_ctrl_run2 : ctrl_run (controller_init ex_sys (dp_size (sched ex_sys))) [(1, Some [7; 8])] (∅ ∪ ∅ ∪ ∅) ex_ctrl2.
Proof.
  apply (crun_snoc _ ex_ctrl1 _ [(1, Some [7; 8])] [] (∅ ∪ ∅) ∅).
  - apply (crun_snoc _ ex_ctrl0 _ [] [(1, Some [7; 8])] ∅ ∅); [apply crun_nil|].
    eapply (ctrl_put _ 32 16 (Some [7; 8])); vm_compute; reflexivity.
  - apply (ctrl_schedule (float_of_Z 0)). vm_compute. reflexivity.
Qed.




Lemma controller_reset_leaks_witness :
  is_Some (seq_ranks (sched (dp_scheduler (controller_reset ex_ctrl2))) !! 1).
Proof.
  apply (controller_reset_leaks [4; 4] ex_sys [(1, Some [7; 8])] (∅ ∪ ∅ ∪ ∅) ex_ctrl2 (controller_reset ex_ctrl2) 1 [] ∅).
  - exact ex_started.
  - exact ex_ctrl_run2.
  - apply (bool_decide_unpack _). vm_compute. exact I.
  - vm_compute. eexists. reflexivity.
  - apply crun_nil.
Defined.

End Controller.
