(* ===== verification/Gate.v ===== *)
(** * The profile-driven router ([models/gate.py])

    The gate of an attention layer does not compute a routing: it looks up the one
    recorded in a profile.  Loading sorts the profile by layer, request and token
    and keeps the expert columns as one table; [route] computes the row of each
    token.  The file proves that on a complete profile the row found is the one
    recorded for the token, and for which profiles the ids, projected onto fewer experts
    or not, are those of experts that exist.

    Parsing a Parquet file is pyarrow's; the table is a value of [Profile]. *)

From stdpp Require Import strings.
From Corelib Require Import SpecFloat.
From S2P Require Import Prelude PyFloat.

Module Gate.

(** ** The profile *)

(** A row; [experts] are its expert columns. *)
Record Row : Type := { rid : Z; token_index : Z; layer : Z; experts : list Z }.

Record Profile : Type := { column_names : list string; rows : list Row }.

Record ProfileDrivenRouter : Type := {
  num_experts : Z;
  top_k : Z;
  layer_id : option Z;
  num_profiled_requests : Z;
  num_layers : Z;
  tokens_per_request : list Z;
  token_prefix_sum : list Z;
  total_tokens_per_layer : Z;
  routing_data : list (list Z);
  uniform_weight : float;
}.

(** ** Loading *)

(** The columns whose name starts with [expert_logical_k]. *)
Definition expert_columns (p : Profile) : list string :=
  filter (fun c => String.prefix "expert_logical_k" c = true) (column_names p).

(** [np.unique] of the expert columns, the placeholders left out. *)
Definition unique_experts (p : Profile) : list Z :=
  filter (fun e => 0 <= e) (remove_dups (concat (experts <$> rows p))).

(** How many profiled experts make one expert of the system. *)
Definition project_group (num_unique_experts num : Z) : res (option Z) :=
  if num_unique_experts =? num then Ok None
  else if num_unique_experts >? num then
    m ← py_mod num_unique_experts num;
    if m =? 0 then Ok (Some (num_unique_experts / num)) else Raise ValueError
  else Raise ValueError.

Definition project (g : option Z) (es : list Z) : list Z :=
  match g with
  | None => es
  | Some g => (fun e => if 0 <=? e then e / g else e) <$> es
  end.

(** [df.groupby("rid")["token_index"].nunique()], in the order of the ids. *)
Definition token_counts (df : list Row) : list (Z * Z) :=
  (fun r => (r, zlen (remove_dups (token_index <$> filter (fun x => rid x = r) df))))
  <$> merge_sort Z.le (remove_dups (rid <$> df)).

Definition set_count (tokens_per_req : list Z) (x : Z * Z) : res (list Z) :=
  py_set tokens_per_req x.1 x.2.

(** [torch.cumsum] *)
Fixpoint cumsum (acc : Z) (l : list Z) : list Z :=
  match l with
  | [] => []
  | x :: l => acc + x :: cumsum (acc + x) l
  end.

(** The order of [sort_values(["layer", "rid", "token_index"])]. *)
Definition row_le (a b : Row) : Prop :=
  layer a < layer b \/
  layer a = layer b /\ (rid a < rid b \/ rid a = rid b /\ token_index a <= token_index b).

#[export] Instance row_le_dec a b : Decision (row_le a b).
Proof. unfold row_le. apply _. Defined.

#[export] Instance row_le_total : Total row_le.
Proof. intros a b. unfold row_le. lia. Qed.

#[export] Instance row_le_trans : Transitive row_le.
Proof. intros a b c. unfold row_le. lia. Qed.

Definition max_layer (df : list Row) : res Z :=
  match layer <$> df with [] => Raise ValueError | x :: l => Ok (foldl Z.max x l) end.

Definition _load_profile (num k : Z) (lid : option Z) (p : Profile) : res ProfileDrivenRouter :=
  _ ← py_check (bool_decide ("rid"%string ∈ column_names p)) ValueError;
  _ ← py_check (bool_decide ("token_index"%string ∈ column_names p)) ValueError;
  _ ← py_check (bool_decide ("layer"%string ∈ column_names p)) ValueError;
  _ ← py_check (negb (zlen (expert_columns p) =? 0)) ValueError;
  _ ← py_check (zlen (expert_columns p) =? k) ValueError;
  g ← project_group (zlen (unique_experts p)) num;
  let df := match lid with None => rows p | Some l => filter (fun x => layer x = l) (rows p) end in
  let requests := zlen (remove_dups (rid <$> df)) in
  layers ← match lid with Some _ => Ok 1 | None => l ← max_layer df; Ok (l + 1) end;
  tokens_per_req ← py_for set_count (token_counts df) (replicate (Z.to_nat requests) 0);
  let prefix := 0 :: cumsum 0 tokens_per_req in
  total ← py_get prefix (-1);
  Ok {| num_experts := num; top_k := k; layer_id := lid; num_profiled_requests := requests;
        num_layers := layers; tokens_per_request := tokens_per_req; token_prefix_sum := prefix;
        total_tokens_per_layer := total;
        routing_data := (fun x => project g (experts x)) <$> merge_sort row_le df;
        uniform_weight := if k >? 1 then fdiv (float_of_Z 1) (float_of_Z k) else float_of_Z 1 |}.

(** [read_table] is pyarrow's; [None] is an exception of it. *)
Definition router_init (read_table : list Byte.byte -> option Profile) (profile_bytes : list Byte.byte)
    (num k : Z) (lid : option Z) : res ProfileDrivenRouter :=
  _ ← py_check (negb (zlen profile_bytes =? 0)) ValueError;
  p ← of_option RuntimeError (read_table profile_bytes);
  _load_profile num k lid p.

(** ** Routing *)

(** The callers pass the request ids as a tensor or as a Python list. *)
Inductive Ids : Type := Tensor (l : list Z) | PyList (l : list Z).

(** [ids % n]: defined on tensors only. *)
Definition mod_ids (ids : Ids) (n : Z) : res (list Z) :=
  match ids with
  | PyList _ => Raise TypeError
  | Tensor l => py_map (fun r => py_mod r n) l
  end.

(** The row of the table for one token. *)
Definition flat_index (rt : ProfileDrivenRouter) (layer_idx : Z) (x : Z * Z) : res Z :=
  let '(mapped_rid, tok) := x in
  n ← py_get (tokens_per_request rt) mapped_rid;
  mapped_tok ← py_mod tok n;
  base ← py_get (token_prefix_sum rt) mapped_rid;
  match layer_id rt with
  | Some _ => Ok (base + mapped_tok)
  | None => Ok (layer_idx * total_tokens_per_layer rt + base + mapped_tok)
  end.

(** The weights and the expert ids of the tokens. *)
Definition route (rt : ProfileDrivenRouter) (request_ids : Ids) (token_indices : list Z) (layer_idx k : Z)
    : res (list (list float) * list (list Z)) :=
  _ ← py_check (k =? top_k rt) ValueError;
  mapped_rid ← mod_ids request_ids (num_profiled_requests rt);
  flat_idx ← py_map (flat_index rt layer_idx) (zip mapped_rid token_indices);
  topk_ids ← py_map (py_get (routing_data rt)) flat_idx;
  Ok (replicate (length topk_ids) (replicate (Z.to_nat k) (uniform_weight rt)), topk_ids).

(** ** A complete profile

    [grid ls Ts f] has, for every layer of [ls], every request [r] and every token
    position below [Ts[r]], the row with the experts [f layer r token]. *)

Section Complete.
Context (f : Z -> Z -> Z -> list Z).

Definition grid_row (l r t : Z) : Row := {| rid := r; token_index := t; layer := l; experts := f l r t |}.
Definition request_rows (l : Z) (x : Z * Z) : list Row := grid_row l x.1 <$> py_range x.2.
Definition layer_rows (Ts : list Z) (l : Z) : list Row := concat (request_rows l <$> enumerate Ts).
Definition grid (ls Ts : list Z) : list Row := concat (layer_rows Ts <$> ls).

Lemma elem_of_grid ls Ts x :
  x ∈ grid ls Ts <-> exists l r n t, l ∈ ls /\ 0 <= r /\ Ts !! Z.to_nat r = Some n /\ 0 <= t < n /\ x = grid_row l r t.
Proof.
  unfold grid, layer_rows, request_rows. rewrite list_elem_of_In, in_concat. setoid_rewrite <-list_elem_of_In.
  setoid_rewrite list_elem_of_fmap. split.
  - intros (xs & (l & -> & Hl) & Hx). apply list_elem_of_In, in_concat in Hx as (ys & Hys & Hx).
    apply list_elem_of_In, list_elem_of_fmap in Hys as ([r n] & -> & Hr). apply list_elem_of_In, list_elem_of_fmap in Hx as (t & -> & Ht).
    apply elem_of_enumerate in Hr as [Hr Hn]. apply elem_of_py_range in Ht. exists l, r, n, t. done.
  - intros (l & r & n & t & Hl & Hr & Hn & Ht & ->). eexists. split; [by exists l|].
    apply list_elem_of_In, in_concat. eexists. split; [apply list_elem_of_In, list_elem_of_fmap; exists (r, n); split; [done|by apply elem_of_enumerate]|].
    apply list_elem_of_In, list_elem_of_fmap. exists t. split; [done|]. by apply elem_of_py_range.
Qed.

Lemma cumsum_length a l : length (cumsum a l) = length l.
Proof. revert a. induction l as [|x l IH]; intros a; [done|]. cbn. by rewrite IH. Qed.

Lemma cumsum_lookup a l i :
  (i <= length l)%nat -> (a :: cumsum a l) !! i = Some (a + sumZ (take i l)).
Proof.
  revert a i. induction l as [|x l IH]; intros a [|i] Hi; cbn in Hi; try (cbn; f_equal; lia).
  cbn [cumsum]. change ((a :: (a + x) :: cumsum (a + x) l) !! S i) with (((a + x) :: cumsum (a + x) l) !! i).
  rewrite IH by lia. cbn [take sumZ foldr]. f_equal. fold (sumZ (take i l)). lia.
Qed.

(** The position of an element of a concatenation. *)
Lemma concat_lookup {A} (ll : list (list A)) i (j : nat) l x :
  ll !! i = Some l -> l !! j = Some x ->
  concat ll !! Z.to_nat (sumZ (zlen <$> take i ll) + Z.of_nat j) = Some x.
Proof.
  revert i. induction ll as [|l0 ll IH]; intros i Hi Hj; [done|]. destruct i as [|i].
  - injection Hi as ->. cbn [take fmap list_fmap sumZ foldr]. rewrite Z.add_0_l, Nat2Z.id. cbn [concat].
    rewrite lookup_app_l; [done|]. by eapply lookup_lt_Some.
  - cbn [take fmap list_fmap sumZ foldr concat]. fold (sumZ (zlen <$> take i ll)).
    assert (0 <= sumZ (zlen <$> take i ll)) by (apply sumZ_nonneg, Forall_fmap, Forall_forall; intros; apply zlen_nonneg).
    assert (Hz : zlen l0 = Z.of_nat (length l0)) by done.
    rewrite lookup_app_r by lia. rewrite <-(IH i Hi Hj). f_equal. lia.
Qed.

Lemma request_rows_zlen l x : 0 <= x.2 -> zlen (request_rows l x) = x.2.
Proof. intros Hx. unfold zlen, request_rows. rewrite length_fmap, py_range_length. lia. Qed.

Lemma enumerate_take {A} (l : list A) i : (enumerate (take i l)).*2 = (take i (enumerate l)).*2.
Proof. by rewrite fmap_take, !enum_snd. Qed.

Lemma request_rows_sizes l Ts i :
  Forall (fun n => 0 <= n) Ts -> zlen <$> take i (request_rows l <$> enumerate Ts) = take i Ts.
Proof.
  intros HTs. rewrite <-fmap_take, <-list_fmap_compose. transitivity ((take i (enumerate Ts)).*2).
  - apply list_fmap_ext. intros k [r n] Hk. cbn. apply (request_rows_zlen l (r, n)). cbn.
    apply lookup_take_Some in Hk as [Hk _]. apply (list_lookup_fmap_Some_2 snd) in Hk.
    rewrite enum_snd in Hk. rewrite Forall_lookup in HTs. by eapply HTs.
  - by rewrite fmap_take, enum_snd.
Qed.

Lemma layer_rows_zlen l Ts : Forall (fun n => 0 <= n) Ts -> zlen (layer_rows Ts l) = sumZ Ts.
Proof.
  intros HTs. unfold layer_rows. assert (Hc : forall (ll : list (list Row)), zlen (concat ll) = sumZ (zlen <$> ll)).
  { intros ll. induction ll as [|x ll IH]; [done|]. cbn [concat fmap list_fmap sumZ foldr]. by rewrite zlen_app, IH. }
  rewrite Hc. f_equal. rewrite <-(take_ge (request_rows l <$> enumerate Ts) (length Ts)) by by rewrite length_fmap, enum_length.
  rewrite request_rows_sizes by done. by apply take_ge.
Qed.

(** Where the row of a token is. *)
Lemma grid_lookup ls Ts (i : nat) l r n t :
  Forall (fun n => 0 <= n) Ts -> ls !! i = Some l -> 0 <= r -> Ts !! Z.to_nat r = Some n -> 0 <= t < n ->
  grid ls Ts !! Z.to_nat (Z.of_nat i * sumZ Ts + sumZ (take (Z.to_nat r) Ts) + t) = Some (grid_row l r t).
Proof.
  intros HTs Hl Hr Hn Ht.
  assert (Hrow : layer_rows Ts l !! Z.to_nat (sumZ (take (Z.to_nat r) Ts) + t) = Some (grid_row l r t)).
  { rewrite <-(Z2Nat.id t) at 1 by lia. rewrite <-(request_rows_sizes l Ts (Z.to_nat r) HTs).
    apply concat_lookup with (request_rows l (r, n)).
    - rewrite list_lookup_fmap, (enum_lookup _ _ _ Hn). cbn. by rewrite Z2Nat.id.
    - unfold request_rows. cbn. rewrite list_lookup_fmap. unfold py_range. rewrite lookup_seqZ_lt by lia. cbn. do 2 f_equal. lia. }
  pose proof (lookup_lt_Some _ _ _ Hrow) as Hlt.
  assert (0 <= sumZ (take (Z.to_nat r) Ts)) by (apply sumZ_nonneg; by apply Forall_take).
  assert (Hsz : sumZ (zlen <$> take i (layer_rows Ts <$> ls)) = Z.of_nat i * sumZ Ts).
  { assert (Hi : (i <= length ls)%nat) by (apply lookup_lt_Some in Hl; lia). clear -Hi HTs. revert i Hi.
    induction ls as [|l ls IH]; intros [|i] Hi; cbn in Hi; try lia; [done..|].
    cbn [fmap list_fmap take sumZ foldr]. fold (sumZ (zlen <$> take i (layer_rows Ts <$> ls))).
    rewrite IH, layer_rows_zlen by (done || lia). lia. }
  rewrite <-Hsz. replace (sumZ (zlen <$> take i (layer_rows Ts <$> ls)) + sumZ (take (Z.to_nat r) Ts) + t)
    with (sumZ (zlen <$> take i (layer_rows Ts <$> ls)) + Z.of_nat (Z.to_nat (sumZ (take (Z.to_nat r) Ts) + t))) by lia.
  apply concat_lookup with (layer_rows Ts l); [|done]. by rewrite list_lookup_fmap, Hl.
Qed.

(** *** The order of the rows *)

Definition row_lt (a b : Row) : Prop :=
  layer a < layer b \/
  layer a = layer b /\ (rid a < rid b \/ rid a = rid b /\ token_index a < token_index b).

Lemma ss_lookup {A} (R : relation A) (l : list A) :
  (forall i j x y, (i < j)%nat -> l !! i = Some x -> l !! j = Some y -> R x y) -> StronglySorted R l.
Proof.
  induction l as [|x l IH]; intros H; constructor.
  - apply IH. intros i j a b Hij Ha Hb. apply (H (S i) (S j)); [lia|done..].
  - apply Forall_lookup. intros j y Hy. apply (H O (S j)); [lia|done..].
Qed.

Lemma ss_concat {A} (R : relation A) (ll : list (list A)) :
  Forall (StronglySorted R) ll ->
  (forall i j x y a b, (i < j)%nat -> ll !! i = Some x -> ll !! j = Some y -> a ∈ x -> b ∈ y -> R a b) ->
  StronglySorted R (concat ll).
Proof.
  intros Hs. induction Hs as [|l ll Hl _ IH]; intros Hx; [constructor|]. cbn [concat].
  apply StronglySorted_app. split; [|split; [done|]].
  - intros a b Ha Hb. apply list_elem_of_In, in_concat in Hb as (y & Hy & Hb).
    apply list_elem_of_In in Hy, Hb. apply list_elem_of_lookup_1 in Hy as [j Hj].
    by apply (Hx O (S j) l y a b); [lia|..].
  - apply IH. intros i j x y a b Hij. apply (Hx (S i) (S j)). lia.
Qed.

Lemma grid_sorted ls Ts : StronglySorted Z.lt ls -> StronglySorted row_lt (grid ls Ts).
Proof.
  intros Hls. apply ss_concat.
  - apply Forall_fmap, Forall_forall. intros l _. apply ss_concat.
    + apply Forall_fmap, Forall_forall. intros [r n] _. apply ss_lookup. intros i j x y Hij Hx Hy.
      unfold request_rows in Hx, Hy. rewrite list_lookup_fmap in Hx, Hy. cbn in Hx, Hy.
      destruct (py_range n !! i) as [t|] eqn:Ei; [|done]. destruct (py_range n !! j) as [u|] eqn:Ej; [|done].
      injection Hx as <-. injection Hy as <-. unfold py_range in *. apply lookup_seqZ in Ei as [-> ?], Ej as [-> ?].
      right. cbn. split; [done|]. right. split; [done|lia].
    + intros i j x y a b Hij Hx Hy Ha Hb. rewrite list_lookup_fmap in Hx, Hy.
      destruct (enumerate Ts !! i) as [[r n]|] eqn:Ei; [|done]. destruct (enumerate Ts !! j) as [[r' n']|] eqn:Ej; [|done].
      injection Hx as <-. injection Hy as <-. unfold request_rows in Ha, Hb.
      apply list_elem_of_fmap in Ha as (t & -> & _), Hb as (u & -> & _). right. cbn. split; [done|]. left.
      unfold enumerate in Ei, Ej. apply lookup_zip_with_Some in Ei as (r1 & m1 & [= -> ->] & Hr1 & _), Ej as (r2 & m2 & [= -> ->] & Hr2 & _).
      unfold py_range in *. apply lookup_seqZ in Hr1 as [-> ?], Hr2 as [-> ?]. lia.
  - intros i j x y a b Hij Hx Hy Ha Hb. rewrite list_lookup_fmap in Hx, Hy.
    destruct (ls !! i) as [l|] eqn:Ei; [|done]. destruct (ls !! j) as [l'|] eqn:Ej; [|done].
    injection Hx as <-. injection Hy as <-.
    assert (Hin : forall l a, a ∈ layer_rows Ts l -> layer a = l).
    { intros l0 a0 H0. unfold layer_rows in H0. apply list_elem_of_In, in_concat in H0 as (ys & Hys & H0).
      apply list_elem_of_In, list_elem_of_fmap in Hys as (z & -> & _). by apply list_elem_of_In, list_elem_of_fmap in H0 as (t & -> & _). }
    left. rewrite (Hin _ _ Ha), (Hin _ _ Hb). clear -Hls Hij Ei Ej. revert i j Hij Ei Ej.
    induction Hls as [|l0 ls _ IH Hall]; intros i j Hij Ei Ej; [done|]. destruct j as [|j]; [lia|]. destruct i as [|i].
    + injection Ei as ->. rewrite Forall_lookup in Hall. by eapply Hall.
    + apply (IH i j); [lia|done..].
Qed.

Lemma row_lt_le a b : row_lt a b -> row_le a b.
Proof. unfold row_lt, row_le. lia. Qed.

Lemma ss_NoDup l : StronglySorted row_lt l -> NoDup l.
Proof.
  induction 1 as [|x l _ IH Hx]; constructor; [|done]. intros Hin. rewrite Forall_forall in Hx.
  specialize (Hx x Hin). unfold row_lt in Hx. lia.
Qed.

(** Sorting a complete profile gives the grid. *)
Lemma sort_grid ls Ts df : StronglySorted Z.lt ls -> df ≡ₚ grid ls Ts -> merge_sort row_le df = grid ls Ts.
Proof.
  intros Hls Hp. pose proof (transitivity (merge_sort_Permutation row_le df) Hp) as Hm.
  apply (StronglySorted_unique_strong row_le); [|apply StronglySorted_merge_sort; apply _| |done].
  - intros a b Ha Hb Hab Hba. rewrite Hm in Ha.
    apply elem_of_grid in Ha as (l & r & n & t & _ & _ & _ & _ & ->). apply elem_of_grid in Hb as (l' & r' & n' & t' & _ & _ & _ & _ & ->).
    unfold row_le in Hab, Hba. cbn in Hab, Hba. assert (l = l' /\ r = r' /\ t = t') as (-> & -> & ->) by lia. done.
  - pose proof (grid_sorted ls Ts Hls) as Hs. clear -Hs. induction Hs as [|x l _ IH Hx]; constructor; [done|].
    eapply Forall_impl; [exact Hx|]. apply row_lt_le.
Qed.

Lemma ss_range n : StronglySorted Z.lt (py_range n).
Proof.
  apply ss_lookup. intros i j x y Hij Hx Hy. unfold py_range in *.
  apply lookup_seqZ in Hx as [-> ?], Hy as [-> ?]. lia.
Qed.

Lemma filter_grid L Ts l : 0 <= l < L -> filter (fun x => layer x = l) (grid (py_range L) Ts) ≡ₚ grid [l] Ts.
Proof.
  intros Hl. apply NoDup_Permutation.
  - apply NoDup_filter, ss_NoDup, grid_sorted, ss_range.
  - apply ss_NoDup, grid_sorted. repeat constructor.
  - intros x. rewrite list_elem_of_filter, !elem_of_grid. split.
    + intros (<- & l' & r & n & t & _ & Hr & Hn & Ht & ->). exists l', r, n, t. by rewrite list_elem_of_singleton.
    + intros (l' & r & n & t & ->%list_elem_of_singleton & Hr & Hn & Ht & ->). split; [done|]. exists l, r, n, t.
      by rewrite elem_of_py_range.
Qed.

(** *** The tables built by loading *)

Lemma grid_rids ls Ts df :
  df ≡ₚ grid ls Ts -> ls <> [] -> Forall (fun n => 0 < n) Ts -> remove_dups (rid <$> df) ≡ₚ py_range (zlen Ts).
Proof.
  intros Hp Hls HTs. apply NoDup_Permutation; [apply NoDup_remove_dups|apply py_range_NoDup|]. intros r.
  rewrite elem_of_remove_dups, Hp, list_elem_of_fmap, elem_of_py_range. setoid_rewrite elem_of_grid. split.
  - intros (x & -> & l & r' & n & t & _ & Hr & Hn & _ & ->). cbn. apply lookup_lt_Some in Hn. unfold zlen. lia.
  - intros Hr. destruct (lookup_lt_is_Some_2 Ts (Z.to_nat r)) as [n Hn]; [unfold zlen in Hr; lia|].
    destruct ls as [|l ls]; [done|]. exists (grid_row l r 0). split; [done|]. exists l, r, n, 0.
    rewrite Forall_lookup in HTs. specialize (HTs _ _ Hn). split; [by left|]. split; [lia|]. split; [done|]. split; [lia|done].
Qed.

Lemma grid_tokens ls Ts df r n :
  df ≡ₚ grid ls Ts -> ls <> [] -> 0 <= r -> Ts !! Z.to_nat r = Some n -> 0 <= n ->
  zlen (remove_dups (token_index <$> filter (fun x => rid x = r) df)) = n.
Proof.
  intros Hp Hls Hr Hn H0.
  assert (Hq : remove_dups (token_index <$> filter (fun x => rid x = r) df) ≡ₚ py_range n).
  { apply NoDup_Permutation; [apply NoDup_remove_dups|apply py_range_NoDup|]. intros t.
    rewrite elem_of_remove_dups, list_elem_of_fmap, elem_of_py_range. setoid_rewrite list_elem_of_filter.
    setoid_rewrite Hp. setoid_rewrite elem_of_grid. split.
    - intros (x & -> & Hx & l & r' & n' & t' & _ & Hr' & Hn' & Ht & ->). cbn in *. subst r'. congruence.
    - intros Ht. destruct ls as [|l ls]; [done|]. exists (grid_row l r t). split; [done|]. split; [done|].
      exists l, r, n, t. split; [by left|done]. }
  unfold zlen. rewrite Hq, py_range_length. lia.
Qed.

Lemma counts_grid ls Ts df :
  df ≡ₚ grid ls Ts -> ls <> [] -> Forall (fun n => 0 < n) Ts -> token_counts df = enumerate Ts.
Proof.
  intros Hp Hls HTs. unfold token_counts.
  assert (Hs : merge_sort Z.le (remove_dups (rid <$> df)) = py_range (zlen Ts)).
  { apply (StronglySorted_unique Z.le).
    - apply StronglySorted_merge_sort; apply _.
    - pose proof (ss_range (zlen Ts)) as Hs. clear -Hs. induction Hs as [|x l _ IH Hx]; constructor; [done|].
      eapply Forall_impl; [exact Hx|]. intros; lia.
    - etransitivity; [apply merge_sort_Permutation|]. by eapply grid_rids. }
  rewrite Hs. apply list_eq. intros i. rewrite list_lookup_fmap. destruct (py_range (zlen Ts) !! i) as [r|] eqn:Er.
  - pose proof Er as Er'. unfold py_range in Er'. apply lookup_seqZ in Er' as [Hr Hi]. rewrite Z.add_0_l in Hr. subst r.
    destruct (lookup_lt_is_Some_2 Ts i) as [n Hn]; [unfold zlen in Hi; lia|]. rewrite (enum_lookup _ _ _ Hn). cbn. do 2 f_equal.
    apply (grid_tokens ls Ts); [done|done|lia|by rewrite Nat2Z.id|]. rewrite Forall_lookup in HTs. specialize (HTs _ _ Hn). lia.
  - symmetry. apply lookup_ge_None_2. rewrite enum_length. apply lookup_ge_None in Er. rewrite py_range_length in Er. unfold zlen in Er. lia.
Qed.

Lemma set_counts Ts : py_for set_count (enumerate Ts) (replicate (length Ts) 0) = Ok Ts.
Proof.
  assert (H : exists s, py_for set_count (enumerate Ts) (replicate (length Ts) 0) = Ok s /\
    (length s = length Ts /\ forall i n, (i < length (enumerate Ts))%nat -> Ts !! i = Some n -> s !! i = Some n)).
  { apply (py_for_total (fun pre s => length s = length Ts /\
      forall i n, (i < length pre)%nat -> Ts !! i = Some n -> s !! i = Some n)).
    - split; [by rewrite length_replicate|]. intros i n Hi. cbn in Hi. lia.
    - intros pre [r n] post s He [Hl Hs]. apply enum_prefix in He as (-> & Hn & _).
      unfold set_count. cbn [fst snd]. pose proof (lookup_lt_Some _ _ _ Hn) as Hlt.
      exists (<[length pre := n]> s). split.
      + rewrite py_set_nonneg by (unfold zlen; lia). unfold zlen. by rewrite Nat2Z.id.
      + split; [by rewrite length_insert|]. intros i m Hi Hm. rewrite length_app in Hi. cbn in Hi.
        destruct (decide (i = length pre)) as [->|Hne].
        * rewrite list_lookup_insert_eq by lia. congruence.
        * rewrite list_lookup_insert_ne by done. apply Hs; [lia|done]. }
  destruct H as (s & -> & Hl & Hs). f_equal. apply list_eq. intros i. destruct (Ts !! i) as [n|] eqn:En.
  - apply Hs; [|done]. rewrite enum_length. by eapply lookup_lt_Some.
  - apply lookup_ge_None_2. rewrite Hl. by apply lookup_ge_None.
Qed.

Lemma prefix_total Ts : py_get (0 :: cumsum 0 Ts) (-1) = Ok (sumZ Ts).
Proof.
  pose proof (cumsum_lookup 0 Ts (length Ts) ltac:(lia)) as H. rewrite take_ge, Z.add_0_l in H by lia.
  assert (Hlen : length (0 :: cumsum 0 Ts) = S (length Ts)) by (cbn; by rewrite cumsum_length).
  generalize dependent (0 :: cumsum 0 Ts). intros l H Hlen. destruct l as [|x l _] using rev_ind; [done|].
  rewrite length_app in Hlen. cbn in Hlen. rewrite lookup_app_r in H by lia. replace (length Ts - length l)%nat with O in H by lia.
  injection H as ->. apply py_get_last.
Qed.

Lemma max_layer_spec df m :
  df <> [] -> (forall x, x ∈ df -> layer x <= m) -> (exists x, x ∈ df /\ layer x = m) -> max_layer df = Ok m.
Proof.
  intros Hne Hle (x & Hx & <-). unfold max_layer.
  assert (Hf : forall l a, a <= foldl Z.max a l /\ (forall y, y ∈ l -> y <= foldl Z.max a l) /\ foldl Z.max a l ∈ a :: l).
  { clear. induction l as [|y l IH]; intros a; cbn [foldl].
    - split; [lia|]. split; [intros y Hy; inversion Hy|by left].
    - destruct (IH (Z.max a y)) as (H1 & H2 & H3). split; [lia|]. split.
      + intros z [->|Hz]%elem_of_cons; [lia|auto].
      + apply elem_of_cons in H3 as [->|H3]; [|by right; right]. destruct (Z.max_spec a y) as [[_ ->]|[_ ->]]; [right; left|left]. }
  destruct (layer <$> df) as [|a l] eqn:E; [by destruct df|]. destruct (Hf l a) as (H1 & H2 & H3). f_equal.
  assert (Hall : forall y, y ∈ a :: l <-> y ∈ layer <$> df) by by rewrite E.
  assert (layer x <= foldl Z.max a l).
  { assert (Hin : layer x ∈ a :: l) by (apply Hall; by apply list_elem_of_fmap_2).
    apply elem_of_cons in Hin as [->|Hin]; [done|auto]. }
  apply Hall, list_elem_of_fmap in H3 as (y & Hy & Hin). specialize (Hle y Hin). lia.
Qed.

(** The profile has every row of [L] layers, [Ts] being the number of tokens of
    each request, and the columns the system's [k] needs. *)
Record complete (p : Profile) (k L : Z) (Ts : list Z) : Prop := {
  co_rows : rows p ≡ₚ grid (py_range L) Ts;
  co_layers : 0 < L;
  co_requests : Ts <> [];
  co_tokens : Forall (fun n => 0 < n) Ts;
  co_columns : "rid"%string ∈ column_names p /\ "token_index"%string ∈ column_names p /\ "layer"%string ∈ column_names p;
  co_experts : zlen (expert_columns p) = k;
  co_k : 0 < k;
}.

Definition layers_of (lid : option Z) (L : Z) : list Z := match lid with None => py_range L | Some l => [l] end.

(** What loading such a profile gives. *)
Definition loaded (num k : Z) (lid : option Z) (L : Z) (Ts : list Z) (g : option Z) : ProfileDrivenRouter :=
  {| num_experts := num; top_k := k; layer_id := lid; num_profiled_requests := zlen Ts;
     num_layers := zlen (layers_of lid L); tokens_per_request := Ts; token_prefix_sum := 0 :: cumsum 0 Ts;
     total_tokens_per_layer := sumZ Ts;
     routing_data := (fun x => project g (experts x)) <$> grid (layers_of lid L) Ts;
     uniform_weight := if k >? 1 then fdiv (float_of_Z 1) (float_of_Z k) else float_of_Z 1 |}.

Lemma load_complete p num k lid L Ts g :
  complete p k L Ts -> project_group (zlen (unique_experts p)) num = Ok g ->
  match lid with None => True | Some l => 0 <= l < L end ->
  _load_profile num k lid p = Ok (loaded num k lid L Ts g).
Proof.
  intros [Hp HL Hne HTs (Hc1 & Hc2 & Hc3) Hk Hk0] Hg Hlid. unfold _load_profile.
  rewrite !bool_decide_true by done. cbn [py_check mbind res_bind]. rewrite Hk.
  rewrite (proj2 (Z.eqb_neq k 0)), Z.eqb_refl by lia. cbn [negb py_check mbind res_bind]. rewrite Hg. cbn [mbind res_bind].
  set (df := match lid with None => _ | Some _ => _ end).
  assert (Hdf : df ≡ₚ grid (layers_of lid L) Ts).
  { unfold df, layers_of. destruct lid as [l|]; [|done]. etransitivity; [|by apply filter_grid]. by rewrite Hp. }
  assert (Hls : StronglySorted Z.lt (layers_of lid L)) by (destruct lid; [repeat constructor|apply ss_range]).
  assert (Hls' : layers_of lid L <> []).
  { destruct lid as [l|]; [done|]. cbn. intros H. apply (f_equal length) in H. rewrite py_range_length in H. cbn in H. lia. }
  assert (Hm : match lid with Some _ => Ok 1 | None => l ← max_layer df; Ok (l + 1) end = Ok (zlen (layers_of lid L))).
  { destruct lid as [l|]; [done|]. unfold layers_of in Hdf. rewrite (max_layer_spec _ (L - 1)).
    - cbn. unfold zlen. rewrite py_range_length. f_equal. lia.
    - intros H. rewrite H in Hdf. destruct Ts as [|n Ts]; [done|]. apply Forall_cons in HTs as [Hn _].
      assert (Hin : grid_row 0 0 0 ∈ grid (py_range L) (n :: Ts)).
      { apply elem_of_grid. exists 0, 0, n, 0. rewrite elem_of_py_range. by split_and!; try lia. }
      rewrite <-Hdf in Hin. inversion Hin.
    - intros x. rewrite Hdf, elem_of_grid. intros (l & r & n & t & Hl & _ & _ & _ & ->). apply elem_of_py_range in Hl. cbn. lia.
    - destruct Ts as [|n Ts]; [done|]. apply Forall_cons in HTs as [Hn _]. exists (grid_row (L - 1) 0 0). split; [|done].
      rewrite Hdf, elem_of_grid. exists (L - 1), 0, n, 0. rewrite elem_of_py_range. by split_and!; try lia. }
  rewrite Hm. cbn [mbind res_bind]. rewrite (counts_grid _ _ _ Hdf Hls' HTs).
  assert (Hr : zlen (remove_dups (rid <$> df)) = zlen Ts).
  { unfold zlen at 1. rewrite (grid_rids _ _ _ Hdf Hls' HTs), py_range_length. unfold zlen. lia. }
  rewrite Hr. replace (Z.to_nat (zlen Ts)) with (length Ts) by (unfold zlen; lia). rewrite set_counts. cbn [mbind res_bind]. rewrite prefix_total. cbn [mbind res_bind].
  by rewrite (sort_grid _ _ _ Hls Hdf).
Qed.

(** The recorded row a token is mapped to. *)
Definition recorded (Ts : list Z) (used : Z) (x : Z * Z) : list Z :=
  let r := x.1 mod zlen Ts in f used r (x.2 mod default 0 (Ts !! Z.to_nat r)).

Lemma flat_index_recorded num k lid L Ts g li x :
  Ts <> [] -> Forall (fun n => 0 < n) Ts -> 0 <= li < L ->
  exists i, flat_index (loaded num k lid L Ts g) li (x.1 mod zlen Ts, x.2) = Ok i /\
    py_get (routing_data (loaded num k lid L Ts g)) i = Ok (project g (recorded Ts (default li lid) x)).
Proof.
  intros Hne HTs Hli. destruct x as [r0 t]. cbn [fst snd].
  assert (HR : 0 < zlen Ts) by (destruct Ts; [done|]; rewrite zlen_cons; pose proof (zlen_nonneg Ts); lia).
  pose proof (Z.mod_pos_bound r0 (zlen Ts) HR) as Hr. unfold recorded. cbn [fst snd]. remember (r0 mod zlen Ts) as r eqn:Er. clear Er.
  destruct (lookup_lt_is_Some_2 Ts (Z.to_nat r)) as [n Hn]; [unfold zlen in *; lia|]. rewrite Hn. change (default 0 (Some n)) with n.
  assert (Hn0 : 0 < n) by (rewrite Forall_lookup in HTs; by eapply HTs).
  pose proof (Z.mod_pos_bound t n Hn0) as Ht.
  assert (HTs' : Forall (fun n => 0 <= n) Ts) by (eapply Forall_impl; [exact HTs|]; intros ? H0; cbn in H0; lia).
  pose proof (cumsum_lookup 0 Ts (Z.to_nat r) ltac:(apply lookup_lt_Some in Hn; lia)) as Hc.
  unfold flat_index. cbn [loaded tokens_per_request token_prefix_sum layer_id total_tokens_per_layer routing_data].
  rewrite (py_get_lookup Ts _ n) by (done || lia). cbn [mbind res_bind]. unfold py_mod.
  rewrite (proj2 (Z.eqb_neq n 0)) by lia. cbn [mbind res_bind]. rewrite (py_get_lookup _ r _ ltac:(lia) Hc). cbn [mbind res_bind].
  assert (Hi : exists i : nat, layers_of lid L !! i = Some (default li lid) /\
    match lid with Some _ => Z.of_nat i = 0 | None => Z.of_nat i = li end).
  { destruct lid as [l|]; [by exists 0%nat|]. exists (Z.to_nat li). cbn. unfold py_range. rewrite lookup_seqZ_lt by lia.
    split; [f_equal; lia|lia]. }
  destruct Hi as (i & Hi & Hi'). pose proof (grid_lookup _ Ts i _ r n (t mod n) HTs' Hi ltac:(lia) Hn Ht) as Hg'.
  assert (0 <= sumZ (take (Z.to_nat r) Ts)) by (apply sumZ_nonneg; by apply Forall_take).
  assert (0 <= sumZ Ts) by by apply sumZ_nonneg.
  exists (Z.of_nat i * sumZ Ts + sumZ (take (Z.to_nat r) Ts) + t mod n). split; [destruct lid; f_equal; nia|].
  apply py_get_lookup; [nia|]. by rewrite list_lookup_fmap, Hg'.
Qed.

(** Two maps in a row over what the request ids and token indices give. *)
Lemma py_map_rows {B C} (fi : Z * Z -> res B) (get : B -> res C) (h : Z * Z -> C) (m : Z -> Z) rids toks :
  (forall x, exists i, fi (m x.1, x.2) = Ok i /\ get i = Ok (h x)) -> length rids = length toks ->
  exists is_, py_map fi (zip (m <$> rids) toks) = Ok is_ /\ py_map get is_ = Ok (h <$> zip rids toks).
Proof.
  intros Hone. revert toks. induction rids as [|r rids IH]; intros [|t toks] Hlen; try done; [by exists []|]. injection Hlen as Hlen.
  destruct (IH toks Hlen) as (is_ & H1 & H2), (Hone (r, t)) as (i & Hi & Hx). exists (i :: is_).
  change (zip (m <$> r :: rids) (t :: toks)) with ((m r, t) :: zip (m <$> rids) toks).
  change (h <$> zip (r :: rids) (t :: toks)) with (h (r, t) :: (h <$> zip rids toks)).
  cbn [fst snd] in Hi. cbn [py_map]. rewrite Hi, Hx. cbn [mbind res_bind]. by rewrite H1, H2.
Qed.

(** Routing with the tables loading built. *)
Lemma route_loaded p num k lid L Ts g rids toks li :
  complete p k L Ts -> length rids = length toks -> 0 <= li < L ->
  route (loaded num k lid L Ts g) (Tensor rids) toks li k =
  Ok (replicate (length rids) (replicate (Z.to_nat k) (uniform_weight (loaded num k lid L Ts g))),
      (fun x => project g (recorded Ts (default li lid) x)) <$> zip rids toks).
Proof.
  intros [_ HL Hne HTs _ _ Hk0] Hlen Hli. set (rt := loaded _ _ _ _ _ _).
  assert (HR : zlen Ts <> 0) by (destruct Ts; [done|]; rewrite zlen_cons; pose proof (zlen_nonneg Ts); lia).
  assert (Hmod : mod_ids (Tensor rids) (num_profiled_requests rt) = Ok ((fun r => r mod zlen Ts) <$> rids)).
  { cbn [mod_ids rt loaded num_profiled_requests]. assert (Hm : forall r, py_mod r (zlen Ts) = Ok (r mod zlen Ts)).
    { intros r. unfold py_mod. by rewrite (proj2 (Z.eqb_neq _ 0)). }
    clear -Hm. induction rids as [|r l IH]; [done|]. cbn [py_map]. rewrite Hm, IH. done. }
  destruct (py_map_rows (flat_index rt li) (py_get (routing_data rt)) (fun x => project g (recorded Ts (default li lid) x))
    (fun r => r mod zlen Ts) rids toks) as (is_ & H1 & H2); [|done|].
  { intros x. by apply flat_index_recorded. }
  unfold route. change (top_k rt) with k. rewrite Z.eqb_refl, Hmod. cbn [py_check mbind res_bind].
  rewrite H1. cbn [mbind res_bind]. rewrite H2. cbn [mbind res_bind].
  rewrite length_fmap, length_zip. do 3 f_equal. lia.
Qed.

(** The expert ids the router can be asked for: those of its layer, or of every
    layer when it was loaded for all. *)
Definition served (p : Profile) (lid : option Z) (e : Z) : Prop :=
  0 <= e /\ exists x, x ∈ rows p /\ match lid with Some l => layer x = l | None => True end /\ e ∈ experts x.

(** Routing the one token of a served row returns that row. *)
Lemma route_served p num k lid L Ts g x :
  complete p k L Ts -> match lid with None => True | Some l => 0 <= l < L end ->
  x ∈ rows p -> match lid with Some l => layer x = l | None => True end ->
  exists ws rid tok li, 0 <= li < L /\
    route (loaded num k lid L Ts g) (Tensor [rid]) [tok] li k = Ok (ws, [project g (experts x)]).
Proof.
  intros Hco Hlid Hx Hl. pose proof (co_rows _ _ _ _ Hco) as Hp. rewrite Hp in Hx.
  apply elem_of_grid in Hx as (l & r & n & t & Hin & Hr & Hn & Ht & ->). apply elem_of_py_range in Hin.
  eexists _, r, t, l. split; [done|]. rewrite (route_loaded p) by done. cbn [zip zip_with fmap list_fmap]. unfold recorded. cbn [fst snd].
  assert (r < zlen Ts) by (apply lookup_lt_Some in Hn; unfold zlen; lia).
  rewrite (Z.mod_small r) by lia. rewrite Hn. cbn [default from_option id]. rewrite (Z.mod_small t) by lia.
  assert (Hd : default l lid = l) by (destruct lid; [done|done]). by rewrite Hd.
Qed.

(** C26. The router replays the profile.  Loading a complete profile succeeds, and
    routing the tokens of any requests at a layer of the profile gives every token
    the experts recorded for request [id mod R], token [index mod T] of that layer
    (of the router's own layer, when it was loaded for one), projected onto the
    system's experts, with equal weights. *)
Theorem route_replays_profile (p : Profile) (num k : Z) (lid : option Z) (L : Z) (Ts : list Z) (g : option Z) :
  complete p k L Ts -> project_group (zlen (unique_experts p)) num = Ok g ->
  match lid with None => True | Some l => 0 <= l < L end ->
  exists rt, _load_profile num k lid p = Ok rt /\
    forall request_ids token_indices layer_idx,
      length request_ids = length token_indices -> 0 <= layer_idx < L ->
      route rt (Tensor request_ids) token_indices layer_idx k =
      Ok (replicate (length request_ids) (replicate (Z.to_nat k) (uniform_weight rt)),
          (fun x => project g (recorded Ts (default layer_idx lid) x)) <$> zip request_ids token_indices).
Proof.
  intros Hco Hg Hlid. eexists. split; [by apply load_complete|]. intros rids toks li Hlen Hli.
  by apply (route_loaded p).
Qed.

(** ** Projected ids in range *)

Lemma project_below num U g es :
  0 < num -> 0 <= U -> project_group U num = Ok g ->
  Forall (fun e => e < num) (project g es) <-> Forall (fun e => e < U) es.
Proof.
  intros Hnum HU Hg. unfold project_group in Hg. destruct (Z.eqb_spec U num) as [->|_]; [by injection Hg as <-|].
  rewrite Z.gtb_ltb in Hg. destruct (Z.ltb_spec num U) as [Hlt|]; [|done]. unfold py_mod in Hg.
  rewrite (proj2 (Z.eqb_neq num 0)) in Hg by lia. cbn [mbind res_bind] in Hg.
  destruct (Z.eqb_spec (U mod num) 0) as [Hd|]; [|done]. injection Hg as <-.
  pose proof (Z.div_mod U num ltac:(lia)) as HdU. rewrite Hd in HdU.
  assert (0 < U / num) by nia. unfold project. rewrite Forall_fmap, !Forall_forall.
  assert (Hone : forall e, (if 0 <=? e then e / (U / num) else e) < num <-> e < U).
  { intros e. destruct (Z.leb_spec 0 e); [|lia]. split.
    - intros He. pose proof (Z.mod_pos_bound e (U / num) ltac:(lia)). pose proof (Z.div_mod e (U / num) ltac:(lia)). nia.
    - intros He. apply Z.div_lt_upper_bound; nia. }
  split; intros H1 e He; apply Hone; by apply H1.
Qed.

(** Whatever is routed was loaded from a served row. *)
Lemma route_rows rt ids toks li k ws out :
  route rt ids toks li k = Ok (ws, out) -> Forall (fun r => r ∈ routing_data rt) out.
Proof.
  unfold route. intros Hr. do 3 (apply bind_Ok in Hr as (? & _ & Hr)). apply bind_Ok in Hr as (o & Hout & Hr).
  injection Hr as _ <-. apply py_map_Forall2 in Hout. clear -Hout.
  induction Hout as [|i l is_ ls Hi _ IH]; constructor; [|done]. unfold py_get in Hi. destruct (py_index _ i); [|done].
  apply of_option_Ok in Hi. by eapply list_elem_of_lookup_2.
Qed.

(** C38. Which routed experts exist.  A complete profile with [U] distinct expert
    ids that loading accepts for [num] experts routes every token of every layer to
    experts below [num], whether or not profiled experts are grouped, exactly when
    every recorded id it serves is below [U]: loading counts the distinct ids but
    never looks at their values, so a profile whose ids are not numbered densely is
    accepted and routes to experts that do not exist.  (Negative ids are
    placeholders.) *)
Theorem routed_experts_bounded (p : Profile) (num k : Z) (lid : option Z) (L : Z) (Ts : list Z) (g : option Z) :
  0 < num -> complete p k L Ts -> project_group (zlen (unique_experts p)) num = Ok g ->
  match lid with None => True | Some l => 0 <= l < L end ->
  exists rt, _load_profile num k lid p = Ok rt /\
    ((forall request_ids token_indices layer_idx k' ws ids,
        route rt request_ids token_indices layer_idx k' = Ok (ws, ids) -> Forall (Forall (fun e => e < num)) ids) <->
     (forall e, served p lid e -> e < zlen (unique_experts p))).
Proof.
  intros Hnum Hco Hg Hlid. eexists. split; [by apply load_complete|].
  pose proof (zlen_nonneg (unique_experts p)) as HU. split.
  - intros Hall e (He & x & Hx & Hl & Hin).
    destruct (route_served p num k lid L Ts g x) as (ws & r & t & li & _ & Hr); [done..|]. apply Hall in Hr.
    rewrite Forall_singleton, (project_below _ _ _ _ Hnum HU Hg), Forall_forall in Hr. by apply Hr.
  - intros Hs ids toks li k' ws out Hr. apply route_rows in Hr. eapply Forall_impl; [exact Hr|].
    intros row Hrow. cbn [loaded routing_data] in Hrow. apply list_elem_of_fmap in Hrow as (x & -> & Hx).
    apply (project_below _ _ _ _ Hnum HU Hg), Forall_forall. intros e He.
    destruct (Z.lt_ge_cases e 0); [lia|]. apply Hs. split; [done|]. exists x.
    destruct lid as [l|]; [|split; [by rewrite (co_rows _ _ _ _ Hco)|done]].
    rewrite elem_of_grid in Hx. destruct Hx as (l' & r & n & t & ->%list_elem_of_singleton & Hr' & Hn & Ht & ->).
    split; [|done]. rewrite (co_rows _ _ _ _ Hco), elem_of_grid. exists l, r, n, t. by rewrite elem_of_py_range.
Qed.
End Complete.

(** ** A concrete profile: two layers, two requests of two and one tokens, four
    profiled experts projected onto two *)

Definition ex_experts (l r t : Z) : list Z := [(l + r + t) mod 4; (l + r + t + 1) mod 4].
Definition ex_profile : Profile :=
  {| column_names := ["rid"; "token_index"; "layer"; "expert_logical_k0"; "expert_logical_k1"]%string;
     rows := reverse (grid ex_experts (py_range 2) [2; 1]) |}.

Lemma ex_complete : complete ex_experts ex_profile 2 2 [2; 1].
Proof.
  split.
  - cbn [rows ex_profile]. apply reverse_Permutation.
  - reflexivity.
  - discriminate.
  - repeat constructor.
  - split_and!; [left|right; left|right; right; left].
  - reflexivity.
  - reflexivity.
Qed.

Lemma route_replays_profile_witness :
  exists rt, _load_profile 2 2 None ex_profile = Ok rt /\
    (snd <$> route rt (Tensor [1; 2]) [0; 3] 1 2) = Ok [[1; 1]; [1; 1]].
Proof.
  destruct (route_replays_profile ex_experts ex_profile 2 2 None 2 [2; 1] (Some 2)) as (rt & Hl & Hr).
  - exact ex_complete.
  - reflexivity.
  - exact I.
  - exists rt. split; [exact Hl|]. rewrite Hr; [reflexivity|reflexivity|lia].
Defined.

(** A profile of one token whose two experts have the ids 0 and 5. *)
Definition sparse_profile : Profile :=
  {| column_names := ["rid"; "token_index"; "layer"; "expert_logical_k0"; "expert_logical_k1"]%string;
     rows := grid (fun _ _ _ => [0; 5]) (py_range 1) [1] |}.

Lemma sparse_complete : complete (fun _ _ _ => [0; 5]) sparse_profile 2 1 [1].
Proof.
  split; [done|done|done|by repeat constructor| |done|done].
  split_and!; [left|right; left|right; right; left].
Qed.

(** The dense profile is in range; the other loads for two experts and does route
    to expert 5. *)
Lemma routed_experts_bounded_witness :
  (exists rt, _load_profile 2 2 (Some 1) ex_profile = Ok rt /\
     forall ids toks li k ws out, route rt ids toks li k = Ok (ws, out) -> Forall (Forall (fun e => e < 2)) out) /\
  (exists rt, _load_profile 2 2 None sparse_profile = Ok rt /\
     ~ forall ids toks li k ws out, route rt ids toks li k = Ok (ws, out) -> Forall (Forall (fun e => e < 2)) out).
Proof.
  split.
  - destruct (routed_experts_bounded ex_experts ex_profile 2 2 (Some 1) 2 [2; 1] (Some 2)) as (rt & Hl & Hiff).
    + reflexivity.
    + exact ex_complete.
    + reflexivity.
    + lia.
    + exists rt. split; [exact Hl|]. apply Hiff. intros e (_ & x & Hx & _ & He).
      change (zlen (unique_experts ex_profile)) with 4. unfold ex_profile in Hx. cbn [rows] in Hx.
      apply elem_of_reverse, elem_of_grid in Hx as (l & r & n & t & _ & _ & _ & _ & ->).
      cbn [grid_row experts] in He. unfold ex_experts in He.
      apply elem_of_cons in He as [->|He]; [apply Z.mod_pos_bound; lia|].
      apply elem_of_cons in He as [->|He]; [apply Z.mod_pos_bound; lia|]. inversion He.
  - destruct (routed_experts_bounded (fun _ _ _ => [0; 5]) sparse_profile 2 2 None 1 [1] None) as (rt & Hl & Hiff).
    + reflexivity.
    + exact sparse_complete.
    + reflexivity.
    + exact I.
    + exists rt. split; [exact Hl|]. intros Hall. apply Hiff with (e := 5) in Hall; [revert Hall; vm_compute; discriminate|].
      split; [lia|]. exists (grid_row (fun _ _ _ => [0; 5]) 0 0 0). split; [left|]. split; [exact I|]. right. left.
Defined.
End Gate.
