(* ===== verification/SimCore.v ===== *)
(** * The request life cycle of the lock-step simulators
    ([simulation/sim_sync.py] and [simulation/sim_tbo.py])

    Both simulators advance the active requests one token per iteration; they
    differ in what an iteration costs.  The class [Iteration] is that difference:
    its instances are the synchronous simulator and the two-batch-overlap one.
    The lists of requests share the request objects, so they hold request ids and
    the objects are in [requests].  The progress bar and the timeline capture are
    output only and not modelled. *)

From Corelib Require Import SpecFloat.
From S2P Require Import Prelude PyFloat.

Module SimCore.

(** ** Data *)

Record Token : Type := {
  tid : Z;
  birth_time : float;
  t_request_id : Z;
  token_index : Z;
  home_gpu : Z;
  layer_fanout : list (Z * Z);
  sampled_for_stats : bool;
}.

Record RequestState : Type := {
  request_id : Z;
  arrival_time : float;
  req_home_gpu : option Z;
  next_token_index : Z;
  completed : bool;
}.

(** The measurements an iteration appends to. *)
Record Metrics : Type := {
  layer_expert_runtimes : list float;
  layer_wait_imbalances : list float;
  worker_queue_stddevs : list float;
  total_expert_batch_size : float;
  total_expert_batch_count : Z;
}.

Definition metrics_init : Metrics :=
  {| layer_expert_runtimes := []; layer_wait_imbalances := []; worker_queue_stddevs := [];
     total_expert_batch_size := float_of_Z 0; total_expert_batch_count := 0 |}.

(** [_run_one_iteration]: the duration, what [_finalize_iteration] needs to
    compute completion times, the tokens (their fan-out is filled in) and the
    metrics. *)
Class Iteration (O : Type) : Type := {
  _run_one_iteration : list Token -> Metrics -> res (float * O * list Token * Metrics);
  completion_time : O -> float -> Token -> float;
}.

Record Sim : Type := {
  requests : list RequestState;
  current_time : float;
  arrival_index : Z;
  waiting_queue : list Z;
  active_requests : list Z;
  next_tid : Z;
  _next_home_gpu : Z;
  completion_times : list (Z * float);
  token_latencies : list (Z * float);
  request_latency_values : list float;
  completed_tokens : Z;
  metrics : Metrics;
}.

(** ** Auxiliary functions *)

(** [math.floor] and [math.ceil] of a finite float. *)
Definition fscaled (x : float) : option (Z * Z) :=
  match x with
  | S754_zero _ => Some (0, 0)
  | S754_finite s m e => Some (if s then Zneg m else Zpos m, e)
  | _ => None
  end.

Definition ffloor (x : float) : res Z :=
  '(m, e) ← of_option ValueError (fscaled x);
  Ok (if 0 <=? e then m * 2 ^ e else m / 2 ^ (- e)).

Definition fceil (x : float) : res Z :=
  '(m, e) ← of_option ValueError (fscaled x);
  Ok (if 0 <=? e then m * 2 ^ e else - (- m / 2 ^ (- e))).

(** [min(l)] and [max(l)] keep the first of equal elements. *)
Definition fmin2 (x y : float) : float := if fltb y x then y else x.
Definition list_max (l : list float) : res float :=
  match l with [] => Raise ValueError | x :: l => Ok (foldl fmax x l) end.
Definition list_min (l : list float) : res float :=
  match l with [] => Raise ValueError | x :: l => Ok (foldl fmin2 x l) end.

Lemma fceil_nonneg x n : fnonneg x = true -> fceil x = Ok n -> 0 <= n.
Proof.
  intros Hx Hn. unfold fceil in Hn. apply bind_Ok in Hn as ([m e] & Hs & Hn). apply of_option_Ok in Hs.
  injection Hn as <-. assert (Hm : 0 <= m) by (destruct x as [|[]| |[] ? ?]; simplify_eq/=; lia).
  destruct (Z.leb_spec 0 e); [apply Z.mul_nonneg_nonneg; [done|]; apply Z.pow_nonneg; lia|].
  assert (0 < 2 ^ (- e)) by (apply Z.pow_pos_nonneg; lia).
  pose proof (Z.div_le_upper_bound (- m) (2 ^ (- e)) 0 ltac:(done) ltac:(lia)). lia.
Qed.

Lemma list_max_nonneg l x : list_max l = Ok x -> Forall (fun y => fnonneg y = true) l -> fnonneg x = true.
Proof.
  destruct l as [|y l]; [done|]. intros [= <-] [Hy Hl]%Forall_cons. by apply foldl_fmax_nonneg.
Qed.

(** [sorted(l)]: [sort] is the standard library's. *)
Definition percentile (sort : list float -> list float) (values : list float) (pct : float) : res float :=
  match values with
  | [] => Ok (float_of_Z 0)
  | _ =>
      if fleb pct (float_of_Z 0) then list_min values
      else if fleb (float_of_Z 1) pct then list_max values
      else
        let sorted_vals := sort values in
        let k := fmul pct (float_of_Z (zlen sorted_vals - 1)) in
        lower ← ffloor k;
        upper ← fceil k;
        a ← py_get sorted_vals lower;
        if lower =? upper then Ok a
        else
          let frac := fsub k (float_of_Z lower) in
          b ← py_get sorted_vals upper;
          Ok (fadd a (fmul (fsub b a) frac))
  end.

(** [draws] are the results of [rng.expovariate], one per request after the first. *)
Definition generate_request_arrivals (total_requests : Z) (arrival_rate : float) (draws : list float)
    : list float :=
  if total_requests <=? 0 then []
  else
    (foldl (fun '(arrivals, current) d =>
        let current := if fltb (float_of_Z 0) arrival_rate then fadd current d else current in
        (arrivals ++ [current], current))
      ([float_of_Z 0], float_of_Z 0) (take (Z.to_nat (total_requests - 1)) draws)).1.

(** ** The simulator *)

Section Simulator.
Context (tokens_per_request attn_dp_group_size global_request_max_batch_size : Z).
(** [per_token_begin_cb] decides whether the token is sampled. *)
Context (per_token_begin_cb : Token -> bool).
(** Whether steps and saturation are recorded without [tokens_after] too. *)
Context (track_always : bool).
Context {O : Type} `{Iteration O}.

Definition total_requests (s : Sim) : Z := zlen (requests s).
Definition expected_total_tokens (s : Sim) : Z := total_requests s * tokens_per_request.

Definition sim_init (request_arrivals : list float) : Sim :=
  {| requests := (fun '(rid, t) => {| request_id := rid; arrival_time := t; req_home_gpu := None;
                                     next_token_index := 0; completed := false |})
                 <$> enumerate request_arrivals;
     current_time := float_of_Z 0; arrival_index := 0; waiting_queue := []; active_requests := [];
     next_tid := 0; _next_home_gpu := 0; completion_times := []; token_latencies := [];
     request_latency_values := []; completed_tokens := 0; metrics := metrics_init |}.

Definition with_arrivals (t : float) (i : Z) (q : list Z) (s : Sim) : Sim :=
  {| requests := requests s; current_time := t; arrival_index := i; waiting_queue := q;
     active_requests := active_requests s; next_tid := next_tid s; _next_home_gpu := _next_home_gpu s;
     completion_times := completion_times s; token_latencies := token_latencies s;
     request_latency_values := request_latency_values s; completed_tokens := completed_tokens s;
     metrics := metrics s |}.

(** [_release_new_arrivals]: the requests from [arrival_index] on whose time has
    come. *)
Fixpoint release_loop (t : float) (rest : list RequestState) (i : Z) (q : list Z) : Z * list Z :=
  match rest with
  | [] => (i, q)
  | r :: rest => if fleb (arrival_time r) t then release_loop t rest (i + 1) (q ++ [request_id r]) else (i, q)
  end.

Definition _release_new_arrivals (s : Sim) : Sim :=
  let '(i, q) := release_loop (current_time s) (drop (Z.to_nat (arrival_index s)) (requests s))
                   (arrival_index s) (waiting_queue s) in
  with_arrivals (current_time s) i q s.

Definition _advance_to_next_arrival (s : Sim) : res (bool * Sim) :=
  if arrival_index s >=? total_requests s then Ok (false, s)
  else
    r ← py_get (requests s) (arrival_index s);
    let next_time := arrival_time r in
    let t := if fltb (current_time s) next_time then next_time else current_time s in
    Ok (true, _release_new_arrivals (with_arrivals t (arrival_index s) (waiting_queue s) s)).

Definition with_requests (rs : list RequestState) (q a : list Z) (g : Z) (s : Sim) : Sim :=
  {| requests := rs; current_time := current_time s; arrival_index := arrival_index s; waiting_queue := q;
     active_requests := a; next_tid := next_tid s; _next_home_gpu := g;
     completion_times := completion_times s; token_latencies := token_latencies s;
     request_latency_values := request_latency_values s; completed_tokens := completed_tokens s;
     metrics := metrics s |}.

Definition with_home (g : Z) (r : RequestState) : RequestState :=
  {| request_id := request_id r; arrival_time := arrival_time r; req_home_gpu := Some g;
     next_token_index := next_token_index r; completed := completed r |}.

(** One turn of the loop of [_fill_active_requests], on the head of the queue. *)
Definition fill_one (candidate : Z) (q : list Z) (s : Sim) : res Sim :=
  r ← py_get (requests s) candidate;
  if completed r then Ok (with_requests (requests s) q (active_requests s) (_next_home_gpu s) s)
  else
    match req_home_gpu r with
    | Some _ => Ok (with_requests (requests s) q (active_requests s ++ [candidate]) (_next_home_gpu s) s)
    | None =>
        g ← py_mod (_next_home_gpu s) attn_dp_group_size;
        rs ← py_set (requests s) candidate (with_home g r);
        Ok (with_requests rs q (active_requests s ++ [candidate]) (_next_home_gpu s + 1) s)
    end.

Fixpoint fill_loop (queue : list Z) (s : Sim) : res Sim :=
  match queue with
  | [] => Ok s
  | candidate :: q =>
      if zlen (active_requests s) <? global_request_max_batch_size
      then s' ← fill_one candidate q s; fill_loop q s'
      else Ok s
  end.

Definition _fill_active_requests (s : Sim) : res Sim := fill_loop (waiting_queue s) s.

(** [_spawn_tokens_for_iteration] *)
Definition spawn_one (t : float) (rs : list RequestState) (st : list Token * Z) (rid : Z)
    : res (list Token * Z) :=
  let '(tokens, next) := st in
  r ← py_get rs rid;
  if completed r || (next_token_index r >=? tokens_per_request) then Ok st
  else
    g ← of_option RuntimeError (req_home_gpu r);
    let token := {| tid := next; birth_time := t; t_request_id := request_id r;
                    token_index := next_token_index r; home_gpu := g; layer_fanout := [];
                    sampled_for_stats := false |} in
    let token := {| tid := next; birth_time := t; t_request_id := request_id r;
                    token_index := next_token_index r; home_gpu := g; layer_fanout := [];
                    sampled_for_stats := per_token_begin_cb token |} in
    Ok (tokens ++ [token], next + 1).

Definition with_tid (n : Z) (s : Sim) : Sim :=
  {| requests := requests s; current_time := current_time s; arrival_index := arrival_index s;
     waiting_queue := waiting_queue s; active_requests := active_requests s; next_tid := n;
     _next_home_gpu := _next_home_gpu s; completion_times := completion_times s;
     token_latencies := token_latencies s; request_latency_values := request_latency_values s;
     completed_tokens := completed_tokens s; metrics := metrics s |}.

Definition _spawn_tokens_for_iteration (s : Sim) : res (list Token * Sim) :=
  '(tokens, n) ← py_for (spawn_one (current_time s) (requests s)) (active_requests s) ([], next_tid s);
  Ok (tokens, with_tid n s).

Definition with_iteration (t : float) (m : Metrics) (s : Sim) : Sim :=
  {| requests := requests s; current_time := t; arrival_index := arrival_index s;
     waiting_queue := waiting_queue s; active_requests := active_requests s; next_tid := next_tid s;
     _next_home_gpu := _next_home_gpu s; completion_times := completion_times s;
     token_latencies := token_latencies s; request_latency_values := request_latency_values s;
     completed_tokens := completed_tokens s; metrics := m |}.

Definition count_token (r : RequestState) : RequestState :=
  {| request_id := request_id r; arrival_time := arrival_time r; req_home_gpu := req_home_gpu r;
     next_token_index := next_token_index r + 1;
     completed := completed r || (next_token_index r + 1 >=? tokens_per_request) |}.

Definition request_lookup (s : Sim) (rid : Z) : option RequestState :=
  if 0 <=? rid then requests s !! Z.to_nat rid else None.

(** The body of the loop of [_finalize_iteration]. *)
Definition finalize_one (o : O) (s : Sim) (token : Token) : res Sim :=
  let t := completion_time o (current_time s) token in
  r ← of_option KeyError (request_lookup s (t_request_id token));
  rs ← py_set (requests s) (t_request_id token) (count_token r);
  Ok {| requests := rs; current_time := current_time s; arrival_index := arrival_index s;
        waiting_queue := waiting_queue s; active_requests := active_requests s; next_tid := next_tid s;
        _next_home_gpu := _next_home_gpu s;
        completion_times := dset (completion_times s) (tid token) t;
        token_latencies := dset (token_latencies s) (tid token) (fsub t (birth_time token));
        request_latency_values := if next_token_index r + 1 >=? tokens_per_request
          then request_latency_values s ++ [fsub t (arrival_time r)] else request_latency_values s;
        completed_tokens := completed_tokens s + 1; metrics := metrics s |}.

Definition is_active (rs : list RequestState) (rid : Z) : Prop :=
  match rs !! Z.to_nat rid with Some r => completed r = false | None => False end.

#[global] Instance is_active_dec rs rid : Decision (is_active rs rid).
Proof. unfold is_active. destruct (rs !! Z.to_nat rid); apply _. Defined.

Definition _finalize_iteration (o : O) (tokens : list Token) (s : Sim) : res Sim :=
  s ← py_for (finalize_one o) tokens s;
  Ok (with_requests (requests s) (waiting_queue s)
        (filter (is_active (requests s)) (active_requests s)) (_next_home_gpu s) s).

(** ** The main loop of [run] *)

Record Run : Type := {
  sim : Sim;
  steps_executed : Z;
  saturation : option (Z * Z * float);
}.

(** The state is saturated when as many requests are active as may be. *)
Definition note_saturation (steps : Z) (sat : option (Z * Z * float)) (s : Sim) : option (Z * Z * float) :=
  match sat with
  | Some x => Some x
  | None => if (0 <? zlen (active_requests s)) && (zlen (active_requests s) >=? global_request_max_batch_size)
            then Some (steps, completed_tokens s, current_time s) else None
  end.

(** [if not self._advance_to_next_arrival(): break] *)
Definition advance_or_break (s : Sim) : res (bool * Sim) := _advance_to_next_arrival s.

(** The part of an iteration after the active set was filled; the flag is false
    for [break]. *)
Definition iterate (s : Sim) : res (bool * Sim) :=
  match active_requests s with
  | [] => advance_or_break s
  | _ =>
      '(tokens, s) ← _spawn_tokens_for_iteration s;
      match tokens with
      | [] => advance_or_break s
      | _ =>
          '(dur, o, tokens, m) ← _run_one_iteration tokens (metrics s);
          let s := with_iteration (fadd (current_time s) dur) m s in
          s ← _finalize_iteration o tokens s;
          Ok (true, s)
      end
  end.

(** One turn; [tokens_after] is the argument [tokens_after_reaching_max_bs]. *)
Definition run_step (tokens_after : option Z) (r : Run) : res (bool * Run) :=
  let track := track_always || bool_decide (is_Some tokens_after) in
  let steps := if track then steps_executed r + 1 else steps_executed r in
  s ← _fill_active_requests (_release_new_arrivals (sim r));
  let sat := if track then note_saturation steps (saturation r) s else saturation r in
  '(continue, s) ← iterate s;
  let r := {| sim := s; steps_executed := steps; saturation := sat |} in
  match tokens_after, sat with
  | Some k, Some (_, tokens_completed, _) =>
      Ok (continue && negb (completed_tokens s - tokens_completed >=? k), r)
  | _, _ => Ok (continue, r)
  end.

(** [None]: out of fuel. *)
Fixpoint run_loop (fuel : nat) (tokens_after : option Z) (r : Run) : option (res Run) :=
  match fuel with
  | Datatypes.O => None
  | Datatypes.S fuel =>
      if completed_tokens (sim r) <? expected_total_tokens (sim r) then
        match run_step tokens_after r with
        | Raise e => Some (Raise e)
        | Ok (true, r) => run_loop fuel tokens_after r
        | Ok (false, r) => Some (Ok r)
        end
      else Some (Ok r)
  end.

Definition run (fuel : nat) (tokens_after : option Z) (s : Sim) : option (res Run) :=
  match tokens_after with
  | Some k => if k <? 0 then Some (Raise ValueError)
              else run_loop fuel tokens_after {| sim := s; steps_executed := 0; saturation := None |}
  | None => run_loop fuel tokens_after {| sim := s; steps_executed := 0; saturation := None |}
  end.

(** [sum(l) / len(l)], zero for an empty list. *)
Definition average (l : list float) : float :=
  match l with [] => float_of_Z 0 | _ => fdiv (fsum l) (float_of_Z (zlen l)) end.

(** The aggregates of the result dictionary. *)
Record Summary : Type := {
  makespan : float;
  avg_layer_runtime : float;
  avg_layer_wait_imbalance : float;
  avg_layer_worker_queue_stddev : float;
  avg_per_expert_batch_size : float;
  stopped_early : bool;
}.

Definition summary (s : Sim) : Summary :=
  let m := metrics s in
  {| makespan := current_time s;
     avg_layer_runtime := average (layer_expert_runtimes m);
     avg_layer_wait_imbalance := average (layer_wait_imbalances m);
     avg_layer_worker_queue_stddev := average (worker_queue_stddevs m);
     avg_per_expert_batch_size :=
       if total_expert_batch_count m >? 0
       then fdiv (total_expert_batch_size m) (float_of_Z (total_expert_batch_count m)) else float_of_Z 0;
     stopped_early := negb (completed_tokens s =? expected_total_tokens s) |}.

(** ** Correctness of the life cycle *)

Definition same_token (a b : Token) : Prop :=
  tid a = tid b /\ birth_time a = birth_time b /\ t_request_id a = t_request_id b /\
  token_index a = token_index b.

(** What the main loop relies on: an iteration that returns takes a time that is
    not negative (nor NaN) and gives back the tokens it was given. *)
Class IterationLaws : Prop := {
  law_iteration : forall tokens m dur o tokens' m',
    _run_one_iteration tokens m = Ok (dur, o, tokens', m') ->
    fnonneg dur = true /\ Forall2 same_token tokens tokens';
}.

Context `{IterationLaws}.
Hypothesis Htokens : 0 < tokens_per_request.
Hypothesis Hdp : 0 < attn_dp_group_size.
Hypothesis Hcap : 0 < global_request_max_batch_size.

(** The state at the head of the loop, for the arrival times [arr]. *)
Record sim_inv (arr : list float) (s : Sim) : Prop := {
  si_len : length (requests s) = length arr;
  si_reqs : forall i r, requests s !! i = Some r ->
    request_id r = Z.of_nat i /\ arr !! i = Some (arrival_time r) /\
    0 <= next_token_index r <= tokens_per_request /\
    completed r = (tokens_per_request <=? next_token_index r);
  si_time : fnonneg (current_time s) = true;
  si_index : 0 <= arrival_index s <= total_requests s;
  si_nodup : NoDup (waiting_queue s ++ active_requests s);
  si_open : forall rid, rid ∈ waiting_queue s ++ active_requests s <->
    0 <= rid < arrival_index s /\ is_active (requests s) rid;
  si_home : forall rid r, rid ∈ active_requests s -> requests s !! Z.to_nat rid = Some r ->
    exists g, req_home_gpu r = Some g /\ 0 <= g < attn_dp_group_size;
  si_homes : forall i r g, requests s !! i = Some r -> req_home_gpu r = Some g -> 0 <= g < attn_dp_group_size;
  si_future : forall i r, requests s !! i = Some r -> arrival_index s <= Z.of_nat i -> next_token_index r = 0;
  si_done : completed_tokens s = sumZ (next_token_index <$> requests s);
  si_tid : next_tid s = completed_tokens s;
  si_times : dkeys (completion_times s) = py_range (completed_tokens s);
  si_lats : dkeys (token_latencies s) = py_range (completed_tokens s);
  si_values : zlen (request_latency_values s) = zlen (filter (fun r => completed r = true) (requests s));
}.

Lemma is_active_lookup rs rid :
  is_active rs rid <-> exists r, rs !! Z.to_nat rid = Some r /\ completed r = false.
Proof. unfold is_active. destruct (rs !! Z.to_nat rid); naive_solver. Qed.

Lemma active_lt (s : Sim) rid : is_active (requests s) rid -> 0 <= rid -> 0 <= rid < zlen (requests s).
Proof.
  intros (r & Hr & _)%is_active_lookup Hge. apply lookup_lt_Some in Hr. unfold zlen. lia.
Qed.

(** *** Arrivals *)

Lemma release_loop_spec t rest i q :
  exists k, let '(i', q') := release_loop t rest i q in
    i' = i + Z.of_nat k /\ q' = q ++ (request_id <$> take k rest) /\ (k <= length rest)%nat /\
    (forall r, rest !! 0%nat = Some r -> fleb (arrival_time r) t = true -> (0 < k)%nat).
Proof.
  revert i q. induction rest as [|r rest IH]; intros i q; simpl.
  { exists 0%nat. rewrite app_nil_r. repeat split; [lia|lia|done]. }
  destruct (fleb (arrival_time r) t) eqn:E.
  - destruct (IH (i + 1) (q ++ [request_id r])) as (k & Hk). exists (S k).
    destruct (release_loop t rest (i + 1) (q ++ [request_id r])) as [i' q']. destruct Hk as (-> & -> & Hle & _).
    split; [lia|]. split; [by rewrite <-app_assoc|]. split; [lia|]. intros; lia.
  - exists 0%nat. rewrite app_nil_r. split; [lia|]. split; [done|]. split; [lia|].
    intros r' [= <-] Hc. congruence.
Qed.

Lemma request_ids_take rs (i : nat) k :
  (forall j r, rs !! j = Some r -> request_id r = Z.of_nat j) -> (i + k <= length rs)%nat ->
  request_id <$> take k (drop i rs) = py_range2 (Z.of_nat i) (Z.of_nat i + Z.of_nat k).
Proof.
  intros Hid Hle. apply list_eq. intros j. unfold py_range2. rewrite list_lookup_fmap.
  destruct (decide (j < k)%nat).
  - rewrite lookup_take_lt, lookup_drop by done. rewrite lookup_seqZ_lt by lia.
    destruct (lookup_lt_is_Some_2 rs (i + j)) as [r Hr]; [lia|]. rewrite Hr. simpl. f_equal.
    rewrite (Hid _ _ Hr). lia.
  - rewrite lookup_seqZ_ge by lia. rewrite (proj2 (lookup_ge_None _ _)); [done|].
    rewrite length_take, length_drop. lia.
Qed.

Lemma release_inv_gen arr s t :
  sim_inv arr s -> fnonneg t = true -> (forall i x, arr !! i = Some x -> fnonneg x = true) ->
  let s' := _release_new_arrivals (with_arrivals t (arrival_index s) (waiting_queue s) s) in
  sim_inv arr s' /\ arrival_index s <= arrival_index s' /\
  completed_tokens s' = completed_tokens s /\ requests s' = requests s /\ active_requests s' = active_requests s /\
  (forall r, requests s !! Z.to_nat (arrival_index s) = Some r -> fleb (arrival_time r) t = true ->
     arrival_index s < arrival_index s').
Proof.
  intros Hinv Ht Harr. unfold _release_new_arrivals. cbn [with_arrivals current_time arrival_index requests waiting_queue].
  destruct Hinv as [Hlen Hreqs Htime Hidx Hnd Hopen Hhome Hhomes Hfut Hdone Htid Htimes Hlats Hvals].
  destruct (release_loop_spec t (drop (Z.to_nat (arrival_index s)) (requests s)) (arrival_index s) (waiting_queue s))
    as (k & Hk). destruct (release_loop _ _ _ _) as [i' q']. destruct Hk as (-> & -> & Hle & Hpos).
  unfold total_requests in Hidx. rewrite length_drop in Hle.
  rewrite (request_ids_take (requests s)) in *;
    [|intros j r Hr; by apply Hreqs|unfold zlen in Hidx; lia].
  rewrite Z2Nat.id by lia.
  set (new := py_range2 (arrival_index s) (arrival_index s + Z.of_nat k)).
  assert (Hnew : forall x, x ∈ new <-> arrival_index s <= x < arrival_index s + Z.of_nat k)
    by (intros; unfold new, py_range2; rewrite elem_of_seqZ; lia).
  assert (Hk' : arrival_index s + Z.of_nat k <= zlen (requests s)) by (unfold zlen in *; lia).
  cbn. split; [|split; [lia|split; [done|split; [done|split; [done|]]]]].
  2: { intros r Hr Hle'. specialize (Hpos r). rewrite lookup_drop, Nat.add_0_r in Hpos. specialize (Hpos Hr Hle'). lia. }
  assert (Hact : forall x, x ∈ new -> is_active (requests s) x).
  { intros x Hx%Hnew. apply is_active_lookup.
    destruct (lookup_lt_is_Some_2 (requests s) (Z.to_nat x)) as [r Hr]; [unfold zlen in *; lia|].
    exists r. split; [done|]. destruct (Hreqs _ _ Hr) as (_ & _ & _ & ->).
    rewrite (Hfut _ _ Hr) by lia. apply Z.leb_gt. lia. }
  split; try done.
  - simpl. unfold total_requests. simpl. lia.
  - simpl. rewrite <-app_assoc. apply NoDup_app in Hnd as (Hw & Hd & Ha). apply NoDup_app. split; [done|].
    split.
    + intros x Hx [Hxn|Hxa]%elem_of_app; [|by apply (Hd x)].
      apply Hnew in Hxn. assert (x ∈ waiting_queue s ++ active_requests s) as Hin by (apply elem_of_app; auto).
      apply Hopen in Hin. lia.
    + apply NoDup_app. split; [apply NoDup_seqZ|]. split; [|done]. intros x Hx%Hnew Hxa.
      assert (x ∈ waiting_queue s ++ active_requests s) as Hin by (apply elem_of_app; auto).
      apply Hopen in Hin. lia.
  - simpl. intros x. specialize (Hopen x). rewrite !elem_of_app in *. split.
    + intros [[Hx|Hx]|Hx].
      * destruct (proj1 Hopen (or_introl Hx)). split; [lia|done].
      * split; [apply Hnew in Hx; lia|by apply Hact].
      * destruct (proj1 Hopen (or_intror Hx)). split; [lia|done].
    + intros [Hr Ha]. destruct (decide (x < arrival_index s)).
      * destruct (proj2 Hopen) as [?|?]; auto. split; [lia|done].
      * left. right. apply Hnew. lia.
  - simpl. intros i r Hr Hge. apply (Hfut _ _ Hr). lia.
Qed.

Lemma is_active_lookup' rs rid :
  is_active rs rid -> exists r, rs !! Z.to_nat rid = Some r /\ completed r = false.
Proof. apply is_active_lookup. Qed.

Lemma release_inv arr s :
  sim_inv arr s -> (forall i x, arr !! i = Some x -> fnonneg x = true) ->
  let s' := _release_new_arrivals s in
  sim_inv arr s' /\ arrival_index s <= arrival_index s' /\
  completed_tokens s' = completed_tokens s /\ requests s' = requests s /\ active_requests s' = active_requests s.
Proof.
  intros Hinv Harr. destruct (release_inv_gen arr s (current_time s) Hinv ltac:(apply Hinv) Harr) as (? & ? & ? & ? & ? & _).
  by destruct s.
Qed.

Lemma advance_inv arr s :
  sim_inv arr s -> (forall i x, arr !! i = Some x -> fnonneg x = true) ->
  arrival_index s < total_requests s ->
  exists s', _advance_to_next_arrival s = Ok (true, s') /\ sim_inv arr s' /\
    arrival_index s < arrival_index s' /\ completed_tokens s' = completed_tokens s.
Proof.
  intros Hinv Harr Hlt. unfold _advance_to_next_arrival. rewrite Z.geb_leb, (proj2 (Z.leb_gt _ _)) by done.
  pose proof (si_index _ _ Hinv) as Hidx.
  destruct (lookup_lt_is_Some_2 (requests s) (Z.to_nat (arrival_index s))) as [r Hr];
    [unfold total_requests, zlen in *; lia|].
  rewrite (py_get_lookup _ _ r) by (done || lia). cbn [mbind res_bind].
  destruct (si_reqs _ _ Hinv _ _ Hr) as (_ & Ha & _). apply Harr in Ha. pose proof (si_time _ _ Hinv) as Ht.
  set (t := if fltb (current_time s) (arrival_time r) then arrival_time r else current_time s).
  assert (Htn : fnonneg t = true) by (unfold t; by destruct (fltb _ _)).
  assert (Hle : fleb (arrival_time r) t = true).
  { unfold t. destruct (fltb (current_time s) (arrival_time r)) eqn:E.
    - apply fleb_refl. by apply fnonneg_not_nan.
    - apply fleb_not_flt; [by apply fnonneg_not_nan..|done]. }
  destruct (release_inv_gen arr s t Hinv Htn Harr) as (? & ? & ? & ? & ? & Hgt).
  eexists. split; [done|]. split; [done|]. split; [by eapply Hgt|done].
Qed.

(** *** Filling the active set *)

Lemma is_active_insert rs rid r r' x :
  rs !! Z.to_nat rid = Some r -> 0 <= rid -> 0 <= x -> completed r' = completed r ->
  is_active (<[Z.to_nat rid := r']> rs) x <-> is_active rs x.
Proof.
  intros Hr Hrid Hx Hc. rewrite !is_active_lookup. destruct (decide (x = rid)) as [->|Hne].
  - rewrite list_lookup_insert_eq by (by eapply lookup_lt_Some). naive_solver.
  - rewrite list_lookup_insert_ne by lia. done.
Qed.

Lemma fill_one_inv arr s c q :
  sim_inv arr s -> waiting_queue s = c :: q ->
  exists s', fill_one c q s = Ok s' /\ sim_inv arr s' /\ waiting_queue s' = q /\
    active_requests s' = active_requests s ++ [c] /\ arrival_index s' = arrival_index s /\
    completed_tokens s' = completed_tokens s.
Proof.
  intros [Hlen Hreqs Htime Hidx Hnd Hopen Hhome Hhomes Hfut Hdone Htid Htimes Hlats Hvals] Hq.
  rewrite Hq in Hnd, Hopen. unfold fill_one.
  destruct (proj1 (Hopen c) ltac:(left)) as [Hc Hact]. pose proof Hact as (r & Hr & Hcr)%is_active_lookup.
  rewrite (py_get_lookup _ _ r) by (done || lia). cbn [mbind res_bind]. rewrite Hcr.
  assert (Hperm : q ++ active_requests s ++ [c] ≡ₚ (c :: q) ++ active_requests s)
    by (rewrite app_assoc; simpl; by rewrite Permutation_app_comm).
  assert (Hnd' : NoDup (q ++ active_requests s ++ [c])) by (by rewrite Hperm).
  assert (Hopen' : forall x, x ∈ q ++ active_requests s ++ [c] <-> 0 <= x < arrival_index s /\ is_active (requests s) x)
    by (intros x; by rewrite Hperm).
  assert (Hz : zlen (requests s) = zlen arr) by (unfold zlen; by rewrite Hlen).
  assert (Hcn : c ∉ active_requests s).
  { apply NoDup_app in Hnd as (_ & Hd & _). apply Hd. left. }
  destruct (req_home_gpu r) as [g|] eqn:Hg.
  { eexists. split; [done|]. split; [|done]. split; try done. cbn. intros x rx [Hx|Hx]%elem_of_app Hrx; [by eapply Hhome|].
    apply list_elem_of_singleton in Hx as ->. rewrite Hr in Hrx. injection Hrx as <-. eauto. }
  unfold py_mod. rewrite (proj2 (Z.eqb_neq _ _)) by lia. cbn [mbind res_bind].
  rewrite py_set_nonneg by (apply active_lt; [done|lia]). cbn [mbind res_bind].
  set (g := _next_home_gpu s mod attn_dp_group_size). assert (Hgb : 0 <= g < attn_dp_group_size) by (apply Z.mod_pos_bound; lia).
  eexists. split; [done|]. split; [|done].
  assert (Hins : forall i x, <[Z.to_nat c := with_home g r]> (requests s) !! i = Some x ->
    (i = Z.to_nat c /\ x = with_home g r) \/ (i <> Z.to_nat c /\ requests s !! i = Some x)).
  { intros i x. rewrite list_lookup_insert_Some. naive_solver. }
  split; cbn [with_requests requests current_time arrival_index waiting_queue active_requests next_tid
    completion_times token_latencies request_latency_values completed_tokens]; try done.
  - by rewrite length_insert.
  - intros i x Hx. apply Hins in Hx as [[-> ->]|[_ Hx]]; [|by apply Hreqs]. apply (Hreqs _ _ Hr).
  - unfold total_requests, zlen in *. cbn. by rewrite length_insert.
  - intros x. rewrite Hopen'. destruct (decide (0 <= x)); [|lia].
    by rewrite (is_active_insert _ c r (with_home g r) x Hr ltac:(lia) ltac:(lia) eq_refl).
  - intros x rx Hx Hrx. apply Hins in Hrx as [[_ ->]|[Hne Hrx]]; [eexists; split; [done|exact Hgb]|].
    apply elem_of_app in Hx as [Hx|Hx]; [by eapply Hhome|]. apply list_elem_of_singleton in Hx as ->. done.
  - intros i x h Hx Hh. apply Hins in Hx as [[_ ->]|[_ Hx]]; [|by eapply Hhomes]. simpl in Hh. by injection Hh as <-.
  - intros i x Hx Hge. apply Hins in Hx as [[-> ->]|[_ Hx]]; [|by eapply Hfut]. by apply (Hfut _ _ Hr).
  - rewrite Hdone. f_equal. rewrite list_fmap_insert. simpl. symmetry. apply list_insert_id.
    by rewrite list_lookup_fmap, Hr.
  - rewrite Hvals. f_equal. clear -Hr Hcr. revert Hr. generalize (Z.to_nat c). generalize (requests s).
    intros l. induction l as [|y l IH]; intros [|i] Hr; simpl in *; [done|done| |].
    + injection Hr as ->. rewrite !filter_cons. simpl. by rewrite Hcr.
    + rewrite !filter_cons. case_decide; [f_equal|]; by apply IH.
Qed.

Lemma fill_loop_inv arr q s :
  sim_inv arr s -> waiting_queue s = q ->
  exists s', fill_loop q s = Ok s' /\ sim_inv arr s' /\ arrival_index s' = arrival_index s /\
    completed_tokens s' = completed_tokens s /\
    (q ++ active_requests s <> [] -> active_requests s' <> []).
Proof.
  revert s. induction q as [|c q IH]; intros s Hinv Hq; simpl.
  { exists s. done. }
  destruct (Z.ltb_spec (zlen (active_requests s)) global_request_max_batch_size).
  - destruct (fill_one_inv _ _ _ _ Hinv Hq) as (s1 & -> & Hinv1 & Hq1 & Ha1 & Hi1 & Hc1). cbn [mbind res_bind].
    destruct (IH s1 Hinv1 Hq1) as (s' & -> & Hinv' & Hi & Hc & Hne). exists s'. split_and!; [done|done|lia|lia|].
    intros _. apply Hne. rewrite Ha1. by destruct q, (active_requests s).
  - exists s. split_and!; try done. intros _ Hnil. rewrite Hnil in *. change (zlen []) with 0 in *. lia.
Qed.

(** *** An iteration *)

(** The token of request [rid]. *)
Definition spawned (t : float) (rs : list RequestState) (n : Z) (tok : Token) (rid : Z) : Prop :=
  tid tok = n /\ t_request_id tok = rid /\ birth_time tok = t /\ layer_fanout tok = [] /\
  0 <= home_gpu tok < attn_dp_group_size /\
  exists r, rs !! Z.to_nat rid = Some r /\ token_index tok = next_token_index r.

Lemma spawn_inv arr s :
  sim_inv arr s ->
  exists tokens, _spawn_tokens_for_iteration s
      = Ok (tokens, with_tid (next_tid s + zlen (active_requests s)) s) /\
    length tokens = length (active_requests s) /\
    forall k tok rid, tokens !! k = Some tok -> active_requests s !! k = Some rid ->
      spawned (current_time s) (requests s) (next_tid s + Z.of_nat k) tok rid.
Proof.
  intros Hinv. unfold _spawn_tokens_for_iteration.
  destruct (py_for_total (fun pre (st : list Token * Z) => st.2 = next_tid s + zlen pre /\
      length st.1 = length pre /\
      forall k tok rid, st.1 !! k = Some tok -> pre !! k = Some rid ->
        spawned (current_time s) (requests s) (next_tid s + Z.of_nat k) tok rid)
    (spawn_one (current_time s) (requests s)) (active_requests s) ([], next_tid s))
    as ([tokens n] & -> & Hn & Hl & Hsp).
  - split; [simpl; change (zlen []) with 0; lia|]. split; [done|]. by intros k tok rid Hk.
  - intros pre rid post [toks n] Heq (Hn & Hl & Hsp). cbn [fst snd] in *.
    assert (Hin : rid ∈ active_requests s) by (rewrite Heq; set_solver).
    assert (Hopen : rid ∈ waiting_queue s ++ active_requests s) by (apply elem_of_app; auto).
    apply (si_open _ _ Hinv) in Hopen as [Hrid (r & Hr & Hc)%is_active_lookup'].
    destruct (si_reqs _ _ Hinv _ _ Hr) as (Hid & _ & Hnt & Hcomp). rewrite Hc in Hcomp. symmetry in Hcomp.
    apply Z.leb_gt in Hcomp. destruct (si_home _ _ Hinv _ _ Hin Hr) as (g & Hg & Hgb).
    unfold spawn_one. rewrite (py_get_lookup _ _ r) by (done || lia). cbn [mbind res_bind].
    rewrite Hc, Z.geb_leb, (proj2 (Z.leb_gt _ _)) by done. cbn [orb]. rewrite Hg. cbn [of_option mbind res_bind].
    eexists. split; [done|]. cbn [fst snd]. rewrite zlen_app, (zlen_cons rid []), !length_app. change (zlen []) with 0.
    split; [lia|]. split; [simpl; lia|]. intros k tok rid' Hk Hrid'.
    destruct (decide (k < length pre)%nat) as [Hlt|Hge].
    + rewrite lookup_app_l in Hk by lia. rewrite lookup_app_l in Hrid' by lia. by apply Hsp.
    + rewrite lookup_app_r in Hk by lia. rewrite lookup_app_r in Hrid' by lia. rewrite Hl in Hk.
      destruct (k - length pre)%nat as [|j] eqn:Ek; [|done]. injection Hk as <-. injection Hrid' as <-.
      unfold spawned. cbn. split_and!; [unfold zlen in Hn; lia|rewrite Hid; lia|done|done|lia|lia|].
      exists r. done.
  - cbn [mbind res_bind fst snd] in *. exists tokens. rewrite Hn. done.
Qed.

(** The requests after the tokens of [ids] were counted. *)
Definition counted (ids : list Z) (rs : list RequestState) : list RequestState :=
  imap (fun i r => if decide (Z.of_nat i ∈ ids) then count_token r else r) rs.

Lemma counted_nil rs : counted [] rs = rs.
Proof.
  unfold counted. apply list_eq. intros i. rewrite list_lookup_imap. destruct (rs !! i); [|done].
  done.
Qed.

Lemma counted_lookup ids rs i r :
  rs !! i = Some r -> counted ids rs !! i = Some (if decide (Z.of_nat i ∈ ids) then count_token r else r).
Proof. intros Hr. unfold counted. by rewrite list_lookup_imap, Hr. Qed.

Lemma counted_lookup_inv ids rs i x :
  counted ids rs !! i = Some x ->
  exists r, rs !! i = Some r /\ x = if decide (Z.of_nat i ∈ ids) then count_token r else r.
Proof.
  unfold counted. rewrite list_lookup_imap. destruct (rs !! i) as [r|]; [|done]. intros [= <-]. eauto.
Qed.

Lemma counted_snoc ids rs rid r :
  0 <= rid -> rid ∉ ids -> rs !! Z.to_nat rid = Some r ->
  <[Z.to_nat rid := count_token r]> (counted ids rs) = counted (ids ++ [rid]) rs.
Proof.
  intros Hrid Hn Hr. apply list_eq. intros i. destruct (decide (i = Z.to_nat rid)) as [->|Hne].
  - rewrite list_lookup_insert_eq.
    + rewrite (counted_lookup _ _ _ r) by done. rewrite decide_True; [done|]. rewrite Z2Nat.id by lia. set_solver.
    + unfold counted. rewrite length_imap. by eapply lookup_lt_Some.
  - rewrite list_lookup_insert_ne by done. unfold counted. rewrite !list_lookup_imap.
    destruct (rs !! i); [|done]. simpl. f_equal. apply decide_ext. rewrite elem_of_app, list_elem_of_singleton.
    split; [auto|]. intros [?|Heq]; [done|]. lia.
Qed.

(** What counting the tokens of the first [k] active requests leaves. *)
Record finalized (s : Sim) (pre : list Token) (t : Sim) : Prop := {
  fz_reqs : requests t = counted (t_request_id <$> pre) (requests s);
  fz_frame : current_time t = current_time s /\ arrival_index t = arrival_index s /\
    waiting_queue t = waiting_queue s /\ active_requests t = active_requests s /\
    next_tid t = next_tid s /\ _next_home_gpu t = _next_home_gpu s;
  fz_done : completed_tokens t = completed_tokens s + zlen pre;
  fz_times : dkeys (completion_times t) = py_range (completed_tokens s + zlen pre);
  fz_lats : dkeys (token_latencies t) = py_range (completed_tokens s + zlen pre);
  fz_values : zlen (request_latency_values t) = zlen (request_latency_values s)
    + zlen (filter (fun tok => next_token_index (default
        {| request_id := 0; arrival_time := float_of_Z 0; req_home_gpu := None; next_token_index := 0; completed := false |}
        (requests s !! Z.to_nat (t_request_id tok))) + 1 >= tokens_per_request) pre);
}.

Lemma py_range_snoc n : 0 <= n -> py_range n ++ [n] = py_range (n + 1).
Proof.
  intros. unfold py_range. replace (n + 1) with (Z.of_nat (Z.to_nat n) + 1) by lia.
  rewrite Z2Nat.id by lia. rewrite (seqZ_app 0 n 1) by lia. simpl. f_equal.
Qed.

Lemma finalize_loop s (o : O) tokens :
  0 <= completed_tokens s ->
  dkeys (completion_times s) = py_range (completed_tokens s) ->
  dkeys (token_latencies s) = py_range (completed_tokens s) ->
  NoDup (t_request_id <$> tokens) ->
  (forall k tok, tokens !! k = Some tok -> tid tok = completed_tokens s + Z.of_nat k /\
     0 <= t_request_id tok < zlen (requests s)) ->
  exists s', py_for (finalize_one o) tokens s = Ok s' /\ finalized s tokens s'.
Proof.
  intros Hpos Ht Hl Hnd Htok. apply py_for_total.
  { assert (H0z : zlen (@nil Token) = 0) by done.
    split; rewrite ?H0z, ?Z.add_0_r; try done; try (by rewrite counted_nil).
  }
  intros pre tok post t Heq [Hreqs (Hf1 & Hf2 & Hf3 & Hf4 & Hf5 & Hf6) Hd Htt Hlt Hv].
  assert (Hk : tokens !! length pre = Some tok) by (rewrite Heq; by apply list_lookup_middle).
  destruct (Htok _ _ Hk) as [Htid Hrid].
  assert (Hn : t_request_id tok ∉ t_request_id <$> pre).
  { rewrite Heq, fmap_app in Hnd. apply NoDup_app in Hnd as (_ & Hdis & _). intros Hin. apply (Hdis _ Hin). left. }
  destruct (lookup_lt_is_Some_2 (requests s) (Z.to_nat (t_request_id tok))) as [r Hr]; [unfold zlen in Hrid; lia|].
  assert (Hrt : requests t !! Z.to_nat (t_request_id tok) = Some r).
  { rewrite Hreqs, (counted_lookup _ _ _ r) by done. rewrite decide_False; [done|]. by rewrite Z2Nat.id by lia. }
  unfold finalize_one, request_lookup. rewrite (proj2 (Z.leb_le _ _)) by lia. rewrite Hrt.
  cbn [of_option mbind res_bind]. rewrite py_set_nonneg.
  2: { rewrite Hreqs. unfold counted, zlen in *. rewrite length_imap. lia. }
  cbn [mbind res_bind]. eexists. split; [done|].
  assert (Hz : zlen (pre ++ [tok]) = zlen pre + 1) by (rewrite zlen_app; done).
  pose proof (zlen_nonneg pre) as Hzp.
  assert (Hnew : forall d : list (Z * float), dkeys d = py_range (completed_tokens s + zlen pre) ->
    forall x, dkeys (dset d (tid tok) x) = py_range (completed_tokens s + zlen (pre ++ [tok]))).
  { intros d Hd' x. rewrite dkeys_dset_new.
    - rewrite Hd', Htid, Hz, Z.add_assoc. unfold zlen. rewrite py_range_snoc; [done|]. unfold zlen in Hzp. lia.
    - apply dget_None. rewrite Hd'. intros Hin%elem_of_py_range. unfold zlen in Hin. lia. }
  split; cbn [requests current_time arrival_index waiting_queue active_requests next_tid _next_home_gpu
    completion_times token_latencies request_latency_values completed_tokens]; try done.
  - rewrite fmap_app. simpl. rewrite Hreqs. by apply counted_snoc; [lia| |].
  - rewrite Hd, Hz. lia.
  - by apply Hnew.
  - by apply Hnew.
  - rewrite filter_app, zlen_app, filter_cons, filter_nil, Hr. simpl. rewrite Z.geb_leb.
    destruct (Z.leb_spec tokens_per_request (next_token_index r + 1)).
    + rewrite decide_True by lia. rewrite zlen_app, Hv. change (zlen [_]) with 1. change (zlen [tok]) with 1. lia.
    + rewrite decide_False by lia. rewrite Hv. change (zlen []) with 0. lia.
Qed.

(** Sums over the requests after counting tokens. *)
Definition no_request : RequestState :=
  {| request_id := 0; arrival_time := float_of_Z 0; req_home_gpu := None; next_token_index := 0; completed := false |}.

Definition req_at (rs : list RequestState) (rid : Z) : RequestState := default no_request (rs !! Z.to_nat rid).

Lemma sum_counted (f : RequestState -> Z) ids rs :
  NoDup ids -> (forall rid, rid ∈ ids -> 0 <= rid < zlen rs) ->
  sumZ (f <$> counted ids rs)
  = sumZ (f <$> rs) + sumZ ((fun rid => f (count_token (req_at rs rid)) - f (req_at rs rid)) <$> ids).
Proof.
  induction ids as [|rid ids IH] using rev_ind; intros Hnd Hr; [rewrite counted_nil; simpl; lia|].
  apply NoDup_app in Hnd as (Hnd & Hdis & _).
  assert (Hn : rid ∉ ids) by (intros Hin; apply (Hdis _ Hin); left).
  destruct (Hr rid) as [H1 H2]; [set_solver|].
  destruct (lookup_lt_is_Some_2 rs (Z.to_nat rid)) as [r Hlk]; [unfold zlen in H2; lia|].
  rewrite <-(counted_snoc ids rs rid r) by done. rewrite list_fmap_insert.
  rewrite (sumZ_insert _ _ (f r)).
  2: { rewrite list_lookup_fmap, (counted_lookup _ _ _ r) by done. rewrite decide_False; [done|]. by rewrite Z2Nat.id by lia. }
  rewrite IH; [|done|intros; apply Hr; set_solver]. rewrite fmap_app, sumZ_app.
  assert (Hat : req_at rs rid = r) by (unfold req_at; by rewrite Hlk).
  cbn [fmap list_fmap sumZ foldr]. rewrite Hat. lia.
Qed.

Lemma zlen_filter_sum {A} (P : A -> Prop) `{!forall x, Decision (P x)} l :
  zlen (filter P l) = sumZ ((fun x => if decide (P x) then 1 else 0) <$> l).
Proof.
  induction l as [|x l IH]; [done|]. rewrite filter_cons. cbn [fmap list_fmap sumZ foldr].
  fold (sumZ ((fun x => if decide (P x) then 1 else 0) <$> l)). case_decide; rewrite ?zlen_cons; lia.
Qed.

Lemma sumZ_fmap_ext {A} (f g : A -> Z) l : (forall x, x ∈ l -> f x = g x) -> sumZ (f <$> l) = sumZ (g <$> l).
Proof. intros Hfg. f_equal. apply list_fmap_ext. intros i x Hx%list_elem_of_lookup_2. auto. Qed.

Lemma is_active_counted ids rs rid :
  0 <= rid -> is_active (counted ids rs) rid <->
  is_active rs rid /\ (rid ∈ ids -> next_token_index (req_at rs rid) + 1 < tokens_per_request).
Proof.
  intros Hge. unfold is_active, req_at, counted. rewrite list_lookup_imap.
  destruct (rs !! Z.to_nat rid) as [r|] eqn:E; simpl; [|naive_solver].
  rewrite Z2Nat.id by lia. case_decide as Hin; simpl; [|naive_solver].
  rewrite orb_false_iff, Z.geb_leb, Z.leb_gt. naive_solver.
Qed.

(** The state after the tokens of all active requests were counted. *)
(** The open requests after every active one has counted a token. *)
Lemma open_counted q act rs (n x : Z) :
  (forall z, z ∈ q -> z ∉ act) -> (x ∈ q ++ act <-> 0 <= x < n /\ is_active rs x) ->
  x ∈ q ++ filter (is_active (counted act rs)) act <-> 0 <= x < n /\ is_active (counted act rs) x.
Proof.
  intros Hdis Hopen. rewrite elem_of_app in *. rewrite list_elem_of_filter. destruct (decide (0 <= x)) as [Hge|].
  2: { split; [|lia]. intros [Hx|[_ Hx]]; [destruct (proj1 Hopen (or_introl Hx)); lia|].
       destruct (proj1 Hopen (or_intror Hx)); lia. }
  rewrite (is_active_counted _ _ _ Hge). split.
  - intros [Hx|[Ha Hx]].
    + destruct (proj1 Hopen (or_introl Hx)). split; [done|]. split; [done|]. intros Hxa. by destruct (Hdis x Hx).
    + destruct (proj1 Hopen (or_intror Hx)). by split.
  - intros [Hr [Ha Hl]]. destruct (proj2 Hopen (conj Hr Ha)) as [Hx|Hx]; [by left|right]. by split_and!.
Qed.

(** The requests whose token was the last one are those that become completed. *)
Lemma completed_counted rs (tokens : list Token) act :
  t_request_id <$> tokens = act -> NoDup act -> (forall rid, rid ∈ act -> 0 <= rid < zlen rs /\ is_active rs rid) ->
  zlen (filter (fun r => completed r = true) (counted act rs)) =
  zlen (filter (fun r => completed r = true) rs) + zlen (filter (fun tok => next_token_index (req_at rs (t_request_id tok)) + 1 >= tokens_per_request) tokens).
Proof.
  intros Hids Hnd Hact. rewrite !zlen_filter_sum, (sum_counted (fun r => if decide (completed r = true) then 1 else 0)) by (done || intros rid Hin; by apply Hact).
  f_equal. rewrite <-Hids, <-list_fmap_compose. apply sumZ_fmap_ext. intros tok Htok. simpl.
  destruct (Hact (t_request_id tok)) as [_ (r' & Hr' & Hc)%is_active_lookup]; [rewrite <-Hids; by apply list_elem_of_fmap_2|].
  unfold req_at. rewrite Hr'. simpl. rewrite Hc. simpl.
  rewrite Z.geb_leb. destruct (Z.leb_spec tokens_per_request (next_token_index r' + 1)); simpl.
  - rewrite !decide_True by (done || lia). done.
  - rewrite !decide_False by (done || lia). done.
Qed.

Lemma finalize_inv arr s t tokens m (tm : float) :
  sim_inv arr s -> fnonneg tm = true ->
  t_request_id <$> tokens = active_requests s ->
  finalized (with_iteration tm m (with_tid (next_tid s + zlen (active_requests s)) s)) tokens t ->
  sim_inv arr (with_requests (requests t) (waiting_queue t)
    (filter (is_active (requests t)) (active_requests t)) (_next_home_gpu t) t) /\
  completed_tokens t = completed_tokens s + zlen (active_requests s) /\ arrival_index t = arrival_index s.
Proof.
  intros [Hlen Hreqs Htime Hidx Hnd Hopen Hhome Hhomes Hfut Hdone Htid Htimes Hlats Hvals] Htm Hids
    [Fr (F1 & F2 & F3 & F4 & F5 & F6) Fd Ft Fl Fv].
  cbn [with_iteration with_tid requests current_time arrival_index waiting_queue active_requests next_tid
    _next_home_gpu completed_tokens request_latency_values] in *. rewrite Hids in Fr.
  assert (Hzl : zlen tokens = zlen (active_requests s)) by (rewrite <-Hids; unfold zlen; by rewrite length_fmap).
  apply NoDup_app in Hnd as (Hndw & Hdis & Hnda).
  assert (Hrange : forall rid, rid ∈ active_requests s -> 0 <= rid < zlen (requests s)).
  { intros rid Hin. assert (rid ∈ waiting_queue s ++ active_requests s) as Ho by (apply elem_of_app; auto).
    apply Hopen in Ho as [Ho Ha]. by apply active_lt; [|lia]. }
  split; [|by rewrite Fd, Hzl, F2].
  assert (Hsplit : forall i x, requests t !! i = Some x -> exists r, requests s !! i = Some r /\
    (Z.of_nat i ∈ active_requests s /\ x = count_token r /\ next_token_index r < tokens_per_request \/
     Z.of_nat i ∉ active_requests s /\ x = r)).
  { intros i x Hx. rewrite Fr in Hx. apply counted_lookup_inv in Hx as (r & Hr & ->). exists r. split; [done|].
    case_decide as Hin; [left|by right]. split; [done|]. split; [done|].
    assert (Z.of_nat i ∈ waiting_queue s ++ active_requests s) as Ho by (apply elem_of_app; auto).
    apply Hopen in Ho as [_ (r' & Hr' & Hc)%is_active_lookup]. rewrite Nat2Z.id, Hr in Hr'. injection Hr' as <-.
    destruct (Hreqs _ _ Hr) as (_ & _ & _ & Hcc). rewrite Hc in Hcc. symmetry in Hcc. by apply Z.leb_gt in Hcc. }
  assert (Hzr : zlen (requests t) = zlen (requests s)) by (rewrite Fr; unfold counted, zlen; by rewrite length_imap).
  split; cbn [with_requests requests current_time arrival_index waiting_queue active_requests next_tid
    completion_times token_latencies request_latency_values completed_tokens]; rewrite ?F1, ?F2, ?F3, ?F4, ?F5, ?F6; try done.
  - rewrite Fr. unfold counted. by rewrite length_imap.
  - intros i x Hx. destruct (Hsplit _ _ Hx) as (r & Hr & [(_ & -> & Hlt)|(_ & ->)]); [|by apply Hreqs].
    destruct (Hreqs _ _ Hr) as (Hi & Ha & Hn & Hc). cbn [count_token request_id arrival_time next_token_index completed].
    split; [done|]. split; [done|]. split; [lia|]. rewrite Hc, Z.geb_leb, (proj2 (Z.leb_gt _ _)) by done. done.
  - change (0 <= arrival_index s <= zlen (requests t)). by rewrite Hzr.
  - apply NoDup_app. split; [done|]. split; [|by apply NoDup_filter].
    intros x Hx [_ Hx']%list_elem_of_filter. by apply (Hdis x).
  - intros x. rewrite Fr. by apply open_counted.
  - intros rid x [_ Hin]%list_elem_of_filter Hx. destruct (Hsplit _ _ Hx) as (r & Hr & [(_ & -> & _)|(_ & ->)]);
      exact (Hhome rid r Hin Hr).
  - intros i x g Hx Hg. destruct (Hsplit _ _ Hx) as (r & Hr & [(_ & -> & _)|(_ & ->)]); exact (Hhomes i r g Hr Hg).
  - intros i x Hx Hge. destruct (Hsplit _ _ Hx) as (r & Hr & [(Hin & _)|(_ & ->)]); [|by eapply Hfut].
    assert (Z.of_nat i ∈ waiting_queue s ++ active_requests s) as Ho by (apply elem_of_app; auto).
    apply Hopen in Ho. lia.
  - rewrite Fd, Hdone, Hzl, Fr, (sum_counted next_token_index) by done. f_equal.
    rewrite (sumZ_fmap_ext _ (fun _ => 1)) by (intros; simpl; lia).
    unfold zlen. clear. induction (active_requests s) as [|x l IH]; [done|]. cbn [fmap list_fmap sumZ foldr length].
    fold (sumZ ((fun _ : Z => 1) <$> l)). lia.
  - rewrite Fd, Hzl. lia.
  - by rewrite Ft, Fd.
  - by rewrite Fl, Fd.
  - rewrite Fv, Hvals, Fr, (completed_counted _ tokens); [done|done|done|]. intros rid Hin. split; [by apply Hrange|].
    assert (rid ∈ waiting_queue s ++ active_requests s) as Ho by (apply elem_of_app; auto). by apply Hopen in Ho as [_ Ha].
Qed.

(** *** Progress *)

Lemma sum_next_bound arr s :
  sim_inv arr s -> completed_tokens s <= expected_total_tokens s /\
  (completed_tokens s < expected_total_tokens s -> exists i r, requests s !! i = Some r /\ completed r = false).
Proof.
  intros Hinv. rewrite (si_done _ _ Hinv). unfold expected_total_tokens, total_requests.
  assert (Hb : Forall (fun r => next_token_index r <= tokens_per_request /\
      (completed r = true -> next_token_index r = tokens_per_request)) (requests s)).
  { apply Forall_lookup. intros i r Hr. destruct (si_reqs _ _ Hinv _ _ Hr) as (_ & _ & Hn & Hc).
    split; [lia|]. rewrite Hc. intros Hle%Z.leb_le. lia. }
  clear Hinv. induction Hb as [|r l [Hn Hc] _ IH]; [simpl; change (zlen []) with 0; split; lia|].
  cbn [fmap list_fmap sumZ foldr]. fold (sumZ (next_token_index <$> l)). rewrite zlen_cons. split; [nia|].
  intros Hlt. destruct (completed r) eqn:E; [|exists 0%nat, r; done]. specialize (Hc eq_refl).
  destruct IH as [_ IH]. destruct IH as (i & x & Hx & Hxc); [nia|]. by exists (Datatypes.S i), x.
Qed.

Lemma idle_has_arrivals arr s :
  sim_inv arr s -> completed_tokens s < expected_total_tokens s ->
  waiting_queue s ++ active_requests s = [] -> arrival_index s < total_requests s.
Proof.
  intros Hinv Hlt Hnil. destruct (sum_next_bound _ _ Hinv) as [_ Hex]. destruct (Hex Hlt) as (i & r & Hr & Hc).
  pose proof (si_index _ _ Hinv). pose proof (lookup_lt_Some _ _ _ Hr) as Hi.
  destruct (Z.lt_ge_cases (arrival_index s) (total_requests s)) as [|Hge]; [done|]. exfalso.
  assert (Hin : Z.of_nat i ∈ waiting_queue s ++ active_requests s).
  { apply (si_open _ _ Hinv). split; [unfold total_requests, zlen in *; lia|].
    apply is_active_lookup. exists r. by rewrite Nat2Z.id. }
  rewrite Hnil in Hin. inversion Hin.
Qed.

(** What is left to do: tokens to produce and requests to release. *)
Definition remaining (s : Sim) : Z :=
  (expected_total_tokens s - completed_tokens s) + (total_requests s - arrival_index s).

Lemma remaining_nonneg arr s : sim_inv arr s -> 0 <= remaining s.
Proof.
  intros Hinv. destruct (sum_next_bound _ _ Hinv). pose proof (si_index _ _ Hinv). unfold remaining. lia.
Qed.

Lemma total_inv arr s : sim_inv arr s -> total_requests s = zlen arr.
Proof. intros Hinv. unfold total_requests, zlen. by rewrite (si_len _ _ Hinv). Qed.

Definition iteration_raises (e : py_exc) : Prop :=
  exists tokens m, tokens <> [] /\ _run_one_iteration tokens m = Raise e.

Lemma iterate_progress arr s :
  sim_inv arr s -> (forall i x, arr !! i = Some x -> fnonneg x = true) ->
  (active_requests s = [] -> arrival_index s < total_requests s) ->
  (exists e, iterate s = Raise e /\ iteration_raises e) \/
  (exists s', iterate s = Ok (true, s') /\ sim_inv arr s' /\ remaining s' < remaining s).
Proof.
  intros Hinv Harr Hidle. unfold iterate, advance_or_break. destruct (active_requests s) as [|a0 al] eqn:Ea.
  { destruct (advance_inv _ _ Hinv Harr (Hidle eq_refl)) as (s' & -> & Hinv' & Hlt & Hc). right. exists s'.
    split; [done|]. split; [done|]. unfold remaining, expected_total_tokens.
    rewrite (total_inv _ _ Hinv), (total_inv _ _ Hinv'). lia. }
  clear Hidle. destruct (spawn_inv _ _ Hinv) as (tokens & -> & Hl & Hsp). cbn [mbind res_bind].
  assert (Hids : t_request_id <$> tokens = active_requests s).
  { apply list_eq. intros k. rewrite list_lookup_fmap. destruct (active_requests s !! k) as [rid|] eqn:Ek.
    - destruct (lookup_lt_is_Some_2 tokens k) as [tok Htok]; [apply lookup_lt_Some in Ek; lia|].
      rewrite Htok. simpl. f_equal. by apply (Hsp k tok rid Htok Ek).
    - rewrite (proj2 (lookup_ge_None tokens k)); [done|]. apply lookup_ge_None in Ek. lia. }
  destruct tokens as [|t0 tl] eqn:Et; [rewrite Ea in Hl; done|]. rewrite <-Et in *. clear Ea.
  change (metrics (with_tid _ s)) with (metrics s).
  destruct (_run_one_iteration tokens (metrics s)) as [[[[dur o] tokens'] m']|e] eqn:Ei.
  2: { left. exists e. split; [done|]. exists tokens, (metrics s). split; [|done]. intros Hnil. congruence. }
  right. cbn [mbind res_bind]. destruct (law_iteration _ _ _ _ _ _ Ei) as [Hdur Hsame].
  set (s1 := with_tid (next_tid s + zlen (active_requests s)) s).
  change (current_time s1) with (current_time s). set (tm := fadd (current_time s) dur).
  assert (Htm : fnonneg tm = true) by (apply fadd_nonneg; [apply Hinv|done]).
  assert (Hids' : t_request_id <$> tokens' = active_requests s).
  { rewrite <-Hids. symmetry. clear -Hsame. induction Hsame as [|x y l k (_ & _ & Hx & _) _ IH]; [done|].
    cbn. by rewrite Hx, IH. }
  assert (Hnd : NoDup (active_requests s)) by (pose proof (si_nodup _ _ Hinv) as Hn; by apply NoDup_app in Hn as (_ & _ & ?)).
  pose proof (si_tid _ _ Hinv) as Htid.
  assert (Hdone : 0 <= completed_tokens s).
  { rewrite (si_done _ _ Hinv). apply sumZ_nonneg. apply Forall_fmap, Forall_lookup. intros i r Hr. simpl.
    apply (si_reqs _ _ Hinv _ _ Hr). }
  destruct (finalize_loop (with_iteration tm m' s1) o tokens') as (s' & Hrun & Hfin).
  - done.
  - apply Hinv.
  - apply Hinv.
  - by rewrite Hids'.
  - intros k tok Hk. destruct (Forall2_lookup_r _ _ _ _ _ Hsame Hk) as (tok0 & Hk0 & (Hs1 & _ & Hs3 & _)).
    assert (Hrid : active_requests s !! k = Some (t_request_id tok0)) by (rewrite <-Hids, list_lookup_fmap, Hk0; done).
    destruct (Hsp _ _ _ Hk0 Hrid) as (Ht & _). rewrite <-Hs1, <-Hs3, Ht. split; [simpl; lia|].
    apply list_elem_of_lookup_2 in Hrid.
    assert (t_request_id tok0 ∈ waiting_queue s ++ active_requests s) as Ho by (apply elem_of_app; auto).
    apply (si_open _ _ Hinv) in Ho as [Hr Ha]. apply (active_lt s); [done|lia].
  - unfold _finalize_iteration. rewrite Hrun. cbn [mbind res_bind]. eexists. split; [done|].
    destruct (finalize_inv arr s s' tokens' m' tm Hinv Htm Hids' Hfin) as (Hinv' & Hc & Hi).
    split; [exact Hinv'|]. unfold remaining, expected_total_tokens.
    rewrite (total_inv _ _ Hinv), (total_inv _ _ Hinv'). cbn [with_requests completed_tokens arrival_index].
    rewrite Hc, Hi. assert (0 < zlen (active_requests s)); [|lia].
    rewrite <-Hids, Et. unfold zlen. simpl. lia.
Qed.

(** Why a run with [tokens_after] may stop early. *)
Definition enough_after_saturation (k : option Z) (r : Run) : Prop :=
  exists n st c t, k = Some n /\ saturation r = Some (st, c, t) /\ n <= completed_tokens (sim r) - c.

Lemma step_progress arr k r :
  sim_inv arr (sim r) -> (forall i x, arr !! i = Some x -> fnonneg x = true) ->
  completed_tokens (sim r) < expected_total_tokens (sim r) ->
  (exists e, run_step k r = Raise e /\ iteration_raises e) \/
  (exists c r', run_step k r = Ok (c, r') /\ sim_inv arr (sim r') /\ remaining (sim r') < remaining (sim r) /\
     (c = false -> enough_after_saturation k r')).
Proof.
  intros Hinv Harr Hlt. unfold run_step.
  destruct (release_inv _ _ Hinv Harr) as (Hinv1 & Hi1 & Hc1 & Hr1 & Ha1). set (s1 := _release_new_arrivals (sim r)) in *.
  unfold _fill_active_requests.
  destruct (fill_loop_inv arr (waiting_queue s1) s1 Hinv1 eq_refl) as (s2 & Hf & Hinv2 & Hi2 & Hc2 & Hne).
  assert (Hidle : active_requests s2 = [] -> arrival_index s2 < total_requests s2).
  { intros Hnil. rewrite Hi2, (total_inv _ _ Hinv2), <-(total_inv _ _ Hinv1). apply (idle_has_arrivals arr); [done| |].
    - unfold expected_total_tokens in *. rewrite (total_inv _ _ Hinv1). rewrite (total_inv _ _ Hinv) in Hlt. lia.
    - destruct (waiting_queue s1 ++ active_requests s1) eqn:E; [done|]. by destruct Hne. }
  rewrite Hf. cbn [mbind res_bind].
  destruct (iterate_progress _ _ Hinv2 Harr Hidle) as [(e & -> & He)|(s' & -> & Hinv' & Hrem)].
  { left. exists e. done. }
  right. cbn [mbind res_bind].
  assert (Hrem' : remaining s' < remaining (sim r)).
  { unfold remaining, expected_total_tokens in *. rewrite (total_inv _ _ Hinv2) in Hrem. rewrite (total_inv _ _ Hinv). lia. }
  destruct k as [n|]; [|by eexists _, _].
  destruct (if track_always || _ then _ else _) as [[[st c] t]|] eqn:Es; [|by eexists _, _].
  eexists _, _. split; [done|]. split; [done|]. split; [done|]. cbn [andb]. rewrite Z.geb_leb.
  intros Hb%negb_false_iff%Z.leb_le. exists n, st, c, t. done.
Qed.

Lemma run_loop_total arr k r (fuel : nat) :
  sim_inv arr (sim r) -> (forall i x, arr !! i = Some x -> fnonneg x = true) ->
  remaining (sim r) < Z.of_nat fuel ->
  (exists e, run_loop fuel k r = Some (Raise e) /\ iteration_raises e) \/
  (exists r', run_loop fuel k r = Some (Ok r') /\ sim_inv arr (sim r') /\
     (completed_tokens (sim r') = expected_total_tokens (sim r') \/ enough_after_saturation k r')).
Proof.
  revert r. induction fuel as [|fuel IH]; intros r Hinv Harr Hf.
  { pose proof (remaining_nonneg _ _ Hinv). lia. }
  cbn [run_loop]. destruct (Z.ltb_spec (completed_tokens (sim r)) (expected_total_tokens (sim r))) as [Hlt|Hge].
  - destruct (step_progress arr k r Hinv Harr Hlt) as [(e & -> & He)|(c & r' & -> & Hinv' & Hrem & Hstop)].
    { left. eauto. }
    destruct c; [apply IH; [done|done|lia]|]. right. eauto 10.
  - right. exists r. split; [done|]. split; [done|]. left. destruct (sum_next_bound _ _ Hinv). lia.
Qed.

Lemma sim_inv_init arr :
  (forall i x, arr !! i = Some x -> fnonneg x = true) -> sim_inv arr (sim_init arr).
Proof.
  intros Harr.
  assert (Hlk : forall i r, requests (sim_init arr) !! i = Some r ->
    exists t, arr !! i = Some t /\ r = {| request_id := Z.of_nat i; arrival_time := t; req_home_gpu := None;
                                         next_token_index := 0; completed := false |}).
  { intros i r Hr. cbn [sim_init requests] in Hr. rewrite list_lookup_fmap in Hr.
    destruct (enumerate arr !! i) as [[j t]|] eqn:E; [|done]. injection Hr as <-.
    pose proof E as Hl. apply lookup_lt_Some in Hl. rewrite enum_length in Hl.
    destruct (lookup_lt_is_Some_2 arr i Hl) as [t' Ht']. rewrite (enum_lookup _ _ _ Ht') in E. injection E as <- <-.
    eauto. }
  assert (Hz : forall f, (forall r, r ∈ requests (sim_init arr) -> f r = 0) -> sumZ (f <$> requests (sim_init arr)) = 0).
  { intros f Hf. rewrite (sumZ_fmap_ext _ (fun _ => 0)) by done. clear. induction (requests (sim_init arr)) as [|x l IH]; [done|].
    cbn [fmap list_fmap sumZ foldr]. by rewrite Z.add_0_l. }
  assert (Hn0 : forall r, r ∈ requests (sim_init arr) -> next_token_index r = 0 /\ completed r = false).
  { intros r [i Hi]%list_elem_of_lookup_1. by destruct (Hlk _ _ Hi) as (t & _ & ->). }
  split; try done.
  - cbn [sim_init requests]. by rewrite length_fmap, enum_length.
  - intros i r Hr. destruct (Hlk _ _ Hr) as (t & Ht & ->). cbn. split_and!; try done; [lia|].
    symmetry. apply Z.leb_gt. lia.
  - cbn [sim_init arrival_index]. unfold total_requests. pose proof (zlen_nonneg (requests (sim_init arr))). lia.
  - constructor.
  - intros rid. cbn. split; [intros Hin; inversion Hin|intros [Hr _]; lia].
  - intros rid r Hin. inversion Hin.
  - intros i r g Hr. destruct (Hlk _ _ Hr) as (t & _ & ->). done.
  - intros i r Hr _. by destruct (Hlk _ _ Hr) as (t & _ & ->).
  - cbn [sim_init completed_tokens]. rewrite Hz; [done|]. intros r Hr. by apply Hn0.
  - rewrite zlen_filter_sum, Hz; [done|]. intros r Hr. rewrite decide_False; [done|].
    destruct (Hn0 r Hr) as [_ ->]. done.
Qed.

(** C23. The simulation completes.  Started on arrival times that are not negative,
    [run] needs at most one turn per token and per request; it ends with the
    exception of an iteration, or, unless it was asked to stop a number of tokens
    after saturation, with every request completed: every request produced all its
    tokens, the tokens are numbered without a gap and each has one completion time
    and one latency, and there is one latency per request. *)
Theorem run_completes (arr : list float) (tokens_after : option Z) (fuel : nat) :
  (forall i x, arr !! i = Some x -> fnonneg x = true) ->
  match tokens_after with Some k => 0 <= k | None => True end ->
  zlen arr * tokens_per_request + zlen arr < Z.of_nat fuel ->
  (exists e, run fuel tokens_after (sim_init arr) = Some (Raise e) /\ iteration_raises e) \/
  (exists r, run fuel tokens_after (sim_init arr) = Some (Ok r) /\
     (enough_after_saturation tokens_after r \/
      stopped_early (summary (sim r)) = false /\
      Forall (fun q => completed q = true /\ next_token_index q = tokens_per_request) (requests (sim r)) /\
      dkeys (completion_times (sim r)) = py_range (zlen arr * tokens_per_request) /\
      dkeys (token_latencies (sim r)) = py_range (zlen arr * tokens_per_request) /\
      zlen (request_latency_values (sim r)) = zlen arr)).
Proof.
  intros Harr Hk Hfuel. pose proof (sim_inv_init arr Harr) as Hinv.
  assert (Hrun : run fuel tokens_after (sim_init arr)
    = run_loop fuel tokens_after {| sim := sim_init arr; steps_executed := 0; saturation := None |}).
  { unfold run. destruct tokens_after as [k|]; [|done]. by rewrite (proj2 (Z.ltb_ge _ _)). }
  rewrite Hrun.
  destruct (run_loop_total arr tokens_after {| sim := sim_init arr; steps_executed := 0; saturation := None |} fuel)
    as [He|(r & Hr & Hinv' & Hend)]; [done|done| |by left|].
  { unfold remaining, expected_total_tokens. cbn [sim]. rewrite (total_inv _ _ Hinv). simpl. lia. }
  right. exists r. split; [done|]. destruct Hend as [Hend|Hend]; [right|by left].
  assert (Hall : Forall (fun q => completed q = true /\ next_token_index q = tokens_per_request) (requests (sim r))).
  { apply Forall_lookup. intros i q Hq. destruct (si_reqs _ _ Hinv' _ _ Hq) as (_ & _ & Hn & Hc).
    destruct (sum_next_bound _ _ Hinv') as [_ _].
    assert (Hsum : sumZ (next_token_index <$> requests (sim r)) = zlen (requests (sim r)) * tokens_per_request).
    { rewrite <-(si_done _ _ Hinv'). exact Hend. }
    assert (Hq' : next_token_index q = tokens_per_request).
    { assert (Hle : Forall (fun q => next_token_index q <= tokens_per_request) (requests (sim r))).
      { apply Forall_lookup. intros j x Hx. by apply (si_reqs _ _ Hinv' _ _ Hx). }
      clear -Hsum Hle Hq. revert i Hq. induction Hle as [|x l Hx Hl IH]; intros i Hq; [done|].
      cbn [fmap list_fmap sumZ foldr] in Hsum. fold (sumZ (next_token_index <$> l)) in Hsum. rewrite zlen_cons in Hsum.
      assert (Hb : sumZ (next_token_index <$> l) <= zlen l * tokens_per_request).
      { clear -Hl. induction Hl as [|y l Hy _ IH]; [simpl; change (zlen []) with 0; lia|].
        cbn [fmap list_fmap sumZ foldr]. fold (sumZ (next_token_index <$> l)). rewrite zlen_cons. lia. }
      destruct i as [|i]; [injection Hq as ->; lia|]. apply (IH ltac:(lia) i Hq). }
    split; [|done]. rewrite Hc, Hq'. by apply Z.leb_le. }
  assert (Hc : completed_tokens (sim r) = zlen arr * tokens_per_request).
  { rewrite Hend. unfold expected_total_tokens. by rewrite (total_inv _ _ Hinv'). }
  split; [cbn [summary stopped_early]; by rewrite Hend, Z.eqb_refl|]. split; [done|].
  split; [by rewrite (si_times _ _ Hinv'), Hc|]. split; [by rewrite (si_lats _ _ Hinv'), Hc|].
  rewrite (si_values _ _ Hinv'), filter_all; [by apply total_inv|]. eapply Forall_impl; [exact Hall|]. by intros q [? _].
Qed.
End Simulator.

(** ** A concrete run *)

Definition ex_iteration : Iteration unit := {|
  _run_one_iteration tokens m := Ok (float_of_Z 1, tt, tokens, m);
  completion_time _ now _ := now;
|}.

Lemma ex_laws : @IterationLaws unit ex_iteration.
Proof.
  split. intros tokens m dur o tokens' m' [= <- _ <- _]. split; [reflexivity|].
  induction tokens; constructor; repeat split; done.
Qed.

Lemma run_completes_witness :
  exists r, @run 2 2 1 (fun _ => false) false unit ex_iteration 100 None
      (sim_init [float_of_Z 0; float_of_Z 5]) = Some (Ok r) /\ stopped_early (summary 2 (sim r)) = false.
Proof.
  destruct (@run_completes 2 2 1 (fun _ => false) false unit ex_iteration ex_laws ltac:(lia) ltac:(lia) ltac:(lia)
    [float_of_Z 0; float_of_Z 5] None 100) as [(e & _ & tokens & m & _ & He)|(r & Hr & [Hs|(Hs & _)])].
  - intros [|[|i]] x Hx; vm_compute in Hx; injection Hx as <- || discriminate Hx; reflexivity.
  - exact I.
  - reflexivity.
  - discriminate He.
  - destruct Hs as (n & st & c & t & Hk & _). discriminate Hk.
  - exists r. split; [exact Hr|exact Hs].
Defined.
End SimCore.
