(* ===== verification/SimSync.v ===== *)
(** * The synchronous simulator ([simulation/sim_sync.py])

    An iteration routes every token through every layer: attention in rounds of
    the attention group, dispatch to the expert workers, the workers' queues
    drained longest first, and the return transfers; a layer takes as long as its
    slowest worker.  The router is the profile router's [route]; the network delay
    function is an argument, as in the code. *)

From Corelib Require Import SpecFloat.
From S2P Require Import Prelude PyFloat SimCore.
Import SimCore.

Module SimSync.

Section Layer.
Context (ep_group_size total_expert_count max_batch_size attn_dp_group_size num_layers : Z).
Context (attn_service_t net_t_attn_to_expert net_t_expert_to_attn : float).
Context (net_delay_fn : option (Z -> Z -> Z -> float)) (n_gpu_per_host : option Z).
Context (compute_time_lookup : Z -> option float).
(** [route request_ids token_indices layer]: the expert ids, one list per token. *)
Context (route : list Z -> list Z -> Z -> res (list (list Z))).

Definition queues_per_worker : Z := total_expert_count / ep_group_size.

(** ** Routing *)

(** [worker_queues], [worker_src_gpus] and [tokens_per_src_per_dst]. *)
Record Routed : Type := {
  worker_queues : list (list Z);
  worker_src_gpus : list (list Z);
  tokens_per_src_per_dst : list (Z * list (Z * Z));
}.

Definition routed_init : Routed :=
  {| worker_queues := replicate (Z.to_nat ep_group_size) (replicate (Z.to_nat queues_per_worker) 0);
     worker_src_gpus := replicate (Z.to_nat ep_group_size) [];
     tokens_per_src_per_dst := [] |}.

(** One selected expert of a token of [src_gpu]. *)
Definition route_expert (src_gpu : Z) (st : Routed) (expert_id : Z) : res Routed :=
  _ ← py_check (negb (expert_id >=? total_expert_count)) RuntimeError;
  worker_idx ← py_floordiv expert_id queues_per_worker;
  local_queue_idx ← py_mod expert_id queues_per_worker;
  row ← py_get (worker_queues st) worker_idx;
  n ← py_get row local_queue_idx;
  row ← py_set row local_queue_idx (n + 1);
  queues ← py_set (worker_queues st) worker_idx row;
  gpus ← py_get (worker_src_gpus st) worker_idx;
  srcs ← py_set (worker_src_gpus st) worker_idx (if bool_decide (src_gpu ∈ gpus) then gpus else gpus ++ [src_gpu]);
  let dst_map := dget_or (tokens_per_src_per_dst st) worker_idx [] in
  Ok {| worker_queues := queues; worker_src_gpus := srcs;
        tokens_per_src_per_dst := dset (tokens_per_src_per_dst st) worker_idx
          (dset dst_map src_gpu (dget_or dst_map src_gpu 0 + 1)) |}.

Definition with_fanout (layer_idx n : Z) (t : Token) : Token :=
  {| tid := tid t; birth_time := birth_time t; t_request_id := t_request_id t; token_index := token_index t;
     home_gpu := home_gpu t; layer_fanout := dset (layer_fanout t) layer_idx n;
     sampled_for_stats := sampled_for_stats t |}.

Definition selected_experts (expert_ids : list Z) : list Z := filter (fun e => 0 <= e) expert_ids.

Definition route_token (layer_idx : Z) (st : Routed * list Token) (x : Token * list Z)
    : res (Routed * list Token) :=
  let '(token, expert_ids) := x in
  let selected := selected_experts expert_ids in
  _ ← py_check (negb (zlen selected =? 0)) RuntimeError;
  r ← py_for (route_expert (home_gpu token)) selected st.1;
  Ok (r, st.2 ++ [with_fanout layer_idx (zlen selected) token]).

Definition _route_layer (layer_idx : Z) (tokens : list Token) : res (Routed * list Token) :=
  topk_ids ← route (t_request_id <$> tokens) (token_index <$> tokens) layer_idx;
  '(r, done) ← py_for (route_token layer_idx) (zip tokens topk_ids) (routed_init, []);
  Ok (r, done ++ drop (length topk_ids) tokens).

(** ** The queues of a worker *)

(** [max(range(len(queues)), key=lambda i: queues[i])]: the first of the longest. *)
Fixpoint longest (i best_i best : Z) (l : list Z) : Z :=
  match l with
  | [] => best_i
  | x :: l => if best <? x then longest (i + 1) i x l else longest (i + 1) best_i best l
  end.

Definition longest_queue (queues : list Z) : res Z :=
  match queues with [] => Raise ValueError | x :: l => Ok (longest 1 0 x l) end.

(** The [while] loop of [_simulate_worker_compute_time]; it returns the batches it
    formed, in order, with the time elapsed.  [None]: out of fuel. *)
Fixpoint drain (fuel : nat) (queues : list Z) (total_tokens : Z) (elapsed : float) (batches : list Z)
    : option (res (float * list Z)) :=
  if 0 <? total_tokens then
    match fuel with
    | Datatypes.O => None
    | Datatypes.S fuel =>
        match queue_idx ← longest_queue queues;
              available ← py_get queues queue_idx;
              if available <=? 0 then Ok None
              else
                let batch := Z.min available max_batch_size in
                queues ← py_set queues queue_idx (available - batch);
                compute_t ← of_option KeyError (compute_time_lookup batch);
                Ok (Some (batch, queues, fadd elapsed compute_t)) with
        | Raise e => Some (Raise e)
        | Ok None => Some (Ok (elapsed, batches))
        | Ok (Some (batch, queues, elapsed)) =>
            drain fuel queues (total_tokens - batch) elapsed (batches ++ [batch])
        end
    end
  else Some (Ok (elapsed, batches)).

Definition count_batches (batches : list Z) (m : Metrics) : Metrics :=
  {| layer_expert_runtimes := layer_expert_runtimes m; layer_wait_imbalances := layer_wait_imbalances m;
     worker_queue_stddevs := worker_queue_stddevs m;
     total_expert_batch_size := foldl (fun a b => fadd a (float_of_Z b)) (total_expert_batch_size m) batches;
     total_expert_batch_count := total_expert_batch_count m + zlen batches |}.

(** The fuel is the number of tokens: every batch takes at least one. *)
Definition _simulate_worker_compute_time (loads : list Z) (m : Metrics) : res (float * Metrics) :=
  let total_tokens := sumZ loads in
  if total_tokens =? 0 then Ok (float_of_Z 0, m)
  else
    match drain (Z.to_nat total_tokens) loads total_tokens (float_of_Z 0) [] with
    | Some r => '(t, bs) ← r; Ok (t, count_batches bs m)
    | None => Raise RuntimeError
    end.

(** ** A layer *)

Definition _is_same_host (gpu_a gpu_b : Z) : res bool :=
  match n_gpu_per_host with
  | None => Ok true
  | Some n => a ← py_floordiv gpu_a n; b ← py_floordiv gpu_b n; Ok (a =? b)
  end.

(** The transfers to one destination: the totals of its two receive queues. *)
Definition receive_one (delay : Z -> Z -> Z -> float) (worker_idx : Z) (st : float * float) (x : Z * Z)
    : res (float * float) :=
  let '(src, ntok) := x in
  if ntok <=? 0 then Ok st
  else
    let d := delay src worker_idx ntok in
    same ← _is_same_host src worker_idx;
    Ok (if same : bool then (fadd st.1 d, st.2) else (st.1, fadd st.2 d)).

Definition dispatch_delay (delay : Z -> Z -> Z -> float) (r : Routed) (worker_idx : Z) : res float :=
  match dget_or (tokens_per_src_per_dst r) worker_idx [] with
  | [] => Ok (float_of_Z 0)
  | src_tokens =>
      '(nvlink_total, rdma_total) ← py_for (receive_one delay worker_idx) src_tokens (float_of_Z 0, float_of_Z 0);
      Ok (fmax nvlink_total rdma_total)
  end.

Definition dispatch_time (r : Routed) : res float :=
  match net_delay_fn with
  | None => Ok net_t_attn_to_expert
  | Some delay =>
      ds ← py_map (dispatch_delay delay r) (py_range ep_group_size);
      match ds with [] => Ok (float_of_Z 0) | _ => list_max ds end
  end.

(** [math.sqrt] *)
Definition fsqrt (x : float) : res float :=
  if fltb x (float_of_Z 0) then Raise ValueError else Ok (SFsqrt prec emax x).

(** The standard deviation of a worker's queues; [x ** 2] is [x * x]. *)
Definition queue_stddev (queues : list Z) : res float :=
  let n := float_of_Z (zlen queues) in
  let mean := fdiv (float_of_Z (sumZ queues)) n in
  let sq q := let d := fsub (float_of_Z q) mean in fmul d d in
  fsqrt (fdiv (fsum (sq <$> queues)) n).

Definition add_stddev (m : Metrics) (queues : list Z) : res Metrics :=
  match queues with
  | [] => Ok m
  | _ => s ← queue_stddev queues;
         Ok {| layer_expert_runtimes := layer_expert_runtimes m;
               layer_wait_imbalances := layer_wait_imbalances m;
               worker_queue_stddevs := worker_queue_stddevs m ++ [s];
               total_expert_batch_size := total_expert_batch_size m;
               total_expert_batch_count := total_expert_batch_count m |}
  end.

Definition compute_worker (st : list float * Metrics) (loads : list Z) : res (list float * Metrics) :=
  '(t, m) ← _simulate_worker_compute_time loads st.2; Ok (st.1 ++ [t], m).

(** The transfers back to the attention GPUs, by destination. *)
Definition return_one (delay : Z -> Z -> Z -> float) (worker_idx : Z)
    (st : list (Z * float) * list (Z * float)) (x : Z * Z) : res (list (Z * float) * list (Z * float)) :=
  let '(attn_gpu, tokens_to_return) := x in
  if tokens_to_return <=? 0 then Ok st
  else
    let d := delay worker_idx attn_gpu tokens_to_return in
    same ← _is_same_host worker_idx attn_gpu;
    let add dict := dset dict attn_gpu (fadd (dget_or dict attn_gpu (float_of_Z 0)) d) in
    Ok (if same : bool then (add st.1, st.2) else (st.1, add st.2)).

Definition return_worker (delay : Z -> Z -> Z -> float) (r : Routed)
    (st : list (Z * float) * list (Z * float)) (worker_idx : Z) : res (list (Z * float) * list (Z * float)) :=
  loads ← py_get (worker_queues r) worker_idx;
  if sumZ loads =? 0 then Ok st
  else py_for (return_one delay worker_idx) (dget_or (tokens_per_src_per_dst r) worker_idx []) st.

Definition return_time (r : Routed) : res float :=
  match net_delay_fn with
  | None => Ok net_t_expert_to_attn
  | Some delay =>
      '(nvlink, rdma) ← py_for (return_worker delay r) (py_range ep_group_size) ([], []);
      match remove_dups (dkeys nvlink ++ dkeys rdma) with
      | [] => Ok (float_of_Z 0)
      | gpus => list_max ((fun g => fmax (dget_or nvlink g (float_of_Z 0)) (dget_or rdma g (float_of_Z 0))) <$> gpus)
      end
  end.

Definition add_layer (layer_runtime longest_wait : float) (m : Metrics) : Metrics :=
  {| layer_expert_runtimes := layer_expert_runtimes m ++ [layer_runtime];
     layer_wait_imbalances := layer_wait_imbalances m ++ [longest_wait];
     worker_queue_stddevs := worker_queue_stddevs m;
     total_expert_batch_size := total_expert_batch_size m;
     total_expert_batch_count := total_expert_batch_count m |}.

(** The slowest worker and the spread between the slowest and the fastest. *)
Definition compute_spread (times : list float) : res (float * float) :=
  match times with
  | [] => Ok (float_of_Z 0, float_of_Z 0)
  | _ => hi ← list_max times; lo ← list_min times;
         Ok (hi, fmax (float_of_Z 0) (fsub hi lo))
  end.

Definition _run_layer (layer_idx : Z) (tokens : list Token) (m : Metrics) : res (float * list Token * Metrics) :=
  let token_count := zlen tokens in
  if token_count =? 0 then Ok (float_of_Z 0, tokens, m)
  else
    batches ← fceil (fdiv (float_of_Z token_count) (float_of_Z attn_dp_group_size));
    let attention_time := fmul (float_of_Z batches) attn_service_t in
    '(r, tokens) ← _route_layer layer_idx tokens;
    dispatch ← dispatch_time r;
    m ← py_for add_stddev (worker_queues r) m;
    '(times, m) ← py_for compute_worker (worker_queues r) ([], m);
    ret ← return_time r;
    '(expert_compute_time, longest_wait) ← compute_spread times;
    let expert_time := fadd expert_compute_time ret in
    let layer_runtime := fadd (fadd attention_time dispatch) expert_time in
    Ok (layer_runtime, tokens, add_layer layer_runtime longest_wait m).

Definition run_layers (tokens : list Token) (m : Metrics) : res (float * list Token * Metrics) :=
  py_for (fun '(t, tokens, m) layer_idx =>
      '(d, tokens, m) ← _run_layer layer_idx tokens m; Ok (fadd t d, tokens, m))
    (py_range num_layers) (float_of_Z 0, tokens, m).

(** Every token of the iteration completes when it ends. *)
Definition sync_iteration : Iteration unit := {|
  _run_one_iteration tokens m := '(t, tokens, m) ← run_layers tokens m; Ok (t, tt, tokens, m);
  completion_time _ now _ := now;
|}.

(** ** Routing counts every assignment *)

Section Counting.
Hypothesis Hep : 0 < ep_group_size.
Hypothesis Hqpw : 0 < queues_per_worker.
Hypothesis Hdiv : total_expert_count = ep_group_size * queues_per_worker.

(** The (source GPU, expert) pairs of a batch. *)
Definition assignments (tokens : list Token) (ids : list (list Z)) : list (Z * Z) :=
  zip tokens ids ≫= fun x => (fun e => (home_gpu x.1, e)) <$> selected_experts x.2.

Definition count_if (P : Z * Z -> bool) (l : list (Z * Z)) : Z := zlen (filter (fun x => P x = true) l).

Lemma count_if_snoc P l x : count_if P (l ++ [x]) = count_if P l + (if P x then 1 else 0).
Proof.
  unfold count_if. rewrite filter_app, zlen_app, filter_cons, filter_nil. by destruct (P x).
Qed.

Definition to_queue (w q : Z) (x : Z * Z) : bool := x.2 =? w * queues_per_worker + q.
Definition to_worker (w : Z) (x : Z * Z) : bool := x.2 / queues_per_worker =? w.
Definition from_to (s w : Z) (x : Z * Z) : bool := (x.1 =? s) && to_worker w x.

(** What the tables say after the assignments [pre]. *)
Record counts (pre : list (Z * Z)) (r : Routed) : Prop := {
  ct_queues : worker_queues r = tab ep_group_size (fun w => tab queues_per_worker (fun q => count_if (to_queue w q) pre));
  ct_srcs : length (worker_src_gpus r) = Z.to_nat ep_group_size /\
    forall w l s, worker_src_gpus r !! Z.to_nat w = Some l -> 0 <= w -> s ∈ l <-> 0 < count_if (from_to s w) pre;
  ct_pairs : forall s w, dget_or (dget_or (tokens_per_src_per_dst r) w []) s 0 = count_if (from_to s w) pre;
}.

Lemma count_if_nonneg P l : 0 <= count_if P l.
Proof. apply zlen_nonneg. Qed.

Lemma counts_init : counts [] routed_init.
Proof.
  split.
  - cbn [routed_init worker_queues]. rewrite !replicate_tab. done.
  - cbn [routed_init worker_src_gpus]. rewrite length_replicate. split; [done|].
    intros w l s [-> _]%lookup_replicate_1 _. split; [intros Hin; inversion Hin|].
    change (count_if (from_to s w) []) with 0. lia.
  - done.
Qed.

Lemma route_expert_step pre r src e :
  counts pre r -> 0 <= e < total_expert_count ->
  exists r', route_expert src r e = Ok r' /\ counts (pre ++ [(src, e)]) r'.
Proof.
  intros [Hq [Hsl Hs] Hp] He. set (w := e / queues_per_worker). set (q := e mod queues_per_worker).
  assert (Hw : 0 <= w < ep_group_size)
    by (split; [apply Z.div_pos; lia|apply Z.div_lt_upper_bound; lia]).
  assert (Hqb : 0 <= q < queues_per_worker) by (apply Z.mod_pos_bound; lia).
  assert (Heq : e = w * queues_per_worker + q) by (unfold w, q; pose proof (Z.div_mod e queues_per_worker); lia).
  unfold route_expert. rewrite Z.geb_leb, (proj2 (Z.leb_gt _ _)) by lia. cbn [negb py_check mbind res_bind].
  unfold py_floordiv, py_mod. rewrite (proj2 (Z.eqb_neq _ _)) by lia. cbn [mbind res_bind]. fold w q.
  rewrite Hq, py_get_tab by done. cbn [mbind res_bind]. rewrite py_get_tab by done. cbn [mbind res_bind].
  rewrite py_set_tab by done. cbn [mbind res_bind]. rewrite py_set_tab by done. cbn [mbind res_bind].
  destruct (lookup_lt_is_Some_2 (worker_src_gpus r) (Z.to_nat w)) as [gpus Hg]; [lia|].
  rewrite (py_get_lookup _ _ gpus) by (done || lia). cbn [mbind res_bind].
  rewrite py_set_nonneg by (unfold zlen; lia). cbn [mbind res_bind]. eexists. split; [done|].
  assert (Hcw : forall s w', count_if (from_to s w') (pre ++ [(src, e)])
    = count_if (from_to s w') pre + (if (src =? s) && (w =? w') then 1 else 0))
    by (intros; by rewrite count_if_snoc).
  assert (Hcq : forall w' q', count_if (to_queue w' q') (pre ++ [(src, e)])
    = count_if (to_queue w' q') pre + (if e =? w' * queues_per_worker + q' then 1 else 0))
    by (intros; by rewrite count_if_snoc).
  split; cbn [worker_queues worker_src_gpus tokens_per_src_per_dst].
  - apply tab_ext. intros w' Hw'. unfold upd. destruct (Z.eqb_spec w' w) as [->|Hne].
    + apply tab_ext. intros q' Hq'. rewrite Hcq. destruct (Z.eqb_spec q' q) as [->|]; zcases; lia.
    + apply tab_ext. intros q' Hq'. rewrite Hcq.
      destruct (Z.eqb_spec e (w' * queues_per_worker + q')) as [Hc|]; [|lia].
      exfalso. apply Hne. unfold w. rewrite Hc. rewrite Z.add_comm, Z.div_add, Z.div_small by lia. lia.
  - rewrite length_insert. split; [done|]. intros w' l s Hl Hw'. rewrite Hcw.
    apply list_lookup_insert_Some in Hl as [(Hww & <- & _)|(Hww & Hl)].
    + assert (w' = w) as -> by lia. specialize (Hs w gpus s Hg Hw').
      pose proof (count_if_nonneg (from_to s w) pre).
      assert (Hin : s ∈ (if bool_decide (src ∈ gpus) then gpus else gpus ++ [src]) <-> s ∈ gpus \/ s = src).
      { case_bool_decide; [split; [auto|intros [?| ->]; done]|]. by rewrite elem_of_app, list_elem_of_singleton. }
      rewrite Hin, Hs, Z.eqb_refl, andb_true_r. destruct (Z.eqb_spec src s); lia.
    + rewrite (Hs w' l s Hl Hw'). destruct (Z.eqb_spec w w') as [->|]; [lia|]. rewrite andb_false_r. lia.
  - intros s w'. rewrite Hcw, <-Hp. unfold dget_or. rewrite dget_dset. destruct (decide (w = w')) as [<-|Hne].
    + rewrite Z.eqb_refl, andb_true_r. simpl. rewrite dget_dset.
      destruct (decide (src = s)) as [<-|Hne]; [rewrite Z.eqb_refl; done|].
      rewrite (proj2 (Z.eqb_neq src s)) by done. lia.
    + rewrite (proj2 (Z.eqb_neq w w')) by done. rewrite andb_false_r. lia.
Qed.

(** The experts of a token are valid and at least one is selected. *)
Definition valid_row (expert_ids : list Z) : Prop :=
  selected_experts expert_ids <> [] /\ Forall (fun e => e < total_expert_count) expert_ids.

Lemma route_experts pre r src l :
  counts pre r -> Forall (fun e => 0 <= e < total_expert_count) l ->
  exists r', py_for (route_expert src) l r = Ok r' /\ counts (pre ++ ((fun e => (src, e)) <$> l)) r'.
Proof.
  intros Hc Hl. revert pre r Hc. induction Hl as [|e l He _ IH]; intros pre r Hc.
  { exists r. by rewrite app_nil_r. }
  destruct (route_expert_step pre r src e Hc He) as (r1 & Hr & Hc1). cbn [py_for]. rewrite Hr. cbn [mbind res_bind].
  destruct (IH _ _ Hc1) as (r' & -> & Hc'). exists r'. split; [done|]. by rewrite <-app_assoc in Hc'.
Qed.

Lemma route_token_step layer pre r done_ token ids :
  counts pre r -> valid_row ids ->
  exists r', route_token layer (r, done_) (token, ids)
      = Ok (r', done_ ++ [with_fanout layer (zlen (selected_experts ids)) token]) /\
    counts (pre ++ ((fun e => (home_gpu token, e)) <$> selected_experts ids)) r'.
Proof.
  intros Hc [Hne Hv]. unfold route_token. cbn [fst snd]. rewrite (proj2 (Z.eqb_neq _ _)).
  2: { destruct (selected_experts ids); [done|]. unfold zlen. simpl. lia. }
  cbn [negb py_check mbind res_bind].
  destruct (route_experts pre r (home_gpu token) (selected_experts ids) Hc) as (r' & -> & Hc').
  { apply Forall_forall. intros e [He Hin]%list_elem_of_filter. rewrite Forall_forall in Hv. auto. }
  exists r'. done.
Qed.

(** Routing a layer counts every (token, selected expert) pair exactly once: in
    the queue of its expert on the worker that owns it, and in the transfer from the
    token's attention GPU to that worker, whose set of sources has exactly the GPUs
    that send something; each token is returned with its fan-out. *)
Theorem route_layer_exact (layer : Z) (tokens : list Token) (ids : list (list Z)) :
  route (t_request_id <$> tokens) (token_index <$> tokens) layer = Ok ids ->
  length ids = length tokens -> Forall valid_row ids ->
  exists r, _route_layer layer tokens
      = Ok (r, zip_with (fun t l => with_fanout layer (zlen (selected_experts l)) t) tokens ids) /\
    (forall w q, 0 <= w < ep_group_size -> 0 <= q < queues_per_worker ->
       exists row, worker_queues r !! Z.to_nat w = Some row /\
         row !! Z.to_nat q = Some (count_if (to_queue w q) (assignments tokens ids))) /\
    (forall s w, dget_or (dget_or (tokens_per_src_per_dst r) w []) s 0
       = count_if (from_to s w) (assignments tokens ids)) /\
    (forall w l s, 0 <= w -> worker_src_gpus r !! Z.to_nat w = Some l ->
       s ∈ l <-> 0 < count_if (from_to s w) (assignments tokens ids)).
Proof.
  intros Hr Hl Hv. unfold _route_layer. rewrite Hr. cbn [mbind res_bind].
  assert (Hloop : forall toks idl pre r acc, length idl = length toks -> Forall valid_row idl -> counts pre r ->
    exists r', py_for (route_token layer) (zip toks idl) (r, acc)
        = Ok (r', acc ++ zip_with (fun t l => with_fanout layer (zlen (selected_experts l)) t) toks idl) /\
      counts (pre ++ assignments toks idl) r').
  { induction toks as [|t toks IH]; intros [|l idl] pre r acc Hle Hvl Hc; try done.
    { exists r. unfold assignments. simpl. rewrite !app_nil_r. done. }
    apply Forall_cons in Hvl as [Hvl Hvs].
    destruct (route_token_step layer pre r acc t l Hc Hvl) as (r1 & Hr1 & Hc1). cbn [zip zip_with py_for].
    change (zip_with pair toks idl) with (zip toks idl). rewrite Hr1. cbn [mbind res_bind].
    destruct (IH idl _ _ (acc ++ [with_fanout layer (zlen (selected_experts l)) t]) ltac:(simpl in Hle; lia) Hvs Hc1)
      as (r' & -> & Hc'). exists r'. split; [by rewrite <-app_assoc|].
    unfold assignments in *. cbn [zip zip_with mbind list_bind fst snd]. by rewrite <-app_assoc in Hc'. }
  destruct (Hloop tokens ids [] routed_init [] Hl Hv counts_init) as (r & -> & [Hq [Hsl Hs] Hp]).
  cbn [mbind res_bind app] in *. exists r. rewrite (drop_ge tokens), app_nil_r by lia. split; [done|].
  split; [|split; [exact Hp|intros w l s Hw Hlk; by apply Hs]].
  intros w q Hw Hqq. rewrite Hq.
  exists (tab queues_per_worker (fun q => count_if (to_queue w q) (assignments tokens ids))). split.
  - exact (tab_lookup _ (fun w => tab queues_per_worker (fun q => count_if (to_queue w q) (assignments tokens ids))) w Hw).
  - exact (tab_lookup _ (fun q => count_if (to_queue w q) (assignments tokens ids)) q Hqq).
Qed.
End Counting.

(** ** The queues of a worker drain in full batches *)

Lemma longest_spec l i bi b :
  let r := longest i bi b l in
  (r = bi /\ Forall (fun x => x <= b) l) \/
  (exists k x, r = i + Z.of_nat k /\ l !! k = Some x /\ b < x /\ Forall (fun y => y <= x) l).
Proof.
  revert i bi b. induction l as [|x l IH]; intros i bi b; cbn [longest]; [left; done|].
  destruct (Z.ltb_spec b x).
  - right. destruct (IH (i + 1) i x) as [[-> Hall]|(k & y & -> & Hk & Hlt & Hall)].
    + exists 0%nat, x. split; [lia|]. split; [done|]. split; [done|]. by constructor.
    + exists (Datatypes.S k), y. split; [lia|]. split; [done|]. split; [lia|]. constructor; [lia|done].
  - destruct (IH (i + 1) bi b) as [[-> Hall]|(k & y & -> & Hk & Hlt & Hall)].
    + left. split; [done|]. by constructor.
    + right. exists (Datatypes.S k), y. split; [lia|]. split; [done|]. split; [done|]. constructor; [lia|done].
Qed.

Lemma longest_queue_spec queues :
  queues <> [] -> exists i x, longest_queue queues = Ok (Z.of_nat i) /\ queues !! i = Some x /\
    Forall (fun y => y <= x) queues.
Proof.
  intros Hne. destruct queues as [|x l]; [done|]. unfold longest_queue.
  destruct (longest_spec l 1 0 x) as [[-> Hall]|(k & y & -> & Hk & Hlt & Hall)].
  - exists 0%nat, x. split; [done|]. split; [done|]. by constructor.
  - exists (Datatypes.S k), y. split; [f_equal; lia|]. split; [done|]. constructor; [lia|done].
Qed.

Definition ceil_div (a b : Z) : Z := (a + b - 1) / b.

Lemma ceil_div_step x b : 0 < b -> 0 < x -> ceil_div (x - Z.min x b) b = ceil_div x b - 1.
Proof.
  intros Hb Hx. unfold ceil_div. destruct (Z.min_spec x b) as [[Hlt ->]|[Hge ->]].
  - replace (x - x + b - 1) with (b - 1) by lia. rewrite (Z.div_small (b - 1) b) by lia.
    replace (x + b - 1) with (x - 1 + 1 * b) by lia. rewrite Z.div_add, Z.div_small by lia. lia.
  - replace (x + b - 1) with (x - b + b - 1 + 1 * b) by lia. rewrite Z.div_add by lia. lia.
Qed.

(** [t] is the time the batches take, added in order. *)
Definition batches_time (t0 : float) (batches : list Z) : float :=
  foldl (fun t b => fadd t (default (float_of_Z 0) (compute_time_lookup b))) t0 batches.

Hypothesis Hbatch : 0 < max_batch_size.
Hypothesis Hlookup : forall b, 1 <= b <= max_batch_size -> is_Some (compute_time_lookup b).

Lemma drain_spec fuel queues t bs (cap : Z) :
  Forall (fun q => 0 <= q <= cap) queues -> (Z.to_nat (sumZ queues) <= fuel)%nat ->
  exists new, drain fuel queues (sumZ queues) t bs = Some (Ok (batches_time t new, bs ++ new)) /\
    sumZ new = sumZ queues /\ Forall (fun b => 1 <= b <= Z.min cap max_batch_size) new /\
    StronglySorted Z.ge new /\ zlen new = sumZ ((fun q => ceil_div q max_batch_size) <$> queues).
Proof.
  revert queues t bs cap. induction fuel as [|fuel IH]; intros queues t bs cap Hq Hf;
    pose proof (sumZ_nonneg queues ltac:(eapply Forall_impl; [exact Hq|]; simpl; lia)) as Hsum; cbn [drain].
  all: destruct (Z.ltb_spec 0 (sumZ queues)) as [Hpos|Hz].
  1: lia.
  1, 3: exists []; rewrite app_nil_r; split; [done|]; split; [simpl; lia|]; split; [constructor|]; split; [constructor|];
    change (zlen []) with 0; assert (H0 : Forall (fun q => q = 0) queues) by
      (clear -Hq Hz; induction Hq as [|q l [Hq _] Hl IH]; [constructor|]; cbn [sumZ foldr] in Hz; fold (sumZ l) in Hz;
       pose proof (sumZ_nonneg l ltac:(eapply Forall_impl; [exact Hl|]; simpl; lia)); constructor; [lia|apply IH; lia]);
    clear -H0 Hbatch; induction H0 as [|q l -> _ IH]; [done|]; cbn [fmap list_fmap sumZ foldr];
    fold (sumZ ((fun q => ceil_div q max_batch_size) <$> l)); rewrite <-IH; unfold ceil_div;
    rewrite Z.div_small by lia; lia.
  destruct (longest_queue_spec queues) as (i & x & -> & Hx & Hmax); [intros ->; simpl in Hpos; lia|].
  cbn [mbind res_bind]. rewrite (py_get_lookup _ _ x) by (try lia; by rewrite Nat2Z.id). cbn [mbind res_bind].
  assert (Hxpos : 0 < x).
  { destruct (Z.lt_ge_cases 0 x) as [|Hle]; [done|]. exfalso.
    assert (sumZ queues <= 0); [|lia]. clear -Hmax Hle. induction Hmax as [|y l Hy _ IH]; [done|].
    cbn [sumZ foldr]. fold (sumZ l). lia. }
  rewrite (proj2 (Z.leb_gt _ _)) by done. set (b := Z.min x max_batch_size).
  assert (Hb : 1 <= b <= max_batch_size) by (unfold b; lia).
  assert (Hxc : x <= cap) by (rewrite Forall_forall in Hq; apply (Hq x); by eapply list_elem_of_lookup_2).
  rewrite py_set_nonneg by (apply lookup_lt_Some in Hx; unfold zlen; lia). rewrite Nat2Z.id. cbn [mbind res_bind].
  destruct (Hlookup b Hb) as [ct Hct]. rewrite Hct. cbn [of_option mbind res_bind].
  assert (Hsum' : sumZ (<[i:=x - b]> queues) = sumZ queues - b) by (rewrite (sumZ_insert _ _ x) by done; lia).
  destruct (IH (<[i:=x - b]> queues) (fadd t ct) (bs ++ [b]) x) as (new & Hd & Hs & Hall & Hsorted & Hn).
  { apply Forall_insert; [|unfold b; lia]. apply Forall_forall. intros y Hy. rewrite Forall_forall in Hq, Hmax.
    specialize (Hq y Hy). specialize (Hmax y Hy). simpl in Hmax. lia. }
  { rewrite Hsum'. lia. }
  rewrite Hsum' in Hd, Hs. exists (b :: new). rewrite Hd.
  split; [unfold batches_time; cbn [foldl]; rewrite Hct, <-app_assoc; done|].
  split; [cbn [sumZ foldr]; fold (sumZ new); lia|].
  split; [constructor; [unfold b; lia|]; eapply Forall_impl; [exact Hall|]; simpl; lia|].
  split; [constructor; [done|]; eapply Forall_impl; [exact Hall|]; simpl; unfold b; lia|].
  rewrite zlen_cons, Hn, list_fmap_insert, (sumZ_insert _ _ (ceil_div x max_batch_size)).
  2: by rewrite list_lookup_fmap, Hx.
  unfold b. rewrite ceil_div_step by lia. lia.
Qed.

(** A worker's queues are drained completely: every queue [q] in
    [ceil(q / max_batch_size)] batches, no batch empty or over the maximum, larger
    batches first; the time is the sum of the profiled batch times and the batch
    statistics count exactly these batches. *)
Theorem worker_drain_exact (loads : list Z) (m : Metrics) :
  Forall (fun q => 0 <= q) loads ->
  exists batches, _simulate_worker_compute_time loads m
      = Ok (batches_time (float_of_Z 0) batches, if sumZ loads =? 0 then m else count_batches batches m) /\
    sumZ batches = sumZ loads /\ Forall (fun b => 1 <= b <= max_batch_size) batches /\
    StronglySorted Z.ge batches /\ zlen batches = sumZ ((fun q => ceil_div q max_batch_size) <$> loads).
Proof.
  intros Hq. unfold _simulate_worker_compute_time.
  assert (Hbound : forall q, q ∈ loads -> q <= sumZ loads).
  { clear -Hq. induction Hq as [|x l Hx Hl IH]; intros q Hin; [inversion Hin|]. cbn [sumZ foldr]. fold (sumZ l).
    pose proof (sumZ_nonneg l Hl). apply elem_of_cons in Hin as [->|Hin]; [lia|]. specialize (IH q Hin). lia. }
  destruct (drain_spec (Z.to_nat (sumZ loads)) loads (float_of_Z 0) [] (sumZ loads)) as (new & Hd & Hs & Hall & Hsort & Hn).
  { apply Forall_forall. intros q Hin. rewrite Forall_forall in Hq. split; [by apply Hq|by apply Hbound]. }
  { lia. }
  exists new. split; [|split; [done|split; [eapply Forall_impl; [exact Hall|simpl; lia]|done]]].
  destruct (Z.eqb_spec (sumZ loads) 0) as [H0|].
  - assert (new = []) as ->; [|done]. destruct new as [|b new]; [done|]. exfalso.
    apply Forall_cons in Hall as [Hb Hall]. cbn [sumZ foldr] in Hs. fold (sumZ new) in Hs.
    pose proof (sumZ_nonneg new ltac:(eapply Forall_impl; [exact Hall|]; simpl; lia)). lia.
  - rewrite Hd. done.
Qed.

(** ** Durations are not negative *)

Section Durations.
Hypothesis Hattn : fpos attn_service_t = true.
Hypothesis Hdp : 0 <= attn_dp_group_size.
Hypothesis Hin : fnonneg net_t_attn_to_expert = true.
Hypothesis Hout : fnonneg net_t_expert_to_attn = true.
Hypothesis Hdelay : forall f a b n, net_delay_fn = Some f -> fnonneg (f a b n) = true.
Hypothesis Htime : forall b t, compute_time_lookup b = Some t -> fnonneg t = true.

Lemma zero_nonneg : fnonneg (float_of_Z 0) = true.
Proof. done. Qed.

Lemma dispatch_nonneg r t : dispatch_time r = Ok t -> fnonneg t = true.
Proof.
  unfold dispatch_time. destruct net_delay_fn as [f|] eqn:Ef; [|by intros [= <-]].
  intros H. apply bind_Ok in H as (ds & Hds & H). apply py_map_Forall2 in Hds.
  assert (Hall : Forall (fun y => fnonneg y = true) ds).
  { clear H. induction Hds as [|w d ws ds Hd _ IH]; [constructor|]. constructor; [|done].
    unfold dispatch_delay in Hd. destruct (dget_or _ w []) as [|p l]; [by injection Hd as <-|].
    apply bind_Ok in Hd as ([nv rd] & Hf & Hd). injection Hd as <-.
    assert (Hi : fnonneg nv = true /\ fnonneg rd = true); [|destruct Hi; by apply fmax_nonneg].
    eapply (py_for_inv (fun _ st => fnonneg st.1 = true /\ fnonneg st.2 = true)) in Hf; [done|done|].
    intros pre [src n] post [a b] t' _ [Ha Hb] Hr. unfold receive_one in Hr. destruct (n <=? 0); [by injection Hr as <-|].
    apply bind_Ok in Hr as (same & _ & Hr). injection Hr as <-.
    destruct same; cbn [fst snd] in *; (split; [|]); try done; apply fadd_nonneg; eauto. }
  destruct ds; [by injection H as <-|]. by eapply list_max_nonneg.
Qed.

Lemma dset_nonneg (d : list (Z * float)) k x :
  (forall g, fnonneg (dget_or d g (float_of_Z 0)) = true) -> fnonneg x = true ->
  forall g, fnonneg (dget_or (dset d k x) g (float_of_Z 0)) = true.
Proof.
  intros Hd Hx g. specialize (Hd g). unfold dget_or in *. rewrite dget_dset. by case_decide.
Qed.

Lemma return_nonneg r t : return_time r = Ok t -> fnonneg t = true.
Proof.
  unfold return_time. destruct net_delay_fn as [f|] eqn:Ef; [|by intros [= <-]].
  intros H. apply bind_Ok in H as ([nv rd] & Hf & H).
  assert (Hd : (forall g, fnonneg (dget_or nv g (float_of_Z 0)) = true) /\
               (forall g, fnonneg (dget_or rd g (float_of_Z 0)) = true)).
  { eapply (py_for_inv (fun _ st => (forall g, fnonneg (dget_or st.1 g (float_of_Z 0)) = true) /\
      (forall g, fnonneg (dget_or st.2 g (float_of_Z 0)) = true))) in Hf; [done|done|].
    intros pre w post st t' _ Hst Hr. unfold return_worker in Hr. apply bind_Ok in Hr as (loads & _ & Hr).
    destruct (sumZ loads =? 0); [by injection Hr as <-|].
    eapply (py_for_inv (fun _ st => (forall g, fnonneg (dget_or st.1 g (float_of_Z 0)) = true) /\
      (forall g, fnonneg (dget_or st.2 g (float_of_Z 0)) = true))) in Hr; [done|done|].
    intros pre' [g n] post' [a b] t'' _ [Ha Hb] Hr'. unfold return_one in Hr'. destruct (n <=? 0); [by injection Hr' as <-|].
    apply bind_Ok in Hr' as (same & _ & Hr'). injection Hr' as <-. cbn [fst snd] in *.
    destruct same; cbn [fst snd]; (split; [|]); try done; apply dset_nonneg; try done; apply fadd_nonneg; eauto. }
  destruct Hd as [Hn Hr]. destruct (remove_dups _) as [|g gs]; [by injection H as <-|].
  eapply list_max_nonneg; [exact H|]. apply Forall_fmap, Forall_forall. intros x _. by apply fmax_nonneg.
Qed.

Lemma drain_nonneg fuel queues total t bs x :
  fnonneg t = true -> drain fuel queues total t bs = Some (Ok x) -> fnonneg x.1 = true.
Proof.
  revert queues total t bs. induction fuel as [|fuel IH]; intros queues total t bs Ht; cbn [drain];
    (destruct (0 <? total); [|by intros [= <-]]); [done|]. intros Hd.
  destruct (_ ≫= _) as [[[[b qs] e]|]|] eqn:E; [|by injection Hd as <-|done].
  apply (IH _ _ _ _) in Hd; [done|]. apply bind_Ok in E as (i & _ & E). apply bind_Ok in E as (a & _ & E).
  destruct (a <=? 0); [done|]. apply bind_Ok in E as (qs' & _ & E). apply bind_Ok in E as (c & Hc & E).
  apply of_option_Ok in Hc. injection E as _ _ <-. apply fadd_nonneg; eauto.
Qed.

Lemma workers_nonneg loads m times m' :
  py_for compute_worker loads ([], m) = Ok (times, m') -> Forall (fun y => fnonneg y = true) times.
Proof.
  intros H. eapply (py_for_inv (fun _ st => Forall (fun y => fnonneg y = true) st.1)) in H; [done|constructor|].
  intros pre l post [ts m1] [ts' m2] _ Hts Hr. unfold compute_worker in Hr. cbn [fst snd] in *.
  apply bind_Ok in Hr as ([t m3] & Ht & Hr). injection Hr as <- _. apply Forall_app. split; [done|].
  constructor; [|constructor]. unfold _simulate_worker_compute_time in Ht.
  destruct (sumZ l =? 0); [by injection Ht as <- _|]. destruct (drain _ _ _ _ _) as [x|] eqn:Ed; [|done].
  apply bind_Ok in Ht as ([t' bs] & -> & Ht). injection Ht as <- _. by apply drain_nonneg in Ed.
Qed.

Lemma fst_zip_take {A B} (l : list A) (k : list B) : (zip l k).*1 = take (length k) l.
Proof. revert k. induction l as [|x l IH]; intros [|y k]; [done..|]. cbn. by rewrite <-IH. Qed.

Lemma run_layer_ok layer tokens m d tokens' m' :
  _run_layer layer tokens m = Ok (d, tokens', m') -> fnonneg d = true /\ Forall2 same_token tokens tokens'.
Proof.
  intros H. unfold _run_layer in H.
  assert (Hrefl : forall l, Forall2 same_token l l) by (intros l; induction l; constructor; by split_and?).
  destruct (zlen tokens =? 0); [injection H as <- <- _; done|].
  apply bind_Ok in H as (n & Hn & H). apply bind_Ok in H as ([r toks] & Hr & H).
  apply bind_Ok in H as (dt & Hdt & H). apply bind_Ok in H as (m1 & _ & H).
  apply bind_Ok in H as ([ts m2] & Hts & H). apply bind_Ok in H as (rt & Hrt & H).
  apply bind_Ok in H as ([hi w] & Hsp & H). injection H as <- <- _. split.
  - assert (Hb : 0 <= n).
    { destruct (fdiv_plus (float_of_Z (zlen tokens)) (float_of_Z attn_dp_group_size)) as [Hp|Hp].
      - apply float_of_Z_plus, zlen_nonneg.
      - by apply float_of_Z_plus.
      - eapply fceil_nonneg; [|exact Hn]. by apply fplus_nonneg.
      - rewrite Hp in Hn. done. }
    apply fadd_nonneg; [apply fadd_nonneg|apply fadd_nonneg].
    + apply fmul_nonneg_pos; [by apply float_of_Z_nonneg|done].
    + by eapply dispatch_nonneg.
    + unfold compute_spread in Hsp. pose proof (workers_nonneg _ _ _ _ Hts) as Hall.
      destruct ts; [by injection Hsp as <- _|]. apply bind_Ok in Hsp as (h & Hh & Hsp).
      apply bind_Ok in Hsp as (lo & _ & Hsp). injection Hsp as <- _. by eapply list_max_nonneg.
    + by eapply return_nonneg.
  - unfold _route_layer in Hr. apply bind_Ok in Hr as (ids & _ & Hr).
    apply bind_Ok in Hr as ([r1 dn] & Hf & Hr). injection Hr as <- <-.
    assert (Hdn : Forall2 same_token (zip tokens ids).*1 dn).
    { eapply (py_for_inv (fun pre st => Forall2 same_token pre.*1 st.2)) in Hf; [done|constructor|].
      intros pre [t l] post [r2 acc] [r3 acc'] _ Hacc Hone. unfold route_token in Hone. cbn [fst snd] in *.
      apply bind_Ok in Hone as (u & _ & Hone). apply bind_Ok in Hone as (r4 & _ & Hone). injection Hone as _ <-.
      rewrite fmap_app. apply Forall2_app; [done|]. by constructor. }
    rewrite fst_zip_take in Hdn. rewrite <-(take_drop (length ids) tokens) at 1. by apply Forall2_app.
Qed.

#[export] Instance sync_laws : @IterationLaws unit sync_iteration.
Proof.
  split. intros tokens m dur o tokens' m' H. cbn [_run_one_iteration sync_iteration] in H.
  apply bind_Ok in H as ([[t toks] m1] & Hf & H). injection H as <- _ <- _. unfold run_layers in Hf.
  eapply (py_for_inv (fun _ st => fnonneg st.1.1 = true /\ Forall2 same_token tokens st.1.2)) in Hf; [done| |].
  - split; [done|]. cbn. clear. induction tokens; constructor; by split_and?.
  - intros pre layer post [[t1 k1] m2] [[t2 k2] m3] _ [Ht Hk] Hr. cbn [fst snd] in *.
    apply bind_Ok in Hr as ([[d k3] m4] & Hl & Hr). injection Hr as <- <- _.
    destruct (run_layer_ok _ _ _ _ _ _ Hl) as [Hd Hs]. split; [by apply fadd_nonneg|].
    clear -Hk Hs. revert k3 Hs. induction Hk as [|a b l k Hab _ IH]; intros k3 Hs; inversion Hs as [|? c ? ? Hbc ?]; subst; constructor.
    + unfold same_token in *. intuition congruence.
    + by apply IH.
Qed.
End Durations.
End Layer.

(** ** A concrete run: two workers of two experts, one request of two tokens *)

Definition ex_lookup (b : Z) : option float := if (1 <=? b) && (b <=? 2) then Some (float_of_Z b) else None.
Definition ex_route (rids toks : list Z) (layer : Z) : res (list (list Z)) := Ok ((fun r => [r; 3]) <$> rids).

Definition ex_token (i : Z) : Token :=
  {| tid := i; birth_time := float_of_Z 0; t_request_id := i; token_index := 0; home_gpu := i;
     layer_fanout := []; sampled_for_stats := false |}.

Lemma route_layer_exact_witness :
  exists r, _route_layer 2 4 ex_route 0 [ex_token 0; ex_token 1]
      = Ok (r, [with_fanout 0 2 (ex_token 0); with_fanout 0 2 (ex_token 1)]) /\
    dget_or (dget_or (tokens_per_src_per_dst r) 1 []) 0 0 = 1.
Proof.
  destruct (route_layer_exact 2 4 ex_route ltac:(lia) ltac:(vm_compute; reflexivity) ltac:(reflexivity) 0
    [ex_token 0; ex_token 1] [[0; 3]; [1; 3]]) as (r & Hr & _ & Hp & _).
  - reflexivity.
  - reflexivity.
  - repeat constructor; vm_compute; congruence.
  - exists r. split; [exact Hr|]. rewrite Hp. reflexivity.
Defined.

Lemma worker_drain_exact_witness :
  exists batches m, _simulate_worker_compute_time 2 ex_lookup [3; 1] metrics_init
      = Ok (batches_time ex_lookup (float_of_Z 0) batches, m) /\ sumZ batches = 4 /\ zlen batches = 3.
Proof.
  destruct (worker_drain_exact 2 ex_lookup ltac:(lia)
    ltac:(intros b Hb; unfold ex_lookup; rewrite (proj2 (Z.leb_le 1 b)) by lia;
          rewrite (proj2 (Z.leb_le b 2)) by lia; eexists; reflexivity) [3; 1] metrics_init)
    as (bs & Hr & Hs & _ & _ & Hn).
  - repeat constructor; lia.
  - exists bs. eexists. split; [exact Hr|]. split; [exact Hs|]. exact Hn.
Defined.
End SimSync.
