(* ===== verification/SimTBO.v ===== *)
(** * The two-batch-overlap simulator ([simulation/sim_tbo.py])

    The tokens of an iteration are split into two microbatches; each runs
    attention, dispatch, expert compute and combine layer by layer.  Compute is one
    serial resource both share, transfers are launched asynchronously and only
    block the next compute of their own microbatch.  The life cycle of requests is
    [SimCore], the cost of queues and transfers is that of [SimSync]; the timeline
    capture only records events for plotting and is not modelled. *)

From S2P Require Import Prelude PyFloat Gate SimCore SimSync.
Import SimCore SimSync.

Module SimTBO.

(** ** Microbatches *)

(** The key [(t.request_id, t.tid)]. *)
Definition token_le (a b : Token) : Prop :=
  t_request_id a < t_request_id b \/ t_request_id a = t_request_id b /\ tid a <= tid b.

#[export] Instance token_le_dec a b : Decision (token_le a b).
Proof. unfold token_le. apply _. Defined.

#[export] Instance token_le_total : Total token_le.
Proof. intros a b. unfold token_le. lia. Qed.

(** Alternate tokens go to microbatch 0 and 1. *)
Definition deal (st : list Token * list Token * list (Z * Z)) (x : Z * Token)
    : list Token * list Token * list (Z * Z) :=
  let '(mb0, mb1, tid_to_mb) := st in
  let '(i, token) := x in
  let mb := if i mod 2 =? 0 then 0 else 1 in
  let tid_to_mb := dset tid_to_mb (tid token) mb in
  if mb =? 0 then (mb0 ++ [token], mb1, tid_to_mb) else (mb0, mb1 ++ [token], tid_to_mb).

Definition _split_into_microbatches (tokens : list Token) : list Token * list Token * list (Z * Z) :=
  match tokens with
  | [] => ([], [], [])
  | _ => foldl deal ([], [], []) (enumerate (merge_sort token_le tokens))
  end.

(** ** The schedule of the two microbatches *)

Inductive Kind : Type := Compute | Dispatch | Combine.

Record Task : Type := { t_kind : Kind; t_dur : float; t_layer : Z }.

(** A component of a per-microbatch pair; [false] is microbatch 0. *)
Definition sel {A} (mb : bool) (p : A * A) : A := if mb then p.2 else p.1.
Definition put {A} (mb : bool) (x : A) (p : A * A) : A * A := if mb then (p.1, x) else (x, p.2).

Record Sched : Type := {
  rest : list Task * list Task;
  ready : float * float;
  compute_free : float;
  inflight_until : float * float;
}.

Definition sched_init (tasks0 tasks1 : list Task) : Sched :=
  {| rest := (tasks0, tasks1); ready := (float_of_Z 0, float_of_Z 0); compute_free := float_of_Z 0;
     inflight_until := (float_of_Z 0, float_of_Z 0) |}.

Definition kind_prio (k : Kind) : Z := match k with Compute => 1 | _ => 0 end.

(** The earliest start of the next task of a microbatch. *)
Definition est (st : Sched) (mb : bool) (t : Task) : float :=
  match t_kind t with
  | Compute => fmax (fmax (sel mb (ready st)) (sel mb (inflight_until st))) (compute_free st)
  | _ => sel mb (ready st)
  end.

(** [(est1, prio1, 1) < (est0, prio0, 0)] *)
Definition feq (x y : float) : bool := SpecFloat.SFeqb x y.
Definition second_first (e0 e1 : float) (p0 p1 : Z) : bool :=
  if feq e1 e0 then p1 <? p0 else fltb e1 e0.

(** [min(candidates)]: the microbatch whose next task is started. *)
Definition choose (st : Sched) : option (bool * Task) :=
  match rest st with
  | ([], []) => None
  | (t0 :: _, []) => Some (false, t0)
  | ([], t1 :: _) => Some (true, t1)
  | (t0 :: _, t1 :: _) =>
      if second_first (est st false t0) (est st true t1) (kind_prio (t_kind t0)) (kind_prio (t_kind t1))
      then Some (true, t1) else Some (false, t0)
  end.

Record Event : Type := { ev_mb : bool; ev_task : Task; ev_start : float; ev_end : float }.

(** One turn of the loop. *)
Definition sched_step (st : Sched) : option (Event * Sched) :=
  match choose st with
  | None => None
  | Some (mb, t) =>
      let start := est st mb t in
      let finish := fadd start (t_dur t) in
      let ev := {| ev_mb := mb; ev_task := t; ev_start := start; ev_end := finish |} in
      let rest' := put mb (tail (sel mb (rest st))) (rest st) in
      Some (ev,
        match t_kind t with
        | Compute => {| rest := rest'; ready := put mb finish (ready st); compute_free := finish;
                        inflight_until := inflight_until st |}
        | _ => {| rest := rest'; ready := ready st; compute_free := compute_free st;
                  inflight_until := if fltb (sel mb (inflight_until st)) finish
                                    then put mb finish (inflight_until st) else inflight_until st |}
        end)
  end.

(** The loop runs one task per turn; the fuel is the number of tasks. *)
Fixpoint sched_loop (fuel : nat) (st : Sched) (evs : list Event) : Sched * list Event :=
  match fuel with
  | O => (st, evs)
  | S fuel => match sched_step st with
              | None => (st, evs)
              | Some (ev, st) => sched_loop fuel st (evs ++ [ev])
              end
  end.

Definition _schedule_resources (tasks0 tasks1 : list Task) : float * float :=
  ready (sched_loop (length tasks0 + length tasks1) (sched_init tasks0 tasks1) []).1.

(** ** An iteration *)

Section Layers.
Context (ep_group_size total_expert_count max_batch_size attn_dp_group_size num_layers : Z).
Context (attn_service_t net_t_attn_to_expert net_t_expert_to_attn : float).
Context (net_delay_fn : option (Z -> Z -> Z -> float)) (n_gpu_per_host : option Z).
Context (compute_time_lookup : Z -> option float).
Context (route : list Z -> list Z -> Z -> res (list (list Z))).

(** The attention time of a microbatch of [n] tokens. *)
Definition attn_time (n : Z) : res float :=
  if (n <=? 0) || fleb attn_service_t (float_of_Z 0) then Ok (float_of_Z 0)
  else b ← fceil (fdiv (float_of_Z n) (float_of_Z attn_dp_group_size));
       Ok (fmul (float_of_Z b) attn_service_t).

Definition count_mb (tid_to_mb : list (Z * Z)) (c : Z * Z) (token : Token) : res (Z * Z) :=
  mb ← of_option KeyError (dget tid_to_mb (tid token));
  Ok (if mb =? 0 then (c.1 + 1, c.2) else (c.1, c.2 + 1)).

(** One token of the routing loop: its experts go to the tables of its
    microbatch. *)
Definition route_token_mb (tid_to_mb : list (Z * Z)) (layer_idx : Z)
    (st : Routed * Routed * list Token) (x : Token * list Z) : res (Routed * Routed * list Token) :=
  let '(token, expert_ids) := x in
  let '(r0, r1, done_) := st in
  let selected := selected_experts expert_ids in
  _ ← py_check (negb (zlen selected =? 0)) RuntimeError;
  mb ← of_option KeyError (dget tid_to_mb (tid token));
  let token' := with_fanout layer_idx (zlen selected) token in
  if mb =? 0
  then r ← py_for (route_expert ep_group_size total_expert_count (home_gpu token)) selected r0;
       Ok (r, r1, done_ ++ [token'])
  else r ← py_for (route_expert ep_group_size total_expert_count (home_gpu token)) selected r1;
       Ok (r0, r, done_ ++ [token']).

Definition route_microbatches (tid_to_mb : list (Z * Z)) (layer_idx : Z) (tokens : list Token)
    : res (Routed * Routed * list Token) :=
  topk_ids ← route (t_request_id <$> tokens) (token_index <$> tokens) layer_idx;
  let r := routed_init ep_group_size total_expert_count in
  '(r0, r1, done_) ← py_for (route_token_mb tid_to_mb layer_idx) (zip tokens topk_ids) (r, r, []);
  Ok (r0, r1, done_ ++ drop (length topk_ids) tokens).

(** The attention, dispatch, expert and combine times of one microbatch. *)
Definition microbatch_times (attn_t : float) (r : Routed) (m : Metrics)
    : res (float * float * float * float * Metrics) :=
  dispatch ← dispatch_time ep_group_size net_t_attn_to_expert net_delay_fn n_gpu_per_host r;
  m ← py_for add_stddev (worker_queues r) m;
  '(times, m) ← py_for (compute_worker max_batch_size compute_time_lookup) (worker_queues r) ([], m);
  combine ← return_time ep_group_size net_t_expert_to_attn net_delay_fn n_gpu_per_host r;
  '(expert_compute_time, longest_wait) ← compute_spread times;
  let layer_runtime := fadd (fadd (fadd attn_t dispatch) expert_compute_time) combine in
  Ok (attn_t, dispatch, expert_compute_time, combine, add_layer layer_runtime longest_wait m).

Definition _compute_layer_times (layer_idx : Z) (tokens : list Token) (tid_to_mb : list (Z * Z)) (m : Metrics)
    : res ((float * float * float * float) * (float * float * float * float) * list Token * Metrics) :=
  '(n0, n1) ← py_for (count_mb tid_to_mb) tokens (0, 0);
  a0 ← attn_time n0;
  a1 ← attn_time n1;
  '(r0, r1, tokens) ← route_microbatches tid_to_mb layer_idx tokens;
  '(x0, m) ← microbatch_times a0 r0 m;
  '(x1, m) ← microbatch_times a1 r1 m;
  Ok (x0, x1, tokens, m).

Definition layer_tasks (layer_idx : Z) (x : float * float * float * float) : list Task :=
  let '(attn_t, dispatch_t, expert_t, combine_t) := x in
  [{| t_kind := Compute; t_dur := attn_t; t_layer := layer_idx |};
   {| t_kind := Dispatch; t_dur := dispatch_t; t_layer := layer_idx |};
   {| t_kind := Compute; t_dur := expert_t; t_layer := layer_idx |};
   {| t_kind := Combine; t_dur := combine_t; t_layer := layer_idx |}].

Definition build_layer (tid_to_mb : list (Z * Z)) (st : list Task * list Task * list Token * Metrics) (layer_idx : Z)
    : res (list Task * list Task * list Token * Metrics) :=
  let '(ts0, ts1, tokens, m) := st in
  '(x0, x1, tokens, m) ← _compute_layer_times layer_idx tokens tid_to_mb m;
  Ok (ts0 ++ layer_tasks layer_idx x0, ts1 ++ layer_tasks layer_idx x1, tokens, m).

(** The completion offsets, by token id. *)
Definition completion_offsets (tid_to_mb : list (Z * Z)) (finish : float * float) (tokens : list Token)
    : list (Z * float) :=
  foldl (fun d t => dset d (tid t) (if dget_or tid_to_mb (tid t) 0 =? 0 then finish.1 else finish.2)) [] tokens.

Definition tbo_iteration : Iteration (list (Z * float)) := {|
  _run_one_iteration tokens m :=
    let '(_, _, tid_to_mb) := _split_into_microbatches tokens in
    '(ts0, ts1, tokens, m) ← py_for (build_layer tid_to_mb) (py_range num_layers) ([], [], tokens, m);
    let finish := _schedule_resources ts0 ts1 in
    Ok (fmax finish.1 finish.2, completion_offsets tid_to_mb finish tokens, tokens, m);
  completion_time offsets _ token := fadd (birth_time token) (dget_or offsets (tid token) (float_of_Z 0));
|}.
End Layers.

(** ** The schedule is sound

    The loop is judged by the events it emits, in the order they are started. *)

Section Schedule.

(** The end of the last event of [evs] that satisfies [P], or the start of the
    iteration. *)
Definition last_end (P : Event -> bool) (evs : list Event) : float :=
  foldl (fun a e => if P e then ev_end e else a) (float_of_Z 0) evs.

Definition is_compute (e : Event) : bool := match t_kind (ev_task e) with Compute => true | _ => false end.
Definition own (mb : bool) (e : Event) : bool := Bool.eqb (ev_mb e) mb.
Definition own_compute (mb : bool) (e : Event) : bool := own mb e && is_compute e.
Definition own_transfer (mb : bool) (e : Event) : bool := own mb e && negb (is_compute e).

(** The tasks of a microbatch in the order they were started. *)
Definition started (mb : bool) (evs : list Event) : list Task := ev_task <$> filter (fun e => own mb e = true) evs.

(** What may be started after the events [pre]: compute is exclusive and waits for
    the transfers of its microbatch; a transfer is launched when the last compute
    of its microbatch ended. *)
Definition well_started (pre : list Event) (e : Event) : Prop :=
  ev_end e = fadd (ev_start e) (t_dur (ev_task e)) /\
  if is_compute e
  then fleb (last_end is_compute pre) (ev_start e) = true /\
       fleb (last_end (own_compute (ev_mb e)) pre) (ev_start e) = true /\
       (forall x, x ∈ pre -> own_transfer (ev_mb e) x = true -> fleb (ev_end x) (ev_start e) = true)
  else ev_start e = last_end (own_compute (ev_mb e)) pre.

Definition nonneg_tasks (ts : list Task) : Prop := Forall (fun t => fnonneg (t_dur t) = true) ts.

Record sched_inv (tasks0 tasks1 : list Task) (st : Sched) (evs : list Event) : Prop := {
  sv_tasks : forall mb, started mb evs ++ sel mb (rest st) = sel mb (tasks0, tasks1);
  sv_durs : forall mb, nonneg_tasks (sel mb (rest st));
  sv_nonneg : forall mb, fnonneg (sel mb (ready st)) = true /\ fnonneg (sel mb (inflight_until st)) = true;
  sv_free_nonneg : fnonneg (compute_free st) = true;
  sv_ready : forall mb, sel mb (ready st) = last_end (own_compute mb) evs;
  sv_free : compute_free st = last_end is_compute evs;
  sv_inflight : forall mb e, e ∈ evs -> own_transfer mb e = true ->
    fleb (ev_end e) (sel mb (inflight_until st)) = true;
  sv_starts : forall pre e post, evs = pre ++ e :: post -> well_started pre e;
}.

Lemma sel_put_eq {A} mb (x : A) p : sel mb (put mb x p) = x.
Proof. by destruct mb. Qed.
Lemma sel_put_ne {A} mb (x : A) p : sel (negb mb) (put mb x p) = sel (negb mb) p.
Proof. by destruct mb. Qed.
Lemma sel_put {A} mb mb' (x : A) p : sel mb' (put mb x p) = if Bool.eqb mb mb' then x else sel mb' p.
Proof. by destruct mb, mb'. Qed.

Lemma last_end_snoc P evs e : last_end P (evs ++ [e]) = if P e then ev_end e else last_end P evs.
Proof. unfold last_end. by rewrite foldl_app. Qed.

Lemma started_snoc mb evs e : started mb (evs ++ [e]) = started mb evs ++ (if own mb e then [ev_task e] else []).
Proof.
  unfold started. rewrite filter_app, fmap_app. f_equal.
  destruct (own mb e) eqn:E; [by rewrite filter_cons_True|by rewrite filter_cons_False; [|congruence]].
Qed.

(** The task chosen is the next one of its microbatch. *)
Lemma choose_head st mb t : choose st = Some (mb, t) -> sel mb (rest st) = t :: tail (sel mb (rest st)).
Proof.
  unfold choose. destruct (rest st) as [[|t0 r0] [|t1 r1]]; simpl; [done| | |].
  - by intros [= <- <-].
  - by intros [= <- <-].
  - destruct (second_first _ _ _ _); by intros [= <- <-].
Qed.

Lemma choose_none st : choose st = None -> rest st = ([], []).
Proof.
  unfold choose. destruct (rest st) as [[|t0 r0] [|t1 r1]]; try done. by destruct (second_first _ _ _ _).
Qed.

Lemma est_nonneg ts0 ts1 st evs mb t : sched_inv ts0 ts1 st evs -> fnonneg (est st mb t) = true.
Proof.
  intros Hi. destruct (sv_nonneg _ _ _ _ Hi mb) as [Hr Hf].
  unfold est. destruct (t_kind t); [|done..]. repeat apply fmax_nonneg; [done..|]. apply (sv_free_nonneg _ _ _ _ Hi).
Qed.

Lemma est_well_started ts0 ts1 st evs mb t :
  sched_inv ts0 ts1 st evs ->
  well_started evs {| ev_mb := mb; ev_task := t; ev_start := est st mb t; ev_end := fadd (est st mb t) (t_dur t) |}.
Proof.
  intros Hi. split; [done|]. cbn [ev_task ev_mb ev_start].
  change (is_compute _) with (match t_kind t with Compute => true | _ => false end). unfold est.
  destruct (t_kind t); [|apply (sv_ready _ _ _ _ Hi)..].
  destruct (sv_nonneg _ _ _ _ Hi mb) as [Hr%fnonneg_not_nan Hf%fnonneg_not_nan].
  pose proof (fnonneg_not_nan _ (sv_free_nonneg _ _ _ _ Hi)) as Hc.
  assert (Hm : is_nan (fmax (sel mb (ready st)) (sel mb (inflight_until st))) = false) by by apply fmax_not_nan.
  rewrite <-(sv_free _ _ _ _ Hi), <-(sv_ready _ _ _ _ Hi). split_and!.
  - by apply fmax_ge_r.
  - eapply fleb_trans; [|by apply fmax_ge_l]. by apply fmax_ge_l.
  - intros x Hx Ho. eapply fleb_trans; [by apply (sv_inflight _ _ _ _ Hi mb)|].
    eapply fleb_trans; [|by apply fmax_ge_l]. by apply fmax_ge_r.
Qed.

Lemma sched_inv_step ts0 ts1 st evs e st' :
  sched_inv ts0 ts1 st evs -> sched_step st = Some (e, st') -> sched_inv ts0 ts1 st' (evs ++ [e]).
Proof.
  intros Hi Hs. unfold sched_step in Hs. destruct (choose st) as [[mb t]|] eqn:Ec; [|done].
  apply choose_head in Ec. pose proof (sv_durs _ _ _ _ Hi mb) as Hd. rewrite Ec in Hd.
  apply Forall_cons in Hd as [Ht Hd]. pose proof (est_nonneg _ _ _ _ mb t Hi) as Hn.
  pose proof (fadd_nonneg _ _ Hn Ht) as He. pose proof (est_well_started _ _ _ _ mb t Hi) as Hw.
  remember (fadd (est st mb t) (t_dur t)) as fin eqn:Efin. injection Hs as He0 Hst0.
  assert (Hrest : rest st' = put mb (tail (sel mb (rest st))) (rest st)) by (subst st'; by destruct (t_kind t)).
  assert (Hrdy : ready st' = match t_kind t with Compute => put mb fin (ready st) | _ => ready st end)
    by (subst st'; by destruct (t_kind t)).
  assert (Hfree : compute_free st' = match t_kind t with Compute => fin | _ => compute_free st end)
    by (subst st'; by destruct (t_kind t)).
  assert (Hinf : inflight_until st' = match t_kind t with Compute => inflight_until st
     | _ => if fltb (sel mb (inflight_until st)) fin then put mb fin (inflight_until st) else inflight_until st end)
    by (subst st'; by destruct (t_kind t)).
  clear Hst0. split.
  - intros mb'. rewrite started_snoc, Hrest, sel_put. unfold own. rewrite <-He0. cbn [ev_mb ev_task].
    rewrite <-(sv_tasks _ _ _ _ Hi mb'). destruct (Bool.eqb mb mb') eqn:Eb.
    + apply eqb_prop in Eb as <-. by rewrite <-app_assoc, Ec.
    + by rewrite app_nil_r.
  - intros mb'. rewrite Hrest, sel_put. destruct (Bool.eqb mb mb'); [done|apply (sv_durs _ _ _ _ Hi)].
  - intros mb'. destruct (sv_nonneg _ _ _ _ Hi mb') as [Hr Hf]. rewrite Hrdy, Hinf.
    destruct (t_kind t); [|destruct (fltb _ _)..]; rewrite ?sel_put; split; try done; by destruct (Bool.eqb mb mb').
  - rewrite Hfree. destruct (t_kind t); [done|apply (sv_free_nonneg _ _ _ _ Hi)..].
  - intros mb'. rewrite last_end_snoc, Hrdy. unfold own_compute, own, is_compute. rewrite <-He0. cbn [ev_mb ev_task ev_end].
    destruct (t_kind t); rewrite ?sel_put, ?andb_true_r, ?andb_false_r; [destruct (Bool.eqb mb mb'); [done|]|..];
      apply (sv_ready _ _ _ _ Hi).
  - rewrite last_end_snoc, Hfree. unfold is_compute. rewrite <-He0. cbn [ev_task ev_end].
    destruct (t_kind t); [done|apply (sv_free _ _ _ _ Hi)..].
  - intros mb' x Hx Ho. destruct (sv_nonneg _ _ _ _ Hi mb') as [_ Hf].
    pose proof (fnonneg_not_nan _ Hf) as Hfn. pose proof (fnonneg_not_nan _ He) as Hen.
    apply elem_of_app in Hx as [Hx|Hx%list_elem_of_singleton].
    + pose proof (sv_inflight _ _ _ _ Hi mb' x Hx Ho) as Hl. rewrite Hinf. destruct (t_kind t); [done|..];
        (destruct (fltb _ fin) eqn:Ef; [|done]); rewrite sel_put; destruct (Bool.eqb mb mb') eqn:Eb; try done;
        apply eqb_prop in Eb as <-; (eapply fleb_trans; [exact Hl|]); by apply fltb_fleb.
    + subst x. rewrite <-He0 in Ho |- *. unfold own_transfer, own, is_compute in Ho. cbn [ev_mb ev_task ev_end] in Ho |- *.
      rewrite Hinf. destruct (Bool.eqb mb mb') eqn:Eb; [|done]. apply eqb_prop in Eb as <-.
      destruct (t_kind t); [done|..];
        (destruct (fltb _ fin) eqn:Ef; [rewrite sel_put, eqb_reflx; by apply fleb_refl|by apply fleb_not_flt]).
  - intros pre x post Heq. destruct post as [|y post' _] using rev_ind.
    + apply app_inj_tail in Heq as [<- <-]. by rewrite <-He0.
    + rewrite app_comm_cons, app_assoc in Heq. apply app_inj_tail in Heq as [Heq _].
      by apply (sv_starts _ _ _ _ Hi _ _ _ Heq).
Qed.

Lemma sched_step_rest st e st' :
  sched_step st = Some (e, st') ->
  (length (sel false (rest st)) + length (sel true (rest st))
   = S (length (sel false (rest st')) + length (sel true (rest st'))))%nat.
Proof.
  unfold sched_step. destruct (choose st) as [[mb t]|] eqn:Ec; [|done]. apply choose_head in Ec.
  intros [= _ <-]. assert (Hr : forall a b, rest (match t_kind t with Compute => a | _ => b end)
    = match t_kind t with Compute => rest a | _ => rest b end) by (intros; by destruct (t_kind t)).
  rewrite Hr. cbn [rest]. clear Hr. apply (f_equal length) in Ec. cbn [length] in Ec.
  destruct mb; cbn [sel] in Ec; destruct (t_kind t); cbn [sel put fst snd]; lia.
Qed.

Lemma sched_loop_inv ts0 ts1 fuel st evs :
  sched_inv ts0 ts1 st evs ->
  (length (sel false (rest st)) + length (sel true (rest st)) <= fuel)%nat ->
  exists st' evs', sched_loop fuel st evs = (st', evs') /\ sched_inv ts0 ts1 st' evs' /\ rest st' = ([], []).
Proof.
  revert st evs. induction fuel as [|fuel IH]; intros st evs Hi Hf.
  - exists st, evs. split; [done|]. split; [done|]. destruct (rest st) as [[|? ?] [|? ?]]; cbn in Hf; [done|lia..].
  - cbn [sched_loop]. destruct (sched_step st) as [[e st']|] eqn:Es.
    + apply IH; [by eapply sched_inv_step|]. apply sched_step_rest in Es. lia.
    + exists st, evs. split; [done|]. split; [done|]. apply choose_none. unfold sched_step in Es.
      by destruct (choose st) as [[? ?]|].
Qed.

Lemma sched_inv_init ts0 ts1 :
  nonneg_tasks ts0 -> nonneg_tasks ts1 -> sched_inv ts0 ts1 (sched_init ts0 ts1) [].
Proof.
  intros H0 H1. split; try done; try by intros [].
  intros mb e He. inversion He.
Qed.

(** C17. The two-microbatch schedule is sound.  When no task lasts a negative time,
    the loop ends with every task of both microbatches started exactly once and in
    order.  Compute is exclusive: each compute task starts no earlier than the
    compute task started before it ended, on either microbatch.  It waits for every
    transfer its own microbatch launched before; a transfer is launched at the end
    of the last compute of its microbatch.  The two results are the ends of the
    last compute task of each microbatch. *)
Theorem schedule_sound (tasks0 tasks1 : list Task) :
  nonneg_tasks tasks0 -> nonneg_tasks tasks1 ->
  exists st evs,
    sched_loop (length tasks0 + length tasks1) (sched_init tasks0 tasks1) [] = (st, evs) /\
    started false evs = tasks0 /\ started true evs = tasks1 /\
    (forall pre e post, evs = pre ++ e :: post -> well_started pre e) /\
    _schedule_resources tasks0 tasks1 = (last_end (own_compute false) evs, last_end (own_compute true) evs).
Proof.
  intros H0 H1. destruct (sched_loop_inv tasks0 tasks1 (length tasks0 + length tasks1) (sched_init tasks0 tasks1) [])
    as (st & evs & Hl & Hi & Hr); [by apply sched_inv_init|done|].
  exists st, evs. split; [done|].
  pose proof (sv_tasks _ _ _ _ Hi false) as Hf. pose proof (sv_tasks _ _ _ _ Hi true) as Ht.
  rewrite Hr in Hf, Ht. cbn [sel fst snd] in Hf, Ht. rewrite app_nil_r in Hf, Ht.
  split; [done|]. split; [done|]. split; [apply (sv_starts _ _ _ _ Hi)|].
  unfold _schedule_resources. rewrite Hl. cbn [fst].
  rewrite <-(sv_ready _ _ _ _ Hi false), <-(sv_ready _ _ _ _ Hi true). by destruct (ready st).
Qed.

(** *** The last transfer of a microbatch

    Two states that differ at most in the duration of the last task of microbatch
    [mb], a transfer, or, once it was started, in the transfers of [mb] in flight. *)

Record alike (mb : bool) (st st' : Sched) : Prop := {
  al_rest : sel (negb mb) (rest st) = sel (negb mb) (rest st');
  al_ready : ready st = ready st';
  al_free : compute_free st = compute_free st';
  al_inflight : sel (negb mb) (inflight_until st) = sel (negb mb) (inflight_until st');
  al_own :
    (exists ts t t', sel mb (rest st) = ts ++ [t] /\ sel mb (rest st') = ts ++ [t'] /\
       t_kind t = t_kind t' /\ t_kind t <> Compute /\ sel mb (inflight_until st) = sel mb (inflight_until st')) \/
    (sel mb (rest st) = [] /\ sel mb (rest st') = []);
}.

(** The next tasks of a microbatch in two such states. *)
Definition like_heads (b : bool) (st st' : Sched) : Prop :=
  match sel b (rest st), sel b (rest st') with
  | [], [] => True
  | t :: r, t' :: r' => t_kind t = t_kind t' /\ est st b t = est st' b t'
  | _, _ => False
  end.

Lemma alike_heads mb st st' b : alike mb st st' -> like_heads b st st'.
Proof.
  intros [Hr Hrd Hfr Hin Hown]. unfold like_heads. destruct (Bool.eqb b mb) eqn:Eb.
  - apply eqb_prop in Eb as ->. destruct Hown as [(ts & t & t' & -> & -> & Hk & Hc & Hi)|[-> ->]]; [|done].
    destruct ts as [|t0 ts]; cbn [app].
    + split; [done|]. unfold est. rewrite <-Hk. destruct (t_kind t); [done|by rewrite Hrd..].
    + split; [done|]. unfold est. by rewrite Hrd, Hfr, Hi.
  - assert (b = negb mb) as -> by by destruct b, mb. rewrite <-Hr.
    destruct (sel (negb mb) (rest st)) as [|t r]; [done|]. split; [done|]. unfold est. by rewrite Hrd, Hfr, Hin.
Qed.

Lemma choose_alike st st' :
  like_heads false st st' -> like_heads true st st' -> (fst <$> choose st) = (fst <$> choose st').
Proof.
  unfold like_heads, choose. destruct (rest st) as [[|t0 r0] [|t1 r1]], (rest st') as [[|t0' r0'] [|t1' r1']];
    cbn [sel fst snd]; try done.
  intros [Hk0 He0] [Hk1 He1]. rewrite Hk0, He0, Hk1, He1. by destruct (second_first _ _ _ _).
Qed.

Lemma sel_ext {A} (mb : bool) (p q : A * A) : sel mb p = sel mb q -> sel (negb mb) p = sel (negb mb) q -> p = q.
Proof. destruct p, q, mb; cbn; congruence. Qed.

(** A step from such states leads to such states. *)
Lemma alike_step mb st st' :
  alike mb st st' ->
  match sched_step st, sched_step st' with
  | Some (_, u), Some (_, u') => alike mb u u'
  | None, None => True
  | _, _ => False
  end.
Proof.
  intros Ha. pose proof (choose_alike _ _ (alike_heads _ _ _ false Ha) (alike_heads _ _ _ true Ha)) as Hc.
  unfold sched_step. destruct (choose st) as [[b t]|] eqn:Ec, (choose st') as [[b' t']|] eqn:Ec'; try done.
  injection Hc as <-. apply choose_head in Ec, Ec'. pose proof (alike_heads _ _ _ b Ha) as Hh.
  unfold like_heads in Hh. rewrite Ec, Ec' in Hh. destruct Hh as [Hk He]. rewrite <-Hk, <-He.
  destruct Ha as [Hr Hrd Hfr Hin Hown]. destruct (Bool.eqb b mb) eqn:Eb.
  - apply eqb_prop in Eb as ->. destruct Hown as [(ts & u & u' & Hu & Hu' & Hku & Hcu & Hi)|[H0 _]]; [|congruence].
    assert (Hown' : (exists us, ts = t :: us /\ t = t' /\ tail (sel mb (rest st)) = us ++ [u] /\ tail (sel mb (rest st')) = us ++ [u'])
      \/ (t_kind t <> Compute /\ tail (sel mb (rest st)) = [] /\ tail (sel mb (rest st')) = [])).
    { rewrite Hu in Ec |- *. rewrite Hu' in Ec' |- *. destruct ts as [|t0 us]; cbn [app tail] in *.
      - right. injection Ec as ->. done.
      - left. injection Ec as ->. injection Ec' as ->. eauto. }
    destruct Hown' as [(us & -> & <- & Ht & Ht')|(Hc' & Ht & Ht')].
    + rewrite (sel_ext _ _ _ Hi Hin). destruct (t_kind t); (split; cbn [rest ready compute_free inflight_until];
        [by rewrite !sel_put_ne|congruence|congruence|try done; by destruct (fltb _ _); rewrite ?sel_put_ne|]);
        left; exists us, u, u'; by rewrite !sel_put_eq.
    + destruct (t_kind t) eqn:Ek; [done|..]; (split; cbn [rest ready compute_free inflight_until];
        [by rewrite !sel_put_ne|congruence|congruence|by destruct (fltb _ _), (fltb _ _); rewrite ?sel_put_ne|]);
        right; by rewrite !sel_put_eq.
  - assert (b = negb mb) as -> by by destruct b, mb. rewrite <-Hr in Ec'.
    assert (t' = t) as -> by (rewrite Ec in Ec'; by injection Ec').
    assert (Hsame : forall A (x : A) p, sel mb (put (negb mb) x p) = sel mb p) by (intros; by destruct mb).
    assert (Hown' : forall i i' : float * float, (sel mb (inflight_until st) = sel mb (inflight_until st') -> sel mb i = sel mb i') ->
      (exists ts u u', sel mb (rest st) = ts ++ [u] /\ sel mb (rest st') = ts ++ [u'] /\
         t_kind u = t_kind u' /\ t_kind u <> Compute /\ sel mb i = sel mb i') \/
      (sel mb (rest st) = [] /\ sel mb (rest st') = [])).
    { intros i i' Hii. destruct Hown as [(ts & u & u' & Hu & Hu' & Hku & Hcu & Hi)|?]; [|by right].
      left. exists ts, u, u'. split_and!; [done..|by apply Hii]. }
    rewrite <-!Hr, <-!Hin. destruct (t_kind t).
    all: split; cbn [rest ready compute_free inflight_until]; rewrite ?sel_put_eq, ?Hsame; try congruence.
    all: try (apply Hown'; try done; by destruct (fltb _ _); rewrite ?Hsame).
    all: destruct (fltb _ _); by rewrite ?sel_put_eq.
Qed.

Lemma alike_loop mb fuel st st' evs evs' :
  alike mb st st' -> ready (sched_loop fuel st evs).1 = ready (sched_loop fuel st' evs').1.
Proof.
  revert st st' evs evs'. induction fuel as [|fuel IH]; intros st st' evs evs' Ha; [apply Ha|].
  pose proof (alike_step _ _ _ Ha) as Hs. cbn [sched_loop].
  destruct (sched_step st) as [[e u]|], (sched_step st') as [[e' u']|]; try done; [by apply IH|apply Ha].
Qed.

Definition transfer (k : Kind) : Prop := k <> Compute.

(** The last transfer of a microbatch costs nothing.  A microbatch whose last
    task is a transfer - with [layer_tasks] it is the combine of the last layer -
    finishes at the same time whatever that transfer takes: results are the times
    computes ended, and no compute waits for it. *)
Theorem last_transfer_free (ts0 ts1 : list Task) (k : Kind) (l : Z) (d d' : float) (mb : bool) :
  transfer k ->
  let ends x := {| t_kind := k; t_dur := x; t_layer := l |} in
  let run x := if mb then _schedule_resources ts0 (ts1 ++ [ends x]) else _schedule_resources (ts0 ++ [ends x]) ts1 in
  run d = run d'.
Proof.
  intros Hk ends run. unfold run, _schedule_resources.
  destruct mb; rewrite !length_app; cbn [length ends].
  - apply (alike_loop true). split; try done. left. exists ts1. by eexists _, _.
  - apply (alike_loop false). split; try done. left. exists ts0. by eexists _, _.
Qed.
End Schedule.

(** ** The microbatches partition the tokens *)

Section Split.

Lemma enumerate_snoc {A} (l : list A) x : enumerate (l ++ [x]) = enumerate l ++ [(zlen l, x)].
Proof.
  apply list_eq. intros i. destruct (decide (i < length l)%nat) as [Hi|Hi].
  - destruct (lookup_lt_is_Some_2 l i Hi) as [a Ha].
    rewrite lookup_app_l by by rewrite enum_length. rewrite (enum_lookup _ _ _ Ha). apply enum_lookup.
    by rewrite lookup_app_l.
  - rewrite lookup_app_r by (rewrite enum_length; lia). rewrite enum_length.
    destruct (decide (i = length l)) as [->|Hne].
    + rewrite Nat.sub_diag. unfold zlen. apply enum_lookup. by rewrite list_lookup_middle.
    + rewrite lookup_ge_None_2 by (rewrite enum_length, length_app; simpl; lia).
      symmetry. apply lookup_ge_None_2. simpl. lia.
Qed.

(** The tables after dealing [l]. *)
Record dealt (l : list Token) (mb0 mb1 : list Token) (d : list (Z * Z)) : Prop := {
  de_perm : mb0 ++ mb1 ≡ₚ l;
  de_len0 : zlen mb0 = (zlen l + 1) / 2;
  de_len1 : zlen mb1 = zlen l / 2;
  de_mb0 : forall t, t ∈ mb0 -> dget d (tid t) = Some 0;
  de_mb1 : forall t, t ∈ mb1 -> dget d (tid t) = Some 1;
}.

Lemma deal_dealt l :
  NoDup (tid <$> l) ->
  exists mb0 mb1 d, foldl deal ([], [], []) (enumerate l) = (mb0, mb1, d) /\ dealt l mb0 mb1 d.
Proof.
  induction l as [|x l IH] using rev_ind; intros Hnd; [exists [], [], []; split; [done|]; split; try done; by intros t []%not_elem_of_nil|].
  rewrite fmap_app in Hnd. apply NoDup_app in Hnd as (Hl & Hx & _).
  assert (Hnew : forall t, t ∈ l -> tid t <> tid x).
  { intros t Ht He. apply (Hx (tid x)); [|by apply list_elem_of_singleton].
    rewrite <-He. by apply list_elem_of_fmap_2. }
  destruct (IH Hl) as (mb0 & mb1 & d & Hf & [Hp H0 H1 Hg0 Hg1]). clear IH.
  assert (Hin0 : forall t, t ∈ mb0 -> tid t <> tid x) by (intros t Ht; apply Hnew; rewrite <-Hp; set_solver).
  assert (Hin1 : forall t, t ∈ mb1 -> tid t <> tid x) by (intros t Ht; apply Hnew; rewrite <-Hp; set_solver).
  rewrite enumerate_snoc, foldl_app, Hf. cbn [foldl deal].
  pose proof (Z.mod_pos_bound (zlen l) 2 ltac:(lia)). pose proof (Z.div_mod (zlen l) 2 ltac:(lia)).
  assert (Hz : zlen (l ++ [x]) = zlen l + 1) by by rewrite zlen_app.
  assert (Hset : forall v t, tid t <> tid x -> dget (dset d (tid x) v) (tid t) = dget d (tid t))
    by (intros; by apply dget_dset_ne).
  destruct (Z.eqb_spec (zlen l mod 2) 0) as [He|He].
  - eexists _, _, _. split; [done|]. split.
    + by rewrite <-app_assoc, (comm (++) [x]), app_assoc, Hp.
    + rewrite zlen_app, H0, Hz. change (zlen [x]) with 1. Z.div_mod_to_equations. lia.
    + rewrite H1, Hz. Z.div_mod_to_equations. lia.
    + intros t [Ht|Ht%list_elem_of_singleton]%elem_of_app; [rewrite Hset; auto|subst t; apply dget_dset_eq].
    + intros t Ht. rewrite Hset; auto.
  - cbn [Z.eqb]. eexists _, _, _. split; [done|]. split.
    + by rewrite app_assoc, Hp.
    + rewrite H0, Hz. Z.div_mod_to_equations. lia.
    + rewrite zlen_app, H1, Hz. change (zlen [x]) with 1. Z.div_mod_to_equations. lia.
    + intros t Ht. rewrite Hset; auto.
    + intros t [Ht|Ht%list_elem_of_singleton]%elem_of_app; [rewrite Hset; auto|subst t; apply dget_dset_eq].
Qed.

Definition in_mb (d : list (Z * Z)) (mb : Z) (t : Token) : Prop := dget d (tid t) = Some mb.

#[local] Instance in_mb_dec d mb t : Decision (in_mb d mb t).
Proof. unfold in_mb. apply _. Defined.

Lemma count_mb_filter d tokens c0 c1 :
  (forall t, t ∈ tokens -> in_mb d 0 t \/ in_mb d 1 t) ->
  py_for (count_mb d) tokens (c0, c1)
  = Ok (c0 + zlen (filter (in_mb d 0) tokens), c1 + zlen (filter (in_mb d 1) tokens)).
Proof.
  revert c0 c1. induction tokens as [|t l IH]; intros c0 c1 Hall.
  { cbn. change (zlen []) with 0. by rewrite !Z.add_0_r. }
  assert (Hl : forall u, u ∈ l -> in_mb d 0 u \/ in_mb d 1 u) by (intros; apply Hall; by right).
  assert (Hstep : forall mb, in_mb d mb t ->
    count_mb d (c0, c1) t = Ok (if mb =? 0 then (c0 + 1, c1) else (c0, c1 + 1))) by (intros mb E; unfold count_mb; by rewrite E).
  assert (Hex : in_mb d 0 t -> in_mb d 1 t -> False) by (unfold in_mb; congruence).
  cbn [py_for]. rewrite !filter_cons. destruct (Hall t ltac:(by left)) as [E|E]; rewrite (Hstep _ E); cbn [mbind res_bind Z.eqb];
    rewrite IH by done; repeat case_decide; try (exfalso; eauto; done); rewrite zlen_cons; do 2 f_equal; lia.
Qed.

Lemma filter_none {A} (P : A -> Prop) `{!forall x, Decision (P x)} l : (forall x, x ∈ l -> ~ P x) -> filter P l = [].
Proof.
  induction l as [|x l IH]; intros Hall; [done|]. rewrite filter_cons_False by (apply Hall; by left).
  apply IH. intros y Hy. apply Hall. by right.
Qed.

(** The split is a partition.  When the token ids are distinct, every token of
    the iteration is in exactly one microbatch, the first has as many tokens as the
    second or one more, the table sends each token id to the microbatch that holds
    it, and counting the tokens of a layer through the table gives the two sizes. *)
Theorem split_partitions (tokens : list Token) :
  NoDup (tid <$> tokens) ->
  exists mb0 mb1 d, _split_into_microbatches tokens = (mb0, mb1, d) /\
    mb0 ++ mb1 ≡ₚ tokens /\
    zlen mb0 = (zlen tokens + 1) / 2 /\ zlen mb1 = zlen tokens / 2 /\
    (forall t, t ∈ tokens -> (t ∈ mb0 <-> dget d (tid t) = Some 0) /\ (t ∈ mb1 <-> dget d (tid t) = Some 1)) /\
    py_for (count_mb d) tokens (0, 0) = Ok (zlen mb0, zlen mb1).
Proof.
  intros Hnd.
  assert (Hs : _split_into_microbatches tokens = foldl deal ([], [], []) (enumerate (merge_sort token_le tokens)))
    by by destruct tokens.
  pose proof (merge_sort_Permutation token_le tokens) as Hp.
  destruct (deal_dealt (merge_sort token_le tokens)) as (mb0 & mb1 & d & Hf & [Hq H0 H1 Hg0 Hg1]); [by rewrite Hp|].
  assert (Hlen : zlen (merge_sort token_le tokens) = zlen tokens) by (unfold zlen; by rewrite Hp).
  exists mb0, mb1, d. rewrite Hs, Hf. split; [done|]. rewrite Hlen in H0, H1. rewrite Hp in Hq.
  split; [done|]. split; [done|]. split; [done|].
  assert (Hin : forall t, t ∈ tokens -> t ∈ mb0 \/ t ∈ mb1) by (intros t; rewrite <-Hq; set_solver).
  assert (Hone : forall t, t ∈ tokens -> (t ∈ mb0 <-> dget d (tid t) = Some 0) /\ (t ∈ mb1 <-> dget d (tid t) = Some 1)).
  { intros t Ht. destruct (Hin t Ht) as [Ht'|Ht'].
    - pose proof (Hg0 _ Ht') as E. split; split; try done; [intros Hx; rewrite (Hg1 _ Hx) in E; done|congruence].
    - pose proof (Hg1 _ Ht') as E. split; split; try done; [intros Hx; rewrite (Hg0 _ Hx) in E; done|congruence]. }
  split; [done|].
  rewrite count_mb_filter.
  - do 2 f_equal; rewrite Z.add_0_l; unfold zlen; rewrite <-Hq, filter_app, length_app.
    + rewrite (filter_all _ mb0), (filter_none _ mb1); [simpl; lia| |].
      * intros t Ht E. pose proof (Hg1 _ Ht). unfold in_mb in E. congruence.
      * by apply Forall_forall.
    + rewrite (filter_none _ mb0), (filter_all _ mb1); [simpl; lia| |].
      * by apply Forall_forall.
      * intros t Ht E. pose proof (Hg0 _ Ht). unfold in_mb in E. congruence.
  - intros t Ht. destruct (Hin t Ht); [left|right]; by apply Hone.
Qed.
End Split.

(** ** What the main loop relies on *)

Section Laws.
Context (ep_group_size total_expert_count max_batch_size attn_dp_group_size num_layers : Z).
Context (attn_service_t net_t_attn_to_expert net_t_expert_to_attn : float).
Context (net_delay_fn : option (Z -> Z -> Z -> float)) (n_gpu_per_host : option Z).
Context (compute_time_lookup : Z -> option float).
Context (route : list Z -> list Z -> Z -> res (list (list Z))).
Hypothesis Hattn : is_finite attn_service_t = true.
Hypothesis Hdp : 0 <= attn_dp_group_size.
Hypothesis Hin : fnonneg net_t_attn_to_expert = true.
Hypothesis Hout : fnonneg net_t_expert_to_attn = true.
Hypothesis Hdelay : forall f a b n, net_delay_fn = Some f -> fnonneg (f a b n) = true.
Hypothesis Htime : forall b t, compute_time_lookup b = Some t -> fnonneg t = true.

Lemma attn_time_nonneg n t : attn_time attn_dp_group_size attn_service_t n = Ok t -> fnonneg t = true.
Proof.
  unfold attn_time. destruct (n <=? 0) eqn:En; [by intros [= <-]|]. apply Z.leb_gt in En.
  destruct (fleb attn_service_t (float_of_Z 0)) eqn:Ea; [by intros [= <-]|]. cbn [orb]. intros H.
  apply bind_Ok in H as (b & Hb & H). injection H as <-. apply fmul_nonneg_pos.
  - apply float_of_Z_nonneg. eapply fceil_nonneg; [|exact Hb].
    destruct (fdiv_plus (float_of_Z n) (float_of_Z attn_dp_group_size)) as [Hp|Hp].
    + apply float_of_Z_plus. lia.
    + by apply float_of_Z_plus.
    + by apply fplus_nonneg.
    + by rewrite Hp in Hb.
  - by destruct attn_service_t as [[]|[]| |[] ? ?].
Qed.

Definition nonneg_times (x : float * float * float * float) : Prop :=
  let '(a, b, c, e) := x in
  fnonneg a = true /\ fnonneg b = true /\ fnonneg c = true /\ fnonneg e = true.

Lemma microbatch_times_nonneg a r m x m' :
  fnonneg a = true ->
  microbatch_times ep_group_size max_batch_size net_t_attn_to_expert net_t_expert_to_attn net_delay_fn
    n_gpu_per_host compute_time_lookup a r m = Ok (x, m') -> nonneg_times x.
Proof.
  intros Ha H. unfold microbatch_times in H.
  apply bind_Ok in H as (dt & Hdt & H). apply bind_Ok in H as (m1 & _ & H).
  apply bind_Ok in H as ([ts m2] & Hts & H). apply bind_Ok in H as (rt & Hrt & H).
  apply bind_Ok in H as ([hi w] & Hsp & H). injection H as <- _. split; [done|]. split; [|split].
  - exact (dispatch_nonneg _ _ _ _ Hin Hdelay _ _ Hdt).
  - unfold compute_spread in Hsp. apply (workers_nonneg _ _ Htime) in Hts.
    destruct ts; [by injection Hsp as <- _|]. apply bind_Ok in Hsp as (h & Hh & Hsp).
    apply bind_Ok in Hsp as (lo & _ & Hsp). injection Hsp as <- _. by eapply list_max_nonneg.
  - exact (return_nonneg _ _ _ _ Hout Hdelay _ _ Hrt).
Qed.

Lemma same_token_refl l : Forall2 same_token l l.
Proof. induction l; constructor; by split_and?. Qed.

Lemma same_token_trans l1 l2 l3 : Forall2 same_token l1 l2 -> Forall2 same_token l2 l3 -> Forall2 same_token l1 l3.
Proof.
  intros H. revert l3. induction H as [|a b l k Hab _ IH]; intros l3 H; inversion H as [|? c ? ? Hbc ?]; subst; constructor.
  - unfold same_token in *. intuition congruence.
  - by apply IH.
Qed.

Lemma route_microbatches_same d layer tokens r0 r1 tokens' :
  route_microbatches ep_group_size total_expert_count route d layer tokens = Ok (r0, r1, tokens') ->
  Forall2 same_token tokens tokens'.
Proof.
  intros H. unfold route_microbatches in H. apply bind_Ok in H as (ids & _ & H).
  apply bind_Ok in H as ([[a b] dn] & Hf & H). injection H as _ _ <-.
  assert (Hdn : Forall2 same_token (zip tokens ids).*1 dn).
  { eapply (py_for_inv (fun pre st => Forall2 same_token pre.*1 st.2)) in Hf; [done|constructor|].
    intros pre [t l] post [[p0 p1] acc] [[q0 q1] acc'] _ Hacc Hone. unfold route_token_mb in Hone. cbn [fst snd] in *.
    apply bind_Ok in Hone as (u & _ & Hone). apply bind_Ok in Hone as (mb & _ & Hone).
    assert (Hacc' : acc' = acc ++ [with_fanout layer (zlen (selected_experts l)) t]).
    { destruct (mb =? 0); apply bind_Ok in Hone as (r & _ & Hone); by injection Hone as _ _ <-. }
    rewrite Hacc', fmap_app. apply Forall2_app; [done|]. by constructor. }
  rewrite fst_zip_take in Hdn. rewrite <-(take_drop (length ids) tokens) at 1. apply Forall2_app; [done|].
  apply same_token_refl.
Qed.

Lemma layer_tasks_nonneg l x : nonneg_times x -> nonneg_tasks (layer_tasks l x).
Proof. destruct x as [[[a b] c] e]. intros (Ha & Hb & Hc & He). by repeat constructor. Qed.

Lemma schedule_nonneg ts0 ts1 :
  nonneg_tasks ts0 -> nonneg_tasks ts1 ->
  fnonneg (_schedule_resources ts0 ts1).1 = true /\ fnonneg (_schedule_resources ts0 ts1).2 = true.
Proof.
  intros H0 H1. destruct (sched_loop_inv ts0 ts1 (length ts0 + length ts1) (sched_init ts0 ts1) [])
    as (st & evs & Hl & Hi & _); [by apply sched_inv_init|done|]. unfold _schedule_resources. rewrite Hl.
  split; [apply (sv_nonneg _ _ _ _ Hi false)|apply (sv_nonneg _ _ _ _ Hi true)].
Qed.

#[export] Instance tbo_laws : @IterationLaws _ (tbo_iteration ep_group_size total_expert_count max_batch_size
  attn_dp_group_size num_layers attn_service_t net_t_attn_to_expert net_t_expert_to_attn net_delay_fn
  n_gpu_per_host compute_time_lookup route).
Proof.
  split. intros tokens m dur o tokens' m' H. cbn [_run_one_iteration tbo_iteration] in H.
  destruct (_split_into_microbatches tokens) as [[mb0 mb1] d].
  apply bind_Ok in H as ([[[ts0 ts1] toks] m1] & Hf & H). injection H as <- _ <- _.
  eapply (py_for_inv (fun _ st => nonneg_tasks st.1.1.1 /\ nonneg_tasks st.1.1.2 /\
    Forall2 same_token tokens st.1.2)) in Hf.
  - destruct Hf as (H0 & H1 & Hs). split; [|done]. destruct (schedule_nonneg _ _ H0 H1). by apply fmax_nonneg.
  - split; [constructor|]. split; [constructor|]. apply same_token_refl.
  - intros pre layer post [[[a0 a1] k1] n1] [[[b0 b1] k2] n2] _ (H0 & H1 & Hk) Hr. cbn [fst snd] in *.
    unfold build_layer in Hr. apply bind_Ok in Hr as ([[[x0 x1] k3] n3] & Hl & Hr). injection Hr as <- <- <- _.
    unfold _compute_layer_times in Hl. apply bind_Ok in Hl as ([c0 c1] & _ & Hl).
    apply bind_Ok in Hl as (t0 & Ht0 & Hl). apply bind_Ok in Hl as (t1 & Ht1 & Hl).
    apply bind_Ok in Hl as ([[r0 r1] k4] & Hroute & Hl). apply bind_Ok in Hl as ([y0 n4] & Hy0 & Hl).
    apply bind_Ok in Hl as ([y1 n5] & Hy1 & Hl). injection Hl as <- <- <- _.
    apply attn_time_nonneg in Ht0, Ht1. apply microbatch_times_nonneg in Hy0, Hy1; [|done..].
    split; [|split].
    + apply Forall_app. split; [done|by apply layer_tasks_nonneg].
    + apply Forall_app. split; [done|by apply layer_tasks_nonneg].
    + eapply same_token_trans; [exact Hk|]. by eapply route_microbatches_same.
Qed.
End Laws.

(** ** Concrete runs *)

Definition ex_task (k : Kind) (d : Z) : Task := {| t_kind := k; t_dur := float_of_Z d; t_layer := 0 |}.
Definition ex_layer : list Task := [ex_task Compute 4; ex_task Dispatch 3; ex_task Compute 2; ex_task Combine 5].

(** The second microbatch computes while the first communicates. *)
Example ex_schedule : _schedule_resources ex_layer ex_layer = (float_of_Z 10, float_of_Z 13).
Proof. vm_compute. reflexivity. Qed.

Lemma schedule_sound_witness :
  exists evs, started false evs = ex_layer /\ started true evs = ex_layer /\ length evs = 8%nat.
Proof.
  destruct (schedule_sound ex_layer ex_layer) as (st & evs & Hl & H0 & H1 & _).
  - repeat constructor.
  - repeat constructor.
  - exists evs. split; [exact H0|]. split; [exact H1|]. apply (f_equal snd) in Hl. vm_compute in Hl. subst evs. reflexivity.
Defined.

Lemma last_transfer_free_witness :
  _schedule_resources (take 3 ex_layer ++ [ex_task Combine 5]) ex_layer
  = _schedule_resources (take 3 ex_layer ++ [ex_task Combine 1000]) ex_layer.
Proof.
  apply (last_transfer_free (take 3 ex_layer) ex_layer Combine 0 (float_of_Z 5) (float_of_Z 1000) false). discriminate.
Defined.

Lemma split_partitions_witness :
  exists mb0 mb1 d, _split_into_microbatches (ex_token <$> [2; 0; 1]) = (mb0, mb1, d) /\ zlen mb0 = 2 /\ zlen mb1 = 1.
Proof.
  destruct (split_partitions (ex_token <$> [2; 0; 1])) as (mb0 & mb1 & d & Hs & _ & H0 & H1 & _).
  - repeat constructor; vm_compute; intros H; repeat (apply elem_of_cons in H as [H|H]; [discriminate H|]); inversion H.
  - exists mb0, mb1, d. split; [exact Hs|]. split; [exact H0|exact H1].
Defined.

(** ** The repository's router

    The simulators pass the request ids to [ProfileDrivenRouter.route] as a Python
    list. *)

Definition profile_route (rt : Gate.ProfileDrivenRouter) (request_ids token_indices : list Z) (layer_idx : Z)
    : res (list (list Z)) :=
  '(_, topk_ids) ← Gate.route rt (Gate.PyList request_ids) token_indices layer_idx (Gate.top_k rt);
  Ok topk_ids.

Lemma profile_route_raises rt rids toks layer : profile_route rt rids toks layer = Raise TypeError.
Proof. unfold profile_route, Gate.route. by rewrite Z.eqb_refl. Qed.

Lemma py_for_first {S} (f : S -> Z -> res S) n s :
  0 < n -> (exists e, f s 0 = Raise e) -> exists e, py_for f (py_range n) s = Raise e.
Proof.
  intros Hn (e & He). unfold py_range. rewrite seqZ_cons by lia. cbn [py_for]. rewrite He. by exists e.
Qed.

Section Router.
Context (ep_group_size total_expert_count max_batch_size attn_dp_group_size num_layers : Z).
Context (attn_service_t net_t_attn_to_expert net_t_expert_to_attn : float).
Context (net_delay_fn : option (Z -> Z -> Z -> float)) (n_gpu_per_host : option Z).
Context (compute_time_lookup : Z -> option float).

(** The simulators cannot use the router.  With the router of the repository
    an iteration of a model that has layers, over at least one token, always
    raises, in the synchronous simulator as in the overlapping one: [route] computes
    the remainder of its list of request ids, which Python defines for tensors
    only. *)
Theorem simulators_reject_router (rt : Gate.ProfileDrivenRouter) (tokens : list Token) (m : Metrics) :
  tokens <> [] -> 0 < num_layers ->
  (exists e, @_run_one_iteration _ (sync_iteration ep_group_size total_expert_count max_batch_size attn_dp_group_size
     num_layers attn_service_t net_t_attn_to_expert net_t_expert_to_attn net_delay_fn n_gpu_per_host
     compute_time_lookup (profile_route rt)) tokens m = Raise e) /\
  (exists e, @_run_one_iteration _ (tbo_iteration ep_group_size total_expert_count max_batch_size attn_dp_group_size
     num_layers attn_service_t net_t_attn_to_expert net_t_expert_to_attn net_delay_fn n_gpu_per_host
     compute_time_lookup (profile_route rt)) tokens m = Raise e).
Proof.
  intros Hne Hl. split; cbn [_run_one_iteration sync_iteration tbo_iteration].
  - unfold run_layers. edestruct (py_for_first (S := float * list Token * Metrics)) as [e He]; [exact Hl| |rewrite He; by exists e].
    unfold _run_layer. destruct (Z.eqb_spec (zlen tokens) 0) as [Hz|_].
    { destruct tokens; [done|]. rewrite zlen_cons in Hz. pose proof (zlen_nonneg tokens). lia. }
    destruct (fceil _) as [b|e]; [|by exists e]. cbn [mbind res_bind]. unfold _route_layer.
    rewrite profile_route_raises. by eexists.
  - destruct (_split_into_microbatches tokens) as [[mb0 mb1] d].
    edestruct (py_for_first (S := list Task * list Task * list Token * Metrics)) as [e He]; [exact Hl| |rewrite He; by exists e].
    unfold build_layer, _compute_layer_times. destruct (py_for (count_mb d) tokens (0, 0)) as [[n0 n1]|e]; [|by exists e].
    cbn [mbind res_bind]. destruct (attn_time _ _ n0) as [a0|e]; [|by exists e]. cbn [mbind res_bind].
    destruct (attn_time _ _ n1) as [a1|e]; [|by exists e]. cbn [mbind res_bind]. unfold route_microbatches.
    rewrite profile_route_raises. by eexists.
Qed.
End Router.

Lemma simulators_reject_router_witness :
  exists rt e, Gate._load_profile 2 2 None Gate.ex_profile = Ok rt /\
    @_run_one_iteration _ (sync_iteration 2 4 2 1 3 (float_of_Z 1) (float_of_Z 1) (float_of_Z 1) None None ex_lookup
      (profile_route rt)) [ex_token 0] metrics_init = Raise e /\ e = TypeError.
Proof.
  eexists. destruct (simulators_reject_router 2 4 2 1 3 (float_of_Z 1) (float_of_Z 1) (float_of_Z 1) None None ex_lookup
    match Gate._load_profile 2 2 None Gate.ex_profile with Ok rt => rt | Raise _ => Gate.Build_ProfileDrivenRouter 0 0 None 0 0 [] [] 0 [] (float_of_Z 0) end
    [ex_token 0] metrics_init) as [[e He] _].
  - discriminate.
  - reflexivity.
  - exists e. split; [vm_compute; reflexivity|]. split; [exact He|]. vm_compute in He. injection He as <-. reflexivity.
Defined.
End SimTBO.
