(* ===== verification/SimAsync.v ===== *)
(** * The asynchronous simulator ([simulation/sim_async.py])

    Requests, per-GPU workers and layers run as SimPy processes.  A process runs
    without interruption from one [yield] to the next, so the model is a step
    relation whose steps are these segments: the request source admits a request, a
    routing process starts, a dispatched token reaches its expert queues, a worker
    resumes.  SimPy decides from the delays which waiting process resumes next; the
    model lets any of them resume at any time [now], so what is proved holds for
    every order the delays can produce.  The delays themselves (service times,
    network, the ingress ports) are therefore not part of the state.

    Tokens are shared objects: the copies of a token in several expert queues are
    its id, the object is in [objects].  The debug log of the scheduler and the
    progress bar only report and are not modelled.

    The steps are generic in the function that routes a token, and no theorem assumes
    anything of what it returns but, for the bound on the number of steps, that a row
    has at most [routing_top_k] ids.  A routing step may raise, and it is the only kind
    of step that may.  The recorded router, as this simulator calls it, is the instance
    of [SimInputs]. *)

From S2P Require Import Prelude PyFloat SimCore.
Import SimCore.

Module SimAsync.

(** ** State *)

(** What a worker process waits for. *)
Inductive Proc : Type :=
  | AtHead
  | Asleep
  | Attending (l t : Z)
  | Computing (l : Z) (batch : list Z)
  | Returning (l : Z) (batch : list Z).

Record ExpertWorker : Type := {
  queues : list (list (list Z));
  attention_queue : list (Z * Z);
  _total_queue_length : Z;
  has_work : bool;
  proc : Proc;
}.

(** The part of an [AttentionWorker] that changes. *)
Record AttentionWorker : Type := { pending_counts : gmap Z Z; pending_tokens : gmap Z Z }.

Record RequestManager : Type := {
  _next_tid : Z;
  _request_state : gmap Z Z;
  _request_start_time : gmap Z float;
  _request_home_gpu : gmap Z Z;
  _next_home_gpu : Z;
  _pending_queue : list (Z * float);
}.

(** What [run_simulation] collects; the sum of the batch sizes, a float of integers in
    the code, is an integer here. *)
Record Outputs : Type := {
  out_completion : list (Z * float);
  out_latencies : list (Z * float);
  out_requests : list float;
  total_batch_size : Z;
  total_batches : Z;
}.

Record Sys : Type := {
  objects : list Token;
  manager : RequestManager;
  expert_workers : list ExpertWorker;
  attention_layers : list AttentionWorker;
  _pending_counts : gmap Z Z;
  starting : list (Z * Z);
  dispatching : list (Z * Z * list (Z * Z));
  source : Z;
  outputs : Outputs;
}.

Definition with_objects (x : list Token) (s : Sys) : Sys :=
  {| objects := x; manager := manager s; expert_workers := expert_workers s; attention_layers := attention_layers s;
     _pending_counts := _pending_counts s; starting := starting s; dispatching := dispatching s;
     source := source s; outputs := outputs s |}.
Definition with_manager (x : RequestManager) (s : Sys) : Sys :=
  {| objects := objects s; manager := x; expert_workers := expert_workers s; attention_layers := attention_layers s;
     _pending_counts := _pending_counts s; starting := starting s; dispatching := dispatching s;
     source := source s; outputs := outputs s |}.
Definition with_workers (x : list ExpertWorker) (s : Sys) : Sys :=
  {| objects := objects s; manager := manager s; expert_workers := x; attention_layers := attention_layers s;
     _pending_counts := _pending_counts s; starting := starting s; dispatching := dispatching s;
     source := source s; outputs := outputs s |}.
Definition with_layers (x : list AttentionWorker) (s : Sys) : Sys :=
  {| objects := objects s; manager := manager s; expert_workers := expert_workers s; attention_layers := x;
     _pending_counts := _pending_counts s; starting := starting s; dispatching := dispatching s;
     source := source s; outputs := outputs s |}.
Definition with_final (x : gmap Z Z) (s : Sys) : Sys :=
  {| objects := objects s; manager := manager s; expert_workers := expert_workers s; attention_layers := attention_layers s;
     _pending_counts := x; starting := starting s; dispatching := dispatching s;
     source := source s; outputs := outputs s |}.
Definition with_procs (st : list (Z * Z)) (di : list (Z * Z * list (Z * Z))) (s : Sys) : Sys :=
  {| objects := objects s; manager := manager s; expert_workers := expert_workers s; attention_layers := attention_layers s;
     _pending_counts := _pending_counts s; starting := st; dispatching := di;
     source := source s; outputs := outputs s |}.
Definition with_source (x : Z) (s : Sys) : Sys :=
  {| objects := objects s; manager := manager s; expert_workers := expert_workers s; attention_layers := attention_layers s;
     _pending_counts := _pending_counts s; starting := starting s; dispatching := dispatching s;
     source := x; outputs := outputs s |}.
Definition with_outputs (x : Outputs) (s : Sys) : Sys :=
  {| objects := objects s; manager := manager s; expert_workers := expert_workers s; attention_layers := attention_layers s;
     _pending_counts := _pending_counts s; starting := starting s; dispatching := dispatching s;
     source := source s; outputs := x |}.

Definition with_token (layer_fanout : list (Z * Z)) (t : Token) : Token :=
  {| tid := tid t; birth_time := birth_time t; t_request_id := t_request_id t; token_index := token_index t;
     home_gpu := home_gpu t; layer_fanout := layer_fanout; sampled_for_stats := sampled_for_stats t |}.

(** The object of a token. *)
Definition object (s : Sys) (t : Z) : res Token := py_get (objects s) t.

(** ** Choosing a layer

    Both policies of [_select_next_task] look at the number of tokens queued per
    layer. *)

Definition layer_totals (w : ExpertWorker) : list Z := (fun qs => sumZ (zlen <$> qs)) <$> queues w.

(** [_select_next_layer_longest_first]; the float of a queue length is exact. *)
Definition longest_first (totals : list Z) : option Z * float :=
  argmax_loop 0 (float_of_Z <$> totals) (float_of_Z 0) None.

(** [lookahead_score] of layer [i]: [0.8], [0.8^2], [0.8^3] times the totals of the
    next three layers. *)
Definition weight_decay : float := float_lit 3602879701896397 (-52).

Fixpoint lookahead (totals : list Z) (i : Z) (ks : list Z) (score decay : float) : res float :=
  match ks with
  | [] => Ok score
  | k :: ks =>
      cur_layer ← py_mod (i + k) (zlen totals);
      n ← py_get totals cur_layer;
      let score := if 0 <? n then fadd score (fmul (float_of_Z n) decay) else score in
      lookahead totals i ks score (fmul decay weight_decay)
  end.

Definition layer_score (totals : list Z) (x : Z * Z) : res float :=
  let '(i, n) := x in
  if n <=? 0 then Ok (float_of_Z 0)
  else l ← lookahead totals i [1; 2; 3] (float_of_Z 0) weight_decay; Ok (fadd (float_of_Z n) l).

(** [_select_next_layer_defragging] *)
Definition defragging (totals : list Z) : res (option Z * float) :=
  if zlen totals <=? 0 then Ok (None, float_of_Z 0)
  else if sumZ totals =? 0 then Ok (None, float_of_Z 0)
  else scores ← py_map (layer_score totals) (enumerate totals);
       Ok (argmax_loop 0 scores (float_of_Z 0) None).

Inductive policy : Type := Longest_queue_first | Defragging_v0.

Definition select_layer (p : policy) (totals : list Z) : res (option Z * float) :=
  match p with
  | Longest_queue_first => Ok (longest_first totals)
  | Defragging_v0 => defragging totals
  end.

(** ** Operations *)

Section Async.
Context (total_requests tokens_per_request num_layers total_expert_count ep_group_size : Z).
(** [routing_top_k] and [attn_dp_group_size] are the values after [max(1, int(..))]. *)
Context (max_batch_size routing_top_k attn_dp_group_size : Z) (max_active_requests : option Z).
Context (scheduling_policy : policy).
Context (compute_time_lookup : Z -> option float).
(** The row of expert ids the router returns for request, token and layer. *)
Context (route : Z -> Z -> Z -> res (list Z)).
(** [token_begin_cb] decides whether the token is sampled. *)
Context (token_begin_cb : Token -> bool).

Definition queues_per_worker : Z := total_expert_count / ep_group_size.

(** *** Queues *)

Definition idle (w : ExpertWorker) : bool := (_total_queue_length w =? 0) && (zlen (attention_queue w) =? 0).

(** [ExpertWorker.enqueue_attention] *)
Definition enqueue_attention (l t : Z) (w : ExpertWorker) : ExpertWorker :=
  {| queues := queues w; attention_queue := attention_queue w ++ [(l, t)];
     _total_queue_length := _total_queue_length w; has_work := has_work w || idle w; proc := proc w |}.

(** [ExpertWorker.enqueue] *)
Definition enqueue_expert (l q t : Z) (w : ExpertWorker) : res ExpertWorker :=
  row ← py_get (queues w) l;
  queue ← py_get row q;
  row ← py_set row q (queue ++ [t]);
  qs ← py_set (queues w) l row;
  Ok {| queues := qs; attention_queue := attention_queue w;
        _total_queue_length := _total_queue_length w + 1; has_work := has_work w || idle w; proc := proc w |}.

(** [AttentionWorker.enqueue] of layer [l] *)
Definition enqueue (l t : Z) (s : Sys) : res Sys :=
  tok ← object s t;
  let home := home_gpu tok in
  _ ← py_check (negb ((home <? 0) || (home >=? zlen (expert_workers s)))) RuntimeError;
  w ← py_get (expert_workers s) home;
  ws ← py_set (expert_workers s) home (enqueue_attention l t w);
  Ok (with_workers ws s).

(** *** The request manager *)

Definition active_requests (m : RequestManager) : Z := Z.of_nat (size (_request_state m)).

Definition _dispatch_next_token (now : float) (rid : Z) (s : Sys) : res Sys :=
  let m := manager s in
  next_idx ← of_option RuntimeError (_request_state m !! rid);
  if next_idx >=? tokens_per_request then Ok s
  else
    home ← of_option RuntimeError (_request_home_gpu m !! rid);
    let token := {| tid := _next_tid m; birth_time := now; t_request_id := rid; token_index := next_idx;
                    home_gpu := home; layer_fanout := []; sampled_for_stats := false |} in
    let token := {| tid := _next_tid m; birth_time := now; t_request_id := rid; token_index := next_idx;
                    home_gpu := home; layer_fanout := []; sampled_for_stats := token_begin_cb token |} in
    let m := {| _next_tid := _next_tid m + 1; _request_state := <[rid := next_idx + 1]> (_request_state m);
                _request_start_time := _request_start_time m; _request_home_gpu := _request_home_gpu m;
                _next_home_gpu := _next_home_gpu m; _pending_queue := _pending_queue m |} in
    enqueue 0 (tid token) (with_manager m (with_objects (objects s ++ [token]) s)).

Definition _start_request_now (now : float) (rid : Z) (arrival_time : float) (s : Sys) : res Sys :=
  let m := manager s in
  _ ← py_check (negb (bool_decide (is_Some (_request_state m !! rid)))) ValueError;
  home ← py_mod (_next_home_gpu m) attn_dp_group_size;
  let m := {| _next_tid := _next_tid m; _request_state := <[rid := 0]> (_request_state m);
              _request_start_time := <[rid := arrival_time]> (_request_start_time m);
              _request_home_gpu := <[rid := home]> (_request_home_gpu m);
              _next_home_gpu := _next_home_gpu m + 1; _pending_queue := _pending_queue m |} in
  _dispatch_next_token now rid (with_manager m s).

Definition with_pending (q : list (Z * float)) (m : RequestManager) : RequestManager :=
  {| _next_tid := _next_tid m; _request_state := _request_state m; _request_start_time := _request_start_time m;
     _request_home_gpu := _request_home_gpu m; _next_home_gpu := _next_home_gpu m; _pending_queue := q |}.

(** Whether another request may become active. *)
Definition has_room (m : RequestManager) : bool :=
  match max_active_requests with None => true | Some k => active_requests m <? k end.

Definition admit_request (now : float) (rid : Z) (arrival_time : float) (s : Sys) : res Sys :=
  if has_room (manager s) then _start_request_now now rid arrival_time s
  else Ok (with_manager (with_pending (_pending_queue (manager s) ++ [(rid, arrival_time)]) (manager s)) s).

(** [_maybe_admit_queued_requests], on the pending queue. *)
Fixpoint admit_queued (now : float) (pending : list (Z * float)) (s : Sys) : res Sys :=
  match pending with
  | [] => Ok s
  | (rid, ts) :: q =>
      if has_room (manager s)
      then s ← _start_request_now now rid ts (with_manager (with_pending q (manager s)) s);
           admit_queued now q s
      else Ok s
  end.

Definition drop_request (rid : Z) (m : RequestManager) : RequestManager :=
  {| _next_tid := _next_tid m; _request_state := delete rid (_request_state m);
     _request_start_time := delete rid (_request_start_time m); _request_home_gpu := delete rid (_request_home_gpu m);
     _next_home_gpu := _next_home_gpu m; _pending_queue := _pending_queue m |}.

Definition record_token (now : float) (tok : Token) (o : Outputs) : Outputs :=
  {| out_completion := dset (out_completion o) (tid tok) now;
     out_latencies := dset (out_latencies o) (tid tok) (fsub now (birth_time tok));
     out_requests := out_requests o; total_batch_size := total_batch_size o; total_batches := total_batches o |}.

Definition record_request (latency : float) (o : Outputs) : Outputs :=
  {| out_completion := out_completion o; out_latencies := out_latencies o;
     out_requests := out_requests o ++ [latency]; total_batch_size := total_batch_size o;
     total_batches := total_batches o |}.

Definition handle_token_completion (now : float) (t : Z) (s : Sys) : res Sys :=
  tok ← object s t;
  let s := with_outputs (record_token now tok (outputs s)) s in
  let rid := t_request_id tok in
  _ ← py_check (bool_decide (is_Some (_request_state (manager s) !! rid))) RuntimeError;
  if token_index tok + 1 <? tokens_per_request then _dispatch_next_token now rid s
  else
    let start_time := default (birth_time tok) (_request_start_time (manager s) !! rid) in
    let s := with_manager (drop_request rid (manager s)) s in
    let s := with_outputs (record_request (fsub now start_time) (outputs s)) s in
    admit_queued now (_pending_queue (manager s)) s.

(** *** Completions of experts *)

(** [FinalCompletionTracker.record_completion] *)
Definition record_completion (now : float) (t : Z) (s : Sys) : res Sys :=
  tok ← object s t;
  let expected := dget_or (layer_fanout tok) (num_layers - 1) 0 in
  _ ← py_check (negb (expected <=? 0)) RuntimeError;
  let new_count := default 0 (_pending_counts s !! t) + 1 in
  if new_count <? expected then Ok (with_final (<[t := new_count]> (_pending_counts s)) s)
  else if new_count =? expected
  then handle_token_completion now t (with_final (delete t (_pending_counts s)) s)
  else Raise RuntimeError.

(** [AttentionWorker.notify_expert_completion] of layer [l] *)
Definition notify_expert_completion (l t : Z) (s : Sys) : res Sys :=
  _ ← py_check (negb (l =? 0)) RuntimeError;
  tok ← object s t;
  a ← py_get (attention_layers s) l;
  let expected := dget_or (layer_fanout tok) (l - 1) 0 in
  _ ← py_check (negb (expected <=? 0)) RuntimeError;
  let current := default 0 (pending_counts a !! t) + 1 in
  if current <? expected then
    als ← py_set (attention_layers s) l
            {| pending_counts := <[t := current]> (pending_counts a);
               pending_tokens := if bool_decide (is_Some (pending_tokens a !! t)) then pending_tokens a
                                 else <[t := t]> (pending_tokens a) |};
    Ok (with_layers als s)
  else if current =? expected then
    let pending_token := default t (pending_tokens a !! t) in
    als ← py_set (attention_layers s) l
            {| pending_counts := delete t (pending_counts a); pending_tokens := delete t (pending_tokens a) |};
    enqueue l pending_token (with_layers als s)
  else Raise RuntimeError.

(** The loop that routes a computed batch of layer [l] onward. *)
Definition route_onward (now : float) (l : Z) (s : Sys) (t : Z) : res Sys :=
  if l =? num_layers - 1 then record_completion now t s else notify_expert_completion (l + 1) t s.

(** *** Routing *)

(** [_route_token]: the placeholders are dropped. *)
Definition _route_token (tok : Token) (l : Z) : res (list Z) :=
  row ← route (t_request_id tok) (token_index tok) l;
  let selected := filter (fun e => 0 <= e) row in
  _ ← py_check (negb (zlen selected =? 0)) RuntimeError;
  Ok selected.

Definition expert_place (e : Z) : Z * Z := (e / queues_per_worker, e mod queues_per_worker).

(** [route_and_dispatch], up to its [yield]. *)
Definition start_dispatch (l t : Z) (s : Sys) : res Sys :=
  tok ← object s t;
  ids ← _route_token tok l;
  _ ← py_check (negb (queues_per_worker =? 0)) ZeroDivisionError;
  objs ← py_set (objects s) t (with_token (dset (layer_fanout tok) l (zlen ids)) tok);
  Ok (with_procs (starting s) (dispatching s ++ [(l, t, expert_place <$> ids)]) (with_objects objs s)).

(** [route_and_dispatch], after its [yield]. *)
Definition deliver_one (l t : Z) (s : Sys) (r : Z * Z) : res Sys :=
  w ← py_get (expert_workers s) r.1;
  w ← enqueue_expert l r.2 t w;
  ws ← py_set (expert_workers s) r.1 w;
  Ok (with_workers ws s).

Definition finish_dispatch (l t : Z) (routes : list (Z * Z)) (s : Sys) : res Sys :=
  py_for (deliver_one l t) routes s.

(** *** A worker *)

(** Tokens popped from the queues of a layer until the batch is full. *)
Fixpoint form_batch (cap : Z) (row : list (list Z)) : list Z * list (list Z) :=
  match row with
  | [] => ([], [])
  | q :: row =>
      let taken := take (Z.to_nat cap) q in
      let '(batch, row') := form_batch (cap - zlen taken) row in
      (taken ++ batch, drop (Z.to_nat cap) q :: row')
  end.

Definition attention_score (w : ExpertWorker) : float :=
  fmul (float_of_Z (zlen (attention_queue w))) (float_of_Z routing_top_k).

Definition with_proc (p : Proc) (w : ExpertWorker) : ExpertWorker :=
  {| queues := queues w; attention_queue := attention_queue w; _total_queue_length := _total_queue_length w;
     has_work := has_work w; proc := p |}.

Definition go_to_sleep (w : ExpertWorker) : ExpertWorker :=
  {| queues := queues w; attention_queue := attention_queue w; _total_queue_length := _total_queue_length w;
     has_work := false; proc := Asleep |}.

(** The choice of [_select_next_task]. *)
Inductive task : Type := TAttention (l t : Z) (rest : list (Z * Z)) | TExpert (l : option Z).

Definition _select_next_task (w : ExpertWorker) : res task :=
  '(layer_idx, score) ← select_layer scheduling_policy (layer_totals w);
  match attention_queue w with
  | (l, t) :: rest =>
      match layer_idx with
      | None => Ok (TAttention l t rest)
      | Some _ => if fltb score (attention_score w) then Ok (TAttention l t rest) else Ok (TExpert layer_idx)
      end
  | [] => Ok (TExpert layer_idx)
  end.

(** A batch of all the queues of layer [l]; without tokens the loop goes back to its
    head. *)
Definition start_batch (l : Z) (w : ExpertWorker) : res (ExpertWorker * list Z) :=
  row ← py_get (queues w) l;
  let '(batch, row) := form_batch max_batch_size row in
  if zlen batch =? 0 then Ok (with_proc AtHead w, [])
  else
    _ ← of_option KeyError (compute_time_lookup (zlen batch));
    qs ← py_set (queues w) l row;
    Ok ({| queues := qs; attention_queue := attention_queue w;
           _total_queue_length := _total_queue_length w - zlen batch; has_work := has_work w;
           proc := Computing l batch |}, batch).

Definition start_attention (l t : Z) (rest : list (Z * Z)) (w : ExpertWorker) : ExpertWorker :=
  {| queues := queues w; attention_queue := rest; _total_queue_length := _total_queue_length w;
     has_work := has_work w; proc := Attending l t |}.

(** The loop of [run] from its head to its first [yield], with the batch that is
    now computed. *)
Definition run_head (w : ExpertWorker) : res (ExpertWorker * list Z) :=
  if idle w then Ok (go_to_sleep w, [])
  else
    k ← _select_next_task w;
    match k with
    | TAttention l t rest => Ok (start_attention l t rest w, [])
    | TExpert None => Ok (with_proc AtHead w, [])
    | TExpert (Some l) => start_batch l w
    end.

Definition count_batch (batch : list Z) (o : Outputs) : Outputs :=
  match batch with
  | [] => o
  | _ => {| out_completion := out_completion o; out_latencies := out_latencies o; out_requests := out_requests o;
            total_batch_size := total_batch_size o + zlen batch; total_batches := total_batches o + 1 |}
  end.

Definition worker_head (w : Z) (s : Sys) : res Sys :=
  wk ← py_get (expert_workers s) w;
  '(wk, batch) ← run_head wk;
  ws ← py_set (expert_workers s) w wk;
  Ok (with_outputs (count_batch batch (outputs s)) (with_workers ws s)).

Definition set_proc (w : Z) (p : Proc) (s : Sys) : res Sys :=
  wk ← py_get (expert_workers s) w;
  ws ← py_set (expert_workers s) w (with_proc p wk);
  Ok (with_workers ws s).

(** [run], from the [yield] it waits at to the next. *)
Definition worker_resume (now : float) (w : Z) (s : Sys) : res Sys :=
  wk ← py_get (expert_workers s) w;
  match proc wk with
  | AtHead | Asleep => worker_head w s
  | Attending l t => worker_head w (with_procs (starting s ++ [(l, t)]) (dispatching s) s)
  | Computing l batch => set_proc w (Returning l batch) s
  | Returning l batch =>
      s ← set_proc w AtHead s;
      s ← py_for (route_onward now l) batch s;
      worker_head w s
  end.

(** *** The steps *)

(** [request_source], one turn. *)
Definition source_step (now : float) (s : Sys) : res Sys :=
  admit_request now (source s) now (with_source (source s + 1) s).

Definition resumable (wk : ExpertWorker) : bool := match proc wk with Asleep => has_work wk | _ => true end.

Inductive step (now : float) (s : Sys) : res Sys -> Prop :=
  | step_source : source s < total_requests -> step now s (source_step now s)
  | step_start (i : nat) l t :
      starting s !! i = Some (l, t) ->
      step now s (start_dispatch l t (with_procs (delete i (starting s)) (dispatching s) s))
  | step_dispatch (i : nat) l t routes :
      dispatching s !! i = Some (l, t, routes) ->
      step now s (finish_dispatch l t routes (with_procs (starting s) (delete i (dispatching s)) s))
  | step_worker (w : Z) wk :
      0 <= w -> expert_workers s !! Z.to_nat w = Some wk -> resumable wk = true ->
      step now s (worker_resume now w s).

Definition init : Sys := {|
  objects := [];
  manager := {| _next_tid := 0; _request_state := ∅; _request_start_time := ∅; _request_home_gpu := ∅;
                _next_home_gpu := 0; _pending_queue := [] |};
  expert_workers := replicate (Z.to_nat ep_group_size)
    {| queues := replicate (Z.to_nat num_layers) (replicate (Z.to_nat queues_per_worker) []);
       attention_queue := []; _total_queue_length := 0; has_work := false; proc := AtHead |};
  attention_layers := replicate (Z.to_nat num_layers) {| pending_counts := ∅; pending_tokens := ∅ |};
  _pending_counts := ∅; starting := []; dispatching := []; source := 0;
  outputs := {| out_completion := []; out_latencies := []; out_requests := []; total_batch_size := 0; total_batches := 0 |};
|}.

(** The states some order of the steps leads to. *)
Inductive reachable : Sys -> Prop :=
  | reach_init : reachable init
  | reach_step now s s' : reachable s -> step now s (Ok s') -> reachable s'.

(** ** The policies choose a layer with tokens *)

Definition nonneg_list (l : list Z) : Prop := Forall (fun n => 0 <= n) l.

Definition good_choice (totals : list Z) (r : option Z * float) : Prop :=
  match r.1 with
  | Some i => exists n, 0 <= i /\ totals !! Z.to_nat i = Some n /\ 0 < n
  | None => Forall (fun n => n <= 0) totals
  end.

Lemma argmax_choice totals scores :
  length scores = length totals ->
  (forall k n x, totals !! k = Some n -> scores !! k = Some x -> fltb (float_of_Z 0) x = true <-> 0 < n) ->
  good_choice totals (argmax_loop 0 scores (float_of_Z 0) None).
Proof.
  intros Hlen Hpos. unfold good_choice.
  destruct (argmax_loop_spec scores 0 (float_of_Z 0) None) as [[-> Hall]|(k & x & -> & Hk & Hx)]; cbn [fst].
  - apply Forall_lookup. intros k n Hn. destruct (lookup_lt_is_Some_2 scores k) as [x Hx].
    { rewrite Hlen. by eapply lookup_lt_Some. }
    rewrite Forall_lookup in Hall. specialize (Hall _ _ Hx). destruct (Z.le_gt_cases n 0) as [|Hn0]; [done|].
    apply (Hpos _ _ _ Hn Hx) in Hn0. congruence.
  - destruct (lookup_lt_is_Some_2 totals k) as [n Hn]; [rewrite <-Hlen; by eapply lookup_lt_Some|].
    exists n. split; [lia|]. rewrite Z.add_0_l, Nat2Z.id. split; [done|]. by apply (Hpos _ _ _ Hn Hk).
Qed.

Lemma longest_first_choice totals : nonneg_list totals -> good_choice totals (longest_first totals).
Proof.
  intros Hnn. apply argmax_choice; [by rewrite length_fmap|]. intros k n x Hn Hx.
  rewrite list_lookup_fmap, Hn in Hx. injection Hx as <-. split; [|apply float_of_Z_pos].
  unfold nonneg_list in Hnn. rewrite Forall_lookup in Hnn. specialize (Hnn _ _ Hn).
  destruct (Z.eq_dec n 0) as [->|]; [done|lia].
Qed.

Lemma lookahead_ok totals i ks score decay :
  0 < zlen totals -> nonneg_list totals ->
  fnonneg score = true -> fvalid score -> fpos decay = true ->
  Forall (fun d => fpos d = true) ((fun n => Nat.iter n (fun d => fmul d weight_decay) decay) <$> seq 0 (length ks)) ->
  exists x, lookahead totals i ks score decay = Ok x /\ fnonneg x = true /\ fvalid x.
Proof.
  intros Hlen Hnn. revert score decay. induction ks as [|k ks IH]; intros score decay Hs Hv Hd Hall; [by exists score|].
  cbn [lookahead]. unfold py_mod. rewrite (proj2 (Z.eqb_neq _ 0)) by lia. cbn [mbind res_bind].
  pose proof (Z.mod_pos_bound (i + k) (zlen totals) Hlen) as Hb.
  destruct (lookup_lt_is_Some_2 totals (Z.to_nat ((i + k) mod zlen totals))) as [n Hn]; [unfold zlen in *; lia|].
  rewrite (py_get_lookup _ _ n) by (done || lia). cbn [mbind res_bind].
  assert (Hn0 : 0 <= n) by (unfold nonneg_list in Hnn; rewrite Forall_lookup in Hnn; by eapply Hnn).
  assert (Hs' : fnonneg (if 0 <? n then fadd score (fmul (float_of_Z n) decay) else score) = true /\
    fvalid (if 0 <? n then fadd score (fmul (float_of_Z n) decay) else score)).
  { destruct (0 <? n); [|done]. split.
    - apply fadd_nonneg; [done|]. apply fmul_nonneg_pos; [by apply float_of_Z_nonneg|done].
    - apply fadd_valid; [done|apply fmul_valid]. }
  destruct Hs' as [Hs' Hv']. cbn [length seq fmap list_fmap] in Hall. apply Forall_cons in Hall as [_ Hall].
  destruct ks as [|k' ks]; [cbn [lookahead]; eauto|].
  apply IH; [done..| |].
  - cbn [length seq fmap list_fmap] in Hall. by apply Forall_cons in Hall as [? _].
  - rewrite <-fmap_S_seq, <-list_fmap_compose in Hall. eapply Forall_impl; [|intros x Hx; exact Hx].
    rewrite Forall_fmap in Hall |- *. eapply Forall_impl; [exact Hall|]. intros m Hm. cbn [compose] in Hm |- *.
    by rewrite Nat.iter_succ_r in Hm.
Qed.

Lemma defragging_choice totals :
  nonneg_list totals -> exists r, defragging totals = Ok r /\ good_choice totals r.
Proof.
  intros Hnn. unfold defragging. destruct (Z.leb_spec (zlen totals) 0) as [Hz|Hz].
  { eexists. split; [done|]. destruct totals; [constructor|]. rewrite zlen_cons in Hz. pose proof (zlen_nonneg totals). lia. }
  destruct (Z.eqb_spec (sumZ totals) 0) as [Hs|Hs].
  { eexists. split; [done|]. cbn. clear Hz. induction Hnn as [|n l Hn Hl IH]; constructor.
    - pose proof (sumZ_nonneg l Hl). cbn in Hs. fold (sumZ l) in Hs. lia.
    - apply IH. pose proof (sumZ_nonneg l Hl). cbn in Hs. fold (sumZ l) in Hs. lia. }
  destruct (py_map_total (layer_score totals) (fun x f => fltb (float_of_Z 0) f = true <-> 0 < x.2) (enumerate totals))
    as (scores & Hm & Hq).
  - intros [i n] Hin. apply elem_of_enumerate in Hin as [Hi Hn]. unfold layer_score. cbn [snd].
    destruct (Z.leb_spec n 0); [exists (float_of_Z 0); split; [done|]; split; [done|lia]|].
    destruct (lookahead_ok totals i [1; 2; 3] (float_of_Z 0) weight_decay) as (x & -> & Hx & Hv); try done.
    { vm_compute. repeat constructor. }
    cbn [mbind res_bind]. eexists. split; [done|]. split; [done|]. intros _. apply fadd_pos; try done.
    + apply float_of_Z_pos. lia.
    + apply normalize_valid.
  - rewrite Hm. cbn [mbind res_bind]. eexists. split; [done|]. apply argmax_choice.
    + rewrite (py_map_length _ _ _ Hm). apply enum_length.
    + intros k n x Hn Hx. destruct (Forall2_lookup_r _ _ _ _ _ Hq Hx) as ([j m] & Hj & Hr).
      rewrite (enum_lookup _ _ _ Hn) in Hj. injection Hj as <- <-. exact Hr.
Qed.

Lemma select_layer_choice p totals :
  nonneg_list totals -> exists r, select_layer p totals = Ok r /\ good_choice totals r.
Proof.
  intros Hnn. destruct p; [|by apply defragging_choice]. eexists. split; [done|]. by apply longest_first_choice.
Qed.

(** ** Where the tokens are

    The queues are compared as multisets: [mult x l] is how often [x] occurs. *)

Definition mult (x : Z * Z) (l : list (Z * Z)) : Z := zlen (filter (fun y => x = y) l).

#[local] Instance mult_perm x : Proper ((≡ₚ) ==> (=)) (mult x).
Proof. intros l k Hp. unfold mult, zlen. by rewrite Hp. Qed.

Lemma mult_app x l k : mult x (l ++ k) = mult x l + mult x k.
Proof. unfold mult. by rewrite filter_app, zlen_app. Qed.

Lemma mult_cons x y l : mult x (y :: l) = (if decide (x = y) then 1 else 0) + mult x l.
Proof. unfold mult. rewrite filter_cons. case_decide; rewrite ?zlen_cons; lia. Qed.

Lemma mult_nil x : mult x [] = 0.
Proof. done. Qed.

Lemma mult_nonneg x l : 0 <= mult x l.
Proof. apply zlen_nonneg. Qed.

Lemma mult_elem x l : x ∈ l <-> 0 < mult x l.
Proof.
  unfold mult. split.
  - intros Hx. assert (Hin : x ∈ filter (fun y => x = y) l) by by apply list_elem_of_filter.
    destruct (filter _ l); [by apply not_elem_of_nil in Hin|]. rewrite zlen_cons. pose proof (zlen_nonneg l0). lia.
  - intros Hm. destruct (filter (fun y => x = y) l) as [|y k] eqn:E; [done|].
    assert (Hin : y ∈ filter (fun y => x = y) l) by (rewrite E; by left).
    by apply list_elem_of_filter in Hin as [-> ?].
Qed.

(** The copies of a token waiting in the queues of a layer. *)
Definition row_reps (x : Z * list (list Z)) : list (Z * Z) := pair x.1 <$> concat x.2.
Definition queue_reps (qs : list (list (list Z))) : list (Z * Z) := concat (row_reps <$> enumerate qs).

Definition proc_reps (p : Proc) : list (Z * Z) :=
  match p with Computing l b | Returning l b => pair l <$> b | _ => [] end.
Definition proc_attention (p : Proc) : list (Z * Z) := match p with Attending l t => [(l, t)] | _ => [] end.

Definition worker_reps (w : ExpertWorker) : list (Z * Z) := queue_reps (queues w) ++ proc_reps (proc w).
Definition worker_attention (w : ExpertWorker) : list (Z * Z) := attention_queue w ++ proc_attention (proc w).

Definition reps (s : Sys) : list (Z * Z) := concat (worker_reps <$> expert_workers s).
Definition attention (s : Sys) : list (Z * Z) :=
  concat (worker_attention <$> expert_workers s) ++ starting s ++ (dispatching s).*1.

Lemma concat_update {A B} (f : A -> list B) (l : list A) i x y :
  l !! i = Some x ->
  exists rest, concat (f <$> l) ≡ₚ f x ++ rest /\ concat (f <$> <[i:=y]> l) ≡ₚ f y ++ rest.
Proof.
  intros Hi. exists (concat (f <$> take i l) ++ concat (f <$> drop (S i) l)).
  pose proof (lookup_lt_Some _ _ _ Hi) as Hlt. split.
  - rewrite <-(take_drop_middle _ _ _ Hi) at 1. rewrite fmap_app, concat_app. cbn [fmap list_fmap concat].
    by rewrite !app_assoc, (Permutation_app_comm (f x)).
  - rewrite insert_take_drop by done. rewrite fmap_app, concat_app. cbn [fmap list_fmap concat].
    by rewrite !app_assoc, (Permutation_app_comm (f y)).
Qed.

Lemma enumerate_insert {A} (l : list A) i y :
  (i < length l)%nat -> enumerate (<[i:=y]> l) = <[i:=(Z.of_nat i, y)]> (enumerate l).
Proof.
  intros Hi. apply list_eq. intros j. destruct (decide (j = i)) as [->|Hne].
  - rewrite list_lookup_insert_eq by by rewrite enum_length. apply enum_lookup. by rewrite list_lookup_insert_eq.
  - rewrite list_lookup_insert_ne by done. destruct (l !! j) as [x|] eqn:Ej.
    + rewrite (enum_lookup _ _ _ Ej). apply enum_lookup. by rewrite list_lookup_insert_ne.
    + rewrite !lookup_ge_None_2; [done|rewrite enum_length; by apply lookup_ge_None|].
      rewrite enum_length, length_insert. by apply lookup_ge_None.
Qed.

(** *** What keeps a worker in order *)

Record worker_ok (w : ExpertWorker) : Prop := {
  wo_layers : length (queues w) = Z.to_nat num_layers;
  wo_rows : Forall (fun row => length row = Z.to_nat queues_per_worker) (queues w);
  wo_total : _total_queue_length w = zlen (queue_reps (queues w));
  wo_sleep : proc w = Asleep -> has_work w = false -> idle w = true;
}.

Lemma row_reps_zlen l row : zlen (row_reps (l, row)) = sumZ (zlen <$> row).
Proof.
  unfold row_reps, zlen at 1. rewrite length_fmap. cbn [snd]. fold (zlen (concat row)). induction row as [|q row IH]; [done|].
  change (sumZ (zlen <$> q :: row)) with (zlen q + sumZ (zlen <$> row)). cbn [concat]. rewrite zlen_app. lia.
Qed.

Lemma queue_reps_total qs : zlen (queue_reps qs) = sumZ ((fun row => sumZ (zlen <$> row)) <$> qs).
Proof.
  unfold queue_reps. rewrite <-(enum_snd qs) at 2. generalize (enumerate qs) as l. intros l.
  induction l as [|[i row] l IH]; [done|].
  change (row_reps <$> (i, row) :: l) with (row_reps (i, row) :: (row_reps <$> l)). cbn [concat].
  rewrite zlen_app, row_reps_zlen, IH. done.
Qed.

Lemma totals_nonneg w : nonneg_list (layer_totals w).
Proof.
  apply Forall_fmap, Forall_forall. intros row _. apply sumZ_nonneg, Forall_fmap, Forall_forall.
  intros q _. apply zlen_nonneg.
Qed.

Lemma idle_spec w :
  _total_queue_length w = zlen (queue_reps (queues w)) ->
  idle w = true <-> queue_reps (queues w) = [] /\ attention_queue w = [].
Proof.
  intros Ht. unfold idle. rewrite Ht, andb_true_iff, !Z.eqb_eq. unfold zlen. split.
  - intros [H1 H2]. split; apply length_zero_iff_nil; lia.
  - by intros [-> ->].
Qed.

(** Putting a copy into a queue. *)
Lemma enqueue_expert_ok w l q t :
  worker_ok w -> 0 <= l < num_layers -> 0 <= q < queues_per_worker ->
  exists w', enqueue_expert l q t w = Ok w' /\ worker_ok w' /\ worker_reps w' ≡ₚ (l, t) :: worker_reps w /\
    worker_attention w' = worker_attention w.
Proof.
  intros [Hl Hr Ht Hs] Hlr Hq. unfold enqueue_expert.
  destruct (lookup_lt_is_Some_2 (queues w) (Z.to_nat l)) as [row Hrow]; [lia|].
  pose proof Hrow as Hrow'. apply (Forall_lookup_1 _ _ _ _ Hr) in Hrow'. cbn in Hrow'.
  destruct (lookup_lt_is_Some_2 row (Z.to_nat q)) as [qu Hqu]; [lia|].
  rewrite (py_get_lookup _ _ row) by (done || lia). cbn [mbind res_bind].
  rewrite (py_get_lookup _ _ qu) by (done || lia). cbn [mbind res_bind].
  rewrite py_set_nonneg by (unfold zlen; lia). cbn [mbind res_bind].
  rewrite py_set_nonneg by (unfold zlen; lia). cbn [mbind res_bind].
  set (row' := <[Z.to_nat q := qu ++ [t]]> row). set (qs := <[Z.to_nat l := row']> (queues w)).
  assert (Hreps : queue_reps qs ≡ₚ (l, t) :: queue_reps (queues w)).
  { unfold queue_reps, qs. rewrite enumerate_insert by lia. rewrite Z2Nat.id by lia.
    destruct (concat_update row_reps (enumerate (queues w)) (Z.to_nat l) (l, row) (l, row')) as (rest & H1 & H2).
    { rewrite (enum_lookup _ _ _ Hrow). do 2 f_equal. lia. }
    rewrite H1, H2, app_comm_cons. apply Permutation_app_tail. unfold row_reps. cbn [fst snd].
    change ((l, t) :: (pair l <$> concat row)) with (pair l <$> t :: concat row). apply fmap_Permutation.
    destruct (concat_update (fun x : list Z => x) row (Z.to_nat q) qu (qu ++ [t]) Hqu) as (rest' & H3 & H4).
    rewrite !list_fmap_id in H3, H4. unfold row'. rewrite H3, H4. rewrite <-app_assoc. cbn [app]. by rewrite <-Permutation_middle. }
  eexists. split; [done|]. split; [|split].
  - split; cbn [queues attention_queue _total_queue_length has_work proc].
    + unfold qs. by rewrite length_insert.
    + apply Forall_insert; [done|]. unfold row'. by rewrite length_insert.
    + rewrite Ht. unfold zlen. rewrite Hreps. cbn [length]. lia.
    + intros Hp Hw. apply orb_false_iff in Hw as [Hw Hi]. rewrite (Hs Hp Hw) in Hi. done.
  - unfold worker_reps. cbn [queues proc]. by rewrite Hreps.
  - done.
Qed.

Lemma enqueue_attention_ok w l t :
  worker_ok w ->
  worker_ok (enqueue_attention l t w) /\ worker_reps (enqueue_attention l t w) = worker_reps w /\
  worker_attention (enqueue_attention l t w) ≡ₚ (l, t) :: worker_attention w.
Proof.
  intros [Hl Hr Ht Hs]. split; [|split; [done|]].
  - split; try done. cbn [enqueue_attention proc has_work]. intros Hp Hw. apply orb_false_iff in Hw as [Hw Hi].
    rewrite (Hs Hp Hw) in Hi. done.
  - unfold worker_attention. cbn [enqueue_attention attention_queue proc]. rewrite <-app_assoc. cbn [app]. by rewrite <-Permutation_middle.
Qed.

(** *** The head of the loop of a worker *)

Lemma form_batch_spec cap row :
  0 <= cap ->
  concat row ≡ₚ (form_batch cap row).1 ++ concat (form_batch cap row).2 /\
  length (form_batch cap row).2 = length row /\ zlen (form_batch cap row).1 <= cap /\
  (0 < cap -> (form_batch cap row).1 = [] -> concat row = []).
Proof.
  revert cap. induction row as [|q row IH]; intros cap Hcap; [done|]. cbn [form_batch].
  assert (Hz : zlen (take (Z.to_nat cap) q) <= cap) by (unfold zlen; rewrite length_take; lia).
  pose proof (zlen_nonneg (take (Z.to_nat cap) q)) as Hz0.
  destruct (IH (cap - zlen (take (Z.to_nat cap) q)) ltac:(lia)) as (Hp & Hl & Hc & He).
  destruct (form_batch (cap - zlen (take (Z.to_nat cap) q)) row) as [b row']. cbn [fst snd concat] in *. split; [|split; [|split]].
  - rewrite Hp. rewrite <-(take_drop (Z.to_nat cap) q) at 1. rewrite <-!app_assoc. apply Permutation_app_head.
    rewrite !app_assoc. apply Permutation_app_tail. apply Permutation_app_comm.
  - cbn. by rewrite Hl.
  - rewrite zlen_app. lia.
  - intros H0 Hnil. apply app_nil in Hnil as [Hq Hb]. destruct q as [|x q].
    + apply He; [|done]. change (zlen (take (Z.to_nat cap) [])) with (zlen (take (Z.to_nat cap) ([] : list Z))).
      rewrite take_nil. change (zlen []) with 0. lia.
    + destruct (Z.to_nat cap) eqn:E; [lia|done].
Qed.

Section Head.
Hypothesis Hmax : 0 < max_batch_size.
Hypothesis Hlookup : forall b, 1 <= b <= max_batch_size -> is_Some (compute_time_lookup b).

(** What a worker waits for after the head of its loop. *)
Definition settled (w : ExpertWorker) : Prop :=
  match proc w with
  | Asleep => has_work w = false
  | Attending _ _ => True
  | Computing _ b => b <> []
  | _ => False
  end.

(** What a worker that found work or fell asleep has in common with before. *)
Definition same_work (w w' : ExpertWorker) : Prop :=
  worker_ok w' /\ worker_reps w' ≡ₚ queue_reps (queues w) /\ worker_attention w' ≡ₚ attention_queue w /\
  settled w'.

Lemma start_batch_ok w l n :
  worker_ok w -> 0 <= l -> layer_totals w !! Z.to_nat l = Some n -> 0 < n ->
  exists w' b, start_batch l w = Ok (w', b) /\ same_work w w'.
Proof.
  intros [Hl Hr Ht _] Hl0 Hn Hn0. unfold layer_totals in Hn. rewrite list_lookup_fmap in Hn.
  destruct (queues w !! Z.to_nat l) as [row|] eqn:Erow; [|done]. injection Hn as Hn. unfold start_batch.
  rewrite (py_get_lookup _ _ row) by (done || lia). cbn [mbind res_bind].
  destruct (form_batch_spec max_batch_size row ltac:(lia)) as (Hp & Hlen & Hcap & Hne).
  destruct (form_batch max_batch_size row) as [b row'] eqn:Ef. cbn [fst snd] in *.
  assert (Hb : zlen b <> 0).
  { intros Hb. assert (Hnil : concat row = []).
    { apply Hne; [done|]. apply length_zero_iff_nil. unfold zlen in Hb. lia. }
    pose proof (row_reps_zlen 0 row) as Hz. unfold row_reps in Hz. cbn [snd] in Hz. rewrite Hnil in Hz. change (zlen _) with 0 in Hz. lia. }
  rewrite (proj2 (Z.eqb_neq _ 0)) by done. pose proof (zlen_nonneg b).
  destruct (Hlookup (zlen b) ltac:(lia)) as [c0 ->]. cbn [of_option mbind res_bind].
  pose proof (lookup_lt_Some _ _ _ Erow) as Hlt.
  rewrite py_set_nonneg by (unfold zlen; lia). cbn [mbind res_bind].
  assert (Hreps : queue_reps (queues w) ≡ₚ queue_reps (<[Z.to_nat l:=row']> (queues w)) ++ (pair l <$> b)).
  { unfold queue_reps. rewrite enumerate_insert by lia. rewrite Z2Nat.id by lia.
    destruct (concat_update row_reps (enumerate (queues w)) (Z.to_nat l) (l, row) (l, row')) as (rest & H1 & H2).
    { rewrite (enum_lookup _ _ _ Erow). do 2 f_equal. lia. }
    rewrite H1, H2. unfold row_reps. cbn [fst snd]. rewrite Hp, fmap_app. solve_Permutation. }
  eexists _, _. split; [done|]. split; [|split; [|split; [|by intros ->]]].
  - split; cbn [queues _total_queue_length proc has_work].
    + by rewrite length_insert.
    + apply Forall_insert; [done|]. rewrite Hlen. by apply (Forall_lookup_1 _ _ _ _ Hr Erow).
    + rewrite Ht. unfold zlen. rewrite Hreps, length_app, length_fmap. lia.
    + done.
  - unfold worker_reps. cbn. by rewrite Hreps.
  - unfold worker_attention. cbn. by rewrite app_nil_r.
Qed.

Lemma start_attention_ok w l t rest :
  worker_ok w -> attention_queue w = (l, t) :: rest -> same_work w (start_attention l t rest w).
Proof.
  intros [Hl Hr Ht _] Eq. split; [by split|]. split; [|split; [|done]].
  - unfold worker_reps. cbn. by rewrite app_nil_r.
  - unfold worker_attention. cbn. rewrite Eq. by rewrite Permutation_app_comm.
Qed.

Lemma run_head_ok w : worker_ok w -> exists w' b, run_head w = Ok (w', b) /\ same_work w w'.
Proof.
  intros Hok. pose proof Hok as [Hl Hr Ht Hs]. unfold run_head. destruct (idle w) eqn:Ei.
  { eexists _, _. split; [done|]. split; [by split|]. split; [|split; [|done]].
    - unfold worker_reps. cbn. by rewrite app_nil_r.
    - unfold worker_attention. cbn. by rewrite app_nil_r. }
  destruct (select_layer_choice scheduling_policy (layer_totals w) (totals_nonneg w)) as ([c x] & Hc & Hg).
  unfold _select_next_task. rewrite Hc. cbn [mbind res_bind].
  destruct (attention_queue w) as [|[l t] rest] eqn:Eq.
  - destruct c as [l|]; cbn [mbind res_bind].
    + cbn in Hg. destruct Hg as (n & Hl0 & Hn & Hn0). by apply (start_batch_ok w l n).
    + exfalso. assert (Hi : idle w = true); [|congruence]. apply idle_spec; [done|]. split; [|done].
      apply length_zero_iff_nil. pose proof (queue_reps_total (queues w)) as Hq.
      change ((fun row => sumZ (zlen <$> row)) <$> queues w) with (layer_totals w) in Hq. cbn in Hg.
      assert (H0 : sumZ (layer_totals w) <= 0).
      { clear -Hg. induction Hg as [|n l Hn _ IH]; [done|]. cbn. fold (sumZ l). lia. }
      unfold zlen in Hq. lia.
  - assert (Hatt : exists w' b, Ok (start_attention l t rest w, [] : list Z) = Ok (w', b) /\ same_work w w').
    { eexists _, _. split; [done|]. by apply start_attention_ok. }
    destruct c as [l'|]; [destruct (fltb x _)|]; cbn [mbind res_bind]; try done.
    cbn in Hg. destruct Hg as (n & Hl0 & Hn & Hn0). by apply (start_batch_ok w l' n).
Qed.
End Head.

(** ** The invariant

    [ph] gives the phase of every live token: it is once in the attention of a
    layer, or its copies are at the experts of a layer and [k] of them have
    returned.  [extra] are the copies of a batch that is being routed onward;
    [hole] is a request whose token has just completed; [slack] counts a request
    that left the source and is not yet admitted. *)

Inductive Phase : Type := PAtt (l : Z) | PRep (l k : Z).

(** How many experts layer [l] sent the token to. *)
Definition fan (s : Sys) (t l : Z) : Z :=
  match objects s !! Z.to_nat t with Some tok => dget_or (layer_fanout tok) l 0 | None => 0 end.

(** How many copies of layer [l] have returned. *)
Definition got (s : Sys) (l t : Z) : Z :=
  if l =? num_layers - 1 then default 0 (_pending_counts s !! t)
  else match attention_layers s !! Z.to_nat (l + 1) with
       | Some a => default 0 (pending_counts a !! t)
       | None => 0
       end.

Definition place_ok (p : option Phase) (extra : list (Z * Z)) (s : Sys) (t : Z) : Prop :=
  (forall l, mult (l, t) (attention s) = match p with Some (PAtt l') => if decide (l' = l) then 1 else 0 | _ => 0 end) /\
  (forall l, mult (l, t) (reps s ++ extra)
             = match p with Some (PRep l' k) => if decide (l' = l) then fan s t l - k else 0 | _ => 0 end) /\
  (forall l, 0 <= l < num_layers ->
     got s l t = match p with Some (PRep l' k) => if decide (l' = l) then k else 0 | _ => 0 end) /\
  match p with
  | Some (PAtt l) => 0 <= l < num_layers
  | Some (PRep l k) => 0 <= l < num_layers /\ 0 <= k < fan s t l
  | None => True
  end.

(** A place the index arithmetic gives: the queue exists, the worker may not. *)
Definition in_range (r : Z * Z) : Prop := 0 <= r.1 /\ 0 <= r.2 < queues_per_worker.

Record places (ph : gmap Z Phase) (extra : list (Z * Z)) (s : Sys) : Prop := {
  pl_ok : forall t, place_ok (ph !! t) extra s t;
  pl_tokens : forall a t t', a ∈ attention_layers s -> pending_tokens a !! t = Some t' -> t' = t;
  pl_layers : length (attention_layers s) = Z.to_nat num_layers;
  pl_dispatch : forall l t routes, (l, t, routes) ∈ dispatching s ->
    fan s t l = zlen routes /\ routes <> [] /\ Forall in_range routes;
}.

Definition workers_ok (s : Sys) : Prop :=
  length (expert_workers s) = Z.to_nat ep_group_size /\ Forall worker_ok (expert_workers s).

Definition sum_state (m : gmap Z Z) : Z := sumZ (map_to_list m).*2.

Record tracked (ph : gmap Z Phase) (hole : option Z) (slack : Z) (s : Sys) : Prop := {
  tr_size : zlen (objects s) = _next_tid (manager s);
  tr_obj : forall i tok, objects s !! i = Some tok ->
    tid tok = Z.of_nat i /\ 0 <= home_gpu tok < ep_group_size /\ 0 <= token_index tok < tokens_per_request;
  tr_live : forall t p, ph !! t = Some p -> exists tok, 0 <= t /\ objects s !! Z.to_nat t = Some tok /\
    _request_state (manager s) !! t_request_id tok = Some (token_index tok + 1) /\ hole <> Some (t_request_id tok);
  tr_inj : forall t t' p p' tok tok', ph !! t = Some p -> ph !! t' = Some p' ->
    objects s !! Z.to_nat t = Some tok -> objects s !! Z.to_nat t' = Some tok' ->
    t_request_id tok = t_request_id tok' -> t = t';
  tr_owner : forall rid n, _request_state (manager s) !! rid = Some n ->
    0 <= rid < source s /\
    (hole = Some rid \/ exists t p tok, ph !! t = Some p /\ objects s !! Z.to_nat t = Some tok /\ t_request_id tok = rid);
  tr_home : forall rid n, _request_state (manager s) !! rid = Some n ->
    exists h, _request_home_gpu (manager s) !! rid = Some h /\ 0 <= h < ep_group_size;
  tr_nodup : NoDup (_pending_queue (manager s)).*1;
  tr_pending : forall rid, rid ∈ (_pending_queue (manager s)).*1 ->
    0 <= rid < source s /\ _request_state (manager s) !! rid = None;
  tr_max : match max_active_requests with Some k => active_requests (manager s) <= k | None => True end;
  tr_count : source s = active_requests (manager s) + zlen (_pending_queue (manager s)) + zlen (out_requests (outputs s)) + slack;
  tr_tokens : _next_tid (manager s)
    = tokens_per_request * zlen (out_requests (outputs s)) + sum_state (_request_state (manager s));
  tr_keys : NoDup (dkeys (out_completion (outputs s)));
  tr_done : forall t, t ∈ dkeys (out_completion (outputs s)) <-> 0 <= t < _next_tid (manager s) /\ ph !! t = None;
  tr_source : source s <= total_requests;
}.

Definition inv ph extra hole slack s : Prop := workers_ok s /\ places ph extra s /\ tracked ph hole slack s.

(** No request waits while there is room. *)
Definition full (s : Sys) : Prop := _pending_queue (manager s) <> [] -> has_room (manager s) = false.

Definition procs (s : Sys) : list Proc := proc <$> expert_workers s.

Lemma place_ext p ex ex' s s' t :
  (forall l, mult (l, t) (attention s') = mult (l, t) (attention s)) ->
  (forall l, mult (l, t) (reps s' ++ ex') = mult (l, t) (reps s ++ ex)) ->
  (forall l, 0 <= l < num_layers -> got s' l t = got s l t) -> (forall l, fan s' t l = fan s t l) ->
  place_ok p ex s t -> place_ok p ex' s' t.
Proof.
  intros Ha Hr Hg Hf (H1 & H2 & H3 & H4). split_and!.
  - intros l. by rewrite Ha.
  - intros l. rewrite Hr, H2. destruct p as [[]|]; [done| |done]. by rewrite Hf.
  - intros l Hl. by rewrite Hg, H3.
  - destruct p as [[]|]; [done| |done]. by rewrite Hf.
Qed.

Lemma sum_state_fresh m k v : m !! k = None -> sum_state (<[k:=v]> m) = v + sum_state m.
Proof. intros E. unfold sum_state. by rewrite map_to_list_insert. Qed.

Lemma sum_state_delete m k v : m !! k = Some v -> sum_state (delete k m) = sum_state m - v.
Proof.
  intros E. rewrite <-(insert_delete_id m k v E) at 2. rewrite sum_state_fresh by apply lookup_delete_eq. lia.
Qed.

Lemma sum_state_insert m k x v : m !! k = Some x -> sum_state (<[k:=v]> m) = sum_state m - x + v.
Proof.
  intros E. rewrite <-insert_delete_eq, sum_state_fresh by apply lookup_delete_eq.
  rewrite (sum_state_delete _ _ _ E). lia.
Qed.

(** *** Entering the attention of a layer *)

Lemma enqueue_ok l t tok s :
  workers_ok s -> 0 <= t -> objects s !! Z.to_nat t = Some tok -> 0 <= home_gpu tok < ep_group_size ->
  exists ws, enqueue l t s = Ok (with_workers ws s) /\ workers_ok (with_workers ws s) /\
    attention (with_workers ws s) ≡ₚ (l, t) :: attention s /\ reps (with_workers ws s) ≡ₚ reps s /\
    procs (with_workers ws s) = procs s.
Proof.
  intros [Hlen Hok] Ht Hobj Hh. unfold enqueue, object. rewrite (py_get_lookup _ _ tok) by done. cbn [mbind res_bind].
  assert (Hz : zlen (expert_workers s) = ep_group_size) by (unfold zlen; lia).
  rewrite Hz, (proj2 (Z.ltb_ge _ _)), Z.geb_leb, (proj2 (Z.leb_gt _ _)) by lia. cbn [orb negb py_check mbind res_bind].
  destruct (lookup_lt_is_Some_2 (expert_workers s) (Z.to_nat (home_gpu tok))) as [w Hw]; [lia|].
  rewrite (py_get_lookup _ _ w) by (done || lia). cbn [mbind res_bind].
  rewrite py_set_nonneg by lia. cbn [mbind res_bind].
  destruct (enqueue_attention_ok w l t (Forall_lookup_1 _ _ _ _ Hok Hw)) as (Hok' & Hr & Ha).
  eexists. split; [done|]. split; [|split; [|split]].
  - split; cbn; [by rewrite length_insert|]. by apply Forall_insert.
  - unfold attention. cbn.
    destruct (concat_update worker_attention (expert_workers s) _ w (enqueue_attention l t w) Hw) as (rest & H1 & H2).
    by rewrite H1, H2, Ha.
  - unfold reps. cbn. destruct (concat_update worker_reps (expert_workers s) _ w (enqueue_attention l t w) Hw) as (rest & H1 & H2).
    by rewrite H1, H2, Hr.
  - unfold procs. cbn. rewrite list_fmap_insert. cbn. rewrite list_insert_id; [done|]. by rewrite list_lookup_fmap, Hw.
Qed.

(** *** Dispatching tokens and admitting requests *)

Section Dispatch.
Hypothesis HL : 0 < num_layers.

Lemma live_range ph hole slack s t p :
  tracked ph hole slack s -> ph !! t = Some p -> 0 <= t < _next_tid (manager s).
Proof.
  intros Ht Hp. destruct (tr_live _ _ _ _ Ht _ _ Hp) as (tok & H0 & Hobj & _). apply lookup_lt_Some in Hobj.
  rewrite <-(tr_size _ _ _ _ Ht). unfold zlen. lia.
Qed.

(** The token a request dispatches next. *)
Definition next_token (now : float) (rid n h : Z) (m : RequestManager) : Token :=
  let token := {| tid := _next_tid m; birth_time := now; t_request_id := rid; token_index := n;
                  home_gpu := h; layer_fanout := []; sampled_for_stats := false |} in
  {| tid := _next_tid m; birth_time := now; t_request_id := rid; token_index := n;
     home_gpu := h; layer_fanout := []; sampled_for_stats := token_begin_cb token |}.

Definition next_manager (rid n : Z) (m : RequestManager) : RequestManager :=
  {| _next_tid := _next_tid m + 1; _request_state := <[rid := n + 1]> (_request_state m);
     _request_start_time := _request_start_time m; _request_home_gpu := _request_home_gpu m;
     _next_home_gpu := _next_home_gpu m; _pending_queue := _pending_queue m |}.

Lemma next_tracked now ph rid slack n h s :
  tracked ph (Some rid) slack s -> _request_state (manager s) !! rid = Some n -> 0 <= n < tokens_per_request ->
  0 <= h < ep_group_size ->
  tracked (<[_next_tid (manager s) := PAtt 0]> ph) None slack
    (with_manager (next_manager rid n (manager s)) (with_objects (objects s ++ [next_token now rid n h (manager s)]) s)).
Proof.
  intros Ht Hrid Hn Hh. pose proof Ht as [Hsize Hobj Hlive Hinj Hown Hhome Hnd Hpend Hmx Hcnt Htok Hkeys Hdone Hsrc].
  set (t := _next_tid (manager s)) in *. set (tok := next_token now rid n h (manager s)).
  assert (Ht0 : 0 <= t) by (rewrite <-Hsize; apply zlen_nonneg).
  assert (Hnew : (objects s ++ [tok]) !! Z.to_nat t = Some tok).
  { rewrite lookup_app_r by (unfold zlen in Hsize; lia). replace (Z.to_nat t - length (objects s))%nat with O by (unfold zlen in Hsize; lia). done. }
  assert (Hold : forall u p, ph !! u = Some p -> u <> t /\ forall x, (objects s ++ [tok]) !! Z.to_nat u = Some x -> objects s !! Z.to_nat u = Some x).
  { intros u p Hp. pose proof (live_range _ _ _ _ _ _ Ht Hp) as Hr. fold t in Hr. split; [lia|]. intros x.
    rewrite lookup_app_l; [done|]. unfold zlen in Hsize. lia. }
  assert (Hsz : active_requests (next_manager rid n (manager s)) = active_requests (manager s)).
  { unfold active_requests. cbn. rewrite map_size_insert_Some; [done|by eauto]. }
  split; cbn [with_manager with_objects manager objects source outputs _next_tid next_manager _request_state _request_home_gpu _pending_queue].
  - rewrite zlen_app, Hsize. done.
  - intros i x Hx. apply lookup_app_Some in Hx as [Hx|[Hi Hx]]; [by apply Hobj|].
    apply list_lookup_singleton_Some in Hx as [Hi0 <-]. cbn. fold t. unfold zlen in Hsize. split_and!; try lia.
  - intros u p Hp. destruct (decide (u = t)) as [->|Hne].
    + exists tok. split; [done|]. split; [done|]. cbn. rewrite lookup_insert_eq. split; [f_equal; lia|done].
    + rewrite lookup_insert_ne in Hp by done. destruct (Hlive _ _ Hp) as (x & H0 & Hx & Hst & Hh').
      exists x. split; [done|]. split; [by apply lookup_app_l_Some|]. split; [|done].
      rewrite lookup_insert_ne; [done|]. congruence.
  - intros u u' p p' x x' Hp Hp' Hx Hx' Heq.
    assert (Hcase : forall u p x, ph !! u = Some p -> (objects s ++ [tok]) !! Z.to_nat u = Some x -> t_request_id x <> rid).
    { intros v q y Hq Hy. destruct (Hold _ _ Hq) as [_ Ho]. specialize (Ho _ Hy).
      destruct (Hlive _ _ Hq) as (z & _ & Hz & _ & Hr). rewrite Ho in Hz. injection Hz as <-. congruence. }
    destruct (decide (u = t)) as [->|Hne], (decide (u' = t)) as [->|Hne']; [done| | |].
    + rewrite lookup_insert_ne in Hp' by done. rewrite Hnew in Hx. injection Hx as <-. exfalso. by apply (Hcase _ _ _ Hp' Hx').
    + rewrite lookup_insert_ne in Hp by done. rewrite Hnew in Hx'. injection Hx' as <-. exfalso. by apply (Hcase _ _ _ Hp Hx).
    + rewrite lookup_insert_ne in Hp, Hp' by done. apply (Hinj _ _ _ _ x x' Hp Hp'); [by eapply Hold|by eapply Hold|done].
  - intros r m Hr. destruct (decide (r = rid)) as [->|Hne].
    + destruct (Hown _ _ Hrid) as [Hs _]. split; [done|]. right. exists t, (PAtt 0), tok. by rewrite lookup_insert_eq.
    + rewrite lookup_insert_ne in Hr by done. destruct (Hown _ _ Hr) as [Hs [Hw|(u & p & x & Hp & Hx & Hrx)]]; [congruence|].
      split; [done|]. right. exists u, p, x. pose proof (live_range _ _ _ _ _ _ Ht Hp) as Hu. fold t in Hu.
      rewrite lookup_insert_ne by lia. split; [done|]. split; [by apply lookup_app_l_Some|done].
  - intros r m Hr. destruct (decide (r = rid)) as [->|Hne]; [by apply (Hhome _ _ Hrid)|].
    rewrite lookup_insert_ne in Hr by done. by apply (Hhome _ _ Hr).
  - done.
  - intros r Hr. destruct (Hpend _ Hr) as [Hs Hnone]. split; [done|]. rewrite lookup_insert_ne by congruence. done.
  - change (match max_active_requests with Some k => active_requests (next_manager rid n (manager s)) <= k | None => True end).
    by rewrite Hsz.
  - change (source s = active_requests (next_manager rid n (manager s)) + zlen (_pending_queue (manager s))
      + zlen (out_requests (outputs s)) + slack). by rewrite Hsz.
  - rewrite (sum_state_insert _ _ _ _ Hrid). lia.
  - done.
  - intros u. rewrite Hdone. destruct (decide (u = t)) as [->|Hne].
    + rewrite lookup_insert_eq. fold t. split; [lia|by intros [_ ?]].
    + rewrite lookup_insert_ne by done. fold t. split; intros [? ?]; split; try done; lia.
  - done.
Qed.

Lemma fan_app s x t l : (Z.to_nat t < length (objects s))%nat -> fan (with_objects (objects s ++ [x]) s) t l = fan s t l.
Proof. intros H. unfold fan. cbn. by rewrite lookup_app_l. Qed.

Lemma next_places now ph extra rid slack n h s s' :
  tracked ph (Some rid) slack s -> places ph extra s ->
  attention s' ≡ₚ (0, _next_tid (manager s)) :: attention s -> reps s' ≡ₚ reps s ->
  objects s' = objects s ++ [next_token now rid n h (manager s)] -> attention_layers s' = attention_layers s ->
  _pending_counts s' = _pending_counts s -> dispatching s' = dispatching s ->
  places (<[_next_tid (manager s) := PAtt 0]> ph) extra s'.
Proof.
  intros Ht [Hok Htk Hlen Hd] Ha Hr Ho Hal Hpc Hdi. set (t := _next_tid (manager s)) in *.
  assert (Hphn : ph !! t = None).
  { destruct (ph !! t) eqn:E; [|done]. pose proof (live_range _ _ _ _ _ _ Ht E) as Hx. fold t in Hx. lia. }
  assert (Hgot : forall l u, got s' l u = got s l u) by (intros; unfold got; by rewrite Hal, Hpc).
  assert (Hfan : forall u l, u <> t -> 0 <= u -> fan s' u l = fan s u l).
  { intros u l Hu Hu0. unfold fan. rewrite Ho. pose proof (tr_size _ _ _ _ Ht) as Hsz. fold t in Hsz. unfold zlen in Hsz.
    destruct (decide (Z.to_nat u < length (objects s))%nat); [by rewrite lookup_app_l|].
    rewrite !lookup_ge_None_2; [done|lia|rewrite length_app; cbn; lia]. }
  split.
  - intros u. destruct (decide (u = t)) as [->|Hne].
    + rewrite lookup_insert_eq. destruct (Hok t) as (H1 & H2 & H3 & _). rewrite Hphn in H1, H2, H3. split_and!.
      * intros l. rewrite Ha, mult_cons, H1. repeat case_decide; simplify_eq; lia.
      * intros l. by rewrite Hr, H2.
      * intros l Hl. by rewrite Hgot, H3.
      * lia.
      * done.
    + rewrite lookup_insert_ne by done. destruct (ph !! u) as [p|] eqn:E.
      * pose proof (live_range _ _ _ _ _ _ Ht E) as Hu. specialize (Hok u). rewrite E in Hok.
        eapply place_ext; [| | | |exact Hok].
        -- intros l. rewrite Ha, mult_cons, decide_False by congruence. lia.
        -- intros l. by rewrite Hr.
        -- intros. apply Hgot.
        -- intros. apply Hfan; [done|lia].
      * destruct (Hok u) as (H1 & H2 & H3 & _). rewrite E in H1, H2, H3. split_and!; [..|done].
        -- intros l. rewrite Ha, mult_cons, decide_False by congruence. by rewrite H1.
        -- intros l. by rewrite Hr, H2.
        -- intros l Hl. by rewrite Hgot, H3.
  - intros a u u'. rewrite Hal. apply Htk.
  - by rewrite Hal.
  - intros l u routes. rewrite Hdi. intros Hin. destruct (Hd _ _ _ Hin) as (H1 & H2 & H3). split; [|done].
    assert (Hu : ph !! u <> None).
    { intros E. assert (Hin' : (l, u) ∈ attention s).
      { unfold attention. apply elem_of_app. right. apply elem_of_app. right. by apply (list_elem_of_fmap_2 fst) in Hin. }
      apply mult_elem in Hin'. destruct (Hok u) as (H4 & _). rewrite E in H4. rewrite H4 in Hin'. lia. }
    destruct (ph !! u) as [p|] eqn:E; [|done]. pose proof (live_range _ _ _ _ _ _ Ht E) as Hr'. fold t in Hr'.
    rewrite Hfan by lia. done.
Qed.

(** What stays the same when tokens only move into attention queues. *)
Definition frame (s s' : Sys) : Prop :=
  procs s' = procs s /\ _pending_queue (manager s') = _pending_queue (manager s) /\
  active_requests (manager s') = active_requests (manager s).

Lemma dispatch_ok now ph extra rid slack n s :
  inv ph extra (Some rid) slack s -> _request_state (manager s) !! rid = Some n -> 0 <= n < tokens_per_request ->
  exists s' ph', _dispatch_next_token now rid s = Ok s' /\ inv ph' extra None slack s' /\ frame s s'.
Proof.
  intros (Hw & Hp & Ht) Hrid Hn. destruct (tr_home _ _ _ _ Ht _ _ Hrid) as (h & Hh & Hhr).
  unfold _dispatch_next_token. rewrite Hrid. cbn [of_option mbind res_bind].
  rewrite Z.geb_leb, (proj2 (Z.leb_gt _ _)) by lia. rewrite Hh. cbn [of_option mbind res_bind].
  fold (next_token now rid n h (manager s)). fold (next_manager rid n (manager s)).
  pose proof (next_tracked now ph rid slack n h s Ht Hrid Hn Hhr) as Ht1.
  set (tok := next_token now rid n h (manager s)) in *. change (tid tok) with (_next_tid (manager s)).
  set (s1 := with_manager _ _) in *.
  assert (Ht0 : 0 <= _next_tid (manager s)) by (rewrite <-(tr_size _ _ _ _ Ht); apply zlen_nonneg).
  destruct (enqueue_ok 0 (_next_tid (manager s)) tok s1) as (ws & -> & Hw' & Ha & Hr & Hpr); [done|done| |done|].
  { cbn. pose proof (tr_size _ _ _ _ Ht) as Hsz. unfold zlen in Hsz. rewrite lookup_app_r by lia.
    replace (Z.to_nat (_next_tid (manager s)) - length (objects s))%nat with O by lia. done. }
  exists (with_workers ws s1), (<[_next_tid (manager s) := PAtt 0]> ph). split; [done|]. split.
  - split; [done|]. split.
    + by eapply (next_places now ph extra rid slack n h s).
    + destruct Ht1. by split.
  - split; [done|]. split; [done|]. unfold active_requests. cbn. rewrite map_size_insert_Some; [done|by eauto].
Qed.


Hypothesis Hep : 0 < ep_group_size.
Hypothesis Hdp : attn_dp_group_size = ep_group_size.
Hypothesis HT : 0 < tokens_per_request.
Hypothesis Hcap : match max_active_requests with Some k => 0 < k | None => True end.

Definition starting_manager (rid h : Z) (arrival : float) (m : RequestManager) : RequestManager :=
  {| _next_tid := _next_tid m; _request_state := <[rid := 0]> (_request_state m);
     _request_start_time := <[rid := arrival]> (_request_start_time m);
     _request_home_gpu := <[rid := h]> (_request_home_gpu m);
     _next_home_gpu := _next_home_gpu m + 1; _pending_queue := _pending_queue m |}.

Lemma starting_tracked ph slack rid h arrival s :
  tracked ph None (slack + 1) s -> _request_state (manager s) !! rid = None -> 0 <= rid < source s ->
  rid ∉ (_pending_queue (manager s)).*1 -> has_room (manager s) = true -> 0 <= h < ep_group_size ->
  tracked ph (Some rid) slack (with_manager (starting_manager rid h arrival (manager s)) s).
Proof.
  intros [Hsize Hobj Hlive Hinj Hown Hhome Hnd Hpend Hmx Hcnt Htok Hkeys Hdone Hsrc] Hnone Hrid Hnp Hroom Hh.
  assert (Hsz : active_requests (starting_manager rid h arrival (manager s)) = active_requests (manager s) + 1).
  { unfold active_requests. cbn. rewrite map_size_insert_None by done. lia. }
  split; cbn [with_manager manager objects source outputs starting_manager _next_tid _request_state _request_home_gpu _pending_queue]; try done.
  - intros t p Hp. destruct (Hlive _ _ Hp) as (tok & H0 & Ho & Hs & _). exists tok. split; [done|]. split; [done|].
    assert (Hne : t_request_id tok <> rid) by congruence. split; [by rewrite lookup_insert_ne by congruence|congruence].
  - intros r n Hr. destruct (decide (r = rid)) as [->|Hne]; [split; [done|by left]|].
    rewrite lookup_insert_ne in Hr by done. destruct (Hown _ _ Hr) as [Hs [?|?]]; [done|]. split; [done|by right].
  - intros r n Hr. destruct (decide (r = rid)) as [->|Hne]; [exists h; by rewrite lookup_insert_eq|].
    rewrite lookup_insert_ne in Hr by done. rewrite lookup_insert_ne by done. by apply (Hhome _ _ Hr).
  - intros r Hr. destruct (Hpend _ Hr) as [Hs Hn]. split; [done|]. rewrite lookup_insert_ne; [done|]. set_solver.
  - change (match max_active_requests with Some k => active_requests (starting_manager rid h arrival (manager s)) <= k | None => True end).
    rewrite Hsz. unfold has_room in Hroom. destruct max_active_requests; [|done]. apply Z.ltb_lt in Hroom. lia.
  - change (source s = active_requests (starting_manager rid h arrival (manager s)) + zlen (_pending_queue (manager s))
      + zlen (out_requests (outputs s)) + slack). lia.
  - rewrite sum_state_fresh by done. lia.
Qed.

Lemma start_request_ok now ph extra slack rid arrival s :
  inv ph extra None (slack + 1) s -> _request_state (manager s) !! rid = None -> 0 <= rid < source s ->
  rid ∉ (_pending_queue (manager s)).*1 -> has_room (manager s) = true ->
  exists s' ph', _start_request_now now rid arrival s = Ok s' /\ inv ph' extra None slack s' /\
    procs s' = procs s /\ _pending_queue (manager s') = _pending_queue (manager s).
Proof.
  intros (Hw & Hp & Ht) Hnone Hrid Hnp Hroom. unfold _start_request_now.
  rewrite bool_decide_false by (rewrite Hnone; apply is_Some_None). cbn [negb py_check mbind res_bind].
  unfold py_mod. rewrite (proj2 (Z.eqb_neq _ 0)) by lia. cbn [mbind res_bind].
  pose proof (Z.mod_pos_bound (_next_home_gpu (manager s)) attn_dp_group_size ltac:(lia)) as Hb.
  set (h := _next_home_gpu (manager s) mod attn_dp_group_size) in *. fold (starting_manager rid h arrival (manager s)).
  set (s1 := with_manager _ s).
  assert (Hi : inv ph extra (Some rid) slack s1).
  { split; [done|]. split; [by destruct Hp; split|]. apply starting_tracked; try done. lia. }
  destruct (dispatch_ok now ph extra rid slack 0 s1 Hi) as (s' & ph' & Hd & Hi' & Hpr & Hpq & _); [|lia|].
  { cbn. apply lookup_insert_eq. }
  exists s', ph'. split; [done|]. split; [done|]. split; [done|]. by rewrite Hpq.
Qed.

Lemma pending_tracked ph slack q s :
  tracked ph None slack s -> (exists x, _pending_queue (manager s) = x :: q) ->
  tracked ph None (slack + 1) (with_manager (with_pending q (manager s)) s).
Proof.
  intros [Hsize Hobj Hlive Hinj Hown Hhome Hnd Hpend Hmx Hcnt Htok Hkeys Hdone Hsrc] [x Hx]. rewrite Hx in Hnd, Hpend, Hcnt.
  cbn [fmap list_fmap] in Hnd, Hpend. apply NoDup_cons in Hnd as [Hxn Hnd].
  split; cbn [with_manager with_pending manager objects source outputs _next_tid _request_state _request_home_gpu _pending_queue]; try done.
  - intros r Hr. apply Hpend. by right.
  - rewrite zlen_cons in Hcnt.
    change (source s = active_requests (manager s) + zlen q + zlen (out_requests (outputs s)) + (slack + 1)). lia.
Qed.

(** Admitting waiting requests fills the room there is. *)
Lemma admit_queued_ok now ph extra slack q s :
  inv ph extra None slack s -> _pending_queue (manager s) = q ->
  exists s' ph', admit_queued now q s = Ok s' /\ inv ph' extra None slack s' /\ full s' /\ procs s' = procs s.
Proof.
  revert ph s. induction q as [|[rid ts] q IH]; intros ph s Hi Hq.
  { exists s, ph. split; [done|]. split; [done|]. split; [by intros H|done]. }
  cbn [admit_queued]. destruct (has_room (manager s)) eqn:Hroom.
  - pose proof Hi as (Hw & Hp & Ht). set (s1 := with_manager (with_pending q (manager s)) s).
    assert (Hi1 : inv ph extra None (slack + 1) s1).
    { split; [done|]. split; [by destruct Hp; split|]. apply pending_tracked; [done|eauto]. }
    assert (Hin : rid ∈ (_pending_queue (manager s)).*1) by (rewrite Hq; by left).
    destruct (tr_pending _ _ _ _ Ht _ Hin) as [Hr Hn].
    destruct (start_request_ok now ph extra slack rid ts s1 Hi1) as (s2 & ph2 & -> & Hi2 & Hpr & Hpq); [done|done| |done|].
    { cbn. pose proof (tr_nodup _ _ _ _ Ht) as Hnd. rewrite Hq in Hnd. by apply NoDup_cons in Hnd as [? _]. }
    cbn [mbind res_bind]. destruct (IH ph2 s2 Hi2) as (s' & ph' & Ha & Hi' & Hf & Hpr'); [by rewrite Hpq|].
    exists s', ph'. split; [done|]. split; [done|]. split; [done|]. by rewrite Hpr', Hpr.
  - exists s, ph. split; [done|]. split; [done|]. split; [by intros _|done].
Qed.

(** *** Completions *)

Lemma completed_tracked now ph t p tok slack s :
  tracked ph None slack s -> ph !! t = Some p -> objects s !! Z.to_nat t = Some tok ->
  tracked (delete t ph) (Some (t_request_id tok)) slack (with_outputs (record_token now tok (outputs s)) s).
Proof.
  intros Ht Hp Ho. pose proof (live_range _ _ _ _ _ _ Ht Hp) as Hr.
  destruct Ht as [Hsize Hobj Hlive Hinj Hown Hhome Hnd Hpend Hmx Hcnt Htok Hkeys Hdone Hsrc].
  assert (Htid : tid tok = t) by (destruct (Hobj _ _ Ho) as [-> _]; lia).
  split; cbn [with_outputs manager objects source outputs record_token out_completion out_requests]; try done.
  - intros u q Hq. apply lookup_delete_Some in Hq as [Hne Hq]. destruct (Hlive _ _ Hq) as (x & H0 & Hx & Hs & _).
    exists x. split; [done|]. split; [done|]. split; [done|]. intros [= Heq]. apply Hne. by apply (Hinj _ _ _ _ _ _ Hp Hq Ho Hx).
  - intros u u' q q' x x' Hq Hq'. apply lookup_delete_Some in Hq as [_ Hq], Hq' as [_ Hq']. by eapply Hinj.
  - intros r n Hrn. destruct (Hown _ _ Hrn) as [Hs [?|(u & q & x & Hq & Hx & Hxr)]]; [done|]. split; [done|].
    destruct (decide (u = t)) as [->|Hne]; [left; congruence|]. right. exists u, q, x. by rewrite lookup_delete_ne.
  - rewrite Htid. by apply dkeys_dset_NoDup.
  - intros u. rewrite Htid. rewrite <-dget_Some_keys, dget_dset. destruct (decide (u = t)) as [->|Hne].
    + rewrite decide_True by done. rewrite lookup_delete_eq. split; [done|eauto].
    + rewrite decide_False by done. rewrite dget_Some_keys, Hdone, lookup_delete_ne by done. done.
Qed.

Lemma dropped_tracked ph rid latency slack s :
  tracked ph (Some rid) slack s -> _request_state (manager s) !! rid = Some tokens_per_request ->
  tracked ph None slack (with_outputs (record_request latency (outputs s)) (with_manager (drop_request rid (manager s)) s)).
Proof.
  intros [Hsize Hobj Hlive Hinj Hown Hhome Hnd Hpend Hmx Hcnt Htok Hkeys Hdone Hsrc] Hrid.
  assert (Hsz : active_requests (drop_request rid (manager s)) = active_requests (manager s) - 1).
  { unfold active_requests. cbn. pose proof (map_size_delete_Some rid (_request_state (manager s)) ltac:(by eauto)) as Hd.
    assert (Hpos : size (_request_state (manager s)) <> O) by (apply map_size_ne_0_lookup; eauto).
    rewrite Hd. lia. }
  split; cbn [with_outputs with_manager manager objects source outputs record_request out_completion out_requests drop_request
    _next_tid _request_state _request_home_gpu _pending_queue]; try done.
  - intros u p Hp. destruct (Hlive _ _ Hp) as (x & H0 & Hx & Hs & Hne). exists x. split; [done|]. split; [done|].
    split; [|done]. rewrite lookup_delete_ne by congruence. done.
  - intros r n Hr. apply lookup_delete_Some in Hr as [Hne Hr]. destruct (Hown _ _ Hr) as [Hs [[=]|?]]; [done|]. split; [done|by right].
  - intros r n Hr. apply lookup_delete_Some in Hr as [Hne Hr]. rewrite lookup_delete_ne by done. by apply (Hhome _ _ Hr).
  - intros r Hr. destruct (Hpend _ Hr) as [Hs Hn]. split; [done|]. apply lookup_delete_None. by right.
  - change (match max_active_requests with Some k => active_requests (drop_request rid (manager s)) <= k | None => True end).
    rewrite Hsz. destruct max_active_requests; [lia|done].
  - change (source s = active_requests (drop_request rid (manager s)) + zlen (_pending_queue (manager s))
      + zlen (out_requests (outputs s) ++ [latency]) + slack). rewrite Hsz, zlen_app. change (zlen [latency]) with 1. lia.
  - rewrite (sum_state_delete _ _ _ Hrid), zlen_app. change (zlen [latency]) with 1. lia.
Qed.

(** The outcome of an operation that keeps the invariant. *)
Definition leads (extra : list (Z * Z)) (slack : Z) (s : Sys) (r : res Sys) : Prop :=
  exists s' ph', r = Ok s' /\ inv ph' extra None slack s' /\ full s' /\ procs s' = procs s.

Lemma full_frame s s' : frame s s' -> full s -> full s'.
Proof.
  intros (_ & Hq & Ha) Hf. unfold full in *. rewrite Hq. intros Hne. specialize (Hf Hne). unfold has_room in *. by rewrite Ha.
Qed.

Lemma handle_completion_ok now ph t p extra slack s :
  workers_ok s -> places (delete t ph) extra s -> tracked ph None slack s -> ph !! t = Some p -> full s ->
  leads extra slack s (handle_token_completion now t s).
Proof.
  intros Hw Hp Ht Hph Hf. destruct (tr_live _ _ _ _ Ht _ _ Hph) as (tok & H0 & Ho & Hs & _).
  unfold handle_token_completion, object. rewrite (py_get_lookup _ _ tok) by done. cbn [mbind res_bind].
  pose proof (completed_tracked now ph t p tok slack s Ht Hph Ho) as Ht1. set (s1 := with_outputs _ s) in *.
  rewrite bool_decide_true by (change (is_Some (_request_state (manager s) !! t_request_id tok)); eauto). cbn [py_check mbind res_bind].
  assert (Hp1 : places (delete t ph) extra s1) by by destruct Hp; split.
  destruct (tr_obj _ _ _ _ Ht _ _ Ho) as (_ & _ & Hidx).
  destruct (Z.ltb_spec (token_index tok + 1) tokens_per_request) as [Hlt|Hge].
  - destruct (dispatch_ok now (delete t ph) extra (t_request_id tok) slack (token_index tok + 1) s1) as (s' & ph' & -> & Hi & Hfr);
      [done|done|lia|]. exists s', ph'. split; [done|]. split; [done|]. split; [|apply Hfr]. by apply (full_frame s1).
  - assert (HTs : _request_state (manager s1) !! t_request_id tok = Some tokens_per_request).
    { change (_request_state (manager s) !! t_request_id tok = Some tokens_per_request). rewrite Hs. f_equal. lia. }
    set (lat := fsub _ _).
    set (s2 := with_outputs (record_request _ _) (with_manager (drop_request _ _) s1)).
    assert (Hi : inv (delete t ph) extra None slack s2).
    { split; [done|]. split; [by destruct Hp1; split|].
      exact (dropped_tracked (delete t ph) (t_request_id tok) lat slack s1 Ht1 HTs). }
    destruct (admit_queued_ok now _ extra slack _ s2 Hi eq_refl) as (s' & ph' & Ha & Hi' & Hf' & Hpr).
    exists s', ph'. split; [done|]. split; [done|]. split; [done|]. done.
Qed.

(** A copy that has just returned belongs to a token at the experts of its layer. *)
Lemma returning_phase ph extra s l t :
  places ph ((l, t) :: extra) s -> exists k, ph !! t = Some (PRep l k) /\ 0 <= l < num_layers /\ 0 <= k < fan s t l.
Proof.
  intros Hp. destruct (pl_ok _ _ _ Hp t) as (_ & H2 & _ & H4). specialize (H2 l).
  rewrite mult_app, mult_cons, decide_True in H2 by done. pose proof (mult_nonneg (l, t) (reps s)). pose proof (mult_nonneg (l, t) extra).
  destruct (ph !! t) as [[l'|l' k]|]; [lia| |lia]. case_decide as Hl; [|lia]. subst l'. by exists k.
Qed.

(** Counting one more return of a token. *)
Lemma returned_places ph p' extra l t k s s' :
  places ph ((l, t) :: extra) s -> ph !! t = Some (PRep l k) ->
  (forall x, x.2 <> t -> mult x (attention s') = mult x (attention s)) ->
  reps s' ≡ₚ reps s -> objects s' = objects s -> dispatching s' = dispatching s ->
  length (attention_layers s') = length (attention_layers s) ->
  (forall a u u', a ∈ attention_layers s' -> pending_tokens a !! u = Some u' -> u' = u) ->
  (forall l' u, 0 <= l' < num_layers -> u <> t -> got s' l' u = got s l' u) ->
  place_ok p' extra s' t ->
  places (match p' with Some p => <[t := p]> ph | None => delete t ph end) extra s'.
Proof.
  intros [Hok Htk Hlen Hd] Hph Ha Hr Ho Hdi Hl Htk' Hg Hp'.
  assert (Hfan : forall u l', fan s' u l' = fan s u l') by (intros; unfold fan; by rewrite Ho).
  split.
  - intros u. assert (Hlk : (match p' with Some p => <[t := p]> ph | None => delete t ph end) !! u = if decide (u = t) then p' else ph !! u).
    { destruct p' as [p|]; case_decide as E; subst.
      - by rewrite lookup_insert_eq.
      - by rewrite lookup_insert_ne.
      - by rewrite lookup_delete_eq.
      - by rewrite lookup_delete_ne. }
    rewrite Hlk. case_decide as E; [by subst|]. eapply place_ext; [| | | |apply Hok].
    + intros l'. by apply Ha.
    + intros l'. rewrite !mult_app, Hr, mult_cons, decide_False by congruence. lia.
    + intros l' Hl'. by apply Hg.
    + apply Hfan.
  - done.
  - by rewrite Hl.
  - intros l' u routes. rewrite Hdi, Hfan. apply Hd.
Qed.

(** A token may change its phase. *)
Lemma phase_tracked ph t p0 p hole slack s s' :
  tracked ph hole slack s -> ph !! t = Some p0 ->
  objects s' = objects s -> manager s' = manager s -> source s' = source s -> outputs s' = outputs s ->
  tracked (<[t := p]> ph) hole slack s'.
Proof.
  intros [Hsize Hobj Hlive Hinj Hown Hhome Hnd Hpend Hmx Hcnt Htok Hkeys Hdone Hsrc] Hph E1 E2 E3 E4.
  assert (Hlk : forall u q, <[t := p]> ph !! u = Some q -> exists q', ph !! u = Some q').
  { intros u q Hq. destruct (decide (u = t)) as [->|Hne]; [eauto|]. rewrite lookup_insert_ne in Hq by done. eauto. }
  split; rewrite ?E1, ?E2, ?E3, ?E4; try done.
  - intros u q Hq. destruct (Hlk _ _ Hq) as [q' Hq']. by apply (Hlive _ _ Hq').
  - intros u u' q q' x x' Hq Hq'. destruct (Hlk _ _ Hq), (Hlk _ _ Hq'). by eapply Hinj.
  - intros r n Hr. destruct (Hown _ _ Hr) as [Hs [?|(u & q & x & Hq & Hx & Hxr)]]; [split; [done|by left]|]. split; [done|]. right.
    destruct (decide (u = t)) as [->|Hne]; [exists t, p, x; split; [apply lookup_insert_eq|done]|].
    exists u, q, x. by rewrite lookup_insert_ne.
  - intros u. rewrite Hdone. destruct (decide (u = t)) as [->|Hne]; [rewrite lookup_insert_eq, Hph; split; by intros [? ?]|]. by rewrite lookup_insert_ne.
Qed.

Lemma mult_other_cons x y l : x <> y -> mult x (y :: l) = mult x l.
Proof. intros. rewrite mult_cons, decide_False by done. lia. Qed.

Lemma record_ok now ph extra slack t s :
  inv ph ((num_layers - 1, t) :: extra) None slack s -> full s ->
  leads extra slack s (record_completion now t s).
Proof.
  intros (Hw & Hp & Ht) Hf. destruct (returning_phase _ _ _ _ _ Hp) as (k & Hph & Hl & Hk).
  destruct (tr_live _ _ _ _ Ht _ _ Hph) as (tok & H0 & Ho & _ & _).
  assert (Hfan : fan s t (num_layers - 1) = dget_or (layer_fanout tok) (num_layers - 1) 0) by (unfold fan; by rewrite Ho).
  destruct (pl_ok _ _ _ Hp t) as (P1 & P2 & P3 & _). rewrite Hph in P1, P2, P3.
  assert (Hgot : default 0 (_pending_counts s !! t) = k).
  { specialize (P3 (num_layers - 1) Hl). unfold got in P3. rewrite Z.eqb_refl, decide_True in P3 by done. done. }
  unfold record_completion, object. rewrite (py_get_lookup _ _ tok) by done. cbn [mbind res_bind]. rewrite <-Hfan, Hgot.
  rewrite (proj2 (Z.leb_gt _ _)) by lia. cbn [negb py_check mbind res_bind].
  assert (Hother : forall f, (forall u, u <> t -> f !! u = _pending_counts s !! u) ->
    forall l' u, 0 <= l' < num_layers -> u <> t -> got (with_final f s) l' u = got s l' u).
  { intros f Hfu l' u _ Hu. unfold got. cbn. destruct (l' =? num_layers - 1); [by rewrite Hfu|done]. }
  assert (Hrep : forall l', mult (l', t) (reps s ++ extra) = if decide (num_layers - 1 = l') then fan s t l' - k - 1 else 0).
  { intros l'. specialize (P2 l'). rewrite mult_app, mult_cons in P2. rewrite mult_app.
    destruct (decide (num_layers - 1 = l')) as [<-|Hne]; [rewrite decide_True in P2 by done; lia|].
    rewrite decide_False in P2 by congruence. lia. }
  destruct (Z.ltb_spec (k + 1) (fan s t (num_layers - 1))) as [Hlt|Hge].
  - exists (with_final (<[t:=k + 1]> (_pending_counts s)) s), (<[t := PRep (num_layers - 1) (k + 1)]> ph).
    split; [done|]. split; [|split; [done|done]]. split; [done|]. split.
    + apply (returned_places ph (Some (PRep (num_layers - 1) (k + 1))) extra _ t k s _ Hp Hph); try done.
      * apply (pl_tokens _ _ _ Hp).
      * apply Hother. intros u Hu. by rewrite lookup_insert_ne.
      * split_and!; [exact P1| | |lia|lia|lia|done].
        -- intros l'. change (reps (with_final _ s)) with (reps s). change (fan (with_final _ s) t l') with (fan s t l'). rewrite Hrep. case_decide; lia.
        -- intros l' Hl'. unfold got. cbn. destruct (Z.eqb_spec l' (num_layers - 1)) as [->|Hne].
           ++ by rewrite lookup_insert_eq, decide_True.
           ++ rewrite decide_False by done. specialize (P3 l' Hl'). unfold got in P3.
              rewrite (proj2 (Z.eqb_neq _ _) Hne), decide_False in P3 by done. done.
    + by eapply (phase_tracked ph t _ _ None slack s).
  - rewrite (proj2 (Z.eqb_eq _ _)) by lia.
    assert (Hp' : places (delete t ph) extra (with_final (delete t (_pending_counts s)) s)).
    { apply (returned_places ph None extra _ t k s _ Hp Hph); try done.
      * apply (pl_tokens _ _ _ Hp).
      * apply Hother. intros u Hu. by rewrite lookup_delete_ne.
      * split_and!; [exact P1| | |done].
        -- intros l'. change (reps (with_final _ s)) with (reps s). rewrite Hrep. case_decide as E; [subst l'; lia|done].
        -- intros l' Hl'. unfold got. cbn. destruct (Z.eqb_spec l' (num_layers - 1)) as [->|Hne].
           ++ by rewrite lookup_delete_eq.
           ++ specialize (P3 l' Hl'). unfold got in P3. rewrite (proj2 (Z.eqb_neq _ _) Hne), decide_False in P3 by done. done. }
    change (leads extra slack (with_final (delete t (_pending_counts s)) s)
      (handle_token_completion now t (with_final (delete t (_pending_counts s)) s))).
    apply (handle_completion_ok now ph t (PRep (num_layers - 1) k)); try done. by destruct Ht; split.
Qed.

(** A layer counts a return: only the count of [t] at layer [l] changes. *)
Lemma got_layer s l t a cnt ptk :
  0 <= l < num_layers - 1 -> attention_layers s !! Z.to_nat (l + 1) = Some a ->
  (forall u, u <> t -> cnt !! u = pending_counts a !! u) ->
  let s' := with_layers (<[Z.to_nat (l + 1) := {| pending_counts := cnt; pending_tokens := ptk |}]> (attention_layers s)) s in
  got s' l t = default 0 (cnt !! t) /\
  (forall l' u, 0 <= l' < num_layers -> (l' <> l \/ u <> t) -> got s' l' u = got s l' u).
Proof.
  intros Hl Ha Hc s'. pose proof (lookup_lt_Some _ _ _ Ha) as Hlt. split.
  - unfold got, s'. cbn. rewrite (proj2 (Z.eqb_neq _ _)) by lia. by rewrite list_lookup_insert_eq.
  - intros l' u Hl' Hne. unfold got, s'. cbn. destruct (Z.eqb_spec l' (num_layers - 1)); [done|].
    destruct (decide (l' = l)) as [->|Hll].
    + rewrite list_lookup_insert_eq, Ha by done. cbn. rewrite Hc; [done|]. by destruct Hne.
    + rewrite list_lookup_insert_ne; [done|]. lia.
Qed.

(** The tokens a layer keeps are filed under their own ids, also after the layer changes. *)
Lemma layer_tokens (ls : list AttentionWorker) j a' :
  (forall a u u', a ∈ ls -> pending_tokens a !! u = Some u' -> u' = u) -> (forall u u', pending_tokens a' !! u = Some u' -> u' = u) ->
  forall a u u', a ∈ <[j := a']> ls -> pending_tokens a !! u = Some u' -> u' = u.
Proof.
  intros Hls Ha' a u u' [i Hi]%list_elem_of_lookup Hu. apply list_lookup_insert_Some in Hi as [(-> & <- & _)|[_ Hi]]; [by apply Ha'|].
  eapply Hls; [by eapply list_elem_of_lookup_2|done].
Qed.

Lemma notify_ok ph extra slack l t s :
  inv ph ((l, t) :: extra) None slack s -> full s -> l <> num_layers - 1 ->
  leads extra slack s (notify_expert_completion (l + 1) t s).
Proof.
  intros (Hw & Hp & Ht) Hf Hll. destruct (returning_phase _ _ _ _ _ Hp) as (k & Hph & Hl & Hk).
  destruct (tr_live _ _ _ _ Ht _ _ Hph) as (tok & H0 & Ho & _ & _).
  assert (Hfan : fan s t l = dget_or (layer_fanout tok) l 0) by (unfold fan; by rewrite Ho).
  destruct (pl_ok _ _ _ Hp t) as (P1 & P2 & P3 & _). rewrite Hph in P1, P2, P3.
  destruct (lookup_lt_is_Some_2 (attention_layers s) (Z.to_nat (l + 1))) as [a Ha]; [rewrite (pl_layers _ _ _ Hp); lia|].
  assert (Hgot : default 0 (pending_counts a !! t) = k).
  { specialize (P3 l Hl). unfold got in P3. rewrite (proj2 (Z.eqb_neq _ _)), Ha, decide_True in P3 by done. done. }
  assert (Hrep : forall l', mult (l', t) (reps s ++ extra) = if decide (l = l') then fan s t l' - k - 1 else 0).
  { intros l'. specialize (P2 l'). rewrite mult_app, mult_cons in P2. rewrite mult_app.
    destruct (decide (l = l')) as [<-|Hne]; [rewrite decide_True in P2 by done; lia|].
    rewrite decide_False in P2 by congruence. lia. }
  unfold notify_expert_completion, object. rewrite (proj2 (Z.eqb_neq _ _)) by lia. cbn [negb py_check mbind res_bind].
  rewrite (py_get_lookup _ _ tok) by done. cbn [mbind res_bind].
  rewrite (py_get_lookup _ _ a) by (done || lia). cbn [mbind res_bind].
  replace (l + 1 - 1) with l by lia. rewrite <-Hfan, Hgot.
  rewrite (proj2 (Z.leb_gt _ _)) by lia. cbn [negb py_check mbind res_bind].
  pose proof (lookup_lt_Some _ _ _ Ha) as Hlt.
  assert (Hmem : a ∈ attention_layers s) by by eapply list_elem_of_lookup_2.
  destruct (Z.ltb_spec (k + 1) (fan s t l)) as [Hlt'|Hge].
  - rewrite py_set_nonneg by (unfold zlen; lia). cbn [mbind res_bind].
    set (ptk := if bool_decide _ then _ else _).
    destruct (got_layer s l t a (<[t:=k + 1]> (pending_counts a)) ptk) as [G1 G2]; [lia|done|intros; by rewrite lookup_insert_ne|].
    set (s' := with_layers _ s) in *. exists s', (<[t := PRep l (k + 1)]> ph).
    split; [done|]. split; [|split; [done|done]]. split; [done|]. split; [|by eapply (phase_tracked ph t _ _ None slack s)].
    apply (returned_places ph (Some (PRep l (k + 1))) extra l t k s s' Hp Hph); try done.
    + cbn. by rewrite length_insert.
    + apply layer_tokens; [apply Hp|]. intros u u' Hu. cbn in Hu. unfold ptk in Hu. case_bool_decide; [by eapply (pl_tokens _ _ _ Hp)|].
      apply lookup_insert_Some in Hu as [[<- <-]|[_ Hu]]; [done|by eapply (pl_tokens _ _ _ Hp)].
    + intros l' u Hl' Hu. apply G2; [done|by right].
    + split_and!; [exact P1| | |lia|lia|lia|done].
      * intros l'. change (reps s') with (reps s). change (fan s' t l') with (fan s t l'). rewrite Hrep. case_decide; lia.
      * intros l' Hl'. case_decide as E; [subst l'; rewrite G1; by rewrite lookup_insert_eq|].
        rewrite G2 by (done || by left). specialize (P3 l' Hl'). by rewrite decide_False in P3.
  - rewrite (proj2 (Z.eqb_eq _ _)) by lia. rewrite py_set_nonneg by (unfold zlen; lia). cbn [mbind res_bind].
    assert (Htk : default t (pending_tokens a !! t) = t).
    { destruct (pending_tokens a !! t) eqn:E; [|done]. by apply (pl_tokens _ _ _ Hp a t). }
    rewrite Htk.
    destruct (got_layer s l t a (delete t (pending_counts a)) (delete t (pending_tokens a))) as [G1 G2]; [lia|done|intros; by rewrite lookup_delete_ne|].
    set (s1 := with_layers _ s) in *.
    destruct (enqueue_ok (l + 1) t tok s1 Hw H0 Ho) as (ws & -> & Hw' & A1 & R1 & Pr1); [by apply (tr_obj _ _ _ _ Ht _ _ Ho)|].
    exists (with_workers ws s1), (<[t := PAtt (l + 1)]> ph).
    split; [done|]. split; [|split; [done|done]]. split; [done|]. split; [|by eapply (phase_tracked ph t _ _ None slack s)].
    apply (returned_places ph (Some (PAtt (l + 1))) extra l t k s (with_workers ws s1) Hp Hph); try done.
    + intros [l' u] Hu. cbn in Hu. rewrite A1, mult_other_cons by congruence. done.
    + cbn. by rewrite length_insert.
    + apply layer_tokens; [apply Hp|]. intros u u' Hu. cbn in Hu. apply lookup_delete_Some in Hu as [_ Hu]. by eapply (pl_tokens _ _ _ Hp).
    + intros l' u Hl' Hu. apply (G2 l' u Hl'). by right.
    + split_and!; [| | |lia|lia].
      * intros l'. rewrite A1, mult_cons. change (attention s1) with (attention s). rewrite P1.
        repeat case_decide; simplify_eq; try lia.
      * intros l'. rewrite mult_app, R1. change (reps s1) with (reps s). rewrite <-mult_app, Hrep. case_decide as E; [subst l'; lia|done].
      * intros l' Hl'. change (got (with_workers ws s1) l' t) with (got s1 l' t).
        destruct (decide (l' = l)) as [->|E]; [rewrite G1; by rewrite lookup_delete_eq|].
        rewrite G2 by (done || by left). specialize (P3 l' Hl'). by rewrite decide_False in P3.
Qed.

Lemma route_onward_ok now ph extra slack l t s :
  inv ph ((l, t) :: extra) None slack s -> full s -> leads extra slack s (route_onward now l s t).
Proof.
  intros Hi Hf. unfold route_onward. destruct (Z.eqb_spec l (num_layers - 1)) as [->|Hne].
  - by eapply record_ok.
  - by eapply notify_ok.
Qed.

Lemma route_batch_ok now ph extra slack (l : Z) (batch : list Z) s :
  inv ph ((pair l <$> batch) ++ extra) None slack s -> full s ->
  leads extra slack s (py_for (route_onward now l) batch s).
Proof.
  revert ph s. induction batch as [|t batch IH]; intros ph s Hi Hf; [by exists s, ph|]. cbn [py_for].
  destruct (route_onward_ok now ph _ slack l t s Hi Hf) as (s1 & ph1 & -> & Hi1 & Hf1 & Hpr1).
  cbn [mbind res_bind]. destruct (IH ph1 s1 Hi1 Hf1) as (s2 & ph2 & -> & Hi2 & Hf2 & Hpr2).
  exists s2, ph2. split; [done|]. split; [done|]. split; [done|]. by rewrite Hpr2.
Qed.

(** *** The segments of the processes *)

(** The outcome of a segment. *)
Definition good (extra : list (Z * Z)) (slack : Z) (r : res Sys) : Prop :=
  exists s' ph', r = Ok s' /\ inv ph' extra None slack s' /\ full s'.

(** Moving tokens around without changing what is where. *)
Lemma inv_same ph extra extra' slack s s' :
  inv ph extra None slack s -> workers_ok s' ->
  attention s' ≡ₚ attention s -> reps s' ++ extra' ≡ₚ reps s ++ extra ->
  objects s' = objects s -> manager s' = manager s -> attention_layers s' = attention_layers s ->
  _pending_counts s' = _pending_counts s -> source s' = source s ->
  out_completion (outputs s') = out_completion (outputs s) -> out_requests (outputs s') = out_requests (outputs s) ->
  (forall x, x ∈ dispatching s' -> x ∈ dispatching s) -> inv ph extra' None slack s'.
Proof.
  intros (_ & Hp & Ht) Hw Ha Hr E1 E2 E3 E4 E5 E6 E7 Hd. split; [done|]. split.
  - destruct Hp as [Hok Htk Hlen Hdi]. assert (Hfan : forall u l, fan s' u l = fan s u l) by (intros; unfold fan; by rewrite E1).
    split.
    + intros u. eapply place_ext; [| | | |apply Hok].
      * intros l. by rewrite Ha.
      * intros l. by rewrite Hr.
      * intros l _. unfold got. by rewrite E3, E4.
      * apply Hfan.
    + by rewrite E3.
    + by rewrite E3.
    + intros l u routes Hin. rewrite Hfan. by apply Hdi, Hd.
  - destruct Ht as [Hsize Hobj Hlive Hinj Hown Hhome Hnd Hpend Hmx Hcnt Htok Hkeys Hdone Hsrc].
    split; rewrite ?E1, ?E2, ?E5, ?E6, ?E7; done.
Qed.

Lemma full_manager s s' : manager s' = manager s -> full s -> full s'.
Proof. unfold full. by intros ->. Qed.

(** Replacing one worker. *)
Lemma update_worker s (i : nat) wk wk' :
  expert_workers s !! i = Some wk -> workers_ok s -> worker_ok wk' ->
  workers_ok (with_workers (<[i := wk']> (expert_workers s)) s) /\
  exists ra rr, attention s ≡ₚ worker_attention wk ++ ra /\ reps s ≡ₚ worker_reps wk ++ rr /\
    attention (with_workers (<[i := wk']> (expert_workers s)) s) ≡ₚ worker_attention wk' ++ ra /\
    reps (with_workers (<[i := wk']> (expert_workers s)) s) ≡ₚ worker_reps wk' ++ rr.
Proof.
  intros Hi [Hlen Hok] Hok'. split; [split; cbn; [by rewrite length_insert|by apply Forall_insert]|].
  destruct (concat_update worker_attention _ _ wk wk' Hi) as (ra & A1 & A2).
  destruct (concat_update worker_reps _ _ wk wk' Hi) as (rr & R1 & R2).
  exists (ra ++ starting s ++ (dispatching s).*1), rr. unfold attention, reps. cbn.
  by rewrite A1, A2, R1, R2, <-!app_assoc.
Qed.

Section Steps.
Hypothesis Hmax : 0 < max_batch_size.
Hypothesis Hlookup : forall b, 1 <= b <= max_batch_size -> is_Some (compute_time_lookup b).

Lemma count_batch_same b o :
  out_completion (count_batch b o) = out_completion o /\ out_requests (count_batch b o) = out_requests o.
Proof. by destruct b. Qed.

(** [proc] says what the worker leaves behind: what it attended moves to [starting]. *)
Lemma worker_head_ok ph s (w : Z) wk :
  inv ph [] None 0 s -> full s -> 0 <= w -> expert_workers s !! Z.to_nat w = Some wk -> proc_reps (proc wk) = [] ->
  good [] 0 (worker_head w (with_procs (starting s ++ proc_attention (proc wk)) (dispatching s) s)).
Proof.
  intros Hi Hf Hw0 Hwk Hpr. pose proof Hi as (Hw & _ & _). pose proof Hw as [Hlen Hok].
  destruct (run_head_ok Hmax Hlookup wk (Forall_lookup_1 _ _ _ _ Hok Hwk)) as (wk' & b & Hrun & Hok' & Hr & Ha & _).
  unfold worker_head. cbn [with_procs expert_workers outputs]. rewrite (py_get_lookup _ _ wk) by done. cbn [mbind res_bind]. rewrite Hrun.
  cbn [mbind res_bind]. pose proof (lookup_lt_Some _ _ _ Hwk) as Hlt.
  rewrite py_set_nonneg by (unfold zlen; lia). cbn [mbind res_bind].
  destruct (update_worker s _ wk wk' Hwk Hw Hok') as (Hw' & ra & rr & A1 & R1 & A2 & R2).
  eexists _, ph. split; [done|]. split; [|by apply (full_manager s)].
  destruct (count_batch_same b (outputs s)) as [C1 C2]. eapply (inv_same ph [] [] 0 s); try done.
  - transitivity (proc_attention (proc wk) ++ attention (with_workers (<[Z.to_nat w:=wk']> (expert_workers s)) s)).
    + unfold attention. cbn. solve_Permutation.
    + rewrite A2, A1, Ha. unfold worker_attention. solve_Permutation.
  - rewrite !app_nil_r. etransitivity; [exact R2|]. rewrite R1, Hr. unfold worker_reps at 1. by rewrite Hpr, app_nil_r.
Qed.

Lemma set_proc_ok ph extra s (w : Z) wk p :
  inv ph [] None 0 s -> 0 <= w -> expert_workers s !! Z.to_nat w = Some wk ->
  p <> Asleep -> proc_reps (proc wk) = proc_reps p ++ extra -> proc_attention (proc wk) = [] -> proc_attention p = [] ->
  exists s', set_proc w p s = Ok s' /\ inv ph extra None 0 s' /\ manager s' = manager s /\
    procs s' = <[Z.to_nat w := p]> (procs s) /\ starting s' = starting s /\ dispatching s' = dispatching s.
Proof.
  intros Hi Hw0 Hwk Hp Hr Ha Ha'. pose proof Hi as (Hw & _ & _). pose proof Hw as [Hlen Hok].
  unfold set_proc. rewrite (py_get_lookup _ _ wk) by done. cbn [mbind res_bind].
  pose proof (lookup_lt_Some _ _ _ Hwk) as Hlt. rewrite py_set_nonneg by (unfold zlen; lia). cbn [mbind res_bind].
  assert (Hok' : worker_ok (with_proc p wk)).
  { destruct (Forall_lookup_1 _ _ _ _ Hok Hwk) as [W1 W2 W3 W4]. by split. }
  destruct (update_worker s _ wk (with_proc p wk) Hwk Hw Hok') as (Hw' & ra & rr & A1 & R1 & A2 & R2).
  eexists. split; [done|]. split; [|split; [done|split; [|done]]].
  - eapply (inv_same ph [] extra 0 s); try done.
    + rewrite A2, A1. unfold worker_attention. cbn. by rewrite Ha, Ha'.
    + rewrite R2, R1. unfold worker_reps. cbn. rewrite Hr. solve_Permutation.
  - unfold procs. cbn. by rewrite list_fmap_insert.
Qed.

Lemma good_head ph s w wk :
  inv ph [] None 0 s -> full s -> 0 <= w -> expert_workers s !! Z.to_nat w = Some wk ->
  proc_reps (proc wk) = [] -> proc_attention (proc wk) = [] -> good [] 0 (worker_head w s).
Proof.
  intros Hi Hf Hw Hwk Hr Ha. pose proof (worker_head_ok ph s w wk Hi Hf Hw Hwk Hr) as Hg.
  rewrite Ha, app_nil_r in Hg. by destruct s.
Qed.

Lemma worker_resume_ok now ph s (w : Z) wk :
  inv ph [] None 0 s -> full s -> 0 <= w -> expert_workers s !! Z.to_nat w = Some wk ->
  good [] 0 (worker_resume now w s).
Proof.
  intros Hi Hf Hw0 Hwk. unfold worker_resume. rewrite (py_get_lookup _ _ wk) by done. cbn [mbind res_bind].
  destruct (proc wk) as [| |l t|l batch|l batch] eqn:Ep.
  - eapply good_head; [done|done|done|done|by rewrite Ep|by rewrite Ep].
  - eapply good_head; [done|done|done|done|by rewrite Ep|by rewrite Ep].
  - pose proof (worker_head_ok ph s w wk Hi Hf Hw0 Hwk) as Hg. rewrite Ep in Hg. by apply Hg.
  - destruct (set_proc_ok ph [] s w wk (Returning l batch)) as (s' & -> & Hi' & Hm & _); try done.
    + rewrite Ep. cbn. by rewrite app_nil_r.
    + by rewrite Ep.
    + exists s', ph. split; [done|]. split; [done|]. by apply (full_manager s).
  - destruct (set_proc_ok ph (pair l <$> batch) s w wk AtHead) as (s1 & -> & Hi1 & Hm & Hpr1 & _); try done.
    + by rewrite Ep.
    + by rewrite Ep.
    + cbn [mbind res_bind].
      destruct (route_batch_ok now ph [] 0 l batch s1) as (s2 & ph2 & -> & Hi2 & Hf2 & Hpr2).
      { by rewrite app_nil_r. }
      { by apply (full_manager s). }
      cbn [mbind res_bind]. assert (Hat : procs s2 !! Z.to_nat w = Some AtHead).
      { rewrite Hpr2, Hpr1, list_lookup_insert_eq; [done|]. unfold procs. rewrite length_fmap. by eapply lookup_lt_Some. }
      unfold procs in Hat. rewrite list_lookup_fmap in Hat. destruct (expert_workers s2 !! Z.to_nat w) as [wk2|] eqn:E2; [|done].
      injection Hat as Hat. eapply good_head; [done|done|done|done|by rewrite Hat|by rewrite Hat].
Qed.

(** *** A routing process starts *)

Hypothesis Hdiv : total_expert_count mod ep_group_size = 0.
Hypothesis Hexperts : 0 < total_expert_count.

Lemma experts_split : total_expert_count = ep_group_size * queues_per_worker /\ 0 < queues_per_worker.
Proof.
  unfold queues_per_worker. pose proof (Z.div_mod total_expert_count ep_group_size ltac:(lia)) as H. split; nia.
Qed.

Lemma expert_place_range e : 0 <= e -> in_range (expert_place e).
Proof.
  intros He. destruct experts_split as [E Hq]. unfold in_range, expert_place. cbn [fst snd]. split.
  - apply Z.div_pos; lia.
  - apply Z.mod_pos_bound. lia.
Qed.

Lemma route_token_ok tok l ids : _route_token tok l = Ok ids -> ids <> [] /\ Forall in_range (expert_place <$> ids).
Proof.
  unfold _route_token. intros H. apply bind_Ok in H as (row & _ & H). apply bind_Ok in H as (u & Hu & H). apply Ok_inj in H as <-.
  apply py_check_Ok, negb_true_iff, Z.eqb_neq in Hu. split.
  { intros E. apply Hu. by rewrite E. }
  apply Forall_fmap, Forall_forall. intros e He. apply list_elem_of_filter in He as [H0 _]. by apply expert_place_range.
Qed.

(** Why a routing step raises: the router raises or returns placeholders only, or a
    token goes to an expert of no worker. *)
Inductive routing_error (s : Sys) (e : py_exc) : Prop :=
  | no_row (i : nat) l t tok :
      starting s !! i = Some (l, t) -> objects s !! Z.to_nat t = Some tok -> _route_token tok l = Raise e ->
      routing_error s e
  | no_worker (i : nat) l t routes g q :
      dispatching s !! i = Some (l, t, routes) -> (g, q) ∈ routes -> ep_group_size <= g -> e = IndexError ->
      routing_error s e.

(** A step that raises is a routing step. *)
Definition routed (s : Sys) (r : res Sys) : Prop := good [] 0 r \/ exists e, r = Raise e /\ routing_error s e.

(** A process leaves a waiting list. *)
Lemma remove_attention ph s l t rest :
  places ph [] s -> attention s ≡ₚ (l, t) :: rest -> ph !! t = Some (PAtt l) /\ (forall l', (l', t) ∉ rest).
Proof.
  intros Hp Ha. destruct (pl_ok _ _ _ Hp t) as (H1 & _). assert (Hph : ph !! t = Some (PAtt l)).
  { specialize (H1 l). rewrite Ha, mult_cons, decide_True in H1 by done. pose proof (mult_nonneg (l, t) rest).
    destruct (ph !! t) as [[l'|]|]; [|lia..]. case_decide; [by subst|lia]. }
  split; [done|]. intros l' Hin. rewrite Hph in H1. specialize (H1 l'). rewrite Ha, mult_cons in H1.
  apply mult_elem in Hin. repeat case_decide; simplify_eq; lia.
Qed.

Lemma fanout_tracked ph slack s t tok x :
  tracked ph None slack s -> 0 <= t -> objects s !! Z.to_nat t = Some tok ->
  tracked ph None slack (with_objects (<[Z.to_nat t := with_token x tok]> (objects s)) s).
Proof.
  intros [Hsize Hobj Hlive Hinj Hown Hhome Hnd Hpend Hmx Hcnt Htok Hkeys Hdone Hsrc] H0 Ho.
  pose proof (lookup_lt_Some _ _ _ Ho) as Hlt.
  assert (Hsub : forall i y, <[Z.to_nat t := with_token x tok]> (objects s) !! i = Some y ->
    exists z, objects s !! i = Some z /\ tid y = tid z /\ home_gpu y = home_gpu z /\ token_index y = token_index z
      /\ t_request_id y = t_request_id z).
  { intros i y Hy. destruct (decide (i = Z.to_nat t)) as [->|Hne].
    - rewrite list_lookup_insert_eq in Hy by done. injection Hy as <-. by exists tok.
    - rewrite list_lookup_insert_ne in Hy by done. by exists y. }
  assert (Hsup : forall i z, objects s !! i = Some z -> exists y, <[Z.to_nat t := with_token x tok]> (objects s) !! i = Some y /\
    token_index y = token_index z /\ t_request_id y = t_request_id z).
  { intros i z Hz. destruct (decide (i = Z.to_nat t)) as [->|Hne].
    - exists (with_token x tok). rewrite list_lookup_insert_eq by done. rewrite Ho in Hz. by injection Hz as <-.
    - exists z. by rewrite list_lookup_insert_ne. }
  split; cbn [with_objects manager objects source outputs]; try done.
  - unfold zlen. by rewrite length_insert.
  - intros i y Hy. destruct (Hsub _ _ Hy) as (z & Hz & -> & -> & -> & _). by apply Hobj.
  - intros u p Hp. destruct (Hlive _ _ Hp) as (z & Hu & Hz & Hs & Hn). destruct (Hsup _ _ Hz) as (y & Hy & Ey & Er).
    exists y. by rewrite Ey, Er.
  - intros u u' p p' y y' Hp Hp' Hy Hy' Heq. destruct (Hsub _ _ Hy) as (z & Hz & _ & _ & _ & Er), (Hsub _ _ Hy') as (z' & Hz' & _ & _ & _ & Er').
    eapply (Hinj u u'); [done..|congruence].
  - intros r n Hr. destruct (Hown _ _ Hr) as [Hs [?|(u & p & z & Hp & Hz & Hzr)]]; [split; [done|by left]|]. split; [done|]. right.
    destruct (Hsup _ _ Hz) as (y & Hy & _ & Er). exists u, p, y. by rewrite Er.
Qed.

(** The fan-out of a token is only read at the layers the token has reached. *)
Lemma start_dispatch_ok ph s (i : nat) l t :
  inv ph [] None 0 s -> full s -> starting s !! i = Some (l, t) ->
  routed s (start_dispatch l t (with_procs (delete i (starting s)) (dispatching s) s)).
Proof.
  intros (Hw & Hp & Ht) Hf Hi. set (rest := concat (worker_attention <$> expert_workers s) ++ delete i (starting s) ++ (dispatching s).*1).
  assert (Ha : attention s ≡ₚ (l, t) :: rest).
  { unfold attention, rest. rewrite (delete_Permutation _ _ _ Hi) at 1. solve_Permutation. }
  destruct (remove_attention ph s l t rest Hp Ha) as [Hph Hrest].
  destruct (tr_live _ _ _ _ Ht _ _ Hph) as (tok & H0 & Ho & Hst & _).
  pose proof (pl_ok _ _ _ Hp t) as Hpl. rewrite Hph in Hpl. destruct Hpl as (P1 & P2 & P3 & Hl).
  unfold start_dispatch, object. cbn [with_procs objects]. rewrite (py_get_lookup _ _ tok) by done. cbn [mbind res_bind].
  destruct (_route_token tok l) as [ids|e] eqn:Hids; [|right; exists e; split; [done|by eapply no_row]]. left.
  destruct (route_token_ok tok l ids Hids) as [Hne Hrange]. cbn [mbind res_bind].
  destruct experts_split as [_ Hq]. rewrite (proj2 (Z.eqb_neq _ 0)) by lia. cbn [negb py_check mbind res_bind].
  pose proof (lookup_lt_Some _ _ _ Ho) as Hlt. rewrite py_set_nonneg by (unfold zlen; lia). cbn [mbind res_bind].
  set (tok' := with_token _ tok). set (s' := with_procs _ _ _).
  assert (Ha' : attention s' ≡ₚ attention s).
  { rewrite Ha. unfold attention, s', rest. cbn. rewrite fmap_app. cbn. solve_Permutation. }
  assert (Hfan : forall u l', 0 <= u -> (u <> t \/ l' <> l) -> fan s' u l' = fan s u l').
  { intros u l' Hu Hne'. unfold fan, s'. cbn. destruct (decide (u = t)) as [->|Hut].
    - rewrite list_lookup_insert_eq, Ho by done. cbn. unfold dget_or. rewrite dget_dset, decide_False; [done|]. destruct Hne'; done.
    - rewrite list_lookup_insert_ne by lia. done. }
  assert (Hfant : fan s' t l = zlen (expert_place <$> ids)).
  { unfold fan, s'. cbn. rewrite list_lookup_insert_eq by done. cbn. unfold dget_or. rewrite dget_dset, decide_True by done.
    cbn. unfold zlen. by rewrite length_fmap. }
  exists s', ph. split; [done|]. split; [|by apply (full_manager s)]. split; [done|]. split.
  - destruct Hp as [Hok Htk Hlen Hd]. split; try done.
    + intros u. destruct (ph !! u) as [p|] eqn:Eu; [destruct (decide (u = t)) as [->|Hut]|].
      * rewrite Hph in Eu. injection Eu as <-. split; [intros l'; by rewrite Ha'|]. split; [exact P2|]. split; [exact P3|exact Hl].
      * specialize (Hok u). rewrite Eu in Hok. eapply place_ext; [| | | |exact Hok]; try done.
        -- intros l'. by rewrite Ha'.
        -- intros l'. apply Hfan; [|by left]. by apply (live_range _ _ _ _ _ _ Ht Eu).
      * specialize (Hok u). rewrite Eu in Hok. destruct Hok as (Q1 & Q2 & Q3 & _).
        split; [intros l'; by rewrite Ha'|]. split; [exact Q2|]. split; [exact Q3|done].
    + intros l' u routes Hin. cbn in Hin. apply elem_of_app in Hin as [Hin|Hin].
      * destruct (Hd _ _ _ Hin) as (D1 & D2 & D3). assert (Hin1 : (l', u) ∈ (dispatching s).*1) by by apply (list_elem_of_fmap_2 fst) in Hin.
        assert (Hut : u <> t).
        { intros ->. apply (Hrest l'). unfold rest. rewrite !elem_of_app. auto. }
        assert (Hat : (l', u) ∈ attention s) by (unfold attention; rewrite !elem_of_app; auto).
        apply mult_elem in Hat. destruct (Hok u) as (Q1 & _). rewrite Q1 in Hat.
        destruct (ph !! u) as [p|] eqn:Eu; [|lia]. rewrite Hfan; [done| |by left]. by apply (live_range _ _ _ _ _ _ Ht Eu).
      * apply list_elem_of_singleton in Hin. injection Hin as -> -> ->. split; [done|]. split; [|done].
        intros E. by apply fmap_nil_inv in E.
  - pose proof (fanout_tracked ph 0 s t tok (dset (layer_fanout tok) l (zlen ids)) Ht H0 Ho) as Ht'. by destruct Ht'; split.
Qed.

(** *** A dispatched token reaches its experts *)

Lemma py_get_beyond {A} (l : list A) i : 0 <= i -> zlen l <= i -> py_get l i = Raise IndexError.
Proof. intros H0 Hi. unfold py_get, py_index. by rewrite (proj2 (Z.ltb_ge i (zlen l))), andb_false_r, (proj2 (Z.ltb_ge i 0)), andb_false_r by lia. Qed.

Lemma deliver_ok l t routes s :
  workers_ok s -> Forall in_range routes -> 0 <= l < num_layers ->
  (exists ws, finish_dispatch l t routes s = Ok (with_workers ws s) /\ workers_ok (with_workers ws s) /\
    reps (with_workers ws s) ≡ₚ replicate (length routes) (l, t) ++ reps s /\
    concat (worker_attention <$> ws) ≡ₚ concat (worker_attention <$> expert_workers s)) \/
  finish_dispatch l t routes s = Raise IndexError /\ exists g q, (g, q) ∈ routes /\ ep_group_size <= g.
Proof.
  intros Hw Hr Hl. revert s Hw. induction Hr as [|[g q] routes [Hg Hq] _ IH]; intros s Hw.
  { left. exists (expert_workers s). destruct s; cbn. done. }
  unfold finish_dispatch. cbn [py_for]. unfold deliver_one at 2 4. cbn [fst snd] in *. pose proof Hw as [Hlen Hok].
  destruct (Z.le_gt_cases ep_group_size g) as [Hbig|Hg'].
  { right. rewrite (py_get_beyond (expert_workers s) g) by (unfold zlen; lia). split; [done|]. exists g, q. split; [by left|done]. }
  destruct (lookup_lt_is_Some_2 (expert_workers s) (Z.to_nat g)) as [w Hwk]; [lia|].
  rewrite (py_get_lookup _ _ w) by (done || lia). cbn [mbind res_bind].
  destruct (enqueue_expert_ok w l q t (Forall_lookup_1 _ _ _ _ Hok Hwk) Hl Hq) as (w' & -> & Hok' & Hr' & Ha').
  cbn [mbind res_bind]. rewrite py_set_nonneg by (unfold zlen; lia). cbn [mbind res_bind].
  destruct (concat_update worker_attention _ _ w w' Hwk) as (ra & A1 & A2).
  destruct (update_worker s _ w w' Hwk Hw Hok') as (Hw' & _ & rr & _ & R1 & _ & R2).
  set (s1 := with_workers _ s) in *.
  destruct (IH s1 Hw') as [(ws & Hf & Hw2 & R & A)|(Hf & g' & q' & Hin & Hg2)].
  2:{ right. split; [exact Hf|]. exists g', q'. split; [by right|done]. }
  left. exists ws.
  split; [exact Hf|]. split; [exact Hw2|]. split.
  - change (with_workers ws s) with (with_workers ws s1). rewrite R, R2, Hr', R1. cbn [length replicate app].
    by rewrite <-Permutation_middle.
  - rewrite A. cbn. by rewrite A2, A1, Ha'.
Qed.

Lemma mult_replicate x y n : mult x (replicate n y) = if decide (x = y) then Z.of_nat n else 0.
Proof.
  induction n as [|n IH]; [by case_decide|]. cbn [replicate]. rewrite mult_cons, IH. case_decide; lia.
Qed.

Lemma finish_dispatch_ok ph s (i : nat) l t routes :
  inv ph [] None 0 s -> full s -> dispatching s !! i = Some (l, t, routes) ->
  routed s (finish_dispatch l t routes (with_procs (starting s) (delete i (dispatching s)) s)).
Proof.
  intros (Hw & Hp & Ht) Hf Hi. set (rest := concat (worker_attention <$> expert_workers s) ++ starting s ++ (delete i (dispatching s)).*1).
  pose proof (delete_Permutation _ _ _ Hi) as Hdp'.
  assert (Ha : attention s ≡ₚ (l, t) :: rest).
  { unfold attention, rest. pose proof (fmap_Permutation fst _ _ Hdp') as Hfst. cbn [fmap list_fmap fst] in Hfst.
    rewrite Hfst. solve_Permutation. }
  destruct (remove_attention ph s l t rest Hp Ha) as [Hph Hrest].
  pose proof (pl_ok _ _ _ Hp t) as Hpl. rewrite Hph in Hpl. destruct Hpl as (P1 & P2 & P3 & Hl).
  destruct (pl_dispatch _ _ _ Hp l t routes) as (D1 & D2 & D3); [by eapply list_elem_of_lookup_2|].
  set (s0 := with_procs _ _ s). destruct (deliver_ok l t routes s0 Hw D3 Hl) as [(ws & -> & Hw' & R & A)|(-> & g & q & Hin & Hg)].
  2:{ right. exists IndexError. split; [done|by eapply no_worker]. }
  left.
  set (s' := with_workers ws s0) in *.
  assert (Ha' : attention s' ≡ₚ rest).
  { unfold attention, s', rest. cbn. by rewrite A. }
  exists s', (<[t := PRep l 0]> ph). split; [done|]. split; [|by apply (full_manager s)]. split; [done|]. split.
  2:{ by apply (phase_tracked ph t (PAtt l) (PRep l 0) None 0 s s'). }
  destruct Hp as [Hok Htk Hlen Hd]. split; try done.
  - intros u. destruct (decide (u = t)) as [->|Hut].
    + rewrite lookup_insert_eq. split; [|split; [|split]].
      * intros l'. rewrite Ha'. destruct (decide (0 < mult (l', t) rest)) as [H|H]; [by apply mult_elem, Hrest in H|].
        pose proof (mult_nonneg (l', t) rest). lia.
      * intros l'. specialize (P2 l'). rewrite app_nil_r in P2 |- *. rewrite R, mult_app, mult_replicate.
        change (reps s0) with (reps s). rewrite P2. change (fan s' t l') with (fan s t l'). destruct (decide (l = l')) as [<-|Hne].
        -- rewrite decide_True by done. rewrite D1. unfold zlen. lia.
        -- rewrite decide_False by congruence. done.
      * intros l' Hl'. change (got s' l' t) with (got s l' t). rewrite P3 by done. by case_decide.
      * split; [done|]. change (fan s' t l) with (fan s t l). rewrite D1. split; [done|]. unfold zlen. destruct routes; [done|]. cbn [length]. lia.
    + rewrite lookup_insert_ne by done. eapply place_ext; [| | | |apply Hok]; try done.
      * intros l'. rewrite Ha', Ha, mult_cons, decide_False by congruence. lia.
      * intros l'. rewrite !app_nil_r, R, mult_app, mult_replicate, decide_False by congruence. done.
  - intros l' u r Hin. apply Hd. cbn in Hin. rewrite Hdp'. by right.
Qed.

(** *** The source admits a request *)

Lemma admitted_tracked ph s :
  tracked ph None 0 s -> source s < total_requests -> tracked ph None 1 (with_source (source s + 1) s).
Proof.
  intros [Hsize Hobj Hlive Hinj Hown Hhome Hnd Hpend Hmx Hcnt Htok Hkeys Hdone Hsrc] Hlt.
  split; cbn [with_source manager objects source outputs]; try done; [| |lia..].
  - intros r n Hr. destruct (Hown _ _ Hr) as [? ?]. split; [lia|done].
  - intros r Hr. destruct (Hpend _ Hr) as [? ?]. split; [lia|done].
Qed.

Lemma waiting_tracked ph ts s :
  tracked ph None 1 s -> 0 < source s -> _request_state (manager s) !! (source s - 1) = None ->
  source s - 1 ∉ (_pending_queue (manager s)).*1 ->
  tracked ph None 0 (with_manager (with_pending (_pending_queue (manager s) ++ [(source s - 1, ts)]) (manager s)) s).
Proof.
  intros [Hsize Hobj Hlive Hinj Hown Hhome Hnd Hpend Hmx Hcnt Htok Hkeys Hdone Hsrc] Hs Hnone Hnp.
  split; cbn [with_manager with_pending manager objects source outputs _next_tid _request_state _request_home_gpu _pending_queue]; try done.
  - rewrite fmap_app. apply NoDup_app. split; [done|]. split; [|apply NoDup_singleton].
    intros x Hx Hx'. apply list_elem_of_singleton in Hx' as ->. done.
  - intros r. rewrite fmap_app, elem_of_app. intros [Hr|Hr]; [by apply Hpend|]. apply list_elem_of_singleton in Hr as ->. split; [cbn; lia|done].
  - rewrite zlen_app. change (zlen [(source s - 1, ts)]) with 1.
    change (source s = active_requests (manager s) + (zlen (_pending_queue (manager s)) + 1) + zlen (out_requests (outputs s)) + 0). lia.
Qed.

Lemma source_ok now ph s :
  inv ph [] None 0 s -> full s -> source s < total_requests -> good [] 0 (source_step now s).
Proof.
  intros (Hw & Hp & Ht) Hf Hlt. pose proof (admitted_tracked ph s Ht Hlt) as Ht1. unfold source_step, admit_request.
  set (s1 := with_source (source s + 1) s) in *. change (manager s1) with (manager s).
  assert (H0 : 0 <= source s).
  { rewrite (tr_count _ _ _ _ Ht). pose proof (zlen_nonneg (_pending_queue (manager s))).
    pose proof (zlen_nonneg (out_requests (outputs s))). unfold active_requests. lia. }
  assert (Hn : _request_state (manager s) !! source s = None).
  { destruct (_request_state (manager s) !! source s) eqn:E; [|done]. destruct (tr_owner _ _ _ _ Ht _ _ E) as [? _]. lia. }
  assert (Hnp : source s ∉ (_pending_queue (manager s)).*1).
  { intros Hin. destruct (tr_pending _ _ _ _ Ht _ Hin) as [? _]. lia. }
  assert (Hp1 : places ph [] s1) by by destruct Hp; split.
  destruct (has_room (manager s)) eqn:Hroom.
  - destruct (start_request_ok now ph [] 0 (source s) now s1) as (s' & ph' & -> & Hi & _ & Hq); try done.
    { cbn. lia. }
    exists s', ph'. split; [done|]. split; [done|]. intros Hne. rewrite Hq in Hne. specialize (Hf Hne). congruence.
  - eexists _, ph. split; [done|]. split; [|by intros _]. split; [done|]. split; [by destruct Hp1; split|].
    pose proof (waiting_tracked ph now s1 Ht1) as Hwt. cbn [s1 with_source source manager] in Hwt.
    replace (source s + 1 - 1) with (source s) in Hwt by lia. apply Hwt; [lia|done|done].
Qed.

(** ** Every order of the steps *)

Hypothesis Htotal : 0 <= total_requests.

Lemma concat_replicate_nil {A} (n : nat) : concat (replicate n ([] : list A)) = [].
Proof. induction n as [|n IH]; [done|]. done. Qed.

Lemma concat_fmap_nil {A B} (f : A -> list B) l : (forall x, x ∈ l -> f x = []) -> concat (f <$> l) = [].
Proof.
  induction l as [|x l IH]; intros H; [done|]. cbn. rewrite H by by left. apply IH. intros y Hy. apply H. by right.
Qed.

Lemma empty_queues (n m : nat) : queue_reps (replicate n (replicate m [])) = [].
Proof.
  unfold queue_reps. apply concat_fmap_nil. intros [l row] Hin. apply elem_of_enumerate in Hin as [_ Hin].
  apply lookup_replicate in Hin as [-> _]. unfold row_reps. cbn [fst snd]. by rewrite concat_replicate_nil.
Qed.

Lemma init_ok : inv ∅ [] None 0 init /\ full init.
Proof.
  assert (Ha : attention init = []).
  { unfold attention. cbn. rewrite app_nil_r. apply concat_fmap_nil. intros w Hw. apply elem_of_replicate in Hw as [-> _]. done. }
  assert (Hr : reps init = []).
  { unfold reps. apply concat_fmap_nil. intros w Hw. cbn in Hw. apply elem_of_replicate in Hw as [-> _].
    unfold worker_reps. cbn. by rewrite empty_queues. }
  split; [|by intros H]. split; [|split].
  - split; cbn; [by rewrite length_replicate|]. apply Forall_replicate. split; cbn; [by rewrite length_replicate| | |done].
    + apply Forall_replicate. by rewrite length_replicate.
    + by rewrite empty_queues.
  - split; cbn.
    + intros t. rewrite lookup_empty. split; [intros l; by rewrite Ha|]. split; [intros l; by rewrite Hr|]. split; [|done].
      intros l Hl. unfold got. cbn. destruct (l =? num_layers - 1); [done|].
      destruct (replicate _ _ !! Z.to_nat (l + 1)) as [a|] eqn:E; [|done]. by apply lookup_replicate in E as [-> _].
    + intros a t t' Hin. apply elem_of_replicate in Hin as [-> _]. cbn. done.
    + by rewrite length_replicate.
    + intros l t routes Hin. by apply not_elem_of_nil in Hin.
  - split; cbn; try done; try (by constructor); try (intros *; by rewrite lookup_empty);
      try (intros * Hin; by apply not_elem_of_nil in Hin).
    + destruct max_active_requests; [|done]. unfold active_requests. cbn. rewrite map_size_empty. lia.
    + unfold sum_state. rewrite map_to_list_empty. change (0 = tokens_per_request * 0 + 0). lia.
    + intros t. rewrite lookup_empty. split; [intros Hin; by apply not_elem_of_nil in Hin|lia].
Qed.

Lemma step_ok now ph s r : inv ph [] None 0 s -> full s -> step now s r -> routed s r.
Proof.
  intros Hi Hf Hs. destruct Hs as [Hlt|i l t Hl|i l t routes Hl|w wk Hw Hwk _].
  - left. by eapply source_ok.
  - by eapply start_dispatch_ok.
  - by eapply finish_dispatch_ok.
  - left. by eapply worker_resume_ok.
Qed.

Lemma reachable_ok s : reachable s -> exists ph, inv ph [] None 0 s /\ full s.
Proof.
  induction 1 as [|now s s' _ (ph & Hi & Hf) Hs]; [exists ∅; apply init_ok|].
  destruct (step_ok now ph s _ Hi Hf Hs) as [(s1 & ph1 & [= <-] & Hi1 & Hf1)|(e & [=] & _)]. by exists ph1.
Qed.

(** What a step comes to.  Whatever state some order of the steps has led to, the next
    step of any process returns, unless it is a routing step that fails: the router
    raises or returns only placeholders, or a token is sent to an expert of no worker. *)
Theorem async_step_outcome now s r :
  reachable s -> step now s r -> (exists s', r = Ok s') \/ exists e, r = Raise e /\ routing_error s e.
Proof.
  intros Hr Hs. destruct (reachable_ok s Hr) as (ph & Hi & Hf).
  destruct (step_ok now ph s r Hi Hf Hs) as [(s' & _ & -> & _)|?]; [left; by exists s'|by right].
Qed.

(** The tokens of the live phases are the ones waiting somewhere. *)
Definition waiting (s : Sys) (t : Z) : Prop := exists l, (l, t) ∈ attention s \/ (l, t) ∈ reps s.

Lemma live_waiting ph s t : places ph [] s -> waiting s t <-> is_Some (ph !! t).
Proof.
  intros Hp. destruct (pl_ok _ _ _ Hp t) as (H1 & H2 & _ & H4). split.
  - intros (l & [Hin|Hin]); apply mult_elem in Hin.
    + rewrite H1 in Hin. destruct (ph !! t); [eauto|lia].
    + specialize (H2 l). rewrite app_nil_r in H2. rewrite H2 in Hin. destruct (ph !! t); [eauto|lia].
  - intros [p Hp']. rewrite Hp' in *. destruct p as [l|l k]; exists l; [left|right]; apply mult_elem.
    + rewrite H1, decide_True by done. lia.
    + specialize (H2 l). rewrite app_nil_r in H2. rewrite H2, decide_True by done. lia.
Qed.

(** In every reachable state the requests that left the source are active,
    queued or finished, at most [max_active_requests] are active, requests are only
    queued while that many are active, and exactly one token of each active request
    is waiting in an attention or expert queue or at a GPU. *)
Theorem async_conservation s : reachable s ->
  source s = active_requests (manager s) + zlen (_pending_queue (manager s)) + zlen (out_requests (outputs s)) /\
  match max_active_requests with Some k => active_requests (manager s) <= k | None => True end /\
  (_pending_queue (manager s) <> [] -> max_active_requests = Some (active_requests (manager s))) /\
  (forall rid n, _request_state (manager s) !! rid = Some n ->
     exists t tok, (waiting s t /\ objects s !! Z.to_nat t = Some tok /\ t_request_id tok = rid /\ n = token_index tok + 1) /\
       forall t' tok', waiting s t' -> objects s !! Z.to_nat t' = Some tok' -> t_request_id tok' = rid -> t' = t).
Proof.
  intros Hr. destruct (reachable_ok s Hr) as (ph & (Hw & Hp & Ht) & Hf). split; [|split; [|split]].
  - rewrite (tr_count _ _ _ _ Ht). lia.
  - exact (tr_max _ _ _ _ Ht).
  - intros Hne. specialize (Hf Hne). unfold has_room in Hf. pose proof (tr_max _ _ _ _ Ht) as Hm.
    destruct max_active_requests as [k|]; [|done]. apply Z.ltb_ge in Hf. f_equal. lia.
  - intros rid n Hn. destruct (tr_owner _ _ _ _ Ht _ _ Hn) as [_ [|(t & p & tok & Hph & Ho & Hrid)]]; [done|].
    exists t, tok. split.
    + split; [apply (live_waiting ph); eauto|]. split; [done|]. split; [done|].
      destruct (tr_live _ _ _ _ Ht _ _ Hph) as (x & _ & Hx & Hs & _). rewrite Ho in Hx. injection Hx as <-. congruence.
    + intros t' tok' Hw' Ho' Hrid'. apply (live_waiting ph s t' Hp) in Hw' as [p' Hph'].
      apply (tr_inj _ _ _ _ Ht _ _ _ _ _ _ Hph' Hph Ho' Ho). congruence.
Qed.

(** No process can resume. *)
Definition quiescent (s : Sys) : Prop := forall now r, ~ step now s r.

Lemma quiescent_empty s : reachable s -> quiescent s -> total_requests <= source s /\ attention s = [] /\ reps s = [].
Proof.
  intros Hr Hq. destruct (reachable_ok s Hr) as (ph & (Hw & Hp & Ht) & Hf).
  assert (Hw0 : forall wk, wk ∈ expert_workers s -> worker_attention wk = [] /\ worker_reps wk = []).
  { intros wk Hin. apply list_elem_of_lookup_1 in Hin as [i Hi]. destruct Hw as [_ Hok].
    destruct (Forall_lookup_1 _ _ _ _ Hok Hi) as [_ _ W3 W4].
    destruct (resumable wk) eqn:Er.
    - exfalso. eapply (Hq (float_of_Z 0)), (step_worker (float_of_Z 0) s (Z.of_nat i) wk); [lia|by rewrite Nat2Z.id|done].
    - unfold resumable in Er. destruct (proc wk) eqn:Ep; try done. specialize (W4 eq_refl Er). apply idle_spec in W4 as [Q1 Q2]; [|done].
      unfold worker_attention, worker_reps. by rewrite Q1, Q2, Ep. }
  split; [|split].
  - destruct (Z.le_gt_cases total_requests (source s)) as [|H]; [done|]. exfalso. eapply (Hq (float_of_Z 0)). by apply step_source.
  - unfold attention. rewrite concat_fmap_nil by (intros wk Hwk; by apply Hw0). cbn [app].
    destruct (starting s) as [|[l t] st] eqn:Es.
    + destruct (dispatching s) as [|[[l t] routes] di] eqn:Ed; [done|]. exfalso. eapply (Hq (float_of_Z 0)), (step_dispatch (float_of_Z 0) s 0%nat). by rewrite Ed.
    + exfalso. eapply (Hq (float_of_Z 0)), (step_start (float_of_Z 0) s 0%nat). by rewrite Es.
  - unfold reps. apply concat_fmap_nil. intros wk Hwk. by apply Hw0.
Qed.

(** Then no request is left. *)
Lemma quiescent_drained s : reachable s -> quiescent s ->
  source s = total_requests /\ zlen (out_requests (outputs s)) = total_requests /\
  _request_state (manager s) = ∅ /\ _pending_queue (manager s) = [].
Proof.
  intros Hr Hq. destruct (quiescent_empty s Hr Hq) as (Hsrc & Ha & Hre). destruct (reachable_ok s Hr) as (ph & (Hw & Hp & Ht) & Hf).
  assert (Hst : _request_state (manager s) = ∅).
  { apply map_eq. intros rid. rewrite lookup_empty. destruct (_request_state (manager s) !! rid) eqn:E; [|done].
    destruct (tr_owner _ _ _ _ Ht _ _ E) as [_ [?|(t & p & _ & Hx & _)]]; [done|].
    assert (Hwt : waiting s t) by (apply (live_waiting ph); eauto). destruct Hwt as (l & Hin).
    rewrite Ha, Hre in Hin. destruct Hin as [Hin|Hin]; by apply not_elem_of_nil in Hin. }
  assert (Hact : active_requests (manager s) = 0) by (unfold active_requests; by rewrite Hst).
  assert (Hpq : _pending_queue (manager s) = []).
  { destruct (_pending_queue (manager s)) eqn:E; [done|]. assert (Hne : _pending_queue (manager s) <> []) by by rewrite E.
    specialize (Hf Hne). unfold has_room in Hf. destruct max_active_requests; [|done]. rewrite Hact in Hf. apply Z.ltb_ge in Hf. lia. }
  pose proof (tr_source _ _ _ _ Ht) as Hs. pose proof (tr_count _ _ _ _ Ht) as Hc. rewrite Hpq, Hact in Hc. change (zlen []) with 0 in Hc.
  split; [lia|]. split; [lia|done].
Qed.

(** For any router: when no process can resume, the work is done.  All requests
    have left the source and finished, none is active or queued, and exactly the tokens
    [0 .. total_requests * tokens_per_request - 1] have completed, each once. *)
Theorem async_quiescent_complete s : reachable s -> quiescent s ->
  source s = total_requests /\ zlen (out_requests (outputs s)) = total_requests /\
  _request_state (manager s) = ∅ /\ _pending_queue (manager s) = [] /\
  dkeys (out_completion (outputs s)) ≡ₚ py_range (total_requests * tokens_per_request).
Proof.
  intros Hr Hq. destruct (quiescent_empty s Hr Hq) as (_ & Ha & Hre). destruct (quiescent_drained s Hr Hq) as (Hsrc & Hout & Hst & Hpq).
  destruct (reachable_ok s Hr) as (ph & (Hw & Hp & Ht) & Hf).
  assert (Hph : forall t, ph !! t = None).
  { intros t. destruct (ph !! t) as [p|] eqn:E; [|done]. assert (Hwt : waiting s t) by (apply (live_waiting ph); eauto).
    destruct Hwt as (l & [Hin|Hin]); [rewrite Ha in Hin|rewrite Hre in Hin]; by apply not_elem_of_nil in Hin. }
  do 4 (split; [done|]).
  pose proof (tr_tokens _ _ _ _ Ht) as Htk. rewrite Hst in Htk. unfold sum_state in Htk; rewrite map_to_list_empty in Htk; change (sumZ _) with 0 in Htk.
  apply NoDup_Permutation; [exact (tr_keys _ _ _ _ Ht)|apply py_range_NoDup|].
  intros t. rewrite (tr_done _ _ _ _ Ht), elem_of_py_range, Hph. split; [intros [? _]; nia|intros ?; split; [nia|done]].
Qed.

(** ** Termination

    Every step lowers [cost]: what a token still costs at each place it can wait,
    plus what the tokens cost that the requests have not yet sent out.  A copy at an
    expert carries the whole cost of the layers after it, so the bound is not tight. *)

Hypothesis Htop : 0 <= routing_top_k.
Hypothesis Hrow : forall rid idx l row, route rid idx l = Ok row -> zlen row <= routing_top_k.

(** Waiting in an expert queue, in a routing process, in an attention queue. *)
Definition at_expert (r : Z) : Z := r + 4.
Definition at_start (r : Z) : Z := routing_top_k * (at_expert r + 1) + 2.
Definition at_attention (r : Z) : Z := at_start r + 2.

(** What a returned copy costs, with [n] layers to come. *)
Fixpoint back_cost (n : nat) : Z := match n with O => 2 | S n => at_attention (back_cost n) + 2 end.

Definition layer_cost (l : Z) : Z := back_cost (Z.to_nat (num_layers - 1 - l)).
Definition expert_cost (x : Z * Z) : Z := at_expert (layer_cost x.1).
Definition start_cost (x : Z * Z) : Z := at_start (layer_cost x.1).
Definition attention_cost (x : Z * Z) : Z := at_attention (layer_cost x.1).
Definition route_cost (x : Z * Z * list (Z * Z)) : Z := zlen x.2 * (expert_cost x.1 + 1) + 1.

Definition proc_cost (p : Proc) (work : bool) : Z :=
  match p with
  | AtHead => 1
  | Asleep => if work then 1 else 0
  | Attending l _ => at_start (layer_cost l) + 1
  | Computing l b => zlen b * (layer_cost l + 1) + 2
  | Returning l b => zlen b * layer_cost l + 1
  end.

Definition worker_cost (w : ExpertWorker) : Z :=
  sumZ (expert_cost <$> queue_reps (queues w)) + sumZ (attention_cost <$> attention_queue w)
  + proc_cost (proc w) (has_work w).

(** A token that a request sends out. *)
Definition token_cost : Z := attention_cost (0, 0) + 1.
Definition request_cost : Z := tokens_per_request * token_cost.
Definition tokens_left (m : gmap Z Z) : Z := sum_state ((fun n => Z.max 0 (tokens_per_request - n)) <$> m).
Definition manager_cost (m : RequestManager) : Z :=
  tokens_left (_request_state m) * token_cost + zlen (_pending_queue m) * (request_cost + 1).

Definition cost (s : Sys) : Z :=
  sumZ (worker_cost <$> expert_workers s) + sumZ (start_cost <$> starting s) + sumZ (route_cost <$> dispatching s)
  + manager_cost (manager s) + (total_requests - source s) * (request_cost + 2).

Lemma back_cost_ge n : 2 <= back_cost n.
Proof. induction n as [|n IH]; [done|]. cbn. unfold at_attention, at_start, at_expert in *. nia. Qed.

Lemma layer_cost_ge l : 2 <= layer_cost l.
Proof. apply back_cost_ge. Qed.

Lemma attention_cost_ge x : 4 <= attention_cost x.
Proof. unfold attention_cost, at_attention, at_start, at_expert. pose proof (layer_cost_ge x.1). nia. Qed.

Lemma layer_cost_step l t : l < num_layers - 1 -> layer_cost l = attention_cost (l + 1, t) + 2.
Proof.
  intros Hl. unfold attention_cost, layer_cost. cbn [fst].
  replace (Z.to_nat (num_layers - 1 - l)) with (S (Z.to_nat (num_layers - 1 - (l + 1)))) by lia. done.
Qed.

Lemma token_cost_pos : 0 < token_cost.
Proof. unfold token_cost. pose proof (attention_cost_ge (0, 0)). lia. Qed.

Lemma sumZ_nonneg_fmap {A} (f : A -> Z) l : (forall x, 0 <= f x) -> 0 <= sumZ (f <$> l).
Proof. intros H. apply sumZ_nonneg, Forall_fmap, Forall_forall. intros x _. apply H. Qed.

Lemma sumZ_one x : sumZ [x] = x.
Proof. unfold sumZ. cbn. lia. Qed.

Lemma sumZ_update {A} (f : A -> Z) l (i : nat) x y :
  l !! i = Some x -> sumZ (f <$> <[i:=y]> l) = sumZ (f <$> l) - f x + f y.
Proof. intros Hi. rewrite list_fmap_insert. apply sumZ_insert. by rewrite list_lookup_fmap, Hi. Qed.

Lemma sumZ_fmap_perm {A} (f : A -> Z) l k : l ≡ₚ k -> sumZ (f <$> l) = sumZ (f <$> k).
Proof. intros Hp. by rewrite Hp. Qed.

Lemma proc_cost_nonneg p work : 0 <= proc_cost p work.
Proof.
  destruct p as [| |l t|l b|l b]; cbn; try (destruct work; lia).
  - unfold at_start, at_expert. pose proof (layer_cost_ge l). nia.
  - pose proof (layer_cost_ge l). pose proof (zlen_nonneg b). nia.
  - pose proof (layer_cost_ge l). pose proof (zlen_nonneg b). nia.
Qed.

Lemma tokens_left_nonneg m : 0 <= tokens_left m.
Proof.
  unfold tokens_left, sum_state. apply sumZ_nonneg, Forall_forall. intros x Hx.
  apply list_elem_of_fmap in Hx as ([k y] & -> & Hx). apply elem_of_map_to_list in Hx. rewrite lookup_fmap in Hx.
  cbn. destruct (m !! k); [|done]. injection Hx as <-. lia.
Qed.

Lemma cost_nonneg s : source s <= total_requests -> 0 <= cost s.
Proof.
  intros Hs. unfold cost, manager_cost. pose proof token_cost_pos as Htk. pose proof (tokens_left_nonneg (_request_state (manager s))).
  assert (Hrq : 0 <= request_cost) by (unfold request_cost; nia). pose proof (zlen_nonneg (_pending_queue (manager s))).
  assert (H1 : 0 <= sumZ (worker_cost <$> expert_workers s)).
  { apply sumZ_nonneg_fmap. intros w. unfold worker_cost. pose proof (proc_cost_nonneg (proc w) (has_work w)).
    assert (0 <= sumZ (expert_cost <$> queue_reps (queues w))).
    { apply sumZ_nonneg_fmap. intros x. unfold expert_cost, at_expert. pose proof (layer_cost_ge x.1). lia. }
    assert (0 <= sumZ (attention_cost <$> attention_queue w)).
    { apply sumZ_nonneg_fmap. intros x. pose proof (attention_cost_ge x). lia. }
    lia. }
  assert (H2 : 0 <= sumZ (start_cost <$> starting s)).
  { apply sumZ_nonneg_fmap. intros x. unfold start_cost, at_start, at_expert. pose proof (layer_cost_ge x.1). nia. }
  assert (H3 : 0 <= sumZ (route_cost <$> dispatching s)).
  { apply sumZ_nonneg_fmap. intros x. unfold route_cost, expert_cost, at_expert. pose proof (layer_cost_ge x.1.1). pose proof (zlen_nonneg x.2). nia. }
  nia.
Qed.

(** *** What the operations add *)

#[local] Arguments sumZ _ : simpl never.

Lemma py_set_get {A} (l l' : list A) i x y :
  py_get l i = Ok x -> py_set l i y = Ok l' -> exists k, l !! k = Some x /\ l' = <[k:=y]> l.
Proof.
  unfold py_get, py_set. destruct (py_index l i) as [k|]; [|done]. intros Hg Hs. apply of_option_Ok in Hg. injection Hs as <-. by exists k.
Qed.

Lemma woken_cost p work b : proc_cost p (work || b) <= proc_cost p work + 1.
Proof. destruct p; cbn; try lia. destruct work, b; cbn; lia. Qed.

Lemma enqueue_cost l t s s' : enqueue l t s = Ok s' -> cost s' <= cost s + attention_cost (l, t) + 1.
Proof.
  unfold enqueue. intros H. inv_ok. match goal with
  | H1 : py_get (expert_workers s) _ = Ok ?w, H2 : py_set (expert_workers s) _ _ = Ok _ |- _ =>
      destruct (py_set_get _ _ _ _ _ H1 H2) as (k & Hk & ->) end.
  unfold cost. cbn [with_workers expert_workers starting dispatching manager source]. rewrite (sumZ_update _ _ _ _ _ Hk).
  unfold worker_cost at 3. cbn [enqueue_attention queues attention_queue proc has_work]. rewrite fmap_app, sumZ_app.
  match goal with |- context [proc_cost (proc ?w) (has_work ?w || ?b)] => pose proof (woken_cost (proc w) (has_work w) b) end.
  unfold worker_cost at 2. cbn [fmap list_fmap]. rewrite sumZ_one. lia.
Qed.

Lemma tokens_left_insert m rid n v :
  m !! rid = Some n -> tokens_left (<[rid := v]> m) = tokens_left m - Z.max 0 (tokens_per_request - n) + Z.max 0 (tokens_per_request - v).
Proof. intros H. unfold tokens_left. rewrite fmap_insert. apply sum_state_insert. by rewrite lookup_fmap, H. Qed.

Lemma dispatch_cost now rid s s' :
  _dispatch_next_token now rid s = Ok s' -> cost s' <= cost s /\ _pending_queue (manager s') = _pending_queue (manager s).
Proof.
  unfold _dispatch_next_token. intros H. apply bind_Ok in H as (n & Hn & H). apply of_option_Ok in Hn.
  destruct (Z.geb_spec n tokens_per_request); [inv_ok; split; [lia|done]|].
  apply bind_Ok in H as (home & _ & H). pose proof (enqueue_cost _ _ _ _ H) as Hc. split.
  - etransitivity; [exact Hc|]. unfold cost, manager_cost. cbn. rewrite (tokens_left_insert _ _ _ _ Hn).
    change (attention_cost (0, _next_tid (manager s))) with (attention_cost (0, 0)). unfold token_cost.
    rewrite !Z.max_r by lia. lia.
  - unfold enqueue in H. inv_ok. done.
Qed.

Lemma tokens_left_fresh m rid : m !! rid = None -> tokens_left (<[rid := 0]> m) = tokens_per_request + tokens_left m.
Proof.
  intros H. unfold tokens_left. rewrite fmap_insert, sum_state_fresh; [rewrite Z.max_r by lia; lia|]. by rewrite lookup_fmap, H.
Qed.

Lemma tokens_left_delete m rid : tokens_left (delete rid m) <= tokens_left m.
Proof.
  destruct (m !! rid) as [n|] eqn:E.
  - unfold tokens_left. rewrite fmap_delete, (sum_state_delete _ _ (Z.max 0 (tokens_per_request - n))); [lia|]. by rewrite lookup_fmap, E.
  - by rewrite delete_id.
Qed.

Lemma start_request_cost now rid ts s s' :
  _start_request_now now rid ts s = Ok s' ->
  cost s' <= cost s + request_cost /\ _pending_queue (manager s') = _pending_queue (manager s).
Proof.
  unfold _start_request_now. intros H. apply bind_Ok in H as (u & Hu & H). apply py_check_Ok, negb_true_iff, bool_decide_eq_false in Hu.
  apply bind_Ok in H as (home & _ & H). destruct (dispatch_cost _ _ _ _ H) as [Hc Hq]. split; [|exact Hq].
  etransitivity; [exact Hc|]. unfold cost, manager_cost. cbn. rewrite tokens_left_fresh.
  - unfold request_cost. lia.
  - destruct (_request_state (manager s) !! rid); [|done]. exfalso. eauto.
Qed.

Lemma admit_queued_cost now q s s' : _pending_queue (manager s) = q -> admit_queued now q s = Ok s' -> cost s' <= cost s.
Proof.
  revert s. induction q as [|[rid ts] q IH]; intros s Hq H; cbn [admit_queued] in H; [inv_ok; lia|].
  destruct (has_room (manager s)); [|inv_ok; lia]. apply bind_Ok in H as (s1 & H1 & H).
  destruct (start_request_cost _ _ _ _ _ H1) as [Hc Hp]. specialize (IH s1 Hp H).
  etransitivity; [exact IH|]. etransitivity; [exact Hc|]. unfold cost, manager_cost. cbn. rewrite Hq, zlen_cons. lia.
Qed.

Lemma completion_cost now t s s' : handle_token_completion now t s = Ok s' -> cost s' <= cost s.
Proof.
  unfold handle_token_completion. intros H. apply bind_Ok in H as (tok & _ & H). apply bind_Ok in H as (u & _ & H).
  destruct (token_index tok + 1 <? tokens_per_request).
  - by apply dispatch_cost in H as [H _].
  - apply admit_queued_cost in H; [|done]. etransitivity; [exact H|]. unfold cost, manager_cost. cbn.
    pose proof (tokens_left_delete (_request_state (manager s)) (t_request_id tok)). pose proof token_cost_pos. nia.
Qed.

Lemma route_onward_cost now l t s s' :
  l < num_layers -> route_onward now l s t = Ok s' -> cost s' <= cost s + layer_cost l.
Proof.
  intros Hl. unfold route_onward. pose proof (layer_cost_ge l). destruct (Z.eqb_spec l (num_layers - 1)) as [_|Hne]; intros H'.
  - unfold record_completion in H'. apply bind_Ok in H' as (tok & _ & H'). apply bind_Ok in H' as (u & _ & H').
    destruct (_ <? _); [inv_ok; change (cost s <= cost s + layer_cost l); lia|].
    destruct (_ =? _); [|done]. apply completion_cost in H'. change (cost (with_final _ _)) with (cost s) in H'. lia.
  - rewrite (layer_cost_step l t) in * by lia. unfold notify_expert_completion in H'. inv_ok.
    match goal with H : (if ?b then _ else _) = Ok s' |- _ => destruct b end.
    + inv_ok. change (cost s <= cost s + (attention_cost (l + 1, t) + 2)). pose proof (attention_cost_ge (l + 1, t)). lia.
    + match goal with H : (if ?b then _ else _) = Ok s' |- _ => destruct b; [|done] end. inv_ok.
      match goal with H : enqueue _ _ _ = Ok s' |- _ => apply enqueue_cost in H; change (cost (with_layers _ _)) with (cost s) in H end.
      match goal with H : cost s' <= cost s + attention_cost (_, ?u) + 1 |- _ =>
        change (attention_cost (l + 1, u)) with (attention_cost (l + 1, t)) in H end. lia.
Qed.

Lemma route_batch_cost now l batch s s' :
  (batch <> [] -> l < num_layers) -> py_for (route_onward now l) batch s = Ok s' -> cost s' <= cost s + zlen batch * layer_cost l.
Proof.
  revert s. induction batch as [|t batch IH]; intros s Hl H; cbn [py_for] in H; [inv_ok; change (zlen []) with 0; lia|].
  apply bind_Ok in H as (s1 & H1 & H). apply route_onward_cost in H1; [|by apply Hl].
  apply IH in H; [|intros _; by apply Hl]. rewrite zlen_cons. lia.
Qed.

(** *** Every step lowers the cost *)

Lemma sumZ_const {A} (f : A -> Z) c l : (forall x, x ∈ l -> f x = c) -> sumZ (f <$> l) = zlen l * c.
Proof.
  induction l as [|x l IH]; intros H; [done|]. change (sumZ (f <$> x :: l)) with (f x + sumZ (f <$> l)).
  rewrite H, IH, zlen_cons by (try (by left); intros y Hy; apply H; by right). lia.
Qed.

Lemma settled_cost w w' :
  same_work w w' -> worker_cost w' <= worker_cost w - proc_cost (proc w) (has_work w).
Proof.
  intros (_ & Hr & Ha & Hs). apply (sumZ_fmap_perm expert_cost) in Hr. apply (sumZ_fmap_perm attention_cost) in Ha.
  unfold worker_reps in Hr. unfold worker_attention in Ha. rewrite fmap_app, sumZ_app in Hr, Ha.
  assert (Hp : proc_cost (proc w') (has_work w') <= sumZ (expert_cost <$> proc_reps (proc w')) + sumZ (attention_cost <$> proc_attention (proc w'))).
  { unfold settled in Hs. destruct (proc w') as [| |l t|l b|l b]; cbn [proc_cost proc_reps proc_attention]; [done| | | |done].
    - by rewrite Hs.
    - cbn [fmap list_fmap]. rewrite sumZ_one. unfold attention_cost, at_attention. change (sumZ []) with 0. cbn [fst]. lia.
    - rewrite (sumZ_const expert_cost (at_expert (layer_cost l))).
      + cbn [fmap list_fmap]. change (sumZ []) with 0. unfold zlen. rewrite length_fmap. unfold at_expert. destruct b; [done|]. cbn [length]. lia.
      + intros x Hx. by apply list_elem_of_fmap in Hx as (t & -> & _). }
  unfold worker_cost. lia.
Qed.

Lemma worker_head_cost s w wk s' :
  workers_ok s -> py_get (expert_workers s) w = Ok wk -> worker_head w s = Ok s' ->
  cost s' <= cost s - proc_cost (proc wk) (has_work wk).
Proof.
  intros [_ Hok] Hw. unfold worker_head. rewrite Hw. cbn [mbind res_bind]. intros H.
  apply bind_Ok in H as ([wk' b] & Hrun & H). apply bind_Ok in H as (ws & Hset & H).
  destruct (py_set_get _ _ _ _ _ Hw Hset) as (k & Hk & ->).
  destruct (run_head_ok Hmax Hlookup wk (Forall_lookup_1 _ _ _ _ Hok Hk)) as (wk2 & b2 & Hrun2 & Hs).
  rewrite Hrun in Hrun2. injection Hrun2 as <- <-. injection H as <-. apply settled_cost in Hs.
  unfold cost. cbn [with_outputs with_workers expert_workers starting dispatching manager source].
  rewrite (sumZ_update _ _ _ _ _ Hk). lia.
Qed.

Lemma set_proc_cost w p s s' wk :
  py_get (expert_workers s) w = Ok wk -> set_proc w p s = Ok s' ->
  cost s' = cost s - proc_cost (proc wk) (has_work wk) + proc_cost p (has_work wk).
Proof.
  unfold set_proc. intros Hw. rewrite Hw. cbn [mbind res_bind]. intros H. apply bind_Ok in H as (ws & Hset & H).
  destruct (py_set_get _ _ _ _ _ Hw Hset) as (k & Hk & ->). injection H as <-.
  unfold cost. cbn [with_workers expert_workers starting dispatching manager source].
  rewrite (sumZ_update _ _ _ _ _ Hk). unfold worker_cost at 3 2. cbn [with_proc queues attention_queue proc has_work]. lia.
Qed.

(** A batch that returns belongs to a layer. *)
Lemma returning_layer ph s (i : nat) wk l t b :
  places ph [] s -> expert_workers s !! i = Some wk -> (l, t) ∈ proc_reps (proc wk) -> proc wk = Returning l b -> l < num_layers.
Proof.
  intros Hp Hi Hin _. assert (Hr : (l, t) ∈ reps s).
  { destruct (concat_update worker_reps _ _ wk wk Hi) as (rr & R1 & _). unfold reps. rewrite R1. unfold worker_reps.
    rewrite !elem_of_app. auto. }
  apply mult_elem in Hr. destruct (pl_ok _ _ _ Hp t) as (_ & H2 & _ & H4). specialize (H2 l). rewrite app_nil_r in H2. rewrite H2 in Hr.
  destruct (ph !! t) as [[|l' k]|]; [lia| |lia]. case_decide; [subst; lia|lia].
Qed.

Lemma worker_resume_cost now ph s (w : Z) wk s' :
  inv ph [] None 0 s -> full s -> 0 <= w -> expert_workers s !! Z.to_nat w = Some wk -> resumable wk = true ->
  worker_resume now w s = Ok s' -> cost s' < cost s.
Proof.
  intros Hi Hf Hw0 Hwk Hres. pose proof Hi as (Hwo & Hp & _). pose proof (py_get_lookup _ _ _ Hw0 Hwk) as Hget.
  unfold worker_resume. rewrite Hget. cbn [mbind res_bind]. unfold resumable in Hres.
  destruct (proc wk) as [| |l t|l b|l b] eqn:Ep; intros H.
  - apply (worker_head_cost s w wk) in H; [|done|done]. rewrite Ep in H. cbn [proc_cost] in H. lia.
  - apply (worker_head_cost s w wk) in H; [|done|done]. rewrite Ep, Hres in H. cbn [proc_cost] in H. lia.
  - apply (worker_head_cost _ w wk) in H; [|done|done]. rewrite Ep in H. cbn [proc_cost] in H.
    assert (Hc : cost (with_procs (starting s ++ [(l, t)]) (dispatching s) s) = cost s + at_start (layer_cost l)).
    { unfold cost. cbn [with_procs expert_workers starting dispatching manager source]. rewrite fmap_app, sumZ_app.
      cbn [fmap list_fmap]. rewrite sumZ_one. unfold start_cost at 2. cbn [fst]. lia. }
    lia.
  - rewrite (set_proc_cost _ _ _ _ _ Hget H), Ep. cbn [proc_cost]. pose proof (zlen_nonneg b). lia.
  - apply bind_Ok in H as (s1 & H1 & H). apply bind_Ok in H as (s2 & H2 & H).
    destruct (set_proc_ok ph (pair l <$> b) s w wk AtHead) as (s1' & E1 & Hi1 & Hm & Hpr1 & _); try done.
    { by rewrite Ep. }
    { by rewrite Ep. }
    rewrite H1 in E1. injection E1 as <-.
    destruct (route_batch_ok now ph [] 0 l b s1) as (s2' & ph2 & E2 & Hi2 & Hf2 & Hpr2); [by rewrite app_nil_r|by apply (full_manager s)|].
    rewrite H2 in E2. injection E2 as <-.
    assert (Hat : procs s2 !! Z.to_nat w = Some AtHead).
    { rewrite Hpr2, Hpr1, list_lookup_insert_eq; [done|]. unfold procs. rewrite length_fmap. by eapply lookup_lt_Some. }
    unfold procs in Hat. rewrite list_lookup_fmap in Hat. destruct (expert_workers s2 !! Z.to_nat w) as [wk2|] eqn:Ew2; [|done].
    injection Hat as Hat. destruct Hi2 as (Hwo2 & _).
    apply (worker_head_cost s2 w wk2) in H; [|done|by apply py_get_lookup]. rewrite Hat in H. cbn [proc_cost] in H.
    apply route_batch_cost in H2.
    + rewrite (set_proc_cost _ _ _ _ _ Hget H1), Ep in H2. cbn [proc_cost] in H2. lia.
    + intros Hb. destruct b as [|t b]; [done|]. eapply (returning_layer ph s _ wk l t); [done|done| |done]. rewrite Ep. by left.
Qed.

Lemma start_dispatch_cost s (i : nat) l t s' :
  starting s !! i = Some (l, t) ->
  start_dispatch l t (with_procs (delete i (starting s)) (dispatching s) s) = Ok s' -> cost s' < cost s.
Proof.
  intros Hi. unfold start_dispatch. intros H. apply bind_Ok in H as (tok & _ & H). apply bind_Ok in H as (ids & Hids & H).
  apply bind_Ok in H as (u & _ & H). apply bind_Ok in H as (objs & _ & H). injection H as <-.
  unfold _route_token in Hids. apply bind_Ok in Hids as (row & Hrow' & Hids). apply bind_Ok in Hids as (u' & _ & Hids). injection Hids as <-.
  set (ids := filter (fun e => 0 <= e) row).
  assert (Hlen : zlen (expert_place <$> ids) <= routing_top_k).
  { etransitivity; [|exact (Hrow _ _ _ _ Hrow')]. unfold zlen, ids. rewrite length_fmap. apply inj_le, length_filter. }
  unfold cost. cbn [with_procs with_objects expert_workers starting dispatching manager source].
  rewrite (sumZ_fmap_perm start_cost (starting s) _ (delete_Permutation _ _ _ Hi)).
  rewrite fmap_app, sumZ_app. change (sumZ (start_cost <$> (l, t) :: delete i (starting s))) with (start_cost (l, t) + sumZ (start_cost <$> delete i (starting s))).
  cbn [fmap list_fmap]. rewrite sumZ_one. unfold route_cost at 2. unfold start_cost at 2. unfold expert_cost, at_start. cbn [fst snd].
  pose proof (layer_cost_ge l) as Hl. unfold at_expert. nia.
Qed.

Lemma replace_worker_cost s (k : nat) w w' :
  expert_workers s !! k = Some w ->
  cost (with_workers (<[k := w']> (expert_workers s)) s) = cost s - worker_cost w + worker_cost w'.
Proof.
  intros Hk. unfold cost. cbn [with_workers expert_workers starting dispatching manager source].
  rewrite (sumZ_update _ _ _ _ _ Hk). lia.
Qed.

Lemma enqueue_expert_cost w l q t w' :
  worker_ok w -> 0 <= l < num_layers -> 0 <= q < queues_per_worker -> enqueue_expert l q t w = Ok w' ->
  worker_ok w' /\ worker_cost w' <= worker_cost w + expert_cost (l, t) + 1.
Proof.
  intros Hok Hl Hq H. destruct (enqueue_expert_ok w l q t Hok Hl Hq) as (w2 & H2 & Hok2 & Hr & _).
  rewrite H in H2. injection H2 as <-. split; [done|]. apply (sumZ_fmap_perm expert_cost) in Hr.
  unfold enqueue_expert in H. inv_ok. unfold worker_reps in Hr. cbn [queues proc] in Hr.
  change (expert_cost <$> (l, t) :: ?x) with (expert_cost (l, t) :: (expert_cost <$> x)) in Hr.
  change (sumZ (?x :: ?y)) with (x + sumZ y) in Hr. rewrite !fmap_app, !sumZ_app in Hr.
  unfold worker_cost. cbn [queues attention_queue proc has_work].
  pose proof (woken_cost (proc w) (has_work w) (idle w)). lia.
Qed.

Lemma deliver_cost l t routes s s' :
  workers_ok s -> 0 <= l < num_layers -> Forall in_range routes ->
  finish_dispatch l t routes s = Ok s' -> cost s' <= cost s + zlen routes * (expert_cost (l, t) + 1).
Proof.
  intros Hw Hl Hr. unfold finish_dispatch. revert s Hw. induction Hr as [|[g q] routes [_ Hq] _ IH]; intros s Hwo H; cbn [py_for] in H; [inv_ok; change (zlen []) with 0; lia|].
  apply bind_Ok in H as (s1 & H1 & H). unfold deliver_one in H1. cbn [fst snd] in H1, Hq.
  apply bind_Ok in H1 as (w & Hw & H1). apply bind_Ok in H1 as (w' & Hw' & H1). apply bind_Ok in H1 as (ws & Hws & H1).
  injection H1 as <-. destruct (py_set_get _ _ _ _ _ Hw Hws) as (k & Hk & ->). pose proof Hwo as [_ Hok].
  destruct (enqueue_expert_cost w l q t w' (Forall_lookup_1 _ _ _ _ Hok Hk) Hl Hq Hw') as [Hok' Hc].
  apply IH in H; [|by destruct (update_worker s k w w' Hk Hwo Hok')]. rewrite zlen_cons.
  rewrite (replace_worker_cost s k w w' Hk) in H. lia.
Qed.

Lemma finish_dispatch_cost ph s (i : nat) l t routes s' :
  inv ph [] None 0 s -> dispatching s !! i = Some (l, t, routes) ->
  finish_dispatch l t routes (with_procs (starting s) (delete i (dispatching s)) s) = Ok s' -> cost s' < cost s.
Proof.
  intros (Hw & Hp & _) Hi H. pose proof (list_elem_of_lookup_2 _ _ _ Hi) as Hin.
  destruct (pl_dispatch _ _ _ Hp _ _ _ Hin) as (_ & _ & Hr).
  assert (Hl : 0 <= l < num_layers).
  { assert (Ha : (l, t) ∈ attention s). { unfold attention. rewrite !elem_of_app. right; right. by apply (list_elem_of_fmap_2 fst) in Hin. }
    apply mult_elem in Ha. destruct (pl_ok _ _ _ Hp t) as (H1 & _ & _ & H4). rewrite H1 in Ha.
    destruct (ph !! t) as [[l'|]|]; [|lia..]. case_decide; [by subst|lia]. }
  apply deliver_cost in H; [|done..]. eapply Z.le_lt_trans; [exact H|]. clear H.
  unfold cost. cbn [with_procs expert_workers starting dispatching manager source]. rewrite (sumZ_fmap_perm route_cost (dispatching s) _ (delete_Permutation _ _ _ Hi)).
  change (sumZ (route_cost <$> (l, t, routes) :: delete i (dispatching s))) with (route_cost (l, t, routes) + sumZ (route_cost <$> delete i (dispatching s))).
  change (route_cost (l, t, routes)) with (zlen routes * (expert_cost (l, t) + 1) + 1). lia.
Qed.

Lemma source_cost now s s' : source_step now s = Ok s' -> cost s' < cost s.
Proof.
  unfold source_step, admit_request. set (s1 := with_source (source s + 1) s).
  assert (Hc : cost s1 = cost s - (request_cost + 2)).
  { unfold cost, s1. cbn [with_source expert_workers starting dispatching manager source]. lia. }
  destruct (has_room (manager s1)); intros H.
  - apply start_request_cost in H as [H _]. lia.
  - injection H as <-. revert Hc. unfold cost, manager_cost.
    cbn [s1 with_source with_manager with_pending expert_workers starting dispatching manager source _request_state _pending_queue].
    rewrite zlen_app. change (zlen [(source s, now)]) with 1. lia.
Qed.

Lemma step_cost now ph s s' : inv ph [] None 0 s -> full s -> step now s (Ok s') -> cost s' < cost s.
Proof.
  intros Hi Hf H. inversion H as [Hlt E|i l t Hl E|i l t routes Hl E|w wk Hw Hwk Hres E].
  - by apply source_cost in E.
  - by apply start_dispatch_cost in E.
  - by apply (finish_dispatch_cost ph) in E.
  - by apply (worker_resume_cost now ph s w wk).
Qed.

Lemma init_cost : cost init = ep_group_size + total_requests * (request_cost + 2).
Proof.
  unfold cost, init, manager_cost, tokens_left. cbn [expert_workers starting dispatching manager source _request_state _pending_queue].
  rewrite (sumZ_const _ 1).
  - rewrite fmap_empty. unfold sum_state. rewrite map_to_list_empty. cbn [fmap list_fmap]. change (sumZ []) with 0.
    change (zlen []) with 0. unfold zlen. rewrite length_replicate. lia.
  - intros w Hw. apply elem_of_replicate in Hw as [-> _]. unfold worker_cost. cbn [queues attention_queue proc has_work].
    rewrite empty_queues. done.
Qed.

(** One step of some process. *)
Definition next (s s' : Sys) : Prop := exists now, step now s (Ok s').

Lemma nsteps_cost n s s' :
  reachable s -> nsteps next n s s' -> reachable s' /\ cost s' + Z.of_nat n <= cost s.
Proof.
  intros Hr Hn. induction Hn as [s|n s s1 s' [now Hs] _ IH]; [split; [done|lia]|].
  destruct (reachable_ok s Hr) as (ph & Hi & Hf). pose proof (step_cost now ph s s1 Hi Hf Hs).
  destruct IH as [Hr' Hc]; [by eapply reach_step|]. split; [done|lia].
Qed.

Lemma step_or_quiescent s : (exists r, step (float_of_Z 0) s r) \/ quiescent s.
Proof.
  destruct (Z.lt_ge_cases (source s) total_requests) as [H1|H1]; [left; eexists; by apply step_source|].
  destruct (starting s) as [|[l t] st] eqn:Es; [|left; eexists; apply (step_start _ s 0%nat); by rewrite Es].
  destruct (dispatching s) as [|[[l t] r] di] eqn:Ed; [|left; eexists; apply (step_dispatch _ s 0%nat); by rewrite Ed].
  destruct (decide (Exists (fun wk => resumable wk = true) (expert_workers s))) as [H|H].
  - left. apply Exists_exists in H as (wk & Hin & Hres). apply list_elem_of_lookup_1 in Hin as [i Hi].
    eexists. apply (step_worker _ s (Z.of_nat i) wk); [lia|by rewrite Nat2Z.id|done].
  - right. intros now r Hst. destruct Hst as [?|i l t Hl|i l t routes Hl|w wk Hw Hwk Hres]; [lia| | |].
    + by rewrite Es in Hl.
    + by rewrite Ed in Hl.
    + apply H, Exists_exists. exists wk. split; [by eapply list_elem_of_lookup_2|done].
Qed.

(** The simulation can stop at [s]: nothing is left to run, or a routing step raises,
    which the run does not survive. *)
Definition stops (s : Sys) : Prop :=
  quiescent s \/ exists e, step (float_of_Z 0) s (Raise e) /\ routing_error s e.

Lemma reach_stop n s : reachable s -> cost s <= Z.of_nat n -> exists s', rtc next s s' /\ stops s'.
Proof.
  revert s. induction n as [|n IH]; intros s Hr Hc; (destruct (step_or_quiescent s) as [[r Hst]|Hq]; [|by exists s; split; [|left]]);
    destruct (reachable_ok s Hr) as (ph & Hi & Hf);
    (destruct (step_ok _ ph s r Hi Hf Hst) as [(s1 & ph1 & -> & (_ & _ & Ht1) & _)|(e & -> & He)]; [|exists s; split; [done|right; by exists e]]);
    pose proof (step_cost _ ph s s1 Hi Hf Hst); pose proof (cost_nonneg s1 (tr_source _ _ _ _ Ht1)); [lia|].
  destruct (IH s1) as (s' & Hs' & Hq); [by eapply reach_step|lia|]. exists s'. split; [|done].
  eapply rtc_l; [|done]. by eexists.
Qed.

(** No order of the steps is longer than a bound computed from the parameters, and
    every state some order leads to can be continued to one where the simulation stops. *)
Lemma run_bounded n s :
  nsteps next n init s ->
  Z.of_nat n <= ep_group_size + total_requests * (request_cost + 2) /\ reachable s /\
  exists s', rtc next s s' /\ stops s'.
Proof.
  intros Hn. destruct (nsteps_cost n init s reach_init Hn) as [Hr Hc]. rewrite init_cost in Hc.
  destruct (reachable_ok s Hr) as (ph & (_ & _ & Ht) & _). pose proof (cost_nonneg s (tr_source _ _ _ _ Ht)).
  split; [lia|]. split; [done|]. apply (reach_stop (Z.to_nat (cost s))); [done|lia].
Qed.

Lemma rtc_reachable s s' : reachable s -> rtc next s s' -> reachable s'.
Proof. intros Hr Hs. induction Hs as [|s s1 s' [now Hst] _ IH]; [done|]. apply IH. by eapply reach_step. Qed.

(** ** One schedule

    The steps in a fixed order, to evaluate concrete runs: the source first, then the
    routing processes, the dispatched tokens, and the workers by index. *)

Fixpoint first_resumable (i : Z) (ws : list ExpertWorker) : option Z :=
  match ws with
  | [] => None
  | wk :: ws => if resumable wk then Some i else first_resumable (i + 1) ws
  end.

Definition pick (now : float) (s : Sys) : option (res Sys) :=
  if source s <? total_requests then Some (source_step now s)
  else match starting s with
  | (l, t) :: st => Some (start_dispatch l t (with_procs st (dispatching s) s))
  | [] => match dispatching s with
    | (l, t, routes) :: di => Some (finish_dispatch l t routes (with_procs (starting s) di s))
    | [] => (fun w => worker_resume now w s) <$> first_resumable 0 (expert_workers s)
    end
  end.

Fixpoint drive (fuel : nat) (now : float) (s : Sys) : res Sys :=
  match fuel with
  | O => Ok s
  | S fuel => match pick now s with
    | None => Ok s
    | Some r => s ← r; drive fuel now s
    end
  end.

Lemma first_resumable_Some i ws w :
  first_resumable i ws = Some w -> exists k wk, w = i + Z.of_nat k /\ ws !! k = Some wk /\ resumable wk = true.
Proof.
  revert i. induction ws as [|wk ws IH]; intros i H; cbn in H; [done|]. destruct (resumable wk) eqn:Er.
  - injection H as <-. exists 0%nat, wk. split; [lia|done].
  - destruct (IH _ H) as (k & wk' & -> & Hk & Hr). exists (S k), wk'. split; [lia|done].
Qed.

Lemma first_resumable_None i ws : first_resumable i ws = None -> Forall (fun wk => resumable wk = false) ws.
Proof.
  revert i. induction ws as [|wk ws IH]; intros i H; [constructor|]. cbn in H. destruct (resumable wk) eqn:Er; [done|].
  constructor; [done|by eapply IH].
Qed.

Lemma pick_step now s r : pick now s = Some r -> step now s r.
Proof.
  unfold pick. destruct (Z.ltb_spec (source s) total_requests).
  { intros [= <-]. by apply step_source. }
  destruct (starting s) as [|[l t] st] eqn:Es.
  2:{ intros [= <-]. pose proof (step_start now s 0%nat l t) as Hst. rewrite Es in Hst. by apply Hst. }
  destruct (dispatching s) as [|[[l t] routes] di] eqn:Ed.
  2:{ intros [= <-]. pose proof (step_dispatch now s 0%nat l t routes) as Hst. rewrite Ed, Es in Hst. by apply Hst. }
  destruct (first_resumable 0 (expert_workers s)) as [w|] eqn:Ef; [|done]. intros [= <-].
  apply first_resumable_Some in Ef as (k & wk & -> & Hk & Hr). apply (step_worker now s _ wk); [lia|by rewrite Z.add_0_l, Nat2Z.id|done].
Qed.

Lemma pick_quiescent now s : pick now s = None -> quiescent s.
Proof.
  unfold pick. destruct (Z.ltb_spec (source s) total_requests); [done|].
  destruct (starting s) as [|[l t] st] eqn:Es; [|done]. destruct (dispatching s) as [|[[l t] routes] di] eqn:Ed; [|done].
  destruct (first_resumable 0 (expert_workers s)) as [w|] eqn:Ef; [done|]. intros _. apply first_resumable_None in Ef.
  intros now' r Hst. destruct Hst as [?|i l t Hl|i l t routes Hl|w wk Hw Hwk Hres]; [lia|by rewrite Es in Hl|by rewrite Ed in Hl|].
  apply (Forall_lookup_1 _ _ _ _ Ef) in Hwk. cbn in Hwk. congruence.
Qed.

Lemma drive_reachable fuel now s s' : reachable s -> drive fuel now s = Ok s' -> reachable s'.
Proof.
  revert s. induction fuel as [|fuel IH]; intros s Hr H; cbn in H; [by injection H as <-|].
  destruct (pick now s) as [r|] eqn:Ep; [|by injection H as <-]. apply bind_Ok in H as (s1 & -> & H).
  apply (IH s1); [|done]. eapply reach_step; [done|by apply pick_step].
Qed.
End Steps.
End Dispatch.
End Async.

(** *** A concrete system: two requests of two tokens, two layers of two experts on
    two GPUs, at most one active request. *)

Definition demo_route (rid idx l : Z) : res (list Z) := Ok [(rid + idx + l) mod 2; -1].
Definition demo_time (b : Z) : option float := Some (float_of_Z 1).

Definition demo_init : Sys := init 2 2 2.
Definition demo_reachable : Sys -> Prop := reachable 2 2 2 2 2 4 2 2 (Some 1) Defragging_v0 demo_time demo_route (fun _ => true).
Definition demo_step : float -> Sys -> res Sys -> Prop := step 2 2 2 2 2 4 2 2 (Some 1) Defragging_v0 demo_time demo_route (fun _ => true).
Definition demo_run (fuel : nat) : Sys :=
  match drive 2 2 2 2 2 4 2 2 (Some 1) Defragging_v0 demo_time demo_route (fun _ => true) fuel (float_of_Z 5) demo_init with
  | Ok s => s
  | Raise _ => demo_init
  end.

Lemma demo_run_reachable fuel : demo_reachable (demo_run fuel).
Proof.
  unfold demo_run, demo_reachable. destruct (drive _ _ _ _ _ _ _ _ _ _ _ _ _ fuel _ demo_init) as [s|e] eqn:E; [|apply reach_init].
  eapply drive_reachable; [apply reach_init|exact E].
Qed.

Lemma demo_row rid idx l row : demo_route rid idx l = Ok row -> zlen row <= 2.
Proof. by intros [= <-]. Qed.

(** What the theorems ask of the parameters. *)
Ltac demo := first [exact demo_row | apply demo_run_reachable | done | lia | by eexists].

Lemma async_step_outcome_witness :
  let s := demo_run 10 in
  let r := worker_resume 2 2 4 2 2 (Some 1) Defragging_v0 demo_time (fun _ => true) (float_of_Z 5) 1 s in
  demo_step (float_of_Z 5) s r /\ ((exists s', r = Ok s') \/ exists e, r = Raise e /\ routing_error 2 demo_route s e).
Proof.
  intros s r. assert (Hs : demo_step (float_of_Z 5) s r).
  { eapply step_worker; [lia|vm_compute; reflexivity|vm_compute; reflexivity]. }
  split; [exact Hs|].
  apply (async_step_outcome 2 2 2 2 2 4 2 2 (Some 1) Defragging_v0 demo_time demo_route (fun _ => true)) with (now := float_of_Z 5); demo.
Defined.

Lemma async_conservation_witness :
  let s := demo_run 20 in demo_reachable s /\ zlen (_pending_queue (manager s)) = 1 /\
  source s = active_requests (manager s) + zlen (_pending_queue (manager s)) + zlen (out_requests (outputs s)).
Proof.
  intros s. split; [apply demo_run_reachable|]. split; [reflexivity|].
  apply (async_conservation 2 2 2 2 2 4 2 2 (Some 1) Defragging_v0 demo_time demo_route (fun _ => true)) with (s := s); demo.
Defined.

Lemma async_quiescent_complete_witness :
  let s := demo_run 60 in demo_reachable s /\ zlen (out_requests (outputs s)) = 2 /\
  dkeys (out_completion (outputs s)) ≡ₚ py_range 4.
Proof.
  intros s. split; [apply demo_run_reachable|].
  assert (Hq : quiescent 2 2 2 2 2 4 2 2 (Some 1) Defragging_v0 demo_time demo_route (fun _ => true) s).
  { apply (pick_quiescent _ _ _ _ _ _ _ _ _ _ _ _ _ (float_of_Z 5)). vm_compute. reflexivity. }
  pose proof (fun H1 H2 H3 H4 H5 H6 H7 H8 H9 H10 H11 =>
    async_quiescent_complete 2 2 2 2 2 4 2 2 (Some 1) Defragging_v0 demo_time demo_route (fun _ => true)
      H1 H2 H3 H4 H5 H6 H7 H8 H9 H10 s H11 Hq) as Hc.
  split; apply Hc; demo.
Defined.

End SimAsync.
