(* ===== verification/SimInputs.v ===== *)
(** * The files a simulation reads ([simulation/util.py])

    The compute time of a batch comes from a CSV profile, the routing from a recorded
    one.  The loader of the first establishes what the theorems of [SimAsync] assume of
    its table: that every batch size the simulator forms has a time.  The second is the
    router of [Gate], which the simulators call with a list where it needs a tensor:
    [async_run_fails] says what a run of the asynchronous simulator comes to with it.

    [csv.DictReader] is the parser of the standard library: the model starts from its
    header and its rows, in which a cell the line does not have is [None].
    [float_of_str] is the float a numeral denotes. *)

From stdpp Require Import strings relations.
From S2P Require Import Prelude PyFloat PyString Gate SimCore SimTBO SimAsync.
Import PyString.

Module SimInputs.

#[local] Open Scope string_scope.
#[local] Open Scope Z_scope.

Record CsvFile : Type := {
  fieldnames : option (list string);
  csv_rows : list (list (string * option string));
}.

(** [list(candidates) if candidates else default] *)
Definition candidates_or (candidates : option (list string)) (dflt : list string) : list string :=
  match candidates with Some (h :: l) => h :: l | _ => dflt end.

Definition size_headers : list string := ["batch_size"; "batch"; "size"].
Definition time_headers : list string := ["avg_time_ms"; "time_ms"; "avg_time"; "time"].

(** [next((h for h in candidates if h in headers), None)] *)
Definition find_header (candidates headers : list string) : option string :=
  head (filter (fun h => h ∈ headers) candidates).

Section Load.
Context (float_of_str : string -> option float).

(** The body of the [try] for a row. *)
Definition cell (row : list (string * option string)) (k : string) : res string :=
  v ← of_option KeyError (dget row k); of_option TypeError v.

Definition row_entry (size_key time_key : string) (ticks : float) (row : list (string * option string))
    : res (Z * float) :=
  s ← cell row size_key;
  bs ← py_int_of_str s;
  s ← cell row time_key;
  t ← of_option ValueError (float_of_str s);
  Ok (bs, fmul t ticks).

(** A row that raises is skipped. *)
Definition add_row (size_key time_key : string) (ticks : float) (lookup : list (Z * float))
    (row : list (string * option string)) : list (Z * float) :=
  match row_entry size_key time_key ticks row with
  | Ok (bs, t) => dset lookup bs t
  | Raise _ => lookup
  end.

(** [file] is [None] when there is no such file. *)
Definition expert_compute_time_lookup_table_from_profile (file : option CsvFile) (max_batch_size : Z)
    (size_candidates time_candidates : option (list string)) (ticks : float) : res (list (Z * float)) :=
  f ← of_option FileNotFoundError file;
  let headers := py_strip <$> default [] (fieldnames f) in
  match find_header (candidates_or size_candidates size_headers) headers,
        find_header (candidates_or time_candidates time_headers) headers with
  | Some size_key, Some time_key =>
      let lookup := foldl (add_row size_key time_key ticks) [] (csv_rows f) in
      let missing := filter (fun s => dmem lookup s = false) (py_range2 1 (max_batch_size + 1)) in
      _ ← py_check (zlen missing =? 0) ValueError;
      Ok lookup
  | _, _ => Raise ValueError
  end.

(** ** What the table holds *)

(** The rows that parse. *)
Definition parsed (size_key time_key : string) (ticks : float) (rows : list (list (string * option string)))
    : list (Z * float) :=
  omap (fun row => match row_entry size_key time_key ticks row with Ok x => Some x | Raise _ => None end) rows.

Lemma add_rows size_key time_key ticks rows d :
  foldl (add_row size_key time_key ticks) d rows
  = foldl (fun d '(bs, t) => dset d bs t) d (parsed size_key time_key ticks rows).
Proof.
  revert d. induction rows as [|row rows IH]; intros d; [done|]. cbn. rewrite IH. unfold add_row.
  by destruct (row_entry _ _ _ row) as [[bs t]|e].
Qed.

(** The last assignment to a key wins. *)
Lemma dget_foldl_last (kvs d : list (Z * float)) b :
  dget (foldl (fun d '(k, v) => dset d k v) d kvs) b
  = match last (filter (fun kv => kv.1 = b) kvs) with Some kv => Some kv.2 | None => dget d b end.
Proof.
  revert d. induction kvs as [|[k v] kvs IH] using rev_ind; intros d; [done|].
  rewrite foldl_app. cbn [foldl]. rewrite filter_app, filter_cons, filter_nil. cbn [fst].
  rewrite dget_dset, IH. destruct (decide (k = b)) as [->|Hne]; [by rewrite last_snoc|by rewrite app_nil_r].
Qed.

Lemma elem_of_range2 a b x : x ∈ py_range2 a b <-> a <= x < b.
Proof. unfold py_range2. rewrite elem_of_seqZ. lia. Qed.

(** What loading does.  From a file whose header names both columns the loader
    returns the table exactly when every batch size up to the maximum has a row that
    parses, and the time of a size is that of its last such row; otherwise it raises
    [ValueError]. *)
Theorem lookup_table_exact f max_batch_size sc tc ticks size_key time_key :
  find_header (candidates_or sc size_headers) (py_strip <$> default [] (fieldnames f)) = Some size_key ->
  find_header (candidates_or tc time_headers) (py_strip <$> default [] (fieldnames f)) = Some time_key ->
  let rows := parsed size_key time_key ticks (csv_rows f) in
  match expert_compute_time_lookup_table_from_profile (Some f) max_batch_size sc tc ticks with
  | Ok lookup =>
      (forall b, 1 <= b <= max_batch_size -> b ∈ rows.*1) /\
      forall b, dget lookup b = snd <$> last (filter (fun kv => kv.1 = b) rows)
  | Raise e => e = ValueError /\ exists b, 1 <= b <= max_batch_size /\ b ∉ rows.*1
  end.
Proof.
  intros Hs Ht rows. unfold expert_compute_time_lookup_table_from_profile. cbn [of_option mbind res_bind].
  rewrite Hs, Ht, add_rows. fold rows. set (lookup := foldl _ [] rows).
  assert (Hget : forall b, dget lookup b = snd <$> last (filter (fun kv => kv.1 = b) rows)).
  { intros b. unfold lookup. rewrite dget_foldl_last. by destruct (last _). }
  assert (Hmem : forall b, dmem lookup b = true <-> b ∈ rows.*1).
  { intros b. unfold dmem. rewrite bool_decide_eq_true, Hget, fmap_is_Some, last_is_Some. split.
    - intros Hne. destruct (filter _ rows) as [|kv l] eqn:Hf; [done|].
      assert (kv ∈ filter (fun kv => kv.1 = b) rows) as [Hb Hin]%list_elem_of_filter by (rewrite Hf; left).
      rewrite <-Hb. apply list_elem_of_fmap. by exists kv.
    - intros (kv & -> & Hin)%list_elem_of_fmap Hnil.
      assert (kv ∈ filter (fun kv' => kv'.1 = kv.1) rows) as Hk by (by apply list_elem_of_filter).
      rewrite Hnil in Hk. by apply elem_of_nil in Hk. }
  destruct (filter _ (py_range2 _ _)) as [|b l] eqn:Hf; cbn [py_check mbind res_bind].
  - split; [|done]. intros b Hb. apply Hmem. destruct (dmem lookup b) eqn:E; [done|].
    assert (b ∈ filter (fun s => dmem lookup s = false) (py_range2 1 (max_batch_size + 1))) as Hin.
    { apply list_elem_of_filter. split; [done|]. apply elem_of_range2. lia. }
    rewrite Hf in Hin. by apply elem_of_nil in Hin.
  - assert (b ∈ filter (fun s => dmem lookup s = false) (py_range2 1 (max_batch_size + 1))) as [Hb Hr]%list_elem_of_filter
      by (rewrite Hf; left).
    apply elem_of_range2 in Hr. rewrite zlen_cons. pose proof (zlen_nonneg l).
    rewrite (proj2 (Z.eqb_neq _ 0)) by lia. cbn. split; [done|]. exists b. split; [lia|].
    rewrite <-Hmem, Hb. done.
Qed.

Lemma lookup_covers f max_batch_size sc tc ticks lookup :
  expert_compute_time_lookup_table_from_profile f max_batch_size sc tc ticks = Ok lookup ->
  forall b, 1 <= b <= max_batch_size -> is_Some (dget lookup b).
Proof.
  unfold expert_compute_time_lookup_table_from_profile. intros H b Hb. apply bind_Ok in H as (c & _ & H).
  destruct (find_header _ _) as [sk|]; [|done]. destruct (find_header _ _) as [tk|]; [|done].
  apply bind_Ok in H as (u & Hm & H). apply Ok_inj in H as <-. apply py_check_Ok, Z.eqb_eq in Hm.
  destruct (filter _ _) as [|x l] eqn:Hf; [|rewrite zlen_cons in Hm; pose proof (zlen_nonneg l); lia].
  set (lookup := foldl _ [] (csv_rows c)) in *.
  destruct (dmem lookup b) eqn:E; [by apply bool_decide_eq_true in E|].
  assert (b ∈ filter (fun s => dmem lookup s = false) (py_range2 1 (max_batch_size + 1))) as Hin.
  { apply list_elem_of_filter. split; [done|]. apply elem_of_range2. lia. }
  rewrite Hf in Hin. by apply elem_of_nil in Hin.
Qed.

(** A padded header is found and then not used.  The columns are looked up under
    the stripped names while the rows are keyed by the names of the file: when the name
    of the size column has blanks around it, no row parses and every batch size is
    reported missing. *)
Theorem padded_header_rejected f max_batch_size sc tc ticks size_key time_key :
  find_header (candidates_or sc size_headers) (py_strip <$> default [] (fieldnames f)) = Some size_key ->
  find_header (candidates_or tc time_headers) (py_strip <$> default [] (fieldnames f)) = Some time_key ->
  Forall (fun row => dkeys row = default [] (fieldnames f)) (csv_rows f) ->
  size_key ∉ default [] (fieldnames f) -> 1 <= max_batch_size ->
  expert_compute_time_lookup_table_from_profile (Some f) max_batch_size sc tc ticks = Raise ValueError.
Proof.
  intros Hs Ht Hrows Hkey Hmax. pose proof (lookup_table_exact f max_batch_size sc tc ticks _ _ Hs Ht) as Hex.
  destruct (expert_compute_time_lookup_table_from_profile _ _ _ _ _) as [lookup|e]; [|by destruct Hex as [-> _]].
  destruct Hex as [Hall _]. specialize (Hall 1 ltac:(lia)).
  assert (Hnil : parsed size_key time_key ticks (csv_rows f) = []); [|rewrite Hnil in Hall; by apply elem_of_nil in Hall].
  unfold parsed. clear Hall. induction Hrows as [|row rows Hrow _ IH]; [done|]. cbn. rewrite IH.
  unfold row_entry, cell. rewrite (proj2 (dget_None row size_key)) by congruence. done.
Qed.

End Load.

(** ** The recorded routing *)

(** What [os.path] and [open] answer; [None] is an [OSError]. *)
Record Files : Type := {
  isfile : string -> bool;
  abspath : string -> string;
  read_bytes : string -> option (list Byte.byte);
}.

Definition build_profile_router (fs : Files) (read_table : list Byte.byte -> option Gate.Profile)
    (profile_path : string) (num_experts top_k : Z) : res Gate.ProfileDrivenRouter :=
  _ ← py_check (0 <? String.length profile_path)%nat ValueError;
  let abs_path := abspath fs profile_path in
  _ ← py_check (isfile fs abs_path) FileNotFoundError;
  profile_bytes ← of_option RuntimeError (read_bytes fs abs_path);
  Gate.router_init read_table profile_bytes num_experts top_k None.

(** [_route_token] of the asynchronous simulator: the row of one request. *)
Definition async_route (rt : Gate.ProfileDrivenRouter) (rid idx l : Z) : res (list Z) :=
  topk_ids ← SimTBO.profile_route rt [rid] [idx] l; py_get topk_ids 0.

(** ** The asynchronous simulator on the files it loads

    [run_simulation] builds its router from the recorded routing and its compute times
    from the CSV profile. *)

Lemma async_route_raises rt rid idx l : async_route rt rid idx l = Raise TypeError.
Proof. unfold async_route. by rewrite SimTBO.profile_route_raises. Qed.

Section Run.
Context (total tokens layers experts gpus max_batch_size top_k dp : Z) (cap : option Z) (pol : SimAsync.policy).
Context (times : list (Z * float)) (rt : Gate.ProfileDrivenRouter) (sampled : SimCore.Token -> bool).

#[local] Notation init := (SimAsync.init layers experts gpus).
#[local] Notation step := (SimAsync.step total tokens layers experts gpus max_batch_size top_k dp cap pol (dget times)
  (async_route rt) sampled).
#[local] Notation reachable := (SimAsync.reachable total tokens layers experts gpus max_batch_size top_k dp cap pol
  (dget times) (async_route rt) sampled).
#[local] Notation next := (SimAsync.next total tokens layers experts gpus max_batch_size top_k dp cap pol (dget times)
  (async_route rt) sampled).
#[local] Notation quiescent := (SimAsync.quiescent total tokens layers experts gpus max_batch_size top_k dp cap pol
  (dget times) (async_route rt) sampled).

(** No token has got to an expert. *)
Record untouched (s : SimAsync.Sys) : Prop := {
  un_experts : Forall (fun w => SimAsync.worker_reps w = []) (SimAsync.expert_workers s);
  un_dispatching : SimAsync.dispatching s = [];
  un_completion : SimAsync.out_completion (SimAsync.outputs s) = [];
  un_requests : SimAsync.out_requests (SimAsync.outputs s) = [];
}.

Lemma untouched_same s s' :
  Forall (fun w => SimAsync.worker_reps w = []) (SimAsync.expert_workers s') ->
  SimAsync.dispatching s' = SimAsync.dispatching s ->
  SimAsync.out_completion (SimAsync.outputs s') = SimAsync.out_completion (SimAsync.outputs s) ->
  SimAsync.out_requests (SimAsync.outputs s') = SimAsync.out_requests (SimAsync.outputs s) ->
  untouched s -> untouched s'.
Proof. intros Hw Ed Ec Er [_ Hd Hc Hr]. by split; rewrite ?Ed, ?Ec, ?Er. Qed.

(** A worker is replaced. *)
Lemma untouched_worker (ws ws' : list SimAsync.ExpertWorker) w wk wk' :
  Forall (fun w => SimAsync.worker_reps w = []) ws -> py_get ws w = Ok wk -> py_set ws w wk' = Ok ws' ->
  (SimAsync.worker_reps wk = [] -> SimAsync.worker_reps wk' = []) ->
  Forall (fun w => SimAsync.worker_reps w = []) ws'.
Proof.
  intros Hall Hg Hs Hk. destruct (SimAsync.py_set_get _ _ _ _ _ Hg Hs) as (k & Hl & ->).
  apply Forall_insert; [done|]. by apply Hk, (Forall_lookup_1 _ _ _ _ Hall Hl).
Qed.

Lemma untouched_enqueue l t s s' : untouched s -> SimAsync.enqueue l t s = Ok s' -> untouched s'.
Proof.
  unfold SimAsync.enqueue. intros Hu H. inv_ok. apply (untouched_same s); [cbn|done..].
  eapply untouched_worker; [apply Hu|eassumption|eassumption|done].
Qed.

Lemma untouched_source now s s' :
  untouched s -> SimAsync.source_step tokens dp cap sampled now s = Ok s' -> untouched s'.
Proof.
  unfold SimAsync.source_step, SimAsync.admit_request. intros Hu H.
  assert (Hu' : forall m x, untouched (SimAsync.with_manager m (SimAsync.with_source x s))) by (intros; by destruct Hu; split).
  destruct (SimAsync.has_room _ _); [|by apply Ok_inj in H as <-].
  unfold SimAsync._start_request_now in H. apply bind_Ok in H as (u & _ & H). apply bind_Ok in H as (h & _ & H).
  unfold SimAsync._dispatch_next_token in H. apply bind_Ok in H as (n & _ & H).
  destruct (_ >=? _); [by apply Ok_inj in H as <-|]. apply bind_Ok in H as (h' & _ & H).
  eapply untouched_enqueue; [|exact H]. by destruct Hu; split.
Qed.

Section Configured.
Hypothesis Hlayers : 0 < layers.
Hypothesis Hgpus : 0 < gpus.
Hypothesis Hdp : dp = gpus.
Hypothesis Htokens : 0 < tokens.
Hypothesis Hcap : match cap with Some k => 0 < k | None => True end.
Hypothesis Hbatch : 0 < max_batch_size.
Hypothesis Htimes : forall b, 1 <= b <= max_batch_size -> is_Some (dget times b).

Lemma untouched_head w s s' :
  SimAsync.workers_ok layers experts gpus s -> untouched s ->
  SimAsync.worker_head max_batch_size top_k pol (dget times) w s = Ok s' -> untouched s'.
Proof.
  intros [_ Hok] Hu. unfold SimAsync.worker_head. intros H. apply bind_Ok in H as (wk & Hg & H).
  apply bind_Ok in H as ([wk' b] & Hrun & H). apply bind_Ok in H as (ws & Hs & H). apply Ok_inj in H as <-.
  destruct (SimAsync.py_set_get _ _ _ _ _ Hg Hs) as (k & Hk & _).
  destruct (SimAsync.run_head_ok layers experts gpus max_batch_size top_k pol (dget times) Hbatch Htimes wk
    (Forall_lookup_1 _ _ _ _ Hok Hk)) as (wk2 & b2 & Hrun2 & _ & Hr & _).
  rewrite Hrun in Hrun2. injection Hrun2 as <- <-. destruct (SimAsync.count_batch_same b (SimAsync.outputs s)) as [C1 C2].
  apply (untouched_same s); [cbn|done..]. eapply untouched_worker; [apply Hu|eassumption..|].
  intros Hn. unfold SimAsync.worker_reps in Hn. apply app_eq_nil in Hn as [Hn _]. rewrite Hn in Hr. by apply Permutation_nil_r in Hr.
Qed.

Lemma untouched_set_proc w p s s' :
  SimAsync.proc_reps p = [] -> p <> SimAsync.Asleep -> SimAsync.workers_ok layers experts gpus s -> untouched s ->
  SimAsync.set_proc w p s = Ok s' -> untouched s' /\ SimAsync.workers_ok layers experts gpus s'.
Proof.
  intros Hnil Hne [Hlen Hall] Hu Hp. unfold SimAsync.set_proc in Hp. apply bind_Ok in Hp as (wk & Hg & Hp).
  apply bind_Ok in Hp as (ws & Hs & Hp). apply Ok_inj in Hp as <-.
  destruct (SimAsync.py_set_get _ _ _ _ _ Hg Hs) as (k & Hk & Ews). split.
  - apply (untouched_same s); [cbn|done..]. eapply untouched_worker; [apply Hu|eassumption..|].
    unfold SimAsync.worker_reps. cbn. rewrite Hnil. intros Hq. by apply app_eq_nil in Hq as [-> _].
  - subst ws. split; cbn; [by rewrite length_insert|]. apply Forall_insert; [done|].
    destruct (Forall_lookup_1 _ _ _ _ Hall Hk) as [W1 W2 W3 W4]. by split.
Qed.

Lemma untouched_step now s s' :
  SimAsync.workers_ok layers experts gpus s -> untouched s -> step now s (Ok s') -> untouched s'.
Proof.
  intros Hok Hu H. inversion H as [Hlt E|i l t Hl E|i l t routes Hl E|w wk Hw Hwk Hres E].
  - by eapply untouched_source.
  - exfalso. unfold SimAsync.start_dispatch in E. apply bind_Ok in E as (tok & _ & E).
    unfold SimAsync._route_token in E. by rewrite async_route_raises in E.
  - by rewrite (un_dispatching _ Hu) in Hl.
  - pose proof (Forall_lookup_1 _ _ _ _ (un_experts _ Hu) Hwk) as Hn. unfold SimAsync.worker_reps in Hn.
    apply app_eq_nil in Hn as [_ Hn]. unfold SimAsync.worker_resume in E. rewrite (py_get_lookup _ _ wk) in E by done.
    cbn [mbind res_bind] in E.
    destruct (SimAsync.proc wk) as [| |l t|l b|l b] eqn:Ep.
    + by eapply untouched_head.
    + by eapply untouched_head.
    + apply untouched_head in E; [done|done|]. by destruct Hu; split.
    + apply fmap_nil_inv in Hn as ->. by apply untouched_set_proc in E as [? _].
    + apply fmap_nil_inv in Hn as ->. apply bind_Ok in E as (s1 & H1 & E). apply bind_Ok in E as (s2 & H2 & E).
      apply Ok_inj in H2 as <-. apply untouched_set_proc in H1 as [Hu1 Hok1]; [|done..]. by eapply untouched_head.
Qed.

Hypothesis Hdiv : experts mod gpus = 0.
Hypothesis Hexperts : 0 < experts.
Hypothesis Htotal : 0 <= total.

Lemma reachable_workers s : reachable s -> SimAsync.workers_ok layers experts gpus s.
Proof. intros Hr. by destruct (SimAsync.reachable_ok total tokens layers experts gpus max_batch_size top_k dp cap pol
  (dget times) (async_route rt) sampled) with (s := s) as (ph & (Hw & _) & _). Qed.

Lemma reachable_untouched s : reachable s -> untouched s.
Proof.
  induction 1 as [|now s s' Hr IH Hs].
  - split; [|done..]. cbn. apply Forall_replicate. unfold SimAsync.worker_reps. cbn. by rewrite SimAsync.empty_queues.
  - by eapply untouched_step; [apply reachable_workers|..].
Qed.

Lemma reachable_raises now s e : reachable s -> step now s (Raise e) -> e = TypeError.
Proof.
  intros Hr Hs. destruct (SimAsync.async_step_outcome total tokens layers experts gpus max_batch_size top_k dp cap pol
    (dget times) (async_route rt) sampled) with (now := now) (s := s) (r := Raise e : res SimAsync.Sys)
    as [[s' ?]|(e' & [= <-] & He)]; [done..|].
  destruct He as [i l t tok _ _ Hrow|i l t routes g q Hd _ _ _].
  - unfold SimAsync._route_token in Hrow. rewrite async_route_raises in Hrow. by injection Hrow.
  - by rewrite (un_dispatching _ (reachable_untouched s Hr)) in Hd.
Qed.

Lemma reachable_busy s : 0 < total -> reachable s -> ~ quiescent s.
Proof.
  intros Hpos Hr Hq. destruct (SimAsync.quiescent_drained total tokens layers experts gpus max_batch_size top_k dp cap pol
    (dget times) (async_route rt) sampled) with (s := s) as (_ & Hout & _); [done..|].
  rewrite (un_requests _ (reachable_untouched s Hr)) in Hout. unfold zlen in Hout. cbn in Hout. lia.
Qed.

Hypothesis Hpos : 0 < total.
Hypothesis Htop : 0 <= top_k.

Lemma run_fails n s : nsteps next n init s ->
  Z.of_nat n <= gpus + total * (SimAsync.request_cost tokens layers top_k + 2) /\
  SimAsync.out_completion (SimAsync.outputs s) = [] /\ SimAsync.out_requests (SimAsync.outputs s) = [] /\
  (exists now r, step now s r) /\ (forall now e, step now s (Raise e) -> e = TypeError) /\
  exists s' now, rtc next s s' /\ step now s' (Raise TypeError).
Proof.
  intros Hn. destruct (SimAsync.run_bounded total tokens layers experts gpus max_batch_size top_k dp cap pol (dget times)
    (async_route rt) sampled) with (n := n) (s := s) as (Hlen & Hr & s' & Hs' & Hstop); try done.
  { intros rid idx l row. by rewrite async_route_raises. }
  assert (Hr' : reachable s') by by eapply SimAsync.rtc_reachable.
  destruct (reachable_untouched s Hr) as [_ _ Hc Hq]. do 3 (split; [done|]). split; [|split].
  - destruct (SimAsync.step_or_quiescent total tokens layers experts gpus max_batch_size top_k dp cap pol (dget times)
      (async_route rt) sampled s) as [[r Hst]|Hq']; [by exists (float_of_Z 0), r|by apply reachable_busy in Hq'].
  - intros now e. by apply reachable_raises.
  - destruct Hstop as [Hq'|(e & He & _)]; [by apply reachable_busy in Hq'|].
    exists s', (float_of_Z 0). split; [done|]. by rewrite <-(reachable_raises _ _ _ Hr' He).
Qed.
End Configured.
End Run.

(** C21. What a run of the asynchronous simulator comes to, with the router
    [run_simulation] builds from any recorded profile and a table of compute times the
    loader returned.  The router is called with a list of token indices and raises
    [TypeError], so: no run is longer than a bound computed from the parameters; in no
    state of a run has a token or a request completed, and in none can all the
    processes have ended; the only exception a step raises is [TypeError]; and every
    run goes on to a step that raises it. *)
Theorem async_run_fails total tokens layers experts gpus max_batch_size top_k dp cap pol
    float_of_str f sc tc ticks times rt sampled n s :
  expert_compute_time_lookup_table_from_profile float_of_str f max_batch_size sc tc ticks = Ok times ->
  0 < layers -> 0 < gpus -> dp = gpus -> 0 < tokens -> match cap with Some k => 0 < k | None => True end ->
  0 < max_batch_size -> experts mod gpus = 0 -> 0 < experts -> 0 < total -> 0 <= top_k ->
  let step := SimAsync.step total tokens layers experts gpus max_batch_size top_k dp cap pol (dget times)
    (async_route rt) sampled in
  let next s s' := exists now, step now s (Ok s') in
  nsteps next n (SimAsync.init layers experts gpus) s ->
  Z.of_nat n <= gpus + total * (SimAsync.request_cost tokens layers top_k + 2) /\
  SimAsync.out_completion (SimAsync.outputs s) = [] /\ SimAsync.out_requests (SimAsync.outputs s) = [] /\
  (exists now r, step now s r) /\ (forall now e, step now s (Raise e) -> e = TypeError) /\
  exists s' now, rtc next s s' /\ step now s' (Raise TypeError).
Proof.
  intros Hload HL Hg Hdp HT Hcap Hb Hdiv Hx Htot Htop step next Hn. pose proof (lookup_covers _ _ _ _ _ _ _ Hload) as Ht.
  apply (run_fails total tokens layers experts gpus max_batch_size top_k dp cap pol times rt sampled); first [done | lia].
Qed.

(** ** A concrete profile *)

Definition ex_numeral (s : string) : option float := Some (float_of_Z 2).

Definition ex_csv (header : string) (sizes : list string) : CsvFile :=
  {| fieldnames := Some [header; "time_ms"];
     csv_rows := (fun n => [(header, Some n); ("time_ms", Some "2.0")]) <$> sizes |}.

Lemma lookup_table_exact_witness :
  let load f := expert_compute_time_lookup_table_from_profile ex_numeral (Some f) 2 None None (float_of_Z 1) in
  (exists t, load (ex_csv "batch" ["1"; "x"; "2"]) = Ok t /\ dget t 2 = Some (float_of_Z 2)) /\
  load (ex_csv "batch" ["1"; "3"]) = Raise ValueError.
Proof.
  pose proof (lookup_table_exact ex_numeral (ex_csv "batch" ["1"; "x"; "2"]) 2 None None (float_of_Z 1) "batch" "time_ms"
    eq_refl eq_refl) as H.
  split; [|vm_compute; reflexivity].
  destruct (expert_compute_time_lookup_table_from_profile _ _ _ _ _ _) as [t|e] eqn:E; [|exfalso; revert E; vm_compute; discriminate].
  exists t. split; [reflexivity|]. destruct H as [_ H]. rewrite H. vm_compute. reflexivity.
Defined.

Lemma padded_header_rejected_witness :
  expert_compute_time_lookup_table_from_profile ex_numeral (Some (ex_csv " batch" ["1"])) 1 None None (float_of_Z 1)
  = Raise ValueError.
Proof.
  apply (padded_header_rejected ex_numeral (ex_csv " batch" ["1"]) 1 None None (float_of_Z 1) "batch" "time_ms").
  - reflexivity.
  - reflexivity.
  - repeat constructor.
  - vm_compute. intros H. inversion H as [|? ? ? H1]; subst. inversion H1 as [|? ? ? H2]; subst. inversion H2.
  - lia.
Defined.

(** Two requests of two tokens on two GPUs: the run whose first step admits a request. *)
Definition ex_times : list (Z * float) :=
  match expert_compute_time_lookup_table_from_profile ex_numeral (Some (ex_csv "batch" ["1"; "2"])) 2 None None (float_of_Z 1) with
  | Ok t => t
  | Raise _ => []
  end.

Definition ex_admitted : SimAsync.Sys :=
  match SimAsync.source_step 2 2 None (fun _ => true) (float_of_Z 0) (SimAsync.init 2 2 2) with
  | Ok s => s
  | Raise _ => SimAsync.init 2 2 2
  end.

Lemma async_run_fails_witness :
  exists rt, Gate._load_profile 2 2 None Gate.ex_profile = Ok rt /\
    zlen (SimAsync.attention ex_admitted) = 1 /\ SimAsync.out_completion (SimAsync.outputs ex_admitted) = [] /\
    exists s now, SimAsync.step 2 2 2 2 2 2 2 2 None SimAsync.Defragging_v0 (dget ex_times) (async_route rt) (fun _ => true)
      now s (Raise TypeError).
Proof.
  eexists. split; [vm_compute; reflexivity|]. split; [vm_compute; reflexivity|].
  match goal with |- _ /\ exists s now, SimAsync.step _ _ _ _ _ _ _ _ _ _ _ (async_route ?rt) _ _ _ _ =>
    destruct (async_run_fails 2 2 2 2 2 2 2 2 None SimAsync.Defragging_v0 ex_numeral (Some (ex_csv "batch" ["1"; "2"])) None None
      (float_of_Z 1) ex_times rt (fun _ => true) 1 ex_admitted) as (_ & Hc & _ & _ & _ & s & now & _ & Hs) end;
    try (first [exact I | lia | vm_compute; reflexivity]).
  - apply nsteps_once. exists (float_of_Z 0). apply SimAsync.pick_step. vm_compute. reflexivity.
  - split; [exact Hc|]. exists s, now. exact Hs.
Defined.

End SimInputs.
