(* ===== verification/GdrRing.v ===== *)
(** * GDR staging buffers ([utils/gdr_context.py], [utils/tensor_utils.py],
    [csrc/include/gdr_context.hpp])

    The engine writes metadata straight into mapped GPU memory while the kernels
    that read it are still queued on a stream.  The file models the aligned
    allocation with its address arithmetic, the copy with its bounds check, and the
    ring as a step relation in which the stores of a copy and the reads of the
    kernels interleave element by element in any order; it proves that a kernel
    reads what was handed to it as long as the CPU runs fewer batches ahead than the
    ring has slots, the condition the class documents, and that one more batch is
    too many. *)

From S2P Require Import Prelude.

Module GdrRing.

(** ** Aligned allocation *)

Definition GPU_PAGE_SIZE : Z := Z.shiftl 1 16.

(** A bound of [buf[a : b]] on a buffer of [n] bytes. *)
Definition slice_bound (n i : Z) : Z := if i <? 0 then Z.max 0 (i + n) else Z.min i n.

(** [get_cuda_aligned_tensor]: address and bytes of the tensor cut out of a buffer
    allocated at [base_addr]. *)
Definition get_cuda_aligned_tensor (base_addr numel elem_size alignment : Z) : res (Z * Z) :=
  let size_bytes := numel * elem_size in
  let buf := size_bytes + alignment in
  let aligned_addr := Z.land (base_addr + alignment - 1) (Z.lnot (alignment - 1)) in
  let offset := aligned_addr - base_addr in
  let lo := slice_bound buf offset in
  let len := Z.max 0 (slice_bound buf (offset + size_bytes) - lo) in
  _ ← py_check (len mod elem_size =? 0) RuntimeError;
  _ ← py_assert ((base_addr + lo) mod alignment =? 0);
  Ok (base_addr + lo, len).

(** ** The ring *)

Record GdrRingBuffer : Type := {
  buffers : list (list Z);
  n : Z;
  idx : Z;
}.

(** [GdrRingBuffer.__init__]; [blank] is what the memory held. *)
Definition new_ring (blank : list Z) (n_slots : Z) : res GdrRingBuffer :=
  _ ← py_assert (n_slots >=? 2);
  Ok {| buffers := replicate (Z.to_nat n_slots) blank; n := n_slots; idx := -1 |}.

Definition get_one_handle (r : GdrRingBuffer) : GdrRingBuffer :=
  {| buffers := buffers r; n := n r; idx := (idx r + 1) mod n r |}.

(** [copy_from_host]: one element of the copy into the slot of a handle. *)
Definition store_elem (slot i v : Z) (r : GdrRingBuffer) : GdrRingBuffer :=
  {| buffers := alter (<[Z.to_nat i := v]>) (Z.to_nat slot) (buffers r); n := n r; idx := idx r |}.

(** The check before the copy. *)
Definition fits (src : list Z) (slot : Z) (r : GdrRingBuffer) : bool :=
  match buffers r !! Z.to_nat slot with
  | Some b => (0 <? zlen src) && (zlen src <=? zlen b)
  | None => false
  end.

(** *** The CPU and the stream

    A queued kernel has the handle it was given; [k_id] numbers the batches. *)

Record Kernel : Type := { k_id : nat; k_slot : Z; k_len : Z }.

Inductive Cpu : Type :=
  | Idle
  | Copying (slot : Z) (src todo : list Z).

Record State : Type := {
  ring : GdrRingBuffer;
  cpu : Cpu;
  stream : list Kernel;
  (** The batches handed over, in order. *)
  handed : list (list Z);
  (** What the kernels read: batch, index, value. *)
  reads : list (nat * Z * Z);
}.

(** [depth] bounds the batches the CPU runs ahead of the GPU. *)
Inductive step (depth : Z) : State -> State -> Prop :=
  | step_begin s src :
      cpu s = Idle ->
      zlen (stream s) < depth ->
      let r := get_one_handle (ring s) in
      fits src (idx r) r = true ->
      step depth s {| ring := r; cpu := Copying (idx r) src (py_range (zlen src)); stream := stream s;
                      handed := handed s; reads := reads s |}
  | step_store s slot src todo i v :
      cpu s = Copying slot src todo -> i ∈ todo -> src !! Z.to_nat i = Some v ->
      step depth s {| ring := store_elem slot i v (ring s); cpu := Copying slot src (filter (fun j => j <> i) todo);
                      stream := stream s; handed := handed s; reads := reads s |}
  | step_launch s slot src :
      cpu s = Copying slot src [] ->
      step depth s {| ring := ring s; cpu := Idle;
                      stream := stream s ++ [{| k_id := length (handed s); k_slot := slot; k_len := zlen src |}];
                      handed := handed s ++ [src]; reads := reads s |}
  | step_read s k ks i b v :
      stream s = k :: ks -> 0 <= i < k_len k -> buffers (ring s) !! Z.to_nat (k_slot k) = Some b ->
      b !! Z.to_nat i = Some v ->
      step depth s {| ring := ring s; cpu := cpu s; stream := stream s; handed := handed s;
                      reads := reads s ++ [(k_id k, i, v)] |}
  | step_retire s k ks :
      stream s = k :: ks ->
      step depth s {| ring := ring s; cpu := cpu s; stream := ks; handed := handed s; reads := reads s |}.

Definition start (r : GdrRingBuffer) : State := {| ring := r; cpu := Idle; stream := []; handed := []; reads := [] |}.

(** ** Alignment *)

Lemma align_up x k : 0 <= k -> Z.land x (Z.lnot (2 ^ k - 1)) = x - x mod 2 ^ k.
Proof.
  intros Hk. replace (2 ^ k - 1) with (Z.ones k) by (rewrite Z.ones_equiv; lia).
  rewrite <-Z.ldiff_land, Z.ldiff_ones_r, Z.shiftl_mul_pow2, Z.shiftr_div_pow2 by done.
  pose proof (Z.div_mod x (2 ^ k)) as Hd. pose proof (Z.pow_pos_nonneg 2 k ltac:(lia) Hk). lia.
Qed.

(** The tensor has exactly the bytes asked for, starts at the first multiple of
    the alignment at or after the buffer's address, and lies inside the buffer. *)
Theorem aligned_tensor_exact base_addr numel elem_size k :
  0 <= base_addr -> 0 <= numel -> 0 < elem_size -> 0 <= k ->
  exists addr, get_cuda_aligned_tensor base_addr numel elem_size (2 ^ k) = Ok (addr, numel * elem_size) /\
    (2 ^ k | addr) /\ base_addr <= addr < base_addr + 2 ^ k /\
    addr + numel * elem_size <= base_addr + (numel * elem_size + 2 ^ k).
Proof.
  intros Hb Hn He Hk. pose proof (Z.pow_pos_nonneg 2 k ltac:(lia) Hk) as Hp.
  unfold get_cuda_aligned_tensor. rewrite align_up by done.
  set (a := 2 ^ k) in *. set (x := base_addr + a - 1). pose proof (Z.mod_pos_bound x a Hp) as Hm.
  assert (Hs : 0 <= numel * elem_size) by (apply Z.mul_nonneg_nonneg; lia).
  set (size := numel * elem_size) in *.
  assert (E1 : slice_bound (size + a) (x - x mod a - base_addr) = x - x mod a - base_addr).
  { unfold slice_bound, x in *. zcases; lia. }
  assert (E2 : slice_bound (size + a) (x - x mod a - base_addr + size) = x - x mod a - base_addr + size).
  { unfold slice_bound, x in *. zcases; lia. }
  rewrite E1, E2. replace (Z.max 0 (x - x mod a - base_addr + size - (x - x mod a - base_addr))) with size by lia.
  replace (size mod elem_size =? 0) with true by (symmetry; apply Z.eqb_eq; unfold size; apply Z.mod_mul; lia).
  replace (base_addr + (x - x mod a - base_addr)) with (x - x mod a) by lia.
  assert (Hd : (a | x - x mod a)).
  { exists (x / a). pose proof (Z.div_mod x a ltac:(lia)). lia. }
  replace ((x - x mod a) mod a =? 0) with true by (symmetry; apply Z.eqb_eq, Z.mod_divide; [lia|done]).
  exists (x - x mod a). split; [done|]. split; [done|]. unfold x in *. lia.
Qed.

(** ** The ring *)

(** Slot [slot] holds [w]. *)
Definition holds (r : GdrRingBuffer) (slot : Z) (w : list Z) (i : Z) : Prop :=
  exists b, buffers r !! Z.to_nat slot = Some b /\ b !! Z.to_nat i = w !! Z.to_nat i.

Definition slot_of (r : GdrRingBuffer) (id : nat) : Z := Z.of_nat id mod n r.

Record inv (depth : Z) (s : State) : Prop := {
  inv_n : 2 <= n (ring s) /\ depth <= n (ring s);
  inv_buffers : Forall (fun k => exists w, handed s !! k_id k = Some w /\ k_len k = zlen w /\
                          forall i, 0 <= i < zlen w -> holds (ring s) (k_slot k) w i) (stream s);
  inv_ids : forall p k, stream s !! p = Some k ->
              (k_id k + length (stream s) = length (handed s) + p)%nat /\ k_slot k = slot_of (ring s) (k_id k);
  inv_cpu : match cpu s with
            | Idle => (idx (ring s) + 1) mod n (ring s) = slot_of (ring s) (length (handed s)) /\ zlen (stream s) <= depth
            | Copying slot src todo =>
                idx (ring s) = slot /\ slot = slot_of (ring s) (length (handed s)) /\ zlen (stream s) < depth /\
                (exists b, buffers (ring s) !! Z.to_nat slot = Some b /\ zlen src <= zlen b) /\
                Forall (fun i => 0 <= i < zlen src) todo /\
                forall i, 0 <= i < zlen src -> i ∉ todo -> holds (ring s) slot src i
            end;
  inv_reads : Forall (fun e : nat * Z * Z => exists w, handed s !! e.1.1 = Some w /\ 0 <= e.1.2 /\ w !! Z.to_nat e.1.2 = Some e.2) (reads s);
}.

(** Fewer batches ahead than slots: the slot being filled belongs to no kernel. *)
Lemma ring_slots_distinct r (i j : nat) :
  0 < n r -> (i < j)%nat -> Z.of_nat j - Z.of_nat i < n r -> slot_of r i <> slot_of r j.
Proof.
  unfold slot_of. intros Hn Hij Hlt E. assert (Hd : (Z.of_nat j - Z.of_nat i) mod n r = 0).
  { rewrite Zminus_mod, E, Z.sub_diag. by rewrite Z.mod_0_l by lia. }
  rewrite Z.mod_small in Hd by lia. lia.
Qed.

Lemma holds_other r slot slot' i v w j :
  0 <= slot -> 0 <= slot' -> slot <> slot' -> holds r slot' w j -> holds (store_elem slot i v r) slot' w j.
Proof.
  intros H0 H1 Hne (b & Hb & Hj). exists b. split; [|done]. cbn. rewrite list_lookup_alter_ne by lia. done.
Qed.

Lemma holds_store r slot i v (src : list Z) j b :
  0 <= i -> 0 <= j -> buffers r !! Z.to_nat slot = Some b -> i < zlen b -> src !! Z.to_nat i = Some v ->
  (j <> i -> holds r slot src j) -> holds (store_elem slot i v r) slot src j.
Proof.
  intros Hi Hj Hb Hlt Hv Hold. exists (<[Z.to_nat i:=v]> b). split; [by cbn; rewrite list_lookup_alter_eq, Hb|].
  destruct (decide (j = i)) as [->|Hne].
  - rewrite list_lookup_insert_eq by (unfold zlen in Hlt; lia). done.
  - rewrite list_lookup_insert_ne by lia. destruct (Hold Hne) as (b' & Hb' & E). congruence.
Qed.

Lemma handed_app (s : State) k w x : handed s !! k = Some w -> (handed s ++ [x]) !! k = Some w.
Proof. apply lookup_app_l_Some. Qed.

Lemma step_inv depth s s' : inv depth s -> step depth s s' -> inv depth s'.
Proof.
  intros [[Hn Hd] Hbuf Hids Hcpu Hrd] Hstep.
  assert (Hpos : forall id, 0 <= slot_of (ring s) id) by (intros id; unfold slot_of; apply Z.mod_pos_bound; lia).
  destruct Hstep as [s src E Hlt r Hf|s slot src todo i v E Hi Hv|s slot src E|s k ks i b v E Hi Hb Hv|s k ks E].
  - rewrite E in Hcpu. destruct Hcpu as [Hidx _]. split; cbn -[py_range]; [done|done|done| |done].
    split; [done|]. split; [exact Hidx|]. split; [done|]. unfold fits in Hf. cbn in Hf.
    destruct (buffers (ring s) !! _) as [b|] eqn:Eb; [|done]. apply andb_true_iff in Hf as [_ Hf]. apply Z.leb_le in Hf.
    split; [by exists b|]. split; [apply Forall_forall; intros i Hi; by apply elem_of_py_range in Hi|].
    intros i Hi Hni. exfalso. apply Hni, elem_of_py_range. done.
  - rewrite E in Hcpu. destruct Hcpu as (Hidx & Hslot & Hlt & (b & Hb & Hlen) & Htodo & Hdone).
    assert (Hir : 0 <= i < zlen src) by (rewrite Forall_forall in Htodo; by apply Htodo).
    split; cbn; [done| |done| |done].
    + apply Forall_forall. intros k Hk. rewrite Forall_forall in Hbuf. destruct (Hbuf k Hk) as (w & Hw & Hkl & Hh).
      exists w. split; [done|]. split; [done|]. intros j Hj. apply list_elem_of_lookup in Hk as [p Hk].
      destruct (Hids _ _ Hk) as [Hid Hks]. apply lookup_lt_Some in Hk. unfold zlen in Hlt.
      apply holds_other; [by rewrite Hslot|by rewrite Hks| |by apply Hh].
      rewrite Hslot, Hks. apply not_eq_sym, ring_slots_distinct; lia.
    + split; [done|]. split; [done|]. split; [done|]. split; [|split].
      * exists (<[Z.to_nat i := v]> b). rewrite list_lookup_alter_eq, Hb. split; [done|]. unfold zlen in *. by rewrite length_insert.
      * apply Forall_forall. intros j Hj. apply list_elem_of_filter in Hj as [_ Hj]. rewrite Forall_forall in Htodo. by apply Htodo.
      * intros j Hj Hnj. apply (holds_store _ _ _ _ _ _ b); [lia|lia|done|lia|done|].
        intros Hne. apply Hdone; [done|]. intros Hin. apply Hnj, list_elem_of_filter. done.
  - rewrite E in Hcpu. destruct Hcpu as (Hidx & Hslot & Hlt & _ & _ & Hdone).
    split; cbn; [done| | | |].
    + apply Forall_app. split.
      * eapply Forall_impl; [exact Hbuf|]. intros k (w & Hw & Hrest). exists w. split; [by apply handed_app|done].
      * apply Forall_singleton. exists src. cbn. split; [by rewrite lookup_app_r, Nat.sub_diag|]. split; [done|].
        intros i Hi. apply Hdone; [done|]. apply not_elem_of_nil.
    + intros p k Hp. rewrite !length_app. cbn. apply lookup_app_Some in Hp as [Hp|[Hge Hp]].
      * destruct (Hids _ _ Hp) as [H1 H2]. split; [lia|done].
      * apply list_lookup_singleton_Some in Hp as [Hp <-]. cbn. split; [lia|done].
    + split; [|unfold zlen in *; rewrite length_app; cbn; lia].
      rewrite Hidx, Hslot, length_app. unfold slot_of. cbn. rewrite Nat2Z.inj_add, Zplus_mod_idemp_l. done.
    + eapply Forall_impl; [exact Hrd|]. intros e (w & Hw & Hrest). exists w. split; [by apply handed_app|done].
  - split; cbn; [done|done|done|done|]. apply Forall_app. split; [done|]. apply Forall_singleton. cbn.
    rewrite E in Hbuf. apply Forall_cons in Hbuf as [(w & Hw & Hkl & Hh) _]. exists w. split; [done|]. split; [lia|].
    destruct (Hh i ltac:(lia)) as (b' & Hb' & E'). rewrite Hb in Hb'. injection Hb' as <-. by rewrite <-E'.
  - rewrite E in Hbuf, Hids. apply Forall_cons in Hbuf as [_ Hbuf]. split; cbn; [done|done| | |done].
    + intros p k' Hp. destruct (Hids (S p) k' Hp) as [H1 H2]. cbn in H1. split; [lia|done].
    + rewrite E in Hcpu. unfold zlen in *. cbn in Hcpu. destruct (cpu s) as [|slot src todo].
      * split; [apply Hcpu|lia].
      * destruct Hcpu as (H1 & H2 & H3 & H4). split; [done|]. split; [done|]. split; [lia|done].
Qed.

Lemma start_inv depth blank n_slots r :
  new_ring blank n_slots = Ok r -> 0 <= depth <= n_slots -> inv depth (start r).
Proof.
  unfold new_ring. intros E Hd. inv_ok. apply Z.geb_le in H. split; cbn; [lia|constructor| | |constructor].
  - done.
  - split; [done|]. unfold zlen. cbn. lia.
Qed.

(** C29. However the stores of the CPU and the reads of the kernels interleave, every
    element a kernel reads is the element handed over for its batch, as long as the
    CPU has at most [n_slots] batches launched and not retired. *)
Theorem ring_intact depth blank n_slots r s id i v :
  new_ring blank n_slots = Ok r -> 0 <= depth <= n_slots -> rtc (step depth) (start r) s ->
  (id, i, v) ∈ reads s -> exists w, handed s !! id = Some w /\ w !! Z.to_nat i = Some v.
Proof.
  intros Hr Hd Hs Hin. assert (Hinv : inv depth s).
  { pose proof (start_inv depth blank n_slots r Hr Hd) as H0. clear Hin. revert H0.
    induction Hs as [|s s1 s2 Hst _ IH]; [done|]. intros H0. apply IH. by eapply step_inv. }
  pose proof (inv_reads _ _ Hinv) as Hrd. rewrite Forall_forall in Hrd. destruct (Hrd _ Hin) as (w & Hw & _ & Hv). by exists w.
Qed.

(** One batch staged by a CPU that does not wait. *)
Definition handing (x : Z) (r : GdrRingBuffer) : GdrRingBuffer :=
  let r := get_one_handle r in store_elem (idx r) 0 x r.

Lemma hand_over depth s x :
  cpu s = Idle -> zlen (stream s) < depth -> 2 <= n (ring s) -> fits [x] (idx (get_one_handle (ring s))) (get_one_handle (ring s)) = true ->
  rtc (step depth) s {| ring := handing x (ring s); cpu := Idle;
    stream := stream s ++ [{| k_id := length (handed s); k_slot := idx (get_one_handle (ring s)); k_len := 1 |}];
    handed := handed s ++ [[x]]; reads := reads s |}.
Proof.
  intros Hc Hd Hn Hf. eapply rtc_l; [by apply (step_begin depth s [x])|].
  eapply rtc_l; [eapply (step_store _ _ _ _ _ 0 x); [done|by left|done]|].
  eapply rtc_l; [by eapply step_launch|]. apply rtc_refl.
Qed.

Definition two_slots : GdrRingBuffer := {| buffers := [[0]; [0]]; n := 2; idx := -1 |}.

(** Three batches on two slots: the first kernel reads the third batch. *)
Lemma ring_lapped :
  exists s, rtc (step 3) (start two_slots) s /\ handed s !! 0%nat = Some [5] /\ (0%nat, 0, 7) ∈ reads s.
Proof.
  eexists. split; [|split].
  - etrans; [apply (hand_over 3 _ 5); done|]. cbn.
    etrans; [apply (hand_over 3 _ 6); done|]. cbn.
    etrans; [apply (hand_over 3 _ 7); done|]. cbn.
    eapply rtc_l; [by eapply (step_read _ _ _ _ 0 _ 7)|]. apply rtc_refl.
  - done.
  - by left.
Qed.

Lemma ring_two_batches :
  exists s, rtc (step 2) (start two_slots) s /\ (0%nat, 0, 5) ∈ reads s.
Proof.
  eexists. split.
  - etrans; [apply (hand_over 2 _ 5); done|]. cbn.
    etrans; [apply (hand_over 2 _ 6); done|]. cbn.
    eapply rtc_l; [by eapply (step_read _ _ _ _ 0 _ 5)|]. apply rtc_refl.
  - by left.
Qed.

Lemma ring_intact_witness :
  new_ring [0] 2 = Ok two_slots /\
  exists s w, rtc (step 2) (start two_slots) s /\ (0%nat, 0, 5) ∈ reads s /\ handed s !! 0%nat = Some w /\ w !! 0%nat = Some 5.
Proof.
  split; [reflexivity|]. destruct ring_two_batches as (s & Hs & Hin).
  destruct (ring_intact 2 [0] 2 two_slots s 0 0 5 eq_refl ltac:(lia) Hs Hin) as (w & Hw & Hv). by exists s, w.
Defined.

Lemma aligned_tensor_exact_witness :
  exists addr, get_cuda_aligned_tensor 70001 40 4 GPU_PAGE_SIZE = Ok (addr, 160) /\ (GPU_PAGE_SIZE | addr) /\ 70001 <= addr.
Proof.
  destruct (aligned_tensor_exact 70001 40 4 16 ltac:(lia) ltac:(lia) ltac:(lia) ltac:(lia)) as (addr & E & Hd & Hr & _).
  exists addr. split; [exact E|]. split; [exact Hd|lia].
Defined.
End GdrRing.
