(* ===== verification/Launch.v ===== *)
(** * What the two executors share
    ([executor/executor.py], [executor/cuda_graph.py], the copy kernels of
    [csrc/cuda_ops/cuda_graph.cu] and [csrc/cuda_ops/indices_copy_pad.cu])

    The positions of a worker's layers, the captured graphs of a bucket, the choice of
    a bucket, and the launches of the fused copy kernels.  A launch of [T] tokens has
    one block per two tokens and a last block whose 128 threads copy the vectors; the
    hardware runs these programs in any order, so the lemmas hold for every permutation
    of them. *)

From S2P Require Import Prelude.

Module Launch.

(** [x[i]] on the device: no negative indices. *)
Definition at_index {A} (l : list A) (i : Z) : res A :=
  if i <? 0 then Raise IndexError else of_option IndexError (l !! Z.to_nat i).

(** ** Layers *)

(** [Executor.__init__]: the position of each layer id. *)
Definition set_mapping (m : list Z) (x : Z * Z) : res (list Z) := py_set m x.2 x.1.

Definition layer_mappings (layer_ids : list Z) : res (list Z) :=
  py_for set_mapping (enumerate layer_ids) (replicate (Z.to_nat (foldr Z.max 0 layer_ids + 1)) 0).

(** ** Buckets *)

(** [range(a, b, s)] *)
Definition range_step (a b s : Z) : list Z := (fun k => a + s * k) <$> py_range ((b - a + s - 1) / s).

Fixpoint _get_bucket_by_num_tokens (graph_batch_sizes : list Z) (batch_size : Z) : res Z :=
  match graph_batch_sizes with
  | [] => Raise AssertionError
  | size :: l => if size >=? batch_size then Ok size else _get_bucket_by_num_tokens l batch_size
  end.

(** ** Stores

    Stores of the threads of a launch, in the order they happen. *)
Definition stores {X} (idx : list Z) (v : nat -> option X) (l : list X) : list X :=
  foldl (fun l i => match v (Z.to_nat i) with Some x => <[Z.to_nat i := x]> l | None => l end) l idx.

(** ** The launches of the copy kernels

    A program is a thread of the metadata block or a whole token block. *)

Inductive Program : Type := MetaThread (thread_id : Z) | TokenBlock (block_id : Z).

Definition TOKENS_PER_BLOCK : Z := 2.
Definition THREADS : Z := 128.

(** [for (i = thread_id; i < n; i += num_threads)] *)
Definition strided (thread_id n : Z) : list Z := range_step thread_id n THREADS.

(** The tokens of a token block; it returns at the first past the batch. *)
Definition block_tokens (T block_id : Z) : list Z :=
  filter (fun token => token < T) ((fun t => block_id * TOKENS_PER_BLOCK + t) <$> py_range TOKENS_PER_BLOCK).

Definition meta_value (T : Z) (src : list Z) (pad : Z) (i : nat) : option Z :=
  if Z.of_nat i <? T then src !! i else Some pad.

(** The programs of a launch on [T] tokens. *)
Definition launch (T : Z) : list Program :=
  (TokenBlock <$> py_range ((T + TOKENS_PER_BLOCK - 1) / TOKENS_PER_BLOCK)) ++ (MetaThread <$> py_range THREADS).

(** ** Capture

    [graph_list[layer_id]] of a bucket after the capture: the layer it runs. *)
Definition capture (layer_ids : list Z) : res (list (option Z)) :=
  py_for (fun gs layer_id => _ ← py_get gs layer_id; py_set gs layer_id (Some layer_id)) layer_ids
    (replicate (length layer_ids) None).

(** Where the outputs of a layer were appended. *)
Definition output_index (layer_ids : list Z) (layer_id : Z) : option Z :=
  (fun x : nat * Z => Z.of_nat x.1) <$> list_find (fun l => l = layer_id) layer_ids.

(** ** Buckets: the smallest that fits *)

Lemma bucket_spec sizes n :
  StronglySorted Z.lt sizes ->
  (exists B, _get_bucket_by_num_tokens sizes n = Ok B /\ B ∈ sizes /\ n <= B /\ forall s, s ∈ sizes -> n <= s -> B <= s) \/
  (_get_bucket_by_num_tokens sizes n = Raise AssertionError /\ Forall (fun s => s < n) sizes).
Proof.
  induction 1 as [|s sizes Hs IH Hall]; [by right|]. cbn [_get_bucket_by_num_tokens]. rewrite Z.geb_leb. destruct (Z.leb_spec n s) as [Hn|Hn].
  - left. exists s. split; [done|]. split; [by left|]. split; [done|]. intros x Hx Hnx. apply elem_of_cons in Hx as [->|Hx]; [done|].
    rewrite Forall_forall in Hall. specialize (Hall _ Hx). lia.
  - destruct IH as [(B & -> & HB & HnB & Hmin)|[-> Hall']].
    + left. exists B. split; [done|]. split; [by right|]. split; [done|]. intros x Hx Hnx. apply elem_of_cons in Hx as [->|Hx]; [lia|by apply Hmin].
    + right. split; [done|]. by constructor.
Qed.

(** ** What stores leave *)

Lemma stores_lookup {X} idx (v : nat -> option X) l (k : nat) :
  Forall (fun i => 0 <= i) idx ->
  stores idx v l !! k = if decide (Z.of_nat k ∈ idx) then (match v k with Some x => if decide (k < length l)%nat then Some x else None | None => l !! k end)
                        else l !! k.
Proof.
  intros Hn. unfold stores. revert l. induction Hn as [|i idx Hi _ IH]; intros l; cbn [foldl].
  - rewrite decide_False; [done|]. by apply not_elem_of_nil.
  - rewrite IH. destruct (decide (Z.of_nat k = i)) as [<-|Hne].
    + rewrite (decide_True (P := Z.of_nat k ∈ Z.of_nat k :: idx)) by by left. rewrite Nat2Z.id. destruct (v k) as [x|]; [|by destruct (decide (Z.of_nat k ∈ idx))].
      rewrite length_insert. destruct (decide (k < length l)%nat) as [Hk|Hk].
      * rewrite list_lookup_insert_eq by done. by destruct (decide _).
      * rewrite (lookup_ge_None_2 (<[k:=x]> l)) by (rewrite length_insert; lia). by destruct (decide _).
    + assert (Hlk : (match v (Z.to_nat i) with Some x => <[Z.to_nat i := x]> l | None => l end) !! k = l !! k).
      { destruct (v (Z.to_nat i)); [|done]. rewrite list_lookup_insert_ne; [done|]. lia. }
      assert (Hlen : length (match v (Z.to_nat i) with Some x => <[Z.to_nat i := x]> l | None => l end) = length l).
      { destruct (v (Z.to_nat i)); [|done]. by rewrite length_insert. }
      rewrite Hlk, Hlen. destruct (decide (Z.of_nat k ∈ idx)) as [Hin|Hin].
      * rewrite (decide_True (P := Z.of_nat k ∈ i :: idx)) by by right. done.
      * rewrite (decide_False (P := Z.of_nat k ∈ i :: idx)); [done|]. rewrite elem_of_cons. naive_solver.
Qed.

Lemma stores_length {X} idx (v : nat -> option X) l : length (stores idx v l) = length l.
Proof.
  unfold stores. revert l. induction idx as [|i idx IH]; intros l; [done|]. cbn [foldl]. rewrite IH.
  destruct (v (Z.to_nat i)); [|done]. by rewrite length_insert.
Qed.

Lemma stores_app {X} a b (v : nat -> option X) l : stores (a ++ b) v l = stores b v (stores a v l).
Proof. unfold stores. by rewrite foldl_app. Qed.

Lemma strided_spec t n i : 0 <= t < THREADS -> 0 <= i -> i ∈ strided t n <-> i < n /\ i mod THREADS = t.
Proof.
  unfold strided, range_step, THREADS. intros Ht Hi. rewrite list_elem_of_fmap. split.
  - intros (k & -> & Hk). apply elem_of_py_range in Hk. split.
    + assert (128 * (k + 1) <= n - t + 128 - 1) by (apply Z.le_trans with (128 * ((n - t + 128 - 1) / 128)); [lia|apply Z.mul_div_le; lia]). lia.
    + rewrite (Z.mul_comm 128 k), Z.mod_add by lia. apply Z.mod_small. lia.
  - intros [Hn Hm]. exists (i / 128). pose proof (Z.div_mod i 128 ltac:(lia)) as Hd. split; [lia|]. apply elem_of_py_range.
    split; [apply Z.div_pos; lia|]. apply Z.lt_le_trans with ((i - t + 128) / 128).
    + replace (i - t + 128) with ((i / 128 + 1) * 128) by lia. rewrite Z.div_mul by lia. lia.
    + apply Z.div_le_mono; lia.
Qed.

Lemma strided_nonneg t n : 0 <= t -> Forall (fun i => 0 <= i) (strided t n).
Proof.
  intros Ht. apply Forall_fmap, Forall_forall. intros k Hk. apply elem_of_py_range in Hk. cbn. unfold THREADS. lia.
Qed.

Lemma block_tokens_spec T k i : 0 <= i -> i ∈ block_tokens T k <-> i < T /\ i / TOKENS_PER_BLOCK = k.
Proof.
  unfold block_tokens, TOKENS_PER_BLOCK. intros Hi. rewrite list_elem_of_filter, list_elem_of_fmap. split.
  - intros [HT (t & -> & Ht)]. apply elem_of_py_range in Ht. split; [done|].
    symmetry. apply (Z.div_unique _ _ _ t); lia.
  - intros [HT Hk]. split; [done|]. exists (i mod 2). pose proof (Z.div_mod i 2 ltac:(lia)). pose proof (Z.mod_pos_bound i 2 ltac:(lia)).
    split; [lia|]. apply elem_of_py_range. lia.
Qed.

Lemma block_tokens_nonneg T k : 0 <= k -> Forall (fun i => 0 <= i) (block_tokens T k).
Proof.
  intros Hk. apply Forall_forall. intros i Hi. apply list_elem_of_filter in Hi as [_ Hi]. apply list_elem_of_fmap in Hi as (t & -> & Ht).
  apply elem_of_py_range in Ht. unfold TOKENS_PER_BLOCK. lia.
Qed.

(** ** What the kernel leaves in the buffers, in any order of its programs *)

Definition meta_idx (n : Z) (p : Program) : list Z := match p with MetaThread t => strided t n | TokenBlock _ => [] end.
Definition token_idx (T : Z) (p : Program) : list Z := match p with TokenBlock k => block_tokens T k | MetaThread _ => [] end.

Section Kernel.
Context (sched : list Program) (T : nat) (padded : Z).
Hypothesis Hsched : sched ≡ₚ launch (Z.of_nat T).

Lemma launch_meta n i : 0 <= i -> i ∈ (sched ≫= meta_idx n) <-> i < n.
Proof.
  intros Hi. rewrite Hsched. unfold launch. rewrite bind_app, elem_of_app. split.
  - intros [Hin|Hin]; apply list_elem_of_bind in Hin as (p & Hil & Hp);
      apply list_elem_of_fmap in Hp as (t & -> & Ht); cbn in Hil; [by apply not_elem_of_nil in Hil|].
    apply elem_of_py_range in Ht. by apply strided_spec in Hil as [? _].
  - intros Hn. right. apply list_elem_of_bind. exists (MetaThread (i mod THREADS)). split.
    + apply strided_spec; [|done|done]. apply Z.mod_pos_bound. done.
    + apply list_elem_of_fmap. eexists. split; [done|].
      apply elem_of_py_range. by apply Z.mod_pos_bound.
Qed.

Lemma launch_tokens i : 0 <= i -> i ∈ sched ≫= token_idx (Z.of_nat T) <-> i < Z.of_nat T.
Proof.
  intros Hi. rewrite Hsched. unfold launch. rewrite bind_app, elem_of_app. split.
  - intros [Hin|Hin]; apply list_elem_of_bind in Hin as (p & Hil & Hp);
      apply list_elem_of_fmap in Hp as (t & -> & Ht); cbn in Hil; [|by apply not_elem_of_nil in Hil].
    by apply block_tokens_spec in Hil as [? _].
  - intros Hn. left. apply list_elem_of_bind. exists (TokenBlock (i / TOKENS_PER_BLOCK)). split.
    + by apply block_tokens_spec.
    + apply list_elem_of_fmap. eexists. split; [done|].
      apply elem_of_py_range. unfold TOKENS_PER_BLOCK. split; [apply Z.div_pos; lia|].
      apply Z.div_lt_upper_bound; [lia|]. pose proof (Z.div_mod (Z.of_nat T + 2 - 1) 2 ltac:(lia)).
      pose proof (Z.mod_pos_bound (Z.of_nat T + 2 - 1) 2 ltac:(lia)). lia.
Qed.

Lemma sched_nonneg n : Forall (fun i => 0 <= i) ((sched ≫= meta_idx n)) /\ Forall (fun i => 0 <= i) (sched ≫= token_idx (Z.of_nat T)).
Proof.
  split; apply Forall_forall; intros i Hi; apply list_elem_of_bind in Hi as (p & Hi & Hp); rewrite Hsched in Hp; apply elem_of_app in Hp as [Hp|Hp];
    apply list_elem_of_fmap in Hp as (t & -> & Ht); apply elem_of_py_range in Ht; cbn in Hi; try (by apply not_elem_of_nil in Hi).
  - pose proof (strided_nonneg t n ltac:(lia)) as Hf. rewrite Forall_forall in Hf. by apply Hf.
  - pose proof (block_tokens_nonneg (Z.of_nat T) t ltac:(lia)) as Hf. rewrite Forall_forall in Hf. by apply Hf.
Qed.

Lemma meta_buffer (src buf : list Z) pad (k : nat) :
  (k < length buf)%nat -> Z.of_nat k < padded -> length src = T ->
  stores (sched ≫= meta_idx padded) (meta_value (Z.of_nat T) src pad) buf !! k
    = if decide (k < T)%nat then src !! k else Some pad.
Proof.
  intros Hk Hp Hsrc. destruct (sched_nonneg padded) as [Hn _]. rewrite stores_lookup by done.
  rewrite decide_True by (apply launch_meta; lia). unfold meta_value.
  destruct (decide (k < T)%nat) as [Hlt|Hge].
  - rewrite (proj2 (Z.ltb_lt _ _)) by lia. destruct (lookup_lt_is_Some_2 src k) as [x Hx]; [lia|]. rewrite Hx. by rewrite decide_True.
  - rewrite (proj2 (Z.ltb_ge _ _)) by lia. by rewrite decide_True.
Qed.

Lemma row_buffer {X} (src buf : list X) (k : nat) :
  length src = T -> (k < T <= length buf)%nat ->
  stores (sched ≫= token_idx (Z.of_nat T)) (fun i => src !! i) buf !! k = src !! k.
Proof.
  intros Hsrc Hk. destruct (sched_nonneg padded) as [_ Hn]. rewrite stores_lookup by done.
  rewrite decide_True by (apply launch_tokens; lia).
  destruct (lookup_lt_is_Some_2 src k) as [x Hx]; [lia|]. rewrite Hx. rewrite decide_True by lia. done.
Qed.
End Kernel.

(** ** Set-up *)

Lemma set_prefix {X} (f : list X -> Z -> res (list X)) (v : Z -> X) (d : X) L :
  (forall l i, 0 <= i < zlen l -> f l i = Ok (<[Z.to_nat i := v i]> l)) ->
  py_for f (py_range L) (replicate (Z.to_nat L) d) = Ok (v <$> py_range L).
Proof.
  intros Hf.
  destruct (py_for_total (fun pre l => length l = Z.to_nat L /\ forall k : nat, (k < length pre)%nat -> l !! k = Some (v (Z.of_nat k)))
    f (py_range L) (replicate (Z.to_nat L) d)) as (l & Hl & Hlen & Hlk).
  - split; [by rewrite length_replicate|]. cbn. lia.
  - intros pre i suf l Hs [Hlen Hlk]. assert (Hi : i = Z.of_nat (length pre)).
    { assert (E : py_range L !! length pre = Some i) by by rewrite Hs, list_lookup_middle.
      unfold py_range in E. apply lookup_seqZ in E as [-> _]. lia. }
    assert (Hlt : (length pre < Z.to_nat L)%nat).
    { pose proof (py_range_length L) as E. rewrite Hs, length_app in E. cbn in E. lia. }
    rewrite Hf by (unfold zlen; lia). eexists. split; [done|]. rewrite length_insert. split; [done|]. intros k Hk.
    rewrite length_app in Hk. cbn in Hk. rewrite Hi, Nat2Z.id. destruct (decide (k = length pre)) as [->|Hne].
    + apply list_lookup_insert_eq. lia.
    + rewrite list_lookup_insert_ne by done. apply Hlk. lia.
  - rewrite Hl. f_equal. apply list_eq. intros k. rewrite py_range_length in Hlk. destruct (decide (k < Z.to_nat L)%nat) as [Hk|Hk].
    + rewrite Hlk by done. rewrite list_lookup_fmap. unfold py_range. rewrite lookup_seqZ_lt by lia. cbn. do 2 f_equal.
    + rewrite !lookup_ge_None_2; [done|rewrite length_fmap, py_range_length; lia|lia].
Qed.

Lemma capture_range L : capture (py_range L) = Ok (Some <$> py_range L).
Proof.
  unfold capture. rewrite py_range_length. apply set_prefix. intros l i Hi.
  destruct (lookup_lt_is_Some_2 l (Z.to_nat i)) as [x Hx]; [unfold zlen in Hi; lia|].
  rewrite (py_get_lookup _ _ x) by (done || lia). cbn [mbind res_bind]. by apply py_set_nonneg.
Qed.

Lemma enumerate_range L : enumerate (py_range L) = (fun i => (i, i)) <$> py_range L.
Proof.
  apply list_eq. intros k. destruct (py_range L !! k) as [i|] eqn:E.
  - rewrite (enum_lookup _ _ _ E), list_lookup_fmap, E. cbn. unfold py_range in E. apply lookup_seqZ in E as [-> _]. do 2 f_equal.
  - rewrite list_lookup_fmap, E. cbn. apply lookup_ge_None. rewrite enum_length. by apply lookup_ge_None.
Qed.

Lemma range_max L : 1 <= L -> foldr Z.max 0 (py_range L) = L - 1.
Proof.
  intros HL. assert (H1 : foldr Z.max 0 (py_range L) <= L - 1).
  { assert (Hall : Forall (fun i => i <= L - 1) (py_range L)) by (apply Forall_forall; intros i Hi; apply elem_of_py_range in Hi; lia).
    induction Hall; cbn; lia. }
  assert (H2 : L - 1 <= foldr Z.max 0 (py_range L)).
  { assert (Hin : L - 1 ∈ py_range L) by (apply elem_of_py_range; lia). revert Hin. generalize (py_range L) as l. intros l Hin.
    induction l as [|x l IH]; [by apply not_elem_of_nil in Hin|]. cbn. apply elem_of_cons in Hin as [<-|Hin]; [lia|]. specialize (IH Hin). lia. }
  lia.
Qed.

Lemma mappings_range L : 1 <= L -> layer_mappings (py_range L) = Ok (py_range L).
Proof.
  intros HL. unfold layer_mappings. rewrite enumerate_range, py_for_fmap, range_max by done. replace (L - 1 + 1) with L by lia.
  rewrite <-(list_fmap_id (py_range L)) at 2. apply set_prefix. intros l i Hi. unfold set_mapping. cbn [fst snd]. by apply py_set_nonneg.
Qed.

Lemma output_range L layer_id : 0 <= layer_id < L -> output_index (py_range L) layer_id = Some layer_id.
Proof.
  intros Hl. unfold output_index. assert (E : list_find (fun l => l = layer_id) (py_range L) = Some (Z.to_nat layer_id, layer_id)).
  { apply list_find_Some. split; [unfold py_range; rewrite lookup_seqZ_lt by lia; f_equal; lia|]. split; [done|].
    intros j y Hj Hlt. unfold py_range in Hj. apply lookup_seqZ in Hj as [-> _]. lia. }
  rewrite E. cbn. f_equal. lia.
Qed.

Lemma at_index_lookup {X} (l : list X) i x : 0 <= i -> l !! Z.to_nat i = Some x -> at_index l i = Ok x.
Proof. intros Hi Hx. unfold at_index. rewrite (proj2 (Z.ltb_ge _ _)) by done. by rewrite Hx. Qed.

Lemma at_index_nat {X} (l : list X) (i : nat) x : l !! i = Some x -> at_index l (Z.of_nat i) = Ok x.
Proof. intros Hx. apply at_index_lookup; [lia|by rewrite Nat2Z.id]. Qed.

End Launch.
