(* ===== verification/AttnExecutor.v ===== *)
(** * The attention executor and its CUDA graphs
    ([executor/executor.py], [executor/cuda_graph.py], [models/attention.py],
    [csrc/cuda_ops/cuda_graph.cu])

    A decode batch is executed eagerly or by replaying a graph captured for a fixed
    bucket of rows: the batch is copied into static buffers, the rest of the bucket
    is padding that runs through the same kernels.  The file models the buckets, the
    fused copy kernel thread by thread, the replay on whatever earlier batches left
    in the buffers, and the effect of a layer on the two memories it writes, the
    paged KV cache and the residual stash; it proves that the replay returns what the
    eager execution returns and leaves every page and stash row in use the same.

    The tensor computation of a row (norms, projections, flash attention over the
    gathered keys and values, gating) is a parameter.  A tensor is the list of its
    rows; the kernels copy a row in vectors of eight elements, which is the whole row
    because the hidden sizes of the models are multiples of eight. *)

From S2P Require Import Prelude Launch.

Module AttnExecutor.
Import Launch.


Section Layer.
Context {H K Q A R : Type}.
Context (page : Z).
Context (stash_read : Z -> bool).
Context (add : H -> H -> H).
Context (qkv : Z -> Z -> H -> Q * K).
Context (attend : Z -> Q -> list K -> A).
Context (post : Z -> A -> H -> H * H).
Context (gate : Z -> option Z -> Z -> H -> H * R).

(** What a layer reads of one row of a batch. *)
Record Row : Type := {
  r_position : Z;
  r_hidden : H;
  r_context : Z;
  r_blocks : list Z;
  r_request : option Z;
  r_slot : option Z;
}.

(** The KV pages of every layer and the residual stash. *)
Record Memory : Type := { pages : list (list (list K)); stash : list H }.

Definition load_residual (vid : Z) (s : list H) (r : Row) : res H :=
  match r_slot r with
  | Some slot => if stash_read vid then x ← at_index s slot; Ok (add (r_hidden r) x) else Ok (r_hidden r)
  | None => Ok (r_hidden r)
  end.

(** The page and offset of token [p] of a row. *)
Definition cell (r : Row) (p : Z) : res (Z * Z) := b ← at_index (r_blocks r) (p / page); Ok (b, p mod page).

Definition kv_read (pg : list (list K)) (c : Z * Z) : res K := row ← at_index pg c.1; at_index row c.2.

Definition kv_write (pg : list (list K)) (c : Z * Z) (e : K) : res (list (list K)) :=
  row ← at_index pg c.1;
  _ ← at_index row c.2;
  Ok (<[Z.to_nat c.1 := <[Z.to_nat c.2 := e]> row]> pg).

(** [flash_attn_with_kvcache]: the new keys and values are appended at the context
    length, then the row attends over the context and itself. *)
Definition kv_append (pg : list (list K)) (x : Row * H * (Q * K)) : res (list (list K)) :=
  c ← cell x.1.1 (r_context x.1.1); kv_write pg c x.2.2.

Definition prepare (vid : Z) (s : list H) (r : Row) : res (Row * H * (Q * K)) :=
  h ← load_residual vid s r; Ok (r, h, qkv vid (r_position r) h).

Definition attend_row (vid : Z) (pg : list (list K)) (x : Row * H * (Q * K)) : res (Row * (H * H)) :=
  es ← py_map (fun p => c ← cell x.1.1 p; kv_read pg c) (py_range (r_context x.1.1 + 1));
  Ok (x.1.1, post vid (attend vid x.2.1 es) x.1.2).

Definition store_residual (s : list H) (x : Row * (H * H)) : res (list H) :=
  match r_slot x.1 with
  | Some slot => _ ← at_index s slot; Ok (<[Z.to_nat slot := x.2.2]> s)
  | None => Ok s
  end.

(** [MoEAttention.forward] *)
Definition forward (vid : Z) (rows : list Row) (m : Memory) : res (list (H * R) * Memory) :=
  xs ← py_map (prepare vid (stash m)) rows;
  pg ← at_index (pages m) vid;
  pg ← py_for kv_append xs pg;
  ys ← py_map (attend_row vid pg) xs;
  s ← py_for store_residual ys (stash m);
  Ok ((fun y : Row * (H * H) => gate vid (r_request y.1) (r_position y.1) y.2.1) <$> ys,
      {| pages := <[Z.to_nat vid := pg]> (pages m); stash := s |}).

(** ** Batches and the eager path *)

Record Batch : Type := {
  b_positions : list Z;
  b_hidden : list H;
  b_block_tables : list (list Z);
  b_slot_mapping : list Z;
  b_seq_lens : list Z;
  b_context_lens : list Z;
  b_seq_start_loc : list Z;
  b_requests : option (list Z);
  b_slots : option (list Z);
}.

Definition num_tokens (b : Batch) : Z := zlen (b_hidden b).

(** Row [i] of the tensors a layer is called with. *)
Definition make_row (positions context : list Z) (blocks : list (list Z)) (requests slots : option (list Z))
    (i : nat) (h : H) : Row :=
  {| r_position := default 0 (positions !! i); r_hidden := h; r_context := default 0 (context !! i);
     r_blocks := default [] (blocks !! i); r_request := (fun l : list Z => default 0 (l !! i)) <$> requests;
     r_slot := (fun l : list Z => default 0 (l !! i)) <$> slots |}.

Definition batch_rows (has_profile_gating : bool) (b : Batch) : list Row :=
  imap (make_row (b_positions b) (b_context_lens b) (b_block_tables b)
          (if has_profile_gating then b_requests b else None) (b_slots b)) (b_hidden b).

Definition execute_eager (has_profile_gating : bool) (mappings : list Z) (layer_id : Z) (b : Batch) (m : Memory)
    : res (list (H * R) * Memory) :=
  vid ← py_get mappings layer_id;
  forward vid (batch_rows has_profile_gating b) m.

(** ** Buckets *)

Definition bsz_stage : list Z := [8; 128; 256; 512; 1024].
Definition bsz_inc : list Z := [0; 32; 64; 128; 256].

Fixpoint bucket_stages (max_bsz : Z) (stages : list (Z * Z * Z)) (graph_bsz : list Z) : res (list Z) :=
  match stages with
  | [] => Ok graph_bsz
  | (a, b, inc) :: stages =>
      if max_bsz >? b then bucket_stages max_bsz stages (graph_bsz ++ range_step a b inc)
      else
        let graph_bsz := graph_bsz ++ range_step a max_bsz inc in
        l ← py_get graph_bsz (-1);
        Ok (if negb (l =? max_bsz) then graph_bsz ++ [max_bsz] else graph_bsz)
  end.

Definition get_graph_batch_sizes (graph_max_batch_size : Z) : res (list Z) :=
  _ ← py_assert (graph_max_batch_size <=? 1024);
  bucket_stages graph_max_batch_size (zip (zip bsz_stage (drop 1 bsz_stage)) (drop 1 bsz_inc)) [1].

(** ** Static buffers *)

Record Static : Type := {
  static_input : list H;
  static_block_table : list (list Z);
  static_slot_mapping : list Z;
  static_positions : list Z;
  static_request_ids : list Z;
  static_stash_slots : list Z;
  static_seq_lens : list Z;
  static_context_lens : list Z;
  static_seq_start_loc : list Z;
  static_outputs : gmap (Z * Z) (list (H * R));
}.

(** Columns [0 .. B-1] of a row of the block table. *)
Definition copy_row (src dst : list Z) : list Z := stores (py_range (zlen src)) (fun i => src !! i) dst.

(** The block-table rows of the tokens [idx]. *)
Definition copy_rows (src : list (list Z)) (idx : list Z) (bt : list (list Z)) : list (list Z) :=
  foldl (fun bt i => alter (copy_row (default [] (src !! Z.to_nat i))) (Z.to_nat i) bt) bt idx.

Definition run_program (b : Batch) (padded_batch_size : Z) (st : Static) (p : Program) : Static :=
  let T := num_tokens b in
  match p with
  | MetaThread t =>
      let idx := strided t padded_batch_size in
      {| static_input := static_input st; static_block_table := static_block_table st;
         static_slot_mapping := stores idx (meta_value T (b_slot_mapping b) (-1)) (static_slot_mapping st);
         static_positions := stores idx (meta_value T (b_positions b) 0) (static_positions st);
         static_request_ids := static_request_ids st; static_stash_slots := static_stash_slots st;
         static_seq_lens := stores idx (meta_value T (b_seq_lens b) 0) (static_seq_lens st);
         static_context_lens := stores idx (meta_value T (b_context_lens b) 0) (static_context_lens st);
         static_seq_start_loc := stores (strided t (padded_batch_size + 1)) (meta_value (T + 1) (b_seq_start_loc b) 0)
                                   (static_seq_start_loc st);
         static_outputs := static_outputs st |}
  | TokenBlock k =>
      let idx := block_tokens T k in
      {| static_input := stores idx (fun i => b_hidden b !! i) (static_input st);
         static_block_table := copy_rows (b_block_tables b) idx (static_block_table st);
         static_slot_mapping := static_slot_mapping st; static_positions := static_positions st;
         static_request_ids := static_request_ids st; static_stash_slots := static_stash_slots st;
         static_seq_lens := static_seq_lens st; static_context_lens := static_context_lens st;
         static_seq_start_loc := static_seq_start_loc st;
     static_outputs := static_outputs st |}
  end.

(** [preprocess_fused_cuda]; the hardware runs the programs in some order [sched]. *)
Definition cuda_graph_preprocess (sched : list Program) (b : Batch) (padded_batch_size : Z) (st : Static) : Static :=
  foldl (run_program b padded_batch_size) st sched.

(** [x[lo : lo + len(src)].copy_(src)] and [x[lo : hi].fill_(v)] *)
Definition copy_slice (src dst : list Z) : list Z := src ++ drop (length src) dst.
Definition fill_slice (lo hi v : Z) (l : list Z) : list Z :=
  imap (fun i x => if (lo <=? Z.of_nat i) && (Z.of_nat i <? hi) then v else x) l.

Definition with_requests (x : list Z) (st : Static) : Static :=
  {| static_input := static_input st; static_block_table := static_block_table st;
     static_slot_mapping := static_slot_mapping st; static_positions := static_positions st;
     static_request_ids := x; static_stash_slots := static_stash_slots st; static_seq_lens := static_seq_lens st;
     static_context_lens := static_context_lens st; static_seq_start_loc := static_seq_start_loc st;
     static_outputs := static_outputs st |}.
Definition with_slots (x : list Z) (st : Static) : Static :=
  {| static_input := static_input st; static_block_table := static_block_table st;
     static_slot_mapping := static_slot_mapping st; static_positions := static_positions st;
     static_request_ids := static_request_ids st; static_stash_slots := x; static_seq_lens := static_seq_lens st;
     static_context_lens := static_context_lens st; static_seq_start_loc := static_seq_start_loc st;
     static_outputs := static_outputs st |}.
Definition with_block_table (x : list (list Z)) (st : Static) : Static :=
  {| static_input := static_input st; static_block_table := x;
     static_slot_mapping := static_slot_mapping st; static_positions := static_positions st;
     static_request_ids := static_request_ids st; static_stash_slots := static_stash_slots st;
     static_seq_lens := static_seq_lens st; static_context_lens := static_context_lens st;
     static_seq_start_loc := static_seq_start_loc st;
     static_outputs := static_outputs st |}.

Definition with_outputs (x : gmap (Z * Z) (list (H * R))) (st : Static) : Static :=
  {| static_input := static_input st; static_block_table := static_block_table st;
     static_slot_mapping := static_slot_mapping st; static_positions := static_positions st;
     static_request_ids := static_request_ids st; static_stash_slots := static_stash_slots st;
     static_seq_lens := static_seq_lens st; static_context_lens := static_context_lens st;
     static_seq_start_loc := static_seq_start_loc st; static_outputs := x |}.

(** ** Capture and replay *)

Record GraphExecutor : Type := {
  has_profile_gating : bool;
  mappings : list Z;
  graph_batch_sizes : list Z;
  layer_ids : list Z;
  graphs : list (option Z);
  capture_width : Z;
  stash_scratch_slot : Z;
  kv_scratch_block : Z;
}.

(** What a graph of bucket [B] reads: the slices it was captured with. *)
Definition static_rows (ge : GraphExecutor) (st : Static) (B : Z) : list Row :=
  imap (make_row (static_positions st) (static_context_lens st)
          (take (Z.to_nat (capture_width ge)) <$> static_block_table st)
          (if has_profile_gating ge then Some (static_request_ids st) else None) (Some (static_stash_slots st)))
    (take (Z.to_nat B) (static_input st)).

(** [CUDAGraphAttnExecutor.run] up to the replay. *)
Definition fill_static (sched : list Program) (ge : GraphExecutor) (b : Batch) (B : Z) (st : Static) : Static :=
  let n := num_tokens b in
  let st := cuda_graph_preprocess sched b B st in
  let st := match b_requests b with
            | Some rids => if has_profile_gating ge then with_requests (copy_slice rids (static_request_ids st)) st else st
            | None => st
            end in
  let st := match b_slots b with
            | Some slots =>
                let x := copy_slice slots (static_stash_slots st) in
                with_slots (if n <? B then fill_slice n B (stash_scratch_slot ge) x else x) st
            | None => st
            end in
  if n <? B
  then with_block_table
         (imap (fun i row => if (n <=? Z.of_nat i) && (Z.of_nat i <? B) then <[0%nat := kv_scratch_block ge]> row else row)
            (static_block_table st)) st
  else st.

(** [replay] runs the kernels captured for a layer on the static buffers and leaves
    the results in the tensors of that capture; [run] returns those it finds at the
    position [layer_id]. *)
Definition run (sched : list Program) (ge : GraphExecutor) (layer_id : Z) (b : Batch) (st : Static) (m : Memory)
    : res (list (H * R) * Static * Memory) :=
  B ← _get_bucket_by_num_tokens (graph_batch_sizes ge) (num_tokens b);
  let st := fill_static sched ge b B st in
  g ← py_get (graphs ge) layer_id;
  lid ← of_option RuntimeError g;
  vid ← py_get (mappings ge) lid;
  '(outs, m) ← forward vid (static_rows ge st B) m;
  j ← of_option RuntimeError (output_index (layer_ids ge) lid);
  let outputs := <[(B, j) := outs]> (static_outputs st) in
  outs ← of_option IndexError (outputs !! (B, layer_id));
  Ok (take (length (b_hidden b)) outs, with_outputs outputs st, m).

(** [AttnExecutor.execute]; [copy_graph_results_cuda] copies the rows of the batch. *)
Definition execute (sched : list Program) (enable_cuda_graph : bool) (max_attn_graph_bsz num_decode_tokens : Z)
    (ge : GraphExecutor) (layer_id : Z) (b : Batch) (st : Static) (m : Memory) : res (list (H * R) * Static * Memory) :=
  if enable_cuda_graph && (num_decode_tokens <=? max_attn_graph_bsz)
  then run sched ge layer_id b st m
  else '(outs, m) ← execute_eager (has_profile_gating ge) (mappings ge) layer_id b m; Ok (outs, st, m).

Fixpoint sorted_below (m : Z) (l : list Z) : bool :=
  match l with
  | [] => false
  | [x] => x =? m
  | x :: ((y :: _) as l) => (x <? y) && sorted_below m l
  end.

Lemma sorted_below_ok m l : sorted_below m l = true -> StronglySorted Z.lt l /\ last l = Some m /\ Forall (fun x => x <= m) l.
Proof.
  induction l as [|x l IH]; [done|]. destruct l as [|y l].
  - cbn. intros Hx. apply Z.eqb_eq in Hx as ->. split; [repeat constructor|]. split; [done|]. repeat constructor. lia.
  - intros Hx. cbn [sorted_below] in Hx. apply andb_true_iff in Hx as [Hxy Hs]. apply Z.ltb_lt in Hxy. destruct (IH Hs) as (H1 & H2 & H3).
    split; [|split; [done|]].
    + constructor; [done|]. apply StronglySorted_inv in H1 as [_ H1]. constructor; [done|].
      eapply Forall_impl; [exact H1|]. intros z Hz. cbn in Hz. lia.
    + constructor; [|done]. apply Forall_cons in H3 as [H3 _]. lia.
Qed.

Definition sizes_ok (m : Z) : bool :=
  match get_graph_batch_sizes m with Ok (x :: l) => (x =? 1) && sorted_below m (x :: l) | _ => false end.

Lemma all_sizes_ok : forallb sizes_ok (py_range2 1 1025) = true.
Proof. vm_compute. reflexivity. Qed.

Lemma graph_sizes m :
  1 <= m <= 1024 ->
  exists sizes, get_graph_batch_sizes m = Ok sizes /\ StronglySorted Z.lt sizes /\ last sizes = Some m /\
    head sizes = Some 1 /\ Forall (fun x => 1 <= x <= m) sizes.
Proof.
  intros Hm. pose proof all_sizes_ok as Hall. rewrite forallb_forall in Hall. specialize (Hall m).
  assert (Hin : In m (py_range2 1 1025)).
  { apply list_elem_of_In. unfold py_range2. apply elem_of_seqZ. lia. }
  specialize (Hall Hin). unfold sizes_ok in Hall. destruct (get_graph_batch_sizes m) as [[|x l]|e]; [done| |done].
  apply andb_true_iff in Hall as [Hx Hs]. apply Z.eqb_eq in Hx as ->. destruct (sorted_below_ok _ _ Hs) as (H1 & H2 & H3).
  exists (1 :: l). split; [done|]. split; [done|]. split; [done|]. split; [done|].
  apply StronglySorted_inv in H1 as [_ H1]. apply Forall_cons in H3 as [H3 H4]. constructor; [lia|].
  rewrite Forall_forall in H1, H4 |- *. intros z Hz. specialize (H1 _ Hz). specialize (H4 _ Hz). cbn in *. lia.
Qed.

Section Kernel.
Context (sched : list Program) (b : Batch) (padded : Z).
Hypothesis Hsched : sched ≡ₚ launch (num_tokens b).

Notation final st := (cuda_graph_preprocess sched b padded st).

Lemma kernel_buffers st :
  static_positions (final st) = stores (sched ≫= meta_idx padded) (meta_value (num_tokens b) (b_positions b) 0) (static_positions st) /\
  static_context_lens (final st) = stores (sched ≫= meta_idx padded) (meta_value (num_tokens b) (b_context_lens b) 0) (static_context_lens st) /\
  static_input (final st) = stores (sched ≫= token_idx (num_tokens b)) (fun i => b_hidden b !! i) (static_input st) /\
  static_block_table (final st) = copy_rows (b_block_tables b) (sched ≫= token_idx (num_tokens b)) (static_block_table st) /\
  static_request_ids (final st) = static_request_ids st /\ static_stash_slots (final st) = static_stash_slots st /\
  static_outputs (final st) = static_outputs st.
Proof.
  unfold cuda_graph_preprocess. clear Hsched. revert st. induction sched as [|p l IH]; intros st; [done|]. cbn [foldl mbind list_bind].
  destruct (IH (run_program b padded st p)) as (-> & -> & -> & -> & -> & -> & ->).
  rewrite !stores_app. unfold copy_rows. rewrite foldl_app. by destruct p.
Qed.

Lemma copy_row_lookup src dst (c : nat) :
  (length src <= length dst)%nat -> copy_row src dst !! c = if decide (c < length src)%nat then src !! c else dst !! c.
Proof.
  intros Hl. unfold copy_row. rewrite stores_lookup.
  - destruct (decide (c < length src)%nat) as [Hc|Hc].
    + rewrite decide_True by (apply elem_of_py_range; unfold zlen; lia).
      destruct (lookup_lt_is_Some_2 src c Hc) as [x Hx]. rewrite Hx. rewrite decide_True by lia. done.
    + rewrite decide_False; [done|]. rewrite elem_of_py_range. unfold zlen. lia.
  - apply Forall_forall. intros i Hi. apply elem_of_py_range in Hi. lia.
Qed.

Lemma copy_row_length src dst : length (copy_row src dst) = length dst.
Proof. apply stores_length. Qed.

Lemma copy_row_idemp src dst : copy_row src (copy_row src dst) = copy_row src dst.
Proof.
  apply list_eq. intros c. unfold copy_row. rewrite stores_lookup.
  - rewrite stores_length. destruct (decide (Z.of_nat c ∈ py_range (zlen src))) as [Hin|Hin]; [|done].
    rewrite stores_lookup.
    + rewrite decide_True by done. by destruct (src !! c).
    + apply Forall_forall. intros i Hi. apply elem_of_py_range in Hi. lia.
  - apply Forall_forall. intros i Hi. apply elem_of_py_range in Hi. lia.
Qed.

(** Rows of the batch get their columns, the other rows keep what they hold. *)
Lemma block_rows (bt : list (list Z)) (k : nat) row :
  bt !! k = Some row ->
  copy_rows (b_block_tables b) (sched ≫= token_idx (num_tokens b)) bt !! k
  = Some (if decide (k < length (b_hidden b))%nat then copy_row (default [] (b_block_tables b !! k)) row else row).
Proof.
  intros Hk. assert (Hgen : forall idx, Forall (fun i => 0 <= i) idx -> forall (bt : list (list Z)) row, bt !! k = Some row ->
    copy_rows (b_block_tables b) idx bt !! k
    = Some (if decide (Z.of_nat k ∈ idx) then copy_row (default [] (b_block_tables b !! k)) row else row)).
  { clear Hsched Hk bt row. intros idx Hn. induction Hn as [|i idx Hi _ IH]; intros bt row Hk; cbn [copy_rows foldl].
    - rewrite decide_False; [done|]. by apply not_elem_of_nil.
    - fold (copy_rows (b_block_tables b) idx). destruct (decide (Z.of_nat k = i)) as [<-|Hne].
      + rewrite Nat2Z.id. unfold copy_rows in IH. erewrite IH by by rewrite list_lookup_alter_eq, Hk.
        rewrite (decide_True (P := Z.of_nat k ∈ Z.of_nat k :: idx)) by by left.
        case_decide; [|done]. by rewrite copy_row_idemp.
      + unfold copy_rows in IH. erewrite IH by (rewrite list_lookup_alter_ne by lia; exact Hk).
        destruct (decide (Z.of_nat k ∈ idx)) as [Hin|Hin].
        * by rewrite decide_True by by right.
        * rewrite decide_False; [done|]. rewrite elem_of_cons. naive_solver. }
  destruct (sched_nonneg sched (length (b_hidden b)) Hsched padded) as [_ Hn].
  change (Z.of_nat (length (b_hidden b))) with (num_tokens b) in Hn. rewrite (Hgen _ Hn _ _ Hk). f_equal.
  destruct (decide (k < length (b_hidden b))%nat) as [Hlt|Hge].
  - rewrite decide_True; [done|]. apply (launch_tokens sched (length (b_hidden b)) Hsched); lia.
  - rewrite decide_False; [done|]. unfold num_tokens, zlen. rewrite (launch_tokens sched (length (b_hidden b)) Hsched) by lia. lia.
Qed.
End Kernel.

(** ** A padded batch does to the live memory what the batch does

    [nb] pages can be allocated, page [nb] is the spare; [ns] stash rows belong to
    requests, row [ns] is the scratch row. *)

Section Padding.
Context (nb ns : nat).
Hypothesis Hpage : 0 < page.

Definition paged (pg : list (list K)) : Prop := length pg = S nb /\ Forall (fun row => Z.of_nat (length row) = page) pg.

Record memory_ok (m : Memory) : Prop := {
  mo_pages : Forall paged (pages m);
  mo_stash : length (stash m) = S ns;
}.

(** Memories that agree on everything in use. *)
Record memory_eq (m m' : Memory) : Prop := {
  me_pages : Forall2 (fun pg pg' => take nb pg = take nb pg') (pages m) (pages m');
  me_stash : take ns (stash m) = take ns (stash m');
}.

(** A row whose tokens are in allocated pages and whose slot is a request's. *)
Record row_ok (r : Row) : Prop := {
  ro_context : 0 <= r_context r;
  ro_blocks : forall p, 0 <= p <= r_context r -> exists blk, r_blocks r !! Z.to_nat (p / page) = Some blk /\ 0 <= blk < Z.of_nat nb;
  ro_slot : forall s, r_slot r = Some s -> 0 <= s < Z.of_nat ns;
}.

(** The row of the static buffers that stands for a row of the batch. *)
Record same_row (r r' : Row) : Prop := {
  sr_position : r_position r' = r_position r;
  sr_hidden : r_hidden r' = r_hidden r;
  sr_context : r_context r' = r_context r;
  sr_request : r_request r' = r_request r;
  sr_slot : r_slot r' = r_slot r;
  sr_blocks : forall c blk, r_blocks r !! c = Some blk -> r_blocks r' !! c = Some blk;
}.

(** A row of padding. *)
Record pad_row (r : Row) : Prop := {
  pr_context : r_context r = 0;
  pr_block : r_blocks r !! 0%nat = Some (Z.of_nat nb);
  pr_slot : r_slot r = Some (Z.of_nat ns);
}.

Lemma take_eq_lookup {X} (n k : nat) (l l' : list X) : take n l = take n l' -> (k < n)%nat -> l' !! k = l !! k.
Proof. intros He Hk. rewrite <-(lookup_take_lt l n k) by done. rewrite He. by rewrite lookup_take_lt. Qed.

Lemma take_insert_eq {X} (n k : nat) (l l' : list X) x : take n l = take n l' -> take n (<[k:=x]> l) = take n (<[k:=x]> l').
Proof.
  intros He. destruct (decide (k < n)%nat).
  - rewrite !take_insert_lt by done. by rewrite He.
  - by rewrite !take_insert_ge by lia.
Qed.

Lemma cell_ok r r' p :
  row_ok r -> same_row r r' -> 0 <= p <= r_context r ->
  exists blk, cell r p = Ok (blk, p mod page) /\ cell r' p = Ok (blk, p mod page) /\ 0 <= blk < Z.of_nat nb.
Proof.
  intros Hr Hs Hp. destruct (ro_blocks _ Hr p Hp) as (blk & Hb & Hrange). exists blk. unfold cell.
  pose proof (Z.div_pos p page ltac:(lia) Hpage).
  rewrite (at_index_lookup _ _ blk) by done. rewrite (at_index_lookup _ _ blk) by (done || by apply (sr_blocks _ _ Hs)). done.
Qed.

Lemma pad_cell r : pad_row r -> cell r (r_context r) = Ok (Z.of_nat nb, 0).
Proof.
  intros [Hc Hb _]. unfold cell. rewrite Hc. rewrite Z.div_0_l, Z.mod_0_l by lia. by rewrite (at_index_lookup _ 0 (Z.of_nat nb)).
Qed.

Lemma paged_row pg (k : nat) : paged pg -> (k <= nb)%nat -> exists row, pg !! k = Some row /\ Z.of_nat (length row) = page.
Proof.
  intros [Hl Hf] Hk. destruct (lookup_lt_is_Some_2 pg k) as [row Hrow]; [lia|]. exists row. split; [done|].
  by apply (Forall_lookup_1 _ _ _ _ Hf Hrow).
Qed.

Lemma kv_write_ok pg (k : nat) o e :
  paged pg -> (k <= nb)%nat -> 0 <= o < page ->
  exists row, pg !! k = Some row /\ kv_write pg (Z.of_nat k, o) e = Ok (<[k := <[Z.to_nat o := e]> row]> pg) /\
    paged (<[k := <[Z.to_nat o := e]> row]> pg).
Proof.
  intros Hp Hk Ho. destruct (paged_row pg k Hp Hk) as (row & Hrow & Hlen). exists row. split; [done|].
  unfold kv_write. cbn [fst snd]. rewrite (at_index_nat _ _ _ Hrow). cbn [mbind res_bind].
  destruct (lookup_lt_is_Some_2 row (Z.to_nat o)) as [x Hx]; [lia|]. rewrite (at_index_lookup _ _ x) by (done || lia). cbn [mbind res_bind].
  rewrite Nat2Z.id. split; [done|]. destruct Hp as [Hl Hf]. split; [by rewrite length_insert|].
  apply Forall_insert; [done|]. by rewrite length_insert.
Qed.

Lemma kv_read_ok pg (k : nat) o :
  paged pg -> (k <= nb)%nat -> 0 <= o < page -> exists row e, pg !! k = Some row /\ row !! Z.to_nat o = Some e /\ kv_read pg (Z.of_nat k, o) = Ok e.
Proof.
  intros Hp Hk Ho. destruct (paged_row pg k Hp Hk) as (row & Hrow & Hlen).
  destruct (lookup_lt_is_Some_2 row (Z.to_nat o)) as [x Hx]; [lia|]. exists row, x. split; [done|]. split; [done|].
  unfold kv_read. cbn [fst snd]. rewrite (at_index_nat _ _ _ Hrow). cbn [mbind res_bind]. apply at_index_lookup; [lia|done].
Qed.

(** *** The loops of a layer, row by row *)

Definition slot_free (s : list H) (r : Row) : Prop := forall slot, r_slot r = Some slot -> exists x, at_index s slot = Ok x.

Definition same_x (x x' : Row * H * (Q * K)) : Prop :=
  row_ok x.1.1 /\ same_row x.1.1 x'.1.1 /\ x'.1.2 = x.1.2 /\ x'.2 = x.2.

Lemma prepare_rel vid s s' r r' :
  length s = S ns -> take ns s = take ns s' -> row_ok r -> same_row r r' ->
  exists x x', prepare vid s r = Ok x /\ prepare vid s' r' = Ok x' /\ same_x x x'.
Proof.
  intros Hlen Hs Hr Hsame. unfold prepare, load_residual. rewrite (sr_slot _ _ Hsame), (sr_hidden _ _ Hsame), (sr_position _ _ Hsame).
  assert (Hgo : forall h, exists x x', Ok (r, h, qkv vid (r_position r) h) = Ok x /\ Ok (r', h, qkv vid (r_position r) h) = Ok x' /\ same_x x x').
  { intros h. eexists _, _. split; [done|]. split; [done|]. by split. }
  destruct (r_slot r) as [slot|] eqn:Es; [|apply Hgo]. destruct (stash_read vid); [|apply Hgo].
  pose proof (ro_slot _ Hr slot Es) as Hslot. destruct (lookup_lt_is_Some_2 s (Z.to_nat slot)) as [x Hx]; [lia|].
  rewrite (at_index_lookup s slot x) by (done || lia).
  rewrite (at_index_lookup s' slot x); [|lia|by rewrite (take_eq_lookup ns _ s s') by (done || lia)]. cbn [mbind res_bind]. apply Hgo.
Qed.

Lemma prepare_pad vid s r :
  length s = S ns -> pad_row r -> exists x, prepare vid s r = Ok x /\ x.1.1 = r.
Proof.
  intros Hlen [_ _ Hs]. unfold prepare, load_residual. rewrite Hs. destruct (stash_read vid); [|by eexists].
  destruct (lookup_lt_is_Some_2 s ns) as [x Hx]; [lia|]. rewrite (at_index_nat _ _ _ Hx). by eexists.
Qed.

Lemma append_rel pg pg' x x' :
  paged pg -> paged pg' -> take nb pg = take nb pg' -> same_x x x' ->
  exists q q', kv_append pg x = Ok q /\ kv_append pg' x' = Ok q' /\ paged q /\ paged q' /\ take nb q = take nb q'.
Proof.
  intros Hp Hp' He (Hr & Hs & _ & Hk). pose proof (ro_context _ Hr) as Hc.
  destruct (cell_ok _ _ (r_context x.1.1) Hr Hs ltac:(lia)) as (blk & C1 & C2 & Hb).
  unfold kv_append. rewrite (sr_context _ _ Hs), C1, C2, Hk. cbn [mbind res_bind].
  pose proof (Z.mod_pos_bound (r_context x.1.1) page Hpage) as Ho.
  destruct (kv_write_ok pg (Z.to_nat blk) _ x.2.2 Hp ltac:(lia) Ho) as (row & Hrow & W1 & P1).
  destruct (kv_write_ok pg' (Z.to_nat blk) _ x.2.2 Hp' ltac:(lia) Ho) as (row' & Hrow' & W2 & P2).
  rewrite Z2Nat.id in W1, W2 by lia. rewrite W1, W2. eexists _, _. split; [done|]. split; [done|]. split; [done|]. split; [done|].
  rewrite (take_eq_lookup nb _ pg pg') in Hrow' by (done || lia). rewrite Hrow in Hrow'. injection Hrow' as <-. by apply take_insert_eq.
Qed.

Lemma append_pad pg x :
  paged pg -> pad_row x.1.1 -> exists q, kv_append pg x = Ok q /\ paged q /\ take nb q = take nb pg.
Proof.
  intros Hp Hr. unfold kv_append. rewrite (pad_cell _ Hr). cbn [mbind res_bind].
  destruct (kv_write_ok pg nb 0 x.2.2 Hp ltac:(lia) ltac:(lia)) as (row & _ & -> & P1). eexists. split; [done|]. split; [done|].
  by rewrite take_insert_ge by lia.
Qed.

Definition same_y (y y' : Row * (H * H)) : Prop := row_ok y.1 /\ same_row y.1 y'.1 /\ y'.2 = y.2.

Lemma attend_rel vid pg pg' x x' :
  paged pg -> paged pg' -> take nb pg = take nb pg' -> same_x x x' ->
  exists y y', attend_row vid pg x = Ok y /\ attend_row vid pg' x' = Ok y' /\ same_y y y'.
Proof.
  intros Hp Hp' He (Hr & Hs & Hh & Hk). unfold attend_row. rewrite (sr_context _ _ Hs), Hh, Hk.
  destruct (py_map_rel (fun p => c ← cell x.1.1 p; kv_read pg c) (fun p => c ← cell x'.1.1 p; kv_read pg' c)
    (fun p p' => p' = p /\ 0 <= p <= r_context x.1.1) eq (py_range (r_context x.1.1 + 1)) (py_range (r_context x.1.1 + 1)))
    as (es & es' & -> & -> & Hes).
  - apply Forall_Forall2_diag, Forall_forall. intros p Hp0. apply elem_of_py_range in Hp0. split; [done|lia].
  - intros p p' [-> Hp0]. destruct (cell_ok _ _ p Hr Hs Hp0) as (blk & -> & -> & Hb). cbn [mbind res_bind].
    pose proof (Z.mod_pos_bound p page Hpage) as Ho.
    destruct (kv_read_ok pg (Z.to_nat blk) _ Hp ltac:(lia) Ho) as (row & e & Hrow & He1 & R1).
    destruct (kv_read_ok pg' (Z.to_nat blk) _ Hp' ltac:(lia) Ho) as (row' & e' & Hrow' & He2 & R2).
    rewrite Z2Nat.id in R1, R2 by lia. rewrite R1, R2. exists e, e'. split; [done|]. split; [done|].
    rewrite (take_eq_lookup nb _ pg pg') in Hrow' by (done || lia). congruence.
  - cbn [mbind res_bind]. apply list_eq_Forall2 in Hes as <-. eexists _, _. split; [done|]. split; [done|]. by split.
Qed.

Lemma attend_pad vid pg x :
  paged pg -> pad_row x.1.1 -> exists y, attend_row vid pg x = Ok y /\ y.1 = x.1.1.
Proof.
  intros Hp Hr. pose proof (pr_context _ Hr) as Hc. unfold attend_row. rewrite Hc.
  assert (Hcell : cell x.1.1 0 = Ok (Z.of_nat nb, 0)) by (rewrite <-Hc at 1; by apply pad_cell).
  destruct (kv_read_ok pg nb 0 Hp ltac:(lia) ltac:(lia)) as (row & e & _ & _ & R1).
  change (py_range (0 + 1)) with [0]. cbn [py_map]. rewrite Hcell. cbn [mbind res_bind]. rewrite R1. by eexists.
Qed.

Lemma store_rel s s' y y' :
  length s = S ns -> length s' = S ns -> take ns s = take ns s' -> same_y y y' ->
  exists t t', store_residual s y = Ok t /\ store_residual s' y' = Ok t' /\ length t = S ns /\ length t' = S ns /\ take ns t = take ns t'.
Proof.
  intros Hl Hl' He (Hr & Hs & Hv). unfold store_residual. rewrite (sr_slot _ _ Hs), Hv.
  destruct (r_slot y.1) as [slot|] eqn:Es; [|by exists s, s'].
  pose proof (ro_slot _ Hr slot Es) as Hslot.
  destruct (lookup_lt_is_Some_2 s (Z.to_nat slot)) as [x Hx]; [lia|]. destruct (lookup_lt_is_Some_2 s' (Z.to_nat slot)) as [x' Hx']; [lia|].
  rewrite (at_index_lookup s slot x), (at_index_lookup s' slot x') by (done || lia). cbn [mbind res_bind].
  eexists _, _. split; [done|]. split; [done|]. rewrite !length_insert. split; [done|]. split; [done|]. by apply take_insert_eq.
Qed.

Lemma store_pad s y :
  length s = S ns -> pad_row y.1 -> exists t, store_residual s y = Ok t /\ length t = S ns /\ take ns t = take ns s.
Proof.
  intros Hl [_ _ Hs]. unfold store_residual. rewrite Hs. destruct (lookup_lt_is_Some_2 s ns) as [x Hx]; [lia|].
  rewrite (at_index_nat _ _ _ Hx). cbn [mbind res_bind]. eexists. split; [done|]. rewrite length_insert, Nat2Z.id. split; [done|].
  by rewrite take_insert_ge by lia.
Qed.

(** Rows of padding go through every loop and change nothing in use. *)
Lemma pad_prepare vid s rs :
  length s = S ns -> Forall pad_row rs ->
  exists xs, py_map (prepare vid s) rs = Ok xs /\ Forall (fun x => pad_row x.1.1) xs /\ length xs = length rs.
Proof.
  intros Hl Hr. destruct (py_map_total (prepare vid s) (fun _ x => pad_row x.1.1) rs) as (xs & Hx & Hq).
  - intros r Hin. rewrite Forall_forall in Hr. destruct (prepare_pad vid s r Hl (Hr _ Hin)) as (x & E & Hx). exists x. split; [done|].
    rewrite Hx. by apply Hr.
  - exists xs. split; [done|]. split; [|by apply (py_map_length _ _ _ Hx)]. clear -Hq. induction Hq; by constructor.
Qed.

Lemma pad_append pg xs :
  paged pg -> Forall (fun x => pad_row x.1.1) xs ->
  exists q, py_for kv_append xs pg = Ok q /\ paged q /\ take nb q = take nb pg.
Proof.
  intros Hp Hx. revert pg Hp. induction Hx as [|x xs Hr _ IH]; intros pg Hp; [by exists pg|]. cbn [py_for].
  destruct (append_pad pg x Hp Hr) as (q & -> & Hq & E). cbn [mbind res_bind]. destruct (IH q Hq) as (q' & -> & Hq' & E').
  exists q'. split; [done|]. split; [done|]. by rewrite E', E.
Qed.

Lemma pad_attend vid pg xs :
  paged pg -> Forall (fun x => pad_row x.1.1) xs ->
  exists ys, py_map (attend_row vid pg) xs = Ok ys /\ Forall (fun y => pad_row y.1) ys /\ length ys = length xs.
Proof.
  intros Hp Hx. destruct (py_map_total (attend_row vid pg) (fun _ y => pad_row y.1) xs) as (ys & Hy & Hq).
  - intros x Hin. rewrite Forall_forall in Hx. destruct (attend_pad vid pg x Hp (Hx _ Hin)) as (y & E & Hy). exists y. split; [done|].
    rewrite Hy. by apply Hx.
  - exists ys. split; [done|]. split; [|by apply (py_map_length _ _ _ Hy)]. clear -Hq. induction Hq; by constructor.
Qed.

Lemma pad_store s ys :
  length s = S ns -> Forall (fun y => pad_row y.1) ys ->
  exists t, py_for store_residual ys s = Ok t /\ length t = S ns /\ take ns t = take ns s.
Proof.
  intros Hl Hy. revert s Hl. induction Hy as [|y ys Hr _ IH]; intros s Hl; [by exists s|]. cbn [py_for].
  destruct (store_pad s y Hl Hr) as (t & -> & Ht & E). cbn [mbind res_bind]. destruct (IH t Ht) as (t' & -> & Ht' & E').
  exists t'. split; [done|]. split; [done|]. by rewrite E', E.
Qed.

Lemma forward_padded vid rows rs ps m m' :
  0 <= vid -> (Z.to_nat vid < length (pages m))%nat -> memory_ok m -> memory_ok m' -> memory_eq m m' ->
  Forall row_ok rows -> Forall2 same_row rows rs -> Forall pad_row ps ->
  exists outs pads m1 m2, forward vid rows m = Ok (outs, m1) /\ forward vid (rs ++ ps) m' = Ok (outs ++ pads, m2) /\
    length outs = length rows /\ length pads = length ps /\ memory_ok m1 /\ memory_ok m2 /\ memory_eq m1 m2 /\ length (pages m1) = length (pages m).
Proof.
  intros Hv Hlt [Mp Ms] [Mp' Ms'] [Ep Es] Hrows Hsame Hpad. unfold forward.
  destruct (py_map_rel (prepare vid (stash m)) (prepare vid (stash m')) (fun r r' => row_ok r /\ same_row r r') same_x rows rs)
    as (xs & xs' & Hx & Hx' & Hxs).
  { clear -Hrows Hsame. induction Hsame; [constructor|]. apply Forall_cons in Hrows as [? ?]. constructor; [done|by apply IHHsame]. }
  { intros r r' [? ?]. by apply prepare_rel. }
  destruct (pad_prepare vid (stash m') ps Ms' Hpad) as (zs & Hz & Hzp & Hzl).
  rewrite Hx, py_map_app, Hx', Hz. cbn [mbind res_bind].
  destruct (lookup_lt_is_Some_2 (pages m) (Z.to_nat vid) Hlt) as [pg Hpg].
  destruct (Forall2_lookup_l _ _ _ _ _ Ep Hpg) as (pg' & Hpg' & Epg).
  pose proof (Forall_lookup_1 _ _ _ _ Mp Hpg) as Hok. pose proof (Forall_lookup_1 _ _ _ _ Mp' Hpg') as Hok'. cbn in Hok, Hok'.
  rewrite (at_index_lookup _ _ _ Hv Hpg), (at_index_lookup _ _ _ Hv Hpg'). cbn [mbind res_bind].
  destruct (py_for_rel kv_append kv_append same_x (fun q q' => paged q /\ paged q' /\ take nb q = take nb q') xs xs' pg pg' Hxs)
    as (q & q' & Hq & Hq' & Pq & Pq' & Eq); [done| |].
  { intros x x' t t' Hxx (Ht & Ht' & Ett). by apply append_rel. }
  destruct (pad_append q' zs Pq' Hzp) as (q2 & Hq2 & Pq2 & Eq2).
  rewrite Hq, py_for_app, Hq'. cbn [mbind res_bind]. rewrite Hq2. cbn [mbind res_bind].
  assert (Eqq : take nb q = take nb q2) by by rewrite Eq2.
  destruct (py_map_rel (attend_row vid q) (attend_row vid q2) same_x same_y xs xs' Hxs) as (ys & ys' & Hy & Hy' & Hys).
  { intros x x' Hxx. by apply attend_rel. }
  destruct (pad_attend vid q2 zs Pq2 Hzp) as (ws & Hw & Hwp & Hwl).
  rewrite Hy, py_map_app, Hy', Hw. cbn [mbind res_bind].
  destruct (py_for_rel store_residual store_residual same_y (fun t t' => length t = S ns /\ length t' = S ns /\ take ns t = take ns t')
    ys ys' (stash m) (stash m') Hys) as (t & t' & Ht & Ht' & Lt & Lt' & Et); [done| |].
  { intros y y' u u' Hyy (Hu & Hu' & Euu). by apply store_rel. }
  destruct (pad_store t' ws Lt' Hwp) as (t2 & Ht2 & Lt2 & Et2).
  rewrite Ht, py_for_app, Ht'. cbn [mbind res_bind]. rewrite Ht2. cbn [mbind res_bind].
  set (g := fun y : Row * (H * H) => gate vid (r_request y.1) (r_position y.1) y.2.1).
  assert (Hg : g <$> ys' = g <$> ys).
  { clear -Hys. induction Hys as [|y y' ys ys' (_ & Hs & Hv) _ IH]; [done|]. cbn. rewrite IH. f_equal. unfold g.
    by rewrite (sr_request _ _ Hs), (sr_position _ _ Hs), Hv. }
  exists (g <$> ys), (g <$> ws). eexists _, _. split; [done|]. split; [by rewrite fmap_app, Hg|]. split.
  { rewrite length_fmap, (py_map_length _ _ _ Hy). by apply (py_map_length _ _ _ Hx). }
  split; [by rewrite length_fmap, Hwl|].
  split; [|split; [|split]].
  - split; cbn; [by apply Forall_insert|done].
  - split; cbn; [by apply Forall_insert|done].
  - split; cbn; [|by rewrite Et2]. by apply Forall2_insert.
  - cbn. by rewrite length_insert.
Qed.
End Padding.

(** ** The static buffers after the copy *)

Section Replay.
Context (nb ns maxB W : nat) (ge : GraphExecutor).
Hypothesis Hpage : 0 < page.
Hypothesis Hwidth : 0 < capture_width ge <= Z.of_nat W.
Hypothesis Hslot : stash_scratch_slot ge = Z.of_nat ns.
Hypothesis Hblock : kv_scratch_block ge = Z.of_nat nb.

(** The metadata of a decode batch: every token of the context is in an allocated
    page, every row has the slot of its request. *)
Record batch_ok (b : Batch) : Prop := {
  bo_positions : length (b_positions b) = length (b_hidden b);
  bo_contexts : length (b_context_lens b) = length (b_hidden b);
  bo_tables : length (b_block_tables b) = length (b_hidden b);
  bo_context : Forall (fun c => 0 <= c) (b_context_lens b);
  bo_width : Forall (fun row => Z.of_nat (length row) <= capture_width ge) (b_block_tables b);
  bo_blocks : forall i c row p, b_context_lens b !! i = Some c -> b_block_tables b !! i = Some row -> 0 <= p <= c ->
    exists blk, row !! Z.to_nat (p / page) = Some blk /\ 0 <= blk < Z.of_nat nb;
  bo_slots : exists slots, b_slots b = Some slots /\ length slots = length (b_hidden b) /\ Forall (fun s => 0 <= s < Z.of_nat ns) slots;
  bo_requests : has_profile_gating ge = true -> exists rids, b_requests b = Some rids /\ length rids = length (b_hidden b);
}.

Record static_ok (st : Static) : Prop := {
  so_input : length (static_input st) = maxB;
  so_positions : length (static_positions st) = maxB;
  so_contexts : length (static_context_lens st) = maxB;
  so_requests : length (static_request_ids st) = maxB;
  so_slots : length (static_stash_slots st) = maxB;
  so_tables : length (static_block_table st) = maxB;
  so_rows : Forall (fun row => length row = W) (static_block_table st);
}.

Lemma copy_slice_lookup (src dst : list Z) (k : nat) :
  copy_slice src dst !! k = if decide (k < length src)%nat then src !! k else dst !! k.
Proof.
  unfold copy_slice. case_decide as Hk; [by apply lookup_app_l|]. rewrite lookup_app_r, lookup_drop by lia. f_equal. lia.
Qed.

Lemma copy_slice_length (src dst : list Z) : (length src <= length dst)%nat -> length (copy_slice src dst) = length dst.
Proof. intros H0. unfold copy_slice. rewrite length_app, length_drop. lia. Qed.

Lemma fill_slice_lookup lo hi v l (k : nat) :
  fill_slice lo hi v l !! k = (fun x => if (lo <=? Z.of_nat k) && (Z.of_nat k <? hi) then v else x) <$> l !! k.
Proof. unfold fill_slice. by rewrite list_lookup_imap. Qed.

Context (sched : list Program) (b : Batch) (B : Z) (st : Static).
Hypothesis Hsched : sched ≡ₚ launch (num_tokens b).
Hypothesis Hb : batch_ok b.
Hypothesis Hst : static_ok st.
Hypothesis HB : num_tokens b <= B <= Z.of_nat maxB.

Notation n := (length (b_hidden b)).
Notation final := (fill_static sched ge b B st).

Lemma n_le : (n <= maxB)%nat.
Proof. unfold num_tokens, zlen in HB. lia. Qed.

Lemma final_positions (k : nat) : Z.of_nat k < B -> static_positions final !! k = if decide (k < n)%nat then b_positions b !! k else Some 0.
Proof.
  intros Hk. destruct (kernel_buffers sched b B st) as (E & _).
  assert (E' : static_positions final = static_positions (cuda_graph_preprocess sched b B st)).
  { unfold fill_static. by destruct (b_requests b), (has_profile_gating ge), (b_slots b), (num_tokens b <? B). }
  rewrite E', E. apply (meta_buffer sched (length (b_hidden b)) B Hsched); [rewrite (so_positions _ Hst); lia|done|apply (bo_positions _ Hb)].
Qed.

Lemma final_contexts (k : nat) : Z.of_nat k < B -> static_context_lens final !! k = if decide (k < n)%nat then b_context_lens b !! k else Some 0.
Proof.
  intros Hk. destruct (kernel_buffers sched b B st) as (_ & E & _).
  assert (E' : static_context_lens final = static_context_lens (cuda_graph_preprocess sched b B st)).
  { unfold fill_static. by destruct (b_requests b), (has_profile_gating ge), (b_slots b), (num_tokens b <? B). }
  rewrite E', E. apply (meta_buffer sched (length (b_hidden b)) B Hsched); [rewrite (so_contexts _ Hst); lia|done|apply (bo_contexts _ Hb)].
Qed.

Lemma final_input : length (static_input final) = maxB /\ forall k : nat, (k < n)%nat -> static_input final !! k = b_hidden b !! k.
Proof.
  destruct (kernel_buffers sched b B st) as (_ & _ & E & _).
  assert (E' : static_input final = static_input (cuda_graph_preprocess sched b B st)).
  { unfold fill_static. by destruct (b_requests b), (has_profile_gating ge), (b_slots b), (num_tokens b <? B). }
  rewrite E', E. split; [rewrite stores_length; apply (so_input _ Hst)|]. intros k Hk. apply (row_buffer sched (length (b_hidden b)) B Hsched); [done|].
  rewrite (so_input _ Hst). pose proof n_le. lia.
Qed.

Lemma final_slots slots (k : nat) :
  b_slots b = Some slots -> length slots = n -> Z.of_nat k < B ->
  static_stash_slots final !! k = if decide (k < n)%nat then slots !! k else Some (stash_scratch_slot ge).
Proof.
  intros Hs Hl Hk. destruct (kernel_buffers sched b B st) as (_ & _ & _ & _ & _ & E & _).
  assert (E' : static_stash_slots final = let x := copy_slice slots (static_stash_slots st) in
    if num_tokens b <? B then fill_slice (num_tokens b) B (stash_scratch_slot ge) x else x).
  { unfold fill_static. rewrite Hs. destruct (b_requests b), (has_profile_gating ge), (num_tokens b <? B); cbn [with_slots with_requests with_block_table static_stash_slots];
      by rewrite E. }
  rewrite E'. cbv zeta. pose proof (so_slots _ Hst) as Hlen.
  destruct (lookup_lt_is_Some_2 (static_stash_slots st) k) as [x Hx]; [lia|]. unfold num_tokens, zlen in *.
  destruct (Z.ltb_spec (Z.of_nat n) B) as [Hlt|Hge].
  - rewrite fill_slice_lookup, copy_slice_lookup, Hl. destruct (decide (k < n)%nat) as [Hkn|Hkn].
    + rewrite (proj2 (Z.leb_gt _ _)) by lia. cbn [andb]. by destruct (slots !! k).
    + rewrite Hx. rewrite (proj2 (Z.leb_le _ _)), (proj2 (Z.ltb_lt _ _)) by lia. done.
  - rewrite copy_slice_lookup, Hl. destruct (decide (k < n)%nat); [done|lia].
Qed.

Lemma final_requests rids (k : nat) :
  b_requests b = Some rids -> length rids = n -> has_profile_gating ge = true -> (k < n)%nat ->
  static_request_ids final !! k = rids !! k.
Proof.
  intros Hr Hl Hg Hk. destruct (kernel_buffers sched b B st) as (_ & _ & _ & _ & E & _).
  assert (E' : static_request_ids final = copy_slice rids (static_request_ids st)).
  { unfold fill_static. rewrite Hr, Hg. destruct (b_slots b), (num_tokens b <? B); cbn [with_slots with_requests with_block_table static_request_ids];
      by rewrite E. }
  rewrite E', copy_slice_lookup, Hl. destruct (decide (k < n)%nat); [done|lia].
Qed.

Lemma final_tables (k : nat) :
  Z.of_nat k < B -> exists row, static_block_table final !! k = Some row /\ length row = W /\
    if decide (k < n)%nat then forall c blk, default [] (b_block_tables b !! k) !! c = Some blk -> row !! c = Some blk
    else row !! 0%nat = Some (kv_scratch_block ge).
Proof.
  intros Hk. destruct (kernel_buffers sched b B st) as (_ & _ & _ & E & _).
  set (bt := copy_rows (b_block_tables b) (sched ≫= token_idx (num_tokens b)) (static_block_table st)) in *.
  assert (E' : static_block_table final = if num_tokens b <? B
    then imap (fun i row => if (num_tokens b <=? Z.of_nat i) && (Z.of_nat i <? B) then <[0%nat := kv_scratch_block ge]> row else row) bt else bt).
  { unfold fill_static. destruct (b_requests b), (has_profile_gating ge), (b_slots b), (num_tokens b <? B);
      cbn [with_slots with_requests with_block_table static_block_table]; by rewrite E. }
  destruct (lookup_lt_is_Some_2 (static_block_table st) k) as [old Hold]; [rewrite (so_tables _ Hst); lia|].
  pose proof (Forall_lookup_1 _ _ _ _ (so_rows _ Hst) Hold) as HlenW. cbn in HlenW.
  pose proof (block_rows sched b B Hsched (static_block_table st) k old Hold) as Hrow. fold bt in Hrow.
  rewrite E'. unfold num_tokens, zlen in *. destruct (decide (k < n)%nat) as [Hkn|Hkn].
  - set (src := default [] (b_block_tables b !! k)) in *. exists (copy_row src old).
    assert (Hsrc : (length src <= length old)%nat).
    { destruct (lookup_lt_is_Some_2 (b_block_tables b) k) as [row Hr]; [rewrite (bo_tables _ Hb); lia|].
      unfold src. rewrite Hr. cbn [default from_option id]. pose proof (Forall_lookup_1 _ _ _ _ (bo_width _ Hb) Hr) as Hw. cbn in Hw. lia. }
    split; [|split].
    + destruct (Z.ltb_spec (Z.of_nat n) B); [|done]. rewrite list_lookup_imap, Hrow. cbn [fmap option_fmap option_map].
      rewrite (proj2 (Z.leb_gt _ _)) by lia. done.
    + by rewrite copy_row_length.
    + intros c blk Hc. rewrite copy_row_lookup by done. rewrite decide_True; [done|]. by eapply lookup_lt_Some.
  - exists (<[0%nat := kv_scratch_block ge]> old). rewrite (proj2 (Z.ltb_lt _ _)) by lia. split; [|split].
    + rewrite list_lookup_imap, Hrow. cbn [fmap option_fmap option_map].
      rewrite (proj2 (Z.leb_le _ _)), (proj2 (Z.ltb_lt _ _)) by lia. done.
    + by rewrite length_insert.
    + apply list_lookup_insert_eq. lia.
Qed.

Lemma row_lookup positions context blocks requests slots (l : list H) (k : nat) :
  imap (make_row positions context blocks requests slots) l !! k = make_row positions context blocks requests slots k <$> l !! k.
Proof. apply list_lookup_imap. Qed.

Lemma static_row (k : nat) :
  Z.of_nat k < B -> exists h, static_input final !! k = Some h /\
  static_rows ge final B !! k = Some (make_row (static_positions final) (static_context_lens final)
    (take (Z.to_nat (capture_width ge)) <$> static_block_table final)
    (if has_profile_gating ge then Some (static_request_ids final) else None) (Some (static_stash_slots final)) k h).
Proof.
  intros Hk. destruct final_input as [Hl _]. destruct (lookup_lt_is_Some_2 (static_input final) k) as [h Hh]; [lia|]. exists h. split; [done|].
  unfold static_rows. rewrite row_lookup, lookup_take_lt by lia. by rewrite Hh.
Qed.

Lemma static_rows_length : length (static_rows ge final B) = Z.to_nat B.
Proof. unfold static_rows. rewrite length_imap, length_take. destruct final_input as [-> _]. lia. Qed.

Lemma table_take (k : nat) row :
  static_block_table final !! k = Some row ->
  default [] ((take (Z.to_nat (capture_width ge)) <$> static_block_table final) !! k) = take (Z.to_nat (capture_width ge)) row.
Proof. intros Hr. by rewrite list_lookup_fmap, Hr. Qed.

(** The first rows of the bucket stand for the batch, the others are padding. *)
Lemma rows_split :
  exists rs ps, static_rows ge final B = rs ++ ps /\ Forall2 same_row (batch_rows (has_profile_gating ge) b) rs /\ Forall (pad_row nb ns) ps /\
    Forall (row_ok nb ns) (batch_rows (has_profile_gating ge) b).
Proof.
  exists (take n (static_rows ge final B)), (drop n (static_rows ge final B)). split; [by rewrite take_drop|].
  destruct (bo_slots _ Hb) as (slots & Hs & Hsl & Hsr). pose proof n_le as Hn.
  assert (Hbn : Z.of_nat n <= B) by (unfold num_tokens, zlen in HB; lia).
  assert (Hrow : forall (k : nat) r, batch_rows (has_profile_gating ge) b !! k = Some r -> (k < n)%nat /\
    r_context r = default 0 (b_context_lens b !! k) /\ r_blocks r = default [] (b_block_tables b !! k) /\ r_slot r = Some (default 0 (slots !! k))).
  { intros k r Hr. unfold batch_rows in Hr. rewrite row_lookup in Hr. destruct (b_hidden b !! k) as [h|] eqn:Eh; [|done]. injection Hr as <-.
    split; [by eapply lookup_lt_Some|]. rewrite Hs. done. }
  assert (Hctx : forall k : nat, (k < n)%nat -> exists c row, b_context_lens b !! k = Some c /\ b_block_tables b !! k = Some row /\ 0 <= c).
  { intros k Hk. destruct (lookup_lt_is_Some_2 (b_context_lens b) k) as [c Hc]; [rewrite (bo_contexts _ Hb); lia|].
    destruct (lookup_lt_is_Some_2 (b_block_tables b) k) as [row Hr]; [rewrite (bo_tables _ Hb); lia|]. exists c, row. split; [done|]. split; [done|].
    by apply (Forall_lookup_1 _ _ _ _ (bo_context _ Hb) Hc). }
  split; [|split].
  - apply Forall2_same_length_lookup_2.
    { unfold batch_rows. rewrite length_imap, length_take, static_rows_length. lia. }
    intros k r r' Hr Hr'. destruct (Hrow k r Hr) as (Hk & _). rewrite lookup_take_lt in Hr' by done.
    destruct (static_row k ltac:(lia)) as (h & Hh & E). rewrite E in Hr'. injection Hr' as <-.
    unfold batch_rows in Hr. rewrite row_lookup in Hr. destruct final_input as [_ Hin]. rewrite Hin in Hh by done. rewrite Hh in Hr. injection Hr as <-.
    destruct (Hctx k Hk) as (c & row & Hc & Hrw & _). destruct (final_tables k ltac:(lia)) as (srow & Hsrow & Hlen & Hcols).
    rewrite decide_True in Hcols by done. split; cbn [make_row r_position r_hidden r_context r_request r_slot r_blocks].
    + rewrite final_positions by lia. by rewrite decide_True.
    + done.
    + rewrite final_contexts by lia. by rewrite decide_True.
    + destruct (has_profile_gating ge) eqn:Hg; [|done]. destruct (bo_requests _ Hb Hg) as (rids & Hr & Hrl). rewrite Hr.
      cbn [fmap option_fmap option_map]. by rewrite (final_requests rids).
    + rewrite Hs. cbn [fmap option_fmap option_map]. rewrite (final_slots slots) by (done || lia). by rewrite decide_True.
    + intros j blk Hj. rewrite (table_take k srow Hsrow). rewrite lookup_take_lt; [by apply Hcols|].
      rewrite Hrw in Hj. cbn [default from_option id] in Hj. apply lookup_lt_Some in Hj.
      pose proof (Forall_lookup_1 _ _ _ _ (bo_width _ Hb) Hrw) as Hw. cbn in Hw. lia.
  - apply Forall_lookup_2. intros j r Hr. rewrite lookup_drop in Hr. pose proof (lookup_lt_Some _ _ _ Hr) as Hj. rewrite static_rows_length in Hj.
    destruct (static_row (n + j) ltac:(lia)) as (h & _ & E). rewrite E in Hr. injection Hr as <-.
    destruct (final_tables (n + j) ltac:(lia)) as (srow & Hsrow & Hlen & Hcols). rewrite decide_False in Hcols by lia.
    split; cbn [make_row r_context r_slot r_blocks].
    + rewrite final_contexts by lia. by rewrite decide_False by lia.
    + rewrite (table_take _ srow Hsrow). rewrite lookup_take_lt by lia. by rewrite <-Hblock.
    + cbn [fmap option_fmap option_map]. rewrite (final_slots slots) by (done || lia). rewrite decide_False by lia. cbn. by rewrite Hslot.
  - apply Forall_lookup_2. intros k r Hr. destruct (Hrow k r Hr) as (Hk & Ec & Eb & Es). destruct (Hctx k Hk) as (c & row & Hc & Hrw & Hc0).
    rewrite Hc in Ec. rewrite Hrw in Eb. cbn [default from_option id] in Ec, Eb. split.
    + by rewrite Ec.
    + intros p Hp. rewrite Ec in Hp. rewrite Eb. by apply (bo_blocks _ Hb k c).
    + intros s. rewrite Es. intros [= <-]. destruct (lookup_lt_is_Some_2 slots k) as [x Hx]; [lia|]. rewrite Hx.
      by apply (Forall_lookup_1 _ _ _ _ Hsr Hx).
Qed.

Lemma copy_rows_length src idx bt : length (copy_rows src idx bt) = length bt.
Proof.
  unfold copy_rows. revert bt. induction idx as [|i idx IH]; intros bt; [done|]. cbn [foldl]. by rewrite IH, length_alter.
Qed.

Lemma final_row_lengths : Forall (fun row => length row = W) (static_block_table final).
Proof.
  apply Forall_lookup_2. intros k row Hk. destruct (kernel_buffers sched b B st) as (_ & _ & _ & E & _).
  set (bt := copy_rows (b_block_tables b) (sched ≫= token_idx (num_tokens b)) (static_block_table st)) in *.
  assert (Hbt : forall row, bt !! k = Some row -> length row = W).
  { intros r Hr. destruct (lookup_lt_is_Some_2 (static_block_table st) k) as [old Hold].
    { apply lookup_lt_Some in Hr. unfold bt in Hr. by rewrite copy_rows_length in Hr. }
    pose proof (Forall_lookup_1 _ _ _ _ (so_rows _ Hst) Hold) as Hw. cbn in Hw.
    unfold bt in Hr. rewrite (block_rows sched b B Hsched _ k old Hold) in Hr. injection Hr as <-. case_decide; [by rewrite copy_row_length|done]. }
  assert (Hsame : exists r, bt !! k = Some r /\ length row = length r).
  { revert Hk. unfold fill_static. destruct (b_requests b), (has_profile_gating ge), (b_slots b), (num_tokens b <? B);
      cbn [with_slots with_requests with_block_table static_block_table]; rewrite E; try (by eexists);
      rewrite list_lookup_imap; (destruct (bt !! k) as [r|]; [|done]); intros [= <-]; exists r; (split; [done|]);
      destruct (_ && _); rewrite ?length_insert; done. }
  destruct Hsame as (r & Hr & ->). by apply Hbt.
Qed.

Lemma final_ok : static_ok final.
Proof.
  destruct (kernel_buffers sched b B st) as (E1 & E2 & E3 & E4 & E5 & E6 & _). pose proof n_le as Hn. pose proof Hst as [S1 S2 S3 S4 S5 S6 _].
  destruct (bo_slots _ Hb) as (slots & Hs & Hsl & _). pose proof (bo_requests _ Hb) as Hreq.
  split; [..|exact final_row_lengths]; unfold fill_static; rewrite Hs;
    (destruct (b_requests b) as [rids|]; [|clear Hreq]); destruct (has_profile_gating ge); destruct (num_tokens b <? B);
    cbn [with_slots with_requests with_block_table static_input static_positions static_context_lens static_request_ids static_stash_slots static_block_table];
    unfold fill_slice; rewrite ?E1, ?E2, ?E3, ?E4, ?E5, ?E6, ?length_imap, ?copy_rows_length, ?stores_length; try done;
    try (rewrite copy_slice_length; [done|lia]);
    destruct (Hreq eq_refl) as (r & [= <-] & Hrl); rewrite copy_slice_length; [done|lia|done|lia].
Qed.
End Replay.

(** ** Set-up *)

(** An executor that has captured its graphs for the layers [0 .. L-1]. *)
Record built (L : Z) (maxB W nb ns : nat) (ge : GraphExecutor) : Prop := {
  bu_layers : layer_ids ge = py_range L;
  bu_sizes : get_graph_batch_sizes (Z.of_nat maxB) = Ok (graph_batch_sizes ge);
  bu_mappings : layer_mappings (layer_ids ge) = Ok (mappings ge);
  bu_graphs : capture (layer_ids ge) = Ok (graphs ge);
  bu_width : 0 < capture_width ge <= Z.of_nat W;
  bu_slot : stash_scratch_slot ge = Z.of_nat ns;
  bu_block : kv_scratch_block ge = Z.of_nat nb;
}.

(** A sequence of calls, with the outputs they return. *)
Definition call : Type := list Program * Z * Batch.

Definition serve_one (enable_cuda_graph : bool) (max_attn_graph_bsz : Z) (ge : GraphExecutor)
    (s : list (list (H * R)) * Static * Memory) (c : call) : res (list (list (H * R)) * Static * Memory) :=
  '(outs, st, m) ← execute c.1.1 enable_cuda_graph max_attn_graph_bsz (num_tokens c.2) ge c.1.2 c.2 s.1.2 s.2;
  Ok (s.1.1 ++ [outs], st, m).

Definition call_ok (L : Z) (nb ns : nat) (ge : GraphExecutor) (c : call) : Prop :=
  0 <= c.1.2 < L /\ batch_ok nb ns ge c.2 /\ c.1.1 ≡ₚ launch (num_tokens c.2).

Section Transparent.
Context (L : Z) (maxB W nb ns : nat) (ge : GraphExecutor).
Hypothesis Hpage : 0 < page.
Hypothesis HL : 1 <= L.
Hypothesis Hmax : (1 <= maxB <= 1024)%nat.
Hypothesis Hge : built L maxB W nb ns ge.

Definition sim (s s' : list (list (H * R)) * Static * Memory) : Prop :=
  s.1.1 = s'.1.1 /\ static_ok maxB W s'.1.2 /\ memory_ok nb ns s.2 /\ memory_ok nb ns s'.2 /\ memory_eq nb ns s.2 s'.2 /\
  length (pages s.2) = Z.to_nat L.

Lemma layer_of layer_id : 0 <= layer_id < L -> py_get (mappings ge) layer_id = Ok layer_id /\ py_get (graphs ge) layer_id = Ok (Some layer_id).
Proof.
  intros Hl. pose proof (bu_mappings _ _ _ _ _ _ Hge) as Hm. pose proof (bu_graphs _ _ _ _ _ _ Hge) as Hg. rewrite (bu_layers _ _ _ _ _ _ Hge) in Hm, Hg.
  rewrite (mappings_range L HL) in Hm. rewrite capture_range in Hg. injection Hm as <-. injection Hg as <-.
  assert (Hlk : py_range L !! Z.to_nat layer_id = Some layer_id) by (unfold py_range; rewrite lookup_seqZ_lt by lia; f_equal; lia).
  split; apply py_get_lookup; try lia; [done|]. by rewrite list_lookup_fmap, Hlk.
Qed.

Lemma same_row_refl r : same_row r r.
Proof. by split. Qed.

Lemma call_sim c s s' :
  call_ok L nb ns ge c -> sim s s' ->
  exists t t', serve_one false (Z.of_nat maxB) ge s c = Ok t /\ serve_one true (Z.of_nat maxB) ge s' c = Ok t' /\ sim t t'.
Proof.
  destruct c as [[sched layer_id] b], s as [[os st] m], s' as [[os' st'] m']. intros (Hl & Hb & Hs) (Ho & Hst & Hm & Hm' & He & Hp).
  cbn [fst snd] in *. subst os'. destruct (layer_of layer_id Hl) as [Hmap Hgr].
  assert (Hlt : (Z.to_nat layer_id < length (pages m))%nat) by lia.
  unfold serve_one, execute. cbn [fst snd andb]. unfold execute_eager. rewrite Hmap. cbn [mbind res_bind].
  destruct (graph_sizes (Z.of_nat maxB) ltac:(lia)) as (sizes & Esz & Hsort & Hlast & _ & Hall). rewrite (bu_sizes _ _ _ _ _ _ Hge) in Esz. injection Esz as <-.
  destruct (Z.leb_spec (num_tokens b) (Z.of_nat maxB)) as [Hn|Hn].
  - destruct (bucket_spec (graph_batch_sizes ge) (num_tokens b) Hsort) as [(B & HB & HBin & HnB & _)|[_ Hnone]].
    2:{ exfalso. rewrite Forall_forall in Hnone. apply last_Some_elem_of in Hlast. specialize (Hnone _ Hlast). cbn in Hnone. lia. }
    rewrite Forall_forall in Hall. pose proof (Hall _ HBin) as HBr. cbn in HBr.
    pose proof (bu_width _ _ _ _ _ _ Hge) as HW. pose proof (bu_slot _ _ _ _ _ _ Hge) as Hsl. pose proof (bu_block _ _ _ _ _ _ Hge) as Hbl.
    destruct (rows_split nb ns maxB W ge HW Hsl Hbl sched b B st' Hs Hb Hst ltac:(lia)) as (rs & ps & Erows & Hsame & Hpad & Hrows).
    destruct (forward_padded nb ns Hpage layer_id _ rs ps m m' ltac:(lia) Hlt Hm Hm' He Hrows Hsame Hpad)
      as (outs & pads & m1 & m2 & F1 & F2 & Hlen & Hplen & Hm1 & Hm2 & He2 & Hp2).
    rewrite F1. cbn [mbind res_bind]. unfold run. rewrite HB. cbn [mbind res_bind]. rewrite Hgr. cbn [of_option mbind res_bind]. rewrite Hmap.
    cbn [mbind res_bind]. rewrite Erows, F2. cbn [mbind res_bind].
    rewrite (bu_layers _ _ _ _ _ _ Hge), output_range by done. cbn [of_option mbind res_bind]. rewrite lookup_insert_eq. cbn [of_option mbind res_bind].
    assert (Htake : take (length (b_hidden b)) (outs ++ pads) = outs).
    { rewrite take_app_length'; [done|]. rewrite Hlen. unfold batch_rows. by rewrite length_imap. }
    rewrite Htake. eexists _, _. split; [done|]. split; [done|]. split; [done|]. cbn [fst snd]. split.
    + pose proof (final_ok nb ns maxB W ge sched b B st' Hs Hb Hst ltac:(lia)) as Hfin. by destruct Hfin; split.
    + split; [done|]. split; [done|]. split; [done|]. congruence.
  - cbn [mbind res_bind].
    destruct (bo_slots _ _ _ _ Hb) as (slots & Esl & Hsll & Hslr).
    assert (Hrows : Forall (row_ok nb ns) (batch_rows (has_profile_gating ge) b)).
    { apply Forall_lookup_2. intros k r Hr. unfold batch_rows in Hr. rewrite row_lookup in Hr. destruct (b_hidden b !! k) as [h|] eqn:Eh; [|done].
      injection Hr as <-. apply lookup_lt_Some in Eh.
      destruct (lookup_lt_is_Some_2 (b_context_lens b) k) as [c Hc]; [rewrite (bo_contexts _ _ _ _ Hb); lia|].
      destruct (lookup_lt_is_Some_2 (b_block_tables b) k) as [row Hrow]; [rewrite (bo_tables _ _ _ _ Hb); lia|].
      split; cbn [make_row r_context r_blocks r_slot]; rewrite ?Hc, ?Hrow, ?Esl; cbn [default from_option id].
      - by apply (Forall_lookup_1 _ _ _ _ (bo_context _ _ _ _ Hb) Hc).
      - intros p Hp0. by apply (bo_blocks _ _ _ _ Hb k c).
      - intros s [= <-]. destruct (lookup_lt_is_Some_2 slots k) as [x Hx]; [lia|]. rewrite Hx. by apply (Forall_lookup_1 _ _ _ _ Hslr Hx). }
    destruct (forward_padded nb ns Hpage layer_id _ (batch_rows (has_profile_gating ge) b) [] m m' ltac:(lia) Hlt Hm Hm' He Hrows)
      as (outs & pads & m1 & m2 & F1 & F2 & Hlen & Hplen & Hm1 & Hm2 & He2 & Hp2); [|done|].
    { apply Forall_Forall2_diag, Forall_forall. intros r _. apply same_row_refl. }
    apply length_zero_iff_nil in Hplen as ->. rewrite !app_nil_r in F2. rewrite F1, F2. cbn [mbind res_bind].
    eexists _, _. split; [done|]. split; [done|]. split; [done|]. cbn [fst snd]. split; [done|]. split; [done|]. split; [done|].
    split; [done|congruence].
Qed.

(** C15. An engine that replays CUDA graphs returns, call after call, exactly what an
    engine without graphs returns, and leaves every allocatable KV page and every
    stash row of a request the same: whatever earlier batches left in the static
    buffers, in whatever order the copy kernel's programs ran, the padding of a
    bucket only writes the spare page and the scratch row. *)
Theorem graphs_transparent calls s s' :
  Forall (call_ok L nb ns ge) calls -> sim s s' ->
  exists t t', py_for (serve_one false (Z.of_nat maxB) ge) calls s = Ok t /\
    py_for (serve_one true (Z.of_nat maxB) ge) calls s' = Ok t' /\
    t.1.1 = t'.1.1 /\ memory_eq nb ns t.2 t'.2.
Proof.
  intros Hc Hs. destruct (py_for_rel (serve_one false (Z.of_nat maxB) ge) (serve_one true (Z.of_nat maxB) ge)
    (fun c c' => c = c' /\ call_ok L nb ns ge c) sim calls calls s s') as (t & t' & E1 & E2 & (Ho & _ & _ & _ & He & _)); [|done| |].
  - apply Forall_Forall2_diag. eapply Forall_impl; [exact Hc|]. intros c Hok. by split.
  - intros c c' u u' [<- Hok] Hu. by apply call_sim.
  - by exists t, t'.
Qed.
End Transparent.

(** The bucket of a batch is the smallest captured size that holds it; every
    batch size up to the maximum has one, and none beyond. *)
Theorem bucket_exact m n :
  1 <= m <= 1024 ->
  exists sizes, get_graph_batch_sizes m = Ok sizes /\
    (n <= m -> exists B, _get_bucket_by_num_tokens sizes n = Ok B /\ B ∈ sizes /\ n <= B <= m /\ 1 <= B /\
       forall s, s ∈ sizes -> n <= s -> B <= s) /\
    (m < n -> _get_bucket_by_num_tokens sizes n = Raise AssertionError).
Proof.
  intros Hm. destruct (graph_sizes m Hm) as (sizes & E & Hsort & Hlast & _ & Hall). exists sizes. split; [done|].
  apply last_Some_elem_of in Hlast. rewrite Forall_forall in Hall.
  destruct (bucket_spec sizes n Hsort) as [(B & HB & HBin & HnB & Hmin)|[HB Hnone]].
  - pose proof (Hall _ HBin) as HBr. cbn in HBr. split; [|lia]. intros Hn. exists B. split; [done|]. split; [done|]. split; [lia|]. split; [lia|done].
  - split; [|done]. intros Hn. rewrite Forall_forall in Hnone. specialize (Hnone _ Hlast). cbn in Hnone. lia.
Qed.
End Layer.

(** *** A concrete executor: one layer, pages of two tokens, four pages, two stash rows *)

Definition demo_executor : @GraphExecutor := {|
  has_profile_gating := true; mappings := [0]; graph_batch_sizes := [1; 4]; layer_ids := [0]; graphs := [Some 0];
  capture_width := 2; stash_scratch_slot := 2; kv_scratch_block := 4 |}.

Definition demo_batch : @Batch Z := {|
  b_positions := [2; 0]; b_hidden := [10; 20]; b_block_tables := [[0; 2]; [1]]; b_slot_mapping := [4; 2];
  b_seq_lens := [3; 1]; b_context_lens := [2; 0]; b_seq_start_loc := [0; 3; 4];
  b_requests := Some [7; 8]; b_slots := Some [1; 0] |}.

(** What an earlier batch of four tokens left behind. *)
Definition demo_static : @Static Z Z := {|
  static_input := [1; 2; 3; 4]; static_block_table := replicate 4 [3; 0]; static_slot_mapping := [9; 9; 9; 9];
  static_positions := [5; 5; 5; 5]; static_request_ids := [1; 1; 1; 1]; static_stash_slots := [0; 1; 0; 1];
  static_seq_lens := [6; 6; 6; 6]; static_context_lens := [1; 1; 1; 1]; static_seq_start_loc := [0; 0; 0; 0; 0];
  static_outputs := ∅ |}.

Definition demo_memory : @Memory Z Z := {| pages := [replicate 5 [0; 0]]; stash := [100; 200; 300] |}.

Definition demo_call : @call Z := (reverse (launch 2), 0, demo_batch).

Definition demo_serve (enable : bool) : res (list (list (Z * Z)) * Static * Memory) :=
  py_for (serve_one (H := Z) (K := Z) (Q := Z) (A := Z) (R := Z) 2 (fun _ => true) Z.add (fun _ p h => (h + p, h)) (fun _ q es => q + sumZ es)
            (fun _ a h => (a, a + h)) (fun _ rid p h => (h, default 0 rid + p)) enable 4 demo_executor)
    [demo_call; demo_call] ([], demo_static, demo_memory).

Lemma demo_built : built 1 4 2 4 2 demo_executor.
Proof. split; cbn; try done; vm_compute; done. Qed.

Lemma demo_call_ok : call_ok 2 1 4 2 demo_executor demo_call.
Proof.
  split; [done|]. split; [|unfold demo_call; cbn [fst snd]; by rewrite reverse_Permutation].
  split; cbn [demo_call demo_batch snd b_positions b_hidden b_context_lens b_block_tables b_slots b_requests]; try done.
  - repeat constructor; lia.
  - repeat constructor; cbn; lia.
  - intros i c row p Hc Hr Hp. destruct i as [|[|i]]; cbn in Hc, Hr; simplify_eq.
    + assert (p = 0 \/ p = 1 \/ p = 2) as [->|[->| ->]] by lia; eexists; (split; [reflexivity|lia]).
    + assert (p = 0) as -> by lia. eexists. split; [reflexivity|lia].
  - exists [1; 0]. split; [done|]. split; [done|]. repeat constructor; lia.
  - intros _. by exists [7; 8].
Qed.

Lemma demo_sim :
  sim 2 1 4 2 4 2 ([], demo_static, demo_memory) ([], demo_static, demo_memory).
Proof.
  assert (Hm : memory_ok 2 4 2 demo_memory) by (split; [repeat constructor|done]).
  split; [done|]. split; [split; try done; repeat constructor|]. split; [done|]. split; [done|]. split; [split; [repeat constructor|done]|done].
Qed.

Lemma graphs_transparent_witness :
  exists t t', demo_serve false = Ok t /\ demo_serve true = Ok t' /\ t.1.1 = t'.1.1 /\ memory_eq 4 2 t.2 t'.2.
Proof.
  apply (graphs_transparent 2 (fun _ => true) Z.add (fun _ p h => (h + p, h)) (fun _ q es => q + sumZ es)
    (fun _ a h => (a, a + h)) (fun _ rid p h => (h, default 0 rid + p)) 1 4 2 4 2 demo_executor).
  - lia.
  - lia.
  - lia.
  - exact demo_built.
  - apply Forall_cons; split; [exact demo_call_ok|]. apply Forall_singleton. exact demo_call_ok.
  - exact demo_sim.
Defined.

Lemma bucket_exact_witness :
  1 <= 160 <= 1024 /\ exists sizes B, get_graph_batch_sizes 160 = Ok sizes /\ _get_bucket_by_num_tokens sizes 41 = Ok B /\ 41 <= B <= 160.
Proof.
  split; [lia|]. destruct (bucket_exact 160 41 ltac:(lia)) as (sizes & E & Hfit & _).
  destruct (Hfit ltac:(lia)) as (B & HB & _ & Hr & _). by exists sizes, B.
Defined.

(** A pipeline stage whose layers do not start at 0 cannot capture its graphs. *)
Lemma capture_pipeline_stage : capture [1; 3] = Raise IndexError.
Proof. reflexivity. Qed.
End AttnExecutor.
