(* ===== verification/ExpertExecutor.v ===== *)
(** * The expert executor and its CUDA graphs
    ([executor/executor.py], [executor/cuda_graph.py], [models/experts.py],
    [csrc/cuda_ops/grouped_gemm.cu], [csrc/cuda_ops/indices_copy_pad.cu],
    [csrc/include/metadata.hpp])

    The rows of an expert batch are grouped by expert.  A worker turns the expert ids
    of a batch into row counts per local expert or into a local expert per row, and
    applies to every row the two projections of its expert: in a loop over the experts,
    in one grouped product over the counts, or by replaying a graph captured for a
    bucket of rows over static buffers.  The file models the counts and indices, the
    expert classes, the set-up kernel of the grouped product, the copy kernel thread by
    thread, capture and replay; it proves that the serial and the CUTLASS paths give every
    row the result of its own expert, what exactly the DeepGEMM paths hand to the library,
    and when the graphs of a CUTLASS worker can be captured.

    The projections, biases, activation and quantisation of a row are parameters; the
    DeepGEMM product is a library call and a parameter as a whole, of which nothing is
    assumed. *)

From stdpp Require Import strings.
From S2P Require Import Prelude BlockManager Engine Launch.
Import BlockManager Launch.

Module ExpertExecutor.

(** ** The classes *)

Inductive ExpertCls : Type :=
  MoEExpertsSerial | MoEExpertsCUTLASS | MoEExpertsCUTLASSFP8 | MoEExpertsDeepGemmBF16 | MoEExpertsDeepGemmFP8.

#[global] Instance ExpertCls_eq_dec : EqDecision ExpertCls.
Proof. solve_decision. Defined.

(** [self.quant_method = ... or "none"] and its check. *)
Definition quant_method (moe_linear_quant : option string) : res string :=
  let q := match moe_linear_quant with Some q => if String.eqb q "" then "none" else q | None => "none" end%string in
  _ ← py_check (String.eqb q "none" || String.eqb q "fp8") ValueError; Ok q.

Definition get_expert_cls (enable_grouped_gemm less_than_sm90 : bool) (quant_method : string) : ExpertCls :=
  if negb enable_grouped_gemm then MoEExpertsSerial
  else if less_than_sm90 then if String.eqb quant_method "fp8" then MoEExpertsCUTLASSFP8 else MoEExpertsCUTLASS
  else if String.eqb quant_method "fp8" then MoEExpertsDeepGemmFP8 else MoEExpertsDeepGemmBF16.

Definition is_cutlass (c : ExpertCls) : bool :=
  match c with MoEExpertsCUTLASS | MoEExpertsCUTLASSFP8 => true | _ => false end.
Definition is_deepgemm (c : ExpertCls) : bool :=
  match c with MoEExpertsDeepGemmBF16 | MoEExpertsDeepGemmFP8 => true | _ => false end.

(** What an executor is built with. *)
Record Worker : Type := {
  expert_cls : ExpertCls;
  num_experts : Z;
  expert_bias : bool;
  local_to_global : list Z;
  global_to_local : list Z;
  max_batch_size_expert : Z;
  enable_cuda_graph_expert : bool;
  w_layer_ids : list Z;
}.

Definition local_num_experts (w : Worker) : Z := zlen (local_to_global w).

(** [ExpertsExecutor.__init__]: only the CUTLASS classes have biases. *)
Definition check_worker (w : Worker) : res unit :=
  py_assert (is_cutlass (expert_cls w) || negb (expert_bias w)).

(** ** Row counts and row indices *)

Definition count_expert (batches : list Z) (eid : Z) : res (list Z) :=
  x ← vec_at batches eid; Ok (<[Z.to_nat eid := x + 1]> batches).

Definition get_expert_batch_sizes (n_expert : Z) (exp_ids : list Z) : res (list Z) :=
  _ ← py_check (n_expert >? 0) RuntimeError;
  py_for count_expert exp_ids (replicate (Z.to_nat n_expert) 0).

Definition token_expert_index (global_to_local : list Z) (eid : Z) : res Z :=
  l ← vec_at global_to_local eid; _ ← py_check (negb (l =? -1)) RuntimeError; Ok l.

Definition get_token_expert_indices (exp_ids global_to_local : list Z) : res (list Z) :=
  py_map (token_expert_index global_to_local) exp_ids.

Definition needs_m_indices (w : Worker) : bool :=
  is_deepgemm (expert_cls w) || (is_cutlass (expert_cls w) && expert_bias w).

(** [prepare_bsz_and_indices]: the static zeros stay where a class needs nothing. *)
Definition prepare_bsz_and_indices (w : Worker) (exp_ids : list Z) : res (list Z * list Z) :=
  batch_sizes ←
    (if is_deepgemm (expert_cls w) then Ok (replicate (length (local_to_global w)) 0)
     else b ← get_expert_batch_sizes (num_experts w) exp_ids; py_map (py_get b) (local_to_global w));
  m_indices ←
    (if needs_m_indices w then get_token_expert_indices exp_ids (global_to_local w)
     else Ok (take (length exp_ids) (replicate (Z.to_nat (max_batch_size_expert w)) 0)));
  Ok (batch_sizes, m_indices).

Section Experts.
Context {H U V : Type}.

(** The arithmetic of a row: [up vid e] and [down vid e] project with the weights of
    expert [e] of the operator at position [vid]. *)
Context (up : Z -> Z -> H -> U) (up_bias : Z -> Z -> U -> U) (act : U -> V).
Context (down : Z -> Z -> V -> H) (down_bias : Z -> Z -> H -> H).
(** DeepGEMM's grouped products, and what fresh tensors hold. *)
Context (dg_up : Z -> list H -> list Z -> res (list U)) (dg_down : Z -> list V -> list Z -> res (list H)).
Context (fresh_up : Z -> list U) (fresh_down : Z -> list H).

(** *** [MoEExpertsSerial] *)

Definition calc (vid i : Z) (x : H) : H := down vid i (act (up vid i x)).

Definition serial_expert (vid : Z) (hiddens : list H) (st : Z * list (list H)) (x : Z * Z) : Z * list (list H) :=
  let '(s, results) := st in let '(i, bs) := x in
  if bs =? 0 then st
  else (s + bs, results ++ [calc vid i <$> py_take bs (py_drop s hiddens)]).

Definition serial_forward (vid : Z) (hiddens : list H) (batch_sizes : list Z) : res (list H) :=
  let '(_, results) := foldl (serial_expert vid hiddens) (0, []) (enumerate batch_sizes) in
  match results with [] => Raise RuntimeError | _ => Ok (concat results) end.

(** *** The grouped product *)

(** [setup_grouped_gemm_args_kernel]: expert, first row and rows of every problem. *)
Definition setup_problem (st : Z * list (Z * Z * Z)) (x : Z * Z) : Z * list (Z * Z * Z) :=
  let '(offset, problems) := st in let '(i, M) := x in (offset + M, problems ++ [(i, offset, M)]).

Definition setup_meta (batch_sizes : list Z) : list (Z * Z * Z) :=
  (foldl setup_problem (0, []) (enumerate batch_sizes)).2.

(** Row [r] of a problem, read and written through its pointers. *)
Definition gemm_row {A B} (f : Z -> A -> B) (a : list A) (i offset : Z) (c : list B) (r : Z) : res (list B) :=
  x ← at_index a (offset + r);
  _ ← at_index c (offset + r);
  Ok (<[Z.to_nat (offset + r) := f i x]> c).

Definition gemm_problem {A B} (f : Z -> A -> B) (a : list A) (c : list B) (p : Z * Z * Z) : res (list B) :=
  let '(i, offset, M) := p in py_for (gemm_row f a i offset) (py_range M) c.

Definition grouped_gemm {A B} (f : Z -> A -> B) (batch_sizes : list Z) (a : list A) (c : list B) : res (list B) :=
  py_for (gemm_problem f a) (setup_meta batch_sizes) c.

(** [x + bias[m]]: rows of the bias table, broadcast against the rows of [x]. *)
Definition bias_index (E m : Z) : res Z :=
  if (- E <=? m) && (m <? E) then Ok (if m <? 0 then m + E else m) else Raise IndexError.

Definition add_bias {A} (bias : Z -> A -> A) (E : Z) (x : list A) (m : list Z) : res (list A) :=
  es ← py_map (bias_index E) m;
  if decide (length es = length x) then Ok (zip_with bias es x)
  else match es, x with
       | [e], _ => Ok (bias e <$> x)
       | _, [r] => Ok ((fun e => bias e r) <$> es)
       | _, _ => Raise RuntimeError
       end.

(** [MoEExpertsCUTLASS.forward]; the FP8 class quantises rows first. *)
Definition cutlass_forward (w : Worker) (vid bs : Z) (hiddens : list H) (batch_sizes m_indices : list Z) : res (list H) :=
  cache_up ← grouped_gemm (up vid) batch_sizes hiddens (fresh_up bs);
  cache_up ← (if expert_bias w then add_bias (up_bias vid) (local_num_experts w) cache_up m_indices else Ok cache_up);
  down_out ← grouped_gemm (down vid) batch_sizes (act <$> cache_up) (fresh_down bs);
  if expert_bias w then add_bias (down_bias vid) (local_num_experts w) down_out m_indices else Ok down_out.

(** [MoEExpertsDeepGemmBF16.forward] and [MoEExpertsDeepGemmFP8.forward]. *)
Definition deepgemm_forward (vid : Z) (hiddens : list H) (m_indices : list Z) : res (list H) :=
  up_out ← dg_up vid hiddens m_indices; dg_down vid (act <$> up_out) m_indices.

Definition execute_eager (w : Worker) (mappings : list Z) (layer_id bs : Z) (hiddens : list H)
    (batch_sizes m_indices : list Z) : res (list H) :=
  vid ← py_get mappings layer_id;
  if is_cutlass (expert_cls w) then cutlass_forward w vid bs hiddens batch_sizes m_indices
  else if is_deepgemm (expert_cls w) then deepgemm_forward vid hiddens m_indices
  else Raise ValueError.

(** ** Static buffers *)

Record Static : Type := {
  static_input_hiddens : list H;
  static_input_batch_sizes : list Z;
  static_input_m_indices : list Z;
  static_outputs : gmap (Z * Z) (list H);
}.

(** [dst[ : k].copy_(src)] with broadcasting of a single row. *)
Definition copy_to {A} (k : Z) (src dst : list A) : res (list A) :=
  let n := length (py_take k dst) in
  if decide (length src = n) then Ok (src ++ drop n dst)
  else match src with [x] => Ok (replicate n x ++ drop n dst) | _ => Raise RuntimeError end.

(** A program of [copy_and_pad_kernel]. *)
Definition copy_and_pad (hiddens : list H) (batch_sizes m_indices : list Z) (padded_bsz : Z) (st : Static) (p : Program)
    : Static :=
  match p with
  | MetaThread t =>
      {| static_input_hiddens := static_input_hiddens st;
         static_input_batch_sizes := stores (strided t (zlen batch_sizes)) (fun i => batch_sizes !! i) (static_input_batch_sizes st);
         static_input_m_indices := stores (strided t padded_bsz) (meta_value (zlen hiddens) m_indices 0) (static_input_m_indices st);
         static_outputs := static_outputs st |}
  | TokenBlock k =>
      {| static_input_hiddens := stores (block_tokens (zlen hiddens) k) (fun i => hiddens !! i) (static_input_hiddens st);
         static_input_batch_sizes := static_input_batch_sizes st;
         static_input_m_indices := static_input_m_indices st;
         static_outputs := static_outputs st |}
  end.

(** [CUDAGraphExpertsExecutor.cuda_graph_preprocess] *)
Definition cuda_graph_preprocess (w : Worker) (sched : list Program) (hiddens : list H) (batch_sizes m_indices : list Z)
    (bucket_size : Z) (st : Static) : res Static :=
  if is_cutlass (expert_cls w) then
    x ← copy_to (zlen hiddens) hiddens (static_input_hiddens st);
    b ← copy_to (zlen (static_input_batch_sizes st)) batch_sizes (static_input_batch_sizes st);
    m ← (if expert_bias w then copy_to (zlen hiddens) m_indices (static_input_m_indices st)
         else Ok (static_input_m_indices st));
    Ok {| static_input_hiddens := x; static_input_batch_sizes := b; static_input_m_indices := m;
          static_outputs := static_outputs st |}
  else Ok (foldl (copy_and_pad hiddens batch_sizes m_indices bucket_size) st sched).

(** ** Buckets *)

(** The loop doubles from 128; [fuel] bounds the doublings. *)
Fixpoint double_sizes (fuel : nat) (bsz graph_max_batch_size : Z) (graph_bsz : list Z) : option (list Z) :=
  match fuel with
  | O => None
  | S fuel => if bsz <? graph_max_batch_size then double_sizes fuel (bsz * 2) graph_max_batch_size (graph_bsz ++ [bsz])
              else Some (graph_bsz ++ [bsz])
  end.

Definition get_graph_batch_sizes (graph_max_batch_size : Z) : res (list Z) :=
  _ ← py_assert (graph_max_batch_size >? 0);
  if graph_max_batch_size <=? 128 then Ok [graph_max_batch_size]
  else of_option RuntimeError (double_sizes (S (Z.to_nat (Z.log2_up graph_max_batch_size))) 128 graph_max_batch_size []).

(** ** Capture *)

(** [make_expert_dummy_inputs]; [zero] is a row of zeros. *)
Definition make_expert_dummy_inputs (zero : H) (batch_size num_experts_per_rank : Z) : res (list H * list Z * list Z) :=
  q ← py_floordiv batch_size num_experts_per_rank;
  Ok (replicate (Z.to_nat batch_size) zero, replicate (Z.to_nat num_experts_per_rank) q,
      py_range num_experts_per_rank ≫= fun i => replicate (Z.to_nat q) i).

(** What the graph of a layer runs: [execute_eager] on slices of the buffers. *)
Definition graph_body (w : Worker) (mappings : list Z) (B layer_id : Z) (st : Static) : res (list H) :=
  execute_eager w mappings layer_id B (py_take B (static_input_hiddens st)) (static_input_batch_sizes st)
    (py_take B (static_input_m_indices st)).

(** Warm-up and capture of one layer of a bucket; the capture allocates its outputs
    without running. *)
Definition capture_layer (w : Worker) (mappings : list Z) (B : Z) (s : list (option Z) * Static) (layer_id : Z)
    : res (list (option Z) * Static) :=
  _ ← py_get s.1 layer_id;
  out ← graph_body w mappings B layer_id s.2;
  _ ← graph_body w mappings B layer_id s.2;
  gs ← py_set s.1 layer_id (Some layer_id);
  j ← of_option RuntimeError (output_index (w_layer_ids w) layer_id);
  Ok (gs, {| static_input_hiddens := static_input_hiddens s.2; static_input_batch_sizes := static_input_batch_sizes s.2;
             static_input_m_indices := static_input_m_indices s.2;
             static_outputs := <[(B, j) := out]> (static_outputs s.2) |}).

(** One bucket of [capture]. *)
Definition capture_bucket (w : Worker) (zero : H) (sched : Z -> list Program) (mappings : list Z)
    (s : gmap Z (list (option Z)) * Static) (B : Z) : res (gmap Z (list (option Z)) * Static) :=
  '(x, b, m) ← make_expert_dummy_inputs zero B (local_num_experts w);
  st ← cuda_graph_preprocess w (sched B) x b m B s.2;
  '(gs, st) ← py_for (capture_layer w mappings B) (w_layer_ids w) (replicate (length (w_layer_ids w)) None, st);
  Ok (<[B := gs]> s.1, st).

(** [build_cuda_graph_executor]: [blank] and [blank_ids] are what the fresh buffers hold. *)
Definition build_cuda_graph_executor (w : Worker) (zero : H) (sched : Z -> list Program) (mappings : list Z)
    (blank : list H) (blank_sizes blank_ids : list Z) : res (gmap Z (list (option Z)) * Static) :=
  sizes ← get_graph_batch_sizes (max_batch_size_expert w);
  py_for (capture_bucket w zero sched mappings) sizes
    (∅, {| static_input_hiddens := blank; static_input_batch_sizes := blank_sizes; static_input_m_indices := blank_ids;
           static_outputs := ∅ |}).

(** ** Replay *)

(** [CUDAGraphExpertsExecutor.run]; the caller passes the position of the layer. *)
Definition run (w : Worker) (mappings sizes : list Z) (graphs : gmap Z (list (option Z))) (sched : list Program)
    (vid : Z) (hiddens : list H) (batch_sizes m_indices : list Z) (st : Static) : res (list H * Static) :=
  B ← _get_bucket_by_num_tokens sizes (zlen hiddens);
  st ← cuda_graph_preprocess w sched hiddens batch_sizes m_indices B st;
  gs ← of_option KeyError (graphs !! B);
  g ← py_get gs vid;
  lid ← of_option RuntimeError g;
  out ← graph_body w mappings B lid st;
  j ← of_option RuntimeError (output_index (w_layer_ids w) lid);
  let outputs := <[(B, j) := out]> (static_outputs st) in
  out ← of_option IndexError (outputs !! (B, vid));
  Ok (py_take (zlen hiddens) out,
      {| static_input_hiddens := static_input_hiddens st; static_input_batch_sizes := static_input_batch_sizes st;
         static_input_m_indices := static_input_m_indices st; static_outputs := outputs |}).

(** [ExpertsExecutor.execute] *)
Definition execute (w : Worker) (mappings sizes : list Z) (graphs : gmap Z (list (option Z))) (sched : list Program)
    (layer_id : Z) (hiddens : list H) (batch_sizes m_indices : list Z) (st : Static) : res (list H * Static) :=
  _ ← py_assert (zlen hiddens <=? max_batch_size_expert w);
  vid ← py_get mappings layer_id;
  if is_cutlass (expert_cls w) || is_deepgemm (expert_cls w) then
    if enable_cuda_graph_expert w then run w mappings sizes graphs sched vid hiddens batch_sizes m_indices st
    else out ← execute_eager w mappings layer_id (zlen hiddens) hiddens batch_sizes m_indices; Ok (out, st)
  else out ← serial_forward vid hiddens batch_sizes; Ok (out, st).

(** ** Row counts list the rows *)

Lemma sorted_lt_lookup l (i j : nat) x y :
  StronglySorted Z.lt l -> l !! i = Some x -> l !! j = Some y -> (i < j)%nat -> x < y.
Proof.
  intros Hs. revert i j. induction Hs as [|z l Hs IH Hall]; intros i j Hi Hj Hij; [done|].
  destruct j as [|j]; [lia|]. destruct i as [|i]; cbn in Hi, Hj.
  - injection Hi as ->. by apply (Forall_lookup_1 _ _ _ _ Hall Hj).
  - apply (IH i j); [done|done|lia].
Qed.

(** The expert of every row when expert [i] has the first [cs] rows, [i + 1] the next, ... *)
Fixpoint expand (i : Z) (cs : list Z) : list Z :=
  match cs with [] => [] | M :: cs => replicate (Z.to_nat M) i ++ expand (i + 1) cs end.

Definition cnt (i : Z) (l : list Z) : Z := zlen (filter (fun x => x = i) l).

Lemma cnt_nonneg i l : 0 <= cnt i l.
Proof. apply zlen_nonneg. Qed.

Lemma cnt_cons i x l : cnt i (x :: l) = if decide (x = i) then 1 + cnt i l else cnt i l.
Proof. unfold cnt. rewrite filter_cons. destruct (decide (x = i)); [|done]. rewrite zlen_cons. lia. Qed.

Lemma cnt_snoc i l x : cnt i (l ++ [x]) = if decide (x = i) then cnt i l + 1 else cnt i l.
Proof.
  unfold cnt. rewrite filter_app, zlen_app, filter_cons, filter_nil. destruct (decide (x = i)).
  - rewrite zlen_cons. done.
  - change (zlen (@nil Z)) with 0. lia.
Qed.

Lemma cnt_filter_ne i j l : i <> j -> cnt j (filter (fun x => x <> i) l) = cnt j l.
Proof.
  intros Hne. induction l as [|x l IH]; [done|]. rewrite filter_cons. destruct (decide (x <> i)) as [Hx|Hx].
  - by rewrite !cnt_cons, IH.
  - apply dec_stable in Hx as ->. rewrite cnt_cons, decide_False by done. done.
Qed.

(** In a sorted list the least element comes first, as often as it occurs. *)
Lemma sorted_split i ls :
  StronglySorted Z.le ls -> Forall (fun x => i <= x) ls ->
  ls = replicate (Z.to_nat (cnt i ls)) i ++ filter (fun x => x <> i) ls.
Proof.
  induction 1 as [|x ls Hs IH Hall]; intros Hge; [done|]. apply Forall_cons in Hge as [Hx Hge].
  rewrite cnt_cons, filter_cons. destruct (decide (x = i)) as [->|Hne].
  - rewrite (decide_False (P := i <> i)) by tauto. pose proof (cnt_nonneg i ls).
    replace (Z.to_nat (1 + cnt i ls)) with (S (Z.to_nat (cnt i ls))) by lia. cbn. f_equal. by apply IH.
  - rewrite decide_True by done. assert (Hnone : Forall (fun y => y <> i) ls).
    { rewrite Forall_forall in Hall |- *. intros y Hy. specialize (Hall _ Hy). lia. }
    rewrite filter_all by done. assert (E : cnt i ls = 0).
    { clear -Hnone. induction Hnone as [|y ls Hy _ IH]; [done|]. by rewrite cnt_cons, decide_False. }
    by rewrite E.
Qed.

Lemma sorted_filter (P : Z -> Prop) `{!forall x, Decision (P x)} ls :
  StronglySorted Z.le ls -> StronglySorted Z.le (filter P ls).
Proof.
  induction 1 as [|x ls Hs IH Hall]; [constructor|]. rewrite filter_cons. destruct (decide (P x)); [|done]. constructor; [done|].
  apply Forall_forall. intros y Hy. apply list_elem_of_filter in Hy as [_ Hy]. rewrite Forall_forall in Hall. by apply Hall.
Qed.

(** The counts of a sorted list of experts expand to the list. *)
Lemma expand_counts (k : nat) i ls :
  StronglySorted Z.le ls -> Forall (fun x => i <= x < i + Z.of_nat k) ls ->
  expand i ((fun j => cnt j ls) <$> seqZ i (Z.of_nat k)) = ls.
Proof.
  revert i ls. induction k as [|k IH]; intros i ls Hs Hr.
  - destruct ls as [|x ls]; [done|]. apply Forall_cons in Hr as [Hx _]. lia.
  - rewrite seqZ_cons by lia. replace (Z.pred (Z.of_nat (S k))) with (Z.of_nat k) by lia. cbn [fmap list_fmap expand].
    etrans; [|symmetry; apply (sorted_split i ls); [done|eapply Forall_impl; [exact Hr|]; cbn; lia]]. f_equal.
    rewrite <-(IH (i + 1) (filter (fun x => x <> i) ls)).
    + change (Z.succ i) with (i + 1). f_equal. apply list_fmap_ext. intros p x Hp. apply lookup_seqZ in Hp as [-> Hp].
      rewrite cnt_filter_ne by lia. done.
    + by apply sorted_filter.
    + apply Forall_forall. intros x Hx. apply list_elem_of_filter in Hx as [Hne Hx]. rewrite Forall_forall in Hr. specialize (Hr _ Hx). cbn in Hr. lia.
Qed.

Lemma expand_length i cs : Forall (fun M => 0 <= M) cs -> Z.of_nat (length (expand i cs)) = sumZ cs.
Proof.
  intros H0. revert i. induction H0 as [|M cs HM _ IH]; intros i; [done|]. cbn [expand sumZ foldr]. rewrite length_app, length_replicate.
  specialize (IH (i + 1)). unfold sumZ in *. lia.
Qed.

Lemma get_expert_batch_sizes_ok n_expert exp_ids :
  0 < n_expert -> Forall (fun e => 0 <= e < n_expert) exp_ids ->
  get_expert_batch_sizes n_expert exp_ids = Ok (tab n_expert (fun i => cnt i exp_ids)).
Proof.
  intros Hn Hr. unfold get_expert_batch_sizes. rewrite Z.gtb_ltb, (proj2 (Z.ltb_lt _ _)) by done. cbn [mbind res_bind py_check].
  destruct (py_for_total (fun pre b => b = tab n_expert (fun i => cnt i pre)) count_expert exp_ids (replicate (Z.to_nat n_expert) 0))
    as (b & Hb & ->); [|intros pre e suf b Hs ->|done].
  - rewrite replicate_tab. by apply tab_ext.
  - assert (He : 0 <= e < n_expert) by (rewrite Forall_forall in Hr; apply Hr; rewrite Hs; apply elem_of_app; right; by left).
    unfold count_expert, vec_at, ASSERT. rewrite (proj2 (Z.leb_le _ _)) by lia. cbn [mbind res_bind py_check].
    rewrite tab_lookup by done. cbn [of_option mbind res_bind]. eexists. split; [done|].
    pose proof (py_set_tab n_expert (fun i => cnt i pre) e (cnt e pre + 1) He) as Hset.
    rewrite py_set_nonneg in Hset by (rewrite tab_zlen; lia). apply Ok_inj in Hset. rewrite Hset. apply tab_ext.
    intros i Hi. unfold upd. rewrite cnt_snoc. destruct (Z.eqb_spec i e) as [->|Hne]; [by rewrite decide_True|by rewrite decide_False].
Qed.

(** ** Workers *)

(** The two rank tables of [build_expert_executor]: mutually inverse, ascending. *)
Record worker_ok (w : Worker) : Prop := {
  wo_check : check_worker w = Ok tt;
  wo_some : local_to_global w <> [];
  wo_sorted : StronglySorted Z.lt (local_to_global w);
  wo_range : Forall (fun e => 0 <= e < num_experts w) (local_to_global w);
  wo_inverse : forall i e, local_to_global w !! i = Some e -> global_to_local w !! Z.to_nat e = Some (Z.of_nat i);
}.

Definition local (w : Worker) (e : Z) : Z := default 0 (global_to_local w !! Z.to_nat e).

(** The batches a worker is sent: its own experts, grouped. *)
Record ids_ok (w : Worker) (exp_ids : list Z) : Prop := {
  io_sorted : StronglySorted Z.le exp_ids;
  io_local : Forall (fun e => e ∈ local_to_global w) exp_ids;
}.

Section Counts.
Context (w : Worker) (Hw : worker_ok w) (exp_ids : list Z) (Hids : ids_ok w exp_ids).

Notation ls := (local w <$> exp_ids).
Notation E := (local_num_experts w).

Lemma local_lookup i e : local_to_global w !! i = Some e -> local w e = Z.of_nat i.
Proof. intros Hi. unfold local. by rewrite (wo_inverse _ Hw _ _ Hi). Qed.

Lemma local_range e : e ∈ local_to_global w -> 0 <= local w e < E.
Proof. intros He. apply list_elem_of_lookup in He as [i Hi]. rewrite (local_lookup _ _ Hi). apply lookup_lt_Some in Hi. unfold local_num_experts, zlen. lia. Qed.

Lemma locals_range : Forall (fun l => 0 <= l < E) ls.
Proof. apply Forall_fmap. eapply Forall_impl; [apply (io_local _ _ Hids)|]. intros e He. by apply local_range. Qed.

Lemma ids_range : Forall (fun e => 0 <= e < num_experts w) exp_ids.
Proof.
  eapply Forall_impl; [apply (io_local _ _ Hids)|]. intros e He. pose proof (wo_range _ Hw) as Hr. rewrite Forall_forall in Hr. by apply Hr.
Qed.

Lemma cnt_local (i : nat) e : local_to_global w !! i = Some e -> cnt (Z.of_nat i) ls = cnt e exp_ids.
Proof.
  intros Hi. pose proof (io_local _ _ Hids) as Hl. clear Hids. induction Hl as [|x l Hx _ IH]; [done|].
  cbn [fmap list_fmap]. rewrite !cnt_cons. apply list_elem_of_lookup in Hx as [j Hj]. rewrite (local_lookup _ _ Hj).
  destruct (decide (Z.of_nat j = Z.of_nat i)) as [Hij|Hij]; destruct (decide (x = e)) as [->|Hne]; [by f_equal|exfalso|exfalso|done].
  - apply Nat2Z.inj in Hij as ->. congruence.
  - pose proof (local_lookup _ _ Hj) as H1. pose proof (local_lookup _ _ Hi) as H2. congruence.
Qed.

Lemma locals_sorted : StronglySorted Z.le ls.
Proof.
  assert (Hmono : forall i j e e', local_to_global w !! i = Some e -> local_to_global w !! j = Some e' -> e <= e' -> (i <= j)%nat).
  { intros i j e e' Hi Hj Hle. destruct (decide (i <= j)%nat); [done|]. exfalso.
    pose proof (sorted_lt_lookup _ j i e' e (wo_sorted _ Hw) Hj Hi ltac:(lia)). lia. }
  pose proof (io_local _ _ Hids) as Hl. pose proof (io_sorted _ _ Hids) as Hs. clear Hids.
  induction Hs as [|x l Hs IH Hall]; [constructor|]. apply Forall_cons in Hl as [Hx Hl]. cbn [fmap list_fmap]. constructor; [by apply IH|].
  apply Forall_fmap, Forall_forall. intros y Hy. rewrite Forall_forall in Hall, Hl. specialize (Hall _ Hy). specialize (Hl _ Hy). cbn.
  apply list_elem_of_lookup in Hx as [i Hi], Hl as [j Hj]. rewrite (local_lookup _ _ Hi), (local_lookup _ _ Hj).
  pose proof (Hmono _ _ _ _ Hi Hj Hall). lia.
Qed.

Definition counts : list Z := (fun j => cnt j ls) <$> py_range E.

Lemma counts_expand : expand 0 counts = ls.
Proof.
  unfold counts, py_range, local_num_experts, zlen. apply expand_counts; [apply locals_sorted|].
  eapply Forall_impl; [apply locals_range|]. intros l Hl. unfold local_num_experts, zlen in Hl. cbn. lia.
Qed.

Lemma counts_nonneg : Forall (fun M => 0 <= M) counts.
Proof. apply Forall_fmap, Forall_forall. intros i _. apply cnt_nonneg. Qed.

Lemma counts_sum : sumZ counts = zlen exp_ids.
Proof. rewrite <-(expand_length 0 counts) by apply counts_nonneg. by rewrite counts_expand, length_fmap. Qed.

Lemma counts_length : zlen counts = E.
Proof. unfold zlen, counts. rewrite length_fmap, py_range_length. unfold local_num_experts, zlen. lia. Qed.

(** The counts of a batch, in the order of the worker's experts. *)
Lemma batch_sizes_ok :
  (b ← get_expert_batch_sizes (num_experts w) exp_ids; py_map (py_get b) (local_to_global w)) = Ok counts.
Proof.
  assert (Hn : 0 < num_experts w).
  { pose proof (wo_range _ Hw) as Hr. destruct (local_to_global w) as [|e l] eqn:El; [by destruct (wo_some _ Hw)|]. apply Forall_cons in Hr as [Hr _]. lia. }
  rewrite get_expert_batch_sizes_ok by (done || apply ids_range). cbn [mbind res_bind].
  destruct (py_map_total (py_get (tab (num_experts w) (fun i => cnt i exp_ids))) (fun e c => c = cnt e exp_ids) (local_to_global w)) as (cs & Hcs & Hall).
  - intros e He. pose proof (wo_range _ Hw) as Hr. rewrite Forall_forall in Hr. exists (cnt e exp_ids). split; [|done]. by apply (py_get_tab _ (fun i => cnt i exp_ids)), Hr.
  - rewrite Hcs. f_equal. apply list_eq. intros k. unfold counts. rewrite list_lookup_fmap.
    destruct (local_to_global w !! k) as [e|] eqn:Ek.
    + destruct (Forall2_lookup_l _ _ _ _ _ Hall Ek) as (c & Hc & ->). rewrite Hc. apply lookup_lt_Some in Ek as Hk.
      unfold py_range. rewrite lookup_seqZ_lt by (unfold local_num_experts, zlen; lia). cbn. f_equal. symmetry. by apply cnt_local.
    + apply Forall2_length in Hall. apply lookup_ge_None in Ek. rewrite !lookup_ge_None_2; [done|rewrite py_range_length; unfold local_num_experts, zlen; lia|lia].
Qed.

Lemma m_indices_ok : get_token_expert_indices exp_ids (global_to_local w) = Ok ls.
Proof.
  unfold get_token_expert_indices. destruct (py_map_total (token_expert_index (global_to_local w)) (fun e l => l = local w e) exp_ids) as (m & Hm & Hall).
  - intros e He. pose proof (io_local _ _ Hids) as Hl. rewrite Forall_forall in Hl. specialize (Hl _ He). apply list_elem_of_lookup in Hl as [i Hi].
    pose proof (wo_range _ Hw) as Hr. rewrite Forall_forall in Hr. specialize (Hr e ltac:(by eapply list_elem_of_lookup_2)). cbn in Hr.
    exists (local w e). split; [|done]. unfold token_expert_index, vec_at, ASSERT. rewrite (proj2 (Z.leb_le _ _)) by lia. cbn [mbind res_bind py_check].
    rewrite (wo_inverse _ Hw _ _ Hi), (local_lookup _ _ Hi). cbn [of_option mbind res_bind]. rewrite (proj2 (Z.eqb_neq _ _)) by lia. done.
  - rewrite Hm. f_equal. clear Hm Hids. induction Hall as [|e l es m -> _ IH]; [done|]. cbn. by f_equal.
Qed.
End Counts.

(** ** The grouped product gives every row its own expert *)

Fixpoint meta_from (i offset : Z) (cs : list Z) : list (Z * Z * Z) :=
  match cs with [] => [] | M :: cs => (i, offset, M) :: meta_from (i + 1) (offset + M) cs end.

Lemma setup_meta_from cs : setup_meta cs = meta_from 0 0 cs.
Proof.
  unfold setup_meta, enumerate, py_range.
  assert (Hgen : forall i offset ps, (foldl setup_problem (offset, ps) (zip (seqZ i (zlen cs)) cs)).2 = ps ++ meta_from i offset cs).
  { induction cs as [|M cs IH]; intros i offset ps; [cbn; by rewrite app_nil_r|].
    rewrite zlen_cons, seqZ_cons by (pose proof (zlen_nonneg cs); lia). replace (Z.pred (zlen cs + 1)) with (zlen cs) by lia.
    cbn [zip zip_with foldl setup_problem meta_from]. change (Z.succ i) with (i + 1). rewrite IH, <-app_assoc. done. }
  by rewrite Hgen.
Qed.

Section Gemm.
Context {A B : Type} (f : Z -> A -> B) (a : list A).

Lemma gemm_problem_ok i offset M (c : list B) :
  0 <= offset -> offset + M <= zlen a -> offset + M <= zlen c ->
  exists c', gemm_problem f a c (i, offset, M) = Ok c' /\ length c' = length c /\
    forall k : nat, c' !! k = if decide (offset <= Z.of_nat k < offset + M) then f i <$> a !! k else c !! k.
Proof.
  intros Ho Ha Hc. unfold gemm_problem.
  destruct (py_for_total (fun pre c' => length c' = length c /\
    forall k : nat, c' !! k = if decide (offset <= Z.of_nat k < offset + zlen pre) then f i <$> a !! k else c !! k)
    (gemm_row f a i offset) (py_range M) c) as (c' & Hc' & Hlen & Hlk).
  - split; [done|]. intros k. rewrite decide_False; [done|]. unfold zlen. cbn. lia.
  - intros pre r suf t Hs [Hlen Hlk]. assert (Hr : r = zlen pre).
    { assert (E : py_range M !! length pre = Some r) by by rewrite Hs, list_lookup_middle. unfold py_range in E. apply lookup_seqZ in E as [-> _]. done. }
    assert (Hlt : 0 <= r < M) by (apply elem_of_py_range; rewrite Hs; apply elem_of_app; right; by left).
    unfold gemm_row. destruct (lookup_lt_is_Some_2 a (Z.to_nat (offset + r))) as [x Hx]; [unfold zlen in Ha; lia|].
    destruct (lookup_lt_is_Some_2 t (Z.to_nat (offset + r))) as [y Hy]; [unfold zlen in Hc; lia|].
    rewrite (at_index_lookup a _ x), (at_index_lookup t _ y) by (done || lia). cbn [mbind res_bind]. eexists. split; [done|].
    rewrite length_insert. split; [done|]. intros k. rewrite zlen_app. change (zlen [r]) with 1.
    destruct (decide (k = Z.to_nat (offset + r))) as [->|Hne].
    + rewrite list_lookup_insert_eq by (unfold zlen in Hc; lia). rewrite decide_True by lia. by rewrite Hx.
    + rewrite list_lookup_insert_ne by done. rewrite Hlk. do 2 case_decide; (done || lia).
  - exists c'. split; [done|]. split; [done|]. intros k. rewrite Hlk. unfold zlen. rewrite py_range_length. do 2 case_decide; (done || lia).
Qed.

Lemma gemm_from cs i offset (c : list B) :
  Forall (fun M => 0 <= M) cs -> 0 <= offset -> offset + sumZ cs <= zlen a -> offset + sumZ cs <= zlen c ->
  exists c', py_for (gemm_problem f a) (meta_from i offset cs) c = Ok c' /\ length c' = length c /\
    forall k : nat, c' !! k = if decide (offset <= Z.of_nat k < offset + sumZ cs)
                              then zip_with f (expand i cs) (drop (Z.to_nat offset) a) !! (k - Z.to_nat offset)%nat else c !! k.
Proof.
  intros H0. revert i offset c. induction H0 as [|M cs HM H0 IH]; intros i offset c Ho Ha Hc.
  - exists c. split; [done|]. split; [done|]. intros k. rewrite decide_False; [done|]. unfold sumZ. cbn. lia.
  - cbn [sumZ foldr] in Ha, Hc. fold (sumZ cs) in Ha, Hc. pose proof (sumZ_nonneg cs H0) as Hs.
    destruct (gemm_problem_ok i offset M c) as (c1 & E1 & Hl1 & Hk1); [done|lia|lia|].
    destruct (IH (i + 1) (offset + M) c1) as (c2 & E2 & Hl2 & Hk2); [lia|lia|unfold zlen in *; lia|].
    cbn [meta_from py_for]. rewrite E1. cbn [mbind res_bind]. exists c2. split; [done|]. split; [congruence|].
    intros k. rewrite Hk2. cbn [sumZ foldr expand]. fold (sumZ cs).
    assert (Hsplit : zip_with f (replicate (Z.to_nat M) i ++ expand (i + 1) cs) (drop (Z.to_nat offset) a)
      = (f i <$> take (Z.to_nat M) (drop (Z.to_nat offset) a)) ++ zip_with f (expand (i + 1) cs) (drop (Z.to_nat (offset + M)) a)).
    { rewrite zip_with_app_l, length_replicate, drop_drop. f_equal; [|do 2 f_equal; lia].
      generalize (drop (Z.to_nat offset) a). generalize (Z.to_nat M). intros m. induction m as [|m IHm]; intros l; [done|].
      destruct l as [|x l]; [done|]. cbn. f_equal. apply IHm. }
    rewrite Hsplit. assert (Hlen : length (f i <$> take (Z.to_nat M) (drop (Z.to_nat offset) a)) = Z.to_nat M).
    { rewrite length_fmap, length_take, length_drop. unfold zlen in Ha. lia. }
    destruct (decide (offset + M <= Z.of_nat k < offset + M + sumZ cs)) as [Hin|Hout].
    + rewrite decide_True by lia. rewrite lookup_app_r by lia. f_equal. lia.
    + rewrite Hk1. destruct (decide (offset <= Z.of_nat k < offset + M)) as [Hin'|Hout'].
      * rewrite decide_True by lia. rewrite lookup_app_l by lia. rewrite list_lookup_fmap, lookup_take_lt by lia.
        rewrite lookup_drop. do 2 f_equal. lia.
      * by rewrite decide_False by lia.
Qed.

(** The first rows get their expert's product, the rest stay as they were. *)
Lemma grouped_gemm_ok cs (c : list B) :
  Forall (fun M => 0 <= M) cs -> sumZ cs <= zlen a -> sumZ cs <= zlen c ->
  exists c', grouped_gemm f cs a c = Ok c' /\ length c' = length c /\
    take (Z.to_nat (sumZ cs)) c' = zip_with f (expand 0 cs) (take (Z.to_nat (sumZ cs)) a).
Proof.
  intros H0 Ha Hc. destruct (gemm_from cs 0 0 c) as (c' & E & Hl & Hk); [done|done|done|done|].
  unfold grouped_gemm. rewrite setup_meta_from. exists c'. split; [done|]. split; [done|].
  pose proof (expand_length 0 cs H0) as Hel. apply list_eq. intros k.
  destruct (decide (k < Z.to_nat (sumZ cs))%nat) as [Hlt|Hge].
  - rewrite lookup_take_lt by done. rewrite Hk, decide_True by lia. rewrite drop_0, Nat.sub_0_r. rewrite !lookup_zip_with.
    by rewrite lookup_take_lt by done.
  - rewrite !lookup_ge_None_2; [done|rewrite length_zip_with; lia|rewrite length_take; lia].
Qed.
End Gemm.

(** *** The loop over the experts *)

Lemma serial_from vid hiddens cs i s results :
  Forall (fun M => 0 <= M) cs -> 0 <= s -> s + sumZ cs <= zlen hiddens ->
  exists results', foldl (serial_expert vid hiddens) (s, results) (zip (seqZ i (zlen cs)) cs) = (s + sumZ cs, results ++ results') /\
    concat results' = zip_with (calc vid) (expand i cs) (take (Z.to_nat (sumZ cs)) (drop (Z.to_nat s) hiddens)) /\
    (results' = [] -> sumZ cs = 0).
Proof.
  intros H0. revert i s results. induction H0 as [|M cs HM H0 IH]; intros i s results Hs Hh.
  - exists []. cbn. rewrite app_nil_r, Z.add_0_r. done.
  - rewrite zlen_cons, seqZ_cons by (pose proof (zlen_nonneg cs); lia). replace (Z.pred (zlen cs + 1)) with (zlen cs) by lia.
    cbn [zip zip_with foldl serial_expert sumZ foldr expand] in Hh |- *. fold (sumZ cs) in Hh |- *. pose proof (sumZ_nonneg cs H0) as Hsum.
    destruct (Z.eqb_spec M 0) as [->|Hne].
    + destruct (IH (Z.succ i) s results Hs ltac:(lia)) as (r & -> & Hr & He). exists r. split; [done|]. split; [|intros Hz; specialize (He Hz); lia].
      rewrite Hr. done.
    + destruct (IH (Z.succ i) (s + M) (results ++ [calc vid i <$> py_take M (py_drop s hiddens)]) ltac:(lia) ltac:(lia)) as (r & -> & Hr & _).
      exists ((calc vid i <$> py_take M (py_drop s hiddens)) :: r). split; [|split; [|done]].
      * rewrite Z.add_assoc, <-app_assoc. done.
      * cbn [concat]. rewrite Hr. rewrite py_take_nonneg, py_drop_nonneg by lia. rewrite zip_with_app_l, length_replicate.
        assert (HM' : (Z.to_nat M <= length (take (Z.to_nat (M + sumZ cs)) (drop (Z.to_nat s) hiddens)))%nat).
        { rewrite length_take, length_drop. unfold zlen in Hh. lia. }
        f_equal.
        -- replace (take (Z.to_nat M) (drop (Z.to_nat s) hiddens)) with (take (Z.to_nat M) (take (Z.to_nat (M + sumZ cs)) (drop (Z.to_nat s) hiddens))) by (rewrite take_take; f_equal; lia).
           revert HM'. generalize (take (Z.to_nat (M + sumZ cs)) (drop (Z.to_nat s) hiddens)). generalize (Z.to_nat M). intros m.
           induction m as [|m IHm]; intros l Hl; [done|]. destruct l as [|x l]; cbn in Hl; [lia|]. cbn. f_equal. apply IHm. lia.
        -- change (Z.succ i) with (i + 1). f_equal. rewrite skipn_firstn_comm, drop_drop. do 2 f_equal; lia.
Qed.

Lemma serial_forward_ok vid hiddens cs :
  Forall (fun M => 0 <= M) cs -> 0 < sumZ cs -> sumZ cs = zlen hiddens ->
  serial_forward vid hiddens cs = Ok (zip_with (calc vid) (expand 0 cs) hiddens).
Proof.
  intros H0 Hpos Hlen. unfold serial_forward, enumerate, py_range.
  destruct (serial_from vid hiddens cs 0 0 [] H0 ltac:(done) ltac:(lia)) as (r & -> & Hr & He). cbn [app].
  destruct r as [|x r]; [specialize (He eq_refl); lia|]. rewrite Hr. do 3 f_equal. rewrite drop_0. apply take_ge. unfold zlen in Hlen. lia.
Qed.

(** ** The CUTLASS classes *)

(** What expert [e] of the operator at [vid] makes of a row. *)
Definition mlp (bias : bool) (vid e : Z) (x : H) : H :=
  let u := up vid e x in
  let y := down vid e (act (if bias then up_bias vid e u else u)) in
  if bias then down_bias vid e y else y.

Lemma take_zip_with {A B C} (f : A -> B -> C) n l k : take n (zip_with f l k) = zip_with f (take n l) (take n k).
Proof. revert l k. induction n as [|n IH]; intros [|x l] [|y k]; try done. cbn. f_equal. apply IH. Qed.

Lemma add_bias_ok {A} (bias : Z -> A -> A) E (x : list A) m :
  Forall (fun e => 0 <= e < E) m -> length m = length x -> add_bias bias E x m = Ok (zip_with bias m x).
Proof.
  intros Hm Hl. unfold add_bias. assert (Em : py_map (bias_index E) m = Ok m).
  { clear Hl. induction Hm as [|e m He _ IH]; [done|]. cbn [py_map].
    rewrite IH. unfold bias_index. rewrite (proj2 (Z.leb_le _ _)), (proj2 (Z.ltb_lt _ _)), (proj2 (Z.ltb_ge _ _)) by lia. done. }
  rewrite Em. cbn [mbind res_bind]. by rewrite decide_True.
Qed.

Section Fresh.
Hypothesis Hfresh_up : forall bs, 0 <= bs -> length (fresh_up bs) = Z.to_nat bs.
Hypothesis Hfresh_down : forall bs, 0 <= bs -> length (fresh_down bs) = Z.to_nat bs.

(** The optional bias keeps the number of rows and acts on the first rows alone. *)
Lemma bias_rows {A} (b : bool) (bias : Z -> A -> A) E (x : list A) ms n :
  (b = true -> Forall (fun e => 0 <= e < E) ms /\ length ms = length x) ->
  exists x', (if b then add_bias bias E x ms else Ok x) = Ok x' /\ length x' = length x /\
    take n x' = if b then zip_with bias (take n ms) (take n x) else take n x.
Proof.
  intros Hb. destruct b; [|by exists x]. destruct (Hb eq_refl) as [Hm Hl]. rewrite add_bias_ok by done. eexists. split; [done|].
  rewrite length_zip_with, take_zip_with. split; [lia|done].
Qed.

Lemma cutlass_rows w vid bs hiddens cs ms :
  Forall (fun M => 0 <= M) cs -> sumZ cs <= zlen hiddens -> sumZ cs <= bs ->
  (expert_bias w = true -> Forall (fun e => 0 <= e < local_num_experts w) ms /\ zlen ms = bs /\ take (Z.to_nat (sumZ cs)) ms = expand 0 cs) ->
  exists out, cutlass_forward w vid bs hiddens cs ms = Ok out /\ zlen out = bs /\
    take (Z.to_nat (sumZ cs)) out = zip_with (mlp (expert_bias w) vid) (expand 0 cs) (take (Z.to_nat (sumZ cs)) hiddens).
Proof.
  intros H0 Hh Hbs Hb. pose proof (sumZ_nonneg cs H0) as Hsum. set (n := Z.to_nat (sumZ cs)) in *.
  pose proof (Hfresh_up bs ltac:(lia)) as Hfu. pose proof (Hfresh_down bs ltac:(lia)) as Hfd.
  destruct (grouped_gemm_ok (up vid) hiddens cs (fresh_up bs)) as (c1 & E1 & L1 & T1); [done|done|unfold zlen; lia|].
  assert (Hbias : forall {A} (x : list A), length x = Z.to_nat bs -> expert_bias w = true ->
    Forall (fun e => 0 <= e < local_num_experts w) ms /\ length ms = length x).
  { intros A x Hx Ht. destruct (Hb Ht) as (Hf & Hl & _). split; [done|]. unfold zlen in Hl. lia. }
  destruct (bias_rows (expert_bias w) (up_bias vid) (local_num_experts w) c1 ms n) as (c2 & E2 & L2 & T2); [apply Hbias; lia|].
  destruct (grouped_gemm_ok (down vid) (act <$> c2) cs (fresh_down bs)) as (c3 & E3 & L3 & T3);
    [done|unfold zlen; rewrite length_fmap; lia|unfold zlen; lia|].
  destruct (bias_rows (expert_bias w) (down_bias vid) (local_num_experts w) c3 ms n) as (c4 & E4 & L4 & T4); [apply Hbias; lia|].
  unfold cutlass_forward. rewrite E1. cbn [mbind res_bind]. rewrite E2. cbn [mbind res_bind]. rewrite E3. cbn [mbind res_bind]. rewrite E4.
  exists c4. split; [done|]. split; [unfold zlen; lia|]. rewrite T4. fold n in T1, T3. rewrite T3, <-fmap_take, T2, T1.
  apply list_eq. intros k. unfold mlp. destruct (expert_bias w).
  - destruct (Hb eq_refl) as (_ & _ & ->). rewrite !lookup_zip_with, list_lookup_fmap, !lookup_zip_with.
    destruct (expand 0 cs !! k); [|done]. cbn. by destruct (take n hiddens !! k).
  - rewrite !lookup_zip_with, list_lookup_fmap, lookup_zip_with. destruct (expand 0 cs !! k); [|done]. cbn. by destruct (take n hiddens !! k).
Qed.

(** ** Replay *)

(** The buffers a worker allocates, with every bias index a local expert. *)
Record static_ok (w : Worker) (st : Static) : Prop := {
  so_hiddens : zlen (static_input_hiddens st) = max_batch_size_expert w;
  so_sizes : zlen (static_input_batch_sizes st) = local_num_experts w;
  so_indices : zlen (static_input_m_indices st) = max_batch_size_expert w;
  so_valid : expert_bias w = true -> Forall (fun e => 0 <= e < local_num_experts w) (static_input_m_indices st);
}.

Lemma copy_to_ok {A} k (src dst : list A) :
  k = Z.of_nat (length src) -> (length src <= length dst)%nat -> copy_to k src dst = Ok (src ++ drop (length src) dst).
Proof.
  intros -> Hl. fold (zlen src). unfold copy_to. rewrite py_take_nonneg by apply zlen_nonneg. unfold zlen. rewrite Nat2Z.id, length_take, Nat.min_l by done.
  by rewrite decide_True.
Qed.

(** The static buffers after the copy of a batch. *)
Record filled (w : Worker) (x : list H) (cs ls : list Z) (B : Z) (st : Static) : Prop := {
  fi_static : static_ok w st;
  fi_hiddens : take (length x) (static_input_hiddens st) = x;
  fi_sizes : is_cutlass (expert_cls w) = true -> static_input_batch_sizes st = cs;
  fi_indices : needs_m_indices w = true -> take (length x) (static_input_m_indices st) = ls;
  fi_pad : is_deepgemm (expert_cls w) = true ->
           take (Z.to_nat B) (static_input_m_indices st) = ls ++ replicate (Z.to_nat B - length x) 0;
}.

Lemma take_length_app {A} (l k : list A) : take (length l) (l ++ k) = l.
Proof. by rewrite take_app_length. Qed.

Lemma preprocess_cutlass w sched x cs ls ms B st :
  is_cutlass (expert_cls w) = true -> static_ok w st -> zlen x <= max_batch_size_expert w ->
  zlen cs = local_num_experts w -> length ls = length x -> Forall (fun e => 0 <= e < local_num_experts w) ls ->
  (expert_bias w = true -> ms = ls) ->
  exists st', cuda_graph_preprocess w sched x cs ms B st = Ok st' /\
    filled w x cs ls B st'.
Proof.
  intros Hc [Hh Hs Hi Hv] Hx Hcs Hls Hr Hms. unfold cuda_graph_preprocess. rewrite Hc. unfold zlen in *.
  rewrite (copy_to_ok _ x) by lia. cbn [mbind res_bind]. rewrite (copy_to_ok _ cs) by lia. cbn [mbind res_bind].
  assert (Hdg : is_deepgemm (expert_cls w) = false) by by destruct (expert_cls w).
  assert (Hcut : cs ++ drop (length cs) (static_input_batch_sizes st) = cs) by (rewrite drop_ge by lia; apply app_nil_r).
  rewrite Hcut. destruct (expert_bias w) eqn:Eb.
  - rewrite Hms by done. rewrite copy_to_ok by lia. cbn [mbind res_bind].
    eexists. split; [done|]. split; cbn.
    + split; cbn; unfold zlen; rewrite ?length_app, ?length_drop; try lia. intros _. apply Forall_app. split; [done|]. apply Forall_drop. auto.
    + by rewrite take_app_length.
    + done.
    + intros _. rewrite <-Hls. by rewrite take_app_length.
    + congruence.
  - eexists. split; [done|]. split; cbn.
    + split; cbn; unfold zlen; rewrite ?length_app, ?length_drop; try lia. congruence.
    + by rewrite take_app_length.
    + done.
    + unfold needs_m_indices. rewrite Hdg, Hc, Eb. done.
    + congruence.
Qed.

Lemma copy_and_pad_buffers x cs ms B sched st :
  let st' := foldl (copy_and_pad x cs ms B) st sched in
  static_input_hiddens st' = stores (sched ≫= token_idx (zlen x)) (fun i => x !! i) (static_input_hiddens st) /\
  static_input_m_indices st' = stores (sched ≫= meta_idx B) (meta_value (zlen x) ms 0) (static_input_m_indices st) /\
  length (static_input_batch_sizes st') = length (static_input_batch_sizes st) /\
  static_outputs st' = static_outputs st.
Proof.
  cbn. revert st. induction sched as [|p l IH]; intros st; [done|]. cbn [foldl mbind list_bind].
  destruct (IH (copy_and_pad x cs ms B st p)) as (-> & -> & -> & ->). rewrite !stores_app. destruct p; cbn; by rewrite ?stores_length.
Qed.

Lemma no_bias w : worker_ok w -> is_deepgemm (expert_cls w) = true -> expert_bias w = false.
Proof.
  intros Hw Hd. pose proof (wo_check _ Hw) as Hc. apply py_assert_Ok in Hc. destruct (expert_cls w); try done; by destruct (expert_bias w).
Qed.

Lemma preprocess_deepgemm w sched x cs ls B st :
  worker_ok w -> is_deepgemm (expert_cls w) = true -> static_ok w st -> zlen x <= B <= max_batch_size_expert w ->
  length ls = length x -> sched ≡ₚ launch (zlen x) ->
  exists st', cuda_graph_preprocess w sched x cs ls B st = Ok st' /\ filled w x cs ls B st'.
Proof.
  intros Hw Hd Hst HB Hls Hsched. pose proof (no_bias w Hw Hd) as Hnb. destruct Hst as [Hh Hs Hi _]. unfold cuda_graph_preprocess.
  assert (Hc : is_cutlass (expert_cls w) = false) by by destruct (expert_cls w). rewrite Hc. eexists. split; [done|].
  destruct (copy_and_pad_buffers x cs ls B sched st) as (E1 & E2 & E3 & _). unfold zlen in *.
  assert (Hpad : take (Z.to_nat B) (static_input_m_indices (foldl (copy_and_pad x cs ls B) st sched)) = ls ++ replicate (Z.to_nat B - length x) 0).
  { rewrite E2. apply list_eq. intros k. destruct (decide (k < Z.to_nat B)%nat) as [Hk|Hk].
    - rewrite lookup_take_lt by done. rewrite (meta_buffer sched (length x) B Hsched) by lia. case_decide.
      + by rewrite lookup_app_l by lia.
      + rewrite lookup_app_r by lia. symmetry. apply lookup_replicate. split; [done|lia].
    - rewrite !lookup_ge_None_2; [done|rewrite length_app, length_replicate; lia|rewrite length_take; lia]. }
  split.
  - split; unfold zlen; rewrite ?E1, ?E2, ?E3, ?stores_length; congruence.
  - rewrite E1. apply list_eq. intros k. destruct (decide (k < length x)%nat) as [Hk|Hk].
    + rewrite lookup_take_lt by done. apply (row_buffer sched (length x) B Hsched); [done|lia].
    + rewrite !lookup_ge_None_2; [done|lia|rewrite length_take, stores_length; lia].
  - congruence.
  - intros _. replace (length x) with (length x `min` Z.to_nat B)%nat at 1 by lia. rewrite <-take_take, Hpad, <-Hls. apply take_app_length.
  - done.
Qed.

(** A graph of a bucket makes the batch's rows of the slices it was captured with. *)
Lemma graph_rows w mappings B lid x cs ls st vid :
  worker_ok w -> filled w x cs ls B st -> py_get mappings lid = Ok vid -> zlen x <= B <= max_batch_size_expert w ->
  Forall (fun M => 0 <= M) cs -> sumZ cs = zlen x -> expand 0 cs = ls -> is_cutlass (expert_cls w) = true ->
  exists out, graph_body w mappings B lid st = Ok out /\ zlen out = B /\ take (length x) out = zip_with (mlp (expert_bias w) vid) ls x.
Proof.
  intros Hw [[Hh Hs Hi Hv] Hx Hcs Hind _] Hvid HB H0 Hsum Hexp Hc. unfold graph_body, execute_eager. rewrite Hvid. cbn [mbind res_bind].
  pose proof (zlen_nonneg x) as Hx0. rewrite !py_take_nonneg by lia.
  assert (Hlt : zlen (take (Z.to_nat B) (static_input_hiddens st)) = B) by (unfold zlen in *; rewrite length_take; lia).
  assert (Htx : take (length x) (take (Z.to_nat B) (static_input_hiddens st)) = x).
  { rewrite take_take, Nat.min_l by (unfold zlen in HB; lia). done. }
  assert (Hn : Z.to_nat (sumZ cs) = length x) by (rewrite Hsum; unfold zlen; lia).
  rewrite Hc, Hcs by done.
  destruct (cutlass_rows w vid B (take (Z.to_nat B) (static_input_hiddens st)) cs (take (Z.to_nat B) (static_input_m_indices st)))
    as (out & Eo & Lo & To); [done|lia|lia| |].
  - intros Hb. split; [by apply Forall_take, Hv|]. split; [unfold zlen in *; rewrite length_take; lia|].
    rewrite Hn, take_take, Nat.min_l by (unfold zlen in HB; lia). rewrite Hexp. apply Hind. unfold needs_m_indices. by rewrite Hc, Hb, orb_true_r.
  - exists out. split; [done|]. split; [done|]. rewrite Hn in To. by rewrite To, Htx, Hexp.
Qed.

(** ** Serving *)

(** A worker whose graphs, where enabled, were captured for every bucket. *)
Record deployed (w : Worker) (L : Z) (mappings sizes : list Z) (graphs : gmap Z (list (option Z))) : Prop := {
  de_layers : w_layer_ids w = py_range L;
  de_mappings : layer_mappings (w_layer_ids w) = Ok mappings;
  de_some : 1 <= L;
  de_sorted : StronglySorted Z.lt sizes;
  de_last : last sizes = Some (max_batch_size_expert w);
  de_graphs : forall B, B ∈ sizes -> graphs !! B = Some (Some <$> py_range L);
}.

(** A batch: how the copy kernel's programs are scheduled, layer, expert ids, rows. *)
Definition call : Type := list Program * Z * list Z * list H.

Definition serve_one (w : Worker) (mappings sizes : list Z) (graphs : gmap Z (list (option Z)))
    (s : list (list H) * Static) (c : call) : res (list (list H) * Static) :=
  let '(sched, layer_id, exp_ids, hiddens) := c in
  '(batch_sizes, m_indices) ← prepare_bsz_and_indices w exp_ids;
  '(out, st) ← execute w mappings sizes graphs sched layer_id hiddens batch_sizes m_indices s.2;
  Ok (s.1 ++ [out], st).

(** Every row through its own expert. *)
Definition expected (w : Worker) (c : call) : list H :=
  let '(_, layer_id, exp_ids, hiddens) := c in zip_with (fun e x => mlp (expert_bias w) layer_id (local w e) x) exp_ids hiddens.

Record call_ok (w : Worker) (L : Z) (c : call) : Prop := {
  co_layer : 0 <= c.1.1.2 < L;
  co_ids : ids_ok w c.1.2;
  co_rows : length c.1.2 = length c.2;
  co_size : 1 <= zlen c.2 <= max_batch_size_expert w;
  co_sched : c.1.1.1 ≡ₚ launch (zlen c.2);
}.

Lemma expected_locals w sched layer_id ids x :
  expected w (sched, layer_id, ids, x) = zip_with (mlp (expert_bias w) layer_id) (local w <$> ids) x.
Proof. cbn. revert x. induction ids as [|e ids IH]; intros [|y x]; try done. cbn. f_equal. apply IH. Qed.

Lemma prepare_ok w ids :
  worker_ok w -> ids_ok w ids ->
  exists ms, prepare_bsz_and_indices w ids = Ok (if is_deepgemm (expert_cls w) then replicate (length (local_to_global w)) 0 else counts w ids, ms) /\
    (needs_m_indices w = true -> ms = local w <$> ids).
Proof.
  intros Hw Hids. unfold prepare_bsz_and_indices. rewrite (batch_sizes_ok w Hw ids Hids), (m_indices_ok w Hw ids Hids).
  destruct (is_deepgemm (expert_cls w)), (needs_m_indices w); cbn [mbind res_bind]; eexists; (split; [done|done]).
Qed.

Section Serve.
Context (w : Worker) (L : Z) (mappings sizes : list Z) (graphs : gmap Z (list (option Z))).
Hypothesis Hw : worker_ok w.
Hypothesis Hde : deployed w L mappings sizes graphs.

Lemma deployed_layer layer_id : 0 <= layer_id < L -> py_get mappings layer_id = Ok layer_id.
Proof.
  intros Hl. pose proof (de_mappings _ _ _ _ _ Hde) as E. rewrite (de_layers _ _ _ _ _ Hde), mappings_range in E by apply (de_some _ _ _ _ _ Hde).
  apply Ok_inj in E as <-. apply py_get_lookup; [lia|]. unfold py_range. rewrite lookup_seqZ_lt by lia. f_equal. lia.
Qed.

Lemma deployed_bucket n :
  n <= max_batch_size_expert w ->
  exists B, _get_bucket_by_num_tokens sizes n = Ok B /\ n <= B <= max_batch_size_expert w /\ graphs !! B = Some (Some <$> py_range L).
Proof.
  intros Hn. pose proof (last_Some_elem_of _ _ (de_last _ _ _ _ _ Hde)) as Hin.
  destruct (bucket_spec sizes n (de_sorted _ _ _ _ _ Hde)) as [(B & HB & HBin & HnB & Hmin)|[_ Hnone]].
  - exists B. split; [done|]. split; [|by apply (de_graphs _ _ _ _ _ Hde)]. split; [done|]. by apply Hmin.
  - rewrite Forall_forall in Hnone. specialize (Hnone _ Hin). cbn in Hnone. lia.
Qed.

Lemma deployed_graph layer_id : 0 <= layer_id < L -> py_get (Some <$> py_range L) layer_id = Ok (Some layer_id).
Proof.
  intros Hl. apply py_get_lookup; [lia|]. unfold py_range. rewrite list_lookup_fmap, lookup_seqZ_lt by lia. cbn. do 2 f_equal. lia.
Qed.

Lemma run_cutlass sched layer_id x cs ls ms st :
  0 <= layer_id < L -> zlen x <= max_batch_size_expert w -> static_ok w st -> is_cutlass (expert_cls w) = true ->
  length ls = length x -> (needs_m_indices w = true -> ms = ls) -> Forall (fun e => 0 <= e < local_num_experts w) ls ->
  zlen cs = local_num_experts w -> Forall (fun M => 0 <= M) cs -> sumZ cs = zlen x -> expand 0 cs = ls ->
  exists st', run w mappings sizes graphs sched layer_id x cs ms st = Ok (zip_with (mlp (expert_bias w) layer_id) ls x, st') /\ static_ok w st'.
Proof.
  intros Hl Hx Hst Hc Hls Hms Hr Hcs H0 Hsum Hexp.
  destruct (deployed_bucket (zlen x) Hx) as (B & EB & HB & HG). unfold run. rewrite EB. cbn [mbind res_bind].
  destruct (preprocess_cutlass w sched x cs ls ms B st) as (st1 & E1 & Hf); try done.
  { intros Hb. apply Hms. unfold needs_m_indices. by rewrite Hc, Hb, orb_true_r. }
  rewrite E1. cbn [mbind res_bind]. rewrite HG. cbn [of_option mbind res_bind]. rewrite deployed_graph by done. cbn [of_option mbind res_bind].
  destruct (graph_rows w mappings B layer_id x cs ls st1 layer_id Hw Hf) as (out & Eo & Lo & To); [by apply deployed_layer|done..|].
  rewrite Eo. cbn [mbind res_bind]. rewrite (de_layers _ _ _ _ _ Hde), output_range by done. cbn [of_option mbind res_bind].
  rewrite lookup_insert_eq. cbn [of_option mbind res_bind]. eexists. split.
  - rewrite py_take_nonneg by apply zlen_nonneg. unfold zlen. rewrite Nat2Z.id. by rewrite To.
  - destruct Hf as [[F1 F2 F3 F4] _ _ _ _]. by split.
Qed.

(** What a DeepGEMM worker hands to the library: the batch and the rows left in the
    buffers behind it, up to the bucket, with expert 0 as the expert of the latter. *)
Lemma run_deepgemm sched layer_id x cs ls st :
  0 <= layer_id < L -> zlen x <= max_batch_size_expert w -> static_ok w st -> sched ≡ₚ launch (zlen x) ->
  is_deepgemm (expert_cls w) = true -> length ls = length x ->
  exists rest (st' : list H -> Static), zlen x + zlen rest <= max_batch_size_expert w /\ (forall out, static_ok w (st' out)) /\
    _get_bucket_by_num_tokens sizes (zlen x) = Ok (zlen x + zlen rest) /\
    run w mappings sizes graphs sched layer_id x cs ls st =
      (out ← deepgemm_forward layer_id (x ++ rest) (ls ++ replicate (length rest) 0); Ok (take (length x) out, st' out)).
Proof.
  intros Hl Hx Hst Hsched Hd Hls.
  destruct (deployed_bucket (zlen x) Hx) as (B & EB & HB & HG). unfold run. rewrite EB. cbn [mbind res_bind].
  destruct (preprocess_deepgemm w sched x cs ls B st) as (st1 & E1 & [F1 F2 F3 F4 F5]); try done.
  set (rest := drop (length x) (take (Z.to_nat B) (static_input_hiddens st1))).
  pose proof (so_hiddens _ _ F1) as Hh.
  assert (Hbuf : take (Z.to_nat B) (static_input_hiddens st1) = x ++ rest).
  { rewrite <-(take_drop (length x) (take (Z.to_nat B) (static_input_hiddens st1))). f_equal.
    rewrite take_take, Nat.min_l by (unfold zlen in HB; lia). done. }
  assert (Hrest : length rest = (Z.to_nat B - length x)%nat).
  { unfold rest. rewrite length_drop, length_take. unfold zlen in *. lia. }
  assert (HrB : zlen x + zlen rest = B) by (unfold zlen in *; lia).
  exists rest, (fun out => {| static_input_hiddens := static_input_hiddens st1; static_input_batch_sizes := static_input_batch_sizes st1;
    static_input_m_indices := static_input_m_indices st1; static_outputs := <[(B, layer_id) := out]> (static_outputs st1) |}).
  split; [lia|]. split; [by destruct F1|]. rewrite HrB. split; [done|].
  rewrite E1. cbn [mbind res_bind]. rewrite HG. cbn [of_option mbind res_bind]. rewrite deployed_graph by done. cbn [of_option mbind res_bind].
  unfold graph_body, execute_eager. rewrite deployed_layer by done. cbn [mbind res_bind].
  assert (Hc : is_cutlass (expert_cls w) = false) by by destruct (expert_cls w). rewrite Hc, Hd.
  pose proof (zlen_nonneg x). rewrite !py_take_nonneg by lia. rewrite Hbuf, F5, <-Hrest by done.
  destruct (deepgemm_forward _ _ _) as [out|e]; [|done]. cbn [mbind res_bind].
  rewrite (de_layers _ _ _ _ _ Hde), output_range by done. cbn [of_option mbind res_bind].
  rewrite lookup_insert_eq. cbn [of_option mbind res_bind].
  rewrite py_take_nonneg by done. unfold zlen. by rewrite Nat2Z.id.
Qed.

Lemma serve_step c s :
  is_deepgemm (expert_cls w) = false -> call_ok w L c -> static_ok w s.2 ->
  exists st', serve_one w mappings sizes graphs s c = Ok (s.1 ++ [expected w c], st') /\ static_ok w st'.
Proof.
  destruct c as [[[sched layer_id] ids] x]. intros Hd [Hl Hids Hrows Hsize Hsched] Hst. cbn [fst snd] in *.
  unfold serve_one. rewrite expected_locals. destruct (prepare_ok w ids Hw Hids) as (ms & -> & Hms). rewrite Hd. cbn [mbind res_bind].
  pose proof (counts_nonneg w ids) as H0. pose proof (counts_sum w Hw ids Hids) as Hsum. pose proof (counts_expand w Hw ids Hids) as Hexp.
  assert (Hsum' : sumZ (counts w ids) = zlen x) by (rewrite Hsum; unfold zlen; lia).
  assert (Hls : length (local w <$> ids) = length x) by by rewrite length_fmap.
  pose proof (locals_range w Hw ids Hids) as Hr.
  unfold execute. rewrite (proj2 (py_assert_Ok _ tt)) by (apply Z.leb_le; lia). cbn [mbind res_bind].
  rewrite deployed_layer by done. cbn [mbind res_bind]. rewrite Hd, orb_false_r.
  destruct (is_cutlass (expert_cls w)) eqn:Hc.
  - destruct (enable_cuda_graph_expert w).
    + destruct (run_cutlass sched layer_id x (counts w ids) (local w <$> ids) ms s.2) as (st' & -> & Hst'); try done; try lia.
      * apply counts_length.
      * by exists st'.
    + unfold execute_eager. rewrite deployed_layer by done. cbn [mbind res_bind]. rewrite Hc.
      destruct (cutlass_rows w layer_id (zlen x) x (counts w ids) ms) as (out & -> & Lo & To); [done|lia|lia| |].
      * intros Hb. rewrite Hms by (unfold needs_m_indices; by rewrite Hc, Hb, orb_true_r). split; [done|]. split; [unfold zlen; lia|].
        rewrite Hexp. apply take_ge. unfold zlen in *. lia.
      * cbn [mbind res_bind]. eexists. split; [|done]. do 4 f_equal. rewrite Hexp in To. rewrite <-(take_ge out (Z.to_nat (sumZ (counts w ids)))) by (unfold zlen in *; lia).
        rewrite To. f_equal. apply take_ge. unfold zlen in *. lia.
  - assert (Hb : expert_bias w = false).
    { pose proof (wo_check _ Hw) as Hk. apply py_assert_Ok in Hk. rewrite Hc in Hk. by destruct (expert_bias w). }
    rewrite Hb, serial_forward_ok by (done || lia). cbn [mbind res_bind]. eexists. split; [by rewrite Hexp|done].
Qed.

Lemma serve_deepgemm sched layer_id ids x s :
  is_deepgemm (expert_cls w) = true -> call_ok w L (sched, layer_id, ids, x) -> static_ok w s.2 ->
  exists rest (st' : list H -> Static), (forall out, static_ok w (st' out)) /\
    (if enable_cuda_graph_expert w then _get_bucket_by_num_tokens sizes (zlen x) = Ok (zlen x + zlen rest) else rest = []) /\
    serve_one w mappings sizes graphs s (sched, layer_id, ids, x) =
      (out ← deepgemm_forward layer_id (x ++ rest) ((local w <$> ids) ++ replicate (length rest) 0);
       Ok (s.1 ++ [if enable_cuda_graph_expert w then take (length x) out else out], st' out)).
Proof.
  intros Hd [Hl Hids Hrows Hsize Hsched] Hst. cbn [fst snd] in *.
  unfold serve_one. destruct (prepare_ok w ids Hw Hids) as (ms & -> & Hms). rewrite Hd. cbn [mbind res_bind].
  rewrite Hms by (unfold needs_m_indices; by rewrite Hd).
  assert (Hls : length (local w <$> ids) = length x) by by rewrite length_fmap.
  assert (Hc : is_cutlass (expert_cls w) = false) by by destruct (expert_cls w).
  unfold execute. rewrite (proj2 (py_assert_Ok _ tt)) by (apply Z.leb_le; lia). cbn [mbind res_bind].
  rewrite deployed_layer by done. cbn [mbind res_bind]. rewrite Hc, Hd. cbn [orb]. destruct (enable_cuda_graph_expert w).
  - destruct (run_deepgemm sched layer_id x (replicate (length (local_to_global w)) 0) (local w <$> ids) s.2)
      as (rest & st' & _ & Hst' & Hb & Hrun); [done|lia|done..|].
    exists rest, st'. split; [done|]. split; [done|]. rewrite Hrun. by destruct (deepgemm_forward _ _ _).
  - exists [], (fun _ => s.2). split; [done|]. split; [done|]. unfold execute_eager. rewrite deployed_layer by done. cbn [mbind res_bind].
    rewrite Hc, Hd. cbn [length replicate]. rewrite !app_nil_r. by destruct (deepgemm_forward _ _ _).
Qed.

(** C16. Whatever batches came before, in whatever order the copy kernel's programs
    ran and with or without graphs, an expert worker of a serial or CUTLASS class
    answers every batch of its own experts with each row put through the projections,
    biases and activation of the row's own expert, in the order of the rows.  A worker
    of a DeepGEMM class answers with what the library makes of the rows, each with its
    own local expert as its index and, with graphs, followed up to the bucket by what
    the buffers held with index 0, cut back to the rows of the batch; nothing is said
    of the library's products, which ask for a row layout the callers do not give. *)
Theorem experts_exact :
  (is_deepgemm (expert_cls w) = false -> forall calls s,
     Forall (call_ok w L) calls -> static_ok w s.2 ->
     exists st', py_for (serve_one w mappings sizes graphs) calls s = Ok (s.1 ++ (expected w <$> calls), st') /\ static_ok w st') /\
  (is_deepgemm (expert_cls w) = true -> forall sched layer_id ids x s,
     call_ok w L (sched, layer_id, ids, x) -> static_ok w s.2 ->
     exists rest (st' : list H -> Static), (forall out, static_ok w (st' out)) /\
       (if enable_cuda_graph_expert w then _get_bucket_by_num_tokens sizes (zlen x) = Ok (zlen x + zlen rest) else rest = []) /\
       serve_one w mappings sizes graphs s (sched, layer_id, ids, x) =
         (out ← deepgemm_forward layer_id (x ++ rest) ((local w <$> ids) ++ replicate (length rest) 0);
          Ok (s.1 ++ [if enable_cuda_graph_expert w then take (length x) out else out], st' out))).
Proof.
  split; [|intros Hd; intros; by apply serve_deepgemm].
  intros Hd calls s Hc. revert s. induction Hc as [|c calls Hok _ IH]; intros s Hst.
  - exists s.2. split; [|done]. cbn. rewrite app_nil_r. by destruct s.
  - destruct (serve_step c s Hd Hok Hst) as (st & E & Hst'). cbn [py_for]. rewrite E. cbn [mbind res_bind].
    destruct (IH (s.1 ++ [expected w c], st) Hst') as (st' & E' & Hst''). exists st'. split; [|done]. rewrite E'. cbn [fst].
    by rewrite <-app_assoc.
Qed.
End Serve.

(** ** Buckets *)

Lemma double_spec fuel b m acc :
  0 < b -> m <= b * 2 ^ Z.of_nat fuel ->
  exists l z k, double_sizes (S fuel) b m acc = Some (acc ++ l ++ [z]) /\ StronglySorted Z.lt (l ++ [z]) /\
    Forall (fun x => b <= x /\ (b | x)) (l ++ [z]) /\ Forall (fun x => x < m) l /\ m <= z /\ (b < m -> z < 2 * m) /\ 0 <= k /\ z = b * 2 ^ k /\
    head (l ++ [z]) = Some b.
Proof.
  revert b acc. induction fuel as [|fuel IH]; intros b acc Hb Hm; cbn [double_sizes]; destruct (Z.ltb_spec b m) as [Hlt|Hge].
  - cbn in Hm. lia.
  - exists [], b, 0. cbn. split; [done|]. split; [repeat constructor|]. split; [repeat constructor; [done|apply Z.divide_refl]|]. split; [constructor|]. repeat split; lia.
  - destruct (IH (b * 2) (acc ++ [b])) as (l & z & k & E & Hs & Hall & Hl & Hz & Hz2 & Hk & Hzk & Hhd); [lia| |].
    { replace (Z.of_nat (S fuel)) with (Z.of_nat fuel + 1) in Hm by lia. rewrite Z.pow_add_r in Hm by lia. lia. }
    exists (b :: l), z, (k + 1). cbn [double_sizes] in E. rewrite E. split; [by rewrite <-!app_assoc|].
    split; [cbn; constructor; [done|]; eapply Forall_impl; [exact Hall|]; intros x [Hx _]; lia|].
    split; [cbn; constructor; [split; [lia|apply Z.divide_refl]|]; eapply Forall_impl; [exact Hall|]; intros x [Hx Hd]; split; [lia|]; etrans; [|exact Hd]; exists 2; lia|].
    split; [by constructor|]. split; [done|]. split; [intros _|split; [lia|split; [rewrite Hzk, Z.pow_add_r by lia; lia|done]]].
    destruct (Z.lt_ge_cases (b * 2) m) as [H1|H1]; [by apply Hz2|]. destruct l as [|y l].
    + cbn in Hhd. injection Hhd as ->. lia.
    + apply Forall_cons in Hl as [Hy _]. cbn in Hhd. injection Hhd as ->. lia.
  - exists [], b, 0. cbn. split; [done|]. split; [repeat constructor|]. split; [repeat constructor; [done|apply Z.divide_refl]|]. split; [constructor|]. repeat split; lia.
Qed.

(** The maxima whose buckets do not exceed them. *)
Definition round_max (m : Z) : Prop := m <= 128 \/ exists k, 0 <= k /\ m = 128 * 2 ^ k.

Lemma graph_sizes_spec m :
  1 <= m ->
  exists sizes z, get_graph_batch_sizes m = Ok sizes /\ StronglySorted Z.lt sizes /\ last sizes = Some z /\ m <= z < 2 * m /\
    Forall (fun x => Z.min 128 m <= x <= z /\ (Z.min 128 m | x)) sizes /\ head sizes = Some (Z.min 128 m) /\ (z = m <-> round_max m).
Proof.
  intros Hm. unfold get_graph_batch_sizes. rewrite (proj2 (py_assert_Ok _ tt)) by (apply Z.gtb_lt; lia). cbn [mbind res_bind].
  destruct (Z.leb_spec m 128) as [Hle|Hgt].
  - exists [m], m. split; [done|]. split; [repeat constructor|]. split; [done|]. split; [lia|]. rewrite Z.min_r by lia.
    split; [repeat constructor; [lia|lia|apply Z.divide_refl]|]. split; [done|]. split; [by left|done].
  - destruct (double_spec (Z.to_nat (Z.log2_up m)) 128 m []) as (l & z & k & -> & Hs & Hall & Hl & Hz & Hz2 & Hk & Hzk & Hhd); [done| |].
    { rewrite Z2Nat.id by apply Z.log2_up_nonneg. destruct (Z.log2_up_spec m ltac:(lia)) as [_ Hu]. lia. }
    exists (l ++ [z]), z. rewrite Z.min_l by lia. split; [done|]. split; [done|]. split; [by rewrite last_snoc|]. specialize (Hz2 Hgt). split; [lia|].
    split; [|split; [done|]].
    + rewrite Forall_forall in Hall, Hl |- *. intros x Hx. destruct (Hall _ Hx) as [H1 H2]. split; [|done]. split; [done|].
      apply elem_of_app in Hx as [Hx|Hx]; [specialize (Hl _ Hx); cbn in Hl; lia|]. apply list_elem_of_singleton in Hx as ->. lia.
    + split; [intros ->; right; by exists k|]. intros [Hle|(k' & Hk' & ->)]; [lia|]. rewrite Hzk in Hz, Hz2 |- *. do 2 f_equal.
      assert (H1 : 2 ^ k' <= 2 ^ k) by lia. assert (H2 : 2 ^ k < 2 ^ (k' + 1)) by (rewrite Z.pow_add_r by lia; lia).
      apply Z.pow_le_mono_r_iff in H1; [|lia|lia]. apply Z.pow_lt_mono_r_iff in H2; [|lia|lia]. lia.
Qed.

(** ** Capture succeeds exactly for round maxima and experts that divide the buckets *)

Record shaped (w : Worker) (st : Static) : Prop := {
  sh_hiddens : zlen (static_input_hiddens st) = max_batch_size_expert w;
  sh_sizes : zlen (static_input_batch_sizes st) = local_num_experts w;
  sh_indices : zlen (static_input_m_indices st) = max_batch_size_expert w;
}.

(** The dummy batch of a bucket fits the buffers. *)
Definition bucket_fits (w : Worker) (B : Z) : Prop :=
  B <= max_batch_size_expert w /\ (expert_bias w = true -> (local_num_experts w | B)).

Lemma expand_replicate i q (E : nat) : expand i (replicate E q) = seqZ i (Z.of_nat E) ≫= fun j => replicate (Z.to_nat q) j.
Proof.
  revert i. induction E as [|E IH]; intros i; [done|]. rewrite seqZ_cons by lia. cbn [replicate expand mbind list_bind].
  rewrite IH. do 2 f_equal; try lia. f_equal; lia.
Qed.

Lemma sum_replicate q (E : nat) : sumZ (replicate E q) = q * Z.of_nat E.
Proof. induction E as [|E IH]; [cbn; lia|]. cbn [replicate sumZ foldr]. fold (sumZ (replicate E q)). rewrite IH. lia. Qed.

Section Capture.
Context (w : Worker) (zero : H) (sched : Z -> list Program) (L : Z).
Hypothesis Hw : worker_ok w.
Hypothesis Hcut : is_cutlass (expert_cls w) = true.
Hypothesis Hlayers : w_layer_ids w = py_range L.
Hypothesis HL : 1 <= L.
Hypothesis Hmax : 1 <= max_batch_size_expert w.

Notation E := (local_num_experts w).

Lemma experts_some : 1 <= E.
Proof. pose proof (wo_some _ Hw). unfold local_num_experts, zlen. destruct (local_to_global w); [done|cbn; lia]. Qed.

(** Rows, counts and indices of the dummy batch. *)
Lemma dummy_inputs B :
  1 <= B ->
  exists m, make_expert_dummy_inputs zero B E = Ok (replicate (Z.to_nat B) zero, replicate (Z.to_nat E) (B / E), m) /\
    m = expand 0 (replicate (Z.to_nat E) (B / E)) /\ zlen m = B / E * E /\ Forall (fun e => 0 <= e < E) m.
Proof.
  intros HB. pose proof experts_some as HE. assert (Hq : 0 <= B / E) by (apply Z.div_pos; lia).
  unfold make_expert_dummy_inputs, py_floordiv. rewrite (proj2 (Z.eqb_neq E 0)) by lia. cbn [mbind res_bind].
  eexists. split; [done|]. assert (Em : (py_range E ≫= fun i => replicate (Z.to_nat (B / E)) i) = expand 0 (replicate (Z.to_nat E) (B / E))).
  { rewrite expand_replicate, Z2Nat.id by lia. done. }
  split; [done|]. split.
  - rewrite Em. unfold zlen. rewrite expand_length, sum_replicate, Z2Nat.id by (lia || (apply Forall_replicate; lia)). done.
  - apply Forall_forall. intros e He. apply list_elem_of_bind in He as (i & He & Hi). apply elem_of_replicate in He as [-> _]. by apply elem_of_py_range.
Qed.

Lemma capture_layers mappings B (st : Static) :
  layer_mappings (w_layer_ids w) = Ok mappings -> 1 <= B ->
  (forall layer_id st', 0 <= layer_id < L ->
     static_input_hiddens st' = static_input_hiddens st -> static_input_batch_sizes st' = static_input_batch_sizes st ->
     static_input_m_indices st' = static_input_m_indices st -> exists out, graph_body w mappings B layer_id st' = Ok out) ->
  exists st', py_for (capture_layer w mappings B) (w_layer_ids w) (replicate (length (w_layer_ids w)) None, st)
      = Ok (Some <$> py_range L, st') /\
    static_input_hiddens st' = static_input_hiddens st /\ static_input_batch_sizes st' = static_input_batch_sizes st /\
    static_input_m_indices st' = static_input_m_indices st.
Proof.
  intros Hmap HB Hbody. rewrite Hlayers, py_range_length.
  destruct (py_for_total (fun pre (s : list (option Z) * Static) => length s.1 = Z.to_nat L /\
    (forall k : nat, (k < length pre)%nat -> s.1 !! k = Some (Some (Z.of_nat k))) /\
    static_input_hiddens s.2 = static_input_hiddens st /\ static_input_batch_sizes s.2 = static_input_batch_sizes st /\
    static_input_m_indices s.2 = static_input_m_indices st)
    (capture_layer w mappings B) (py_range L) (replicate (Z.to_nat L) None, st)) as ([gs st'] & -> & Hlen & Hlk & Hsame).
  - cbn. rewrite length_replicate. split; [done|]. split; [lia|done].
  - intros pre i suf [gs s] Hs (Hlen & Hlk & S1 & S2 & S3). cbn in *. assert (Hi : i = Z.of_nat (length pre)).
    { assert (E1 : py_range L !! length pre = Some i) by by rewrite Hs, list_lookup_middle. unfold py_range in E1. apply lookup_seqZ in E1 as [-> _]. lia. }
    assert (Hlt : 0 <= i < L) by (apply elem_of_py_range; rewrite Hs; apply elem_of_app; right; by left).
    unfold capture_layer. cbn [fst snd]. destruct (lookup_lt_is_Some_2 gs (Z.to_nat i)) as [g Hg]; [lia|].
    rewrite (py_get_lookup _ _ g) by (done || lia). cbn [mbind res_bind].
    destruct (Hbody i s Hlt S1 S2 S3) as [out ->]. cbn [mbind res_bind]. rewrite py_set_nonneg by (unfold zlen; lia). cbn [mbind res_bind].
    rewrite Hlayers, output_range by done. cbn [of_option mbind res_bind]. eexists. split; [done|]. cbn. rewrite length_insert. split; [done|].
    split; [|done]. intros k Hk. rewrite length_app in Hk. cbn in Hk. destruct (decide (k = length pre)) as [->|Hne].
    + rewrite Hi, Nat2Z.id. apply list_lookup_insert_eq. lia.
    + rewrite list_lookup_insert_ne by lia. apply Hlk. lia.
  - exists st'. cbn in *. split; [|done]. do 2 f_equal. apply list_eq. intros k. rewrite py_range_length in Hlk. destruct (decide (k < Z.to_nat L)%nat) as [Hk|Hk].
    + rewrite Hlk by done. unfold py_range. rewrite list_lookup_fmap, lookup_seqZ_lt by lia. cbn. do 2 f_equal. 
    + rewrite !lookup_ge_None_2; [done|rewrite length_fmap, py_range_length; lia|lia].
Qed.

Lemma copy_to_mismatch {A} (k : Z) (src dst : list A) :
  0 <= k -> zlen src <> Z.min k (zlen dst) -> zlen src <> 1 -> copy_to k src dst = Raise RuntimeError.
Proof.
  intros Hk Hne H1. unfold copy_to. rewrite py_take_nonneg by done. rewrite decide_False by (unfold zlen in *; rewrite length_take; lia).
  destruct src as [|x [|y src]]; [done|done|done].
Qed.

(** The dummy batch of a bucket that fits is captured. *)
Lemma capture_bucket_ok mappings B (g : gmap Z (list (option Z))) (st : Static) :
  layer_mappings (w_layer_ids w) = Ok mappings -> 1 <= B -> bucket_fits w B -> shaped w st ->
  exists st', capture_bucket w zero sched mappings (g, st) B = Ok (<[B := Some <$> py_range L]> g, st') /\ shaped w st' /\
    (expert_bias w = true -> Forall (fun e => 0 <= e < E) (take (Z.to_nat B) (static_input_m_indices st'))).
Proof.
  intros Hmap HB [Hle Hdiv] [Hh Hs Hi]. pose proof experts_some as HE.
  destruct (dummy_inputs B HB) as (m & Em & Hm & Hml & Hmr). unfold capture_bucket. rewrite Em. cbn [mbind res_bind fst snd].
  assert (Hq : B / E * E <= B) by (rewrite Z.mul_comm; apply Z.mul_div_le; lia).
  assert (Hqm : expert_bias w = true -> zlen m = B).
  { intros Hb. destruct (Hdiv Hb) as [q ->]. rewrite Hml, Z.div_mul by lia. done. }
  assert (Hprep : exists st1, cuda_graph_preprocess w (sched B) (replicate (Z.to_nat B) zero) (replicate (Z.to_nat E) (B / E)) m B st = Ok st1 /\
    shaped w st1 /\ static_input_batch_sizes st1 = replicate (Z.to_nat E) (B / E) /\
    (expert_bias w = true -> take (Z.to_nat B) (static_input_m_indices st1) = m)).
  { unfold cuda_graph_preprocess. rewrite Hcut. unfold zlen in *.
    rewrite (copy_to_ok _ (replicate (Z.to_nat B) zero)) by (rewrite ?length_replicate; lia). cbn [mbind res_bind].
    rewrite (copy_to_ok _ (replicate (Z.to_nat E) (B / E))) by (rewrite ?length_replicate; lia). cbn [mbind res_bind].
    assert (Ecs : replicate (Z.to_nat E) (B / E) ++ drop (length (replicate (Z.to_nat E) (B / E))) (static_input_batch_sizes st) = replicate (Z.to_nat E) (B / E)).
    { rewrite drop_ge by (rewrite length_replicate; lia). apply app_nil_r. }
    rewrite Ecs. destruct (expert_bias w) eqn:Eb.
    - specialize (Hqm eq_refl). rewrite (copy_to_ok _ m) by (rewrite ?length_replicate; lia). cbn [mbind res_bind]. eexists. split; [done|]. cbn.
      split; [split; cbn; unfold zlen; rewrite ?length_app, ?length_drop, ?length_replicate; lia|]. split; [done|].
      intros _. rewrite <-Hqm, Nat2Z.id. apply take_app_length.
    - eexists. split; [done|]. cbn. split; [split; cbn; unfold zlen; rewrite ?length_app, ?length_drop, ?length_replicate; lia|done]. }
  destruct Hprep as (st1 & -> & [Sh Ss Si] & Scs & Sm). cbn [mbind res_bind].
  destruct (capture_layers mappings B st1 Hmap HB) as (st2 & -> & S1 & S2 & S3).
  - intros layer_id st' Hl T1 T2 T3. unfold graph_body, execute_eager.
    assert (Hg : py_get mappings layer_id = Ok layer_id).
    { rewrite Hlayers, mappings_range in Hmap by done. apply Ok_inj in Hmap as <-. apply py_get_lookup; [lia|]. unfold py_range. rewrite lookup_seqZ_lt by lia. f_equal. lia. }
    rewrite Hg, Hcut. cbn [mbind res_bind]. rewrite !py_take_nonneg by lia. rewrite T1, T2, T3, Scs.
    assert (Hsum : sumZ (replicate (Z.to_nat E) (B / E)) = B / E * E) by (rewrite sum_replicate, Z2Nat.id by lia; done).
    destruct (cutlass_rows w layer_id B (take (Z.to_nat B) (static_input_hiddens st1)) (replicate (Z.to_nat E) (B / E))
      (take (Z.to_nat B) (static_input_m_indices st1))) as (out & Eo & _); [|unfold zlen in *; rewrite length_take; lia|lia| |by exists out].
    + apply Forall_replicate. apply Z.div_pos; lia.
    + intros Hb. rewrite (Sm Hb). split; [done|]. split; [by apply Hqm|]. rewrite <-Hm. apply take_ge. unfold zlen in Hml. lia.
  - exists st2. split; [done|]. split; [split; congruence|]. intros Hb. by rewrite S3, (Sm Hb).
Qed.

(** One that does not fit stops the start-up. *)
Lemma capture_bucket_bad mappings B (g : gmap Z (list (option Z))) (st : Static) :
  1 <= B -> ~ bucket_fits w B -> shaped w st -> capture_bucket w zero sched mappings (g, st) B = Raise RuntimeError.
Proof.
  intros HB Hbad [Hh Hs Hi]. pose proof experts_some as HE. destruct (dummy_inputs B HB) as (m & Em & Hm & Hml & Hmr).
  unfold capture_bucket. rewrite Em. cbn [mbind res_bind fst snd]. unfold cuda_graph_preprocess. rewrite Hcut.
  assert (Hrep : zlen (replicate (Z.to_nat B) zero) = B) by (unfold zlen; rewrite length_replicate; lia).
  destruct (Z.le_gt_cases B (max_batch_size_expert w)) as [Hle|Hgt].
  - rewrite (copy_to_ok _ (replicate (Z.to_nat B) zero)) by (unfold zlen in *; lia). cbn [mbind res_bind].
    rewrite (copy_to_ok _ (replicate (Z.to_nat E) (B / E))) by (unfold zlen in *; rewrite ?length_replicate; lia). cbn [mbind res_bind].
    destruct (expert_bias w) eqn:Eb; [|exfalso; apply Hbad; split; [done|congruence]].
    assert (Hne : zlen m <> B).
    { intros Hm'. apply Hbad. split; [done|]. intros _. exists (B / E). lia. }
    rewrite (copy_to_mismatch _ m); [done|lia|lia|]. intros H1. rewrite Hml, Z.mul_comm in H1.
    destruct (Z.eq_mul_1_nonneg E (B / E) ltac:(lia) H1) as [HE1 _]. rewrite Hml, HE1, Z.div_1_r in Hne. lia.
  - rewrite (copy_to_mismatch _ (replicate (Z.to_nat B) zero)); [done|lia|lia|lia].
Qed.

Lemma capture_of_range blank blank_sizes blank_ids mappings :
  layer_mappings (w_layer_ids w) = Ok mappings ->
  zlen blank = max_batch_size_expert w -> zlen blank_sizes = E -> zlen blank_ids = max_batch_size_expert w ->
  let ok := round_max (max_batch_size_expert w) /\ (expert_bias w = true -> (E | Z.min 128 (max_batch_size_expert w))) in
  exists sizes, get_graph_batch_sizes (max_batch_size_expert w) = Ok sizes /\
    (ok -> exists graphs st, build_cuda_graph_executor w zero sched mappings blank blank_sizes blank_ids = Ok (graphs, st) /\
       deployed w L mappings sizes graphs /\ static_ok w st) /\
    (~ ok -> build_cuda_graph_executor w zero sched mappings blank blank_sizes blank_ids = Raise RuntimeError).
Proof.
  intros Hmap Hb1 Hb2 Hb3 ok. destruct (graph_sizes_spec (max_batch_size_expert w) Hmax) as (sizes & z & Esz & Hsort & Hlast & Hz & Hall & Hhd & Hround).
  exists sizes. split; [done|]. unfold build_cuda_graph_executor. rewrite Esz. cbn [mbind res_bind].
  set (st0 := {| static_input_hiddens := blank; static_input_batch_sizes := blank_sizes; static_input_m_indices := blank_ids; static_outputs := ∅ |}).
  assert (Hsh0 : shaped w st0) by by split.
  assert (Hpos : Forall (fun B => 1 <= B) sizes) by (eapply Forall_impl; [exact Hall|]; cbn; intros x [Hx _]; lia).
  split.
  - intros [Hr Hdiv]. apply Hround in Hr as ->.
    assert (Hfit : Forall (bucket_fits w) sizes).
    { eapply Forall_impl; [exact Hall|]. intros x [Hx Hd]. split; [lia|]. intros Hb. etrans; [by apply Hdiv|done]. }
    destruct (py_for_total (fun pre (s : gmap Z (list (option Z)) * Static) => shaped w s.2 /\
      (forall B, B ∈ pre -> s.1 !! B = Some (Some <$> py_range L)) /\
      (expert_bias w = true -> forall B, last pre = Some B -> Forall (fun e => 0 <= e < E) (take (Z.to_nat B) (static_input_m_indices s.2))))
      (capture_bucket w zero sched mappings) sizes (∅, st0)) as ([gs st] & -> & Hsh & Hg & Hv).
    + split; [done|]. split; [intros B HB; by apply not_elem_of_nil in HB|done].
    + intros pre B suf [g st] Hs (Hsh & Hg & _). assert (HBin : B ∈ sizes) by (rewrite Hs; apply elem_of_app; right; by left).
      rewrite Forall_forall in Hfit, Hpos. destruct (capture_bucket_ok mappings B g st Hmap (Hpos _ HBin) (Hfit _ HBin) Hsh) as (st' & -> & Hsh' & Hv').
      eexists. split; [done|]. cbn [fst snd]. split; [done|]. split.
      * intros B' HB'. destruct (decide (B = B')) as [->|Hne]; [by rewrite lookup_insert_eq|]. rewrite lookup_insert_ne by done.
        apply elem_of_app in HB' as [HB'|HB']; [by apply Hg|]. apply list_elem_of_singleton in HB'. congruence.
      * intros Hb B' HB'. rewrite last_snoc in HB'. injection HB' as <-. by apply Hv'.
    + exists gs, st. split; [done|]. cbn [fst snd] in *. split; [split; try done|].
      destruct Hsh as [S1 S2 S3]. split; try done. intros Hb. specialize (Hv Hb _ Hlast). rewrite take_ge in Hv; [done|]. unfold zlen in S3. lia.
  - intros Hbad.
    assert (Hex : exists pre B suf, sizes = pre ++ B :: suf /\ Forall (bucket_fits w) pre /\ ~ bucket_fits w B).
    { assert (Hnot : ~ Forall (bucket_fits w) sizes).
      { intros Hfit. apply Hbad. split.
        - apply Hround. rewrite Forall_forall in Hfit. destruct (Hfit z) as [Hle _]; [by apply last_Some_elem_of|]. lia.
        - intros Hb. destruct sizes as [|B sizes']; [done|]. cbn in Hhd. injection Hhd as <-. apply Forall_cons in Hfit as [[_ Hd] _]. by apply Hd. }
      clear -Hnot. induction sizes as [|B sizes IH]; [by destruct Hnot; constructor|].
      assert (Hdec : {bucket_fits w B} + {~ bucket_fits w B}).
      { unfold bucket_fits. destruct (Z_le_dec B (max_batch_size_expert w)); [|right; tauto]. destruct (expert_bias w); [|left; split; [done|done]].
        destruct (Znumtheory.Zdivide_dec (local_num_experts w) B); [left; tauto|right; naive_solver]. }
      destruct Hdec as [Hf|Hf]; [|by exists [], B, sizes].
      destruct IH as (pre & B' & suf & -> & Hpre & HB'); [intros Hall; apply Hnot; by constructor|].
      exists (B :: pre), B', suf. split; [done|]. split; [by constructor|done]. }
    destruct Hex as (pre & B & suf & -> & Hpre & HB). apply Forall_app in Hpos as [Hpos HposB]. apply Forall_cons in HposB as [HposB _].
    destruct (py_for_total (fun _ (s : gmap Z (list (option Z)) * Static) => shaped w s.2) (capture_bucket w zero sched mappings) pre (∅, st0))
      as ([g st] & Epre & Hsh); [done| |].
    + intros pre' B' suf' [g st] Hs Hsh. assert (HBin : B' ∈ pre) by (rewrite Hs; apply elem_of_app; right; by left).
      rewrite Forall_forall in Hpre, Hpos. destruct (capture_bucket_ok mappings B' g st Hmap (Hpos _ HBin) (Hpre _ HBin) Hsh) as (st' & -> & Hsh' & _). by eexists.
    + rewrite py_for_app, Epre. cbn [mbind res_bind py_for]. by rewrite capture_bucket_bad.
Qed.
End Capture.

(** *** Layer ids that are not the positions of the layers *)

(** Ascending layer ids below their number are the positions. *)
Lemma ascending_range (l : list Z) :
  StronglySorted Z.lt l -> Forall (fun i => 0 <= i < zlen l) l -> l = py_range (zlen l).
Proof.
  intros Hs Hr. apply list_eq. intros k. destruct (l !! k) as [x|] eqn:Ex.
  - assert (Hlow : forall (i : nat) y, l !! i = Some y -> Z.of_nat i <= y).
    { intros i. induction i as [|i IH]; intros y Hy; [pose proof (Forall_lookup_1 _ _ _ _ Hr Hy); cbn in *; lia|].
      destruct (lookup_lt_is_Some_2 l i) as [z Hz]; [apply lookup_lt_Some in Hy; lia|].
      pose proof (sorted_lt_lookup l i (S i) z y Hs Hz Hy ltac:(lia)). specialize (IH z Hz). lia. }
    assert (Hhigh : forall (d i : nat) y, (i + d + 1 = length l)%nat -> l !! i = Some y -> y <= Z.of_nat i).
    { intros d. induction d as [|d IH]; intros i y Hd Hy.
      - pose proof (Forall_lookup_1 _ _ _ _ Hr Hy). unfold zlen in *. cbn in *. lia.
      - destruct (lookup_lt_is_Some_2 l (S i)) as [z Hz]; [lia|].
        pose proof (sorted_lt_lookup l i (S i) y z Hs Hy Hz ltac:(lia)). specialize (IH (S i) z ltac:(lia) Hz). lia. }
    apply lookup_lt_Some in Ex as Hk. pose proof (Hlow k x Ex). pose proof (Hhigh (length l - k - 1)%nat k x ltac:(lia) Ex).
    unfold py_range. rewrite lookup_seqZ_lt by (unfold zlen; lia). f_equal. lia.
  - apply lookup_ge_None in Ex. symmetry. apply lookup_ge_None_2. rewrite py_range_length. unfold zlen. lia.
Qed.

(** A layer id beyond the list of graphs stops the capture of a bucket. *)
Lemma capture_layers_beyond (w : Worker) mappings B (l : list Z) gs (st : Static) id :
  id ∈ l -> zlen gs <= id -> exists e, py_for (capture_layer w mappings B) l (gs, st) = Raise e.
Proof.
  intros Hin Hid. revert gs st Hid. induction l as [|x l IH]; intros gs st Hid; [by apply elem_of_nil in Hin|].
  cbn [py_for]. destruct (decide (x = id)) as [->|Hne].
  - exists IndexError. pose proof (zlen_nonneg gs).
    assert (Hraise : capture_layer w mappings B (gs, st) id = Raise IndexError); [|by rewrite Hraise].
    unfold capture_layer. cbn [fst snd]. assert (Hg : py_get gs id = Raise IndexError) by (unfold py_get, py_index; by zcases; try lia).
    by rewrite Hg.
  - destruct (capture_layer w mappings B (gs, st) x) as [[gs' st']|e] eqn:Ec; [|by exists e]. cbn [mbind res_bind].
    apply elem_of_cons in Hin as [->|Hin]; [done|]. apply (IH Hin).
    unfold capture_layer in Ec. inv_ok. cbn [fst snd] in *. unfold zlen in *.
    match goal with Hset : py_set _ _ _ = Ok _ |- _ => rewrite (py_set_length _ _ _ _ Hset) end. done.
Qed.

(** C40. The expert graphs of a CUTLASS worker with ascending layer ids are captured
    exactly when the ids are the positions [0, ..., L - 1] of the layers, its maximum
    batch is at most 128 or 128 times a power of two and, with expert biases, the
    number of its experts divides the smallest bucket; then every bucket has the
    graphs of all layers and the buffers are ready to serve.  Otherwise the start-up
    raises, on a shape mismatch when the layer ids are the positions. *)
Theorem capture_exact (w : Worker) (zero : H) (sched : Z -> list Program) blank blank_sizes blank_ids mappings :
  worker_ok w -> is_cutlass (expert_cls w) = true -> 1 <= max_batch_size_expert w ->
  w_layer_ids w <> [] -> StronglySorted Z.lt (w_layer_ids w) -> Forall (fun i => 0 <= i) (w_layer_ids w) ->
  layer_mappings (w_layer_ids w) = Ok mappings ->
  zlen blank = max_batch_size_expert w -> zlen blank_sizes = local_num_experts w ->
  zlen blank_ids = max_batch_size_expert w ->
  let L := zlen (w_layer_ids w) in
  let ok := w_layer_ids w = py_range L /\ round_max (max_batch_size_expert w) /\
            (expert_bias w = true -> (local_num_experts w | Z.min 128 (max_batch_size_expert w))) in
  exists sizes, get_graph_batch_sizes (max_batch_size_expert w) = Ok sizes /\
    (ok -> exists graphs st, build_cuda_graph_executor w zero sched mappings blank blank_sizes blank_ids = Ok (graphs, st) /\
       deployed w L mappings sizes graphs /\ static_ok w st) /\
    (~ ok -> exists e, build_cuda_graph_executor w zero sched mappings blank blank_sizes blank_ids = Raise e /\
       (w_layer_ids w = py_range L -> e = RuntimeError)).
Proof.
  intros Hw Hcut Hmax HL Hs H0 Hmap Hb1 Hb2 Hb3 L ok.
  assert (HL1 : 1 <= L) by (unfold L, zlen; destruct (w_layer_ids w); [done|cbn; lia]).
  destruct (decide (w_layer_ids w = py_range L)) as [Hr|Hr].
  - destruct (capture_of_range w zero sched L Hw Hcut Hr HL1 Hmax blank blank_sizes blank_ids mappings)
      as (sizes & Esz & Hok & Hbad); [done..|].
    exists sizes. split; [done|]. split; [intros [_ Ho]; by apply Hok|].
    intros Hno. exists RuntimeError. split; [|done]. apply Hbad. intros Ho. by apply Hno.
  - destruct (graph_sizes_spec (max_batch_size_expert w) Hmax) as (sizes & z & Esz & _ & _ & _ & Hall & Hhd & _).
    exists sizes. split; [done|]. split; [by intros [? _]|]. intros _.
    assert (Hbeyond : exists id, id ∈ w_layer_ids w /\ L <= id).
    { destruct (decide (Forall (fun i => i < L) (w_layer_ids w))) as [Hlt|Hge].
      - destruct Hr. apply ascending_range; [done|]. rewrite Forall_forall in H0, Hlt |- *. intros i Hi. split; [by apply H0|by apply Hlt].
      - apply not_Forall_Exists, Exists_exists in Hge as (id & Hin & Hge); [|apply _]. exists id. split; [done|]. cbn in Hge. lia. }
    destruct Hbeyond as (id & Hin & Hid). unfold build_cuda_graph_executor. rewrite Esz. cbn [mbind res_bind].
    destruct sizes as [|B sizes]; [done|]. cbn in Hhd. injection Hhd as ->. cbn [py_for].
    enough (exists e, capture_bucket w zero sched mappings (∅, {| static_input_hiddens := blank; static_input_batch_sizes := blank_sizes;
      static_input_m_indices := blank_ids; static_outputs := ∅ |}) (Z.min 128 (max_batch_size_expert w)) = Raise e) as [e He].
    { exists e. rewrite He. by split. }
    unfold capture_bucket. destruct (make_expert_dummy_inputs _ _ _) as [[[x b] m]|e]; [|by exists e]. cbn [mbind res_bind fst snd].
    destruct (cuda_graph_preprocess _ _ _ _ _ _ _) as [st|e]; [|by exists e]. cbn [mbind res_bind].
    destruct (capture_layers_beyond w mappings (Z.min 128 (max_batch_size_expert w)) (w_layer_ids w)
      (replicate (length (w_layer_ids w)) None) st id Hin) as [e He]; [unfold L, zlen in *; rewrite length_replicate; lia|].
    exists e. by rewrite He.
Qed.
End Fresh.

(** Every batch size up to the maximum has a smallest bucket, below twice the
    maximum; the largest bucket is the maximum exactly when the maximum is at most
    128 or 128 times a power of two, otherwise it exceeds the buffers. *)
Theorem expert_buckets m n :
  1 <= m -> n <= m ->
  exists sizes z B, get_graph_batch_sizes m = Ok sizes /\ last sizes = Some z /\ m <= z < 2 * m /\ (z = m <-> round_max m) /\
    _get_bucket_by_num_tokens sizes n = Ok B /\ n <= B <= z /\ B ∈ sizes /\ forall s, s ∈ sizes -> n <= s -> B <= s.
Proof.
  intros Hm Hn. destruct (graph_sizes_spec m Hm) as (sizes & z & E & Hs & Hlast & Hz & Hall & _ & Hr). exists sizes, z.
  pose proof (last_Some_elem_of _ _ Hlast) as Hin.
  destruct (bucket_spec sizes n Hs) as [(B & HB & HBin & HnB & Hmin)|[_ Hnone]].
  - exists B. split; [done|]. split; [done|]. split; [done|]. split; [done|]. split; [done|]. split; [|done]. split; [done|]. apply Hmin; [done|lia].
  - rewrite Forall_forall in Hnone. specialize (Hnone _ Hin). cbn in Hnone. lia.
Qed.
End Experts.

(** ** The rank tables of [build_expert_executor] *)

Lemma ranks_inverse l num_experts nper rank :
  l <> [] -> NoDup l -> Forall (fun e => 0 <= e < num_experts) l ->
  exists g, Engine.Engine.build_expert_ranks (Some l) num_experts nper rank = Ok (l, g) /\
    forall i e, l !! i = Some e -> g !! Z.to_nat e = Some (Z.of_nat i).
Proof.
  intros Hne Hnd Hr. unfold Engine.Engine.build_expert_ranks, Engine.Engine.local_experts. destruct l as [|e0 l0] eqn:El; [done|]. rewrite <-El in *. clear El e0 l0 Hne.
  destruct (py_for_total (fun pre (g : list Z) => length g = Z.to_nat num_experts /\
    forall i e, l !! i = Some e -> (i < length pre)%nat -> g !! Z.to_nat e = Some (Z.of_nat i))
    (fun g x => py_set g x.2 x.1) (enumerate l) (replicate (Z.to_nat num_experts) (-1))) as (g & -> & Hlen & Hg).
  - rewrite length_replicate. split; [done|]. cbn. lia.
  - intros pre [j x] suf g Hs [Hlen Hg]. destruct (enum_prefix l pre j x suf Hs) as [Hj Hx]. cbn [fst snd].
    assert (Hlk : l !! length pre = Some x).
    { assert (E : enumerate l !! length pre = Some (j, x)) by by rewrite Hs, list_lookup_middle.
      destruct (l !! length pre) as [y|] eqn:Ey; [|apply lookup_ge_None in Ey; rewrite <-enum_length in Ey; apply lookup_ge_None in Ey; congruence].
      rewrite (enum_lookup _ _ _ Ey) in E. congruence. }
    assert (Hxr : 0 <= x < num_experts) by by apply (Forall_lookup_1 _ _ _ _ Hr Hlk).
    rewrite py_set_nonneg by (unfold zlen; lia). eexists. split; [done|]. rewrite length_insert. split; [done|].
    intros i e Hi Hlt. rewrite length_app in Hlt. cbn in Hlt. destruct (decide (i = length pre)) as [->|Hni].
    + assert (e = x) as -> by congruence. rewrite list_lookup_insert_eq by lia. f_equal.
      assert (E : enumerate l !! length pre = Some (j, x)) by by rewrite Hs, list_lookup_middle. rewrite (enum_lookup _ _ _ Hlk) in E. congruence.
    + assert (Her : 0 <= e < num_experts) by by apply (Forall_lookup_1 _ _ _ _ Hr Hi).
      rewrite list_lookup_insert_ne; [apply (Hg i e); [done|lia]|]. intros E. apply Hni. apply (NoDup_lookup l i (length pre) e); [done|done|].
      rewrite Hlk. f_equal. lia.
  - exists g. split; [done|]. intros i e Hi. apply Hg; [done|]. rewrite enum_length. by eapply lookup_lt_Some.
Qed.

(** *** A concrete worker: experts 2 and 5 of 8, with biases, one bucket of four rows *)

Definition demo_worker : Worker := {|
  expert_cls := get_expert_cls true true "none"; num_experts := 8; expert_bias := true; local_to_global := [2; 5];
  global_to_local := [-1; -1; 0; -1; -1; 1; -1; -1]; max_batch_size_expert := 4; enable_cuda_graph_expert := true;
  w_layer_ids := [0; 1] |}.

Lemma demo_ranks : Engine.Engine.build_expert_ranks (Some [2; 5]) 8 2 0 = Ok (local_to_global demo_worker, global_to_local demo_worker).
Proof. reflexivity. Qed.

Definition demo_up (vid e x : Z) : Z := 10 * x + e + vid.
Definition demo_down (vid e x : Z) : Z := x - e.
Definition demo_bias (vid e x : Z) : Z := x + 1000 * (e + 1).
Definition demo_dg (f : Z -> Z -> Z -> Z) (vid : Z) (x m : list Z) : res (list Z) := Ok (zip_with (f vid) m x).
Definition demo_fresh (bs : Z) : list Z := replicate (Z.to_nat bs) 77.

Definition demo_graphs : gmap Z (list (option Z)) := {[ 4 := [Some 0; Some 1] ]}.
Definition demo_static : Static (H := Z) := {|
  static_input_hiddens := [9; 9; 9; 9]; static_input_batch_sizes := [1; 2]; static_input_m_indices := [1; 1; 0; 1];
  static_outputs := ∅ |}.

Definition demo_call : call (H := Z) := (reverse (launch 3), 1, [2; 5; 5], [1; 2; 3]).

Definition demo_serve : res (list (list Z) * Static (H := Z)) :=
  py_for (serve_one demo_up demo_bias Z.opp demo_down demo_bias (demo_dg demo_up) (demo_dg demo_down) demo_fresh demo_fresh
            demo_worker [0; 1] [4] demo_graphs) [demo_call; demo_call] ([], demo_static).

Lemma demo_worker_ok : worker_ok demo_worker.
Proof.
  split; try done; [repeat constructor|repeat (apply List.Forall_cons; [cbn; lia|]); constructor|]. intros i e Hi. by destruct i as [|[|i]]; cbn in Hi; simplify_eq.
Qed.

Lemma demo_deployed : deployed demo_worker 2 [0; 1] [4] demo_graphs.
Proof.
  split; try done; [repeat constructor|]. intros B HB. apply list_elem_of_singleton in HB as ->. reflexivity.
Qed.

Lemma worker_call_ok : call_ok demo_worker 2 demo_call.
Proof.
  split; try done; cbn [fst snd demo_call].
  - split; [repeat constructor; lia|]. repeat constructor; set_solver.
  - by rewrite reverse_Permutation.
Qed.

(** The same experts in a DeepGEMM class. *)
Definition demo_deepgemm : Worker := {|
  expert_cls := get_expert_cls true false "none"; num_experts := 8; expert_bias := false; local_to_global := [2; 5];
  global_to_local := [-1; -1; 0; -1; -1; 1; -1; -1]; max_batch_size_expert := 4; enable_cuda_graph_expert := true;
  w_layer_ids := [0; 1] |}.

Lemma demo_deepgemm_ok :
  worker_ok demo_deepgemm /\ deployed demo_deepgemm 2 [0; 1] [4] demo_graphs /\ call_ok demo_deepgemm 2 demo_call /\
  static_ok demo_deepgemm demo_static.
Proof.
  destruct demo_worker_ok as [_ _ W3 W4 W5], demo_deployed as [D1 D2 D3 D4 D5 D6], worker_call_ok as [C1 [C2 C3] C4 C5 C6].
  split; [by split|]. split; [by split|]. split; [by repeat split|]. by split.
Qed.

Lemma experts_exact_witness :
  (exists outs st, demo_serve = Ok (outs, st) /\ outs = replicate 2 [-11 - 1000 + 1000; -22 - 2000 - 1 + 2000; -32 - 2000 - 1 + 2000]) /\
  (exists rest (st' : list Z -> Static),
     serve_one demo_up demo_bias Z.opp demo_down demo_bias (demo_dg demo_up) (demo_dg demo_down) demo_fresh demo_fresh
       demo_deepgemm [0; 1] [4] demo_graphs ([], demo_static) demo_call =
     (out ← deepgemm_forward Z.opp (demo_dg demo_up) (demo_dg demo_down) 1 ([1; 2; 3] ++ rest) ([0; 1; 1] ++ replicate (length rest) 0);
      Ok ([take 3 out], st' out))).
Proof.
  split.
  - destruct (experts_exact demo_up demo_bias Z.opp demo_down demo_bias (demo_dg demo_up) (demo_dg demo_down) demo_fresh demo_fresh
      (fun bs _ => length_replicate _ _) (fun bs _ => length_replicate _ _)
      demo_worker 2 [0; 1] [4] demo_graphs demo_worker_ok demo_deployed) as [Hrows _].
    destruct (Hrows eq_refl [demo_call; demo_call] ([], demo_static)) as (st & E & _).
    + apply Forall_cons; split; [exact worker_call_ok|]. apply Forall_singleton. exact worker_call_ok.
    + split; try done. intros _. repeat constructor; done.
    + eexists _, st. split; [exact E|reflexivity].
  - destruct demo_deepgemm_ok as (H1 & H2 & H3 & H4).
    destruct (experts_exact demo_up demo_bias Z.opp demo_down demo_bias (demo_dg demo_up) (demo_dg demo_down) demo_fresh demo_fresh
      (fun bs _ => length_replicate _ _) (fun bs _ => length_replicate _ _)
      demo_deepgemm 2 [0; 1] [4] demo_graphs H1 H2) as [_ Hdg].
    destruct (Hdg eq_refl (reverse (launch 3)) 1 [2; 5; 5] [1; 2; 3] ([], demo_static) H3 H4) as (rest & st' & _ & _ & E).
    exists rest, st'. exact E.
Defined.

Lemma expert_buckets_witness :
  1 <= 600 /\ exists sizes, get_graph_batch_sizes 600 = Ok sizes /\ last sizes = Some 1024 /\ ~ round_max 600.
Proof.
  split; [lia|]. destruct (expert_buckets 600 5 ltac:(lia) ltac:(lia)) as (sizes & z & B & E & Hlast & _ & Hr & _).
  exists sizes. split; [exact E|]. vm_compute in E. injection E as <-. cbn in Hlast. injection Hlast as <-. split; [reflexivity|].
  intros H. apply Hr in H. discriminate.
Defined.

(** A worker that serves layers 2 and 3 of a pipeline. *)
Definition demo_pipeline : Worker := {|
  expert_cls := get_expert_cls true true "none"; num_experts := 8; expert_bias := true; local_to_global := [2; 5];
  global_to_local := [-1; -1; 0; -1; -1; 1; -1; -1]; max_batch_size_expert := 4; enable_cuda_graph_expert := true;
  w_layer_ids := [2; 3] |}.

Lemma demo_pipeline_ok : worker_ok demo_pipeline.
Proof. by destruct demo_worker_ok as [W1 W2 W3 W4 W5]. Qed.

Definition demo_build (w : Worker) (mappings : list Z) : res (gmap Z (list (option Z)) * Static (H := Z)) :=
  build_cuda_graph_executor demo_up demo_bias Z.opp demo_down demo_bias (demo_dg demo_up) (demo_dg demo_down) demo_fresh demo_fresh
    w 0 (fun B => launch B) mappings [5; 5; 5; 5] [6; 6] [7; 7; 7; 7].

Lemma capture_exact_witness :
  (exists graphs st, demo_build demo_worker [0; 1] = Ok (graphs, st) /\ static_ok demo_worker st) /\
  (exists mappings e, layer_mappings [2; 3] = Ok mappings /\ demo_build demo_pipeline mappings = Raise e).
Proof.
  split.
  - destruct (capture_exact demo_up demo_bias Z.opp demo_down demo_bias (demo_dg demo_up) (demo_dg demo_down) demo_fresh demo_fresh
      (fun bs _ => length_replicate _ _) (fun bs _ => length_replicate _ _) demo_worker 0 (fun B => launch B)
      [5; 5; 5; 5] [6; 6] [7; 7; 7; 7] [0; 1] demo_worker_ok) as (sizes & _ & Hok & _);
      [done|by cbn; lia|done|by repeat constructor|by repeat constructor|done..|].
    destruct Hok as (graphs & st & E & _ & Hst).
    + split; [reflexivity|]. split; [left; cbn; lia|]. intros _. exists 2. reflexivity.
    + exists graphs, st. split; [exact E|exact Hst].
  - destruct (layer_mappings [2; 3]) as [mappings|] eqn:Em; [|vm_compute in Em; discriminate Em].
    destruct (capture_exact demo_up demo_bias Z.opp demo_down demo_bias (demo_dg demo_up) (demo_dg demo_down) demo_fresh demo_fresh
      (fun bs _ => length_replicate _ _) (fun bs _ => length_replicate _ _) demo_pipeline 0 (fun B => launch B)
      [5; 5; 5; 5] [6; 6] [7; 7; 7; 7] mappings demo_pipeline_ok) as (sizes & _ & _ & Hbad);
      [done|by cbn; lia|done|by repeat constructor|by repeat constructor|done..|].
    destruct Hbad as (e & E & _); [intros [Hr _]; vm_compute in Hr; discriminate Hr|].
    exists mappings, e. split; [reflexivity|exact E].
Defined.
End ExpertExecutor.
