(* ===== verification/Weights.v ===== *)
(** * Weight loading ([disagmoe/weights.py])

    After the modules are built with random parameters, the loader overwrites them
    from a checkpoint directory: one file of attention tensors, and for the experts a
    file per shard with a map of the experts each shard was cut for.  A worker picks
    the first shard that covers its experts and gathers its rows by position.  The
    file proves that the parameters loaded are those of the worker's experts in the
    order of its rank table, however the shards were cut, and that a directory with no
    covering shard is refused.

    A tensor is its shape and its rows along the first dimension; a row is an element
    of a type.  Files are maps from names to tensors: safetensors, JSON and the
    conversion to the parameter's type are the libraries. *)

From stdpp Require Import strings pretty.
From S2P Require Import Prelude.

Module Weights.

Section Weights.
Context {T : Type}.

Record Tensor : Type := { shape : list Z; rows : list T }.

(** [tensor.to(param.dtype)], row by row. *)
Context (cast : T -> T).

(** [f.get_tensor(name)] *)
Definition File : Type := gmap string Tensor.
Definition get_tensor (f : File) (name : string) : res Tensor := of_option RuntimeError (f !! name).

(** [_copy]: the new value of the parameter. *)
Definition _copy (param : option Tensor) (tensor : Tensor) : res Tensor :=
  p ← of_option AssertionError param;
  _ ← py_assert (bool_decide (shape p = shape tensor));
  Ok {| shape := shape p; rows := cast <$> rows tensor |}.

(** ** Attention *)

Record AttnOp : Type := {
  qkv_weight : Tensor;
  qkv_bias : option Tensor;
  o_weight : Tensor;
  o_bias : option Tensor;
  sinks : option Tensor;
  pre_attention_layernorm : Tensor;
  post_attention_layernorm : Tensor;
  gate_weight : Tensor;
  gate_bias : option Tensor;
}.

(** [model.layers.{L}.{name}] *)
Definition attn_key (L : Z) (name : string) : string := ("model.layers." +:+ pretty L +:+ "." +:+ name)%string.

Definition load (f : File) (L : Z) (name : string) (param : Tensor) : res Tensor :=
  t ← get_tensor f (attn_key L name); _copy (Some param) t.

(** A parameter that is skipped when the module has none. *)
Definition load_opt (f : File) (L : Z) (name : string) (param : option Tensor) : res (option Tensor) :=
  match param with Some p => t ← load f L name p; Ok (Some t) | None => Ok None end.

Definition load_attn_op (f : File) (L : Z) (op : AttnOp) : res AttnOp :=
  qkv ← load f L "self_attn.qkv.weight" (qkv_weight op);
  qkv_b ← load_opt f L "self_attn.qkv.bias" (qkv_bias op);
  o ← load f L "self_attn.o_proj.weight" (o_weight op);
  o_b ← load_opt f L "self_attn.o_proj.bias" (o_bias op);
  s ← load_opt f L "self_attn.sinks" (sinks op);
  pre ← load f L "input_layernorm.weight" (pre_attention_layernorm op);
  post ← load f L "post_attention_layernorm.weight" (post_attention_layernorm op);
  g ← load f L "mlp.router.weight" (gate_weight op);
  g_b ← load_opt f L "mlp.router.bias" (gate_bias op);
  Ok {| qkv_weight := qkv; qkv_bias := qkv_b; o_weight := o; o_bias := o_b; sinks := s;
        pre_attention_layernorm := pre; post_attention_layernorm := post; gate_weight := g; gate_bias := g_b |}.

Definition load_attn_weights (f : File) (layer_ids : list Z) (operators : list AttnOp) : res (list AttnOp) :=
  py_map (fun x : Z * AttnOp => L ← py_get layer_ids x.1; load_attn_op f L x.2) (enumerate operators).

(** ** Experts *)

Record ExpertOp : Type := {
  w13_weight : option Tensor;
  w2_weight : option Tensor;
  w13_bias : option Tensor;
  w2_bias : option Tensor;
}.

(** [{int(k): v for k, v in ...}]; the keys of the file are integers. *)
Definition expert_map (entries : list (Z * list Z)) : list (Z * list Z) :=
  foldl (fun d x => dset d x.1 x.2) [] entries.

(** [sorted(emap.items())]: the ranks are distinct. *)
Definition by_rank (x y : Z * list Z) : Prop := x.1 <= y.1.
#[global] Instance by_rank_dec x y : Decision (by_rank x y) := decide (x.1 <= y.1).

Definition row_of (ids : list Z) : list (Z * Z) := foldl (fun d x => dset d x.2 x.1) [] (enumerate ids).

Definition covers (want : list Z) (x : Z * list Z) : bool := bool_decide (Forall (fun e => e ∈ x.2) want).

(** [_find_expert_shard]: rank of the file and row of each expert. *)
Definition _find_expert_shard (entries : list (Z * list Z)) (local_expert_ids : list Z) : res (Z * list (Z * Z)) :=
  match filter (fun x => covers local_expert_ids x) (merge_sort by_rank (expert_map entries)) with
  | x :: _ => Ok (x.1, row_of x.2)
  | [] => Raise RuntimeError
  end.

(** [layers.{L}.{name}] *)
Definition expert_key (L : Z) (name : string) : string := ("layers." +:+ pretty L +:+ "." +:+ name)%string.

(** [index_select(0, rows)] *)
Definition index_select (t : Tensor) (idx : list Z) : res Tensor :=
  l ← py_map (fun i => if i <? 0 then Raise IndexError else of_option IndexError (rows t !! Z.to_nat i)) idx;
  Ok {| shape := zlen idx :: tail (shape t); rows := l |}.

Definition load_expert_param (f : File) (L : Z) (idx : list Z) (name : string) (param : option Tensor) : res (option Tensor) :=
  match param with
  | None => Ok None
  | Some p =>
      t ← get_tensor f (expert_key L name);
      t ← index_select t idx;
      t ← _copy (Some p) t; Ok (Some t)
  end.

Definition load_expert_op (f : File) (L : Z) (idx : list Z) (op : ExpertOp) : res ExpertOp :=
  a ← load_expert_param f L idx "w13_weight" (w13_weight op);
  b ← load_expert_param f L idx "w2_weight" (w2_weight op);
  c ← load_expert_param f L idx "w13_bias" (w13_bias op);
  d ← load_expert_param f L idx "w2_bias" (w2_bias op);
  Ok {| w13_weight := a; w2_weight := b; w13_bias := c; w2_bias := d |}.

(** [load_expert_weights]; [files rank] is [experts_rank{rank}.safetensors]. *)
Definition load_expert_weights (entries : list (Z * list Z)) (files : Z -> option File) (layer_ids local_expert_ids : list Z)
    (operators : list ExpertOp) : res (list ExpertOp) :=
  '(rank, row_of) ← _find_expert_shard entries local_expert_ids;
  idx ← py_map (fun e => of_option KeyError (dget row_of e)) local_expert_ids;
  f ← of_option RuntimeError (files rank);
  py_map (fun x : Z * ExpertOp => L ← py_get layer_ids x.1; load_expert_op f L idx x.2) (enumerate operators).

(** ** Sampler *)

Definition load_sampler_tensors (f : File) : res (list (string * Tensor)) :=
  e ← get_tensor f "model.embed_tokens.weight";
  n ← get_tensor f "model.norm.weight";
  h ← get_tensor f "lm_head.weight";
  let to t := {| shape := shape t; rows := cast <$> rows t |} in
  Ok [("embedding", to e); ("final_norm", to n); ("lm_head", to h)]%string.

(** ** Shards *)

Lemma row_of_spec ids e :
  e ∈ ids -> exists i, dget (row_of ids) e = Some i /\ 0 <= i /\ ids !! Z.to_nat i = Some e.
Proof.
  intros He. unfold row_of.
  assert (Hgen : forall pre d, (forall x i, dget d x = Some i -> 0 <= i /\ ids !! Z.to_nat i = Some x) ->
    (forall i x, (i, x) ∈ pre -> 0 <= i /\ ids !! Z.to_nat i = Some x) ->
    (e ∈ pre.*2 \/ is_Some (dget d e)) ->
    exists i, dget (foldl (fun d x => dset d x.2 x.1) d pre) e = Some i /\ 0 <= i /\ ids !! Z.to_nat i = Some e).
  { induction pre as [|[i x] pre IH]; intros d Hd Hpre Hin; cbn [foldl fst snd].
    - destruct Hin as [Hin|[i Hi]]; [by apply not_elem_of_nil in Hin|]. exists i. split; [done|]. by apply Hd.
    - apply IH.
      + intros y j Hj. rewrite dget_dset in Hj. case_decide as Hxy; [|by apply Hd]. injection Hj as <-. subst. apply (Hpre i y). by left.
      + intros j y Hjy. apply Hpre. by right.
      + rewrite dget_dset. case_decide as Hxe; [by right; eexists|]. destruct Hin as [Hin|Hin]; [|by right].
        cbn in Hin. apply elem_of_cons in Hin as [->|Hin]; [done|by left]. }
  apply Hgen.
  - done.
  - intros i x Hix. by apply elem_of_enumerate in Hix as [? ?].
  - left. by rewrite enum_snd.
Qed.

(** The checkpoint the shards were cut from: the row of every expert in every
    parameter of every layer. *)
Context (full : Z -> string -> Z -> T) (tail_shape : Z -> string -> list Z).

(** A shard file of experts [ids]. *)
Definition cut (ids : list Z) (L : Z) (name : string) : Tensor :=
  {| shape := zlen ids :: tail_shape L name; rows := full L name <$> ids |}.

Definition expert_names : list string := ["w13_weight"; "w2_weight"; "w13_bias"; "w2_bias"]%string.

(** Every shard of the map was cut from the checkpoint. *)
Definition well_cut (entries : list (Z * list Z)) (files : Z -> option File) (layer_ids : list Z) : Prop :=
  forall rank ids, dget (expert_map entries) rank = Some ids ->
    exists f, files rank = Some f /\
      forall L name, L ∈ layer_ids -> name ∈ expert_names -> f !! expert_key L name = Some (cut ids L name).

(** The parameters of an operator have the shapes of the worker's experts. *)
Definition fits (local_expert_ids : list Z) (L : Z) (name : string) (param : option Tensor) : Prop :=
  forall p, param = Some p -> shape p = zlen local_expert_ids :: tail_shape L name.

Definition op_fits (local_expert_ids : list Z) (L : Z) (op : ExpertOp) : Prop :=
  fits local_expert_ids L "w13_weight" (w13_weight op) /\ fits local_expert_ids L "w2_weight" (w2_weight op) /\
  fits local_expert_ids L "w13_bias" (w13_bias op) /\ fits local_expert_ids L "w2_bias" (w2_bias op).

(** A parameter with the worker's experts' rows, where the module has it. *)
Definition loaded (local_expert_ids : list Z) (L : Z) (name : string) (param : option Tensor) : option Tensor :=
  (fun _ => {| shape := zlen local_expert_ids :: tail_shape L name; rows := (fun e => cast (full L name e)) <$> local_expert_ids |}) <$> param.

Definition op_loaded (local_expert_ids : list Z) (L : Z) (op : ExpertOp) : ExpertOp :=
  {| w13_weight := loaded local_expert_ids L "w13_weight" (w13_weight op); w2_weight := loaded local_expert_ids L "w2_weight" (w2_weight op);
     w13_bias := loaded local_expert_ids L "w13_bias" (w13_bias op); w2_bias := loaded local_expert_ids L "w2_bias" (w2_bias op) |}.

Lemma expert_map_in entries rank ids : (rank, ids) ∈ expert_map entries <-> dget (expert_map entries) rank = Some ids.
Proof.
  split; [|apply dget_elem]. intros Hin. apply elem_dget; [|done]. unfold expert_map.
  assert (Hgen : forall d, NoDup (dkeys d) -> NoDup (dkeys (foldl (fun d (x : Z * list Z) => dset d x.1 x.2) d entries))).
  { clear Hin. induction entries as [|x l IH]; intros d Hd; [done|]. cbn [foldl]. apply IH, dkeys_dset_NoDup, Hd. }
  apply Hgen. constructor.
Qed.

Lemma covers_spec want x : covers want x = true <-> Forall (fun e => e ∈ x.2) want.
Proof. unfold covers. apply bool_decide_eq_true. Qed.

(** The shard found covers the experts; with none covering there is none. *)
Lemma find_shard entries want :
  (exists rank ids, _find_expert_shard entries want = Ok (rank, row_of ids) /\
     dget (expert_map entries) rank = Some ids /\ Forall (fun e => e ∈ ids) want) \/
  (_find_expert_shard entries want = Raise RuntimeError /\
     forall rank ids, dget (expert_map entries) rank = Some ids -> ~ Forall (fun e => e ∈ ids) want).
Proof.
  unfold _find_expert_shard.
  assert (Hin : forall x, x ∈ filter (fun x => covers want x) (merge_sort by_rank (expert_map entries)) <->
    dget (expert_map entries) x.1 = Some x.2 /\ Forall (fun e => e ∈ x.2) want).
  { intros [rank ids]. rewrite list_elem_of_filter, merge_sort_Permutation, expert_map_in. cbn [fst snd]. rewrite Is_true_true, covers_spec. cbn. tauto. }
  destruct (filter _ _) as [|[rank ids] l].
  - right. split; [done|]. intros rank ids Hr Hc. apply (not_elem_of_nil (rank, ids)), Hin. done.
  - left. exists rank, ids. split; [done|]. apply (Hin (rank, ids)). by left.
Qed.

Lemma load_param_ok f L ids want idx name param :
  f !! expert_key L name = Some (cut ids L name) -> Forall2 (fun e i => 0 <= i /\ ids !! Z.to_nat i = Some e) want idx ->
  fits want L name param -> load_expert_param f L idx name param = Ok (loaded want L name param).
Proof.
  intros Hf Hidx Hfit. destruct param as [p|]; [|done]. specialize (Hfit p eq_refl). unfold load_expert_param, get_tensor. rewrite Hf.
  cbn [of_option mbind res_bind]. unfold index_select.
  assert (El : py_map (fun i => if i <? 0 then Raise IndexError else of_option IndexError (rows (cut ids L name) !! Z.to_nat i)) idx
    = Ok (full L name <$> want)).
  { clear Hfit. induction Hidx as [|e i want idx [Hi He] _ IH]; [done|]. cbn [py_map]. rewrite IH. rewrite (proj2 (Z.ltb_ge _ _)) by done.
    cbn [cut rows]. rewrite list_lookup_fmap, He. done. }
  rewrite El. cbn [mbind res_bind]. unfold _copy. cbn [of_option mbind res_bind shape rows cut tail].
  assert (Hlen : zlen idx = zlen want) by (unfold zlen; by rewrite (Forall2_length _ _ _ Hidx)).
  rewrite Hlen, Hfit, bool_decide_true by done. cbn [py_assert mbind res_bind]. unfold loaded. cbn. do 3 f_equal. by rewrite <-list_fmap_compose.
Qed.

(** C22. Whatever shards the checkpoint was cut into, a worker whose experts some
    shard covers ends with exactly its experts' rows, row [j] being the expert
    [local_expert_ids[j]], in every parameter its modules have; with no covering
    shard the loader raises. *)
Theorem expert_weights_exact entries files layer_ids local_expert_ids operators :
  well_cut entries files layer_ids -> length operators = length layer_ids ->
  (forall i op L, operators !! i = Some op -> layer_ids !! i = Some L -> op_fits local_expert_ids L op) ->
  ((exists rank ids, dget (expert_map entries) rank = Some ids /\ Forall (fun e => e ∈ ids) local_expert_ids) ->
     load_expert_weights entries files layer_ids local_expert_ids operators
       = Ok (zip_with (op_loaded local_expert_ids) layer_ids operators)) /\
  ((forall rank ids, dget (expert_map entries) rank = Some ids -> ~ Forall (fun e => e ∈ ids) local_expert_ids) ->
     load_expert_weights entries files layer_ids local_expert_ids operators = Raise RuntimeError).
Proof.
  intros Hcut Hlen Hfit. unfold load_expert_weights.
  destruct (find_shard entries local_expert_ids) as [(rank & ids & -> & Hr & Hc)|[-> Hno]].
  - split; [intros _|intros Hno; by destruct (Hno rank ids Hr)]. cbn [mbind res_bind].
    destruct (py_map_total (fun e => of_option KeyError (dget (row_of ids) e)) (fun e i => 0 <= i /\ ids !! Z.to_nat i = Some e) local_expert_ids) as (idx & -> & Hidx).
    { intros e He. rewrite Forall_forall in Hc. destruct (row_of_spec ids e (Hc e He)) as (i & -> & Hi). by exists i. }
    destruct (Hcut rank ids Hr) as (f & -> & Hf). cbn [of_option mbind res_bind].
    destruct (py_map_total (fun x : Z * ExpertOp => L ← py_get layer_ids x.1; load_expert_op f L idx x.2)
      (fun x y => exists L, layer_ids !! Z.to_nat x.1 = Some L /\ y = op_loaded local_expert_ids L x.2) (enumerate operators)) as (ys & -> & Hys).
    + intros [i op] Hin. apply elem_of_enumerate in Hin as [Hi Hop]. cbn [fst snd].
      destruct (lookup_lt_is_Some_2 layer_ids (Z.to_nat i)) as [L HL]; [rewrite <-Hlen; by eapply lookup_lt_Some|].
      rewrite (py_get_lookup _ _ L) by done. cbn [mbind res_bind]. exists (op_loaded local_expert_ids L op). split; [|by exists L].
      destruct (Hfit _ _ _ Hop HL) as (F1 & F2 & F3 & F4). apply list_elem_of_lookup_2 in HL.
      unfold load_expert_op. rewrite !(load_param_ok f L ids local_expert_ids idx) by (done || (apply Hf; [done|unfold expert_names; set_solver])). done.
    + f_equal. apply list_eq. intros k. rewrite lookup_zip_with. destruct (operators !! k) as [op|] eqn:Ek.
      * pose proof (enum_lookup _ _ _ Ek) as Ee. destruct (Forall2_lookup_l _ _ _ _ _ Hys Ee) as (y & -> & L & HL & ->). cbn [fst snd] in *.
        rewrite Nat2Z.id in HL. by rewrite HL.
      * apply lookup_ge_None in Ek. rewrite (lookup_ge_None_2 ys) by (rewrite <-(Forall2_length _ _ _ Hys), enum_length; lia).
        by destruct (layer_ids !! k).
  - split; [intros (rank & ids & Hr & Hc); by destruct (Hno rank ids Hr)|done].
Qed.

(** Every attention parameter is overwritten by the tensor of its own layer. *)
Definition same (f : File) (L : Z) (name : string) (p q : Tensor) : Prop :=
  exists t, f !! attn_key L name = Some t /\ q = {| shape := shape p; rows := cast <$> rows t |}.

Lemma load_same f L name p q : load f L name p = Ok q -> same f L name p q.
Proof.
  unfold load, get_tensor, _copy. intros E. apply bind_Ok in E as (t & Et & E). apply of_option_Ok in Et.
  cbn [of_option mbind res_bind] in E. apply bind_Ok in E as (u & _ & E). apply Ok_inj in E as <-. by exists t.
Qed.

(** Loading the attention weights gives the operator at position [i] the tensors
    of layer [layer_ids[i]], and leaves out exactly the parameters a module lacks. *)
Theorem attn_weights_exact f layer_ids operators ops' :
  load_attn_weights f layer_ids operators = Ok ops' ->
  length ops' = length operators /\
  forall i op op', operators !! i = Some op -> ops' !! i = Some op' ->
  exists L, layer_ids !! i = Some L /\
    same f L "self_attn.qkv.weight" (qkv_weight op) (qkv_weight op') /\
    same f L "self_attn.o_proj.weight" (o_weight op) (o_weight op') /\
    same f L "input_layernorm.weight" (pre_attention_layernorm op) (pre_attention_layernorm op') /\
    same f L "post_attention_layernorm.weight" (post_attention_layernorm op) (post_attention_layernorm op') /\
    same f L "mlp.router.weight" (gate_weight op) (gate_weight op') /\
    option_Forall2 (same f L "self_attn.qkv.bias") (qkv_bias op) (qkv_bias op') /\
    option_Forall2 (same f L "self_attn.o_proj.bias") (o_bias op) (o_bias op') /\
    option_Forall2 (same f L "self_attn.sinks") (sinks op) (sinks op') /\
    option_Forall2 (same f L "mlp.router.bias") (gate_bias op) (gate_bias op').
Proof.
  intros E. unfold load_attn_weights in E. split; [by rewrite (py_map_length _ _ _ E), enum_length|].
  apply py_map_Forall2 in E. intros i op op' Hi Hi'.
  pose proof (enum_lookup _ _ _ Hi) as He.
  pose proof (Forall2_lookup_lr _ _ _ _ _ _ E He Hi') as H. cbn [fst snd] in H. apply bind_Ok in H as (L & HL & H).
  exists L. apply py_get_Ok in HL; [|lia]. rewrite Nat2Z.id in HL. split; [done|].
  assert (Hopt : forall name p q, load_opt f L name p = Ok q -> option_Forall2 (same f L name) p q).
  { intros name [p|] q Hq; cbn in Hq; [|apply Ok_inj in Hq as <-; constructor].
    apply bind_Ok in Hq as (t & Ht & Hq). apply Ok_inj in Hq as <-. constructor. by apply load_same. }
  unfold load_attn_op in H. repeat (apply bind_Ok in H as (? & ? & H)). apply Ok_inj in H as <-. cbn. repeat split; auto using load_same.
Qed.
End Weights.

(** *** Two shards that overlap; experts 5 and 2 are covered by the second *)

Definition demo_full (L : Z) (name : string) (e : Z) : Z := 100 * L + e + Z.of_nat (String.length name).
Definition demo_entries : list (Z * list Z) := [(1, [4; 5; 2]); (0, [0; 1; 2; 3])].

Definition demo_file (ids : list Z) : File (T := Z) :=
  list_to_map ((fun x : Z * string => (expert_key x.1 x.2, cut demo_full (fun _ _ => [7; 8]) ids x.1 x.2)) <$>
    (L ← [0; 1]; name ← expert_names; [(L, name)])).

Definition demo_files (rank : Z) : option (File (T := Z)) :=
  if rank =? 0 then Some (demo_file [0; 1; 2; 3]) else if rank =? 1 then Some (demo_file [4; 5; 2]) else None.

Definition demo_op : ExpertOp (T := Z) :=
  let p := Some {| shape := [2; 7; 8]; rows := [-1; -1] |} in
  {| w13_weight := p; w2_weight := p; w13_bias := None; w2_bias := None |}.

Lemma expert_weights_exact_witness :
  exists a b, load_expert_weights Z.opp demo_entries demo_files [0; 1] [5; 2] [demo_op; demo_op] = Ok [a; b] /\
    w13_weight b = Some {| shape := [2; 7; 8]; rows := [-115; -112] |}.
Proof.
  destruct (expert_weights_exact Z.opp demo_full (fun _ _ => [7; 8]) demo_entries demo_files [0; 1] [5; 2] [demo_op; demo_op]) as [Hok _].
  - intros rank ids Hr. apply dget_elem in Hr. vm_compute in Hr.
    apply elem_of_cons in Hr as [[= -> ->]|Hr]; [|apply list_elem_of_singleton in Hr as [= -> ->]]; eexists; (split; [reflexivity|]);
      intros L name HL Hn; unfold expert_names in *; repeat (apply elem_of_cons in HL as [->|HL]; [|try by apply not_elem_of_nil in HL]);
      repeat (apply elem_of_cons in Hn as [->|Hn]; [vm_compute; reflexivity|]); by apply not_elem_of_nil in Hn.
  - reflexivity.
  - intros i op L Hop HL. assert (op = demo_op) as -> by (apply list_elem_of_lookup_2 in Hop; set_solver).
    unfold op_fits, fits, demo_op. cbn. repeat split; intros p [= <-]; reflexivity.
  - eexists _, _. split.
    + apply Hok. exists 1, [4; 5; 2]. split; [reflexivity|]. repeat constructor; set_solver.
    + reflexivity.
Defined.

Definition attn_demo_op : AttnOp (T := Z) :=
  let p := {| shape := [1]; rows := [0] |} in
  {| qkv_weight := p; qkv_bias := None; o_weight := p; o_bias := Some p; sinks := None; pre_attention_layernorm := p;
     post_attention_layernorm := p; gate_weight := p; gate_bias := None |}.

Definition attn_demo_file : File (T := Z) :=
  list_to_map ((fun name => (attn_key 3 name, {| shape := [1]; rows := [9] |})) <$>
    ["self_attn.qkv.weight"; "self_attn.o_proj.weight"; "self_attn.o_proj.bias"; "input_layernorm.weight";
     "post_attention_layernorm.weight"; "mlp.router.weight"]%string).

Lemma attn_weights_exact_witness :
  exists op, load_attn_weights Z.opp attn_demo_file [3] [attn_demo_op] = Ok [op] /\
    exists t, o_bias op = Some {| shape := [1]; rows := Z.opp <$> rows t |} /\ attn_demo_file !! attn_key 3 "self_attn.o_proj.bias" = Some t.
Proof.
  assert (E : exists op, load_attn_weights Z.opp attn_demo_file [3] [attn_demo_op] = Ok [op]) by (eexists; vm_compute; reflexivity).
  destruct E as [op E]. exists op. split; [exact E|].
  destruct (attn_weights_exact Z.opp attn_demo_file [3] [attn_demo_op] [op] E) as [_ H].
  destruct (H 0%nat attn_demo_op op eq_refl eq_refl) as (L & HL & _ & _ & _ & _ & _ & _ & Hb & _). cbn in HL. injection HL as <-.
  inversion Hb as [p q (t & Ht & Hq) E1 E2|]. exists t. split; [by rewrite Hq|exact Ht].
Defined.

End Weights.
