(* ===== verification/Capacity.v ===== *)
(** * Admission control composed with the workers

    The data-parallel scheduler reserves, for every request it admits to a rank, the
    blocks the request may come to need; the worker of the rank allocates blocks and
    residual-stash rows as its batches arrive, and raises when it runs out.  This file
    puts the two together: [DPScheduler] on one side, on the other the [Engine] of
    every rank with its [CPUBlockManager] and [DummySampler], the C++ pool between the
    layers being the contract [pool_batch].  It proves that with one block more than
    the scheduler is told of, and with requests of at least the hundred tokens the
    stash is sized for ([executor/executor.py], [init_kv_cache]), no batch of any
    reachable state raises; and that the sizing does fail below a hundred tokens. *)

From stdpp Require Import strings.
From S2P Require Import Prelude Utils Config Datatypes DPScheduler MemPool BlockManager Sampler Engine.
Import Utils Datatypes DP BlockManager Sampler Engine.

Module Capacity.

(** ** Totals over a map *)

Definition total (m : gmap Z Z) : Z := map_fold (fun _ v a => v + a) 0 m.

Lemma total_insert m i v : m !! i = None -> total (<[i := v]> m) = v + total m.
Proof. intros Hi. unfold total. rewrite map_fold_insert_L; [done|intros; lia|done]. Qed.

Lemma total_delete m i v : m !! i = Some v -> total m = v + total (delete i m).
Proof. intros Hi. rewrite <-(insert_delete_id m i v Hi) at 1. apply total_insert, lookup_delete_eq. Qed.

Lemma total_nonneg m : map_Forall (fun _ v => 0 <= v) m -> 0 <= total m.
Proof.
  induction m as [|i v m Hi IH] using map_ind; [done|]. intros Hm.
  apply map_Forall_insert in Hm as [Hv Hm]; [|done]. rewrite total_insert by done. specialize (IH Hm). simpl in Hv. lia.
Qed.

Lemma total_le m q :
  (forall i v, m !! i = Some v -> exists w, q !! i = Some w /\ v <= w) -> map_Forall (fun _ w => 0 <= w) q ->
  total m <= total q.
Proof.
  revert q. induction m as [|i v m Hi IH] using map_ind; intros q Hle Hq; [by apply total_nonneg|].
  destruct (Hle i v) as (w & Hw & Hv); [apply lookup_insert_eq|].
  rewrite total_insert, (total_delete q i w) by done.
  assert (total m <= total (delete i q)); [|lia]. apply IH; [|by apply map_Forall_delete].
  intros j u Hj. assert (Hne : j <> i) by congruence.
  destruct (Hle j u) as (x & Hx & Hu); [by rewrite lookup_insert_ne|]. exists x. by rewrite lookup_delete_ne.
Qed.

Lemma total_count (k : Z) m : map_Forall (fun _ v => k <= v) m -> k * Z.of_nat (size m) <= total m.
Proof.
  induction m as [|i v m Hi IH] using map_ind; intros Hm; [rewrite map_size_empty; unfold total; rewrite map_fold_empty; lia|].
  apply map_Forall_insert in Hm as [Hv Hm]; [|done]. rewrite total_insert, map_size_insert_None by done.
  specialize (IH Hm). simpl in Hv. lia.
Qed.

(** ** The block pool under quotas *)

Lemma held_total b : zlen (held b) = total (zlen <$> block_tables_ b).
Proof.
  unfold held. generalize (block_tables_ b). intros t.
  induction t as [|i l t Hi IH] using map_ind; [done|].
  rewrite fmap_insert, total_insert by (by rewrite lookup_fmap, Hi). rewrite <-IH, <-zlen_app.
  unfold zlen. f_equal. apply Permutation_length. by apply held_insert.
Qed.

(** Every request holds at most its quota, and the quotas leave one block over. *)
Record roomy (nb : Z) (q : gmap Z Z) (b : BlockManager_C) : Prop := {
  ro_size : 0 < block_size_ b;
  ro_conserved : conserved b;
  ro_reserved : reserved_blocks_ b = 0;
  ro_within : forall id l, block_tables_ b !! id = Some l -> exists w, q !! id = Some w /\ zlen l <= w;
  ro_quota : map_Forall (fun _ w => 0 <= w) q;
  ro_blocks : num_blocks_ b = nb;
  ro_total : total q + 1 <= nb;
}.

Lemma roomy_free {nb} q b id w k :
  roomy nb q b -> q !! id = Some w -> 0 <= k -> zlen (default [] (block_tables_ b !! id)) + k <= w ->
  k + 1 <= num_free_blocks b.
Proof.
  intros [Hbs Hc Hr Hin Hq Hb Ht] Hw Hk Hle.
  assert (Hall : num_free_blocks b + total (zlen <$> block_tables_ b) = nb).
  { unfold num_free_blocks. rewrite <-held_total, <-zlen_app. unfold zlen. unfold conserved in Hc.
    rewrite (Permutation_length Hc), py_range_length, Hr, Hb, Z.add_0_r. rewrite Z2Nat.id; [done|].
    pose proof (total_nonneg q Hq). lia. }
  set (l0 := default [] (block_tables_ b !! id)) in *.
  assert (Hup : total (<[id := zlen l0 + k]> (zlen <$> block_tables_ b)) = total (zlen <$> block_tables_ b) + k).
  { subst l0. destruct (block_tables_ b !! id) as [l|] eqn:El; cbn [default].
    - rewrite <-insert_delete_eq, total_insert by apply lookup_delete_eq.
      rewrite (total_delete (zlen <$> block_tables_ b) id (zlen l)) by (by rewrite lookup_fmap, El). cbn. lia.
    - rewrite total_insert by (by rewrite lookup_fmap, El). cbn. change (zlen []) with 0. lia. }
  assert (total (<[id := zlen l0 + k]> (zlen <$> block_tables_ b)) <= total q); [|lia].
  apply total_le; [|done]. intros i v Hi. destruct (decide (i = id)) as [->|Hne].
  - rewrite lookup_insert_eq in Hi. injection Hi as <-. by exists w.
  - rewrite lookup_insert_ne, lookup_fmap in Hi by done. apply fmap_Some in Hi as (l & Hl & ->). by apply Hin.
Qed.

Lemma roomy_grow {nb} q b id w l f :
  roomy nb q b -> q !! id = Some w -> zlen l <= w -> conserved (with_blocks f (<[id := l]> (block_tables_ b)) b) ->
  roomy nb q (with_blocks f (<[id := l]> (block_tables_ b)) b).
Proof.
  intros [Hbs Hc Hr Hin Hq Hb Ht] Hw Hl Hc'. split; try done. intros id' l' Hl'. cbn in Hl'.
  destruct (decide (id' = id)) as [->|Hne].
  - rewrite lookup_insert_eq in Hl'. injection Hl' as <-. by exists w.
  - rewrite lookup_insert_ne in Hl' by done. by apply Hin.
Qed.

Lemma allocate_total {nb} q b id len w :
  roomy nb q b -> block_tables_ b !! id = None -> 0 <= len -> q !! id = Some w -> blocks_for (block_size_ b) len <= w ->
  exists b', allocate id len b = Ok b' /\ roomy nb q b' /\ block_size_ b' = block_size_ b.
Proof.
  intros Hro Hid Hlen Hw Hle. pose proof Hro as [Hbs Hc Hr _ _ _ _].
  pose proof (blocks_for_nonneg _ _ Hbs Hlen) as Hnn.
  pose proof (roomy_free q b id w (blocks_for (block_size_ b) len) Hro Hw Hnn) as Hfree.
  rewrite Hid in Hfree. change (zlen (default [] None)) with 0 in Hfree. specialize (Hfree ltac:(lia)).
  destruct (allocate id len b) as [b'|e] eqn:E.
  - exists b'. split; [done|]. pose proof (conserved_allocate _ _ _ _ Hbs Hlen Hc E) as Hc'.
    apply allocate_Ok in E as (l & rest & _ & _ & Hz & ->); [|done..]. split; [|done]. eapply roomy_grow; [done..|lia|done].
  - exfalso. unfold allocate in E. rewrite quot_blocks in E by done. unfold has_seq_block_list in E.
    rewrite Hid, bool_decide_false in E by (by intros []). cbn [negb ASSERT py_check mbind res_bind] in E.
    rewrite Z.geb_leb, (proj2 (Z.leb_le _ _)) in E by lia. cbn [ASSERT py_check mbind res_bind] in E.
    rewrite get_blocks_eq in E. unfold num_free_blocks, zlen in Hfree. by rewrite decide_True in E by lia.
Qed.

Lemma append_total {nb} q b id ctx l w :
  roomy nb q b -> block_tables_ b !! id = Some l -> 0 <= ctx -> zlen l = blocks_for (block_size_ b) ctx ->
  q !! id = Some w -> blocks_for (block_size_ b) (ctx + 1) <= w ->
  exists b', append_tokens id ctx 1 b = Ok b' /\ roomy nb q b' /\ block_size_ b' = block_size_ b /\
    forall id', id' <> id -> block_tables_ b' !! id' = block_tables_ b !! id'.
Proof.
  intros Hro Hid Hctx Hl Hw Hle. pose proof Hro as [Hbs Hc _ _ _ _ _].
  rewrite blocks_for_succ in Hle by done.
  destruct (append_tokens id ctx 1 b) as [b'|e] eqn:E.
  - exists b'. split; [done|]. pose proof (conserved_append _ _ _ _ Hbs Hctx Hc E) as Hc'.
    apply append_one_Ok in E as (l' & xs & rest & Hl' & _ & Hz & ->); [|done..]. simplify_eq.
    split; [|split; [done|intros id' Hne; cbn; by rewrite lookup_insert_ne]].
    eapply roomy_grow; [done..| |done]. rewrite zlen_app, Hl, Hz. lia.
  - exfalso. rewrite append_one_eq, Hid in E by done. cbn [of_option mbind res_bind] in E.
    destruct (needs_block (block_size_ b) ctx); [|done].
    pose proof (roomy_free q b id w 1 Hro Hw ltac:(lia)) as Hfree. rewrite Hid in Hfree. cbn [default] in Hfree.
    specialize (Hfree ltac:(cbn; lia)). unfold ASSERT in E.
    rewrite Z.gtb_ltb, (proj2 (Z.ltb_lt _ _)) in E by lia. cbn [py_check mbind res_bind] in E.
    rewrite get_blocks_eq in E. unfold num_free_blocks, zlen in Hfree. by rewrite decide_True in E by lia.
Qed.

(** [update_block_table] of the C++ pool, when every request of the batch has quota
    for its new token. *)
Lemma bm_update_total {nb} q m ctx p b :
  roomy nb q b -> num_prefill_tokens m = Some p -> is_Some (num_decode_tokens m) ->
  head (shape m) = Some (zlen (req_ids m)) -> batch_ok (req_ids m) (init_prefill_lens m) ctx p b ->
  (forall k id n, req_ids m !! k = Some id -> ctx !! k = Some n ->
     exists w, q !! id = Some w /\ blocks_for (block_size_ b) (n + 1) <= w) ->
  exists b', bm_update_block_table m ctx b = Ok b' /\ roomy nb q b' /\ block_size_ b' = block_size_ b.
Proof.
  intros Hro Hp [d Hd] Hsh Hok Hq. pose proof Hok as (Hnd & Hlen & Hpb & Hall).
  pose proof (ro_size _ _ _ Hro) as Hbs. pose proof (ro_conserved _ _ _ Hro) as Hc.
  assert (Hctx : forall k, (k < length (req_ids m))%nat -> exists id n w, req_ids m !! k = Some id /\ ctx !! k = Some n /\
    0 <= n /\ q !! id = Some w /\ blocks_for (block_size_ b) (n + 1) <= w).
  { intros k Hk. destruct (lookup_lt_is_Some_2 (req_ids m) k Hk) as [id Hid].
    destruct (lookup_lt_is_Some_2 ctx k) as [n Hn]; [unfold zlen in Hlen; lia|].
    destruct (Hq k id n Hid Hn) as (w & Hw & Hle). destruct (Hall k id n Hid Hn) as (Hn0 & _). by exists id, n, w. }
  unfold bm_update_block_table. rewrite Hp, Hd. cbn [of_option mbind res_bind].
  set (f1 := fun (b : BlockManager_C) i => id ← vec_at (req_ids m) i; if has_seq_block_list b id then Ok b
    else len ← vec_at (init_prefill_lens m) i; allocate id len b).
  destruct (py_for_total (fun _ t => roomy nb q t /\ block_size_ t = block_size_ b) f1 (py_range p) b) as (b1 & E1 & Hro1 & Hs1).
  { done. }
  { intros pre i post t Hpre [Hrt Hst]. apply range_prefix in Hpre as [-> Hi]. set (k := length pre) in *.
    destruct (Hctx k) as (id & n & w & Hid & Hn & Hn0 & Hw & Hle); [unfold k, zlen in *; lia|].
    unfold f1. rewrite (proj2 (vec_at_Ok (req_ids m) (zlen pre) id)) by (unfold zlen; rewrite Nat2Z.id; split; [lia|done]).
    cbn [mbind res_bind]. unfold has_seq_block_list. case_bool_decide as Hhas; [by exists t|].
    destruct (Hall k id n Hid Hn) as (_ & Hpf & _). destruct Hpf as [Hpl _]; [unfold k, zlen in *; lia|].
    rewrite (proj2 (vec_at_Ok (init_prefill_lens m) (zlen pre) n)) by (unfold zlen; rewrite Nat2Z.id; split; [lia|done]).
    cbn [mbind res_bind].
    destruct (allocate_total q t id n w Hrt) as (t' & -> & Hrt' & Hst'); [|done..| |].
    - destruct (block_tables_ t !! id); [|done]. destruct Hhas. eauto.
    - rewrite Hst. etrans; [|exact Hle]. unfold blocks_for. apply Z.div_le_mono; lia.
    - exists t'. by rewrite Hst'. }
  rewrite E1. cbn [mbind res_bind]. unfold meta_num_tokens. rewrite Hsh. cbn [of_option mbind res_bind].
  destruct (update_alloc_loop m ctx p b b1 Hbs Hc Hok E1) as (_ & _ & Hcov1 & _).
  set (f2 := fun (b : BlockManager_C) i => id ← vec_at (req_ids m) i; _ ← ASSERT (has_seq_block_list b id);
    c ← vec_at ctx i; append_tokens id c 1 b).
  destruct (py_for_total (fun pre t => roomy nb q t /\ block_size_ t = block_size_ b /\
      forall k id n, req_ids m !! k = Some id -> ctx !! k = Some n -> (length pre <= k)%nat -> covers t id n)
    f2 (py_range (zlen (req_ids m))) b1) as (b' & E2 & Hro' & Hs' & _).
  { split; [done|]. split; [done|]. intros k id n Hid Hn _. by apply (Hcov1 k). }
  { intros pre i post t Hpre (Hrt & Hst & Hcov). apply range_prefix in Hpre as [-> Hi].
    destruct (Hctx (length pre)) as (id & n & w & Hid & Hn & Hn0 & Hw & Hle); [unfold zlen in *; lia|].
    destruct (Hcov (length pre) id n Hid Hn ltac:(lia)) as (_ & l & Hl & Hz).
    unfold f2. rewrite (proj2 (vec_at_Ok (req_ids m) (zlen pre) id)) by (unfold zlen; rewrite Nat2Z.id; split; [lia|done]).
    cbn [mbind res_bind]. unfold has_seq_block_list. rewrite Hl, bool_decide_true by eauto. cbn [ASSERT py_check mbind res_bind].
    rewrite (proj2 (vec_at_Ok ctx (zlen pre) n)) by (unfold zlen; rewrite Nat2Z.id; split; [lia|done]). cbn [mbind res_bind].
    destruct (append_total q t id n l w Hrt Hl Hn0 Hz Hw) as (t' & -> & Hrt' & Hst' & Hoth); [by rewrite Hst|].
    exists t'. split; [done|]. split; [done|]. split; [by rewrite Hst'|]. rewrite length_app. cbn [length].
    intros k id' n' Hid' Hn' Hk. destruct (Hcov k id' n' Hid' Hn' ltac:(lia)) as (? & l' & Hl' & Hz').
    split; [done|]. exists l'. rewrite Hoth, Hst'; [done|]. intros ->.
    assert (k = length pre) by (by eapply NoDup_lookup). lia. }
  exists b'. by rewrite E2.
Qed.

(** ** The CPU block manager *)

Lemma get_lens_total r ids :
  use_list r = false -> (forall id, id ∈ ids -> is_Some (lens_of r id)) ->
  exists lens, py_map (get_decode_seq_lens r) ids = Ok lens /\ length lens = length ids /\
    forall k id, ids !! k = Some id -> lens !! k = lens_of r id.
Proof.
  intros Hu Hall.
  destruct (py_map_total (get_decode_seq_lens r) (fun id n => lens_of r id = Some n) ids) as (lens & E & HF).
  { intros id Hid. destruct (Hall id Hid) as [n Hn]. exists n. split; [|done].
    unfold get_decode_seq_lens. rewrite Hu. unfold lens_of in Hn. by rewrite Hn. }
  exists lens. split; [done|]. split; [by rewrite (Forall2_length _ _ _ HF)|].
  intros k id Hid. destruct (Forall2_lookup_l _ _ _ _ _ HF Hid) as (n & -> & ->). done.
Qed.

Lemma init_lens_total (vals ids : list Z) r :
  use_list r = false -> (length ids <= length vals)%nat ->
  exists r', py_for (fun r '(i, id) => len ← py_get vals i; update_decode_seq_lens id len r)
    (zip (py_range (zlen ids)) ids) r = Ok r'.
Proof.
  intros Hu Hlen.
  destruct (py_for_total (fun _ t => use_list t = false)
    (fun r '(i, id) => len ← py_get vals i; update_decode_seq_lens id len r) (zip (py_range (zlen ids)) ids) r) as (r' & E & _); [done| |by exists r'].
  intros pre [i id] post t Hpre Ht. apply enumerate_prefix in Hpre as [-> Hid].
  destruct (lookup_lt_is_Some_2 vals (length pre)) as [v Hv]; [apply lookup_lt_Some in Hid; lia|].
  rewrite (py_get_lookup vals (zlen pre) v) by (unfold zlen; try lia; by rewrite Nat2Z.id). cbn [mbind res_bind].
  destruct (update_dict id v t Ht) as (t' & -> & ? & _). by exists t'.
Qed.

Lemma incr_lens_total (ids lens : list Z) r :
  use_list r = false -> length lens = length ids ->
  exists lens' r', py_for (fun '(lens, r) '(i, id) =>
      x ← py_get lens i; lens ← py_set lens i (x + 1);
      r ← update_decode_seq_lens id (x + 1) r; Ok (lens, r))
    (zip (py_range (zlen ids)) ids) (lens, r) = Ok (lens', r').
Proof.
  intros Hu Hlen.
  destruct (py_for_total (fun _ t => use_list t.2 = false /\ length t.1 = length ids)
    (fun '(lens, r) '(i, id) => x ← py_get lens i; lens ← py_set lens i (x + 1);
      r ← update_decode_seq_lens id (x + 1) r; Ok (lens, r)) (zip (py_range (zlen ids)) ids) (lens, r))
    as ([lens' r'] & E & _); [done| |by exists lens', r'].
  intros pre [i id] post [l t] Hpre [Ht Hl]. apply enumerate_prefix in Hpre as [-> Hid]. cbn in Ht, Hl.
  destruct (lookup_lt_is_Some_2 l (length pre)) as [v Hv]; [apply lookup_lt_Some in Hid; lia|].
  rewrite (py_get_lookup l (zlen pre) v) by (unfold zlen; try lia; by rewrite Nat2Z.id). cbn [mbind res_bind].
  rewrite py_set_nonneg by (apply lookup_lt_Some in Hv; unfold zlen; lia). cbn [mbind res_bind].
  destruct (update_dict id (v + 1) t Ht) as (t' & -> & ? & _). eexists. split; [reflexivity|]. cbn. by rewrite length_insert.
Qed.

(** A first-layer step goes through when the requests of the batch have quota. *)
Lemma cpu_update_total {T nb} q m (batch : AttentionScheduleBatch T) c p :
  cpu_inv c -> first_layer_batch m batch c p -> roomy nb q (_block_mgr c) -> is_Some (num_decode_tokens m) ->
  length (init_prefill_lens m) = length (req_ids m) ->
  (forall k id n, req_ids m !! k = Some id -> context_of m c p k id = Some n ->
     0 <= n /\ exists w, q !! id = Some w /\ blocks_for (block_size_ (_block_mgr c)) (n + 1) <= w) ->
  exists b r lens,
    cpu_update_block_table m batch c = Ok (with_mgrs b r c, with_seq_lens lens (sb_req_indices batch) batch) /\
    roomy nb q b /\ block_size_ b = block_size_ (_block_mgr c).
Proof.
  intros Hinv Hfb Hro Hdec Hpl Hq. pose proof Hinv as [Hu Hbs Hc Hcov].
  pose proof Hfb as [Hlay Hids Hpre Hseqs Htok Hshape Hp Hnd Hnew Hrunning].
  unfold cpu_update_block_table. rewrite Hlay, Hids, Hpre, Hseqs. cbn [mbind res_bind].
  rewrite Z.eqb_refl, py_take_nonneg by lia. set (inits := take (Z.to_nat p) (req_ids m)).
  destruct (init_lens_total (init_prefill_lens m) inits (req_manager c) Hu) as (r1 & E1).
  { unfold inits. rewrite length_take. lia. }
  rewrite E1. cbn [mbind res_bind].
  assert (Hndi : NoDup inits).
  { unfold inits. rewrite <-(take_drop (Z.to_nat p) (req_ids m)) in Hnd. by apply NoDup_app in Hnd as (? & _). }
  destruct (init_lens_loop _ _ _ _ Hu Hndi E1) as (Hu1 & Hl1 & Ho1).
  assert (Hctx : forall k id, req_ids m !! k = Some id -> lens_of r1 id = context_of m c p k id).
  { intros k id Hid. unfold context_of. destruct (Z.ltb_spec (Z.of_nat k) p) as [Hk|Hk].
    - destruct (Hl1 k id) as (v & -> & Hv); [|done]. unfold inits. by rewrite lookup_take_lt by lia.
    - apply Ho1. unfold inits. intros Hin. apply list_elem_of_lookup in Hin as [j Hj].
      apply lookup_take_Some in Hj as [Hj Hlt]. assert (j = k) by (eapply NoDup_lookup; [exact Hnd|done..]). lia. }
  assert (Hsome : forall k id, req_ids m !! k = Some id -> is_Some (context_of m c p k id)).
  { intros k id Hid. unfold context_of. destruct (Z.ltb_spec (Z.of_nat k) p) as [Hk|Hk]; [|by apply (Hrunning k)].
    apply lookup_lt_is_Some_2. apply lookup_lt_Some in Hid. lia. }
  destruct (get_lens_total r1 (req_ids m) Hu1) as (lens & E2 & Hll & Hlk).
  { intros id [k Hk]%list_elem_of_lookup. rewrite (Hctx k id Hk). by apply Hsome. }
  rewrite E2. cbn [mbind res_bind].
  assert (Hok : batch_ok (req_ids m) (init_prefill_lens m) lens p (_block_mgr c)).
  { split; [done|]. split; [unfold zlen; lia|]. split; [done|]. intros k id n Hid Hn.
    rewrite (Hlk k id Hid), (Hctx k id Hid) in Hn. destruct (Hq k id n Hid Hn) as (Hn0 & _). unfold context_of in Hn.
    destruct (Z.ltb_spec (Z.of_nat k) p) as [Hk|Hk].
    - destruct (Hnew k id n Hid Hk Hn) as [_ Hh]. split; [done|]. split; [done|lia].
    - split; [done|]. split; [lia|]. intros _. by apply Hcov. }
  destruct (bm_update_total q m lens p (_block_mgr c) Hro Htok Hdec Hshape Hok) as (b & -> & Hrb & Hsb).
  { intros k id n Hid Hn. rewrite (Hlk k id Hid), (Hctx k id Hid) in Hn. by apply (Hq k id n Hid Hn). }
  cbn [mbind res_bind].
  destruct (incr_lens_total (req_ids m) lens r1 Hu1 Hll) as (lens' & r' & ->). cbn [mbind res_bind].
  by exists b, r', lens'.
Qed.

(** On the other layers only the lengths are read. *)
Lemma cpu_update_later {T} m (batch : AttentionScheduleBatch T) c first :
  use_list (req_manager c) = false -> py_get (cpu_layer_ids c) 0 = Ok first -> sb_layer_id batch <> first ->
  (forall id, id ∈ sb_req_ids batch -> is_Some (lens_of (req_manager c) id)) ->
  exists lens, cpu_update_block_table m batch c = Ok (c, with_seq_lens lens (sb_req_indices batch) batch) /\
    length lens = length (sb_req_ids batch) /\
    forall k id, sb_req_ids batch !! k = Some id -> lens !! k = lens_of (req_manager c) id.
Proof.
  intros Hu Hl Hne Hall. unfold cpu_update_block_table. rewrite Hl. cbn [mbind res_bind].
  rewrite (proj2 (Z.eqb_neq _ _)) by done.
  destruct (get_lens_total _ _ Hu Hall) as (lens & -> & Hlen & Hk). by exists lens.
Qed.

(** Buffers for [max_bs] requests of [max_pages] pages each. *)
Record sized (max_bs max_pages : Z) (buf : BatchTensorBuffer) : Prop := {
  sz_table : max_bs * max_pages <= zlen (buf_block_table buf);
  sz_slots : max_bs <= zlen (buf_slot_mapping buf);
  sz_lens : max_bs <= zlen (buf_seq_lens buf);
  sz_context : max_bs <= zlen (buf_context_lens buf);
  sz_start : max_bs + 1 <= zlen (buf_seq_start_loc buf);
}.

Lemma copy_from_host_total buf data :
  zlen data <= zlen buf -> exists out, copy_from_host buf data = Ok out /\ zlen out = zlen buf.
Proof.
  intros Hle. unfold copy_from_host, ASSERT. rewrite (proj2 (Z.leb_le _ _)) by done. cbn [py_check mbind res_bind].
  eexists. split; [done|]. rewrite zlen_app. unfold zlen in *. rewrite length_drop. lia.
Qed.

Lemma gdr_width m lens b n flat slots w pages :
  head (shape m) = Some n -> n = zlen (req_ids m) -> 0 <= pages ->
  (forall id l, id ∈ req_ids m -> block_tables_ b !! id = Some l -> zlen l <= pages) ->
  prepare_block_table_gdr m lens b = Ok (flat, slots, w) -> w <= pages.
Proof.
  intros Hsh -> Hp Hall E. unfold prepare_block_table_gdr, meta_num_tokens in E. rewrite Hsh in E. cbn [of_option mbind res_bind] in E.
  apply bind_Ok in E as (lists & Hl & E). rewrite pad_rows_eq in E. apply bind_Ok in E as (s & _ & E).
  apply Ok_inj in E. injection E as _ _ <-. apply batch_lists_spec in Hl as [Hll Hls].
  assert (Hf : Forall (fun l => zlen l <= pages) lists).
  { apply Forall_lookup. intros k l Hk. destruct (lookup_lt_is_Some_2 (req_ids m) k) as [id Hid]; [apply lookup_lt_Some in Hk; lia|].
    apply (Hall id l); [by eapply list_elem_of_lookup_2|]. by rewrite <-(Hls k id Hid). }
  unfold row_width. clear Hll Hls. induction Hf as [|l lists Hl _ IH]; [done|]. cbn [fmap list_fmap foldr]. unfold zlen in Hl. lia.
Qed.

Lemma seq_info_total md lens n :
  head (shape md) = Some n -> 0 <= n -> zlen lens = n ->
  exists ctx starts, prepare_seq_info_gdr md lens = Ok (lens, ctx, starts) /\ zlen ctx = n /\ zlen starts = n + 1.
Proof.
  intros Hsh Hn Hlen.
  assert (Hrun : exists ls ctx starts, prepare_seq_info_gdr md lens = Ok (ls, ctx, starts)).
  { unfold prepare_seq_info_gdr, meta_num_tokens. rewrite Hsh. cbn [of_option mbind res_bind].
    destruct (range_map_total (vec_at lens) n) as (l & -> & _).
    - intros k Hk. destruct (lookup_lt_is_Some_2 lens k) as [x Hx]; [unfold zlen in Hlen; lia|].
      exists x. apply vec_at_Ok. rewrite Nat2Z.id. split; [lia|done].
    - cbn [mbind res_bind]. rewrite seqlens_append_spec. by eexists _, _, _. }
  destruct Hrun as (ls & ctx & starts & E).
  destruct (seq_info_lengths md lens n ls ctx starts Hsh Hn Hlen E) as (-> & ? & ?). by exists ctx, starts.
Qed.

(** The parts of a manager that packing a batch leaves alone. *)
Definition same_mgr (c c' : CPUBlockManager) : Prop :=
  _block_mgr c' = _block_mgr c /\ req_manager c' = req_manager c /\ cpu_layer_ids c' = cpu_layer_ids c.

Lemma cpu_pack_total {T} max_bs max_pages m (batch : AttentionScheduleBatch T) lens c :
  sized max_bs max_pages (tensor_buffer c) -> sized max_bs max_pages (tensor_buffer_alt c) ->
  0 < block_size_ (_block_mgr c) -> conserved (_block_mgr c) -> NoDup (req_ids m) ->
  head (shape m) = Some (zlen (req_ids m)) -> 0 < zlen (req_ids m) <= max_bs -> 0 <= max_pages ->
  zlen lens = zlen (req_ids m) -> sb_seq_lens batch = Some lens -> sb_num_tokens batch = zlen (req_ids m) ->
  sb_num_prefill_seqs batch = sb_num_prefill_tokens batch ->
  (forall k id len, req_ids m !! k = Some id -> lens !! k = Some len ->
     1 <= len /\ covers (_block_mgr c) id len /\ blocks_for (block_size_ (_block_mgr c)) len <= max_pages) ->
  exists fa c', cpu_pack m batch c = Ok (fa, c') /\ same_mgr c c' /\
    sized max_bs max_pages (tensor_buffer c') /\ sized max_bs max_pages (tensor_buffer_alt c').
Proof.
  intros Hsz Hsz' Hbs Hc Hnd Hsh Hn Hmp Hlen Hsl Htok Hseq Hcov. set (n := zlen (req_ids m)) in *.
  set (c1 := with_buffers (tensor_buffer_alt c) (tensor_buffer c) c).
  destruct (slot_mapping_ok m lens (_block_mgr c)) as (flat & slots & w & Egdr & _); [done..| |].
  { intros k id len Hid Hl. destruct (Hcov k id len Hid Hl) as (? & ? & _). done. }
  destruct (prepare_table_eq m lens (_block_mgr c) n flat slots w Hsh ltac:(lia) Egdr) as (Etab & Hzf & Hzs & Hw0).
  assert (Hw : w <= max_pages).
  { eapply (gdr_width m lens _ n); [done..| |exact Egdr]. intros id l [k Hk]%list_elem_of_lookup Hl.
    destruct (lookup_lt_is_Some_2 lens k) as [len Hln]; [apply lookup_lt_Some in Hk; unfold n, zlen in Hlen; lia|].
    destruct (Hcov k id len Hk Hln) as (_ & (_ & l' & Hl' & Hz) & Hle).
    rewrite Hl in Hl'. injection Hl' as <-. by rewrite Hz. }
  destruct (seq_info_total m lens n Hsh ltac:(lia) Hlen) as (ctx & starts & Einfo & Hzc & Hzst).
  unfold cpu_pack. fold c1. rewrite Hsl. cbn [of_option mbind res_bind].
  destruct (use_rebind c1 && use_gdr_copy c1).
  - unfold pack_opt. change (_block_mgr c1) with (_block_mgr c). rewrite Egdr. cbn [mbind res_bind].
    change (tensor_buffer c1) with (tensor_buffer_alt c). destruct Hsz' as [H1 H2 H3 H4 H5].
    destruct (copy_from_host_total (buf_block_table (tensor_buffer_alt c)) flat) as (bt & -> & Hbt); [nia|].
    destruct (copy_from_host_total (buf_slot_mapping (tensor_buffer_alt c)) slots) as (sm & -> & Hsm); [lia|].
    rewrite Einfo. cbn [mbind res_bind].
    destruct (copy_from_host_total (buf_seq_lens (tensor_buffer_alt c)) lens) as (sl & -> & Hsl'); [lia|].
    destruct (copy_from_host_total (buf_context_lens (tensor_buffer_alt c)) ctx) as (cl & -> & Hcl); [lia|].
    destruct (copy_from_host_total (buf_seq_start_loc (tensor_buffer_alt c)) starts) as (st & -> & Hst); [lia|].
    cbn [mbind res_bind]. eexists _, _. split; [done|]. split; [done|]. split; [|done]. split; cbn; lia.
  - unfold pack_naive. rewrite Htok. change (_block_mgr c1) with (_block_mgr c). rewrite Etab. cbn [mbind res_bind].
    destruct (py_split_end flat slots n) as [-> ->]; [lia|done|].
    unfold view_rows, py_floordiv. rewrite (proj2 (Z.eqb_neq n 0)) by lia. cbn [mbind res_bind].
    rewrite Hzf, (Z.mul_comm n w), Z.div_mul, Z.eqb_refl by lia. cbn [py_check mbind res_bind].
    unfold prepare_seq_info. rewrite Einfo. cbn [mbind res_bind]. unfold ASSERT. rewrite Z.eqb_refl. cbn [py_check mbind res_bind].
    by eexists _, c1.
Qed.

(** ** The dummy sampler *)

(** Request [id] has produced [k] of its [o] tokens. *)
Definition counts (s : DummySampler) (id k o : Z) : Prop :=
  dget (output_len s) id = Some k /\ dget (req_max_output_len s) id = Some o.

Lemma counts_fun s id k o k' o' : counts s id k o -> counts s id k' o' -> k = k' /\ o = o'.
Proof. intros [] []. split; congruence. Qed.

Lemma dummy_step_total {T} (ids : list Z) (s : DummySampler) :
  NoDup ids -> (forall id, id ∈ ids -> exists k o, counts s id k o) ->
  exists (o : step_out T) s', dummy_step ids s = Ok (o, s') /\
    (forall id k m, id ∈ ids -> counts s id k m ->
       (k + 1 < m -> counts s' id (k + 1) m) /\ (m <= k + 1 <-> id ∈ finish_req_ids o)) /\
    (forall id k m, id ∉ ids -> counts s id k m -> counts s' id k m).
Proof.
  intros Hnd Hall. unfold dummy_step, sample_once.
  destruct (py_for_total (fun pre (st : DummySampler * list Z * list Z) =>
      (forall id, id ∉ pre.*2 -> dget (output_len st.1.1) id = dget (output_len s) id /\
         dget (req_max_output_len st.1.1) id = dget (req_max_output_len s) id) /\
      (forall id, id ∈ st.2 -> id ∈ pre.*2) /\
      (forall id k m, id ∈ pre.*2 -> counts s id k m ->
         (k + 1 < m -> counts st.1.1 id (k + 1) m) /\ (m <= k + 1 <-> id ∈ st.2)))
    sample_one (enumerate ids) (s, [], [])) as ([[s' c] f] & -> & Hout & Hf & Hin).
  - split; [done|]. split; [set_solver|]. intros id k m Hid. by apply elem_of_nil in Hid.
  - intros pre [i rid] post [[t c] f] Hpre (Hout & Hf & Hin). cbn [fst snd] in *.
    assert (Hids : ids = pre.*2 ++ rid :: post.*2).
    { rewrite <-(enum_snd ids), Hpre, fmap_app, fmap_cons. done. }
    assert (Hnot : rid ∉ pre.*2) by (rewrite Hids in Hnd; apply NoDup_app in Hnd as (_ & Hd & _); set_solver).
    destruct (Hall rid) as (k & m & Hk & Hm); [rewrite Hids; set_solver|].
    destruct (Hout rid Hnot) as [Ho1 Ho2]. unfold sample_one.
    rewrite (proj2 (dmem_true _ _)) by (apply dget_Some_keys; rewrite Ho1; eauto).
    cbn [py_assert mbind res_bind]. rewrite Ho1, Hk. cbn [of_option mbind res_bind]. unfold check_end. cbn [output_len req_max_output_len].
    rewrite dget_dset_eq. cbn [of_option mbind res_bind]. rewrite Ho2, Hm. cbn [of_option mbind res_bind].
    assert (Hpre' : (pre ++ [(i, rid)]).*2 = pre.*2 ++ [rid]) by (by rewrite fmap_app).
    destruct (Z.leb_spec m (k + 1)) as [Hle|Hgt]; eexists; (split; [reflexivity|]); rewrite Hpre'; cbn [fst snd];
      (split; [|split]).
    + intros id Hid. apply not_elem_of_app in Hid as [Hp Hr]. rewrite list_elem_of_singleton in Hr.
      cbn [dummy_clean_request output_len req_max_output_len]. rewrite !dget_ddel, !decide_False, dget_dset_ne by done. by apply Hout.
    + intros id [Hid|Hid]%elem_of_app; set_solver.
    + intros id k' m' Hid Hc. apply elem_of_app in Hid as [Hid|Hid].
      * assert (id <> rid) by (by intros ->). destruct (Hin id k' m' Hid Hc) as [H1 H2]. split.
        -- intros Hlt. destruct (H1 Hlt) as [Ha Hb]. split; cbn [dummy_clean_request output_len req_max_output_len];
             rewrite dget_ddel, decide_False by done; [by rewrite dget_dset_ne|done].
        -- rewrite H2, elem_of_app, list_elem_of_singleton. tauto.
      * apply list_elem_of_singleton in Hid as ->. destruct (counts_fun s rid k m k' m' (conj Hk Hm) Hc) as [<- <-].
        split; [lia|]. rewrite elem_of_app, list_elem_of_singleton. tauto.
    + intros id Hid. apply not_elem_of_app in Hid as [Hp Hr]. rewrite list_elem_of_singleton in Hr.
      cbn [output_len req_max_output_len]. rewrite dget_dset_ne by done. by apply Hout.
    + intros id Hid. apply elem_of_app. left. by apply Hf.
    + intros id k' m' Hid Hc. apply elem_of_app in Hid as [Hid|Hid].
      * assert (id <> rid) by (by intros ->). destruct (Hin id k' m' Hid Hc) as [H1 H2]. split; [|done].
        intros Hlt. destruct (H1 Hlt) as [Ha Hb]. split; cbn [output_len req_max_output_len]; [by rewrite dget_dset_ne|done].
      * apply list_elem_of_singleton in Hid as ->. destruct (counts_fun s rid k m k' m' (conj Hk Hm) Hc) as [<- <-]. split.
        -- intros _. split; cbn [output_len req_max_output_len]; [apply dget_dset_eq|congruence].
        -- split; [lia|]. intros Hf'. by apply Hf in Hf'.
  - cbn [mbind res_bind]. rewrite !enum_snd in *. cbn [fst snd] in *. eexists _, s'. split; [done|]. cbn [finish_req_ids].
    split; [exact Hin|]. intros id k m Hid [H1 H2]. destruct (Hout id Hid) as [E1 E2]. split; congruence.
Qed.

(** ** A rank and the pool between its layers *)

(** Where a request of the rank is: in the socket, a row of the pool before layer [L]
    (with the prefix length of a new request, or -1), or reported as ended. *)
Inductive stage : Type :=
  | Sent (r : TokenizedRequest)
  | Queued (L pl : Z)
  | Ended.

(** The rows of a batch become rows of the pool. *)
Definition enqueue (L : Z) (m : BatchMetadata) (s : gmap Z stage) : gmap Z stage :=
  foldl (fun s x => <[x.1 := Queued L x.2]> s) s (zip (req_ids m) (init_prefill_lens m)).

Definition end_all (ids : list Z) (s : gmap Z stage) : gmap Z stage :=
  foldl (fun s id => <[id := Ended]> s) s ids.

Section Worker.
Context {T : Type}.

Notation Eng := (Engine T DummySampler CPUBlockManager).

Record Worker : Type := { eng : Eng; stages : gmap Z stage }.

Context (add : T -> T -> T) (rank hidden_size num_layers : Z).

Definition last_put (e : Eng) : BatchMetadata :=
  default (admission_meta rank hidden_size 0 0) (tb_meta <$> last (pool_puts e)).

(** The engine takes a request from its socket; the row it puts ([rand], with the dummy
    sampler) waits for layer 0. *)
Definition admit_request (rand : T) (r : TokenizedRequest) (w : Worker) : res Worker :=
  e ← _admit_request rank hidden_size rand r (eng w);
  Ok {| eng := e; stages := enqueue (layer_id (last_put e)) (last_put e) (stages w) |}.

(** The engine takes a batch from the pool.  An attention batch comes back, through the
    experts, as rows of the next layer; after the pseudo-layer the rows it puts back wait
    for layer 0 and the other requests have ended. *)
Definition run_attn (residual_stash : Z -> T) (tb : TokenBatch T) (w : Worker) : res (option (AttentionForwardBatch T) * Worker) :=
  '(fb, e) ← preprocess_batch_attn add residual_stash rank num_layers tb (eng w);
  Ok (fb, {| eng := e;
             stages := match fb with
                       | Some _ => enqueue (layer_id (tb_meta tb) + 1) (tb_meta tb) (stages w)
                       | None => enqueue (layer_id (last_put e)) (last_put e) (end_all (req_ids (tb_meta tb)) (stages w))
                       end |}).

(** The worker afterwards. *)
Definition run_batch (residual_stash : Z -> T) (tb : TokenBatch T) (w : Worker) : res Worker :=
  '(_, w) ← run_attn residual_stash tb w; Ok w.

(** What the pool hands out: rows that wait for one layer, each at most once, those of
    new requests first, at most [max_bs]. *)
Record pool_batch (max_bs : Z) (w : Worker) (tb : TokenBatch T) : Prop := {
  pb_layer : 0 <= layer_id (tb_meta tb) <= num_layers;
  pb_nodup : NoDup (req_ids (tb_meta tb));
  pb_size : 0 < zlen (req_ids (tb_meta tb)) <= max_bs;
  pb_shape : exists h, shape (tb_meta tb) = [zlen (req_ids (tb_meta tb)); h];
  pb_aligned : aligned (length (req_ids (tb_meta tb))) (tb_meta tb);
  pb_data : length (tb_data tb) = length (req_ids (tb_meta tb));
  pb_rows : forall k id, req_ids (tb_meta tb) !! k = Some id ->
    exists pl, init_prefill_lens (tb_meta tb) !! k = Some pl /\
      stages w !! id = Some (Queued (layer_id (tb_meta tb)) pl);
  pb_new : exists p, 0 <= p <= zlen (req_ids (tb_meta tb)) /\
    num_prefill_seqs (tb_meta tb) = Some p /\ num_prefill_tokens (tb_meta tb) = Some p /\
    num_decode_tokens (tb_meta tb) = Some (zlen (req_ids (tb_meta tb)) - p) /\
    forall k pl, init_prefill_lens (tb_meta tb) !! k = Some pl -> (Z.of_nat k < p <-> pl <> -1);
}.

(** ** The invariant of a rank

    [R] gives the lengths of the requests the scheduler runs on the rank. *)

Context (bs nb N max_bs max_pages : Z).

Definition quota (R : gmap Z (Z * Z)) : gmap Z Z := (fun po : Z * Z => req bs po.1 po.2) <$> R.

(** A row of the pool that is not the first of its request. *)
Definition under_way (L pl : Z) : Prop := 0 < L \/ pl = -1.

(** A request and its lengths against the worker's records of it. *)
Definition stage_ok (R : gmap Z (Z * Z)) (e : Eng) (id : Z) (st : stage) : Prop :=
  exists p o, R !! id = Some (p, o) /\ 0 <= p /\ 1 <= o /\ req bs p o <= max_pages /\
    match st with
    | Sent r => r.(tr_req_id) = id /\ tr_init_prefill_len r = p /\ tr_max_output_len r = o
    | Queued L pl =>
        0 <= L <= num_layers /\ exists k, 0 <= k < o /\ counts (dummy_sampler e) id k o /\
          (pl = -1 \/ (pl = p /\ k = 0)) /\
          (under_way L pl -> lens_of (req_manager (block_mgr e)) id = Some (p + k + (if L =? 0 then 0 else 1)))
    | Ended => True
    end.

Record worker_inv (R : gmap Z (Z * Z)) (w : Worker) : Prop := {
  wi_cpu : cpu_inv (block_mgr (eng w));
  wi_roomy : roomy nb (quota R) (_block_mgr (block_mgr (eng w)));
  wi_bs : block_size_ (_block_mgr (block_mgr (eng w))) = bs;
  wi_first : py_get (cpu_layer_ids (block_mgr (eng w))) 0 = Ok 0;
  wi_buffer : sized max_bs max_pages (tensor_buffer (block_mgr (eng w)));
  wi_buffer_alt : sized max_bs max_pages (tensor_buffer_alt (block_mgr (eng w)));
  wi_stash : stash_inv N (eng w);
  wi_slots : Z.of_nat (size R) <= N;
  wi_stage : forall id st, stages w !! id = Some st -> stage_ok R (eng w) id st;
  wi_lens : forall id, is_Some (lens_of (req_manager (block_mgr (eng w))) id) ->
    exists L pl, stages w !! id = Some (Queued L pl) /\ under_way L pl;
  wi_keys : forall id, id ∈ dkeys (stash_slot_map (eng w)) ->
    exists L pl, stages w !! id = Some (Queued L pl) /\ under_way L pl;
  wi_tables : forall id, is_Some (block_tables_ (_block_mgr (block_mgr (eng w))) !! id) ->
    is_Some (lens_of (req_manager (block_mgr (eng w))) id);
}.

Lemma enqueue_in L m s k id pl :
  NoDup (req_ids m) -> req_ids m !! k = Some id -> init_prefill_lens m !! k = Some pl ->
  enqueue L m s !! id = Some (Queued L pl).
Proof.
  unfold enqueue. generalize (req_ids m) (init_prefill_lens m). intros ids pls Hnd. revert s k pls.
  induction Hnd as [|x ids Hx Hnd IH]; intros s k [|y pls] Hk Hp; try done. cbn [zip_with foldl fst snd].
  destruct k as [|k]; [|by apply (IH _ k)]. cbn in Hk, Hp. simplify_eq.
  assert (Hkeep : forall s', s' !! id = Some (Queued L pl) ->
    foldl (fun (s : gmap Z stage) (x : Z * Z) => <[x.1 := Queued L x.2]> s) s' (zip ids pls) !! id = Some (Queued L pl)).
  { clear IH Hnd. revert pls. induction ids as [|z ids IH]; intros [|u pls] s' Hs'; try done. cbn [zip_with foldl fst snd].
    apply IH; [set_solver|]. rewrite lookup_insert_ne; [done|set_solver]. }
  apply Hkeep, lookup_insert_eq.
Qed.

Lemma enqueue_out L m s id : id ∉ req_ids m -> enqueue L m s !! id = s !! id.
Proof.
  unfold enqueue. generalize (req_ids m) (init_prefill_lens m). intros ids pls. revert s pls.
  induction ids as [|x ids IH]; intros s [|y pls] Hid; try done. cbn [zip_with foldl fst snd].
  rewrite IH by set_solver. rewrite lookup_insert_ne; [done|set_solver].
Qed.

Lemma end_all_lookup ids s id : end_all ids s !! id = if decide (id ∈ ids) then Some Ended else s !! id.
Proof.
  unfold end_all. revert s. induction ids as [|x ids IH]; intros s; [by rewrite decide_False by (apply not_elem_of_nil)|].
  cbn [foldl]. rewrite IH. destruct (decide (id ∈ ids)) as [Hin|Hin].
  - rewrite decide_True by (by right). done.
  - destruct (decide (id = x)) as [->|Hne].
    + rewrite decide_True by left. apply lookup_insert_eq.
    + rewrite decide_False by set_solver. by rewrite lookup_insert_ne.
Qed.

Lemma blocks_le_req p o n : 0 < bs -> 0 <= p -> 0 <= o -> n <= p + o -> blocks_for bs n <= req bs p o.
Proof.
  intros Hbs Hp Ho Hn. unfold blocks_for, req. etrans; [apply (Z.div_le_mono _ (p + o + bs - 1)); lia|].
  pose proof (Z.div_mod (p + bs - 1) bs ltac:(lia)) as H1. pose proof (Z.mod_pos_bound (p + bs - 1) bs Hbs) as H2.
  pose proof (Z.div_mod (o + bs - 1) bs ltac:(lia)) as H3. pose proof (Z.mod_pos_bound (o + bs - 1) bs Hbs) as H4.
  apply Z.lt_succ_r, Z.div_lt_upper_bound; [done|]. nia.
Qed.

Lemma quota_lookup R id p o : R !! id = Some (p, o) -> quota R !! id = Some (req bs p o).
Proof. intros E. unfold quota. by rewrite lookup_fmap, E. Qed.

(** There is a stash row for every request of the rank. *)
Lemma unseen_fits (R : gmap Z (Z * Z)) (e : Eng) ids :
  stash_inv N e -> (forall id, id ∈ dkeys (stash_slot_map e) -> is_Some (R !! id)) ->
  NoDup ids -> (forall id, id ∈ ids -> is_Some (R !! id)) -> Z.of_nat (size R) <= N ->
  (length (unseen e ids) <= length (stash_free_slots e))%nat.
Proof.
  intros [Hs Hk] Hkeys Hnd Hids Hsz.
  assert (Hl : (length (stash_free_slots e) + length (dkeys (stash_slot_map e)) = Z.to_nat N)%nat).
  { apply Permutation_length in Hs. rewrite length_app, py_range_length, length_fmap in Hs. unfold dkeys. by rewrite length_fmap. }
  assert (Hnd2 : NoDup (dkeys (stash_slot_map e) ++ unseen e ids)).
  { apply NoDup_app. split; [done|]. split; [|by apply NoDup_filter].
    intros x Hx Hu. unfold unseen in Hu. apply list_elem_of_filter in Hu as [? _]. done. }
  assert (Hle : (length (dkeys (stash_slot_map e) ++ unseen e ids) <= size R)%nat).
  { rewrite <-(size_list_to_set (C := gset Z)) by done. rewrite <-size_dom. apply subseteq_size. intros x Hx.
    apply elem_of_list_to_set in Hx. apply elem_of_dom. apply elem_of_app in Hx as [Hx|Hx]; [by apply Hkeys|].
    unfold unseen in Hx. apply list_elem_of_filter in Hx as [_ Hx]. by apply Hids. }
  rewrite length_app in Hle. lia.
Qed.

Lemma inv_keys_R (R : gmap Z (Z * Z)) w id : worker_inv R w -> id ∈ dkeys (stash_slot_map (eng w)) -> is_Some (R !! id).
Proof.
  intros Hinv Hid. destruct (wi_keys _ _ Hinv id Hid) as (L & pl & Hst & _).
  destruct (wi_stage _ _ Hinv id _ Hst) as (p & o & E & _). eauto.
Qed.

Lemma batch_row R w tb k id :
  worker_inv R w -> pool_batch max_bs w tb -> req_ids (tb_meta tb) !! k = Some id ->
  exists pl p o kk, init_prefill_lens (tb_meta tb) !! k = Some pl /\
    stages w !! id = Some (Queued (layer_id (tb_meta tb)) pl) /\
    R !! id = Some (p, o) /\ 0 <= p /\ 1 <= o /\ req bs p o <= max_pages /\ 0 <= kk < o /\
    counts (dummy_sampler (eng w)) id kk o /\ (pl = -1 \/ (pl = p /\ kk = 0)) /\
    (under_way (layer_id (tb_meta tb)) pl -> lens_of (req_manager (block_mgr (eng w))) id
       = Some (p + kk + (if layer_id (tb_meta tb) =? 0 then 0 else 1))).
Proof.
  intros Hinv Hpb Hid. destruct (pb_rows _ _ _ Hpb k id Hid) as (pl & Hpl & Hst).
  destruct (wi_stage _ _ Hinv id _ Hst) as (p & o & HR & Hp & Ho & Hm & _ & kk & Hk & Hc & Hn & Hl).
  exists pl, p, o, kk. split_and!; try done; lia.
Qed.

Lemma batch_R (R : gmap Z (Z * Z)) w tb id :
  worker_inv R w -> pool_batch max_bs w tb -> id ∈ req_ids (tb_meta tb) -> is_Some (R !! id).
Proof.
  intros Hinv Hpb [k Hk]%list_elem_of_lookup. destruct (batch_row R w tb k id Hinv Hpb Hk) as (? & p & o & ? & _ & _ & E & _). eauto.
Qed.

(** Every stash lookup of a batch succeeds. *)
Lemma batch_slots R w tb b :
  worker_inv R w -> pool_batch max_bs w tb ->
  exists slots e', stash_slots (req_ids (tb_meta tb)) (with_mgr b (eng w)) = Ok (slots, e') /\ stash_inv N e' /\
    length slots = length (req_ids (tb_meta tb)) /\
    (forall r, r ∈ dkeys (stash_slot_map e') <-> r ∈ req_ids (tb_meta tb) \/ r ∈ dkeys (stash_slot_map (eng w))) /\
    dummy_sampler e' = dummy_sampler (eng w) /\ block_mgr e' = b.
Proof.
  intros Hinv Hpb.
  destruct (stash_slots_step N (req_ids (tb_meta tb)) (with_mgr b (eng w))) as (slots & e' & E & Hs & Hl & _ & _ & Hk & Hsame).
  - destruct (wi_stash _ _ Hinv). by split.
  - change (unseen (with_mgr b (eng w)) (req_ids (tb_meta tb))) with (unseen (eng w) (req_ids (tb_meta tb))).
    change (stash_free_slots (with_mgr b (eng w))) with (stash_free_slots (eng w)).
    eapply (unseen_fits R); [apply Hinv|intros; by eapply inv_keys_R|apply Hpb|intros; by eapply batch_R|apply Hinv].
  - exists slots, e'. split; [done|]. split; [done|]. split; [done|]. split; [exact Hk|]. by rewrite Hsame.
Qed.

(** ** Attention layers *)

(** What an attention layer must do to the records of the worker. *)
Lemma attn_step_inv R w tb e' :
  worker_inv R w -> pool_batch max_bs w tb -> layer_id (tb_meta tb) < num_layers ->
  cpu_inv (block_mgr e') -> roomy nb (quota R) (_block_mgr (block_mgr e')) ->
  block_size_ (_block_mgr (block_mgr e')) = bs -> cpu_layer_ids (block_mgr e') = cpu_layer_ids (block_mgr (eng w)) ->
  sized max_bs max_pages (tensor_buffer (block_mgr e')) -> sized max_bs max_pages (tensor_buffer_alt (block_mgr e')) ->
  stash_inv N e' -> dummy_sampler e' = dummy_sampler (eng w) ->
  (forall r, r ∈ dkeys (stash_slot_map e') <-> r ∈ req_ids (tb_meta tb) \/ r ∈ dkeys (stash_slot_map (eng w))) ->
  (forall id p o kk, id ∈ req_ids (tb_meta tb) -> R !! id = Some (p, o) -> counts (dummy_sampler (eng w)) id kk o ->
     lens_of (req_manager (block_mgr e')) id = Some (p + kk + 1)) ->
  (forall id, id ∉ req_ids (tb_meta tb) ->
     lens_of (req_manager (block_mgr e')) id = lens_of (req_manager (block_mgr (eng w))) id /\
     block_tables_ (_block_mgr (block_mgr e')) !! id = block_tables_ (_block_mgr (block_mgr (eng w))) !! id) ->
  worker_inv R {| eng := e'; stages := enqueue (layer_id (tb_meta tb) + 1) (tb_meta tb) (stages w) |}.
Proof.
  intros Hinv Hpb HL Hc Hro Hbs Hl Hb1 Hb2 Hst Hs Hk Hin Hout.
  pose proof (pb_layer _ _ _ Hpb) as HL0. set (L := layer_id (tb_meta tb)) in *.
  assert (Hnew : forall id, id ∈ req_ids (tb_meta tb) -> exists pl, enqueue (L + 1) (tb_meta tb) (stages w) !! id = Some (Queued (L + 1) pl)).
  { intros id [k Hid]%list_elem_of_lookup. destruct (pb_rows _ _ _ Hpb k id Hid) as (pl & Hpl & _). exists pl.
    eapply enqueue_in; [apply Hpb|done..]. }
  assert (Hold : forall id, id ∉ req_ids (tb_meta tb) -> enqueue (L + 1) (tb_meta tb) (stages w) !! id = stages w !! id)
    by (intros; by apply enqueue_out).
  split; cbn [eng stages]; try done; [by rewrite Hl; apply Hinv|apply Hinv|..].
  - intros id st Hst'. destruct (decide (id ∈ req_ids (tb_meta tb))) as [Hid|Hid].
    + apply list_elem_of_lookup in Hid as [k Hid].
      destruct (batch_row R w tb k id Hinv Hpb Hid) as (pl & p & o & kk & Hpl & _ & HR & Hp & Ho & Hm & Hkk & Hcnt & Hcase & _).
      rewrite (enqueue_in _ _ _ k id pl) in Hst' by (done || apply Hpb). injection Hst' as <-.
      exists p, o. split_and!; try done; try lia. exists kk. rewrite Hs. split_and!; try done; try lia.
      intros _. rewrite (proj2 (Z.eqb_neq _ _)) by lia. apply (Hin id p o kk); [by eapply list_elem_of_lookup_2|done..].
    + rewrite Hold in Hst' by done. destruct (wi_stage _ _ Hinv id st Hst') as (p & o & HR & Hp & Ho & Hm & Hx).
      exists p, o. split_and!; try done. destruct st as [r|L' pl|]; [done| |done].
      destruct Hx as (HL' & kk & Hkk & Hcnt & Hcase & Hlen). split; [done|]. exists kk. rewrite Hs. split_and!; try done; try lia.
      destruct (Hout id Hid) as [-> _]. done.
  - intros id Hid. destruct (decide (id ∈ req_ids (tb_meta tb))) as [Hi|Hi].
    + destruct (Hnew id Hi) as [pl Hpl]. exists (L + 1), pl. split; [done|left; lia].
    + rewrite Hold by done. destruct (Hout id Hi) as [E _]. rewrite E in Hid. by apply Hinv.
  - intros id Hid. destruct (decide (id ∈ req_ids (tb_meta tb))) as [Hi|Hi].
    + destruct (Hnew id Hi) as [pl Hpl]. exists (L + 1), pl. split; [done|left; lia].
    + rewrite Hold by done. apply Hk in Hid as [Hid|Hid]; [done|]. by apply (wi_keys _ _ Hinv).
  - intros id Hid. destruct (decide (id ∈ req_ids (tb_meta tb))) as [Hi|Hi].
    + pose proof Hi as Hi'. apply list_elem_of_lookup in Hi' as [k Hi'].
      destruct (batch_row R w tb k id Hinv Hpb Hi') as (pl & p & o & kk & _ & _ & HR & _ & _ & _ & _ & Hcnt & _).
      rewrite (Hin id p o kk Hi HR Hcnt). eauto.
    + destruct (Hout id Hi) as [E1 E2]. rewrite E2 in Hid. rewrite E1. by apply Hinv.
Qed.

(** The batch of the schedule. *)
Lemma build_ok w tb :
  pool_batch max_bs w tb -> exists sb p, build (tb_meta tb) (tb_data tb) = Some sb /\
    sb_layer_id sb = layer_id (tb_meta tb) /\ sb_req_ids sb = req_ids (tb_meta tb) /\
    sb_init_prefill_lens sb = init_prefill_lens (tb_meta tb) /\ sb_data sb = tb_data tb /\ sb_req_indices sb = None /\
    sb_num_prefill_seqs sb = p /\ sb_num_prefill_tokens sb = p /\ num_prefill_tokens (tb_meta tb) = Some p /\
    is_Some (num_decode_tokens (tb_meta tb)) /\ sb_num_tokens sb = zlen (req_ids (tb_meta tb)) /\
    0 <= p <= zlen (req_ids (tb_meta tb)) /\
    forall k pl, init_prefill_lens (tb_meta tb) !! k = Some pl -> (Z.of_nat k < p <-> pl <> -1).
Proof.
  intros Hpb. destruct (pb_new _ _ _ Hpb) as (p & Hp & E1 & E2 & E3 & Hn). unfold build. rewrite E1, E2, E3. cbn.
  eexists _, p. split; [reflexivity|]. unfold sb_num_tokens. cbn. split_and!; try done; try lia; eauto.
Qed.

Lemma prefill_length w tb : pool_batch max_bs w tb -> length (init_prefill_lens (tb_meta tb)) = length (req_ids (tb_meta tb)).
Proof.
  intros Hpb. destruct (pb_aligned _ _ _ Hpb) as (_ & _ & _ & _ & [Hnil|?]); [|done]. exfalso.
  destruct (req_ids (tb_meta tb)) as [|id l] eqn:E; [pose proof (pb_size _ _ _ Hpb) as Hs; rewrite E in Hs; change (zlen []) with 0 in Hs; lia|].
  destruct (pb_rows _ _ _ Hpb 0 id) as (pl & Hpl & _); [by rewrite E|]. by rewrite Hnil in Hpl.
Qed.

(** What preparing the metadata of an attention batch leaves of the manager [c]. *)
Record prepared (R : gmap Z (Z * Z)) (w : Worker) (tb : TokenBatch T) (c : CPUBlockManager) : Prop := {
  pr_inv : cpu_inv c;
  pr_roomy : roomy nb (quota R) (_block_mgr c);
  pr_size : block_size_ (_block_mgr c) = bs;
  pr_layers : cpu_layer_ids c = cpu_layer_ids (block_mgr (eng w));
  pr_sized : sized max_bs max_pages (tensor_buffer c);
  pr_sized_alt : sized max_bs max_pages (tensor_buffer_alt c);
  pr_in : forall id p o kk, id ∈ req_ids (tb_meta tb) -> R !! id = Some (p, o) ->
    counts (dummy_sampler (eng w)) id kk o -> lens_of (req_manager c) id = Some (p + kk + 1);
  pr_out : forall id, id ∉ req_ids (tb_meta tb) ->
    lens_of (req_manager c) id = lens_of (req_manager (block_mgr (eng w))) id /\
    block_tables_ (_block_mgr c) !! id = block_tables_ (_block_mgr (block_mgr (eng w))) !! id;
}.

(** Packing after the lengths are up to date. *)
Lemma pack_prepared R w tb (sb : AttentionScheduleBatch (list T)) c lens :
  worker_inv R w -> pool_batch max_bs w tb -> 0 <= max_pages -> prepared R w tb c ->
  sb_req_ids sb = req_ids (tb_meta tb) -> sb_num_tokens sb = zlen (req_ids (tb_meta tb)) ->
  sb_num_prefill_seqs sb = sb_num_prefill_tokens sb -> zlen lens = zlen (req_ids (tb_meta tb)) ->
  (forall k id, req_ids (tb_meta tb) !! k = Some id -> lens !! k = lens_of (req_manager c) id) ->
  exists fa c', cpu_pack (tb_meta tb) (with_seq_lens lens None sb) c = Ok (fa, c') /\ prepared R w tb c'.
Proof.
  intros Hinv Hpb Hmp Hpr Hids Htok Hseq Hlen Hk. destruct (pb_shape _ _ _ Hpb) as [h Hsh].
  destruct (cpu_pack_total max_bs max_pages (tb_meta tb) (with_seq_lens lens None sb) lens c)
    as (fa & c' & E & (E1 & E2 & E3) & Hs1 & Hs2); try done; try apply Hpr; try apply Hpb.
  - by rewrite Hsh.
  - intros k id len Hid Hln. rewrite (Hk k id Hid) in Hln.
    destruct (batch_row R w tb k id Hinv Hpb Hid) as (pl & p & o & kk & _ & _ & HR & Hp & Ho & Hm & Hkk & Hcnt & _).
    rewrite (pr_in _ _ _ _ Hpr id p o kk) in Hln by (done || by eapply list_elem_of_lookup_2).
    pose proof (ci_covers _ (pr_inv _ _ _ _ Hpr) id (p + kk + 1)
      (pr_in _ _ _ _ Hpr id p o kk ltac:(by eapply list_elem_of_lookup_2) HR Hcnt)) as Hcv.
    injection Hln as <-. split; [lia|]. split; [done|]. rewrite (pr_size _ _ _ _ Hpr).
    etrans; [|exact Hm]. apply blocks_le_req; [|lia..]. rewrite <-(pr_size _ _ _ _ Hpr). apply Hpr.
  - exists fa, c'. split; [done|]. destruct Hpr as [H1 H2 H3 H4 H5 H6 H7 H8].
    split; rewrite ?E1, ?E2, ?E3; try done. destruct H1. split; rewrite ?E1, ?E2; done.
Qed.

Lemma prepare_first R w tb sb :
  worker_inv R w -> pool_batch max_bs w tb -> 0 <= max_pages -> layer_id (tb_meta tb) = 0 ->
  build (tb_meta tb) (tb_data tb) = Some sb ->
  exists fa sb' c', bm_prepare (list T) (tb_meta tb) sb (block_mgr (eng w)) = Ok (fa, sb', c') /\
    sb_req_ids sb' = req_ids (tb_meta tb) /\ prepared R w tb c'.
Proof.
  intros Hinv Hpb Hmp HL Hsb.
  destruct (build_ok w tb Hpb) as (sb0 & p & Hsb0 & El & Eids & Epl & _ & Eidx & Es & Et & Hpt & Hdec & Htok & Hp & Hnew).
  rewrite Hsb in Hsb0. injection Hsb0 as <-. destruct (pb_shape _ _ _ Hpb) as [h Hsh].
  pose proof (prefill_length w tb Hpb) as Hpll. pose proof (wi_cpu _ _ Hinv) as Hci.
  assert (Hfb : first_layer_batch (tb_meta tb) sb (block_mgr (eng w)) p).
  { split; try done.
    - by rewrite El, HL, (wi_first _ _ Hinv).
    - by rewrite Hsh.
    - apply Hpb.
    - intros k id n Hid Hk Hn. pose proof (proj1 (Hnew k n Hn) Hk) as Hne.
      destruct (batch_row R w tb k id Hinv Hpb Hid) as (pl & p' & o & kk & Hpl & Hst & _ & Hp' & _ & _ & _ & _ & Hcase & _).
      simplify_eq. split; [destruct Hcase as [?|[-> _]]; [done|done]|].
      intros l Hl. exfalso. destruct (wi_lens _ _ Hinv id) as (L' & pl' & Hst' & Hs').
      { apply (wi_tables _ _ Hinv). eauto. }
      rewrite Hst in Hst'. injection Hst' as <- <-. rewrite HL in Hs'. destruct Hs' as [?|?]; [lia|done].
    - intros k id Hid Hk.
      destruct (batch_row R w tb k id Hinv Hpb Hid) as (pl & p' & o & kk & Hpl & Hst & _ & _ & _ & _ & _ & _ & _ & Hs).
      rewrite Hs; [eauto|]. right. pose proof (Hnew k pl Hpl). destruct (decide (pl = -1)); [done|]. lia. }
  assert (Hcontext : forall k id n, req_ids (tb_meta tb) !! k = Some id ->
    context_of (tb_meta tb) (block_mgr (eng w)) p k id = Some n -> exists p' o kk, R !! id = Some (p', o) /\ 0 <= p' /\ 1 <= o /\
      req bs p' o <= max_pages /\ 0 <= kk < o /\ counts (dummy_sampler (eng w)) id kk o /\ n = p' + kk).
  { intros k id n Hid Hn.
    destruct (batch_row R w tb k id Hinv Hpb Hid) as (pl & p' & o & kk & Hpl & Hst & HR & Hp' & Ho & Hm & Hkk & Hcnt & Hcase & Hs).
    exists p', o, kk. split_and!; try done; try lia. unfold context_of in Hn. destruct (Z.ltb_spec (Z.of_nat k) p) as [Hk|Hk].
    - pose proof (proj1 (Hnew k pl Hpl) Hk). rewrite Hpl in Hn. injection Hn as <-. destruct Hcase as [?|[-> ->]]; [done|lia].
    - assert (pl = -1) as -> by (pose proof (Hnew k pl Hpl); destruct (decide (pl = -1)); [done|lia]).
      rewrite Hs in Hn by (by right). rewrite HL in Hn. cbn in Hn. injection Hn as <-. lia. }
  destruct (cpu_update_total (quota R) (tb_meta tb) sb (block_mgr (eng w)) p Hci Hfb (wi_roomy _ _ Hinv) Hdec Hpll)
    as (b & r & lens & E & Hrb & Hsz).
  { intros k id n Hid Hn. destruct (Hcontext k id n Hid Hn) as (p' & o & kk & HR & Hp' & Ho & _ & Hkk & _ & ->).
    split; [lia|]. exists (req bs p' o). split; [by apply quota_lookup|]. rewrite (wi_bs _ _ Hinv).
    apply blocks_le_req; [|lia..]. rewrite <-(wi_bs _ _ Hinv). apply Hci. }
  destruct (cpu_update_Ok _ _ _ _ _ p Hci Hfb E) as (Hci' & (lens' & Elens & Hlen & Hl) & Hout). cbn in Elens. injection Elens as <-.
  cbn [bm_prepare cpu_mgr_ops]. rewrite E. cbn [mbind res_bind].
  assert (Hpr : prepared R w tb (with_mgrs b r (block_mgr (eng w)))).
  { split; try done; [by cbn; rewrite Hsz; apply Hinv|apply Hinv..|].
    intros id p' o kk [k Hid]%list_elem_of_lookup HR Hcnt. destruct (Hl k id Hid) as (n & Hn & _ & ->).
    destruct (Hcontext k id n Hid Hn) as (p2 & o2 & kk2 & HR2 & _ & _ & _ & _ & Hcnt2 & ->). simplify_eq.
    destruct (counts_fun _ _ _ _ _ _ Hcnt Hcnt2) as [<- _]. done. }
  rewrite Eidx. destruct (pack_prepared R w tb sb (with_mgrs b r (block_mgr (eng w))) lens) as (fa & c' & -> & Hpr'); try done; [congruence| |].
  - intros k id Hid. destruct (Hl k id Hid) as (n & _ & E1 & E2). by rewrite E1, E2.
  - cbn [mbind res_bind]. eexists _, _, c'. split; [reflexivity|]. by split.
Qed.

Lemma prepare_later R w tb sb :
  worker_inv R w -> pool_batch max_bs w tb -> 0 <= max_pages -> 0 < layer_id (tb_meta tb) ->
  build (tb_meta tb) (tb_data tb) = Some sb ->
  exists fa sb' c', bm_prepare (list T) (tb_meta tb) sb (block_mgr (eng w)) = Ok (fa, sb', c') /\
    sb_req_ids sb' = req_ids (tb_meta tb) /\ prepared R w tb c'.
Proof.
  intros Hinv Hpb Hmp HL Hsb.
  destruct (build_ok w tb Hpb) as (sb0 & p & Hsb0 & El & Eids & Epl & _ & Eidx & Es & Et & Hpt & Hdec & Htok & Hp & Hnew).
  rewrite Hsb in Hsb0. injection Hsb0 as <-. pose proof (wi_cpu _ _ Hinv) as Hci.
  assert (Hlens : forall id p' o kk, id ∈ req_ids (tb_meta tb) -> R !! id = Some (p', o) ->
    counts (dummy_sampler (eng w)) id kk o -> lens_of (req_manager (block_mgr (eng w))) id = Some (p' + kk + 1)).
  { intros id p' o kk [k Hid]%list_elem_of_lookup HR Hcnt.
    destruct (batch_row R w tb k id Hinv Hpb Hid) as (pl & p2 & o2 & kk2 & _ & _ & HR2 & _ & _ & _ & _ & Hcnt2 & _ & Hs).
    simplify_eq. destruct (counts_fun _ _ _ _ _ _ Hcnt Hcnt2) as [<- _]. rewrite Hs by (by left).
    by rewrite (proj2 (Z.eqb_neq _ _)) by lia. }
  destruct (cpu_update_later (tb_meta tb) sb (block_mgr (eng w)) 0) as (lens & E & Hlen & Hk).
  { apply Hci. } { apply Hinv. } { rewrite El. lia. }
  { rewrite Eids. intros id Hid. pose proof Hid as Hid'. apply list_elem_of_lookup in Hid' as [k Hid'].
    destruct (batch_row R w tb k id Hinv Hpb Hid') as (pl & p2 & o2 & kk2 & _ & _ & HR2 & _ & _ & _ & _ & Hcnt2 & _).
    rewrite (Hlens id p2 o2 kk2) by done. eauto. }
  cbn [bm_prepare cpu_mgr_ops]. rewrite E, Eidx. cbn [mbind res_bind].
  assert (Hpr : prepared R w tb (block_mgr (eng w))).
  { split; try done; apply Hinv. }
  destruct (pack_prepared R w tb sb (block_mgr (eng w)) lens) as (fa & c' & -> & Hpr'); try done; try congruence.
  - unfold zlen. by rewrite Hlen, Eids.
  - intros k id Hid. apply Hk. by rewrite Eids.
  - cbn [mbind res_bind]. eexists _, _, c'. split; [reflexivity|]. by split.
Qed.

(** The sampler counts a token for the requests of [ids] that go on ([fin] flags those
    that end) and nothing for the others. *)
Definition counted (ids : list Z) (fin : list bool) (s s' : DummySampler) : Prop :=
  forall id k o, counts s id k o -> (id ∈ select false ids fin -> counts s' id (k + 1) o) /\ (id ∉ ids -> counts s' id k o).

(** What a batch does to the rows: they go to the next layer; at the pseudo-layer one
    well-formed batch of rows that are not new goes back to layer 0. *)
Definition looped (tb : TokenBatch T) (w w' : Worker) : Prop :=
  exists put fin h, last (pool_puts (eng w')) = Some put /\ length fin = length (req_ids (tb_meta tb)) /\
    req_ids (tb_meta put) = select false (req_ids (tb_meta tb)) fin /\
    init_prefill_lens (tb_meta put) = replicate (length (req_ids (tb_meta put))) (-1) /\ layer_id (tb_meta put) = 0 /\
    length (tb_data put) = length (req_ids (tb_meta put)) /\ shape (tb_meta put) = [zlen (req_ids (tb_meta put)); h] /\
    aligned (length (req_ids (tb_meta put))) (tb_meta put) /\
    stages w' = enqueue 0 (tb_meta put) (end_all (req_ids (tb_meta tb)) (stages w)) /\
    counted (req_ids (tb_meta tb)) fin (dummy_sampler (eng w)) (dummy_sampler (eng w')).

Definition outcome (tb : TokenBatch T) (w w' : Worker) : Prop :=
  if layer_id (tb_meta tb) =? num_layers then looped tb w w'
  else stages w' = enqueue (layer_id (tb_meta tb) + 1) (tb_meta tb) (stages w) /\ dummy_sampler (eng w') = dummy_sampler (eng w).

Lemma attention_total R stash w tb :
  worker_inv R w -> pool_batch max_bs w tb -> 0 <= max_pages -> layer_id (tb_meta tb) < num_layers ->
  exists w', run_batch stash tb w = Ok w' /\ worker_inv R w' /\ outcome tb w w'.
Proof.
  intros Hinv Hpb Hmp HL.
  destruct (build_ok w tb Hpb) as (sb & p & Hsb & El & _).
  assert (Hprep : exists fa sb' c', bm_prepare (list T) (tb_meta tb) sb (block_mgr (eng w)) = Ok (fa, sb', c') /\
    sb_req_ids sb' = req_ids (tb_meta tb) /\ prepared R w tb c').
  { pose proof (pb_layer _ _ _ Hpb). destruct (decide (layer_id (tb_meta tb) = 0)); [by apply prepare_first|apply prepare_later; [done..|lia|done]]. }
  destruct Hprep as (fa & sb' & c' & E & Eids & Hpr).
  unfold run_batch, run_attn, preprocess_batch_attn. rewrite Hsb. cbn [of_option mbind res_bind].
  rewrite El, (proj2 (Z.eqb_neq _ _)) by lia. rewrite E. cbn [mbind res_bind]. rewrite Eids.
  destruct (batch_slots R w tb c' Hinv Hpb) as (slots & e' & -> & Hst & _ & Hkeys & Hs & Hb). cbn [mbind res_bind].
  eexists. split; [reflexivity|]. split; [apply (attn_step_inv R w tb e'); rewrite ?Hb; try done; apply Hpr|].
  unfold outcome. by rewrite (proj2 (Z.eqb_neq _ _)) by lia.
Qed.

(** ** Admission *)

Lemma admit_total rand R w r :
  worker_inv R w -> stages w !! tr_req_id r = Some (Sent r) -> 0 < num_layers ->
  exists w', admit_request rand r w = Ok w' /\ worker_inv R w' /\
    stages w' = <[tr_req_id r := Queued 0 (tr_init_prefill_len r)]> (stages w) /\
    (counts (dummy_sampler (eng w')) (tr_req_id r) 0 (tr_max_output_len r) /\
     forall id k o, id <> tr_req_id r -> counts (dummy_sampler (eng w)) id k o -> counts (dummy_sampler (eng w')) id k o) /\
    exists x, last (pool_puts (eng w')) = Some {| tb_data := [x]; tb_meta := admission_meta rank hidden_size (tr_req_id r) (tr_init_prefill_len r) |}.
Proof.
  intros Hinv Hst HL. destruct (wi_stage _ _ Hinv _ _ Hst) as (p & o & HR & Hp & Ho & Hm & _ & Ep & Eo).
  set (id := tr_req_id r) in *. unfold admit_request, _admit_request, record_max_output_lens.
  cbn [create_request admit_data dummy_ops dummy_admit_data mbind res_bind].
  eexists. split; [reflexivity|]. cbn [eng stages].
  unfold last_put. cbn [pool_puts with_pool]. rewrite last_snoc. cbn [fmap option_fmap option_map default tb_meta layer_id admission_meta].
  assert (Hq : forall s, enqueue 0 (admission_meta rank hidden_size id (tr_init_prefill_len r)) s = <[id := Queued 0 p]> s).
  { intros s. unfold enqueue. cbn. by rewrite Ep. }
  match goal with |- worker_inv R {| eng := ?x; stages := _ |} /\ _ => set (e1 := x) end.
  split; [|split; [by rewrite Hq, Ep|split; [split|by exists rand]]].
  2: { split; unfold e1; cbn; rewrite dget_dset_eq; congruence. }
  2: { intros id' k' o' Hne [Hc1 Hc2]. split; unfold e1; cbn; by rewrite dget_dset_ne. }
  change (worker_inv R {| eng := e1; stages := enqueue 0 (admission_meta rank hidden_size id (tr_init_prefill_len r)) (stages w) |}).
  rewrite Hq.
  assert (Hdiff : forall id' L pl, stages w !! id' = Some (Queued L pl) -> <[id := Queued 0 p]> (stages w) !! id' = Some (Queued L pl)).
  { intros id' L pl H. rewrite lookup_insert_ne; [done|]. intros <-. congruence. }
  assert (Hmgr : block_mgr e1 = block_mgr (eng w)) by done.
  split; cbn [eng stages]; rewrite ?Hmgr; try apply Hinv.
  - destruct (wi_stash _ _ Hinv). by split.
  - intros id' st Hst'. destruct (decide (id' = id)) as [->|Hne].
    + rewrite lookup_insert_eq in Hst'. injection Hst' as <-. exists p, o. split_and!; try done; try lia.
      exists 0. split; [lia|]. split; [split; unfold e1; cbn; rewrite dget_dset_eq; congruence|].
      split; [by right|]. intros [?|?]; lia.
    + rewrite lookup_insert_ne in Hst' by done. destruct (wi_stage _ _ Hinv id' st Hst') as (p' & o' & HR' & Hp' & Ho' & Hm' & Hx).
      exists p', o'. split_and!; try done. destruct st as [r'|L' pl|]; [done| |done].
      destruct Hx as (HL' & k & Hk & [Hc1 Hc2] & Hcase & Hlen). split; [done|]. exists k. split; [lia|].
      split; [split; unfold e1; cbn; by rewrite dget_dset_ne|done].
  - intros id' Hid. destruct (wi_lens _ _ Hinv id' Hid) as (L & pl & H1 & H2). exists L, pl. by rewrite (Hdiff id' L pl).
  - intros id' Hid. destruct (wi_keys _ _ Hinv id' Hid) as (L & pl & H1 & H2). exists L, pl. by rewrite (Hdiff id' L pl).
Qed.

(** ** The pseudo-layer *)

Lemma batch_release_frame ids b b' :
  batch_release ids b = Ok b' ->
  num_blocks_ b' = num_blocks_ b /\ reserved_blocks_ b' = reserved_blocks_ b /\ block_size_ b' = block_size_ b /\
  forall id l, block_tables_ b' !! id = Some l -> block_tables_ b !! id = Some l.
Proof.
  intros E. unfold batch_release in E.
  revert E. apply (py_for_inv (fun _ t => num_blocks_ t = num_blocks_ b /\ reserved_blocks_ t = reserved_blocks_ b /\
    block_size_ t = block_size_ b /\ forall id l, block_tables_ t !! id = Some l -> block_tables_ b !! id = Some l)); [done|].
  intros pre a post t t' _ (H1 & H2 & H3 & H4) Hr. unfold release in Hr. apply bind_Ok in Hr as (l & Hl & Hr).
  apply Ok_inj in Hr as <-. cbn. split_and!; try done. intros id l' Hl'. apply lookup_delete_Some in Hl' as [_ Hl']. by apply H4.
Qed.

Lemma cpu_release_total q ids c :
  cpu_inv c -> roomy nb q (_block_mgr c) -> NoDup ids -> Forall (fun id => is_Some (lens_of (req_manager c) id)) ids ->
  exists c', cpu_release_seqs ids c = Ok c' /\ cpu_inv c' /\ roomy nb q (_block_mgr c') /\
    block_size_ (_block_mgr c') = block_size_ (_block_mgr c) /\ cpu_layer_ids c' = cpu_layer_ids c /\
    tensor_buffer c' = tensor_buffer c /\ tensor_buffer_alt c' = tensor_buffer_alt c /\
    (forall id, id ∈ ids -> lens_of (req_manager c') id = None /\ block_tables_ (_block_mgr c') !! id = None) /\
    (forall id, id ∉ ids -> lens_of (req_manager c') id = lens_of (req_manager c) id /\
       block_tables_ (_block_mgr c') !! id = block_tables_ (_block_mgr c) !! id).
Proof.
  intros Hci Hro Hnd Hall. destruct (cpu_release_step ids c Hci Hnd Hall) as (c' & E & Hci' & Hin & Hout).
  exists c'. split; [done|]. split; [done|]. pose proof E as E'. unfold cpu_release_seqs in E'.
  apply bind_Ok in E' as (b & Eb & E'). apply bind_Ok in E' as (r & _ & E'). apply Ok_inj in E' as <-.
  apply batch_release_frame in Eb as (H1 & H2 & H3 & H4). cbn in *.
  split; [|done]. destruct Hro as [R1 R2 R3 R4 R5 R6 R7]. split; rewrite ?H1, ?H2, ?H3; try done; [apply Hci'|].
  intros id l Hl. by apply R4, H4.
Qed.

Lemma run_sampled stash R w tb w1 e1 :
  pool_batch max_bs w tb -> layer_id (tb_meta tb) = num_layers ->
  (forall sb, build (tb_meta tb) (tb_data tb) = Some sb ->
     sample_results add stash rank sb (tb_meta tb) (eng w) = Ok (w1, e1)) ->
  worker_inv R {| eng := e1; stages := enqueue (layer_id (tb_meta w1)) (tb_meta w1) (end_all (req_ids (tb_meta tb)) (stages w)) |} ->
  looped tb w {| eng := with_pool (pool_puts e1 ++ [w1]) e1;
                 stages := enqueue (layer_id (tb_meta w1)) (tb_meta w1) (end_all (req_ids (tb_meta tb)) (stages w)) |} ->
  exists w', run_batch stash tb w = Ok w' /\ worker_inv R w' /\ outcome tb w w'.
Proof.
  intros Hpb HL Hs Hinv Hloop.
  destruct (build_ok w tb Hpb) as (sb & p & Hsb & El & _). specialize (Hs sb Hsb).
  unfold run_batch, run_attn, preprocess_batch_attn. rewrite Hsb. cbn [of_option mbind res_bind].
  rewrite El, HL, Z.eqb_refl, Hs. cbn [mbind res_bind]. eexists. split; [reflexivity|].
  unfold last_put. cbn [pool_puts with_pool]. rewrite last_snoc. split; [|by unfold outcome; rewrite HL, Z.eqb_refl].
  destruct Hinv as [H1 H2 H3 H4 H5 H6 [H7 H7'] H8 H9 H10 H11 H12]. split; done.
Qed.

Lemma select_NoDup {A} b (l : list A) flags : NoDup l -> length l = length flags -> NoDup (select b l flags).
Proof.
  intros Hnd. revert flags. induction Hnd as [|x l Hx Hnd IH]; intros [|f flags] Hl; try done; [constructor|].
  unfold select. cbn [zip_with]. rewrite filter_cons. cbn in Hl. specialize (IH flags ltac:(lia)).
  case_decide; [|exact IH]. cbn [fmap list_fmap fst]. constructor; [|exact IH].
  intros Hin. apply (elem_of_select b l flags) in Hin as (k & Hk & _); [|lia]. apply Hx. by eapply list_elem_of_lookup_2.
Qed.

Lemma select_split {A} (l : list A) flags x :
  length l = length flags -> x ∈ l -> x ∈ select false l flags \/ x ∈ select true l flags.
Proof.
  intros Hl [k Hk]%list_elem_of_lookup. destruct (lookup_lt_is_Some_2 flags k) as [f Hf]; [apply lookup_lt_Some in Hk; lia|].
  destruct f; [right|left]; apply elem_of_select; eauto.
Qed.

Lemma select_disjoint {A} (l : list A) flags x :
  NoDup l -> length l = length flags -> x ∈ select false l flags -> x ∉ select true l flags.
Proof.
  intros Hnd Hl (k & Hk & Hf)%elem_of_select (j & Hj & Hf')%elem_of_select; [|done..].
  assert (k = j) by (by eapply NoDup_lookup). subst. congruence.
Qed.

(** A request at the pseudo-layer: its lengths, its count and its tokens. *)
Lemma sampled_row R w tb id :
  worker_inv R w -> pool_batch max_bs w tb -> 0 < num_layers -> layer_id (tb_meta tb) = num_layers ->
  id ∈ req_ids (tb_meta tb) ->
  exists p o kk, R !! id = Some (p, o) /\ 0 <= p /\ 1 <= o /\ req bs p o <= max_pages /\ 0 <= kk < o /\
    counts (dummy_sampler (eng w)) id kk o /\
    lens_of (req_manager (block_mgr (eng w))) id = Some (p + (kk + 1)).
Proof.
  intros Hinv Hpb HL0 HL [k Hid]%list_elem_of_lookup.
  destruct (batch_row R w tb k id Hinv Hpb Hid) as (pl & p & o & kk & _ & _ & HR & Hp & Ho & Hm & Hkk & Hcnt & _ & Hs).
  exists p, o, kk. do 6 (split; [done|]). rewrite Hs by (left; lia). rewrite HL, (proj2 (Z.eqb_neq _ _)) by lia. f_equal. lia.
Qed.

(** What sampling must do to the records: [fin] flags the requests that end. *)
Lemma sampled_inv R w tb fin m e' :
  worker_inv R w -> pool_batch max_bs w tb -> 0 < num_layers -> layer_id (tb_meta tb) = num_layers ->
  length fin = length (req_ids (tb_meta tb)) ->
  req_ids m = select false (req_ids (tb_meta tb)) fin -> init_prefill_lens m = replicate (length (req_ids m)) (-1) ->
  stash_inv N e' ->
  (forall r, r ∈ dkeys (stash_slot_map e') <->
     (r ∈ req_ids (tb_meta tb) \/ r ∈ dkeys (stash_slot_map (eng w))) /\ r ∉ select true (req_ids (tb_meta tb)) fin) ->
  cpu_release_seqs (select true (req_ids (tb_meta tb)) fin) (block_mgr (eng w)) = Ok (block_mgr e') ->
  (forall id k o, id ∈ req_ids (tb_meta tb) -> counts (dummy_sampler (eng w)) id k o ->
     (k + 1 < o -> counts (dummy_sampler e') id (k + 1) o) /\ (o <= k + 1 <-> id ∈ select true (req_ids (tb_meta tb)) fin)) ->
  (forall id k o, id ∉ req_ids (tb_meta tb) -> counts (dummy_sampler (eng w)) id k o -> counts (dummy_sampler e') id k o) ->
  worker_inv R {| eng := e'; stages := enqueue 0 m (end_all (req_ids (tb_meta tb)) (stages w)) |}.
Proof.
  set (ids := req_ids (tb_meta tb)). intros Hinv Hpb HL0 HL Hfl Hm Hpl Hst Hkeys Hrel Hin Hout.
  pose proof (pb_nodup _ _ _ Hpb) as Hnd. fold ids in Hnd.
  assert (Hrow := fun id => sampled_row R w tb id Hinv Hpb HL0 HL). fold ids in Hrow.
  assert (Hsub : forall b id, id ∈ select b ids fin -> id ∈ ids).
  { intros b id (k & Hk & _)%elem_of_select; [|done]. by eapply list_elem_of_lookup_2. }
  destruct (cpu_release_total (quota R) (select true ids fin) (block_mgr (eng w)))
    as (c' & Ec & Hci & Hro & Hsz & Hlay & Hb1 & Hb2 & Hrin & Hrout); try apply Hinv; [by apply select_NoDup| |].
  { apply Forall_forall. intros id Hid. destruct (Hrow id (Hsub _ _ Hid)) as (? & ? & ? & _ & _ & _ & _ & _ & _ & ->). eauto. }
  rewrite Hrel in Ec. injection Ec as <-.
  assert (Hnew : forall id, id ∈ select false ids fin -> enqueue 0 m (end_all ids (stages w)) !! id = Some (Queued 0 (-1))).
  { intros id Hid. rewrite <-Hm in Hid. apply list_elem_of_lookup in Hid as [k Hid].
    eapply (enqueue_in _ _ _ k); [rewrite Hm; by apply select_NoDup|done|].
    rewrite Hpl. apply lookup_replicate_2. by eapply lookup_lt_Some. }
  assert (Hend : forall id, id ∈ select true ids fin -> enqueue 0 m (end_all ids (stages w)) !! id = Some Ended).
  { intros id Hid. rewrite enqueue_out, end_all_lookup, decide_True; [done|by eapply Hsub|].
    rewrite Hm. intros Hf. by eapply (select_disjoint ids fin id). }
  assert (Hold : forall id, id ∉ ids -> enqueue 0 m (end_all ids (stages w)) !! id = stages w !! id).
  { intros id Hid. rewrite enqueue_out, end_all_lookup, decide_False; [done|done|]. rewrite Hm. intros Hf. by eapply Hid, Hsub. }
  assert (Hlive : forall id L pl, id ∉ select true ids fin -> stages w !! id = Some (Queued L pl) -> under_way L pl ->
    exists L' pl', enqueue 0 m (end_all ids (stages w)) !! id = Some (Queued L' pl') /\ under_way L' pl').
  { intros id L pl Hid Hs1 Hs2. destruct (decide (id ∈ ids)) as [Hi|Hi]; [|exists L, pl; by rewrite Hold].
    destruct (select_split ids fin id ltac:(done) Hi) as [Hf|]; [|done]. exists 0, (-1). split; [by apply Hnew|by right]. }
  split; cbn [eng stages]; rewrite ?Hlay, ?Hb1, ?Hb2, ?Hsz; try done; try apply Hinv.
  - intros id st Hs. destruct (decide (id ∈ ids)) as [Hi|Hi].
    + destruct (Hrow id Hi) as (p & o & kk & HR & Hp & Ho & Hmx & Hkk & Hcnt & Hlen). exists p, o. do 4 (split; [done|]).
      destruct (select_split ids fin id ltac:(done) Hi) as [Hf|Hf]; [rewrite Hnew in Hs by done|rewrite Hend in Hs by done];
        injection Hs as <-; [|done]. split; [lia|]. exists (kk + 1). destruct (Hin id kk o Hi Hcnt) as [H1 H2].
      pose proof (select_disjoint ids fin id Hnd ltac:(done) Hf) as Hn. assert (kk + 1 < o) by (destruct (decide (o <= kk + 1)); [tauto|lia]).
      split; [lia|]. split; [by apply H1|]. split; [by left|]. intros _. destruct (Hrout id Hn) as [-> _]. rewrite Hlen. f_equal. cbn. lia.
    + rewrite Hold in Hs by done. destruct (wi_stage _ _ Hinv id st Hs) as (p & o & HR & Hp & Ho & Hmx & Hx).
      exists p, o. do 4 (split; [done|]). destruct st as [r|L pl|]; [done| |done].
      destruct Hx as (HL' & k & Hk & Hc & Hcase & Hlen). split; [done|]. exists k. split; [done|]. split; [by apply Hout|].
      split; [done|]. destruct (Hrout id) as [-> _]; [|done]. intros Hf. by eapply Hi, Hsub.
  - intros id Hid. destruct (decide (id ∈ select true ids fin)) as [Hf|Hf].
    + destruct (Hrin id Hf) as [E _]. rewrite E in Hid. by destruct Hid.
    + destruct (Hrout id Hf) as [E _]. rewrite E in Hid. destruct (wi_lens _ _ Hinv id Hid) as (L & pl & Hs1 & Hs2). by eapply Hlive.
  - intros id [[Hid|Hid] Hf]%Hkeys.
    + exists 0, (-1). split; [|by right]. destruct (select_split ids fin id ltac:(done) Hid); [by apply Hnew|done].
    + destruct (wi_keys _ _ Hinv id Hid) as (L & pl & Hs1 & Hs2). by eapply Hlive.
  - intros id Hid. destruct (decide (id ∈ select true ids fin)) as [Hf|Hf].
    + destruct (Hrin id Hf) as [_ E]. rewrite E in Hid. by destruct Hid.
    + destruct (Hrout id Hf) as [E1 E2]. rewrite E1. rewrite E2 in Hid. by apply Hinv.
Qed.

Lemma sample_total R stash w tb :
  worker_inv R w -> pool_batch max_bs w tb -> 0 < num_layers -> layer_id (tb_meta tb) = num_layers ->
  exists w', run_batch stash tb w = Ok w' /\ worker_inv R w' /\ outcome tb w w'.
Proof.
  intros Hinv Hpb HL0 HL.
  destruct (build_ok w tb Hpb) as (sb & p & Hsb & El & Eids & _ & Edata & _).
  destruct (pb_shape _ _ _ Hpb) as [h Hsh]. pose proof (pb_nodup _ _ _ Hpb) as Hnd. set (ids := req_ids (tb_meta tb)) in *.
  assert (Hrow := fun id => sampled_row R w tb id Hinv Hpb HL0 HL). fold ids in Hrow.
  destruct (dummy_step_total (T := T) ids (dummy_sampler (eng w)) Hnd) as (o & s' & Estep & Hin & Hout).
  { intros id Hid. destruct (Hrow id Hid) as (? & m & kk & _ & _ & _ & _ & _ & Hc & _). eauto. }
  destruct (sample_results_ok add stash rank N h sb (tb_meta tb) (eng w))
    as (w1 & e1 & fin & toks & Erun & Hfl & _ & _ & Hcids & Hcd & Hclay & Hcpl & Hst1 & Hkeys & _ & Hrel & (rows & o1 & Estep1 & Hfin) & Hcsh & Hcal);
    rewrite ?Eids; fold ids; try apply Hinv; try done.
  { eapply (unseen_fits R); [apply Hinv|intros; by eapply inv_keys_R|done|intros; by eapply batch_R|apply Hinv]. }
  { rewrite Edata. apply Hpb. }
  { apply Hpb. }
  { intros rows _. cbn [step dummy_ops]. unfold dummy_step in *. destruct (sample_once ids (dummy_sampler (eng w))) as [[[? ?] ?]|]; [done|discriminate]. }
  { intros fin Hf. cbn [bm_release_seqs cpu_mgr_ops].
    destruct (cpu_release_total (quota R) (select true ids fin) (block_mgr (eng w))) as (c' & -> & _); try apply Hinv; [by apply select_NoDup| |done].
    apply Forall_forall. intros id (k & Hk & _)%elem_of_select; [|done].
    destruct (Hrow id) as (? & ? & ? & _ & _ & _ & _ & _ & _ & ->); [by eapply list_elem_of_lookup_2|eauto]. }
  rewrite Eids in *. fold ids in Hfl, Hcids, Hkeys, Hrel, Estep1, Hfin.
  cbn [step dummy_ops] in Estep1. rewrite Estep in Estep1. injection Estep1 as <- Hs'. cbn [bm_release_seqs cpu_mgr_ops] in Hrel.
  eapply (run_sampled stash R w tb w1 e1); [done|done|intros sb' Hsb'; by simplify_eq| |].
  2: { exists w1, fin, h. cbn [eng stages pool_puts with_pool]. rewrite last_snoc, Hclay. split_and!; try done. intros id k m Hc. change (dummy_sampler (with_pool _ e1)) with (dummy_sampler e1). fold ids. rewrite <-Hs'. split; [|intros Hid; by apply Hout].
       intros Hf. assert (Hid : id ∈ ids) by (apply elem_of_select in Hf as (j & Hj & _); [by eapply list_elem_of_lookup_2|done]).
       destruct (Hin id k m Hid Hc) as [H1 H2]. apply H1. destruct (decide (m <= k + 1)) as [Hle|]; [|lia].
       destruct (select_disjoint ids fin id Hnd ltac:(done) Hf). rewrite <-Hfin. by apply H2. }
  rewrite Hclay. eapply (sampled_inv R w tb fin); try done; fold ids; rewrite <-?Hs'; [|exact Hout].
  intros id k m Hid Hc. rewrite <-Hfin. by apply Hin.
Qed.

(** Whatever the pool hands out, the worker goes through it. *)
Lemma batch_total R stash w tb :
  0 < num_layers -> 0 <= max_pages -> worker_inv R w -> pool_batch max_bs w tb ->
  exists w', run_batch stash tb w = Ok w' /\ worker_inv R w' /\ outcome tb w w'.
Proof.
  intros HL Hmp Hinv Hpb. pose proof (pb_layer _ _ _ Hpb).
  destruct (decide (layer_id (tb_meta tb) = num_layers)); [by apply sample_total|apply attention_total; [done..|lia]].
Qed.

(** ** Requests come and go *)


(** The scheduler assigns a request to the rank. *)
Lemma worker_grow R w r :
  worker_inv R w -> R !! tr_req_id r = None -> 0 <= tr_init_prefill_len r -> 1 <= tr_max_output_len r ->
  req bs (tr_init_prefill_len r) (tr_max_output_len r) <= max_pages ->
  total (quota (<[tr_req_id r := (tr_init_prefill_len r, tr_max_output_len r)]> R)) + 1 <= nb ->
  Z.of_nat (size R) + 1 <= N ->
  worker_inv (<[tr_req_id r := (tr_init_prefill_len r, tr_max_output_len r)]> R)
    {| eng := eng w; stages := <[tr_req_id r := Sent r]> (stages w) |}.
Proof.
  set (id := tr_req_id r). set (po := (tr_init_prefill_len r, tr_max_output_len r)).
  intros Hinv HR Hp Ho Hm Ht Hn.
  assert (Hfresh : stages w !! id = None).
  { destruct (stages w !! id) as [st|] eqn:E; [|done]. destruct (wi_stage _ _ Hinv id st E) as (? & ? & E' & _). congruence. }
  assert (Hlive : forall id' L pl, stages w !! id' = Some (Queued L pl) -> <[id := Sent r]> (stages w) !! id' = Some (Queued L pl)).
  { intros id' L pl E. rewrite lookup_insert_ne; [done|]. intros <-. congruence. }
  pose proof (wi_roomy _ _ Hinv) as [H1 H2 H3 H4 H5 H6 H7].
  split; cbn [eng stages]; try apply Hinv.
  - split; try done.
    + intros i l Hl. destruct (H4 i l Hl) as (v & Hv & Hle). exists v. split; [|done]. unfold quota in *.
      rewrite fmap_insert, lookup_insert_ne; [done|]. intros <-. by rewrite lookup_fmap, HR in Hv.
    + unfold quota. rewrite fmap_insert. apply map_Forall_insert_2; [|exact H5].
      rewrite <-(wi_bs _ _ Hinv). unfold req, po. cbn. pose proof (Z.div_pos (tr_init_prefill_len r + block_size_ (_block_mgr (block_mgr (eng w))) - 1) (block_size_ (_block_mgr (block_mgr (eng w))))).
      pose proof (Z.div_pos (tr_max_output_len r + block_size_ (_block_mgr (block_mgr (eng w))) - 1) (block_size_ (_block_mgr (block_mgr (eng w))))). lia.
  - rewrite map_size_insert_None by done. lia.
  - intros id' st Hst. destruct (decide (id' = id)) as [->|Hne].
    + rewrite lookup_insert_eq in Hst. injection Hst as <-. eexists _, _. rewrite lookup_insert_eq. split; [reflexivity|]. done.
    + rewrite lookup_insert_ne in Hst by done. destruct (wi_stage _ _ Hinv id' st Hst) as (p' & o' & E & Hx).
      exists p', o'. by rewrite lookup_insert_ne.
  - intros id' Hid. destruct (wi_lens _ _ Hinv id' Hid) as (L & pl & E1 & E2). exists L, pl. by rewrite (Hlive id' L pl).
  - intros id' Hid. destruct (wi_keys _ _ Hinv id' Hid) as (L & pl & E1 & E2). exists L, pl. by rewrite (Hlive id' L pl).
Qed.

(** The controller deletes a request that ended. *)
Lemma worker_shrink R w id :
  worker_inv R w -> stages w !! id = Some Ended ->
  worker_inv (delete id R) {| eng := eng w; stages := delete id (stages w) |}.
Proof.
  intros Hinv Hst. destruct (wi_stage _ _ Hinv id _ Hst) as (p & o & HR & _).
  assert (Hlive : forall id' L pl, stages w !! id' = Some (Queued L pl) -> delete id (stages w) !! id' = Some (Queued L pl)).
  { intros id' L pl E. rewrite lookup_delete_ne; [done|]. intros <-. congruence. }
  pose proof (wi_roomy _ _ Hinv) as [H1 H2 H3 H4 H5 H6 H7].
  assert (Hq : quota (delete id R) = delete id (quota R)) by apply fmap_delete.
  split; cbn [eng stages]; try apply Hinv.
  - split; rewrite ?Hq; try done.
    + intros i l Hl. destruct (wi_lens _ _ Hinv i) as (L & pl & E & _); [apply (wi_tables _ _ Hinv); eauto|].
      rewrite lookup_delete_ne; [by apply H4|]. intros <-. congruence.
    + by apply map_Forall_delete.
    + pose proof (H5 id _ (quota_lookup R id p o HR)). rewrite (total_delete (quota R) id (req bs p o)) in H7 by (by apply quota_lookup). cbn in *. lia.
  - pose proof (wi_slots _ _ Hinv). rewrite map_size_delete, HR. lia.
  - intros id' st Hst'. apply lookup_delete_Some in Hst' as [Hne Hst'].
    destruct (wi_stage _ _ Hinv id' st Hst') as (p' & o' & E & Hx). exists p', o'. by rewrite lookup_delete_ne.
  - intros id' Hid. destruct (wi_lens _ _ Hinv id' Hid) as (L & pl & E1 & E2). exists L, pl. by rewrite (Hlive id' L pl).
  - intros id' Hid. destruct (wi_keys _ _ Hinv id' Hid) as (L & pl & E1 & E2). exists L, pl. by rewrite (Hlive id' L pl).
Qed.
End Worker.
Arguments Worker T : clear implicits.

(** ** The scheduler and the ranks *)

(** The running requests of a rank. *)
Definition rank_map (r : Z) (m : gmap Z (Z * (Z * Z))) : gmap Z (Z * Z) :=
  omap (fun x : Z * (Z * Z) => if decide (x.1 = r) then Some x.2 else None) m.

Lemma rank_map_lookup r m id po : rank_map r m !! id = Some po <-> m !! id = Some (r, po).
Proof.
  unfold rank_map. rewrite lookup_omap. destruct (m !! id) as [[rk po']|]; cbn; [|done].
  case_decide; split; intros; simplify_eq; done.
Qed.

Lemma rank_map_insert_eq r m id po : rank_map r (<[id := (r, po)]> m) = <[id := po]> (rank_map r m).
Proof. unfold rank_map. rewrite omap_insert. cbn. by rewrite decide_True. Qed.

Lemma rank_map_insert_ne r rk m id po : m !! id = None -> rk <> r -> rank_map r (<[id := (rk, po)]> m) = rank_map r m.
Proof.
  intros Hm Hne. unfold rank_map. rewrite omap_insert. cbn. rewrite decide_False by done.
  apply delete_id. by rewrite lookup_omap, Hm.
Qed.

Lemma rank_map_delete r m id : rank_map r (delete id m) = delete id (rank_map r m).
Proof. apply omap_delete. Qed.

Lemma rank_used bs r m : total (quota bs (rank_map r m)) = used bs m r.
Proof.
  induction m as [|id [rk [p o]] m Hid IH] using map_ind.
  { unfold rank_map, quota, used. rewrite omap_empty, fmap_empty, map_fold_empty. done. }
  rewrite used_insert, <-IH by done. destruct (decide (rk = r)) as [->|Hne].
  - rewrite rank_map_insert_eq. unfold quota at 1. rewrite fmap_insert, total_insert; [done|].
    rewrite lookup_fmap. unfold rank_map. by rewrite lookup_omap, Hid.
  - by rewrite rank_map_insert_ne.
Qed.

Section Cluster.
Context {T P : Type} `{HCP : CapacityPolicy P}.
Context (add : T -> T -> T) (rand : T) (hidden_size num_layers : Z) (prompt : Z -> list Z).
Context (bs max_bs max_pages min_tokens : Z).

(** [max_running_reqs] of a worker with [nb] blocks. *)
Definition stash_rows (nb : Z) : Z := nb * bs / 100 + 1.

Record Cluster : Type := { csys : Sys P; workers : list (Worker T) }.

(** What the tokenizer puts on the queue of the rank. *)
Definition request_of (it : RequestItem) : TokenizedRequest :=
  {| tr_req_id := req_id it; tr_init_prefill_len := prefill_len it; tr_max_output_len := DP.output_len it;
     tr_token_ids := prompt (req_id it) |}.

Definition deliver_one (x : RequestItem * Z) (ws : list (Worker T)) : list (Worker T) :=
  alter (fun w => {| eng := eng w; stages := <[req_id x.1 := Sent (request_of x.1)]> (stages w) |}) (Z.to_nat x.2) ws.

Definition deliver (l : list (RequestItem * Z)) (ws : list (Worker T)) : list (Worker T) := foldl (fun ws x => deliver_one x ws) ws l.

(** The lengths of the requests the clients put: they fit the page buffers and reserve
    [min_tokens] tokens or more. *)
Definition acceptable (it : RequestItem) : Prop :=
  0 <= prefill_len it /\ 1 <= DP.output_len it /\ req bs (prefill_len it) (DP.output_len it) <= max_pages /\
  min_tokens <= req bs (prefill_len it) (DP.output_len it) * bs.

(** The controller's side: a client puts a request, the scheduler's loop runs,
    [terminate] is called, a request the detokenizer saw end is deleted. *)
Inductive control_step : Cluster -> Cluster -> Prop :=
  | cl_put y it :
      seq_ranks (sched (csys y)) !! req_id it = None -> req_id it ∉ req_id <$> pending_items (csys y) -> acceptable it ->
      control_step y {| csys := {| sched := put_request it (sched (csys y)); pc := pc (csys y); submitted := submitted (csys y) |};
                        workers := workers y |}
  | cl_loop y s' :
      loop_step (csys y) = Some (Ok s') ->
      control_step y {| csys := s'; workers := deliver (drop (length (submitted (csys y))) (submitted s')) (workers y) |}
  | cl_terminate y :
      control_step y {| csys := {| sched := terminate_begin (sched (csys y)); pc := pc (csys y); submitted := submitted (csys y) |};
                        workers := workers y |}
  | cl_finish y r w id s' :
      workers y !! r = Some w -> stages w !! id = Some Ended -> del_seq id (sched (csys y)) = Ok s' ->
      control_step y {| csys := {| sched := s'; pc := pc (csys y); submitted := submitted (csys y) |};
                        workers := <[r := {| eng := eng w; stages := delete id (stages w) |}]> (workers y) |}.

(** A worker admits a request or takes a batch. *)
Inductive cl_step : Cluster -> Cluster -> Prop :=
  | cl_control y y' : control_step y y' -> cl_step y y'
  | cl_admit y r w w' tr :
      workers y !! r = Some w -> stages w !! tr_req_id tr = Some (Sent tr) ->
      admit_request (Z.of_nat r) hidden_size rand tr w = Ok w' ->
      cl_step y {| csys := csys y; workers := <[r := w']> (workers y) |}
  | cl_batch y r w w' stash tb :
      workers y !! r = Some w -> pool_batch num_layers max_bs w tb ->
      run_batch add (Z.of_nat r) hidden_size num_layers stash tb w = Ok w' ->
      cl_step y {| csys := csys y; workers := <[r := w']> (workers y) |}.

(** A worker as it starts, with [nb] blocks and its buffers. *)
Record fresh_worker (nb : Z) (w : Worker T) : Prop := {
  fw_cpu : cpu_inv (block_mgr (eng w));
  fw_bs : block_size_ (_block_mgr (block_mgr (eng w))) = bs;
  fw_blocks : num_blocks_ (_block_mgr (block_mgr (eng w))) = nb;
  fw_reserved : reserved_blocks_ (_block_mgr (block_mgr (eng w))) = 0;
  fw_tables : block_tables_ (_block_mgr (block_mgr (eng w))) = ∅;
  fw_lens : decode_seq_lens (req_manager (block_mgr (eng w))) = [];
  fw_first : py_get (cpu_layer_ids (block_mgr (eng w))) 0 = Ok 0;
  fw_buffer : sized max_bs max_pages (tensor_buffer (block_mgr (eng w)));
  fw_buffer_alt : sized max_bs max_pages (tensor_buffer_alt (block_mgr (eng w)));
  fw_free : stash_free_slots (eng w) = py_range (stash_rows nb);
  fw_map : stash_slot_map (eng w) = [];
  fw_stages : stages w = ∅;
}.

(** The ranks have one block more than the scheduler is told. *)
Definition cluster_start (cap nbs : list Z) (y : Cluster) : Prop :=
  started cap (csys y) /\ block_size (sched (csys y)) = bs /\
  Forall2 (fun c nb => c + 1 <= nb) cap nbs /\ Forall2 fresh_worker nbs (workers y).

Inductive reachable (cap nbs : list Z) : Cluster -> Prop :=
  | reach_start y : cluster_start cap nbs y -> reachable cap nbs y
  | reach_step y y' : reachable cap nbs y -> cl_step y y' -> reachable cap nbs y'.

Record cluster_inv (cap nbs : list Z) (y : Cluster) : Prop := {
  ci_sys : sys_inv cap (csys y);
  ci_block : block_size (sched (csys y)) = bs;
  ci_spare : Forall2 (fun c nb => c + 1 <= nb) cap nbs;
  ci_count : length (workers y) = length nbs;
  ci_items : Forall acceptable (pending_items (csys y));
  ci_long : map_Forall (fun _ '(_, (p, o)) => 100 <= req bs p o * bs) (running (sched (csys y)));
  ci_workers : forall r w nb, workers y !! r = Some w -> nbs !! r = Some nb ->
    worker_inv num_layers bs nb (stash_rows nb) max_bs max_pages (rank_map (Z.of_nat r) (running (sched (csys y)))) w;
}.

(** *** One resumption of the scheduler's loop *)

Lemma placed_running it log s y' :
  wf s -> 0 < item_req s it -> seq_ranks s !! req_id it = None -> dom (seq_ranks s) = dom (seq_max_len s) ->
  (r ← schedule [req_id it] [prefill_len it] [DP.output_len it] s; after_schedule it log r) = Ok y' ->
  block_size (sched y') = block_size s /\
  ((exists rank, 0 <= rank < zlen (kv_cache_stats s) /\
      running (sched y') = <[req_id it := (rank, (prefill_len it, DP.output_len it))]> (running s) /\
      submitted y' = log ++ [(it, rank)] /\ pending_items y' = waiting_queue s) \/
   (running (sched y') = running s /\ submitted y' = log /\ pending_items y' = it :: waiting_queue s)).
Proof.
  intros Hwf Hpos Hid Hdom Hrun.
  destruct (place_cases it log s Hwf Hpos) as [(rank & pl & s' & Hrank & _ & _ & Hadd & Heq)|(pl & _ & _ & Heq)];
    cbv zeta in Heq; rewrite Hrun in Heq; injection Heq as ->; cbn.
  - destruct Hwf as (Hbs & _).
    destruct (add_seq_spec (req_id it) (prefill_len it) (DP.output_len it) rank (with_policy pl s)) as (f & _ & Hadd');
      [cbn; lia|done|]. rewrite Hadd in Hadd'. injection Hadd' as ->. cbn. split; [done|]. left. exists rank.
    split; [done|]. split; [|split; [done|unfold pending_items; cbn; by destruct (end_flag s)]].
    unfold running. cbn. symmetry. apply (map_insert_zip_with pair).
  - split; [done|]. by right.
Qed.

Lemma loop_running cap (y y' : Sys P) :
  sys_inv cap y -> loop_step y = Some (Ok y') ->
  block_size (sched y') = block_size (sched y) /\
  ((exists it rank, it ∈ pending_items y /\ 0 <= rank < zlen (kv_cache_stats (sched y)) /\ seq_ranks (sched y) !! req_id it = None /\
      running (sched y') = <[req_id it := (rank, (prefill_len it, DP.output_len it))]> (running (sched y)) /\
      submitted y' = submitted y ++ [(it, rank)]) \/
   (running (sched y') = running (sched y) /\ submitted y' = submitted y)) /\
  (forall it, it ∈ pending_items y' -> it ∈ pending_items y).
Proof.
  intros [Hwf (_ & _ & Hdom & _) _ _ Hfresh _ Hitems _] Hloop. unfold loop_step in Hloop.
  destruct y as [s p log]. cbn [sched pc submitted] in *. destruct p as [|it|]; [| |done].
  - destruct (end_event s).
    { injection Hloop as <-. cbn. split; [done|]. split; [by right|]. intros it. unfold pending_items. cbn.
      destruct (waiting_queue s); [done|by right]. }
    destruct (waiting_queue s) as [|it q] eqn:Hq; [done|]. injection Hloop as Hloop.
    unfold pending_items in *. cbn in *. rewrite Hq in *. apply Forall_cons in Hitems as [Hit _].
    destruct (placed_running it log (with_queue q s) y') as (Hb & Hc); try done; [apply Hfresh; by left|].
    split; [done|]. destruct Hc as [(rank & Hr & H1 & H2 & H3)|(H1 & H2 & H3)]; (split; [|intros x; unfold pending_items in H3; rewrite H3]).
    + left. exists it, rank. split; [by left|]. split; [done|]. split; [apply Hfresh; by left|done].
    + by right.
    + by right.
    + done.
  - destruct (sch_event s); [|done]. injection Hloop as Hloop. unfold pending_items in *. cbn in *. apply Forall_cons in Hitems as [Hit _].
    destruct (placed_running it log (with_events (end_flag s) (end_event s) false s) y') as (Hb & Hc); try done; [apply Hfresh; by left|].
    split; [done|]. destruct Hc as [(rank & Hr & H1 & H2 & H3)|(H1 & H2 & H3)]; (split; [|intros x; unfold pending_items in H3; rewrite H3]).
    + left. exists it, rank. split; [by left|]. split; [done|]. split; [apply Hfresh; by left|done].
    + by right.
    + by right.
    + done.
Qed.

(** Requests of a hundred tokens or more never outnumber the stash rows. *)
Lemma rows_suffice R nb :
  0 < bs -> (forall id p o, R !! id = Some (p, o) -> 100 <= req bs p o * bs) -> total (quota bs R) + 1 <= nb ->
  Z.of_nat (size R) <= stash_rows nb.
Proof.
  intros Hbs HR Ht. unfold stash_rows.
  assert (Hc : 100 * Z.of_nat (size R) <= total (quota bs R) * bs).
  { assert (Heq : total (quota bs R) * bs = total ((fun v => v * bs) <$> quota bs R)).
    { generalize (quota bs R). clear. intros q. induction q as [|i v q Hi IH] using map_ind; [done|].
      rewrite fmap_insert, !total_insert by (done || by rewrite lookup_fmap, Hi). rewrite <-IH. lia. }
    rewrite Heq. transitivity (100 * Z.of_nat (size ((fun v => v * bs) <$> quota bs R))).
    - unfold quota. rewrite !map_size_fmap. lia.
    - apply total_count. intros i v Hv. unfold quota in Hv. rewrite !lookup_fmap in Hv.
      destruct (R !! i) as [[p o]|] eqn:E; [|done]. cbn in Hv. injection Hv as <-. by apply HR with i. }
  assert (Z.of_nat (size R) <= nb * bs / 100); [|lia]. apply Z.div_le_lower_bound; [lia|]. nia.
Qed.

(** *** The invariant of the cluster *)

Lemma acceptable_pos it : 0 < bs -> acceptable it -> 0 < req bs (prefill_len it) (DP.output_len it).
Proof.
  intros Hbs (Hp & Ho & _). unfold req. pose proof (Z.div_pos (prefill_len it + bs - 1) bs ltac:(lia) Hbs).
  pose proof (Z.div_le_lower_bound (DP.output_len it + bs - 1) bs 1 Hbs ltac:(lia)). lia.
Qed.

Lemma rank_total cap nbs (y : Sys P) r nb :
  sys_inv cap y -> block_size (sched y) = bs -> Forall2 (fun c nb => c + 1 <= nb) cap nbs -> nbs !! r = Some nb ->
  total (quota bs (rank_map (Z.of_nat r) (running (sched y)))) + 1 <= nb.
Proof.
  intros Hs Hb Hsp Hnb. destruct (Forall2_lookup_r _ _ _ _ _ Hsp Hnb) as (c & Hc & Hle).
  destruct (sys_inv_reserved cap y r c Hs Hc) as (free & _ & Hf & E). specialize (Hf policy_checks). rewrite rank_used, <-Hb. lia.
Qed.

Lemma rank_long r m :
  map_Forall (fun _ '(_, (p, o)) => 100 <= req bs p o * bs) m ->
  forall id p o, rank_map r m !! id = Some (p, o) -> 100 <= req bs p o * bs.
Proof. intros Hm id p o E. apply rank_map_lookup in E. apply (Hm id (r, (p, o)) E). Qed.

Lemma inv_sys_bs cap nbs y : cluster_inv cap nbs y -> 0 < bs.
Proof. intros [Hs Hb _ _ _ _ _]. destruct Hs as [(Hbs & _) _ _ _ _ _ _ _]. lia. Qed.

Lemma cluster_inv_loop cap nbs y s' :
  100 <= min_tokens -> cluster_inv cap nbs y -> loop_step (csys y) = Some (Ok s') ->
  cluster_inv cap nbs {| csys := s'; workers := deliver (drop (length (submitted (csys y))) (submitted s')) (workers y) |}.
Proof.
  intros Hmin Hinv Hloop. pose proof (inv_sys_bs _ _ _ Hinv) as Hbs. destruct Hinv as [Hs Hb Hsp Hct Hit Hlong Hw].
  pose proof (sys_inv_step cap (csys y) [] s' Hs (step_loop _ _ Hloop)) as Hs'.
  destruct (loop_running cap (csys y) s' Hs Hloop) as (Eb & Hcase & Hsub).
  assert (Hit' : Forall acceptable (pending_items s')).
  { apply Forall_forall. intros it Hin. rewrite Forall_forall in Hit. by apply Hit, Hsub. }
  assert (Hb' : block_size (sched s') = bs) by congruence.
  destruct Hcase as [(it & rank & Hin & Hrank & Hfresh & Hrun & Hsu)|(Hrun & Hsu)].
  2:{ rewrite Hsu, drop_ge by lia. split; cbn; rewrite ?Hrun; done. }
  rewrite Forall_forall in Hit. pose proof (Hit it Hin) as Hacc. pose proof Hacc as (Hp & Ho & Hm & H100).
  set (po := (prefill_len it, DP.output_len it)) in *.
  assert (Hnone : running (sched (csys y)) !! req_id it = None).
  { destruct (inv_acc _ _ Hs) as (_ & _ & Hdom & _). by rewrite running_lookup, Hfresh. }
  assert (Hlong' : map_Forall (fun _ '(_, (p, o)) => 100 <= req bs p o * bs) (running (sched s'))).
  { rewrite Hrun. apply map_Forall_insert_2; [unfold po; lia|done]. }
  rewrite Hsu, drop_app_length. cbn [deliver foldl]. unfold deliver_one. cbn [fst snd].
  split; cbn [csys workers]; try done; [by rewrite length_alter|].
  intros r w nb Hwr Hnb. pose proof (rank_total cap nbs s' r nb Hs' Hb' Hsp Hnb) as Ht.
  pose proof (rows_suffice _ nb Hbs (rank_long (Z.of_nat r) _ Hlong') Ht) as Hrows.
  rewrite Hrun in *. destruct (decide (r = Z.to_nat rank)) as [->|Hne].
  - rewrite list_lookup_alter_eq in Hwr. apply fmap_Some in Hwr as (w0 & Hw0 & ->). rewrite Z2Nat.id in * by lia.
    rewrite rank_map_insert_eq in *.
    assert (HR : rank_map rank (running (sched (csys y))) !! req_id it = None).
    { destruct (rank_map rank (running (sched (csys y))) !! req_id it) as [x|] eqn:E; [|done]. apply rank_map_lookup in E. congruence. }
    apply (worker_grow num_layers bs nb (stash_rows nb) max_bs max_pages _ w0 (request_of it)); try done.
    + specialize (Hw _ w0 nb Hw0 Hnb). by rewrite Z2Nat.id in Hw by lia.
    + rewrite map_size_insert_None in Hrows by done. lia.
  - rewrite list_lookup_alter_ne in Hwr by done. rewrite rank_map_insert_ne by (done || lia). by apply Hw.
Qed.

Lemma cluster_inv_finish cap nbs y r w id s' :
  cluster_inv cap nbs y -> workers y !! r = Some w -> stages w !! id = Some Ended -> del_seq id (sched (csys y)) = Ok s' ->
  cluster_inv cap nbs {| csys := {| sched := s'; pc := pc (csys y); submitted := submitted (csys y) |};
                         workers := <[r := {| eng := eng w; stages := delete id (stages w) |}]> (workers y) |}.
Proof.
  intros Hinv Hwr Hst Hdel. destruct Hinv as [Hs Hb Hsp Hct Hit Hlong Hw].
  pose proof (sys_inv_del cap (csys y) id s' Hs Hdel) as Hs'.
  destruct (del_seq_frame _ _ _ Hdel) as (Eb & _ & _ & Eq & _ & Er & Em & _).
  assert (Hrun : running s' = delete id (running (sched (csys y)))).
  { unfold running. rewrite Er, Em. symmetry. apply (map_delete_zip_with pair). }
  destruct (lookup_lt_is_Some_2 nbs r) as [nb Hnb]; [apply lookup_lt_Some in Hwr; lia|].
  destruct (wi_stage _ _ _ _ _ _ _ _ (Hw r w nb Hwr Hnb) id _ Hst) as (p & o & HR & _).
  split; cbn [csys workers sched]; try done; [congruence|by rewrite length_insert| | |].
  - unfold pending_items in *. cbn. by rewrite Eq.
  - rewrite Hrun. by apply map_Forall_delete.
  - intros r' w' nb' Hwr' Hnb'. rewrite Hrun, rank_map_delete. destruct (decide (r' = r)) as [->|Hne].
    + rewrite list_lookup_insert_eq in Hwr' by (by eapply lookup_lt_Some). injection Hwr' as <-.
      apply worker_shrink; [by apply Hw|done].
    + rewrite list_lookup_insert_ne in Hwr' by done. rewrite delete_id; [by apply Hw|].
      destruct (rank_map (Z.of_nat r') (running (sched (csys y))) !! id) as [x|] eqn:E; [|done].
      apply rank_map_lookup in E, HR. rewrite HR in E. injection E as E _. lia.
Qed.

Lemma cluster_inv_worker cap nbs y r w' :
  cluster_inv cap nbs y ->
  (forall nb, nbs !! r = Some nb ->
     worker_inv num_layers bs nb (stash_rows nb) max_bs max_pages (rank_map (Z.of_nat r) (running (sched (csys y)))) w') ->
  cluster_inv cap nbs {| csys := csys y; workers := <[r := w']> (workers y) |}.
Proof.
  intros [Hs Hb Hsp Hct Hit Hlong Hw] Hw'. split; cbn [csys workers]; try done; [by rewrite length_insert|].
  intros r' w0 nb Hwr Hnb. apply list_lookup_insert_Some in Hwr as [(<- & <- & _)|(_ & Hwr)]; [by apply Hw'|by apply Hw].
Qed.

Lemma cluster_inv_control cap nbs y y' :
  100 <= min_tokens -> cluster_inv cap nbs y -> control_step y y' -> cluster_inv cap nbs y'.
Proof.
  intros Hmin Hinv Hstep. pose proof (inv_sys_bs _ _ _ Hinv) as Hbs.
  destruct Hstep as [y it Hid Hnew Hacc|y s' Hloop|y|y r w id s' Hwr Hst Hdel].
  - destruct Hinv as [Hs Hb Hsp Hct Hit Hlong Hw].
    assert (Hpos : 0 < item_req (sched (csys y)) it) by (unfold item_req; rewrite Hb; by apply acceptable_pos).
    split; cbn; try done; [by apply (sys_inv_step cap (csys y) [it]); [|apply step_put]|].
    unfold pending_items in *. cbn. destruct (pc (csys y)); rewrite ?app_comm_cons; apply Forall_app; split; try done; by constructor.
  - by apply cluster_inv_loop.
  - destruct Hinv as [Hs Hb Hsp Hct Hit Hlong Hw]. split; cbn; try done.
    apply (sys_inv_step cap (csys y) []); [done|apply step_terminate].
  - by eapply cluster_inv_finish.
Qed.

Lemma cluster_inv_step cap nbs y y' :
  0 < num_layers -> 0 <= max_pages -> 100 <= min_tokens -> cluster_inv cap nbs y -> cl_step y y' -> cluster_inv cap nbs y'.
Proof.
  intros HL Hmp Hmin Hinv Hstep. destruct Hstep as [y y' Hc|y r w w' tr Hwr Hst Had|y r w w' stash tb Hwr Hpb Hrun]; [by eapply cluster_inv_control|..].
  - apply cluster_inv_worker; [done|]. intros nb Hnb. pose proof (ci_workers _ _ _ Hinv r w nb Hwr Hnb) as Hw.
    destruct (admit_total (Z.of_nat r) hidden_size num_layers bs nb (stash_rows nb) max_bs max_pages rand _ w tr Hw Hst HL) as (w2 & E & Hw2 & _). congruence.
  - apply cluster_inv_worker; [done|]. intros nb Hnb. pose proof (ci_workers _ _ _ Hinv r w nb Hwr Hnb) as Hw.
    destruct (batch_total add (Z.of_nat r) hidden_size num_layers bs nb (stash_rows nb) max_bs max_pages _ stash w tb HL Hmp Hw Hpb) as (w2 & E & Hw2 & _). congruence.
Qed.

Lemma fresh_worker_inv nb w : fresh_worker nb w -> 1 <= nb -> worker_inv num_layers bs nb (stash_rows nb) max_bs max_pages ∅ w.
Proof.
  intros [Hc Hbs Hnb Hres Htab Hlen Hf Hb1 Hb2 Hfree Hmap Hst] H1. pose proof (ci_size _ Hc) as Hbs0. rewrite Hbs in Hbs0.
  split; try done.
  - split; [apply Hc|apply Hc|done|intros id l; by rewrite Htab|done|done|]. unfold quota. rewrite fmap_empty. unfold total. rewrite map_fold_empty. lia.
  - split; rewrite Hmap; [by rewrite Hfree, app_nil_r|constructor].
  - rewrite map_size_empty. unfold stash_rows. pose proof (Z.div_pos (nb * bs) 100). lia.
  - intros id st E. by rewrite Hst in E.
  - intros id [n E]. unfold lens_of in E. by rewrite Hlen in E.
  - intros id E. rewrite Hmap in E. by apply elem_of_nil in E.
  - intros id [l E]. by rewrite Htab in E.
Qed.

Lemma cluster_start_inv cap nbs y : cluster_start cap nbs y -> cluster_inv cap nbs y.
Proof.
  intros (Hst & Hb & Hsp & Hfw). pose proof (started_inv cap (csys y) Hst) as Hs.
  destruct Hst as (_ & _ & Hcap & Hr & Hm & Hq & Hpc & _).
  assert (Hrun : running (sched (csys y)) = ∅) by (unfold running; rewrite Hr, Hm; done).
  split; try done.
  - by rewrite (Forall2_length _ _ _ Hfw).
  - unfold pending_items. rewrite Hpc, Hq. constructor.
  - rewrite Hrun. apply map_Forall_empty.
  - intros r w nb Hwr Hnb. rewrite Hrun. assert (rank_map (Z.of_nat r) ∅ = ∅) as -> by apply omap_empty.
    apply fresh_worker_inv; [by eapply (Forall2_lookup_lr _ _ _ _ _ _ Hfw)|].
    destruct (Forall2_lookup_r _ _ _ _ _ Hsp Hnb) as (c & Hc & Hle). rewrite Forall_lookup in Hcap. specialize (Hcap r c Hc). cbn in Hcap. lia.
Qed.

Lemma reachable_inv cap nbs y : 0 < num_layers -> 0 <= max_pages -> 100 <= min_tokens -> reachable cap nbs y -> cluster_inv cap nbs y.
Proof. intros HL Hmp Hmin. induction 1 as [y Hs|y y' _ IH Hstep]; [by apply cluster_start_inv|by eapply cluster_inv_step]. Qed.

(** C2. Admission is enough.  When the scheduling policy looks at the free blocks (the
    plain round robin does not), every rank has one block more than the scheduler is told
    and the clients put requests of at least a hundred tokens that fit the page buffers,
    then in every state the system reaches, whatever the order of its steps and
    whatever the pool hands out, a worker admits any request of its socket, runs any
    batch of the pool (allocating blocks, appending tokens, taking stash rows, packing
    the metadata, sampling and releasing) and the controller deletes any ended request,
    all without an exception. *)
Theorem admission_suffices cap nbs y :
  0 < num_layers -> 0 <= max_pages -> 100 <= min_tokens -> reachable cap nbs y ->
  forall r w, workers y !! r = Some w ->
    (forall tr, stages w !! tr_req_id tr = Some (Sent tr) -> is_ok (admit_request (Z.of_nat r) hidden_size rand tr w) = true) /\
    (forall stash tb, pool_batch num_layers max_bs w tb ->
       is_ok (run_batch add (Z.of_nat r) hidden_size num_layers stash tb w) = true) /\
    (forall id, stages w !! id = Some Ended -> is_ok (del_seq id (sched (csys y))) = true).
Proof.
  intros HL Hmp Hmin Hreach r w Hwr. pose proof (reachable_inv cap nbs y HL Hmp Hmin Hreach) as Hinv.
  destruct (lookup_lt_is_Some_2 nbs r) as [nb Hnb]; [rewrite <-(ci_count _ _ _ Hinv); by eapply lookup_lt_Some|].
  pose proof (ci_workers _ _ _ Hinv r w nb Hwr Hnb) as Hw. split; [|split].
  - intros tr Hst. destruct (admit_total (Z.of_nat r) hidden_size num_layers bs nb (stash_rows nb) max_bs max_pages rand _ w tr Hw Hst HL) as (w2 & -> & _). done.
  - intros stash tb Hpb. destruct (batch_total add (Z.of_nat r) hidden_size num_layers bs nb (stash_rows nb) max_bs max_pages _ stash w tb HL Hmp Hw Hpb) as (w2 & -> & _). done.
  - intros id Hst. destruct (wi_stage _ _ _ _ _ _ _ _ Hw id _ Hst) as (p & o & HR & _). apply rank_map_lookup in HR.
    destruct (ci_sys _ _ _ Hinv) as [(Hb & Hd & Hk & _) (_ & _ & Hdom & Hrk) _ _ _ _ _ _].
    rewrite running_lookup in HR by done. unfold del_seq.
    destruct (seq_ranks (sched (csys y)) !! id) as [rk|] eqn:E1; [|done]. destruct (seq_max_len (sched (csys y)) !! id) as [[p' o']|] eqn:E2; [|done].
    cbn [of_option mbind res_bind]. rewrite required_blocks_eq by lia. cbn [mbind res_bind].
    pose proof (Hrk id rk E1) as Hlt. cbn in Hlt.
    destruct (lookup_lt_is_Some_2 (kv_cache_stats (sched (csys y))) (Z.to_nat rk)) as [f Hf]; [unfold zlen in Hlt; lia|].
    rewrite py_get_nonneg, Hf by lia. cbn [of_option mbind res_bind]. by rewrite py_set_nonneg by lia.
Qed.

(** *** Executable steps *)

Inductive action : Type :=
  | Put (it : RequestItem)
  | Loop
  | Admit (r : nat) (tr : TokenizedRequest).

#[local] Instance acceptable_dec it : Decision (acceptable it) := _.

Definition exec (y : Cluster) (a : action) : option Cluster :=
  match a with
  | Put it =>
      if decide (seq_ranks (sched (csys y)) !! req_id it = None /\ req_id it ∉ req_id <$> pending_items (csys y) /\ acceptable it)
      then Some {| csys := {| sched := put_request it (sched (csys y)); pc := pc (csys y); submitted := submitted (csys y) |};
                   workers := workers y |}
      else None
  | Loop =>
      match loop_step (csys y) with
      | Some (Ok s') => Some {| csys := s'; workers := deliver (drop (length (submitted (csys y))) (submitted s')) (workers y) |}
      | _ => None
      end
  | Admit r tr =>
      w ← workers y !! r;
      match stages w !! tr_req_id tr with
      | Some (Sent tr') =>
          match admit_request (Z.of_nat r) hidden_size rand tr' w with
          | Ok w' => if decide (tr_req_id tr' = tr_req_id tr) then Some {| csys := csys y; workers := <[r := w']> (workers y) |} else None
          | Raise _ => None
          end
      | _ => None
      end
  end.

Definition exec_all (l : list action) (y : Cluster) : option Cluster := foldl (fun y a => y ≫= fun y => exec y a) (Some y) l.

Lemma exec_step y a y' : exec y a = Some y' -> cl_step y y'.
Proof.
  destruct a as [it| |r tr]; cbn [exec].
  - case_decide as Hd; [|done]. intros [= <-]. destruct Hd as (? & ? & ?). by apply cl_control, cl_put.
  - destruct (loop_step (csys y)) as [[s'|]|] eqn:E; try done. intros [= <-]. by apply cl_control, cl_loop.
  - destruct (workers y !! r) as [w|] eqn:Hw; [|done]. cbn [mbind option_bind]. destruct (stages w !! tr_req_id tr) as [[tr'| |]|] eqn:Hs; try done.
    destruct (admit_request _ _ _ _ _) as [w'|] eqn:Ha; [|done]. case_decide as Hd; [|done]. intros [= <-].
    eapply cl_admit; [exact Hw| |exact Ha]. by rewrite Hd.
Qed.

Lemma exec_reachable cap nbs l y y' : reachable cap nbs y -> exec_all l y = Some y' -> reachable cap nbs y'.
Proof.
  unfold exec_all. intros Hy. revert y'. induction l as [|a l IH] using rev_ind; intros y'; [by intros [= <-]|].
  rewrite foldl_snoc. intros E. destruct (foldl _ (Some y) l) as [y1|] eqn:E1; [|done].
  cbn [mbind option_bind] in E. eapply reach_step; [by apply IH|]. by eapply exec_step.
Qed.
End Cluster.

(** *** One rank of sixteen 16-token blocks *)

Definition demo_prompt (_ : Z) : list Z := [].

Definition demo_worker : Worker Z :=
  {| eng := {| dummy_sampler := {| req_max_output_len := []; output_len := [] |};
               block_mgr := {| cpu_layer_ids := [0; 1]; _block_mgr := bm_init 16 16 0; use_gdr_copy := true; use_rebind := true;
                               req_manager := req_manager_init 3 false; tensor_buffer := buffer_init 4 8 0;
                               tensor_buffer_alt := buffer_init 4 8 0 |};
               stash_free_slots := py_range 3; stash_slot_map := []; pool_puts := []; sent := []; puts := [] |};
     stages := ∅ |}.

Definition demo_start : Cluster (T := Z) (P := DPSchedulerCapRR) :=
  {| csys := {| sched := let s := init 1 16 {| cap_cur_rank := 0 |} in ok_or s (start [(0, 15)] s); pc := Waiting; submitted := [] |};
     workers := [demo_worker] |}.

Definition demo_item (id p o : Z) : RequestItem := {| req_id := id; seq_len := p + o; prefill_len := p; DP.output_len := o |}.

Definition demo_request (id p o : Z) : TokenizedRequest := request_of demo_prompt (demo_item id p o).

(** Requests of [p + o] tokens put, placed and admitted. *)
Definition demo_actions (p o : Z) (ids : list Z) : list action :=
  id ← ids; [Put (demo_item id p o); Loop; Admit 0 (demo_request id p o)].

Definition demo_state (min_tokens p o : Z) (ids : list Z) : Cluster :=
  default demo_start (exec_all 0 4 demo_prompt 16 8 min_tokens (demo_actions p o ids) demo_start).

Definition demo_eng (y : Cluster (T := Z) (P := DPSchedulerCapRR)) : Worker Z := default demo_worker (head (workers y)).

(** The admitted rows as one batch of the first layer. *)
Definition demo_batch (p : Z) (ids : list Z) : TokenBatch Z :=
  {| tb_data := (fun _ => 7) <$> ids;
     tb_meta := {| shape := [zlen ids; 4]; md_dtype := "bfloat16"; layer_id := 0; req_ids := ids; exp_ids := [];
                   topk_weights := []; attn_dp_ranks := []; init_prefill_lens := (fun _ => p) <$> ids;
                   num_prefill_seqs := Some (zlen ids); num_prefill_tokens := Some (zlen ids); num_decode_tokens := Some 0 |} |}.

Lemma demo_starts : cluster_start 16 4 8 [15] [16] demo_start.
Proof.
  split; [|split; [done|split]].
  - repeat split; try done. by repeat constructor.
  - repeat constructor. lia.
  - constructor; [|constructor]. split; try done.
    split; try done; try (intros ? ? [=]). unfold conserved. vm_compute. reflexivity.
Qed.

Lemma demo_state_reachable min_tokens p o ids :
  exec_all 0 4 demo_prompt 16 8 min_tokens (demo_actions p o ids) demo_start = Some (demo_state min_tokens p o ids) ->
  reachable Z.add 0 4 2 demo_prompt 16 4 8 min_tokens [15] [16] (demo_state min_tokens p o ids).
Proof. intros E. eapply exec_reachable; [|exact E]. apply reach_start, demo_starts. Qed.

Lemma demo_pool_batch p ids (w : Worker Z) :
  0 <= p -> NoDup ids -> 0 < zlen ids <= 4 -> Forall (fun id => stages w !! id = Some (Queued 0 p)) ids ->
  pool_batch 2 4 w (demo_batch p ids).
Proof.
  intros Hp Hnd Hn Hall. split; cbn; try done; [by eexists| |by rewrite length_fmap| |].
  - unfold aligned. cbn. rewrite length_fmap. naive_solver.
  - intros k id Hid. exists p. rewrite list_lookup_fmap, Hid. split; [done|]. rewrite Forall_forall in Hall.
    eapply Hall, list_elem_of_lookup_2, Hid.
  - exists (zlen ids). split_and!; try done; try lia; [f_equal; lia|]. intros k pl Hk. rewrite list_lookup_fmap in Hk.
    apply fmap_Some in Hk as (id & Hk & ->). apply lookup_lt_Some in Hk. unfold zlen. lia.
Qed.

(** C30. Below a hundred tokens the rows run out: with requests of 32 tokens the scheduler
    places four on a rank that has three stash rows, and the batch of the four raises. *)
Theorem short_requests_exhaust :
  exists (y : Cluster (T := Z) (P := DPSchedulerCapRR)) w tb, reachable Z.add 0 4 2 demo_prompt 16 4 8 32 [15] [16] y /\ workers y !! 0%nat = Some w /\
    pool_batch 2 4 w tb /\ run_batch Z.add 0 4 2 (fun s => s) tb w = Raise IndexError.
Proof.
  exists (demo_state 32 16 16 [0; 1; 2; 3]), (demo_eng (demo_state 32 16 16 [0; 1; 2; 3])), (demo_batch 16 [0; 1; 2; 3]).
  split; [apply demo_state_reachable; vm_compute; reflexivity|]. split; [vm_compute; reflexivity|].
  split; [|vm_compute; reflexivity].
  apply demo_pool_batch; [lia|by apply (bool_decide_unpack _)|vm_compute; split; [reflexivity|discriminate]|].
  repeat constructor; vm_compute; reflexivity.
Qed.

Lemma admission_suffices_witness :
  let y := demo_state 100 80 32 [5; 6] in
  is_ok (run_batch Z.add 0 4 2 (fun s => s) (demo_batch 80 [5; 6]) (demo_eng y)) = true.
Proof.
  intros y.
  destruct (admission_suffices Z.add 0 4 2 demo_prompt 16 4 8 100 [15] [16] y) with (r := 0%nat) (w := demo_eng y) as (_ & Hb & _).
  - lia.
  - lia.
  - lia.
  - apply demo_state_reachable. vm_compute. reflexivity.
  - vm_compute. reflexivity.
  - apply Hb. apply demo_pool_batch; [lia|by apply (bool_decide_unpack _)|vm_compute; split; [reflexivity|discriminate]|].
    repeat constructor; vm_compute; reflexivity.
Defined.

End Capacity.
