(* ===== verification/Pool.v ===== *)
(** * The token pool of a worker ([csrc/muhelper/pool.cpp], [layer.cpp], [muhelper.cpp])

    Between the network and the engine: [UnifiedPool.process_batch] files the batches
    that arrive under their layer, gathering the [top_k] expert copies of a token
    ([TokenTopKPool]); the layer scheduler picks a layer and
    [get_batch_from_layer_restricted] takes at most a threshold of its tokens and
    merges them into one batch ([TokenBatch::merge], [pack_topk_tokens]).  A hidden row
    is an element of [T]; copying rows through a pointer array is copying list
    elements, and reading or writing outside an array raises.  [std_sort] is
    [std::sort]. *)

From stdpp Require Import strings.
From S2P Require Import Prelude PyFloat Datatypes MemOps BlockManager Engine.
Import Datatypes BlockManager Engine.

Module Pool.

Inductive BatchTag : Type := ATTENTION | EXPERT | TOKENIZER.

#[export] Instance BatchTag_dec : EqDecision BatchTag.
Proof. solve_decision. Defined.

(** ** The copies of a token ([datatypes.hpp], [TokenTopKPool]) *)

Record TokenTopKInfo (T : Type) : Type := {
  seq_id : Z;
  ti_init_prefill_len : Z;
  ti_attn_dp_rank : Z;
  topk_tensors : list T;
}.
Arguments seq_id {T} _.
Arguments ti_init_prefill_len {T} _.
Arguments ti_attn_dp_rank {T} _.
Arguments topk_tensors {T} _.

Section Pool.
Context {T : Type}.

Definition append_tensor (x : T) (t : TokenTopKInfo T) : TokenTopKInfo T :=
  {| seq_id := seq_id t; ti_init_prefill_len := ti_init_prefill_len t; ti_attn_dp_rank := ti_attn_dp_rank t;
     topk_tensors := topk_tensors t ++ [x] |}.

Record TokenTopKPool : Type := {
  pool_ : gmap Z (TokenTopKInfo T);
  ready_tokens : list (TokenTopKInfo T);
}.

Definition new_topk_pool : TokenTopKPool := {| pool_ := ∅; ready_tokens := [] |}.

(** The loop body of [put_batch]: one row of the batch. *)
Definition put_row (top_k : Z) (m : BatchMetadata) (data : list T) (p : TokenTopKPool) (i : Z) : res TokenTopKPool :=
  id ← vec_at (req_ids m) i;
  x ← vec_at data i;
  match pool_ p !! id with
  | None =>
      pl ← vec_at (init_prefill_lens m) i;
      rk ← vec_at (attn_dp_ranks m) i;
      Ok {| pool_ := <[id := {| seq_id := id; ti_init_prefill_len := pl; ti_attn_dp_rank := rk; topk_tensors := [x] |}]> (pool_ p);
            ready_tokens := ready_tokens p |}
  | Some t =>
      let t := append_tensor x t in
      if zlen (topk_tensors t) =? top_k
      then Ok {| pool_ := delete id (pool_ p); ready_tokens := ready_tokens p ++ [t] |}
      else Ok {| pool_ := <[id := t]> (pool_ p); ready_tokens := ready_tokens p |}
  end.

Definition topk_put_batch (top_k : Z) (b : TokenBatch T) (p : TokenTopKPool) : res TokenTopKPool :=
  let m := tb_meta b in
  n ← meta_num_tokens m;
  _ ← ASSERT (zlen (tb_data b) =? n);
  _ ← ASSERT (n =? zlen (req_ids m));
  _ ← ASSERT (n =? zlen (attn_dp_ranks m));
  _ ← ASSERT (n =? zlen (init_prefill_lens m));
  py_for (put_row top_k m (tb_data b)) (py_range n) p.

Definition fetch_ready_tokens (p : TokenTopKPool) : list (TokenTopKInfo T) * TokenTopKPool :=
  (ready_tokens p, {| pool_ := pool_ p; ready_tokens := [] |}).

(** ** Splitting and merging batches ([metadata.hpp], [batch.hpp]) *)

(** [split_vector_by_size]: an absent vector gives absent pieces. *)
Fixpoint cut_sizes {A} (v : list A) (sizes : list Z) : res (list (list A)) :=
  match sizes with
  | [] => Ok []
  | s :: sizes =>
      _ ← ASSERT ((0 <=? s) && (s <=? zlen v));
      r ← cut_sizes (drop (Z.to_nat s) v) sizes;
      Ok (take (Z.to_nat s) v :: r)
  end.

Definition split_vector_by_size {A} (v : list A) (sizes : list Z) : res (list (list A)) :=
  match v with [] => Ok ((fun _ => []) <$> sizes) | _ => cut_sizes v sizes end.

(** [torch::split] needs the sizes to add up. *)
Definition split_tensor_by_size {A} (v : list A) (sizes : list Z) : res (list (list A)) :=
  _ ← py_check (sumZ sizes =? zlen v) RuntimeError; cut_sizes v sizes.

Record Tagged : Type := { batch_tag : BatchTag; tagged : TokenBatch T }.

Definition split_meta (tag : BatchTag) (m : BatchMetadata) (h s : Z) (rq ex rk pl : list Z) (w : list float) : BatchMetadata :=
  let prefill := zlen (filter (fun l => l <> -1) pl) in
  let cnt (x : Z) := if decide (tag = ATTENTION) then Some x else None in
  {| shape := [s; h]; md_dtype := md_dtype m; layer_id := layer_id m; req_ids := rq; exp_ids := ex; topk_weights := w;
     attn_dp_ranks := rk; init_prefill_lens := pl; num_prefill_seqs := cnt prefill; num_prefill_tokens := cnt prefill;
     num_decode_tokens := cnt (s - prefill) |}.

Definition split_with_sizes (b : Tagged) (sizes : list Z) : res (list Tagged) :=
  let m := tb_meta (tagged b) in
  rq ← split_vector_by_size (req_ids m) sizes;
  ex ← split_vector_by_size (exp_ids m) sizes;
  rk ← split_vector_by_size (attn_dp_ranks m) sizes;
  pl ← split_vector_by_size (init_prefill_lens m) sizes;
  w ← split_vector_by_size (topk_weights m) sizes;
  h ← vec_at (shape m) 1;
  data ← split_tensor_by_size (tb_data (tagged b)) sizes;
  py_map (fun '(i, s) =>
      rq ← vec_at rq i; ex ← vec_at ex i; rk ← vec_at rk i; pl ← vec_at pl i; w ← vec_at w i; d ← vec_at data i;
      Ok {| batch_tag := batch_tag b; tagged := {| tb_data := d; tb_meta := split_meta (batch_tag b) m h s rq ex rk pl w |} |})
    (enumerate sizes).

Definition attention_batch_safe_check (m : BatchMetadata) : res (Z * Z * Z) :=
  match num_prefill_tokens m, num_prefill_seqs m, num_decode_tokens m with
  | Some p, Some s, Some d => _ ← ASSERT (p =? s); Ok (s, p, d)
  | _, _, _ => Raise RuntimeError
  end.

(** [merge_by_attention] of the metadata: first the prefill rows of all batches, then
    the others. *)
Definition merge_meta_by_attention (metas : list BatchMetadata) : res BatchMetadata :=
  '(s, p, d, rq, pl) ← py_for (fun '(s, p, d, rq, pl) m =>
      '(s', p', d') ← attention_batch_safe_check m;
      ids ← py_map (vec_at (req_ids m)) (py_range s');
      lens ← py_map (vec_at (init_prefill_lens m)) (py_range s');
      Ok (s + s', p + p', d + d', rq ++ ids, pl ++ lens)) metas (0, 0, 0, [], []);
  '(rq, pl) ← py_for (fun '(rq, pl) m =>
      '(s', _, d') ← attention_batch_safe_check m;
      ids ← py_map (vec_at (req_ids m)) (py_range2 s' (s' + d'));
      lens ← py_map (vec_at (init_prefill_lens m)) (py_range2 s' (s' + d'));
      Ok (rq ++ ids, pl ++ lens)) metas (rq, pl);
  m0 ← vec_at metas 0;
  Ok {| shape := zlen rq :: py_drop 1 (shape m0); md_dtype := md_dtype m0; layer_id := layer_id m0; req_ids := rq;
        exp_ids := []; topk_weights := []; attn_dp_ranks := []; init_prefill_lens := pl; num_prefill_seqs := Some s;
        num_prefill_tokens := Some p; num_decode_tokens := Some d |}.

(** The pointer array of [merge_by_attention]: [n] consecutive rows of a batch, from row
    [from], go to the slots from [idx]. *)
Definition fill_rows (data : list T) (from n idx : Z) (srcs : list (option T)) : res (list (option T)) :=
  py_for (fun srcs i => x ← vec_at data (from + i); arr_set srcs (idx + i) (Some x)) (py_range n) srcs.

(** Reading through the pointers; an unset one is not a row. *)
Definition gather_tokens (srcs : list (option T)) : res (list T) := py_map (of_option RuntimeError) srcs.

Definition merge_by_attention (batches : list (TokenBatch T)) : res (TokenBatch T) :=
  m ← merge_meta_by_attention (tb_meta <$> batches);
  n ← meta_num_tokens m;
  decode_idx ← of_option RuntimeError (num_prefill_tokens m);
  '(srcs, _, _) ← py_for (fun '(srcs, prefill_idx, decode_idx) b =>
      p ← of_option RuntimeError (num_prefill_tokens (tb_meta b));
      d ← of_option RuntimeError (num_decode_tokens (tb_meta b));
      srcs ← fill_rows (tb_data b) 0 p prefill_idx srcs;
      srcs ← fill_rows (tb_data b) p d decode_idx srcs;
      Ok (srcs, prefill_idx + p, decode_idx + d)) batches (replicate (Z.to_nat n) None, 0, decode_idx);
  rows ← gather_tokens srcs;
  Ok {| tb_data := rows; tb_meta := m |}.

(** [merge_by_expert] of the metadata, with the position of every row. *)
Record placed : Type := {
  pl_positions : list Z; pl_req_ids : list Z; pl_exp_ids : list Z; pl_ranks : list Z; pl_lens : list Z;
  pl_weights : list float; pl_cnts : list Z; pl_first : Z; pl_idx : Z;
}.

Definition place_row (m : BatchMetadata) (st : placed) (i : Z) : res placed :=
  e ← vec_at (exp_ids m) i;
  '(pos, cnts, first) ← (if e =? 0 then Ok (pl_first st, pl_cnts st, pl_first st + 1)
                         else p ← vec_at (pl_cnts st) (e - 1); c ← arr_set (pl_cnts st) (e - 1) (p + 1); Ok (p, c, pl_first st));
  ps ← arr_set (pl_positions st) (pl_idx st) pos;
  id ← vec_at (req_ids m) i; rq ← arr_set (pl_req_ids st) pos id;
  ex ← arr_set (pl_exp_ids st) pos e;
  k ← vec_at (attn_dp_ranks m) i; rk ← arr_set (pl_ranks st) pos k;
  l ← vec_at (init_prefill_lens m) i; lens ← arr_set (pl_lens st) pos l;
  w ← match topk_weights m with [] => Ok (pl_weights st) | ws => w ← vec_at ws i; arr_set (pl_weights st) pos w end;
  Ok {| pl_positions := ps; pl_req_ids := rq; pl_exp_ids := ex; pl_ranks := rk; pl_lens := lens; pl_weights := w;
        pl_cnts := cnts; pl_first := first; pl_idx := pl_idx st + 1 |}.

Definition merge_meta_by_expert (metas : list BatchMetadata) : res (list Z * BatchMetadata) :=
  m0 ← vec_at metas 0;
  total ← py_for (fun t m => n ← meta_num_tokens m; Ok (t + n)) metas 0;
  cnts ← py_for (fun c m =>
      n ← meta_num_tokens m;
      _ ← ASSERT (n =? zlen (exp_ids m));
      py_for (fun c e => x ← vec_at c e; arr_set c e (x + 1)) (exp_ids m) c) metas (replicate (Z.to_nat max_num_experts) 0);
  cnts ← py_for (fun c i => x ← vec_at c i; y ← vec_at c (i - 1); arr_set c i (x + y))
           (py_range2 1 max_num_experts) cnts;
  let zeros {A} (x : A) := replicate (Z.to_nat total) x in
  st ← py_for (fun st m => n ← meta_num_tokens m; py_for (place_row m) (py_range n) st) metas
         {| pl_positions := zeros 0; pl_req_ids := zeros 0; pl_exp_ids := zeros 0; pl_ranks := zeros 0; pl_lens := zeros 0;
            pl_weights := zeros (float_of_Z 0); pl_cnts := cnts; pl_first := 0; pl_idx := 0 |};
  Ok (pl_positions st,
      {| shape := total :: py_drop 1 (shape m0); md_dtype := md_dtype m0; layer_id := layer_id m0; req_ids := pl_req_ids st;
         exp_ids := pl_exp_ids st; topk_weights := pl_weights st; attn_dp_ranks := pl_ranks st; init_prefill_lens := pl_lens st;
         num_prefill_seqs := None; num_prefill_tokens := None; num_decode_tokens := None |}).

Definition merge_by_expert (batches : list (TokenBatch T)) : res (TokenBatch T) :=
  '(mappings, m) ← merge_meta_by_expert (tb_meta <$> batches);
  n ← meta_num_tokens m;
  '(srcs, _) ← py_for (fun '(srcs, idx) b =>
      k ← meta_num_tokens (tb_meta b);
      py_for (fun '(srcs, idx) i => x ← vec_at (tb_data b) i; p ← vec_at mappings idx; s ← arr_set srcs p (Some x); Ok (s, idx + 1))
        (py_range k) (srcs, idx)) batches (replicate (Z.to_nat n) None, 0);
  rows ← gather_tokens srcs;
  Ok {| tb_data := rows; tb_meta := m |}.

(** [None] is the empty [TokenBatch]. *)
Definition merge (batches : list Tagged) : res (option (TokenBatch T)) :=
  match batches with
  | [] => Ok None
  | [b] => Ok (Some (tagged b))
  | b :: _ =>
      match batch_tag b with
      | EXPERT => t ← merge_by_expert (tagged <$> batches); Ok (Some t)
      | ATTENTION => t ← merge_by_attention (tagged <$> batches); Ok (Some t)
      | TOKENIZER => Raise RuntimeError
      end
  end.

(** ** Tokens whose copies are complete *)

(** [add x acc] is the sum the kernel stores over [acc]. *)
Context (add : T -> T -> T) (std_sort : (TokenTopKInfo T -> TokenTopKInfo T -> bool) -> list (TokenTopKInfo T) -> list (TokenTopKInfo T)).

Definition token_before (a b : TokenTopKInfo T) : bool :=
  if (ti_init_prefill_len a =? -1) || (ti_init_prefill_len b =? -1)
  then ti_init_prefill_len b <? ti_init_prefill_len a
  else seq_id a <? seq_id b.

Definition pack_topk_meta (h : Z) (layer : Z) (tokens : list (TokenTopKInfo T)) : BatchMetadata :=
  let '(s, p, d, ids, lens, ranks) :=
    foldl (fun '(s, p, d, ids, lens, ranks) t =>
        if ti_init_prefill_len t =? -1
        then (s, p, d + 1, ids ++ [seq_id t], lens ++ [-1], ranks ++ [ti_attn_dp_rank t])
        else (s + 1, p + 1, d, ids ++ [seq_id t], lens ++ [ti_init_prefill_len t], ranks ++ [ti_attn_dp_rank t]))
      (0, 0, 0, [], [], []) tokens in
  {| shape := [zlen tokens; h]; md_dtype := "bf16"; layer_id := layer; req_ids := ids; exp_ids := []; topk_weights := [];
     attn_dp_ranks := ranks; init_prefill_lens := lens; num_prefill_seqs := Some s; num_prefill_tokens := Some p;
     num_decode_tokens := Some d |}.

(** [gather_and_sum]: the copies of a token, the first and then the others added to it. *)
Definition sum_copies (l : list T) : res T :=
  match l with [] => Raise RuntimeError | x :: l => Ok (foldl (fun acc y => add y acc) x l) end.

(** [h] is the hidden size; the pointers are laid out with as many per token as the first
    token has copies. *)
Definition pack_topk_tokens (h layer : Z) (tokens : list (TokenTopKInfo T)) : res (TokenBatch T) :=
  let tokens := std_sort token_before tokens in
  t0 ← vec_at tokens 0;
  let topk := zlen (topk_tensors t0) in
  srcs ← py_map (fun t => py_map (vec_at (topk_tensors t)) (py_range topk)) tokens;
  rows ← py_map sum_copies srcs;
  Ok {| tb_data := rows; tb_meta := pack_topk_meta h layer tokens |}.

(** ** Layers ([UnifiedLayer]) *)

Record UnifiedLayer : Type := { batch_queue : list Tagged; token_queue : list (TokenTopKInfo T); num_tokens_ : Z }.

Definition new_layer : UnifiedLayer := {| batch_queue := []; token_queue := []; num_tokens_ := 0 |}.

Definition add_batch (b : Tagged) (l : UnifiedLayer) : res UnifiedLayer :=
  n ← meta_num_tokens (tb_meta (tagged b));
  Ok {| batch_queue := batch_queue l ++ [b]; token_queue := token_queue l; num_tokens_ := num_tokens_ l + n |}.

Definition add_tokens (ts : list (TokenTopKInfo T)) (l : UnifiedLayer) : UnifiedLayer :=
  {| batch_queue := batch_queue l; token_queue := token_queue l ++ ts; num_tokens_ := num_tokens_ l + zlen ts |}.

(** The loop of [get_batches_restricted]: the batches taken, the queue left and the
    tokens taken.  A batch that does not fit is split, and its first part fills the
    threshold. *)
Fixpoint take_batches (threshold total : Z) (q : list Tagged) : res (list Tagged * list Tagged * Z) :=
  match q with
  | [] => Ok ([], [], total)
  | b :: q' =>
      if total <? threshold then
        n ← meta_num_tokens (tb_meta (tagged b));
        if threshold <? total + n then
          parts ← split_with_sizes b [threshold - total; n - (threshold - total)];
          b1 ← vec_at parts 0;
          b2 ← vec_at parts 1;
          k ← meta_num_tokens (tb_meta (tagged b1));
          Ok ([b1], b2 :: q', total + k)
        else
          '(r, q2, t) ← take_batches threshold (total + n) q';
          Ok (b :: r, q2, t)
      else Ok ([], q, total)
  end.

Definition get_batches_restricted (threshold : Z) (l : UnifiedLayer) : res (list Tagged * UnifiedLayer) :=
  '(r, q, t) ← take_batches threshold 0 (batch_queue l);
  _ ← ASSERT ((0 <? t) && negb (zlen r =? 0));
  Ok (r, {| batch_queue := q; token_queue := token_queue l; num_tokens_ := num_tokens_ l - t |}).

Definition get_tokens_restricted (threshold : Z) (l : UnifiedLayer) : list (TokenTopKInfo T) * UnifiedLayer :=
  let r := take (Z.to_nat threshold) (token_queue l) in
  (r, {| batch_queue := batch_queue l; token_queue := drop (Z.to_nat threshold) (token_queue l); num_tokens_ := num_tokens_ l - zlen r |}).

(** ** The pool and its scheduler ([UnifiedPool], [UnifiedLayerScheduler]) *)

Record UnifiedPool : Type := {
  topk_pools : list TokenTopKPool;
  attn_layers : list UnifiedLayer;
  expert_layers : list UnifiedLayer;
  attn_schedule_token_threshold : Z;
  expert_schedule_token_threshold : Z;
}.

Context (top_k num_groups hidden : Z).

(** The constructor and [set_schedule_token_threshold]. *)
Definition new_pool (num_layers attn_threshold expert_threshold : Z) : UnifiedPool :=
  let n := Z.to_nat num_layers in
  {| topk_pools := if 1 <? top_k then replicate (n + 1) new_topk_pool else [];
     attn_layers := replicate (n + 1) new_layer; expert_layers := replicate n new_layer;
     attn_schedule_token_threshold := attn_threshold; expert_schedule_token_threshold := expert_threshold |}.

Definition with_attn (l : list UnifiedLayer) (p : UnifiedPool) : UnifiedPool :=
  {| topk_pools := topk_pools p; attn_layers := l; expert_layers := expert_layers p;
     attn_schedule_token_threshold := attn_schedule_token_threshold p;
     expert_schedule_token_threshold := expert_schedule_token_threshold p |}.

Definition with_expert (l : list UnifiedLayer) (p : UnifiedPool) : UnifiedPool :=
  {| topk_pools := topk_pools p; attn_layers := attn_layers p; expert_layers := l;
     attn_schedule_token_threshold := attn_schedule_token_threshold p;
     expert_schedule_token_threshold := expert_schedule_token_threshold p |}.

Definition with_topk (l : list TokenTopKPool) (p : UnifiedPool) : UnifiedPool :=
  {| topk_pools := l; attn_layers := attn_layers p; expert_layers := expert_layers p;
     attn_schedule_token_threshold := attn_schedule_token_threshold p;
     expert_schedule_token_threshold := expert_schedule_token_threshold p |}.

(** [add_batch] of the scheduler. *)
Definition sched_add_batch (b : Tagged) (p : UnifiedPool) : res UnifiedPool :=
  let i := layer_id (tb_meta (tagged b)) in
  match batch_tag b with
  | ATTENTION => l ← vec_at (attn_layers p) i; l ← add_batch b l; ls ← arr_set (attn_layers p) i l; Ok (with_attn ls p)
  | EXPERT => l ← vec_at (expert_layers p) i; l ← add_batch b l; ls ← arr_set (expert_layers p) i l; Ok (with_expert ls p)
  | TOKENIZER => Raise RuntimeError
  end.

Definition attn_add_tokens (i : Z) (ts : list (TokenTopKInfo T)) (p : UnifiedPool) : res UnifiedPool :=
  l ← vec_at (attn_layers p) i; ls ← arr_set (attn_layers p) i (add_tokens ts l); Ok (with_attn ls p).

Definition process_attn_batch_topk (b : TokenBatch T) (p : UnifiedPool) : res UnifiedPool :=
  let i := layer_id (tb_meta b) in
  tp ← vec_at (topk_pools p) i;
  tp ← topk_put_batch top_k b tp;
  let '(ready, tp) := fetch_ready_tokens tp in
  tps ← arr_set (topk_pools p) i tp;
  let p := with_topk tps p in
  if zlen ready =? 0 then Ok p else attn_add_tokens i ready p.

Definition with_counts (s d : Z) (m : BatchMetadata) : BatchMetadata :=
  {| shape := shape m; md_dtype := md_dtype m; layer_id := layer_id m; req_ids := req_ids m; exp_ids := exp_ids m;
     topk_weights := topk_weights m; attn_dp_ranks := attn_dp_ranks m; init_prefill_lens := init_prefill_lens m;
     num_prefill_seqs := Some s; num_prefill_tokens := Some s; num_decode_tokens := Some d |}.

Definition process_attn_batch (b : TokenBatch T) (p : UnifiedPool) : res UnifiedPool :=
  let m := tb_meta b in
  '(s, d) ← py_for (fun '(s, d) i =>
      l ← vec_at (init_prefill_lens m) i; if l =? -1 then Ok (s, d + 1) else Ok (s + 1, d))
    (py_range (zlen (req_ids m))) (0, 0);
  sched_add_batch {| batch_tag := ATTENTION; tagged := {| tb_data := tb_data b; tb_meta := with_counts s d m |} |} p.

Definition process_expert_batch (b : TokenBatch T) (p : UnifiedPool) : res UnifiedPool :=
  if 1 <? num_groups then Raise RuntimeError else sched_add_batch {| batch_tag := EXPERT; tagged := b |} p.

Definition process_batch (b : Tagged) (p : UnifiedPool) : res UnifiedPool :=
  match batch_tag b with
  | TOKENIZER => process_attn_batch (tagged b) p
  | EXPERT =>
      if (1 <? top_k) && (0 <? layer_id (tb_meta (tagged b))) then process_attn_batch_topk (tagged b) p
      else process_attn_batch (tagged b) p
  | ATTENTION => process_expert_batch (tagged b) p
  end.

(** [MuPool::put_batch], which the engine calls. *)
Definition put_batch (b : TokenBatch T) (p : UnifiedPool) : res UnifiedPool :=
  process_batch {| batch_tag := TOKENIZER; tagged := b |} p.

(** First layer first: the attention layer [i], then the expert layer [i]. *)
Definition schedule (p : UnifiedPool) : Z :=
  let na := zlen (attn_layers p) in
  let busy (ls : list UnifiedLayer) i := match ls !! Z.to_nat i with Some l => 0 <? num_tokens_ l | None => false end in
  let fix go l := match l with
    | [] => -1
    | i :: l => if busy (attn_layers p) i then i
                else if (i <? zlen (expert_layers p)) && busy (expert_layers p) i then i + na else go l
    end in
  go (py_range na).

Definition is_attn_layer (i : Z) (p : UnifiedPool) : bool := i <? zlen (attn_layers p).

Definition layer_uses_token_queue (i : Z) (p : UnifiedPool) : bool := (1 <? top_k) && is_attn_layer i p && (0 <? i).

Definition set_layer (i : Z) (l : UnifiedLayer) (p : UnifiedPool) : res UnifiedPool :=
  if is_attn_layer i p then ls ← arr_set (attn_layers p) i l; Ok (with_attn ls p)
  else ls ← arr_set (expert_layers p) (i - zlen (attn_layers p)) l; Ok (with_expert ls p).

Definition get_batch_from_layer_restricted (i threshold : Z) (p : UnifiedPool) : res (option (TokenBatch T) * UnifiedPool) :=
  if (i <? 0) || (zlen (attn_layers p) + zlen (expert_layers p) <=? i) then Ok (None, p)
  else
    l ← vec_at (attn_layers p ++ expert_layers p) i;
    if layer_uses_token_queue i p then
      let '(ts, l) := get_tokens_restricted threshold l in
      p ← set_layer i l p;
      b ← pack_topk_tokens hidden i ts;
      Ok (Some b, p)
    else
      '(bs, l) ← get_batches_restricted threshold l;
      p ← set_layer i l p;
      b ← merge bs;
      Ok (b, p).

Definition get_batch_from_layer (i : Z) (p : UnifiedPool) : res (option (TokenBatch T) * UnifiedPool) :=
  get_batch_from_layer_restricted i
    (if is_attn_layer i p then attn_schedule_token_threshold p else expert_schedule_token_threshold p) p.

(** [Scheduler::schedule_unified]. *)
Definition schedule_unified (p : UnifiedPool) : res (option (TokenBatch T) * UnifiedPool) :=
  get_batch_from_layer (schedule p) p.

(** ** Batches whose columns agree *)

Record rows_ok (n : nat) (b : TokenBatch T) : Prop := {
  ro_aligned : aligned n (tb_meta b);
  ro_shape : exists h, shape (tb_meta b) = [Z.of_nat n; h];
  ro_data : length (tb_data b) = n;
}.

(** *** The copies of a token

    A row as [TokenTopKPool] sees it: the request, its prefill length, its rank and its
    tensor. *)

Definition arrival : Type := Z * Z * Z * T.

Definition arrivals (b : TokenBatch T) : list arrival :=
  zip (zip (zip (req_ids (tb_meta b)) (init_prefill_lens (tb_meta b))) (attn_dp_ranks (tb_meta b))) (tb_data b).

Definition feed_row (p : TokenTopKPool) (a : arrival) : TokenTopKPool :=
  let '(id, pl, rk, x) := a in
  match pool_ p !! id with
  | None => {| pool_ := <[id := {| seq_id := id; ti_init_prefill_len := pl; ti_attn_dp_rank := rk; topk_tensors := [x] |}]> (pool_ p);
               ready_tokens := ready_tokens p |}
  | Some t =>
      let t := append_tensor x t in
      if zlen (topk_tensors t) =? top_k
      then {| pool_ := delete id (pool_ p); ready_tokens := ready_tokens p ++ [t] |}
      else {| pool_ := <[id := t]> (pool_ p); ready_tokens := ready_tokens p |}
  end.

(** A batch the pool accepts: one entry of every column per row. *)
Definition topk_ok (b : TokenBatch T) : Prop :=
  exists n h, shape (tb_meta b) = n :: h /\ zlen (tb_data b) = n /\ zlen (req_ids (tb_meta b)) = n /\
    zlen (attn_dp_ranks (tb_meta b)) = n /\ zlen (init_prefill_lens (tb_meta b)) = n.

Lemma arrivals_lookup b i id pl rk x :
  req_ids (tb_meta b) !! i = Some id -> init_prefill_lens (tb_meta b) !! i = Some pl ->
  attn_dp_ranks (tb_meta b) !! i = Some rk -> tb_data b !! i = Some x -> arrivals b !! i = Some (id, pl, rk, x).
Proof. intros H1 H2 H3 H4. unfold arrivals. by rewrite !lookup_zip_with, H1, H2, H3, H4. Qed.

Lemma vec_at_nat {A} (l : list A) (i : nat) x : l !! i = Some x -> vec_at l (Z.of_nat i) = Ok x.
Proof. intros H. apply vec_at_Ok. split; [lia|by rewrite Nat2Z.id]. Qed.

Lemma put_row_feed b p (i : nat) a :
  arrivals b !! i = Some a -> put_row top_k (tb_meta b) (tb_data b) p (Z.of_nat i) = Ok (feed_row p a).
Proof.
  unfold arrivals. rewrite !lookup_zip_with.
  destruct (req_ids (tb_meta b) !! i) as [id|] eqn:E1; [|done]. destruct (init_prefill_lens (tb_meta b) !! i) as [pl|] eqn:E2; [|done].
  destruct (attn_dp_ranks (tb_meta b) !! i) as [rk|] eqn:E3; [|done]. destruct (tb_data b !! i) as [x|] eqn:E4; [|done].
  intros [= <-]. unfold put_row, feed_row. rewrite (vec_at_nat _ _ _ E1), (vec_at_nat _ _ _ E4). cbn [mbind res_bind].
  destruct (pool_ p !! id) as [t|]; [by case_match|].
  by rewrite (vec_at_nat _ _ _ E2), (vec_at_nat _ _ _ E3).
Qed.

Lemma put_batch_feed b p : topk_ok b -> topk_put_batch top_k b p = Ok (foldl feed_row p (arrivals b)).
Proof.
  intros (n & h & Hsh & Hd & Hr & Hk & Hl). unfold topk_put_batch, meta_num_tokens. rewrite Hsh. cbn [head of_option mbind res_bind].
  rewrite Hd, Hr, Hk, Hl, Z.eqb_refl. cbn [ASSERT py_check mbind res_bind].
  assert (Hlen : length (arrivals b) = Z.to_nat n) by (unfold arrivals; rewrite !length_zip_with; unfold zlen in *; lia).
  destruct (py_for_total (fun (pre : list Z) q => q = foldl feed_row p (take (length pre) (arrivals b)))
    (put_row top_k (tb_meta b) (tb_data b)) (py_range n) p) as (q & -> & ->); [done| |].
  - intros pre i post q Heq ->.
    assert (Hi : py_range n !! length pre = Some i) by (rewrite Heq; by apply list_lookup_middle).
    unfold py_range in Hi. apply lookup_seqZ in Hi as [-> Hi].
    destruct (lookup_lt_is_Some_2 (arrivals b) (length pre)) as [a Ha]; [lia|].
    eexists. split; [by apply put_row_feed|]. rewrite length_app, Nat.add_comm. cbn. by rewrite (take_S_r _ _ _ Ha), foldl_snoc.
  - rewrite py_range_length, <-Hlen. by rewrite take_ge.
Qed.

(** The entries of the pool: under their own id, with fewer than [top_k] copies. *)
Definition topk_inv (p : TokenTopKPool) : Prop :=
  forall id t, pool_ p !! id = Some t -> seq_id t = id /\ (0 < length (topk_tensors t))%nat /\ zlen (topk_tensors t) < top_k.

(** The copies of [id] among rows, and those that wait in the pool. *)
Definition copies_of (id : Z) (l : list arrival) : list T := (filter (fun a : arrival => a.1.1.1 = id) l).*2.

Definition pending (id : Z) (p : TokenTopKPool) : list T :=
  match pool_ p !! id with Some t => topk_tensors t | None => [] end.

Definition emitted (id : Z) (ts : list (TokenTopKInfo T)) : list (TokenTopKInfo T) := filter (fun t => seq_id t = id) ts.

Definition complete (t : TokenTopKInfo T) : Prop := zlen (topk_tensors t) = top_k.

Lemma feed_row_spec p a :
  1 < top_k -> topk_inv p -> Forall complete (ready_tokens p) ->
  topk_inv (feed_row p a) /\ Forall complete (ready_tokens (feed_row p a)) /\
  forall id, (emitted id (ready_tokens (feed_row p a)) ≫= topk_tensors) ++ pending id (feed_row p a)
    = ((emitted id (ready_tokens p) ≫= topk_tensors) ++ pending id p) ++ copies_of id [a].
Proof.
  intros Hk Hinv Hc. destruct a as [[[id pl] rk] x]. unfold feed_row.
  assert (Hcp : forall i, copies_of i [(id, pl, rk, x)] = if decide (id = i) then [x] else []).
  { intros i. unfold copies_of. rewrite filter_cons. cbn. by case_decide. }
  destruct (pool_ p !! id) as [t|] eqn:Hp.
  - destruct (Hinv id t Hp) as (Hid & Hpos & Hlt). cbn [topk_tensors append_tensor]. rewrite zlen_app. change (zlen [x]) with 1.
    destruct (Z.eqb_spec (zlen (topk_tensors t) + 1) top_k) as [Hfull|Hnf].
    + split; [|split].
      * intros i u Hu. cbn in Hu. apply lookup_delete_Some in Hu as [_ Hu]. by apply Hinv.
      * cbn. apply Forall_app. split; [done|]. constructor; [|constructor]. unfold complete. cbn. rewrite zlen_app. exact Hfull.
      * intros i. unfold emitted, pending. cbn [ready_tokens pool_]. rewrite filter_app, filter_cons, filter_nil. cbn [seq_id append_tensor]. rewrite Hid, Hcp.
        destruct (decide (id = i)) as [->|Hne].
        -- rewrite lookup_delete_eq, Hp, bind_app. cbn [mbind list_bind topk_tensors append_tensor]. by rewrite !app_nil_r, <-!app_assoc.
        -- by rewrite lookup_delete_ne, !app_nil_r by done.
    + split; [|split; [done|]].
      * intros i u Hu. cbn in Hu. apply lookup_insert_Some in Hu as [[<- <-]|[_ Hu]]; [|by apply Hinv].
        cbn. rewrite length_app, zlen_app. cbn. change (zlen [x]) with 1. split_and!; [done|lia|lia].
      * intros i. unfold pending. cbn [ready_tokens pool_]. rewrite Hcp. destruct (decide (id = i)) as [->|Hne].
        -- rewrite lookup_insert_eq, Hp. cbn. by rewrite app_assoc.
        -- by rewrite lookup_insert_ne, app_nil_r by done.
  - split; [|split; [done|]].
    + intros i u Hu. cbn in Hu. apply lookup_insert_Some in Hu as [[<- <-]|[_ Hu]]; [|by apply Hinv]. cbn. split_and!; [done|lia|].
      change (zlen [x]) with 1. lia.
    + intros i. unfold pending. cbn [ready_tokens pool_]. rewrite Hcp. destruct (decide (id = i)) as [->|Hne].
      * rewrite lookup_insert_eq, Hp. cbn. by rewrite app_nil_r.
      * by rewrite lookup_insert_ne, app_nil_r by done.
Qed.

(** What a sequence of [put_batch] and [fetch_ready_tokens] gives. *)
Definition feed (bs : list (TokenBatch T)) (p : TokenTopKPool) : res (list (TokenTopKInfo T) * TokenTopKPool) :=
  py_for (fun '(out, p) b => p ← topk_put_batch top_k b p; let '(r, p) := fetch_ready_tokens p in Ok (out ++ r, p)) bs ([], p).

Lemma copies_of_app id l k : copies_of id (l ++ k) = copies_of id l ++ copies_of id k.
Proof. unfold copies_of. by rewrite filter_app, fmap_app. Qed.

Lemma emitted_app id l k : emitted id (l ++ k) = emitted id l ++ emitted id k.
Proof. apply filter_app. Qed.

Lemma feed_rows_spec p l :
  1 < top_k -> topk_inv p -> ready_tokens p = [] ->
  let p' := foldl feed_row p l in
  topk_inv p' /\ Forall complete (ready_tokens p') /\
  forall id, (emitted id (ready_tokens p') ≫= topk_tensors) ++ pending id p' = pending id p ++ copies_of id l.
Proof.
  intros Hk Hinv Hr. induction l as [|a l IH] using rev_ind.
  - cbn. rewrite Hr. split_and!; [done|done|]. intros id. change (copies_of id []) with (@nil T). by rewrite app_nil_r.
  - rewrite foldl_snoc. destruct IH as (H1 & H2 & H3). destruct (feed_row_spec (foldl feed_row p l) a Hk H1 H2) as (G1 & G2 & G3).
    split_and!; [done|done|]. intros id. by rewrite G3, H3, copies_of_app, app_assoc.
Qed.

Lemma complete_bind l : Forall complete l -> zlen (l ≫= topk_tensors) = top_k * zlen l.
Proof.
  induction 1 as [|t l Ht _ IH]; [cbn; unfold zlen; cbn; lia|].
  unfold complete in Ht. rewrite zlen_cons. change ((t :: l) ≫= topk_tensors) with (topk_tensors t ++ (l ≫= topk_tensors)). rewrite zlen_app. lia.
Qed.

(** C19. The top-k pool loses, repeats and mixes nothing.  However the copies of the
    tokens are spread over batches and interleaved, nothing raises; the tensors of the
    tokens emitted for a request, one after the other, followed by those still waiting,
    are exactly its copies in the order of arrival; every emitted token has exactly
    [top_k] of them, so a request is emitted once per [top_k] copies and fewer wait. *)
Theorem topk_exact bs :
  1 < top_k -> Forall topk_ok bs ->
  exists out p, feed bs new_topk_pool = Ok (out, p) /\ Forall complete out /\
    forall id, let xs := copies_of id (bs ≫= arrivals) in
      (emitted id out ≫= topk_tensors) ++ pending id p = xs /\
      zlen (emitted id out) = zlen xs / top_k /\ zlen (pending id p) = zlen xs mod top_k.
Proof.
  intros Hk Hok. unfold feed.
  destruct (py_for_total (fun (pre : list (TokenBatch T)) (st : list (TokenTopKInfo T) * TokenTopKPool) =>
      topk_inv st.2 /\ ready_tokens st.2 = [] /\ Forall complete st.1 /\
      forall id, (emitted id st.1 ≫= topk_tensors) ++ pending id st.2 = copies_of id (pre ≫= arrivals))
    (fun '(out, p) b => p ← topk_put_batch top_k b p; let '(r, p) := fetch_ready_tokens p in Ok (out ++ r, p))
    bs ([], new_topk_pool)) as ([out p] & E & Hinv & Hr & Hc & Hid).
  - split_and!; [by intros ? ? [=]|done..].
  - intros pre b post [out p] Heq (Hinv & Hr & Hc & Hid). cbn [fst snd] in Hinv, Hr, Hc, Hid.
    rewrite put_batch_feed; [|rewrite Forall_forall in Hok; apply Hok; rewrite Heq; set_solver]. cbn [mbind res_bind fetch_ready_tokens].
    destruct (feed_rows_spec p (arrivals b) Hk Hinv Hr) as (G1 & G2 & G3). eexists. split; [reflexivity|]. cbn [fst snd ready_tokens].
    split_and!; [done|done|by apply Forall_app|]. intros id. rewrite emitted_app, !bind_app, copies_of_app, <-Hid, <-!app_assoc.
    f_equal. cbn [mbind list_bind]. rewrite app_nil_r. apply G3.
  - cbn [fst snd] in *. exists out, p. split; [done|]. split; [done|]. intros id. cbn zeta. set (xs := copies_of id _). specialize (Hid id). split; [exact Hid|].
    assert (Hn : zlen (emitted id out ≫= topk_tensors) = top_k * zlen (emitted id out)).
    { apply complete_bind, Forall_forall. intros t [_ Ht]%list_elem_of_filter. rewrite Forall_forall in Hc. by apply Hc. }
    assert (Hpend : 0 <= zlen (pending id p) < top_k).
    { unfold pending. destruct (pool_ p !! id) as [t|] eqn:Et; [|change (zlen []) with 0; lia]. destruct (Hinv id t Et) as (_ & _ & ?).
      split; [apply zlen_nonneg|done]. }
    assert (Hx : zlen xs = top_k * zlen (emitted id out) + zlen (pending id p)) by (unfold xs; rewrite <-Hid, zlen_app, Hn; done).
    split; [by eapply Z.div_unique_pos|by eapply Z.mod_unique_pos].
Qed.

(** *** Attention batches

    The rows with a prefill length come first and are counted. *)

Definition prefills (b : TokenBatch T) : nat := Z.to_nat (default 0 (num_prefill_seqs (tb_meta b))).

Record attn_ok (b : TokenBatch T) : Prop := {
  ao_rows : rows_ok (length (tb_data b)) b;
  ao_lens : length (init_prefill_lens (tb_meta b)) = length (tb_data b);
  ao_le : (prefills b <= length (tb_data b))%nat;
  ao_seqs : num_prefill_seqs (tb_meta b) = Some (Z.of_nat (prefills b));
  ao_tokens : num_prefill_tokens (tb_meta b) = Some (Z.of_nat (prefills b));
  ao_decode : num_decode_tokens (tb_meta b) = Some (zlen (tb_data b) - Z.of_nat (prefills b));
}.

(** A column of the merged batch. *)
Definition fronts {A} (f : TokenBatch T -> list A) (bs : list (TokenBatch T)) : list A := bs ≫= fun b => take (prefills b) (f b).
Definition backs {A} (f : TokenBatch T -> list A) (bs : list (TokenBatch T)) : list A := bs ≫= fun b => drop (prefills b) (f b).
Definition stacked {A} (f : TokenBatch T -> list A) (bs : list (TokenBatch T)) : list A := fronts f bs ++ backs f bs.

Lemma vec_range {A} (l : list A) a b :
  0 <= a <= b -> b <= zlen l -> py_map (vec_at l) (py_range2 a b) = Ok (take (Z.to_nat (b - a)) (drop (Z.to_nat a) l)).
Proof.
  intros Ha Hb. destruct (py_map_total (vec_at l) (fun i x => l !! Z.to_nat i = Some x) (py_range2 a b)) as (r & -> & Hr).
  { intros i Hi. unfold py_range2 in Hi. apply elem_of_seqZ in Hi.
    destruct (lookup_lt_is_Some_2 l (Z.to_nat i)) as [x Hx]; [unfold zlen in Hb; lia|]. exists x. split; [|done].
    apply vec_at_Ok. split; [lia|done]. }
  f_equal. pose proof (Forall2_length _ _ _ Hr) as Hl. unfold py_range2 in Hl. rewrite length_seqZ in Hl.
  apply (list_eq_same_length _ _ (length r)); [rewrite length_take, length_drop; unfold zlen in Hb; lia|done|].
  intros i x y Hi Hx Hy. rewrite lookup_take_lt, lookup_drop in Hy by lia.
  destruct (Forall2_lookup_r _ _ _ _ _ Hr Hx) as (j & Hj & Hjx). unfold py_range2 in Hj. apply lookup_seqZ in Hj as [-> _].
  replace (Z.to_nat (a + Z.of_nat i)) with (Z.to_nat a + i)%nat in Hjx by lia. congruence.
Qed.

Lemma vec_range0 {A} (l : list A) n : 0 <= n <= zlen l -> py_map (vec_at l) (py_range n) = Ok (take (Z.to_nat n) l).
Proof. intros Hn. pose proof (vec_range l 0 n) as H. rewrite Z.sub_0_r in H. unfold py_range2 in H. rewrite Z.sub_0_r in H. apply H; lia. Qed.

Lemma safe_check_ok b :
  attn_ok b -> attention_batch_safe_check (tb_meta b) = Ok (Z.of_nat (prefills b), Z.of_nat (prefills b), zlen (tb_data b) - Z.of_nat (prefills b)).
Proof. intros H. unfold attention_batch_safe_check. by rewrite (ao_seqs _ H), (ao_tokens _ H), (ao_decode _ H), Z.eqb_refl. Qed.

Lemma ao_ids b : attn_ok b -> length (req_ids (tb_meta b)) = length (tb_data b).
Proof. intros H. by destruct (ao_rows _ H) as [(Hr & _) _ _]. Qed.

Lemma merge_fronts bs :
  Forall attn_ok bs ->
  py_for (fun '(s, p, d, rq, pl) m =>
      '(s', p', d') ← attention_batch_safe_check m;
      ids ← py_map (vec_at (req_ids m)) (py_range s');
      lens ← py_map (vec_at (init_prefill_lens m)) (py_range s');
      Ok (s + s', p + p', d + d', rq ++ ids, pl ++ lens)) (tb_meta <$> bs) (0, 0, 0, [], [])
  = Ok (zlen (fronts tb_data bs), zlen (fronts tb_data bs), zlen (backs tb_data bs),
        fronts (fun b => req_ids (tb_meta b)) bs, fronts (fun b => init_prefill_lens (tb_meta b)) bs).
Proof.
  intros Hall. induction bs as [|b bs IH] using rev_ind; [done|]. apply Forall_app in Hall as [Hall [Hb _]%Forall_cons].
  rewrite fmap_app, py_for_app, IH by done. cbn [mbind res_bind fmap list_fmap py_for]. rewrite safe_check_ok by done. cbn [mbind res_bind].
  pose proof (ao_ids b Hb). pose proof (ao_lens b Hb). pose proof (ao_le b Hb).
  rewrite !vec_range0 by (unfold zlen; lia). cbn [mbind res_bind]. unfold fronts, backs. rewrite !bind_app. cbn [mbind list_bind].
  rewrite !app_nil_r, Nat2Z.id, !zlen_app.
  assert (zlen (take (prefills b) (tb_data b)) = Z.of_nat (prefills b)) as -> by (unfold zlen; rewrite length_take; lia).
  assert (zlen (drop (prefills b) (tb_data b)) = zlen (tb_data b) - Z.of_nat (prefills b)) as -> by (unfold zlen; rewrite length_drop; lia).
  done.
Qed.

Lemma merge_backs bs rq pl :
  Forall attn_ok bs ->
  py_for (fun '(rq, pl) m =>
      '(s', _, d') ← attention_batch_safe_check m;
      ids ← py_map (vec_at (req_ids m)) (py_range2 s' (s' + d'));
      lens ← py_map (vec_at (init_prefill_lens m)) (py_range2 s' (s' + d'));
      Ok (rq ++ ids, pl ++ lens)) (tb_meta <$> bs) (rq, pl)
  = Ok (rq ++ backs (fun b => req_ids (tb_meta b)) bs, pl ++ backs (fun b => init_prefill_lens (tb_meta b)) bs).
Proof.
  intros Hall. induction bs as [|b bs IH] using rev_ind; [cbn; by rewrite !app_nil_r|]. apply Forall_app in Hall as [Hall [Hb _]%Forall_cons].
  rewrite fmap_app, py_for_app, IH by done. cbn [mbind res_bind fmap list_fmap py_for]. rewrite safe_check_ok by done. cbn [mbind res_bind].
  pose proof (ao_ids b Hb). pose proof (ao_lens b Hb). pose proof (ao_le b Hb).
  rewrite !vec_range by (unfold zlen; lia). cbn [mbind res_bind]. unfold backs. rewrite !bind_app. cbn [mbind list_bind].
  rewrite !app_nil_r, !app_assoc, Nat2Z.id, !take_ge; [done|rewrite length_drop; unfold zlen; lia..].
Qed.

Lemma merge_meta_ok b bs :
  Forall attn_ok (b :: bs) ->
  merge_meta_by_attention (tb_meta <$> (b :: bs)) = Ok
    {| shape := zlen (stacked (fun b => req_ids (tb_meta b)) (b :: bs)) :: py_drop 1 (shape (tb_meta b)); md_dtype := md_dtype (tb_meta b);
       layer_id := layer_id (tb_meta b); req_ids := stacked (fun b => req_ids (tb_meta b)) (b :: bs); exp_ids := []; topk_weights := [];
       attn_dp_ranks := []; init_prefill_lens := stacked (fun b => init_prefill_lens (tb_meta b)) (b :: bs);
       num_prefill_seqs := Some (zlen (fronts tb_data (b :: bs))); num_prefill_tokens := Some (zlen (fronts tb_data (b :: bs)));
       num_decode_tokens := Some (zlen (backs tb_data (b :: bs))) |}.
Proof.
  intros Hall. unfold merge_meta_by_attention. rewrite (merge_fronts (b :: bs)) by done. cbn [mbind res_bind].
  rewrite (merge_backs (b :: bs)) by done. reflexivity.
Qed.

(** The pointers: a block of unset slots is filled with consecutive rows. *)
Lemma fill_rows_ok data from n pre post k :
  (from + n <= length data)%nat -> (n <= k)%nat ->
  fill_rows data (Z.of_nat from) (Z.of_nat n) (zlen pre) (pre ++ replicate k None ++ post)
  = Ok (pre ++ (Some <$> take n (drop from data)) ++ replicate (k - n) None ++ post).
Proof.
  intros Hd Hk. unfold fill_rows.
  destruct (py_for_total (fun (done : list Z) srcs => srcs = pre ++ (Some <$> take (length done) (drop from data)) ++ replicate (k - length done) None ++ post)
    (fun srcs i => x ← vec_at data (Z.of_nat from + i); arr_set srcs (zlen pre + i) (Some x)) (py_range (Z.of_nat n))
    (pre ++ replicate k None ++ post)) as (r & -> & ->).
  - cbn. by rewrite take_0, Nat.sub_0_r.
  - intros dn i rest srcs Heq ->.
    assert (Hi : py_range (Z.of_nat n) !! length dn = Some i) by (rewrite Heq; by apply list_lookup_middle).
    unfold py_range in Hi. apply lookup_seqZ in Hi as [-> Hi].
    destruct (lookup_lt_is_Some_2 data (from + length dn)) as [x Hx]; [lia|].
    replace (Z.of_nat from + (0 + Z.of_nat (length dn))) with (Z.of_nat (from + length dn)) by lia.
    rewrite (vec_at_nat _ _ _ Hx). cbn [mbind res_bind].
    assert (Hl : length (Some <$> take (length dn) (drop from data)) = length dn) by (rewrite length_fmap, length_take, length_drop; lia).
    rewrite arr_set_ok by (unfold zlen; rewrite !length_app, Hl, length_replicate; lia).
    eexists. split; [reflexivity|]. unfold zlen.
    replace (Z.to_nat (Z.of_nat (length pre) + (0 + Z.of_nat (length dn)))) with (length pre + (length (Some <$> take (length dn) (drop from data)) + 0))%nat by lia.
    rewrite !insert_app_r. rewrite length_app, Nat.add_comm. cbn [length plus].
    replace (k - length dn)%nat with (Datatypes.S (k - Datatypes.S (length dn))) by lia. cbn [replicate insert list_insert app].
    rewrite (take_S_r (drop from data) (length dn) x) by (by rewrite lookup_drop). rewrite fmap_app, <-!app_assoc. done.
  - by rewrite py_range_length, Nat2Z.id.
Qed.

Lemma gather_ok (l : list T) : gather_tokens (Some <$> l) = Ok l.
Proof. induction l as [|x l IH]; [done|]. cbn. unfold gather_tokens in IH. by rewrite IH. Qed.

Lemma fronts_app {A} (f : TokenBatch T -> list A) l k : fronts f (l ++ k) = fronts f l ++ fronts f k.
Proof. apply bind_app. Qed.

Lemma backs_app {A} (f : TokenBatch T -> list A) l k : backs f (l ++ k) = backs f l ++ backs f k.
Proof. apply bind_app. Qed.

Lemma fronts_cons {A} (f : TokenBatch T -> list A) b l : fronts f (b :: l) = take (prefills b) (f b) ++ fronts f l.
Proof. done. Qed.

Lemma backs_cons {A} (f : TokenBatch T -> list A) b l : backs f (b :: l) = drop (prefills b) (f b) ++ backs f l.
Proof. done. Qed.

Lemma fronts_snoc {A} (f : TokenBatch T -> list A) l b : fronts f (l ++ [b]) = fronts f l ++ take (prefills b) (f b).
Proof. by rewrite fronts_app, fronts_cons, app_nil_r. Qed.

Lemma backs_snoc {A} (f : TokenBatch T -> list A) l b : backs f (l ++ [b]) = backs f l ++ drop (prefills b) (f b).
Proof. by rewrite backs_app, backs_cons, app_nil_r. Qed.

Lemma fronts_length {A B} (f : TokenBatch T -> list A) (g : TokenBatch T -> list B) bs :
  Forall (fun b => length (f b) = length (g b)) bs -> length (fronts f bs) = length (fronts g bs).
Proof. induction 1 as [|b bs Hb _ IH]; [done|]. rewrite !fronts_cons, !length_app, !length_take, Hb. lia. Qed.

Lemma backs_length {A B} (f : TokenBatch T -> list A) (g : TokenBatch T -> list B) bs :
  Forall (fun b => length (f b) = length (g b)) bs -> length (backs f bs) = length (backs g bs).
Proof. induction 1 as [|b bs Hb _ IH]; [done|]. rewrite !backs_cons, !length_app, !length_drop, Hb. lia. Qed.

Lemma stacked_length {A B} (f : TokenBatch T -> list A) (g : TokenBatch T -> list B) bs :
  Forall (fun b => length (f b) = length (g b)) bs -> length (stacked f bs) = length (stacked g bs).
Proof. intros H. unfold stacked. rewrite !length_app, (fronts_length f g), (backs_length f g) by done. done. Qed.

Lemma merge_pointers bs :
  Forall attn_ok bs ->
  py_for (fun '(srcs, prefill_idx, decode_idx) b =>
      p ← of_option RuntimeError (num_prefill_tokens (tb_meta b));
      d ← of_option RuntimeError (num_decode_tokens (tb_meta b));
      srcs ← fill_rows (tb_data b) 0 p prefill_idx srcs;
      srcs ← fill_rows (tb_data b) p d decode_idx srcs;
      Ok (srcs, prefill_idx + p, decode_idx + d)) bs
    (replicate (length (stacked tb_data bs)) None, 0, zlen (fronts tb_data bs))
  = Ok (Some <$> stacked tb_data bs, zlen (fronts tb_data bs), zlen (stacked tb_data bs)).
Proof.
  intros Hall.
  match goal with |- py_for ?f _ ?s = _ => destruct (py_for_total (fun (pre : list (TokenBatch T)) st => exists post, bs = pre ++ post /\
      st = ((Some <$> fronts tb_data pre) ++ replicate (length (fronts tb_data post)) None ++ (Some <$> backs tb_data pre) ++
            replicate (length (backs tb_data post)) None, zlen (fronts tb_data pre), zlen (fronts tb_data bs) + zlen (backs tb_data pre)))
    f bs s) as (r & -> & post & Hp & ->) end.
  - exists bs. split; [done|]. cbn. unfold stacked. rewrite length_app, replicate_add. change (zlen (backs tb_data [])) with 0. by rewrite Z.add_0_r.
  - intros pre b post st Heq (post' & Heq' & ->). rewrite Heq in Heq'. apply app_inv_head in Heq' as <-.
    assert (Hb : attn_ok b) by (rewrite Forall_forall in Hall; apply Hall; rewrite Heq; set_solver).
    rewrite (ao_tokens _ Hb), (ao_decode _ Hb). cbn [of_option mbind res_bind]. pose proof (ao_le b Hb).
    assert (Hf : fronts tb_data (b :: post) = take (prefills b) (tb_data b) ++ fronts tb_data post) by done.
    assert (Hk : backs tb_data (b :: post) = drop (prefills b) (tb_data b) ++ backs tb_data post) by done.
    assert (Hz : zlen (fronts tb_data pre) = zlen (Some <$> fronts tb_data pre)) by (unfold zlen; by rewrite length_fmap).
    rewrite Hz. change 0 with (Z.of_nat 0) at 1. rewrite fill_rows_ok; [|lia|rewrite Hf, length_app, length_take; lia].
    cbn [mbind res_bind]. rewrite drop_0.
    set (F1 := (Some <$> fronts tb_data pre) ++ (Some <$> take (prefills b) (tb_data b))).
    assert (HF1 : F1 = Some <$> fronts tb_data (pre ++ [b])) by (unfold F1; by rewrite fronts_snoc, fmap_app).
    assert (Hn : (length (fronts tb_data (b :: post)) - prefills b)%nat = length (fronts tb_data post)) by (rewrite Hf, length_app, length_take; lia).
    rewrite Hn, !(app_assoc (Some <$> fronts tb_data pre)). fold F1.
    set (P2 := F1 ++ replicate (length (fronts tb_data post)) None ++ (Some <$> backs tb_data pre)).
    assert (HP2 : zlen (fronts tb_data bs) + zlen (backs tb_data pre) = zlen P2).
    { unfold P2. rewrite HF1, Heq. unfold zlen. rewrite !length_app, !length_fmap, length_replicate, !fronts_app, !length_app.
      rewrite fronts_cons, !length_app. change (fronts tb_data [b]) with (take (prefills b) (tb_data b) ++ []). rewrite !length_app. cbn. lia. }
    replace (F1 ++ replicate (length (fronts tb_data post)) None ++ (Some <$> backs tb_data pre) ++ replicate (length (backs tb_data (b :: post))) None)
      with (P2 ++ replicate (length (backs tb_data (b :: post))) None ++ []) by (unfold P2; by rewrite app_nil_r, <-!app_assoc).
    rewrite HP2. replace (zlen (tb_data b) - Z.of_nat (prefills b)) with (Z.of_nat (length (tb_data b) - prefills b)) by (unfold zlen; lia).
    rewrite fill_rows_ok; [|lia|rewrite Hk, length_app, length_drop; lia]. cbn [mbind res_bind].
    eexists. split; [reflexivity|]. exists post. split; [by rewrite <-app_assoc|].
    assert (Hd : (length (backs tb_data (b :: post)) - (length (tb_data b) - prefills b))%nat = length (backs tb_data post)) by (rewrite Hk, length_app, length_drop; lia).
    rewrite Hd, take_ge by (rewrite length_drop; lia).
    assert (Hkk : backs tb_data (pre ++ [b]) = backs tb_data pre ++ drop (prefills b) (tb_data b)) by apply backs_snoc.
    rewrite <-HF1, Hkk, fmap_app. unfold P2. rewrite app_nil_r, <-!app_assoc. f_equal; [f_equal|].
    + unfold zlen. rewrite fronts_snoc, length_app, length_fmap, length_take. lia.
    + fold P2. rewrite <-HP2. unfold zlen. rewrite length_app, length_drop. lia.
  - rewrite <-(app_nil_r bs) in Hp at 1. apply app_inv_head in Hp as <-. cbn. rewrite app_nil_r. unfold stacked. rewrite fmap_app, zlen_app. done.
Qed.

(** Merging attention batches: every column, the rows included, is the prefill part of
    all batches followed by the rest of all batches. *)
Lemma merge_by_attention_ok b bs :
  Forall attn_ok (b :: bs) ->
  exists m, merge_meta_by_attention (tb_meta <$> (b :: bs)) = Ok m /\
    merge_by_attention (b :: bs) = Ok {| tb_data := stacked tb_data (b :: bs); tb_meta := m |} /\
    req_ids m = stacked (fun b => req_ids (tb_meta b)) (b :: bs) /\
    init_prefill_lens m = stacked (fun b => init_prefill_lens (tb_meta b)) (b :: bs) /\
    layer_id m = layer_id (tb_meta b) /\
    let t := {| tb_data := stacked tb_data (b :: bs); tb_meta := m |} in
    attn_ok t /\ prefills t = length (fronts tb_data (b :: bs)).
Proof.
  intros Hall. eexists. split; [by apply merge_meta_ok|]. unfold merge_by_attention. rewrite merge_meta_ok by done.
  assert (Hlen : Forall (fun b => length (req_ids (tb_meta b)) = length (tb_data b)) (b :: bs)) by (eapply Forall_impl; [exact Hall|apply ao_ids]).
  assert (Hlen2 : Forall (fun b => length (init_prefill_lens (tb_meta b)) = length (tb_data b)) (b :: bs)) by (eapply Forall_impl; [exact Hall|apply ao_lens]).
  pose proof (stacked_length _ _ _ Hlen) as Hr. pose proof (stacked_length _ _ _ Hlen2) as Hl.
  cbn [mbind res_bind]. unfold meta_num_tokens. cbn [shape head of_option mbind res_bind num_prefill_tokens].
  replace (Z.to_nat (zlen (stacked (fun b => req_ids (tb_meta b)) (b :: bs)))) with (length (stacked tb_data (b :: bs))) by (unfold zlen; lia).
  rewrite merge_pointers by done. cbn [mbind res_bind]. rewrite gather_ok. cbn [mbind res_bind].
  split; [done|]. do 3 (split; [done|]). cbn zeta.
  match goal with |- _ /\ ?x = _ => assert (Hp : x = length (fronts tb_data (b :: bs))) by (unfold prefills; cbn; unfold zlen; lia) end.
  split; [|exact Hp]. split; rewrite ?Hp; cbn [tb_data tb_meta num_prefill_seqs num_prefill_tokens num_decode_tokens init_prefill_lens]; try done.
  - apply Forall_cons in Hall as [Hb _]. destruct (ro_shape _ _ (ao_rows _ Hb)) as [h Hh]. split; cbn [tb_meta tb_data shape]; [|exists h|done].
    2: { unfold zlen. rewrite Hr, Hh. done. }
    split_and!; cbn [req_ids exp_ids topk_weights attn_dp_ranks init_prefill_lens]; auto.
  - unfold stacked. rewrite length_app. lia.
  - f_equal. unfold stacked. rewrite zlen_app. unfold zlen. lia.
Qed.

(** *** Taking a part of the queue

    The columns of a row; the ones a batch does not have are [None]. *)

Definition Row : Type := option Z * option Z * option Z * option float * option Z * option T.

Definition row_at (b : TokenBatch T) (i : nat) : Row :=
  (req_ids (tb_meta b) !! i, init_prefill_lens (tb_meta b) !! i, exp_ids (tb_meta b) !! i, topk_weights (tb_meta b) !! i,
   attn_dp_ranks (tb_meta b) !! i, tb_data b !! i).

Definition rows (b : TokenBatch T) : list Row := row_at b <$> seq 0 (length (tb_data b)).

Definition qrows (q : list Tagged) : list Row := q ≫= fun b => rows (tagged b).

Lemma rows_length b : length (rows b) = length (tb_data b).
Proof. unfold rows. by rewrite length_fmap, length_seq. Qed.

Lemma qrows_cons b q : qrows (b :: q) = rows (tagged b) ++ qrows q.
Proof. done. Qed.

Lemma qrows_app q k : qrows (q ++ k) = qrows q ++ qrows k.
Proof. apply bind_app. Qed.

(** A piece of a batch; [f] cuts its columns. *)
Definition piece (b : Tagged) (f : forall A, list A -> list A) : Tagged :=
  let m := tb_meta (tagged b) in
  let d := f T (tb_data (tagged b)) in
  {| batch_tag := batch_tag b;
     tagged := {| tb_data := d;
                  tb_meta := split_meta (batch_tag b) m (default 0 (shape m !! 1%nat)) (zlen d) (f Z (req_ids m)) (f Z (exp_ids m))
                               (f Z (attn_dp_ranks m)) (f Z (init_prefill_lens m)) (f float (topk_weights m)) |} |}.

Definition first_part (k : nat) (b : Tagged) : Tagged := piece b (fun A => take k).
Definition second_part (k : nat) (b : Tagged) : Tagged := piece b (fun A => drop k).

Lemma assert_range s n : 0 <= s <= n -> ASSERT ((0 <=? s) && (s <=? n)) = Ok tt.
Proof. intros H. by rewrite (proj2 (Z.leb_le 0 s)), (proj2 (Z.leb_le s n)) by lia. Qed.

Lemma cut_two {A} (v : list A) (k n : nat) :
  length v = n -> (k <= n)%nat -> cut_sizes v [Z.of_nat k; Z.of_nat n - Z.of_nat k] = Ok [take k v; drop k v].
Proof.
  intros Hl Hk. cbn [cut_sizes]. rewrite Nat2Z.id.
  rewrite (assert_range (Z.of_nat k)) by (unfold zlen; lia). cbn [mbind res_bind].
  rewrite assert_range by (unfold zlen; rewrite length_drop; lia). cbn [mbind res_bind].
  rewrite (take_ge (drop k v)); [done|].
  rewrite length_drop; lia.
Qed.

Lemma split_vector_two {A} (v : list A) (k n : nat) :
  v = [] \/ length v = n -> (k <= n)%nat -> split_vector_by_size v [Z.of_nat k; Z.of_nat n - Z.of_nat k] = Ok [take k v; drop k v].
Proof.
  intros [->|Hl] Hk; [cbn; by rewrite take_nil, drop_nil|]. destruct v as [|x v]; [cbn; by rewrite take_nil, drop_nil|].
  unfold split_vector_by_size. by apply cut_two.
Qed.

Lemma split_two b (k n : nat) :
  rows_ok n (tagged b) -> (k <= n)%nat ->
  split_with_sizes b [Z.of_nat k; Z.of_nat n - Z.of_nat k] = Ok [first_part k b; second_part k b].
Proof.
  intros [(Hr & He & Hw & Ha & Hp) [h Hh] Hd] Hk. unfold split_with_sizes, split_tensor_by_size.
  rewrite !(split_vector_two _ k n) by auto. cbn [mbind res_bind]. rewrite Hh. cbn [vec_at ASSERT py_check mbind res_bind].
  rewrite (proj2 (vec_at_Ok _ 1 h)) by done. cbn [mbind res_bind].
  rewrite (proj2 (py_check_Ok _ _ tt)) by (apply Z.eqb_eq; unfold zlen, sumZ; cbn; lia). cbn [mbind res_bind].
  rewrite (cut_two _ k n) by done. cbn [mbind res_bind]. unfold first_part, second_part, piece. rewrite Hh. cbn zeta.
  assert (zlen (take k (tb_data (tagged b))) = Z.of_nat k) as -> by (unfold zlen; rewrite length_take; lia).
  assert (zlen (drop k (tb_data (tagged b))) = Z.of_nat n - Z.of_nat k) as -> by (unfold zlen; rewrite length_drop; lia).
  reflexivity.
Qed.

Lemma first_rows_ok b (k n : nat) : rows_ok n (tagged b) -> (k <= n)%nat -> rows_ok k (tagged (first_part k b)).
Proof.
  intros [(Hr & He & Hw & Ha & Hp) [h Hh] Hd] Hk.
  assert (Hl : forall A (v : list A), v = [] \/ length v = n -> take k v = [] \/ length (take k v) = k)
    by (intros A v [->|?]; [left; apply take_nil|right; rewrite length_take; lia]).
  split; cbn.
  - unfold aligned; cbn. split; [rewrite length_take; lia|]. split_and!; by apply Hl.
  - eexists. unfold zlen. rewrite length_take, Hd. do 2 f_equal. lia.
  - rewrite length_take. lia.
Qed.

Lemma second_rows_ok b (k n : nat) : rows_ok n (tagged b) -> (k <= n)%nat -> rows_ok (n - k) (tagged (second_part k b)).
Proof.
  intros [(Hr & He & Hw & Ha & Hp) [h Hh] Hd] Hk.
  assert (Hl : forall A (v : list A), v = [] \/ length v = n -> drop k v = [] \/ length (drop k v) = (n - k)%nat)
    by (intros A v [->|?]; [left; apply drop_nil|right; rewrite length_drop; lia]).
  split; cbn.
  - unfold aligned; cbn. split; [rewrite length_drop; lia|]. split_and!; by apply Hl.
  - eexists. unfold zlen. rewrite length_drop, Hd. done.
  - rewrite length_drop. lia.
Qed.

Lemma first_rows b k : (k <= length (tb_data (tagged b)))%nat -> rows (tagged (first_part k b)) = take k (rows (tagged b)).
Proof.
  intros Hk. apply list_eq. intros i. unfold rows. rewrite list_lookup_fmap. cbn [tb_data tagged first_part piece].
  rewrite length_take, Nat.min_l by lia. destruct (decide (i < k)%nat) as [Hi|Hi].
  - rewrite lookup_take_lt, list_lookup_fmap, !lookup_seq_lt by lia. cbn. unfold row_at. cbn. by rewrite !lookup_take_lt by lia.
  - rewrite lookup_take_ge, lookup_seq_ge by lia. done.
Qed.

Lemma second_rows b k : rows (tagged (second_part k b)) = drop k (rows (tagged b)).
Proof.
  apply list_eq. intros i. unfold rows. rewrite lookup_drop, !list_lookup_fmap. cbn [tb_data tagged second_part piece].
  rewrite length_drop. destruct (decide (i < length (tb_data (tagged b)) - k)%nat) as [Hi|Hi].
  - rewrite !lookup_seq_lt by lia. cbn. unfold row_at. cbn. by rewrite !lookup_drop.
  - rewrite !lookup_seq_ge by lia. done.
Qed.

(** [P] is a property of batches that splitting keeps. *)
Definition splits (P : Tagged -> Prop) : Prop :=
  forall b k, P b -> (k <= length (tb_data (tagged b)))%nat -> P (first_part k b) /\ P (second_part k b).

Lemma take_batches_ok (P : Tagged -> Prop) threshold q :
  splits P -> (forall b, P b -> rows_ok (length (tb_data (tagged b))) (tagged b)) -> Forall P q ->
  forall total, total <= threshold ->
  exists r q', take_batches threshold total q = Ok (r, q', total + zlen (qrows r)) /\ qrows r ++ qrows q' = qrows q /\
    Forall P r /\ Forall P q' /\ zlen (qrows r) = Z.min (threshold - total) (zlen (qrows q)).
Proof.
  intros Hs Hok. induction 1 as [|b q Hb Hq IH]; intros total Ht; cbn [take_batches].
  { exists [], []. cbn. rewrite Z.add_0_r. split_and!; try done. change (zlen []) with 0. lia. }
  pose proof (Hok b Hb) as Hr. destruct (ro_shape _ _ Hr) as [h Hh]. rewrite qrows_cons, zlen_app.
  assert (Hn : zlen (rows (tagged b)) = Z.of_nat (length (tb_data (tagged b)))) by (unfold zlen; by rewrite rows_length).
  pose proof (zlen_nonneg (qrows q)). destruct (Z.ltb_spec total threshold) as [Hlt|Hge].
  2: { exists [], (b :: q). rewrite Z.add_0_r. split_and!; try done; [by constructor|]. change (zlen (qrows [])) with 0. lia. }
  unfold meta_num_tokens. rewrite Hh. cbn [head of_option mbind res_bind].
  destruct (Z.ltb_spec threshold (total + Z.of_nat (length (tb_data (tagged b))))) as [Hbig|Hfit].
  - set (k := Z.to_nat (threshold - total)). replace (threshold - total) with (Z.of_nat k) by (unfold k; lia).
    assert (Hk : (k <= length (tb_data (tagged b)))%nat) by (unfold k; lia).
    rewrite (split_two b k _ Hr Hk). cbn [mbind res_bind]. rewrite (proj2 (vec_at_Ok _ 0 (first_part k b))) by done. cbn [mbind res_bind].
    rewrite (proj2 (vec_at_Ok _ 1 (second_part k b))) by done. cbn [mbind res_bind].
    destruct (ro_shape _ _ (first_rows_ok b k _ Hr Hk)) as [h' Hh']. rewrite Hh'. cbn [head of_option mbind res_bind].
    assert (Hz : zlen (qrows [first_part k b]) = Z.of_nat k).
    { rewrite qrows_cons, app_nil_r, first_rows by done. unfold zlen. rewrite length_take, rows_length. lia. }
    exists [first_part k b], (second_part k b :: q). rewrite Hz. destruct (Hs b k Hb Hk). split_and!; try done; [|by repeat constructor|by constructor|lia].
    rewrite !qrows_cons, first_rows, second_rows, app_nil_r, app_assoc, take_drop by done. done.
  - destruct (IH (total + Z.of_nat (length (tb_data (tagged b)))) ltac:(lia)) as (r & q' & -> & Hrows & Hr' & Hq' & Hz). cbn [mbind res_bind].
    exists (b :: r), q'. rewrite qrows_cons, zlen_app, Hn. split_and!; [do 2 f_equal; lia|by rewrite <-app_assoc, Hrows|by constructor|done|lia].
Qed.

(** *** What an attention layer queues *)

Definition firsts (pl : list Z) : nat := length (filter (fun l => l <> -1) pl).

(** Rows with a prefill length, then the others. *)
Definition split_at (s : nat) (pl : list Z) : Prop := Forall (fun l => l <> -1) (take s pl) /\ Forall (fun l => l = -1) (drop s pl).

Lemma split_at_firsts s pl : split_at s pl -> (s <= length pl)%nat -> firsts pl = s.
Proof.
  intros [H1 H2] Hs. unfold firsts. rewrite <-(take_drop s pl), filter_app, length_app, (filter_all _ (take s pl) H1), length_take.
  assert (filter (fun l => l <> -1) (drop s pl) = []) as ->; [|cbn; lia].
  induction H2 as [|x l Hx _ IH]; [done|]. rewrite filter_cons, decide_False by tauto. exact IH.
Qed.

Lemma split_at_take s k pl : split_at s pl -> split_at (Nat.min s k) (take k pl).
Proof.
  intros [H1 H2]. split; apply Forall_forall; intros x [i Hi]%list_elem_of_lookup.
  - apply lookup_take_Some in Hi as [[Hi _]%lookup_take_Some Hl]. rewrite Forall_forall in H1.
    apply H1, (list_elem_of_lookup_2 _ i). by rewrite lookup_take_lt by lia.
  - rewrite lookup_drop in Hi. apply lookup_take_Some in Hi as [Hi Hk]. rewrite Nat.min_l in Hi by lia. rewrite Forall_forall in H2.
    apply H2, (list_elem_of_lookup_2 _ i). by rewrite lookup_drop.
Qed.

Lemma split_at_drop s k pl : split_at s pl -> split_at (s - k) (drop k pl).
Proof.
  intros [H1 H2]. split; apply Forall_forall; intros x [i Hi]%list_elem_of_lookup.
  - apply lookup_take_Some in Hi as [Hi Hl]. rewrite lookup_drop in Hi. rewrite Forall_forall in H1.
    apply H1, (list_elem_of_lookup_2 _ (k + i)). rewrite lookup_take_lt by lia. done.
  - rewrite !lookup_drop in Hi. rewrite Forall_forall in H2. apply H2, (list_elem_of_lookup_2 _ (k + (s - k + i) - s)).
    rewrite lookup_drop. replace (s + (k + (s - k + i) - s))%nat with (k + (s - k + i))%nat by lia. done.
Qed.

Record attn_item (L : Z) (b : Tagged) : Prop := {
  ai_tag : batch_tag b = ATTENTION;
  ai_layer : layer_id (tb_meta (tagged b)) = L;
  ai_ok : attn_ok (tagged b);
  ai_split : split_at (prefills (tagged b)) (init_prefill_lens (tb_meta (tagged b)));
}.

Lemma piece_prefills b f :
  batch_tag b = ATTENTION -> prefills (tagged (piece b f)) = firsts (f Z (init_prefill_lens (tb_meta (tagged b)))).
Proof. intros H. unfold prefills. cbn. rewrite decide_True by done. cbn. unfold zlen. by rewrite Nat2Z.id. Qed.

Lemma piece_attn_ok b f n :
  batch_tag b = ATTENTION -> rows_ok n (tagged (piece b f)) -> length (f Z (init_prefill_lens (tb_meta (tagged b)))) = n ->
  attn_ok (tagged (piece b f)).
Proof.
  intros Htag Hr Hl. pose proof (ro_data _ _ Hr) as Hd. pose proof (piece_prefills b f Htag) as Hp.
  assert (Hle : (firsts (f Z (init_prefill_lens (tb_meta (tagged b)))) <= n)%nat) by (unfold firsts; rewrite length_filter; lia).
  split; rewrite ?Hp, ?Hd; try done; cbn; by rewrite decide_True by done.
Qed.

Lemma attn_item_splits L : splits (attn_item L).
Proof.
  intros b k [Ht Hl Hok Hsp] Hk. pose proof (ao_lens _ Hok). pose proof (ao_le _ Hok).
  assert (H1 : split_at (Nat.min (prefills (tagged b)) k) (take k (init_prefill_lens (tb_meta (tagged b))))) by (by apply split_at_take).
  assert (H2 : split_at (prefills (tagged b) - k) (drop k (init_prefill_lens (tb_meta (tagged b))))) by (by apply split_at_drop).
  split; split; try done.
  - eapply piece_attn_ok; [done|eapply first_rows_ok; [apply Hok|done]|rewrite length_take; lia].
  - unfold first_part. rewrite piece_prefills by done. rewrite (split_at_firsts _ _ H1); [done|rewrite length_take; lia].
  - eapply piece_attn_ok; [done|eapply second_rows_ok; [apply Hok|done]|rewrite length_drop; lia].
  - unfold second_part. rewrite piece_prefills by done. rewrite (split_at_firsts _ _ H2); [done|rewrite length_drop; lia].
Qed.

(** The requests of the rows and their prefill lengths. *)
Definition labels (b : TokenBatch T) : list (Z * Z) := zip (req_ids (tb_meta b)) (init_prefill_lens (tb_meta b)).

Definition row_label (r : Row) : Z * Z := let '(id, pl, _, _, _, _) := r in (default 0 id, default 0 pl).

Lemma rows_labels b : attn_ok b -> row_label <$> rows b = labels b.
Proof.
  intros H. pose proof (ao_ids b H). pose proof (ao_lens b H). apply list_eq. intros i. unfold rows, labels. rewrite !list_lookup_fmap, lookup_zip_with.
  destruct (decide (i < length (tb_data b))%nat) as [Hi|Hi].
  - rewrite lookup_seq_lt by done. cbn. destruct (lookup_lt_is_Some_2 (req_ids (tb_meta b)) i) as [x Hx]; [lia|].
    destruct (lookup_lt_is_Some_2 (init_prefill_lens (tb_meta b)) i) as [y Hy]; [lia|]. by rewrite Hx, Hy.
  - rewrite lookup_seq_ge by lia. by rewrite (lookup_ge_None_2 (req_ids (tb_meta b)) i) by lia.
Qed.

Lemma zip_stacked {A B} (f : TokenBatch T -> list A) (g : TokenBatch T -> list B) bs :
  Forall (fun b => length (f b) = length (g b)) bs ->
  zip (stacked f bs) (stacked g bs) = stacked (fun b => zip (f b) (g b)) bs.
Proof.
  intros H. unfold stacked. rewrite zip_with_app by (by apply fronts_length). f_equal.
  - induction H as [|b bs Hb _ IH]; [done|]. rewrite !fronts_cons, zip_with_app, IH by (rewrite !length_take; lia). by rewrite zip_with_take.
  - induction H as [|b bs Hb _ IH]; [done|]. rewrite !backs_cons, zip_with_app, IH by (rewrite !length_drop; lia). by rewrite zip_with_drop.
Qed.

Lemma stacked_perm {A} (f : TokenBatch T -> list A) bs : stacked f bs ≡ₚ bs ≫= f.
Proof.
  induction bs as [|b bs IH]; [done|]. unfold stacked in *. rewrite fronts_cons, backs_cons. cbn [mbind list_bind].
  rewrite <-IH. etrans; [|by rewrite <-(take_drop (prefills b) (f b))]. rewrite <-!app_assoc. apply Permutation_app_head.
  rewrite !app_assoc. apply Permutation_app_tail, Permutation_app_comm.
Qed.

(** A row with its labels. *)
Definition labelled (b : TokenBatch T) : list (Z * Z * T) := zip (labels b) (tb_data b).

Lemma labels_length b : attn_ok b -> length (labels b) = length (tb_data b).
Proof. intros H. unfold labels. rewrite length_zip_with, (ao_ids b H), (ao_lens b H). lia. Qed.

Lemma labelled_labels b : attn_ok b -> (labelled b).*1 = labels b.
Proof. intros H. unfold labelled. apply fst_zip. by rewrite labels_length. Qed.

Lemma merged_split bs :
  Forall attn_ok bs -> Forall (fun b => split_at (prefills b) (init_prefill_lens (tb_meta b))) bs ->
  split_at (length (fronts tb_data bs)) (stacked (fun b => init_prefill_lens (tb_meta b)) bs).
Proof.
  intros Hok Hsp.
  assert (Hl : length (fronts tb_data bs) = length (fronts (fun b => init_prefill_lens (tb_meta b)) bs)).
  { apply fronts_length. eapply Forall_impl; [exact Hok|]. intros b Hb. by rewrite (ao_lens b Hb). }
  rewrite Hl. unfold stacked. split.
  - rewrite take_app_length. clear -Hsp. induction Hsp as [|b bs [H1 _] _ IH]; [constructor|]. rewrite fronts_cons. by apply Forall_app.
  - rewrite drop_app_length. clear -Hsp. induction Hsp as [|b bs [_ H2] _ IH]; [constructor|]. rewrite backs_cons. by apply Forall_app.
Qed.

(** Merging what an attention layer queued: one batch of the same rows, the prefill rows
    first and counted, everything aligned. *)
Lemma merge_attn_items L bs :
  bs <> [] -> Forall (attn_item L) bs ->
  exists t, merge bs = Ok (Some t) /\ attn_item L {| batch_tag := ATTENTION; tagged := t |} /\
    labelled t ≡ₚ bs ≫= fun b => labelled (tagged b).
Proof.
  intros Hne Hall.
  assert (Hok : Forall attn_ok (tagged <$> bs)) by (apply Forall_fmap; eapply Forall_impl; [exact Hall|by intros b []]).
  assert (Hsp : Forall (fun b => split_at (prefills b) (init_prefill_lens (tb_meta b))) (tagged <$> bs))
    by (apply Forall_fmap; eapply Forall_impl; [exact Hall|by intros b []]).
  destruct bs as [|b [|b2 bs]]; [done| |].
  { exists (tagged b). split; [done|]. apply Forall_cons in Hall as [[H1 H2 H3 H4] _]. split; [by split|]. cbn. by rewrite app_nil_r. }
  pose proof Hall as Hall'. apply Forall_cons in Hall' as [[Ht Hl Hb _] _]. cbn [merge]. rewrite Ht.
  set (l := b2 :: bs) in *. cbn [fmap list_fmap] in Hok, Hsp |- *.
  destruct (merge_by_attention_ok (tagged b) (tagged <$> l) Hok) as (m & _ & E & Er & Ep & El & Hmok & Hmp).
  change (list_fmap Tagged (TokenBatch T) tagged l) with (tagged <$> l) in *. rewrite E. cbn [mbind res_bind].
  eexists. split; [reflexivity|]. split.
  - split; cbn [tagged tb_meta batch_tag]; [done|congruence|done|]. rewrite Hmp, Ep. by apply merged_split.
  - unfold labelled at 1, labels. cbn [tb_meta tb_data]. rewrite Er, Ep.
    rewrite zip_stacked by (eapply Forall_impl; [exact Hok|]; intros x Hx; by rewrite (ao_ids x Hx), (ao_lens x Hx)).
    change (fun b : TokenBatch T => zip (req_ids (tb_meta b)) (init_prefill_lens (tb_meta b))) with labels.
    rewrite zip_stacked by (eapply Forall_impl; [exact Hok|]; apply labels_length).
    change (fun b : TokenBatch T => zip (labels b) (tb_data b)) with labelled.
    rewrite stacked_perm. change (tagged b :: (tagged <$> l)) with (tagged <$> (b :: l)).
    generalize (b :: l). intros k. induction k as [|x k IH]; [done|]. cbn. by rewrite <-IH.
Qed.

(** *** Packing complete tokens

    [std::sort] permutes and, for a strict weak order, sorts. *)

Definition strict_weak {A} (less : A -> A -> bool) (l : list A) : Prop :=
  (forall a, a ∈ l -> less a a = false) /\
  (forall a b c, a ∈ l -> b ∈ l -> c ∈ l -> less a b = true -> less b c = true -> less a c = true) /\
  (forall a b c, a ∈ l -> b ∈ l -> c ∈ l -> less b a = false -> less c b = false -> less c a = false).

Definition sort_spec : Prop :=
  forall less l, std_sort less l ≡ₚ l /\ (strict_weak less l -> StronglySorted (fun a b => less b a = false) (std_sort less l)).

Lemma token_before_weak l : Forall (fun t => -1 <= ti_init_prefill_len t) l -> strict_weak token_before l.
Proof.
  intros Hall. rewrite Forall_forall in Hall. unfold strict_weak, token_before. split_and!.
  - intros a Ha. zcases; try done; cbn in *; lia.
  - intros a b c Ha%Hall Hb%Hall Hc%Hall. zcases; cbn; intros; try done; zcases; try done; lia.
  - intros a b c Ha%Hall Hb%Hall Hc%Hall. zcases; cbn; intros; try done; zcases; try done; lia.
Qed.

Lemma pack_meta_eq h L ts :
  pack_topk_meta h L ts =
  {| shape := [zlen ts; h]; md_dtype := "bf16"; layer_id := L; req_ids := seq_id <$> ts; exp_ids := []; topk_weights := [];
     attn_dp_ranks := ti_attn_dp_rank <$> ts; init_prefill_lens := ti_init_prefill_len <$> ts;
     num_prefill_seqs := Some (Z.of_nat (firsts (ti_init_prefill_len <$> ts)));
     num_prefill_tokens := Some (Z.of_nat (firsts (ti_init_prefill_len <$> ts)));
     num_decode_tokens := Some (zlen ts - Z.of_nat (firsts (ti_init_prefill_len <$> ts))) |}.
Proof.
  unfold pack_topk_meta.
  assert (Hf : foldl (fun '(s, p, d, ids, lens, ranks) t =>
        if ti_init_prefill_len t =? -1
        then (s, p, d + 1, ids ++ [seq_id t], lens ++ [-1], ranks ++ [ti_attn_dp_rank t])
        else (s + 1, p + 1, d, ids ++ [seq_id t], lens ++ [ti_init_prefill_len t], ranks ++ [ti_attn_dp_rank t]))
      (0, 0, 0, [], [], []) ts
    = (Z.of_nat (firsts (ti_init_prefill_len <$> ts)), Z.of_nat (firsts (ti_init_prefill_len <$> ts)),
       zlen ts - Z.of_nat (firsts (ti_init_prefill_len <$> ts)), seq_id <$> ts, ti_init_prefill_len <$> ts, ti_attn_dp_rank <$> ts));
    [|by rewrite Hf].
  induction ts as [|t ts IH] using rev_ind; [done|]. rewrite foldl_snoc, IH, !fmap_app, zlen_app. cbn [fmap list_fmap].
  change (zlen [t]) with 1. unfold firsts. rewrite !filter_app, !length_app, filter_cons, filter_nil.
  destruct (Z.eqb_spec (ti_init_prefill_len t) (-1)) as [E|E].
  - rewrite decide_False by tauto. cbn [length]. rewrite E, Nat.add_0_r.
    match goal with |- (_, _, ?a, _, _, _) = (_, _, ?b, _, _, _) => by replace b with a by lia end.
  - rewrite decide_True by done. cbn [length].
    match goal with |- (?c, _, ?a, _, _, _) = (?d, _, ?b, _, _, _) => by replace b with a by lia; replace d with c by lia end.
Qed.

Lemma tokens_split (ts : list (TokenTopKInfo T)) :
  Forall (fun t => -1 <= ti_init_prefill_len t) ts -> StronglySorted (fun a b => token_before b a = false) ts ->
  split_at (firsts (ti_init_prefill_len <$> ts)) (ti_init_prefill_len <$> ts).
Proof.
  intros Hall Hs. induction Hs as [|t ts Hs IH Ht]; [split; constructor|]. apply Forall_cons in Hall as [Hlt Hall]. specialize (IH Hall).
  cbn [fmap list_fmap]. unfold firsts. rewrite filter_cons. destruct (decide (ti_init_prefill_len t = -1)) as [E|E].
  - assert (Hts : Forall (fun l => l = -1) (ti_init_prefill_len <$> ts)).
    { apply Forall_fmap. apply Forall_forall. intros u Hu. rewrite Forall_forall in Ht, Hall. specialize (Ht u Hu). specialize (Hall u Hu).
      unfold token_before in Ht. rewrite E in Ht. cbn. rewrite orb_true_r in Ht. apply Z.ltb_ge in Ht. cbn in *. lia. }
    rewrite decide_False by tauto.
    assert (filter (fun l => l <> -1) (ti_init_prefill_len <$> ts) = []) as ->.
    { clear -Hts. induction Hts as [|x l Hx _ IH]; [done|]. rewrite filter_cons, decide_False by tauto. exact IH. }
    split; cbn; [constructor|by constructor].
  - rewrite decide_True by done. destruct IH as [H1 H2]. split; cbn; [by constructor|done].
Qed.

Lemma sum_copies_ok l : l <> [] -> exists x, sum_copies l = Ok x.
Proof. destruct l; [done|eauto]. Qed.

(** Packing complete tokens gives a batch of them, the prefill ones first and counted;
    each row is the sum of the copies in the order they arrived. *)
Lemma pack_ok h L ts :
  sort_spec -> 1 < top_k -> ts <> [] -> Forall complete ts -> Forall (fun t => -1 <= ti_init_prefill_len t) ts ->
  exists sorted rs, pack_topk_tokens h L ts = Ok {| tb_data := rs; tb_meta := pack_topk_meta h L sorted |} /\ sorted ≡ₚ ts /\
    Forall2 (fun t x => sum_copies (topk_tensors t) = Ok x) sorted rs /\
    attn_item L {| batch_tag := ATTENTION; tagged := {| tb_data := rs; tb_meta := pack_topk_meta h L sorted |} |}.
Proof.
  intros Hsort Hk Hne Hc Hlen. destruct (Hsort token_before ts) as [Hperm Hss]. specialize (Hss (token_before_weak ts Hlen)).
  set (sorted := std_sort token_before ts) in *. unfold pack_topk_tokens. fold sorted.
  rewrite <-Hperm in Hc, Hlen. assert (Hn : (0 < length sorted)%nat) by (rewrite Hperm; destruct ts; [done|cbn; lia]).
  assert (Ht0 : exists t0, sorted !! 0%nat = Some t0 /\ complete t0).
  { destruct (lookup_lt_is_Some_2 sorted 0 Hn) as [t E]. exists t. split; [done|by eapply Forall_lookup_1 in Hc]. }
  destruct Ht0 as (t & Ht & Hct). rewrite (proj2 (vec_at_Ok sorted 0 t)) by done. cbn [mbind res_bind]. rewrite Hct.
  assert (Hsrc : py_map (fun t => py_map (vec_at (topk_tensors t)) (py_range top_k)) sorted = Ok (topk_tensors <$> sorted)).
  { clear -Hc Hk. induction Hc as [|t l Ht _ IH]; [done|]. cbn [py_map]. unfold complete in Ht. rewrite vec_range0 by lia.
    cbn [mbind res_bind]. rewrite IH, take_ge by (unfold zlen in Ht; lia). done. }
  rewrite Hsrc. cbn [mbind res_bind].
  destruct (py_map_total sum_copies (fun l x => sum_copies l = Ok x) (topk_tensors <$> sorted)) as (rs & -> & Hrs).
  { intros l' (u & -> & Hu)%list_elem_of_fmap. rewrite Forall_forall in Hc. specialize (Hc u Hu). unfold complete in Hc.
    destruct (sum_copies_ok (topk_tensors u)) as [x Hx]; [intros E; rewrite E in Hc; change (zlen []) with 0 in Hc; lia|eauto]. }
  cbn [mbind res_bind]. rewrite Forall2_fmap_l in Hrs. exists sorted, rs. split; [done|]. split; [done|]. split; [exact Hrs|].
  pose proof (Forall2_length _ _ _ Hrs) as Hl.
  assert (Hf : (firsts (ti_init_prefill_len <$> sorted) <= length sorted)%nat) by (unfold firsts; rewrite length_filter, length_fmap; done).
  rewrite pack_meta_eq.
  match goal with |- attn_item _ {| tagged := ?b |} => assert (Hp : prefills b = firsts (ti_init_prefill_len <$> sorted)) by (unfold prefills; cbn; lia) end.
  split; cbn [batch_tag tagged tb_meta layer_id]; [done|done| |rewrite Hp; by apply tokens_split].
  split; rewrite ?Hp; cbn [tb_data tb_meta init_prefill_lens num_prefill_seqs num_prefill_tokens num_decode_tokens]; try done.
  - split; cbn [tb_data tb_meta shape]; [|exists h; unfold zlen; by rewrite Hl|done].
    unfold aligned; cbn [req_ids exp_ids topk_weights attn_dp_ranks init_prefill_lens]. rewrite !length_fmap. auto 10.
  - by rewrite length_fmap.
  - lia.
  - unfold zlen. by rewrite Hl.
Qed.

(** *** Expert batches *)

Record expert_item (L : Z) (b : Tagged) : Prop := {
  ei_tag : batch_tag b = EXPERT;
  ei_layer : layer_id (tb_meta (tagged b)) = L;
  ei_rows : rows_ok (length (tb_data (tagged b))) (tagged b);
  ei_experts : length (exp_ids (tb_meta (tagged b))) = length (tb_data (tagged b));
  ei_range : Forall (fun e => 0 <= e < max_num_experts) (exp_ids (tb_meta (tagged b)));
  ei_weights : length (topk_weights (tb_meta (tagged b))) = length (tb_data (tagged b));
  ei_ranks : length (attn_dp_ranks (tb_meta (tagged b))) = length (tb_data (tagged b));
  ei_lens : length (init_prefill_lens (tb_meta (tagged b))) = length (tb_data (tagged b));
  ei_sorted : StronglySorted Z.le (exp_ids (tb_meta (tagged b)));
}.

Lemma strongly_take {A} (R : A -> A -> Prop) k l : StronglySorted R l -> StronglySorted R (take k l).
Proof. intros H. revert k. induction H as [|x l _ IH Hx]; intros [|k]; constructor; [done|by apply Forall_take]. Qed.

Lemma strongly_drop {A} (R : A -> A -> Prop) k l : StronglySorted R l -> StronglySorted R (drop k l).
Proof. intros H. revert k. induction H as [|x l Hl IH Hx]; intros [|k]; try constructor; try done. apply IH. Qed.

Lemma expert_item_splits L : splits (expert_item L).
Proof.
  intros b k [H1 H2 H3 H4 H5 H6 H7 H8 H9] Hk.
  pose proof (first_rows_ok b k _ H3 Hk) as F. pose proof (second_rows_ok b k _ H3 Hk) as S.
  split; split; try done; cbn; rewrite ?length_take, ?length_drop; try lia.
  - rewrite Nat.min_l by done. exact F.
  - by apply Forall_take.
  - by apply strongly_take.
  - exact S.
  - by apply Forall_drop.
  - by apply strongly_drop.
Qed.

(** Where [place_row] puts the row [k] of all: at its place in a stable sort. *)
Lemma place_parts ids k e :
  Forall (fun e => 0 <= e < max_num_experts) ids -> ids !! k = Some e ->
  exists pos' cnts' first',
    (if e =? 0 then Ok ((place_state ids k).2, (place_state ids k).1.2, (place_state ids k).2 + 1)
     else p ← vec_at (place_state ids k).1.2 (e - 1); c ← arr_set (place_state ids k).1.2 (e - 1) (p + 1); Ok (p, c, (place_state ids k).2))
    = Ok (stable_mapping ids (Z.of_nat k), cnts', first') /\
    arr_set (place_state ids k).1.1 (Z.of_nat k) (stable_mapping ids (Z.of_nat k)) = Ok pos' /\
    place_state ids (Datatypes.S k) = (pos', cnts', first').
Proof.
  intros Hids He. pose proof (place_body_step ids Hids k e He) as Hb.
  assert (Hk : (k < length ids)%nat) by (by eapply lookup_lt_Some).
  assert (Hval : forall p pos', arr_set (place_state ids k).1.1 (Z.of_nat k) p = Ok pos' -> pos' = (place_state ids (Datatypes.S k)).1.1 ->
    p = stable_mapping ids (Z.of_nat k)).
  { intros p pos' Hset ->. rewrite arr_set_ok in Hset by (cbn; rewrite tab_zlen; unfold zlen; lia). apply Ok_inj in Hset.
    apply (f_equal (fun l => l !! k)) in Hset. rewrite Nat2Z.id, list_lookup_insert_eq in Hset by (cbn; rewrite tab_length; unfold zlen; lia).
    cbn in Hset. rewrite <-(Nat2Z.id k), tab_lookup in Hset by (unfold zlen; lia).
    cbn beta in Hset.
    rewrite (proj2 (Z.ltb_lt _ _)) in Hset by lia. congruence. }
  unfold place_body in Hb. destruct (place_state ids k) as [[pos cnts] first] eqn:Est. cbn [fst snd] in *.
  rewrite (vec_at_nat _ _ _ He) in Hb. cbn [mbind res_bind] in Hb. destruct (e =? 0).
  - apply bind_Ok in Hb as (pos' & Hset & Hb). apply Ok_inj in Hb. pose proof (Hval _ _ Hset ltac:(by rewrite <-Hb)) as ->.
    eexists pos', _, _. split; [done|]. split; [done|by rewrite <-Hb].
  - apply bind_Ok in Hb as (p & Hp & Hb). apply bind_Ok in Hb as (pos' & Hset & Hb). apply bind_Ok in Hb as (c & Hc & Hb).
    apply Ok_inj in Hb. pose proof (Hval _ _ Hset ltac:(by rewrite <-Hb)) as ->.
    eexists pos', c, _. rewrite Hp. cbn [mbind res_bind]. rewrite Hc. cbn [mbind res_bind]. split; [done|]. split; [done|by rewrite <-Hb].
Qed.

(** The first [k] entries of a column are in place. *)
Definition spread {A} (ids : list Z) (k : nat) (col out : list A) : Prop :=
  length out = length ids /\ forall i x, (i < k)%nat -> col !! i = Some x -> out !! Z.to_nat (stable_mapping ids (Z.of_nat i)) = Some x.

Lemma mapping_inj ids i j :
  (i < length ids)%nat -> (j < length ids)%nat ->
  stable_mapping ids (Z.of_nat i) = stable_mapping ids (Z.of_nat j) -> i = j.
Proof.
  intros Hi Hj. unfold stable_mapping. rewrite !Nat2Z.id.
  destruct (lookup_lt_is_Some_2 ids i Hi) as [e He]. destruct (lookup_lt_is_Some_2 ids j Hj) as [e' He']. rewrite He, He'. intros E.
  destruct (Nat.lt_trichotomy i j) as [H|[H|H]]; [|done|]; (destruct (Z.lt_trichotomy e e') as [H'|[H'|H']]; [|subst e'|]).
  all: first [pose proof (stable_target_lt ids i j e e' He He' ltac:(lia)); lia | pose proof (stable_target_lt ids j i e' e He' He ltac:(lia)); lia
             | pose proof (stable_target_lt ids i j e e He He' ltac:(lia)); lia | pose proof (stable_target_lt ids j i e e He' He ltac:(lia)); lia].
Qed.

Lemma stable_range ids i : (i < length ids)%nat -> 0 <= stable_mapping ids (Z.of_nat i) < zlen ids.
Proof.
  intros Hi. unfold stable_mapping. rewrite Nat2Z.id. destruct (lookup_lt_is_Some_2 ids i Hi) as [e He]. rewrite He. by apply stable_target_range.
Qed.

Lemma spread_step {A} ids k (col out : list A) x :
  spread ids k col out -> (k < length ids)%nat -> col !! k = Some x ->
  exists out', arr_set out (stable_mapping ids (Z.of_nat k)) x = Ok out' /\ spread ids (Datatypes.S k) col out'.
Proof.
  intros [Hl Hv] Hk Hx. pose proof (stable_range ids k Hk) as Hr. rewrite arr_set_ok by (unfold zlen in *; lia). eexists. split; [reflexivity|].
  split; [by rewrite length_insert|]. intros i y Hi Hy. destruct (decide (i = k)) as [->|Hne].
  - rewrite list_lookup_insert_eq by (unfold zlen in *; lia). congruence.
  - pose proof (stable_range ids i ltac:(lia)). rewrite list_lookup_insert_ne; [apply Hv; [lia|done]|].
    intros E. apply Hne, (mapping_inj ids); [lia|done|lia].
Qed.

Lemma mapping_onto ids p : (p < length ids)%nat -> exists i, (i < length ids)%nat /\ stable_mapping ids (Z.of_nat i) = Z.of_nat p.
Proof.
  intros Hp. set (l := (fun i => stable_mapping ids (Z.of_nat i)) <$> seq 0 (length ids)).
  assert (Hnd : NoDup l).
  { apply NoDup_fmap_2_strong; [|apply NoDup_seq]. intros i j Hi Hj. apply elem_of_seq in Hi, Hj. apply mapping_inj; lia. }
  assert (Hperm : py_range (zlen ids) ≡ₚ l).
  { symmetry. apply submseteq_length_Permutation; [|unfold l; rewrite py_range_length, length_fmap, length_seq; unfold zlen; lia].
    apply NoDup_submseteq; [done|]. intros q (i & -> & Hi)%list_elem_of_fmap. apply elem_of_seq in Hi. apply elem_of_py_range, stable_range. lia. }
  assert (Hin : Z.of_nat p ∈ l) by (rewrite <-Hperm; apply elem_of_py_range; unfold zlen; lia).
  apply list_elem_of_fmap in Hin as (i & -> & Hi). apply elem_of_seq in Hi. exists i. split; [lia|done].
Qed.

(** A column of the batches one after the other. *)
Definition column {A} (f : TokenBatch T -> list A) (bs : list (TokenBatch T)) : list A := bs ≫= f.

Lemma column_length {A B} (f : TokenBatch T -> list A) (g : TokenBatch T -> list B) bs :
  Forall (fun b => length (f b) = length (g b)) bs -> length (column f bs) = length (column g bs).
Proof.
  unfold column. induction 1 as [|b bs Hb _ IH]; [done|].
  change ((b :: bs) ≫= f) with (f b ++ (bs ≫= f)). change ((b :: bs) ≫= g) with (g b ++ (bs ≫= g)). rewrite !length_app. lia.
Qed.

Lemma column_lookup {A B} (f : TokenBatch T -> list A) (g : TokenBatch T -> list B) pre b post (i : nat) x :
  Forall (fun b => length (f b) = length (g b)) pre -> f b !! i = Some x ->
  column f (pre ++ b :: post) !! (length (column g pre) + i)%nat = Some x.
Proof.
  intros Hl Hx. rewrite <-(column_length f g pre Hl).
  assert (column f (pre ++ b :: post) = column f pre ++ column f (b :: post)) as -> by apply bind_app.
  rewrite lookup_app_r by lia. replace (length (column f pre) + i - length (column f pre))%nat with i by lia.
  change (column f (b :: post)) with (f b ++ column f post). by apply lookup_app_l_Some.
Qed.

Notation m_exp := (fun b => exp_ids (tb_meta b)).
Notation m_req := (fun b => req_ids (tb_meta b)).
Notation m_rank := (fun b => attn_dp_ranks (tb_meta b)).
Notation m_len := (fun b => init_prefill_lens (tb_meta b)).
Notation m_weight := (fun b => topk_weights (tb_meta b)).

Record placed_at (bs : list (TokenBatch T)) (k : nat) (st : placed) : Prop := {
  pa_state : place_state (column m_exp bs) k = (pl_positions st, pl_cnts st, pl_first st);
  pa_idx : pl_idx st = Z.of_nat k;
  pa_req : spread (column m_exp bs) k (column m_req bs) (pl_req_ids st);
  pa_exp : spread (column m_exp bs) k (column m_exp bs) (pl_exp_ids st);
  pa_rank : spread (column m_exp bs) k (column m_rank bs) (pl_ranks st);
  pa_len : spread (column m_exp bs) k (column m_len bs) (pl_lens st);
  pa_weight : spread (column m_exp bs) k (column m_weight bs) (pl_weights st);
}.

(** The columns an expert batch needs. *)
Definition expert_cols (b : TokenBatch T) : Prop := exists L, expert_item L {| batch_tag := EXPERT; tagged := b |}.

Lemma cols_lengths b :
  expert_cols b ->
  length (req_ids (tb_meta b)) = length (exp_ids (tb_meta b)) /\ length (attn_dp_ranks (tb_meta b)) = length (exp_ids (tb_meta b)) /\
  length (init_prefill_lens (tb_meta b)) = length (exp_ids (tb_meta b)) /\ length (topk_weights (tb_meta b)) = length (exp_ids (tb_meta b)) /\
  length (tb_data b) = length (exp_ids (tb_meta b)).
Proof. intros [L [_ _ [[Hr _] _ _] He _ Hw Hk Hl _]]. cbn in *. lia. Qed.

Lemma place_row_ok pre b post st (i : nat) :
  Forall expert_cols (pre ++ b :: post) -> (i < length (exp_ids (tb_meta b)))%nat ->
  placed_at (pre ++ b :: post) (length (column m_exp pre) + i) st ->
  exists st', place_row (tb_meta b) st (Z.of_nat i) = Ok st' /\ placed_at (pre ++ b :: post) (Datatypes.S (length (column m_exp pre) + i)) st'.
Proof.
  intros Hall Hi [Hst Hix Hrq Hex Hrk Hln Hw]. set (bs := pre ++ b :: post) in *. set (ids := column m_exp bs) in *. set (k := (length (column m_exp pre) + i)%nat) in *.
  assert (Hb : expert_cols b) by (rewrite Forall_forall in Hall; apply Hall; unfold bs; set_solver).
  destruct (cols_lengths b Hb) as (L1 & L2 & L3 & L4 & L5).
  assert (Hpre : Forall expert_cols pre) by (by apply Forall_app in Hall as [? _]).
  assert (Hids : Forall (fun e => 0 <= e < max_num_experts) ids).
  { apply Forall_forall. intros e (x & He & Hx)%list_elem_of_bind. rewrite Forall_forall in Hall. destruct (Hall x Hx) as [L HL].
    pose proof (ei_range _ _ HL) as Hr. cbn in Hr. rewrite Forall_forall in Hr. by apply Hr. }
  assert (Hcol : forall A (f : TokenBatch T -> list A) x, (forall c, expert_cols c -> length (f c) = length (exp_ids (tb_meta c))) ->
    f b !! i = Some x -> column f bs !! k = Some x).
  { intros A f x Hf Hx. unfold bs, k. apply (column_lookup f m_exp); [eapply Forall_impl; [exact Hpre|apply Hf]|done]. }
  destruct (lookup_lt_is_Some_2 (exp_ids (tb_meta b)) i) as [e He]; [lia|]. destruct (lookup_lt_is_Some_2 (req_ids (tb_meta b)) i) as [id Hid]; [lia|].
  destruct (lookup_lt_is_Some_2 (attn_dp_ranks (tb_meta b)) i) as [r Hr]; [lia|]. destruct (lookup_lt_is_Some_2 (init_prefill_lens (tb_meta b)) i) as [l Hl]; [lia|].
  destruct (lookup_lt_is_Some_2 (topk_weights (tb_meta b)) i) as [w Hww]; [lia|].
  assert (Hke : ids !! k = Some e) by (apply Hcol; [done|done]). pose proof (lookup_lt_Some _ _ _ Hke) as Hk.
  destruct (place_parts ids k e Hids Hke) as (pos' & cnts' & first' & E1 & E2 & E3). rewrite Hst in E1, E2. cbn [fst snd] in E1, E2.
  destruct (spread_step ids k _ _ id Hrq Hk) as (rq' & R1 & S1); [apply Hcol; [intros c Hc; apply (cols_lengths c Hc)|done]|].
  destruct (spread_step ids k _ _ e Hex Hk) as (ex' & R2 & S2); [done|].
  destruct (spread_step ids k _ _ r Hrk Hk) as (rk' & R3 & S3); [apply Hcol; [intros c Hc; apply (cols_lengths c Hc)|done]|].
  destruct (spread_step ids k _ _ l Hln Hk) as (ln' & R4 & S4); [apply Hcol; [intros c Hc; apply (cols_lengths c Hc)|done]|].
  destruct (spread_step ids k _ _ w Hw Hk) as (w' & R5 & S5); [apply Hcol; [intros c Hc; apply (cols_lengths c Hc)|done]|].
  unfold place_row. rewrite (vec_at_nat _ _ _ He). cbn [mbind res_bind]. rewrite E1. cbn [mbind res_bind]. rewrite Hix, E2. cbn [mbind res_bind].
  rewrite (vec_at_nat _ _ _ Hid). cbn [mbind res_bind]. rewrite R1. cbn [mbind res_bind]. rewrite R2. cbn [mbind res_bind].
  rewrite (vec_at_nat _ _ _ Hr). cbn [mbind res_bind]. rewrite R3. cbn [mbind res_bind].
  rewrite (vec_at_nat _ _ _ Hl). cbn [mbind res_bind]. rewrite R4. cbn [mbind res_bind].
  assert (Hmatch : match topk_weights (tb_meta b) with [] => Ok (pl_weights st) | ws => w ← vec_at ws (Z.of_nat i); arr_set (pl_weights st) (stable_mapping ids (Z.of_nat k)) w end = Ok w').
  { destruct (topk_weights (tb_meta b)) as [|w0 ws]; [done|]. by rewrite (vec_at_nat _ _ _ Hww). }
  rewrite Hmatch. cbn [mbind res_bind]. eexists. split; [reflexivity|]. split; try done. cbn [pl_idx]. lia.
Qed.

Lemma cols_range bs : Forall expert_cols bs -> Forall (fun e => 0 <= e < max_num_experts) (column m_exp bs).
Proof.
  intros Hall. apply Forall_forall. intros e (x & He & Hx)%list_elem_of_bind. rewrite Forall_forall in Hall. destruct (Hall x Hx) as [L HL].
  pose proof (ei_range _ _ HL) as Hr. cbn in Hr. rewrite Forall_forall in Hr. by apply Hr.
Qed.

Lemma cols_count b : expert_cols b -> meta_num_tokens (tb_meta b) = Ok (zlen (exp_ids (tb_meta b))).
Proof.
  intros Hb. destruct (cols_lengths b Hb) as (_ & _ & _ & _ & E). destruct Hb as [L HL]. destruct (ro_shape _ _ (ei_rows _ _ HL)) as [h Hh]. cbn in Hh.
  unfold meta_num_tokens. rewrite Hh. cbn. unfold zlen. by rewrite <-E.
Qed.

Lemma column_snoc {A} (f : TokenBatch T -> list A) l b : column f (l ++ [b]) = column f l ++ f b.
Proof. unfold column. rewrite bind_app. cbn. by rewrite app_nil_r. Qed.

Lemma place_batch_ok pre b post st :
  Forall expert_cols (pre ++ b :: post) -> placed_at (pre ++ b :: post) (length (column m_exp pre)) st ->
  exists st', py_for (place_row (tb_meta b)) (py_range (zlen (exp_ids (tb_meta b)))) st = Ok st' /\
    placed_at (pre ++ b :: post) (length (column m_exp (pre ++ [b]))) st'.
Proof.
  intros Hall Hst. rewrite column_snoc, length_app.
  destruct (py_for_total (fun (dn : list Z) t => placed_at (pre ++ b :: post) (length (column m_exp pre) + length dn) t)
    (place_row (tb_meta b)) (py_range (zlen (exp_ids (tb_meta b)))) st) as (st' & E & H).
  - by rewrite Nat.add_0_r.
  - intros dn i rest t Heq Ht. assert (Hi : py_range (zlen (exp_ids (tb_meta b))) !! length dn = Some i) by (rewrite Heq; by apply list_lookup_middle).
    unfold py_range in Hi. apply lookup_seqZ in Hi as [-> Hi]. rewrite Z.add_0_l.
    destruct (place_row_ok pre b post t (length dn) Hall ltac:(unfold zlen in Hi; lia) Ht) as (t' & E & H).
    exists t'. split; [exact E|]. rewrite length_app. cbn [length]. by rewrite Nat.add_1_r, Nat.add_succ_r.
  - exists st'. split; [exact E|]. rewrite py_range_length in H. unfold zlen in H. by rewrite Nat2Z.id in H.
Qed.

Lemma place_all bs st :
  Forall expert_cols bs -> placed_at bs 0 st ->
  exists st', py_for (fun st m => n ← meta_num_tokens m; py_for (place_row m) (py_range n) st) (tb_meta <$> bs) st = Ok st' /\
    placed_at bs (length (column m_exp bs)) st'.
Proof.
  intros Hall Hst. rewrite py_for_fmap.
  destruct (py_for_total (fun (pre : list (TokenBatch T)) t => placed_at bs (length (column m_exp pre)) t)
    (fun st b => n ← meta_num_tokens (tb_meta b); py_for (place_row (tb_meta b)) (py_range n) st) bs st) as (st' & E & H); [done| |by exists st'].
  intros pre b post t Heq Ht. assert (Hb : expert_cols b) by (rewrite Forall_forall in Hall; apply Hall; rewrite Heq; set_solver).
  rewrite (cols_count b Hb). cbn [mbind res_bind]. rewrite Heq in *. by apply place_batch_ok.
Qed.

Lemma merge_counts bs :
  Forall expert_cols bs ->
  py_for (fun t m => n ← meta_num_tokens m; Ok (t + n)) (tb_meta <$> bs) 0 = Ok (zlen (column m_exp bs)) /\
  py_for (fun c m =>
      n ← meta_num_tokens m;
      _ ← ASSERT (n =? zlen (exp_ids m));
      py_for (fun c e => x ← vec_at c e; arr_set c e (x + 1)) (exp_ids m) c) (tb_meta <$> bs) (replicate (Z.to_nat max_num_experts) 0)
  = py_for (fun c e => x ← vec_at c e; arr_set c e (x + 1)) (column m_exp bs) (replicate (Z.to_nat max_num_experts) 0).
Proof.
  intros Hall. induction bs as [|b bs IH] using rev_ind; [done|]. apply Forall_app in Hall as [Hall [Hb _]%Forall_cons].
  destruct (IH Hall) as [E1 E2]. rewrite column_snoc, fmap_app, !py_for_app, E1, E2, zlen_app. cbn [mbind res_bind fmap list_fmap py_for].
  rewrite (cols_count b Hb). cbn [mbind res_bind]. split; [done|]. rewrite Z.eqb_refl. cbn [ASSERT py_check mbind res_bind].
  destruct (py_for _ (column m_exp bs) _) as [c|] eqn:Ec; [|done]. cbn [mbind res_bind].
  by destruct (py_for _ (exp_ids (tb_meta b)) c).
Qed.

(** The merged metadata: a stable sort by expert of the rows of all batches. *)
Lemma merge_meta_expert_ok b bs :
  Forall expert_cols (b :: bs) ->
  exists m, let ids := column m_exp (b :: bs) in
    merge_meta_by_expert (tb_meta <$> (b :: bs)) = Ok (tab (zlen ids) (stable_mapping ids), m) /\
    shape m = zlen ids :: py_drop 1 (shape (tb_meta b)) /\ layer_id m = layer_id (tb_meta b) /\
    spread ids (length ids) (column m_req (b :: bs)) (req_ids m) /\ spread ids (length ids) ids (exp_ids m) /\
    spread ids (length ids) (column m_rank (b :: bs)) (attn_dp_ranks m) /\
    spread ids (length ids) (column m_len (b :: bs)) (init_prefill_lens m) /\
    spread ids (length ids) (column m_weight (b :: bs)) (topk_weights m).
Proof.
  intros Hall. pose proof (cols_range _ Hall) as Hids. destruct (merge_counts _ Hall) as [E1 E2]. set (ids := column m_exp (b :: bs)) in *.
  unfold merge_meta_by_expert. rewrite E1. cbn [fmap list_fmap]. change (list_fmap (TokenBatch T) BatchMetadata tb_meta bs) with (tb_meta <$> bs).
  rewrite (proj2 (vec_at_Ok (tb_meta b :: (tb_meta <$> bs)) 0 (tb_meta b))) by done. cbn [mbind res_bind].
  change (tb_meta b :: (tb_meta <$> bs)) with (tb_meta <$> (b :: bs)). rewrite E2, (counts_eq ids Hids). cbn [mbind res_bind].
  rewrite (prefix_eq ids Hids). cbn [mbind res_bind].
  assert (Hz : Z.to_nat (zlen ids) = length ids) by (unfold zlen; lia).
  destruct (place_all (b :: bs)
    {| pl_positions := replicate (Z.to_nat (zlen ids)) 0; pl_req_ids := replicate (Z.to_nat (zlen ids)) 0; pl_exp_ids := replicate (Z.to_nat (zlen ids)) 0;
       pl_ranks := replicate (Z.to_nat (zlen ids)) 0; pl_lens := replicate (Z.to_nat (zlen ids)) 0;
       pl_weights := replicate (Z.to_nat (zlen ids)) (float_of_Z 0);
       pl_cnts := tab max_num_experts (fun e => MemOps.count_lt (e + 1) ids); pl_first := 0; pl_idx := 0 |} Hall) as (st & Est & [Hst Hix H1 H2 H3 H4 H5]).
  { split; cbn [pl_positions pl_cnts pl_first pl_idx pl_req_ids pl_exp_ids pl_ranks pl_lens pl_weights]; try done;
      try (split; [by rewrite length_replicate, Hz|intros i x Hi; lia]).
    unfold place_state. fold ids. rewrite replicate_tab. apply (f_equal2 pair); [apply (f_equal2 pair)|done]; apply tab_ext; intros i Hi.
    - zcases; lia.
    - change (MemOps.count (i + 1) (take 0 ids)) with 0. lia. }
  rewrite Est. cbn [mbind res_bind]. fold ids in Hst, H1, H2, H3, H4, H5.
  assert (Hpos : pl_positions st = tab (zlen ids) (stable_mapping ids)).
  { unfold place_state in Hst. injection Hst as Hp _ _. rewrite <-Hp. apply tab_ext. intros i Hi. unfold zlen in Hi. zcases; lia. }
  eexists. cbn zeta. fold ids. rewrite Hpos. split; [reflexivity|]. cbn [shape layer_id req_ids exp_ids attn_dp_ranks init_prefill_lens topk_weights]. done.
Qed.

(** The rows of the batches, gathered through the pointers. *)
Lemma gather_pointers bs :
  Forall expert_cols bs ->
  let ids := column m_exp bs in
  exists srcs idx, py_for (fun '(srcs, idx) b =>
      k ← meta_num_tokens (tb_meta b);
      py_for (fun '(srcs, idx) i => x ← vec_at (tb_data b) i; p ← vec_at (tab (zlen ids) (stable_mapping ids)) idx; s ← arr_set srcs p (Some x); Ok (s, idx + 1))
        (py_range k) (srcs, idx)) bs (replicate (length ids) None, 0) = Ok (srcs, idx) /\
    spread ids (length ids) (Some <$> column tb_data bs) srcs.
Proof.
  intros Hall ids.
  match goal with |- exists _ _, py_for ?f _ ?s = _ /\ _ => destruct (py_for_total (fun (pre : list (TokenBatch T)) st =>
      st.2 = zlen (column m_exp pre) /\ spread ids (length (column m_exp pre)) (Some <$> column tb_data bs) st.1) f bs s) as ([srcs idx] & E & _ & H) end.
  - split; [done|]. split; [apply length_replicate|]. intros i x Hi. cbn in Hi. lia.
  - intros pre b post [srcs idx] Heq [Hidx Hsp]. cbn [fst snd] in *. subst idx.
    assert (Hb : expert_cols b) by (rewrite Forall_forall in Hall; apply Hall; rewrite Heq; set_solver).
    assert (Hpre : Forall expert_cols pre) by (rewrite Heq in Hall; by apply Forall_app in Hall as [? _]).
    rewrite (cols_count b Hb). cbn [mbind res_bind]. destruct (cols_lengths b Hb) as (_ & _ & _ & _ & Ld).
    match goal with |- exists _, py_for ?f ?l ?s = _ /\ _ => destruct (py_for_total (fun (dn : list Z) st =>
      st.2 = zlen (column m_exp pre) + zlen dn /\ spread ids (length (column m_exp pre) + length dn) (Some <$> column tb_data bs) st.1) f l s) as ([s' i'] & E & H1 & H2) end.
    + cbn. split; [change (zlen []) with 0; lia|]. by rewrite Nat.add_0_r.
    + intros dn i rest [s j] Hr [Hj Hs]. cbn [fst snd] in *. subst j.
      assert (Hi : py_range (zlen (exp_ids (tb_meta b))) !! length dn = Some i) by (rewrite Hr; by apply list_lookup_middle).
      unfold py_range in Hi. apply lookup_seqZ in Hi as [-> Hi]. rewrite Z.add_0_l.
      destruct (lookup_lt_is_Some_2 (tb_data b) (length dn)) as [x Hx]; [unfold zlen in Hi; lia|].
      rewrite (vec_at_nat _ _ _ Hx). cbn [mbind res_bind].
      assert (Hk : (length (column m_exp pre) + length dn < length ids)%nat).
      { unfold ids. rewrite Heq. change (pre ++ b :: post) with (pre ++ ([b] ++ post)). rewrite app_assoc. unfold column. rewrite bind_app, length_app.
        fold (column m_exp (pre ++ [b])). rewrite column_snoc, length_app. unfold column, zlen in *. lia. }
      replace (zlen (column m_exp pre) + zlen dn) with (Z.of_nat (length (column m_exp pre) + length dn)) by (unfold zlen; lia).
      rewrite vec_at_tab by (unfold zlen; lia). cbn [mbind res_bind].
      destruct (spread_step ids (length (column m_exp pre) + length dn) (Some <$> column tb_data bs) s (Some x) Hs Hk) as (s2 & E2 & Hs2).
      { rewrite list_lookup_fmap, Heq. rewrite (column_lookup tb_data m_exp pre b post (length dn) x); [done| |done].
        eapply Forall_impl; [exact Hpre|]. intros c Hc. apply (cols_lengths c Hc). }
      rewrite E2. cbn [mbind res_bind]. eexists. split; [reflexivity|]. cbn [fst snd]. rewrite length_app. cbn [length].
      split; [rewrite zlen_app; change (zlen [Z.of_nat (length dn)]) with 1; unfold zlen; lia|]. by rewrite Nat.add_1_r, Nat.add_succ_r.
    + exists (s', i'). split; [exact E|]. cbn [fst snd] in *. rewrite column_snoc, zlen_app, length_app.
      rewrite py_range_length in H2. unfold zlen in *. rewrite py_range_length in H1. rewrite !Nat2Z.id in *. done.
  - exists srcs, idx. split; [exact E|exact H].
Qed.

Lemma spread_rows ids (l : list T) srcs :
  length l = length ids -> spread ids (length ids) (Some <$> l) srcs -> exists r, gather_tokens srcs = Ok r /\ spread ids (length ids) l r.
Proof.
  intros Hl [Hsl Hv]. unfold gather_tokens.
  destruct (py_map_total (of_option RuntimeError) (fun o x => o = Some x) srcs) as (r & -> & Hr).
  { intros o [p Hp]%list_elem_of_lookup. pose proof (lookup_lt_Some _ _ _ Hp). destruct (mapping_onto ids p) as (i & Hi & Hm); [lia|].
    destruct (lookup_lt_is_Some_2 l i) as [x Hx]; [lia|]. specialize (Hv i (Some x) Hi). rewrite list_lookup_fmap, Hx, Hm, Nat2Z.id in Hv.
    specialize (Hv eq_refl). rewrite Hp in Hv. injection Hv as ->. by exists x. }
  exists r. split; [done|]. pose proof (Forall2_length _ _ _ Hr). split; [lia|]. intros i x Hi Hx.
  specialize (Hv i (Some x) Hi). rewrite list_lookup_fmap, Hx in Hv. specialize (Hv eq_refl).
  destruct (Forall2_lookup_l _ _ _ _ _ Hr Hv) as (y & Hy & E). by injection E as ->.
Qed.

Lemma merge_by_expert_ok b bs :
  Forall expert_cols (b :: bs) ->
  let ids := column m_exp (b :: bs) in
  exists t, merge_by_expert (b :: bs) = Ok t /\ shape (tb_meta t) = zlen ids :: py_drop 1 (shape (tb_meta b)) /\
    layer_id (tb_meta t) = layer_id (tb_meta b) /\ spread ids (length ids) (column tb_data (b :: bs)) (tb_data t) /\
    spread ids (length ids) (column m_req (b :: bs)) (req_ids (tb_meta t)) /\ spread ids (length ids) ids (exp_ids (tb_meta t)) /\
    spread ids (length ids) (column m_rank (b :: bs)) (attn_dp_ranks (tb_meta t)) /\
    spread ids (length ids) (column m_len (b :: bs)) (init_prefill_lens (tb_meta t)) /\
    spread ids (length ids) (column m_weight (b :: bs)) (topk_weights (tb_meta t)).
Proof.
  intros Hall ids. destruct (merge_meta_expert_ok b bs Hall) as (m & E & Hsh & Hlay & H1 & H2 & H3 & H4 & H5). fold ids in E, Hsh, H1, H2, H3, H4, H5.
  destruct (gather_pointers (b :: bs) Hall) as (srcs & idx & Eg & Hg). fold ids in Eg, Hg.
  assert (Hl : length (column tb_data (b :: bs)) = length ids).
  { apply column_length. eapply Forall_impl; [exact Hall|]. intros c Hc. apply (cols_lengths c Hc). }
  destruct (spread_rows ids _ srcs Hl Hg) as (r & Er & Hr). unfold merge_by_expert. rewrite E. cbn [mbind res_bind].
  assert (meta_num_tokens m = Ok (zlen ids)) as -> by (unfold meta_num_tokens; by rewrite Hsh). cbn [mbind res_bind].
  replace (Z.to_nat (zlen ids)) with (length ids) by (unfold zlen; lia). rewrite Eg. cbn [mbind res_bind]. rewrite Er. cbn [mbind res_bind].
  eexists. split; [reflexivity|]. done.
Qed.

(** The expert of a row. *)
Definition row_expert (r : Row) : Z := let '(_, _, e, _, _, _) := r in default (-1) e.

Lemma filter_rank {A} (P : A -> Prop) `{!forall x, Decision (P x)} (l : list A) j x :
  filter P l !! j = Some x -> exists i, l !! i = Some x /\ length (filter P (take i l)) = j.
Proof.
  revert j. induction l as [|y l IH]; intros j; [done|]. rewrite filter_cons. case_decide as HP.
  - destruct j as [|j]; [intros [= ->]; by exists 0%nat|]. cbn. intros (i & H1 & H2)%IH. exists (Datatypes.S i). split; [done|].
    cbn [take]. rewrite filter_cons, decide_True by done. cbn. by f_equal.
  - intros (i & H1 & H2)%IH. exists (Datatypes.S i). split; [done|]. cbn [take]. by rewrite filter_cons, decide_False.
Qed.

Lemma rows_app_lookup bs i :
  Forall expert_cols bs ->
  (bs ≫= rows) !! i = if decide (i < length (column m_exp bs))%nat
    then Some (column m_req bs !! i, column m_len bs !! i, column m_exp bs !! i, column m_weight bs !! i, column m_rank bs !! i, column tb_data bs !! i)
    else None.
Proof.
  intros Hall. revert i. induction Hall as [|b bs Hb Hbs IH]; intros i; [case_decide; [cbn in *; lia|done]|].
  destruct (cols_lengths b Hb) as (L1 & L2 & L3 & L4 & L5).
  change ((b :: bs) ≫= rows) with (rows b ++ (bs ≫= rows)).
  assert (Hc : forall A (f : TokenBatch T -> list A), column f (b :: bs) = f b ++ column f bs) by done. rewrite !Hc.
  destruct (decide (i < length (exp_ids (tb_meta b)))%nat) as [Hi|Hi].
  - rewrite decide_True by (rewrite length_app; lia). rewrite !lookup_app_l by (rewrite ?rows_length; lia).
    unfold rows. rewrite list_lookup_fmap, lookup_seq_lt by lia. done.
  - rewrite lookup_app_r, rows_length, IH by (rewrite rows_length; lia). rewrite !lookup_app_r by lia. rewrite L1, L2, L3, L4, L5, length_app.
    destruct (decide (i - length (exp_ids (tb_meta b)) < length (column m_exp bs))%nat); [rewrite decide_True by lia|rewrite decide_False by lia]; done.
Qed.

Lemma count_firsts (e : Z) (bs : list (TokenBatch T)) i :
  Forall expert_cols bs ->
  MemOps.count e (take i (column m_exp bs)) = zlen (filter (fun r => row_expert r = e) (take i (bs ≫= rows))).
Proof.
  intros Hall. assert (Hm : column m_exp bs = row_expert <$> (bs ≫= rows)).
  { apply list_eq. intros j. rewrite list_lookup_fmap, rows_app_lookup by done. case_decide as Hj.
    - cbn. by destruct (lookup_lt_is_Some_2 _ _ Hj) as [x ->].
    - cbn. by apply lookup_ge_None_2; lia. }
  rewrite Hm, <-fmap_take. generalize (take i (bs ≫= rows)). intros l. induction l as [|r l IH]; [done|].
  cbn [fmap list_fmap]. rewrite filter_cons, MemOps.count_cons, IH. destruct (decide (row_expert r = e)); [rewrite zlen_cons; lia|lia].
Qed.

Lemma merged_row bs (t : TokenBatch T) i r :
  Forall expert_cols bs -> let ids := column m_exp bs in
  spread ids (length ids) (column tb_data bs) (tb_data t) -> spread ids (length ids) (column m_req bs) (req_ids (tb_meta t)) ->
  spread ids (length ids) ids (exp_ids (tb_meta t)) -> spread ids (length ids) (column m_rank bs) (attn_dp_ranks (tb_meta t)) ->
  spread ids (length ids) (column m_len bs) (init_prefill_lens (tb_meta t)) -> spread ids (length ids) (column m_weight bs) (topk_weights (tb_meta t)) ->
  (bs ≫= rows) !! i = Some r -> rows t !! Z.to_nat (stable_mapping ids (Z.of_nat i)) = Some r.
Proof.
  intros Hall ids [Hl0 H0] [_ H1] [_ H2] [_ H3] [_ H4] [_ H5] Hr. rewrite rows_app_lookup in Hr by done. case_decide as Hi; [|done]. injection Hr as <-.
  fold ids in Hi |- *. pose proof (stable_range ids i Hi). unfold rows. rewrite list_lookup_fmap, lookup_seq_lt by (unfold zlen in *; lia). cbn. f_equal.
  assert (Hg : forall A (f : TokenBatch T -> list A) (out : list A), (forall b, expert_cols b -> length (f b) = length (exp_ids (tb_meta b))) ->
    (forall i x, (i < length ids)%nat -> column f bs !! i = Some x -> out !! Z.to_nat (stable_mapping ids (Z.of_nat i)) = Some x) ->
    out !! Z.to_nat (stable_mapping ids (Z.of_nat i)) = column f bs !! i).
  { intros A f out Hf Ho. assert (Hlf : length (column f bs) = length ids) by (apply column_length; eapply Forall_impl; [exact Hall|apply Hf]).
    destruct (lookup_lt_is_Some_2 (column f bs) i) as [x Hx]; [lia|]. rewrite Hx. by apply Ho. }
  unfold row_at. rewrite (Hg _ m_req _), (Hg _ m_len _), (Hg _ m_exp _), (Hg _ m_weight _), (Hg _ m_rank _), (Hg _ tb_data _); try done;
    intros c Hc; apply (cols_lengths c Hc).
Qed.

Lemma exp_column bs : Forall expert_cols bs -> column m_exp bs = row_expert <$> (bs ≫= rows).
Proof.
  intros Hall. apply list_eq. intros j. rewrite list_lookup_fmap, rows_app_lookup by done. case_decide as Hj.
  - cbn. by destruct (lookup_lt_is_Some_2 _ _ Hj) as [x ->].
  - cbn. by apply lookup_ge_None_2; lia.
Qed.

Lemma perm_lookup {A} (l q : list A) (f : nat -> nat) :
  length l = length q -> (forall i x, q !! i = Some x -> l !! f i = Some x) ->
  (forall i j, (i < length q)%nat -> (j < length q)%nat -> f i = f j -> i = j) -> l ≡ₚ q.
Proof.
  intros Hl Hv Hinj. symmetry. apply Permutation_inj. split; [done|].
  assert (Hlt : forall i, (i < length q)%nat -> (f i < length q)%nat).
  { intros i Hi. destruct (lookup_lt_is_Some_2 q i Hi) as [x Hx]. pose proof (lookup_lt_Some _ _ _ (Hv i x Hx)). lia. }
  exists (fun i => if decide (i < length q)%nat then f i else i). split.
  - intros i j. repeat case_decide; intros E; try done; [by apply Hinj|pose proof (Hlt i ltac:(done)); lia|pose proof (Hlt j ltac:(done)); lia].
  - intros i. case_decide as Hi; [|by rewrite !lookup_ge_None_2 by lia].
    destruct (lookup_lt_is_Some_2 q i Hi) as [x Hx]. rewrite Hx. symmetry. by apply Hv.
Qed.

Lemma lookup_strongly {A} (R : A -> A -> Prop) (l : list A) :
  (forall i j x y, (i < j)%nat -> l !! i = Some x -> l !! j = Some y -> R x y) -> StronglySorted R l.
Proof.
  induction l as [|a l IH]; intros H; constructor.
  - apply IH. intros i j x y Hij. apply (H (Datatypes.S i) (Datatypes.S j)). lia.
  - apply Forall_forall. intros y [j Hj]%list_elem_of_lookup. by apply (H 0%nat (Datatypes.S j)); [lia|..].
Qed.

Lemma strongly_lookup {A} (R : A -> A -> Prop) (l : list A) i j x y :
  StronglySorted R l -> (i < j)%nat -> l !! i = Some x -> l !! j = Some y -> R x y.
Proof.
  intros H. revert i j. induction H as [|a l _ IH Ha]; intros i j Hij Hx Hy; [done|]. destruct j as [|j]; [lia|]. destruct i as [|i].
  - cbn in Hx, Hy. injection Hx as ->. rewrite Forall_forall in Ha. by apply Ha, list_elem_of_lookup_2 with j.
  - cbn in Hx, Hy. apply (IH i j); [lia|done|done].
Qed.

(** In a list sorted by expert the rows of an expert are a slice. *)
Lemma sorted_slice {A} (f : A -> Z) e (l : list A) :
  StronglySorted (fun a b => f a <= f b) l ->
  take (length (filter (fun a => f a = e) l)) (drop (length (filter (fun a => f a < e) l)) l) = filter (fun a => f a = e) l.
Proof.
  induction 1 as [|a l Hl IH Ha]; [done|]. rewrite !filter_cons. destruct (Z.lt_trichotomy (f a) e) as [Hc|[Hc|Hc]].
  - rewrite decide_False, decide_True by lia. exact IH.
  - rewrite decide_True, decide_False by lia.
    assert (filter (fun a => f a < e) l = []) as E0.
    { clear -Ha Hc. induction Ha as [|b l Hb _ IH]; [done|]. rewrite filter_cons, decide_False by lia. exact IH. }
    rewrite E0 in IH |- *. cbn. by rewrite <-IH at 2.
  - rewrite !decide_False by lia.
    assert (filter (fun a => f a = e) l = []) as E0.
    { clear -Ha Hc. induction Ha as [|b l Hb _ IH]; [done|]. rewrite filter_cons, decide_False by lia. exact IH. }
    by rewrite E0.
Qed.

Lemma count_below e (q : list Row) : MemOps.count_lt e (row_expert <$> q) = zlen (filter (fun r => row_expert r < e) q).
Proof.
  induction q as [|r q IH]; [done|]. cbn [fmap list_fmap]. rewrite filter_cons, MemOps.count_lt_cons, IH.
  destruct (decide (row_expert r < e)); [rewrite zlen_cons; lia|lia].
Qed.

(** The merge of several batches is the stable sort of their rows by expert. *)
Lemma merged_stable bs (t : TokenBatch T) :
  Forall expert_cols bs -> length (rows t) = length (bs ≫= rows) ->
  (forall i r, (bs ≫= rows) !! i = Some r -> rows t !! Z.to_nat (stable_mapping (column m_exp bs) (Z.of_nat i)) = Some r) ->
  rows t ≡ₚ (bs ≫= rows) /\ StronglySorted (fun a b => row_expert a <= row_expert b) (rows t) /\
  forall e, filter (fun r => row_expert r = e) (rows t) = filter (fun r => row_expert r = e) (bs ≫= rows).
Proof.
  intros Hall Hl Hv. set (ids := column m_exp bs) in *. set (q := bs ≫= rows) in *.
  assert (Hids : ids = row_expert <$> q) by (by apply exp_column). assert (Hn : length q = length ids) by (rewrite Hids; by rewrite length_fmap).
  assert (Hperm : rows t ≡ₚ q).
  { apply (perm_lookup _ _ (fun i => Z.to_nat (stable_mapping ids (Z.of_nat i)))); [done|done|].
    intros i j Hi Hj E. pose proof (stable_range ids i ltac:(lia)). pose proof (stable_range ids j ltac:(lia)). apply (mapping_inj ids); lia. }
  assert (Hsorted : StronglySorted (fun a b => row_expert a <= row_expert b) (rows t)).
  { apply lookup_strongly. intros p p' a a' Hp Ha Ha'. pose proof (lookup_lt_Some _ _ _ Ha). pose proof (lookup_lt_Some _ _ _ Ha').
    destruct (mapping_onto ids p) as (i & Hi & Hm); [lia|]. destruct (mapping_onto ids p') as (j & Hj & Hm'); [lia|].
    destruct (lookup_lt_is_Some_2 q i) as [r Hr]; [lia|]. destruct (lookup_lt_is_Some_2 q j) as [r' Hr']; [lia|].
    pose proof (Hv i r Hr) as E. pose proof (Hv j r' Hr') as E'. rewrite Hm, Nat2Z.id in E. rewrite Hm', Nat2Z.id in E'. rewrite Ha in E. rewrite Ha' in E'. injection E as <-. injection E' as <-.
    destruct (Z.le_gt_cases (row_expert a) (row_expert a')) as [|Hgt]; [done|]. exfalso.
    assert (He : ids !! i = Some (row_expert a)) by (by rewrite Hids, list_lookup_fmap, Hr).
    assert (He' : ids !! j = Some (row_expert a')) by (by rewrite Hids, list_lookup_fmap, Hr').
    pose proof (stable_target_lt ids j i _ _ He' He ltac:(lia)) as Hlt. unfold stable_mapping in Hm, Hm'. rewrite Nat2Z.id, He in Hm. rewrite Nat2Z.id, He' in Hm'. lia. }
  split; [done|]. split; [done|]. intros e. rewrite <-(sorted_slice row_expert e (rows t) Hsorted).
  assert (Hf : forall P (HP : forall x, Decision (P x)), length (filter P (rows t)) = length (filter P q)) by (intros P HP; by rewrite Hperm).
  rewrite !Hf. apply list_eq. intros j.
  destruct (decide (j < length (filter (fun r => row_expert r = e) q))%nat) as [Hj|Hj].
  2: { rewrite lookup_take_ge by lia. symmetry. apply lookup_ge_None_2. lia. }
  rewrite lookup_take_lt, lookup_drop by lia. destruct (lookup_lt_is_Some_2 _ _ Hj) as [r Hr]. rewrite Hr.
  assert (He : row_expert r = e) by (apply list_elem_of_lookup_2, list_elem_of_filter in Hr as [? _]; done).
  destruct (filter_rank _ _ _ _ Hr) as (i & Hi & Hcnt). specialize (Hv i r Hi).
  assert (Hm : Z.to_nat (stable_mapping ids (Z.of_nat i)) = (length (filter (fun r => (row_expert r < e)%Z) q) + j)%nat); [|by rewrite Hm in Hv].
  unfold stable_mapping. rewrite Nat2Z.id, Hids, list_lookup_fmap, Hi. cbn [fmap option_fmap option_map]. unfold stable_target.
  rewrite He, count_below, <-Hids. unfold ids. rewrite count_firsts by done. fold q. unfold zlen. lia.
Qed.

Lemma cols_of L b : expert_item L b -> expert_cols (tagged b).
Proof. intros [H1 H2 H3 H4 H5 H6 H7 H8 H9]. exists L. by split. Qed.

Lemma qrows_bind l : qrows l = (tagged <$> l) ≫= rows.
Proof. induction l as [|b l IH]; [done|]. rewrite qrows_cons, IH. done. Qed.

Lemma exp_rows b : expert_cols b -> exp_ids (tb_meta b) = row_expert <$> rows b.
Proof.
  intros Hb. pose proof (exp_column [b] (proj2 (Forall_singleton _ _) Hb)) as H. unfold column in H. cbn in H. by rewrite !app_nil_r in H.
Qed.

Lemma rows_sorted b : expert_cols b -> StronglySorted Z.le (exp_ids (tb_meta b)) <-> StronglySorted (fun r r' => row_expert r <= row_expert r') (rows b).
Proof.
  intros Hb. rewrite exp_rows by done. split; intros H; apply lookup_strongly; intros i j x y Hij Hx Hy.
  - apply (strongly_lookup _ _ i j (row_expert x) (row_expert y) H Hij); by rewrite list_lookup_fmap, ?Hx, ?Hy.
  - rewrite list_lookup_fmap in Hx, Hy. apply fmap_Some in Hx as (r & Hr & ->). apply fmap_Some in Hy as (r' & Hr' & ->).
    by apply (strongly_lookup _ _ i j r r' H).
Qed.

Lemma merge_expert_items L b bs :
  Forall (expert_item L) (b :: bs) ->
  exists t, merge (b :: bs) = Ok (Some t) /\ expert_item L {| batch_tag := EXPERT; tagged := t |} /\ rows t ≡ₚ qrows (b :: bs) /\
    StronglySorted (fun r r' => row_expert r <= row_expert r') (rows t) /\
    forall e, filter (fun r => row_expert r = e) (rows t) = filter (fun r => row_expert r = e) (qrows (b :: bs)).
Proof.
  intros Hall. pose proof Hall as [Hb _]%Forall_cons. destruct bs as [|b2 bs].
  { exists (tagged b). split; [done|]. split; [by destruct Hb; split|]. rewrite qrows_cons. cbn. rewrite app_nil_r. split; [done|].
    split; [|done]. apply rows_sorted; [by eapply cols_of|apply Hb]. }
  set (l := b2 :: bs) in *. assert (Hcols : Forall expert_cols (tagged b :: (tagged <$> l))).
  { change (Forall expert_cols (tagged <$> (b :: l))). apply Forall_fmap. eapply Forall_impl; [exact Hall|apply cols_of]. }
  destruct (merge_by_expert_ok (tagged b) (tagged <$> l) Hcols) as (t & E & Hsh & Hlay & H0 & H1 & H2 & H3 & H4 & H5).
  set (bt := tagged b :: (tagged <$> l)) in *. set (ids := column m_exp bt) in *.
  assert (Hq : qrows (b :: l) = bt ≫= rows) by apply qrows_bind.
  assert (Hn : length (bt ≫= rows) = length ids) by (unfold ids; rewrite exp_column by done; by rewrite length_fmap).
  assert (Hlen : length (tb_data t) = length ids) by apply H0.
  destruct (merged_stable bt t Hcols) as (P1 & P2 & P3); [rewrite rows_length; lia|intros i r Hr; by eapply merged_row|].
  exists t. split; [unfold merge; rewrite (ei_tag _ _ Hb); cbn [fmap list_fmap]; fold bt; by rewrite E|]. rewrite Hq. split; [|done].
  pose proof (cols_range bt Hcols) as Hrange. destruct (ro_shape _ _ (ei_rows _ _ Hb)) as [h Hh].
  assert (Hexp : exp_ids (tb_meta t) = row_expert <$> rows t).
  { apply list_eq. intros i. unfold rows. rewrite !list_lookup_fmap. destruct (decide (i < length (tb_data t))%nat) as [Hi|Hi].
    - rewrite lookup_seq_lt by done. cbn. destruct (lookup_lt_is_Some_2 (exp_ids (tb_meta t)) i) as [e ->]; [destruct H2; lia|done].
    - rewrite lookup_seq_ge by lia. cbn. apply lookup_ge_None_2. destruct H2; lia. }
  split; cbn [batch_tag tagged]; rewrite ?Hlen; try done; try apply H1; try apply H2; try apply H3; try apply H4; try apply H5.
  - rewrite Hlay. apply Hb.
  - split; [|exists h; rewrite Hsh, Hh; done|done]. unfold aligned. destruct H1, H2, H3, H4, H5. auto 10.
  - rewrite Hexp. apply Forall_fmap. rewrite P1. apply Forall_fmap. by rewrite <-exp_column.
  - rewrite Hexp. apply lookup_strongly. intros i j x y Hij Hx Hy. rewrite list_lookup_fmap in Hx, Hy.
    apply fmap_Some in Hx as (r & Hr & ->). apply fmap_Some in Hy as (r' & Hr' & ->). by apply (strongly_lookup _ _ i j r r' P2).
Qed.

(** C20. Merging expert batches is the stable sort of their rows by expert: the batch the
    expert layer hands out holds the rows of the queue, each with all its metadata, in
    the order of their experts, and the rows of one expert in the order they came. *)
Theorem merge_by_expert_exact L b bs :
  Forall (expert_item L) (b :: bs) ->
  exists t, merge (b :: bs) = Ok (Some t) /\ expert_item L {| batch_tag := EXPERT; tagged := t |} /\ rows t ≡ₚ qrows (b :: bs) /\
    StronglySorted (fun r r' => row_expert r <= row_expert r') (rows t) /\
    forall e, filter (fun r => row_expert r = e) (rows t) = filter (fun r => row_expert r = e) (qrows (b :: bs)).
Proof. apply merge_expert_items. Qed.

(** ** The pool *)

Definition token_label (t : TokenTopKInfo T) : Z * Z := (seq_id t, ti_init_prefill_len t).

(** The rows that wait in an attention layer. *)
Definition waiting (l : UnifiedLayer) : list (Z * Z) := (batch_queue l ≫= fun b => labels (tagged b)) ++ (token_label <$> token_queue l).

Definition by_token (L : Z) : bool := (1 <? top_k) && (0 <? L).

Record attn_layer_ok (L : Z) (l : UnifiedLayer) : Prop := {
  al_items : Forall (attn_item L) (batch_queue l);
  al_complete : Forall complete (token_queue l);
  al_lens : Forall (fun t => -1 <= ti_init_prefill_len t) (token_queue l);
  al_kind : if by_token L then batch_queue l = [] else token_queue l = [];
  al_count : num_tokens_ l = zlen (qrows (batch_queue l)) + zlen (token_queue l);
}.

Record expert_layer_ok (L : Z) (l : UnifiedLayer) : Prop := {
  el_items : Forall (expert_item L) (batch_queue l);
  el_count : num_tokens_ l = zlen (qrows (batch_queue l));
}.

Record topk_pool_ok (tp : TokenTopKPool) : Prop := {
  tk_inv : topk_inv tp;
  tk_ready : ready_tokens tp = [];
  tk_lens : map_Forall (fun _ t => -1 <= ti_init_prefill_len t) (pool_ tp);
}.

Record pool_inv (nl : nat) (p : UnifiedPool) : Prop := {
  pi_attn_count : length (attn_layers p) = Datatypes.S nl;
  pi_expert_count : length (expert_layers p) = nl;
  pi_topk_count : length (topk_pools p) = if 1 <? top_k then Datatypes.S nl else 0%nat;
  pi_attn : forall i l, attn_layers p !! i = Some l -> attn_layer_ok (Z.of_nat i) l;
  pi_expert : forall i l, expert_layers p !! i = Some l -> expert_layer_ok (Z.of_nat i) l;
  pi_topk : forall i tp, topk_pools p !! i = Some tp -> topk_pool_ok tp;
  pi_attn_threshold : 0 < attn_schedule_token_threshold p;
  pi_expert_threshold : 0 < expert_schedule_token_threshold p;
}.

Lemma zlen_perm {A} (l k : list A) : l ≡ₚ k -> zlen l = zlen k.
Proof. intros H. unfold zlen. by rewrite H. Qed.

Lemma get_batches_ok (P : Tagged -> Prop) threshold l :
  splits P -> (forall b, P b -> rows_ok (length (tb_data (tagged b))) (tagged b)) -> Forall P (batch_queue l) ->
  0 < threshold -> 0 < zlen (qrows (batch_queue l)) ->
  exists r q, get_batches_restricted threshold l
      = Ok (r, {| batch_queue := q; token_queue := token_queue l; num_tokens_ := num_tokens_ l - zlen (qrows r) |}) /\
    qrows r ++ qrows q = qrows (batch_queue l) /\ Forall P r /\ Forall P q /\ r <> [] /\
    zlen (qrows r) = Z.min threshold (zlen (qrows (batch_queue l))).
Proof.
  intros Hs Hok Hall Ht Hn. destruct (take_batches_ok P threshold (batch_queue l) Hs Hok Hall 0 ltac:(lia)) as (r & q & E & Hrows & Hr & Hq & Hz).
  rewrite Z.add_0_l in E. rewrite Z.sub_0_r in Hz. assert (Hne : r <> []) by (intros ->; change (zlen (qrows [])) with 0 in Hz; lia).
  exists r, q. unfold get_batches_restricted. rewrite E. cbn [mbind res_bind].
  assert (ASSERT ((0 <? zlen (qrows r)) && negb (zlen r =? 0)) = Ok tt) as ->; [|done].
  rewrite (proj2 (Z.ltb_lt 0 _)) by lia. destruct r; [done|]. rewrite zlen_cons. pose proof (zlen_nonneg r).
  by rewrite (proj2 (Z.eqb_neq _ 0)) by lia.
Qed.

Lemma qrows_labels L q : Forall (attn_item L) q -> row_label <$> qrows q = q ≫= fun b => labels (tagged b).
Proof.
  induction 1 as [|b q Hb _ IH]; [done|]. rewrite qrows_cons, fmap_app, IH, rows_labels by apply Hb. done.
Qed.

Lemma labelled_bind L q : Forall (attn_item L) q -> (q ≫= fun b => labelled (tagged b)).*1 = q ≫= fun b => labels (tagged b).
Proof.
  induction 1 as [|b q Hb _ IH]; [done|]. cbn [mbind list_bind]. rewrite fmap_app, labelled_labels by apply Hb. f_equal. exact IH.
Qed.

Lemma attn_item_rows L b : attn_item L b -> rows_ok (length (tb_data (tagged b))) (tagged b).
Proof. intros H. apply H. Qed.

Lemma attn_item_len L t : attn_item L {| batch_tag := ATTENTION; tagged := t |} -> length (tb_data t) = length (labels t).
Proof. intros H. symmetry. apply labels_length, H. Qed.

(** What an attention layer hands out: some of the rows that waited, at most as many as
    the threshold, and at least one. *)
Lemma take_attn threshold L l :
  sort_spec -> attn_layer_ok L l -> 0 < threshold -> 0 < num_tokens_ l -> 
  exists t l', (if by_token L then let '(ts, l') := get_tokens_restricted threshold l in b ← pack_topk_tokens hidden L ts; Ok (Some b, l')
                else '(bs, l') ← get_batches_restricted threshold l; b ← merge bs; Ok (b, l')) = Ok (Some t, l') /\
    attn_item L {| batch_tag := ATTENTION; tagged := t |} /\ attn_layer_ok L l' /\ labels t ++ waiting l' ≡ₚ waiting l /\
    0 < zlen (tb_data t) <= threshold.
Proof.
  intros Hsort [Hi Hc Hl Hk Hn] Ht Hpos. unfold waiting. destruct (by_token L) eqn:Eb.
  - rewrite Hk in *. change (zlen (qrows [])) with 0 in Hn. unfold get_tokens_restricted.
    set (n := Z.to_nat threshold). set (ts := take n (token_queue l)). pose proof (zlen_nonneg (token_queue l)).
    assert (Hts : zlen ts = Z.min threshold (zlen (token_queue l))) by (unfold ts, n, zlen; rewrite length_take; lia).
    assert (Htk : 1 < top_k) by (unfold by_token in Eb; lia).
    destruct (pack_ok hidden L ts Hsort Htk) as (sorted & rs & E & Hperm & Hf2 & Hit);
      [intros Hnil; rewrite Hnil in Hts; change (zlen []) with 0 in Hts; lia|by apply Forall_take|by apply Forall_take|].
    rewrite E. cbn [mbind res_bind]. eexists _, _. split; [reflexivity|]. split; [exact Hit|]. split; [|split].
    + split; cbn [batch_queue token_queue num_tokens_]; rewrite ?Hk; try done; [by apply Forall_drop..|by rewrite Eb|]. rewrite Hn. change (zlen (qrows [])) with 0. fold n ts.
      rewrite <-(take_drop n (token_queue l)) at 1. rewrite zlen_app. fold ts. lia.
    + cbn [batch_queue token_queue]. rewrite Hk. cbn [mbind list_bind app]. fold n.
      assert (Hlab : labels {| tb_data := rs; tb_meta := pack_topk_meta hidden L sorted |} = token_label <$> sorted).
      { unfold labels. rewrite pack_meta_eq. cbn. clear. induction sorted as [|t l IH]; [done|]. cbn. by rewrite IH. }
      rewrite Hlab, Hperm, <-fmap_app. unfold ts. by rewrite take_drop.
    + cbn. pose proof (Forall2_length _ _ _ Hf2) as Hlen. rewrite Hperm in Hlen. unfold zlen in *. lia.
  - rewrite Hk in *. change (zlen []) with 0 in Hn. rewrite Z.add_0_r in Hn.
    destruct (get_batches_ok (attn_item L) threshold l (attn_item_splits L) (attn_item_rows L) Hi Ht ltac:(lia)) as (r & q & E & Hrows & Hr & Hq & Hne & Hz).
    destruct (merge_attn_items L r Hne Hr) as (t & Em & Hit & Hlab). rewrite E. cbn [mbind res_bind]. rewrite Em. cbn [mbind res_bind].
    eexists _, _. split; [reflexivity|]. split; [exact Hit|].
    assert (Hlb : labels t ≡ₚ r ≫= fun b => labels (tagged b)).
    { rewrite <-labelled_labels, <-(labelled_bind L r Hr) by apply Hit. by rewrite Hlab. }
    split; [|split].
    + split; cbn [batch_queue token_queue num_tokens_]; rewrite ?Hk; try done; [by rewrite Eb|]. rewrite Hn, <-Hrows, zlen_app. change (zlen (@nil (TokenTopKInfo T))) with 0. lia.
    + cbn [batch_queue token_queue]. rewrite Hk. cbn [fmap list_fmap]. rewrite !app_nil_r, Hlb.
      rewrite <-(qrows_labels L r), <-(qrows_labels L q), <-(qrows_labels L (batch_queue l)), <-fmap_app, Hrows by done. done.
    + assert (Hd : zlen (tb_data t) = zlen (qrows r)); [|lia].
      unfold zlen. rewrite (attn_item_len L t Hit), Hlb, <-(qrows_labels L r Hr). by rewrite length_fmap.
Qed.

Lemma arr_set_nat {A} (l : list A) (i : nat) x : (i < length l)%nat -> arr_set l (Z.of_nat i) x = Ok (<[i := x]> l).
Proof. intros H. rewrite arr_set_ok by (unfold zlen; lia). by rewrite Nat2Z.id. Qed.

Lemma is_attn_lt p (i : nat) : (i < length (attn_layers p))%nat -> is_attn_layer (Z.of_nat i) p = true.
Proof. intros H. unfold is_attn_layer. apply Z.ltb_lt. unfold zlen. lia. Qed.

Lemma with_attn_inv nl p i l :
  pool_inv nl p -> attn_layer_ok (Z.of_nat i) l -> pool_inv nl (with_attn (<[i := l]> (attn_layers p)) p).
Proof.
  intros [H1 H2 H3 H4 H5 H6 H7 H8] Hl. split; cbn; try done; [by rewrite length_insert|].
  intros j l' Hj. apply list_lookup_insert_Some in Hj as [(<- & <- & _)|[_ Hj]]; [done|by apply H4].
Qed.

(** [get_batch_from_layer] on an attention layer that has tokens. *)
Lemma get_attn nl p (i : nat) l :
  sort_spec -> pool_inv nl p -> attn_layers p !! i = Some l -> 0 < num_tokens_ l ->
  exists t l', get_batch_from_layer (Z.of_nat i) p = Ok (Some t, with_attn (<[i := l']> (attn_layers p)) p) /\
    attn_item (Z.of_nat i) {| batch_tag := ATTENTION; tagged := t |} /\ attn_layer_ok (Z.of_nat i) l' /\
    labels t ++ waiting l' ≡ₚ waiting l /\ 0 < zlen (tb_data t) <= attn_schedule_token_threshold p.
Proof.
  intros Hsort Hinv Hl Hpos. pose proof (lookup_lt_Some _ _ _ Hl) as Hi. pose proof (is_attn_lt p i Hi) as Ha.
  destruct (take_attn (attn_schedule_token_threshold p) (Z.of_nat i) l Hsort (pi_attn _ _ Hinv _ _ Hl) (pi_attn_threshold _ _ Hinv) Hpos)
    as (t & l' & E & Hit & Hok & Hlab & Hsz).
  exists t, l'. split; [|done]. unfold get_batch_from_layer, get_batch_from_layer_restricted. rewrite Ha.
  rewrite (proj2 (Z.ltb_ge _ 0)) by lia. rewrite (proj2 (Z.leb_gt _ (Z.of_nat i))) by (unfold zlen; lia). cbn [orb].
  rewrite (vec_at_nat _ _ l) by (by apply lookup_app_l_Some). cbn [mbind res_bind].
  assert (Hu : layer_uses_token_queue (Z.of_nat i) p = by_token (Z.of_nat i)).
  { unfold layer_uses_token_queue, by_token. by rewrite Ha, andb_true_r. }
  assert (Hset : forall x, set_layer (Z.of_nat i) x p = Ok (with_attn (<[i := x]> (attn_layers p)) p)).
  { intros x. unfold set_layer. rewrite Ha, arr_set_nat by done. done. }
  rewrite Hu. destruct (by_token (Z.of_nat i)).
  - destruct (get_tokens_restricted _ l) as [ts l2]. rewrite Hset. cbn [mbind res_bind]. revert E. destruct (pack_topk_tokens _ _ ts); [|done].
    by intros [= -> ->].
  - destruct (get_batches_restricted _ l) as [[bs l2]|]; [|done]. cbn [mbind res_bind] in *. rewrite Hset. cbn [mbind res_bind].
    revert E. destruct (merge bs); [|done]. by intros [= -> ->].
Qed.

Lemma expert_item_rows L b : expert_item L b -> rows_ok (length (tb_data (tagged b))) (tagged b).
Proof. intros H. apply H. Qed.

(** ... and on an expert layer: the attention side does not change. *)
Lemma get_expert nl p (i : nat) l :
  pool_inv nl p -> expert_layers p !! i = Some l -> 0 < num_tokens_ l ->
  exists t l', get_batch_from_layer (Z.of_nat (length (attn_layers p) + i)) p = Ok (Some t, with_expert (<[i := l']> (expert_layers p)) p) /\
    expert_item (Z.of_nat i) {| batch_tag := EXPERT; tagged := t |} /\ pool_inv nl (with_expert (<[i := l']> (expert_layers p)) p) /\
    exists q, rows t ≡ₚ q /\ q ++ qrows (batch_queue l') = qrows (batch_queue l) /\
      zlen q = Z.min (expert_schedule_token_threshold p) (zlen (qrows (batch_queue l))) /\
      StronglySorted (fun r r' => row_expert r <= row_expert r') (rows t) /\
      forall e, filter (fun r => row_expert r = e) (rows t) = filter (fun r => row_expert r = e) q.
Proof.
  intros Hinv Hl Hpos. pose proof (lookup_lt_Some _ _ _ Hl) as Hi. set (j := (length (attn_layers p) + i)%nat).
  assert (Ha : is_attn_layer (Z.of_nat j) p = false) by (unfold is_attn_layer, zlen, j; apply Z.ltb_ge; lia).
  destruct (pi_expert _ _ Hinv i l Hl) as [Hit Hn].
  destruct (get_batches_ok (expert_item (Z.of_nat i)) (expert_schedule_token_threshold p) l (expert_item_splits _) (expert_item_rows _) Hit
    (pi_expert_threshold _ _ Hinv) ltac:(lia)) as (r & q & E & Hrows & Hr & Hq & Hne & Hz).
  destruct r as [|b bs]; [done|]. destruct (merge_expert_items _ b bs Hr) as (t & Em & Hti & Hp & Hss & Hf).
  eexists t, _. split; [|split; [exact Hti|split; [|exists (qrows (b :: bs)); split; [exact Hp|split; [|split; [exact Hz|split; [exact Hss|exact Hf]]]]]]].
  - unfold get_batch_from_layer, get_batch_from_layer_restricted. rewrite Ha.
    rewrite (proj2 (Z.ltb_ge _ 0)) by lia. rewrite (proj2 (Z.leb_gt _ (Z.of_nat j))) by (unfold zlen, j; lia). cbn [orb].
    rewrite (vec_at_nat _ _ l).
    2: { unfold j. rewrite lookup_app_r by lia. by replace (length (attn_layers p) + i - length (attn_layers p))%nat with i by lia. }
    cbn [mbind res_bind]. unfold layer_uses_token_queue. rewrite Ha, andb_false_r. cbn [andb]. rewrite E. cbn [mbind res_bind].
    unfold set_layer. rewrite Ha. replace (Z.of_nat j - zlen (attn_layers p)) with (Z.of_nat i) by (unfold j, zlen; lia).
    rewrite arr_set_nat by done. cbn [mbind res_bind]. by rewrite Em.
  - destruct Hinv as [H1 H2 H3 H4 H5 H6 H7 H8]. split; cbn [attn_layers expert_layers topk_pools attn_schedule_token_threshold expert_schedule_token_threshold with_expert]; try done;
      [by rewrite length_insert|].
    intros k l' Hk. apply list_lookup_insert_Some in Hk as [(<- & <- & _)|[_ Hk]]; [|by apply H5].
    split; [done|]. cbn [num_tokens_ batch_queue]. rewrite Hn, <-Hrows, zlen_app. lia.
  - cbn [batch_queue]. exact Hrows.
Qed.

(** The layer the scheduler picks has tokens; it picks none when no layer has. *)
Lemma schedule_cases p :
  (exists i l, schedule p = Z.of_nat i /\ attn_layers p !! i = Some l /\ 0 < num_tokens_ l) \/
  (exists i l, schedule p = Z.of_nat (length (attn_layers p) + i) /\ expert_layers p !! i = Some l /\ 0 < num_tokens_ l) \/
  (schedule p = -1 /\ (forall i l, attn_layers p !! i = Some l -> num_tokens_ l <= 0) /\
   forall i l, (i < length (attn_layers p))%nat -> expert_layers p !! i = Some l -> num_tokens_ l <= 0).
Proof.
  unfold schedule. set (busy := fun (ls : list UnifiedLayer) i => match ls !! Z.to_nat i with Some l => 0 <? num_tokens_ l | None => false end).
  change (fun (ls : list UnifiedLayer) (i : Z) => match ls !! Z.to_nat i with Some l => 0 <? num_tokens_ l | None => false end) with busy.
  assert (Hb : forall ls i, busy ls (Z.of_nat i) = true -> exists l, ls !! i = Some l /\ 0 < num_tokens_ l).
  { intros ls i H. unfold busy in H. rewrite Nat2Z.id in H. destruct (ls !! i) as [l|]; [|done]. exists l. split; [done|lia]. }
  assert (Hn : forall ls i l, busy ls (Z.of_nat i) = false -> ls !! i = Some l -> num_tokens_ l <= 0).
  { intros ls i l H E. unfold busy in H. rewrite Nat2Z.id, E in H. lia. }
  assert (Hg : forall dn, (forall i, (i < length dn)%nat -> busy (attn_layers p) (Z.of_nat i) = false /\ (Z.of_nat i <? zlen (expert_layers p)) && busy (expert_layers p) (Z.of_nat i) = false) ->
    forall l, py_range (zlen (attn_layers p)) = dn ++ l ->
    let r := (fix go (l : list Z) := match l with [] => -1 | i :: l => if busy (attn_layers p) i then i
                else if (i <? zlen (expert_layers p)) && busy (expert_layers p) i then i + zlen (attn_layers p) else go l end) l in
    (exists i l, r = Z.of_nat i /\ attn_layers p !! i = Some l /\ 0 < num_tokens_ l) \/
    (exists i l, r = Z.of_nat (length (attn_layers p) + i) /\ expert_layers p !! i = Some l /\ 0 < num_tokens_ l) \/
    (r = -1 /\ (forall i l, attn_layers p !! i = Some l -> num_tokens_ l <= 0) /\
     forall i l, (i < length (attn_layers p))%nat -> expert_layers p !! i = Some l -> num_tokens_ l <= 0)).
  { intros dn Hdn l. revert dn Hdn. induction l as [|i l IH]; intros dn Hdn Heq; cbn zeta.
    - right. right. rewrite app_nil_r in Heq. apply (f_equal length) in Heq. rewrite py_range_length in Heq. unfold zlen in Heq. rewrite Nat2Z.id in Heq.
      split; [done|]. split.
      + intros i l Hl. eapply Hn; [apply (Hdn i)|exact Hl]. apply lookup_lt_Some in Hl. lia.
      + intros i l Hi Hl. destruct (Hdn i ltac:(lia)) as [_ H]. rewrite (proj2 (Z.ltb_lt _ _)) in H by (apply lookup_lt_Some in Hl; unfold zlen; lia).
        by eapply Hn.
    - assert (Hi : py_range (zlen (attn_layers p)) !! length dn = Some i) by (rewrite Heq; by apply list_lookup_middle).
      unfold py_range in Hi. apply lookup_seqZ in Hi as [-> _]. rewrite Z.add_0_l.
      destruct (busy (attn_layers p) (Z.of_nat (length dn))) eqn:E1; [left; destruct (Hb _ _ E1) as (x & ? & ?); eauto|].
      destruct ((Z.of_nat (length dn) <? zlen (expert_layers p)) && busy (expert_layers p) (Z.of_nat (length dn))) eqn:E2.
      + right. left. apply andb_prop in E2 as [_ E2]. destruct (Hb _ _ E2) as (x & ? & ?). exists (length dn), x. split; [unfold zlen; lia|done].
      + apply (IH (dn ++ [Z.of_nat (length dn)])); [|by rewrite <-app_assoc]. intros k Hk. rewrite length_app in Hk. cbn in Hk.
        destruct (decide (k = length dn)) as [->|]; [done|apply Hdn; lia]. }
  apply (Hg []); [cbn; lia|done].
Qed.

(** *** Batches that arrive *)

(** Rows for an attention layer: every column the layer reads, prefill rows first. *)
Record attn_arrival (b : TokenBatch T) : Prop := {
  aa_rows : rows_ok (length (tb_data b)) b;
  aa_lens : length (init_prefill_lens (tb_meta b)) = length (tb_data b);
  aa_split : split_at (firsts (init_prefill_lens (tb_meta b))) (init_prefill_lens (tb_meta b));
}.

Lemma count_prefills b :
  attn_arrival b ->
  py_for (fun '(s, d) i => l ← vec_at (init_prefill_lens (tb_meta b)) i; if l =? -1 then Ok (s, d + 1) else Ok (s + 1, d))
    (py_range (zlen (req_ids (tb_meta b)))) (0, 0)
  = Ok (Z.of_nat (firsts (init_prefill_lens (tb_meta b))), zlen (tb_data b) - Z.of_nat (firsts (init_prefill_lens (tb_meta b)))).
Proof.
  intros [[(Hr & _) _ _] Hl _]. set (pls := init_prefill_lens (tb_meta b)) in *.
  destruct (py_for_total (fun (dn : list Z) st => st = (Z.of_nat (firsts (take (length dn) pls)), zlen dn - Z.of_nat (firsts (take (length dn) pls))))
    (fun '(s, d) i => l ← vec_at pls i; if l =? -1 then Ok (s, d + 1) else Ok (s + 1, d)) (py_range (zlen (req_ids (tb_meta b)))) (0, 0)) as (st & -> & ->).
  - done.
  - intros dn i rest st Heq ->. assert (Hi : py_range (zlen (req_ids (tb_meta b))) !! length dn = Some i) by (rewrite Heq; by apply list_lookup_middle).
    unfold py_range in Hi. apply lookup_seqZ in Hi as [-> Hi]. rewrite Z.add_0_l.
    destruct (lookup_lt_is_Some_2 pls (length dn)) as [x Hx]; [unfold zlen in Hi; lia|]. rewrite (vec_at_nat _ _ _ Hx). cbn [mbind res_bind].
    rewrite length_app, zlen_app. cbn [length]. rewrite Nat.add_1_r, (take_S_r _ _ _ Hx). change (zlen [Z.of_nat (length dn)]) with 1.
    unfold firsts. rewrite filter_app, length_app, filter_cons, filter_nil. destruct (Z.eqb_spec x (-1)).
    + rewrite decide_False by tauto. eexists. split; [reflexivity|]. cbn [length]. f_equal; lia.
    + rewrite decide_True by done. eexists. split; [reflexivity|]. cbn [length]. f_equal; lia.
  - rewrite py_range_length, take_ge by (unfold zlen; lia). do 2 f_equal. unfold zlen. rewrite py_range_length. unfold zlen. lia.
Qed.

Lemma process_attn_ok nl p (b : TokenBatch T) (i : nat) :
  pool_inv nl p -> attn_arrival b -> layer_id (tb_meta b) = Z.of_nat i -> (i <= nl)%nat -> by_token (Z.of_nat i) = false ->
  exists l l', attn_layers p !! i = Some l /\ process_attn_batch b p = Ok (with_attn (<[i := l']> (attn_layers p)) p) /\
    attn_layer_ok (Z.of_nat i) l' /\ waiting l' = waiting l ++ labels b.
Proof.
  intros Hinv Harr Hlay Hi Hby. destruct (lookup_lt_is_Some_2 (attn_layers p) i) as [l Hl]; [rewrite (pi_attn_count _ _ Hinv); lia|].
  destruct (pi_attn _ _ Hinv i l Hl) as [H1 H2 H3 H4 H5]. rewrite Hby in H4.
  pose proof Harr as [Hrows Hlens Hsp]. set (s := firsts (init_prefill_lens (tb_meta b))) in *.
  set (b' := {| tb_data := tb_data b; tb_meta := with_counts (Z.of_nat s) (zlen (tb_data b) - Z.of_nat s) (tb_meta b) |}).
  assert (Hp : prefills b' = s) by (unfold prefills, b'; cbn; lia).
  assert (Hitem : attn_item (Z.of_nat i) {| batch_tag := ATTENTION; tagged := b' |}).
  { split; cbn [batch_tag tagged]; [done|done| |by rewrite Hp]. destruct Hrows as [R1 R2 R3].
    split; rewrite ?Hp; cbn [tb_data tb_meta b' init_prefill_lens num_prefill_seqs num_prefill_tokens num_decode_tokens with_counts]; try done.
    unfold s, firsts. rewrite length_filter. lia. }
  destruct (ro_shape _ _ Hrows) as [h Hh].
  exists l, {| batch_queue := batch_queue l ++ [{| batch_tag := ATTENTION; tagged := b' |}]; token_queue := token_queue l; num_tokens_ := num_tokens_ l + zlen (tb_data b) |}.
  split; [done|]. split; [|split].
  - unfold process_attn_batch. rewrite count_prefills by done. cbn [mbind res_bind]. fold s. unfold sched_add_batch. cbn [batch_tag tagged tb_meta].
    change (layer_id (with_counts _ _ (tb_meta b))) with (layer_id (tb_meta b)). rewrite Hlay, (vec_at_nat _ _ _ Hl). cbn [mbind res_bind].
    unfold add_batch, meta_num_tokens. cbn [tagged tb_meta]. change (shape (with_counts _ _ (tb_meta b))) with (shape (tb_meta b)). rewrite Hh.
    cbn [head of_option mbind res_bind]. rewrite arr_set_nat by (by eapply lookup_lt_Some). done.
  - split; cbn [batch_queue token_queue num_tokens_]; rewrite ?Hby; try done; [apply Forall_app; split; [done|by constructor]|].
    rewrite qrows_app, zlen_app, H5. assert (zlen (qrows [{| batch_tag := ATTENTION; tagged := b' |}]) = zlen (tb_data b)); [|lia].
    rewrite qrows_cons, app_nil_r. unfold zlen. by rewrite rows_length.
  - unfold waiting. cbn [batch_queue token_queue]. rewrite H4, bind_app. cbn. by rewrite !app_nil_r.
Qed.

Definition fed (tp : TokenTopKPool) (b : TokenBatch T) : TokenTopKPool := foldl feed_row tp (arrivals b).

Lemma process_topk_ok nl p (b : TokenBatch T) (i : nat) :
  pool_inv nl p -> topk_ok b -> layer_id (tb_meta b) = Z.of_nat i -> (i <= nl)%nat -> 1 < top_k ->
  exists tp l, topk_pools p !! i = Some tp /\ attn_layers p !! i = Some l /\
    process_attn_batch_topk b p = Ok (with_attn (<[i := add_tokens (ready_tokens (fed tp b)) l]> (attn_layers p))
      (with_topk (<[i := {| pool_ := pool_ (fed tp b); ready_tokens := [] |}]> (topk_pools p)) p)).
Proof.
  intros Hinv Hok Hlay Hi Hk.
  destruct (lookup_lt_is_Some_2 (attn_layers p) i) as [l Hl]; [rewrite (pi_attn_count _ _ Hinv); lia|].
  pose proof (pi_topk_count _ _ Hinv) as Hc. rewrite (proj2 (Z.ltb_lt 1 top_k) Hk) in Hc.
  destruct (lookup_lt_is_Some_2 (topk_pools p) i) as [tp Htp]; [lia|].
  exists tp, l. split; [done|]. split; [done|]. unfold process_attn_batch_topk. rewrite Hlay, (vec_at_nat _ _ _ Htp). cbn [mbind res_bind].
  rewrite (put_batch_feed b tp Hok). cbn [mbind res_bind fetch_ready_tokens]. fold (fed tp b). rewrite arr_set_nat by (by eapply lookup_lt_Some). cbn [mbind res_bind].
  destruct (Z.eqb_spec (zlen (ready_tokens (fed tp b))) 0) as [Hz|Hz].
  - assert (ready_tokens (fed tp b) = []) as -> by (apply length_zero_iff_nil; unfold zlen in Hz; lia).
    assert (Hadd : add_tokens [] l = l) by (unfold add_tokens; rewrite app_nil_r, Z.add_0_r; by destruct l). rewrite Hadd, (list_insert_id (attn_layers p) i l Hl). by destruct p.
  - unfold attn_add_tokens. cbn [attn_layers with_topk]. rewrite (vec_at_nat _ _ _ Hl). cbn [mbind res_bind]. rewrite arr_set_nat by (by eapply lookup_lt_Some). done.
Qed.

Lemma process_expert_ok nl p (b : TokenBatch T) (i : nat) :
  num_groups <= 1 -> pool_inv nl p -> expert_item (Z.of_nat i) {| batch_tag := EXPERT; tagged := b |} -> (i < nl)%nat ->
  exists l l', expert_layers p !! i = Some l /\ process_expert_batch b p = Ok (with_expert (<[i := l']> (expert_layers p)) p) /\
    pool_inv nl (with_expert (<[i := l']> (expert_layers p)) p) /\ qrows (batch_queue l') = qrows (batch_queue l) ++ rows b.
Proof.
  intros Hg Hinv Hit Hi. destruct (lookup_lt_is_Some_2 (expert_layers p) i) as [l Hl]; [rewrite (pi_expert_count _ _ Hinv); lia|].
  destruct (pi_expert _ _ Hinv i l Hl) as [H1 H2]. destruct (ro_shape _ _ (ei_rows _ _ Hit)) as [h Hh].
  exists l, {| batch_queue := batch_queue l ++ [{| batch_tag := EXPERT; tagged := b |}]; token_queue := token_queue l; num_tokens_ := num_tokens_ l + zlen (tb_data b) |}.
  split; [done|]. assert (Hq : qrows (batch_queue l ++ [{| batch_tag := EXPERT; tagged := b |}]) = qrows (batch_queue l) ++ rows b)
    by (by rewrite qrows_app, qrows_cons, app_nil_r).
  split; [|split; [|exact Hq]].
  - unfold process_expert_batch. rewrite (proj2 (Z.ltb_ge _ _) Hg). unfold sched_add_batch. cbn [batch_tag tagged].
    pose proof (ei_layer _ _ Hit) as Hlay. cbn [tagged] in Hlay. rewrite Hlay, (vec_at_nat _ _ _ Hl). cbn [mbind res_bind]. unfold add_batch, meta_num_tokens. cbn [tagged]. cbn [tagged] in Hh. rewrite Hh.
    cbn [head of_option mbind res_bind]. rewrite arr_set_nat by (by eapply lookup_lt_Some). done.
  - destruct Hinv as [G1 G2 G3 G4 G5 G6 G7 G8].
    split; cbn [attn_layers expert_layers topk_pools attn_schedule_token_threshold expert_schedule_token_threshold with_expert]; try done; [by rewrite length_insert|].
    intros j l' Hj. apply list_lookup_insert_Some in Hj as [(<- & <- & _)|[_ Hj]]; [|by apply G5].
    split; cbn [batch_queue num_tokens_]; [apply Forall_app; split; [done|by constructor]|].
    rewrite Hq, zlen_app, H2. unfold zlen. by rewrite rows_length.
Qed.

(** *** The pool by itself *)

Definition lens_from (n : Z) (tp : TokenTopKPool) : Prop :=
  map_Forall (fun _ t => n <= ti_init_prefill_len t) (pool_ tp) /\ Forall (fun t => n <= ti_init_prefill_len t) (ready_tokens tp).

Lemma feed_row_lens n tp a : lens_from n tp -> n <= a.1.1.2 -> lens_from n (feed_row tp a).
Proof.
  destruct a as [[[id pl] rk] x]. cbn [fst snd]. intros [H1 H2] Ha. unfold feed_row. destruct (pool_ tp !! id) as [t|] eqn:Et; [|by split; [apply map_Forall_insert_2|]].
  assert (Ht : n <= ti_init_prefill_len (append_tensor x t)) by (cbn; by apply (H1 id)).
  case_match; split; cbn; [by apply map_Forall_delete|apply Forall_app; split; [done|by repeat constructor]|by apply map_Forall_insert_2|done].
Qed.

Lemma fed_lens n tp l : lens_from n tp -> Forall (fun a : arrival => n <= a.1.1.2) l -> lens_from n (foldl feed_row tp l).
Proof.
  intros Htp Hl. revert tp Htp. induction Hl as [|a l Ha _ IH]; intros tp Htp; [done|]. cbn [foldl]. by apply IH, feed_row_lens.
Qed.

Lemma arrival_len (b : TokenBatch T) n : Forall (fun l => n <= l) (init_prefill_lens (tb_meta b)) -> Forall (fun a : arrival => n <= a.1.1.2) (arrivals b).
Proof.
  intros H. apply Forall_lookup. intros i [[[id pl] rk] x] Hi. unfold arrivals in Hi. rewrite !lookup_zip_with in Hi.
  destruct (req_ids (tb_meta b) !! i); [|done]. destruct (init_prefill_lens (tb_meta b) !! i) as [pl'|] eqn:E; [|done].
  destruct (attn_dp_ranks (tb_meta b) !! i); [|done]. destruct (tb_data b !! i); [|done]. cbn in Hi. simplify_eq. cbn. by apply (Forall_lookup_1 _ _ i _ H).
Qed.

(** The batches the pool is given: rows of the engine for layer 0, copies that come back
    from experts, rows for the experts of the worker. *)
Inductive incoming (nl : nat) : Tagged -> Prop :=
  | in_engine b : attn_arrival b -> layer_id (tb_meta b) = 0 -> incoming nl {| batch_tag := TOKENIZER; tagged := b |}
  | in_copies b (i : nat) :
      topk_ok b -> Forall (fun l => -1 <= l) (init_prefill_lens (tb_meta b)) -> layer_id (tb_meta b) = Z.of_nat i -> (0 < i <= nl)%nat ->
      incoming nl {| batch_tag := EXPERT; tagged := b |}
  | in_experts b (i : nat) :
      expert_item (Z.of_nat i) {| batch_tag := EXPERT; tagged := b |} -> (i < nl)%nat -> incoming nl {| batch_tag := ATTENTION; tagged := b |}.

Inductive pool_reachable (nl : nat) (attn_thr expert_thr : Z) : UnifiedPool -> Prop :=
  | pr_new : pool_reachable nl attn_thr expert_thr (new_pool (Z.of_nat nl) attn_thr expert_thr)
  | pr_batch p b p' : pool_reachable nl attn_thr expert_thr p -> incoming nl b -> process_batch b p = Ok p' -> pool_reachable nl attn_thr expert_thr p'
  | pr_take p ob p' : pool_reachable nl attn_thr expert_thr p -> schedule_unified p = Ok (ob, p') -> pool_reachable nl attn_thr expert_thr p'.

Lemma new_pool_inv nl a e : 0 < a -> 0 < e -> pool_inv nl (new_pool (Z.of_nat nl) a e).
Proof.
  intros Ha He. split; cbn [new_pool attn_layers expert_layers topk_pools attn_schedule_token_threshold expert_schedule_token_threshold];
    rewrite ?length_replicate; try done; [lia|lia|case_match; rewrite ?length_replicate; [lia|done]|..].
  - intros i l [-> _]%lookup_replicate. split; try done. by case_match.
  - intros i l [-> _]%lookup_replicate. by split.
  - intros i tp. case_match; [|done]. intros [-> _]%lookup_replicate. split; [by intros ? ? [=]|done|]. apply map_Forall_empty.
Qed.

(** Copies that come back keep the pool well formed. *)
Lemma copies_inv nl p b (i : nat) :
  1 < top_k -> pool_inv nl p -> topk_ok b -> Forall (fun l => -1 <= l) (init_prefill_lens (tb_meta b)) ->
  layer_id (tb_meta b) = Z.of_nat i -> (0 < i <= nl)%nat ->
  exists p', process_attn_batch_topk b p = Ok p' /\ pool_inv nl p' /\
    attn_schedule_token_threshold p' = attn_schedule_token_threshold p /\ expert_schedule_token_threshold p' = expert_schedule_token_threshold p.
Proof.
  intros Hk Hinv Hok Hlen Hlay Hi. destruct (process_topk_ok nl p b i Hinv Hok Hlay ltac:(lia) Hk) as (tp & l & Htp & Hl & E).
  eexists. split; [exact E|]. split; [|done]. pose proof (pi_topk _ _ Hinv i tp Htp) as [T1 T2 T3]. pose proof (pi_attn _ _ Hinv i l Hl) as [A1 A2 A3 A4 A5].
  destruct (feed_rows_spec tp (arrivals b) Hk T1 T2) as (F1 & F2 & _).
  destruct (fed_lens (-1) tp (arrivals b)) as [F3 F4]; [split; [done|by rewrite T2]|by apply arrival_len|].
  assert (Hby : by_token (Z.of_nat i) = true) by (unfold by_token; lia). rewrite Hby in A4.
  set (q := with_topk (<[i := {| pool_ := pool_ (fed tp b); ready_tokens := [] |}]> (topk_pools p)) p). change (attn_layers p) with (attn_layers q).
  apply with_attn_inv.
  - destruct Hinv as [P1 P2 P3 P4 P5 P6 P7 P8].
    split; cbn [q attn_layers expert_layers topk_pools attn_schedule_token_threshold expert_schedule_token_threshold with_topk]; try done; [by rewrite length_insert|].
    intros j tp2 Hj. apply list_lookup_insert_Some in Hj as [(<- & <- & _)|[_ Hj]]; [by split|by apply P6 with j].
  - split; cbn [batch_queue token_queue num_tokens_ add_tokens]; rewrite ?Hby; try done; [by apply Forall_app..|]. rewrite zlen_app. lia.
Qed.

Lemma incoming_ok nl p b :
  1 < top_k -> num_groups <= 1 -> pool_inv nl p -> incoming nl b ->
  exists p', process_batch b p = Ok p' /\ pool_inv nl p' /\
    attn_schedule_token_threshold p' = attn_schedule_token_threshold p /\ expert_schedule_token_threshold p' = expert_schedule_token_threshold p.
Proof.
  intros Hk Hg Hinv [b' Harr Hlay|b' i Hok Hlen Hlay Hi|b' i Hit Hi]; unfold process_batch; cbn [batch_tag tagged].
  - destruct (process_attn_ok nl p b' 0 Hinv Harr Hlay ltac:(lia)) as (l & l' & Hl & -> & Hok & _); [unfold by_token; by rewrite andb_false_r|].
    eexists. split; [reflexivity|]. split; [by apply with_attn_inv|done].
  - rewrite Hlay, (proj2 (Z.ltb_lt 1 top_k) Hk), (proj2 (Z.ltb_lt 0 _)) by lia. cbn [andb]. by apply (copies_inv nl p b' i).
  - destruct (process_expert_ok nl p b' i Hg Hinv Hit Hi) as (l & l' & Hl & -> & Hpi & _). eexists. split; [reflexivity|]. by split.
Qed.

(** What [schedule] and [get_batch_from_layer] give on a well-formed pool. *)
Definition handed_out (nl : nat) (p : UnifiedPool) (ob : option (TokenBatch T)) : Prop :=
  match ob with
  | None => (forall i l, attn_layers p !! i = Some l -> num_tokens_ l = 0) /\ (forall i l, expert_layers p !! i = Some l -> num_tokens_ l = 0)
  | Some t =>
      exists i, (i <= nl)%nat /\
        (attn_item (Z.of_nat i) {| batch_tag := ATTENTION; tagged := t |} /\ 0 < zlen (tb_data t) <= attn_schedule_token_threshold p \/
         expert_item (Z.of_nat i) {| batch_tag := EXPERT; tagged := t |} /\ 0 < zlen (tb_data t) <= expert_schedule_token_threshold p)
  end.

Lemma schedule_ok nl p :
  sort_spec -> pool_inv nl p ->
  exists ob p', schedule_unified p = Ok (ob, p') /\ pool_inv nl p' /\ handed_out nl p ob /\
    attn_schedule_token_threshold p' = attn_schedule_token_threshold p /\ expert_schedule_token_threshold p' = expert_schedule_token_threshold p.
Proof.
  intros Hsort Hinv. unfold schedule_unified.
  destruct (schedule_cases p) as [(i & l & -> & Hl & Hpos)|[(i & l & -> & Hl & Hpos)|(-> & Ha & He)]].
  - destruct (get_attn nl p i l Hsort Hinv Hl Hpos) as (t & l' & -> & Hit & Hok & _ & Hsz). eexists _, _. split; [reflexivity|].
    split; [by apply with_attn_inv|]. split; [|done]. exists i. split; [apply lookup_lt_Some in Hl; rewrite (pi_attn_count _ _ Hinv) in Hl; lia|by left].
  - destruct (get_expert nl p i l Hinv Hl Hpos) as (t & l' & -> & Hit & Hpi & q & Hq & _ & Hz & _). eexists _, _. split; [reflexivity|].
    split; [done|]. split; [|done]. exists i. split; [apply lookup_lt_Some in Hl; rewrite (pi_expert_count _ _ Hinv) in Hl; lia|right]. split; [done|].
    assert (zlen (tb_data t) = zlen q) as -> by (unfold zlen; by rewrite <-rows_length, Hq).
    rewrite <-(el_count _ _ (pi_expert _ _ Hinv i l Hl)) in Hz. pose proof (pi_expert_threshold _ _ Hinv). lia.
  - cbn. exists None, p. split; [done|]. split; [done|]. split; [|done]. split; intros i l Hl.
    + pose proof (Ha i l Hl). rewrite (al_count _ _ (pi_attn _ _ Hinv i l Hl)) in *. pose proof (zlen_nonneg (qrows (batch_queue l))). pose proof (zlen_nonneg (token_queue l)). lia.
    + assert (Hlt : (i < length (attn_layers p))%nat) by (apply lookup_lt_Some in Hl; rewrite (pi_expert_count _ _ Hinv) in Hl; rewrite (pi_attn_count _ _ Hinv); lia).
      pose proof (He i l Hlt Hl). rewrite (el_count _ _ (pi_expert _ _ Hinv i l Hl)) in *. pose proof (zlen_nonneg (qrows (batch_queue l))). lia.
Qed.

Lemma pool_reachable_inv nl a e p :
  sort_spec -> 1 < top_k -> num_groups <= 1 -> 0 < a -> 0 < e -> pool_reachable nl a e p ->
  pool_inv nl p /\ attn_schedule_token_threshold p = a /\ expert_schedule_token_threshold p = e.
Proof.
  intros Hsort Hk Hg Ha He. induction 1 as [|p b p' _ (Hinv & E1 & E2) Hb E|p ob p' _ (Hinv & E1 & E2) E]; [by split; [apply new_pool_inv|]|..].
  - destruct (incoming_ok nl p b Hk Hg Hinv Hb) as (p2 & E3 & Hinv2 & E4 & E5). rewrite E3 in E. injection E as <-. split; [done|]. split; congruence.
  - destruct (schedule_ok nl p Hsort Hinv) as (ob2 & p2 & E3 & Hinv2 & _ & E4 & E5). rewrite E3 in E. injection E as <- <-. split; [done|]. split; congruence.
Qed.

(** C18. The pool keeps its batches well formed.  Whatever well-formed batches arrive and
    whenever layers are scheduled, filing a batch and taking one never raise, and what is
    taken is a batch of one layer, within the layer kind's threshold, with a column entry
    for every row, the rows of new requests first and counted, or sorted by expert;
    nothing is taken only when no layer holds a token. *)
Theorem pool_well_formed nl a e p :
  sort_spec -> 1 < top_k -> num_groups <= 1 -> 0 < a -> 0 < e -> pool_reachable nl a e p ->
  pool_inv nl p /\ (forall b, incoming nl b -> is_ok (process_batch b p) = true) /\
  exists ob p', schedule_unified p = Ok (ob, p') /\ handed_out nl p ob.
Proof.
  intros Hsort Hk Hg Ha He Hp. destruct (pool_reachable_inv nl a e p Hsort Hk Hg Ha He Hp) as (Hinv & _ & _). split; [done|]. split.
  - intros b Hb. by destruct (incoming_ok nl p b Hk Hg Hinv Hb) as (p2 & -> & _).
  - destruct (schedule_ok nl p Hsort Hinv) as (ob & p' & E & _ & Ho & _). by exists ob, p'.
Qed.
End Pool.
Arguments TokenTopKPool T : clear implicits.
Arguments Tagged T : clear implicits.
Arguments UnifiedLayer T : clear implicits.
Arguments UnifiedPool T : clear implicits.

(** *** An insertion sort meets [sort_spec] *)

Fixpoint insert_token {A} (less : A -> A -> bool) (x : A) (l : list A) : list A :=
  match l with [] => [x] | y :: l' => if less x y then x :: l else y :: insert_token less x l' end.

Definition insertion_sort {A} (less : A -> A -> bool) (l : list A) : list A := foldr (insert_token less) [] l.

Lemma insert_token_perm {A} (less : A -> A -> bool) x l : insert_token less x l ≡ₚ x :: l.
Proof. induction l as [|y l IH]; [done|]. cbn. case_match; [done|]. rewrite IH. apply Permutation_swap. Qed.

Lemma insertion_sort_perm {A} (less : A -> A -> bool) l : insertion_sort less l ≡ₚ l.
Proof. induction l as [|x l IH]; [done|]. cbn. by rewrite insert_token_perm, IH. Qed.

Lemma insert_token_sorted {A} (less : A -> A -> bool) all x l :
  strict_weak less all -> x ∈ all -> (forall y, y ∈ l -> y ∈ all) ->
  StronglySorted (fun a b => less b a = false) l -> StronglySorted (fun a b => less b a = false) (insert_token less x l).
Proof.
  intros (Hirr & Htr & Hneg) Hx Hl Hs. induction Hs as [|y l Hs IH Hy]; [repeat constructor|]. cbn.
  rewrite Forall_forall in Hy. pose proof (Hl y ltac:(by left)) as Hya. destruct (less x y) eqn:E.
  - constructor; [by constructor; [|apply Forall_forall]|]. assert (Hyx : less y x = false).
    { destruct (less y x) eqn:E2; [|done]. rewrite <-(Hirr x Hx). symmetry. by apply (Htr x y x). }
    constructor; [done|]. apply Forall_forall. intros z Hz. apply (Hneg x y z); try done; [by apply Hl; right|by apply Hy].
  - constructor; [apply IH; intros; apply Hl; by right|]. apply Forall_forall. intros z Hz.
    rewrite insert_token_perm in Hz. apply elem_of_cons in Hz as [->|Hz]; [done|by apply Hy].
Qed.

Lemma insertion_sort_spec {T} : sort_spec (T := T) insertion_sort.
Proof.
  intros less l. split; [apply insertion_sort_perm|]. intros Hw.
  assert (Hgen : forall k, (forall y, y ∈ k -> y ∈ l) -> StronglySorted (fun a b => less b a = false) (insertion_sort less k)); [|by apply Hgen].
  induction k as [|x k IH]; intros Hk; [constructor|]. cbn. apply (insert_token_sorted less l); [done|apply Hk; by left| |apply IH; intros; apply Hk; by right].
  intros y Hy. apply Hk. right. by rewrite <-(insertion_sort_perm less k).
Qed.

(** *** Concrete batches *)

Definition demo_copies (ids : list Z) (xs : list Z) : TokenBatch Z :=
  {| tb_data := xs;
     tb_meta := {| shape := [zlen xs; 4]; md_dtype := "bf16"; layer_id := 1; req_ids := ids; exp_ids := []; topk_weights := [];
                   attn_dp_ranks := (fun _ => 0) <$> ids; init_prefill_lens := (fun _ => -1) <$> ids;
                   num_prefill_seqs := None; num_prefill_tokens := None; num_decode_tokens := None |} |}.

Definition demo_rows (ids exps xs : list Z) : Tagged Z :=
  {| batch_tag := EXPERT;
     tagged := {| tb_data := xs;
                  tb_meta := {| shape := [zlen xs; 4]; md_dtype := "bf16"; layer_id := 1; req_ids := ids; exp_ids := exps;
                                topk_weights := (fun _ => float_of_Z 1) <$> ids; attn_dp_ranks := (fun _ => 0) <$> ids;
                                init_prefill_lens := (fun _ => -1) <$> ids;
                                num_prefill_seqs := None; num_prefill_tokens := None; num_decode_tokens := None |} |} |}.

Lemma demo_rows_item ids exps xs :
  length ids = length xs -> length exps = length xs -> Forall (fun e => 0 <= e < max_num_experts) exps -> StronglySorted Z.le exps ->
  expert_item 1 (demo_rows ids exps xs).
Proof.
  intros H1 H2 H3 H4. split; cbn; rewrite ?length_fmap; try done. split; cbn; [|by eexists|done].
  unfold aligned. cbn. rewrite !length_fmap. auto 10.
Qed.

(** Requests 7 and 8 with their copies in three batches, the second copy of 8 missing. *)
Lemma topk_exact_witness :
  let bs := [demo_copies [7; 8] [70; 80]; demo_copies [9] [90]; demo_copies [9; 7] [91; 71]] in
  exists out p, feed 2 bs new_topk_pool = Ok (out, p) /\ emitted 7 out ≫= topk_tensors = [70; 71] /\ pending 8 p = [80].
Proof.
  intros bs. destruct (topk_exact 2 bs) as (out & p & E & _ & Hid).
  - lia.
  - repeat constructor; (eexists _, _; split; [reflexivity|vm_compute; auto]).
  - exists out, p. split; [done|]. destruct (Hid 7) as (H7 & _ & Hp7), (Hid 8) as (H8 & He8 & _). cbv zeta in *.
    change (copies_of 7 (bs ≫= arrivals)) with [70; 71] in *. change (copies_of 8 (bs ≫= arrivals)) with [80] in *.
    destruct (pending 7 p); [|vm_compute in Hp7; congruence || lia].
    destruct (emitted 8 out); [|vm_compute in He8; congruence || lia]. rewrite app_nil_r in H7. by split.
Defined.

(** Two batches with rows for experts 0, 2 and 2, 5: the merge interleaves them. *)
Lemma merge_by_expert_exact_witness :
  let b := demo_rows [1; 2] [0; 5] [10; 20] in let bs := [demo_rows [3; 4] [2; 5] [30; 40]] in
  exists t, merge (b :: bs) = Ok (Some t) /\ tb_data t = [10; 30; 20; 40] /\
    StronglySorted (fun r r' => row_expert r <= row_expert r') (rows t).
Proof.
  intros b bs. destruct (merge_by_expert_exact 1 b bs) as (t & E & _ & _ & Hs & _).
  - constructor; [|constructor; [|constructor]]; apply demo_rows_item; try done; repeat constructor; done.
  - exists t. split; [done|]. split; [|done]. vm_compute in E. injection E as <-. reflexivity.
Defined.

Definition demo_arrivals : list (Tagged Z) :=
  [{| batch_tag := EXPERT; tagged := demo_copies [7; 8] [70; 80] |};
   {| batch_tag := ATTENTION; tagged := tagged (demo_rows [1; 2] [0; 5] [10; 20]) |}; {| batch_tag := EXPERT; tagged := demo_copies [9; 7] [90; 71] |}].

Definition demo_file (p : UnifiedPool Z) (b : Tagged Z) : UnifiedPool Z := match process_batch 2 1 b p with Ok p' => p' | Raise _ => p end.

Definition demo_pool : UnifiedPool Z := foldl demo_file (new_pool 2 2 4 4) demo_arrivals.

Lemma demo_copies_ok ids xs : length ids = length xs -> topk_ok (demo_copies ids xs).
Proof. intros H. exists (zlen xs), [4]. unfold zlen. cbn. rewrite !length_fmap, H. done. Qed.

Lemma demo_pool_reachable : pool_reachable Z.add insertion_sort 2 1 4 2 4 4 demo_pool.
Proof.
  assert (Hc : forall ids xs, length ids = length xs -> incoming 2 {| batch_tag := EXPERT; tagged := demo_copies ids xs |}).
  { intros ids xs H. apply (in_copies 2 (demo_copies ids xs) 1); [by apply demo_copies_ok| |done|lia]. cbn. apply Forall_fmap, Forall_true. cbn. lia. }
  unfold demo_pool, demo_arrivals. cbn [foldl].
  eapply pr_batch; [eapply pr_batch; [eapply pr_batch; [apply pr_new|apply (Hc [7; 8] [70; 80]); done|]| |]|apply (Hc [9; 7] [90; 71]); done|].
  - vm_compute. reflexivity.
  - apply (in_experts 2 (tagged (demo_rows [1; 2] [0; 5] [10; 20])) 1); [|lia]. apply demo_rows_item; try done; repeat constructor; done.
  - vm_compute. reflexivity.
  - vm_compute. reflexivity.
Qed.

(** The copies of request 7 have met: its token is handed out, their sum its row. *)
Lemma pool_well_formed_witness :
  pool_inv 2 2 demo_pool /\ exists t p', schedule_unified Z.add insertion_sort 2 4 demo_pool = Ok (Some t, p') /\ tb_data t = [141] /\ attn_item 1 {| batch_tag := ATTENTION; tagged := t |}.
Proof.
  destruct (pool_well_formed Z.add insertion_sort 2 1 4 2 4 4 demo_pool) as (Hinv & _ & ob & p' & E & Ho).
  - apply insertion_sort_spec.
  - lia.
  - lia.
  - lia.
  - lia.
  - apply demo_pool_reachable.
  - split; [done|]. destruct ob as [t|]; [|vm_compute in E; discriminate]. exists t, p'. split; [done|].
    assert (Ht : tb_data t = [141] /\ layer_id (tb_meta t) = 1 /\ exp_ids (tb_meta t) = []) by (vm_compute in E; injection E as <- _; done).
    destruct Ht as (Hd & Hl & He). split; [done|]. destruct Ho as (i & _ & [[Hit _]|[Hit _]]).
    + rewrite <-Hl. pose proof (ai_layer _ _ Hit) as Hi. cbn in Hi. by rewrite Hi.
    + pose proof (ei_experts _ _ Hit) as Hx. cbn in Hx. by rewrite He, Hd in Hx.
Defined.

End Pool.
