(* ===== verification/LayerSched.v ===== *)
(** * Layer schedulers ([csrc/muhelper/layer.cpp])

    Which layer of a [Pool.UnifiedPool] runs next.  [UnifiedLayerScheduler] serves the
    first layer that has tokens ([Pool.schedule]); [UnifiedDefraggingLayerScheduler]
    scores every layer by its tokens and by those, present and recent, of the layers that
    follow it in the pipeline, in single precision.  The class [LayerScheduler] is what the
    pool asks of either, and [LayerSchedulerLaws] what the engine relies on: a layer that is
    picked has tokens, and none is picked only when there are none.  Float operations are
    rounded one by one, as without fused multiply-add. *)

From stdpp Require Import strings.
From Corelib Require Import SpecFloat.
From S2P Require Import Prelude PyFloat Datatypes BlockManager Engine SimAsync Pool.
Import Datatypes BlockManager Engine Pool.

Module LayerSched.

Section Layers.
Context {T : Type}.

(** [layers]: the attention layers, then the expert layers. *)
Definition layers (p : UnifiedPool T) : list (UnifiedLayer T) := attn_layers p ++ expert_layers p.

Definition get_pool_snapshot (p : UnifiedPool T) : list Z := num_tokens_ <$> layers p.

(** The layer [i] has tokens. *)
Definition busy (p : UnifiedPool T) (i : Z) : Prop := exists l, 0 <= i /\ layers p !! Z.to_nat i = Some l /\ 0 < num_tokens_ l.

Definition idle (p : UnifiedPool T) : Prop := forall l, l ∈ layers p -> num_tokens_ l <= 0.

(** A scheduler with a state of its own: the layer, the tokens of all layers at that time, and the
    next state. *)
Class LayerScheduler (St : Type) : Type := { schedule_with_snapshot : UnifiedPool T -> St -> res (Z * list Z * St) }.

(** [schedule] is the same decision. *)
Definition pick {St} `{LayerScheduler St} (p : UnifiedPool T) (s : St) : res (Z * St) :=
  '(i, _, s) ← schedule_with_snapshot p s; Ok (i, s).

(** [sched_ok] is kept from one decision to the next; [sched_fits] is the range of the
    numbers of tokens in which the scores are sure to see them. *)
Class LayerSchedulerLaws (top_k : Z) (nl : nat) (St : Type) `{LayerScheduler St} : Type := {
  sched_ok : St -> Prop;
  sched_fits : UnifiedPool T -> Prop;
  sched_sound : forall p s, pool_inv top_k nl p -> sched_ok s ->
    exists i s', schedule_with_snapshot p s = Ok (i, get_pool_snapshot p, s') /\ sched_ok s' /\ (i = -1 \/ busy p i) /\
      (i = -1 -> sched_fits p -> idle p);
}.

(** *** First layer first *)

#[export] Instance UnifiedLayerScheduler : LayerScheduler unit :=
  { schedule_with_snapshot p _ := Ok (Pool.schedule p, get_pool_snapshot p, ()) }.

Lemma schedule_busy p : Pool.schedule p = -1 \/ busy p (Pool.schedule p).
Proof.
  destruct (schedule_cases p) as [(i & l & -> & Hl & Hp)|[(i & l & -> & Hl & Hp)|(-> & _)]]; [right..|by left]; exists l; (split; [lia|]);
    rewrite Nat2Z.id; unfold layers.
  - split; [by apply lookup_app_l_Some|done].
  - split; [rewrite lookup_app_r by lia; rewrite <-Hl; f_equal; lia|done].
Qed.

#[export] Instance UnifiedLayerScheduler_laws top_k nl : LayerSchedulerLaws top_k nl unit.
Proof.
  refine {| sched_ok _ := True; sched_fits _ := True |}. intros p [] Hinv _. exists (Pool.schedule p), (). split; [done|]. split; [done|]. split; [apply schedule_busy|].
  intros Hi _ l [[i Hl]%list_elem_of_lookup|[i Hl]%list_elem_of_lookup]%elem_of_app; destruct (schedule_cases p) as [(k & m & E & _)|[(k & m & E & _)|(_ & Ha & He)]]; try lia.
  - by eapply Ha.
  - apply (He i); [|done]. apply lookup_lt_Some in Hl. rewrite (pi_expert_count _ _ _ Hinv) in Hl. rewrite (pi_attn_count _ _ _ Hinv). lia.
Defined.
End Layers.

(** ** The defragging scheduler *)

(** [history_tokens_in_layer], front first, and [sum_history_tokens_in_layer]. *)
Record UnifiedDefraggingLayerScheduler : Type := {
  history_tokens_in_layer : list (list Z);
  sum_history_tokens_in_layer : list Z;
}.

Section Defrag.
Context {T : Type} (top_k lookback_steps lookahead_steps : Z) (weight_decay : float).

Definition new_defragging (num_layers : Z) : UnifiedDefraggingLayerScheduler :=
  if 0 <? lookback_steps
  then {| history_tokens_in_layer := replicate (Z.to_nat num_layers) []; sum_history_tokens_in_layer := replicate (Z.to_nat num_layers) 0 |}
  else {| history_tokens_in_layer := []; sum_history_tokens_in_layer := [] |}.

Definition get_effective_tokens (num_attn_layers layer_idx raw_tokens : Z) : float :=
  if raw_tokens <=? 0 then f32_of_Z 0
  else if (layer_idx <? num_attn_layers) || (top_k <=? 1) then f32_of_Z raw_tokens
  else f32div (f32_of_Z raw_tokens) (f32_of_Z top_k).

(** One turn of the window of layer [i]; the front of an empty queue is undefined. *)
Definition step_window (snapshot : list Z) (d : UnifiedDefraggingLayerScheduler) (i : Z) : res UnifiedDefraggingLayerScheduler :=
  hist_q ← vec_at (history_tokens_in_layer d) i;
  sum ← vec_at (sum_history_tokens_in_layer d) i;
  n ← vec_at snapshot i;
  '(hist_q, sum) ← (if lookback_steps <=? zlen hist_q
                    then match hist_q with [] => Raise RuntimeError | x :: hist_q => Ok (hist_q, sum - x) end
                    else Ok (hist_q, sum));
  hs ← arr_set (history_tokens_in_layer d) i (hist_q ++ [n]);
  sums ← arr_set (sum_history_tokens_in_layer d) i (sum + n);
  Ok {| history_tokens_in_layer := hs; sum_history_tokens_in_layer := sums |}.

Definition step_end (num_layers : Z) (snapshot : list Z) (d : UnifiedDefraggingLayerScheduler) : res UnifiedDefraggingLayerScheduler :=
  if lookback_steps =? 0 then Ok d
  else
    let d := match history_tokens_in_layer d with
             | [] => {| history_tokens_in_layer := replicate (Z.to_nat num_layers) []; sum_history_tokens_in_layer := replicate (Z.to_nat num_layers) 0 |}
             | _ => d
             end in
    py_for (step_window snapshot) (py_range num_layers) d.

(** Attention layer [i] is at position [2 i] of the pipeline, expert layer [i] at [2 i + 1]. *)
Definition to_pipeline_pos (num_attn_layers unified_idx : Z) : Z :=
  if unified_idx <? num_attn_layers then 2 * unified_idx else 2 * (unified_idx - num_attn_layers) + 1.

Definition from_pipeline_pos (num_attn_layers pos : Z) : Z :=
  if pos mod 2 =? 0 then pos / 2 else num_attn_layers + pos / 2.

Definition history_score (d : UnifiedDefraggingLayerScheduler) (cur_layer : Z) : res float :=
  if (0 <? lookback_steps) && negb (match history_tokens_in_layer d with [] => true | _ => false end) then
    hist_q ← vec_at (history_tokens_in_layer d) cur_layer;
    sum ← vec_at (sum_history_tokens_in_layer d) cur_layer;
    Ok (if (0 <? zlen hist_q) && (0 <? sum) then f32div (f32_of_Z sum) (f32_of_Z (zlen hist_q)) else f32_of_Z 0)
  else Ok (f32_of_Z 0).

(** The loop over the [k] layers that follow; [decay] is [weight_decay ^ k]. *)
Definition look (d : UnifiedDefraggingLayerScheduler) (na total_pipeline : Z) (effective : list float) (pipe_pos : Z) (st : float * float) (k : Z) : res (float * float) :=
  let '(lookahead_score, decay) := st in
  let cur_layer := from_pipeline_pos na ((pipe_pos + k) mod total_pipeline) in
  num_tokens_cur_layer ← vec_at effective cur_layer;
  history_score ← history_score d cur_layer;
  Ok (f32add lookahead_score (f32mul (f32add num_tokens_cur_layer history_score) decay), f32mul decay weight_decay).

Definition layer_score (d : UnifiedDefraggingLayerScheduler) (na total_pipeline : Z) (effective : list float) (i : Z) : res float :=
  immediate ← vec_at effective i;
  if fleb immediate (f32_of_Z 0) then Ok (f32_of_Z 0)
  else
    '(lookahead_score, _) ← py_for (look d na total_pipeline effective (to_pipeline_pos na i)) (py_range2 1 lookahead_steps) (f32_of_Z 0, weight_decay);
    Ok (f32add lookahead_score immediate).

(** The first of the largest scores, if one is above zero. *)
Fixpoint best_from (i : Z) (scores : list float) (max_score : float) (best_layer : Z) : Z :=
  match scores with
  | [] => best_layer
  | x :: scores => if fltb max_score x then best_from (i + 1) scores x i else best_from (i + 1) scores max_score best_layer
  end.

Definition _schedule_impl (p : UnifiedPool T) (d : UnifiedDefraggingLayerScheduler) : res (Z * list Z * UnifiedDefraggingLayerScheduler) :=
  let na := zlen (attn_layers p) in
  let num_layers := na + zlen (expert_layers p) in
  let raw_tokens := get_pool_snapshot p in
  let effective_tokens := imap (fun i t => get_effective_tokens na (Z.of_nat i) t) raw_tokens in
  if sumZ raw_tokens =? 0 then Ok (-1, raw_tokens, d)
  else
    scores ← py_map (layer_score d na num_layers effective_tokens) (py_range num_layers);
    d ← step_end num_layers (float_trunc <$> effective_tokens) d;
    Ok (best_from 0 scores (f32_of_Z 0) (-1), raw_tokens, d).

#[export] Instance defragging : LayerScheduler UnifiedDefraggingLayerScheduler := { schedule_with_snapshot := _schedule_impl }.

(** *** Positions and windows *)

Lemma pipeline_layer (nl : nat) pos :
  0 <= pos < 2 * Z.of_nat nl + 1 -> 0 <= from_pipeline_pos (Z.of_nat (S nl)) pos < 2 * Z.of_nat nl + 1.
Proof. intros H. unfold from_pipeline_pos. destruct (Z.eqb_spec (pos mod 2) 0); Z.div_mod_to_equations; lia. Qed.

(** The two numberings are inverse: the pipeline visits every layer. *)
Lemma pipeline_inverse (nl : nat) i :
  0 <= i < 2 * Z.of_nat nl + 1 ->
  0 <= to_pipeline_pos (Z.of_nat (S nl)) i < 2 * Z.of_nat nl + 1 /\ from_pipeline_pos (Z.of_nat (S nl)) (to_pipeline_pos (Z.of_nat (S nl)) i) = i.
Proof.
  intros H. unfold to_pipeline_pos, from_pipeline_pos. destruct (Z.ltb_spec i (Z.of_nat (S nl)));
    match goal with |- context [?x =? 0] => destruct (Z.eqb_spec x 0) end; Z.div_mod_to_equations; lia.
Qed.

Record window_ok (q : list Z) (sum : Z) : Prop := {
  wo_length : zlen q <= lookback_steps;
  wo_sum : sum = sumZ q;
  wo_nonneg : Forall (fun n => 0 <= n) q;
}.

(** Every layer has its window and the sum of it. *)
Definition history_ok (n : Z) (d : UnifiedDefraggingLayerScheduler) : Prop :=
  if 0 <? lookback_steps
  then zlen (history_tokens_in_layer d) = n /\ Forall2 window_ok (history_tokens_in_layer d) (sum_history_tokens_in_layer d)
  else history_tokens_in_layer d = [].

Lemma new_defragging_ok n : 0 <= n -> history_ok n (new_defragging n).
Proof.
  intros Hn. unfold history_ok, new_defragging. destruct (Z.ltb_spec 0 lookback_steps); [|done]. cbn. split; [unfold zlen; rewrite length_replicate; lia|].
  apply Forall2_replicate. split; [unfold zlen; cbn; lia|done|constructor].
Qed.

Lemma step_window_ok snapshot d (i : nat) n q sum :
  0 < lookback_steps -> history_tokens_in_layer d !! i = Some q -> sum_history_tokens_in_layer d !! i = Some sum -> window_ok q sum ->
  snapshot !! i = Some n -> 0 <= n ->
  exists q' sum', window_ok q' sum' /\ step_window snapshot d (Z.of_nat i) =
    Ok {| history_tokens_in_layer := <[i := q']> (history_tokens_in_layer d); sum_history_tokens_in_layer := <[i := sum']> (sum_history_tokens_in_layer d) |}.
Proof.
  intros Hlb Hq Hs [W1 W2 W3] Hn Hn0. unfold step_window. rewrite (vec_at_nat _ _ _ Hq), (vec_at_nat _ _ _ Hs), (vec_at_nat _ _ _ Hn). cbn [mbind res_bind].
  apply lookup_lt_Some in Hq, Hs. destruct (Z.leb_spec lookback_steps (zlen q)) as [Hf|Hf].
  - destruct q as [|x q]; [unfold zlen in Hf; cbn in Hf; lia|]. cbn [mbind res_bind]. rewrite !arr_set_nat by done. cbn [mbind res_bind]. eexists _, _. split; [|done].
    rewrite zlen_cons in *. apply Forall_cons in W3 as [Hx W3]. split.
    + rewrite zlen_app. change (zlen [n]) with 1. lia.
    + rewrite sumZ_app, W2. cbn. fold (sumZ q). lia.
    + apply Forall_app. split; [done|by repeat constructor].
  - cbn [mbind res_bind]. rewrite !arr_set_nat by done. cbn [mbind res_bind]. eexists _, _. split; [|done]. split.
    + rewrite zlen_app. change (zlen [n]) with 1. lia.
    + rewrite sumZ_app, W2. cbn. lia.
    + apply Forall_app. split; [done|by repeat constructor].
Qed.

Lemma step_end_ok n snapshot d :
  0 <= lookback_steps -> history_ok n d -> zlen snapshot = n -> Forall (fun t => 0 <= t) snapshot -> exists d', step_end n snapshot d = Ok d' /\ history_ok n d'.
Proof.
  intros Hlb Hd Hlen Hnn. unfold step_end. destruct (Z.eqb_spec lookback_steps 0) as [H0|H0]; [by exists d|].
  unfold history_ok in *. rewrite (proj2 (Z.ltb_lt 0 _)) in * by lia. destruct Hd as [Hn Hw].
  assert (Hcase : match history_tokens_in_layer d with
    | [] => {| history_tokens_in_layer := replicate (Z.to_nat n) []; sum_history_tokens_in_layer := replicate (Z.to_nat n) 0 |} | _ => d end = d).
  { destruct d as [h s]; cbn in *. destruct h as [|q h]; [|done]. apply Forall2_nil_inv_l in Hw as ->. cbn in Hn. by rewrite <-Hn. }
  rewrite Hcase.
  destruct (py_for_total (fun _ d => zlen (history_tokens_in_layer d) = n /\ Forall2 window_ok (history_tokens_in_layer d) (sum_history_tokens_in_layer d))
    (step_window snapshot) (py_range n) d) as (d' & -> & Hd'); [done| |by exists d'].
  intros pre i post d1 Hl [H1 H2]. assert (Hi : i ∈ py_range n) by (rewrite Hl; set_solver). apply elem_of_py_range in Hi. clear Hl.
  destruct (lookup_lt_is_Some_2 (history_tokens_in_layer d1) (Z.to_nat i)) as [q Hq]; [unfold zlen in H1; lia|].
  destruct (Forall2_lookup_l _ _ _ _ _ H2 Hq) as (sum & Hs & Hws). destruct (lookup_lt_is_Some_2 snapshot (Z.to_nat i)) as [t Ht]; [unfold zlen in Hlen; lia|].
  assert (Ht0 : 0 <= t) by (rewrite Forall_lookup in Hnn; by eapply Hnn).
  destruct (step_window_ok snapshot d1 (Z.to_nat i) t q sum ltac:(lia) Hq Hs Hws Ht Ht0) as (q' & sum' & Hw' & E). rewrite Z2Nat.id in E by lia.
  eexists. split; [exact E|]. cbn. split; [unfold zlen in *; by rewrite length_insert|by apply Forall2_insert].
Qed.

(** *** Scores *)

(** What the parameters must satisfy for every score to be a number. *)
Record defrag_params : Prop := {
  dp_top_k : 0 < top_k < 2 ^ 24;
  dp_lookback : 0 <= lookback_steps < 2 ^ 24;
  dp_decay : Forall (fun k => fpos (Nat.iter k (fun d => f32mul d weight_decay) weight_decay) = true) (seq 0 (Z.to_nat (lookahead_steps - 1)));
}.

Hypothesis Hparams : defrag_params.

Notation good x := (fnonneg x = true /\ valid 24 128 x).

Lemma effective_good na i t : 0 <= t -> good (get_effective_tokens na i t).
Proof.
  intros Ht. unfold get_effective_tokens. destruct (t <=? 0); [done|]. destruct (_ || _).
  - split; [by apply fplus_nonneg, f32_of_Z_plus|apply f32_of_Z_valid].
  - split; [apply f32_quotient_nonneg; [done|apply Hparams]|apply SFdiv_valid].
Qed.

Lemma effective_pos na i t : 0 < t -> (na <= i -> t < 2 ^ 24) -> fltb (f32_of_Z 0) (get_effective_tokens na i t) = true.
Proof.
  intros Ht Hi. unfold get_effective_tokens. destruct (Z.leb_spec t 0); [lia|]. destruct (Z.ltb_spec i na); cbn [orb]; [by apply f32_of_Z_pos|].
  destruct (top_k <=? 1); [by apply f32_of_Z_pos|]. apply f32_quotient_pos; [split; [done|by apply Hi]|apply Hparams].
Qed.

Lemma effective_zero na i t : fleb (get_effective_tokens na i t) (f32_of_Z 0) = false -> 0 < t.
Proof. unfold get_effective_tokens. destruct (Z.leb_spec t 0); [done|lia]. Qed.

Lemma trunc_nonneg x : fnonneg x = true -> 0 <= float_trunc x.
Proof.
  destruct x as [[]|[]| |[] m e]; try done. intros _. cbn [float_trunc]. destruct (Z.leb_spec 0 e); [|apply Z.div_pos; [lia|]].
  - pose proof (Z.pow_nonneg 2 e). lia.
  - apply Z.pow_pos_nonneg; lia.
Qed.

Lemma history_score_good n d c : history_ok n d -> 0 <= c < n -> exists h, history_score d c = Ok h /\ good h.
Proof.
  intros Hd Hc. unfold history_score, history_ok in *. destruct (Z.ltb_spec 0 lookback_steps) as [Hlb|]; [|by eexists]. destruct Hd as [Hn Hw].
  destruct (lookup_lt_is_Some_2 (history_tokens_in_layer d) (Z.to_nat c)) as [q Hq]; [unfold zlen in Hn; lia|].
  destruct (Forall2_lookup_l _ _ _ _ _ Hw Hq) as (sum & Hs & [W1 -> W3]). destruct (history_tokens_in_layer d) as [|q0 qs] eqn:Eh; [done|]. cbn [andb negb]. rewrite <-Eh in *.
  rewrite (proj2 (vec_at_Ok _ _ _) (conj (proj1 Hc) Hq)), (proj2 (vec_at_Ok _ _ _) (conj (proj1 Hc) Hs)). cbn [mbind res_bind]. eexists. split; [done|].
  destruct (Z.ltb_spec 0 (zlen q)); [|done]. destruct (Z.ltb_spec 0 (sumZ q)); [|done]. cbn [andb]. pose proof (dp_lookback Hparams).
  split; [apply f32_quotient_nonneg; lia|apply SFdiv_valid].
Qed.

Lemma look_ok (nl : nat) d effective pos :
  history_ok (2 * Z.of_nat nl + 1) d -> zlen effective = 2 * Z.of_nat nl + 1 -> Forall (fun x => good x) effective ->
  exists score decay, py_for (look d (Z.of_nat (S nl)) (2 * Z.of_nat nl + 1) effective pos) (py_range2 1 lookahead_steps) (f32_of_Z 0, weight_decay) = Ok (score, decay) /\ good score.
Proof.
  intros Hd Hlen Heff. set (dec := fun k => Nat.iter k (fun d => f32mul d weight_decay) weight_decay).
  destruct (py_for_total (fun pre st => good st.1 /\ st.2 = dec (length pre)) (look d (Z.of_nat (S nl)) (2 * Z.of_nat nl + 1) effective pos)
    (py_range2 1 lookahead_steps) (f32_of_Z 0, weight_decay)) as ([score decay] & E & [Hs _]); [done| |by exists score, decay].
  intros pre k post [score decay] Hl [Hs Hdec]. cbn [fst snd] in *. unfold look.
  set (c := from_pipeline_pos _ _). assert (Hc : 0 <= c < 2 * Z.of_nat nl + 1) by (apply pipeline_layer, Z.mod_pos_bound; lia).
  destruct (lookup_lt_is_Some_2 effective (Z.to_nat c)) as [x Hx]; [unfold zlen in Hlen; lia|]. rewrite (proj2 (vec_at_Ok _ _ _) (conj (proj1 Hc) Hx)). cbn [mbind res_bind].
  destruct (history_score_good _ d c Hd Hc) as (h & -> & Hh). cbn [mbind res_bind]. eexists. split; [done|]. cbn [fst snd].
  rewrite Forall_lookup in Heff. pose proof (Heff _ _ Hx) as Hgx. split.
  - assert (Hdp : fpos decay = true).
    { assert (Hlt : (length pre < Z.to_nat (lookahead_steps - 1))%nat).
      { apply (f_equal length) in Hl. unfold py_range2 in Hl. rewrite length_seqZ, length_app in Hl. cbn in Hl. lia. }
      rewrite Hdec. pose proof (dp_decay Hparams) as Hf. rewrite Forall_lookup in Hf. apply (Hf (length pre) (length pre)). apply lookup_seq. lia. }
    split; [apply SFadd_nonneg; [apply Hs|apply SFmul_nonneg_pos; [by apply SFadd_nonneg; [apply Hgx|apply Hh]|done]]|].
    apply SFadd_valid; [apply Hs|by apply SFmul_valid].
  - rewrite length_app, Nat.add_comm. cbn [Nat.add length]. rewrite Hdec. done.
Qed.

(** The score of a layer: above zero exactly when its tokens count. *)
Lemma layer_score_ok (nl : nat) d effective i x :
  history_ok (2 * Z.of_nat nl + 1) d -> zlen effective = 2 * Z.of_nat nl + 1 -> Forall (fun x => good x) effective -> effective !! Z.to_nat i = Some x -> 0 <= i ->
  exists s, layer_score d (Z.of_nat (S nl)) (2 * Z.of_nat nl + 1) effective i = Ok s /\ (fltb (f32_of_Z 0) s = true <-> fltb (f32_of_Z 0) x = true).
Proof.
  intros Hd Hlen Heff Hx Hi. unfold layer_score. rewrite (proj2 (vec_at_Ok _ _ _) (conj Hi Hx)). cbn [mbind res_bind].
  pose proof Heff as Hg. rewrite Forall_lookup in Hg. destruct (Hg _ _ Hx) as [Hn Hv]. destruct (fleb x (f32_of_Z 0)) eqn:E.
  - eexists. split; [done|]. rewrite (fltb_antisym _ _ E). done.
  - destruct (look_ok nl d effective (to_pipeline_pos (Z.of_nat (S nl)) i) Hd Hlen Heff) as (score & decay & -> & [Hs1 Hs2]). cbn [mbind res_bind].
    assert (Hp : fltb (f32_of_Z 0) x = true).
    { apply not_false_iff_true. intros Hf. apply fleb_not_flt in Hf; [congruence|done|by apply fnonneg_not_nan]. }
    eexists. split; [done|]. split; [done|]. intros _. by apply (SFadd_pos_r 24 128 ltac:(done)).
Qed.

(** *** The choice *)

Lemma best_from_above i scores m b :
  best_from i scores m b = b \/ exists (j : nat) x, best_from i scores m b = i + Z.of_nat j /\ scores !! j = Some x /\ fltb m x = true.
Proof.
  revert i m b. induction scores as [|x scores IH]; intros i m b; cbn [best_from]; [by left|]. destruct (fltb m x) eqn:E.
  - destruct (IH (i + 1) x i) as [->|(j & y & -> & Hj & Hy)]; right; [exists 0%nat, x; by rewrite Z.add_0_r|].
    exists (S j), y. split; [lia|]. split; [done|]. apply fltb_flt in E, Hy. apply fltb_flt. by eapply flt_trans.
  - destruct (IH (i + 1) m b) as [->|(j & y & -> & Hj & Hy)]; [by left|]. right. exists (S j), y. split; [lia|done].
Qed.

Lemma best_from_none i scores m : 0 <= i -> best_from i scores m (-1) = -1 -> Forall (fun x => fltb m x = false) scores.
Proof.
  revert i m. induction scores as [|x scores IH]; intros i m Hi Hb; [constructor|]. cbn [best_from] in Hb. destruct (fltb m x) eqn:E.
  - destruct (best_from_above (i + 1) scores x i) as [Hq|(j & y & Hq & _)]; lia.
  - constructor; [done|]. apply (IH (i + 1)); [lia|done].
Qed.

Lemma layers_nonneg nl (p : UnifiedPool T) : pool_inv top_k nl p -> Forall (fun t => 0 <= t) (get_pool_snapshot p).
Proof.
  intros Hinv. apply Forall_fmap, Forall_forall. unfold layers. intros l [[i Hl]%list_elem_of_lookup|[i Hl]%list_elem_of_lookup]%elem_of_app; cbn.
  - rewrite (al_count _ _ _ (pi_attn _ _ _ Hinv i l Hl)). pose proof (zlen_nonneg (qrows (batch_queue l))). pose proof (zlen_nonneg (token_queue l)). lia.
  - rewrite (el_count _ _ (pi_expert _ _ _ Hinv i l Hl)). apply zlen_nonneg.
Qed.

Lemma sum_zero l : Forall (fun t => 0 <= t) l -> sumZ l = 0 -> Forall (fun t => t = 0) l.
Proof.
  induction 1 as [|t l Ht Hl IH]; intros Hs; [constructor|]. cbn in Hs. fold (sumZ l) in Hs. pose proof (sumZ_nonneg l Hl). constructor; [lia|apply IH; lia].
Qed.

(** The numbers of tokens a [float] holds exactly. *)
Definition fits (p : UnifiedPool T) : Prop := Forall (fun t => t < 2 ^ 24) (get_pool_snapshot p).

Lemma defrag_ok (nl : nat) p d :
  pool_inv top_k nl p -> history_ok (2 * Z.of_nat nl + 1) d ->
  exists i d', _schedule_impl p d = Ok (i, get_pool_snapshot p, d') /\ history_ok (2 * Z.of_nat nl + 1) d' /\ (i = -1 \/ busy p i) /\ (i = -1 -> fits p -> idle p).
Proof.
  intros Hinv Hd. unfold _schedule_impl. pose proof (layers_nonneg nl p Hinv) as Hnn.
  assert (Hna : zlen (attn_layers p) = Z.of_nat (S nl)) by (unfold zlen; by rewrite (pi_attn_count _ _ _ Hinv)).
  assert (Hne : zlen (expert_layers p) = Z.of_nat nl) by (unfold zlen; by rewrite (pi_expert_count _ _ _ Hinv)).
  rewrite Hna, Hne. replace (Z.of_nat (S nl) + Z.of_nat nl) with (2 * Z.of_nat nl + 1) by lia.
  assert (Hraw : zlen (get_pool_snapshot p) = 2 * Z.of_nat nl + 1) by (unfold get_pool_snapshot, layers, zlen; rewrite length_fmap, length_app; unfold zlen in *; lia).
  set (raw := get_pool_snapshot p) in *. destruct (Z.eqb_spec (sumZ raw) 0) as [Hz|Hz].
  { eexists _, _. split; [done|]. split; [done|]. split; [by left|]. intros _ _ l Hl. pose proof (sum_zero raw Hnn Hz) as H0. rewrite Forall_forall in H0.
    rewrite (H0 (num_tokens_ l)); [done|]. by apply list_elem_of_fmap_2. }
  set (eff := imap _ raw). assert (Hlen : zlen eff = 2 * Z.of_nat nl + 1) by (unfold eff, zlen; rewrite length_imap; exact Hraw).
  assert (Hlook : forall i t, raw !! i = Some t -> eff !! i = Some (get_effective_tokens (Z.of_nat (S nl)) (Z.of_nat i) t)) by (intros i t H; unfold eff; by rewrite list_lookup_imap, H).
  assert (Hgood : Forall (fun x => good x) eff).
  { apply Forall_lookup. intros i x Hx. unfold eff in Hx. rewrite list_lookup_imap in Hx. apply fmap_Some in Hx as (t & Ht & ->).
    apply effective_good. rewrite Forall_lookup in Hnn. by eapply Hnn. }
  destruct (py_map_total (layer_score d (Z.of_nat (S nl)) (2 * Z.of_nat nl + 1) eff)
    (fun i s => forall x, eff !! Z.to_nat i = Some x -> (fltb (f32_of_Z 0) s = true <-> fltb (f32_of_Z 0) x = true)) (py_range (2 * Z.of_nat nl + 1))) as (scores & Hm & Hsc).
  { intros i Hi%elem_of_py_range. destruct (lookup_lt_is_Some_2 eff (Z.to_nat i)) as [x Hx]; [unfold zlen in Hlen; lia|].
    destruct (layer_score_ok nl d eff i x Hd Hlen Hgood Hx ltac:(lia)) as (s & E & Hs). exists s. split; [done|]. intros y Hy. by simplify_eq. }
  rewrite Hm. cbn [mbind res_bind].
  assert (Hscore : forall (i : nat) s t, scores !! i = Some s -> raw !! i = Some t -> (fltb (f32_of_Z 0) s = true <-> fltb (f32_of_Z 0) (get_effective_tokens (Z.of_nat (S nl)) (Z.of_nat i) t) = true)).
  { intros i s t Hs Ht. destruct (Forall2_lookup_r _ _ _ _ _ Hsc Hs) as (j & Hj & Hq). unfold py_range in Hj. apply lookup_seqZ in Hj as [-> _].
    apply Hq. rewrite Z.add_0_l, Nat2Z.id. by apply Hlook. }
  assert (Htr : Forall (fun t => 0 <= t) (float_trunc <$> eff)).
  { apply Forall_fmap. eapply Forall_impl; [exact Hgood|]. intros x [Hx _]. by apply trunc_nonneg. }
  destruct (step_end_ok (2 * Z.of_nat nl + 1) (float_trunc <$> eff) d (proj1 (dp_lookback Hparams)) Hd) as (d' & -> & Hd'); [unfold zlen in *; by rewrite length_fmap|done|].
  cbn [mbind res_bind]. eexists _, d'. split; [done|]. split; [done|]. assert (Hsl : length scores = length raw).
  { rewrite <-(Forall2_length _ _ _ Hsc), py_range_length. unfold zlen in Hraw. lia. }
  split.
  - destruct (best_from_above 0 scores (f32_of_Z 0) (-1)) as [->|(j & s & -> & Hs & Hp)]; [by left|right].
    destruct (lookup_lt_is_Some_2 raw j) as [t Ht]; [rewrite <-Hsl; by eapply lookup_lt_Some|]. apply (Hscore j s t Hs Ht) in Hp.
    assert (H0 : 0 < t) by (apply (effective_zero (Z.of_nat (S nl)) (Z.of_nat j)); destruct (fleb _ _) eqn:E; [by rewrite (fltb_antisym _ _ E) in Hp|done]).
    unfold raw, get_pool_snapshot in Ht. apply list_lookup_fmap_Some in Ht as (l & -> & Hl). exists l. split; [lia|]. by rewrite Z.add_0_l, Nat2Z.id.
  - intros Hb Hfit l [j Hl]%list_elem_of_lookup. apply best_from_none in Hb; [|done]. rewrite Forall_lookup in Hb.
    assert (Ht : raw !! j = Some (num_tokens_ l)) by (unfold raw, get_pool_snapshot; by rewrite list_lookup_fmap, Hl).
    destruct (lookup_lt_is_Some_2 scores j) as [s Hs]; [rewrite Hsl; by eapply lookup_lt_Some|]. specialize (Hb j s Hs).
    destruct (Z.le_gt_cases (num_tokens_ l) 0) as [|Hpos]; [done|]. exfalso. unfold fits in Hfit. rewrite Forall_lookup in Hfit.
    assert (Hp : fltb (f32_of_Z 0) s = true); [|congruence]. apply (Hscore j s _ Hs Ht). apply effective_pos; [lia|]. intros _. by apply (Hfit j).
Qed.

Definition defragging_laws nl : LayerSchedulerLaws (H := defragging) top_k nl UnifiedDefraggingLayerScheduler :=
  {| sched_ok := history_ok (2 * Z.of_nat nl + 1); sched_fits := fits; sched_sound := defrag_ok nl |}.
End Defrag.

(** ** A run of decisions *)

Section Decisions.
Context {T St : Type} `{LayerScheduler T St}.

(** The decisions on the pool as it is at each turn. *)
Fixpoint decide_all (ps : list (UnifiedPool T)) (s : St) : res (list Z * St) :=
  match ps with
  | [] => Ok ([], s)
  | p :: ps => '(i, s) ← pick p s; '(picks, s) ← decide_all ps s; Ok (i :: picks, s)
  end.

Lemma busy_not_idle (p : UnifiedPool T) i : busy p i -> ~ idle p.
Proof. intros (l & _ & Hl & Hp) Hi. apply list_elem_of_lookup_2, Hi in Hl. lia. Qed.

Lemma decided top_k nl `{!LayerSchedulerLaws top_k nl St} (ps : list (UnifiedPool T)) (s : St) :
  Forall (pool_inv top_k nl) ps -> sched_ok s ->
  exists picks s', decide_all ps s = Ok (picks, s') /\ sched_ok s' /\
    Forall2 (fun p i => (i = -1 \/ busy p i) /\ (sched_fits p -> i = -1 <-> idle p)) ps picks.
Proof.
  intros Hps. revert s. induction Hps as [|p ps Hp _ IH]; intros s Hs; [by exists [], s; repeat constructor|].
  destruct (sched_sound p s Hp Hs) as (i & s1 & E & Hs1 & Hi & Hn). cbn [decide_all]. unfold pick. rewrite E. cbn [mbind res_bind].
  destruct (IH s1 Hs1) as (picks & s2 & -> & Hs2 & Hall). cbn [mbind res_bind]. exists (i :: picks), s2. do 2 (split; [done|]). constructor; [|done].
  split; [done|]. intros Hf. split; [by auto|]. intros Hid. destruct Hi as [->|Hb]; [done|by destruct (busy_not_idle p i Hb)].
Qed.
End Decisions.

(** C10. The defragging scheduler makes progress.  From its constructor on, whatever
    well-formed pools it is asked about, no decision reads outside its arrays or an empty
    window; it never picks a layer without tokens, and it picks none only when no layer
    has tokens, as long as the numbers of tokens are exact in single precision and the
    powers of the decay do not vanish. *)
Theorem defrag_decides {T} top_k lookback lookahead decay (nl : nat) (ps : list (UnifiedPool T)) :
  defrag_params top_k lookback lookahead decay -> Forall (pool_inv top_k nl) ps ->
  exists picks d, decide_all (H := defragging top_k lookback lookahead decay) ps (new_defragging lookback (2 * Z.of_nat nl + 1)) = Ok (picks, d) /\
    history_ok lookback (2 * Z.of_nat nl + 1) d /\
    Forall2 (fun p i => (i = -1 \/ busy p i) /\ (fits p -> i = -1 <-> idle p)) ps picks.
Proof.
  intros Hp Hps. apply (decided (H := defragging top_k lookback lookahead decay) top_k nl (LayerSchedulerLaws0 := defragging_laws top_k lookback lookahead decay Hp nl) ps _ Hps).
  apply new_defragging_ok. lia.
Qed.

(** ** Two decisions, on an empty and on a busy pool *)

Definition demo_decay : float := f32div (f32_of_Z 1) (f32_of_Z 2).

Lemma demo_params : defrag_params 2 3 4 demo_decay.
Proof. split; [lia|lia|]. vm_compute. repeat constructor. Qed.

(** The copies of request 7 have met and two rows wait for experts at the same layer. *)
Lemma defrag_decides_witness :
  exists picks d, decide_all (H := defragging 2 3 4 demo_decay) [new_pool 2 2 4 4; demo_pool] (new_defragging 3 5) = Ok (picks, d) /\
    picks = [-1; 1] /\ history_ok 3 5 d.
Proof.
  destruct (defrag_decides 2 3 4 demo_decay 2 [new_pool 2 2 4 4; demo_pool] demo_params) as (picks & d & E & Hd & _).
  - constructor; [by apply (new_pool_inv 2 2 4 4)|constructor; [|constructor]]. apply (pool_reachable_inv Z.add insertion_sort 2 1 4 2 4 4); [apply insertion_sort_spec|lia..|apply demo_pool_reachable].
  - exists picks, d. split; [exact E|]. split; [|exact Hd]. assert (Hp : match decide_all (H := defragging 2 3 4 demo_decay) [new_pool 2 2 4 4; demo_pool] (new_defragging 3 (2 * Z.of_nat 2 + 1)) with Ok r => r.1 | Raise _ => [] end = [-1; 1]) by (vm_compute; reflexivity).
    rewrite E in Hp. exact Hp.
Defined.

(** ** The simulator's version

    [SimAsync.defragging] is documented to match this scheduler.  Both score a layer by
    three layers after it, but the simulator counts expert layers only and this scheduler
    the attention layers between them too. *)

Definition holding (n : Z) : UnifiedLayer Z := {| batch_queue := []; token_queue := []; num_tokens_ := n |}.

(** Five attention layers without tokens and expert layers with the given ones. *)
Definition waiting_pool (tokens : list Z) : UnifiedPool Z :=
  {| topk_pools := []; attn_layers := holding <$> replicate (S (length tokens)) 0;
     expert_layers := holding <$> tokens;
     attn_schedule_token_threshold := 0; expert_schedule_token_threshold := 0 |}.

(** On the same queues, with the same decay and no history, the simulator serves the
    expert layer 2 and the engine the expert layer 3. *)
Theorem simulator_serves_another_layer :
  let tokens := [5; 0; 3; 3] in
  (fst <$> SimAsync.defragging tokens) = Ok (Some 2) /\
  (fst <$> @pick Z _ (defragging 1 0 4 (f32div (f32_of_Z 4) (f32_of_Z 5))) (waiting_pool tokens) (new_defragging 0 9))
  = Ok (5 + 3).
Proof. split; vm_compute; reflexivity. Qed.

End LayerSched.
