(* ===== verification/Dispatch.v ===== *)
(** * Dispatching batches ([csrc/muhelper/dispatcher.cpp])

    [UnifiedDispatcher] sends what the engine puts to it: an attention batch in runs of
    rows whose experts are behind one channel, an expert batch in runs of rows of one
    attention rank.  Its two tables come from the arguments of [init_core] that the
    controller takes from the placement; reading or writing outside a table raises.
    What a channel does with a batch (NCCL, NIXL, a local copy) is outside. *)

From stdpp Require Import strings.
From S2P Require Import Prelude PyFloat Utils Config Datatypes Placement MemPool BlockManager Engine Controller Pool.
Import Placement Controller Utils Datatypes BlockManager Engine Pool.

Module Dispatch.

Record UnifiedDispatcher : Type := { expert_to_rank : list Z; rank_to_channel : list Z }.

(** The constructor, for [channels] channels. *)
Definition new_dispatcher (dp n_total_experts ep n_exp_per_rank : Z) (expert_ranks : list (Z * Z * Z))
    (channels : Z) (channel_infos : list ChannelInfo) : res UnifiedDispatcher :=
  let num_experts := if 0 <? n_total_experts then n_total_experts else ep * n_exp_per_rank in
  er ← py_for (fun er '(_, exp_id, rank) => arr_set er exp_id rank) expert_ranks (replicate (Z.to_nat num_experts) (-1));
  rc ← py_for (fun rc i => info ← vec_at channel_infos i; arr_set rc (ci_attn_dp_rank info) i) (py_range channels)
         (replicate (Z.to_nat dp) (-1));
  Ok {| expert_to_rank := er; rank_to_channel := rc |}.

Definition _attn_get_channel_id (dp_rank : Z) (d : UnifiedDispatcher) : res Z := vec_at (rank_to_channel d) dp_rank.

Definition _expert_get_channel_id (expert_id : Z) (d : UnifiedDispatcher) : res Z :=
  rank ← vec_at (expert_to_rank d) expert_id; vec_at (rank_to_channel d) rank.

(** The loop that cuts a column into runs of one key: [c] is the key of the run it is in
    and [k] how much of it has passed. *)
Fixpoint run_from (key : Z -> res Z) (c k : Z) (l : list Z) : res (list Z) :=
  match l with
  | [] => Ok [k]
  | x :: l =>
      c' ← key x;
      if c' =? c then run_from key c (k + 1) l
      else r ← run_from key c' 1 l; Ok (k :: r)
  end.

Definition run_sizes (key : Z -> res Z) (l : list Z) : res (list Z) :=
  match l with [] => Ok [] | x :: l => c ← key x; run_from key c 1 l end.

Section Send.
Context {T : Type}.

Definition _send_to_expert_once (b : Tagged T) (d : UnifiedDispatcher) : res (list (Z * Tagged T)) :=
  split_sizes ← run_sizes (fun e => _expert_get_channel_id e d) (exp_ids (tb_meta (tagged b)));
  batches ← split_with_sizes b split_sizes;
  py_map (fun b => e ← vec_at (exp_ids (tb_meta (tagged b))) 0; c ← _expert_get_channel_id e d; Ok (c, b)) batches.

Definition _send_to_attn_once (b : Tagged T) (d : UnifiedDispatcher) : res (list (Z * Tagged T)) :=
  split_sizes ← run_sizes Ok (attn_dp_ranks (tb_meta (tagged b)));
  batches ← split_with_sizes b split_sizes;
  py_map (fun b => r ← vec_at (attn_dp_ranks (tb_meta (tagged b))) 0; c ← _attn_get_channel_id r d; Ok (c, b)) batches.

(** What goes to which channel, in order. *)
Definition _send_once (b : Tagged T) (d : UnifiedDispatcher) : res (list (Z * Tagged T)) :=
  match batch_tag b with
  | ATTENTION => _send_to_expert_once b d
  | EXPERT => _send_to_attn_once b d
  | TOKENIZER => Ok []
  end.
End Send.

(** ** Runs *)

Fixpoint cuts {A} (sizes : list nat) (v : list A) : list (list A) :=
  match sizes with [] => [] | s :: sizes => take s v :: cuts sizes (drop s v) end.

Lemma cuts_concat {A} sizes (v : list A) : sum_list sizes = length v -> concat (cuts sizes v) = v.
Proof.
  revert v. induction sizes as [|s sizes IH]; intros v H; cbn in *; [by destruct v|].
  rewrite IH by (rewrite length_drop; lia). apply take_drop.
Qed.

Lemma cuts_lookup {A} sizes (v : list A) i s :
  sizes !! i = Some s -> cuts sizes v !! i = Some (take s (drop (sum_list (take i sizes)) v)).
Proof.
  revert v i. induction sizes as [|s' sizes IH]; intros v [|i] H; cbn in *; try done; [by simplify_eq|].
  rewrite (IH _ i H), drop_drop. done.
Qed.

Lemma cuts_length {A} sizes (v : list A) : length (cuts sizes v) = length sizes.
Proof. revert v. induction sizes as [|s sizes IH]; intros v; cbn; [done|]. by rewrite IH. Qed.

(** Runs of equal keys that do not touch a run of the same key. *)
Record runs_of (key : Z -> res Z) (l : list Z) (sizes : list nat) (cs : list Z) : Prop := {
  ru_sum : sum_list sizes = length l;
  ru_pos : Forall (fun s => 0 < s)%nat sizes;
  ru_keys : Forall2 (fun c seg => Forall (fun x => key x = Ok c) seg) cs (cuts sizes l);
  ru_maximal : forall i c, cs !! i = Some c -> cs !! S i <> Some c;
}.

Lemma maximal_cons (c : Z) cs :
  head cs <> Some c -> (forall i x, cs !! i = Some x -> cs !! S i <> Some x) ->
  forall i x, (c :: cs) !! i = Some x -> (c :: cs) !! S i <> Some x.
Proof. intros Hh Hm [|i] x; [intros [= <-]; by destruct cs|apply Hm]. Qed.

Lemma run_from_ok key l c k :
  Forall (fun x => is_ok (key x) = true) l -> 0 <= k ->
  exists (j : nat) sizes cs, run_from key c k l = Ok (k + Z.of_nat j :: (Z.of_nat <$> sizes)) /\ (j <= length l)%nat /\
    Forall (fun x => key x = Ok c) (take j l) /\ runs_of key (drop j l) sizes cs /\ head cs <> Some c.
Proof.
  intros Hl. revert c k. induction Hl as [|x l Hx Hl IH]; intros c k Hk; cbn [run_from].
  - exists 0%nat, [], []. rewrite Z.add_0_r. do 3 (split; [done|]). split; [by split|done].
  - destruct (key x) as [c'|] eqn:Ek; [|done]. cbn [mbind res_bind]. destruct (Z.eqb_spec c' c) as [->|Hne].
    + destruct (IH c (k + 1) ltac:(lia)) as (j & sizes & cs & -> & Hj & Hall & Hr & Hh). exists (S j), sizes, cs.
      split; [do 2 f_equal; lia|]. cbn. split; [lia|]. split; [by constructor|done].
    + destruct (IH c' 1 ltac:(lia)) as (j & sizes & cs & -> & Hj & Hall & [R1 R2 R3 R4] & Hh). cbn [mbind res_bind].
      exists 0%nat, (S j :: sizes), (c' :: cs). rewrite Z.add_0_r. split; [cbn; do 3 f_equal; lia|]. split; [lia|]. split; [done|].
      rewrite drop_0. split; [|by intros [= ->]]. split.
      * cbn. rewrite R1, length_drop. lia.
      * constructor; [lia|done].
      * cbn [cuts take drop]. constructor; [by constructor|done].
      * by apply maximal_cons.
Qed.

Lemma run_sizes_ok key l :
  Forall (fun x => is_ok (key x) = true) l ->
  exists sizes cs, run_sizes key l = Ok (Z.of_nat <$> sizes) /\ runs_of key l sizes cs.
Proof.
  intros Hl. destruct Hl as [|x l Hx Hl]; [exists [], []; split; [done|by split]|]. cbn [run_sizes].
  destruct (key x) as [c|] eqn:Ek; [|done]. cbn [mbind res_bind].
  destruct (run_from_ok key l c 1 Hl ltac:(lia)) as (j & sizes & cs & -> & Hj & Hall & [R1 R2 R3 R4] & Hh).
  exists (S j :: sizes), (c :: cs). split; [cbn; do 2 f_equal; lia|]. split.
  - cbn. rewrite R1, length_drop. lia.
  - constructor; [lia|done].
  - cbn [cuts take drop]. constructor; [by constructor|done].
  - by apply maximal_cons.
Qed.

(** ** Splitting a batch *)

Section Pieces.
Context {T : Type}.

Fixpoint pieces (b : Tagged T) (sizes : list nat) : list (Tagged T) :=
  match sizes with [] => [] | s :: sizes => first_part s b :: pieces (second_part s b) sizes end.

Lemma pieces_length b sizes : length (pieces b sizes) = length sizes.
Proof. revert b. induction sizes as [|s sizes IH]; intros b; cbn; [done|]. by rewrite IH. Qed.

Lemma pieces_lookup b sizes i s :
  sizes !! i = Some s ->
  pieces b sizes !! i = Some (piece b (fun A v => take s (drop (sum_list (take i sizes)) v))).
Proof.
  revert b i. induction sizes as [|s' sizes IH]; intros b [|i] H; cbn in *; try done; [by simplify_eq|].
  rewrite (IH _ i H). f_equal. unfold piece, second_part, piece. cbn. rewrite !drop_drop. done.
Qed.

Lemma cut_sizes_ok {A} (v : list A) sizes : (sum_list sizes <= length v)%nat -> cut_sizes v (Z.of_nat <$> sizes) = Ok (cuts sizes v).
Proof.
  revert v. induction sizes as [|s sizes IH]; intros v H; cbn in *; [done|].
  rewrite assert_range by (unfold zlen; lia). cbn [mbind res_bind]. rewrite Nat2Z.id, IH by (rewrite length_drop; lia). done.
Qed.

Lemma split_vector_ok {A} (v : list A) (n : nat) sizes :
  v = [] \/ length v = n -> sum_list sizes = n -> split_vector_by_size v (Z.of_nat <$> sizes) = Ok (cuts sizes v).
Proof.
  intros Hv Hs. unfold split_vector_by_size. destruct v as [|x v'] eqn:E.
  - f_equal. clear. induction sizes as [|s sizes IH]; cbn; [done|]. by rewrite take_nil, drop_nil, IH.
  - rewrite <-E in *. apply cut_sizes_ok. destruct Hv as [Hv|Hv]; [by rewrite E in Hv|lia].
Qed.

Lemma sumZ_nats sizes : sumZ (Z.of_nat <$> sizes) = Z.of_nat (sum_list sizes).
Proof. induction sizes as [|s sizes IH]; [done|]. unfold sumZ in *. cbn in *. rewrite IH. lia. Qed.

Lemma sum_take sizes i k : sizes !! i = Some k -> (sum_list (take i sizes) + k <= sum_list sizes)%nat.
Proof.
  revert i. induction sizes as [|s sizes IH]; intros [|i] H; cbn in *; try done; [simplify_eq; lia|]. specialize (IH i H). lia.
Qed.

Lemma split_ok b (n : nat) sizes :
  rows_ok n (tagged b) -> sum_list sizes = n -> split_with_sizes b (Z.of_nat <$> sizes) = Ok (pieces b sizes).
Proof.
  intros [(Hr & He & Hw & Ha & Hp) [h Hh] Hd] Hs. unfold split_with_sizes, split_tensor_by_size.
  rewrite !(split_vector_ok _ n sizes) by auto. cbn [mbind res_bind]. rewrite Hh.
  rewrite (proj2 (vec_at_Ok _ 1 h)) by done. cbn [mbind res_bind].
  rewrite (proj2 (py_check_Ok _ _ tt)) by (apply Z.eqb_eq; rewrite sumZ_nats, Hs; unfold zlen; lia). cbn [mbind res_bind].
  rewrite cut_sizes_ok by lia. cbn [mbind res_bind].
  match goal with |- py_map ?f _ = _ => destruct (py_map_total f (fun x y => pieces b sizes !! Z.to_nat x.1 = Some y) (enumerate (Z.of_nat <$> sizes))) as (out & -> & Hout) end.
  - intros [i s] [Hi Hsi]%elem_of_enumerate. rewrite list_lookup_fmap in Hsi. destruct (sizes !! Z.to_nat i) as [k|] eqn:Ek; [|done]. injection Hsi as <-.
    rewrite <-(Z2Nat.id i) by done. do 6 (rewrite (vec_at_nat _ _ _ (cuts_lookup sizes _ _ _ Ek)); cbn [mbind res_bind]).
    eexists. split; [reflexivity|]. cbn [fst]. rewrite Nat2Z.id, (pieces_lookup b sizes _ k Ek). unfold piece. rewrite Hh. cbn [lookup list_lookup default].
    do 4 f_equal. unfold zlen. rewrite length_take, length_drop. pose proof (sum_take sizes _ k Ek). lia.
  - f_equal. apply list_eq. intros i. destruct (out !! i) as [y|] eqn:Ey.
    + destruct (Forall2_lookup_r _ _ _ _ _ Hout Ey) as ([j s] & Hj & Hy). cbn in Hy.
      assert (Hs' : (Z.of_nat <$> sizes) !! i = Some s) by (rewrite <-(enum_snd (Z.of_nat <$> sizes)), list_lookup_fmap, Hj; done).
      rewrite (enum_lookup _ _ _ Hs') in Hj. injection Hj as <-. by rewrite Nat2Z.id in Hy.
    + apply lookup_ge_None in Ey. symmetry. apply lookup_ge_None. rewrite pieces_length.
      rewrite <-(Forall2_length _ _ _ Hout), enum_length, length_fmap in Ey. done.
Qed.

Lemma pieces_forall (P : Tagged T -> Prop) b sizes :
  splits P -> P b -> sum_list sizes = length (tb_data (tagged b)) -> Forall P (pieces b sizes).
Proof.
  intros Hs. revert b. induction sizes as [|s sizes IH]; intros b Hb H; cbn in *; constructor.
  - apply Hs; [done|lia].
  - apply IH; [apply Hs; [done|lia]|]. cbn. rewrite length_drop. lia.
Qed.

Lemma pieces_rows b sizes :
  sum_list sizes = length (tb_data (tagged b)) -> pieces b sizes ≫= (fun p => rows (tagged p)) = rows (tagged b).
Proof.
  revert b. induction sizes as [|s sizes IH]; intros b H; cbn in *.
  - symmetry. apply length_zero_iff_nil. by rewrite rows_length.
  - change (rows (tagged (first_part s b)) ++ (pieces (second_part s b) sizes ≫= fun p => rows (tagged p)) = rows (tagged b)).
    rewrite IH by (cbn; rewrite length_drop; lia). rewrite first_rows, second_rows by lia. apply take_drop.
Qed.
End Pieces.

(** ** What is sent *)

Section Sends.
Context {T : Type}.

(** The column the rows of a batch are sent by. *)
Definition dest_column (b : Tagged T) : list Z :=
  match batch_tag b with EXPERT => attn_dp_ranks (tb_meta (tagged b)) | _ => exp_ids (tb_meta (tagged b)) end.

Definition run_key (d : UnifiedDispatcher) (t : BatchTag) (x : Z) : res Z :=
  match t with EXPERT => Ok x | _ => _expert_get_channel_id x d end.

Definition channel_of (d : UnifiedDispatcher) (t : BatchTag) (x : Z) : res Z :=
  match t with EXPERT => _attn_get_channel_id x d | _ => _expert_get_channel_id x d end.

Lemma dest_piece b f : dest_column (piece b f) = f Z (dest_column b).
Proof. unfold dest_column. cbn. by destruct (batch_tag b). Qed.

Lemma dest_pieces (b : Tagged T) sizes : dest_column <$> pieces b sizes = cuts sizes (dest_column b).
Proof.
  apply list_eq. intros i. rewrite list_lookup_fmap. destruct (sizes !! i) as [s|] eqn:E.
  - rewrite (pieces_lookup b sizes i s E), (cuts_lookup sizes _ i s E). cbn [fmap option_fmap option_map]. by rewrite dest_piece.
  - apply lookup_ge_None in E. rewrite !(proj2 (lookup_ge_None _ i)); [done|by rewrite cuts_length|by rewrite pieces_length].
Qed.

Lemma piece_tag (b : Tagged T) sizes p : p ∈ pieces b sizes -> batch_tag p = batch_tag b.
Proof.
  intros [i Hi]%list_elem_of_lookup. pose proof (lookup_lt_Some _ _ _ Hi) as Hlt. rewrite pieces_length in Hlt.
  destruct (lookup_lt_is_Some_2 sizes i Hlt) as [s Hs]. rewrite (pieces_lookup b sizes i s Hs) in Hi. by injection Hi as <-.
Qed.

Lemma send_once_eq b (d : UnifiedDispatcher) :
  batch_tag b <> TOKENIZER ->
  _send_once b d = (sizes ← run_sizes (run_key d (batch_tag b)) (dest_column b); ps ← split_with_sizes b sizes;
                    py_map (fun p => x ← vec_at (match batch_tag b with EXPERT => attn_dp_ranks (tb_meta (tagged p)) | _ => exp_ids (tb_meta (tagged p)) end) 0;
                                     c ← channel_of d (batch_tag b) x; Ok (c, p)) ps).
Proof. unfold _send_once, dest_column, run_key, channel_of. by destruct (batch_tag b). Qed.

(** The pieces, with their channels. *)
Lemma send_ok (d : UnifiedDispatcher) (b : Tagged T) (n : nat) :
  rows_ok n (tagged b) -> batch_tag b <> TOKENIZER -> length (dest_column b) = n ->
  Forall (fun x => is_ok (channel_of d (batch_tag b) x) = true) (dest_column b) ->
  exists sizes cs sends, runs_of (run_key d (batch_tag b)) (dest_column b) sizes cs /\ _send_once b d = Ok sends /\
    sends.*2 = pieces b sizes /\
    Forall (fun s : Z * Tagged T => dest_column s.2 <> [] /\ Forall (fun x => channel_of d (batch_tag b) x = Ok s.1) (dest_column s.2)) sends.
Proof.
  intros Hb Htag Hlen Hok. rewrite send_once_eq by done.
  destruct (run_sizes_ok (run_key d (batch_tag b)) (dest_column b)) as (sizes & cs & -> & Hr).
  { eapply Forall_impl; [exact Hok|]. intros x. unfold run_key, channel_of. by destruct (batch_tag b). }
  cbn [mbind res_bind]. pose proof (ru_sum _ _ _ _ Hr) as Hsum. rewrite (split_ok b n) by (done || lia). cbn [mbind res_bind].
  assert (Hseg : forall p, p ∈ pieces b sizes -> dest_column p <> [] /\
    exists c, Forall (fun x => run_key d (batch_tag b) x = Ok c) (dest_column p) /\ Forall (fun x => is_ok (channel_of d (batch_tag b) x) = true) (dest_column p)).
  { intros p [i Hi]%list_elem_of_lookup. pose proof (lookup_lt_Some _ _ _ Hi) as Hlt. rewrite pieces_length in Hlt.
    destruct (lookup_lt_is_Some_2 sizes i Hlt) as [s Hs].
    assert (Hc : cuts sizes (dest_column b) !! i = Some (dest_column p)) by (rewrite <-dest_pieces, list_lookup_fmap, Hi; done).
    pose proof (cuts_lookup sizes (dest_column b) i s Hs) as Hc'. rewrite Hc in Hc'. injection Hc' as Hc'.
    pose proof (Forall_lookup_1 _ _ _ _ (ru_pos _ _ _ _ Hr) Hs) as Hpos. cbn in Hpos. pose proof (sum_take sizes i s Hs).
    destruct (Forall2_lookup_r _ _ _ _ _ (ru_keys _ _ _ _ Hr) Hc) as (c & _ & Hkeys). split.
    - intros E. apply (f_equal length) in Hc'. rewrite E, length_take, length_drop in Hc'. cbn in Hc'. lia.
    - exists c. split; [done|]. rewrite Hc'. by apply Forall_take, Forall_drop. }
  match goal with |- context [py_map ?f] => destruct (py_map_total f (fun p s => s.2 = p /\ dest_column p <> [] /\ Forall (fun x => channel_of d (batch_tag b) x = Ok s.1) (dest_column p)) (pieces b sizes)) as (sends & E & Hs) end.
  - intros p Hp. destruct (Hseg p Hp) as (Hne & c & Hc & Hch).
    assert (match batch_tag b with EXPERT => attn_dp_ranks (tb_meta (tagged p)) | _ => exp_ids (tb_meta (tagged p)) end = dest_column p) as ->
      by (unfold dest_column; by rewrite (piece_tag b sizes p Hp)).
    destruct (dest_column p) as [|x l] eqn:El; [done|]. rewrite (proj2 (vec_at_Ok _ 0 x)) by done. cbn [mbind res_bind].
    pose proof (Forall_inv Hch) as Hx. cbn in Hx. destruct (channel_of d (batch_tag b) x) as [k|] eqn:Ek; [|done]. cbn [mbind res_bind].
    eexists. split; [reflexivity|]. split; [done|]. split; [done|]. apply Forall_forall. intros y Hy. cbn [fst]. rewrite <-Ek.
    rewrite Forall_forall in Hc. assert (Hxy : run_key d (batch_tag b) x = run_key d (batch_tag b) y) by (rewrite !Hc by set_solver; done).
    unfold run_key, channel_of in *. destruct (batch_tag b); congruence.
  - exists sizes, cs, sends. split; [done|]. split; [exact E|]. split.
    + apply list_eq. intros i. rewrite list_lookup_fmap. destruct (sends !! i) as [s|] eqn:Es.
      * destruct (Forall2_lookup_r _ _ _ _ _ Hs Es) as (p & Hp & <- & _). done.
      * apply lookup_ge_None in Es. rewrite <-(Forall2_length _ _ _ Hs) in Es. symmetry. by apply lookup_ge_None.
    + apply Forall_lookup. intros i s Es. destruct (Forall2_lookup_r _ _ _ _ _ Hs Es) as (p & _ & <- & H). done.
Qed.

(** Well-formed batches of a tag and a layer. *)
Definition sendable (t : BatchTag) (L : Z) (b : Tagged T) : Prop :=
  batch_tag b = t /\ layer_id (tb_meta (tagged b)) = L /\ rows_ok (length (tb_data (tagged b))) (tagged b).

Lemma sendable_splits t L : splits (sendable t L).
Proof.
  intros b k (H1 & H2 & H3) Hk. pose proof (first_rows_ok b k _ H3 Hk). pose proof (second_rows_ok b k _ H3 Hk).
  split; (split; [done|split; [done|]]); cbn; rewrite ?length_take, ?length_drop, ?Nat.min_l by done; done.
Qed.

Lemma run_keys_at d b sizes cs i p :
  runs_of (run_key d (batch_tag b)) (dest_column b) sizes cs -> pieces b sizes !! i = Some p ->
  exists c, cs !! i = Some c /\ Forall (fun x => run_key d (batch_tag b) x = Ok c) (dest_column p).
Proof.
  intros Hr Hp. assert (Hc : cuts sizes (dest_column b) !! i = Some (dest_column p)) by (rewrite <-dest_pieces, list_lookup_fmap, Hp; done).
  by apply (Forall2_lookup_r _ _ _ _ _ (ru_keys _ _ _ _ Hr) Hc).
Qed.

(** C7. What is dispatched is the batch, in order, cut into runs.  For a well-formed
    batch whose experts (or attention ranks) all have a channel, [_send_once] raises
    nothing; the pieces, one after the other, are the rows of the batch; each is a
    non-empty well-formed batch of the same kind and layer, every row of it for the
    channel it is sent on; and no two neighbouring pieces could have been sent as one. *)
Theorem dispatch_exact (d : UnifiedDispatcher) (b : Tagged T) (n : nat) :
  rows_ok n (tagged b) -> batch_tag b <> TOKENIZER -> length (dest_column b) = n ->
  Forall (fun x => is_ok (channel_of d (batch_tag b) x) = true) (dest_column b) ->
  exists sends, _send_once b d = Ok sends /\
    sends.*2 ≫= (fun p => rows (tagged p)) = rows (tagged b) /\
    Forall (fun s : Z * Tagged T => sendable (batch_tag b) (layer_id (tb_meta (tagged b))) s.2 /\ dest_column s.2 <> [] /\
      Forall (fun x => channel_of d (batch_tag b) x = Ok s.1) (dest_column s.2)) sends /\
    forall i p q x y, sends.*2 !! i = Some p -> sends.*2 !! S i = Some q -> x ∈ dest_column p -> y ∈ dest_column q ->
      run_key d (batch_tag b) x <> run_key d (batch_tag b) y.
Proof.
  intros Hb Htag Hlen Hok. destruct (send_ok d b n Hb Htag Hlen Hok) as (sizes & cs & sends & Hr & E & Hp & Hs).
  pose proof (ro_data _ _ Hb) as Hd. pose proof (ru_sum _ _ _ _ Hr) as Hsum.
  exists sends. split; [done|]. rewrite Hp. split; [apply pieces_rows; lia|]. split.
  - assert (Hall : Forall (sendable (batch_tag b) (layer_id (tb_meta (tagged b)))) (pieces b sizes))
      by (apply pieces_forall; [apply sendable_splits|by rewrite <-Hd in Hb|lia]).
    rewrite <-Hp, Forall_fmap in Hall. apply Forall_and. split; [exact Hall|exact Hs].
  - intros i p q x y Hi Hj Hx Hy Heq. destruct (run_keys_at d b sizes cs i p Hr Hi) as (c & Hc & Hcx).
    destruct (run_keys_at d b sizes cs _ q Hr Hj) as (c' & Hc' & Hcy). rewrite Forall_forall in Hcx, Hcy.
    rewrite (Hcx x Hx), (Hcy y Hy) in Heq. injection Heq as <-. by apply (ru_maximal _ _ _ _ Hr i c Hc).
Qed.
End Sends.

(** ** The tables of a colocated cluster *)

Section Tables.
Context (s : ColocatePlacement).
Let mc := model_config (colo_base s).
Let n := n_node (cluster_config (colo_base s)) * n_gpu (cluster_config (colo_base s)).

(** The expert ranks sent to a device name, for every expert behind its channels, the
    device of the expert. *)
Lemma out_expert_ranks_eq pl dev u :
  colocated s pl dev ->
  out_expert_ranks_at pl u
  = Ok (dget_or (out_device_ids pl) u [] ≫= fun v => (fun id => (id.1, id.2, dev id.2)) <$> expert_ids_at pl v).
Proof.
  intros Hc. destruct (cl_ranks _ _ _ Hc) as (er & Her & Hget). unfold out_expert_ranks_at, dget_or. rewrite Her. cbn [of_option mbind res_bind].
  destruct (dget (out_device_ids pl) u) as [outs|]; [|done]. cbn [default].
  assert (Hinner : forall v ids r, (forall id, id ∈ ids -> id ∈ expert_ids_at pl v) ->
    py_for (fun result id => r ← of_option KeyError (dget er id); Ok (result ++ [(id.1, id.2, r)])) ids r
    = Ok (r ++ ((fun id => (id.1, id.2, dev id.2)) <$> ids))).
  { intros v ids. induction ids as [|[l e] ids IH]; intros r Hin; cbn [py_for fmap list_fmap]; [by rewrite app_nil_r|].
    assert (Hle : (l, e) ∈ expert_ids_at pl v) by (apply Hin; left). apply (cl_experts _ _ _ Hc) in Hle as (Hl & He & _).
    cbn [fst snd]. rewrite (Hget l e Hl He). cbn [of_option mbind res_bind fst snd].
    rewrite IH by (intros id Hid; apply Hin; by right). by rewrite <-app_assoc. }
  assert (Hgen : forall outs r, py_for (fun result dev_out => match dget (expert pl) dev_out with
        | None => Ok result
        | Some ids => py_for (fun result id => r ← of_option KeyError (dget er id); Ok (result ++ [(id.1, id.2, r)])) ids result
        end) outs r = Ok (r ++ (outs ≫= fun v => (fun id => (id.1, id.2, dev id.2)) <$> expert_ids_at pl v))); [|apply (Hgen outs [])].
  clear outs. intros outs. induction outs as [|v outs IH]; intros r; cbn [py_for mbind list_bind]; [by rewrite app_nil_r|].
  assert (match dget (expert pl) v with None => Ok r | Some ids => py_for (fun result id => r ← of_option KeyError (dget er id); Ok (result ++ [(id.1, id.2, r)])) ids r end
    = Ok (r ++ ((fun id => (id.1, id.2, dev id.2)) <$> expert_ids_at pl v))) as ->.
  { pose proof (Hinner v (expert_ids_at pl v) r ltac:(done)) as H. unfold expert_ids_at, dget_or in *. destruct (dget (expert pl) v); [exact H|by rewrite app_nil_r]. }
  cbn [mbind res_bind]. rewrite IH. by rewrite <-app_assoc.
Qed.

(** Writing the rank of an expert for every entry. *)
Lemma expert_table (dev : Z -> Z) (E : Z) (l : list (Z * Z * Z)) :
  (forall x, x ∈ l -> 0 <= x.1.2 < E /\ x.2 = dev x.1.2) ->
  exists er, py_for (fun er '(_, exp_id, rank) => arr_set er exp_id rank) l (replicate (Z.to_nat E) (-1)) = Ok er /\
    forall x, x ∈ l -> vec_at er x.1.2 = Ok (dev x.1.2).
Proof.
  intros Hl. destruct (py_for_total (fun pre er => length er = Z.to_nat E /\ forall x, x ∈ pre -> er !! Z.to_nat x.1.2 = Some (dev x.1.2))
    (fun er '(_, exp_id, rank) => arr_set er exp_id rank) l (replicate (Z.to_nat E) (-1))) as (er & Hrun & Hlen & Her).
  - split; [apply length_replicate|by intros x ?%elem_of_nil].
  - intros pre [[a e] r] post er Hpre [Hlen Her]. assert (Hin : (a, e, r) ∈ l) by (rewrite Hpre; set_solver).
    destruct (Hl _ Hin) as [He Hr]. cbn [fst snd] in *. subst r. rewrite arr_set_ok by (unfold zlen; lia). eexists. split; [reflexivity|].
    rewrite length_insert. split; [done|]. intros x [Hx| ->%list_elem_of_singleton]%elem_of_app; cbn [fst snd].
    + destruct (decide (x.1.2 = e)) as [->|Hne]; [apply list_lookup_insert_eq; lia|]. assert (Hxl : x ∈ l) by (rewrite Hpre; set_solver).
      rewrite list_lookup_insert_ne; [by apply Her|]. pose proof (Hl x Hxl). lia.
    + apply list_lookup_insert_eq. lia.
  - exists er. split; [done|]. intros x Hx. apply vec_at_Ok. split; [by apply Hl|by apply Her].
Qed.

(** Writing the position of a channel at its rank. *)
Lemma channel_table (dp : Z) (outs : list Z) (infos : list ChannelInfo) :
  NoDup outs -> ci_attn_dp_rank <$> infos = outs -> (forall v, v ∈ outs -> 0 <= v < dp) ->
  exists rc, py_for (fun rc i => info ← vec_at infos i; arr_set rc (ci_attn_dp_rank info) i) (py_range (zlen outs)) (replicate (Z.to_nat dp) (-1)) = Ok rc /\
    forall v, v ∈ outs -> exists c, vec_at rc v = Ok c /\ vec_at outs c = Ok v.
Proof.
  intros Hnd Hinfos Hr. destruct (py_for_total (fun pre rc => length rc = Z.to_nat dp /\ forall i v, i ∈ pre -> outs !! Z.to_nat i = Some v -> rc !! Z.to_nat v = Some i)
    (fun rc i => info ← vec_at infos i; arr_set rc (ci_attn_dp_rank info) i) (py_range (zlen outs)) (replicate (Z.to_nat dp) (-1))) as (rc & Hrun & Hlen & Hrc).
  - split; [apply length_replicate|by intros i v ?%elem_of_nil].
  - intros pre i post rc Hpre [Hlen Hrc]. assert (Hi : i ∈ py_range (zlen outs)) by (rewrite Hpre; set_solver). apply elem_of_py_range in Hi.
    assert (Hnpre : i ∉ pre) by (pose proof (py_range_NoDup (zlen outs)) as H; rewrite Hpre in H; apply NoDup_app in H as (_ & H & _); intros Hin; apply (H i Hin); left).
    destruct (lookup_lt_is_Some_2 outs (Z.to_nat i)) as [v Hv]; [unfold zlen in Hi; lia|].
    pose proof Hv as Hv'. rewrite <-Hinfos, list_lookup_fmap in Hv'. destruct (infos !! Z.to_nat i) as [info|] eqn:Ei; [|done]. injection Hv' as Hv'.
    rewrite (proj2 (vec_at_Ok infos i info)) by (split; [lia|done]). cbn [mbind res_bind]. rewrite Hv'.
    pose proof (Hr v ltac:(by eapply list_elem_of_lookup_2)) as Hvr. rewrite arr_set_ok by (unfold zlen; lia). eexists. split; [reflexivity|].
    rewrite length_insert. split; [done|]. intros j w [Hj| ->%list_elem_of_singleton]%elem_of_app Hw.
    + pose proof (Hr w ltac:(by eapply list_elem_of_lookup_2)). rewrite list_lookup_insert_ne; [by apply Hrc|]. intros Heq. assert (w = v) as -> by lia.
      assert (Hij : Z.to_nat i = Z.to_nat j) by (by eapply NoDup_lookup). assert (Hj' : j ∈ py_range (zlen outs)) by (rewrite Hpre; set_solver). apply elem_of_py_range in Hj'.
      assert (i = j) as -> by lia. done.
    + rewrite Hv in Hw. injection Hw as <-. apply list_lookup_insert_eq. lia.
  - exists rc. split; [done|]. intros v Hv. pose proof (Hr v Hv). apply list_elem_of_lookup in Hv as [i Hi]. exists (Z.of_nat i).
    pose proof (lookup_lt_Some _ _ _ Hi). split.
    + apply vec_at_Ok. split; [lia|]. apply Hrc; [apply elem_of_py_range; unfold zlen; lia|by rewrite Nat2Z.id].
    + apply vec_at_Ok. split; [lia|]. by rewrite Nat2Z.id.
Qed.

(** The channels a device opens lead to the devices it has edges to. *)
Definition routes (pl : ModelPlacement) (u : Z) (outs : list Z) (d : UnifiedDispatcher) : Prop :=
  (forall e, 0 <= e < Config.num_experts mc -> exists c dst, _expert_get_channel_id e d = Ok c /\ vec_at outs c = Ok dst /\ 0 <= dst < n /\
     forall l, 0 <= l < Config.num_layers mc -> (l, e) ∈ expert_ids_at pl dst) /\
  (expert_ids_at pl u <> [] -> forall r, 0 <= r < n -> attn_dp_rank_at pl r = Ok r /\ exists c, _attn_get_channel_id r d = Ok c /\ vec_at outs c = Ok r).

Lemma tables_ok {U} pl dev workers ews inb outb u dp ep nper (args : InitCoreArgs U) :
  colocated s pl dev -> 0 < Config.num_layers mc -> 0 < Config.num_experts mc -> 0 <= u < n -> n <= dp ->
  init_core_args workers ews pl inb outb u = Ok args ->
  exists d, new_dispatcher dp (Config.num_experts mc) ep nper (ic_expert_ranks U args) (zlen (ic_out_device_ids U args)) (ic_out_channel_infos U args) = Ok d /\
    (forall e, 0 <= e < Config.num_experts mc -> exists c, _expert_get_channel_id e d = Ok c /\ vec_at (ic_out_device_ids U args) c = Ok (dev e)) /\
    (forall e r, 0 <= e < Config.num_experts mc -> u = dev e -> 0 <= r < n -> exists c, _attn_get_channel_id r d = Ok c /\ vec_at (ic_out_device_ids U args) c = Ok r).
Proof.
  intros Hc HL HE Hu Hdp Hargs. unfold init_core_args in Hargs. set (outs := dget_or (out_device_ids pl) u []) in *.
  apply bind_Ok in Hargs as (infos & Hinfos & Hargs). apply bind_Ok in Hargs as (gs & _ & Hargs). apply bind_Ok in Hargs as (g & _ & Hargs).
  apply bind_Ok in Hargs as (ranks & Hranks & Hargs). apply bind_Ok in Hargs as (r0 & _ & Hargs). apply Ok_inj in Hargs as <-.
  cbn [Controller.ic_expert_ranks Controller.ic_out_device_ids Controller.ic_out_channel_infos]. rewrite (out_expert_ranks_eq pl dev u Hc) in Hranks. apply Ok_inj in Hranks.
  fold outs in Hranks. pose proof (cl_edges _ _ _ Hc u) as Hedge. fold outs in Hedge. fold mc n in Hedge.
  assert (Hri : ci_attn_dp_rank <$> infos = outs).
  { apply py_map_Forall2 in Hinfos. apply list_eq. intros i. rewrite list_lookup_fmap. destruct (outs !! i) as [v|] eqn:Ev.
    - destruct (Forall2_lookup_l _ _ _ _ _ Hinfos Ev) as (info & -> & H). apply list_elem_of_lookup_2, Hedge in Ev as (_ & _ & Hv & _).
      rewrite (cl_dp _ _ _ Hc v Hv) in H. by apply Ok_inj in H as <-.
    - apply lookup_ge_None in Ev. rewrite (Forall2_length _ _ _ Hinfos) in Ev. by rewrite (proj2 (lookup_ge_None infos i)). }
  assert (Hranges : forall x, x ∈ ranks -> 0 <= x.1.2 < Config.num_experts mc /\ x.2 = dev x.1.2).
  { rewrite <-Hranks. intros x (v & Hx & _)%list_elem_of_bind. apply list_elem_of_fmap in Hx as ([l e] & -> & (_ & He & _)%(cl_experts _ _ _ Hc)). done. }
  destruct (expert_table dev (Config.num_experts mc) ranks Hranges) as (er & Her & Hget).
  destruct (channel_table dp outs infos (cl_once _ _ _ Hc u) Hri) as (rc & Hrc & Hch); [intros v (_ & _ & Hv & _)%Hedge; lia|].
  exists {| expert_to_rank := er; rank_to_channel := rc |}. unfold new_dispatcher. rewrite (proj2 (Z.ltb_lt 0 _) HE), Her. cbn [mbind res_bind].
  rewrite Hrc. split; [done|]. unfold _expert_get_channel_id, _attn_get_channel_id. cbn [expert_to_rank rank_to_channel]. split.
  - intros e He. pose proof (cl_device _ _ _ Hc e HL He) as Hdev. assert (Hout : dev e ∈ outs) by (apply Hedge; eauto 10).
    assert (Hin : (0, e, dev e) ∈ ranks).
    { rewrite <-Hranks. apply list_elem_of_bind. exists (dev e). split; [|done]. apply list_elem_of_fmap. exists (0, e). split; [done|].
      apply (cl_experts _ _ _ Hc). fold mc. split; [lia|done]. }
    pose proof (Hget _ Hin) as Hve. cbn [fst snd] in Hve. rewrite Hve. cbn [mbind res_bind]. by apply Hch.
  - intros e r He -> Hr. apply Hch, Hedge. split; [done|]. split; [done|]. split; [exact Hr|]. exists e. auto.
Qed.

(** C8. The controller's tables lead where the placement put things.  On every device of
    a colocated cluster, with a rank for each device, the dispatcher is built without an
    error from the arguments of [init_core]; the channel of an expert leads to the device
    that holds the expert in every layer; and on a device with experts the channel of an
    attention rank leads to the device with that rank. *)
Theorem tables_route {U} pl workers ews inb outb u dp ep nper (args : InitCoreArgs U) :
  solve s = Ok pl -> 0 < Config.num_layers mc -> 0 < Config.num_experts mc -> 0 <= u < n -> n <= dp ->
  init_core_args workers ews pl inb outb u = Ok args ->
  exists d, new_dispatcher dp (Config.num_experts mc) ep nper (ic_expert_ranks U args) (zlen (ic_out_device_ids U args)) (ic_out_channel_infos U args) = Ok d /\
    routes pl u (ic_out_device_ids U args) d.
Proof.
  intros (dev & Hc)%colocate_layout HL HE Hu Hdp Hargs.
  destruct (tables_ok pl dev workers ews inb outb u dp ep nper args Hc HL HE Hu Hdp Hargs) as (d & Hd & He & Ha). exists d. split; [done|]. split.
  - intros e Hee. destruct (He e Hee) as (c & H1 & H2). exists c, (dev e). do 2 (split; [done|]). split; [by apply (cl_device _ _ _ Hc)|].
    intros l Hl. by apply (cl_experts _ _ _ Hc).
  - intros Hne r Hr. split; [by apply (cl_dp _ _ _ Hc)|]. destruct (expert_ids_at pl u) as [|[l e] ids] eqn:Eids; [done|].
    assert (Hin : (l, e) ∈ expert_ids_at pl u) by (rewrite Eids; left). apply (cl_experts _ _ _ Hc) in Hin as (_ & Hee & Hu'). by apply (Ha e).
Qed.
End Tables.

(** ** Concrete instances *)

(** Three experts on device 0, one on device 1, none on device 2. *)
Definition demo_colo : ColocatePlacement := ex_colo (Some [3; 1]) 3.

Definition demo_place : ModelPlacement := ex_place (solve demo_colo).

Definition demo_dispatcher : UnifiedDispatcher := {| expert_to_rank := [0; 0; 0; 1]; rank_to_channel := [0; 1; -1] |}.

Lemma demo_args : exists args : InitCoreArgs nat, init_core_args 3 false demo_place [] [] 2 = Ok args.
Proof. vm_compute. eexists. reflexivity. Qed.

Lemma tables_route_witness :
  exists (args : InitCoreArgs nat) d c dst, init_core_args 3 false demo_place [] [] 2 = Ok args /\
    _expert_get_channel_id 3 d = Ok c /\ vec_at (ic_out_device_ids nat args) c = Ok dst /\ (1, 3) ∈ expert_ids_at demo_place dst.
Proof.
  destruct demo_args as [args E].
  destruct (tables_route demo_colo demo_place 3 false [] [] 2 3 1 1 args) as (d & Hd & He & _); [vm_compute; reflexivity|cbn; lia..|exact E|].
  destruct (He 3) as (c & dst & H1 & H2 & _ & H3); [cbn; lia|]. exists args, d, c, dst. split; [exact E|]. split; [exact H1|]. split; [exact H2|]. apply H3. cbn. lia.
Defined.

(** Two tokens with two experts each, one of them remote. *)
Definition demo_send : Tagged Z :=
  {| batch_tag := ATTENTION;
     tagged := {| tb_data := [10; 20; 11; 21];
                  tb_meta := {| shape := [4; 8]; md_dtype := "bf16"; layer_id := 1; req_ids := [5; 6; 5; 6]; exp_ids := [0; 2; 3; 3];
                    topk_weights := float_of_Z <$> [1; 1; 1; 1]; attn_dp_ranks := [0; 0; 0; 0]; init_prefill_lens := [-1; -1; -1; -1];
                    num_prefill_seqs := Some 0; num_prefill_tokens := Some 0; num_decode_tokens := Some 4 |} |} |}.

Lemma dispatch_exact_witness :
  exists sends, _send_once demo_send demo_dispatcher = Ok sends /\ (fun s : Z * Tagged Z => (s.1, exp_ids (tb_meta (tagged s.2)))) <$> sends = [(0, [0; 2]); (1, [3; 3])] /\
    sends.*2 ≫= (fun p => rows (tagged p)) = rows (tagged demo_send).
Proof.
  destruct (dispatch_exact demo_dispatcher demo_send 4) as (sends & E & Hrows & _).
  - split; [unfold aligned; cbn; auto 10|by eexists|done].
  - done.
  - done.
  - repeat constructor.
  - exists sends. split; [exact E|]. split; [|exact Hrows]. vm_compute in E. injection E as <-. reflexivity.
Defined.
End Dispatch.
