(* ===== verification/PoolRank.v ===== *)
(** * The token pool under the admission contract

    [Capacity] proves a worker safe for whatever satisfies the contract [pool_batch];
    [Pool] models the C++ pool that hands the batches out.  This file composes them:
    each rank is its [Capacity.Worker] with a [Pool.UnifiedPool] and the expert copies
    that are still on their way back to it, and every step is the code of one thread
    (the engine loop that schedules a layer and runs its batch, the admission loop, the
    receiving thread).  Every rank keeps the exact number of copies each request owes,
    so the batches of the pool satisfy the contract and no step of either side raises. *)

From stdpp Require Import strings.
From S2P Require Import Prelude PyFloat Utils Config Datatypes DPScheduler MemPool BlockManager Sampler Engine Capacity Pool.
Import Utils Datatypes DP BlockManager Sampler Engine Capacity Pool.

Module PoolRank.

(** ** Counting labels *)

Section Counts.
Context {A : Type} `{EqDecision A}.

Definition num_of (x : A) (l : list A) : Z := zlen (filter (fun y => y = x) l).

Lemma num_of_nil x : num_of x [] = 0.
Proof. done. Qed.

Lemma num_of_app x l k : num_of x (l ++ k) = num_of x l + num_of x k.
Proof. unfold num_of. by rewrite filter_app, zlen_app. Qed.

Lemma num_of_cons x y l : num_of x (y :: l) = (if decide (y = x) then 1 else 0) + num_of x l.
Proof. unfold num_of. rewrite filter_cons. case_decide; [rewrite zlen_cons; lia|done]. Qed.

Lemma num_of_perm x l k : l ≡ₚ k -> num_of x l = num_of x k.
Proof. intros H. unfold num_of, zlen. by rewrite H. Qed.

Lemma num_of_nonneg x l : 0 <= num_of x l.
Proof. apply zlen_nonneg. Qed.

Lemma num_of_out x l : x ∉ l -> num_of x l = 0.
Proof.
  induction l as [|y l IH]; [done|]. intros Hx. rewrite num_of_cons, IH by set_solver. rewrite decide_False; [done|]. set_solver.
Qed.

Lemma num_of_in x l : x ∈ l -> 0 < num_of x l.
Proof.
  induction l as [|y l IH]; [by intros ?%elem_of_nil|]. rewrite num_of_cons. pose proof (num_of_nonneg x l).
  intros [->|Hx]%elem_of_cons; [rewrite decide_True by done; lia|]. specialize (IH Hx). case_decide; lia.
Qed.

Lemma num_of_NoDup l : (forall x, num_of x l <= 1) -> NoDup l.
Proof.
  induction l as [|y l IH]; [constructor|]. intros Hl. constructor.
  - intros Hy%num_of_in. specialize (Hl y). rewrite num_of_cons, decide_True in Hl by done. lia.
  - apply IH. intros x. specialize (Hl x). rewrite num_of_cons in Hl. case_decide; lia.
Qed.

Lemma num_of_once x l : NoDup l -> x ∈ l -> num_of x l = 1.
Proof.
  induction 1 as [|y l Hy _ IH]; [by intros ?%elem_of_nil|]. rewrite num_of_cons. intros [->|Hx]%elem_of_cons.
  - rewrite decide_True by done. rewrite num_of_out by done. done.
  - rewrite IH by done. rewrite decide_False by (by intros ->). done.
Qed.
End Counts.

Lemma num_of_pair {B} `{EqDecision B} (L L' : Z) (x : B) l :
  num_of (L', x) ((fun y => (L, y)) <$> l) = if decide (L = L') then num_of x l else 0.
Proof.
  induction l as [|y l IH]; [by case_decide|]. cbn [fmap list_fmap]. rewrite num_of_cons, IH, num_of_cons.
  destruct (decide (L = L')) as [->|Hne]; [|by rewrite decide_False by congruence].
  destruct (decide (y = x)) as [->|Hn]; [by rewrite !decide_True|]. by rewrite decide_False by congruence.
Qed.

Lemma num_of_bind {A B} `{EqDecision B} (f : A -> list B) x l : num_of x (l ≫= f) = sumZ ((fun a => num_of x (f a)) <$> l).
Proof. induction l as [|a l IH]; [done|]. cbn [mbind list_bind fmap list_fmap sumZ foldr]. rewrite num_of_app, IH. done. Qed.

Lemma num_of_replicate {A} `{EqDecision A} (x y : A) n : num_of x (replicate n y) = if decide (y = x) then Z.of_nat n else 0.
Proof. induction n as [|n IH]; [by case_decide|]. cbn [replicate]. rewrite num_of_cons, IH. case_decide; lia. Qed.

(** Rows with different requests. *)
Lemma num_of_labels (l : list (Z * Z)) id pl pl' :
  NoDup l.*1 -> (id, pl) ∈ l -> num_of (id, pl') l = if decide (pl = pl') then 1 else 0.
Proof.
  intros Hnd Hin. case_decide as Hp; [subst; apply num_of_once; [by eapply NoDup_fmap_1|done]|].
  apply num_of_out. intros Hin'. apply Hp. apply list_elem_of_lookup in Hin as [i Hi], Hin' as [j Hj].
  assert (i = j) as ->; [|congruence].
  eapply NoDup_lookup; [exact Hnd|rewrite list_lookup_fmap, Hi; done|by rewrite list_lookup_fmap, Hj].
Qed.

(** ** One rank *)

Section Rank.
Context {T : Type}.
Context (add : T -> T -> T) (std_sort : (TokenTopKInfo T -> TokenTopKInfo T -> bool) -> list (TokenTopKInfo T) -> list (TokenTopKInfo T)).
Context (rand : T) (top_k num_groups hidden_size num_layers : Z).

(** The pool of the rank, the expert copies of its rows that are still away, by the
    layer they come back to, and the layer the engine loop has picked. *)
Record Station : Type := { pool : UnifiedPool T; flight : list (Z * (Z * Z)); chosen : option Z }.

Definition with_pool_of (p : UnifiedPool T) (s : Station) : Station := {| pool := p; flight := flight s; chosen := chosen s |}.

(** [Engine._admit_request]: the request leaves the socket, its row goes to the pool. *)
Definition admit_station (rank : Z) (tr : TokenizedRequest) (w : Worker T) (s : Station) : res (Worker T * Station) :=
  w' ← admit_request rank hidden_size rand tr w;
  b ← of_option RuntimeError (last (pool_puts (eng w')));
  p ← put_batch top_k num_groups b (pool s);
  Ok (w', with_pool_of p s).

(** [layer_scheduler->schedule()]. *)
Definition choose (s : Station) : Station := {| pool := pool s; flight := flight s; chosen := Some (schedule (pool s)) |}.

(** The copies of a batch the attention of layer [L] sends to the experts. *)
Definition copies_out (L : Z) (tb : TokenBatch T) : list (Z * (Z * Z)) :=
  labels tb ≫= fun x => replicate (Z.to_nat top_k) (L + 1, x).

(** The engine loop takes the picked layer's batch and runs it.  After the pseudo-layer
    the rows go back to the pool at once; after another attention layer the copies of
    every row leave for the experts.  A batch of an expert layer is for the expert
    executor. *)
Definition take_turn (rank : Z) (stash : Z -> T) (w : Worker T) (s : Station) : res (Worker T * Station) :=
  match chosen s with
  | None => Ok (w, s)
  | Some i =>
      '(ob, p) ← get_batch_from_layer add std_sort top_k hidden_size i (pool s);
      match ob with
      | None => Ok (w, {| pool := p; flight := flight s; chosen := None |})
      | Some tb =>
          if is_attn_layer i p then
            w' ← run_batch add rank hidden_size num_layers stash tb w;
            if layer_id (tb_meta tb) =? num_layers then
              b ← of_option RuntimeError (last (pool_puts (eng w')));
              p ← put_batch top_k num_groups b p;
              Ok (w', {| pool := p; flight := flight s; chosen := None |})
            else Ok (w', {| pool := p; flight := flight s ++ copies_out (layer_id (tb_meta tb)) tb; chosen := None |})
          else Ok (w, {| pool := p; flight := flight s; chosen := None |})
      end
  end.

(** A batch that came back from an expert: well-formed, for a layer the rank has, its
    rows among the copies that are away. *)
Record deliverable (s : Station) (b : TokenBatch T) (f : list (Z * (Z * Z))) : Prop := {
  dl_layer : 0 < layer_id (tb_meta b) <= num_layers;
  dl_ok : topk_ok b;
  dl_flight : flight s ≡ₚ ((fun x => (layer_id (tb_meta b), x)) <$> labels b) ++ f;
}.

(** The receiving thread files it. *)
Definition arrive (b : TokenBatch T) (f : list (Z * (Z * Z))) (s : Station) : res Station :=
  p ← process_batch top_k num_groups {| batch_tag := EXPERT; tagged := b |} (pool s);
  Ok {| pool := p; flight := f; chosen := chosen s |}.

(** Rows for the experts of the rank, from any attention rank. *)
Definition arrive_expert (b : TokenBatch T) (s : Station) : res Station :=
  p ← process_batch top_k num_groups {| batch_tag := ATTENTION; tagged := b |} (pool s);
  Ok (with_pool_of p s).

(** *** The copies of a request

    [weight L] is how many copies a row needs before layer [L] takes it. *)

Definition weight (L : nat) : Z := if by_token top_k (Z.of_nat L) then top_k else 1.

Definition waiting_at (p : UnifiedPool T) (L : nat) : list (Z * Z) := default [] (waiting <$> attn_layers p !! L).

(** Of the copies gathered for the label [x]. *)
Definition gathered (tp : TokenTopKPool T) (x : Z * Z) : Z :=
  match pool_ tp !! x.1 with
  | Some t => if decide (ti_init_prefill_len t = x.2) then zlen (topk_tensors t) else 0
  | None => 0
  end.

Definition gathered_at (p : UnifiedPool T) (L : nat) (x : Z * Z) : Z := default 0 ((fun tp => gathered tp x) <$> topk_pools p !! L).

Definition owed (p : UnifiedPool T) (f : list (Z * (Z * Z))) (L : nat) (x : Z * Z) : Z :=
  num_of (Z.of_nat L, x) f + weight L * num_of x (waiting_at p L) + gathered_at p L x.

Definition due (st : gmap Z stage) (L : nat) (x : Z * Z) : Z :=
  match st !! x.1 with
  | Some (Queued L' pl) => if decide (L' = Z.of_nat L /\ pl = x.2) then weight L else 0
  | _ => 0
  end.

(** The layer that was picked still has tokens. *)
Definition pick_ok (p : UnifiedPool T) (c : option Z) : Prop :=
  forall i, c = Some i -> i = -1 \/ exists k l, (i = Z.of_nat k /\ attn_layers p !! k = Some l \/
    i = Z.of_nat (length (attn_layers p) + k) /\ expert_layers p !! k = Some l) /\ 0 < num_tokens_ l.

Context (max_bs : Z).

Record station_inv (st : gmap Z stage) (s : Station) : Prop := {
  si_pool : pool_inv top_k (Z.to_nat num_layers) (pool s);
  si_threshold : attn_schedule_token_threshold (pool s) = max_bs;
  si_owed : forall L x, owed (pool s) (flight s) L x = due st L x;
  si_pick : pick_ok (pool s) (chosen s);
  si_first : forall tp, topk_pools (pool s) !! 0%nat = Some tp -> pool_ tp = ∅;
}.

Hypothesis Htop : 1 < top_k.
Hypothesis Hlayers : 0 < num_layers.

Lemma weight_0 : weight 0 = 1.
Proof. unfold weight, by_token. by rewrite andb_false_r. Qed.

Lemma weight_S L : weight (Datatypes.S L) = top_k.
Proof. unfold weight, by_token. rewrite (proj2 (Z.ltb_lt 1 top_k) Htop). rewrite (proj2 (Z.ltb_lt 0 _)) by lia. done. Qed.

Lemma weight_pos L : 0 < weight L.
Proof. destruct L; [rewrite weight_0; lia|rewrite weight_S; lia]. Qed.

Lemma gathered_nonneg p L x : 0 <= gathered_at p L x.
Proof.
  unfold gathered_at. destruct (topk_pools p !! L) as [tp|]; [|done]. cbn. unfold gathered.
  destruct (pool_ tp !! x.1) as [t|]; [|done]. case_decide; [apply zlen_nonneg|done].
Qed.

Lemma due_Some st L x : 0 < due st L x -> st !! x.1 = Some (Queued (Z.of_nat L) x.2).
Proof. unfold due. destruct (st !! x.1) as [[]|]; try done. case_decide as Hd; [by destruct Hd as [-> ->]|done]. Qed.

Lemma due_queued st L id pl L' pl' :
  st !! id = Some (Queued (Z.of_nat L) pl) -> due st L' (id, pl') = if decide (L = L' /\ pl = pl') then weight L' else 0.
Proof.
  intros H. unfold due. cbn. rewrite H. apply decide_ext. rewrite Nat2Z.inj_iff. done.
Qed.

Lemma due_same st st' L x : st' !! x.1 = st !! x.1 -> due st' L x = due st L x.
Proof. unfold due. by intros ->. Qed.

Lemma due_none st L x : (forall L pl, st !! x.1 <> Some (Queued L pl)) -> due st L x = 0.
Proof. unfold due. intros H. destruct (st !! x.1) as [[| |]|] eqn:E; try done. by destruct (H L0 pl). Qed.

(** *** Filing a batch *)

Lemma waiting_count L (l : UnifiedLayer T) : attn_layer_ok top_k L l -> zlen (waiting l) = num_tokens_ l.
Proof.
  intros [Hi _ _ _ ->]. unfold waiting. rewrite zlen_app, <-(qrows_labels L) by done. unfold zlen. by rewrite !length_fmap.
Qed.

Lemma waiting_insert (p : UnifiedPool T) i l L :
  (i < length (attn_layers p))%nat ->
  waiting_at (with_attn (<[i := l]> (attn_layers p)) p) L = if decide (i = L) then waiting l else waiting_at p L.
Proof.
  intros Hi. unfold waiting_at. cbn [attn_layers with_attn]. case_decide as HL; [subst; by rewrite list_lookup_insert_eq|by rewrite list_lookup_insert_ne].
Qed.

Lemma waiting_lookup (p : UnifiedPool T) i l : attn_layers p !! i = Some l -> waiting_at p i = waiting l.
Proof. intros H. unfold waiting_at. by rewrite H. Qed.

Lemma pick_attn (p : UnifiedPool T) i l l' c :
  attn_layers p !! i = Some l -> num_tokens_ l <= num_tokens_ l' -> pick_ok p c -> pick_ok (with_attn (<[i := l']> (attn_layers p)) p) c.
Proof.
  intros Hl Hle Hp j Hj. destruct (Hp j Hj) as [->|(k & m & Hm & Hpos)]; [by left|right].
  cbn [attn_layers expert_layers with_attn]. rewrite length_insert. destruct Hm as [[-> Hm]|[-> Hm]]; [|exists k, m; auto].
  destruct (decide (i = k)) as [->|Hne].
  - exists k, l'. simplify_eq. split; [left; split; [done|apply list_lookup_insert_eq; by eapply lookup_lt_Some]|lia].
  - exists k, m. by rewrite list_lookup_insert_ne; auto.
Qed.

(** The engine's own rows: an arrival at layer 0. *)
Lemma put_first (p : UnifiedPool T) b :
  pool_inv top_k (Z.to_nat num_layers) p -> attn_arrival b -> layer_id (tb_meta b) = 0 ->
  exists p', put_batch top_k num_groups b p = Ok p' /\ pool_inv top_k (Z.to_nat num_layers) p' /\
    attn_schedule_token_threshold p' = attn_schedule_token_threshold p /\ topk_pools p' = topk_pools p /\
    (forall f L x, owed p' f L x = owed p f L x + if decide (L = 0%nat) then num_of x (labels b) else 0) /\
    forall c, pick_ok p c -> pick_ok p' c.
Proof.
  intros Hinv Harr Hlay.
  destruct (process_attn_ok top_k (Z.to_nat num_layers) p b 0 Hinv Harr) as (l & l' & Hl & E & Hok & Hw); [done|lia|unfold by_token; by rewrite andb_false_r|].
  eexists. split; [exact E|]. split; [by apply with_attn_inv|]. do 2 (split; [done|]).
  pose proof (lookup_lt_Some _ _ _ Hl) as Hlt. split.
  - intros f L x. unfold owed. rewrite waiting_insert by done. change (gathered_at (with_attn _ p) L x) with (gathered_at p L x).
    destruct (decide (0%nat = L)) as [<-|Hne]; [|rewrite decide_False by done; lia].
    rewrite decide_True, weight_0, (waiting_lookup p 0 l Hl), Hw, num_of_app by done. lia.
  - intros c. apply (pick_attn p 0 l l' c Hl). rewrite <-(waiting_count _ l (pi_attn _ _ _ Hinv _ _ Hl)), <-(waiting_count _ l' Hok), Hw, zlen_app.
    pose proof (zlen_nonneg (labels b)). lia.
Qed.

(** *** Gathering copies

    [g] is the prefill length of a request's row. *)

Definition lens_are (g : Z -> Z) (tp : TokenTopKPool T) : Prop := forall id t, pool_ tp !! id = Some t -> ti_init_prefill_len t = g id.

Lemma feed_labels g tp (a : arrival (T := T)) x :
  topk_inv top_k tp -> lens_are g tp -> a.1.1.2 = g a.1.1.1 ->
  lens_are g (feed_row top_k tp a) /\
  top_k * num_of x (token_label <$> ready_tokens (feed_row top_k tp a)) + gathered (feed_row top_k tp a) x
  = top_k * num_of x (token_label <$> ready_tokens tp) + gathered tp x + num_of x [a.1.1].
Proof.
  destruct a as [[[id pl] rk] y]. cbn [fst snd]. intros Hinv Hg Ha. unfold feed_row. rewrite num_of_cons, num_of_nil.
  destruct (pool_ tp !! id) as [t|] eqn:Ht.
  - destruct (Hinv id t Ht) as (Hid & _ & _). pose proof (Hg id t Ht) as Hp. cbn [topk_tensors append_tensor]. rewrite zlen_app. change (zlen [y]) with 1.
    assert (Hlab : token_label (append_tensor y t) = (id, pl)) by (unfold token_label; cbn; congruence).
    assert (Hgt : gathered tp x = if decide ((id, pl) = x) then zlen (topk_tensors t) else gathered tp x).
    { case_decide as Hx; [|done]. subst x. unfold gathered. cbn. rewrite Ht, decide_True by congruence. done. }
    destruct (Z.eqb_spec (zlen (topk_tensors t) + 1) top_k) as [Hfull|Hnf]; (split; [intros i u Hu; cbn in Hu|]).
    + apply lookup_delete_Some in Hu as [_ Hu]. by apply Hg.
    + cbn [ready_tokens]. rewrite fmap_app. cbn [fmap list_fmap]. rewrite Hlab, num_of_app, num_of_cons, num_of_nil.
      match goal with |- _ + ?z = _ => assert (Hz : z = if decide ((id, pl) = x) then 0 else gathered tp x) end; [|case_decide; lia].
      unfold gathered at 1. cbn [pool_]. destruct (decide ((id, pl) = x)) as [<-|Hx]; [cbn; by rewrite lookup_delete_eq|].
      destruct (decide (id = x.1)) as [->|Hne]; [rewrite lookup_delete_eq|by rewrite lookup_delete_ne].
      unfold gathered. rewrite Ht. rewrite decide_False; [done|]. intros Hq. apply Hx. destruct x; cbn in *; congruence.
    + apply lookup_insert_Some in Hu as [[<- <-]|[_ Hu]]; [|by apply Hg]. cbn. done.
    + cbn [ready_tokens].
      match goal with |- _ + ?z = _ => assert (Hz : z = if decide ((id, pl) = x) then zlen (topk_tensors t) + 1 else gathered tp x) end; [|case_decide; lia].
      unfold gathered at 1. cbn [pool_]. destruct (decide ((id, pl) = x)) as [<-|Hx].
      { cbn. rewrite lookup_insert_eq. cbn. rewrite decide_True by congruence. rewrite zlen_app. done. }
      destruct (decide (id = x.1)) as [->|Hne]; [rewrite lookup_insert_eq|by rewrite lookup_insert_ne].
      unfold gathered. rewrite Ht. cbn. rewrite !decide_False; [done|intros Hq..]; apply Hx; destruct x; cbn in *; congruence.
  - split; [intros i u Hu; cbn in Hu; apply lookup_insert_Some in Hu as [[<- <-]|[_ Hu]]; [done|by apply Hg]|]. cbn [ready_tokens].
    match goal with |- _ + ?z = _ => assert (Hz : z = if decide ((id, pl) = x) then 1 else gathered tp x) end.
    { unfold gathered at 1. cbn [pool_]. destruct (decide ((id, pl) = x)) as [<-|Hx].
      { cbn. rewrite lookup_insert_eq. cbn. by rewrite decide_True. }
      destruct (decide (id = x.1)) as [->|Hne]; [rewrite lookup_insert_eq|by rewrite lookup_insert_ne].
      unfold gathered. rewrite Ht. cbn. rewrite decide_False; [done|]. intros Hq; apply Hx; destruct x; cbn in *; congruence. }
    assert (Hgt : (id, pl) = x -> gathered tp x = 0) by (intros <-; unfold gathered; cbn; by rewrite Ht).
    case_decide as Hx; [rewrite (Hgt Hx)|]; lia.
Qed.

Lemma fed_labels g tp l :
  topk_inv top_k tp -> ready_tokens tp = [] -> lens_are g tp -> Forall (fun a : arrival (T := T) => a.1.1.2 = g a.1.1.1) l ->
  let tp' := foldl (feed_row top_k) tp l in
  topk_inv top_k tp' /\ Forall (complete top_k) (ready_tokens tp') /\ lens_are g tp' /\
  forall x, top_k * num_of x (token_label <$> ready_tokens tp') + gathered tp' x = gathered tp x + num_of x l.*1.*1.
Proof.
  intros Hinv Hr Hg Hl. cbv zeta. destruct (feed_rows_spec top_k tp l Htop Hinv Hr) as (H1 & H2 & _). split; [done|]. split; [done|].
  clear H1 H2. induction l as [|a l IH] using rev_ind; [cbn [foldl fmap list_fmap]; rewrite Hr; cbn [fmap list_fmap]; split; [done|intros x; rewrite num_of_nil; lia]|].
  apply Forall_app in Hl as [Hl [Ha _]%Forall_cons]. destruct (IH Hl) as [H1 H2]. rewrite foldl_snoc.
  destruct (feed_rows_spec top_k tp l Htop Hinv Hr) as (H3 & _). split; [by apply (feed_labels g _ a (0, 0))|].
  intros x. destruct (feed_labels g _ a x H3 H1 Ha) as [_ ->]. rewrite !fmap_app, num_of_app, H2. cbn [fmap list_fmap]. lia.
Qed.

Definition row_len (st : gmap Z stage) (id : Z) : Z := match st !! id with Some (Queued _ pl) => pl | _ => 0 end.

(** The stages a worker's invariant allows. *)
Definition lens_ok (st : gmap Z stage) : Prop := forall id L pl, st !! id = Some (Queued L pl) -> -1 <= pl.

Lemma row_len_ge st id : lens_ok st -> -1 <= row_len st id.
Proof. intros H. unfold row_len. destruct (st !! id) as [[]|] eqn:E; try lia. by eapply H. Qed.

Lemma gathered_lookup (p : UnifiedPool T) L tp x : topk_pools p !! L = Some tp -> gathered_at p L x = gathered tp x.
Proof. intros H. unfold gathered_at. by rewrite H. Qed.

Lemma owed_len st s L x :
  station_inv st s -> 0 < owed (pool s) (flight s) L x -> st !! x.1 = Some (Queued (Z.of_nat L) x.2) /\ x.2 = row_len st x.1.
Proof.
  intros Hinv H. rewrite (si_owed _ _ Hinv) in H. apply due_Some in H. split; [done|]. unfold row_len. by rewrite H.
Qed.

Lemma gathered_lens st s i tp :
  station_inv st s -> topk_pools (pool s) !! i = Some tp -> lens_are (row_len st) tp.
Proof.
  intros Hinv Htp id t Ht. destruct (tk_inv _ _ (pi_topk _ _ _ (si_pool _ _ Hinv) i tp Htp) id t Ht) as (_ & Hpos & _).
  destruct (owed_len st s i (id, ti_init_prefill_len t) Hinv) as [_ H]; [|exact H]. unfold owed. rewrite (gathered_lookup _ i tp) by done.
  unfold gathered. cbn [fst snd]. rewrite Ht, decide_True by done.
  pose proof (num_of_nonneg (Z.of_nat i, (id, ti_init_prefill_len t)) (flight s)). pose proof (weight_pos i).
  pose proof (num_of_nonneg (id, ti_init_prefill_len t) (waiting_at (pool s) i)). unfold zlen. nia.
Qed.

Lemma arrivals_labels (b : TokenBatch T) : topk_ok b -> (arrivals b).*1.*1 = labels b.
Proof.
  intros (n & h & _ & Hd & Hr & Hk & Hl). unfold arrivals, labels. unfold zlen in *. rewrite !fst_zip; [done|..]; rewrite ?length_zip_with; lia.
Qed.

Lemma labels_away s b f L x :
  deliverable s b f -> layer_id (tb_meta b) = Z.of_nat L -> forall L', num_of (Z.of_nat L', x) (flight s) = (if decide (L = L') then num_of x (labels b) else 0) + num_of (Z.of_nat L', x) f.
Proof.
  intros Hd HL L'. rewrite (num_of_perm _ _ _ (dl_flight _ _ _ Hd)), num_of_app, HL, num_of_pair. f_equal. apply decide_ext. lia.
Qed.

Lemma owed_nonneg_parts p f L x : 0 <= num_of (Z.of_nat L, x) f /\ 0 <= weight L * num_of x (waiting_at p L) /\ 0 <= gathered_at p L x.
Proof.
  pose proof (weight_pos L). pose proof (num_of_nonneg x (waiting_at p L)). split; [apply num_of_nonneg|]. split; [nia|apply gathered_nonneg].
Qed.

Lemma labels_lens st (b : TokenBatch T) :
  topk_ok b -> lens_ok st -> Forall (fun x : Z * Z => x.2 = row_len st x.1) (labels b) -> Forall (fun l => -1 <= l) (init_prefill_lens (tb_meta b)).
Proof.
  intros (n & h & _ & _ & Hr & _ & Hl) Hst H. assert (init_prefill_lens (tb_meta b) = (labels b).*2) as ->.
  { unfold labels. rewrite snd_zip; [done|]. unfold zlen in *. lia. }
  apply Forall_fmap. eapply Forall_impl; [exact H|]. intros x Hx. cbn in *. rewrite Hx. by apply row_len_ge.
Qed.

Lemma arrive_ok st s b f :
  station_inv st s -> lens_ok st -> deliverable s b f -> exists s', arrive b f s = Ok s' /\ station_inv st s'.
Proof.
  intros Hinv Hst Hd. pose proof (dl_layer _ _ _ Hd) as HL. pose proof (dl_ok _ _ _ Hd) as Hok.
  destruct (Z_of_nat_complete (layer_id (tb_meta b)) ltac:(lia)) as [i Hi].
  destruct (process_topk_ok top_k (Z.to_nat num_layers) (pool s) b i (si_pool _ _ Hinv) Hok Hi ltac:(lia) Htop) as (tp & l & Htp & Hl & E).
  set (tp' := fed top_k tp b) in *. set (l' := add_tokens (ready_tokens tp') l) in *.
  pose proof (si_pool _ _ Hinv) as Hpi. pose proof (pi_topk _ _ _ Hpi i tp Htp) as Htk.
  assert (Hby : by_token top_k (Z.of_nat i) = true) by (unfold by_token; rewrite (proj2 (Z.ltb_lt 1 top_k) Htop), (proj2 (Z.ltb_lt 0 _)) by lia; done).
  assert (Hwt : weight i = top_k) by (unfold weight; by rewrite Hby).
  assert (Hlab : Forall (fun x : Z * Z => x.2 = row_len st x.1) (labels b)).
  { apply Forall_forall. intros x Hx. apply (owed_len st s i x Hinv). unfold owed.
    rewrite (labels_away s b f i x Hd Hi i), decide_True by done. pose proof (num_of_in x _ Hx). destruct (owed_nonneg_parts (pool s) f i x) as (? & ? & ?). lia. }
  pose proof (gathered_lens st s i tp Hinv Htp) as Hgl.
  destruct (fed_labels (row_len st) tp (arrivals b) (tk_inv _ _ Htk) (tk_ready _ _ Htk) Hgl) as (F1 & F2 & F3 & F4).
  { rewrite <-arrivals_labels, !Forall_fmap in Hlab by done. exact Hlab. }
  change (foldl (feed_row top_k) tp (arrivals b)) with tp' in F1, F2, F3, F4.
  rewrite arrivals_labels in F4 by done.
  destruct (copies_inv top_k _ (pool s) b i Htop Hpi Hok (labels_lens st b Hok Hst Hlab) Hi ltac:(lia)) as (p' & E' & Hpi' & _).
  unfold arrive, process_batch. cbn [batch_tag tagged]. rewrite (proj2 (Z.ltb_lt 1 top_k) Htop), (proj2 (Z.ltb_lt 0 _)) by lia. cbn [andb].
  rewrite E. cbn [mbind res_bind]. eexists. split; [reflexivity|].
  set (q := with_topk (<[i := {| pool_ := pool_ tp'; ready_tokens := [] |}]> (topk_pools (pool s))) (pool s)).
  change (attn_layers (pool s)) with (attn_layers q). pose proof (lookup_lt_Some _ _ _ Hl) as Hlt. pose proof (lookup_lt_Some _ _ _ Htp) as Hlt2.
  split; cbn [pool flight chosen].
  - rewrite E in E'. injection E' as <-. exact Hpi'.
  - apply Hinv.
  - intros L x. rewrite <-(si_owed _ _ Hinv L x). unfold owed. rewrite (labels_away s b f i x Hd Hi L), waiting_insert by done.
    destruct (decide (i = L)) as [<-|Hne].
    + rewrite (gathered_lookup _ i {| pool_ := pool_ tp'; ready_tokens := [] |} x) by (by apply list_lookup_insert_eq).
      rewrite (gathered_lookup (pool s) i tp), (waiting_lookup (pool s) i l Hl), Hwt by done.
      change (gathered {| pool_ := pool_ tp'; ready_tokens := [] |} x) with (gathered tp' x).
      assert (Hw : num_of x (waiting l') = num_of x (waiting l) + num_of x (token_label <$> ready_tokens tp')) by (unfold waiting, l', add_tokens; cbn; rewrite fmap_app, !num_of_app; lia).
      rewrite Hw. specialize (F4 x). lia.
    + unfold waiting_at, gathered_at, q. cbn [attn_layers topk_pools with_attn with_topk]. rewrite list_lookup_insert_ne by done. lia.
  - apply (pick_attn q i l l'); [done|unfold l', add_tokens; cbn; pose proof (zlen_nonneg (ready_tokens tp')); lia|apply Hinv].
  - cbn [topk_pools with_attn q with_topk]. rewrite list_lookup_insert_ne by lia. apply Hinv.
Qed.

Lemma choose_ok st s : station_inv st s -> station_inv st (choose s).
Proof.
  intros [H1 H2 H3 H4 H5]. split; try done. intros i [= <-].
  destruct (schedule_cases (pool s)) as [(k & l & -> & Hl & Hp)|[(k & l & -> & Hl & Hp)|(-> & _)]]; [right..|by left]; exists k, l; auto.
Qed.

Lemma expert_pick (p : UnifiedPool T) i l l' c :
  expert_layers p !! i = Some l -> num_tokens_ l <= num_tokens_ l' -> pick_ok p c -> pick_ok (with_expert (<[i := l']> (expert_layers p)) p) c.
Proof.
  intros Hl Hle Hp j Hj. destruct (Hp j Hj) as [->|(k & m & Hm & Hpos)]; [by left|right].
  cbn [attn_layers expert_layers with_expert]. destruct Hm as [[-> Hm]|[-> Hm]]; [exists k, m; auto|].
  destruct (decide (i = k)) as [->|Hne].
  - exists k, l'. simplify_eq. split; [right; split; [done|apply list_lookup_insert_eq; by eapply lookup_lt_Some]|lia].
  - exists k, m. by rewrite list_lookup_insert_ne; auto.
Qed.

Lemma expert_arrival_ok st s b i :
  num_groups <= 1 -> station_inv st s -> expert_item (Z.of_nat i) {| batch_tag := EXPERT; tagged := b |} -> (i < Z.to_nat num_layers)%nat ->
  exists s', arrive_expert b s = Ok s' /\ station_inv st s'.
Proof.
  intros Hg [H1 H2 H3 H4 H5] Hb Hi. destruct (process_expert_ok top_k num_groups _ (pool s) b i Hg H1 Hb Hi) as (l & l' & Hl & E & Hinv & Hq).
  unfold arrive_expert, process_batch. cbn [batch_tag tagged]. rewrite E. cbn [mbind res_bind]. eexists. split; [reflexivity|].
  split; cbn [pool flight chosen with_pool_of]; try done. apply (expert_pick _ i l l'); [done| |done].
  pose proof (pi_expert _ _ _ H1 i l Hl) as [_ ->].
  assert (Hl' : expert_layers (with_expert (<[i := l']> (expert_layers (pool s))) (pool s)) !! i = Some l') by (cbn; apply list_lookup_insert_eq; by eapply lookup_lt_Some).
  pose proof (pi_expert _ _ _ Hinv i l' Hl') as [_ ->]. rewrite Hq, zlen_app. pose proof (zlen_nonneg (rows b)). lia.
Qed.

(** *** A batch of an attention layer *)

Lemma item_ids L (t : TokenBatch T) :
  attn_item L {| batch_tag := ATTENTION; tagged := t |} -> (labels t).*1 = req_ids (tb_meta t) /\ length (req_ids (tb_meta t)) = length (tb_data t) /\
  length (init_prefill_lens (tb_meta t)) = length (tb_data t).
Proof.
  intros [_ _ Hok _]. pose proof (ao_ids _ Hok). pose proof (ao_lens _ Hok). cbn [tagged] in *. unfold labels. rewrite fst_zip; [done|lia].
Qed.

(** The rows an attention layer hands out are owed, each once. *)
Lemma taken_once st s (i : nat) l (ls : list (Z * Z)) wl x :
  station_inv st s -> attn_layers (pool s) !! i = Some l -> ls ++ wl ≡ₚ waiting l -> x ∈ ls ->
  st !! x.1 = Some (Queued (Z.of_nat i) x.2) /\ num_of x (ls) = 1.
Proof.
  intros Hinv Hl Hp Hx. pose proof (si_owed _ _ Hinv i x) as Ho. unfold owed in Ho.
  rewrite (waiting_lookup _ i l Hl), <-(num_of_perm _ _ _ Hp), num_of_app in Ho. pose proof (num_of_in x _ Hx) as H1. pose proof (num_of_nonneg x wl).
  pose proof (num_of_nonneg (Z.of_nat i, x) (flight s)). pose proof (gathered_nonneg (pool s) i x). pose proof (weight_pos i).
  assert (Hd : 0 < due st i x) by nia. split; [by apply due_Some|].
  assert (due st i x <= weight i); [unfold due; repeat case_match; lia|]. nia.
Qed.

Lemma taken_nodup st s (i : nat) l (ls : list (Z * Z)) wl :
  station_inv st s -> attn_layers (pool s) !! i = Some l -> ls ++ wl ≡ₚ waiting l -> NoDup (ls).*1.
Proof.
  intros Hinv Hl Hp. apply NoDup_fmap_2_strong.
  - intros [a b] [a' b'] Hx Hy E. cbn in E. subst a'. destruct (taken_once st s i l ls wl _ Hinv Hl Hp Hx) as [E1 _].
    destruct (taken_once st s i l ls wl _ Hinv Hl Hp Hy) as [E2 _]. cbn in *. congruence.
  - apply num_of_NoDup. intros x. destruct (decide (x ∈ ls)) as [Hx|Hx]; [|rewrite num_of_out by done; lia].
    destruct (taken_once st s i l ls wl x Hinv Hl Hp Hx). lia.
Qed.

(** The contract of [Capacity]. *)
Lemma contract w s (i : nat) l (t : TokenBatch T) wl :
  station_inv (stages w) s -> attn_layers (pool s) !! i = Some l -> attn_item (Z.of_nat i) {| batch_tag := ATTENTION; tagged := t |} ->
  labels t ++ wl ≡ₚ waiting l -> 0 < zlen (tb_data t) <= max_bs -> Z.of_nat i <= num_layers -> pool_batch num_layers max_bs w t.
Proof.
  intros Hinv Hl Hit Hp Hsz Hi. destruct (item_ids _ t Hit) as (Hids & Hn & Hn2). pose proof Hit as [_ Hlay Hok [Hs1 Hs2]]. cbn [tagged] in *.
  destruct (ao_rows _ Hok) as [Ha Hsh Hdt]. pose proof (taken_nodup _ s i l (labels t) wl Hinv Hl Hp) as Hnd. rewrite Hids in Hnd.
  assert (Hz : zlen (req_ids (tb_meta t)) = zlen (tb_data t)) by (unfold zlen; lia).
  split; rewrite ?Hlay, ?Hn, ?Hz; try done; try lia.
  - intros k id Hk. destruct (lookup_lt_is_Some_2 (init_prefill_lens (tb_meta t)) k) as [pl Hpl]; [apply lookup_lt_Some in Hk; lia|]. exists pl. split; [done|].
    apply (taken_once (stages w) s i l (labels t) wl (id, pl) Hinv Hl Hp). apply (list_elem_of_lookup_2 _ k). unfold labels. by rewrite lookup_zip_with, Hk, Hpl.
  - exists (Z.of_nat (prefills t)). pose proof (ao_le _ Hok). split; [unfold zlen; lia|]. rewrite (ao_seqs _ Hok), (ao_tokens _ Hok), (ao_decode _ Hok).
    do 3 (split; [done|]). intros k pl Hk. rewrite <-Nat2Z.inj_lt. rewrite Forall_forall in Hs1, Hs2. split.
    + intros Hlt. apply Hs1, (list_elem_of_lookup_2 _ k). by rewrite lookup_take_lt.
    + intros Hne. destruct (decide (k < prefills t)%nat) as [|Hge]; [done|]. exfalso. apply Hne, Hs2, (list_elem_of_lookup_2 _ (k - prefills t)).
      rewrite lookup_drop. by replace (prefills t + (k - prefills t))%nat with k by lia.
Qed.

Lemma owed_taken p f i l l' (t : TokenBatch T) L x :
  attn_layers p !! i = Some l -> labels t ++ waiting l' ≡ₚ waiting l ->
  owed (with_attn (<[i := l']> (attn_layers p)) p) f L x = owed p f L x - if decide (i = L) then weight L * num_of x (labels t) else 0.
Proof.
  intros Hl Hp. unfold owed. rewrite waiting_insert by (by eapply lookup_lt_Some). change (gathered_at (with_attn _ p) L x) with (gathered_at p L x).
  case_decide as HL; [subst|lia]. rewrite (waiting_lookup p L l Hl), <-(num_of_perm _ _ _ Hp), num_of_app. lia.
Qed.

(** Where the rows of a batch are owed afterwards. *)
Lemma due_moved st st' (i j : nat) (l : list (Z * Z)) L x :
  NoDup l.*1 -> (forall y, y ∈ l -> st !! y.1 = Some (Queued (Z.of_nat i) y.2) /\ st' !! y.1 = Some (Queued (Z.of_nat j) y.2)) ->
  (forall id, id ∉ l.*1 -> st' !! id = st !! id) ->
  due st' L x = due st L x - (if decide (i = L) then weight L * num_of x l else 0) + (if decide (j = L) then weight L * num_of x l else 0).
Proof.
  intros Hnd Hin Hout. destruct x as [id pl]. destruct (decide (id ∈ l.*1)) as [Hid|Hid].
  - apply list_elem_of_fmap in Hid as ([id' pl'] & -> & Hy). cbn [fst]. destruct (Hin _ Hy) as [H1 H2].
    rewrite (due_queued st i id' pl' L pl H1), (due_queued st' j id' pl' L pl H2), (num_of_labels l id' pl' pl Hnd Hy).
    repeat case_decide; naive_solver lia.
  - rewrite (due_same st st') by (by apply Hout). rewrite num_of_out; [repeat case_decide; lia|].
    intros Hx. apply Hid. by apply (list_elem_of_fmap_2 fst l (id, pl)).
Qed.

(** *** A turn of the engine loop *)

Lemma num_of_copies L' L x (t : TokenBatch T) :
  num_of (L', x) (copies_out L t) = if decide (L' = L + 1) then top_k * num_of x (labels t) else 0.
Proof.
  unfold copies_out. induction (labels t) as [|y l IH]; [cbn [mbind list_bind]; rewrite !num_of_nil; case_decide; lia|]. cbn [mbind list_bind].
  rewrite num_of_app, IH, num_of_replicate, num_of_cons. repeat case_decide; simplify_eq; try lia.
Qed.

Lemma pick_none p : pick_ok p None.
Proof. by intros i [=]. Qed.

Lemma enqueue_labels L (t : TokenBatch T) l st :
  attn_item l {| batch_tag := ATTENTION; tagged := t |} -> NoDup (labels t).*1 ->
  (forall y, y ∈ labels t -> enqueue L (tb_meta t) st !! y.1 = Some (Queued L y.2)) /\
  (forall id, id ∉ (labels t).*1 -> enqueue L (tb_meta t) st !! id = st !! id).
Proof.
  intros Hit Hnd. destruct (item_ids _ t Hit) as (Hids & Hn & Hn2). rewrite Hids in *. split.
  - intros [id pl] [k Hk]%list_elem_of_lookup. unfold labels in Hk. rewrite lookup_zip_with in Hk.
    destruct (req_ids (tb_meta t) !! k) as [id'|] eqn:E1; [|done]. destruct (init_prefill_lens (tb_meta t) !! k) as [pl'|] eqn:E2; [|done].
    cbn in Hk. simplify_eq. by apply (enqueue_in _ _ _ k).
  - intros id Hid. by apply enqueue_out.
Qed.

(** Rows that leave for the experts are owed at the next layer. *)
Lemma advance_ok st s (i : nat) l l' (t : TokenBatch T) :
  station_inv st s -> attn_layers (pool s) !! i = Some l -> attn_item (Z.of_nat i) {| batch_tag := ATTENTION; tagged := t |} ->
  attn_layer_ok top_k (Z.of_nat i) l' -> labels t ++ waiting l' ≡ₚ waiting l ->
  station_inv (enqueue (Z.of_nat i + 1) (tb_meta t) st)
    {| pool := with_attn (<[i := l']> (attn_layers (pool s))) (pool s); flight := flight s ++ copies_out (Z.of_nat i) t; chosen := None |}.
Proof.
  intros Hinv Hl Hit Hok Hp. pose proof (taken_nodup _ s i l (labels t) _ Hinv Hl Hp) as Hnd.
  destruct (enqueue_labels (Z.of_nat i + 1) t _ st Hit Hnd) as [Hin Hout].
  split; cbn [pool flight chosen]; [by apply with_attn_inv; [apply Hinv|]|apply Hinv| |apply pick_none|apply Hinv].
  intros L x. rewrite (due_moved st _ i (Datatypes.S i) (labels t) L x Hnd); [|intros y Hy; split|done].
  - rewrite <-(si_owed _ _ Hinv L x), <-(owed_taken (pool s) (flight s) i l l' t L x Hl Hp). unfold owed. rewrite num_of_app, num_of_copies.
    destruct (decide (Datatypes.S i = L)) as [<-|Hne]; [rewrite decide_True, weight_S by lia; lia|]. rewrite decide_False by lia. lia.
  - by apply (taken_once st s i l (labels t) (waiting l')).
  - rewrite (Hin y Hy). do 2 f_equal. lia.
Qed.

(** A batch of rows that are not new. *)
Lemma loop_arrival (b : TokenBatch T) h :
  init_prefill_lens (tb_meta b) = replicate (length (req_ids (tb_meta b))) (-1) -> length (tb_data b) = length (req_ids (tb_meta b)) ->
  shape (tb_meta b) = [zlen (req_ids (tb_meta b)); h] -> aligned (length (req_ids (tb_meta b))) (tb_meta b) -> attn_arrival b.
Proof.
  intros Hpl Hd Hsh Hal. assert (Hf : firsts (init_prefill_lens (tb_meta b)) = 0%nat).
  { rewrite Hpl. unfold firsts. clear. induction (length (req_ids (tb_meta b))) as [|n IH]; [done|]. cbn [replicate]. rewrite filter_cons, decide_False by tauto. done. }
  split; [split; rewrite ?Hd; [done|exists h; by rewrite Hsh|done]|by rewrite Hpl, length_replicate|]. rewrite Hf. split; [constructor|].
  rewrite drop_0, Hpl. apply Forall_replicate. done.
Qed.

Lemma loop_labels (b : TokenBatch T) :
  init_prefill_lens (tb_meta b) = replicate (length (req_ids (tb_meta b))) (-1) -> labels b = (fun id => (id, -1)) <$> req_ids (tb_meta b).
Proof.
  intros Hpl. unfold labels. rewrite Hpl. clear. induction (req_ids (tb_meta b)) as [|x l IH]; [done|]. cbn [length replicate zip_with fmap list_fmap]. by rewrite IH.
Qed.

(** After the pseudo-layer: the rows that go on are owed at layer 0, the others nowhere. *)
Lemma loop_ok w w' s (i : nat) l l' (t : TokenBatch T) :
  station_inv (stages w) s -> attn_layers (pool s) !! i = Some l -> attn_item (Z.of_nat i) {| batch_tag := ATTENTION; tagged := t |} ->
  attn_layer_ok top_k (Z.of_nat i) l' -> labels t ++ waiting l' ≡ₚ waiting l -> Z.of_nat i = num_layers -> looped t w w' ->
  exists b p, last (pool_puts (eng w')) = Some b /\
    put_batch top_k num_groups b (with_attn (<[i := l']> (attn_layers (pool s))) (pool s)) = Ok p /\
    station_inv (stages w') {| pool := p; flight := flight s; chosen := None |}.
Proof.
  intros Hinv Hl Hit Hok Hp Hi (b & fin & h & Hlast & Hfl & Hids & Hpl & Hlay & Hd & Hsh & Hal & Hst & _).
  pose proof (taken_nodup _ s i l (labels t) _ Hinv Hl Hp) as Hnd. destruct (item_ids _ t Hit) as (Hli & Hn & Hn2).
  destruct (put_first (with_attn (<[i := l']> (attn_layers (pool s))) (pool s)) b) as (p & E & Hpi & Hthr & Htk & Howe & _);
    [apply with_attn_inv; [apply Hinv|done]|by eapply loop_arrival|done|].
  exists b, p. split; [done|]. split; [done|]. split; cbn [pool flight chosen]; [done|rewrite Hthr; apply Hinv| |apply pick_none|rewrite Htk; apply Hinv].
  assert (Hndb : NoDup (req_ids (tb_meta b))) by (rewrite Hids; apply select_NoDup; [by rewrite <-Hli|done]).
  assert (Hsub : forall id, id ∈ req_ids (tb_meta b) -> id ∈ (labels t).*1).
  { intros id. rewrite Hids, Hli. intros (k & Hk & _)%elem_of_select; [|done]. by eapply list_elem_of_lookup_2. }
  assert (Hlb : (labels b).*1 = req_ids (tb_meta b)) by (rewrite loop_labels, <-list_fmap_compose by done; apply list_fmap_id).
  intros L x. rewrite Howe, (owed_taken (pool s) (flight s) i l l' t L x Hl Hp), (si_owed _ _ Hinv L x), Hst. destruct x as [id pl].
  destruct (decide (id ∈ req_ids (tb_meta b))) as [Hb|Hb]; [|rewrite (num_of_out _ (labels b)) by (intros Hx; apply Hb; rewrite <-Hlb; by apply (list_elem_of_fmap_2 fst _ (id, pl)))].
  - assert (Hbl : (id, -1) ∈ labels b) by (rewrite loop_labels by done; by apply (list_elem_of_fmap_2 (fun id => (id, -1)))).
    assert (Hq : enqueue 0 (tb_meta b) (end_all (req_ids (tb_meta t)) (stages w)) !! id = Some (Queued (Z.of_nat 0) (-1))).
    { apply list_elem_of_lookup in Hb as [k Hk]. apply (enqueue_in _ _ _ k); [done|done|]. rewrite Hpl. apply lookup_replicate_2. by eapply lookup_lt_Some. }
    rewrite (due_queued _ 0 id (-1) L pl Hq). apply Hsub, list_elem_of_fmap in Hb as ([id' pl'] & -> & Hy). cbn [fst] in *.
    destruct (taken_once (stages w) s i l (labels t) _ _ Hinv Hl Hp Hy) as [Hs _]. cbn [fst snd] in Hs. rewrite (due_queued _ i id' pl' L pl Hs).
    rewrite (num_of_labels _ id' pl' pl Hnd Hy). rewrite (num_of_labels _ id' (-1) pl) by (by rewrite ?Hlb).
    pose proof weight_0. repeat case_decide; naive_solver lia.
  - assert (Hq : due (enqueue 0 (tb_meta b) (end_all (req_ids (tb_meta t)) (stages w))) L (id, pl) = if decide (id ∈ req_ids (tb_meta t)) then 0 else due (stages w) L (id, pl)).
    { case_decide as Hd'; [apply due_none; intros ? ?; cbn; rewrite enqueue_out, end_all_lookup, decide_True by done; done|].
      apply due_same. cbn. by rewrite enqueue_out, end_all_lookup, decide_False. }
    rewrite Hq, <-Hli. destruct (decide (id ∈ (labels t).*1)) as [Hd'|Hd'].
    + apply list_elem_of_fmap in Hd' as ([id' pl'] & -> & Hy). cbn [fst] in *.
      destruct (taken_once (stages w) s i l (labels t) _ _ Hinv Hl Hp Hy) as [Hs _]. cbn [fst snd] in Hs. rewrite (due_queued _ i id' pl' L pl Hs), (num_of_labels _ id' pl' pl Hnd Hy).
      repeat case_decide; naive_solver lia.
    + rewrite (num_of_out _ (labels t)) by (intros Hx; apply Hd'; by apply (list_elem_of_fmap_2 fst _ (id, pl))). repeat case_decide; lia.
Qed.

Context (bs nb N max_pages : Z) (R : gmap Z (Z * Z)).

Notation worker_ok := (worker_inv num_layers bs nb N max_bs max_pages R).

Lemma worker_lens (w : Worker T) : worker_ok w -> lens_ok (stages w).
Proof.
  intros Hinv id L pl H. destruct (wi_stage _ _ _ _ _ _ _ _ Hinv id _ H) as (p & o & _ & Hp & _ & _ & _ & k & _ & _ & [->|[-> _]] & _); lia.
Qed.

Lemma turn_total rank stash w s :
  sort_spec std_sort -> 0 <= max_pages -> worker_ok w -> station_inv (stages w) s ->
  exists w' s', take_turn rank stash w s = Ok (w', s') /\ station_inv (stages w') s' /\
    (w' = w \/ exists tb, pool_batch num_layers max_bs w tb /\ run_batch add rank hidden_size num_layers stash tb w = Ok w').
Proof.
  intros Hsort Hmp Hw Hs. unfold take_turn. destruct (chosen s) as [c|] eqn:Ec; [|exists w, s; by auto].
  pose proof (si_pool _ _ Hs) as Hpi. destruct (si_pick _ _ Hs c Ec) as [->|(i & l & [[-> Hl]|[-> Hl]] & Hpos)].
  - cbn. eexists w, _. split; [reflexivity|]. split; [|by left]. destruct Hs. by split.
  - destruct (get_attn add std_sort top_k hidden_size _ (pool s) i l Hsort Hpi Hl Hpos) as (t & l' & -> & Hit & Hok & Hp & Hsz). cbn [mbind res_bind].
    pose proof (lookup_lt_Some _ _ _ Hl) as Hlt. rewrite is_attn_lt by (cbn; by rewrite length_insert).
    pose proof (pi_attn_count _ _ _ Hpi) as Hcount. rewrite (si_threshold _ _ Hs) in Hsz.
    pose proof (contract w s i l t _ Hs Hl Hit Hp Hsz ltac:(lia)) as Hpb.
    destruct (batch_total add rank hidden_size num_layers bs nb N max_bs max_pages R stash w t Hlayers Hmp Hw Hpb) as (w' & E & _ & Hout).
    rewrite E. cbn [mbind res_bind]. unfold outcome in Hout. pose proof (ai_layer _ _ Hit) as Hlay. cbn [tagged] in Hlay. rewrite Hlay in *.
    destruct (Z.eqb_spec (Z.of_nat i) num_layers) as [Hi|Hi].
    + destruct (loop_ok w w' s i l l' t Hs Hl Hit Hok Hp Hi Hout) as (b & p & -> & Ep & Hinv). cbn [of_option mbind res_bind]. rewrite Ep. cbn [mbind res_bind].
      eexists w', _. split; [reflexivity|]. split; [done|]. right. by exists t.
    + eexists w', _. split; [reflexivity|]. split; [|right; by exists t]. rewrite (proj1 Hout). by apply (advance_ok (stages w) s i l l' t).
  - destruct (get_expert add std_sort top_k hidden_size _ (pool s) i l Hpi Hl Hpos) as (t & l' & -> & _ & Hpi' & _). cbn [mbind res_bind].
    assert (is_attn_layer (Z.of_nat (length (attn_layers (pool s)) + i)) (with_expert (<[i := l']> (expert_layers (pool s))) (pool s)) = false) as ->.
    { unfold is_attn_layer, zlen. cbn. apply Z.ltb_ge. lia. }
    eexists w, _. split; [reflexivity|]. split; [|by left]. destruct Hs. by split.
Qed.

Lemma admission_arrival x rank id pl : attn_arrival {| tb_data := [x : T]; tb_meta := admission_meta rank hidden_size id pl |}.
Proof.
  split; cbn; [split; cbn; [unfold aligned; cbn; auto 10|by eexists|done]|done|].
  unfold split_at. case_decide; cbn; repeat constructor; [done|lia].
Qed.

Lemma admission_total rank tr w s :
  worker_ok w -> station_inv (stages w) s -> stages w !! tr_req_id tr = Some (Sent tr) ->
  exists w' s', admit_station rank tr w s = Ok (w', s') /\ admit_request rank hidden_size rand tr w = Ok w' /\ station_inv (stages w') s'.
Proof.
  intros Hw Hs Hst. destruct (admit_total rank hidden_size num_layers bs nb N max_bs max_pages rand R w tr Hw Hst Hlayers) as (w' & E & _ & Hst' & _ & x & Hlast).
  set (b := {| tb_data := [x]; tb_meta := admission_meta rank hidden_size (tr_req_id tr) (tr_init_prefill_len tr) |}) in *.
  destruct (put_first (pool s) b (si_pool _ _ Hs) (admission_arrival x _ _ _) eq_refl) as (p & Ep & Hpi & Hthr & Htk & Howe & Hpick).
  unfold admit_station. rewrite E. cbn [mbind res_bind]. rewrite Hlast. cbn [mbind res_bind of_option]. rewrite Ep. cbn [mbind res_bind]. eexists w', _. split; [reflexivity|]. split; [done|].
  split; cbn [pool flight chosen with_pool_of]; [done|rewrite Hthr; apply Hs| |apply Hpick, Hs|rewrite Htk; apply Hs].
  intros L x'. rewrite Howe, (si_owed _ _ Hs L x'), Hst'. destruct x' as [id pl]. change (labels b) with [(tr_req_id tr, tr_init_prefill_len tr)].
  rewrite num_of_cons, num_of_nil. destruct (decide (tr_req_id tr = id)) as [<-|Hne].
  - assert (Hq : (<[tr_req_id tr := Queued 0 (tr_init_prefill_len tr)]> (stages w) : gmap Z stage) !! tr_req_id tr = Some (Queued (Z.of_nat 0) (tr_init_prefill_len tr)))
      by apply lookup_insert_eq.
    rewrite (due_queued _ 0 _ _ L pl Hq), (due_none (stages w)) by (intros ? ?; cbn; congruence). pose proof weight_0. repeat case_decide; naive_solver lia.
  - rewrite (decide_False (P := _ = (id, pl))) by congruence. rewrite (due_same (stages w) (<[_ := _]> _)) by (cbn; by rewrite lookup_insert_ne). case_decide; lia.
Qed.

(** Stages that differ only off the layers. *)
Lemma station_inv_same st st' s :
  (forall id L pl, st' !! id = Some (Queued L pl) <-> st !! id = Some (Queued L pl)) -> station_inv st s -> station_inv st' s.
Proof.
  intros Heq [H1 H2 H3 H4 H5]. split; try done. intros L [id pl]. rewrite H3. unfold due. cbn.
  destruct (st !! id) as [[| L1 p1|]|] eqn:E1; destruct (st' !! id) as [[| L2 p2|]|] eqn:E2; try done;
    try (apply Heq in E1; by simplify_eq); try (apply Heq in E2; by simplify_eq).
Qed.

(** The order in which copies are away does not matter. *)
Lemma station_inv_perm st s f :
  flight s ≡ₚ f -> station_inv st s -> station_inv st {| pool := pool s; flight := f; chosen := chosen s |}.
Proof.
  intros Hf [H1 H2 H3 H4 H5]. split; cbn [pool flight chosen]; try done. intros L x. rewrite <-H3. unfold owed. by rewrite (num_of_perm _ _ _ Hf).
Qed.

Lemma fresh_station_inv e_thr : 0 < max_bs -> 0 < e_thr ->
  station_inv ∅ {| pool := new_pool top_k num_layers max_bs e_thr; flight := []; chosen := None |}.
Proof.
  intros Hm He. split; cbn [pool flight chosen].
  - pose proof (new_pool_inv (T := T) top_k (Z.to_nat num_layers) max_bs e_thr Hm He) as Hp. by rewrite Z2Nat.id in Hp by lia.
  - done.
  - intros L x. unfold owed. rewrite num_of_nil.
    assert (waiting_at (new_pool top_k num_layers max_bs e_thr) L = @nil (Z * Z)) as ->.
    { unfold waiting_at. destruct (attn_layers _ !! L) as [l|] eqn:E; [|done]. by apply lookup_replicate in E as [-> _]. }
    assert (gathered_at (new_pool top_k num_layers max_bs e_thr) L x = 0) as ->; [|rewrite num_of_nil, due_none by (intros ? ?; by rewrite lookup_empty); lia].
    unfold gathered_at. destruct (topk_pools _ !! L) as [tp|] eqn:E; [|done]. cbn in E. case_match; [|done]. by apply lookup_replicate in E as [-> _].
  - apply pick_none.
  - intros tp. cbn. case_match; [|done]. intros [-> _]%lookup_replicate. done.
Qed.
End Rank.
Arguments Station T : clear implicits.

(** ** The ranks and the scheduler *)

Section System.
Context {T P : Type} `{HCP : CapacityPolicy P}.
Context (add : T -> T -> T) (std_sort : (TokenTopKInfo T -> TokenTopKInfo T -> bool) -> list (TokenTopKInfo T) -> list (TokenTopKInfo T)).
Context (rand : T) (top_k num_groups hidden_size num_layers : Z) (prompt : Z -> list Z).
Context (bs max_bs max_bs_expert max_pages min_tokens : Z) (cap nbs : list Z).

Record System : Type := { cluster : Cluster (T := T) (P := P); stations : list (Station T) }.

(** The worker and the station of rank [r] take their next state. *)
Definition set_rank (r : nat) (w : Worker T) (s : Station T) (y : System) : System :=
  {| cluster := {| csys := csys (cluster y); workers := <[r := w]> (workers (cluster y)) |}; stations := <[r := s]> (stations y) |}.

Inductive sys_step : System -> System -> Prop :=
  | sy_control y c : control_step prompt bs max_pages min_tokens (cluster y) c -> sys_step y {| cluster := c; stations := stations y |}
  | sy_admit y r w s tr w' s' :
      workers (cluster y) !! r = Some w -> stations y !! r = Some s -> stages w !! tr_req_id tr = Some (Sent tr) ->
      admit_station rand top_k num_groups hidden_size (Z.of_nat r) tr w s = Ok (w', s') -> sys_step y (set_rank r w' s' y)
  | sy_choose y r w s :
      workers (cluster y) !! r = Some w -> stations y !! r = Some s -> sys_step y (set_rank r w (choose s) y)
  | sy_turn y r w s stash w' s' :
      workers (cluster y) !! r = Some w -> stations y !! r = Some s ->
      take_turn add std_sort top_k num_groups hidden_size num_layers (Z.of_nat r) stash w s = Ok (w', s') -> sys_step y (set_rank r w' s' y)
  | sy_arrive y r w s b f s' :
      workers (cluster y) !! r = Some w -> stations y !! r = Some s -> deliverable num_layers s b f ->
      arrive top_k num_groups b f s = Ok s' -> sys_step y (set_rank r w s' y)
  | sy_expert y r w s b i s' :
      workers (cluster y) !! r = Some w -> stations y !! r = Some s ->
      expert_item (Z.of_nat i) {| batch_tag := EXPERT; tagged := b |} -> Z.of_nat i < num_layers ->
      arrive_expert top_k num_groups b s = Ok s' -> sys_step y (set_rank r w s' y).

Definition fresh_station : Station T :=
  {| pool := new_pool top_k num_layers max_bs max_bs_expert; flight := []; chosen := None |}.

Inductive sys_reachable : System -> Prop :=
  | sys_start c : cluster_start bs max_bs max_pages cap nbs c ->
      sys_reachable {| cluster := c; stations := replicate (length (workers c)) fresh_station |}
  | sys_next y y' : sys_reachable y -> sys_step y y' -> sys_reachable y'.

(** What the composition needs of its parameters. *)
Record configured : Prop := {
  cf_sort : sort_spec std_sort;
  cf_topk : 1 < top_k;
  cf_groups : num_groups <= 1;
  cf_layers : 0 < num_layers;
  cf_batch : 0 < max_bs;
  cf_batch_expert : 0 < max_bs_expert;
  cf_pages : 0 <= max_pages;
  cf_tokens : 100 <= min_tokens;
}.

(** The controller never moves a row. *)
Lemma control_stages (y y' : Cluster (T := T) (P := P)) :
  cluster_inv num_layers bs max_bs max_pages min_tokens cap nbs y -> control_step prompt bs max_pages min_tokens y y' ->
  length (workers y') = length (workers y) /\
  forall r w', workers y' !! r = Some w' -> exists w, workers y !! r = Some w /\
    forall id L pl, stages w' !! id = Some (Queued L pl) <-> stages w !! id = Some (Queued L pl).
Proof.
  intros Hinv Hstep. destruct Hstep as [y it _ _ _|y s' Hloop|y|y r w id s' Hwr Hst _]; cbn [workers]; try by eauto.
  - destruct (loop_running cap (csys y) s' (ci_sys _ _ _ _ _ _ _ _ Hinv) Hloop) as (_ & [(it & rank & _ & Hrank & Hfresh & _ & Hsu)|(_ & Hsu)] & _).
    2:{ rewrite Hsu, drop_ge by lia. by eauto. }
    rewrite Hsu, drop_app_length. cbn [deliver foldl]. unfold deliver_one. cbn [fst snd]. rewrite length_alter. split; [done|]. intros r w' Hw'.
    destruct (decide (r = Z.to_nat rank)) as [->|Hne]; [|rewrite list_lookup_alter_ne in Hw' by done; by eauto].
    rewrite list_lookup_alter_eq in Hw'. apply fmap_Some in Hw' as (w & Hw & ->). exists w. split; [done|]. cbn [stages].
    assert (Hnone : stages w !! req_id it = None).
    { destruct (stages w !! req_id it) as [st|] eqn:E; [|done]. destruct (lookup_lt_is_Some_2 nbs (Z.to_nat rank)) as [nb Hnb].
      { rewrite <-(ci_count _ _ _ _ _ _ _ _ Hinv). by eapply lookup_lt_Some. }
      destruct (wi_stage _ _ _ _ _ _ _ _ (ci_workers _ _ _ _ _ _ _ _ Hinv _ w nb Hw Hnb) _ st E) as (p & o & HR & _).
      apply rank_map_lookup in HR. destruct (inv_acc _ _ (ci_sys _ _ _ _ _ _ _ _ Hinv)) as (_ & _ & Hdom & _). rewrite running_lookup, Hfresh in HR by done. done. }
    intros id L pl. destruct (decide (id = req_id it)) as [->|Hne]; [rewrite lookup_insert_eq, Hnone; done|by rewrite lookup_insert_ne].
  - rewrite length_insert. split; [done|]. intros r' w' Hw'. apply list_lookup_insert_Some in Hw' as [(<- & <- & _)|(_ & Hw')]; [|by eauto].
    exists w. split; [done|]. cbn [stages]. intros id' L pl. destruct (decide (id' = id)) as [->|Hne]; [rewrite lookup_delete_eq, Hst; done|by rewrite lookup_delete_ne].
Qed.

Notation cl_reachable := (reachable add rand hidden_size num_layers prompt bs max_bs max_pages min_tokens cap nbs).

Record system_inv (y : System) : Prop := {
  sv_reach : cl_reachable (cluster y);
  sv_count : length (stations y) = length (workers (cluster y));
  sv_rank : forall r w s, workers (cluster y) !! r = Some w -> stations y !! r = Some s -> station_inv top_k num_layers max_bs (stages w) s;
}.

Hypothesis Hconf : configured.

Lemma rank_worker y r w :
  system_inv y -> workers (cluster y) !! r = Some w ->
  exists nb R, worker_inv num_layers bs nb (stash_rows bs nb) max_bs max_pages R w.
Proof.
  intros Hy Hw. pose proof (reachable_inv add rand hidden_size num_layers prompt bs max_bs max_pages min_tokens cap nbs (cluster y)
    (cf_layers Hconf) (cf_pages Hconf) (cf_tokens Hconf) (sv_reach _ Hy)) as Hinv.
  destruct (lookup_lt_is_Some_2 nbs r) as [nb Hnb]; [rewrite <-(ci_count _ _ _ _ _ _ _ _ Hinv); by eapply lookup_lt_Some|].
  exists nb. eexists. by eapply (ci_workers _ _ _ _ _ _ _ _ Hinv).
Qed.

Lemma set_rank_inv y r w w' s' :
  system_inv y -> workers (cluster y) !! r = Some w -> cl_reachable {| csys := csys (cluster y); workers := <[r := w']> (workers (cluster y)) |} ->
  station_inv top_k num_layers max_bs (stages w') s' -> system_inv (set_rank r w' s' y).
Proof.
  intros [H1 H2 H3] Hw Hr Hs. split; cbn [set_rank cluster stations workers]; [done|by rewrite !length_insert|].
  intros r' v t Hv Ht. destruct (decide (r' = r)) as [->|Hne].
  - rewrite list_lookup_insert_eq in Hv by (by eapply lookup_lt_Some). apply lookup_lt_Some in Hw.
    rewrite list_lookup_insert_eq in Ht by lia. by simplify_eq.
  - rewrite list_lookup_insert_ne in Hv by done. rewrite list_lookup_insert_ne in Ht by done. by eapply H3.
Qed.

(** The worker is where it was. *)
Lemma set_station_inv y r w s' :
  system_inv y -> workers (cluster y) !! r = Some w -> station_inv top_k num_layers max_bs (stages w) s' -> system_inv (set_rank r w s' y).
Proof.
  intros Hy Hw Hs. apply (set_rank_inv y r w); [done..| |done]. rewrite list_insert_id by done. destruct (cluster y) as [c ws] eqn:E. cbn.
  rewrite <-E. apply Hy.
Qed.

Lemma expert_ok y r w s b i :
  system_inv y -> workers (cluster y) !! r = Some w -> stations y !! r = Some s ->
  expert_item (Z.of_nat i) {| batch_tag := EXPERT; tagged := b |} -> Z.of_nat i < num_layers ->
  exists s', arrive_expert top_k num_groups b s = Ok s' /\ station_inv top_k num_layers max_bs (stages w) s'.
Proof.
  intros Hy Hw Hs Hb Hi. eapply expert_arrival_ok; [apply Hconf|by eapply (sv_rank _ Hy)|exact Hb|lia].
Qed.

Lemma delivery_ok y r w s b f :
  system_inv y -> workers (cluster y) !! r = Some w -> stations y !! r = Some s -> deliverable num_layers s b f ->
  exists s', arrive top_k num_groups b f s = Ok s' /\ station_inv top_k num_layers max_bs (stages w) s'.
Proof.
  intros Hy Hw Hs Hd. destruct (rank_worker y r w Hy Hw) as (nb & R & Hwk).
  eapply arrive_ok; [apply Hconf..|by eapply (sv_rank _ Hy)|by eapply worker_lens|done].
Qed.

Lemma system_inv_step y y' : system_inv y -> sys_step y y' -> system_inv y'.
Proof.
  intros Hy Hstep. destruct Hstep as [y c Hc|y r w s tr w' s' Hw Hs Hst E|y r w s Hw Hs|y r w s stash w' s' Hw Hs E|y r w s b f s' Hw Hs Hd E|y r w s b i s' Hw Hs Hb Hi E].
  - pose proof (reachable_inv add rand hidden_size num_layers prompt bs max_bs max_pages min_tokens cap nbs (cluster y)
      (cf_layers Hconf) (cf_pages Hconf) (cf_tokens Hconf) (sv_reach _ Hy)) as Hinv.
    destruct (control_stages _ _ Hinv Hc) as [Hlen Hsame]. destruct Hy as [H1 H2 H3].
    split; cbn [cluster stations]; [eapply reach_step; [done|by apply cl_control]|congruence|].
    intros r w s Hw Hs. destruct (Hsame r w Hw) as (w0 & Hw0 & Heq). eapply station_inv_same; [exact Heq|by eapply H3].
  - destruct (rank_worker y r w Hy Hw) as (nb & R & Hwk).
    destruct (admission_total add rand top_k num_groups hidden_size num_layers max_bs (cf_layers Hconf) bs nb _ max_pages R (Z.of_nat r) tr w s Hwk
      (sv_rank _ Hy r w s Hw Hs) Hst) as (w2 & s2 & E2 & Ha & Hinv). rewrite E2 in E. injection E as <- <-.
    eapply set_rank_inv; [done|exact Hw| |done]. eapply reach_step; [apply Hy|]. by eapply cl_admit.
  - eapply set_station_inv; [done..|]. apply choose_ok. by eapply (sv_rank _ Hy).
  - destruct (rank_worker y r w Hy Hw) as (nb & R & Hwk).
    destruct (turn_total add std_sort rand top_k num_groups hidden_size num_layers max_bs (cf_topk Hconf) (cf_layers Hconf) bs nb _ max_pages R (Z.of_nat r) stash w s
      (cf_sort Hconf) (cf_pages Hconf) Hwk (sv_rank _ Hy r w s Hw Hs)) as (w2 & s2 & E2 & Hinv & Hcase). rewrite E2 in E. injection E as <- <-.
    destruct Hcase as [->|(tb & Hpb & Hrun)]; [by eapply set_station_inv|].
    eapply set_rank_inv; [done|exact Hw| |done]. eapply reach_step; [apply Hy|]. by eapply cl_batch.
  - destruct (delivery_ok y r w s b f Hy Hw Hs Hd) as (s2 & E2 & Hinv). rewrite E2 in E. injection E as <-. by eapply set_station_inv.
  - destruct (expert_ok y r w s b i Hy Hw Hs Hb Hi) as (s2 & E2 & Hinv). rewrite E2 in E. injection E as <-. by eapply set_station_inv.
Qed.

Lemma system_start_inv c : cluster_start bs max_bs max_pages cap nbs c -> system_inv {| cluster := c; stations := replicate (length (workers c)) fresh_station |}.
Proof.
  intros Hc. split; cbn [cluster stations]; [by apply reach_start|by rewrite length_replicate|].
  intros r w s Hw [-> _]%lookup_replicate. destruct Hc as (_ & _ & _ & Hf). destruct (Forall2_lookup_r _ _ _ _ _ Hf Hw) as (nb & _ & Hfw).
  rewrite (fw_stages _ _ _ _ _ Hfw). apply fresh_station_inv; apply Hconf.
Qed.

Lemma sys_reachable_inv y : sys_reachable y -> system_inv y.
Proof. induction 1 as [c Hc|y y' _ IH Hstep]; [by apply system_start_inv|by eapply system_inv_step]. Qed.

(** C4. The C++ pool keeps the contract the engine relies on, under the conditions of the
    admission theorem and a [configured] pool.  Whatever the order of the
    steps (clients, scheduler loop, admissions, layer choices, turns of the engine, and
    batches that arrive from attention and expert ranks), the workers of a reachable
    state are in a state the admission theorem covers, every batch the pool hands to a
    worker satisfies [pool_batch], and no admission, turn or arrival raises. *)
Theorem pool_keeps_contract y :
  sys_reachable y ->
  cl_reachable (cluster y) /\
  forall r w s, workers (cluster y) !! r = Some w -> stations y !! r = Some s ->
    (forall tr, stages w !! tr_req_id tr = Some (Sent tr) ->
       is_ok (admit_station rand top_k num_groups hidden_size (Z.of_nat r) tr w s) = true) /\
    (forall stash, exists w' s', take_turn add std_sort top_k num_groups hidden_size num_layers (Z.of_nat r) stash w s = Ok (w', s') /\
       (w' = w \/ exists tb, pool_batch num_layers max_bs w tb /\ run_batch add (Z.of_nat r) hidden_size num_layers stash tb w = Ok w')) /\
    (forall b f, deliverable num_layers s b f -> is_ok (arrive top_k num_groups b f s) = true) /\
    (forall b i, expert_item (Z.of_nat i) {| batch_tag := EXPERT; tagged := b |} -> Z.of_nat i < num_layers ->
       is_ok (arrive_expert top_k num_groups b s) = true).
Proof.
  intros Hr. pose proof (sys_reachable_inv y Hr) as Hy. split; [apply Hy|]. intros r w s Hw Hs.
  destruct (rank_worker y r w Hy Hw) as (nb & R & Hwk). pose proof (sv_rank _ Hy r w s Hw Hs) as Hst. split; [|split; [|split]].
  - intros tr Htr. destruct (admission_total add rand top_k num_groups hidden_size num_layers max_bs (cf_layers Hconf) bs nb _ max_pages R (Z.of_nat r) tr w s Hwk
      Hst Htr) as (w2 & s2 & -> & _). done.
  - intros stash. destruct (turn_total add std_sort rand top_k num_groups hidden_size num_layers max_bs (cf_topk Hconf) (cf_layers Hconf) bs nb _ max_pages R (Z.of_nat r) stash w s
      (cf_sort Hconf) (cf_pages Hconf) Hwk Hst) as (w2 & s2 & -> & _ & Hc). by exists w2, s2.
  - intros b f Hd. by destruct (delivery_ok y r w s b f Hy Hw Hs Hd) as (s2 & -> & _).
  - intros b i Hb Hi. by destruct (expert_ok y r w s b i Hy Hw Hs Hb Hi) as (s2 & -> & _).
Qed.

Lemma rank_drained y r w s :
  system_inv y -> workers (cluster y) !! r = Some w -> stations y !! r = Some s ->
  (forall i l, attn_layers (pool s) !! i = Some l -> num_tokens_ l <= 0) -> flight s = [] ->
  forall id L pl, stages w !! id <> Some (Queued L pl).
Proof.
  intros Hy Hw Hs Hnone Hfl id L pl Hq. pose proof (sv_rank _ Hy r w s Hw Hs) as Hst.
  destruct (rank_worker y r w Hy Hw) as (nb & R & Hwk).
  destruct (wi_stage _ _ _ _ _ _ _ _ Hwk id _ Hq) as (p & o & _ & _ & _ & _ & HL & _).
  destruct (Z_of_nat_complete L ltac:(lia)) as [n ->]. pose proof (si_owed _ _ _ _ _ Hst n (id, pl)) as Ho.
  rewrite (due_queued _ _ n id pl n pl Hq), decide_True in Ho by done. unfold owed in Ho. rewrite Hfl, num_of_nil in Ho.
  pose proof (si_pool _ _ _ _ _ Hst) as Hpi.
  assert (Hwait : waiting_at (pool s) n = []).
  { unfold waiting_at. destruct (attn_layers (pool s) !! n) as [l|] eqn:El; [|done]. cbn.
    specialize (Hnone n l El). rewrite <-(waiting_count _ _ l (pi_attn _ _ _ Hpi n l El)) in Hnone.
    destruct (waiting l); [done|]. rewrite zlen_cons in Hnone. pose proof (zlen_nonneg l0). lia. }
  rewrite Hwait, num_of_nil in Ho. unfold gathered_at in Ho. pose proof (weight_pos top_k (cf_topk Hconf) n) as Hwp.
  destruct (topk_pools (pool s) !! n) as [tp|] eqn:Etp; cbn in Ho; [|lia]. unfold gathered in Ho. cbn in Ho.
  destruct n as [|n]; [rewrite (si_first _ _ _ _ _ Hst tp Etp), lookup_empty in Ho; lia|]. rewrite weight_S in Ho by apply Hconf.
  destruct (pool_ tp !! id) as [t|] eqn:Et; [|rewrite weight_S in Hwp by apply Hconf; lia].
  destruct (tk_inv _ _ (pi_topk _ _ _ Hpi _ tp Etp) id t Et) as (_ & _ & Hlt). pose proof (cf_topk Hconf). case_decide; lia.
Qed.

(** No row is lost and none is stuck: when the scheduler of a rank finds nothing to
    run and no expert copy is away, no request of the rank is between its layers. *)
Theorem idle_rank_drained y r w s :
  sys_reachable y -> workers (cluster y) !! r = Some w -> stations y !! r = Some s ->
  Pool.schedule (pool s) = -1 -> flight s = [] ->
  forall id L pl, stages w !! id <> Some (Queued L pl).
Proof.
  intros Hr Hw Hs Hsch. apply (rank_drained y r w s); [by apply sys_reachable_inv|done..|].
  by destruct (schedule_cases (pool s)) as [(k & ? & E & _)|[(k & ? & E & _)|(_ & Hnone & _)]]; [lia..|].
Qed.

(** *** Executable steps *)

(** Copies of rows that come back together, with the same value. *)
Definition copies_batch (L : Z) (ls : list (Z * Z)) (x : T) : TokenBatch T :=
  {| tb_data := replicate (length ls) x;
     tb_meta := {| shape := [zlen ls; hidden_size]; md_dtype := "bf16"; layer_id := L; req_ids := ls.*1; exp_ids := [];
                   topk_weights := []; attn_dp_ranks := replicate (length ls) 0; init_prefill_lens := ls.*2;
                   num_prefill_seqs := None; num_prefill_tokens := None; num_decode_tokens := None |} |}.

Lemma copies_deliverable (s : Station T) L ls x f :
  0 < L <= num_layers -> flight s = ((fun y => (L, y)) <$> ls) ++ f -> deliverable num_layers s (copies_batch L ls x) f.
Proof.
  intros HL Hf. split; [done|..].
  - exists (zlen ls), [hidden_size]. unfold zlen. cbn. rewrite !length_fmap, !length_replicate. done.
  - rewrite Hf. unfold labels. cbn. by rewrite zip_fst_snd.
Qed.

Inductive sys_action : Type :=
  | SControl (a : action)
  | SAdmit (tr : TokenizedRequest)
  | SChoose
  | STurn (stash : Z -> T)
  | SArrive (L : Z) (ls : list (Z * Z)) (x : T).

(** On rank 0. *)
Definition sys_exec (y : System) (a : sys_action) : option System :=
  w ← workers (cluster y) !! 0%nat;
  s ← stations y !! 0%nat;
  match a with
  | SControl (Admit _ _) => None
  | SControl a => c ← exec rand hidden_size prompt bs max_pages min_tokens (cluster y) a; Some {| cluster := c; stations := stations y |}
  | SAdmit tr =>
      match stages w !! tr_req_id tr with
      | Some (Sent tr') =>
          if decide (tr_req_id tr' = tr_req_id tr) then
            match admit_station rand top_k num_groups hidden_size 0 tr' w s with Ok (w', s') => Some (set_rank 0 w' s' y) | Raise _ => None end
          else None
      | _ => None
      end
  | SChoose => Some (set_rank 0 w (choose s) y)
  | STurn stash =>
      match take_turn add std_sort top_k num_groups hidden_size num_layers 0 stash w s with Ok (w', s') => Some (set_rank 0 w' s' y) | Raise _ => None end
  | SArrive L ls x =>
      if decide (0 < L <= num_layers /\ flight s = ((fun y => (L, y)) <$> ls) ++ drop (length ls) (flight s)) then
        match arrive top_k num_groups (copies_batch L ls x) (drop (length ls) (flight s)) s with Ok s' => Some (set_rank 0 w s' y) | Raise _ => None end
      else None
  end.

Definition sys_exec_all (l : list sys_action) (y : System) : option System := foldl (fun y a => y ≫= fun y => sys_exec y a) (Some y) l.

Lemma exec_control y a y' :
  (forall r tr, a <> Admit r tr) -> exec rand hidden_size prompt bs max_pages min_tokens y a = Some y' -> control_step prompt bs max_pages min_tokens y y'.
Proof.
  destruct a as [it| |r tr]; cbn [exec]; intros Ha.
  - case_decide as Hd; [|done]. intros [= <-]. destruct Hd as (? & ? & ?). by apply cl_put.
  - destruct (loop_step (csys y)) as [[s'|]|] eqn:E; try done. intros [= <-]. by apply cl_loop.
  - by destruct (Ha r tr).
Qed.

Lemma sys_exec_step y a y' : sys_exec y a = Some y' -> sys_step y y'.
Proof.
  unfold sys_exec. destruct (workers (cluster y) !! 0%nat) as [w|] eqn:Hw; [|done]. destruct (stations y !! 0%nat) as [s|] eqn:Hs; [|done]. cbn [mbind option_bind].
  destruct a as [a|tr| |stash|L ls x].
  - intros E. assert (Ha : forall r tr, a <> Admit r tr) by (by intros ? ? ->).
    destruct (exec _ _ _ _ _ _ (cluster y) a) as [c|] eqn:Ec; [|by destruct a].
    assert (y' = {| cluster := c; stations := stations y |}) as -> by (destruct a; cbn in E; congruence). apply sy_control. by eapply exec_control.
  - destruct (stages w !! tr_req_id tr) as [[tr'| |]|] eqn:Et; try done. case_decide as Hd; [|done].
    destruct (admit_station _ _ _ _ _ _ _ _) as [[w' s']|] eqn:E; [|done]. intros [= <-]. eapply sy_admit; [done|done| |exact E]. by rewrite Hd.
  - intros [= <-]. by eapply sy_choose.
  - destruct (take_turn _ _ _ _ _ _ _ _ _ _) as [[w' s']|] eqn:E; [|done]. intros [= <-]. by eapply sy_turn.
  - case_decide as Hd; [|done]. destruct (arrive _ _ _ _ _) as [s'|] eqn:E; [|done]. intros [= <-].
    eapply sy_arrive; [done|done|by apply copies_deliverable; apply Hd|exact E].
Qed.

Lemma sys_exec_reachable l y y' : sys_reachable y -> sys_exec_all l y = Some y' -> sys_reachable y'.
Proof.
  unfold sys_exec_all. intros Hy. revert y'. induction l as [|a l IH] using rev_ind; intros y'; [by intros [= <-]|].
  rewrite foldl_snoc. intros E. destruct (foldl _ (Some y) l) as [y1|] eqn:E1; [|done]. cbn [mbind option_bind] in E.
  eapply sys_next; [by apply IH|]. by eapply sys_exec_step.
Qed.
End System.

(** *** A request of one token through two layers with two experts each *)

Definition demo_system : System (T := Z) (P := DPSchedulerCapRR) := {| cluster := demo_start; stations := [fresh_station 2 2 4 4] |}.

Definition demo_exec := sys_exec_all (P := DPSchedulerCapRR) Z.add insertion_sort 0 2 1 4 2 demo_prompt 16 8 100.

Definition demo_admission (id p o : Z) : list (sys_action (T := Z)) :=
  [SControl (Put (demo_item id p o)); SControl Loop; SAdmit (demo_request id p o)].

(** Two requests enter, run the first layer and gather at the second; the copies come
    back in two batches that mix them. *)
Definition demo_first_layer : list (sys_action (T := Z)) :=
  demo_admission 5 80 32 ++ demo_admission 6 96 16 ++ [SChoose; STurn (fun s => s); SArrive 1 [(5, 80)] 3; SArrive 1 [(5, 80); (6, 96)] 4].

(** One request runs to its end. *)
Definition demo_whole_run : list (sys_action (T := Z)) :=
  demo_admission 5 99 1 ++ [SChoose; STurn (fun s => s); SArrive 1 [(5, 99); (5, 99)] 3; SChoose; STurn (fun s => s);
                            SArrive 2 [(5, 99); (5, 99)] 4; SChoose; STurn (fun s => s)].

Lemma demo_configured : configured (T := Z) insertion_sort 2 1 2 4 4 8 100.
Proof. split; try done. apply insertion_sort_spec. Qed.

Lemma demo_system_reachable l y :
  demo_exec l demo_system = Some y ->
  sys_reachable (P := DPSchedulerCapRR) Z.add insertion_sort 0 2 1 4 2 demo_prompt 16 4 4 8 100 [15] [16] y.
Proof.
  intros E. eapply sys_exec_reachable; [|exact E]. apply (sys_start _ _ _ _ _ _ _ _ _ _ _ _ _ _ _ demo_start). apply demo_starts.
Qed.

Definition demo_after (l : list (sys_action (T := Z))) : System (T := Z) (P := DPSchedulerCapRR) := default demo_system (demo_exec l demo_system).

Definition demo_worker_of (y : System (T := Z) (P := DPSchedulerCapRR)) : Worker Z := default demo_worker (head (workers (cluster y))).

Definition demo_station_of (y : System (T := Z) (P := DPSchedulerCapRR)) : Station Z := default (fresh_station 2 2 4 4) (head (stations y)).

Lemma demo_after_reachable l :
  bool_decide (is_Some (demo_exec l demo_system)) = true ->
  sys_reachable (P := DPSchedulerCapRR) Z.add insertion_sort 0 2 1 4 2 demo_prompt 16 4 4 8 100 [15] [16] (demo_after l).
Proof.
  intros E%bool_decide_eq_true. unfold demo_after. destruct (demo_exec l demo_system) as [y|] eqn:Ey; [|by destruct E]. by apply demo_system_reachable with l.
Qed.

(** Request 5 has both its copies at layer 1, request 6 one of two: the pool picks layer
    1 and the engine runs it with request 5 alone. *)
Lemma pool_keeps_contract_witness :
  let y := demo_after (demo_first_layer ++ [SChoose]) in
  chosen (demo_station_of y) = Some 1 /\
  exists w' s', take_turn Z.add insertion_sort 2 1 4 2 0 (fun s => s) (demo_worker_of y) (demo_station_of y) = Ok (w', s').
Proof.
  intros y. split; [vm_compute; reflexivity|].
  destruct (pool_keeps_contract Z.add insertion_sort 0 2 1 4 2 demo_prompt 16 4 4 8 100 [15] [16] demo_configured y) as [_ Hy].
  - apply demo_after_reachable. vm_compute. reflexivity.
  - destruct (Hy 0%nat (demo_worker_of y) (demo_station_of y)) as (_ & Ht & _); [vm_compute; reflexivity..|].
    destruct (Ht (fun s => s)) as (w' & s' & E & _). by exists w', s'.
Defined.

Lemma idle_rank_drained_witness :
  let y := demo_after demo_whole_run in
  stages (demo_worker_of y) !! 5 = Some Ended /\ forall id L pl, stages (demo_worker_of y) !! id <> Some (Queued L pl).
Proof.
  intros y. split; [vm_compute; reflexivity|].
  apply (idle_rank_drained Z.add insertion_sort 0 2 1 4 2 demo_prompt 16 4 4 8 100 [15] [16] demo_configured y 0 (demo_worker_of y) (demo_station_of y));
    [apply demo_after_reachable; vm_compute; reflexivity|vm_compute; reflexivity..].
Defined.
End PoolRank.
