(* ===== verification/Progress.v ===== *)
(** * Progress of a rank

    A measure of the work a rank still has with its requests: a request takes one turn of
    the engine per attention layer, the pseudo-layer included, for each token it has still to
    produce, as the sampler counts them ([Engine.preprocess_batch_attn],
    [DummySampler.sample_once]).  Admitting a request and every batch of the attention
    layers take at least [row_cost] of it per request; [ClosedLoop] pays the
    transport of the expert copies with that. *)

From stdpp Require Import strings.
From S2P Require Import Prelude PyFloat Datatypes DPScheduler MemPool BlockManager Sampler Engine Capacity.
Import Datatypes DP BlockManager Sampler Engine Capacity.

Module Progress.

(** ** Sums over a map *)

Section Sums.
Context {A : Type}.
Implicit Types (m : gmap Z A) (g : Z -> A -> Z).

Definition map_sum (g : Z -> A -> Z) (m : gmap Z A) : Z := sumZ ((fun x => g x.1 x.2) <$> map_to_list m).

Lemma map_sum_keys g m : map_sum g m = sumZ ((fun id => default 0 (g id <$> m !! id)) <$> elements (dom m)).
Proof.
  assert (Hk : elements (dom m) ≡ₚ (map_to_list m).*1).
  { apply NoDup_Permutation; [apply NoDup_elements|apply NoDup_fst_map_to_list|]. intros id. rewrite elem_of_elements, elem_of_dom, list_elem_of_fmap. split.
    - intros [x Hx]. exists (id, x). split; [done|by apply elem_of_map_to_list].
    - intros ([id' x] & -> & Hx%elem_of_map_to_list). by exists x. }
  rewrite Hk. unfold map_sum. f_equal. rewrite <-list_fmap_compose. apply list_fmap_ext. intros i [id x] Hi. cbn.
  apply list_elem_of_lookup_2, elem_of_map_to_list in Hi. by rewrite Hi.
Qed.

Lemma sum_drop (h h' : Z -> Z) (c : Z) (ids l : list Z) :
  Forall (fun id => h' id + (if decide (id ∈ ids) then c else 0) <= h id) l ->
  sumZ (h' <$> l) + c * zlen (filter (fun id => id ∈ ids) l) <= sumZ (h <$> l).
Proof.
  induction 1 as [|id l Hid _ IH]; [unfold zlen; cbn; lia|]. rewrite filter_cons. cbn [fmap list_fmap sumZ foldr]. fold (sumZ (h' <$> l)) (sumZ (h <$> l)).
  case_decide; [rewrite zlen_cons|]; lia.
Qed.

(** The keys [ids] take [c] each from the sum, the others add nothing to it. *)
Lemma map_sum_drop g g' m m' (c : Z) (ids : list Z) :
  NoDup ids -> dom m' = dom m -> (forall id, id ∈ ids -> is_Some (m !! id)) ->
  (forall id x x', m !! id = Some x -> m' !! id = Some x' -> g' id x' + (if decide (id ∈ ids) then c else 0) <= g id x) ->
  map_sum g' m' + c * zlen ids <= map_sum g m.
Proof.
  intros Hnd Hdom Hids Hle. rewrite !map_sum_keys, Hdom.
  assert (Hf : filter (fun id => id ∈ ids) (elements (dom m)) ≡ₚ ids).
  { apply NoDup_Permutation; [apply NoDup_filter, NoDup_elements|done|]. intros id. rewrite list_elem_of_filter, elem_of_elements, elem_of_dom. naive_solver. }
  assert (Hz : zlen ids = zlen (filter (fun id => id ∈ ids) (elements (dom m)))) by (unfold zlen; by rewrite Hf).
  rewrite Hz. apply sum_drop, Forall_forall. intros id Hid%elem_of_elements.
  pose proof Hid as [x Hx]%elem_of_dom. rewrite <-Hdom in Hid. apply elem_of_dom in Hid as [x' Hx']. rewrite Hx, Hx'. cbn. by apply Hle.
Qed.

Lemma map_sum_nonneg g m : (forall id x, m !! id = Some x -> 0 <= g id x) -> 0 <= map_sum g m.
Proof.
  intros Hg. apply sumZ_nonneg, Forall_fmap, Forall_forall. intros [id x] Hx%elem_of_map_to_list. by apply Hg.
Qed.
End Sums.

(** ** The measure *)

Section Rank.
Context {T : Type} (top_k num_layers : Z).

(** The tokens request [id] has still to produce. *)
Definition tokens_left (s : DummySampler) (id : Z) : Z := default 0 (dget (req_max_output_len s) id) - default 0 (dget (output_len s) id).

(** More than the [top_k] copies of a row cost until they are back. *)
Definition row_cost : Z := 4 * top_k + 2.

Definition stage_work (s : DummySampler) (id : Z) (st : stage) : Z :=
  match st with
  | Sent tr => row_cost * (tr_max_output_len tr * (num_layers + 1) + 1)
  | Queued L _ => row_cost * (tokens_left s id * (num_layers + 1) - L)
  | Ended => 0
  end.

Definition rank_work (w : Worker T) : Z := map_sum (stage_work (dummy_sampler (eng w))) (stages w).

Context (add : T -> T -> T) (rank hidden_size bs nb N max_bs max_pages : Z) (R : gmap Z (Z * Z)).

Notation worker_ok := (worker_inv num_layers bs nb N max_bs max_pages R).
Notation pool_batch := (pool_batch num_layers max_bs).

Hypothesis Htop : 1 < top_k.
Hypothesis Hlayers : 0 < num_layers.

Lemma row_cost_pos : 0 < row_cost.
Proof. unfold row_cost. lia. Qed.

Lemma counts_left s id k o : counts s id k o -> tokens_left s id = o - k.
Proof. intros [H1 H2]. unfold tokens_left. by rewrite H1, H2. Qed.

(** A request that keeps its stage and its count keeps its work. *)
Lemma stage_work_same (w : Worker T) s' id st :
  worker_ok w -> stages w !! id = Some st -> (forall k o, counts (dummy_sampler (eng w)) id k o -> counts s' id k o) ->
  stage_work s' id st = stage_work (dummy_sampler (eng w)) id st.
Proof.
  intros Hw Hst Hc. destruct st as [tr|L pl|]; [done| |done]. cbn [stage_work].
  destruct (wi_stage _ _ _ _ _ _ _ _ Hw id _ Hst) as (p & o & _ & _ & _ & _ & _ & k & _ & Hk & _).
  by rewrite (counts_left _ _ _ _ Hk), (counts_left _ _ _ _ (Hc k o Hk)).
Qed.

Lemma rank_work_nonneg (w : Worker T) : worker_ok w -> 0 <= rank_work w.
Proof.
  intros Hw. pose proof row_cost_pos. apply map_sum_nonneg. intros id st Hst. destruct (wi_stage _ _ _ _ _ _ _ _ Hw id st Hst) as (p & o & _ & _ & Ho & _ & Hx).
  destruct st as [tr|L pl|]; cbn [stage_work]; [| |done].
  - destruct Hx as (_ & _ & ->). nia.
  - destruct Hx as (HL & k & Hk & Hc & _). rewrite (counts_left _ _ _ _ Hc). nia.
Qed.

(** The requests that wait have work left, each its own. *)
Lemma queued_work (w : Worker T) (ids : list Z) :
  worker_ok w -> NoDup ids -> (forall id, id ∈ ids -> exists L pl, stages w !! id = Some (Queued L pl)) -> zlen ids <= rank_work w.
Proof.
  intros Hw Hnd Hids. pose proof row_cost_pos as Hc. enough (map_sum (fun _ _ => 0) (stages w) + 1 * zlen ids <= rank_work w).
  { pose proof (map_sum_nonneg (fun _ _ => 0) (stages w)) as Hz. cbn in Hz. specialize (Hz ltac:(done)). lia. }
  apply map_sum_drop; [done|done|intros id Hid; destruct (Hids id Hid) as (L & pl & ->); by eexists|].
  intros id st st' H1 _. destruct (wi_stage _ _ _ _ _ _ _ _ Hw id st H1) as (p & o & _ & _ & Ho & _ & Hx). case_decide as Hid.
  - destruct (Hids id Hid) as (L & pl & E). rewrite E in H1. injection H1 as <-. cbn [stage_work].
    destruct Hx as (HL & k & Hk & Hcnt & _). rewrite (counts_left _ _ _ _ Hcnt). nia.
  - destruct st as [tr|L pl|]; cbn [stage_work]; [| |done].
    + destruct Hx as (_ & _ & ->). nia.
    + destruct Hx as (HL & k & Hk & Hcnt & _). rewrite (counts_left _ _ _ _ Hcnt). nia.
Qed.

Lemma admit_work rand tr (w w' : Worker T) :
  worker_ok w -> stages w !! tr_req_id tr = Some (Sent tr) -> admit_request rank hidden_size rand tr w = Ok w' -> rank_work w' < rank_work w.
Proof.
  intros Hw Hst E. pose proof row_cost_pos as Hc.
  destruct (admit_total rank hidden_size num_layers bs nb N max_bs max_pages rand R w tr Hw Hst Hlayers) as (w2 & E2 & _ & Hs & [Hin Hout] & _).
  rewrite E2 in E. injection E as ->. unfold rank_work. rewrite Hs.
  enough (map_sum (stage_work (dummy_sampler (eng w'))) (<[tr_req_id tr:=Queued 0 (tr_init_prefill_len tr)]> (stages w)) + row_cost * zlen [tr_req_id tr]
    <= map_sum (stage_work (dummy_sampler (eng w))) (stages w)) by (change (zlen [tr_req_id tr]) with 1 in *; lia).
  apply map_sum_drop; [apply NoDup_singleton|rewrite dom_insert_L; apply elem_of_dom_2 in Hst; set_solver|by intros id ->%list_elem_of_singleton|].
  intros id st st' H1 H2. destruct (decide (id = tr_req_id tr)) as [->|Hne].
  - rewrite lookup_insert_eq in H2. injection H2 as <-. rewrite Hst in H1. injection H1 as <-. rewrite decide_True by left. cbn [stage_work].
    rewrite (counts_left _ _ _ _ Hin). lia.
  - rewrite lookup_insert_ne in H2 by done. assert (st' = st) as -> by congruence. rewrite decide_False by (by rewrite list_elem_of_singleton).
    rewrite (stage_work_same w _ id st Hw H1); [lia|]. intros k o. by apply Hout.
Qed.

(** What a batch leaves of its rows. *)
Lemma enqueue_row L m s id :
  NoDup (req_ids m) -> length (init_prefill_lens m) = length (req_ids m) -> id ∈ req_ids m -> exists pl, enqueue L m s !! id = Some (Queued L pl).
Proof.
  intros Hnd Hl [k Hk]%list_elem_of_lookup. destruct (lookup_lt_is_Some_2 (init_prefill_lens m) k) as [pl Hp]; [rewrite Hl; by eapply lookup_lt_Some|].
  exists pl. by eapply enqueue_in.
Qed.

(** A batch takes a turn from each of its rows and leaves the other requests alone. *)
Lemma batch_drop (w w' : Worker T) (tb : TokenBatch T) :
  worker_ok w -> pool_batch w tb ->
  (forall id pl k o, id ∈ req_ids (tb_meta tb) -> stages w !! id = Some (Queued (layer_id (tb_meta tb)) pl) -> k < o -> counts (dummy_sampler (eng w)) id k o ->
     exists st, stages w' !! id = Some st /\
       stage_work (dummy_sampler (eng w')) id st + row_cost <= row_cost * ((o - k) * (num_layers + 1) - layer_id (tb_meta tb))) ->
  (forall id, id ∉ req_ids (tb_meta tb) -> stages w' !! id = stages w !! id /\
     forall k o, counts (dummy_sampler (eng w)) id k o -> counts (dummy_sampler (eng w')) id k o) ->
  rank_work w' + row_cost * zlen (req_ids (tb_meta tb)) <= rank_work w.
Proof.
  intros Hw Hpb Hin Hout.
  assert (Hrow : forall id, id ∈ req_ids (tb_meta tb) -> exists pl st k o, stages w !! id = Some (Queued (layer_id (tb_meta tb)) pl) /\
    counts (dummy_sampler (eng w)) id k o /\ stages w' !! id = Some st /\
    stage_work (dummy_sampler (eng w')) id st + row_cost <= row_cost * ((o - k) * (num_layers + 1) - layer_id (tb_meta tb))).
  { intros id Hid. pose proof Hid as [j Hj]%list_elem_of_lookup.
    destruct (batch_row num_layers bs nb N max_bs max_pages R w tb j id Hw Hpb Hj) as (pl & p & o & k & _ & Hs & _ & _ & _ & _ & Hk & Hcnt & _).
    destruct (Hin id pl k o Hid Hs ltac:(lia) Hcnt) as (st & H1 & H2). by exists pl, st, k, o. }
  apply map_sum_drop; [apply Hpb| |intros id Hid; destruct (Hrow id Hid) as (pl & _ & _ & _ & -> & _); by eexists|].
  - apply set_eq. intros id. rewrite !elem_of_dom. destruct (decide (id ∈ req_ids (tb_meta tb))) as [Hid|Hid]; [|by rewrite (proj1 (Hout id Hid))].
    destruct (Hrow id Hid) as (pl & st & k & o & -> & _ & -> & _). by split; eexists.
  - intros id st st' H1 H2. case_decide as Hid.
    + destruct (Hrow id Hid) as (pl & st2 & k & o & E1 & Hc & E2 & Hle). rewrite E1 in H1. rewrite E2 in H2. injection H1 as <-. injection H2 as <-.
      cbn [stage_work]. by rewrite (counts_left _ _ _ _ Hc).
    + destruct (Hout id Hid) as [E Hc]. rewrite E in H2. assert (st' = st) as -> by congruence. rewrite (stage_work_same w _ id st Hw H1 Hc). lia.
Qed.

Lemma batch_work stash (tb : TokenBatch T) (w w' : Worker T) :
  0 <= max_pages -> worker_ok w -> pool_batch w tb -> run_batch add rank hidden_size num_layers stash tb w = Ok w' ->
  rank_work w' + row_cost * zlen (req_ids (tb_meta tb)) <= rank_work w.
Proof.
  intros Hmp Hw Hpb E. pose proof row_cost_pos as Hc.
  destruct (batch_total add rank hidden_size num_layers bs nb N max_bs max_pages R stash w tb Hlayers Hmp Hw Hpb) as (w2 & E2 & _ & Ho).
  rewrite E2 in E. injection E as ->. pose proof (pb_nodup _ _ _ _ Hpb) as Hnd. apply (batch_drop w w' tb Hw Hpb); unfold outcome in Ho.
  - intros id pl k o Hid Hs Hk Hcnt. destruct (Z.eqb_spec (layer_id (tb_meta tb)) num_layers) as [HL|HL].
    + destruct Ho as (put & fin & h & _ & Hfl & Hids & Hpl & _ & _ & _ & _ & -> & Hcount). rewrite HL.
      destruct (decide (id ∈ req_ids (tb_meta put))) as [Hp|Hp].
      * destruct (enqueue_row 0 (tb_meta put) (end_all (req_ids (tb_meta tb)) (stages w)) id) as [pl' ->]; [rewrite Hids; by apply select_NoDup|by rewrite Hpl, length_replicate|done|].
        eexists. split; [done|]. cbn [stage_work]. rewrite Hids in Hp. destruct (Hcount id k o Hcnt) as [Hgo _]. rewrite (counts_left _ _ _ _ (Hgo Hp)). lia.
      * rewrite enqueue_out, end_all_lookup, decide_True by done. eexists. split; [done|]. cbn [stage_work]. nia.
    + destruct Ho as [-> Hsam]. destruct (enqueue_row (layer_id (tb_meta tb) + 1) (tb_meta tb) (stages w) id Hnd) as [pl' ->]; [|done|].
      { by apply (prefill_length num_layers max_bs w tb). }
      eexists. split; [done|]. cbn [stage_work]. rewrite Hsam, (counts_left _ _ _ _ Hcnt). lia.
  - intros id Hid. destruct (Z.eqb_spec (layer_id (tb_meta tb)) num_layers) as [HL|HL].
    + destruct Ho as (put & fin & h & _ & Hfl & Hids & _ & _ & _ & _ & _ & -> & Hcount). split; [|intros k o Hk; by apply (Hcount id k o Hk)].
      rewrite enqueue_out, end_all_lookup, decide_False; [done|done|]. rewrite Hids. intros (j & Hj & _)%elem_of_select; [|done]. by apply Hid, (list_elem_of_lookup_2 _ j).
    + destruct Ho as [-> ->]. split; [by apply enqueue_out|done].
Qed.
End Rank.
End Progress.
