(* ===== verification/ClosedLoop.v ===== *)
(** * The closed loop: ranks, dispatchers and channels

    [PoolRank] leaves the experts of other ranks to an environment.  This file closes the
    system: every rank has its worker and pool, the queue of its dispatcher
    ([MuDispatcher.put] and [run], [csrc/muhelper/muhelper.cpp]) and the tables of
    [Dispatch]; what is sent is on a wire until the receiving thread of the peer takes
    it.  The steps are those of the threads: the controller, the admission, the choice of
    a layer, a turn of the engine loop ([Engine.single_module_loop]: an attention batch
    goes through [preprocess_batch_attn], the model, [postprocess_batch_attn], an expert
    batch through [execute_batch_expert], and the result is put to the dispatcher), a
    send and a receive.  The copies that are away from a rank are counted in the queues,
    on the wires and in the expert layers of all ranks, and every step keeps the
    contract of [PoolRank].  The work of [Progress] pays for them, so that every run of
    the ranks is bounded and completes the requests. *)

From stdpp Require Import strings.
From S2P Require Import Prelude PyFloat Utils Config Datatypes DPScheduler Placement MemPool BlockManager Sampler Engine Controller Capacity Pool LayerSched Dispatch PoolRank Progress.
Import Placement Controller Utils Datatypes DP BlockManager Sampler Engine Capacity Pool LayerSched Dispatch PoolRank Progress.

Module ClosedLoop.

Section Net.
Context {T P St : Type} `{HCP : CapacityPolicy P} `{!LayerScheduler (T := T) St}.
Context (add : T -> T -> T) (token_sort : (TokenTopKInfo T -> TokenTopKInfo T -> bool) -> list (TokenTopKInfo T) -> list (TokenTopKInfo T)).
Context (row_sort : (Z -> Z -> bool) -> list Z -> list Z).
Context (rand empty : T) (scale : float -> T -> T) (use_gdr : bool).
Context (top_k num_groups hidden_size num_layers num_experts : Z) (prompt : Z -> list Z).
Context (bs max_bs max_bs_expert max_pages min_tokens : Z) (cap nbs : list Z).
(** A new layer scheduler, the tables of each rank and the devices its channels lead to. *)
Context (sched0 : St) (dispatcher : nat -> UnifiedDispatcher) (peers : nat -> list Z).

Record Node : Type := { node_pool : UnifiedPool T; node_pick : option Z; send_queue : list (Tagged T); node_sched : St }.

(** A wire is the device a batch is on its way to. *)
Record Net : Type := { net_cluster : Cluster (T := T) (P := P); nodes : list Node; wires : list (Z * Tagged T) }.

Definition node_admit (rank : Z) (tr : TokenizedRequest) (w : Worker T) (nd : Node) : res (Worker T * Node) :=
  w ← admit_request rank hidden_size rand tr w;
  b ← of_option RuntimeError (last (pool_puts (eng w)));
  p ← put_batch top_k num_groups b (node_pool nd);
  Ok (w, {| node_pool := p; node_pick := node_pick nd; send_queue := send_queue nd; node_sched := node_sched nd |}).

Definition node_choose (nd : Node) : res Node :=
  '(i, sc) ← pick (node_pool nd) (node_sched nd);
  Ok {| node_pool := node_pool nd; node_pick := Some i; send_queue := send_queue nd; node_sched := sc |}.

(** One turn of the engine loop on the picked layer; [forward] and [run] are the model. *)
Definition node_turn (rank : Z) (stash : Z -> T) (forward : AttentionForwardBatch T -> AttentionForwardResult T)
    (run : BatchMetadata -> list T -> list T) (w : Worker T) (nd : Node) : res (Worker T * Node) :=
  let done p q := {| node_pool := p; node_pick := None; send_queue := q; node_sched := node_sched nd |} in
  match node_pick nd with
  | None => Ok (w, nd)
  | Some i =>
      '(ob, p) ← get_batch_from_layer add token_sort top_k hidden_size i (node_pool nd);
      match ob with
      | None => Ok (w, done p (send_queue nd))
      | Some tb =>
          if is_attn_layer i p then
            '(fb, w) ← run_attn add rank hidden_size num_layers stash tb w;
            match fb with
            | None =>
                b ← of_option RuntimeError (last (pool_puts (eng w)));
                p ← put_batch top_k num_groups b p;
                Ok (w, done p (send_queue nd))
            | Some fb =>
                b ← postprocess_batch_attn rank top_k empty fb (forward fb);
                Ok (w, done p (send_queue nd ++ [{| batch_tag := ATTENTION; tagged := b |}]))
            end
          else
            b ← execute_batch_expert row_sort use_gdr run scale empty tb;
            Ok (w, done p (send_queue nd ++ [{| batch_tag := EXPERT; tagged := b |}]))
      end
  end.

(** The dispatcher's thread takes a batch from its queue and sends it. *)
Definition node_send (r : nat) (nd : Node) : res (list (Z * Tagged T) * Node) :=
  match send_queue nd with
  | [] => Ok ([], nd)
  | b :: q =>
      sends ← _send_once b (dispatcher r);
      out ← py_map (fun '(c, b) => dst ← vec_at (peers r) c; Ok (dst, b)) sends;
      Ok (out, {| node_pool := node_pool nd; node_pick := node_pick nd; send_queue := q; node_sched := node_sched nd |})
  end.

(** The receiving thread files a batch. *)
Definition node_recv (b : Tagged T) (nd : Node) : res Node :=
  p ← process_batch top_k num_groups b (node_pool nd);
  Ok {| node_pool := p; node_pick := node_pick nd; send_queue := send_queue nd; node_sched := node_sched nd |}.

(** What the model gives back: a row and [top_k] experts with weights for every token. *)
Definition forward_ok (forward : AttentionForwardBatch T -> AttentionForwardResult T) : Prop :=
  forall fb, let n := length (req_ids (fb_meta_c fb)) in
    length (fr_hiddens (forward fb)) = n /\ length (concat (fr_expert_ids (forward fb))) = (n * Z.to_nat top_k)%nat /\
    length (concat (fr_expert_weights (forward fb))) = (n * Z.to_nat top_k)%nat /\
    Forall (fun e => 0 <= e < num_experts) (concat (fr_expert_ids (forward fb))).

Definition run_ok (run : BatchMetadata -> list T -> list T) : Prop := forall m data, length (run m data) = length data.

Definition set_node (r : nat) (w : Worker T) (nd : Node) (ws : list (Z * Tagged T)) (y : Net) : Net :=
  {| net_cluster := {| csys := csys (net_cluster y); workers := <[r := w]> (workers (net_cluster y)) |};
     nodes := <[r := nd]> (nodes y); wires := ws |}.

(** The engine loop has a layer to run. *)
Definition has_pick (nd : Node) : bool := match node_pick nd with Some i => negb (i =? -1) | None => false end.

Definition has_queue (nd : Node) : bool := match send_queue nd with [] => false | _ => true end.

(** A step of a thread of a rank; the flag tells whether it does any work. *)
Inductive rank_step : bool -> Net -> Net -> Prop :=
  | rs_admit y r w nd tr w' nd' :
      workers (net_cluster y) !! r = Some w -> nodes y !! r = Some nd -> stages w !! tr_req_id tr = Some (Sent tr) ->
      node_admit (Z.of_nat r) tr w nd = Ok (w', nd') -> rank_step true y (set_node r w' nd' (wires y) y)
  | rs_choose y r w nd nd' :
      workers (net_cluster y) !! r = Some w -> nodes y !! r = Some nd -> node_choose nd = Ok nd' -> rank_step false y (set_node r w nd' (wires y) y)
  | rs_turn y r w nd stash forward run w' nd' :
      workers (net_cluster y) !! r = Some w -> nodes y !! r = Some nd -> forward_ok forward -> run_ok run ->
      node_turn (Z.of_nat r) stash forward run w nd = Ok (w', nd') -> rank_step (has_pick nd) y (set_node r w' nd' (wires y) y)
  | rs_send y r w nd out nd' :
      workers (net_cluster y) !! r = Some w -> nodes y !! r = Some nd ->
      node_send r nd = Ok (out, nd') -> rank_step (has_queue nd) y (set_node r w nd' (wires y ++ out) y)
  | rs_recv y r w nd b pre post nd' :
      workers (net_cluster y) !! r = Some w -> nodes y !! r = Some nd -> wires y = pre ++ (Z.of_nat r, b) :: post ->
      node_recv b nd = Ok nd' -> rank_step true y (set_node r w nd' (pre ++ post) y).

Inductive net_step : Net -> Net -> Prop :=
  | nt_control y c :
      control_step prompt bs max_pages min_tokens (net_cluster y) c -> net_step y {| net_cluster := c; nodes := nodes y; wires := wires y |}
  | nt_rank b y y' : rank_step b y y' -> net_step y y'.

Definition fresh_node : Node := {| node_pool := new_pool top_k num_layers max_bs max_bs_expert; node_pick := None; send_queue := []; node_sched := sched0 |}.

Inductive net_reachable : Net -> Prop :=
  | net_start c : cluster_start bs max_bs max_pages cap nbs c ->
      net_reachable {| net_cluster := c; nodes := replicate (length (workers c)) fresh_node; wires := [] |}
  | net_next y y' : net_reachable y -> net_step y y' -> net_reachable y'.

(** ** What the loop needs of its parameters *)

(** The device of each expert. *)
Context (host : Z -> Z) `{!LayerSchedulerLaws top_k (Z.to_nat num_layers) St}.

Notation R := (length nbs).

(** The tables lead to the hosts of the experts and, from the hosts, to all ranks. *)
Record wired : Prop := {
  wd_experts : num_experts <= max_num_experts;
  wd_sort : forall less l, row_sort less l ≡ₚ l;
  wd_expert : forall r e, (r < R)%nat -> 0 <= e < num_experts ->
    exists c, _expert_get_channel_id e (dispatcher r) = Ok c /\ vec_at (peers r) c = Ok (host e) /\ 0 <= host e < Z.of_nat R;
  wd_rank : forall r e k, (r < R)%nat -> 0 <= e < num_experts -> host e = Z.of_nat r -> 0 <= k < Z.of_nat R ->
    exists c, _attn_get_channel_id k (dispatcher r) = Ok c /\ vec_at (peers r) c = Ok k;
}.

(** ** Copies that are away

    A copy is a rank with a label and the layer the copy comes back to. *)

Definition row_rank (r : Row (T := T)) : Z := let '(_, _, _, _, k, _) := r in default (-1) k.

Definition copy_of (L : Z) (r : Row (T := T)) : Z * (Z * (Z * Z)) := (row_rank r, (L, row_label r)).

Definition away_of (b : Tagged T) : list (Z * (Z * (Z * Z))) :=
  copy_of (if decide (batch_tag b = ATTENTION) then layer_id (tb_meta (tagged b)) + 1 else layer_id (tb_meta (tagged b))) <$> rows (tagged b).

Definition layer_away (i : nat) (l : UnifiedLayer T) : list (Z * (Z * (Z * Z))) := copy_of (Z.of_nat i + 1) <$> qrows (batch_queue l).

Definition layers_away (ls : list (UnifiedLayer T)) : list (Z * (Z * (Z * Z))) := concat (imap layer_away ls).

Definition node_away (nd : Node) : list (Z * (Z * (Z * Z))) := (send_queue nd ≫= away_of) ++ layers_away (expert_layers (node_pool nd)).

Definition all_away (y : Net) : list (Z * (Z * (Z * Z))) := (nodes y ≫= node_away) ++ (wires y ≫= fun x => away_of x.2).

(** Those of rank [r]. *)
Definition mine (r : nat) (l : list (Z * (Z * (Z * Z)))) : list (Z * (Z * Z)) := (filter (fun x => x.1 = Z.of_nat r) l).*2.

Definition station_of (nd : Node) (f : list (Z * (Z * Z))) : Station T := {| pool := node_pool nd; flight := f; chosen := node_pick nd |}.

(** A row for the experts of rank [d]. *)
Definition row_ok (r : Row (T := T)) : Prop := 0 <= row_expert r < num_experts /\ 0 <= row_rank r < Z.of_nat R.

Definition row_here (d : nat) (r : Row (T := T)) : Prop := row_ok r /\ host (row_expert r) = Z.of_nat d.

Definition as_expert (b : Tagged T) : Tagged T := {| batch_tag := EXPERT; tagged := tagged b |}.

(** Rows for experts, from an attention layer. *)
Definition to_experts (b : Tagged T) : Prop :=
  batch_tag b = ATTENTION /\ (exists i : nat, Z.of_nat i < num_layers /\ expert_item (Z.of_nat i) (as_expert b)).

(** Copies on their way back. *)
Record to_ranks (b : Tagged T) : Prop := {
  tr_tag : batch_tag b = EXPERT;
  tr_layer : 0 < layer_id (tb_meta (tagged b)) <= num_layers;
  tr_rows : rows_ok (length (tb_data (tagged b))) (tagged b);
  tr_ranks : length (attn_dp_ranks (tb_meta (tagged b))) = length (tb_data (tagged b));
  tr_lens : length (init_prefill_lens (tb_meta (tagged b))) = length (tb_data (tagged b));
}.

Definition outgoing (r : nat) (b : Tagged T) : Prop :=
  to_experts b /\ Forall row_ok (rows (tagged b)) \/
  to_ranks b /\ Forall (fun x => 0 <= row_rank x < Z.of_nat R) (rows (tagged b)) /\ exists e, 0 <= e < num_experts /\ host e = Z.of_nat r.

Definition arriving (x : Z * Tagged T) : Prop :=
  exists d, x.1 = Z.of_nat d /\ (d < R)%nat /\
    (to_experts x.2 /\ Forall (row_here d) (rows (tagged x.2)) \/
     to_ranks x.2 /\ Forall (fun r => row_rank r = Z.of_nat d) (rows (tagged x.2))).

(** The rows in the expert layers of a rank are for its experts. *)
Definition layers_here (d : nat) (ls : list (UnifiedLayer T)) : Prop :=
  forall i l, ls !! i = Some l -> Forall (row_here d) (qrows (batch_queue l)).

Record net_inv (y : Net) : Prop := {
  nv_reach : Capacity.reachable add rand hidden_size num_layers prompt bs max_bs max_pages min_tokens cap nbs (net_cluster y);
  nv_count : length (nodes y) = length (workers (net_cluster y));
  nv_station : forall r w nd, workers (net_cluster y) !! r = Some w -> nodes y !! r = Some nd ->
    station_inv top_k num_layers max_bs (stages w) (station_of nd (mine r (all_away y)));
  nv_queue : forall r nd, nodes y !! r = Some nd -> Forall (outgoing r) (send_queue nd);
  nv_layers : forall r nd, nodes y !! r = Some nd -> layers_here r (expert_layers (node_pool nd));
  nv_wires : Forall arriving (wires y);
  nv_sched : forall r nd, nodes y !! r = Some nd -> sched_ok (node_sched nd);
}.

(** ** Counting what is away *)

Lemma bind_update {A B} (f : A -> list B) (l : list A) i x x' :
  l !! i = Some x -> (<[i := x']> l ≫= f) ++ f x ≡ₚ (l ≫= f) ++ f x'.
Proof.
  intros Hi. rewrite <-(take_drop_middle l i x Hi) at 2. rewrite insert_take_drop by (by eapply lookup_lt_Some).
  rewrite !bind_app, !bind_cons. solve_Permutation.
Qed.

Lemma imap_update {A B} (f : nat -> A -> list B) (l : list A) i x x' :
  l !! i = Some x -> concat (imap f (<[i := x']> l)) ++ f i x ≡ₚ concat (imap f l) ++ f i x'.
Proof.
  intros Hi. pose proof (lookup_lt_Some _ _ _ Hi). rewrite <-(take_drop_middle l i x Hi) at 2. rewrite insert_take_drop by done.
  rewrite !imap_app, !concat_app, !imap_cons, length_take, Nat.min_l, Nat.add_0_r by lia. cbn [concat]. solve_Permutation.
Qed.

#[local] Instance mine_perm r : Proper ((≡ₚ) ==> (≡ₚ)) (mine r).
Proof. intros l k Hlk. unfold mine. by rewrite Hlk. Qed.

Lemma mine_app r l k : mine r (l ++ k) = mine r l ++ mine r k.
Proof. unfold mine. by rewrite filter_app, fmap_app. Qed.

Lemma mine_all r (l : list (Z * (Z * Z))) : mine r (pair (Z.of_nat r) <$> l) = l.
Proof. unfold mine. induction l as [|x l IH]; [done|]. cbn [fmap list_fmap]. rewrite filter_cons, decide_True by done. cbn. by f_equal. Qed.

Lemma mine_other r r' (l : list (Z * (Z * Z))) : r <> r' -> mine r (pair (Z.of_nat r') <$> l) = [].
Proof. intros Hne. unfold mine. induction l as [|x l IH]; [done|]. cbn [fmap list_fmap]. rewrite filter_cons, decide_False; [done|]. cbn. lia. Qed.

(** ** Sending *)

Lemma away_bind t L (ps : list (Tagged T)) :
  Forall (sendable t L) ps -> ps ≫= away_of = copy_of (if decide (t = ATTENTION) then L + 1 else L) <$> (ps ≫= fun p => rows (tagged p)).
Proof.
  induction 1 as [|p ps (Ht & HL & _) _ IH]; [done|]. cbn [mbind list_bind]. rewrite fmap_app. f_equal; [|exact IH]. unfold away_of. by rewrite Ht, HL.
Qed.

Lemma away_pieces (b : Tagged T) sizes :
  rows_ok (length (tb_data (tagged b))) (tagged b) -> sum_list sizes = length (tb_data (tagged b)) -> pieces b sizes ≫= away_of = away_of b.
Proof.
  intros Hb Hs. rewrite (away_bind (batch_tag b) (layer_id (tb_meta (tagged b)))); [by rewrite pieces_rows|].
  apply pieces_forall; [apply sendable_splits|by split|done].
Qed.

Lemma part_expert L k (b : Tagged T) :
  (expert_item L (first_part k (as_expert b)) -> expert_item L (as_expert (first_part k b))) /\
  (expert_item L (second_part k (as_expert b)) -> expert_item L (as_expert (second_part k b))).
Proof. split; intros [H1 H2 [R1 R2 R3] H4 H5 H6 H7 H8 H9]; (split; try assumption); split; assumption. Qed.

Lemma rows_parts (Q : Row (T := T) -> Prop) (b : Tagged T) k :
  (k <= length (tb_data (tagged b)))%nat -> Forall Q (rows (tagged b)) ->
  Forall Q (rows (tagged (first_part k b))) /\ Forall Q (rows (tagged (second_part k b))).
Proof. intros Hk HQ. rewrite first_rows, second_rows by done. split; [by apply Forall_take|by apply Forall_drop]. Qed.

Lemma to_experts_splits Q : splits (fun b => to_experts b /\ Forall Q (rows (tagged b))).
Proof.
  intros b k [(Ht & i & Hi & Hb) HQ] Hk. destruct (rows_parts Q b k Hk HQ) as [H1 H2]. destruct (expert_item_splits _ _ k Hb Hk) as [E1 E2].
  split; (split; [|done]); (split; [done|]); exists i; (split; [done|]); by apply part_expert.
Qed.

Lemma to_ranks_splits Q : splits (fun b => to_ranks b /\ Forall Q (rows (tagged b))).
Proof.
  intros b k [[Ht HL Hr Hk1 Hl] HQ] Hk. destruct (rows_parts Q b k Hk HQ) as [H1 H2].
  pose proof (first_rows_ok b k _ Hr Hk). pose proof (second_rows_ok b k _ Hr Hk).
  split; (split; [|done]); (split; cbn; rewrite ?length_take, ?length_drop; try done; try lia). by rewrite Nat.min_l by done.
Qed.

Lemma column_rows {A} (f : BatchMetadata -> list A) (g : Row (T := T) -> A) (b : TokenBatch T) :
  length (f (tb_meta b)) = length (tb_data b) -> (forall i x, f (tb_meta b) !! i = Some x -> g (row_at b i) = x) -> f (tb_meta b) = g <$> rows b.
Proof.
  intros Hl Hg. apply list_eq. intros i. unfold rows. rewrite !list_lookup_fmap. destruct (f (tb_meta b) !! i) as [x|] eqn:E.
  - pose proof (lookup_lt_Some _ _ _ E). rewrite lookup_seq_lt by lia. cbn. by rewrite (Hg i x E).
  - apply lookup_ge_None in E. by rewrite lookup_seq_ge by lia.
Qed.

Lemma rank_rows (b : TokenBatch T) : length (attn_dp_ranks (tb_meta b)) = length (tb_data b) -> attn_dp_ranks (tb_meta b) = row_rank <$> rows b.
Proof. intros H'. apply column_rows; [done|]. intros i x E. unfold row_at, row_rank. by rewrite E. Qed.

Lemma expert_rows (b : TokenBatch T) : length (exp_ids (tb_meta b)) = length (tb_data b) -> exp_ids (tb_meta b) = row_expert <$> rows b.
Proof. intros H'. apply column_rows; [done|]. intros i x E. unfold row_at, row_expert. by rewrite E. Qed.

(** Every piece goes to the one place its rows are for. *)
Lemma send_routes r (b : Tagged T) (g : Z -> Z) :
  rows_ok (length (tb_data (tagged b))) (tagged b) -> batch_tag b <> TOKENIZER -> length (dest_column b) = length (tb_data (tagged b)) ->
  (forall x, x ∈ dest_column b -> exists c, channel_of (dispatcher r) (batch_tag b) x = Ok c /\ vec_at (peers r) c = Ok (g x)) ->
  exists sends out sizes, _send_once b (dispatcher r) = Ok sends /\
    py_map (fun '(c, b) => dst ← vec_at (peers r) c; Ok (dst, b)) sends = Ok out /\
    out.*2 = pieces b sizes /\ sum_list sizes = length (tb_data (tagged b)) /\ Forall (fun o => batch_tag o.2 = batch_tag b) out /\
    Forall (fun o : Z * Tagged T => dest_column o.2 <> [] /\ Forall (fun x => g x = o.1) (dest_column o.2)) out.
Proof.
  intros Hb Ht Hlen Hg. destruct (send_ok (dispatcher r) b _ Hb Ht Hlen) as (sizes & cs & sends & Hr & E & Hp & Hs).
  { apply Forall_forall. intros x Hx. by destruct (Hg x Hx) as (c & -> & _). }
  pose proof (ru_sum _ _ _ _ Hr) as Hsum. rewrite Hlen in Hsum. exists sends.
  destruct (py_map_total (fun '(c, b) => dst ← vec_at (peers r) c; Ok (dst, b))
    (fun (s o : Z * Tagged T) => o.2 = s.2 /\ dest_column s.2 <> [] /\ Forall (fun x => g x = o.1) (dest_column s.2)) sends) as (out & Eo & Ho).
  - intros [c p] Hin. rewrite Forall_forall in Hs. destruct (Hs _ Hin) as [Hne Hc]. cbn [fst snd] in *.
    assert (Hsub : forall x, x ∈ dest_column p -> x ∈ dest_column b).
    { assert (Hpi : p ∈ pieces b sizes) by (rewrite <-Hp; by apply (list_elem_of_fmap_2 snd _ (c, p))). intros x Hx.
      rewrite <-(cuts_concat sizes (dest_column b)), <-dest_pieces by lia. apply list_elem_of_In, in_concat. exists (dest_column p). rewrite <-!list_elem_of_In. split; [by apply list_elem_of_fmap_2|done]. }
    rewrite Forall_forall in Hc. destruct (dest_column p) as [|x l] eqn:El; [done|].
    destruct (Hg x (Hsub x ltac:(left))) as (c' & Hc' & Hd). rewrite Hc in Hc' by left. injection Hc' as <-. rewrite Hd. cbn [mbind res_bind].
    eexists. split; [reflexivity|]. cbn [fst snd]. split; [done|]. split; [done|]. apply Forall_forall. intros y Hy.
    destruct (Hg y (Hsub y Hy)) as (c' & Hc' & Hd'). rewrite Hc in Hc' by done. injection Hc' as <-. rewrite Hd in Hd'. by injection Hd' as ->.
  - assert (Hout : out.*2 = pieces b sizes) by (rewrite <-Hp; clear -Ho; induction Ho as [|s o ss os (H1 & _) _ IH]; [done|]; cbn; by rewrite H1, IH).
    exists out, sizes. split; [done|]. split; [done|]. split; [done|]. split; [done|]. split.
    + apply Forall_fmap with (f := snd) (P := fun p : Tagged T => batch_tag p = batch_tag b). rewrite Hout. by apply pieces_forall.
    + apply Forall_lookup. intros i o Hi. destruct (Forall2_lookup_r _ _ _ _ _ Ho Hi) as (s & _ & -> & H1). done.
Qed.

Lemma out_away (out : list (Z * Tagged T)) : (out ≫= fun x => away_of x.2) = out.*2 ≫= away_of.
Proof. induction out as [|x out IH]; [done|]. cbn [mbind list_bind fmap list_fmap]. f_equal. exact IH. Qed.

(** What a send puts on the wires: pieces with the tag of the batch, none of them empty. *)
Definition sent (b : Tagged T) (out : list (Z * Tagged T)) : Prop :=
  Forall (fun o => batch_tag o.2 = batch_tag b /\ rows (tagged o.2) <> []) out /\ out.*2 ≫= away_of = away_of b.

Lemma sent_pieces (P' : Tagged T -> Prop) (key : Row (T := T) -> Z) (g : Z -> Z) (b : Tagged T) sizes (out : list (Z * Tagged T)) :
  out.*2 = pieces b sizes -> rows_ok (length (tb_data (tagged b))) (tagged b) -> sum_list sizes = length (tb_data (tagged b)) ->
  Forall (fun o => batch_tag o.2 = batch_tag b) out -> Forall (fun o : Z * Tagged T => dest_column o.2 <> [] /\ Forall (fun x => g x = o.1) (dest_column o.2)) out ->
  Forall P' out.*2 -> (forall p, P' p -> dest_column p = key <$> rows (tagged p)) -> sent b out.
Proof.
  intros Hout Hb Hs Ht Hne HP Hkey. split; [|rewrite Hout; by apply away_pieces]. rewrite Forall_fmap in HP. apply Forall_forall. intros o Ho.
  rewrite Forall_forall in Ht, Hne, HP. split; [by apply Ht|]. destruct (Hne o Ho) as [Hd _]. rewrite (Hkey _ (HP o Ho)) in Hd. by intros E; rewrite E in Hd.
Qed.

(** A piece goes to the rank its rows are for. *)
Lemma piece_arrives (P' : Tagged T -> Prop) (key : Row (T := T) -> Z) (g : Z -> Z) (out : list (Z * Tagged T)) :
  Forall (fun o : Z * Tagged T => dest_column o.2 <> [] /\ Forall (fun x => g x = o.1) (dest_column o.2)) out -> Forall P' out.*2 ->
  (forall p, P' p -> dest_column p = key <$> rows (tagged p)) -> (forall p x, P' p -> x ∈ dest_column p -> 0 <= g x < Z.of_nat R) ->
  Forall (fun o => P' o.2 /\ exists d, o.1 = Z.of_nat d /\ (d < R)%nat /\ Forall (fun r => g (key r) = Z.of_nat d) (rows (tagged o.2))) out.
Proof.
  intros Ho HP Hkey Hg. rewrite Forall_fmap in HP. apply Forall_forall. intros [dst p] Hin. rewrite Forall_forall in Ho, HP.
  destruct (Ho _ Hin) as [Hne Hall]. specialize (HP _ Hin). cbn [fst snd compose] in *. split; [done|].
  destruct (dest_column p) as [|x l] eqn:El; [done|]. pose proof (Forall_inv Hall) as Hx. cbn in Hx.
  pose proof (Hg p x HP ltac:(rewrite El; left)) as Hr. rewrite Hx in Hr. exists (Z.to_nat dst). split; [lia|]. split; [lia|].
  rewrite <-El, (Hkey p HP), Forall_fmap in Hall. eapply Forall_impl; [exact Hall|]. intros r' Hr'. cbn in *. lia.
Qed.

Lemma send_experts r (b : Tagged T) :
  wired -> (r < R)%nat -> to_experts b -> Forall row_ok (rows (tagged b)) ->
  exists sends out, _send_once b (dispatcher r) = Ok sends /\ py_map (fun '(c, b) => dst ← vec_at (peers r) c; Ok (dst, b)) sends = Ok out /\
    Forall arriving out /\ sent b out.
Proof.
  intros Hw Hr Hb HQ. pose proof Hb as (Ht & i & Hi & Hit). pose proof (ei_rows _ _ Hit) as Hrows. pose proof (ei_experts _ _ Hit) as Hex. cbn [tagged as_expert] in *.
  assert (Hcol : forall p : Tagged T, batch_tag p = ATTENTION -> dest_column p = exp_ids (tb_meta (tagged p))) by (intros p Hp; unfold dest_column; by rewrite Hp).
  assert (Hin : forall p, to_experts p -> dest_column p = row_expert <$> rows (tagged p)).
  { intros p (Hp & j & _ & Hj). rewrite (Hcol p Hp). apply expert_rows, (ei_experts _ _ Hj). }
  destruct (send_routes r b host Hrows) as (sends & out & sizes & Es & Eo & Hout & Hsum & Htag & Ho); [by rewrite Ht|by rewrite (Hcol b Ht)| |].
  { rewrite (Hin b Hb). intros x (row & -> & Hrow)%list_elem_of_fmap. rewrite Forall_forall in HQ. destruct (HQ row Hrow) as [He _]. rewrite Ht.
    destruct (wd_expert Hw r _ Hr He) as (c & H1 & H2 & _). by exists c. }
  pose proof (pieces_forall _ b sizes (to_experts_splits row_ok) (conj Hb HQ) Hsum) as Hps. rewrite <-Hout in Hps.
  exists sends, out. split; [exact Es|]. split; [exact Eo|]. split; [|by eapply (sent_pieces _ row_expert host b sizes); [..|exact Hps|intros p [Hp _]; apply Hin]].
  apply (piece_arrives _ row_expert host out Ho) in Hps; [|by intros p [Hp _]; apply Hin|].
  - eapply Forall_impl; [exact Hps|]. intros o ((Hp & Hok) & d & Hd & HdR & Hhost). exists d. split; [done|]. split; [done|]. left. split; [done|].
    apply Forall_and. split; [exact Hok|exact Hhost].
  - intros p x [Hp Hok]. rewrite (Hin p Hp). intros (row & -> & Hrow)%list_elem_of_fmap. rewrite Forall_forall in Hok. destruct (Hok row Hrow) as [He _].
    by destruct (wd_expert Hw r _ Hr He) as (c & _ & _ & H1).
Qed.

Lemma send_ranks r (b : Tagged T) e :
  wired -> (r < R)%nat -> to_ranks b -> Forall (fun x => 0 <= row_rank x < Z.of_nat R) (rows (tagged b)) -> 0 <= e < num_experts -> host e = Z.of_nat r ->
  exists sends out, _send_once b (dispatcher r) = Ok sends /\ py_map (fun '(c, b) => dst ← vec_at (peers r) c; Ok (dst, b)) sends = Ok out /\
    Forall arriving out /\ sent b out.
Proof.
  intros Hw Hr Hb HQ He Hhost. pose proof Hb as [Ht _ Hrows Hk _].
  assert (Hin : forall p, to_ranks p -> dest_column p = row_rank <$> rows (tagged p)).
  { intros p Hp. unfold dest_column. rewrite (tr_tag _ Hp). apply rank_rows, Hp. }
  destruct (send_routes r b (fun x => x) Hrows) as (sends & out & sizes & Es & Eo & Hout & Hsum & Htag & Ho); [by rewrite Ht| | |].
  { unfold dest_column. by rewrite Ht. }
  { rewrite (Hin b Hb). intros x (row & -> & Hrow)%list_elem_of_fmap. rewrite Forall_forall in HQ. rewrite Ht. by apply (wd_rank Hw r e), HQ. }
  pose proof (pieces_forall _ b sizes (to_ranks_splits _) (conj Hb HQ) Hsum) as Hps. rewrite <-Hout in Hps.
  exists sends, out. split; [exact Es|]. split; [exact Eo|]. split; [|by eapply (sent_pieces _ row_rank (fun x => x) b sizes); [..|exact Hps|intros p [Hp _]; apply Hin]].
  apply (piece_arrives _ row_rank (fun x => x) out Ho) in Hps; [|by intros p [Hp _]; apply Hin|].
  - eapply Forall_impl; [exact Hps|]. intros o ((Hp & _) & d & Hd & HdR & Hrk). exists d. auto.
  - intros p x [Hp Hok]. rewrite (Hin p Hp). intros (row & -> & Hrow)%list_elem_of_fmap. rewrite Forall_forall in Hok. by apply Hok.
Qed.

Lemma node_send_ok r (nd : Node) :
  wired -> (r < R)%nat -> Forall (outgoing r) (send_queue nd) ->
  exists out nd', node_send r nd = Ok (out, nd') /\ node_pool nd' = node_pool nd /\ node_pick nd' = node_pick nd /\ node_sched nd' = node_sched nd /\
    Forall (outgoing r) (send_queue nd') /\ Forall arriving out /\
    match send_queue nd with [] => out = [] /\ send_queue nd' = [] | b :: q => send_queue nd' = q /\ sent b out end.
Proof.
  intros Hw Hr Hq. unfold node_send. destruct (send_queue nd) as [|b q] eqn:Eq.
  - exists [], nd. rewrite Eq. split_and!; try done; by constructor.
  - apply Forall_cons in Hq as [Hb Hq].
    assert (exists sends out, _send_once b (dispatcher r) = Ok sends /\ py_map (fun '(c, b) => dst ← vec_at (peers r) c; Ok (dst, b)) sends = Ok out /\
      Forall arriving out /\ sent b out) as (sends & out & -> & Eo & Ha & Hsent).
    { destruct Hb as [[Hb HQ]|(Hb & HQ & e & He & Hhost)]; [by apply send_experts|by apply (send_ranks r b e)]. }
    cbn [mbind res_bind]. rewrite Eo. cbn [mbind res_bind]. eexists out, _. split; [reflexivity|]. cbn [node_pool node_pick send_queue node_sched].
    by split_and!.
Qed.

Lemma send_away (nd nd' : Node) out :
  match send_queue nd with [] => out = [] /\ send_queue nd' = [] | b :: q => send_queue nd' = q /\ sent b out end ->
  (out ≫= fun x => away_of x.2) ++ (send_queue nd' ≫= away_of) = send_queue nd ≫= away_of.
Proof.
  destruct (send_queue nd) as [|b q]; [by intros [-> ->]|]. intros [-> [_ Ha]]. by rewrite out_away, Ha.
Qed.

(** ** Receiving *)

Lemma label_rows (b : TokenBatch T) :
  length (req_ids (tb_meta b)) = length (tb_data b) -> length (init_prefill_lens (tb_meta b)) = length (tb_data b) -> row_label <$> rows b = labels b.
Proof.
  intros H1 H2. symmetry. apply list_eq. intros i. unfold rows, labels. rewrite !list_lookup_fmap, lookup_zip_with.
  destruct (decide (i < length (tb_data b))%nat) as [Hi|Hi].
  - rewrite lookup_seq_lt by done. cbn. destruct (lookup_lt_is_Some_2 (req_ids (tb_meta b)) i) as [x Hx]; [lia|].
    destruct (lookup_lt_is_Some_2 (init_prefill_lens (tb_meta b)) i) as [y Hy]; [lia|]. by rewrite Hx, Hy.
  - rewrite lookup_seq_ge by lia. by rewrite (lookup_ge_None_2 (req_ids (tb_meta b))) by lia.
Qed.

(** The copies of a batch all of whose rows are of one rank. *)
Lemma copies_of_rank (L : Z) (d : nat) (b : TokenBatch T) :
  length (req_ids (tb_meta b)) = length (tb_data b) -> length (init_prefill_lens (tb_meta b)) = length (tb_data b) ->
  Forall (fun r => row_rank r = Z.of_nat d) (rows b) -> copy_of L <$> rows b = pair (Z.of_nat d) <$> (pair L <$> labels b).
Proof.
  intros H1 H2 Hr. rewrite <-(label_rows b H1 H2), <-!list_fmap_compose. apply list_fmap_ext. intros i r Hi.
  pose proof (Forall_lookup_1 _ _ _ _ Hr Hi) as E. unfold copy_of. cbn. by rewrite E.
Qed.

Lemma to_ranks_topk b : to_ranks b -> topk_ok (tagged b).
Proof.
  intros [_ _ [(Hr & _) [h Hh] Hd] Hk Hl]. exists (zlen (tb_data (tagged b))), [h]. unfold zlen. rewrite Hh, Hr, Hk, Hl. done.
Qed.

Lemma away_ranks d b :
  to_ranks b -> Forall (fun r => row_rank r = Z.of_nat d) (rows (tagged b)) ->
  away_of b = pair (Z.of_nat d) <$> (pair (layer_id (tb_meta (tagged b))) <$> labels (tagged b)).
Proof.
  intros Hb Hr. unfold away_of. rewrite (tr_tag _ Hb), decide_False by done. apply copies_of_rank; [|apply Hb|done].
  destruct (tr_rows _ Hb) as [(Ha & _) _ _]. done.
Qed.

Hypothesis Hconf : configured token_sort top_k num_groups num_layers max_bs max_bs_expert max_pages min_tokens.

Lemma recv_experts d st (nd : Node) b f :
  station_inv top_k num_layers max_bs st (station_of nd f) -> to_experts b -> Forall (row_here d) (rows (tagged b)) -> layers_here d (expert_layers (node_pool nd)) ->
  exists nd', node_recv b nd = Ok nd' /\ station_inv top_k num_layers max_bs st (station_of nd' f) /\ send_queue nd' = send_queue nd /\ node_sched nd' = node_sched nd /\
    layers_here d (expert_layers (node_pool nd')) /\
    layers_away (expert_layers (node_pool nd')) ≡ₚ layers_away (expert_layers (node_pool nd)) ++ away_of b.
Proof.
  intros Hs (Ht & i & Hi & Hit) Hrows Hhere. destruct b as [t b]. cbn [batch_tag tagged as_expert] in *. subst t.
  destruct (expert_arrival_ok top_k num_groups num_layers max_bs st (station_of nd f) b i (cf_groups _ _ _ _ _ _ _ _ Hconf) Hs Hit ltac:(lia)) as (s' & Es & Hs').
  destruct (process_expert_ok top_k num_groups _ (node_pool nd) b i (cf_groups _ _ _ _ _ _ _ _ Hconf) (si_pool _ _ _ _ _ Hs) Hit ltac:(lia)) as (l & l' & Hl & E & _ & Hq).
  unfold arrive_expert, process_batch in Es. cbn [batch_tag tagged station_of pool] in Es. rewrite E in Es. cbn [mbind res_bind] in Es. injection Es as <-.
  unfold node_recv, process_batch. cbn [batch_tag tagged]. rewrite E. cbn [mbind res_bind]. eexists. split; [reflexivity|].
  split; [exact Hs'|]. split; [done|]. split; [done|]. cbn [node_pool expert_layers with_expert]. split.
  - intros j m Hj. apply list_lookup_insert_Some in Hj as [(<- & <- & _)|[_ Hj]]; [|by apply (Hhere j)].
    rewrite Hq. apply Forall_app. split; [by apply (Hhere i)|done].
  - pose proof (imap_update layer_away (expert_layers (node_pool nd)) i l l' Hl) as Hu. unfold layer_away at 2 4 in Hu. rewrite Hq, fmap_app in Hu.
    unfold away_of. cbn [batch_tag tagged]. rewrite decide_True, (ei_layer _ _ Hit : layer_id (tb_meta b) = _) by done.
    apply (Permutation_app_inv_r (copy_of (Z.of_nat i + 1) <$> qrows (batch_queue l))). rewrite Hu. unfold layers_away. solve_Permutation.
Qed.

Lemma recv_ranks d st (nd : Node) b f f' :
  station_inv top_k num_layers max_bs st (station_of nd f) -> lens_ok st -> to_ranks b -> Forall (fun r => row_rank r = Z.of_nat d) (rows (tagged b)) ->
  f ≡ₚ (pair (layer_id (tb_meta (tagged b))) <$> labels (tagged b)) ++ f' ->
  exists nd', node_recv b nd = Ok nd' /\ station_inv top_k num_layers max_bs st (station_of nd' f') /\ send_queue nd' = send_queue nd /\ node_sched nd' = node_sched nd /\
    expert_layers (node_pool nd') = expert_layers (node_pool nd).
Proof.
  intros Hs Hst Hb Hrows Hf. pose proof Hb as [Ht HL _ _ _]. pose proof (to_ranks_topk b Hb) as Hok. destruct b as [t b]. cbn [batch_tag tagged] in *. subst t.
  destruct (arrive_ok top_k num_groups num_layers max_bs (cf_topk _ _ _ _ _ _ _ _ Hconf) (cf_layers _ _ _ _ _ _ _ _ Hconf) st (station_of nd f) b f' Hs Hst) as (s' & Es & Hs').
  { split; [done|done|exact Hf]. }
  destruct (Z_of_nat_complete (layer_id (tb_meta b)) ltac:(lia)) as [i Hi].
  destruct (process_topk_ok top_k _ (node_pool nd) b i (si_pool _ _ _ _ _ Hs) Hok Hi ltac:(lia) (cf_topk _ _ _ _ _ _ _ _ Hconf)) as (tp & l & _ & _ & E).
  unfold arrive in Es. unfold node_recv. cbn [station_of pool] in Es.
  destruct (process_batch top_k num_groups {| batch_tag := EXPERT; tagged := b |} (node_pool nd)) as [p|] eqn:Ep; [|done]. cbn [mbind res_bind] in *. injection Es as <-.
  eexists. split; [reflexivity|]. split; [exact Hs'|]. split; [done|]. split; [done|]. cbn [node_pool].
  unfold process_batch in Ep. cbn [batch_tag tagged] in Ep. rewrite (proj2 (Z.ltb_lt 1 top_k)), (proj2 (Z.ltb_lt 0 _)) in Ep by (apply Hconf || lia). cbn [andb] in Ep.
  rewrite E in Ep. by injection Ep as <-.
Qed.

(** The engine's own rows do not touch the expert layers. *)
Lemma put_batch_experts (b : TokenBatch T) p p' : put_batch top_k num_groups b p = Ok p' -> expert_layers p' = expert_layers p.
Proof.
  unfold put_batch, process_batch. cbn [batch_tag tagged]. unfold process_attn_batch. intros E. apply bind_Ok in E as ([s d] & _ & E).
  unfold sched_add_batch in E. cbn [batch_tag tagged] in E. apply bind_Ok in E as (l & _ & E). apply bind_Ok in E as (l' & _ & E).
  apply bind_Ok in E as (ls & _ & E). by injection E as <-.
Qed.

(** ** A turn of the engine *)

Lemma placed_perm {A} (l q : list A) (pos : list Z) :
  pos ≡ₚ py_range (zlen q) -> length l = length q -> (forall i p x, pos !! i = Some p -> q !! i = Some x -> l !! Z.to_nat p = Some x) -> l ≡ₚ q.
Proof.
  intros Hp Hl Hv. assert (Hlen : length pos = length q) by (rewrite Hp, py_range_length; unfold zlen; lia).
  assert (Hnd : NoDup pos) by (rewrite Hp; apply py_range_NoDup).
  assert (Hr : forall i p, pos !! i = Some p -> 0 <= p) by (intros i p Hi%list_elem_of_lookup_2; rewrite Hp, elem_of_py_range in Hi; lia).
  apply (perm_lookup l q (fun i => Z.to_nat (default 0 (pos !! i)))); [done|..].
  - intros i x Hx. destruct (lookup_lt_is_Some_2 pos i) as [p E]; [apply lookup_lt_Some in Hx; lia|]. rewrite E. cbn. by apply (Hv i p x).
  - intros i j Hi Hj Heq. destruct (lookup_lt_is_Some_2 pos i) as [p E]; [lia|]. destruct (lookup_lt_is_Some_2 pos j) as [p' E']; [lia|].
    rewrite E, E' in Heq. cbn in Heq. pose proof (Hr _ _ E). pose proof (Hr _ _ E'). assert (p = p') as -> by lia. by eapply NoDup_lookup.
Qed.

Lemma placed_onto (pos : list Z) (n : nat) p : pos ≡ₚ py_range (Z.of_nat n) -> (p < n)%nat -> exists i, pos !! i = Some (Z.of_nat p).
Proof. intros Hp Hn. apply list_elem_of_lookup. rewrite Hp. apply elem_of_py_range. lia. Qed.

Lemma placed_range (pos : list Z) (n i : nat) p : pos ≡ₚ py_range (Z.of_nat n) -> pos !! i = Some p -> 0 <= p < Z.of_nat n /\ (i < n)%nat.
Proof.
  intros Hp Hi. pose proof (lookup_lt_Some _ _ _ Hi) as Hlt. apply list_elem_of_lookup_2 in Hi. rewrite Hp, elem_of_py_range in Hi.
  rewrite Hp, py_range_length in Hlt. lia.
Qed.

Lemma column_full {A} (l : list A) n p x : l = [] \/ length l = n -> l !! p = Some x -> length l = n.
Proof. by intros [->|?]. Qed.

Lemma run_attn_meta (rank : Z) stash tb (w w' : Worker T) :
  run_batch add rank hidden_size num_layers stash tb w = Ok w' ->
  exists fb, run_attn add rank hidden_size num_layers stash tb w = Ok (fb, w') /\
    if layer_id (tb_meta tb) =? num_layers then fb = None else exists x, fb = Some x /\ fb_meta_c x = tb_meta tb.
Proof.
  unfold run_batch. intros E. apply bind_Ok in E as ([fb w1] & E & E'). injection E' as <-. exists fb. split; [done|].
  unfold run_attn in E. apply bind_Ok in E as ([fb' e] & E & E'). injection E' as <- _. unfold preprocess_batch_attn in E.
  apply bind_Ok in E as (sb & Hsb%of_option_Ok & E). assert (sb_layer_id sb = layer_id (tb_meta tb)) as Hl.
  { apply bind_Some in Hsb as (? & _ & Hsb). apply bind_Some in Hsb as (? & _ & Hsb). apply bind_Some in Hsb as (? & _ & Hsb). by injection Hsb as <-. }
  rewrite Hl in E. destruct (layer_id (tb_meta tb) =? num_layers).
  - apply bind_Ok in E as ([b e1] & _ & E). by injection E as <- _.
  - apply bind_Ok in E as ([[fa sb2] b] & _ & E). apply bind_Ok in E as ([sl e2] & _ & E). injection E as <- _. eexists. split; reflexivity.
Qed.

Lemma copies_out_eq L (t : TokenBatch T) : copies_out top_k L t = pair (L + 1) <$> repeat_vector (labels t) top_k.
Proof.
  unfold copies_out, repeat_vector. induction (labels t) as [|x l IH]; [done|]. cbn [mbind list_bind]. rewrite fmap_app, IH. f_equal.
  by rewrite fmap_replicate.
Qed.

(** The dispatch batch: a copy of every row for each of its experts. *)
Lemma dispatched r (i : nat) (tb : TokenBatch T) fb forward :
  wired -> (r < R)%nat -> Z.of_nat i < num_layers -> attn_item (Z.of_nat i) {| batch_tag := ATTENTION; tagged := tb |} -> 0 < zlen (tb_data tb) ->
  forward_ok forward -> fb_meta_c fb = tb_meta tb ->
  exists b, postprocess_batch_attn (Z.of_nat r) top_k empty fb (forward fb) = Ok b /\
    outgoing r {| batch_tag := ATTENTION; tagged := b |} /\
    away_of {| batch_tag := ATTENTION; tagged := b |} ≡ₚ pair (Z.of_nat r) <$> copies_out top_k (Z.of_nat i) tb.
Proof.
  intros Hw Hr Hi Hit Hpos Hf Hm. pose proof (cf_topk _ _ _ _ _ _ _ _ Hconf) as Hk. destruct (item_ids _ tb Hit) as (_ & Hn & Hn2).
  destruct Hit as [_ Hlay Hok _]. cbn [tagged] in *. destruct (ao_rows _ Hok) as [(_ & _ & _ & Hrk & Hpl) [h Hsh] _].
  destruct (Hf fb) as (F1 & F2 & F3 & F4). cbv zeta in *. rewrite Hm, Hn in *. set (n := length (tb_data tb)) in *. clear Hf.
  assert (Hn0 : (0 < n)%nat) by (unfold zlen in Hpos; fold n in Hpos; lia).
  destruct (postprocess_ok (Z.of_nat r) top_k empty fb (forward fb) n h) as (b & pos & -> & Hperm & Hal & Hsb & Hlb & Hd & Hrank & Hpt & Hsorted);
    rewrite ?Hm; try done; [lia|eapply Forall_impl; [exact F4|]; intros e He; pose proof (wd_experts Hw); cbn in *; lia|].
  rewrite Hm in Hpt, Hlb. set (N := (n * Z.to_nat top_k)%nat) in *. assert (HN : Z.of_nat n * top_k = Z.of_nat N) by (unfold N; lia). rewrite HN in *.
  assert (Hdl : length (tb_data b) = N) by (unfold zlen in Hd; lia). assert (HN0 : (0 < N)%nat) by (unfold N; nia).
  set (ids := concat (fr_expert_ids (forward fb))) in *. set (ws := concat (fr_expert_weights (forward fb))) in *.
  destruct Hal as (Ha1 & Ha2 & Ha3 & _ & Ha5).
  assert (Hdiv : forall j, (j < N)%nat -> (Z.to_nat (Z.of_nat j / top_k) < n)%nat).
  { intros j Hj. assert (Z.of_nat j / top_k < Z.of_nat n) by (apply Z.div_lt_upper_bound; lia). pose proof (Z.div_pos (Z.of_nat j) top_k). lia. }
  assert (Hcols : length (exp_ids (tb_meta b)) = N /\ length (topk_weights (tb_meta b)) = N /\ length (init_prefill_lens (tb_meta b)) = N).
  { destruct (lookup_lt_is_Some_2 pos 0) as [p Hp]; [rewrite Hperm, py_range_length; lia|]. destruct (Hpt _ _ Hp) as (_ & _ & H3 & H4 & H5).
    destruct (lookup_lt_is_Some_2 ids 0) as [e He]; [lia|]. destruct (lookup_lt_is_Some_2 ws 0) as [x Hx]; [lia|].
    destruct (lookup_lt_is_Some_2 (init_prefill_lens (tb_meta tb)) (Z.to_nat (Z.of_nat 0 / top_k))) as [l Hl]; [rewrite Hn2; by apply Hdiv|].
    split; [by eapply column_full, H3|]. split; [by eapply column_full, H4|by eapply column_full, H5]. }
  destruct Hcols as (C1 & C2 & C3).
  assert (Hrange : Forall (fun e => 0 <= e < num_experts) (exp_ids (tb_meta b))).
  { apply Forall_lookup. intros p e He. pose proof (lookup_lt_Some _ _ _ He) as Hp. rewrite C1 in Hp. destruct (placed_onto pos N p Hperm Hp) as [j Hj].
    destruct (placed_range pos N j _ Hperm Hj) as [_ HjN]. destruct (Hpt _ _ Hj) as (_ & _ & H3 & _). destruct (lookup_lt_is_Some_2 ids j) as [e' He']; [lia|].
    specialize (H3 _ He'). rewrite Nat2Z.id, He in H3. injection H3 as <-. by apply (Forall_lookup_1 _ _ _ _ F4 He'). }
  assert (Hrows : Forall (fun x => row_rank x = Z.of_nat r) (rows b)).
  { assert (Hc : row_rank <$> rows b = replicate N (Z.of_nat r)) by (rewrite <-rank_rows; [done|by rewrite Hrank, length_replicate]).
    apply Forall_fmap with (f := row_rank) (P := fun x => x = Z.of_nat r). rewrite Hc. by apply Forall_replicate. }
  exists b. split; [done|]. split.
  - left. split.
    + split; [done|]. exists i. split; [done|]. split; cbn [as_expert batch_tag tagged]; rewrite ?Hdl; try done; [congruence|split; rewrite ?Hdl; try done| |by rewrite Hrank, length_replicate|].
      * unfold aligned. rewrite Hrank, length_replicate. auto 10.
      * by exists h.
      * eapply Forall_impl; [exact Hrange|]. intros e He. pose proof (wd_experts Hw). cbn in *. lia.
      * apply lookup_strongly. intros p q x y Hpq Hx Hy. apply (Hsorted (Z.of_nat p) (Z.of_nat q)); [lia|by rewrite Nat2Z.id..].
    + apply Forall_and. split.
      * apply Forall_fmap with (f := row_expert) (P := fun e => 0 <= e < num_experts). cbn [tagged]. rewrite <-expert_rows by lia. done.
      * eapply Forall_impl; [exact Hrows|]. intros x Hx. cbn in *. lia.
  - unfold away_of. cbn [batch_tag tagged]. rewrite decide_True by done. rewrite (copies_of_rank _ r), Hlb, Hlay, copies_out_eq by (done || lia).
    apply fmap_Permutation, fmap_Permutation, (placed_perm _ _ pos).
    + unfold zlen. rewrite repeat_vector_length. unfold labels. rewrite length_zip_with. rewrite Hn, Hn2, Nat.min_id. exact Hperm.
    + unfold labels. rewrite repeat_vector_length, !length_zip_with. lia.
    + intros j p x Hp Hx. destruct (Hpt _ _ Hp) as (_ & H2 & _ & _ & H5). rewrite <-(Nat2Z.id j), repeat_vector_lookup in Hx by lia.
      unfold labels in *. rewrite lookup_zip_with in Hx |- *. destruct (req_ids (tb_meta tb) !! _) as [id|]; [|done].
      destruct (init_prefill_lens (tb_meta tb) !! _) as [l|]; [|done]. by rewrite (H2 _ eq_refl), (H5 _ eq_refl).
Qed.


Lemma rows_lookup (b : TokenBatch T) i : (i < length (tb_data b))%nat -> rows b !! i = Some (row_at b i).
Proof. intros Hi. unfold rows. by rewrite list_lookup_fmap, lookup_seq_lt by done. Qed.

Lemma copy_at (L : Z) (b : TokenBatch T) i id pl k :
  req_ids (tb_meta b) !! i = Some id -> init_prefill_lens (tb_meta b) !! i = Some pl -> attn_dp_ranks (tb_meta b) !! i = Some k ->
  copy_of L (row_at b i) = (k, (L, (id, pl))).
Proof. intros H1 H2 H3. unfold copy_of, row_at. cbn. by rewrite H1, H2, H3. Qed.

(** What an expert batch becomes: the copies of its rows, on their way to their ranks. *)
Lemma answered r (i : nat) (t : TokenBatch T) run :
  wired -> Z.of_nat i < num_layers -> expert_item (Z.of_nat i) {| batch_tag := EXPERT; tagged := t |} -> 0 < zlen (tb_data t) ->
  Forall (row_here r) (rows t) -> run_ok run ->
  exists b, execute_batch_expert row_sort use_gdr run scale empty t = Ok b /\ outgoing r {| batch_tag := EXPERT; tagged := b |} /\
    away_of {| batch_tag := EXPERT; tagged := b |} ≡ₚ copy_of (Z.of_nat i + 1) <$> rows t.
Proof.
  intros Hw Hi [_ Hlay [Hal [h Hsh] _] _ _ Hws Hks Hls _] Hpos Hhere Hrun. cbn [tagged] in *. set (n := length (tb_data t)) in *.
  assert (Hn : (0 < n)%nat) by (unfold zlen in Hpos; fold n in Hpos; lia). pose proof Hal as (Hr & _).
  destruct (execute_expert_ok row_sort (wd_sort Hw) use_gdr run scale empty t n Hal) as (b & pos & -> & Hperm & Hlb & Halb & Hsb & Hd & Hpt & _);
    [by rewrite Hsh|done|done|by rewrite Hrun|].
  assert (Hcol : forall j, (j < n)%nat -> exists p id k l, pos !! j = Some (Z.of_nat p) /\ (p < n)%nat /\
    copy_of (Z.of_nat i + 1) (row_at t j) = (k, (Z.of_nat i + 1, (id, l))) /\ row_rank (row_at t j) = k /\
    req_ids (tb_meta b) !! p = Some id /\ attn_dp_ranks (tb_meta b) !! p = Some k /\ init_prefill_lens (tb_meta b) !! p = Some l).
  { intros j Hj. destruct (lookup_lt_is_Some_2 pos j) as [p Hp]; [rewrite Hperm, py_range_length; lia|].
    destruct (placed_range pos n j p Hperm Hp) as [Hpr _]. destruct (Hpt _ _ Hp) as (E1 & E2 & E3).
    destruct (lookup_lt_is_Some_2 (req_ids (tb_meta t)) j) as [id Hid]; [lia|]. destruct (lookup_lt_is_Some_2 (attn_dp_ranks (tb_meta t)) j) as [k Hk]; [lia|].
    destruct (lookup_lt_is_Some_2 (init_prefill_lens (tb_meta t)) j) as [l Hl]; [lia|].
    exists (Z.to_nat p), id, k, l. rewrite Z2Nat.id by lia. do 2 (split; [done || lia|]). split; [by apply copy_at|].
    split; [unfold row_rank, row_at; by rewrite Hk|]. auto. }
  destruct Halb as (Ha1 & Ha2 & Ha3 & Ha4 & Ha5).
  assert (Hcols : length (attn_dp_ranks (tb_meta b)) = n /\ length (init_prefill_lens (tb_meta b)) = n).
  { destruct (Hcol 0%nat Hn) as (p & id & k & l & _ & _ & _ & _ & _ & H2 & H3). split; [by eapply column_full, H2|by eapply column_full, H3]. }
  destruct Hcols as [Ck Cl].
  assert (Hcp : copy_of (Z.of_nat i + 1) <$> rows b ≡ₚ copy_of (Z.of_nat i + 1) <$> rows t).
  { apply (placed_perm _ _ pos); unfold zlen; rewrite ?length_fmap, ?rows_length, ?Hd; [exact Hperm|done|].
    intros j p x Hp Hx. destruct (placed_range pos n j p Hperm Hp) as [Hpr Hj]. rewrite list_lookup_fmap, rows_lookup in Hx by done.
    injection Hx as <-. destruct (Hcol j Hj) as (p' & id & k & l & Hp' & _ & -> & _ & H1 & H2 & H3). assert (p = Z.of_nat p') as -> by congruence.
    rewrite Nat2Z.id, list_lookup_fmap, rows_lookup by lia. cbn. f_equal. by apply copy_at. }
  exists b. split; [done|]. split; [right; split; [|split]|].
  - split; cbn [batch_tag tagged]; rewrite ?Hd; try done; [lia|]. split; [unfold aligned; auto 10|by exists h; rewrite Hsb, Hsh|done].
  - assert (Hk : Forall (fun c : Z * (Z * (Z * Z)) => 0 <= c.1 < Z.of_nat R) (copy_of (Z.of_nat i + 1) <$> rows b)).
    { rewrite Hcp. apply Forall_fmap. eapply Forall_impl; [exact Hhere|]. intros x [[_ Hx] _]. exact Hx. }
    apply Forall_fmap in Hk. exact Hk.
  - pose proof (rows_lookup t 0 Hn) as H0'. pose proof (Forall_lookup_1 _ _ _ _ Hhere H0') as [[He _] Hh]. by exists (row_expert (row_at t 0)).
  - unfold away_of. cbn [batch_tag tagged]. rewrite decide_False by done. rewrite Hlb, Hlay. exact Hcp.
Qed.

Lemma layers_away_attn (ls : list (UnifiedLayer T)) p : layers_away (expert_layers (with_attn ls p)) = layers_away (expert_layers p).
Proof. done. Qed.

(** A turn on a rank, where the batch that leaves is new to what is away. *)
Section Turn.
Context (st_nb N : Z) (RM : gmap Z (Z * Z)).
Notation worker_ok := (worker_inv num_layers bs st_nb N max_bs max_pages RM).

(** What moves in a turn: nothing; the copies of a batch to the queue; after the
    pseudo-layer, rows inside the pool; or what the experts return to the queue. *)
Inductive moved (r : nat) (w : Worker T) (nd : Node) (stash : Z -> T) (w' : Worker T) (nd' : Node) (cs : list (Z * (Z * Z))) : Prop :=
  | mv_none : w' = w -> has_pick nd = false -> send_queue nd' = send_queue nd -> expert_layers (node_pool nd') = expert_layers (node_pool nd) -> cs = [] ->
      moved r w nd stash w' nd' cs
  | mv_attn tb b : pool_batch num_layers max_bs w tb -> run_batch add (Z.of_nat r) hidden_size num_layers stash tb w = Ok w' ->
      layer_id (tb_meta tb) < num_layers -> send_queue nd' = send_queue nd ++ [b] -> batch_tag b = ATTENTION ->
      expert_layers (node_pool nd') = expert_layers (node_pool nd) -> cs = copies_out top_k (layer_id (tb_meta tb)) tb -> moved r w nd stash w' nd' cs
  | mv_loop tb : pool_batch num_layers max_bs w tb -> run_batch add (Z.of_nat r) hidden_size num_layers stash tb w = Ok w' ->
      layer_id (tb_meta tb) = num_layers -> send_queue nd' = send_queue nd -> expert_layers (node_pool nd') = expert_layers (node_pool nd) -> cs = [] ->
      moved r w nd stash w' nd' cs
  | mv_expert b : w' = w -> has_pick nd = true -> send_queue nd' = send_queue nd ++ [b] -> batch_tag b = EXPERT -> away_of b <> [] -> cs = [] ->
      moved r w nd stash w' nd' cs.

Record turned (r : nat) (w : Worker T) (nd : Node) (f : list (Z * (Z * Z))) (stash : Z -> T) (w' : Worker T) (nd' : Node)
    (cs : list (Z * (Z * Z))) : Prop := {
  tn_queue : Forall (outgoing r) (send_queue nd');
  tn_layers : layers_here r (expert_layers (node_pool nd'));
  tn_away : node_away nd' ≡ₚ node_away nd ++ (pair (Z.of_nat r) <$> cs);
  tn_station : station_inv top_k num_layers max_bs (stages w') (station_of nd' (f ++ cs));
  tn_sched : node_sched nd' = node_sched nd;
  tn_moved : moved r w nd stash w' nd' cs;
}.

Lemma moved_worker r w nd stash w' nd' cs :
  moved r w nd stash w' nd' cs -> w' = w \/ exists tb, pool_batch num_layers max_bs w tb /\ run_batch add (Z.of_nat r) hidden_size num_layers stash tb w = Ok w'.
Proof. intros [E _ _ _ _|tb b H1 H2 _ _ _ _ _|tb H1 H2 _ _ _ _|b E _ _ _ _ _]; [by left|right; by exists tb..|by left]. Qed.

Lemma away_push (q : list (Tagged T)) b : (q ++ [b]) ≫= away_of = (q ≫= away_of) ++ away_of b.
Proof. rewrite bind_app. cbn [mbind list_bind]. by rewrite app_nil_r. Qed.

(** An attention batch: to the experts, or, after the pseudo-layer, back to layer 0. *)
Lemma turn_attn r stash forward w (nd : Node) f (i : nat) l (t : TokenBatch T) l' run :
  wired -> (r < R)%nat -> forward_ok forward -> worker_ok w ->
  station_inv top_k num_layers max_bs (stages w) (station_of nd f) -> Forall (outgoing r) (send_queue nd) -> layers_here r (expert_layers (node_pool nd)) ->
  node_pick nd = Some (Z.of_nat i) -> attn_layers (node_pool nd) !! i = Some l -> 0 < num_tokens_ l ->
  get_batch_from_layer add token_sort top_k hidden_size (Z.of_nat i) (node_pool nd) = Ok (Some t, with_attn (<[i := l']> (attn_layers (node_pool nd))) (node_pool nd)) ->
  attn_item (Z.of_nat i) {| batch_tag := ATTENTION; tagged := t |} -> attn_layer_ok top_k (Z.of_nat i) l' -> labels t ++ waiting l' ≡ₚ waiting l ->
  0 < zlen (tb_data t) <= attn_schedule_token_threshold (node_pool nd) ->
  exists w' nd' cs, node_turn (Z.of_nat r) stash forward run w nd = Ok (w', nd') /\ turned r w nd f stash w' nd' cs.
Proof.
  intros Hw Hr Hf Hwk Hs Hq Hh Hpick Hl Hpos E Hit Hok Hp Hsz. unfold node_turn. rewrite Hpick, E. cbn [mbind res_bind].
  pose proof (lookup_lt_Some _ _ _ Hl) as Hlt. rewrite is_attn_lt by (cbn; by rewrite length_insert).
  pose proof (pi_attn_count _ _ _ (si_pool _ _ _ _ _ Hs)) as Hcount. cbn [pool station_of] in Hcount. rewrite (si_threshold _ _ _ _ _ Hs : attn_schedule_token_threshold (node_pool nd) = _) in Hsz.
  pose proof (cf_layers _ _ _ _ _ _ _ _ Hconf) as HL. pose proof (cf_topk _ _ _ _ _ _ _ _ Hconf) as Hk.
  pose proof (contract top_k num_layers max_bs Hk w _ i l t _ Hs Hl Hit Hp Hsz ltac:(lia)) as Hpb.
  destruct (batch_total add (Z.of_nat r) hidden_size num_layers bs st_nb N max_bs max_pages RM stash w t HL (cf_pages _ _ _ _ _ _ _ _ Hconf) Hwk Hpb) as (w' & Er & _ & Hout).
  destruct (run_attn_meta (Z.of_nat r) stash t w w' Er) as (fb & -> & Hfb). cbn [mbind res_bind].
  unfold outcome in Hout. pose proof (ai_layer _ _ Hit) as Hlay. cbn [tagged] in Hlay. rewrite Hlay in *.
  destruct (Z.eqb_spec (Z.of_nat i) num_layers) as [Hi|Hi].
  - subst fb. destruct (loop_ok add rand top_k num_groups num_layers max_bs Hk HL w w' _ i l l' t Hs Hl Hit Hok Hp Hi Hout) as (b & p & -> & Ep & Hinv).
    cbn [of_option mbind res_bind station_of pool] in *. rewrite Ep. cbn [mbind res_bind]. pose proof (put_batch_experts _ _ _ Ep) as Hex. cbn in Hex.
    eexists w', _, []. split; [reflexivity|]. split; cbn [send_queue node_pool node_pick]; [done|by rewrite Hex| | |done|eapply (mv_loop _ _ _ _ _ _ _ t); try done; congruence].
    + rewrite app_nil_r. unfold node_away. cbn [send_queue node_pool]. by rewrite Hex.
    + rewrite app_nil_r. exact Hinv.
  - destruct Hfb as (x & -> & Hm). destruct (dispatched r i t x forward Hw Hr ltac:(lia) Hit ltac:(lia) Hf Hm) as (b & -> & Hob & Haw). cbn [mbind res_bind].
    eexists w', _, (copies_out top_k (Z.of_nat i) t). split; [reflexivity|]. split; cbn [send_queue node_pool node_pick]; [apply Forall_app; by split; [|constructor]|done| | |done|eapply (mv_attn _ _ _ _ _ _ _ t); try done; [lia|by rewrite Hlay]].
    + unfold node_away. cbn [send_queue node_pool]. rewrite away_push, layers_away_attn, Haw. solve_Permutation.
    + rewrite (proj1 Hout). by apply (advance_ok add rand top_k num_layers max_bs Hk (stages w) (station_of nd f) i l l' t).
Qed.

(** An expert batch: the copies turn back. *)
Lemma turn_expert r stash forward run w (nd : Node) f (i : nat) l :
  wired -> (r < R)%nat -> run_ok run ->
  station_inv top_k num_layers max_bs (stages w) (station_of nd f) -> Forall (outgoing r) (send_queue nd) -> layers_here r (expert_layers (node_pool nd)) ->
  node_pick nd = Some (Z.of_nat (length (attn_layers (node_pool nd)) + i)) -> expert_layers (node_pool nd) !! i = Some l -> 0 < num_tokens_ l ->
  exists w' nd' cs, node_turn (Z.of_nat r) stash forward run w nd = Ok (w', nd') /\ turned r w nd f stash w' nd' cs.
Proof.
  intros Hw Hr Hrun Hs Hq Hh Hpick Hl Hpos. unfold node_turn. rewrite Hpick. pose proof (si_pool _ _ _ _ _ Hs) as Hpi. cbn [pool station_of] in Hpi.
  destruct (get_expert add token_sort top_k hidden_size _ (node_pool nd) i l Hpi Hl Hpos) as (t & l' & -> & Hit & Hpi' & q & Hqp & Hqs & Hz & _). cbn [mbind res_bind].
  assert (is_attn_layer (Z.of_nat (length (attn_layers (node_pool nd)) + i)) (with_expert (<[i := l']> (expert_layers (node_pool nd))) (node_pool nd)) = false) as ->.
  { unfold is_attn_layer, zlen. cbn. apply Z.ltb_ge. lia. }
  pose proof (lookup_lt_Some _ _ _ Hl) as Hlt. rewrite (pi_expert_count _ _ _ Hpi) in Hlt. pose proof (Hh i l Hl) as Hhl. rewrite <-Hqs, Forall_app in Hhl.
  assert (Hlen : 0 < zlen (tb_data t)).
  { assert (zlen (tb_data t) = zlen q) as -> by (unfold zlen; by rewrite <-Hqp, rows_length). rewrite Hz, <-(el_count _ _ (pi_expert _ _ _ Hpi i l Hl)). pose proof (pi_expert_threshold _ _ _ Hpi). lia. }
  destruct (answered r i t run Hw ltac:(lia) Hit Hlen) as (b & -> & Hob & Haw); [rewrite Hqp; apply Hhl|done|]. cbn [mbind res_bind].
  eexists w, _, []. split; [reflexivity|]. split; cbn [send_queue node_pool node_pick expert_layers with_expert]; [apply Forall_app; by split; [|constructor]| | | |done|].
  - intros j m Hj. apply list_lookup_insert_Some in Hj as [(<- & <- & _)|[_ Hj]]; [apply Hhl|by apply (Hh j)].
  - rewrite app_nil_r. unfold node_away. cbn [send_queue node_pool expert_layers with_expert]. rewrite away_push, Haw, Hqp.
    pose proof (imap_update layer_away (expert_layers (node_pool nd)) i l l' Hl) as Hu. unfold layer_away at 2 4 in Hu. rewrite <-Hqs, fmap_app in Hu.
    apply (Permutation_app_inv_r (copy_of (Z.of_nat i + 1) <$> qrows (batch_queue l'))). rewrite <-!app_assoc. fold (layers_away (expert_layers (node_pool nd))) in Hu.
    fold (layers_away (<[i:=l']> (expert_layers (node_pool nd)))) in Hu. apply Permutation_app_head.
    rewrite <-Hu. solve_Permutation.
  - rewrite app_nil_r. destruct Hs. split; cbn [station_of pool flight chosen node_pool node_pick] in *; done.
  - eapply mv_expert; try done; [unfold has_pick; rewrite Hpick; apply negb_true_iff, Z.eqb_neq; lia|].
    intros Hnil. rewrite Hnil in Haw. apply Permutation_nil_l, (f_equal length) in Haw. rewrite length_fmap, rows_length in Haw. unfold zlen in Hlen. cbn in Haw. lia.
Qed.

Lemma node_turn_ok r stash forward run w (nd : Node) f :
  wired -> (r < R)%nat -> forward_ok forward -> run_ok run -> worker_ok w ->
  station_inv top_k num_layers max_bs (stages w) (station_of nd f) -> Forall (outgoing r) (send_queue nd) -> layers_here r (expert_layers (node_pool nd)) ->
  exists w' nd' cs, node_turn (Z.of_nat r) stash forward run w nd = Ok (w', nd') /\ turned r w nd f stash w' nd' cs.
Proof.
  intros Hw Hr Hf Hrun Hwk Hs Hq Hh. pose proof (si_pool _ _ _ _ _ Hs) as Hpi. cbn [pool station_of] in Hpi.
  assert (Hstay : has_pick nd = false -> forall p, p = node_pool nd -> turned r w nd f stash w {| node_pool := p; node_pick := None; send_queue := send_queue nd; node_sched := node_sched nd |} []).
  { intros Hno p ->. split; cbn [send_queue node_pool node_pick]; rewrite ?app_nil_r; try done; [|by apply mv_none]. destruct Hs. split; cbn [station_of pool flight chosen node_pool node_pick] in *; done. }
  destruct (node_pick nd) as [c|] eqn:Ec.
  2:{ exists w, nd, []. unfold node_turn. rewrite Ec. split; [done|]. split; rewrite ?app_nil_r; try done. apply mv_none; try done. unfold has_pick. by rewrite Ec. }
  destruct (si_pick _ _ _ _ _ Hs c Ec) as [->|(i & l & [[-> Hl]|[-> Hl]] & Hpos)]; cbn [pool station_of] in *.
  - exists w. eexists _, []. unfold node_turn. rewrite Ec. cbn. split; [reflexivity|]. apply Hstay; [unfold has_pick; by rewrite Ec|done].
  - destruct (get_attn add token_sort top_k hidden_size _ (node_pool nd) i l (cf_sort _ _ _ _ _ _ _ _ Hconf) Hpi Hl Hpos) as (t & l' & E & Hit & Hok & Hp & Hsz).
    by eapply turn_attn.
  - by eapply turn_expert.
Qed.
End Turn.

(** ** Every step keeps the invariant *)

(** What [PoolRank] sees of the closed loop. *)
Definition system_of (y : Net) : System :=
  {| cluster := net_cluster y; stations := imap (fun r nd => station_of nd (mine r (all_away y))) (nodes y) |}.

Lemma station_lookup y r nd : nodes y !! r = Some nd -> stations (system_of y) !! r = Some (station_of nd (mine r (all_away y))).
Proof. intros Hn. cbn. by rewrite list_lookup_imap, Hn. Qed.

Notation sys_inv := (system_inv add rand top_k hidden_size num_layers prompt bs max_bs max_pages min_tokens cap nbs).

Lemma net_system y : net_inv y -> sys_inv (system_of y).
Proof.
  intros [H1 H2 H3 _ _ _ _]. split; cbn [system_of cluster stations]; [done|by rewrite length_imap|].
  intros r w s Hw Hs. rewrite list_lookup_imap in Hs. destruct (nodes y !! r) as [nd|] eqn:E; [|done]. injection Hs as <-. by apply H3.
Qed.

Lemma node_worker y r w : net_inv y -> workers (net_cluster y) !! r = Some w -> (r < R)%nat /\ exists nb RM, worker_inv num_layers bs nb (stash_rows bs nb) max_bs max_pages RM w.
Proof.
  intros Hy Hw. split; [|by apply (rank_worker _ _ _ _ _ _ _ _ _ _ _ _ _ _ _ Hconf (system_of y) r w (net_system y Hy))].
  pose proof (reachable_inv add rand hidden_size num_layers prompt bs max_bs max_pages min_tokens cap nbs (net_cluster y)
    (cf_layers _ _ _ _ _ _ _ _ Hconf) (cf_pages _ _ _ _ _ _ _ _ Hconf) (cf_tokens _ _ _ _ _ _ _ _ Hconf) (nv_reach _ Hy)) as Hinv.
  rewrite <-(ci_count _ _ _ _ _ _ _ _ Hinv). by eapply lookup_lt_Some.
Qed.

(** Rank [r] takes its next state: [minus] of its copies are no longer away, [plus] are. *)
Lemma set_node_inv y r w nd w' nd' ws minus plus :
  net_inv y -> workers (net_cluster y) !! r = Some w -> nodes y !! r = Some nd ->
  Capacity.reachable add rand hidden_size num_layers prompt bs max_bs max_pages min_tokens cap nbs (net_cluster (set_node r w' nd' ws y)) ->
  node_away nd' ++ (ws ≫= fun x => away_of x.2) ++ (pair (Z.of_nat r) <$> minus) ≡ₚ node_away nd ++ (wires y ≫= fun x => away_of x.2) ++ (pair (Z.of_nat r) <$> plus) ->
  (forall f, f ++ minus ≡ₚ mine r (all_away y) ++ plus -> station_inv top_k num_layers max_bs (stages w') (station_of nd' f)) ->
  Forall (outgoing r) (send_queue nd') -> layers_here r (expert_layers (node_pool nd')) -> Forall arriving ws -> sched_ok (node_sched nd') ->
  net_inv (set_node r w' nd' ws y).
Proof.
  intros Hy Hw Hn Hre Haw Hst Hq Hl Hws Hsc. pose proof (nv_count _ Hy) as Hc.
  assert (Hall : all_away (set_node r w' nd' ws y) ++ (pair (Z.of_nat r) <$> minus) ≡ₚ all_away y ++ (pair (Z.of_nat r) <$> plus)).
  { unfold all_away. cbn [set_node nodes wires]. pose proof (bind_update node_away (nodes y) r nd nd' Hn) as Hu.
    apply (Permutation_app_inv_l (node_away nd)). rewrite <-!app_assoc, (Permutation_app_comm (node_away nd)), <-!app_assoc.
    transitivity ((<[r:=nd']> (nodes y) ≫= node_away) ++ node_away nd ++ (ws ≫= fun x => away_of x.2) ++ (pair (Z.of_nat r) <$> minus)); [solve_Permutation|].
    rewrite !app_assoc, Hu, <-!app_assoc, Haw. solve_Permutation. }
  assert (Hmine : forall k, mine k (all_away (set_node r w' nd' ws y)) ++ mine k (pair (Z.of_nat r) <$> minus) ≡ₚ mine k (all_away y) ++ mine k (pair (Z.of_nat r) <$> plus)).
  { intros k. by rewrite <-!mine_app, Hall. }
  assert (Hlook : forall k nd0, nodes (set_node r w' nd' ws y) !! k = Some nd0 -> k = r /\ nd0 = nd' \/ k <> r /\ nodes y !! k = Some nd0).
  { intros k nd0 Hk. cbn [set_node nodes] in Hk. apply list_lookup_insert_Some in Hk as [(-> & -> & _)|[Hne Hk]]; auto. }
  split; [done|cbn; by rewrite !length_insert| | | |done|].
  - intros k w0 nd0 Hw0 Hn0. destruct (Hlook k nd0 Hn0) as [[-> ->]|[Hne Hn1]].
    + cbn in Hw0. rewrite list_lookup_insert_eq in Hw0 by (by eapply lookup_lt_Some). injection Hw0 as <-. apply Hst. specialize (Hmine r). by rewrite !mine_all in Hmine.
    + cbn in Hw0. rewrite list_lookup_insert_ne in Hw0 by done. specialize (Hmine k). rewrite !mine_other, !app_nil_r in Hmine by done.
      apply (station_inv_perm top_k num_layers max_bs _ (station_of nd0 (mine k (all_away y)))); [by rewrite Hmine|by apply (nv_station _ Hy)].
  - intros k nd0 Hn0. destruct (Hlook k nd0 Hn0) as [[-> ->]|[_ Hn1]]; [done|by apply (nv_queue _ Hy)].
  - intros k nd0 Hn0. destruct (Hlook k nd0 Hn0) as [[-> ->]|[_ Hn1]]; [done|by apply (nv_layers _ Hy)].
  - intros k nd0 Hn0. destruct (Hlook k nd0 Hn0) as [[-> ->]|[_ Hn1]]; [done|by apply (nv_sched _ Hy k)].
Qed.

Lemma set_node_same y r w nd ws :
  net_inv y -> workers (net_cluster y) !! r = Some w ->
  Capacity.reachable add rand hidden_size num_layers prompt bs max_bs max_pages min_tokens cap nbs (net_cluster (set_node r w nd ws y)).
Proof.
  intros Hy Hw. cbn [set_node net_cluster]. rewrite list_insert_id by done. pose proof (nv_reach _ Hy) as Hre. by destruct (net_cluster y).
Qed.

(** *** Admission *)

Lemma node_admit_ok y r w nd tr :
  net_inv y -> workers (net_cluster y) !! r = Some w -> nodes y !! r = Some nd -> stages w !! tr_req_id tr = Some (Sent tr) ->
  exists w' p, node_admit (Z.of_nat r) tr w nd = Ok (w', {| node_pool := p; node_pick := node_pick nd; send_queue := send_queue nd; node_sched := node_sched nd |}) /\
    admit_request (Z.of_nat r) hidden_size rand tr w = Ok w' /\ expert_layers p = expert_layers (node_pool nd) /\
    forall f, f ≡ₚ mine r (all_away y) -> station_inv top_k num_layers max_bs (stages w')
      (station_of {| node_pool := p; node_pick := node_pick nd; send_queue := send_queue nd; node_sched := node_sched nd |} f).
Proof.
  intros Hy Hw Hn Hst. destruct (node_worker y r w Hy Hw) as (Hr & nb & RM & Hwk).
  destruct (admission_total add rand top_k num_groups hidden_size num_layers max_bs (cf_layers _ _ _ _ _ _ _ _ Hconf) bs nb _ max_pages RM (Z.of_nat r) tr w _ Hwk
    (nv_station _ Hy r w nd Hw Hn) Hst) as (w' & s' & E & Ea & Hinv).
  unfold admit_station in E. rewrite Ea in E. cbn [mbind res_bind] in E. apply bind_Ok in E as (b & Eb & E). apply bind_Ok in E as (p & Ep & E). injection E as <-.
  cbn [station_of pool] in Ep. exists w', p. unfold node_admit. rewrite Ea. cbn [mbind res_bind]. rewrite Eb. cbn [mbind res_bind]. rewrite Ep. cbn [mbind res_bind].
  split; [done|]. split; [done|]. split; [by eapply put_batch_experts|]. intros f Hf. by apply (station_inv_perm top_k num_layers max_bs _ _ f) in Hinv.
Qed.

(** *** The steps *)

Lemma control_keeps y c :
  net_inv y -> control_step prompt bs max_pages min_tokens (net_cluster y) c -> net_inv {| net_cluster := c; nodes := nodes y; wires := wires y |}.
Proof.
  intros Hy Hc. pose proof (reachable_inv add rand hidden_size num_layers prompt bs max_bs max_pages min_tokens cap nbs (net_cluster y)
    (cf_layers _ _ _ _ _ _ _ _ Hconf) (cf_pages _ _ _ _ _ _ _ _ Hconf) (cf_tokens _ _ _ _ _ _ _ _ Hconf) (nv_reach _ Hy)) as Hinv.
  destruct (control_stages num_layers prompt bs max_bs max_pages min_tokens cap nbs _ _ Hinv Hc) as [Hlen Hsame]. destruct Hy as [H1 H2 H3 H4 H5 H6 H7].
  split; cbn [net_cluster nodes wires]; try done; [eapply reach_step; [done|by apply cl_control]|congruence|].
  intros r w nd Hw Hn. destruct (Hsame r w Hw) as (w0 & Hw0 & Heq). eapply station_inv_same; [exact Heq|]. by eapply H3.
Qed.

Lemma admit_keeps y r w nd tr w' nd' :
  net_inv y -> workers (net_cluster y) !! r = Some w -> nodes y !! r = Some nd -> stages w !! tr_req_id tr = Some (Sent tr) ->
  node_admit (Z.of_nat r) tr w nd = Ok (w', nd') -> net_inv (set_node r w' nd' (wires y) y).
Proof.
  intros Hy Hw Hn Hst E. destruct (node_admit_ok y r w nd tr Hy Hw Hn Hst) as (w2 & p & E2 & Ea & Hex & Hs). rewrite E2 in E. injection E as <- <-.
  apply (set_node_inv y r w nd _ _ _ [] []); [exact Hy|exact Hw|exact Hn|eapply reach_step; [apply Hy|]; by eapply cl_admit| | | | | |].
  - unfold node_away. cbn [send_queue node_pool]. by rewrite Hex.
  - intros f Hf. apply Hs. by rewrite !app_nil_r in Hf.
  - exact (nv_queue _ Hy r nd Hn).
  - cbn [node_pool]. rewrite Hex. exact (nv_layers _ Hy r nd Hn).
  - apply Hy.
  - exact (nv_sched _ Hy r nd Hn).
Qed.

Lemma turn_keeps y r w nd stash forward run w' nd' :
  wired -> net_inv y -> workers (net_cluster y) !! r = Some w -> nodes y !! r = Some nd -> forward_ok forward -> run_ok run ->
  node_turn (Z.of_nat r) stash forward run w nd = Ok (w', nd') -> net_inv (set_node r w' nd' (wires y) y).
Proof.
  intros Hw Hy Hwk Hn Hf Hrun E. destruct (node_worker y r w Hy Hwk) as (Hr & nb & RM & Hwi).
  destruct (node_turn_ok nb _ RM r stash forward run w nd _ Hw Hr Hf Hrun Hwi (nv_station _ Hy r w nd Hwk Hn) (nv_queue _ Hy r nd Hn) (nv_layers _ Hy r nd Hn))
    as (w2 & nd2 & cs & E2 & [T1 T2 T3 T4 Tsc T5]). rewrite E2 in E. injection E as <- <-.
  apply (set_node_inv y r w nd _ _ _ [] cs); try done; [| | |apply Hy|rewrite Tsc; by apply (nv_sched _ Hy r nd)].
  - destruct (moved_worker _ _ _ _ _ _ _ T5) as [->|(tb & Hpb & Hrb)]; [by apply set_node_same|]. eapply reach_step; [apply Hy|]. by eapply cl_batch.
  - rewrite T3. solve_Permutation.
  - intros f Hf'. rewrite app_nil_r in Hf'. by apply (station_inv_perm top_k num_layers max_bs _ _ f) in T4.
Qed.

Lemma send_keeps y r w nd out nd' :
  wired -> net_inv y -> workers (net_cluster y) !! r = Some w -> nodes y !! r = Some nd -> node_send r nd = Ok (out, nd') ->
  net_inv (set_node r w nd' (wires y ++ out) y).
Proof.
  intros Hw Hy Hwk Hn E. destruct (node_worker y r w Hy Hwk) as (Hr & _).
  destruct (node_send_ok r nd Hw Hr (nv_queue _ Hy r nd Hn)) as (out2 & nd2 & E2 & S1 & S2 & Ssc & S3 & S4 & S5%send_away). rewrite E2 in E. injection E as <- <-.
  apply (set_node_inv y r w nd _ _ _ [] []); try done; [by apply set_node_same| | | | |rewrite Ssc; by apply (nv_sched _ Hy r nd)].
  - unfold node_away. rewrite S1, <-S5, bind_app. solve_Permutation.
  - intros f Hf. rewrite !app_nil_r in Hf. unfold station_of. rewrite S1, S2.
    by apply (station_inv_perm top_k num_layers max_bs _ (station_of nd (mine r (all_away y)))), (nv_station _ Hy).
  - rewrite S1. by apply (nv_layers _ Hy).
  - apply Forall_app. split; [apply Hy|done].
Qed.

Lemma wire_split {A} (f : A -> list (Z * (Z * (Z * Z)))) pre x post : (pre ++ x :: post) ≫= f ≡ₚ ((pre ++ post) ≫= f) ++ f x.
Proof. rewrite !bind_app, bind_cons. solve_Permutation. Qed.

Lemma mine_wire y r pre b post nd :
  wires y = pre ++ (Z.of_nat r, b) :: post -> nodes y !! r = Some nd ->
  mine r (all_away y) ≡ₚ mine r (away_of b) ++ mine r ((nodes y ≫= node_away) ++ ((pre ++ post) ≫= fun x => away_of x.2)).
Proof. intros Hws Hn. unfold all_away. rewrite Hws, wire_split, <-mine_app. apply mine_perm. solve_Permutation. Qed.

(** The receiving thread can file what arrives. *)
Lemma node_recv_ok y r w nd b pre post :
  net_inv y -> workers (net_cluster y) !! r = Some w -> nodes y !! r = Some nd -> wires y = pre ++ (Z.of_nat r, b) :: post ->
  exists nd', node_recv b nd = Ok nd' /\ net_inv (set_node r w nd' (pre ++ post) y).
Proof.
  intros Hy Hwk Hn Hws. pose proof (nv_wires _ Hy) as Hall. rewrite Hws in Hall. apply Forall_app in Hall as [Hpre [Hb Hpost]%Forall_cons].
  assert (Hrest : Forall arriving (pre ++ post)) by (by apply Forall_app). pose proof (nv_station _ Hy r w nd Hwk Hn) as Hs. pose proof (nv_layers _ Hy r nd Hn) as Hl.
  destruct Hb as (d & Hd & HdR & Hb). cbn [fst snd] in *. assert (d = r) as -> by lia. destruct Hb as [[Hb Hrows]|[Hb Hrows]].
  - destruct (recv_experts r (stages w) nd b _ Hs Hb Hrows Hl) as (nd' & E & Hs' & Hq & Hsc & Hl' & Haw). exists nd'. split; [done|].
    apply (set_node_inv y r w nd _ _ _ [] []); try done; [by apply set_node_same| | |rewrite Hq; by apply (nv_queue _ Hy)|rewrite Hsc; by apply (nv_sched _ Hy r nd)].
    + unfold node_away. rewrite Hq, Haw, Hws, wire_split. cbn [snd]. solve_Permutation.
    + intros f Hf. rewrite !app_nil_r in Hf. by apply (station_inv_perm top_k num_layers max_bs _ _ f) in Hs'.
  - destruct (node_worker y r w Hy Hwk) as (_ & nb & RM & Hwi). pose proof (away_ranks r b Hb Hrows) as Haw.
    set (cs := pair (layer_id (tb_meta (tagged b))) <$> labels (tagged b)) in *.
    set (f' := mine r ((nodes y ≫= node_away) ++ ((pre ++ post) ≫= fun x => away_of x.2))).
    assert (Hm : mine r (all_away y) ≡ₚ cs ++ f') by (rewrite (mine_wire y r pre b post nd Hws Hn), Haw, mine_all; done).
    destruct (recv_ranks r (stages w) nd b _ f' Hs (worker_lens num_layers max_bs bs nb _ max_pages RM w Hwi) Hb Hrows Hm) as (nd' & E & Hs' & Hq & Hsc & Hl').
    exists nd'. split; [done|]. apply (set_node_inv y r w nd _ _ _ cs []); try done; [by apply set_node_same| | |rewrite Hq; by apply (nv_queue _ Hy)|by rewrite Hl'|rewrite Hsc; by apply (nv_sched _ Hy r nd)].
    + unfold node_away. rewrite Hq, Hl', Hws, wire_split. cbn [snd]. rewrite Haw. solve_Permutation.
    + intros f Hf. rewrite app_nil_r, Hm, (Permutation_app_comm cs) in Hf. apply Permutation_app_inv_r in Hf.
      by apply (station_inv_perm top_k num_layers max_bs _ _ f) in Hs'.
Qed.

(** The layer that is picked has tokens. *)
Lemma busy_pick (p : UnifiedPool T) i : i = -1 \/ busy p i -> pick_ok p (Some i).
Proof.
  intros [->|(l & Hi & Hl & Hp)] j [= <-]; [by left|right]. unfold layers in Hl. destruct (decide (Z.to_nat i < length (attn_layers p))%nat) as [Hlt|Hge].
  - rewrite lookup_app_l in Hl by done. exists (Z.to_nat i), l. split; [left; split; [lia|done]|done].
  - rewrite lookup_app_r in Hl by lia. exists (Z.to_nat i - length (attn_layers p))%nat, l. split; [right; split; [lia|done]|done].
Qed.

Lemma node_choose_ok y r w nd :
  net_inv y -> workers (net_cluster y) !! r = Some w -> nodes y !! r = Some nd -> exists nd', node_choose nd = Ok nd' /\ net_inv (set_node r w nd' (wires y) y).
Proof.
  intros Hy Hwk Hn. pose proof (nv_station _ Hy r w nd Hwk Hn) as [H1 H2 H3 _ H5]. cbn [pool flight station_of] in *.
  destruct (sched_sound (node_pool nd) (node_sched nd) H1 (nv_sched _ Hy r nd Hn)) as (i & sc & E & Hsc & Hi & _).
  unfold node_choose, pick. rewrite E. cbn [mbind res_bind]. eexists. split; [reflexivity|].
  apply (set_node_inv y r w nd _ _ _ [] []); try done; [by apply set_node_same| |by apply (nv_queue _ Hy r nd)|by apply (nv_layers _ Hy r nd)|apply Hy].
  intros f Hf. rewrite !app_nil_r in Hf. apply (station_inv_perm top_k num_layers max_bs _ {| pool := node_pool nd; flight := mine r (all_away y); chosen := Some i |} f); [by rewrite Hf|].
  split; cbn [pool flight chosen]; [done|done|done|by apply busy_pick|done].
Qed.

Lemma rank_step_keeps f y y' : wired -> net_inv y -> rank_step f y y' -> net_inv y'.
Proof.
  intros Hw Hy Hstep. destruct Hstep as [y r w nd tr w' nd' Hwk Hn Hst E|y r w nd nd' Hwk Hn E|y r w nd stash forward run w' nd' Hwk Hn Hf Hrun E
    |y r w nd out nd' Hwk Hn E|y r w nd b pre post nd' Hwk Hn Hws E].
  - by eapply admit_keeps.
  - destruct (node_choose_ok y r w nd Hy Hwk Hn) as (nd2 & E2 & Hinv). rewrite E2 in E. by injection E as <-.
  - by eapply turn_keeps.
  - by eapply send_keeps.
  - destruct (node_recv_ok y r w nd b pre post Hy Hwk Hn Hws) as (nd2 & E2 & Hinv). rewrite E2 in E. by injection E as <-.
Qed.

Lemma net_inv_step y y' : wired -> net_inv y -> net_step y y' -> net_inv y'.
Proof. intros Hw Hy Hstep. destruct Hstep as [y c Hc|f y y' Hs]; [by apply control_keeps|by eapply rank_step_keeps]. Qed.

Hypothesis Hsched : sched_ok sched0.

Lemma net_start_inv c :
  cluster_start bs max_bs max_pages cap nbs c -> net_inv {| net_cluster := c; nodes := replicate (length (workers c)) fresh_node; wires := [] |}.
Proof.
  intros Hc. assert (Haway : forall n, replicate n fresh_node ≫= node_away = []).
  { assert (node_away fresh_node = []) as Hf.
    { unfold node_away, layers_away. cbn [fresh_node send_queue node_pool mbind list_bind app]. unfold new_pool. cbn [expert_layers].
      apply concat_nil_Forall, Forall_lookup. intros i x Hx. rewrite list_lookup_imap in Hx.
      destruct (replicate _ _ !! i) as [l|] eqn:E; [|done]. apply lookup_replicate in E as [-> _]. by injection Hx as <-. }
    induction n as [|n IH]; [done|]. cbn [replicate mbind list_bind]. by rewrite Hf. }
  split; cbn [net_cluster nodes wires]; [by apply reach_start|by rewrite length_replicate| | | |constructor|by intros r nd [-> _]%lookup_replicate].
  - intros r w nd Hw [-> _]%lookup_replicate. unfold all_away. cbn [nodes wires]. rewrite Haway. destruct Hc as (_ & _ & _ & Hf).
    destruct (Forall2_lookup_r _ _ _ _ _ Hf Hw) as (nb & _ & Hfw). rewrite (fw_stages _ _ _ _ _ Hfw). by apply fresh_station_inv; apply Hconf.
  - intros r nd [-> _]%lookup_replicate. constructor.
  - intros r nd [-> _]%lookup_replicate i l Hl. unfold fresh_node, new_pool in Hl. cbn [node_pool expert_layers] in Hl. apply lookup_replicate in Hl as [-> _]. constructor.
Qed.

Lemma net_reachable_inv y : wired -> net_reachable y -> net_inv y.
Proof. intros Hw. induction 1 as [c Hc|y y' _ IH Hstep]; [by apply net_start_inv|by eapply net_inv_step]. Qed.

(** *** What the invariant gives *)

Lemma net_count y r w : net_inv y -> workers (net_cluster y) !! r = Some w -> exists nd, nodes y !! r = Some nd.
Proof. intros Hy Hw. apply lookup_lt_is_Some_2. rewrite (nv_count _ Hy). by eapply lookup_lt_Some. Qed.

(** No thread of a rank raises. *)
Lemma rank_runs y r w nd :
  wired -> net_inv y -> workers (net_cluster y) !! r = Some w -> nodes y !! r = Some nd ->
  (forall tr, stages w !! tr_req_id tr = Some (Sent tr) -> is_ok (node_admit (Z.of_nat r) tr w nd) = true) /\
  (forall stash forward run, forward_ok forward -> run_ok run -> exists w' nd', node_turn (Z.of_nat r) stash forward run w nd = Ok (w', nd') /\
     (w' = w \/ exists tb, pool_batch num_layers max_bs w tb /\ run_batch add (Z.of_nat r) hidden_size num_layers stash tb w = Ok w')) /\
  is_ok (node_send r nd) = true /\
  (forall b pre post, wires y = pre ++ (Z.of_nat r, b) :: post -> is_ok (node_recv b nd) = true) /\
  is_ok (node_choose nd) = true.
Proof.
  intros Hw Hy Hwk Hn. destruct (node_worker y r w Hy Hwk) as (Hr & nb & RM & Hwi). split; [|split; [|split; [|split]]].
  - intros tr Htr. destruct (node_admit_ok y r w nd tr Hy Hwk Hn Htr) as (w' & p & -> & _). done.
  - intros stash forward run Hf Hrun.
    destruct (node_turn_ok nb _ RM r stash forward run w nd _ Hw Hr Hf Hrun Hwi (nv_station _ Hy r w nd Hwk Hn) (nv_queue _ Hy r nd Hn) (nv_layers _ Hy r nd Hn))
      as (w' & nd' & cs & E & Ht). exists w', nd'. split; [done|]. eapply moved_worker, Ht.
  - by destruct (node_send_ok r nd Hw Hr (nv_queue _ Hy r nd Hn)) as (out & nd' & -> & _).
  - intros b pre post Hws. by destruct (node_recv_ok y r w nd b pre post Hy Hwk Hn Hws) as (nd' & -> & _).
  - by destruct (node_choose_ok y r w nd Hy Hwk Hn) as (nd' & -> & _).
Qed.

(** A scheduler that picks no layer sees none with tokens. *)
Lemma none_idle y r w nd sc :
  net_inv y -> workers (net_cluster y) !! r = Some w -> nodes y !! r = Some nd -> pick (node_pool nd) (node_sched nd) = Ok (-1, sc) -> sched_fits (node_pool nd) ->
  idle (node_pool nd).
Proof.
  intros Hy Hwk Hn Ep. pose proof (si_pool _ _ _ _ _ (nv_station _ Hy r w nd Hwk Hn)) as Hpi. cbn [pool station_of] in Hpi.
  destruct (sched_sound (node_pool nd) (node_sched nd) Hpi (nv_sched _ Hy r nd Hn)) as (i & sc' & E & _ & _ & Hi).
  unfold pick in Ep. rewrite E in Ep. cbn [mbind res_bind] in Ep. injection Ep as -> _. by apply Hi.
Qed.

(** When nothing waits in the expert layers, the queues and the wires, nothing is away. *)
Lemma idle_away y :
  net_inv y -> wires y = [] -> (forall r nd, nodes y !! r = Some nd -> send_queue nd = [] /\ idle (node_pool nd)) -> all_away y = [].
Proof.
  intros Hy Hws Hidle. unfold all_away. rewrite Hws. cbn [mbind list_bind]. rewrite app_nil_r.
  assert (Hno : forall r nd, nodes y !! r = Some nd -> node_away nd = []).
  { intros r nd Hn. destruct (Hidle r nd Hn) as [Hq Hsch]. unfold node_away. rewrite Hq. cbn [mbind list_bind app]. unfold layers_away.
    apply concat_nil_Forall, Forall_lookup. intros i x Hx. rewrite list_lookup_imap in Hx. destruct (expert_layers (node_pool nd) !! i) as [l|] eqn:El; [|done]. injection Hx as <-.
    destruct (lookup_lt_is_Some_2 (workers (net_cluster y)) r) as [w Hw]; [rewrite <-(nv_count _ Hy); by eapply lookup_lt_Some|].
    pose proof (si_pool _ _ _ _ _ (nv_station _ Hy r w nd Hw Hn)) as Hpi. cbn [pool station_of] in Hpi.
    assert (Hnone : num_tokens_ l <= 0) by (apply Hsch, elem_of_app; right; by eapply list_elem_of_lookup_2). rewrite (el_count _ _ (pi_expert _ _ _ Hpi i l El)) in Hnone. unfold layer_away.
    destruct (qrows (batch_queue l)) as [|x q]; [done|]. rewrite zlen_cons in Hnone. pose proof (zlen_nonneg q). lia. }
  revert Hno. clear. induction (nodes y) as [|nd l IH]; intros Hno; [done|]. cbn [mbind list_bind]. rewrite (Hno 0%nat nd eq_refl). apply IH. intros r. apply (Hno (S r)).
Qed.

Lemma net_drained y :
  net_inv y -> wires y = [] -> (forall r nd, nodes y !! r = Some nd -> send_queue nd = [] /\ idle (node_pool nd)) ->
  forall r w id L pl, workers (net_cluster y) !! r = Some w -> stages w !! id <> Some (Queued L pl).
Proof.
  intros Hy Hws Hidle r w id L pl Hw. destruct (net_count y r w Hy Hw) as [nd Hn].
  apply (rank_drained _ _ _ _ _ _ _ _ _ _ _ _ _ _ _ Hconf (system_of y) r w _ (net_system y Hy) Hw (station_lookup y r nd Hn)).
  - cbn [station_of pool]. intros i l Hl. apply (Hidle r nd Hn), elem_of_app. left. by eapply list_elem_of_lookup_2.
  - cbn [station_of flight]. by rewrite (idle_away y Hy Hws Hidle).
Qed.

(** Where the copies of a queued request are. *)
Lemma net_owed y r w nd id (L : nat) pl :
  net_inv y -> workers (net_cluster y) !! r = Some w -> nodes y !! r = Some nd -> stages w !! id = Some (Queued (Z.of_nat L) pl) ->
  num_of (Z.of_nat L, (id, pl)) (mine r (all_away y)) + weight top_k L * num_of (id, pl) (waiting_at (node_pool nd) L) + gathered_at (node_pool nd) L (id, pl)
  = weight top_k L.
Proof.
  intros Hy Hw Hn Hq. pose proof (si_owed _ _ _ _ _ (nv_station _ Hy r w nd Hw Hn) L (id, pl)) as Ho.
  rewrite (due_queued _ _ L id pl L pl Hq), decide_True in Ho by done. exact Ho.
Qed.
(** ** Progress

    The work that is left: that of the requests of all ranks, and what their copies have
    still to go through. *)

Definition queue_work (b : Tagged T) : Z := 1 + (if decide (batch_tag b = ATTENTION) then 4 else 1) * zlen (tb_data (tagged b)).

Definition wire_work (b : Tagged T) : Z := 1 + (if decide (batch_tag b = ATTENTION) then 3 else 0) * zlen (tb_data (tagged b)).

Definition node_work (nd : Node) : Z := sumZ (queue_work <$> send_queue nd) + 3 * zlen (layers_away (expert_layers (node_pool nd))).

Definition net_work (y : Net) : Z :=
  sumZ (rank_work top_k num_layers <$> workers (net_cluster y)) + sumZ (node_work <$> nodes y) + sumZ ((fun x => wire_work x.2) <$> wires y).

Lemma away_length (b : Tagged T) : zlen (away_of b) = zlen (tb_data (tagged b)).
Proof. unfold away_of, zlen. by rewrite length_fmap, rows_length. Qed.

Lemma queue_work_pos b : 0 < queue_work b.
Proof. unfold queue_work. pose proof (zlen_nonneg (tb_data (tagged b))). case_decide; lia. Qed.

Lemma wire_work_pos b : 0 < wire_work b.
Proof. unfold wire_work. pose proof (zlen_nonneg (tb_data (tagged b))). case_decide; lia. Qed.

Lemma queues_work_nonneg (q : list (Tagged T)) : 0 <= sumZ (queue_work <$> q).
Proof. apply sumZ_nonneg, Forall_fmap, Forall_true. intros b. pose proof (queue_work_pos b). cbn. lia. Qed.

Lemma node_work_nonneg nd : 0 <= node_work nd.
Proof. unfold node_work. pose proof (queues_work_nonneg (send_queue nd)). pose proof (zlen_nonneg (layers_away (expert_layers (node_pool nd)))). lia. Qed.

(** The pieces of a batch cost less than the batch. *)
Lemma sent_work b (out : list (Z * Tagged T)) : sent b out -> sumZ ((fun x => wire_work x.2) <$> out) < queue_work b.
Proof.
  intros [Hall Haw]. unfold queue_work. rewrite <-away_length, <-Haw. clear Haw.
  enough (sumZ ((fun x => wire_work x.2) <$> out) <= (if decide (batch_tag b = ATTENTION) then 4 else 1) * zlen (out.*2 ≫= away_of)) by lia.
  induction Hall as [|[d p] out [Ht Hne] _ IH]; [unfold zlen; cbn; lia|]. cbn [fmap list_fmap mbind list_bind sumZ foldr fst snd] in *.
  fold (sumZ ((fun x : Z * Tagged T => wire_work x.2) <$> out)). rewrite zlen_app, away_length. unfold wire_work at 1. rewrite Ht.
  assert (0 < zlen (tb_data (tagged p))). { unfold zlen. rewrite <-rows_length. destruct (rows (tagged p)); [done|cbn; lia]. }
  case_decide; lia.
Qed.

Lemma set_node_work y r w nd w' nd' ws :
  workers (net_cluster y) !! r = Some w -> nodes y !! r = Some nd ->
  net_work (set_node r w' nd' ws y) = net_work y - rank_work top_k num_layers w + rank_work top_k num_layers w' - node_work nd + node_work nd'
    - sumZ ((fun x => wire_work x.2) <$> wires y) + sumZ ((fun x => wire_work x.2) <$> ws).
Proof.
  intros Hw Hn. unfold net_work. cbn [set_node net_cluster workers nodes wires]. rewrite !list_fmap_insert.
  rewrite (sumZ_insert _ r (rank_work top_k num_layers w)), (sumZ_insert _ r (node_work nd)) by (by rewrite list_lookup_fmap, ?Hw, ?Hn). lia.
Qed.

(** A turn pays for the copies it makes. *)
Lemma turn_work st_nb N RM r w nd f stash w' nd' cs :
  worker_inv num_layers bs st_nb N max_bs max_pages RM w -> turned r w nd f stash w' nd' cs ->
  rank_work top_k num_layers w' + node_work nd' + (if has_pick nd then 1 else 0) <= rank_work top_k num_layers w + node_work nd.
Proof.
  intros Hwk [_ _ Haw _ _ Hm]. pose proof (cf_topk _ _ _ _ _ _ _ _ Hconf) as Hk. pose proof (cf_layers _ _ _ _ _ _ _ _ Hconf) as HL. pose proof (cf_pages _ _ _ _ _ _ _ _ Hconf) as Hmp.
  unfold node_work, node_away in *.
  destruct Hm as [-> Hp Hq Hx ->|tb b Hpb Hrun Hlay Hq Hb Hx ->|tb Hpb Hrun Hlay Hq Hx ->|b -> Hp Hq Hb Hne ->].
  - rewrite Hp, Hq, Hx. lia.
  - pose proof (batch_work top_k num_layers add (Z.of_nat r) hidden_size bs st_nb N max_bs max_pages RM Hk HL stash tb w w' Hmp Hwk Hpb Hrun) as Hle.
    pose proof (pb_size _ _ _ _ Hpb) as [Hpos _]. rewrite Hq, Hx, fmap_app, sumZ_app. rewrite Hq, Hx, away_push in Haw.
    apply Permutation_length in Haw. rewrite !length_app, length_fmap, copies_out_eq, length_fmap, repeat_vector_length in Haw.
    assert (Hz : zlen (tb_data (tagged b)) = top_k * zlen (req_ids (tb_meta tb))).
    { rewrite <-away_length. unfold zlen. unfold labels in Haw. rewrite length_zip_with, (prefill_length num_layers max_bs w tb Hpb), Nat.min_id in Haw. lia. }
    cbn [fmap list_fmap sumZ foldr]. unfold queue_work. rewrite Hb, decide_True, Hz by done. unfold row_cost in Hle. destruct (has_pick nd); nia.
  - pose proof (batch_work top_k num_layers add (Z.of_nat r) hidden_size bs st_nb N max_bs max_pages RM Hk HL stash tb w w' Hmp Hwk Hpb Hrun) as Hle.
    pose proof (pb_size _ _ _ _ Hpb) as [Hpos _]. pose proof (row_cost_pos top_k Hk). rewrite Hq, Hx. destruct (has_pick nd); nia.
  - rewrite Hp, Hq, fmap_app, sumZ_app. rewrite Hq, away_push in Haw. apply Permutation_length in Haw.
    rewrite !length_app in Haw. cbn [fmap list_fmap length] in Haw. cbn [fmap list_fmap sumZ foldr]. unfold queue_work. rewrite Hb, decide_False, <-away_length by done.
    assert (0 < zlen (away_of b)) by (unfold zlen; destruct (away_of b); [done|cbn; lia]). unfold zlen in *. lia.
Qed.

Lemma send_work r (nd nd' : Node) out :
  wired -> (r < R)%nat -> Forall (outgoing r) (send_queue nd) -> node_send r nd = Ok (out, nd') ->
  sumZ ((fun x => wire_work x.2) <$> out) + node_work nd' + (if has_queue nd then 1 else 0) <= node_work nd.
Proof.
  intros Hw Hr Hq E. destruct (node_send_ok r nd Hw Hr Hq) as (out2 & nd2 & E2 & S1 & _ & _ & _ & _ & S5). rewrite E2 in E. injection E as <- <-.
  unfold node_work, has_queue. rewrite S1. destruct (send_queue nd) as [|b q]; [destruct S5 as [-> ->]; cbn; lia|].
  destruct S5 as [-> Hs%sent_work]. cbn [fmap list_fmap sumZ foldr]. fold (sumZ (queue_work <$> q)). lia.
Qed.

Lemma recv_work y r w nd b pre post nd' :
  net_inv y -> workers (net_cluster y) !! r = Some w -> nodes y !! r = Some nd -> wires y = pre ++ (Z.of_nat r, b) :: post -> node_recv b nd = Ok nd' ->
  node_work nd' < node_work nd + wire_work b.
Proof.
  intros Hy Hwk Hn Hws E. pose proof (nv_wires _ Hy) as Hall. rewrite Hws in Hall. apply Forall_app in Hall as [_ [Hb _]%Forall_cons].
  pose proof (nv_station _ Hy r w nd Hwk Hn) as Hs. pose proof (nv_layers _ Hy r nd Hn) as Hl. unfold node_work.
  destruct Hb as (d & Hd & HdR & Hb). cbn [fst snd] in *. assert (d = r) as -> by lia. destruct Hb as [[Hb Hrows]|[Hb Hrows]].
  - destruct (recv_experts r (stages w) nd b _ Hs Hb Hrows Hl) as (nd2 & E2 & _ & Hq & _ & _ & Haw). rewrite E2 in E. injection E as <-.
    rewrite Hq. assert (Hz : zlen (layers_away (expert_layers (node_pool nd2))) = zlen (layers_away (expert_layers (node_pool nd))) + zlen (tb_data (tagged b))).
    { rewrite <-away_length, <-zlen_app. unfold zlen. by rewrite Haw. }
    rewrite Hz. destruct Hb as [Ht _]. unfold wire_work. rewrite Ht, decide_True by done. lia.
  - destruct (node_worker y r w Hy Hwk) as (_ & nb & RM & Hwi). pose proof (away_ranks r b Hb Hrows) as Haw.
    pose proof (mine_wire y r pre b post nd Hws Hn) as Hm. rewrite Haw, mine_all in Hm.
    destruct (recv_ranks r (stages w) nd b _ _ Hs (worker_lens num_layers max_bs bs nb _ max_pages RM w Hwi) Hb Hrows Hm) as (nd2 & E2 & _ & Hq & _ & Hl').
    rewrite E2 in E. injection E as <-. rewrite Hq, Hl'. pose proof (wire_work_pos b). lia.
Qed.

(** Every step that does work leaves less of it, the others no more. *)
Lemma step_work f y y' : wired -> net_inv y -> rank_step f y y' -> net_work y' + (if f then 1 else 0) <= net_work y.
Proof.
  intros Hw Hy Hstep. pose proof (cf_topk _ _ _ _ _ _ _ _ Hconf) as Hk. pose proof (cf_layers _ _ _ _ _ _ _ _ Hconf) as HL.
  destruct Hstep as [y r w nd tr w' nd' Hwk Hn Hst E|y r w nd nd' Hwk Hn E|y r w nd stash forward run w' nd' Hwk Hn Hf Hrun E
    |y r w nd out nd' Hwk Hn E|y r w nd b pre post nd' Hwk Hn Hws E]; destruct (node_worker y r w Hy Hwk) as (Hr & nb & RM & Hwi); rewrite (set_node_work y r w nd) by done.
  - destruct (node_admit_ok y r w nd tr Hy Hwk Hn Hst) as (w2 & p & E2 & Ea & Hex & _). rewrite E2 in E. injection E as <- <-.
    pose proof (admit_work top_k num_layers add (Z.of_nat r) hidden_size bs nb _ max_bs max_pages RM Hk HL rand tr w w2 Hwi Hst Ea).
    unfold node_work. cbn [send_queue node_pool]. rewrite Hex. lia.
  - unfold node_choose in E. apply bind_Ok in E as ([i sc] & _ & E). injection E as <-. unfold node_work. cbn [send_queue node_pool]. lia.
  - destruct (node_turn_ok nb _ RM r stash forward run w nd _ Hw Hr Hf Hrun Hwi (nv_station _ Hy r w nd Hwk Hn) (nv_queue _ Hy r nd Hn) (nv_layers _ Hy r nd Hn))
      as (w2 & nd2 & cs & E2 & Ht). rewrite E2 in E. injection E as <- <-. pose proof (turn_work nb _ RM r w nd _ stash w2 nd2 cs Hwi Ht). lia.
  - pose proof (send_work r nd nd' out Hw Hr (nv_queue _ Hy r nd Hn) E). rewrite fmap_app, sumZ_app. lia.
  - pose proof (recv_work y r w nd b pre post nd' Hy Hwk Hn Hws E). rewrite Hws, !fmap_app, fmap_cons, !sumZ_app. cbn [sumZ foldr snd].
    fold (sumZ ((fun x : Z * Tagged T => wire_work x.2) <$> post)). lia.
Qed.

Lemma net_work_nonneg y : net_inv y -> 0 <= net_work y.
Proof.
  intros Hy. unfold net_work, node_work.
  assert (0 <= sumZ (rank_work top_k num_layers <$> workers (net_cluster y))).
  { apply sumZ_nonneg, Forall_fmap, Forall_lookup. intros r w Hwk. destruct (node_worker y r w Hy Hwk) as (_ & nb & RM & Hwi).
    apply (rank_work_nonneg top_k num_layers bs nb _ max_bs max_pages RM (cf_topk _ _ _ _ _ _ _ _ Hconf) (cf_layers _ _ _ _ _ _ _ _ Hconf) w Hwi). }
  assert (0 <= sumZ ((fun nd => sumZ (queue_work <$> send_queue nd) + 3 * zlen (layers_away (expert_layers (node_pool nd)))) <$> nodes y)).
  { apply sumZ_nonneg, Forall_fmap, Forall_true. intros nd. cbn. pose proof (zlen_nonneg (layers_away (expert_layers (node_pool nd)))).
    pose proof (queues_work_nonneg (send_queue nd)). lia. }
  assert (0 <= sumZ ((fun x => wire_work x.2) <$> wires y)); [|lia].
  apply sumZ_nonneg, Forall_fmap, Forall_true. intros x. pose proof (wire_work_pos x.2). cbn. lia.
Qed.
(** No layer holds more tokens than there is work. *)
Lemma tokens_bounded y r nd l : net_inv y -> nodes y !! r = Some nd -> l ∈ layers (node_pool nd) -> num_tokens_ l <= net_work y.
Proof.
  intros Hy Hn Hl. destruct (lookup_lt_is_Some_2 (workers (net_cluster y)) r) as [w Hwk]; [rewrite <-(nv_count _ Hy); by eapply lookup_lt_Some|].
  pose proof (cf_topk _ _ _ _ _ _ _ _ Hconf) as Hk. pose proof (cf_layers _ _ _ _ _ _ _ _ Hconf) as HL.
  destruct (node_worker y r w Hy Hwk) as (_ & nb & RM & Hwi). pose proof (nv_station _ Hy r w nd Hwk Hn) as Hs. pose proof (si_pool _ _ _ _ _ Hs) as Hpi. cbn [pool station_of] in Hpi.
  assert (Hpart : rank_work top_k num_layers w <= net_work y /\ node_work nd <= net_work y).
  { destruct (sumZ_member (rank_work top_k num_layers) (workers (net_cluster y)) w) as [H1 H2]; [|by eapply list_elem_of_lookup_2|].
    { apply Forall_lookup. intros k w2 Hk2. destruct (node_worker y k w2 Hy Hk2) as (_ & nb2 & RM2 & Hwi2). by apply (rank_work_nonneg top_k num_layers bs nb2 _ max_bs max_pages RM2 Hk HL w2 Hwi2). }
    destruct (sumZ_member node_work (nodes y) nd) as [H3 H4]; [apply Forall_true, node_work_nonneg|by eapply list_elem_of_lookup_2|].
    assert (0 <= sumZ ((fun x => wire_work x.2) <$> wires y)). { apply sumZ_nonneg, Forall_fmap, Forall_true. intros x. pose proof (wire_work_pos x.2). cbn. lia. }
    unfold net_work. lia. }
  apply elem_of_app in Hl as [[i Hi]%list_elem_of_lookup|[i Hi]%list_elem_of_lookup].
  - rewrite <-(waiting_count top_k _ l (pi_attn _ _ _ Hpi i l Hi)).
    assert (Hq : waiting l ++ [] ≡ₚ waiting l) by by rewrite app_nil_r.
    pose proof (taken_nodup top_k num_layers max_bs Hk _ _ i l (waiting l) [] Hs Hi Hq) as Hnd.
    pose proof (queued_work top_k num_layers bs nb _ max_bs max_pages RM Hk HL w (waiting l).*1 Hwi Hnd) as Hle. unfold zlen in *. rewrite length_fmap in Hle.
    enough (Z.of_nat (length (waiting l)) <= rank_work top_k num_layers w) by lia. apply Hle. intros id ([id' pl] & -> & Hin)%list_elem_of_fmap.
    destruct (taken_once top_k num_layers max_bs Hk _ _ i l (waiting l) [] _ Hs Hi Hq Hin) as [E _]. by eexists _, _.
  - rewrite (el_count _ _ (pi_expert _ _ _ Hpi i l Hi)). enough (zlen (qrows (batch_queue l)) <= zlen (layers_away (expert_layers (node_pool nd)))).
    { pose proof (zlen_nonneg (qrows (batch_queue l))). assert (0 <= sumZ (queue_work <$> send_queue nd)) by apply queues_work_nonneg. unfold node_work in Hpart. lia. }
    pose proof (imap_update layer_away (expert_layers (node_pool nd)) i l l Hi) as Hu. unfold layers_away.
    rewrite <-(take_drop_middle _ _ _ Hi), imap_app, concat_app, imap_cons. cbn [concat]. unfold zlen. rewrite !length_app. unfold layer_away at 2. rewrite length_fmap. lia.
Qed.

(** *** Runs of the ranks *)

(** A run of the ranks' threads, with the number of its steps that do work. *)
Inductive rank_run : nat -> Net -> Net -> Prop :=
  | run_none y : rank_run 0 y y
  | run_step f n y y' y'' : rank_step f y y' -> rank_run n y' y'' -> rank_run (if f then S n else n) y y''.

(** Nothing is under way and every request of every rank has ended. *)
Definition finished (y : Net) : Prop :=
  wires y = [] /\ (forall r nd, nodes y !! r = Some nd -> send_queue nd = []) /\
  forall r w id st, workers (net_cluster y) !! r = Some w -> stages w !! id = Some st -> st = Ended.

Lemma run_work n y y' : wired -> net_inv y -> rank_run n y y' -> net_inv y' /\ Z.of_nat n + net_work y' <= net_work y.
Proof.
  intros Hw Hy Hrun. induction Hrun as [y|f n y y' y'' Hs _ IH]; [split; [done|lia]|].
  pose proof (step_work f y y' Hw Hy Hs). destruct (IH (rank_step_keeps f y y' Hw Hy Hs)) as [G1 G2]. split; [done|]. destruct f; lia.
Qed.

Lemma net_worker_at y r : net_inv y -> (r < R)%nat -> exists w nd, workers (net_cluster y) !! r = Some w /\ nodes y !! r = Some nd.
Proof.
  intros Hy Hr. pose proof (reachable_inv add rand hidden_size num_layers prompt bs max_bs max_pages min_tokens cap nbs (net_cluster y)
    (cf_layers _ _ _ _ _ _ _ _ Hconf) (cf_pages _ _ _ _ _ _ _ _ Hconf) (cf_tokens _ _ _ _ _ _ _ _ Hconf) (nv_reach _ Hy)) as Hinv.
  destruct (lookup_lt_is_Some_2 (workers (net_cluster y)) r) as [w Hw]; [by rewrite (ci_count _ _ _ _ _ _ _ _ Hinv)|].
  destruct (net_count y r w Hy Hw) as [nd Hn]. by exists w, nd.
Qed.

(** Something on a wire can be received, something in a queue sent. *)
Lemma wires_continue y x ws : net_inv y -> wires y = x :: ws -> exists y', rank_step true y y'.
Proof.
  intros Hy Hws. pose proof (nv_wires _ Hy) as Hall. rewrite Hws in Hall. apply Forall_cons in Hall as [(d & Hd & HdR & _) _]. destruct x as [z b]. cbn in Hd. subst z.
  destruct (net_worker_at y d Hy HdR) as (w & nd & Hwk & Hn). destruct (node_recv_ok y d w nd b [] ws Hy Hwk Hn Hws) as (nd' & E & _).
  eexists. by eapply (rs_recv y d w nd b []).
Qed.

Lemma queue_continues y r w nd :
  wired -> net_inv y -> workers (net_cluster y) !! r = Some w -> nodes y !! r = Some nd -> send_queue nd <> [] -> exists y', rank_step true y y'.
Proof.
  intros Hw Hy Hwk Hn Hq. destruct (node_worker y r w Hy Hwk) as (Hr & _). destruct (node_send_ok r nd Hw Hr (nv_queue _ Hy r nd Hn)) as (out & nd' & E & _).
  assert (Hh : has_queue nd = true) by (unfold has_queue; by destruct (send_queue nd)). eexists. rewrite <-Hh. by eapply rs_send.
Qed.

Lemma sent_continues y r w id tr :
  net_inv y -> workers (net_cluster y) !! r = Some w -> stages w !! id = Some (Sent tr) -> exists y', rank_step true y y'.
Proof.
  intros Hy Hwk Hst. destruct (net_count y r w Hy Hwk) as [nd Hn]. destruct (node_worker y r w Hy Hwk) as (_ & nb & RM & Hwi).
  destruct (wi_stage _ _ _ _ _ _ _ _ Hwi id _ Hst) as (_ & _ & _ & _ & _ & _ & Hid & _). rewrite <-Hid in Hst.
  destruct (node_admit_ok y r w nd tr Hy Hwk Hn Hst) as (w' & p & E & _). eexists. by eapply rs_admit.
Qed.

Context (stash : Z -> T) (forward : AttentionForwardBatch T -> AttentionForwardResult T) (run : BatchMetadata -> list T -> list T).
Hypothesis Hforward : forward_ok forward.
Hypothesis Hrun : run_ok run.

(** A layer with tokens can be picked and run. *)
Lemma pick_continues y r w nd i sc :
  wired -> net_inv y -> workers (net_cluster y) !! r = Some w -> nodes y !! r = Some nd -> pick (node_pool nd) (node_sched nd) = Ok (i, sc) -> i <> -1 ->
  exists y', rank_run 1 y y'.
Proof.
  intros Hw Hy Hwk Hn Ep Hi. destruct (node_choose_ok y r w nd Hy Hwk Hn) as (nd' & E & Hy').
  assert (Hp : has_pick nd' = true).
  { unfold node_choose in E. rewrite Ep in E. cbn [mbind res_bind] in E. injection E as <-. unfold has_pick. cbn. by apply negb_true_iff, Z.eqb_neq. }
  set (y1 := set_node r w nd' (wires y) y) in *. assert (Hwk' : workers (net_cluster y1) !! r = Some w) by (cbn; apply list_lookup_insert_eq; by eapply lookup_lt_Some).
  assert (Hn' : nodes y1 !! r = Some nd') by (cbn; apply list_lookup_insert_eq; by eapply lookup_lt_Some).
  destruct (rank_runs y1 r w nd' Hw Hy' Hwk' Hn') as (_ & Ht & _). destruct (Ht stash forward run Hforward Hrun) as (w' & nd2 & E2 & _).
  eexists. apply (run_step false 1 y y1); [by eapply rs_choose|]. apply (run_step true 0 y1 (set_node r w' nd2 (wires y1) y1)); [|apply run_none].
  rewrite <-Hp. by apply (rs_turn y1 r w nd' stash forward run w' nd2).
Qed.

(** The node's scheduler picks a layer now. *)
Definition picks (nd : Node) : bool := match pick (node_pool nd) (node_sched nd) with Ok (i, _) => negb (i =? -1) | Raise _ => false end.

Definition is_sent (st : stage) : bool := match st with Sent _ => true | _ => false end.

(** No deadlock: until everything is finished some thread has work to do. *)
Lemma run_continues y :
  wired -> net_inv y -> (forall r nd, nodes y !! r = Some nd -> sched_fits (node_pool nd)) -> finished y \/ exists y', rank_run 1 y y'.
Proof.
  intros Hw Hy Hfit. assert (Hone : (exists y', rank_step true y y') -> exists y', rank_run 1 y y').
  { intros [y' Hs]. exists y'. apply (run_step true 0 y y' y' Hs), run_none. }
  assert (Hat : forall r nd, nodes y !! r = Some nd -> exists w, workers (net_cluster y) !! r = Some w).
  { intros r nd Hn. apply lookup_lt_is_Some_2. rewrite <-(nv_count _ Hy). by eapply lookup_lt_Some. }
  destruct (wires y) as [|x ws] eqn:Hws; [|right; by eapply Hone, wires_continue].
  destruct (decide (Exists (fun nd => has_queue nd = true \/ picks nd = true) (nodes y))) as [He|Hne].
  { right. apply Exists_exists in He as (nd & [r Hn]%list_elem_of_lookup & Hnd). destruct (Hat r nd Hn) as [w Hwk]. destruct Hnd as [Hq|Hp].
    - eapply Hone, queue_continues; [done..|]. unfold has_queue in Hq. by destruct (send_queue nd).
    - unfold picks in Hp. destruct (pick (node_pool nd) (node_sched nd)) as [[i sc]|] eqn:Ep; [|done]. eapply pick_continues; [done..|exact Ep|by apply Z.eqb_neq, negb_true_iff]. }
  destruct (decide (Exists (fun w => ~ map_Forall (fun _ st => is_sent st = false) (stages w)) (workers (net_cluster y)))) as [He|Hns].
  { right. apply Hone. apply Exists_exists in He as (w & [r Hwk]%list_elem_of_lookup & Hm). apply map_not_Forall in Hm as (id & st & Hst & Hs); [|solve_decision].
    destruct st as [tr| |]; [|done|done]. by eapply sent_continues. }
  left. apply not_Exists_Forall in Hne; [|solve_decision]. rewrite Forall_lookup in Hne.
  assert (Hidle : forall r nd, nodes y !! r = Some nd -> send_queue nd = [] /\ idle (node_pool nd)).
  { intros r nd Hn. apply Hne in Hn as Hnd. cbn in Hnd. apply Decidable.not_or in Hnd as [Hnq Hnp].
    split; [unfold has_queue in Hnq; by destruct (send_queue nd)|].
    destruct (Hat r nd Hn) as [w Hwk]. destruct (node_choose_ok y r w nd Hy Hwk Hn) as (nd' & E & _). unfold node_choose in E. apply bind_Ok in E as ([i sc] & Ep & _).
    unfold picks in Hnp. rewrite Ep in Hnp. destruct (Z.eq_dec i (-1)) as [Ei|Ei]; [rewrite Ei in Ep|destruct Hnp; by apply negb_true_iff, Z.eqb_neq]. eapply none_idle; [done..|exact Ep|by eapply Hfit]. }
  split; [done|]. split; [intros r nd Hn; by apply (Hidle r nd)|]. intros r w id st Hwk Hst. destruct st as [tr|L pl|]; [| |done].
  - exfalso. apply Hns. apply Exists_exists. exists w. split; [by eapply list_elem_of_lookup_2|]. intros Hall. by specialize (Hall id _ Hst).
  - by destruct (net_drained y Hy Hws Hidle r w id L pl Hwk).
Qed.
End Net.

(** ** On the colocated placement

    The tables of every rank are the ones the controller makes from the placement. *)

Section Deployed.
Context {T P St : Type} `{HCP : CapacityPolicy P} `{!LayerScheduler (T := T) St}.
Context (add : T -> T -> T) (token_sort : (TokenTopKInfo T -> TokenTopKInfo T -> bool) -> list (TokenTopKInfo T) -> list (TokenTopKInfo T)).
Context (row_sort : (Z -> Z -> bool) -> list Z -> list Z).
Context (rand empty : T) (scale : float -> T -> T) (use_gdr : bool).
Context (top_k num_groups hidden_size : Z) (prompt : Z -> list Z).
Context (bs max_bs max_bs_expert max_pages min_tokens : Z) (cap nbs : list Z).
Context (sched0 : St) (dispatcher : nat -> UnifiedDispatcher) (peers : nat -> list Z).
Context (s : ColocatePlacement) (pl : ModelPlacement).

Notation mc := (model_config (colo_base s)).
Notation R := (length nbs).
Notation num_layers := (Config.num_layers mc).
Notation num_experts := (Config.num_experts mc).

Context `{!LayerSchedulerLaws top_k (Z.to_nat num_layers) St}.

(** What rank [r] is started with. *)
Definition tables_of {U} (r : nat) (args : InitCoreArgs U) : Prop :=
  peers r = ic_out_device_ids U args /\ exists dp ep nper, Z.of_nat R <= dp /\
  new_dispatcher dp num_experts ep nper (ic_expert_ranks U args) (zlen (ic_out_device_ids U args)) (ic_out_channel_infos U args) = Ok (dispatcher r).

Record deployed : Prop := {
  dy_solve : Placement.solve s = Ok pl;
  dy_ranks : Z.of_nat R = n_node (cluster_config (colo_base s)) * n_gpu (cluster_config (colo_base s));
  dy_experts : 0 < num_experts <= max_num_experts;
  dy_sort : forall less l, row_sort less l ≡ₚ l;
  dy_sched : sched_ok sched0;
  dy_tables : forall r, (r < R)%nat -> exists workers ews inb outb (args : InitCoreArgs Z),
    init_core_args workers ews pl inb outb (Z.of_nat r) = Ok args /\ tables_of r args;
}.

Lemma deployed_wired : deployed -> 0 < num_layers -> exists host, colocated s pl host /\ wired row_sort num_experts nbs dispatcher peers host.
Proof.
  intros [Hs HR HE Hso _ Ht] HL. destruct (colocate_layout s pl Hs) as (host & Hc). exists host. split; [done|].
  assert (Htab : forall r, (r < R)%nat ->
    (forall e, 0 <= e < num_experts -> exists c, _expert_get_channel_id e (dispatcher r) = Ok c /\ vec_at (peers r) c = Ok (host e)) /\
    (forall e k, 0 <= e < num_experts -> Z.of_nat r = host e -> 0 <= k < Z.of_nat R -> exists c, _attn_get_channel_id k (dispatcher r) = Ok c /\ vec_at (peers r) c = Ok k)).
  { intros r Hr. destruct (Ht r Hr) as (workers & ews & inb & outb & args & Hargs & Hp & dp & ep & nper & Hdp & Hd).
    destruct (tables_ok s pl host workers ews inb outb (Z.of_nat r) dp ep nper args Hc HL) as (d & Hd' & He & Ha); [lia..|exact Hargs|].
    rewrite Hd' in Hd. injection Hd as <-. rewrite Hp. split; [exact He|]. intros e k He' Hh Hk. apply (Ha e k); [done|done|lia]. }
  split; [apply HE|done| |].
  - intros r e Hr He. destruct (Htab r Hr) as [Hx _]. destruct (Hx e He) as (c & H1 & H2). exists c. do 2 (split; [done|]). rewrite HR. by apply (cl_device _ _ _ Hc).
  - intros r e k Hr He Hh Hk. destruct (Htab r Hr) as [_ Hx]. by apply (Hx e k).
Qed.

Hypothesis Hconf : configured token_sort top_k num_groups num_layers max_bs max_bs_expert max_pages min_tokens.

Notation net_reach := (net_reachable (P := P) add token_sort row_sort rand empty scale use_gdr top_k num_groups hidden_size num_layers num_experts prompt
  bs max_bs max_bs_expert max_pages min_tokens cap nbs sched0 dispatcher peers).

Notation inv_at := (net_inv add rand top_k hidden_size num_layers num_experts prompt bs max_bs max_pages min_tokens cap nbs).

Lemma deployed_inv (y : Net (P := P)) : deployed -> net_reach y -> exists host, colocated s pl host /\ wired row_sort num_experts nbs dispatcher peers host /\ inv_at host y.
Proof.
  intros Hd Hy. destruct (deployed_wired Hd (cf_layers _ _ _ _ _ _ _ _ Hconf)) as (host & Hc & Hw). exists host. do 2 (split; [done|]).
  eapply net_reachable_inv; [exact Hconf|apply Hd|exact Hw|exact Hy].
Qed.

(** C3. The closed loop is safe, on a cluster configured as follows: colocated ranks
    started with the tables of the controller; a scheduling policy that looks at the free
    blocks (not the plain round robin); one block per rank beyond what the scheduler was
    told; requests that reserve at least a hundred tokens and fit the page buffers;
    [top_k] above one, [num_groups] at most one and positive batch limits.
    There, in every state that any order of the threads' steps reaches, with whatever
    well-formed answers the model gives back: the workers are in a state the admission
    theorem covers; what is on a wire goes to a rank that exists; no admission, choice of a
    layer, turn of the engine, send or receive raises, and each batch of a turn keeps the contract of the
    pool; and a row that waits for an expert waits where the placement put the expert of
    that layer. *)
Theorem closed_loop_safe (y : Net (P := P)) :
  deployed -> net_reach y ->
  Capacity.reachable add rand hidden_size num_layers prompt bs max_bs max_pages min_tokens cap nbs (net_cluster y) /\
  Forall (fun x => exists d, x.1 = Z.of_nat d /\ is_Some (nodes y !! d)) (wires y) /\
  forall r w nd, workers (net_cluster y) !! r = Some w -> nodes y !! r = Some nd ->
    (forall tr, stages w !! tr_req_id tr = Some (Sent tr) -> is_ok (node_admit rand top_k num_groups hidden_size (Z.of_nat r) tr w nd) = true) /\
    (forall stash forward run, forward_ok top_k num_experts forward -> run_ok run ->
       exists w' nd', node_turn add token_sort row_sort empty scale use_gdr top_k num_groups hidden_size num_layers (Z.of_nat r) stash forward run w nd = Ok (w', nd') /\
         (w' = w \/ exists tb, pool_batch num_layers max_bs w tb /\ run_batch add (Z.of_nat r) hidden_size num_layers stash tb w = Ok w')) /\
    is_ok (node_send dispatcher peers r nd) = true /\
    (forall b pre post, wires y = pre ++ (Z.of_nat r, b) :: post -> is_ok (node_recv top_k num_groups b nd) = true) /\
    is_ok (node_choose nd) = true /\
    (forall i l row, expert_layers (node_pool nd) !! i = Some l -> row ∈ qrows (batch_queue l) -> (Z.of_nat i, row_expert row) ∈ expert_ids_at pl (Z.of_nat r)).
Proof.
  intros Hd Hre. destruct (deployed_inv y Hd Hre) as (host & Hc & Hw & Hy). split; [apply Hy|]. split.
  - assert (Hn : length (nodes y) = R).
    { rewrite (nv_count _ _ _ _ _ _ _ _ _ _ _ _ _ _ _ Hy). pose proof (reachable_inv add rand hidden_size num_layers prompt bs max_bs max_pages min_tokens cap nbs (net_cluster y)
        (cf_layers _ _ _ _ _ _ _ _ Hconf) (cf_pages _ _ _ _ _ _ _ _ Hconf) (cf_tokens _ _ _ _ _ _ _ _ Hconf) (nv_reach _ _ _ _ _ _ _ _ _ _ _ _ _ _ _ Hy)) as Hinv. by apply (ci_count _ _ _ _ _ _ _ _ Hinv). }
    eapply Forall_impl; [apply (nv_wires _ _ _ _ _ _ _ _ _ _ _ _ _ _ _ Hy)|]. intros x (d & Hx & Hlt & _). exists d. split; [done|]. apply lookup_lt_is_Some. lia.
  - intros r w nd Hwk Hn. destruct (rank_runs add token_sort row_sort rand empty scale use_gdr top_k num_groups hidden_size num_layers num_experts prompt
      bs max_bs max_bs_expert max_pages min_tokens cap nbs dispatcher peers host Hconf y r w nd Hw Hy Hwk Hn) as (R1 & R2 & R3 & R4 & R5).
    do 5 (split; [done|]). intros i l row Hl Hrow. pose proof (nv_layers _ _ _ _ _ _ _ _ _ _ _ _ _ _ _ Hy r nd Hn i l Hl) as Hh. rewrite Forall_forall in Hh.
    destruct (Hh row Hrow) as [[He _] Hrh]. apply (cl_experts _ _ _ Hc). apply lookup_lt_Some in Hl.
    pose proof (nv_station _ _ _ _ _ _ _ _ _ _ _ _ _ _ _ Hy r w nd Hwk Hn) as Hst. pose proof (si_pool _ _ _ _ _ Hst) as Hpi. cbn [pool station_of] in Hpi.
    rewrite (pi_expert_count _ _ _ Hpi) in Hl. pose proof (cf_layers _ _ _ _ _ _ _ _ Hconf). split; [lia|]. split; [done|congruence].
Qed.

(** Nothing is stuck in the closed loop: when no batch is on a wire or in a queue of
    a dispatcher and the layer scheduler of every rank, whichever it is, picks nothing,
    no request of any rank is between its layers. *)
Theorem closed_loop_drained (y : Net (P := P)) :
  deployed -> net_reach y -> wires y = [] ->
  (forall r nd, nodes y !! r = Some nd -> send_queue nd = [] /\ sched_fits (node_pool nd) /\ exists sc, pick (node_pool nd) (node_sched nd) = Ok (-1, sc)) ->
  forall r w id L p, workers (net_cluster y) !! r = Some w -> stages w !! id <> Some (Queued L p).
Proof.
  intros Hd Hre Hws Hnone r w id L p Hw. destruct (deployed_inv y Hd Hre) as (host & _ & _ & Hy).
  eapply net_drained; [exact Hconf|exact Hy|exact Hws| |exact Hw]. intros k nd Hn. destruct (Hnone k nd Hn) as (Hq & Hf & sc & Ep). split; [done|].
  destruct (lookup_lt_is_Some_2 (workers (net_cluster y)) k) as [w' Hw']; [rewrite <-(nv_count _ _ _ _ _ _ _ _ _ _ _ _ _ _ _ Hy); by eapply lookup_lt_Some|].
  by eapply none_idle.
Qed.

(** Some model: every token goes to expert 0. *)
Definition some_forward (fb : AttentionForwardBatch T) : AttentionForwardResult T :=
  let n := length (req_ids (fb_meta_c fb)) in
  {| fr_hiddens := replicate n empty; fr_expert_ids := replicate n (replicate (Z.to_nat top_k) 0);
     fr_expert_weights := replicate n (replicate (Z.to_nat top_k) (float_of_Z 1)) |}.

Lemma some_forward_ok : 0 < num_experts -> forward_ok top_k num_experts some_forward.
Proof.
  intros He fb. cbv zeta. unfold some_forward. cbn [fr_hiddens fr_expert_ids fr_expert_weights]. split; [apply length_replicate|].
  induction (length (req_ids (fb_meta_c fb))) as [|n (IH1 & IH2 & IH3)]; [by repeat constructor|]. cbn [replicate concat]. rewrite !length_app, !length_replicate.
  split; [lia|]. split; [lia|]. apply Forall_app. split; [by apply Forall_replicate|done].
Qed.

Notation runs := (rank_run (T := T) (P := P) (St := St) add token_sort row_sort rand empty scale use_gdr top_k num_groups hidden_size num_layers num_experts dispatcher peers).

(** The tokens that wait along a run are within the work there was. *)
Lemma run_tokens (y : Net (P := P)) n y' r nd l :
  deployed -> net_reach y -> runs n y y' -> nodes y' !! r = Some nd -> l ∈ layers (node_pool nd) -> num_tokens_ l <= net_work top_k num_layers y.
Proof.
  intros Hd Hre Hrun Hn Hl. destruct (deployed_inv y Hd Hre) as (host & _ & Hw & Hy).
  eapply run_work in Hrun as Hle; [|exact Hconf|exact Hw|exact Hy]. destruct Hle as [Hy' Hle]. eapply tokens_bounded in Hl; [|exact Hconf|exact Hy'|exact Hn]. lia.
Qed.

(** C6. Every request that was delivered to a rank completes, on a cluster configured as
    for the closed loop's safety.  A run consists of steps of the ranks' threads; the
    requests the controller still holds are not part of it (one that no rank can take never
    leaves the controller).  From any reachable state, however these steps are interleaved
    and whatever well-formed answers the model gives back, a run contains at most
    [net_work] steps that do work (admissions, turns with a layer, sends, receives); and it
    can always go on to another one until every request sent to a rank has ended and nothing
    is left in a queue or on a wire.  A layer scheduler has to see the tokens that wait
    ([sched_fits]): the first-layer-first scheduler always does, the defragging one up to
    2^24 tokens, and no layer ever has more than [net_work]. *)
Theorem closed_loop_completes (y : Net (P := P)) :
  deployed -> net_reach y ->
  (forall n y' r nd, runs n y y' -> nodes y' !! r = Some nd -> sched_fits (node_pool nd)) ->
  forall n y', runs n y y' -> Z.of_nat n <= net_work top_k num_layers y /\ (finished y' \/ exists y'', runs 1 y' y'').
Proof.
  intros Hd Hre Hfit n y' Hrun. destruct (deployed_inv y Hd Hre) as (host & _ & Hw & Hy).
  eapply run_work in Hrun as Hn; [|exact Hconf|exact Hw|exact Hy]. destruct Hn as [Hy' Hn]. split.
  - pose proof (net_work_nonneg _ _ _ _ _ _ _ _ _ _ _ _ _ _ _ _ _ Hconf y' Hy'). lia.
  - eapply run_continues with (host := host) (stash := fun _ => empty) (forward := some_forward) (run := fun _ l => l); [exact Hconf|apply some_forward_ok, Hd|by intros m l|exact Hw|exact Hy'|].
    intros r nd. by apply Hfit with (n := n).
Qed.

(** C5. Exactly once.  The copies of a request that waits for layer [L]: those in the
    dispatchers, on the wires and in the expert layers of all ranks, and those its rank
    has gathered, are together the [top_k] the layer needs (one for the first layer), or
    the row itself waits at the layer and there is no copy. *)
Theorem closed_loop_exact (y : Net (P := P)) r w nd id (L : nat) p :
  deployed -> net_reach y -> workers (net_cluster y) !! r = Some w -> nodes y !! r = Some nd -> stages w !! id = Some (Queued (Z.of_nat L) p) ->
  num_of (Z.of_nat L, (id, p)) (mine r (all_away y)) + weight top_k L * num_of (id, p) (waiting_at (node_pool nd) L) + gathered_at (node_pool nd) L (id, p)
  = weight top_k L.
Proof. intros Hd Hre Hw Hn Hq. destruct (deployed_inv y Hd Hre) as (host & _ & _ & Hy). by eapply net_owed. Qed.
End Deployed.

(** ** Executable steps *)

Section Run.
Context {T P St : Type} `{HCP : CapacityPolicy P} `{!LayerScheduler (T := T) St}.
Context (add : T -> T -> T) (token_sort : (TokenTopKInfo T -> TokenTopKInfo T -> bool) -> list (TokenTopKInfo T) -> list (TokenTopKInfo T)).
Context (row_sort : (Z -> Z -> bool) -> list Z -> list Z).
Context (rand empty : T) (scale : float -> T -> T) (use_gdr : bool).
Context (top_k num_groups hidden_size num_layers num_experts : Z) (prompt : Z -> list Z).
Context (bs max_bs max_bs_expert max_pages min_tokens : Z) (cap nbs : list Z).
Context (sched0 : St) (dispatcher : nat -> UnifiedDispatcher) (peers : nat -> list Z).
Context (stash : Z -> T) (forward : AttentionForwardBatch T -> AttentionForwardResult T) (run : BatchMetadata -> list T -> list T).
Hypothesis Hforward : forward_ok top_k num_experts forward.
Hypothesis Hrun : run_ok run.

Inductive net_action : Type :=
  | NControl (a : action)
  | NAdmit (r : nat) (tr : TokenizedRequest)
  | NChoose (r : nat)
  | NTurn (r : nat)
  | NSend (r : nat)
  (** The oldest batch on a wire, if there is one. *)
  | NRecv.

Definition at_rank (r : nat) (y : Net (T := T) (P := P) (St := St)) (f : Worker T -> Node (St := St) -> option (Net (T := T) (P := P) (St := St))) : option Net :=
  w ← workers (net_cluster y) !! r; nd ← nodes y !! r; f w nd.

Definition net_exec (y : Net (T := T) (P := P) (St := St)) (a : net_action) : option Net :=
  match a with
  | NControl (Admit _ _) => None
  | NControl a => c ← exec rand hidden_size prompt bs max_pages min_tokens (net_cluster y) a; Some {| net_cluster := c; nodes := nodes y; wires := wires y |}
  | NAdmit r tr => at_rank r y (fun w nd =>
      match stages w !! tr_req_id tr with
      | Some (Sent tr') =>
          if decide (tr_req_id tr' = tr_req_id tr) then
            match node_admit rand top_k num_groups hidden_size (Z.of_nat r) tr' w nd with Ok (w', nd') => Some (set_node r w' nd' (wires y) y) | Raise _ => None end
          else None
      | _ => None
      end)
  | NChoose r => at_rank r y (fun w nd => match node_choose nd with Ok nd' => Some (set_node r w nd' (wires y) y) | Raise _ => None end)
  | NTurn r => at_rank r y (fun w nd =>
      match node_turn add token_sort row_sort empty scale use_gdr top_k num_groups hidden_size num_layers (Z.of_nat r) stash forward run w nd with
      | Ok (w', nd') => Some (set_node r w' nd' (wires y) y)
      | Raise _ => None
      end)
  | NSend r => at_rank r y (fun w nd =>
      match node_send dispatcher peers r nd with Ok (out, nd') => Some (set_node r w nd' (wires y ++ out) y) | Raise _ => None end)
  | NRecv =>
      match wires y with
      | [] => Some y
      | (d, b) :: post =>
          if decide (0 <= d) then
            at_rank (Z.to_nat d) y (fun w nd => match node_recv top_k num_groups b nd with Ok nd' => Some (set_node (Z.to_nat d) w nd' post y) | Raise _ => None end)
          else None
      end
  end.

Definition net_exec_all (l : list net_action) (y : Net) : option Net := foldl (fun y a => y ≫= fun y => net_exec y a) (Some y) l.

Notation step := (net_step add token_sort row_sort rand empty scale use_gdr top_k num_groups hidden_size num_layers num_experts prompt bs max_pages min_tokens dispatcher peers).

Notation reach := (net_reachable (P := P) add token_sort row_sort rand empty scale use_gdr top_k num_groups hidden_size num_layers num_experts prompt
  bs max_bs max_bs_expert max_pages min_tokens cap nbs sched0 dispatcher peers).

Lemma at_rank_Some r y f y' :
  at_rank r y f = Some y' -> exists w nd, workers (net_cluster y) !! r = Some w /\ nodes y !! r = Some nd /\ f w nd = Some y'.
Proof. intros (w & Hw & (nd & Hn & E)%bind_Some)%bind_Some. by exists w, nd. Qed.

Lemma net_exec_step y a y' : net_exec y a = Some y' -> y' = y \/ step y y'.
Proof.
  destruct a as [a|r tr|r|r|r|]; cbn [net_exec].
  - intros E. right. assert (Ha : forall r tr, a <> Admit r tr) by (by intros ? ? ->).
    destruct (exec _ _ _ _ _ _ (net_cluster y) a) as [c|] eqn:Ec; [|by destruct a].
    assert (y' = {| net_cluster := c; nodes := nodes y; wires := wires y |}) as -> by (destruct a; cbn in E; congruence). apply nt_control. by eapply exec_control.
  - intros (w & nd & Hw & Hn & E)%at_rank_Some. right. destruct (stages w !! tr_req_id tr) as [[tr'| |]|] eqn:Et; try done. case_decide as Hd; [|done].
    destruct (node_admit _ _ _ _ _ _ _ _) as [[w' nd']|] eqn:Ea; [|done]. injection E as <-. eapply nt_rank, rs_admit; [done|done| |exact Ea]. by rewrite Hd.
  - intros (w & nd & Hw & Hn & E)%at_rank_Some. right. destruct (node_choose nd) as [nd'|] eqn:Ec; [|done]. injection E as <-. by eapply nt_rank, rs_choose.
  - intros (w & nd & Hw & Hn & E)%at_rank_Some. right. destruct (node_turn _ _ _ _ _ _ _ _ _ _ _ _ _ _ _ _) as [[w' nd']|] eqn:Et; [|done]. injection E as <-.
    by eapply nt_rank, rs_turn.
  - intros (w & nd & Hw & Hn & E)%at_rank_Some. right. destruct (node_send _ _ _ _) as [[out nd']|] eqn:Es; [|done]. injection E as <-. by eapply nt_rank, rs_send.
  - destruct (wires y) as [|[d b] post] eqn:Ews; [intros [= <-]; by left|]. case_decide as Hd; [|done].
    intros (w & nd & Hw & Hn & E)%at_rank_Some. right. destruct (node_recv _ _ _ _) as [nd'|] eqn:Er; [|done]. injection E as <-.
    eapply nt_rank. change post with ([] ++ post) at 2. eapply rs_recv; [done|done| |exact Er]. by rewrite Z2Nat.id.
Qed.

Lemma net_exec_reachable l y y' : reach y -> net_exec_all l y = Some y' -> reach y'.
Proof.
  unfold net_exec_all. intros Hy. revert y'. induction l as [|a l IH] using rev_ind; intros y'; [by intros [= <-]|].
  rewrite foldl_snoc. intros E. destruct (foldl _ (Some y) l) as [y1|] eqn:E1; [|done]. cbn [mbind option_bind] in E.
  destruct (net_exec_step y1 a y' E) as [->|Hs]; [by apply IH|]. eapply net_next; [by apply IH|done].
Qed.
End Run.

(** *** Two ranks with two experts each *)

Definition loop_colo : ColocatePlacement := ex_colo (Some [2; 2]) 2.

Definition loop_place : ModelPlacement := ex_place (solve loop_colo).

Definition loop_args (r : nat) : option (InitCoreArgs Z) :=
  match init_core_args 2 false loop_place [] [] (Z.of_nat r) with Ok args => Some args | Raise _ => None end.

Definition loop_dispatcher (r : nat) : UnifiedDispatcher :=
  match loop_args r with
  | Some args => ok_or {| expert_to_rank := []; rank_to_channel := [] |} (new_dispatcher 2 4 1 1 (ic_expert_ranks Z args) (zlen (ic_out_device_ids Z args)) (ic_out_channel_infos Z args))
  | None => {| expert_to_rank := []; rank_to_channel := [] |}
  end.

Definition loop_peers (r : nat) : list Z := match loop_args r with Some args => ic_out_device_ids Z args | None => [] end.

Definition loop_start : Cluster (T := Z) (P := DPSchedulerCapRR) :=
  {| csys := {| sched := let s := init 2 16 {| cap_cur_rank := 0 |} in ok_or s (start [(0, 15); (1, 15)] s); pc := Waiting; submitted := [] |};
     workers := [demo_worker; demo_worker] |}.

(** Every token goes to one expert of each rank. *)
Definition loop_forward (fb : AttentionForwardBatch Z) : AttentionForwardResult Z :=
  let ids := req_ids (fb_meta_c fb) in
  {| fr_hiddens := ids; fr_expert_ids := (fun _ => [3; 0]) <$> ids; fr_expert_weights := (fun _ => [float_of_Z 1; float_of_Z 1]) <$> ids |}.

Definition loop_run (_ : BatchMetadata) (data : list Z) : list Z := (fun x => x + 1) <$> data.

(** The demonstration is run under any layer scheduler that keeps the laws. *)
Section Demo.
Context {St : Type} `{!LayerScheduler (T := Z) St} `{!LayerSchedulerLaws 2 2 St} (s0 : St).

Definition loop_exec := net_exec_all (P := DPSchedulerCapRR) (St := St) Z.add insertion_sort insertion_sort 0 0 (fun _ x => x) true 2 1 4 2 demo_prompt 16 8 100
  loop_dispatcher loop_peers (fun s => s) loop_forward loop_run.

Definition loop_net : Net (T := Z) (P := DPSchedulerCapRR) (St := St) :=
  {| net_cluster := loop_start; nodes := replicate 2 (fresh_node 2 2 4 4 s0); wires := [] |}.

Definition loop_admission (r : nat) (id p o : Z) : list net_action :=
  [NControl (Put (demo_item id p o)); NControl Loop; NAdmit r (demo_request id p o)].

(** Each rank takes a turn and sends; four batches arrive. *)
Definition loop_round : list net_action := [NChoose 0; NTurn 0; NSend 0; NChoose 1; NTurn 1; NSend 1; NRecv; NRecv; NRecv; NRecv].

Definition loop_after (l : list net_action) : Net (T := Z) (P := DPSchedulerCapRR) (St := St) := default loop_net (loop_exec l loop_net).

Notation loop_reach := (net_reachable (P := DPSchedulerCapRR) Z.add insertion_sort insertion_sort 0 0 (fun _ x => x) true 2 1 4 2 4 demo_prompt 16 4 4 8 100
  [15; 15] [16; 16] s0 loop_dispatcher loop_peers).

Lemma loop_starts : cluster_start 16 4 8 [15; 15] [16; 16] loop_start.
Proof.
  destruct demo_starts as (_ & _ & _ & Hf). apply Forall2_cons in Hf as [Hf _]. split; [|split; [done|split]].
  - repeat split; try done. by repeat constructor.
  - repeat constructor; lia.
  - by repeat constructor.
Qed.

Lemma loop_model : forward_ok 2 4 loop_forward /\ run_ok loop_run.
Proof.
  split; [|intros m data; apply length_fmap]. intros fb. cbv zeta. unfold loop_forward. cbn [fr_hiddens fr_expert_ids fr_expert_weights]. change (Z.to_nat 2) with 2%nat.
  split; [done|]. induction (req_ids (fb_meta_c fb)) as [|id ids (IH1 & IH2 & IH3)]; [by repeat constructor|].
  cbn [fmap list_fmap concat length app] in *. split; [lia|]. split; [lia|]. by repeat constructor.
Qed.

Lemma loop_deployed : sched_ok s0 -> deployed insertion_sort 2 [16; 16] s0 loop_dispatcher loop_peers loop_colo loop_place.
Proof.
  intros Hs. split; [vm_compute; reflexivity|done|by vm_compute|intros; apply insertion_sort_perm|exact Hs|]. intros r Hr. exists 2, false, [], [].
  destruct r as [|[|r]]; [| |cbn in Hr; lia]; (eexists; split; [vm_compute; reflexivity|]);
    (split; [vm_compute; reflexivity|exists 2, 1, 1; split; [done|vm_compute; reflexivity]]).
Qed.

Lemma loop_configured : configured (T := Z) insertion_sort 2 1 (Config.num_layers (model_config (colo_base loop_colo))) 4 4 8 100.
Proof. exact demo_configured. Qed.

Lemma loop_after_reachable l : bool_decide (is_Some (loop_exec l loop_net)) = true -> loop_reach (loop_after l).
Proof.
  intros E%bool_decide_eq_true. unfold loop_after. destruct (loop_exec l loop_net) as [y|] eqn:Ey; [|by destruct E].
  eapply net_exec_reachable; [apply loop_model|apply loop_model| |exact Ey]. apply (net_start _ _ _ _ _ _ _ _ _ _ _ _ _ _ _ _ _ _ _ _ _ _ _ loop_start). apply loop_starts.
Qed.

Definition loop_node (y : Net (T := Z) (P := DPSchedulerCapRR) (St := St)) (r : nat) : Node := default (fresh_node 2 2 4 4 s0) (nodes y !! r).

Definition loop_worker (y : Net (T := Z) (P := DPSchedulerCapRR) (St := St)) (r : nat) : Worker Z := default demo_worker (workers (net_cluster y) !! r).


Lemma picked_some (nd : Node (T := Z) (St := St)) (i : Z) :
  match pick (node_pool nd) (node_sched nd) with Ok (j, _) => Some j | Raise _ => None end = Some i ->
  exists sc, pick (node_pool nd) (node_sched nd) = Ok (i, sc).
Proof. destruct (pick (node_pool nd) (node_sched nd)) as [[j sc]|e]; [|done]. intros [= ->]. by exists sc. Qed.
End Demo.

(** Under the scheduler the first layer first. *)
Lemma loop_unified : deployed (LayerSchedulerLaws0 := UnifiedLayerScheduler_laws (T := Z) 2 2) insertion_sort 2 [16; 16] () loop_dispatcher loop_peers loop_colo loop_place.
Proof. by apply loop_deployed. Qed.

(** Under the defragging scheduler, with windows of 3 turns and 3 layers ahead. *)
Notation defrag := (defragging (T := Z) 2 3 4 demo_decay).
Notation defrag_laws := (defragging_laws (T := Z) 2 3 4 demo_decay demo_params 2).

Lemma loop_defragging :
  deployed (LayerSchedulerLaws0 := defrag_laws) insertion_sort 2 [16; 16] (new_defragging 3 5) loop_dispatcher loop_peers loop_colo loop_place.
Proof. apply (loop_deployed (LayerSchedulerLaws0 := defrag_laws)). by apply (new_defragging_ok 3 5). Qed.

(** Rank 0 has sent the first layer's copies of a request: one batch for its own expert,
    one for an expert of rank 1, which rank 1 can file. *)
Lemma closed_loop_safe_witness :
  let y := loop_after () (loop_admission 0 5 99 1 ++ [NChoose 0; NTurn 0; NSend 0; NRecv]) in
  exists b, wires y = [(1, b)] /\ exp_ids (tb_meta (tagged b)) = [3] /\ is_ok (node_recv 2 1 b (loop_node () y 1)) = true.
Proof.
  intros y. destruct (wires y) as [|[d b] ws] eqn:Ews; [exfalso; revert Ews; vm_compute; discriminate|].
  assert (Hd : (d, ws) = (1, []) /\ exp_ids (tb_meta (tagged b)) = [3]) by (revert Ews; vm_compute; intros [= <- <- <-]; done).
  destruct Hd as [[= -> ->] Hb]. exists b. split; [done|]. split; [exact Hb|].
  destruct (closed_loop_safe (P := DPSchedulerCapRR) Z.add insertion_sort insertion_sort 0 0 (fun _ x => x) true 2 1 4 demo_prompt 16 4 4 8 100 [15; 15] [16; 16]
    () loop_dispatcher loop_peers loop_colo loop_place loop_configured y loop_unified) as (_ & _ & Hy).
  - apply loop_after_reachable. vm_compute. reflexivity.
  - destruct (Hy 1%nat (loop_worker y 1) (loop_node () y 1)) as (_ & _ & _ & Hr & _); [vm_compute; reflexivity..|]. by apply (Hr b [] []).
Defined.

(** Two requests through both layers and out, the experts on both ranks, under the
    defragging scheduler. *)
Lemma closed_loop_drained_witness :
  let y := loop_after (LayerScheduler0 := defrag) (new_defragging 3 5)
    (loop_admission 0 5 99 1 ++ loop_admission 1 6 99 1 ++ concat (replicate 5 loop_round)) in
  stages (loop_worker y 0) !! 5 = Some Ended /\ forall L p, stages (loop_worker y 1) !! 6 <> Some (Queued L p).
Proof.
  intros y. split; [vm_compute; reflexivity|]. intros L p.
  apply (closed_loop_drained (P := DPSchedulerCapRR) (LayerScheduler0 := defrag) Z.add insertion_sort insertion_sort 0 0 (fun _ x => x) true 2 1 4 demo_prompt 16 4 4 8 100
    [15; 15] [16; 16] (new_defragging 3 5) loop_dispatcher loop_peers loop_colo loop_place (LayerSchedulerLaws0 := defrag_laws) loop_configured y loop_defragging) with (r := 1%nat).
  - apply (loop_after_reachable (LayerScheduler0 := defrag)). vm_compute. reflexivity.
  - vm_compute. reflexivity.
  - assert (Hn : (fun nd => (length (send_queue nd), get_pool_snapshot (node_pool nd), match pick (H := defrag) (node_pool nd) (node_sched nd) with Ok (i, _) => Some i | Raise _ => None end)) <$> nodes y =
      replicate 2 (0%nat, replicate 5 0, Some (-1))) by (vm_compute; reflexivity).
    intros r nd Hr. apply (f_equal (fun l => l !! r)) in Hn. rewrite list_lookup_fmap, Hr in Hn. symmetry in Hn. apply lookup_replicate in Hn as [Hn _].
    injection Hn as Hq Hs Hp. split; [by apply nil_length_inv|]. split; [change (Forall (fun t => t < 2 ^ 24) (get_pool_snapshot (node_pool nd))); rewrite Hs; by repeat constructor|].
    by apply picked_some.
  - vm_compute. reflexivity.
Defined.

(** Two requests of one token through two layers, under the defragging scheduler: two turns
    of the engine and the pseudo-layer for each, at 10 a turn. *)
Lemma closed_loop_completes_witness :
  let y := loop_after (LayerScheduler0 := defrag) (new_defragging 3 5) (loop_admission 0 5 99 1 ++ loop_admission 1 6 99 1) in
  net_work 2 2 y = 60 /\
  (finished y \/ exists y', rank_run (LayerScheduler0 := defrag) Z.add insertion_sort insertion_sort 0 0 (fun _ x => x) true 2 1 4 2 4 loop_dispatcher loop_peers 1 y y').
Proof.
  intros y. assert (Hwork : net_work 2 2 y = 60) by (vm_compute; reflexivity). split; [exact Hwork|].
  pose proof (loop_after_reachable (LayerScheduler0 := defrag) (new_defragging 3 5) (loop_admission 0 5 99 1 ++ loop_admission 1 6 99 1)) as Hre.
  specialize (Hre ltac:(vm_compute; reflexivity)). fold y in Hre.
  apply (closed_loop_completes (P := DPSchedulerCapRR) (LayerScheduler0 := defrag) Z.add insertion_sort insertion_sort 0 0 (fun _ x => x) true 2 1 4 demo_prompt 16 4 4 8 100
    [15; 15] [16; 16] (new_defragging 3 5) loop_dispatcher loop_peers loop_colo loop_place (LayerSchedulerLaws0 := defrag_laws) loop_configured y loop_defragging) with (n := 0%nat) (y' := y);
    [exact Hre| |apply run_none].
  intros n y' r nd Hrun Hn. change (Forall (fun t => t < 2 ^ 24) (get_pool_snapshot (node_pool nd))). apply Forall_fmap, Forall_forall. intros l Hl.
  pose proof (run_tokens (P := DPSchedulerCapRR) (LayerScheduler0 := defrag) Z.add insertion_sort insertion_sort 0 0 (fun _ x => x) true 2 1 4 demo_prompt 16 4 4 8 100
    [15; 15] [16; 16] (new_defragging 3 5) loop_dispatcher loop_peers loop_colo loop_place (LayerSchedulerLaws0 := defrag_laws) loop_configured y n y' r nd l loop_defragging Hre Hrun Hn Hl) as Hle.
  change (net_work _ _ y) with (net_work 2 2 y) in Hle. rewrite Hwork in Hle. cbn. lia.
Defined.

(** Both copies of request 5 are with experts, one of them on the other rank. *)
Lemma closed_loop_exact_witness :
  let y := loop_after () (loop_admission 0 5 99 1 ++ loop_round) in
  stages (loop_worker y 0) !! 5 = Some (Queued 1 99) /\
  num_of (1, (5, 99)) (mine 0 (all_away y)) + weight 2 1 * num_of (5, 99) (waiting_at (node_pool (loop_node () y 0)) 1) + gathered_at (node_pool (loop_node () y 0)) 1 (5, 99) = 2.
Proof.
  intros y. split; [vm_compute; reflexivity|].
  apply (closed_loop_exact (P := DPSchedulerCapRR) Z.add insertion_sort insertion_sort 0 0 (fun _ x => x) true 2 1 4 demo_prompt 16 4 4 8 100 [15; 15] [16; 16]
    () loop_dispatcher loop_peers loop_colo loop_place loop_configured y 0 (loop_worker y 0) (loop_node () y 0) 5 1 99 loop_unified).
  - apply loop_after_reachable. vm_compute. reflexivity.
  - vm_compute. reflexivity.
  - vm_compute. reflexivity.
  - vm_compute. reflexivity.
Defined.
End ClosedLoop.
